(* ===== verification/_CoqProject ===== *)
-Q . S2P
Prelude.v
RustStr.v
Json.v
Config.v
Errors.v
Deserialize.v
SqlHelpers.v
Interp.v
Holes.v
Select.v
SelectSpec.v
SelectSafety.v
Mutations.v
Statements.v
Pool.v
Sqlx.v
Paths.v
Storage.v
Responses.v
Images.v
MemoryStorage.v
Native.v
NativeSpec.v
S3.v
S3Spec.v
Http.v
Azure.v
AzureSpec.v
Gcs.v
GcsSpec.v
Migration.v
MigrationSpec.v
Roles.v
RolesSpec.v
Routing.v
Credentials.v
Accounts.v
Auth.v
AuthSpec.v
Stores.v
Revocation.v
RevocationSpec.v
Schemas.v
SchemasSpec.v
Crud.v
CrudSpec.v
Validation.v
ValidationSpec.v
Loader.v
LoaderSpec.v
DeserializeSpec.v
Server.v
ServerSpec.v
Handlers.v
FileStore.v
FileStoreSpec.v
Media.v
MediaSpec.v
RateLimit.v
RateLimitSpec.v
Directory.v
DirectorySpec.v
Serving.v
ServingSpec.v
StaticRoutes.v
StaticRoutesSpec.v
Spa.v
SpaSpec.v
Proxy.v
Router.v
RouterSpec.v
Pipeline.v
PipelineSpec.v
Oauth2.v
Startup.v
StartupSpec.v
Site.v
QueryTests.v
StorageTests.v
ServerTests.v
