(* ===== verification/Prelude.v ===== *)
(** * Verification of main-serve

    main-serve is a web server configured by one YAML file: it serves CRUD
    endpoints over SQL tables, static files, single-page applications, file
    catalogues, media libraries and proxied routes, from a disk or from cloud
    stores, with migrations, authentication, roles, rate limits and hot
    reload. This library models its core logic (the Rust sources under
    src/src/) as executable functions and proves what makes them correct. This
    file is the root: the documentation of the whole, and the prelude every
    other file requires.

    ** The program and the files that model it

    A configuration is loaded and validated, the server builds its state from
    it (pools, stores, endpoint map, role closure, schema registry, store of
    revoked tokens) and the routes of the router, and a request passes the rate
    limiter, authentication, the logging of bodies and their limit on its way
    to a handler, which runs SQL statements and reads and writes a store. A
    reload of the configuration swaps a part of the state; a signal ends the
    server.

    - [Prelude]: [result] (Rust's [Result], with [?] as a monadic bind),
      [try_fold] (a [for] loop that may return early), 64-bit arithmetic,
      shared lemmas and tactics ([inv_ok], [bool_simpl]).
    - [RustStr], [Json]: the standard library the sources use: [str] and
      [char] on bytes, decimal printing and parsing of machine integers,
      [serde_json::Value] and the parsing of binary64 floats.
    - [Config]: config/types/, every struct and enum field for field with its
      defaults; [Validation], [ValidationSpec]: config/validation/, every
      semantic check; [Loader], [LoaderSpec]: config/loader.rs, includes and
      environment variables; [Deserialize], [DeserializeSpec]: how serde's
      attributes in config/types/ turn the YAML of a file into the records,
      and the writing of columns.
    - [Errors]: error.rs and storage/error.rs, the error type, its HTTP
      response, and [outcome], a value or a panic.
    - [SqlHelpers], [Interp]: db/query/helpers/, filter keys, sort fields,
      the validation of SQL fragments, the interpolation of references and
      the coercion of request text.
    - [Holes]: a specification, not a model: which placeholders a SQL text
      holds.
    - [Select] (traits.rs, select.rs, builders/select_builder.rs, count.rs),
      [Mutations] (builders/insert, update, delete), [Statements] (the fixed
      statements); specified in [SelectSpec] and [SelectSafety].
    - [Paths]: handlers/common/path.rs and the part of [std::path] it uses.
    - [Storage]: the storage trait as a class [Storage] with the laws its
      clients rely on ([StorageLaws]); the backends: [MemoryStorage] (the
      in-memory one), [Native], [NativeSpec] (storage/backend/native.rs over
      the calls into a file system, a class), [S3], [S3Spec]
      (storage/backend/s3.rs over the operations of the S3 client), [Http]
      (what the other two use of the HTTP client), [Azure], [AzureSpec]
      (storage/backend/azure.rs) and [Gcs], [GcsSpec]
      (storage/backend/gcs.rs). The in-memory store keeps the laws, the disk
      does for a file system that behaves, and S3 does for a client that does
      not fail; the other two do not keep them. [Stores]: the choice of a
      backend from the configuration (storage/mod.rs) and the store of an
      endpoint (handlers/common/store.rs).
    - [Responses]: handlers/common/utils.rs, the headers of a response, and
      handlers/custom_response.rs; [Images]: handlers/common/resize.rs over a
      class [ImageCrate]; [Serving], [ServingSpec]: handlers/static_files/,
      reading and deleting; [Directory], [DirectorySpec]: its HTML listing of
      a directory (directory.rs); [StaticRoutes], [StaticRoutesSpec]: its
      routing and uploads (routing.rs, upload.rs); [Spa], [SpaSpec]:
      handlers/spa_host.rs. They are proved against the interfaces and
      instantiated with the in-memory, the disk and the S3 backend.
    - [Proxy]: handlers/proxy.rs.
    - [Pool]: the interface of a connection pool (a class), the pools of a
      configuration, the binding of parameters and the conversion of rows
      (db/pool.rs); [Sqlx]: the rest of db/pool.rs, an implementation of that
      interface over the library; [Migration], [MigrationSpec]:
      db/migration.rs over the interface.
    - [Roles], [RolesSpec]: the validation of the role hierarchy
      (config/validation/auth.rs), its closure (server/state.rs) and the role
      check of a request (middleware/auth/validate.rs).
    - [Routing]: the endpoint map of server/router.rs and the lookups of
      server/prefix_match.rs and server/state.rs.
    - [Credentials] (middleware/auth/validators/ and the revocation store of
      server/state.rs), [Accounts] (handlers/auth.rs), [Auth]
      (middleware/auth/, the OAuth2 state); specified in [AuthSpec].
      [Oauth2]: the callback of the OAuth2 code flow
      (middleware/auth/handler.rs, validators/oauth2.rs) and the life of a
      state over the events of the flow.
      [Revocation], [RevocationSpec]: both stores of revoked tokens, the one
      in the database refining the one in memory as far as its statements
      succeed, and the life of a revoked token.
    - [Schemas], [SchemasSpec]: config/schema_registry.rs and
      db/query/helpers/json_validation.rs.
    - [Crud], [CrudSpec]: handlers/crud.rs, the route of a CRUD endpoint
      (server/router.rs) and the database context (server/state.rs).
    - [Handlers]: handlers/common/helpers.rs, the context of a handler, and
      the actions ([eff]) the following handlers are written in, with the
      lemmas and tactics to run them ([run_step], [answered], [changed],
      [reads]).
    - [FileStore], [FileStoreSpec]: handlers/file_store/; [Media],
      [MediaSpec]: handlers/media/.
    - [Server], [ServerSpec]: the start of the server (server/state.rs,
      main.rs), its hot reload (server/reload.rs) and runs of requests, in
      which every reload finds files and an environment of its own
      ([surroundings]).
    - [RateLimit], [RateLimitSpec]: middleware/rate_limit.rs.
    - [Router], [RouterSpec]: the routes server/router.rs registers, with
      their CORS layers (middleware/cors.rs); [Pipeline], [PipelineSpec]: the
      layers around them (middleware/body_limit.rs, middleware/logging.rs, the
      end of [build_router]), as functions from services to services.
    - [Startup], [StartupSpec]: main.rs around the state, from the command
      line to the closing of the pools, and server/tls.rs.
    - [Site]: the routes of CRUD endpoints (server/router.rs)
      behind the layers, so that a theorem can follow a request from the
      network to the statement that runs.
    - [QueryTests] (db/query/), [StorageTests] (storage/) and [ServerTests]
      (config/, db/migration.rs, middleware/, server/state.rs): the unit tests
      of the sources, each a proposition about the model that holds by
      evaluation. They check the definitions against the outcomes the authors
      of the program wrote down.

    Definitions keep the names of the source. The doc comment of a definition
    that models code ends with the file and the symbol it models.

    ** How state and effects are modelled

    Fallible code returns [result]; code that can also panic returns
    [outcome] of it. A component with state takes the state and returns the
    new one: the maps of [MemoryStorage], the counters of [RateLimit], the
    pending states of [Auth], the revoked tokens of [Credentials], the
    database of [Pool], the state of [Server]. A file store or media handler is
    an action on the databases and the store its endpoint names; it answers,
    fails, or panics ([no_reply]). The cloud stores are actions on the world
    outside, which their client changes. A layer of the pipeline is a function
    on services; services are compared up to the representation of bodies
    ([same_service], a partial equivalence). One call is one step: the lock a call takes
    makes it atomic, and interleavings are sequences of calls ([RateLimitSpec],
    [RevocationSpec], [Oauth2], [ServerSpec] and [StartupSpec] quantify over
    such sequences). An instant is an
    argument.

    A [HashMap] is a [gmap]; where the order in which it is iterated can be
    observed, the order is an argument [iter], and a theorem either holds for
    every order or names what depends on it. A JSON object is the list of its
    entries. Integers are [Z], with the wrap-around of the release profile
    written out ([u64_wrap], [i64_wrap]) or the saturation the code asks for;
    slices out of bounds and overflowing [Duration]s panic.

    Simplifications: a reload is one step, since the handler works on a clone
    of the state; the closing of the pools at the end takes no time; the pools that were made before one of them fails are
    dropped without being closed; stores of different names are distinct; the
    number of pages of a list is exact below 2^53 rows; dates outside the
    range of the calendar library do not panic.

    ** Parameters

    What is not under src/ is a parameter of the definitions that use it, with
    the documented behaviour a theorem needs as a hypothesis: Unicode's
    alphanumeric and word characters, the printing of floats and of JSON,
    percent decoding, parsers of the identity provider's and the token's JSON
    and of YAML, the format of its values ([format], whose laws are
    [FormatLaws]; [yaml_format] is an instance), the JSON Schema compiler, the environment and the files a
    configuration is loaded from, password hashes, token signing, random
    identifiers, the clock, the codec of images, SQL databases and the library
    that speaks to them ([Sqlx]), the calls into a file system
    ([FileSystem]), the S3 client ([S3Client]), the HTTP client ([HttpClient]),
    the client of the proxy, hashing, percent encoding and the parsers of the
    cloud services' XML and JSON, the bodies of the server's library
    ([HttpBody]), the CORS library, the TLS library, the parser of the command line, the
    runtime, and the connections and signals that reach the server. A form is the
    list of the fields the server's library delivers. The witness of a theorem
    with such hypotheses instantiates them with concrete functions.

    ** Fuel

    The recursions of the sources that are not structural run on fuel, [None]
    standing for running out of it: the depth-first search of
    [Roles.validate_role_hierarchy] (fuel: the number of roles the hierarchy
    mentions, enough because the path of the search repeats no role), the work
    list of [Roles.compute_role_inheritance] (fuel: the length of the first
    list plus that of all lists of parents, enough because a role is expanded
    once; [RolesSpec] proves that neither runs out), and the includes of
    [Loader.load_config] (fuel: one more than the number of files, enough
    because a file is loaded once; [LoaderSpec] proves it). The main loop of
    the topological sort takes the number of tables as fuel, each table being
    dequeued at most once; the loop that trims a repeated suffix takes the
    length of the text. The wait of [Startup.drain] takes the number of
    connections, each round joining one ([StartupSpec] proves the outcome).
    The loop of [Azure.azure_remove_dir_all] goes on while the service lists
    subdirectories; its fuel is an argument, and one round is enough for a
    service that answers as documented
    ([azure_remove_dir_all_keeps_subdirectories]).

    ** What the theorems show

    - Text to data: [parse_filter_key_spec], [parse_print_filter_key],
      [interpolate_where_clause_spec], [interpolate_value_is_substitution] and
      [interpolate_env_vars_spec] give the parsers and the interpolations
      exactly, errors included.
    - Configuration: each section of a file is read from its own entry, with
      its documented default when that is missing ([root_reads_sections]);
      integers are in the range of their types ([loaded_config_in_range]);
      columns survive being written and read ([column_round_trip]); keys that
      do not do what they are documented to ([left_out_scopes_are_none],
      [left_out_key_admits_empty_header], [bcrypt_is_refused],
      [null_roles_are_refused]);
      loading ends ([load_config_ends]); what the validation
      accepts is well formed ([validate_config_accepts_well_formed]) and what
      it lets through all the same ([accepted_crud_endpoint]); the registry of
      schemas ([schema_registry_spec]).
    - Queries: the placeholders of a list query are exactly its parameters
      ([select_list_placeholders]); the count query selects what the list
      query pages through ([count_query_matches_list]); filter values never
      reach the SQL text ([filter_values_do_not_reach_sql]) while filter keys
      can ([filter_key_reaches_sql]); [pagination_bounds] and
      [far_page_repeats_first_page] bound the page; [build_insert_spec],
      [build_update_assigns_writable] and [update_placeholders] say which
      columns a body can write and how the references are numbered.
    - CRUD endpoints: a request changes the database only by the one
      statement of its endpoint ([crud_runs_its_statement]); an ownership
      clause binds every UPDATE and DELETE ([owner_scoped_mutation]), from
      the network to the database, to the subject of an accepted token
      ([rows_change_for_their_owner]), while the general where clause guards reads only
      ([where_clause_guards_reads_only]); the pages of a list cover its rows
      ([list_pages_cover_total]).
    - Errors: [internal_errors_do_not_leak].
    - Paths and stores: [relative_path_stays_below_root] and the two ways
      around the checks ([absolute_user_id_escapes_root],
      [sanitize_filename_makes_parent_reference]); the in-memory store as a
      tree ([memory_tree_removal], [memory_remove_dir_empty_only],
      [memory_rename_strands_children]).
    - Static files and images: both range handlers agree with each other
      ([range_requests_agree]) but for reversed ranges
      ([reversed_range_panics]); streaming is invisible to the client
      ([streaming_is_transparent]); HEAD answers like GET
      ([head_is_get_without_body]); where an upload goes
      ([static_upload_spec]); names in a listing add no markup
      ([listing_names_add_no_markup]); which dimensions are limited
      ([dimension_limit]); a relative root serves nothing
      ([relative_root_serves_nothing]).
    - Backends: S3 as a store of objects ([s3_files_refine_objects]) with
      partial removals ([s3_remove_dir_removes_nothing],
      [s3_remove_dir_all_one_page]); Azure's signature ([signature_is_hmac]),
      its writes ([azure_write_outcome]) and copies
      ([azure_copy_ignores_content]); Google's tokens ([gcs_token_lifetime])
      and listings ([gcs_list_names_directory]); listings of a disk
      ([native_list_stops_at_unreadable]).
    - Applications and proxies: what a GET is answered with ([spa_get_spec])
      and how to leave the root ([spa_encoded_slash_escapes_root],
      [spa_head_is_unchecked]); stale answers ([spa_etag_ignores_content]);
      what is forwarded ([proxy_forwards]) and to whom
      ([proxy_url_authority]).
    - Routes and layers: a listed method finds its endpoint
      ([routes_find_their_endpoint]), but a HEAD request on the route of a
      GET finds none ([head_of_get_route_finds_none]); CORS settings that crash
      ([accepted_cors_can_panic]); handlers run behind all guards
      ([handlers_run_guarded]); logging is transparent
      ([logging_is_transparent]) but for broken bodies
      ([logging_hides_broken_body]); limits that are ignored
      ([plain_limits_have_no_effect]).
    - File stores: a change of a catalogue was permitted
      ([file_store_changes_are_permitted]), deleting and restoring gives the
      file back ([trash_round_trip]), reads check less
      ([file_store_reads_unchecked]), and the path of an entry is not confined
      ([entry_path_escapes_store]).
    - Media: where an upload and a move put a file ([media_upload_spec],
      [media_move_spec]), whose trash a file is in
      ([media_trash_follows_user]), and what does not work
      ([media_actions_ignore_item], [media_metadata_never_written],
      [share_token_escapes_store]).
    - Roles: exactly the acyclic hierarchies are accepted
      ([validate_role_hierarchy_spec]); a role check grants access by
      reachability ([check_roles_spec]).
    - Authentication: [jwt_endpoint_requires_token],
      [created_token_validates], [revoked_token_is_refused],
      [revocation_store_refines], [oauth2_state_single_use],
      [oauth2_login_authenticates]; and what goes
      wrong ([revocation_without_store], [overlapping_patterns_decide_auth],
      [registration_grants_requested_role]).
    - The server: what a run of the program does, and in which order it
      fails ([program_run], [address_is_checked_last]); an invariant of its state over starts and reloads
      ([running_server_state]), the answers of a reload ([reload_answers]) and
      what it does to revocations ([reload_reopens_revoked_tokens]); its end
      ([shutdown_takes_five_seconds]) and the connections until then
      ([ended_connections_are_kept]).
    - Migrations: tables are created after the tables they refer to, and the
      sort fails exactly on cycles ([sort_tables_spec]); an existing table
      loses columns only when that is allowed ([existing_table_plan]).
    - Rate limiting: [at_most_two_windows], [retry_after_is_truthful],
      [shorter_window_resets_count].

    ** What is not modelled

    The libraries the sources call: the axum router's dispatch and its
    extractors, the layers of tower (compression, tracing, request
    identifiers), sqlx, the operating system, the network and TLS, the image
    library, the parsing of the command line, the text and the aliases of YAML
    and the delivery of signals; the interleaving of two requests inside one
    call; the log; [Debug] texts, apart from those an answer shows and those
    written by hand to hide secrets. Of the unit tests, those of a library
    (password hashing, the keywords of JSON Schema other than [type] and
    [required], a token without signature) and of a real directory's size are
    left out. *)

From Stdlib Require Export Ascii.
From stdpp Require Export base list strings gmap pretty option.
From Stdlib Require Export ZArith Lia.

(** ** Scope and notations of the development *)

Declare Scope serve_scope.
Delimit Scope serve_scope with serve.

(** ** Results

    Rust's [Result<A, E>]. The [?] operator is the bind of the monad below;
    [map_err] and [ok_or] are the library's own combinators. *)

Inductive result (E A : Type) : Type :=
| Ok (a : A)
| Err (e : E).
Arguments Ok {E A} a.
Arguments Err {E A} e.

Global Instance result_ret {E} : MRet (result E) := λ A a, Ok a.
Global Instance result_bind {E} : MBind (result E) := λ A B f m,
  match m with Ok a => f a | Err e => Err e end.
Global Instance result_map {E} : FMap (result E) := λ A B f m,
  match m with Ok a => Ok (f a) | Err e => Err e end.

Definition ok_or {E A} (e : E) (o : option A) : result E A :=
  match o with Some a => Ok a | None => Err e end.
Definition map_err {E F A} (f : E → F) (m : result E A) : result F A :=
  match m with Ok a => Ok a | Err e => Err (f e) end.
Definition ok {E A} (m : result E A) : option A :=
  match m with Ok a => Some a | Err _ => None end.
Definition is_ok {E A} (m : result E A) : bool :=
  match m with Ok _ => true | Err _ => false end.
Definition is_err {E A} (m : result E A) : bool := negb (is_ok m).

Global Instance result_eq_dec {E A} `{EqDecision E, EqDecision A} :
  EqDecision (result E A).
Proof. solve_decision. Defined.

(** A [for] loop over a slice whose body may return early with an error:
    [try_fold f s xs] threads the state [s] and stops at the first [Err]. *)
Fixpoint try_fold {E S A} (f : S → A → result E S) (s : S) (xs : list A)
  : result E S :=
  match xs with
  | [] => Ok s
  | x :: xs' => match f s x with Ok s' => try_fold f s' xs' | Err e => Err e end
  end.

Lemma Ok_inj {E A} (a b : A) : @Ok E A a = Ok b → a = b.
Proof. by intros [= ->]. Qed.

Section results.
Context {E A B : Type}.

Lemma bind_Ok (m : result E A) (f : A → result E B) b :
  m ≫= f = Ok b ↔ ∃ a, m = Ok a ∧ f a = Ok b.
Proof. destruct m; split; naive_solver. Qed.

Lemma bind_Err (m : result E A) (f : A → result E B) e :
  m ≫= f = Err e ↔ m = Err e ∨ ∃ a, m = Ok a ∧ f a = Err e.
Proof. destruct m; split; naive_solver. Qed.

Lemma fmap_Ok (m : result E A) (f : A → B) b :
  f <$> m = Ok b ↔ ∃ a, m = Ok a ∧ b = f a.
Proof. destruct m; split; naive_solver. Qed.

Lemma ok_or_Ok (e : E) (o : option A) a : ok_or e o = Ok a ↔ o = Some a.
Proof. destruct o; split; naive_solver. Qed.

Lemma ok_or_Err (e e' : E) (o : option A) :
  ok_or e o = Err e' ↔ o = None ∧ e' = e.
Proof. destruct o; split; naive_solver. Qed.

Lemma is_ok_true (m : result E A) : is_ok m = true ↔ ∃ a, m = Ok a.
Proof. destruct m; split; naive_solver. Qed.
End results.

Lemma map_err_Ok {E F A} (f : E → F) (m : result E A) a :
  map_err f m = Ok a ↔ m = Ok a.
Proof. destruct m; split; naive_solver. Qed.

(** An invariant of the loop body is an invariant of the loop. *)
Lemma try_fold_inv {E S A} (P : S → Prop) (f : S → A → result E S) s xs s' :
  (∀ s x s', x ∈ xs → P s → f s x = Ok s' → P s') →
  P s → try_fold f s xs = Ok s' → P s'.
Proof.
  revert s. induction xs as [|x xs IH]; intros s Hf Hs Hr; simpl in *.
  { by simplify_eq. }
  destruct (f s x) as [s1|] eqn:Hx; [|done].
  eapply IH; [|by eapply Hf; [left| |]|done].
  intros ????. apply Hf. by right.
Qed.

(** A loop whose body does nothing. *)
Lemma try_fold_skip {E S A} (f : S → A → result E S) s xs :
  (∀ x, x ∈ xs → f s x = Ok s) → try_fold f s xs = Ok s.
Proof.
  induction xs as [|x xs IH]; intros Hf; cbn; [done|]. rewrite Hf by left. apply IH. intros. apply Hf. by right.
Qed.

(** The loop fails exactly at the first element whose body fails. *)
Lemma try_fold_app {E S A} (f : S → A → result E S) s xs ys :
  try_fold f s (xs ++ ys) = s' ← try_fold f s xs; try_fold f s' ys.
Proof.
  revert s. induction xs as [|x xs IH]; intros s; simpl; [done|].
  destruct (f s x); simpl; [apply IH|done].
Qed.

(** ** Effects

    An operation on a state that can fail returns the new state next to its
    result, so that what it did before it failed is kept. *)

Definition and_then {E S A B} (m : S * result E A) (f : A → S → S * result E B) : S * result E B :=
  match m with (s, Ok a) => f a s | (s, Err e) => (s, Err e) end.

(** The same as a monad: [m] then [f] of its value. Results and reads of the
    state are actions without effects. *)
Definition action (E S A : Type) : Type := S → S * result E A.

Global Instance action_ret {E S} : MRet (action E S) := λ A a s, (s, Ok a).
Global Instance action_bind {E S} : MBind (action E S) := λ A B f m s, and_then (m s) f.

Definition lift {E S A} (r : result E A) : action E S A := λ s, (s, r).
Definition read {E S A} (f : S → result E A) : action E S A := λ s, (s, f s).

(** A [for] loop over a slice whose body has effects and may return early. *)
Fixpoint for_each {E S A} (f : A → S → S * result E ()) (xs : list A) (s : S) : S * result E () :=
  match xs with
  | [] => (s, Ok tt)
  | x :: xs' => and_then (f x s) (λ _, for_each f xs')
  end.

Lemma for_each_app {E S A} (f : A → S → S * result E ()) xs ys s :
  for_each f (xs ++ ys) s = and_then (for_each f xs s) (λ _, for_each f ys).
Proof.
  revert s. induction xs as [|x xs IH]; intros s; cbn; [done|].
  destruct (f x s) as [s' [[]|e]]; cbn; [apply IH|done].
Qed.

Lemma for_each_ext {E S A} (f g : A → S → S * result E ()) xs s :
  (∀ x s, f x s = g x s) → for_each f xs s = for_each g xs s.
Proof.
  intros Hfg. revert s. induction xs as [|x xs IH]; intros s; cbn; [done|]. rewrite Hfg.
  destruct (g x s) as [s' [[]|e]]; cbn; auto.
Qed.

(** An invariant that every round keeps, also one that fails, is kept. *)
Lemma for_each_inv {E S A} (P : S → Prop) (f : A → S → S * result E ()) xs s :
  (∀ x s, x ∈ xs → P s → P (f x s).1) → P s → P (for_each f xs s).1.
Proof.
  revert s. induction xs as [|x xs IH]; intros s Hf Hs; cbn; [done|].
  pose proof (Hf x s (list_elem_of_here _ _) Hs) as Hx.
  destruct (f x s) as [s' [[]|e]]; cbn in *; [|done].
  apply IH; [|done]. intros ????. apply Hf; [by right|done].
Qed.

(** ** Traces

    The runs of a step relation whose steps are labelled with events. *)

Inductive steps {S E : Type} (step : S → E → S → Prop) : S → list E → S → Prop :=
| steps_nil s : steps step s [] s
| steps_cons s e s1 es s2 : step s e s1 → steps step s1 es s2 → steps step s (e :: es) s2.

Section traces.
Context {S T E : Type}.

(** A forward simulation carries over from steps to runs. *)
Lemma steps_simulation (R : S → T → Prop) (step : S → E → S → Prop) (step' : T → E → T → Prop) :
  (∀ s e s1 t, step s e s1 → R s t → ∃ t1, step' t e t1 ∧ R s1 t1) →
  ∀ s es s1 t, steps step s es s1 → R s t → ∃ t1, steps step' t es t1 ∧ R s1 t1.
Proof.
  intros Hsim s es s1 t Hs. revert t. induction Hs as [s|s e s1 es s2 Hstep _ IH]; intros t HR.
  { exists t. split; [constructor|done]. }
  destruct (Hsim _ _ _ _ Hstep HR) as (t1&Ht1&HR1). destruct (IH _ HR1) as (t2&Ht2&HR2).
  exists t2. split; [by econstructor|done].
Qed.

(** An invariant of the steps is an invariant of the runs. *)
Lemma steps_invariant (P : S → Prop) (ok : E → Prop) (step : S → E → S → Prop) :
  (∀ s e s1, step s e s1 → ok e → P s → P s1) →
  ∀ s es s1, steps step s es s1 → Forall ok es → P s → P s1.
Proof.
  intros Hinv s es s1 Hs. induction Hs as [s|s e s1 es s2 Hstep _ IH]; [done|].
  intros Hok Hs0. inversion Hok; subst. eauto.
Qed.

Lemma steps_app (step : S → E → S → Prop) s es es' s2 :
  steps step s (es ++ es') s2 ↔ ∃ s1, steps step s es s1 ∧ steps step s1 es' s2.
Proof.
  split.
  - revert s. induction es as [|e es IH]; intros s H; [exists s; split; [constructor|done]|].
    inversion H as [|? ? s1 ? ? Hs Hr]; subst. apply IH in Hr as (s3&?&?).
    exists s3. split; [by econstructor|done].
  - intros (s1&H1&H2). induction H1; [done|]. econstructor; eauto.
Qed.
End traces.

(** ** Machine integers *)

Definition u64_modulus : Z := 18446744073709551616.
Definition u64_max : Z := 18446744073709551615.
Definition i64_max : Z := 9223372036854775807.
Definition i64_min : Z := -9223372036854775808.
Definition u64 (z : Z) : Prop := (0 ≤ z ≤ u64_max)%Z.

(** Arithmetic of the release profile: results are reduced modulo 2^64. *)
Definition u64_wrap (z : Z) : Z := z mod u64_modulus.
Definition i64_wrap (z : Z) : Z := (z + 2 ^ 63) mod u64_modulus - 2 ^ 63.
Definition u64_sub_sat (a b : Z) : Z := Z.max 0 (a - b).
Definition u64_add_sat (a b : Z) : Z := Z.min u64_max (a + b).

Lemma u64_wrap_small z : u64 z → u64_wrap z = z.
Proof. unfold u64, u64_wrap, u64_max, u64_modulus. intros. apply Z.mod_small. lia. Qed.

Lemma u64_wrap_range z : u64 (u64_wrap z).
Proof.
  unfold u64, u64_wrap, u64_max, u64_modulus.
  pose proof (Z.mod_pos_bound z 18446744073709551616). lia.
Qed.

(** ** Booleans, lists and options *)

Create HintDb serve.
Create HintDb serve_bool.

#[export] Hint Rewrite andb_true_iff orb_true_iff negb_true_iff
  andb_false_iff orb_false_iff negb_false_iff : serve_bool.

(** Turn boolean equations into propositions. *)
Ltac bool_simpl := autorewrite with serve_bool in *.

(** Case analysis of a successful [Result] pipeline. *)
Ltac inv_ok :=
  repeat match goal with
  | H : _ ≫= _ = Ok _ |- _ => apply bind_Ok in H as (?&?&?)
  | H : _ <$> _ = Ok _ |- _ => apply fmap_Ok in H as (?&?&?)
  | H : ok_or _ _ = Ok _ |- _ => apply ok_or_Ok in H
  | H : map_err _ _ = Ok _ |- _ => apply map_err_Ok in H
  | H : Ok _ = Ok _ |- _ => injection H as H
  | H : Err _ = Ok _ |- _ => discriminate H
  | H : Ok _ = Err _ |- _ => discriminate H
  end; subst.

(** stdpp's lemma of this name, next to the Standard Library's. *)
Definition Forall_elem {A} := @list.Forall_forall A.

Lemma existsb_elem {A} (f : A → bool) (l : list A) :
  existsb f l = true ↔ ∃ x, x ∈ l ∧ f x = true.
Proof.
  rewrite existsb_exists. setoid_rewrite <-list_elem_of_In. done.
Qed.

Lemma existsb_elem_false {A} (f : A → bool) (l : list A) :
  existsb f l = false ↔ ∀ x, x ∈ l → f x = false.
Proof.
  rewrite <-not_true_iff_false, existsb_elem. split.
  - intros Hn x Hx. apply not_true_is_false. intros ?. apply Hn. eauto.
  - intros Hf (x&Hx&Ht). rewrite Hf in Ht; done.
Qed.

Lemma forallb_elem {A} (f : A → bool) (l : list A) :
  forallb f l = true ↔ ∀ x, x ∈ l → f x = true.
Proof. rewrite forallb_forall. setoid_rewrite <-list_elem_of_In. done. Qed.

(** [slice.iter().find(p)] *)
Fixpoint find_first {A} (p : A → bool) (l : list A) : option A :=
  match l with
  | [] => None
  | x :: l' => if p x then Some x else find_first p l'
  end.

Lemma find_first_Some {A} (p : A → bool) l x :
  find_first p l = Some x ↔
  ∃ l1 l2, l = l1 ++ x :: l2 ∧ p x = true ∧ ∀ y, y ∈ l1 → p y = false.
Proof.
  induction l as [|y l IH]; simpl.
  { split; [done|]. intros ([]&?&?&_); done. }
  destruct (p y) eqn:Hy.
  - split.
    + intros [= ->]. exists [], l. split_and!; [done..|]. set_solver.
    + intros (l1&l2&Heq&Hx&Hl1). destruct l1 as [|z l1]; simplify_eq/=; [done|].
      rewrite (Hl1 z) in Hy; [done|set_solver].
  - rewrite IH. split.
    + intros (l1&l2&->&?&Hl1). exists (y :: l1), l2. split_and!; [done..|].
      intros z [->|?]%elem_of_cons; auto.
    + intros (l1&l2&Heq&?&Hl1). destruct l1 as [|z l1]; simplify_eq/=; [congruence|].
      exists l1, l2. split_and!; [done..|]. intros w ?. apply Hl1. set_solver.
Qed.

Lemma find_first_elem {A} (p : A → bool) l x :
  find_first p l = Some x → x ∈ l ∧ p x = true.
Proof. intros (l1&l2&->&?&_)%find_first_Some. set_solver. Qed.

Lemma find_first_None {A} (p : A → bool) l :
  find_first p l = None ↔ ∀ x, x ∈ l → p x = false.
Proof.
  induction l as [|y l IH]; simpl; [set_solver|].
  destruct (p y) eqn:Hy.
  - split; [done|]. intros Hall. rewrite Hall in Hy; [done|set_solver].
  - rewrite IH. set_solver.
Qed.

Lemma find_first_is_Some {A} (p : A → bool) l :
  is_Some (find_first p l) ↔ ∃ x, x ∈ l ∧ p x = true.
Proof.
  induction l as [|y l IH]; simpl.
  { split; [by intros [? ?]|set_solver]. }
  destruct (p y) eqn:Hy.
  - split; [|eauto]. intros _. exists y. set_solver.
  - rewrite IH. split; [set_solver|].
    intros (x&[->|?]%elem_of_cons&Hx); [congruence|eauto].
Qed.
