(* ===== verification/RustStr.v ===== *)
(** * Rust strings

    The operations of [str], [String] and [char] that the sources use, on
    byte strings (a Rust string is its UTF-8 bytes). Every delimiter the
    sources search for is ASCII, so searching bytes and searching scalar
    values agree; the two places that look at whole scalar values
    ([char::is_alphanumeric]) go through [chars]. *)

From S2P Require Import Prelude.
Local Open Scope stdpp_scope.

Notation "s1 +:+ s2" := (String.append s1 s2) (at level 60, right associativity) : stdpp_scope.

(** [format!("{n}")] for unsigned numbers. *)
Definition show (n : N) : string := pretty n.
Definition show_nat (n : nat) : string := pretty (N.of_nat n).
Definition show_Z (z : Z) : string := pretty z.

(** ** Appending *)

Lemma app_cons c s t : String c s +:+ t = String c (s +:+ t).
Proof. done. Qed.
Lemma app_nil_l s : "" +:+ s = s.
Proof. done. Qed.
Lemma app_nil_r s : s +:+ "" = s.
Proof. induction s as [|c s IH]; [done|]. by rewrite app_cons, IH. Qed.
Lemma app_assoc s t u : (s +:+ t) +:+ u = s +:+ (t +:+ u).
Proof. induction s as [|c s IH]; [done|]. by rewrite !app_cons, IH. Qed.
Lemma app_eq_nil s t : s +:+ t = "" ↔ s = "" ∧ t = "".
Proof. destruct s; [naive_solver|]. rewrite app_cons. naive_solver. Qed.
Lemma app_String_ne_nil s c t : "" ≠ s +:+ String c t.
Proof. by destruct s. Qed.
Lemma app_inj_l s t u : s +:+ t = s +:+ u → t = u.
Proof. intros H. by apply (inj (String.append s)). Qed.
Lemma str_length_app s t : String.length (s +:+ t) = String.length s + String.length t.
Proof. induction s as [|c s IH]; [done|]. rewrite app_cons. simpl. lia. Qed.

#[export] Hint Rewrite app_nil_l app_nil_r app_assoc : serve_str.

(** [slice.join(sep)] *)
Definition join (sep : string) (l : list string) : string := String.concat sep l.

Lemma join_cons2 sep x y l : join sep (x :: y :: l) = x +:+ sep +:+ join sep (y :: l).
Proof. done. Qed.
Lemma join_single sep x : join sep [x] = x.
Proof. done. Qed.
Lemma join_nil_sep_cons x l : join "" (x :: l) = x +:+ join "" l.
Proof. destruct l as [|y l]; [by rewrite app_nil_r|]. by rewrite join_cons2. Qed.
Lemma join_nil_sep_app l1 l2 : join "" (l1 ++ l2) = join "" l1 +:+ join "" l2.
Proof.
  induction l1 as [|x l1 IH]; [done|].
  by rewrite <-app_comm_cons, !join_nil_sep_cons, IH, app_assoc.
Qed.

(** ** Searching *)

Fixpoint contains_char (c : ascii) (s : string) : bool :=
  match s with
  | "" => false
  | String a s' => Ascii.eqb a c || contains_char c s'
  end.

Fixpoint strip_prefix (p s : string) : option string :=
  match p, s with
  | "", _ => Some s
  | String a p', String b s' => if Ascii.eqb a b then strip_prefix p' s' else None
  | String _ _, "" => None
  end.

Definition starts_with (p s : string) : bool :=
  match strip_prefix p s with Some _ => true | None => false end.

(** [s.find(p)] as the text before and after the first occurrence of [p]. *)
Fixpoint split_once_str (p s : string) : option (string * string) :=
  match strip_prefix p s with
  | Some r => Some ("", r)
  | None =>
      match s with
      | "" => None
      | String c s' =>
          match split_once_str p s' with
          | Some (b, r) => Some (String c b, r)
          | None => None
          end
      end
  end.

Definition contains_str (p s : string) : bool :=
  match split_once_str p s with Some _ => true | None => false end.

(** [s.split_once(c)] *)
Fixpoint split_once (c : ascii) (s : string) : option (string * string) :=
  match s with
  | "" => None
  | String a s' =>
      if Ascii.eqb a c then Some ("", s')
      else match split_once c s' with
           | Some (b, r) => Some (String a b, r)
           | None => None
           end
  end.

(** [s.rfind(c)] as the text before and after the last occurrence. *)
Fixpoint rsplit_once (c : ascii) (s : string) : option (string * string) :=
  match s with
  | "" => None
  | String a s' =>
      match rsplit_once c s' with
      | Some (b, r) => Some (String a b, r)
      | None => if Ascii.eqb a c then Some ("", s') else None
      end
  end.

(** [s.split(p)] for a predicate on characters, and for one character. *)
Fixpoint split_pred (p : ascii → bool) (s : string) : list string :=
  match s with
  | "" => [""]
  | String a s' =>
      if p a then "" :: split_pred p s'
      else match split_pred p s' with
           | [] => [String a ""]
           | h :: t => String a h :: t
           end
  end.
Definition split (c : ascii) (s : string) : list string := split_pred (λ a, Ascii.eqb a c) s.

(** [s.trim_end_matches(c)], [s.trim_start_matches(c)] *)
Fixpoint trim_end (c : ascii) (s : string) : string :=
  match s with
  | "" => ""
  | String a s' =>
      match trim_end c s' with
      | "" => if Ascii.eqb a c then "" else String a ""
      | t => String a t
      end
  end.
Fixpoint trim_start (c : ascii) (s : string) : string :=
  match s with
  | "" => ""
  | String a s' => if Ascii.eqb a c then trim_start c s' else s
  end.

(** [s.trim_end_matches(p)] for a non-empty string pattern: each round drops
    at least one byte, so the length is fuel enough. *)
Definition strip_suffix (p s : string) : option string :=
  match strip_prefix (String.rev p) (String.rev s) with
  | Some r => Some (String.rev r)
  | None => None
  end.
Fixpoint trim_end_str_go (fuel : nat) (p s : string) : string :=
  match fuel with
  | O => s
  | S n => match strip_suffix p s with Some r => trim_end_str_go n p r | None => s end
  end.
Definition trim_end_str (p s : string) : string := trim_end_str_go (String.length s) p s.

(** [s.replace(p, r)] for a non-empty pattern: non-overlapping, left to
    right. [skip] counts the bytes of the current match still to drop. *)
Fixpoint replace_go (p r : string) (skip : nat) (s : string) : string :=
  match s with
  | "" => ""
  | String a s' =>
      match skip with
      | S k => replace_go p r k s'
      | 0 => match strip_prefix p s with
             | Some _ => r +:+ replace_go p r (String.length p - 1) s'
             | None => String a (replace_go p r 0 s')
             end
      end
  end.
Definition replace (p r s : string) : string := replace_go p r 0 s.

Fixpoint all_ascii (p : ascii → bool) (s : string) : bool :=
  match s with "" => true | String a s' => p a && all_ascii p s' end.

Fixpoint count_ascii (p : ascii → bool) (s : string) : nat :=
  match s with "" => 0 | String a s' => (if p a then 1 else 0) + count_ascii p s' end.

Definition is_empty (s : string) : bool := match s with "" => true | _ => false end.

(** ASCII classes *)
Definition is_digit (a : ascii) : bool := (48 <=? N_of_ascii a)%N && (N_of_ascii a <=? 57)%N.
Definition is_lower (a : ascii) : bool := (97 <=? N_of_ascii a)%N && (N_of_ascii a <=? 122)%N.
Definition is_upper (a : ascii) : bool := (65 <=? N_of_ascii a)%N && (N_of_ascii a <=? 90)%N.
Definition is_alnum_ascii (a : ascii) : bool := is_digit a || is_lower a || is_upper a.
Definition lower_ascii (a : ascii) : ascii :=
  if is_upper a then ascii_of_N (N_of_ascii a + 32) else a.
Fixpoint to_lower (s : string) : string :=
  match s with "" => "" | String a s' => String (lower_ascii a) (to_lower s') end.

(** ** Scalar values

    [chars s] cuts a UTF-8 string into its scalar values, each as its bytes:
    a continuation byte (128 to 191) belongs to the scalar the byte before it
    is part of. *)
Definition is_ascii (a : ascii) : bool := (N_of_ascii a <? 128)%N.
Definition is_cont (a : ascii) : bool :=
  (128 <=? N_of_ascii a)%N && (N_of_ascii a <=? 191)%N.

Fixpoint chars (s : string) : list string :=
  match s with
  | "" => []
  | String a s' =>
      match chars s' with
      | String b t :: r =>
          if negb (is_ascii a) && is_cont b then String a (String b t) :: r
          else String a "" :: String b t :: r
      | cs => String a "" :: cs
      end
  end.

(** [char::is_whitespace]: the ASCII blanks and the Unicode [White_Space]
    scalars, as UTF-8 bytes. *)
Definition byte (n : N) : string := String (ascii_of_N n) "".
Definition unicode_spaces : list string :=
  [byte 194 +:+ byte 133; byte 194 +:+ byte 160;
   byte 225 +:+ byte 154 +:+ byte 128] ++
  map (λ n, byte 226 +:+ byte 128 +:+ byte n)
    [128; 129; 130; 131; 132; 133; 134; 135; 136; 137; 138; 168; 169; 175]%N ++
  [byte 226 +:+ byte 129 +:+ byte 159; byte 227 +:+ byte 128 +:+ byte 128].
Definition is_whitespace (c : string) : bool :=
  match c with
  | String a "" => (N_of_ascii a =? 32)%N || ((9 <=? N_of_ascii a)%N && (N_of_ascii a <=? 13)%N)
  | _ => bool_decide (c ∈ unicode_spaces)
  end.

Fixpoint drop_while {A} (p : A → bool) (l : list A) : list A :=
  match l with [] => [] | x :: l' => if p x then drop_while p l' else l end.

(** [s.trim()] *)
Definition trim (s : string) : string :=
  join "" (rev (drop_while is_whitespace (rev (drop_while is_whitespace (chars s))))).

(** ** Parsing integers: [str::parse::<u64>], [parse::<usize>], [parse::<i64>] *)

Fixpoint digits_value (acc : Z) (s : string) : option Z :=
  match s with
  | "" => Some acc
  | String a s' =>
      if is_digit a then digits_value (acc * 10 + (Z.of_N (N_of_ascii a) - 48))%Z s' else None
  end.
Definition parse_digits (s : string) : option Z :=
  if is_empty s then None else digits_value 0 s.

Definition parse_u64 (s : string) : option Z :=
  let body := match s with String "+" s' => s' | _ => s end in
  match parse_digits body with
  | Some z => if (z <=? u64_max)%Z then Some z else None
  | None => None
  end.

Definition parse_i64 (s : string) : option Z :=
  let '(neg, body) :=
    match s with
    | String "+" s' => (false, s') | String "-" s' => (true, s') | _ => (false, s)
    end in
  match parse_digits body with
  | Some z => let v := if neg : bool then (- z)%Z else z in
              if ((i64_min <=? v) && (v <=? i64_max))%Z then Some v else None
  | None => None
  end.

Definition parse_bool (s : string) : option bool :=
  if decide (s = "true") then Some true
  else if decide (s = "false") then Some false else None.

(** ** Lemmas *)

Lemma contains_char_app c s t :
  contains_char c (s +:+ t) = contains_char c s || contains_char c t.
Proof.
  induction s as [|a s IH]; [done|]. rewrite app_cons. simpl. by rewrite IH, orb_assoc.
Qed.

Lemma strip_prefix_Some p s r : strip_prefix p s = Some r ↔ s = p +:+ r.
Proof.
  revert s. induction p as [|a p IH]; intros s; simpl.
  { rewrite app_nil_l. naive_solver. }
  destruct s as [|b s]; [done|]. rewrite app_cons.
  destruct (Ascii.eqb_spec a b) as [->|]; [rewrite IH|]; naive_solver.
Qed.

Lemma strip_prefix_app p r : strip_prefix p (p +:+ r) = Some r.
Proof. by apply strip_prefix_Some. Qed.

Lemma starts_with_true p s : starts_with p s = true ↔ ∃ r, s = p +:+ r.
Proof.
  unfold starts_with. destruct (strip_prefix p s) as [r|] eqn:H.
  - apply strip_prefix_Some in H. naive_solver.
  - split; [done|]. intros [r ->]. by rewrite strip_prefix_app in H.
Qed.

Lemma split_once_str_Some p s b r :
  split_once_str p s = Some (b, r) → s = b +:+ p +:+ r.
Proof.
  revert b. induction s as [|c s IH]; intros b Hs.
  - simpl in Hs. destruct (strip_prefix p "") eqn:H; simplify_eq.
    by apply strip_prefix_Some in H.
  - simpl in Hs. destruct (strip_prefix p (String c s)) eqn:H; simplify_eq.
    + by apply strip_prefix_Some in H.
    + destruct (split_once_str p s) as [[b' r']|] eqn:Hp; simplify_eq.
      by rewrite app_cons, (IH _ eq_refl).
Qed.

Lemma contains_str_true p s : contains_str p s = true ↔ ∃ b r, s = b +:+ p +:+ r.
Proof.
  unfold contains_str. split.
  - destruct (split_once_str p s) as [[b r]|] eqn:H; [|done].
    apply split_once_str_Some in H. eauto.
  - intros (b&r&->). induction b as [|c b IH].
    + rewrite app_nil_l. destruct (p +:+ r) eqn:Hpr; simpl; rewrite <-Hpr;
        by rewrite strip_prefix_app.
    + rewrite app_cons. simpl. destruct (strip_prefix p _); [done|].
      destruct (split_once_str p (b +:+ p +:+ r)) as [[]|]; done.
Qed.

(** Replacing an absent pattern changes nothing. *)
Lemma replace_absent p r s : contains_str p s = false → replace p r s = s.
Proof.
  unfold contains_str, replace. induction s as [|a s IH]; [done|].
  cbn [split_once_str replace_go]. destruct (strip_prefix p (String a s)); [done|].
  destruct (split_once_str p s) as [[]|]; [done|]. intros _. by rewrite IH.
Qed.

Lemma split_once_Some c s b r :
  split_once c s = Some (b, r) ↔ s = b +:+ String c r ∧ contains_char c b = false.
Proof.
  revert b. induction s as [|a s IH]; intros b; simpl.
  { split; [done|]. by intros [?%app_String_ne_nil _]. }
  destruct (Ascii.eqb_spec a c) as [->|Hne].
  - split; [naive_solver|]. destruct b as [|x b]; [by intros [[= ->] _]|].
    rewrite app_cons. intros [[= -> ->] Hc]. simpl in Hc.
    by rewrite Ascii.eqb_refl in Hc.
  - destruct (split_once c s) as [[b' r']|] eqn:Hs.
    + split.
      * intros [= <- <-]. destruct (proj1 (IH b') eq_refl) as [-> Hc].
        rewrite app_cons. split; [done|]. simpl.
        by rewrite (proj2 (Ascii.eqb_neq _ _) Hne).
      * destruct b as [|x b]; [intros [[= -> ->] _]; done|].
        rewrite app_cons. simpl. intros [[= -> ->] [_ Hc]%orb_false_iff].
        pose proof (proj2 (IH b) (conj eq_refl Hc)). by simplify_eq.
    + split; [done|]. destruct b as [|x b]; [intros [[= -> ->] _]; done|].
      rewrite app_cons. simpl. intros [[= -> ->] [_ Hc]%orb_false_iff].
      by pose proof (proj2 (IH b) (conj eq_refl Hc)).
Qed.

Lemma split_once_None c s : split_once c s = None ↔ contains_char c s = false.
Proof.
  induction s as [|a s IH]; simpl; [done|].
  destruct (Ascii.eqb a c); simpl; [done|].
  destruct (split_once c s) as [[]|]; [|tauto]. split; [done|]. by intros ?%IH.
Qed.

Lemma rsplit_once_None c s : rsplit_once c s = None ↔ contains_char c s = false.
Proof.
  induction s as [|a s IH]; simpl; [done|].
  destruct (rsplit_once c s) as [[]|].
  - split; [done|]. by intros [_ ?%IH]%orb_false_iff.
  - destruct (Ascii.eqb a c); simpl; [done|]. tauto.
Qed.

Lemma rsplit_once_Some c s b r :
  rsplit_once c s = Some (b, r) ↔ s = b +:+ String c r ∧ contains_char c r = false.
Proof.
  revert b r. induction s as [|a s IH]; intros b r; simpl.
  { split; [done|]. by intros [?%app_String_ne_nil _]. }
  destruct (rsplit_once c s) as [[b' r']|] eqn:Hs.
  - split.
    + intros [= <- <-]. destruct (proj1 (IH b' r') eq_refl) as [-> ?]. by rewrite app_cons.
    + destruct b as [|x b].
      * rewrite app_nil_l. intros [[= -> ->] Hc].
        destruct (proj1 (IH b' r') eq_refl) as [-> _].
        rewrite contains_char_app in Hc. simpl in Hc.
        rewrite Ascii.eqb_refl, orb_true_r in Hc. done.
      * rewrite app_cons. intros [[= -> ->] Hc].
        pose proof (proj2 (IH b r) (conj eq_refl Hc)). by simplify_eq.
  - apply rsplit_once_None in Hs. destruct (Ascii.eqb_spec a c) as [->|Hne].
    + split; [naive_solver|]. destruct b as [|x b]; [by intros [[= ->] _]|].
      rewrite app_cons. intros [[= -> ->] _].
      rewrite contains_char_app in Hs. simpl in Hs.
      by rewrite Ascii.eqb_refl, orb_true_r in Hs.
    + split; [done|]. destruct b as [|x b].
      * rewrite app_nil_l. by intros [[= -> ->] _].
      * rewrite app_cons. intros [[= -> ->] _].
        rewrite contains_char_app in Hs. simpl in Hs.
        by rewrite Ascii.eqb_refl, orb_true_r in Hs.
Qed.

Lemma split_pred_ne_nil p s : split_pred p s ≠ [].
Proof. destruct s as [|a s]; simpl; [done|]. destruct (p a); [done|]. by destruct (split_pred p s). Qed.

Lemma split_no_sep c s : contains_char c s = false → split c s = [s].
Proof.
  unfold split. induction s as [|a s IH]; simpl; [done|].
  intros [-> Hs]%orb_false_iff. by rewrite (IH Hs).
Qed.

Lemma split_app_sep c s t :
  contains_char c s = false → split c (s +:+ String c t) = s :: split c t.
Proof.
  unfold split. induction s as [|a s IH].
  { rewrite app_nil_l. simpl. by rewrite Ascii.eqb_refl. }
  intros [Ha Hs]%orb_false_iff. rewrite app_cons. simpl. by rewrite Ha, (IH Hs).
Qed.

(** Splitting undoes joining ... *)
Lemma split_join c l :
  l ≠ [] → Forall (λ s, contains_char c s = false) l → split c (join (String c "") l) = l.
Proof.
  intros Hne Hl. induction Hl as [|s l Hs Hl IH]; [done|].
  destruct l as [|t l]; [by apply split_no_sep|].
  rewrite join_cons2, app_cons, app_nil_l, (split_app_sep _ _ _ Hs). by rewrite IH.
Qed.

(** ... and joining undoes splitting. *)
Lemma join_split c s : join (String c "") (split c s) = s.
Proof.
  unfold split. induction s as [|a s IH]; [done|]. simpl.
  pose proof (split_pred_ne_nil (λ a, Ascii.eqb a c) s) as Hne.
  destruct (Ascii.eqb_spec a c) as [->|_].
  - destruct (split_pred _ s) as [|h t] eqn:Hs; [done|].
    rewrite join_cons2, IH. done.
  - destruct (split_pred _ s) as [|h t] eqn:Hs; [done|].
    destruct t as [|u t]; [by rewrite join_single in *; subst|].
    rewrite join_cons2 in IH |- *. by rewrite app_cons, IH.
Qed.

Lemma split_no_sep_elem c s x : x ∈ split c s → contains_char c x = false.
Proof.
  unfold split. revert x. induction s as [|a s IH]; intros x; simpl.
  { by intros ->%list_elem_of_singleton. }
  destruct (Ascii.eqb a c) eqn:Ha.
  - intros [->|?]%elem_of_cons; eauto.
  - destruct (split_pred _ s) as [|h t] eqn:Hs; [by apply split_pred_ne_nil in Hs|].
    intros [->|Hx]%elem_of_cons.
    + simpl. rewrite Ha. apply IH. left.
    + apply IH. by right.
Qed.

Lemma split_contains c sep s x :
  x ∈ split sep s → contains_char c s = false → contains_char c x = false.
Proof.
  unfold split. revert x. induction s as [|a s IH]; intros x; simpl.
  { by intros ->%list_elem_of_singleton. }
  intros Hx [Ha Hs]%orb_false_iff. destruct (Ascii.eqb a sep).
  - apply elem_of_cons in Hx as [->|?]; eauto.
  - destruct (split_pred _ s) as [|h t] eqn:Hsp; [by apply split_pred_ne_nil in Hsp|].
    apply elem_of_cons in Hx as [->|?]; [|apply IH; [by right|done]].
    simpl. rewrite Ha. apply IH; [by left|done].
Qed.

Lemma all_ascii_app p s t : all_ascii p (s +:+ t) = all_ascii p s && all_ascii p t.
Proof. induction s as [|a s IH]; [done|]. rewrite app_cons. simpl. by rewrite IH, andb_assoc. Qed.

Lemma all_ascii_contains p c s :
  all_ascii p s = true → p c = false → contains_char c s = false.
Proof.
  induction s as [|a s IH]; simpl; [done|]. intros [Ha Hs]%andb_true_iff Hc.
  rewrite (IH Hs Hc). destruct (Ascii.eqb_spec a c) as [->|]; [congruence|done].
Qed.

Lemma trim_end_id c s :
  contains_char c s = false → trim_end c s = s.
Proof.
  induction s as [|a s IH]; simpl; [done|]. intros [Ha Hs]%orb_false_iff.
  rewrite (IH Hs), Ha. by destruct s.
Qed.

Lemma trim_end_app_id c s t :
  contains_char c t = false → t ≠ "" → trim_end c (s +:+ t) = s +:+ t.
Proof.
  intros Ht Hne. induction s as [|a s IH]; [rewrite app_nil_l; by apply trim_end_id|].
  rewrite app_cons. cbn [trim_end]. rewrite IH. destruct (s +:+ t) as [|b u] eqn:Hst; [|done].
  destruct s; [rewrite app_nil_l in Hst|rewrite app_cons in Hst]; congruence.
Qed.

Lemma trim_end_app_one c s :
  contains_char c s = false → trim_end c (s +:+ String c "") = s.
Proof.
  induction s as [|a s IH].
  { rewrite app_nil_l. simpl. by rewrite Ascii.eqb_refl. }
  intros [Ha Hs]%orb_false_iff. rewrite app_cons. simpl. rewrite (IH Hs), Ha. by destruct s.
Qed.

Lemma string_rev_app_app s t u : String.rev_app (s +:+ t) u = String.rev_app t (String.rev_app s u).
Proof. revert u. induction s as [|a s IH]; intros u; [done|]. apply IH. Qed.

Lemma string_rev_app_spec s t : String.rev_app s t = String.rev s +:+ t.
Proof.
  unfold String.rev. revert t. induction s as [|a s IH]; intros t; [done|]. cbn [String.rev_app].
  by rewrite IH, (IH (String a "")), app_assoc.
Qed.

Lemma string_rev_app s t : String.rev (s +:+ t) = String.rev t +:+ String.rev s.
Proof. unfold String.rev. by rewrite string_rev_app_app, string_rev_app_spec. Qed.

Lemma string_rev_involutive s : String.rev (String.rev s) = s.
Proof.
  induction s as [|a s IH]; [done|]. change (String a s) with (String a "" +:+ s).
  by rewrite string_rev_app, string_rev_app, IH.
Qed.

Lemma strip_suffix_Some p s r : strip_suffix p s = Some r ↔ s = r +:+ p.
Proof.
  unfold strip_suffix. split.
  - destruct (strip_prefix _ _) as [t|] eqn:Ht; [|done]. intros [= <-].
    apply strip_prefix_Some in Ht. apply (f_equal String.rev) in Ht.
    by rewrite string_rev_app, !string_rev_involutive in Ht.
  - intros ->. by rewrite string_rev_app, strip_prefix_app, string_rev_involutive.
Qed.

Lemma chars_ne_nil s x : x ∈ chars s → x ≠ "".
Proof.
  revert x. induction s as [|a s IH]; intros x; simpl; [set_solver|].
  destruct (chars s) as [|[|b t] r] eqn:Hc.
  - by intros ->%list_elem_of_singleton.
  - exfalso. apply (IH ""); [by left|done].
  - destruct (negb (is_ascii a) && is_cont b).
    + intros [->|?]%elem_of_cons; [done|]. apply IH. by right.
    + intros [->|?]%elem_of_cons; [done|]. by apply IH.
Qed.

(** An ASCII byte of a string is one of its scalar values. *)
Lemma chars_ascii c s :
  is_ascii c = true → contains_char c s = true → String c "" ∈ chars s.
Proof.
  intros Hc. induction s as [|a s IH]; simpl; [done|].
  intros [->%Ascii.eqb_eq|Hs]%orb_true_iff.
  - rewrite Hc. simpl. destruct (chars s) as [|[|b t] r]; by left.
  - specialize (IH Hs). destruct (chars s) as [|[|b t] r] eqn:Hcs; [set_solver| |].
    + exfalso. apply (chars_ne_nil s ""); [|done]. rewrite Hcs. by left.
    + destruct (negb (is_ascii a) && is_cont b) eqn:Hg; [|by right].
      apply andb_true_iff in Hg as [_ Hb]. apply elem_of_cons in IH as [[= -> <-]|?]; [|by right].
      unfold is_ascii, is_cont in *.
      apply N.ltb_lt in Hc. apply andb_true_iff in Hb as [Hb%N.leb_le _]. lia.
Qed.

Lemma show_inj n m : show n = show m → n = m.
Proof. apply (inj pretty). Qed.
Lemma show_nat_inj n m : show_nat n = show_nat m → n = m.
Proof. unfold show_nat. intros H%(inj pretty). lia. Qed.
