(* ===== verification/Json.v ===== *)
(** * JSON values and floating-point numbers

    [serde_json::Value] as a tree. An object is the list of its entries in
    iteration order (the keys are distinct). A number is an integer of the
    [i64]/[u64] range or a binary64 float. [parse_f64] is [str::parse::<f64>]:
    it recognises Rust's float grammar and rounds the decimal to the nearest
    binary64, computed exactly with the Standard Library's [SpecFloat]. *)

From Stdlib Require Import SpecFloat.
From S2P Require Import Prelude RustStr.
Local Open Scope stdpp_scope.

Inductive number :=
| NInt (z : Z)
| NFloat (f : spec_float).

Inductive value :=
| VNull
| VBool (b : bool)
| VNumber (n : number)
| VString (s : string)
| VArray (l : list value)
| VObject (l : list (string * value)).

(** ** Accessors of [Value] *)

Definition as_str (v : value) : option string :=
  match v with VString s => Some s | _ => None end.
Definition as_object (v : value) : option (list (string * value)) :=
  match v with VObject l => Some l | _ => None end.
Definition as_number (v : value) : option number :=
  match v with VNumber n => Some n | _ => None end.
Definition number_as_i64 (n : number) : option Z :=
  match n with
  | NInt z => if ((i64_min <=? z) && (z <=? i64_max))%Z then Some z else None
  | NFloat _ => None
  end.
Definition number_as_u64 (n : number) : option Z :=
  match n with
  | NInt z => if ((0 <=? z) && (z <=? u64_max))%Z then Some z else None
  | NFloat _ => None
  end.
Definition as_u64 (v : value) : option Z :=
  match v with VNumber n => number_as_u64 n | _ => None end.
Definition as_i64 (v : value) : option Z :=
  match v with VNumber n => number_as_i64 n | _ => None end.

Fixpoint assoc {A} (k : string) (l : list (string * A)) : option A :=
  match l with
  | [] => None
  | (k', v) :: l' => if decide (k = k') then Some v else assoc k l'
  end.

(** [value.get(key)]: [None] unless the value is an object with that key. *)
Definition get (k : string) (v : value) : option value :=
  match v with VObject l => assoc k l | _ => None end.

(** [map.insert(key, value)] of a [serde_json::Map], ordered by key. *)
Fixpoint obj_set (k : string) (v : value) (l : list (string * value)) : list (string * value) :=
  match l with
  | [] => [(k, v)]
  | (k', v') :: l' =>
      match String.compare k k' with
      | Eq => (k, v) :: l'
      | Lt => (k, v) :: (k', v') :: l'
      | Gt => (k', v') :: obj_set k v l'
      end
  end.

(** [json!(n)] for an integer, [json!(x)] for a float: a non-finite float
    becomes [null]. *)
Definition json_int (z : Z) : value := VNumber (NInt z).
Definition finite_float (f : spec_float) : bool :=
  match f with S754_infinity _ | S754_nan => false | _ => true end.
Definition json_float (f : spec_float) : value :=
  if finite_float f then VNumber (NFloat f) else VNull.
(** [Number::from_f64] *)
Definition number_from_f64 (f : spec_float) : option number :=
  if finite_float f then Some (NFloat f) else None.

(** ** [str::parse::<f64>] *)

Definition f64_of_ratio (neg : bool) (num den : positive) : spec_float :=
  SFdiv 53 1024 (S754_finite neg num 0) (S754_finite false den 0).

(** The closest float of an integer. *)
Definition f64_of_Z (z : Z) : spec_float :=
  match z with
  | Z0 => S754_zero false
  | Zpos p => f64_of_ratio false p 1
  | Zneg p => f64_of_ratio true p 1
  end.

(** The binary64 nearest to [± m * 10^e]; [nd] bounds the digits of [m].
    Beyond the exponent range the answer needs no computation. *)
Definition f64_of_decimal (neg : bool) (m : Z) (nd : nat) (e : Z) : spec_float :=
  match m with
  | Zpos p =>
      if (310 <? e)%Z then S754_infinity neg
      else if (e + Z.of_nat nd <? -330)%Z then S754_zero neg
      else if (0 <=? e)%Z
           then f64_of_ratio neg (p * Z.to_pos (10 ^ e))%positive 1
           else match (10 ^ (- e))%Z with
                | Zpos q => f64_of_ratio neg p q
                | _ => S754_nan
                end
  | _ => S754_zero neg
  end.

(** The longest run of digits at the head of [s]: its value continuing from
    [acc], its length continuing from [n], and the rest. *)
Fixpoint take_digits (acc : Z) (n : nat) (s : string) : Z * nat * string :=
  match s with
  | String a s' =>
      if is_digit a then take_digits (acc * 10 + (Z.of_N (N_of_ascii a) - 48))%Z (S n) s'
      else (acc, n, s)
  | "" => (acc, n, s)
  end.

Definition take_sign (s : string) : bool * string :=
  match s with
  | String "-" s' => (true, s')
  | String "+" s' => (false, s')
  | _ => (false, s)
  end.

(** [Exp?] of the grammar: the exponent, or [None] on trailing garbage. *)
Definition parse_exp (s : string) : option Z :=
  match s with
  | "" => Some 0%Z
  | String c s' =>
      if Ascii.eqb (lower_ascii c) "e" then
        let '(neg, s1) := take_sign s' in
        let '(e, n, rest) := take_digits 0 0 s1 in
        if (0 <? n)%nat && is_empty rest then Some (if neg : bool then (- e)%Z else e) else None
      else None
  end.

Definition parse_f64 (s : string) : option spec_float :=
  let '(neg, body) := take_sign s in
  let low := to_lower body in
  if bool_decide (low = "inf") || bool_decide (low = "infinity") then Some (S754_infinity neg)
  else if bool_decide (low = "nan") then Some S754_nan
  else
    let '(m1, n1, rest1) := take_digits 0 0 body in
    let '(m, nd, frac, rest) :=
      match rest1 with
      | String "." s2 =>
          let '(m2, n2, rest2) := take_digits m1 0 s2 in (m2, (n1 + n2)%nat, n2, rest2)
      | _ => (m1, n1, 0, rest1)
      end in
    if (nd =? 0)%nat then None
    else match parse_exp rest with
         | Some e => Some (f64_of_decimal neg m nd (e - Z.of_nat frac))
         | None => None
         end.

(** ** Lemmas *)

Lemma assoc_Some_elem {A} k (l : list (string * A)) v : assoc k l = Some v → (k, v) ∈ l.
Proof.
  induction l as [|[k' v'] l IH]; simpl; [done|].
  case_decide; [intros; simplify_eq; by left|]. intros. right. auto.
Qed.

Lemma assoc_None {A} k (l : list (string * A)) : assoc k l = None ↔ k ∉ l.*1.
Proof.
  induction l as [|[k' v'] l IH]; csimpl; [set_solver|].
  case_decide; [set_solver|]. rewrite IH. set_solver.
Qed.

Lemma as_i64_json_int z : (i64_min ≤ z ≤ i64_max)%Z → as_i64 (json_int z) = Some z.
Proof.
  intros. unfold as_i64, json_int, number_as_i64.
  rewrite (proj2 (Z.leb_le i64_min z)), (proj2 (Z.leb_le z i64_max)) by lia. done.
Qed.

Lemma compare_refl s : String.compare s s = Eq.
Proof.
  induction s as [|a s IH]; [done|]. cbn. unfold Ascii.compare. by rewrite N.compare_refl.
Qed.

Lemma assoc_obj_set k v l k' :
  assoc k' (obj_set k v l) = if decide (k' = k) then Some v else assoc k' l.
Proof.
  induction l as [|[k0 v0] l IH]; cbn [obj_set assoc].
  { by case_decide. }
  destruct (String.compare k k0) eqn:Hc; cbn [assoc].
  - apply String.compare_eq_iff in Hc as ->. by case_decide.
  - done.
  - rewrite IH. destruct (decide (k' = k0)) as [->|]; [|done].
    case_decide as Hk; [|done]. subst k0.
    by rewrite compare_refl in Hc.
Qed.
