(* ===== verification/Config.v ===== *)
(** * Configuration data

    The configuration structs of src/src/config/types/, field for field.
    Field names carry a prefix (Rocq's projections share one name space).
    A [HashMap] is a [gmap string], an unsigned integer a [Z]. *)

From S2P Require Import Prelude RustStr.
Local Open Scope stdpp_scope.

(** ** Databases and tables *)

(** Source: config/types/database.rs [DatabaseDriver] *)
Inductive DatabaseDriver := Postgres | Mysql | Sqlite.

Global Instance DatabaseDriver_eq_dec : EqDecision DatabaseDriver.
Proof. solve_decision. Defined.

(** Source: config/types/database.rs [DatabaseConfig] *)
Record DatabaseConfig := {
  dbc_driver : DatabaseDriver;
  dbc_url : string;
  dbc_min_connections : Z;
  dbc_max_connections : Z;
  dbc_auto_migrate : bool;
  dbc_allow_destructive : bool;
  dbc_acquire_timeout : Z;
}.

(** Source: config/types/database.rs [DatabaseConfig::default] *)
Definition default_DatabaseConfig : DatabaseConfig := {|
  dbc_driver := Sqlite; dbc_url := ""; dbc_min_connections := 1;
  dbc_max_connections := 10; dbc_auto_migrate := true;
  dbc_allow_destructive := false; dbc_acquire_timeout := 5;
|}.

(** Source: config/types/database.rs [ColumnType] *)
Inductive ColumnType :=
| Integer | Bigint | Smallint | Serial | Bigserial | Text | Varchar | Char
| Boolean | Float | Double | Decimal | Date | Timestamp | Timestamptz | Uuid
| Json | Jsonb | Blob | Bytea.

Global Instance ColumnType_eq_dec : EqDecision ColumnType.
Proof. solve_decision. Defined.

(** Source: config/types/database.rs [ColumnType::is_json_type] *)
Definition is_json_type (ct : ColumnType) : bool :=
  match ct with Json | Jsonb => true | _ => false end.

(** Source: config/types/database.rs [ColumnType::fmt] *)
Definition show_ColumnType (ct : ColumnType) : string :=
  match ct with
  | Integer => "integer" | Bigint => "bigint" | Smallint => "smallint"
  | Serial => "serial" | Bigserial => "bigserial" | Text => "text"
  | Varchar => "varchar" | Char => "char" | Boolean => "boolean"
  | Float => "float" | Double => "double" | Decimal => "decimal"
  | Date => "date" | Timestamp => "timestamp" | Timestamptz => "timestamptz"
  | Uuid => "uuid" | Json => "json" | Jsonb => "jsonb" | Blob => "blob"
  | Bytea => "bytea"
  end.

(** [serde_yaml::Value], the type of an inline JSON Schema. *)
Inductive yaml :=
| YNull | YBool (b : bool) | YNumber (s : string) | YString (s : string)
| YSequence (l : list yaml) | YMapping (l : list (yaml * yaml))
| YTagged (tag : string) (v : yaml).

(** Source: config/types/database.rs [ColumnConfig] *)
Record ColumnConfig := {
  col_name : string;
  col_type : ColumnType;
  col_primary_key : bool;
  col_nullable : bool;
  col_default : option string;
  col_unique : bool;
  col_indexed : bool;
  col_validation_schema : option string;
  col_validation : option yaml;
  col_validation_schema_ref : option string;
}.

(** Source: config/types/database.rs [ColumnConfig::default] *)
Definition default_ColumnConfig : ColumnConfig := {|
  col_name := ""; col_type := Text; col_primary_key := false;
  col_nullable := true; col_default := None; col_unique := false;
  col_indexed := false; col_validation_schema := None;
  col_validation := None; col_validation_schema_ref := None;
|}.

(** A column with the given name, type and key flag, the rest by default. *)
Definition mk_col (n : string) (t : ColumnType) (pk : bool) : ColumnConfig := {|
  col_name := n; col_type := t; col_primary_key := pk;
  col_nullable := true; col_default := None; col_unique := false;
  col_indexed := false; col_validation_schema := None;
  col_validation := None; col_validation_schema_ref := None;
|}.

(** Source: config/types/database.rs [ForeignKeyAction] *)
Inductive ForeignKeyAction := Cascade | SetNull | Restrict | NoAction.

(** Source: config/types/database.rs [ForeignKeyConfig] *)
Record ForeignKeyConfig := {
  fk_column : string;
  fk_references_table : string;
  fk_references_column : string;
  fk_on_delete : ForeignKeyAction;
  fk_on_update : ForeignKeyAction;
}.

(** Source: config/types/database.rs [TableConfig] *)
Record TableConfig := {
  tbl_name : string;
  tbl_database : string;
  tbl_columns : list ColumnConfig;
  tbl_foreign_keys : list ForeignKeyConfig;
}.

(** ** Listing and CRUD *)

(** Source: config/types/endpoints/listing.rs [SortOrder] *)
Inductive SortOrder := Asc | Desc.

(** Source: config/types/endpoints/listing.rs [PaginationConfig] *)
Record PaginationConfig := {
  pg_enabled : bool;
  pg_default_page_size : Z;
  pg_max_page_size : Z;
}.
(** Source: config/types/endpoints/listing.rs [PaginationConfig::default] *)
Definition default_PaginationConfig : PaginationConfig :=
  {| pg_enabled := true; pg_default_page_size := 20; pg_max_page_size := 100 |}.

(** Source: config/types/endpoints/listing.rs [FilteringConfig] *)
Record FilteringConfig := {
  fc_enabled : bool;
  fc_allowed_fields : list string;
}.
(** Source: config/types/endpoints/listing.rs [FilteringConfig::default] *)
Definition default_FilteringConfig : FilteringConfig :=
  {| fc_enabled := true; fc_allowed_fields := ["*"] |}.

(** Source: config/types/endpoints/listing.rs [SortingConfig] *)
Record SortingConfig := {
  sc_enabled : bool;
  sc_default_field : string;
  sc_default_order : SortOrder;
  sc_allowed_fields : list string;
}.
(** Source: config/types/endpoints/listing.rs [SortingConfig::default] *)
Definition default_SortingConfig : SortingConfig :=
  {| sc_enabled := true; sc_default_field := ""; sc_default_order := Asc;
     sc_allowed_fields := ["*"] |}.

(** Source: db/query/types.rs [JoinType] *)
Inductive JoinType := Inner | Left | Right.

(** Source: db/query/types.rs [JoinConfig] *)
Record JoinConfig := {
  join_table : string;
  join_on : string;
  join_join_type : JoinType;
  join_fields : list string;
}.

(** Source: config/types/endpoints/crud.rs [ComputedFieldConfig] *)
Record ComputedFieldConfig := { cf_name : string; cf_expression : string }.

(** Source: config/types/endpoints/crud.rs [CrudConfig] *)
Record CrudConfig := {
  crud_table : string;
  crud_database : string;
  crud_fields : list string;
  crud_writable_fields : list string;
  crud_pagination : PaginationConfig;
  crud_filtering : FilteringConfig;
  crud_sorting : SortingConfig;
  crud_where_clause : option string;
  crud_delete_where_clause : option string;
  crud_update_where_clause : option string;
  crud_joins : list JoinConfig;
  crud_computed_fields : list ComputedFieldConfig;
  crud_insert_owner : option string;
}.

(** Source: config/types/endpoints/crud.rs [CrudConfig::default] *)
Definition default_CrudConfig : CrudConfig := {|
  crud_table := ""; crud_database := ""; crud_fields := ["*"];
  crud_writable_fields := []; crud_pagination := default_PaginationConfig;
  crud_filtering := default_FilteringConfig; crud_sorting := default_SortingConfig;
  crud_where_clause := None; crud_delete_where_clause := None;
  crud_update_where_clause := None; crud_joins := [];
  crud_computed_fields := []; crud_insert_owner := None;
|}.

(** Source: config/types/endpoints/crud.rs [MAX_PAGE_SIZE] *)
Definition MAX_PAGE_SIZE : Z := 100.
(** Source: config/types/endpoints/crud.rs [MIN_DEFAULT_PAGE_SIZE] *)
Definition MIN_DEFAULT_PAGE_SIZE : Z := 1.

(** ** HTTP methods and roles *)

(** Source: config/types/endpoints/common.rs [HttpMethod] *)
Inductive HttpMethod := Get | Post | Put | Patch | Delete | Options | Head.

Global Instance HttpMethod_eq_dec : EqDecision HttpMethod.
Proof. solve_decision. Defined.

(** Source: config/types/endpoints/common.rs [HttpMethod::as_str] *)
Definition method_as_str (m : HttpMethod) : string :=
  match m with
  | Get => "GET" | Post => "POST" | Put => "PUT" | Patch => "PATCH"
  | Delete => "DELETE" | Head => "HEAD" | Options => "OPTIONS"
  end.

(** A request's method is its name ([http::Method] also has extension
    methods, so it is a string).
    Source: config/types/endpoints/common.rs [HttpMethod::matches] *)
Definition method_matches (m : HttpMethod) (method : string) : bool :=
  match m with
  | Get => bool_decide (method = "GET")
  | Post => bool_decide (method = "POST")
  | Put => bool_decide (method = "PUT")
  | Patch => bool_decide (method = "PATCH")
  | Delete => bool_decide (method = "DELETE")
  | Head => bool_decide (method = "HEAD")
  | Options => bool_decide (method = "OPTIONS")
  end.

(** Source: config/types/endpoints/common.rs [MethodSpecificRoles] *)
Record MethodSpecificRoles := {
  ms_get : option (list string);
  ms_post : option (list string);
  ms_put : option (list string);
  ms_patch : option (list string);
  ms_delete : option (list string);
  ms_head : option (list string);
  ms_options : option (list string);
}.

(** Source: config/types/endpoints/common.rs [RolesConfig] *)
Inductive RolesConfig :=
| Flat (roles : list string)
| MethodSpecific (ms : MethodSpecificRoles).

(** Source: config/types/endpoints/common.rs [RolesConfig::clone_for_method] *)
Definition clone_for_method (r : RolesConfig) (m : HttpMethod) : list string :=
  match r with
  | MethodSpecific ms =>
      default [] (match m with
                  | Get => ms_get ms | Post => ms_post ms | Put => ms_put ms
                  | Patch => ms_patch ms | Delete => ms_delete ms
                  | Head => ms_head ms | Options => ms_options ms
                  end)
  | Flat roles => roles
  end.

(** [a.or(b)] *)
Definition opt_or {A} (a b : option A) : option A :=
  match a with Some _ => a | None => b end.

(** Source: config/types/endpoints/common.rs [RolesConfig::is_admin] *)
Definition is_admin (r : RolesConfig) (user_role : option string) : bool :=
  match r with
  | Flat roles => bool_decide (user_role = head roles)
  | MethodSpecific ms =>
      let admin :=
        opt_or (opt_or (opt_or (opt_or (opt_or (opt_or
          (ms_get ms) (ms_post ms)) (ms_patch ms)) (ms_delete ms))
          (ms_put ms)) (ms_head ms)) (ms_options ms) ≫= head in
      bool_decide (user_role = admin)
  end.

(** ** Policies *)

(** Source: config/types/cors.rs [CorsConfig] *)
Record CorsConfig := {
  cors_allowed_origins : list string;
  cors_allowed_methods : list string;
  cors_allowed_headers : list string;
  cors_allow_credentials : bool;
  cors_max_age : Z;
}.
(** Source: config/types/cors.rs [CorsConfig::default] *)
Definition default_CorsConfig : CorsConfig := {|
  cors_allowed_origins := [];
  cors_allowed_methods := ["GET"; "POST"; "PUT"; "PATCH"; "DELETE"; "OPTIONS"; "HEAD"];
  cors_allowed_headers := []; cors_allow_credentials := false; cors_max_age := 86400;
|}.

(** Source: config/types/rate_limit.rs [RateLimitKeyStrategy] *)
Inductive RateLimitKeyStrategy := KeyIp | KeyHeader | KeyToken.

(** Source: config/types/rate_limit.rs [RateLimitConfig] *)
Record RateLimitConfig := {
  rl_enabled : bool;
  rl_max_requests : Z;
  rl_window_seconds : Z;
  rl_key_strategy : RateLimitKeyStrategy;
  rl_key_header : string;
  rl_cleanup_threshold : Z;
}.
(** Source: config/types/rate_limit.rs [RateLimitConfig::default] *)
Definition default_RateLimitConfig : RateLimitConfig := {|
  rl_enabled := false; rl_max_requests := 100; rl_window_seconds := 60;
  rl_key_strategy := KeyIp; rl_key_header := ""; rl_cleanup_threshold := 10000;
|}.

(** ** Authentication *)

(** Source: config/types/auth.rs [PasswordHashAlgorithm] *)
Inductive PasswordHashAlgorithm := Argon2id.

(** Source: config/types/auth.rs [RegisterConfig] *)
Record RegisterConfig := {
  reg_enabled : bool;
  reg_table : string;
  reg_database : string;
  reg_default_role : string;
  reg_password_hash : PasswordHashAlgorithm;
}.
(** Source: config/types/auth.rs [RegisterConfig::default] *)
Definition default_RegisterConfig : RegisterConfig := {|
  reg_enabled := false; reg_table := ""; reg_database := "";
  reg_default_role := "user"; reg_password_hash := Argon2id |}.

(** Source: config/types/auth.rs [RevocationStoreType] *)
Inductive RevocationStoreType := StoreInMemory | StoreDatabase.

(** Source: config/types/auth.rs [JwtRevocationConfig] *)
Record JwtRevocationConfig := {
  jrc_store : RevocationStoreType;
  jrc_db_table : option string;
  jrc_cleanup_interval_secs : option Z;
}.

(** Source: config/types/auth.rs [JwtAlgorithm] *)
Inductive JwtAlgorithm := HS256 | HS384 | HS512 | RS256 | RS384 | RS512 | ES256 | ES384.

(** Source: config/types/auth.rs [JwtConfig] *)
Record JwtConfig := {
  jwt_secret : string;
  jwt_algorithm : JwtAlgorithm;
  jwt_issuer : string;
  jwt_audience : string;
  jwt_expiry : Z;
  jwt_role_claim : string;
  jwt_revocation : option JwtRevocationConfig;
}.
(** Source: config/types/auth.rs [JwtConfig::default] *)
Definition default_JwtConfig : JwtConfig := {|
  jwt_secret := ""; jwt_algorithm := HS256; jwt_issuer := "main-serve";
  jwt_audience := ""; jwt_expiry := 3600; jwt_role_claim := "role";
  jwt_revocation := None |}.

(** Source: config/types/auth.rs [ApiKeyLocation] *)
Inductive ApiKeyLocation := LocHeader | LocQuery.

(** Source: config/types/auth.rs [ApiKeyEntry] *)
Record ApiKeyEntry := { ake_key : string; ake_role : option string }.

(** Source: config/types/auth.rs [ApiKeyConfig] *)
Record ApiKeyConfig := {
  ak_location : ApiKeyLocation;
  ak_name : string;
  ak_keys : list ApiKeyEntry;
}.

(** Source: config/types/auth.rs [BasicAuthUser] *)
Record BasicAuthUser := {
  bu_username : string;
  bu_password_hash : string;
  bu_role : option string;
}.

(** Source: config/types/auth.rs [BasicAuthConfig] *)
Record BasicAuthConfig := { ba_realm : string; ba_users : list BasicAuthUser }.

(** Source: config/types/auth.rs [RoleMatchMode] *)
Inductive RoleMatchMode := Exact | Contains.

(** Source: config/types/auth.rs [RoleMappingConfig] *)
Record RoleMappingConfig := {
  rm_default_role : string;
  rm_role_claim : string;
  rm_role_map : list (string * string);
  rm_match_mode : RoleMatchMode;
}.

(** Source: config/types/auth.rs [OAuth2Config] *)
Record OAuth2Config := {
  oa_provider : string;
  oa_authorization_url : string;
  oa_token_url : string;
  oa_userinfo_url : string;
  oa_client_id : string;
  oa_client_secret : string;
  oa_scopes : list string;
  oa_redirect_url : string;
  oa_success_url : string;
  oa_cookie_name : string;
  oa_state_ttl : Z;
  oa_max_pending_states : Z;
  oa_role_mapping : option RoleMappingConfig;
}.

(** Source: config/types/auth.rs [OAuth2Config::default] *)
Definition default_OAuth2Config : OAuth2Config := {|
  oa_provider := "generic"; oa_authorization_url := ""; oa_token_url := "";
  oa_userinfo_url := ""; oa_client_id := ""; oa_client_secret := "";
  oa_scopes := ["openid"]; oa_redirect_url := ""; oa_success_url := "/";
  oa_cookie_name := "main_serve_token"; oa_state_ttl := 300;
  oa_max_pending_states := 1000; oa_role_mapping := None |}.

(** Source: config/types/auth.rs [AuthConfig] *)
Record AuthConfig := {
  auth_jwt : option JwtConfig;
  auth_api_key : option ApiKeyConfig;
  auth_basic : option BasicAuthConfig;
  auth_oauth2 : option OAuth2Config;
  auth_register : option RegisterConfig;
}.

(** ** Storage backends *)

(** Source: config/types/store.rs [StoreBackend] *)
Inductive StoreBackend := Native | S3 | Azure | Gcs | Memory.

Global Instance StoreBackend_eq_dec : EqDecision StoreBackend.
Proof. solve_decision. Defined.

(** Source: config/types/store.rs [S3StoreConfig] *)
Record S3StoreConfig := {
  s3_region : string;
  s3_bucket : string;
  s3_access_key : string;
  s3_secret_key : string;
  s3_endpoint : option string;
  s3_force_path_style : bool;
}.

(** Source: config/types/store.rs [AzureStoreConfig] *)
Record AzureStoreConfig := {
  az_account_name : string;
  az_account_key : string;
  az_container : string;
}.

(** Source: config/types/store.rs [GcsStoreConfig] *)
Record GcsStoreConfig := {
  gcs_project_id : string;
  gcs_credentials : string;
  gcs_bucket : string;
}.

(** Source: config/types/store.rs [StoreConfig] *)
Record StoreConfig := {
  st_backend : StoreBackend;
  st_root : option string;
  st_s3 : option S3StoreConfig;
  st_azure : option AzureStoreConfig;
  st_gcs : option GcsStoreConfig;
}.

(** ** Endpoint actions *)

(** Source: config/types/endpoints/static_files.rs [CacheRuleConfig] *)
Record CacheRuleConfig := { cr_extensions : list string; cr_cache_control : string }.

(** Source: config/types/endpoints/static_files.rs [UploadMimeDetection] *)
Inductive UploadMimeDetection := UploadByExtension | UploadByMagic.

(** Source: config/types/endpoints/static_files.rs [UploadConfig] *)
Record UploadConfig := {
  up_enabled : bool;
  up_max_size : Z;
  up_allowed_extensions : list string;
  up_create_subdirectory : option string;
  up_mime_detection : UploadMimeDetection;
}.

(** Source: config/types/endpoints/static_files.rs [ImageResizeFit] *)
Inductive ImageResizeFit := ScaleDown | Cover | Contain.

(** Source: config/types/endpoints/static_files.rs [ImageResizeConfig] *)
Record ImageResizeConfig := {
  ir_enabled : bool;
  ir_max_dimension : Z;
  ir_supported_formats : list string;
  ir_default_fit : ImageResizeFit;
  ir_cache_dir : option string;
}.

(** Source: config/types/endpoints/static_files.rs [StreamingConfig] *)
Record StreamingConfig := {
  str_enabled : bool;
  str_buffer_size : Z;
  str_threshold : Z;
  str_include_content_length : bool;
}.

(** Source: config/types/endpoints/static_files.rs [StaticFilesConfig] *)
Record StaticFilesConfig := {
  sf_storage : string;
  sf_index : string;
  sf_directory_listing : bool;
  sf_cache_max_age : Z;
  sf_etag : bool;
  sf_range_requests : bool;
  sf_head_support : bool;
  sf_cache_rules : list CacheRuleConfig;
  sf_upload : option UploadConfig;
  sf_image_resize : option ImageResizeConfig;
  sf_streaming : option StreamingConfig;
}.

(** Source: config/types/endpoints/static_files.rs [StaticFilesConfig::default] *)
Definition default_StaticFilesConfig : StaticFilesConfig := {|
  sf_storage := ""; sf_index := "index.html"; sf_directory_listing := false;
  sf_cache_max_age := 3600; sf_etag := true; sf_range_requests := true;
  sf_head_support := true; sf_cache_rules := []; sf_upload := None;
  sf_image_resize := None; sf_streaming := None |}.

(** Source: config/types/endpoints/spa_host.rs [SpaHostConfig] *)
Record SpaHostConfig := {
  spa_storage : string;
  spa_index : string;
  spa_cache_max_age : Z;
  spa_cache_rules : list CacheRuleConfig;
  spa_etag : bool;
  spa_head_support : bool;
  spa_fallback_status : Z;
}.

(** Source: config/types/endpoints/proxy.rs [PathRewriteConfig] *)
Record PathRewriteConfig := { pr_strip_prefix : string; pr_add_prefix : string }.

(** Source: config/types/endpoints/proxy.rs [ProxyTimeouts] *)
Record ProxyTimeouts := { pt_connect : Z; pt_read : Z; pt_total : Z }.

(** Source: config/types/endpoints/proxy.rs [ProxyConfig] *)
Record ProxyConfig := {
  px_upstream : string;
  px_path_rewrite : option PathRewriteConfig;
  px_headers : gmap string string;
  px_timeouts : ProxyTimeouts;
  px_max_response_size : Z;
}.

(** Source: config/types/endpoints/custom_response.rs [CustomResponseConfig] *)
Record CustomResponseConfig := {
  cu_status : Z;
  cu_content_type : string;
  cu_body : string;
  cu_headers : gmap string string;
}.

(** Source: config/types/endpoints/media.rs [MediaMetadataColumn] *)
Record MediaMetadataColumn := {
  mmc_name : string;
  mmc_column_type : string;
  mmc_nullable : bool;
  mmc_default : option string;
}.

(** Source: config/types/endpoints/file_store.rs [FileStoreFieldPermissions] *)
Record FileStoreFieldPermissions := { ffp_read : list string; ffp_write : list string }.

(** Source: config/types/endpoints/file_store.rs [FileStoreOwnershipConfig] *)
Record FileStoreOwnershipConfig := { fso_owner_column : string; fso_admin_override : bool }.

(** Source: config/types/endpoints/file_store.rs [FileStoreTrashConfig] *)
Record FileStoreTrashConfig := {
  fst_enabled : bool; fst_retention_days : Z; fst_prefix : string }.

(** Source: config/types/endpoints/file_store.rs [FileStoreContentReferencesConfig] *)
Record FileStoreContentReferencesConfig := {
  fsr_enabled : bool;
  fsr_table : string;
  fsr_media_id_column : string;
  fsr_entity_id_column : string;
  fsr_content_type_column : string;
  fsr_order_column : string;
}.

(** Source: config/types/endpoints/file_store.rs [FileStoreConfig] *)
Record FileStoreConfig := {
  fs_storage : string;
  fs_table : string;
  fs_database : string;
  fs_metadata_columns : list MediaMetadataColumn;
  fs_field_permissions : option (gmap string FileStoreFieldPermissions);
  fs_ownership : option FileStoreOwnershipConfig;
  fs_trash : option FileStoreTrashConfig;
  fs_content_references : option FileStoreContentReferencesConfig;
  fs_pagination : PaginationConfig;
  fs_sorting : SortingConfig;
  fs_filtering : FilteringConfig;
}.

(** The media sections a request handler reads are records; the media types
    that no modelled operation reads yet are kept in the same shape. *)
(** Source: config/types/endpoints/media.rs [MediaMimeDetection] *)
Inductive MediaMimeDetection := MediaByExtension | MediaByMagic.
(** Source: config/types/endpoints/media.rs [MediaScopeMode] *)
Inductive MediaScopeMode := ScopeUser | ScopeShared | ScopeOpen.
(** Source: config/types/endpoints/media.rs [MediaOnDeleteBehavior] *)
Inductive MediaOnDeleteBehavior := OnDeleteDetach | OnDeleteCascade | OnDeleteError.
(** Source: config/types/endpoints/media.rs [MediaFacetType] *)
Inductive MediaFacetType := FacetTerm | FacetDateRange | FacetNumeric.
(** Source: config/types/endpoints/media.rs [MediaFacetConfig] *)
Record MediaFacetConfig := { mfc_name : string; mfc_field : string; mfc_facet_type : MediaFacetType }.
(** Source: config/types/endpoints/media.rs [MediaImageResizeStyle] *)
Record MediaImageResizeStyle := {
  mis_name : string; mis_max_width : Z; mis_max_height : Z;
  mis_resize_fit : ImageResizeFit; mis_format : string; mis_quality : Z }.
(** Source: config/types/endpoints/media.rs [MediaPreviewConfig] *)
Record MediaPreviewConfig := {
  mp_name : string; mp_max_width : Z; mp_max_height : Z; mp_format : string }.
(** Source: config/types/endpoints/media.rs [MediaVersioningConfig] *)
Record MediaVersioningConfig := { mv_enabled : bool; mv_max_versions : Z }.
(** Source: config/types/endpoints/media.rs [MediaPreviewGenerationConfig] *)
Record MediaPreviewGenerationConfig := {
  mpg_enabled : bool; mpg_previews : list MediaPreviewConfig }.
(** Source: config/types/endpoints/media.rs [MediaUploadConfig] *)
Record MediaUploadConfig := {
  mu_max_size : Z; mu_allowed_extensions : list string; mu_allowed_mime_types : list string;
  mu_mime_detection : MediaMimeDetection; mu_bulk_supported : bool;
  mu_create_subdirectory : option string; mu_versioning : option MediaVersioningConfig;
  mu_preview_generation : option MediaPreviewGenerationConfig }.
(** Source: config/types/endpoints/media.rs [MediaMoveConfig] *)
Record MediaMoveConfig := {
  mm_enabled : bool; mm_admin_override : bool; mm_auto_create_destination : bool }.
(** Source: config/types/endpoints/media.rs [MediaRenameConfig] *)
Record MediaRenameConfig := { mrn_enabled : bool; mrn_admin_override : bool }.
(** Source: config/types/endpoints/media.rs [MediaDeleteConfig] *)
Record MediaDeleteConfig := { md_enabled : bool; md_admin_override : bool }.
(** Source: config/types/endpoints/media.rs [MediaUserScopeConfig] *)
Record MediaUserScopeConfig := {
  mus_enabled : bool; mus_mode : MediaScopeMode; mus_admin_roles : list string;
  mus_allow_cross_user_browse : bool }.
(** Source: config/types/endpoints/media.rs [MediaContentReferencesConfig] *)
Record MediaContentReferencesConfig := {
  mcr_enabled : bool; mcr_table : string; mcr_media_id_column : string;
  mcr_entity_id_column : string; mcr_content_type_column : string;
  mcr_order_column : string; mcr_allowed_content_types : option (list string);
  mcr_on_delete : MediaOnDeleteBehavior }.
(** Source: config/types/endpoints/media.rs [MediaTrashConfig] *)
Record MediaTrashConfig := {
  mt_enabled : bool; mt_retention_days : Z; mt_prefix : string;
  mt_management_endpoints : bool; mt_admin_roles : list string }.
(** Source: config/types/endpoints/media.rs [MediaSharingConfig] *)
Record MediaSharingConfig := {
  msh_enabled : bool; msh_signing_secret : string; msh_default_ttl : Z; msh_max_ttl : Z;
  msh_prefix : string; msh_allow_any_user : bool; msh_required_link_role : option string }.
(** Source: config/types/endpoints/media.rs [MediaImageResizeConfig] *)
Record MediaImageResizeConfig := {
  mir_enabled : bool; mir_max_dimension : Z; mir_supported_formats : list string;
  mir_default_fit : ImageResizeFit; mir_cache_dir : option string;
  mir_styles : list MediaImageResizeStyle; mir_generate_on_upload : bool }.
(** Source: config/types/endpoints/media.rs [MediaConfig] *)
Record MediaConfig := {
  media_storage : string; media_table : string; media_database : string;
  media_columns : list string; media_metadata_columns : list MediaMetadataColumn;
  media_upload : option MediaUploadConfig; media_move_config : option MediaMoveConfig;
  media_rename : option MediaRenameConfig; media_delete : option MediaDeleteConfig;
  media_user_scope : option MediaUserScopeConfig;
  media_content_references : option MediaContentReferencesConfig;
  media_trash : option MediaTrashConfig; media_sharing : option MediaSharingConfig;
  media_pagination : PaginationConfig; media_sorting : SortingConfig;
  media_filtering : FilteringConfig; media_facets : list MediaFacetConfig;
  media_image_resize : option MediaImageResizeConfig }.

(** ** Endpoints and the root *)

(** Source: config/types/endpoints/common.rs [EndpointAction] *)
Inductive EndpointAction :=
| ActCrud | ActProxy | ActStaticFiles | ActSpaHost | ActMedia | ActFileStore
| ActCustomResponse.

Global Instance EndpointAction_eq_dec : EqDecision EndpointAction.
Proof. solve_decision. Defined.

(** Source: config/types/endpoints/common.rs [EndpointConfig] *)
Record EndpointConfig := {
  ep_path : string;
  ep_methods : list HttpMethod;
  ep_action : EndpointAction;
  ep_crud : option CrudConfig;
  ep_proxy : option ProxyConfig;
  ep_static_files : option StaticFilesConfig;
  ep_spa_host : option SpaHostConfig;
  ep_media : option MediaConfig;
  ep_file_store : option FileStoreConfig;
  ep_custom_response : option CustomResponseConfig;
  ep_auth : string;
  ep_roles : RolesConfig;
  ep_cors : option CorsConfig;
  ep_rate_limit : option RateLimitConfig;
}.

(** An endpoint with the given path, methods, action and auth type, the rest
    as [serde] fills it in. *)
Definition mk_endpoint (path : string) (ms : list HttpMethod) (a : EndpointAction)
    (auth : string) : EndpointConfig := {|
  ep_path := path; ep_methods := ms; ep_action := a; ep_crud := None;
  ep_proxy := None; ep_static_files := None; ep_spa_host := None;
  ep_media := None; ep_file_store := None; ep_custom_response := None;
  ep_auth := auth; ep_roles := Flat []; ep_cors := None; ep_rate_limit := None |}.

(** Source: config/types/server.rs [TlsConfig] *)
Record TlsConfig := { tls_cert : string; tls_key : string }.

(** Source: config/types/server.rs [ServerConfig] *)
Record ServerConfig := {
  srv_host : string;
  srv_port : Z;
  srv_workers : Z;
  srv_max_body_size : Z;
  srv_keep_alive : Z;
  srv_shutdown_timeout : Z;
  srv_tls : option TlsConfig;
}.
(** Source: config/types/server.rs [ServerConfig::default] *)
Definition default_ServerConfig : ServerConfig := {|
  srv_host := "127.0.0.1"; srv_port := 8080; srv_workers := 0;
  srv_max_body_size := 10 * 1024 * 1024; srv_keep_alive := 75;
  srv_shutdown_timeout := 30; srv_tls := None |}.

(** Source: config/types/logging.rs [LogLevel] *)
Inductive LogLevel := LTrace | LDebug | LInfo | LWarn | LError.
(** Source: config/types/logging.rs [LogFormat] *)
Inductive LogFormat := FmtJson | FmtPretty.
(** Source: config/types/logging.rs [LoggingConfig] *)
Record LoggingConfig := {
  log_level : LogLevel; log_format : LogFormat; log_request_body : bool;
  log_response_body : bool; log_max_body_log_size : Z }.

(** Source: config/types/mod.rs [RoleHierarchy] *)
Record RoleHierarchy := { rh_roles : gmap string (list string) }.

(** Global schemas are kept as parsed YAML.
    Source: config/types/mod.rs [AppConfig] *)
Record AppConfig := {
  cfg_server : ServerConfig;
  cfg_logging : LoggingConfig;
  cfg_cors : CorsConfig;
  cfg_rate_limit : RateLimitConfig;
  cfg_databases : gmap string DatabaseConfig;
  cfg_tables : list TableConfig;
  cfg_auth : AuthConfig;
  cfg_endpoints : list EndpointConfig;
  cfg_stores : gmap string StoreConfig;
  cfg_role_hierarchy : option RoleHierarchy;
  cfg_global_schemas : option (gmap string yaml);
}.

(** ** Defaults

    The values a section has when it is created in code
    ([Default::default()]) and the values serde fills in for one key that is
    left out of the file. For sections that derive [Default] the two differ:
    the derived value is false, zero or empty, whatever the default of the
    key. *)

(** ** Keys that are left out *)

(** Source: config/types/endpoints/common.rs [IMAGE_MAX_DIMENSION] *)
Definition IMAGE_MAX_DIMENSION : Z := 4096.
(** Source: config/types/endpoints/common.rs [default_auth_none] *)
Definition default_auth_none : string := "none".
(** Source: config/types/endpoints/common.rs [default_true] *)
Definition default_true : bool := true.
(** Source: config/types/endpoints/common.rs [default_true_bool] *)
Definition default_true_bool : bool := true.
(** Source: config/types/endpoints/common.rs [default_index] *)
Definition default_index : string := "index.html".
(** Source: config/types/endpoints/common.rs [default_cache_max_age] *)
Definition default_cache_max_age : Z := 3600.
(** Source: config/types/endpoints/common.rs [default_fallback_status] *)
Definition default_fallback_status : Z := 200.
(** Source: config/types/endpoints/common.rs [default_max_response_size] *)
Definition default_max_response_size : Z := 256 * 1024 * 1024.
(** Source: config/types/endpoints/common.rs [default_media_max_size] *)
Definition default_media_max_size : Z := 100 * 1024 * 1024.
(** Source: config/types/endpoints/common.rs [default_max_versions] *)
Definition default_max_versions : Z := 10.
(** Source: config/types/endpoints/common.rs [default_quality] *)
Definition default_quality : Z := 85.
(** Source: config/types/endpoints/common.rs [default_cover_fit] *)
Definition default_cover_fit : ImageResizeFit := Cover.
(** Source: config/types/endpoints/common.rs [default_media_refs_table] *)
Definition default_media_refs_table : string := "media_entity_refs".
(** Source: config/types/endpoints/common.rs [default_media_id_col] *)
Definition default_media_id_col : string := "media_id".
(** Source: config/types/endpoints/common.rs [default_entity_id_col] *)
Definition default_entity_id_col : string := "entity_id".
(** Source: config/types/endpoints/common.rs [default_content_type_col] *)
Definition default_content_type_col : string := "content_type".
(** Source: config/types/endpoints/common.rs [default_order_col] *)
Definition default_order_col : string := "attachment_order".
(** Source: config/types/endpoints/common.rs [default_media_trash_retention] *)
Definition default_media_trash_retention : Z := 14.
(** Source: config/types/endpoints/common.rs [default_trash_prefix] *)
Definition default_trash_prefix : string := ".trash".
(** Source: config/types/endpoints/common.rs [default_trash_admin_roles] *)
Definition default_trash_admin_roles : list string := ["admin"].
(** Source: config/types/endpoints/common.rs [default_file_store_trash_retention] *)
Definition default_file_store_trash_retention : Z := 30.
(** Source: config/types/endpoints/common.rs [default_share_ttl] *)
Definition default_share_ttl : Z := 86400.
(** Source: config/types/endpoints/common.rs [default_share_max_ttl] *)
Definition default_share_max_ttl : Z := 604800.
(** Source: config/types/endpoints/common.rs [default_shared_prefix] *)
Definition default_shared_prefix : string := "shared".
(** Source: config/types/endpoints/common.rs [default_resize_dimension] *)
Definition default_resize_dimension : Z := IMAGE_MAX_DIMENSION.
(** Source: config/types/endpoints/common.rs [default_resize_formats] *)
Definition default_resize_formats : list string := ["jpg"; "jpeg"; "png"; "webp"].
(** Source: config/types/endpoints/common.rs [default_media_columns] *)
Definition default_media_columns : list string := ["auto"].
(** Source: config/types/auth.rs [default_role_claim] *)
Definition default_role_claim : string := "groups".
(** Source: config/types/auth.rs [default_state_ttl] *)
Definition default_state_ttl : Z := 300.
(** Source: config/types/auth.rs [default_max_pending_states] *)
Definition default_max_pending_states : Z := 1000.
(** Source: config/types/rate_limit.rs [default_cleanup_threshold] *)
Definition default_cleanup_threshold : Z := 10000.

(** One leading dot is dropped; the case is kept.
    Source: config/types/endpoints/common.rs [normalize_extension] *)
Definition normalize_extension (ext : string) : string := default ext (strip_prefix "." ext).

(** What is done with the list of the file.
    Source: config/types/endpoints/common.rs [deserialize_allowed_extensions] *)
Definition deserialize_allowed_extensions (raw : list string) : list string :=
  map normalize_extension raw.

(** ** Sections with a default written out *)

(** Source: config/types/endpoints/common.rs [RolesConfig::default] *)
Definition default_RolesConfig : RolesConfig := Flat [].

(** Derived.
    Source: config/types/endpoints/common.rs [MethodSpecificRoles] *)
Definition default_MethodSpecificRoles : MethodSpecificRoles := {|
  ms_get := None; ms_post := None; ms_put := None; ms_patch := None; ms_delete := None;
  ms_head := None; ms_options := None |}.

(** Source: config/types/endpoints/static_files.rs [UploadConfig::default] *)
Definition default_UploadConfig : UploadConfig := {|
  up_enabled := false; up_max_size := 10 * 1024 * 1024; up_allowed_extensions := [];
  up_create_subdirectory := None; up_mime_detection := UploadByMagic |}.

(** Source: config/types/endpoints/static_files.rs [ImageResizeConfig::default] *)
Definition default_ImageResizeConfig : ImageResizeConfig := {|
  ir_enabled := false; ir_max_dimension := IMAGE_MAX_DIMENSION;
  ir_supported_formats := ["jpg"; "jpeg"; "png"; "webp"]; ir_default_fit := ScaleDown;
  ir_cache_dir := None |}.

(** Source: config/types/endpoints/static_files.rs [StreamingConfig::default] *)
Definition default_StreamingConfig : StreamingConfig := {|
  str_enabled := false; str_buffer_size := 65536; str_threshold := 1024 * 1024;
  str_include_content_length := true |}.

(** Source: config/types/endpoints/spa_host.rs [SpaHostConfig::default] *)
Definition default_SpaHostConfig : SpaHostConfig := {|
  spa_storage := ""; spa_index := "index.html"; spa_cache_max_age := 3600; spa_cache_rules := [];
  spa_etag := true; spa_head_support := true; spa_fallback_status := 200 |}.

(** Source: config/types/endpoints/proxy.rs [ProxyTimeouts::default] *)
Definition default_ProxyTimeouts : ProxyTimeouts := {| pt_connect := 5; pt_read := 30; pt_total := 60 |}.

(** Source: config/types/endpoints/custom_response.rs [CustomResponseConfig::default] *)
Definition default_CustomResponseConfig : CustomResponseConfig := {|
  cu_status := 200; cu_content_type := "application/json"; cu_body := ""; cu_headers := ∅ |}.

(** Source: config/types/auth.rs [JwtRevocationConfig::default] *)
Definition default_JwtRevocationConfig : JwtRevocationConfig := {|
  jrc_store := StoreInMemory; jrc_db_table := Some "token_blacklist";
  jrc_cleanup_interval_secs := Some 3600%Z |}.

(** Source: config/types/auth.rs [ApiKeyConfig::default] *)
Definition default_ApiKeyConfig : ApiKeyConfig := {|
  ak_location := LocHeader; ak_name := "X-API-Key"; ak_keys := [] |}.

(** Source: config/types/auth.rs [BasicAuthConfig::default] *)
Definition default_BasicAuthConfig : BasicAuthConfig := {| ba_realm := "main-serve"; ba_users := [] |}.

(** Source: config/types/auth.rs [RoleMappingConfig::default] *)
Definition default_RoleMappingConfig : RoleMappingConfig := {|
  rm_default_role := "user"; rm_role_claim := default_role_claim; rm_role_map := [];
  rm_match_mode := Exact |}.

(** Source: config/types/logging.rs [default_max_body_log_size] *)
Definition default_max_body_log_size : Z := 16 * 1024.

(** Source: config/types/logging.rs [LoggingConfig::default] *)
Definition default_LoggingConfig : LoggingConfig := {|
  log_level := LInfo; log_format := FmtPretty; log_request_body := false;
  log_response_body := false; log_max_body_log_size := default_max_body_log_size |}.

(** ** Sections that derive their default *)

(** Source: config/types/auth.rs [AuthConfig] *)
Definition default_AuthConfig : AuthConfig := {|
  auth_jwt := None; auth_api_key := None; auth_basic := None; auth_oauth2 := None;
  auth_register := None |}.

(** Source: config/types/store.rs [StoreConfig] *)
Definition default_StoreConfig : StoreConfig := {|
  st_backend := Native; st_root := None; st_s3 := None; st_azure := None; st_gcs := None |}.

(** Source: config/types/endpoints/proxy.rs [ProxyConfig] *)
Definition default_ProxyConfig : ProxyConfig := {|
  px_upstream := ""; px_path_rewrite := None; px_headers := ∅; px_timeouts := default_ProxyTimeouts;
  px_max_response_size := 0 |}.

(** Source: config/types/endpoints/file_store.rs [FileStoreConfig] *)
Definition default_FileStoreConfig : FileStoreConfig := {|
  fs_storage := ""; fs_table := ""; fs_database := ""; fs_metadata_columns := [];
  fs_field_permissions := None; fs_ownership := None; fs_trash := None; fs_content_references := None;
  fs_pagination := default_PaginationConfig; fs_sorting := default_SortingConfig;
  fs_filtering := default_FilteringConfig |}.

(** Source: config/types/endpoints/media.rs [MediaConfig] *)
Definition default_MediaConfig : MediaConfig := {|
  media_storage := ""; media_table := ""; media_database := ""; media_columns := [];
  media_metadata_columns := []; media_upload := None; media_move_config := None;
  media_rename := None; media_delete := None; media_user_scope := None;
  media_content_references := None; media_trash := None; media_sharing := None;
  media_pagination := default_PaginationConfig; media_sorting := default_SortingConfig;
  media_filtering := default_FilteringConfig; media_facets := []; media_image_resize := None |}.

(** Source: config/types/mod.rs [AppConfig] *)
Definition default_AppConfig : AppConfig := {|
  cfg_server := default_ServerConfig; cfg_logging := default_LoggingConfig;
  cfg_cors := default_CorsConfig; cfg_rate_limit := default_RateLimitConfig; cfg_databases := ∅;
  cfg_tables := []; cfg_auth := default_AuthConfig; cfg_endpoints := []; cfg_stores := ∅;
  cfg_role_hierarchy := None; cfg_global_schemas := None |}.

(** ** Extensions *)

Lemma normalize_extension_plain ext : strip_prefix "." ext = None → normalize_extension ext = ext.
Proof. unfold normalize_extension. by intros ->. Qed.

(** The extensions that are allowed start with no dot of their own, unless
    the file wrote two. *)
Lemma normalize_extension_idempotent ext :
  starts_with ".." ext = false → normalize_extension (normalize_extension ext) = normalize_extension ext.
Proof.
  intros Hd. destruct (strip_prefix "." ext) as [r|] eqn:Hp; [|by rewrite !(normalize_extension_plain ext Hp)].
  assert (normalize_extension ext = r) as -> by (unfold normalize_extension; by rewrite Hp).
  apply normalize_extension_plain. apply strip_prefix_Some in Hp as ->.
  destruct (strip_prefix "." r) as [r'|] eqn:Hr; [|done].
  apply strip_prefix_Some in Hr as ->. discriminate Hd.
Qed.

(** ** Debug output

    [{:?}] of the sections that hold a secret, most written out so that it
    does not show. The text of a string is [debug_str] of it; that of other
    values is what [derive(Debug)] makes of them. *)

Section debug.
Context (debug_str : string → string).

(** [Formatter::debug_struct] *)
Definition debug_struct (name : string) (fields : list (string * string)) : string :=
  name +:+ " { " +:+ join ", " (map (λ f, f.1 +:+ ": " +:+ f.2) fields) +:+ " }".
Definition debug_option {A} (debug : A → string) (o : option A) : string :=
  match o with Some a => "Some(" +:+ debug a +:+ ")" | None => "None" end.
Definition debug_list {A} (debug : A → string) (l : list A) : string := "[" +:+ join ", " (map debug l) +:+ "]".
Definition debug_bool (b : bool) : string := if b then "true" else "false".
Definition redacted : string := debug_str "[REDACTED]".

Definition debug_JwtAlgorithm (a : JwtAlgorithm) : string :=
  match a with
  | HS256 => "HS256" | HS384 => "HS384" | HS512 => "HS512" | RS256 => "RS256" | RS384 => "RS384"
  | RS512 => "RS512" | ES256 => "ES256" | ES384 => "ES384"
  end.
Definition debug_RevocationStoreType (t : RevocationStoreType) : string :=
  match t with StoreInMemory => "InMemory" | StoreDatabase => "Database" end.
Definition debug_JwtRevocationConfig (c : JwtRevocationConfig) : string :=
  debug_struct "JwtRevocationConfig"
    [("store", debug_RevocationStoreType (jrc_store c)); ("db_table", debug_option debug_str (jrc_db_table c));
     ("cleanup_interval_secs", debug_option show_Z (jrc_cleanup_interval_secs c))].
Definition debug_RoleMappingConfig (c : RoleMappingConfig) : string :=
  debug_struct "RoleMappingConfig"
    [("default_role", debug_str (rm_default_role c)); ("role_claim", debug_str (rm_role_claim c));
     ("role_map", "{" +:+ join ", " (map (λ kv, debug_str kv.1 +:+ ": " +:+ debug_str kv.2) (rm_role_map c)) +:+ "}");
     ("match_mode", match rm_match_mode c with Exact => "Exact" | Contains => "Contains" end)].

(** Source: config/types/auth.rs:366-379 [JwtConfig (Debug)] *)
Definition debug_JwtConfig (c : JwtConfig) : string :=
  debug_struct "JwtConfig"
    [("secret", redacted); ("algorithm", debug_JwtAlgorithm (jwt_algorithm c)); ("issuer", debug_str (jwt_issuer c));
     ("audience", debug_str (jwt_audience c)); ("expiry", show_Z (jwt_expiry c));
     ("role_claim", debug_str (jwt_role_claim c));
     ("revocation", debug_option debug_JwtRevocationConfig (jwt_revocation c))].

(** Source: config/types/auth.rs:381-389 [ApiKeyEntry (Debug)] *)
Definition debug_ApiKeyEntry (e : ApiKeyEntry) : string :=
  debug_struct "ApiKeyEntry" [("key", redacted); ("role", debug_option debug_str (ake_role e))].

(** Source: config/types/auth.rs:391-400 [BasicAuthUser (Debug)] *)
Definition debug_BasicAuthUser (u : BasicAuthUser) : string :=
  debug_struct "BasicAuthUser"
    [("username", debug_str (bu_username u)); ("password_hash", redacted); ("role", debug_option debug_str (bu_role u))].

(** Source: config/types/auth.rs:402-421 [OAuth2Config (Debug)] *)
Definition debug_OAuth2Config (c : OAuth2Config) : string :=
  debug_struct "OAuth2Config"
    [("provider", debug_str (oa_provider c)); ("authorization_url", debug_str (oa_authorization_url c));
     ("token_url", debug_str (oa_token_url c)); ("userinfo_url", debug_str (oa_userinfo_url c));
     ("client_id", debug_str (oa_client_id c)); ("client_secret", redacted);
     ("scopes", debug_list debug_str (oa_scopes c)); ("redirect_url", debug_str (oa_redirect_url c));
     ("success_url", debug_str (oa_success_url c)); ("cookie_name", debug_str (oa_cookie_name c));
     ("state_ttl", show_Z (oa_state_ttl c)); ("max_pending_states", show_Z (oa_max_pending_states c));
     ("role_mapping", debug_option debug_RoleMappingConfig (oa_role_mapping c))].

(** Source: config/types/server.rs:54-62 [TlsConfig (Debug)] *)
Definition debug_TlsConfig (c : TlsConfig) : string :=
  debug_struct "TlsConfig" [("cert", debug_str (tls_cert c)); ("key", redacted)].

(** Source: config/types/store.rs:70-82 [S3StoreConfig (Debug)] *)
Definition debug_S3StoreConfig (c : S3StoreConfig) : string :=
  debug_struct "S3StoreConfig"
    [("region", debug_str (s3_region c)); ("bucket", debug_str (s3_bucket c)); ("access_key", debug_str (s3_access_key c));
     ("secret_key", redacted); ("endpoint", debug_option debug_str (s3_endpoint c));
     ("force_path_style", debug_bool (s3_force_path_style c))].

(** Derived.
    Source: config/types/store.rs [AzureStoreConfig] *)
Definition debug_AzureStoreConfig (c : AzureStoreConfig) : string :=
  debug_struct "AzureStoreConfig"
    [("account_name", debug_str (az_account_name c)); ("account_key", debug_str (az_account_key c));
     ("container", debug_str (az_container c))].

(** Two sections that differ in their secret only are printed alike. *)
Theorem secrets_are_redacted :
  (∀ s s' a i au e r rv, debug_JwtConfig (Build_JwtConfig s a i au e r rv) = debug_JwtConfig (Build_JwtConfig s' a i au e r rv)) ∧
  (∀ k k' r, debug_ApiKeyEntry (Build_ApiKeyEntry k r) = debug_ApiKeyEntry (Build_ApiKeyEntry k' r)) ∧
  (∀ u h h' r, debug_BasicAuthUser (Build_BasicAuthUser u h r) = debug_BasicAuthUser (Build_BasicAuthUser u h' r)) ∧
  (∀ p a t u i s s' sc r su c l m rm,
     debug_OAuth2Config (Build_OAuth2Config p a t u i s sc r su c l m rm) =
     debug_OAuth2Config (Build_OAuth2Config p a t u i s' sc r su c l m rm)) ∧
  (∀ c k k', debug_TlsConfig (Build_TlsConfig c k) = debug_TlsConfig (Build_TlsConfig c k')) ∧
  (∀ r b a s s' e f, debug_S3StoreConfig (Build_S3StoreConfig r b a s e f) = debug_S3StoreConfig (Build_S3StoreConfig r b a s' e f)).
Proof. done. Qed.
End debug.

(** The key of an Azure store is printed. *)
Theorem azure_key_is_printed (name key container : string) :
  debug_AzureStoreConfig id (Build_AzureStoreConfig name key container) =
  "AzureStoreConfig { account_name: " +:+ name +:+ ", account_key: " +:+ key +:+ ", container: " +:+ container +:+ " }".
Proof. unfold debug_AzureStoreConfig, debug_struct. cbn. by rewrite !app_assoc. Qed.
