(* ===== verification/Errors.v ===== *)
(** * Errors and their HTTP responses

    The application error type (src/src/error.rs), the storage error type and
    its conversion (src/src/storage/error.rs), and the response an error
    becomes. A foreign error ([sqlx::Error], [std::io::Error]) is kept as its
    displayed text. *)

From S2P Require Import Prelude RustStr Config.
Local Open Scope stdpp_scope.

(** Source: error.rs [AppError] *)
Inductive AppError :=
| ConfigurationError (m : string)
| Validation (m : string)
| Database (e : string)
| Auth (m : string)
| AuthChallenge (m challenge : string)
| Forbidden (m : string)
| NotFound (m : string)
| MethodNotAllowed (message : string) (allowed : list HttpMethod)
| RateLimited (retry_after : option Z)
| BadRequest (m : string)
| JsonValidationError (message : string) (details : list string)
| PayloadTooLarge (m : string)
| ServiceUnavailable (m : string)
| FileOperation (m : string)
| Conflict (message : string) (details : list string)
| Internal (m : string)
| Io (e : string)
| Body (m : string)
| ParseError (m : string)
| RequestedRangeNotSatisfiable (message : string) (content_range : option string).

Global Instance AppError_eq_dec : EqDecision AppError.
Proof. solve_decision. Defined.

(** The outcome of code that may panic. *)
Inductive outcome (A : Type) :=
| Returns (r : result AppError A)
| Panics.
Arguments Returns {A} r.
Arguments Panics {A}.

(** The [#[error(...)]] attributes of the variants.
    Source: error.rs:19-272 [AppError (Display)] *)
Definition show_AppError (e : AppError) : string :=
  match e with
  | ConfigurationError m => "Configuration error: " +:+ m
  | Validation m => "Validation error: " +:+ m
  | Database m => "Database error: " +:+ m
  | Auth m | AuthChallenge m _ => "Authentication error: " +:+ m
  | Forbidden m => "Authorization error: " +:+ m
  | NotFound m => "Not found: " +:+ m
  | MethodNotAllowed m _ => "Method not allowed: " +:+ m
  | RateLimited _ => "Rate limited"
  | BadRequest m => "Bad request: " +:+ m
  | JsonValidationError m _ => "JSONB validation failed: " +:+ m
  | PayloadTooLarge m => "Payload too large: " +:+ m
  | ServiceUnavailable m => "Service unavailable: " +:+ m
  | FileOperation m => "File operation error: " +:+ m
  | Conflict m _ => "Conflict: " +:+ m
  | Internal m => "Internal error: " +:+ m
  | Io m => "IO error: " +:+ m
  | Body m => "Body extraction error: " +:+ m
  | ParseError m => "Parse error: " +:+ m
  | RequestedRangeNotSatisfiable m _ => "Requested range not satisfiable: " +:+ m
  end.

(** Source: error.rs:274-299 [ErrorBody, ErrorDetail, JsonValidationErrorBody] *)
Record ErrorDetail := {
  ed_code : string;
  ed_message : string;
  ed_details : option (list string);
}.

Record response := {
  rsp_status : Z;
  rsp_error : ErrorDetail;
  rsp_headers : list (string * string);
}.

(** Status code and machine-readable code of each variant.
    Source: error.rs:306-347 [AppError::into_response] *)
Definition status_and_code (e : AppError) : Z * string :=
  match e with
  | ConfigurationError _ => (500, "config_error")
  | Validation _ => (500, "validation_error")
  | Database _ => (500, "database_error")
  | Auth _ | AuthChallenge _ _ => (401, "auth_error")
  | Forbidden _ => (403, "forbidden")
  | NotFound _ => (404, "not_found")
  | RateLimited _ => (429, "rate_limited")
  | BadRequest _ | JsonValidationError _ _ => (400, "bad_request")
  | Internal _ => (500, "internal_error")
  | Io _ => (500, "io_error")
  | Conflict _ _ => (409, "conflict")
  | MethodNotAllowed _ _ => (405, "method_not_allowed")
  | PayloadTooLarge _ => (413, "payload_too_large")
  | ServiceUnavailable _ => (503, "service_unavailable")
  | FileOperation _ => (500, "file_operation")
  | Body _ => (413, "request_body_error")
  | ParseError _ => (400, "json_parse_error")
  | RequestedRangeNotSatisfiable _ _ => (416, "range_not_satisfiable")
  end%Z.

(** Source: error.rs:361-374 [AppError::into_response] *)
Definition details_and_message (e : AppError) : option (list string) * string :=
  match e with
  | Database _ => (None, "A database error occurred")
  | ConfigurationError _ | Validation _ | FileOperation _ | Internal _ | Io _ =>
      (None, "An internal error occurred")
  | Conflict m details => (Some details, m)
  | other => (None, show_AppError other)
  end.

Section responses.
(** [HeaderValue::from_str] succeeds on this text (the [http] crate). *)
Context (header_value_ok : string → bool).

Definition header (name v : string) : list (string * string) :=
  if header_value_ok v then [(name, v)] else [].

(** Source: error.rs [add_error_headers] *)
Definition add_error_headers (e : AppError) : list (string * string) :=
  match e with
  | AuthChallenge _ challenge => header "www-authenticate" challenge
  | RateLimited (Some secs) => header "retry-after" (show_Z secs)
  | MethodNotAllowed _ allowed =>
      if bool_decide (allowed = []) then []
      else header "allow" (join ", " (map method_as_str allowed))
  | RequestedRangeNotSatisfiable _ (Some cr) => header "content-range" cr
  | _ => []
  end.

(** Source: error.rs [AppError::into_response] *)
Definition into_response (e : AppError) : response :=
  let '(status, code) := status_and_code e in
  match e with
  | JsonValidationError message details =>
      {| rsp_status := status;
         rsp_error := {| ed_code := "bad_request"; ed_message := message;
                         ed_details := Some details |};
         rsp_headers := [] |}
  | _ =>
      let '(details, message) := details_and_message e in
      {| rsp_status := status;
         rsp_error := {| ed_code := code; ed_message := message; ed_details := details |};
         rsp_headers := add_error_headers e |}
  end.
End responses.

(** ** Storage errors *)

(** Paths are kept as displayed text.
    Source: storage/error.rs [StorageError] *)
Inductive StorageError :=
| SNotFound (p : string)
| SAlreadyExists (p : string)
| SDirectoryNotEmpty (p : string)
| SForbidden (m : string)
| SInvalidFilename (m : string)
| SIo (p e : string)
| SInvalidBackend (m : string)
| SInternal (m : string)
| SServiceUnavailable (m : string)
| SAuthentication (m : string).

Global Instance StorageError_eq_dec : EqDecision StorageError.
Proof. solve_decision. Defined.

(** Source: storage/error.rs:46-78 [From<StorageError> for AppError] *)
Definition from_storage_error (e : StorageError) : AppError :=
  match e with
  | SNotFound p => NotFound ("File not found: " +:+ p)
  | SAlreadyExists p => FileOperation ("File already exists: " +:+ p)
  | SDirectoryNotEmpty p => FileOperation ("Directory not empty: " +:+ p)
  | SForbidden m => Forbidden m
  | SInvalidFilename m => BadRequest ("Invalid filename: " +:+ m)
  | SIo p e => FileOperation ("File operation failed: " +:+ p +:+ ": " +:+ e)
  | SInvalidBackend m => ConfigurationError ("Invalid storage backend: " +:+ m)
  | SInternal m => Internal m
  | SServiceUnavailable m => ServiceUnavailable m
  | SAuthentication m => Auth m
  end.

(** ** What a client can learn

    [same_kind e e'] relates two errors that differ only in the text that
    describes an internal failure. *)
Definition same_internal_kind (e e' : AppError) : bool :=
  match e, e' with
  | ConfigurationError _, ConfigurationError _ | Validation _, Validation _
  | Database _, Database _ | FileOperation _, FileOperation _
  | Internal _, Internal _ | Io _, Io _ => true
  | _, _ => false
  end.

(** The client-error variants of the documentation on [AppError]. *)
Definition is_client_error (e : AppError) : bool :=
  match e with
  | ConfigurationError _ | Validation _ | Database _ | ServiceUnavailable _
  | FileOperation _ | Internal _ | Io _ => false
  | _ => true
  end.

(** The response of an internal error is the same whatever the
    message it carries: no path, SQL text or connection string reaches the
    client, for every way of accepting header values. *)
Theorem internal_errors_do_not_leak (hv : string → bool) (e e' : AppError)
    (Hkind : same_internal_kind e e' = true) :
  into_response hv e = into_response hv e' ∧
  rsp_status (into_response hv e) = 500%Z ∧
  rsp_headers (into_response hv e) = [].
Proof. by destruct e, e'. Qed.

Lemma internal_errors_do_not_leak_witness :
  into_response (λ _, true) (Database "postgres://user:pw@host")
  = into_response (λ _, true) (Database "").
Proof.
  exact (proj1 (internal_errors_do_not_leak (λ _, true)
    (Database "postgres://user:pw@host") (Database "") eq_refl)).
Defined.
