(* ===== verification/Deserialize.v ===== *)
(** * Reading a configuration

    How the YAML of a configuration file becomes the records of [Config]: the
    [#\[derive(Deserialize)\]] of the structs and enums of
    src/src/config/types/ with their serde attributes, and the one that also
    derives [Serialize]. What the derived code asks of a format is a record of
    functions, a parameter; the code itself is a value of [schema], one
    [field] per field, that says how its entry is read and what stands for it
    when the file leaves it out. *)

From S2P Require Import Prelude RustStr Config.
Local Open Scope stdpp_scope.

(** ** Formats *)

(** The methods of a deserializer of values and the constructors of its
    errors. [de_unsigned] takes the largest integer of the type that is read;
    [de_option] tells a missing value from another; [de_struct] gives the
    elements of a sequence or the entries of a mapping; [de_variant] gives the
    name of a variant without content. *)
Record deserializer := {
  de_bool : yaml → result string bool;
  de_unsigned : Z → yaml → result string Z;
  de_str : yaml → result string string;
  de_option : yaml → result string (option yaml);
  de_seq : yaml → result string (list yaml);
  de_map : yaml → result string (list (yaml * yaml));
  de_struct : yaml → result string (list yaml + list (yaml * yaml));
  de_variant : yaml → result string string;
  de_value : yaml → result string yaml;
  unknown_field : string → list string → string;
  unknown_variant : string → list string → string;
  missing_field : string → string;
  duplicate_field : string → string;
  invalid_length : nat → string;
  untagged_mismatch : string → string;
}.

(** A format reads a value directly, or from the copy that an untagged enum
    makes of it. *)
Record format := { direct : deserializer; buffered : deserializer }.

Definition reader (A : Type) : Type := format → yaml → result string A.

(** What a type promises that derives [Deserialize]. *)
Class Deserialize (A : Type) := deserialize : reader A.

(** The order in which a hash map is iterated. *)
Class HashOrder := hash_order : ∀ A : Type, gmap string A → list (string * A).

(** ** Types of the standard library *)

Global Instance read_bool : Deserialize bool := λ F v, de_bool (direct F) v.
Global Instance read_string : Deserialize string := λ F v, de_str (direct F) v.
Global Instance read_value : Deserialize yaml := λ F v, de_value (direct F) v.

(** [u8], [u16], [u32], and [u64] or [usize]. *)
Definition unsigned (bits : Z) : reader Z := λ F v, de_unsigned (direct F) (2 ^ bits - 1) v.

Definition read_option {A} (r : reader A) : reader (option A) := λ F v,
  o ← de_option (direct F) v;
  match o with Some v' => Some <$> r F v' | None => Ok None end.

(** A loop that collects results. *)
Fixpoint read_all {A B} (f : A → result string B) (l : list A) : result string (list B) :=
  match l with
  | [] => Ok []
  | x :: l' => y ← f x; ys ← read_all f l'; Ok (y :: ys)
  end.

Definition read_vec {A} (r : reader A) : reader (list A) := λ F v,
  l ← de_seq (direct F) v; read_all (r F) l.

Definition read_entry {A} (r : reader A) (F : format) (kv : yaml * yaml) : result string (string * A) :=
  k ← de_str (direct F) kv.1; a ← r F kv.2; Ok (k, a).

(** A [HashMap]: a later entry replaces an earlier one of the same key. *)
Definition read_hash_map {A} (r : reader A) : reader (gmap string A) := λ F v,
  m ← de_map (direct F) v;
  entries ← read_all (read_entry r F) m;
  Ok (foldl (λ acc kv, <[kv.1 := kv.2]> acc) ∅ entries).

Global Instance option_deserialize `{Deserialize A} : Deserialize (option A) := read_option deserialize.
Global Instance vec_deserialize `{Deserialize A} : Deserialize (list A) := read_vec deserialize.
Global Instance hash_map_deserialize `{Deserialize A} : Deserialize (gmap string A) := read_hash_map deserialize.

(** ** Derived code *)

(** [rename_all] on the names of variants. *)
Definition lowercase : string → string := to_lower.
Fixpoint underscored (s : string) : string :=
  match s with
  | "" => ""
  | String a s' =>
      (if is_upper a then String "_" (String (lower_ascii a) "") else String a "") +:+ underscored s'
  end.
Definition snake_case (s : string) : string :=
  match s with
  | "" => ""
  | String a s' => String (lower_ascii a) (underscored s')
  end.

(** An enum whose variants have no content. *)
Definition unit_enum {A} (rename : string → string) (variants : list (string * A)) : reader A := λ F v,
  name ← de_variant (direct F) v;
  match find_first (λ p, String.eqb (rename p.1) name) variants with
  | Some p => Ok p.2
  | None => Err (unknown_variant (direct F) name (map (λ p, rename p.1) variants))
  end.

(** A field under its name and its aliases. Its value is read when the entry
    is met, so that the first error of a file is reported. *)
Record field := { f_names : list string; f_check : format → yaml → result string () }.

Definition f_name (f : field) : string := default "" (head (f_names f)).

(** The fields of a struct, and the struct from the entries of a mapping or
    from the elements of a sequence that are left, the next of which has the
    given index. *)
Record schema (A : Type) := {
  sc_fields : list field;
  sc_build : format → list (string * yaml) → result string A;
  sc_elements : format → nat → list yaml → result string (A * list yaml);
}.
Arguments sc_fields {A} s. Arguments sc_build {A} s. Arguments sc_elements {A} s.

(** The first entry of that name. *)
Definition entry (name : string) (seen : list (string * yaml)) : option yaml :=
  snd <$> find_first (λ kv, String.eqb kv.1 name) seen.

(** A field, with what stands for it when it is left out; [None] is an
    error. *)
Definition field_schema {A} (names : list string) (r : reader A) (absent : option A) : schema A := {|
  sc_fields := [{| f_names := names; f_check := λ F v, _ ← r F v; Ok tt |}];
  sc_build := λ F seen,
    let name := default "" (head names) in
    match entry name seen with
    | Some v => r F v
    | None => ok_or (missing_field (direct F) name) absent
    end;
  sc_elements := λ F i l,
    match l with
    | v :: l' => a ← r F v; Ok (a, l')
    | [] => a ← ok_or (invalid_length (direct F) i) absent; Ok (a, [])
    end;
|}.

(** A field without a default, one with a default, and the same for integers
    and other types that need a reader of their own. *)
Definition required_with {A} (r : reader A) (name : string) : schema A := field_schema [name] r None.
Definition defaulted_with {A} (r : reader A) (name : string) (d : A) : schema A :=
  field_schema [name] r (Some d).
Definition required `{Deserialize A} (name : string) : schema A := required_with deserialize name.
Definition defaulted `{Deserialize A} (name : string) (d : A) : schema A := defaulted_with deserialize name d.

(** A constructor, and one more argument of it. *)
Definition constructor {A} (a : A) : schema A := {|
  sc_fields := [];
  sc_build := λ _ _, Ok a;
  sc_elements := λ _ _ l, Ok (a, l);
|}.
Definition apply_schema {A B} (s : schema (A → B)) (t : schema A) : schema B := {|
  sc_fields := sc_fields s ++ sc_fields t;
  sc_build := λ F seen, f ← sc_build s F seen; a ← sc_build t F seen; Ok (f a);
  sc_elements := λ F i l,
    fl ← sc_elements s F i l;
    al ← sc_elements t F (i + length (sc_fields s)) fl.2;
    Ok (fl.1 al.1, al.2);
|}.
Notation "s '<*>' t" := (apply_schema s t) (at level 61, left associativity) : serve_scope.
Local Open Scope serve_scope.

Definition answers_to (key : string) (f : field) : bool := existsb (String.eqb key) (f_names f).

(** The loop over the entries of a mapping, under [deny_unknown_fields]. *)
Fixpoint read_entries (F : format) (fields : list field) (seen : list (string * yaml))
    (m : list (yaml * yaml)) : result string (list (string * yaml)) :=
  match m with
  | [] => Ok seen
  | (k, v) :: m' =>
      key ← de_str (direct F) k;
      match find_first (answers_to key) fields with
      | None => Err (unknown_field (direct F) key (concat (map f_names fields)))
      | Some f =>
          match entry (f_name f) seen with
          | Some _ => Err (duplicate_field (direct F) (f_name f))
          | None =>
              _ ← f_check f F v;
              read_entries F fields (seen ++ [(f_name f, v)]) m'
          end
      end
  end.

Definition derive_struct {A} (s : schema A) : reader A := λ F v,
  input ← de_struct (direct F) v;
  match input with
  | inl elements =>
      al ← sc_elements s F 0 elements;
      match al.2 with
      | [] => Ok al.1
      | _ => Err (invalid_length (direct F) (length elements))
      end
  | inr entries => seen ← read_entries F (sc_fields s) [] entries; sc_build s F seen
  end.

(** ** Databases and tables *)

(** Source: config/types/database.rs [DatabaseDriver] *)
Global Instance read_DatabaseDriver : Deserialize DatabaseDriver :=
  unit_enum lowercase [("Postgres", Postgres); ("Mysql", Mysql); ("Sqlite", Sqlite)].

(** Source: config/types/database.rs [DatabaseConfig] *)
Global Instance read_DatabaseConfig : Deserialize DatabaseConfig :=
  let d := default_DatabaseConfig in
  derive_struct (constructor Build_DatabaseConfig
    <*> defaulted "driver" (dbc_driver d)
    <*> defaulted "url" (dbc_url d)
    <*> defaulted_with (unsigned 32) "min_connections" (dbc_min_connections d)
    <*> defaulted_with (unsigned 32) "max_connections" (dbc_max_connections d)
    <*> defaulted "auto_migrate" (dbc_auto_migrate d)
    <*> defaulted "allow_destructive" (dbc_allow_destructive d)
    <*> defaulted_with (unsigned 64) "acquire_timeout" (dbc_acquire_timeout d)).

(** The variants, by the names of the source. *)
Definition column_types : list (string * ColumnType) :=
  [("Integer", Integer); ("Bigint", Bigint); ("Smallint", Smallint); ("Serial", Serial);
   ("Bigserial", Bigserial); ("Text", Text); ("Varchar", Varchar); ("Char", Char);
   ("Boolean", Boolean); ("Float", Float); ("Double", Double); ("Decimal", Decimal);
   ("Date", Date); ("Timestamp", Timestamp); ("Timestamptz", Timestamptz); ("Uuid", Uuid);
   ("Json", Json); ("Jsonb", Jsonb); ("Blob", Blob); ("Bytea", Bytea)].

(** Source: config/types/database.rs [ColumnType] *)
Global Instance read_ColumnType : Deserialize ColumnType := unit_enum lowercase column_types.

(** Source: config/types/database.rs [ColumnConfig] *)
Definition ColumnConfig_schema : schema ColumnConfig :=
  let d := default_ColumnConfig in
  constructor Build_ColumnConfig
    <*> defaulted "name" (col_name d)
    <*> defaulted "type" (col_type d)
    <*> defaulted "primary_key" (col_primary_key d)
    <*> defaulted "nullable" (col_nullable d)
    <*> defaulted "default" (col_default d)
    <*> defaulted "unique" (col_unique d)
    <*> defaulted "indexed" (col_indexed d)
    <*> defaulted "validation_schema" (col_validation_schema d)
    <*> defaulted "validation" (col_validation d)
    <*> defaulted "validation_schema_ref" (col_validation_schema_ref d).

Global Instance read_ColumnConfig : Deserialize ColumnConfig := derive_struct ColumnConfig_schema.

(** Source: config/types/database.rs [default_fk_action] *)
Definition default_fk_action : ForeignKeyAction := Restrict.

(** Source: config/types/database.rs [ForeignKeyAction] *)
Global Instance read_ForeignKeyAction : Deserialize ForeignKeyAction :=
  unit_enum snake_case [("Cascade", Cascade); ("SetNull", SetNull); ("Restrict", Restrict); ("NoAction", NoAction)].

(** Source: config/types/database.rs [ForeignKeyConfig] *)
Global Instance read_ForeignKeyConfig : Deserialize ForeignKeyConfig :=
  derive_struct (constructor Build_ForeignKeyConfig
    <*> required "column" <*> required "references_table" <*> required "references_column"
    <*> defaulted "on_delete" default_fk_action <*> defaulted "on_update" default_fk_action).

(** Source: config/types/database.rs [TableConfig] *)
Global Instance read_TableConfig : Deserialize TableConfig :=
  derive_struct (constructor Build_TableConfig
    <*> required "name" <*> required "database" <*> defaulted "columns" [] <*> defaulted "foreign_keys" []).

(** [Serialize]: a variant is its name, a struct the mapping of its fields.
    Source: config/types/database.rs [ColumnType] *)
Definition write_ColumnType (t : ColumnType) : yaml :=
  YString (lowercase (default "" (fst <$> find_first (λ p, bool_decide (p.2 = t)) column_types))).

Definition write_option {A} (w : A → yaml) (o : option A) : yaml :=
  match o with Some a => w a | None => YNull end.

(** Source: config/types/database.rs [ColumnConfig] *)
Definition write_ColumnConfig (c : ColumnConfig) : yaml :=
  let key name v := (YString name, v) in
  YMapping
    [key "name" (YString (col_name c));
     key "type" (write_ColumnType (col_type c));
     key "primary_key" (YBool (col_primary_key c));
     key "nullable" (YBool (col_nullable c));
     key "default" (write_option YString (col_default c));
     key "unique" (YBool (col_unique c));
     key "indexed" (YBool (col_indexed c));
     key "validation_schema" (write_option YString (col_validation_schema c));
     key "validation" (write_option id (col_validation c));
     key "validation_schema_ref" (write_option YString (col_validation_schema_ref c))].

(** ** Lists and CRUD *)

(** Source: config/types/endpoints/listing.rs [SortOrder] *)
Global Instance read_SortOrder : Deserialize SortOrder := unit_enum lowercase [("Asc", Asc); ("Desc", Desc)].

(** Source: config/types/endpoints/listing.rs [PaginationConfig] *)
Global Instance read_PaginationConfig : Deserialize PaginationConfig :=
  let d := default_PaginationConfig in
  derive_struct (constructor Build_PaginationConfig
    <*> defaulted "enabled" (pg_enabled d)
    <*> defaulted_with (unsigned 64) "default_page_size" (pg_default_page_size d)
    <*> defaulted_with (unsigned 64) "max_page_size" (pg_max_page_size d)).

(** Source: config/types/endpoints/listing.rs [FilteringConfig] *)
Global Instance read_FilteringConfig : Deserialize FilteringConfig :=
  let d := default_FilteringConfig in
  derive_struct (constructor Build_FilteringConfig
    <*> defaulted "enabled" (fc_enabled d) <*> defaulted "allowed_fields" (fc_allowed_fields d)).

(** Source: config/types/endpoints/listing.rs [SortingConfig] *)
Global Instance read_SortingConfig : Deserialize SortingConfig :=
  let d := default_SortingConfig in
  derive_struct (constructor Build_SortingConfig
    <*> defaulted "enabled" (sc_enabled d)
    <*> defaulted "default_field" (sc_default_field d)
    <*> defaulted "default_order" (sc_default_order d)
    <*> defaulted "allowed_fields" (sc_allowed_fields d)).

(** Source: db/query/types.rs [JoinType] *)
Global Instance read_JoinType : Deserialize JoinType :=
  unit_enum lowercase [("Inner", Inner); ("Left", Left); ("Right", Right)].

(** Source: db/query/types.rs [default_join_type] *)
Definition default_join_type : JoinType := Inner.

(** Source: db/query/types.rs [JoinConfig] *)
Global Instance read_JoinConfig : Deserialize JoinConfig :=
  derive_struct (constructor Build_JoinConfig
    <*> required "table" <*> required "on" <*> defaulted "join_type" default_join_type <*> defaulted "fields" []).

(** Source: config/types/endpoints/crud.rs [ComputedFieldConfig] *)
Global Instance read_ComputedFieldConfig : Deserialize ComputedFieldConfig :=
  derive_struct (constructor Build_ComputedFieldConfig <*> required "name" <*> required "expression").

(** Source: config/types/endpoints/crud.rs [CrudConfig] *)
Global Instance read_CrudConfig : Deserialize CrudConfig :=
  let d := default_CrudConfig in
  derive_struct (constructor Build_CrudConfig
    <*> defaulted "table" (crud_table d)
    <*> defaulted "database" (crud_database d)
    <*> defaulted "fields" (crud_fields d)
    <*> defaulted "writable_fields" (crud_writable_fields d)
    <*> defaulted "pagination" (crud_pagination d)
    <*> defaulted "filtering" (crud_filtering d)
    <*> defaulted "sorting" (crud_sorting d)
    <*> defaulted "where_clause" (crud_where_clause d)
    <*> defaulted "delete_where_clause" (crud_delete_where_clause d)
    <*> defaulted "update_where_clause" (crud_update_where_clause d)
    <*> defaulted "joins" []
    <*> defaulted "computed_fields" []
    <*> defaulted "insert_owner" None).

(** ** Methods and roles *)

(** Source: config/types/endpoints/common.rs [HttpMethod] *)
Global Instance read_HttpMethod : Deserialize HttpMethod :=
  unit_enum lowercase [("Get", Get); ("Post", Post); ("Put", Put); ("Patch", Patch); ("Delete", Delete);
                       ("Options", Options); ("Head", Head)].

(** Source: config/types/endpoints/common.rs [MethodSpecificRoles] *)
Global Instance read_MethodSpecificRoles : Deserialize MethodSpecificRoles :=
  derive_struct (constructor Build_MethodSpecificRoles
    <*> defaulted "get" None <*> defaulted "post" None <*> defaulted "put" None <*> defaulted "patch" None
    <*> defaulted "delete" None <*> defaulted "head" None <*> defaulted "options" None).

(** The first variant that can be read from the copy.
    Source: config/types/endpoints/common.rs [RolesConfig] *)
Global Instance read_RolesConfig : Deserialize RolesConfig := λ F v,
  let B := {| direct := buffered F; buffered := buffered F |} in
  match deserialize B v with
  | Ok roles => Ok (Flat roles)
  | Err _ =>
      match deserialize B v with
      | Ok ms => Ok (MethodSpecific ms)
      | Err _ => Err (untagged_mismatch (direct F) "RolesConfig")
      end
  end.

(** ** Policies *)

(** Source: config/types/cors.rs [CorsConfig] *)
Global Instance read_CorsConfig : Deserialize CorsConfig :=
  let d := default_CorsConfig in
  derive_struct (constructor Build_CorsConfig
    <*> defaulted "allowed_origins" (cors_allowed_origins d)
    <*> defaulted "allowed_methods" (cors_allowed_methods d)
    <*> defaulted "allowed_headers" (cors_allowed_headers d)
    <*> defaulted "allow_credentials" (cors_allow_credentials d)
    <*> defaulted_with (unsigned 64) "max_age" (cors_max_age d)).

(** Source: config/types/rate_limit.rs [RateLimitKeyStrategy] *)
Global Instance read_RateLimitKeyStrategy : Deserialize RateLimitKeyStrategy :=
  unit_enum lowercase [("Ip", KeyIp); ("Header", KeyHeader); ("Token", KeyToken)].

(** Source: config/types/rate_limit.rs [RateLimitConfig] *)
Global Instance read_RateLimitConfig : Deserialize RateLimitConfig :=
  let d := default_RateLimitConfig in
  derive_struct (constructor Build_RateLimitConfig
    <*> defaulted "enabled" (rl_enabled d)
    <*> defaulted_with (unsigned 64) "max_requests" (rl_max_requests d)
    <*> defaulted_with (unsigned 64) "window_seconds" (rl_window_seconds d)
    <*> defaulted "key_strategy" (rl_key_strategy d)
    <*> defaulted "key_header" (rl_key_header d)
    <*> defaulted_with (unsigned 64) "cleanup_threshold" default_cleanup_threshold).

(** ** Authentication *)

(** Source: config/types/auth.rs [PasswordHashAlgorithm] *)
Global Instance read_PasswordHashAlgorithm : Deserialize PasswordHashAlgorithm :=
  unit_enum snake_case [("Argon2id", Argon2id)].

(** Source: config/types/auth.rs [RegisterConfig] *)
Global Instance read_RegisterConfig : Deserialize RegisterConfig :=
  let d := default_RegisterConfig in
  derive_struct (constructor Build_RegisterConfig
    <*> defaulted "enabled" (reg_enabled d)
    <*> defaulted "table" (reg_table d)
    <*> defaulted "database" (reg_database d)
    <*> defaulted "default_role" (reg_default_role d)
    <*> defaulted "password_hash" Argon2id).

(** Source: config/types/auth.rs [RevocationStoreType] *)
Global Instance read_RevocationStoreType : Deserialize RevocationStoreType :=
  unit_enum snake_case [("InMemory", StoreInMemory); ("Database", StoreDatabase)].

(** Source: config/types/auth.rs [JwtRevocationConfig] *)
Global Instance read_JwtRevocationConfig : Deserialize JwtRevocationConfig :=
  let d := default_JwtRevocationConfig in
  derive_struct (constructor Build_JwtRevocationConfig
    <*> defaulted "store" (jrc_store d)
    <*> defaulted "db_table" (jrc_db_table d)
    <*> defaulted_with (read_option (unsigned 64)) "cleanup_interval_secs" (jrc_cleanup_interval_secs d)).

(** Source: config/types/auth.rs [JwtAlgorithm] *)
Global Instance read_JwtAlgorithm : Deserialize JwtAlgorithm :=
  unit_enum id [("HS256", HS256); ("HS384", HS384); ("HS512", HS512); ("RS256", RS256); ("RS384", RS384);
                ("RS512", RS512); ("ES256", ES256); ("ES384", ES384)].

(** Source: config/types/auth.rs [JwtConfig] *)
Global Instance read_JwtConfig : Deserialize JwtConfig :=
  let d := default_JwtConfig in
  derive_struct (constructor Build_JwtConfig
    <*> defaulted "secret" ""
    <*> defaulted "algorithm" (jwt_algorithm d)
    <*> defaulted "issuer" (jwt_issuer d)
    <*> defaulted "audience" (jwt_audience d)
    <*> defaulted_with (unsigned 64) "expiry" (jwt_expiry d)
    <*> defaulted "role_claim" (jwt_role_claim d)
    <*> defaulted "revocation" None).

(** Source: config/types/auth.rs [ApiKeyLocation] *)
Global Instance read_ApiKeyLocation : Deserialize ApiKeyLocation :=
  unit_enum lowercase [("Header", LocHeader); ("Query", LocQuery)].

(** Source: config/types/auth.rs [ApiKeyEntry] *)
Global Instance read_ApiKeyEntry : Deserialize ApiKeyEntry :=
  derive_struct (constructor Build_ApiKeyEntry <*> defaulted "key" "" <*> defaulted "role" None).

(** Source: config/types/auth.rs [ApiKeyConfig] *)
Global Instance read_ApiKeyConfig : Deserialize ApiKeyConfig :=
  let d := default_ApiKeyConfig in
  derive_struct (constructor Build_ApiKeyConfig
    <*> defaulted "location" (ak_location d) <*> defaulted "name" (ak_name d) <*> defaulted "keys" []).

(** Source: config/types/auth.rs [BasicAuthUser] *)
Global Instance read_BasicAuthUser : Deserialize BasicAuthUser :=
  derive_struct (constructor Build_BasicAuthUser
    <*> required "username" <*> defaulted "password_hash" "" <*> defaulted "role" None).

(** Source: config/types/auth.rs [BasicAuthConfig] *)
Global Instance read_BasicAuthConfig : Deserialize BasicAuthConfig :=
  derive_struct (constructor Build_BasicAuthConfig
    <*> defaulted "realm" (ba_realm default_BasicAuthConfig) <*> defaulted "users" []).

(** Source: config/types/auth.rs [RoleMatchMode] *)
Global Instance read_RoleMatchMode : Deserialize RoleMatchMode :=
  unit_enum snake_case [("Exact", Exact); ("Contains", Contains)].

(** The map in the order it will be iterated in. *)
Definition read_role_map `{HashOrder} : reader (list (string * string)) := λ F v,
  m ← read_hash_map read_string F v; Ok (hash_order _ m).

(** Source: config/types/auth.rs [RoleMappingConfig] *)
Global Instance read_RoleMappingConfig `{HashOrder} : Deserialize RoleMappingConfig :=
  derive_struct (constructor Build_RoleMappingConfig
    <*> defaulted "default_role" (rm_default_role default_RoleMappingConfig)
    <*> defaulted "role_claim" default_role_claim
    <*> defaulted_with read_role_map "role_map" []
    <*> defaulted "match_mode" Exact).

(** The attribute of a field comes before that of the struct, so the scopes
    that are left out are none.
    Source: config/types/auth.rs [OAuth2Config] *)
Definition OAuth2Config_schema `{HashOrder} : schema OAuth2Config :=
  let d := default_OAuth2Config in
  constructor Build_OAuth2Config
    <*> defaulted "provider" (oa_provider d)
    <*> defaulted "authorization_url" (oa_authorization_url d)
    <*> defaulted "token_url" (oa_token_url d)
    <*> defaulted "userinfo_url" (oa_userinfo_url d)
    <*> defaulted "client_id" (oa_client_id d)
    <*> defaulted "client_secret" ""
    <*> defaulted "scopes" []
    <*> defaulted "redirect_url" (oa_redirect_url d)
    <*> defaulted "success_url" (oa_success_url d)
    <*> defaulted "cookie_name" (oa_cookie_name d)
    <*> defaulted_with (unsigned 64) "state_ttl" default_state_ttl
    <*> defaulted_with (unsigned 64) "max_pending_states" default_max_pending_states
    <*> defaulted "role_mapping" None.

Global Instance read_OAuth2Config `{HashOrder} : Deserialize OAuth2Config := derive_struct OAuth2Config_schema.

(** Source: config/types/auth.rs [AuthConfig] *)
Global Instance read_AuthConfig `{HashOrder} : Deserialize AuthConfig :=
  derive_struct (constructor Build_AuthConfig
    <*> defaulted "jwt" None <*> defaulted "api_key" None <*> defaulted "basic" None
    <*> defaulted "oauth2" None <*> defaulted "register" None).

(** ** Stores *)

(** Source: config/types/store.rs [StoreBackend] *)
Global Instance read_StoreBackend : Deserialize StoreBackend :=
  unit_enum lowercase [("Native", Native); ("S3", S3); ("Azure", Azure); ("Gcs", Gcs); ("Memory", Memory)].

(** Source: config/types/store.rs [S3StoreConfig] *)
Global Instance read_S3StoreConfig : Deserialize S3StoreConfig :=
  derive_struct (constructor Build_S3StoreConfig
    <*> defaulted "region" "" <*> defaulted "bucket" "" <*> defaulted "access_key" ""
    <*> defaulted "secret_key" "" <*> defaulted "endpoint" None <*> defaulted "force_path_style" false).

(** Source: config/types/store.rs [AzureStoreConfig] *)
Global Instance read_AzureStoreConfig : Deserialize AzureStoreConfig :=
  derive_struct (constructor Build_AzureStoreConfig
    <*> defaulted "account_name" "" <*> defaulted "account_key" "" <*> defaulted "container" "").

(** Source: config/types/store.rs [GcsStoreConfig] *)
Global Instance read_GcsStoreConfig : Deserialize GcsStoreConfig :=
  derive_struct (constructor Build_GcsStoreConfig
    <*> defaulted "project_id" "" <*> defaulted "credentials" "" <*> defaulted "bucket" "").

(** Source: config/types/store.rs [StoreConfig] *)
Global Instance read_StoreConfig : Deserialize StoreConfig :=
  derive_struct (constructor Build_StoreConfig
    <*> defaulted "backend" Native <*> defaulted "root" None <*> defaulted "s3" None
    <*> defaulted "azure" None <*> defaulted "gcs" None).

(** ** Static files, applications, proxies and fixed responses *)

(** Source: config/types/endpoints/static_files.rs [CacheRuleConfig] *)
Global Instance read_CacheRuleConfig : Deserialize CacheRuleConfig :=
  derive_struct (constructor Build_CacheRuleConfig <*> required "extensions" <*> required "cache_control").

(** Source: config/types/endpoints/static_files.rs [UploadMimeDetection] *)
Global Instance read_UploadMimeDetection : Deserialize UploadMimeDetection :=
  unit_enum lowercase [("Extension", UploadByExtension); ("Magic", UploadByMagic)].

(** [deserialize_with]. *)
Definition read_allowed_extensions : reader (list string) := λ F v,
  raw ← read_vec read_string F v; Ok (deserialize_allowed_extensions raw).

(** Source: config/types/endpoints/static_files.rs [UploadConfig] *)
Global Instance read_UploadConfig : Deserialize UploadConfig :=
  let d := default_UploadConfig in
  derive_struct (constructor Build_UploadConfig
    <*> defaulted "enabled" (up_enabled d)
    <*> defaulted_with (unsigned 64) "max_size" (up_max_size d)
    <*> defaulted_with read_allowed_extensions "allowed_extensions" (up_allowed_extensions d)
    <*> defaulted "create_subdirectory" (up_create_subdirectory d)
    <*> defaulted "mime_detection" UploadByMagic).

(** Source: config/types/endpoints/static_files.rs [ImageResizeFit] *)
Global Instance read_ImageResizeFit : Deserialize ImageResizeFit :=
  unit_enum snake_case [("ScaleDown", ScaleDown); ("Cover", Cover); ("Contain", Contain)].

(** Source: config/types/endpoints/static_files.rs [ImageResizeConfig] *)
Global Instance read_ImageResizeConfig : Deserialize ImageResizeConfig :=
  let d := default_ImageResizeConfig in
  derive_struct (constructor Build_ImageResizeConfig
    <*> defaulted "enabled" (ir_enabled d)
    <*> defaulted_with (unsigned 64) "max_dimension" (ir_max_dimension d)
    <*> defaulted "supported_formats" (ir_supported_formats d)
    <*> defaulted "default_fit" ScaleDown
    <*> defaulted "cache_dir" None).

(** Source: config/types/endpoints/static_files.rs [StreamingConfig] *)
Global Instance read_StreamingConfig : Deserialize StreamingConfig :=
  let d := default_StreamingConfig in
  derive_struct (constructor Build_StreamingConfig
    <*> defaulted "enabled" (str_enabled d)
    <*> defaulted_with (unsigned 64) "buffer_size" (str_buffer_size d)
    <*> defaulted_with (unsigned 64) "threshold" (str_threshold d)
    <*> defaulted "include_content_length" default_true).

(** Source: config/types/endpoints/static_files.rs [StaticFilesConfig] *)
Global Instance read_StaticFilesConfig : Deserialize StaticFilesConfig :=
  derive_struct (constructor Build_StaticFilesConfig
    <*> defaulted "storage" (sf_storage default_StaticFilesConfig)
    <*> defaulted "index" default_index
    <*> defaulted "directory_listing" false
    <*> defaulted_with (unsigned 64) "cache_max_age" default_cache_max_age
    <*> defaulted "etag" default_true
    <*> defaulted "range_requests" default_true
    <*> defaulted "head_support" default_true
    <*> defaulted "cache_rules" []
    <*> defaulted "upload" None
    <*> defaulted "image_resize" None
    <*> defaulted "streaming" None).

(** Source: config/types/endpoints/spa_host.rs [SpaHostConfig] *)
Global Instance read_SpaHostConfig : Deserialize SpaHostConfig :=
  derive_struct (constructor Build_SpaHostConfig
    <*> defaulted "storage" (spa_storage default_SpaHostConfig)
    <*> defaulted "index" default_index
    <*> defaulted_with (unsigned 64) "cache_max_age" default_cache_max_age
    <*> defaulted "cache_rules" []
    <*> defaulted "etag" default_true
    <*> defaulted "head_support" default_true
    <*> defaulted_with (unsigned 16) "fallback_status" default_fallback_status).

(** Source: config/types/endpoints/proxy.rs [PathRewriteConfig] *)
Global Instance read_PathRewriteConfig : Deserialize PathRewriteConfig :=
  derive_struct (constructor Build_PathRewriteConfig <*> defaulted "strip_prefix" "" <*> defaulted "add_prefix" "").

(** Source: config/types/endpoints/proxy.rs [ProxyTimeouts] *)
Global Instance read_ProxyTimeouts : Deserialize ProxyTimeouts :=
  let d := default_ProxyTimeouts in
  derive_struct (constructor Build_ProxyTimeouts
    <*> defaulted_with (unsigned 64) "connect" (pt_connect d)
    <*> defaulted_with (unsigned 64) "read" (pt_read d)
    <*> defaulted_with (unsigned 64) "total" (pt_total d)).

(** Source: config/types/endpoints/proxy.rs [ProxyConfig] *)
Global Instance read_ProxyConfig : Deserialize ProxyConfig :=
  let d := default_ProxyConfig in
  derive_struct (constructor Build_ProxyConfig
    <*> defaulted "upstream" (px_upstream d)
    <*> defaulted "path_rewrite" (px_path_rewrite d)
    <*> defaulted "headers" ∅
    <*> defaulted "timeouts" (px_timeouts d)
    <*> defaulted_with (unsigned 64) "max_response_size" default_max_response_size).

(** Source: config/types/endpoints/custom_response.rs [CustomResponseConfig] *)
Global Instance read_CustomResponseConfig : Deserialize CustomResponseConfig :=
  let d := default_CustomResponseConfig in
  derive_struct (constructor Build_CustomResponseConfig
    <*> defaulted_with (unsigned 16) "status" (cu_status d)
    <*> defaulted "content_type" (cu_content_type d)
    <*> defaulted "body" (cu_body d)
    <*> defaulted "headers" ∅).

(** ** Catalogues of files and media *)

(** Source: config/types/endpoints/media.rs [MediaMetadataColumn] *)
Global Instance read_MediaMetadataColumn : Deserialize MediaMetadataColumn :=
  derive_struct (constructor Build_MediaMetadataColumn
    <*> required "name" <*> required "type" <*> defaulted "nullable" default_true_bool <*> defaulted "default" None).

(** Source: config/types/endpoints/file_store.rs [FileStoreFieldPermissions] *)
Global Instance read_FileStoreFieldPermissions : Deserialize FileStoreFieldPermissions :=
  derive_struct (constructor Build_FileStoreFieldPermissions <*> defaulted "read" [] <*> defaulted "write" []).

(** Source: config/types/endpoints/file_store.rs [FileStoreOwnershipConfig] *)
Global Instance read_FileStoreOwnershipConfig : Deserialize FileStoreOwnershipConfig :=
  derive_struct (constructor Build_FileStoreOwnershipConfig
    <*> defaulted "owner_column" "" <*> defaulted "admin_override" default_true_bool).

(** Source: config/types/endpoints/file_store.rs [FileStoreTrashConfig] *)
Global Instance read_FileStoreTrashConfig : Deserialize FileStoreTrashConfig :=
  derive_struct (constructor Build_FileStoreTrashConfig
    <*> defaulted "enabled" default_true_bool
    <*> defaulted_with (unsigned 32) "retention_days" default_file_store_trash_retention
    <*> defaulted "prefix" default_trash_prefix).

(** Source: config/types/endpoints/file_store.rs [FileStoreContentReferencesConfig] *)
Global Instance read_FileStoreContentReferencesConfig : Deserialize FileStoreContentReferencesConfig :=
  derive_struct (constructor Build_FileStoreContentReferencesConfig
    <*> defaulted "enabled" default_true_bool <*> defaulted "table" "" <*> defaulted "media_id_column" ""
    <*> defaulted "entity_id_column" "" <*> defaulted "content_type_column" "" <*> defaulted "order_column" "").

(** Source: config/types/endpoints/file_store.rs [FileStoreConfig] *)
Global Instance read_FileStoreConfig : Deserialize FileStoreConfig :=
  derive_struct (constructor Build_FileStoreConfig
    <*> defaulted "storage" "" <*> defaulted "table" "" <*> defaulted "database" ""
    <*> defaulted "metadata_columns" []
    <*> defaulted "field_permissions" None
    <*> defaulted "ownership" None
    <*> defaulted "trash" None
    <*> defaulted "content_references" None
    <*> defaulted "pagination" default_PaginationConfig
    <*> defaulted "sorting" default_SortingConfig
    <*> defaulted "filtering" default_FilteringConfig).

(** Source: config/types/endpoints/media.rs [MediaMimeDetection] *)
Global Instance read_MediaMimeDetection : Deserialize MediaMimeDetection :=
  unit_enum lowercase [("Extension", MediaByExtension); ("Magic", MediaByMagic)].
(** Source: config/types/endpoints/media.rs [MediaScopeMode] *)
Global Instance read_MediaScopeMode : Deserialize MediaScopeMode :=
  unit_enum snake_case [("User", ScopeUser); ("Shared", ScopeShared); ("Open", ScopeOpen)].
(** Source: config/types/endpoints/media.rs [MediaOnDeleteBehavior] *)
Global Instance read_MediaOnDeleteBehavior : Deserialize MediaOnDeleteBehavior :=
  unit_enum snake_case [("Detach", OnDeleteDetach); ("Cascade", OnDeleteCascade); ("Error", OnDeleteError)].
(** Source: config/types/endpoints/media.rs [MediaFacetType] *)
Global Instance read_MediaFacetType : Deserialize MediaFacetType :=
  unit_enum snake_case [("Term", FacetTerm); ("DateRange", FacetDateRange); ("Numeric", FacetNumeric)].

(** Source: config/types/endpoints/media.rs [MediaFacetConfig] *)
Global Instance read_MediaFacetConfig : Deserialize MediaFacetConfig :=
  derive_struct (constructor Build_MediaFacetConfig
    <*> required "name" <*> required "field" <*> required "facet_type").

(** Source: config/types/endpoints/media.rs [MediaImageResizeStyle] *)
Global Instance read_MediaImageResizeStyle : Deserialize MediaImageResizeStyle :=
  derive_struct (constructor Build_MediaImageResizeStyle
    <*> required "name"
    <*> required_with (unsigned 32) "max_width" <*> required_with (unsigned 32) "max_height"
    <*> defaulted "resize_fit" default_cover_fit
    <*> required "format"
    <*> defaulted_with (unsigned 8) "quality" default_quality).

(** Source: config/types/endpoints/media.rs [MediaPreviewConfig] *)
Global Instance read_MediaPreviewConfig : Deserialize MediaPreviewConfig :=
  derive_struct (constructor Build_MediaPreviewConfig
    <*> defaulted "name" "" <*> defaulted_with (unsigned 32) "max_width" 0%Z
    <*> defaulted_with (unsigned 32) "max_height" 0%Z <*> defaulted "format" "").

(** Source: config/types/endpoints/media.rs [MediaVersioningConfig] *)
Global Instance read_MediaVersioningConfig : Deserialize MediaVersioningConfig :=
  derive_struct (constructor Build_MediaVersioningConfig
    <*> defaulted "enabled" false <*> defaulted_with (unsigned 32) "max_versions" default_max_versions).

(** Source: config/types/endpoints/media.rs [MediaPreviewGenerationConfig] *)
Global Instance read_MediaPreviewGenerationConfig : Deserialize MediaPreviewGenerationConfig :=
  derive_struct (constructor Build_MediaPreviewGenerationConfig
    <*> defaulted "enabled" false <*> defaulted "previews" []).

(** Source: config/types/endpoints/media.rs [MediaUploadConfig] *)
Global Instance read_MediaUploadConfig : Deserialize MediaUploadConfig :=
  derive_struct (constructor Build_MediaUploadConfig
    <*> defaulted_with (unsigned 64) "max_size" default_media_max_size
    <*> defaulted "allowed_extensions" []
    <*> defaulted "allowed_mime_types" []
    <*> defaulted "mime_detection" MediaByMagic
    <*> defaulted "bulk_supported" default_true_bool
    <*> defaulted "create_subdirectory" None
    <*> defaulted "versioning" None
    <*> defaulted "preview_generation" None).

(** Source: config/types/endpoints/media.rs [MediaMoveConfig] *)
Global Instance read_MediaMoveConfig : Deserialize MediaMoveConfig :=
  derive_struct (constructor Build_MediaMoveConfig
    <*> defaulted "enabled" default_true_bool <*> defaulted "admin_override" default_true_bool
    <*> defaulted "auto_create_destination" false).

(** Source: config/types/endpoints/media.rs [MediaRenameConfig] *)
Global Instance read_MediaRenameConfig : Deserialize MediaRenameConfig :=
  derive_struct (constructor Build_MediaRenameConfig
    <*> defaulted "enabled" default_true_bool <*> defaulted "admin_override" default_true_bool).

(** Source: config/types/endpoints/media.rs [MediaDeleteConfig] *)
Global Instance read_MediaDeleteConfig : Deserialize MediaDeleteConfig :=
  derive_struct (constructor Build_MediaDeleteConfig
    <*> defaulted "enabled" default_true_bool <*> defaulted "admin_override" default_true_bool).

(** Source: config/types/endpoints/media.rs [MediaUserScopeConfig] *)
Global Instance read_MediaUserScopeConfig : Deserialize MediaUserScopeConfig :=
  derive_struct (constructor Build_MediaUserScopeConfig
    <*> defaulted "enabled" default_true_bool <*> defaulted "mode" ScopeShared
    <*> defaulted "admin_roles" [] <*> defaulted "allow_cross_user_browse" false).

(** Source: config/types/endpoints/media.rs [MediaContentReferencesConfig] *)
Global Instance read_MediaContentReferencesConfig : Deserialize MediaContentReferencesConfig :=
  derive_struct (constructor Build_MediaContentReferencesConfig
    <*> defaulted "enabled" default_true_bool
    <*> defaulted "table" default_media_refs_table
    <*> defaulted "media_id_column" default_media_id_col
    <*> defaulted "entity_id_column" default_entity_id_col
    <*> defaulted "content_type_column" default_content_type_col
    <*> defaulted "order_column" default_order_col
    <*> defaulted "allowed_content_types" None
    <*> defaulted "on_delete" OnDeleteDetach).

(** Source: config/types/endpoints/media.rs [MediaTrashConfig] *)
Global Instance read_MediaTrashConfig : Deserialize MediaTrashConfig :=
  derive_struct (constructor Build_MediaTrashConfig
    <*> defaulted "enabled" default_true_bool
    <*> defaulted_with (unsigned 32) "retention_days" default_media_trash_retention
    <*> defaulted "prefix" default_trash_prefix
    <*> defaulted "management_endpoints" default_true_bool
    <*> defaulted "admin_roles" default_trash_admin_roles).

(** Source: config/types/endpoints/media.rs [MediaSharingConfig] *)
Global Instance read_MediaSharingConfig : Deserialize MediaSharingConfig :=
  derive_struct (constructor Build_MediaSharingConfig
    <*> defaulted "enabled" default_true_bool
    <*> defaulted "signing_secret" ""
    <*> defaulted_with (unsigned 64) "default_ttl" default_share_ttl
    <*> defaulted_with (unsigned 64) "max_ttl" default_share_max_ttl
    <*> defaulted "prefix" default_shared_prefix
    <*> defaulted "allow_any_user" default_true_bool
    <*> defaulted "required_link_role" None).

(** Source: config/types/endpoints/media.rs [MediaImageResizeConfig] *)
Global Instance read_MediaImageResizeConfig : Deserialize MediaImageResizeConfig :=
  derive_struct (constructor Build_MediaImageResizeConfig
    <*> defaulted "enabled" default_true_bool
    <*> defaulted_with (unsigned 64) "max_dimension" default_resize_dimension
    <*> defaulted "supported_formats" default_resize_formats
    <*> defaulted "default_fit" ScaleDown
    <*> defaulted "cache_dir" None
    <*> defaulted "styles" []
    <*> defaulted "generate_on_upload" false).

(** Source: config/types/endpoints/media.rs [MediaConfig] *)
Global Instance read_MediaConfig : Deserialize MediaConfig :=
  derive_struct (constructor Build_MediaConfig
    <*> defaulted "storage" "" <*> defaulted "table" "" <*> defaulted "database" ""
    <*> defaulted "columns" default_media_columns
    <*> defaulted "metadata_columns" []
    <*> defaulted "upload" None
    <*> field_schema ["move_config"; "move"] deserialize (Some None)
    <*> defaulted "rename" None
    <*> defaulted "delete" None
    <*> defaulted "user_scope" None
    <*> defaulted "content_references" None
    <*> defaulted "trash" None
    <*> defaulted "sharing" None
    <*> defaulted "pagination" default_PaginationConfig
    <*> defaulted "sorting" default_SortingConfig
    <*> defaulted "filtering" default_FilteringConfig
    <*> defaulted "facets" []
    <*> defaulted "image_resize" None).

(** ** Endpoints and the root *)

(** Source: config/types/endpoints/common.rs [EndpointAction] *)
Global Instance read_EndpointAction : Deserialize EndpointAction :=
  unit_enum snake_case [("Crud", ActCrud); ("Proxy", ActProxy); ("StaticFiles", ActStaticFiles);
    ("SpaHost", ActSpaHost); ("Media", ActMedia); ("FileStore", ActFileStore);
    ("CustomResponse", ActCustomResponse)].

(** Source: config/types/endpoints/common.rs [EndpointConfig] *)
Global Instance read_EndpointConfig : Deserialize EndpointConfig :=
  derive_struct (constructor Build_EndpointConfig
    <*> required "path" <*> required "methods" <*> required "action"
    <*> defaulted "crud" None <*> defaulted "proxy" None <*> defaulted "static_files" None
    <*> defaulted "spa_host" None <*> defaulted "media" None <*> defaulted "file_store" None
    <*> defaulted "custom_response" None
    <*> defaulted "auth" default_auth_none
    <*> defaulted "roles" default_RolesConfig
    <*> defaulted "cors" None <*> defaulted "rate_limit" None).

(** Source: config/types/server.rs [TlsConfig] *)
Global Instance read_TlsConfig : Deserialize TlsConfig :=
  derive_struct (constructor Build_TlsConfig <*> required "cert" <*> required "key").

(** Source: config/types/server.rs [ServerConfig] *)
Global Instance read_ServerConfig : Deserialize ServerConfig :=
  let d := default_ServerConfig in
  derive_struct (constructor Build_ServerConfig
    <*> defaulted "host" (srv_host d)
    <*> defaulted_with (unsigned 16) "port" (srv_port d)
    <*> defaulted_with (unsigned 64) "workers" (srv_workers d)
    <*> defaulted_with (unsigned 64) "max_body_size" (srv_max_body_size d)
    <*> defaulted_with (unsigned 64) "keep_alive" (srv_keep_alive d)
    <*> defaulted_with (unsigned 64) "shutdown_timeout" (srv_shutdown_timeout d)
    <*> defaulted "tls" (srv_tls d)).

(** Source: config/types/logging.rs [LogLevel] *)
Global Instance read_LogLevel : Deserialize LogLevel :=
  unit_enum lowercase [("Trace", LTrace); ("Debug", LDebug); ("Info", LInfo); ("Warn", LWarn); ("Error", LError)].

(** Source: config/types/logging.rs [LogFormat] *)
Global Instance read_LogFormat : Deserialize LogFormat :=
  unit_enum lowercase [("Json", FmtJson); ("Pretty", FmtPretty)].

(** Source: config/types/logging.rs [LoggingConfig] *)
Global Instance read_LoggingConfig : Deserialize LoggingConfig :=
  let d := default_LoggingConfig in
  derive_struct (constructor Build_LoggingConfig
    <*> defaulted "level" (log_level d)
    <*> defaulted "format" (log_format d)
    <*> defaulted "log_request_body" (log_request_body d)
    <*> defaulted "log_response_body" (log_response_body d)
    <*> defaulted_with (unsigned 64) "max_body_log_size" default_max_body_log_size).

(** [transparent]: the map itself.
    Source: config/types/mod.rs [RoleHierarchy] *)
Global Instance read_RoleHierarchy : Deserialize RoleHierarchy := λ F v,
  roles ← deserialize F v; Ok (Build_RoleHierarchy roles).

(** Source: config/types/mod.rs [AppConfig] *)
Definition AppConfig_schema `{HashOrder} : schema AppConfig :=
  let d := default_AppConfig in
  constructor Build_AppConfig
    <*> defaulted "server" (cfg_server d)
    <*> defaulted "logging" (cfg_logging d)
    <*> defaulted "cors" (cfg_cors d)
    <*> defaulted "rate_limit" (cfg_rate_limit d)
    <*> defaulted "databases" ∅
    <*> defaulted "tables" []
    <*> defaulted "auth" default_AuthConfig
    <*> defaulted "endpoints" []
    <*> defaulted "stores" ∅
    <*> defaulted "role_hierarchy" None
    <*> defaulted "global_schemas" None.

(** [serde_yaml::from_value] at the root.
    Source: config/loader.rs:56-58 [load_config (from_value)] *)
Global Instance read_AppConfig `{HashOrder} : Deserialize AppConfig := derive_struct AppConfig_schema.
