(* ===== verification/SqlHelpers.v ===== *)
(** * Query helpers

    src/src/db/query/helpers/: column checks, placeholders and identifiers,
    sort-field and filter-key parsing, the validation of SQL fragments, the
    interpolation of [${...}] keys, and the coercion of request text to the
    JSON value bound to a parameter. *)

From S2P Require Import Prelude RustStr Json Config Errors.
Local Open Scope stdpp_scope.

(** Source: middleware/auth/extractor.rs [RequestContext] *)
Record RequestContext := {
  rc_user_id : option string;
  rc_user_email : option string;
  rc_user_role : option string;
  rc_headers : gmap string string;
  rc_method : string;
  rc_path : string;
  rc_raw_query_params : gmap string string;
}.

(** Source: middleware/auth/extractor.rs [RequestContext::new] *)
Definition empty_context : RequestContext := {|
  rc_user_id := None; rc_user_email := None; rc_user_role := None;
  rc_headers := ∅; rc_method := ""; rc_path := ""; rc_raw_query_params := ∅ |}.

(** ** common.rs *)

(** Source: db/query/helpers/common.rs [is_jsonb_column] *)
Definition is_jsonb_column (column_name : string) (columns : list ColumnConfig) : bool :=
  existsb (λ c, bool_decide (col_name c = column_name) && is_json_type (col_type c)) columns.

(** Source: db/query/helpers/common.rs [column_exists] *)
Definition column_exists (column_name : string) (columns : list ColumnConfig) : bool :=
  existsb (λ c, bool_decide (col_name c = column_name)) columns.

(** Source: db/query/helpers/common.rs [placeholder] *)
Definition placeholder (driver : DatabaseDriver) (index : nat) : string :=
  match driver with
  | Postgres => "$" +:+ show_nat index
  | Sqlite | Mysql => "?"
  end.

(** Source: db/query/helpers/common.rs [now_expr] *)
Definition now_expr (driver : DatabaseDriver) : string :=
  match driver with Sqlite => "CURRENT_TIMESTAMP" | _ => "NOW()" end.

Definition dquote : string := String (ascii_of_N 34) "".

(** Source: db/query/helpers/common.rs [quote_identifier] *)
Definition quote_identifier (name : string) (driver : DatabaseDriver) : string :=
  match driver with
  | Mysql => "`" +:+ name +:+ "`"
  | Sqlite | Postgres => dquote +:+ name +:+ dquote
  end.

Definition push_nonempty (parts : list string) (s : string) : list string :=
  if is_empty s then parts else parts ++ [s].

(** The scanning loop: [current] is the segment being read, [bracket] the
    content of an open bracket. *)
Fixpoint parse_sort_go (s : string) (parts : list string) (current : string)
    (bracket : option string) : list string :=
  match s, bracket with
  | "", Some b => push_nonempty (push_nonempty parts b) current
  | "", None => push_nonempty parts current
  | String c s', Some b =>
      if Ascii.eqb c "]" then parse_sort_go s' (push_nonempty parts b) current None
      else parse_sort_go s' parts current (Some (b +:+ String c ""))
  | String c s', None =>
      if Ascii.eqb c "[" then parse_sort_go s' (push_nonempty parts current) "" (Some "")
      else if Ascii.eqb c "." then parse_sort_go s' (push_nonempty parts current) "" None
      else parse_sort_go s' parts (current +:+ String c "") None
  end.

(** Source: db/query/helpers/common.rs [parse_sort_field] *)
Definition parse_sort_field (field : string) : string * list string :=
  match parse_sort_go field [] "" None with
  | [] => (field, [])
  | base :: path => (base, path)
  end.

(** Source: db/query/helpers/common.rs [is_bracket_notation] *)
Definition is_bracket_notation (field : string) : bool := contains_char "[" field.
(** Source: db/query/helpers/common.rs [is_dotted_path] *)
Definition is_dotted_path (field : string) : bool := contains_char "." field.

(** ** filters.rs *)

(** Source: db/query/helpers/filters.rs [FilterOperator] *)
Inductive FilterOperator :=
| OpEq | OpNe | OpGt | OpGte | OpLt | OpLte | OpIn | OpNotIn | OpContains
| OpExists | OpStartsWith | OpEndsWith | OpLike | OpILike.

Global Instance FilterOperator_eq_dec : EqDecision FilterOperator.
Proof. solve_decision. Defined.

(** Source: db/query/helpers/filters.rs [FilterExpression] *)
Record FilterExpression := { fe_path : list string; fe_operator : FilterOperator }.

Definition is_op_char (a : ascii) : bool := is_lower a || Ascii.eqb a "_".
Definition newline : ascii := ascii_of_N 10.

(** The capture groups of the key pattern: any text without a newline, then a
    bracketed run of [a-z_] that ends the key.
    Source: db/query/helpers/filters.rs [FILTER_KEY_RE] *)
Definition filter_key_captures (key : string) : option (string * string) :=
  match rsplit_once "[" key with
  | Some (path, rest) =>
      match split_once "]" rest with
      | Some (op, "") =>
          if negb (is_empty op) && all_ascii is_op_char op && negb (contains_char newline path)
          then Some (path, op) else None
      | _ => None
      end
  | None => None
  end.

(** Source: db/query/helpers/filters.rs:67-87 [parse_filter_key (operator table)] *)
Definition operator_of_name (s : string) : option FilterOperator :=
  assoc s [("eq", OpEq); ("ne", OpNe); ("gt", OpGt); ("gte", OpGte); ("lt", OpLt);
           ("lte", OpLte); ("in", OpIn); ("not_in", OpNotIn); ("contains", OpContains);
           ("exists", OpExists); ("startswith", OpStartsWith); ("endswith", OpEndsWith);
           ("like", OpLike); ("ilike", OpILike)].

(** Source: db/query/helpers/filters.rs [parse_filter_key] *)
Definition parse_filter_key (key : string) : result AppError FilterExpression :=
  '(path_str, operator_str) ←
    match filter_key_captures key with
    | Some po => Ok po
    | None =>
        if contains_char "[" key then
          Err (BadRequest ("Invalid filter key syntax: '" +:+ key +:+
            "'. Bracket notation must be properly closed. Use format like 'field[operator]' where operator is one of: eq, ne, gt, gte, lt, lte, in, not_in, contains, exists, startswith, endswith, like, ilike"))
        else if contains_char "]" key then
          Err (BadRequest ("Invalid filter key syntax: '" +:+ key +:+
            "'. Unexpected closing bracket without opening bracket."))
        else Ok (key, "eq")
    end;
  operator ← ok_or (BadRequest ("Unsupported operator: " +:+ operator_str))
               (operator_of_name operator_str);
  Ok {| fe_path := split "." path_str; fe_operator := operator |}.

(** Source: db/query/helpers/filters.rs [extract_base_column] *)
Definition extract_base_column (field : string) : string :=
  if starts_with "$" field then
    match split "." field with
    | _ :: s :: _ => trim_start "$" s
    | _ => trim_start "$" field
    end
  else if contains_str "->" field || contains_str "#>" field || contains_str "#>>" field then
    match split_pred (λ c, Ascii.eqb c ">" || Ascii.eqb c "#") field with
    | first :: _ => trim_end "-" first
    | [] => field
    end
  else if is_bracket_notation field then fst (parse_sort_field field)
  else if is_dotted_path field then fst (parse_sort_field field)
  else field.

(** Source: db/query/helpers/filters.rs [extract_jsonb_path] *)
Definition extract_jsonb_path (field : string) : string :=
  let '(_, path) := parse_sort_field field in
  match path with [] => "$" | _ => "$." +:+ join "." path end.

(** Source: db/query/helpers/filters.rs [is_valid_filter_column] *)
Definition is_valid_filter_column (field : string) (columns : list ColumnConfig) : bool :=
  let base := extract_base_column field in
  is_jsonb_column base columns || column_exists base columns.

(** ** validation.rs *)

(** Source: db/query/helpers/validation.rs [is_safe_sql_fragment] *)
Definition is_safe_sql_fragment (s : string) : bool :=
  negb (is_empty s)
  && negb (contains_char ";" s)
  && negb (contains_str "--" s)
  && negb (contains_str "/*" s)
  && negb (contains_char "`" s)
  && negb (contains_str "$(" s)
  && negb (contains_char newline s)
  && negb (contains_char (ascii_of_N 13) s).

Section validation.
(** [char::is_alphanumeric] on a non-ASCII scalar value and the [regex]
    crate's word characters among them (Unicode tables), and the JSONPath
    parser of the [jsonb] crate. *)
Context (unicode_alnum json_path_ok unicode_word : string → bool).

Definition is_alphanumeric (c : string) : bool :=
  match c with
  | String a "" => is_alnum_ascii a
  | _ => unicode_alnum c
  end.

Definition char_in (set : string) (c : string) : bool :=
  match c with String a "" => contains_char a set | _ => false end.

(** *** The keyword patterns

    Both patterns ignore case, by simple case folding: among the letters
    they use only [s] has an equivalent outside ASCII, the long s. A word
    boundary separates a word character from something that is none. *)

Definition is_word (c : string) : bool :=
  match c with
  | String a "" => is_alnum_ascii a || Ascii.eqb a "_"
  | _ => unicode_word c
  end.

Definition folds_to (a : ascii) (c : string) : bool :=
  match c with
  | String b "" => Ascii.eqb (lower_ascii b) a
  | _ => Ascii.eqb a "s" && bool_decide (c = "ſ")
  end.

(** What follows the word [w], written in lower case, at the start of [cs]. *)
Fixpoint strip_word (w : string) (cs : list string) : option (list string) :=
  match w, cs with
  | "", _ => Some cs
  | String a w', c :: cs' => if folds_to a c then strip_word w' cs' else None
  | _, [] => None
  end.

Definition word_next (cs : list string) : bool :=
  match cs with c :: _ => is_word c | [] => false end.

(** [Regex::is_match]: [at_ before rest] says whether the pattern matches at
    the start of [rest], where [before] tells whether a word character
    precedes it. *)
Fixpoint is_match (at_ : bool → list string → bool) (before : bool) (cs : list string) : bool :=
  at_ before cs || match cs with [] => false | c :: cs' => is_match at_ (is_word c) cs' end.

(** Source: db/query/helpers/validation.rs:24-29 [SQL_KEYWORDS_RE] *)
Definition sql_keyword (s : string) : bool :=
  is_match (λ before cs,
    xorb before (word_next cs) &&
    existsb (λ w, match strip_word w cs with
                  | Some rest => negb (word_next rest)
                  | None => false
                  end)
      ["or"; "and"; "union"; "select"; "insert"; "update"; "delete"; "drop"; "alter";
       "create"; "truncate"; "exec"]) false (chars s).

(** Source: db/query/helpers/validation.rs:115-116 [DANGEROUS_FN_RE] *)
Definition dangerous_fn (s : string) : bool :=
  is_match (λ before cs,
    (xorb before (word_next cs) &&
       (match strip_word "xp_" cs with Some rest => word_next rest | None => false end
        || match strip_word "sleep" cs with
           | Some rest => match drop_while is_whitespace rest with
                          | c :: _ => bool_decide (c = "(") | [] => false end
           | None => false
           end))
    || match strip_word "_sleep" cs with Some rest => negb (word_next rest) | None => false end)
    false (chars s).

(** The bracket loop: [None] for the early [return false], otherwise the
    depth at the end.
    Source: db/query/helpers/validation.rs:52-66 [is_valid_expression (brackets)] *)
Fixpoint bracket_scan (cs : list string) (depth : Z) (in_bracket : bool) : option Z :=
  match cs with
  | [] => Some depth
  | c :: cs' =>
      if bool_decide (c = "[") then bracket_scan cs' (depth + 1) true
      else if bool_decide (c = "]") then bracket_scan cs' (depth - 1) false
      else if in_bracket && negb (is_alphanumeric c) && negb (bool_decide (c = "_")) then None
      else bracket_scan cs' depth in_bracket
  end.

(** Source: db/query/helpers/validation.rs:71-87 [is_valid_expression (parentheses)] *)
Fixpoint paren_scan (cs : list string) (depth : Z) : option Z :=
  match cs with
  | [] => Some depth
  | c :: cs' =>
      if bool_decide (c = "(") then paren_scan cs' (depth + 1)
      else if bool_decide (c = ")") then
        if (depth - 1 <? 0)%Z then None else paren_scan cs' (depth - 1)
      else paren_scan cs' depth
  end.

(** Source: db/query/helpers/validation.rs [is_valid_expression] *)
Definition is_valid_expression (s : string) : bool :=
  if is_empty s then false
  else if existsb (λ p, contains_str p s) [";"; "--"; "/*"; "*/"] then false
  else if json_path_ok s then true
  else
    match (if is_bracket_notation s then bracket_scan (chars s) 0 false else Some 0%Z) with
    | Some 0%Z =>
        match paren_scan (chars s) 0 with
        | Some 0%Z =>
            if negb (Nat.even (count_ascii (λ a, Ascii.eqb a "'") s)) then false
            else if sql_keyword s then false
            else if dangerous_fn s then false
            else forallb (λ c, is_alphanumeric c || char_in "_.,()=<>+-*/'#[]" c) (chars s)
        | _ => false
        end
    | _ => false
    end.

(** Source: db/query/helpers/validation.rs [is_valid_identifier] *)
Definition is_valid_identifier (s : string) : bool :=
  negb (is_empty s)
  && forallb (λ c, is_alphanumeric c || char_in "_.-" c) (chars s).

(** Lemma shared by the builders: an identifier holds no ASCII character
    outside [A-Za-z0-9_.-]. *)
Lemma is_valid_identifier_ascii s c :
  is_valid_identifier s = true → is_ascii c = true → contains_char c s = true →
  is_alnum_ascii c || contains_char c "_.-" = true.
Proof.
  unfold is_valid_identifier. intros [_ Hall]%andb_true_iff Hc Hs.
  rewrite forallb_elem in Hall. exact (Hall _ (chars_ascii c s Hc Hs)).
Qed.
End validation.

Example sql_keyword_examples :
  map (sql_keyword (λ _, true)) ["total or 1"; "order"; "UNION"; "x-ſelect"; "dropped"; "drop_a"]
  = [true; false; true; true; false; false].
Proof. reflexivity. Qed.

Example dangerous_fn_examples :
  map (dangerous_fn (λ _, true)) ["xp_cmd"; "exp_cmd"; "xp_"; "Sleep  (1)"; "sleep"; "pg_sleep"; "a_sleeper"]
  = [true; false; false; true; false; true; false].
Proof. reflexivity. Qed.

(** ** Query parameters (db/query/types.rs, sorting.rs) *)

(** Source: db/query/types.rs [QueryParams] *)
Record QueryParams := {
  qp_page : option Z;
  qp_page_size : option Z;
  qp_sort : option string;
  qp_order : option SortOrder;
  qp_filters : gmap string string;
}.

(** Source: db/query/types.rs [BuiltQuery] *)
Record BuiltQuery := { bq_sql : string; bq_params : list value }.

(** Source: db/query/types.rs [MutationContext] *)
Record MutationContext := {
  mc_writable_fields : list string;
  mc_insert_owner : option string;
  mc_update_where_clause : option string;
  mc_delete_where_clause : option string;
}.

(** Source: db/query/types.rs [SelectContext] *)
Record SelectContext := {
  sel_fields : list string;
  sel_joins : list JoinConfig;
  sel_computed_fields : list ComputedFieldConfig;
  sel_where_clause : option string;
  sel_filtering_enabled : bool;
  sel_filtering_allowed_fields : list string;
  sel_sorting_enabled : bool;
  sel_sorting_default_field : string;
  sel_sorting_default_order : SortOrder;
  sel_sorting_allowed_fields : list string;
  sel_pagination_enabled : bool;
  sel_pagination_default_page_size : Z;
  sel_pagination_max_page_size : Z;
}.

(** Source: db/query/types.rs [SelectContext::permissive] *)
Definition permissive : SelectContext := {|
  sel_fields := ["*"]; sel_joins := []; sel_computed_fields := [];
  sel_where_clause := None; sel_filtering_enabled := true;
  sel_filtering_allowed_fields := ["*"]; sel_sorting_enabled := true;
  sel_sorting_default_field := ""; sel_sorting_default_order := Desc;
  sel_sorting_allowed_fields := ["*"]; sel_pagination_enabled := true;
  sel_pagination_default_page_size := 20; sel_pagination_max_page_size := 100 |}.

(** Source: db/query/types.rs:115-125 [From<&CrudConfig> for MutationContext] *)
Definition mutation_context_of (crud : CrudConfig) : MutationContext := {|
  mc_writable_fields := crud_writable_fields crud;
  mc_insert_owner := crud_insert_owner crud;
  mc_update_where_clause := crud_update_where_clause crud;
  mc_delete_where_clause := crud_delete_where_clause crud |}.

(** Source: db/query/types.rs:127-146 [From<&CrudConfig> for SelectContext] *)
Definition select_context_of (crud : CrudConfig) : SelectContext := {|
  sel_fields := crud_fields crud;
  sel_joins := crud_joins crud;
  sel_computed_fields := crud_computed_fields crud;
  sel_where_clause := crud_where_clause crud;
  sel_filtering_enabled := fc_enabled (crud_filtering crud);
  sel_filtering_allowed_fields := fc_allowed_fields (crud_filtering crud);
  sel_sorting_enabled := sc_enabled (crud_sorting crud);
  sel_sorting_default_field := sc_default_field (crud_sorting crud);
  sel_sorting_default_order := sc_default_order (crud_sorting crud);
  sel_sorting_allowed_fields := sc_allowed_fields (crud_sorting crud);
  sel_pagination_enabled := pg_enabled (crud_pagination crud);
  sel_pagination_default_page_size := pg_default_page_size (crud_pagination crud);
  sel_pagination_max_page_size := pg_max_page_size (crud_pagination crud) |}.

(** Source: db/query/helpers/sorting.rs [is_valid_sort_field] *)
Definition is_valid_sort_field (field : string) (columns : list ColumnConfig) : bool :=
  let '(base, _) := parse_sort_field field in
  if is_bracket_notation field then
    is_jsonb_column base columns || column_exists base columns
  else if is_dotted_path field then is_jsonb_column base columns
  else column_exists field columns.

Definition reserved_params : list string := ["page"; "page_size"; "per_page"; "sort"; "order"].

(** Source: db/query/helpers/sorting.rs [extract_query_params] *)
Definition extract_query_params (qs : gmap string string) : QueryParams := {|
  qp_page := qs !! "page" ≫= parse_u64;
  qp_page_size := opt_or (qs !! "page_size") (qs !! "per_page") ≫= parse_u64;
  qp_sort := qs !! "sort";
  qp_order := v ← qs !! "order";
              if bool_decide (v = "asc") || bool_decide (v = "ASC") then Some Asc
              else if bool_decide (v = "desc") || bool_decide (v = "DESC") then Some Desc
              else None;
  qp_filters := filter (λ kv, kv.1 ∉ reserved_params) qs |}.

(** ** Sort fields: the two notations *)

(** A path segment: not empty and free of the delimiters. *)
Definition plain_segment (s : string) : bool :=
  negb (is_empty s) && all_ascii (λ a, negb (contains_char a ".[]")) s.

Definition dotted (base : string) (path : list string) : string :=
  base +:+ join "" (map (λ s, "." +:+ s) path).
Definition bracketed (base : string) (path : list string) : string :=
  base +:+ join "" (map (λ s, "[" +:+ s +:+ "]") path).

Lemma push_nonempty_ne parts s : is_empty s = false → push_nonempty parts s = parts ++ [s].
Proof. unfold push_nonempty. by intros ->. Qed.

Lemma plain_char a :
  negb (contains_char a ".[]") = true →
  Ascii.eqb a "." = false ∧ Ascii.eqb a "[" = false ∧ Ascii.eqb a "]" = false.
Proof.
  intros H. repeat split; apply not_true_is_false; intros ->%Ascii.eqb_eq; discriminate H.
Qed.

Lemma parse_sort_go_plain s rest parts cur :
  all_ascii (λ a, negb (contains_char a ".[]")) s = true →
  parse_sort_go (s +:+ rest) parts cur None = parse_sort_go rest parts (cur +:+ s) None.
Proof.
  revert cur. induction s as [|a s IH]; intros cur; [by rewrite app_nil_r|].
  rewrite app_cons. cbn [all_ascii parse_sort_go]. intros [Ha Hs]%andb_true_iff.
  apply plain_char in Ha as (->&->&_).
  rewrite (IH _ Hs). by rewrite app_assoc, app_cons.
Qed.

Lemma parse_sort_go_bracket s rest parts cur b :
  all_ascii (λ a, negb (contains_char a ".[]")) s = true →
  parse_sort_go (s +:+ rest) parts cur (Some b) = parse_sort_go rest parts cur (Some (b +:+ s)).
Proof.
  revert b. induction s as [|a s IH]; intros b; [by rewrite app_nil_r|].
  rewrite app_cons. cbn [all_ascii parse_sort_go]. intros [Ha Hs]%andb_true_iff.
  apply plain_char in Ha as (_&_&->).
  rewrite (IH _ Hs). by rewrite app_assoc, app_cons.
Qed.

Lemma plain_segment_split s :
  plain_segment s = true →
  is_empty s = false ∧ all_ascii (λ a, negb (contains_char a ".[]")) s = true.
Proof. unfold plain_segment. by intros [?%negb_true_iff ?]%andb_true_iff. Qed.

Lemma parse_sort_go_dots path parts cur :
  is_empty cur = false → Forall (λ s, plain_segment s = true) path →
  parse_sort_go (join "" (map (λ s, "." +:+ s) path)) parts cur None = parts ++ cur :: path.
Proof.
  intros Hcur Hp. revert parts cur Hcur.
  induction Hp as [|s path [Hne Hs]%plain_segment_split Hp IH]; intros parts cur Hcur.
  { by apply push_nonempty_ne. }
  cbn [map]. rewrite join_nil_sep_cons, app_assoc, app_cons, app_nil_l. cbn.
  rewrite (push_nonempty_ne _ _ Hcur), (parse_sort_go_plain _ _ _ _ Hs), app_nil_l.
  rewrite (IH _ _ Hne). by rewrite <-(assoc_L (++)).
Qed.

Lemma parse_sort_go_brackets path parts cur :
  Forall (λ s, plain_segment s = true) path →
  parse_sort_go (join "" (map (λ s, "[" +:+ s +:+ "]") path)) parts cur None
  = push_nonempty parts cur ++ path.
Proof.
  intros Hp. revert parts cur.
  induction Hp as [|s path [Hne Hs]%plain_segment_split Hp IH]; intros parts cur.
  { cbn. by rewrite (right_id_L [] (++)). }
  cbn [map]. rewrite join_nil_sep_cons, !app_assoc, app_cons, app_nil_l. cbn.
  rewrite (parse_sort_go_bracket _ _ _ _ _ Hs), app_nil_l, app_cons, app_nil_l. cbn.
  rewrite IH, (push_nonempty_ne (push_nonempty _ _) _ Hne). cbn. by rewrite <-(assoc_L (++)).
Qed.

(** The parts of a sort field hold only characters of the field. *)
Lemma parse_sort_go_lacks c s parts cur bracket :
  contains_char c s = false → contains_char c cur = false →
  contains_char c (default "" bracket) = false →
  Forall (λ x, contains_char c x = false) parts →
  Forall (λ x, contains_char c x = false) (parse_sort_go s parts cur bracket).
Proof.
  assert (∀ l x, Forall (λ x, contains_char c x = false) l → contains_char c x = false →
                 Forall (λ x, contains_char c x = false) (push_nonempty l x)) as Hpush.
  { intros l x Hl Hx. unfold push_nonempty. destruct (is_empty x); [done|].
    apply Forall_app. auto. }
  revert parts cur bracket. induction s as [|a s IH]; intros parts cur bracket Hs Hcur Hb Hp.
  { destruct bracket; cbn in *; auto. }
  apply orb_false_iff in Hs as [Ha Hs].
  assert (∀ x, contains_char c x = false → contains_char c (x +:+ String a "") = false) as Hsnoc.
  { intros x Hx. rewrite contains_char_app, Hx. cbn. by rewrite Ha. }
  destruct bracket as [b|]; cbn [parse_sort_go default] in *; repeat case_match; apply IH; cbn; auto.
Qed.

(** A nested sort or filter field means the same in dotted notation
    ([a.b.c]) and in bracket notation ([a[b][c]]): for every base and every
    path of non-empty segments without delimiters, both parse to that base
    and that path, whatever the number of segments. *)
Theorem sort_field_notations_agree (base : string) (path : list string)
    (Hbase : plain_segment base = true)
    (Hpath : Forall (λ s, plain_segment s = true) path) :
  parse_sort_field (dotted base path) = (base, path) ∧
  parse_sort_field (bracketed base path) = (base, path).
Proof.
  destruct (plain_segment_split _ Hbase) as [Hne Hb].
  unfold parse_sort_field, dotted, bracketed.
  rewrite !(parse_sort_go_plain _ _ _ _ Hb), app_nil_l.
  rewrite parse_sort_go_dots, parse_sort_go_brackets by done.
  by rewrite (push_nonempty_ne _ _ Hne).
Qed.

Lemma sort_field_notations_agree_witness :
  parse_sort_field "metadata.user.role" = ("metadata", ["user"; "role"]) ∧
  parse_sort_field "metadata[user][role]" = ("metadata", ["user"; "role"]).
Proof.
  apply (sort_field_notations_agree "metadata" ["user"; "role"]); [reflexivity|].
  repeat constructor.
Defined.

(** ** Filter keys *)

(** The names a filter operator is written with in a query string. *)
Definition operator_name (op : FilterOperator) : string :=
  match op with
  | OpEq => "eq" | OpNe => "ne" | OpGt => "gt" | OpGte => "gte" | OpLt => "lt"
  | OpLte => "lte" | OpIn => "in" | OpNotIn => "not_in" | OpContains => "contains"
  | OpExists => "exists" | OpStartsWith => "startswith" | OpEndsWith => "endswith"
  | OpLike => "like" | OpILike => "ilike"
  end.

Lemma operator_of_name_Some s op : operator_of_name s = Some op ↔ s = operator_name op.
Proof.
  split.
  - intros H%assoc_Some_elem. repeat (apply elem_of_cons in H as [[= -> ->]|H]; [done|]).
    by apply elem_of_nil in H.
  - intros ->. by destruct op.
Qed.

Arguments operator_of_name : simpl never.

(** The capture groups, declaratively. *)
Lemma filter_key_captures_Some key p name :
  filter_key_captures key = Some (p, name) ↔
  key = p +:+ "[" +:+ name +:+ "]" ∧ is_empty name = false ∧
  all_ascii is_op_char name = true ∧ contains_char newline p = false.
Proof.
  unfold filter_key_captures. split.
  - destruct (rsplit_once "[" key) as [[b rest]|] eqn:Hr; [|done].
    apply rsplit_once_Some in Hr as [-> Hrest].
    destruct (split_once "]" rest) as [[op [|]]|] eqn:Hs; try done.
    apply split_once_Some in Hs as [-> _].
    destruct (_ && _) eqn:Hg; [|done]. bool_simpl. intros [= -> ->].
    destruct Hg as [[??]?]. done.
  - intros (->&Hne&Hop&Hnl).
    assert (contains_char "[" name = false ∧ contains_char "]" name = false) as [Ho Hc].
    { split; eapply all_ascii_contains; done. }
    rewrite (proj2 (rsplit_once_Some "[" _ p (name +:+ "]"))).
    + rewrite (proj2 (split_once_Some "]" _ name "")) by done.
      by rewrite Hne, Hop, Hnl.
    + split; [done|]. by rewrite contains_char_app, Ho.
Qed.

(** The path of an accepted key is cut out of a prefix of the key. *)
Lemma parse_filter_key_prefix key fe :
  parse_filter_key key = Ok fe →
  ∃ p t, key = p +:+ t ∧ fe_path fe = split "." p.
Proof.
  unfold parse_filter_key. intros H. inv_ok. destruct x as [p name]. inv_ok. cbn.
  destruct (filter_key_captures key) as [[p' n']|] eqn:Hc.
  - simplify_eq. apply filter_key_captures_Some in Hc as (->&_). eauto.
  - destruct (contains_char "[" key); [done|]. destruct (contains_char "]" key); [done|].
    simplify_eq. exists p, "". by rewrite app_nil_r.
Qed.


(** The key a client writes for a filter expression. *)
Definition print_filter_key (fe : FilterExpression) : string :=
  join "." (fe_path fe) +:+ "[" +:+ operator_name (fe_operator fe) +:+ "]".

Lemma contains_char_join_dot c l :
  Ascii.eqb "." c = false → Forall (λ s, contains_char c s = false) l →
  contains_char c (join "." l) = false.
Proof.
  intros Hc Hl. induction Hl as [|s l Hs Hl IH]; [done|].
  destruct l as [|t l]; [done|].
  rewrite join_cons2, !contains_char_app, Hs. cbn [contains_char]. by rewrite Hc, IH.
Qed.

(** Printing a filter expression as a query key and parsing the key gives
    the expression back, for each of the fourteen operators and every path
    whose segments contain neither a dot nor a newline. *)
Theorem parse_print_filter_key (fe : FilterExpression)
    (Hne : fe_path fe ≠ [])
    (Hdot : Forall (λ s, contains_char "." s = false) (fe_path fe))
    (Hnl : Forall (λ s, contains_char newline s = false) (fe_path fe)) :
  parse_filter_key (print_filter_key fe) = Ok fe.
Proof.
  unfold parse_filter_key, print_filter_key.
  rewrite (proj2 (filter_key_captures_Some _ (join "." (fe_path fe))
                    (operator_name (fe_operator fe)))).
  - cbn. rewrite (proj2 (operator_of_name_Some _ (fe_operator fe)) eq_refl). cbn.
    rewrite split_join by done. by destruct fe.
  - split; [done|]. rewrite contains_char_join_dot by done. by destruct (fe_operator fe).
Qed.

Lemma parse_print_filter_key_witness :
  parse_filter_key "metadata.user.age[gte]"
  = Ok {| fe_path := ["metadata"; "user"; "age"]; fe_operator := OpGte |}.
Proof.
  apply (parse_print_filter_key {| fe_path := ["metadata"; "user"; "age"]; fe_operator := OpGte |});
    [discriminate|repeat constructor|repeat constructor].
Defined.
