(* ===== verification/Interp.v ===== *)
(** * Interpolation and coercion

    src/src/db/query/helpers/interpolation.rs: the [${key}] references of
    configured clauses and request bodies, and the conversion of request text
    to the JSON value bound to a parameter. *)

From S2P Require Import Prelude RustStr Json Config Errors SqlHelpers.
Local Open Scope stdpp_scope.

(** ** The references of a text

    A match of the pattern at the start of a text: a dollar sign, an opening
    brace, a key of at least one character up to the next closing brace. *)
Definition key_at (s : string) : option string :=
  match strip_prefix "${" s with
  | Some r => match split_once "}" r with
              | Some (k, _) => if is_empty k then None else Some k
              | None => None
              end
  | None => None
  end.

(** [captures_iter]: the text before each match with the key of the match,
    and the text after the last one. [skip] counts the bytes of the current
    match that are still to be passed over, [lit] is the text since the last
    match.
    Source: db/query/helpers/interpolation.rs:19-23 [VALUE_INTERPOLATION_RE] *)
Fixpoint scan_go (skip : nat) (lit : string) (s : string) : list (string * string) * string :=
  match s with
  | "" => ([], lit)
  | String a s' =>
      match skip with
      | S n => scan_go n lit s'
      | 0 => match key_at s with
             | Some key =>
                 let '(l, t) := scan_go (String.length key + 2) "" s' in ((lit, key) :: l, t)
             | None => scan_go 0 (lit +:+ String a "") s'
             end
      end
  end.
Definition scan (s : string) : list (string * string) * string := scan_go 0 "" s.

(** Source: db/query/helpers/interpolation.rs [resolve_single_key] *)
Definition resolve_single_key (key : string) (context : RequestContext) : option string :=
  if bool_decide (key = "request.user.id") then rc_user_id context
  else if bool_decide (key = "request.user.email") then rc_user_email context
  else if bool_decide (key = "request.user.role") then rc_user_role context
  else if bool_decide (key = "request.method") then Some (rc_method context)
  else if bool_decide (key = "request.path") then Some (rc_path context)
  else match strip_prefix "request.headers." key with
       | Some header_name => rc_headers context !! header_name
       | None =>
           match strip_prefix "request.query." key with
           | Some query_key => rc_raw_query_params context !! query_key
           | None => None
           end
       end.

(** The default of [key:-default] is tried first.
    Source: db/query/helpers/interpolation.rs:53-61 [interpolate_value (key)] *)
Definition resolve_value_key (key : string) (context : RequestContext) : option string :=
  match split_once_str ":-" key with
  | None => resolve_single_key key context
  | Some (base_key, default_val) =>
      opt_or (resolve_single_key base_key context) (Some default_val)
  end.

(** The replacement of one match, and whether any key was resolved so far. *)
Definition interpolate_step (context : RequestContext) (acc : string * bool)
    (m : string * string) : string * bool :=
  let '(new_string, found) := acc in
  let '(lit, key) := m in
  match resolve_value_key key context with
  | Some v => (new_string +:+ lit +:+ v, true)
  | None => (new_string +:+ lit +:+ "${" +:+ key +:+ "}", found)
  end.

(** Source: db/query/helpers/interpolation.rs [interpolate_value] *)
Definition interpolate_value (value : string) (context : RequestContext) : result AppError Json.value :=
  let '(ms, tail) := scan value in
  if bool_decide (ms = []) then Ok (VString value)
  else
    let '(new_string, found) := fold_left (interpolate_step context) ms ("", false) in
    if found : bool then Ok (VString (new_string +:+ tail)) else Ok (VString value).

(** The whole key is tried first, then the default.
    Source: db/query/helpers/interpolation.rs:116-127 [interpolate_where_clause (key)] *)
Definition resolve_where_key (key : string) (context : RequestContext) : option string :=
  match resolve_single_key key context with
  | Some v => Some v
  | None =>
      match split_once_str ":-" key with
      | Some (base_key, default_val) =>
          opt_or (resolve_single_key base_key context) (Some default_val)
      | None => None
      end
  end.

(** State of the loop: parameters, SQL parts, number of parameters consumed. *)
Definition where_step (context : RequestContext) (driver : DatabaseDriver)
    (st : list value * list string * nat) (m : string * string)
    : result AppError (list value * list string * nat) :=
  let '(params, sql_parts, consumed) := st in
  let '(lit, key) := m in
  match resolve_where_key key context with
  | Some v =>
      Ok (params ++ [VString v], sql_parts ++ [lit; placeholder driver (consumed + 1)],
          S consumed)
  | None => Err (BadRequest ("Could not resolve interpolation key: " +:+ key))
  end.

(** Source: db/query/helpers/interpolation.rs [interpolate_where_clause] *)
Definition interpolate_where_clause (wc : string) (context : RequestContext)
    (driver : DatabaseDriver) (params : list value) (sql_parts : list string)
    : result AppError (list value * list string * nat) :=
  let '(ms, tail) := scan wc in
  '(params', sql_parts', consumed) ←
    try_fold (where_step context driver) (params, sql_parts, 0) ms;
  Ok (params', sql_parts' ++ [tail], consumed).

(** ** Fields and primary keys *)

(** Source: db/query/helpers/interpolation.rs [resolve_writable_fields] *)
Definition resolve_writable_fields (writable : list string) (table : TableConfig) : gset string :=
  if bool_decide ("*" ∈ writable) then list_to_set (map col_name (tbl_columns table))
  else list_to_set writable.

(** Source: db/query/helpers/interpolation.rs [resolve_fields] *)
Definition resolve_fields (fields : list string) (table : TableConfig) : list string :=
  if bool_decide (fields = ["*"]) then map col_name (tbl_columns table) else fields.

(** Source: db/query/helpers/interpolation.rs [find_pk_column] *)
Definition find_pk_column (table : TableConfig) : result AppError string :=
  ok_or (Internal "Table has no primary key column")
    (col_name <$> find_first col_primary_key (tbl_columns table)).

(** ** Coercion *)

Definition is_integer_type (ct : ColumnType) : bool :=
  match ct with Integer | Bigint | Smallint | Serial | Bigserial => true | _ => false end.
Definition is_float_type (ct : ColumnType) : bool :=
  match ct with Float | Double | Decimal => true | _ => false end.

(** Source: db/query/helpers/interpolation.rs [coerce_pk_value] *)
Definition coerce_pk_value (table : TableConfig) (raw : string) : value :=
  match col_type <$> find_first col_primary_key (tbl_columns table) with
  | Some ct =>
      if is_integer_type ct then
        match parse_i64 raw with Some n => json_int n | None => json_int i64_min end
      else if is_float_type ct then
        match parse_f64 raw with Some x => json_float x | None => VString raw end
      else VString raw
  | None => VString raw
  end.

(** The builders' test for the value that marks a failed coercion:
    [as_number().is_some_and(|n| n.as_i64() == Some(i64::MIN))]. *)
Definition is_coercion_sentinel (v : value) : bool :=
  match as_number v with
  | Some n => bool_decide (number_as_i64 n = Some i64_min)
  | None => false
  end.

Definition is_null_text (value : string) : bool := bool_decide (to_lower value = "null").

(** Source: db/query/helpers/interpolation.rs [coerce_filter_value_by_type] *)
Definition coerce_filter_value_by_type (value : string) (column_type : ColumnType)
    (driver : DatabaseDriver) : Json.value :=
  match column_type with
  | Integer | Bigint | Smallint | Serial | Bigserial =>
      match parse_i64 value with Some n => json_int n | None => VString value end
  | Float | Double | Decimal =>
      match parse_f64 value with Some x => json_float x | None => VString value end
  | Boolean =>
      match parse_bool value with Some b => VBool b | None => VString value end
  | Json | Jsonb =>
      match driver with
      | Postgres | Mysql => if is_null_text value then VNull else VString value
      | Sqlite =>
          if is_null_text value then VNull
          else match parse_bool value with
               | Some b => VBool b
               | None =>
                   match parse_i64 value with
                   | Some n => VNumber (NInt n)
                   | None =>
                       match parse_f64 value with
                       | Some x => match number_from_f64 x with
                                   | Some n => VNumber n
                                   | None => VString value
                                   end
                       | None => VString value
                       end
                   end
               end
      end
  | _ => if is_null_text value then VNull else VString value
  end.

(** Source: db/query/helpers/interpolation.rs [build_filter_param] *)
Definition build_filter_param (value : string) (column_type : ColumnType)
    (driver : DatabaseDriver) : Json.value :=
  coerce_filter_value_by_type value column_type driver.

(** ** The shape of a scan *)

(** The text a scan stands for. *)
Definition unscan (l : list (string * string)) (tail : string) : string :=
  join "" (map (λ m, m.1 +:+ "${" +:+ m.2 +:+ "}") l) +:+ tail.

Lemma key_at_Some s k :
  key_at s = Some k ↔
  is_empty k = false ∧ contains_char "}" k = false ∧ ∃ r, s = "${" +:+ k +:+ "}" +:+ r.
Proof.
  unfold key_at. split.
  - destruct (strip_prefix "${" s) as [r|] eqn:Hp; [|done].
    destruct (split_once "}" r) as [[k' r']|] eqn:Hs; [|done].
    destruct (is_empty k') eqn:Hk; [done|]. intros [= ->].
    apply strip_prefix_Some in Hp as ->. apply split_once_Some in Hs as [-> Hc].
    split_and!; [done..|]. by exists r'.
  - intros (Hne&Hc&r&->). rewrite strip_prefix_app.
    rewrite (proj2 (split_once_Some "}" _ k r)) by done.
    by rewrite Hne.
Qed.

Lemma scan_go_skip k lit s t :
  String.length s = k → scan_go k lit (s +:+ t) = scan_go 0 lit t.
Proof.
  revert k. induction s as [|a s IH]; intros k Hk; simpl in Hk; subst; [done|].
  rewrite app_cons. cbn [scan_go]. by apply IH.
Qed.

Lemma scan_go_cons lit a s :
  scan_go 0 lit (String a s)
  = match key_at (String a s) with
    | Some key => let '(l, t) := scan_go (String.length key + 2) "" s in ((lit, key) :: l, t)
    | None => scan_go 0 (lit +:+ String a "") s
    end.
Proof. done. Qed.

Lemma scan_go_match lit k r :
  is_empty k = false → contains_char "}" k = false →
  scan_go 0 lit ("${" +:+ k +:+ "}" +:+ r)
  = let '(l, t) := scan_go 0 "" r in ((lit, k) :: l, t).
Proof.
  intros Hne Hc.
  assert (key_at ("${" +:+ k +:+ "}" +:+ r) = Some k) as Hk.
  { apply key_at_Some. eauto. }
  change ("${" +:+ k +:+ "}" +:+ r) with (String "$" (String "{" (k +:+ "}" +:+ r))) in *.
  rewrite scan_go_cons, Hk, <-(app_assoc k), <-app_cons.
  rewrite scan_go_skip; [done|]. cbn [String.length]. rewrite str_length_app. cbn. lia.
Qed.

Lemma scan_go_literal lit s r :
  contains_char "$" s = false → scan_go 0 lit (s +:+ r) = scan_go 0 (lit +:+ s) r.
Proof.
  revert lit. induction s as [|b s IH]; intros lit; [by rewrite app_nil_r|].
  intros [Hb Hs]%orb_false_iff. rewrite app_cons, scan_go_cons.
  assert (key_at (String b (s +:+ r)) = None) as ->.
  { destruct (key_at _) as [k|] eqn:Hk; [|done]. apply key_at_Some in Hk as (_&_&x&Hx).
    change ("${" +:+ k +:+ "}" +:+ x) with (String "$" (String "{" (k +:+ "}" +:+ x))) in Hx.
    injection Hx as -> _. discriminate Hb. }
  rewrite (IH _ Hs). by rewrite app_assoc, app_cons, app_nil_l.
Qed.

Lemma scan_go_spec n s skip lit l t :
  String.length s < n → scan_go skip lit s = (l, t) → skip = 0 → unscan l t = lit +:+ s.
Proof.
  revert s skip lit l t. induction n as [|n IH]; intros s skip lit l t Hn Hs ->; [lia|].
  destruct s as [|a s]; [simplify_eq/=; unfold unscan; cbn; by rewrite app_nil_r|].
  destruct (key_at (String a s)) as [k|] eqn:Hk.
  - apply key_at_Some in Hk as (Hne&Hc&r&Heq). rewrite Heq in Hs, Hn |- *.
    rewrite (scan_go_match _ _ _ Hne Hc) in Hs.
    destruct (scan_go 0 "" r) as [l' t'] eqn:Hr. simplify_eq.
    apply IH in Hr; [|rewrite !str_length_app in Hn; cbn in Hn; lia|done].
    unfold unscan in *. cbn [map]. rewrite join_nil_sep_cons, app_assoc, Hr. cbn.
    by rewrite !app_assoc.
  - rewrite scan_go_cons, Hk in Hs. apply IH in Hs; [|cbn in Hn; lia|done].
    rewrite Hs, app_assoc, app_cons, app_nil_l. done.
Qed.

(** A scan loses nothing of the text. *)
Lemma unscan_scan s : unscan (scan s).1 (scan s).2 = s.
Proof.
  unfold scan. destruct (scan_go 0 "" s) as [l t] eqn:Hs.
  apply (scan_go_spec (S (String.length s))) in Hs; [done|lia|done].
Qed.

Lemma scan_no_key s : contains_char "$" s = false → scan s = ([], s).
Proof. intros H. unfold scan. rewrite <-(app_nil_r s) at 1. by rewrite (scan_go_literal _ _ _ H). Qed.

(** ** Where clauses *)

(** The SQL parts of the references [ms], numbered from [k]. *)
Fixpoint where_parts (d : DatabaseDriver) (k : nat) (ms : list (string * string)) : list string :=
  match ms with
  | [] => []
  | (lit, _) :: ms' => lit :: placeholder d k :: where_parts d (S k) ms'
  end.

Definition unresolved (context : RequestContext) (m : string * string) : bool :=
  match resolve_where_key m.2 context with Some _ => false | None => true end.

Lemma where_loop context d params parts c ms :
  try_fold (where_step context d) (params, parts, c) ms
  = match find_first (unresolved context) ms with
    | Some m => Err (BadRequest ("Could not resolve interpolation key: " +:+ m.2))
    | None =>
        Ok (params ++ map VString (omap (λ m, resolve_where_key m.2 context) ms),
            parts ++ where_parts d (S c) ms, c + length ms)
    end.
Proof.
  revert params parts c. induction ms as [|[lit key] ms IH]; intros params parts c.
  { cbn. by rewrite !(right_id_L [] (++)), Nat.add_0_r. }
  cbn. unfold unresolved at 1. cbn. destruct (resolve_where_key key context) as [v|]; [|done].
  rewrite IH. destruct (find_first _ ms); [done|]. cbn.
  rewrite <-!(assoc_L (++)), Nat.add_1_r. cbn. repeat f_equal. lia.
Qed.

(** C2: a configured where clause with [${key}] references. When every key
    resolves, the SQL text is the clause with its references replaced by
    placeholders numbered from 1, whatever the values are, the values are
    appended to the parameters in the order of the references, and the count
    returned is the number of references. Otherwise the request is rejected,
    naming the first key that does not resolve: no value can reach the text. *)
Theorem interpolate_where_clause_spec (wc : string) (context : RequestContext)
    (d : DatabaseDriver) (params : list value) (parts : list string) :
  interpolate_where_clause wc context d params parts
  = match find_first (unresolved context) (scan wc).1 with
    | Some m => Err (BadRequest ("Could not resolve interpolation key: " +:+ m.2))
    | None =>
        Ok (params ++ map VString (omap (λ m, resolve_where_key m.2 context) (scan wc).1),
            parts ++ where_parts d 1 (scan wc).1 ++ [(scan wc).2],
            length (scan wc).1)
    end.
Proof.
  unfold interpolate_where_clause. destruct (scan wc) as [ms tail]. cbn [fst snd].
  rewrite where_loop. destruct (find_first _ ms); [done|]. cbn. by rewrite (assoc_L (++)).
Qed.

(** The form the builders use. *)
Lemma interpolate_where_clause_Ok wc context d params parts params' parts' n :
  interpolate_where_clause wc context d params parts = Ok (params', parts', n) →
  parts' = parts ++ where_parts d 1 (scan wc).1 ++ [(scan wc).2] ∧
  n = length (scan wc).1 ∧ ∃ vs, params' = params ++ map VString vs ∧ length vs = n.
Proof.
  unfold interpolate_where_clause. destruct (scan wc) as [ms tail]. cbn [fst snd].
  rewrite where_loop. destruct (find_first _ ms) eqn:Hf; [done|]. cbn. intros [= <- <- <-].
  rewrite (assoc_L (++)). split_and!; [done..|]. eexists. split; [done|].
  rewrite find_first_None in Hf. clear params parts wc.
  induction ms as [|m ms IH]; [done|]. cbn.
  assert (unresolved context m = false) as Hm by (apply Hf; by left).
  unfold unresolved in Hm. destruct (resolve_where_key m.2 context); [|done]. cbn.
  f_equal. apply IH. intros x Hx. apply Hf. by right.
Qed.

(** ** Values *)

(** What a reference of a value is replaced by. *)
Definition substitute (context : RequestContext) (key : string) : string :=
  default ("${" +:+ key +:+ "}") (resolve_value_key key context).

Lemma interpolate_fold context ms acc found :
  fold_left (interpolate_step context) ms (acc, found)
  = (acc +:+ join "" (map (λ m, m.1 +:+ substitute context m.2) ms),
     found || existsb (λ m, match resolve_value_key m.2 context with Some _ => true | None => false end) ms).
Proof.
  revert acc found. induction ms as [|[lit key] ms IH]; intros acc found.
  { cbn. by rewrite app_nil_r, orb_false_r. }
  cbn [fold_left map existsb interpolate_step fst snd]. rewrite join_nil_sep_cons.
  unfold substitute at 1. destruct (resolve_value_key key context) as [v|]; cbn [default];
    rewrite IH, !app_assoc; [by rewrite orb_true_r|done].
Qed.

Lemma interpolate_value_closed v context :
  interpolate_value v context
  = Ok (VString (join "" (map (λ m, m.1 +:+ substitute context m.2) (scan v).1) +:+ (scan v).2)).
Proof.
  unfold interpolate_value. pose proof (unscan_scan v) as Hv.
  destruct (scan v) as [ms tail]. cbn [fst snd] in *.
  case_bool_decide as Hms; [by subst|]. rewrite interpolate_fold, orb_false_l.
  destruct (existsb _ ms) eqn:He; [done|]. rewrite <-Hv at 1. unfold unscan.
  do 4 f_equal. apply map_ext_in. intros [lit key] Hin%list_elem_of_In.
  rewrite existsb_elem_false in He. specialize (He _ Hin). cbn in *.
  unfold substitute. by destruct (resolve_value_key key context).
Qed.

(** The replacement of a text that has no reference at all. *)
Lemma substitute_free v context :
  (scan v).1 = [] →
  join "" (map (λ m, m.1 +:+ substitute context m.2) (scan v).1) +:+ (scan v).2 = v.
Proof. intros H. rewrite <-(unscan_scan v) at 3. by rewrite H. Qed.

(** C3: interpolating a request value never fails and is plain substitution:
    each reference becomes its resolved value or default, an unresolvable
    one stays as it is written. The two shortcuts of the code (no reference,
    nothing resolved) return the same text as the substitution. *)
Theorem interpolate_value_is_substitution (v : string) (context : RequestContext) :
  interpolate_value v context
  = Ok (VString (join "" (map (λ m, m.1 +:+ substitute context m.2) (scan v).1) +:+ (scan v).2)).
Proof. apply interpolate_value_closed. Qed.

(** ** Primary keys *)

(** The sentinel that turns a lookup into [1 = 0]. It is produced exactly
    for a table with an integer primary key and a path segment that is not
    the decimal text of an [i64], or that is the text of the smallest
    [i64] itself; so the smallest [i64] can never be looked up, and no other
    key is lost. *)
Theorem coercion_sentinel_iff (table : TableConfig) (raw : string) :
  is_coercion_sentinel (coerce_pk_value table raw) = true ↔
  ∃ c, find_first col_primary_key (tbl_columns table) = Some c ∧
       is_integer_type (col_type c) = true ∧
       (parse_i64 raw = None ∨ parse_i64 raw = Some i64_min).
Proof.
  unfold coerce_pk_value. destruct (find_first _ _) as [c|]; cbn;
    [|by split; [|intros (?&?&_)]].
  destruct (is_integer_type (col_type c)) eqn:Hi.
  - destruct (parse_i64 raw) as [n|]; cbn.
    + unfold is_coercion_sentinel. cbn. split.
      * case_bool_decide as Hn; [|done]. destruct (_ && _)%Z; [|done]. simplify_eq. intros _. exists c. auto.
      * intros (c'&?&_&[?|[= ->]]); done.
    + split; [|done]. intros _. exists c. auto.
  - split; [|by intros (c'&[= <-]&?&_); congruence]. destruct (is_float_type (col_type c)); [|done].
    destruct (parse_f64 raw) as [x|]; [|done]. unfold json_float.
    destruct (finite_float x); done.
Qed.
