(* ===== verification/Holes.v ===== *)
(** * Placeholders of a SQL text

    The specification the query builders are checked against: which
    placeholders a SQL text holds, in order, and the rules by which a text
    assembled from pieces holds the placeholders [k], ..., [m - 1]. *)

From S2P Require Import Prelude RustStr Json Config Errors SqlHelpers Interp.
Local Open Scope stdpp_scope.

(** The character that starts a placeholder. *)
Definition marker (d : DatabaseDriver) : ascii :=
  match d with Postgres => "$" | Sqlite | Mysql => "?" end.

(** A text without placeholders. *)
Definition clean (d : DatabaseDriver) (s : string) : bool := negb (contains_char (marker d) s).

Definition starts_digit (s : string) : bool :=
  match s with String a _ => is_digit a | "" => false end.

Fixpoint digit_run (s : string) : string :=
  match s with
  | String a s' => if is_digit a then String a (digit_run s') else ""
  | "" => ""
  end.

(** The placeholders of a text as the database reads them: [$] with the digits
    that follow it, or [?]. *)
Definition placeholders_in (d : DatabaseDriver) (s : string) : list string :=
  map (λ x, match d with Postgres => "$" +:+ digit_run x | _ => "?" end)
      (tail (split (marker d) s)).

(** The placeholders numbered [k], ..., [k + n - 1]. *)
Definition numbered (d : DatabaseDriver) (k n : nat) : list string := map (placeholder d) (seq k n).

(** [holed d k m s]: [s] holds exactly the placeholders [k], ..., [m - 1], in
    order, and no digit follows one directly. *)
Inductive holed (d : DatabaseDriver) : nat → nat → string → Prop :=
| holed_text k s : clean d s = true → holed d k k s
| holed_hole k m s t :
    clean d s = true → starts_digit t = false → holed d (S k) m t →
    holed d k m (s +:+ placeholder d k +:+ t).

(** ** Rules *)

Lemma clean_app d s t : clean d (s +:+ t) = clean d s && clean d t.
Proof. unfold clean. by rewrite contains_char_app, negb_orb. Qed.

Lemma clean_join d sep l :
  clean d sep = true → Forall (λ s, clean d s = true) l → clean d (join sep l) = true.
Proof.
  intros Hs Hl. induction Hl as [|s l Hc Hl IH]; [by destruct d|].
  destruct l as [|t l]; [done|]. by rewrite join_cons2, !clean_app, Hc, Hs, IH.
Qed.

Lemma quote_clean d s : clean d s = true → clean d (quote_identifier s d) = true.
Proof. intros Hs. destruct d; cbn; rewrite !clean_app, Hs; done. Qed.

Lemma starts_digit_app s t :
  starts_digit (s +:+ t) = if is_empty s then starts_digit t else starts_digit s.
Proof. by destruct s. Qed.

Lemma holed_le d k m s : holed d k m s → k ≤ m.
Proof. induction 1; lia. Qed.

Lemma holed_pre d k m s t : clean d s = true → holed d k m t → holed d k m (s +:+ t).
Proof.
  intros Hs Ht. destruct Ht as [k t Ht|k m u t Hu Hd Ht].
  - constructor. by rewrite clean_app, Hs, Ht.
  - rewrite <-app_assoc. constructor; [by rewrite clean_app, Hs, Hu|done..].
Qed.

Lemma holed_app d k l m s t :
  holed d k l s → starts_digit t = false → holed d l m t → holed d k m (s +:+ t).
Proof.
  intros Hs. revert m t. induction Hs as [k s Hs|k l s u Hs Hd Hu IH]; intros m t Ht Hm.
  - by apply holed_pre.
  - rewrite !app_assoc. constructor; [done| |by apply IH].
    rewrite starts_digit_app. by destruct (is_empty u).
Qed.

Lemma holed_placeholder d k : holed d k (S k) (placeholder d k).
Proof.
  rewrite <-(app_nil_r (placeholder d k)), <-(app_nil_l (placeholder d k +:+ "")).
  constructor; [by destruct d|done|]. constructor. by destruct d.
Qed.

(** A list of placeholders, separated. *)
Lemma holed_list d k n sep :
  clean d sep = true → starts_digit sep = false → sep ≠ "" →
  holed d k (k + n) (join sep (numbered d k n)).
Proof.
  intros Hc Hd Hne. unfold numbered. revert k. induction n as [|n IH]; intros k.
  { rewrite Nat.add_0_r. constructor. by destruct d. }
  destruct n as [|n].
  { cbn [seq map]. rewrite join_single, Nat.add_1_r. apply holed_placeholder. }
  change (map (placeholder d) (seq k (S (S n))))
    with (placeholder d k :: placeholder d (S k) :: map (placeholder d) (seq (S (S k)) n)).
  rewrite join_cons2. eapply holed_app; [apply holed_placeholder| |].
  - rewrite starts_digit_app. by destruct sep.
  - apply holed_pre; [done|]. specialize (IH (S k)).
    replace (k + S (S n)) with (S k + S n) by lia. exact IH.
Qed.

(** Joining texts that take up the numbering where the previous one ends. *)
Inductive holed_seq (d : DatabaseDriver) : nat → nat → list string → Prop :=
| holed_seq_nil k : holed_seq d k k []
| holed_seq_cons k l m s ss : holed d k l s → holed_seq d l m ss → holed_seq d k m (s :: ss).

Lemma holed_seq_app d k l m ss ts :
  holed_seq d k l ss → holed_seq d l m ts → holed_seq d k m (ss ++ ts).
Proof. induction 1; [done|]. intros. econstructor; eauto. Qed.

Lemma holed_seq_one d k m s : holed d k m s → holed_seq d k m [s].
Proof. intros. econstructor; [done|constructor]. Qed.

Lemma holed_seq_clean d k ss : Forall (λ s, clean d s = true) ss → holed_seq d k k ss.
Proof. induction 1; econstructor; [by constructor|done]. Qed.

Lemma holed_join d k m sep ss :
  clean d sep = true → starts_digit sep = false → sep ≠ "" →
  holed_seq d k m ss → holed d k m (join sep ss).
Proof.
  intros Hc Hd Hne Hss. induction Hss as [k|k l m s ss Hs Hss IH].
  { constructor. by destruct d. }
  destruct ss as [|t ss].
  { inversion Hss; subst. by rewrite join_single. }
  rewrite join_cons2. eapply holed_app; [done| |by apply holed_pre].
  rewrite starts_digit_app. by destruct sep.
Qed.

(** ** Soundness of the judgement *)

Lemma digit_run_app s t :
  all_ascii is_digit s = true → starts_digit t = false → digit_run (s +:+ t) = s.
Proof.
  intros Hs Ht. induction s as [|a s IH].
  - rewrite app_nil_l. destruct t as [|b t]; [done|]. cbn in *. by rewrite Ht.
  - apply andb_true_iff in Hs as [Ha Hs]. rewrite app_cons. cbn. by rewrite Ha, (IH Hs).
Qed.

Lemma pretty_N_char_digit x : is_digit (pretty_N_char (x `mod` 10)) = true.
Proof.
  assert (x `mod` 10 < 10)%N as Hx by (apply N.mod_lt; lia).
  destruct (x `mod` 10)%N as [|p]; [done|].
  do 4 (destruct p as [p|p|]; try done); lia.
Qed.

Lemma pretty_N_go_digits x s :
  all_ascii is_digit s = true → all_ascii is_digit (pretty_N_go x s) = true.
Proof.
  revert s. induction (N.lt_wf_0 x) as [x _ IH]; intros s Hs.
  destruct (decide (0 < x)%N) as [Hx|Hx].
  - rewrite pretty_N_go_step by done. apply IH; [apply N.div_lt; lia|].
    cbn. by rewrite pretty_N_char_digit, Hs.
  - assert (x = 0)%N as -> by lia. by rewrite pretty_N_go_0.
Qed.

Lemma show_nat_digits n : all_ascii is_digit (show_nat n) = true.
Proof.
  unfold show_nat, pretty, pretty_N. case_decide; [done|]. by apply pretty_N_go_digits.
Qed.

Lemma clean_split d s t :
  clean d s = true → split (marker d) (s +:+ String (marker d) t) = s :: split (marker d) t.
Proof. intros Hs%negb_true_iff. by apply split_app_sep. Qed.

Lemma holed_placeholders d k m s :
  holed d k m s → placeholders_in d s = numbered d k (m - k).
Proof.
  unfold placeholders_in, numbered. induction 1 as [k s Hs|k m s t Hs Hd Ht IH].
  { rewrite Nat.sub_diag. apply negb_true_iff in Hs. by rewrite (split_no_sep _ _ Hs). }
  pose proof (holed_le _ _ _ _ Ht).
  replace (m - k) with (S (m - S k)) by lia. cbn [seq map]. rewrite <-IH. clear IH.
  set (f := λ x, match d with Postgres => "$" +:+ digit_run x | _ => "?" end).
  assert (split (marker d) t ≠ []) as Hne by apply split_pred_ne_nil.
  assert (∃ u, placeholder d k = String (marker d) u ∧ all_ascii is_digit u = true ∧
               clean d u = true) as (u&Hu&Hdig&Hcl).
  { destruct d; cbn; [exists (show_nat k)|exists ""; done..].
    split_and!; [done|apply show_nat_digits|]. unfold clean. cbn.
    apply negb_true_iff. eapply all_ascii_contains; [apply show_nat_digits|done]. }
  rewrite Hu, app_cons, (clean_split _ _ _ Hs). cbn [tail].
  assert (∃ h r, split (marker d) t = h :: r ∧ split (marker d) (u +:+ t) = (u +:+ h) :: r ∧
                 starts_digit h = false) as (h&r&->&->&Hh).
  { clear -Hd Hcl Hne. apply negb_true_iff in Hcl. unfold split in *.
    destruct (split_pred _ t) as [|h r] eqn:Hsp; [done|]. exists h, r. split_and!; [done| |].
    - induction u as [|a u IHu]; [done|]. apply orb_false_iff in Hcl as [Ha Hu].
      rewrite !app_cons. cbn [split_pred]. rewrite Ha, (IHu Hu). done.
    - destruct t as [|b t]; cbn in Hsp; [by simplify_eq|].
      destruct (Ascii.eqb b (marker d)); [by simplify_eq|].
      destruct (split_pred _ t); by simplify_eq. }
  cbn [map tail]. f_equal. subst f. cbn.
  rewrite (digit_run_app _ _ Hdig Hh), <-Hu. by destruct d.
Qed.

(** ** Texts with placeholders side by side *)

Lemma split_pred_app p s t :
  ∃ l x y r, split_pred p s = l ++ [x] ∧ split_pred p t = y :: r ∧
             split_pred p (s +:+ t) = l ++ (x +:+ y) :: r.
Proof.
  induction s as [|a s IH].
  - destruct (split_pred p t) as [|y r] eqn:Ht; [by apply split_pred_ne_nil in Ht|].
    exists [], "", y, r. by rewrite app_nil_l.
  - destruct IH as (l&x&y&r&Hs&->&Hst). rewrite app_cons. cbn [split_pred].
    rewrite Hs, Hst. destruct (p a).
    + by exists ("" :: l), x, y, r.
    + destruct l as [|h l]; cbn.
      * by exists [], (String a x), y, r.
      * by exists (String a h :: l), x, y, r.
Qed.

Lemma digit_run_nondigit x y : starts_digit y = false → digit_run (x +:+ y) = digit_run x.
Proof.
  intros Hy. induction x as [|a x IH].
  - rewrite app_nil_l. destruct y as [|b y]; [done|]. cbn in *. by rewrite Hy.
  - rewrite app_cons. cbn. by rewrite IH.
Qed.

Lemma placeholders_in_app d s t :
  starts_digit t = false →
  placeholders_in d (s +:+ t) = placeholders_in d s ++ placeholders_in d t.
Proof.
  intros Ht. unfold placeholders_in, split.
  destruct (split_pred_app (λ a, Ascii.eqb a (marker d)) s t) as (l&x&y&r&->&Hy&->). rewrite Hy.
  assert (starts_digit y = false) as Hyd.
  { destruct t as [|b t]; cbn in Hy; [by simplify_eq|].
    destruct (Ascii.eqb b (marker d)); [by simplify_eq|].
    destruct (split_pred _ t); by simplify_eq. }
  destruct l as [|z l]; cbn [app tail]; [done|].
  rewrite !map_app, <-(assoc_L (++)). cbn. do 2 f_equal. destruct d; [|done..].
  f_equal. by apply digit_run_nondigit.
Qed.

(** A question mark carries no number. *)
Lemma numbered_app d k n m :
  d ≠ Postgres → numbered d k n ++ numbered d k m = numbered d k (n + m).
Proof.
  intros Hd. unfold numbered. rewrite seq_app, map_app. f_equal.
  generalize (k + n). revert k. induction m as [|m IH]; intros k k'; [done|].
  cbn. f_equal; [by destruct d|]. apply IH.
Qed.
