(* ===== verification/Select.v ===== *)
(** * SELECT queries

    The driver-specific filter syntax (src/src/db/query/traits.rs), the
    [SelectBuilder] (select.rs) and the list, single-record and count queries
    made from it (builders/select_builder.rs, count.rs). *)

From S2P Require Import Prelude RustStr Json Config Errors SqlHelpers Interp.
Local Open Scope stdpp_scope.

(** The part of [DatabaseContext] the builders read: the pool's driver and
    the table. *)
Record DatabaseContext := { dbx_driver : DatabaseDriver; dbx_table : TableConfig }.

(** ** Filter behaviour *)

(** The trait object [Box<dyn FilterBehavior>] with its super-traits.
    Source: db/query/traits.rs:1-57 [FilterBehavior] *)
Class FilterBehavior := {
  eq_op : string; ne_op : string;
  gt_op : string; gte_op : string; lt_op : string; lte_op : string;
  like_op : string; ilike_op : string;
  like_pattern : string → string;
  like_pattern_start : string → string;
  like_pattern_end : string → string;
  json_extract_path : string → string → string;
  uses_jsonb_ops : bool;
}.

Definition concat_start (param : string) : string := "CONCAT(" +:+ param +:+ ", '%')".
Definition concat_end (param : string) : string := "CONCAT('%', " +:+ param +:+ ")".

(** Source: db/query/traits.rs:59-127 [PostgresFilter] *)
Definition PostgresFilter : FilterBehavior := {|
  eq_op := "="; ne_op := "<>"; gt_op := ">"; gte_op := ">="; lt_op := "<"; lte_op := "<=";
  like_op := "LIKE"; ilike_op := "ILIKE";
  like_pattern := λ param, param;
  like_pattern_start := concat_start; like_pattern_end := concat_end;
  json_extract_path := λ column path,
    "(" +:+ column +:+ " #>> '{" +:+ join "," (split "." path) +:+ "}')";
  uses_jsonb_ops := true |}.

(** Source: db/query/traits.rs:128-196 [MysqlFilter] *)
Definition MysqlFilter : FilterBehavior := {|
  eq_op := "="; ne_op := "!="; gt_op := ">"; gte_op := ">="; lt_op := "<"; lte_op := "<=";
  like_op := "LIKE"; ilike_op := "LIKE";
  like_pattern := λ param, param;
  like_pattern_start := concat_start; like_pattern_end := concat_end;
  json_extract_path := λ column path,
    "JSON_UNQUOTE(JSON_EXTRACT(" +:+ column +:+ ", '$." +:+ path +:+ "'))";
  uses_jsonb_ops := false |}.

(** Source: db/query/traits.rs:198-265 [SqliteFilter] *)
Definition SqliteFilter : FilterBehavior := {|
  eq_op := "="; ne_op := "!="; gt_op := ">"; gte_op := ">="; lt_op := "<"; lte_op := "<=";
  like_op := "LIKE"; ilike_op := "LIKE";
  like_pattern := λ param, param;
  like_pattern_start := concat_start; like_pattern_end := concat_end;
  json_extract_path := λ column path,
    "json_extract(" +:+ column +:+ ", '$." +:+ path +:+ "')";
  uses_jsonb_ops := false |}.

Definition behavior_of (driver : DatabaseDriver) : FilterBehavior :=
  match driver with
  | Postgres => PostgresFilter | Mysql => MysqlFilter | Sqlite => SqliteFilter
  end.

(** ** The builder *)

(** Source: db/query/select.rs [SelectBuilder] *)
Record SelectBuilder := {
  sb_table : string;
  sb_select_fields : list string;
  sb_joins : list string;
  sb_computed : list string;
  sb_conditions : list string;
  sb_order_by : option string;
  sb_limit_offset : option (string * string);
  sb_params : list value;
  sb_param_idx : nat;
  sb_driver : DatabaseDriver;
  sb_filter_behavior : FilterBehavior;
}.

(** Source: db/query/select.rs [SelectBuilder::new] *)
Definition new (table : string) (fields : list string) (driver : DatabaseDriver) : SelectBuilder := {|
  sb_table := table; sb_select_fields := fields; sb_joins := []; sb_computed := [];
  sb_conditions := []; sb_order_by := None; sb_limit_offset := None;
  sb_params := []; sb_param_idx := 1; sb_driver := driver;
  sb_filter_behavior := behavior_of driver |}.

(** Updates of the fields the steps assign. *)
Definition with_fields (sb : SelectBuilder) (fields joins : list string) : SelectBuilder := {|
  sb_table := sb_table sb; sb_select_fields := fields; sb_joins := joins;
  sb_computed := sb_computed sb; sb_conditions := sb_conditions sb;
  sb_order_by := sb_order_by sb; sb_limit_offset := sb_limit_offset sb;
  sb_params := sb_params sb; sb_param_idx := sb_param_idx sb; sb_driver := sb_driver sb;
  sb_filter_behavior := sb_filter_behavior sb |}.
Definition with_computed (sb : SelectBuilder) (computed : list string) : SelectBuilder := {|
  sb_table := sb_table sb; sb_select_fields := sb_select_fields sb; sb_joins := sb_joins sb;
  sb_computed := computed; sb_conditions := sb_conditions sb;
  sb_order_by := sb_order_by sb; sb_limit_offset := sb_limit_offset sb;
  sb_params := sb_params sb; sb_param_idx := sb_param_idx sb; sb_driver := sb_driver sb;
  sb_filter_behavior := sb_filter_behavior sb |}.
(** Push one condition with its parameters, advancing the index by [n]. *)
Definition push_condition (sb : SelectBuilder) (condition : string) (params : list value)
    (n : nat) : SelectBuilder := {|
  sb_table := sb_table sb; sb_select_fields := sb_select_fields sb; sb_joins := sb_joins sb;
  sb_computed := sb_computed sb; sb_conditions := sb_conditions sb ++ [condition];
  sb_order_by := sb_order_by sb; sb_limit_offset := sb_limit_offset sb;
  sb_params := params; sb_param_idx := sb_param_idx sb + n; sb_driver := sb_driver sb;
  sb_filter_behavior := sb_filter_behavior sb |}.
Definition with_order_by (sb : SelectBuilder) (o : string) : SelectBuilder := {|
  sb_table := sb_table sb; sb_select_fields := sb_select_fields sb; sb_joins := sb_joins sb;
  sb_computed := sb_computed sb; sb_conditions := sb_conditions sb;
  sb_order_by := Some o; sb_limit_offset := sb_limit_offset sb;
  sb_params := sb_params sb; sb_param_idx := sb_param_idx sb; sb_driver := sb_driver sb;
  sb_filter_behavior := sb_filter_behavior sb |}.
Definition with_limit (sb : SelectBuilder) (lo : string * string) (params : list value)
    (n : nat) : SelectBuilder := {|
  sb_table := sb_table sb; sb_select_fields := sb_select_fields sb; sb_joins := sb_joins sb;
  sb_computed := sb_computed sb; sb_conditions := sb_conditions sb;
  sb_order_by := sb_order_by sb; sb_limit_offset := Some lo;
  sb_params := sb_params sb ++ params; sb_param_idx := sb_param_idx sb + n;
  sb_driver := sb_driver sb; sb_filter_behavior := sb_filter_behavior sb |}.

Definition qualify (table f : string) : string :=
  if contains_char "." f then f else table +:+ "." +:+ f.

(** Source: db/query/select.rs [qualify_main_fields] *)
Definition qualify_main_fields (sb : SelectBuilder) : SelectBuilder :=
  with_fields sb (map (qualify (sb_table sb)) (sb_select_fields sb)) (sb_joins sb).

Definition join_keyword (jt : JoinType) : string :=
  match jt with Inner => "INNER JOIN" | Left => "LEFT JOIN" | Right => "RIGHT JOIN" end.

Definition apply_join (sb : SelectBuilder) (join : JoinConfig) : SelectBuilder :=
  with_fields sb
    (sb_select_fields sb ++ map (qualify (sb_table sb)) (join_fields join))
    (sb_joins sb ++
       [join_keyword (join_join_type join) +:+ " " +:+
        quote_identifier (join_table join) (sb_driver sb) +:+ " ON " +:+ join_on join]).

(** Source: db/query/select.rs [apply_joins] *)
Definition apply_joins (sb : SelectBuilder) (ctx : SelectContext) : SelectBuilder :=
  if bool_decide (sel_joins ctx = []) then sb
  else fold_left apply_join (sel_joins ctx) (qualify_main_fields sb).

(** Source: db/query/select.rs [apply_computed_fields] *)
Definition apply_computed_fields (sb : SelectBuilder) (ctx : SelectContext) : SelectBuilder :=
  with_computed sb
    (sb_computed sb ++
     map (λ c, cf_expression c +:+ " AS " +:+ cf_name c) (sel_computed_fields ctx)).

(** Source: db/query/select.rs [apply_where_clause] *)
Definition apply_where_clause (sb : SelectBuilder) (ctx : SelectContext)
    (context : RequestContext) : result AppError SelectBuilder :=
  match sel_where_clause ctx with
  | None => Ok sb
  | Some wc =>
      '(params, parts, consumed) ←
        interpolate_where_clause wc context (sb_driver sb) (sb_params sb) [];
      Ok (push_condition sb ("(" +:+ join "" parts +:+ ")") params consumed)
  end.

(** ** Conditions of a filter *)

(** [path_str.split('.')] as the column and the path below it. *)
Definition column_and_path (path_str base_column : string) : string * string :=
  match split "." path_str with
  | [] => (base_column, "")
  | column :: rest => (column, join "." rest)
  end.

(** Source: db/query/select.rs [build_comparison] *)
Definition build_comparison (sb : SelectBuilder) (base_column : string) (is_jsonb : bool)
    (param operator path_str : string) (behavior : FilterBehavior) : string :=
  if is_jsonb then
    let '(column_name, nested_path) := column_and_path path_str base_column in
    json_extract_path column_name nested_path +:+ " " +:+ operator +:+ " " +:+ param
  else sb_table sb +:+ "." +:+ base_column +:+ " " +:+ operator +:+ " " +:+ param.

(** Source: db/query/select.rs [build_in] *)
Definition build_in (sb : SelectBuilder) (base_column : string) (is_jsonb : bool)
    (param_list path_str : string) (behavior : FilterBehavior) : string :=
  if is_jsonb then
    let '(column_name, nested_path) := column_and_path path_str base_column in
    json_extract_path column_name nested_path +:+ " IN (" +:+ param_list +:+ ")"
  else sb_table sb +:+ "." +:+ base_column +:+ " IN (" +:+ param_list +:+ ")".

(** Source: db/query/select.rs [build_like] *)
Definition build_like (sb : SelectBuilder) (base_column : string) (is_jsonb : bool)
    (pattern path_str : string) (behavior : FilterBehavior) : string :=
  if is_jsonb then
    let '(column_name, nested_path) := column_and_path path_str base_column in
    json_extract_path column_name nested_path +:+ " " +:+ like_op +:+ " " +:+ pattern
  else sb_table sb +:+ "." +:+ base_column +:+ " " +:+ like_op +:+ " " +:+ pattern.

(** Source: db/query/select.rs [build_ilike] *)
Definition build_ilike (sb : SelectBuilder) (base_column : string) (is_jsonb : bool)
    (pattern path_str : string) (behavior : FilterBehavior) : string :=
  if is_jsonb then
    let '(column_name, nested_path) := column_and_path path_str base_column in
    "LOWER(" +:+ json_extract_path column_name nested_path +:+ ") " +:+ ilike_op +:+
      " LOWER(" +:+ pattern +:+ ")"
  else
    "LOWER(" +:+ sb_table sb +:+ "." +:+ base_column +:+ ") " +:+ ilike_op +:+
      " LOWER(" +:+ pattern +:+ ")".

(** Source: db/query/select.rs [build_exists] *)
Definition build_exists (sb : SelectBuilder) (is_jsonb : bool) (base_column path_str : string)
    (behavior : FilterBehavior) : result AppError string :=
  if is_jsonb then
    match split "." path_str with
    | [] => Err (Internal "Invalid JSONB path: empty path string")
    | column_name :: rest =>
        Ok (json_extract_path column_name (join "." rest) +:+ " IS NOT NULL")
    end
  else Ok (sb_table sb +:+ "." +:+ base_column +:+ " IS NOT NULL").

Section select.
(** As in [SqlHelpers]: the Unicode table, the JSONPath parser and the two
    keyword patterns; [json_string] is [serde_json::to_string] of a string;
    [iter] is the iteration order of a [HashMap]. *)
Context (unicode_alnum json_path_ok unicode_word : string → bool).
Context (json_string : string → string).
Context (iter : gmap string string → list (string * string)).

(** Source: db/query/select.rs [build_contains] *)
Definition build_contains (sb : SelectBuilder) (is_jsonb : bool) (param path_str value : string)
    (behavior : FilterBehavior) : result AppError string :=
  match split "." path_str with
  | [] => Err (Internal "Invalid JSONB path: empty path string")
  | column_name :: rest =>
      if is_jsonb then
        let json_str := json_string value in
        let nested_path := join "." rest in
        if uses_jsonb_ops then
          if is_empty nested_path then
            Ok (column_name +:+ " @> '" +:+ json_str +:+ "'::jsonb")
          else
            let pg_path_expr :=
              if contains_char "." nested_path then
                "(" +:+ column_name +:+ " #> '{" +:+ join "," (split "." nested_path) +:+ "}')"
              else "(" +:+ column_name +:+ "->'" +:+ nested_path +:+ "')" in
            Ok (pg_path_expr +:+ " @> '" +:+ json_str +:+ "'::jsonb")
        else if bool_decide (sb_driver sb = Mysql) then
          if is_empty nested_path then
            Ok ("JSON_CONTAINS(" +:+ column_name +:+ ", JSON_QUOTE(" +:+ param +:+ "))")
          else
            Ok ("JSON_CONTAINS(JSON_EXTRACT(" +:+ column_name +:+ ", '$." +:+ nested_path +:+
                "'), JSON_QUOTE(" +:+ param +:+ "))")
        else if is_empty nested_path then
          Ok ("EXISTS (SELECT 1 FROM json_each(" +:+ column_name +:+
              ", '$') WHERE value = " +:+ param +:+ ")")
        else
          Ok ("json_extract(" +:+ column_name +:+ ", '$." +:+ nested_path +:+ "') = " +:+ param)
      else Ok (sb_table sb +:+ "." +:+ column_name +:+ " LIKE " +:+ param)
  end.

Definition comparison_op (op : FilterOperator) (behavior : FilterBehavior) : string :=
  match op with
  | OpEq => eq_op | OpNe => ne_op | OpGt => gt_op | OpGte => gte_op
  | OpLt => lt_op | _ => lte_op
  end.

(** Source: db/query/select.rs [build_filter_condition] *)
Definition build_filter_condition (sb : SelectBuilder) (operator : FilterOperator)
    (base_column : string) (is_jsonb : bool) (path_str : string) (num_params : nat)
    (value : string) (behavior : FilterBehavior) : string :=
  let ph := placeholder (sb_driver sb) (sb_param_idx sb) in
  match operator with
  | OpEq | OpNe | OpGt | OpGte | OpLt | OpLte =>
      build_comparison sb base_column is_jsonb ph (comparison_op operator behavior) path_str behavior
  | OpIn | OpNotIn =>
      let placeholders :=
        map (λ i, placeholder (sb_driver sb) (sb_param_idx sb + i)) (seq 0 num_params) in
      let condition := build_in sb base_column is_jsonb (join ", " placeholders) path_str behavior in
      match operator with OpNotIn => "NOT " +:+ condition | _ => condition end
  | OpContains =>
      default "" (ok (build_contains sb is_jsonb ph path_str value behavior))
  | OpStartsWith =>
      build_like sb base_column is_jsonb (like_pattern_start ph) path_str behavior
  | OpEndsWith =>
      build_like sb base_column is_jsonb (like_pattern_end ph) path_str behavior
  | OpLike => build_like sb base_column is_jsonb (like_pattern ph) path_str behavior
  | OpILike => build_ilike sb base_column is_jsonb (like_pattern ph) path_str behavior
  | OpExists => ""
  end.

(** The values bound for one filter. *)
Definition filter_values (op : FilterOperator) (is_jsonb : bool) (value : string) : list string :=
  match op with
  | OpIn | OpNotIn => map trim (split "," value)
  | OpContains => if is_jsonb then [value] else ["%" +:+ value +:+ "%"]
  | _ => [value]
  end.

(** Source: db/query/select.rs [apply_filter_expression] *)
Definition apply_filter_expression (sb : SelectBuilder) (expr : FilterExpression)
    (value : string) (column_type : ColumnType) : result AppError SelectBuilder :=
  let path_str := join "." (fe_path expr) in
  let base_column := default "" (head (fe_path expr)) in
  let is_jsonb_field := (1 <? length (fe_path expr)) || is_json_type column_type in
  if bool_decide (fe_operator expr = OpExists) then
    cond ← build_exists sb is_jsonb_field base_column path_str (sb_filter_behavior sb);
    Ok (push_condition sb cond (sb_params sb) 0)
  else
    let values := filter_values (fe_operator expr) is_jsonb_field value in
    let condition :=
      build_filter_condition sb (fe_operator expr) base_column is_jsonb_field path_str
        (length values) value (sb_filter_behavior sb) in
    Ok (push_condition sb condition
          (sb_params sb ++ map (λ v, build_filter_param v column_type (sb_driver sb)) values)
          (length values)).

(** Source: db/query/select.rs [get_column_type_for_filter] *)
Definition get_column_type_for_filter (filter_key : string) (columns : list ColumnConfig)
    : option ColumnType :=
  col_type <$> find_first (λ c, bool_decide (col_name c = extract_base_column filter_key)) columns.

(** One round of the loop of [apply_filters]. *)
Definition apply_filter (ctx : SelectContext) (table_config : TableConfig)
    (sb : SelectBuilder) (kv : string * string) : result AppError SelectBuilder :=
  let '(key, value) := kv in
  expr ← parse_filter_key key;
  base_column ← ok_or (BadRequest ("Invalid filter key: " +:+ key)) (head (fe_path expr));
  let allowed := sel_filtering_allowed_fields ctx in
  let allowed_base := extract_base_column base_column in
  if negb (bool_decide ("*" ∈ allowed)) && negb (bool_decide (allowed_base ∈ allowed)) then
    Err (BadRequest ("Filtering by '" +:+ key +:+ "' is not allowed"))
  else if negb (is_valid_filter_column key (tbl_columns table_config)) then
    Err (BadRequest ("Filter column '" +:+ key +:+ "' does not exist in table '" +:+
                     sb_table sb +:+ "'"))
  else
    column_type ← ok_or (Internal "column validated but type missing")
                    (get_column_type_for_filter key (tbl_columns table_config));
    apply_filter_expression sb expr value column_type.

(** Source: db/query/select.rs [apply_filters] *)
Definition apply_filters (sb : SelectBuilder) (ctx : SelectContext)
    (filters : gmap string string) (table_config : TableConfig) : result AppError SelectBuilder :=
  try_fold (apply_filter ctx table_config) sb (iter filters).

(** Source: db/query/select.rs [apply_pk_condition] *)
Definition apply_pk_condition (sb : SelectBuilder) (pk_col : string) (pk_value : value)
    : SelectBuilder :=
  if is_coercion_sentinel pk_value then push_condition sb "1 = 0" (sb_params sb) 0
  else push_condition sb (pk_col +:+ " = " +:+ placeholder (sb_driver sb) (sb_param_idx sb))
         (sb_params sb ++ [pk_value]) 1.

(** The field a list is sorted by. *)
Definition sort_field_of (ctx : SelectContext) (table_config : TableConfig)
    (query_params : QueryParams) : string :=
  match qp_sort query_params with
  | Some s => s
  | None =>
      if is_empty (sel_sorting_default_field ctx) then
        match find_first col_primary_key (tbl_columns table_config) with
        | Some c => col_name c
        | None => "id"
        end
      else sel_sorting_default_field ctx
  end.

Definition show_order (o : SortOrder) : string := match o with Asc => "ASC" | Desc => "DESC" end.

(** Source: db/query/select.rs:653-690 [apply_sorting (clause)] *)
Definition order_clause (sb : SelectBuilder) (sort_field : string) (columns : list ColumnConfig)
    (order_str : string) : string :=
  let '(base_col, _) := parse_sort_field sort_field in
  let plain :=
    (if negb (bool_decide (sb_joins sb = [])) && negb (contains_char "." sort_field)
     then sb_table sb +:+ "." +:+ sort_field else sort_field) +:+ " " +:+ order_str in
  if is_dotted_path sort_field || is_bracket_notation sort_field then
    if is_jsonb_column base_col columns then
      let path_str := extract_jsonb_path sort_field in
      let jsonb_expr :=
        match sb_driver sb with
        | Postgres =>
            let pg_path := default path_str (strip_prefix "$." path_str) in
            "(" +:+ base_col +:+ " #>> '{" +:+ join "," (split "." pg_path) +:+ "}')"
        | Mysql => "JSON_EXTRACT(" +:+ base_col +:+ ", '" +:+ path_str +:+ "')"
        | Sqlite => "json_extract(" +:+ base_col +:+ ", '" +:+ path_str +:+ "')"
        end in
      jsonb_expr +:+ " " +:+ order_str
    else plain
  else plain.

(** Source: db/query/select.rs [apply_sorting] *)
Definition apply_sorting (sb : SelectBuilder) (ctx : SelectContext) (table_config : TableConfig)
    (query_params : QueryParams) : result AppError SelectBuilder :=
  if negb (sel_sorting_enabled ctx) then Ok sb
  else
    let sort_field := sort_field_of ctx table_config query_params in
    if negb (is_valid_expression unicode_alnum json_path_ok unicode_word sort_field) then
      Err (BadRequest ("Invalid sort field: " +:+ sort_field))
    else if negb (is_valid_sort_field sort_field (tbl_columns table_config)) then
      Err (BadRequest ("Sort field '" +:+ sort_field +:+ "' does not exist in table '" +:+
                       sb_table sb +:+ "'"))
    else
      let allowed := sel_sorting_allowed_fields ctx in
      if negb (bool_decide ("*" ∈ allowed)) && negb (bool_decide (sort_field ∈ allowed)) then
        Err (BadRequest ("Sorting by '" +:+ sort_field +:+ "' is not allowed"))
      else
        let order := default (sel_sorting_default_order ctx) (qp_order query_params) in
        Ok (with_order_by sb
              (order_clause sb sort_field (tbl_columns table_config) (show_order order))).

(** [i64::try_from(n).unwrap_or(i64::MAX)] *)
Definition clamp_i64 (n : Z) : Z := if (n <=? i64_max)%Z then n else i64_max.

Definition page_size_of (ctx : SelectContext) (query_params : QueryParams) : Z :=
  Z.min (default (sel_pagination_default_page_size ctx) (qp_page_size query_params))
        (sel_pagination_max_page_size ctx).
Definition page_of (query_params : QueryParams) : Z :=
  Z.max 1 (default 1%Z (qp_page query_params)).
(** [(page - 1) * page_size] in the release profile. *)
Definition offset_of (ctx : SelectContext) (query_params : QueryParams) : Z :=
  u64_wrap ((page_of query_params - 1) * page_size_of ctx query_params).

(** Source: db/query/select.rs [apply_pagination] *)
Definition apply_pagination (sb : SelectBuilder) (ctx : SelectContext)
    (query_params : QueryParams) : SelectBuilder :=
  if negb (sel_pagination_enabled ctx) then sb
  else
    with_limit sb
      (placeholder (sb_driver sb) (sb_param_idx sb),
       placeholder (sb_driver sb) (sb_param_idx sb + 1))
      [json_int (clamp_i64 (page_size_of ctx query_params));
       json_int (clamp_i64 (offset_of ctx query_params))] 2.

(** Source: db/query/select.rs [limit_one] *)
Definition limit_one (sb : SelectBuilder) : SelectBuilder := with_limit sb ("1", "0") [] 0.

Definition opt_clause (keyword : string) (o : option string) : string :=
  match o with Some s => keyword +:+ s | None => "" end.

Definition limit_clause (lo : option (string * string)) : string :=
  match lo with
  | None => ""
  | Some (limit, offset) =>
      if bool_decide (offset = "0") && negb (starts_with "$" limit) && negb (starts_with "?" limit)
      then " LIMIT " +:+ limit
      else " LIMIT " +:+ limit +:+ " OFFSET " +:+ offset
  end.

(** Source: db/query/select.rs [build] *)
Definition build (sb : SelectBuilder) : BuiltQuery := {|
  bq_sql :=
    "SELECT " +:+ join ", " (sb_select_fields sb ++ sb_computed sb) +:+ " FROM " +:+
    sb_table sb +:+
    join "" (map (λ j, " " +:+ j) (sb_joins sb)) +:+
    (if bool_decide (sb_conditions sb = []) then ""
     else " WHERE " +:+ join " AND " (sb_conditions sb)) +:+
    opt_clause " ORDER BY " (sb_order_by sb) +:+
    limit_clause (sb_limit_offset sb);
  bq_params := sb_params sb |}.

(** ** The queries *)

(** Source: db/query/builders/select_builder.rs [build_select_list] *)
Definition build_select_list (db_ctx : DatabaseContext) (ctx : SelectContext)
    (query_params : QueryParams) (context : RequestContext) : result AppError BuiltQuery :=
  let table := dbx_table db_ctx in
  let fields := resolve_fields (sel_fields ctx) table in
  let sb := new (tbl_name table) fields (dbx_driver db_ctx) in
  let sb := apply_joins sb ctx in
  let sb := apply_computed_fields sb ctx in
  sb ← apply_where_clause sb ctx context;
  sb ← apply_filters sb ctx (qp_filters query_params) table;
  sb ← apply_sorting sb ctx table query_params;
  Ok (build (apply_pagination sb ctx query_params)).

(** Source: db/query/builders/select_builder.rs [build_select_one] *)
Definition build_select_one (db_ctx : DatabaseContext) (ctx : SelectContext)
    (pk_value : string) (context : RequestContext) : result AppError BuiltQuery :=
  let table := dbx_table db_ctx in
  let fields := resolve_fields (sel_fields ctx) table in
  pk_col ← find_pk_column table;
  let sb := new (tbl_name table) fields (dbx_driver db_ctx) in
  let sb := apply_pk_condition sb pk_col (coerce_pk_value table pk_value) in
  sb ← apply_where_clause sb ctx context;
  Ok (build (limit_one sb)).

(** Source: db/query/count.rs [build_select_list_count] *)
Definition build_select_list_count (table_name : string) (driver : DatabaseDriver)
    (ctx : SelectContext) (query_params : QueryParams) (context : RequestContext)
    (table_config : TableConfig) : result AppError BuiltQuery :=
  let sb := new table_name ["COUNT(*) as count"] driver in
  sb ← apply_where_clause sb ctx context;
  sb ← apply_filters sb ctx (qp_filters query_params) table_config;
  Ok (build sb).
End select.
