(* ===== verification/SelectSpec.v ===== *)
(** * Correctness of the SELECT builders

    The placeholders of the list query are exactly its parameters, the count
    query selects the rows the list query pages through, pagination stays
    within its bounds, and what a filter key can put into the SQL text. *)

From S2P Require Import Prelude RustStr Json Config Errors SqlHelpers Interp Holes Select.
Local Open Scope stdpp_scope.

(** ** What the builders need of a driver's filter syntax *)

Class FilterLaws (d : DatabaseDriver) (fb : FilterBehavior) := {
  comparison_clean op : clean d (comparison_op op fb) = true;
  like_clean : clean d like_op = true;
  ilike_clean : clean d ilike_op = true;
  extract_clean column path :
    clean d column = true → clean d path = true → clean d (json_extract_path column path) = true;
  pattern_holed k m p : holed d k m p → holed d k m (like_pattern p);
  pattern_start_holed k m p : holed d k m p → holed d k m (like_pattern_start p);
  pattern_end_holed k m p : holed d k m p → holed d k m (like_pattern_end p);
}.

(** Decide that a text assembled from clean pieces is clean. *)
Ltac solve_clean :=
  rewrite ?clean_app;
  repeat match goal with H : clean _ _ = true |- _ => rewrite H; clear H end;
  try done.

Lemma clean_split_join d sep sep' s :
  clean d s = true → clean d sep' = true → clean d (join sep' (split sep s)) = true.
Proof.
  intros Hs%negb_true_iff Hsep. apply clean_join; [done|].
  apply Forall_elem. intros x Hx%(split_contains (marker d)); [|done].
  by apply negb_true_iff.
Qed.

Lemma concat_start_holed d k m p : holed d k m p → holed d k m (concat_start p).
Proof.
  intros Hp. apply (holed_pre _ _ _ "CONCAT("); [by destruct d|].
  eapply holed_app; [done..|]. constructor. by destruct d.
Qed.
Lemma concat_end_holed d k m p : holed d k m p → holed d k m (concat_end p).
Proof.
  intros Hp. apply (holed_pre _ _ _ "CONCAT('%', "); [by destruct d|].
  eapply holed_app; [done..|]. constructor. by destruct d.
Qed.

#[export] Instance behavior_laws d : FilterLaws d (behavior_of d).
Proof.
  split; destruct d; cbn [behavior_of like_pattern like_pattern_start like_pattern_end
    PostgresFilter MysqlFilter SqliteFilter];
    auto using concat_start_holed, concat_end_holed; try (by intros []); try done.
  - intros column path Hc Hp. cbn. pose proof (clean_split_join Postgres "." "," path Hp eq_refl).
    solve_clean.
  - intros column path Hc Hp. cbn. solve_clean.
  - intros column path Hc Hp. cbn. solve_clean.
Qed.

(** ** Conditions *)

Section conditions.
Context (d : DatabaseDriver) (fb : FilterBehavior) `{!FilterLaws d fb}.
Context (json_string : string → string).
Context (sb : SelectBuilder) (Hd : sb_driver sb = d) (Htable : clean d (sb_table sb) = true).
Context (base path_str : string).
Context (Hbase : clean d base = true) (Hpath : clean d path_str = true).

Lemma column_and_path_clean c p :
  column_and_path path_str base = (c, p) → clean d c = true ∧ clean d p = true.
Proof using All.
  apply negb_true_iff in Hpath as Hp'. unfold column_and_path.
  assert (∀ x, x ∈ split "." path_str → clean d x = true) as Hall.
  { intros x Hx%(split_contains (marker d)); [|done]. by apply negb_true_iff. }
  destruct (split "." path_str) as [|x l]; intros [= <- <-]; [by destruct d|].
  split; [apply Hall; by left|]. apply clean_join; [by destruct d|].
  apply Forall_elem. intros y ?. apply Hall. by right.
Qed.

(** The column reference of a filter is clean text. *)
Lemma comparison_holed jb op k m param :
  clean d op = true → holed d k m param →
  holed d k m (build_comparison sb base jb param op path_str fb).
Proof using All.
  intros Hop Hp. unfold build_comparison. destruct jb.
  - destruct (column_and_path path_str base) as [c p] eqn:Hcp.
    destruct (column_and_path_clean _ _ Hcp) as [Hc Hp'].
    pose proof (extract_clean c p Hc Hp').
    repeat (apply holed_pre; [first [done | by destruct d]|]). done.
  - repeat (apply holed_pre; [first [done | by destruct d]|]). done.
Qed.

Lemma in_holed jb k m params :
  holed d k m params → holed d k m (build_in sb base jb params path_str fb).
Proof using All.
  intros Hp. unfold build_in.
  assert (holed d m m ")") by (constructor; by destruct d).
  destruct jb.
  - destruct (column_and_path path_str base) as [c p] eqn:Hcp.
    destruct (column_and_path_clean _ _ Hcp) as [Hc Hp'].
    pose proof (extract_clean c p Hc Hp').
    repeat (apply holed_pre; [first [done | by destruct d]|]).
    by eapply holed_app.
  - repeat (apply holed_pre; [first [done | by destruct d]|]). by eapply holed_app.
Qed.

Lemma like_holed jb k m pattern :
  holed d k m pattern → holed d k m (build_like sb base jb pattern path_str fb).
Proof using All.
  intros Hp. pose proof like_clean. unfold build_like. destruct jb.
  - destruct (column_and_path path_str base) as [c p] eqn:Hcp.
    destruct (column_and_path_clean _ _ Hcp) as [Hc Hp'].
    pose proof (extract_clean c p Hc Hp').
    repeat (apply holed_pre; [first [done | by destruct d]|]). done.
  - repeat (apply holed_pre; [first [done | by destruct d]|]). done.
Qed.

Lemma ilike_holed jb k m pattern :
  holed d k m pattern → holed d k m (build_ilike sb base jb pattern path_str fb).
Proof using All.
  intros Hp. pose proof ilike_clean. unfold build_ilike.
  assert (holed d m m ")") by (constructor; by destruct d).
  destruct jb.
  - destruct (column_and_path path_str base) as [c p] eqn:Hcp.
    destruct (column_and_path_clean _ _ Hcp) as [Hc Hp'].
    pose proof (extract_clean c p Hc Hp').
    repeat (apply holed_pre; [first [done | by destruct d]|]). by eapply holed_app.
  - repeat (apply holed_pre; [first [done | by destruct d]|]). by eapply holed_app.
Qed.
End conditions.

Lemma contains_holed json_string d sb jb path_str value k cond :
  sb_driver sb = d → d ≠ Postgres ∨ jb = false →
  clean d (sb_table sb) = true → clean d path_str = true →
  build_contains json_string sb jb (placeholder d k) path_str value (behavior_of d) = Ok cond →
  holed d k (S k) cond.
Proof.
  intros Hd Hpg Ht Hp. unfold build_contains.
  assert (∀ x, x ∈ split "." path_str → clean d x = true) as Hall.
  { apply negb_true_iff in Hp. intros x Hx%(split_contains (marker d)); [|done].
    by apply negb_true_iff. }
  destruct (split "." path_str) as [|c rest]; [done|].
  assert (clean d c = true) as Hc by (apply Hall; by left).
  assert (clean d (join "." rest) = true) as Hr.
  { apply clean_join; [by destruct d|]. apply Forall_elem. intros x ?. apply Hall. by right. }
  pose proof (holed_placeholder d k) as Hk.
  destruct jb.
  - destruct d; [naive_solver| |]; cbn [behavior_of uses_jsonb_ops MysqlFilter SqliteFilter];
      rewrite Hd; cbn; destruct (is_empty (join "." rest)); intros [= <-];
      repeat (apply holed_pre; [done|]); first [done|eapply holed_app; [done..|by constructor]].
  - intros [= <-]. repeat (apply holed_pre; [first [done|by destruct d]|]). done.
Qed.

Lemma numbered_from d k n : map (λ i, placeholder d (k + i)) (seq 0 n) = numbered d k n.
Proof.
  unfold numbered. revert k. induction n as [|n IH]; intros k; [done|].
  cbn [seq map]. rewrite Nat.add_0_r. f_equal. rewrite <-(IH (S k)), <-seq_shift, map_map.
  apply map_ext. intros i. f_equal. lia.
Qed.

(** Every condition but JSONB containment on PostgreSQL holds the
    placeholders of the values bound for it. *)
Lemma filter_condition_holed json_string d sb op base jb path_str value :
  sb_driver sb = d → d ≠ Postgres ∨ op ≠ OpContains ∨ jb = false → op ≠ OpExists →
  clean d (sb_table sb) = true → clean d base = true → clean d path_str = true →
  let vs := filter_values op jb value in
  holed d (sb_param_idx sb) (sb_param_idx sb + length vs)
    (build_filter_condition json_string sb op base jb path_str (length vs) value (behavior_of d)).
Proof.
  intros Hd Hpg Hex Ht Hb Hp.
  pose proof (holed_placeholder d (sb_param_idx sb)) as Hk. rewrite <-Nat.add_1_r in Hk.
  assert (∀ n, holed d (sb_param_idx sb) (sb_param_idx sb + n)
    (join ", " (map (λ i, placeholder d (sb_param_idx sb + i)) (seq 0 n)))) as Hl.
  { intros n. rewrite numbered_from. apply holed_list; by destruct d. }
  pose proof (behavior_laws d) as Hlaws.
  destruct op; try done; cbn [filter_values build_filter_condition];
    rewrite ?Hd, ?length_map; cbv zeta.
  1-6: eapply comparison_holed; [done..|apply comparison_clean|done].
  - apply in_holed; auto.
  - apply (holed_pre _ _ _ "NOT "); [by destruct d|]. apply in_holed; auto.
  - destruct (build_contains _ _ _ _ _ _ _) as [cond|] eqn:Hc; cbn.
    + destruct jb; cbn; rewrite Nat.add_1_r; eapply contains_holed; try done; naive_solver.
    + unfold build_contains in Hc. destruct (split "." path_str) eqn:Hs.
      { by apply split_pred_ne_nil in Hs. }
      repeat case_match; done.
  - apply like_holed; auto. by apply pattern_start_holed.
  - apply like_holed; auto. by apply pattern_end_holed.
  - apply like_holed; auto. by apply pattern_holed.
  - apply ilike_holed; auto. by apply pattern_holed.
Qed.

(** ** The builder's invariant *)

Definition all_clean (d : DatabaseDriver) (l : list string) : bool := forallb (clean d) l.

Arguments all_clean : simpl never.

Lemma all_clean_Forall d l : all_clean d l = true ↔ Forall (λ s, clean d s = true) l.
Proof. unfold all_clean. by rewrite forallb_elem, Forall_elem. Qed.

Lemma all_clean_one d s : all_clean d [s] = clean d s.
Proof. unfold all_clean. cbn. by rewrite andb_true_r. Qed.

Lemma all_clean_cons d s l : all_clean d (s :: l) = clean d s && all_clean d l.
Proof. done. Qed.

Lemma all_clean_app d l1 l2 : all_clean d (l1 ++ l2) = all_clean d l1 && all_clean d l2.
Proof. apply forallb_app. Qed.

(** Between the steps the conditions hold the placeholders of the parameters
    pushed so far, and [param_idx] is the number of the next one. *)
Record sb_inv (d : DatabaseDriver) (table : string) (sb : SelectBuilder) : Prop := {
  inv_driver : sb_driver sb = d;
  inv_behavior : sb_filter_behavior sb = behavior_of d;
  inv_table : sb_table sb = table;
  inv_table_clean : clean d table = true;
  inv_fields : all_clean d (sb_select_fields sb) = true;
  inv_joins : all_clean d (sb_joins sb) = true;
  inv_computed : all_clean d (sb_computed sb) = true;
  inv_order : clean d (default "" (sb_order_by sb)) = true;
  inv_conditions : holed_seq d 1 (sb_param_idx sb) (sb_conditions sb);
  inv_idx : sb_param_idx sb = S (length (sb_params sb));
  inv_limit : sb_limit_offset sb = None;
}.

Lemma new_inv d table fields :
  clean d table = true → all_clean d fields = true → sb_inv d table (new table fields d).
Proof. intros. constructor; try done; try (by destruct d). constructor. Qed.

Lemma push_condition_inv d table sb cond ps n :
  sb_inv d table sb → holed d (sb_param_idx sb) (sb_param_idx sb + n) cond →
  length ps = length (sb_params sb) + n →
  sb_inv d table (push_condition sb cond ps n).
Proof.
  intros [] Hc Hn. constructor; cbn; try done.
  - eapply holed_seq_app; [done|]. by apply holed_seq_one.
  - rewrite Hn. lia.
Qed.

Lemma qualify_clean d table f : clean d table = true → clean d f = true → clean d (qualify table f) = true.
Proof.
  intros Ht Hf. unfold qualify. destruct (contains_char "." f); [done|].
  rewrite !clean_app, Ht, Hf. by destruct d.
Qed.

Lemma map_qualify_clean d table l :
  clean d table = true → all_clean d l = true → all_clean d (map (qualify table) l) = true.
Proof.
  intros Ht Hl. unfold all_clean in *. rewrite forallb_elem in *.
  intros x (y&->&Hy)%list_elem_of_fmap. apply qualify_clean; auto.
Qed.

Definition join_clean (d : DatabaseDriver) (j : JoinConfig) : bool :=
  clean d (join_table j) && clean d (join_on j) && all_clean d (join_fields j).

Lemma apply_joins_inv d table sb ctx :
  sb_inv d table sb → forallb (join_clean d) (sel_joins ctx) = true →
  sb_inv d table (apply_joins sb ctx).
Proof.
  intros Hinv Hj. unfold apply_joins. case_bool_decide; [done|].
  assert (sb_inv d table (qualify_main_fields sb)) as Hq.
  { destruct Hinv. constructor; cbn; try done. rewrite inv_table0. by apply map_qualify_clean. }
  clear Hinv. revert Hq. generalize (qualify_main_fields sb). clear sb H.
  induction (sel_joins ctx) as [|j js IH]; intros sb Hsb; [done|].
  cbn in Hj |- *. apply andb_true_iff in Hj as [Hj Hjs]. apply (IH Hjs). clear IH Hjs.
  unfold join_clean in Hj. bool_simpl. destruct Hj as [[Ht Hon] Hf].
  destruct Hsb. constructor; cbn; try done.
  - rewrite all_clean_app, inv_fields0, inv_table0. by apply map_qualify_clean.
  - rewrite all_clean_app, inv_joins0, inv_driver0, all_clean_one.
    rewrite !clean_app, (quote_clean _ _ Ht), Hon.
    by destruct d, (join_join_type j).
Qed.

Definition computed_clean (d : DatabaseDriver) (c : ComputedFieldConfig) : bool :=
  clean d (cf_expression c) && clean d (cf_name c).

Lemma apply_computed_inv d table sb ctx :
  sb_inv d table sb → forallb (computed_clean d) (sel_computed_fields ctx) = true →
  sb_inv d table (apply_computed_fields sb ctx).
Proof.
  intros [] Hc. constructor; cbn; try done.
  rewrite all_clean_app, inv_computed0. unfold all_clean. rewrite forallb_elem in *. cbn.
  apply forallb_elem. intros x (c&->&Hx)%list_elem_of_fmap. specialize (Hc c Hx).
  unfold computed_clean in Hc. bool_simpl. destruct Hc as [He Hn].
  rewrite !clean_app, He, Hn. by destruct d.
Qed.

(** A where clause whose own text holds no placeholder, and where no digit
    follows a reference directly. *)
Definition where_ok (d : DatabaseDriver) (wc : string) : bool :=
  let '(ms, t) := scan wc in
  all_clean d (map fst ms ++ [t]) && forallb (λ s, negb (starts_digit s)) (tail (map fst ms ++ [t])).

Lemma where_parts_holed d k ms t :
  all_clean d (map fst ms ++ [t]) = true →
  forallb (λ s, negb (starts_digit s)) (tail (map fst ms ++ [t])) = true →
  holed d k (k + length ms) (join "" (where_parts d k ms ++ [t])).
Proof.
  revert k. induction ms as [|[lit key] ms IH]; intros k Hc Hs.
  { rewrite Nat.add_0_r. constructor. cbn in Hc. by rewrite all_clean_one in Hc. }
  cbn [map fst app] in Hc. rewrite all_clean_cons in Hc. apply andb_true_iff in Hc as [Hl Hc].
  change (tail (map fst ((lit, key) :: ms) ++ [t])) with (map fst ms ++ [t]) in Hs.
  cbn [where_parts app]. rewrite !join_nil_sep_cons. apply holed_pre; [done|].
  eapply holed_app; [apply holed_placeholder| |].
  - destruct ms as [|[l' k'] ms]; cbn [map fst app forallb where_parts] in Hs |- *; bool_simpl.
    + by destruct Hs as [? _].
    + rewrite !join_nil_sep_cons, !starts_digit_app.
      destruct Hs as [Hl' _]. destruct (is_empty l') eqn:He; [|done]. by destruct d.
  - replace (k + length ((lit, key) :: ms)) with (S k + length ms) by (cbn; lia).
    apply IH; [done|]. destruct ms as [|m ms]; [done|]. cbn in Hs |- *.
    by apply andb_true_iff in Hs as [_ ?].
Qed.

(** The clause comes before any other parameter, so numbering it from 1 is
    right here. *)
Lemma apply_where_inv d table sb ctx context sb' :
  sb_inv d table sb → sb_params sb = [] →
  match sel_where_clause ctx with Some wc => where_ok d wc | None => true end = true →
  apply_where_clause sb ctx context = Ok sb' → sb_inv d table sb'.
Proof.
  intros Hinv Hps Hok. unfold apply_where_clause.
  destruct (sel_where_clause ctx) as [wc|]; [|by intros [= <-]].
  intros H. inv_ok. destruct x as [[ps parts] n]. inv_ok.
  rewrite (inv_driver _ _ _ Hinv), Hps in *.
  apply interpolate_where_clause_Ok in H as (->&->&vs&->&Hvs).
  unfold where_ok in Hok. destruct (scan wc) as [ms t]. bool_simpl. destruct Hok as [Hc Hs].
  pose proof (inv_idx _ _ _ Hinv) as Hidx. rewrite Hps in Hidx. cbn in Hidx.
  apply push_condition_inv; [done| |rewrite Hps; cbn; rewrite length_map, Hvs; done].
  rewrite Hidx. cbn [app fst snd]. apply (holed_pre _ _ _ "("); [by destruct d|].
  eapply holed_app; [by apply where_parts_holed|done|]. constructor. by destruct d.
Qed.

(** ** Filters *)

(** A filter that asks PostgreSQL for JSONB containment: [contains] on a
    column of a JSON type or on a path below a column. On a column of text the
    operator is a [LIKE]. *)
Definition jsonb_containment (d : DatabaseDriver) (t : TableConfig) (key : string) : bool :=
  match d, parse_filter_key key with
  | Postgres, Ok fe =>
      bool_decide (fe_operator fe = OpContains) &&
      ((1 <? length (fe_path fe)) ||
       default false (is_json_type <$> get_column_type_for_filter key (tbl_columns t)))
  | _, _ => false
  end.

(** A filter key without placeholder characters that does not ask PostgreSQL
    for JSONB containment. *)
Definition key_ok (d : DatabaseDriver) (t : TableConfig) (key : string) : bool :=
  clean d key && negb (jsonb_containment d t key).

Lemma jsonb_containment_false d t key fe ty :
  jsonb_containment d t key = false → parse_filter_key key = Ok fe →
  get_column_type_for_filter key (tbl_columns t) = Some ty →
  d ≠ Postgres ∨ fe_operator fe ≠ OpContains ∨ (1 <? length (fe_path fe)) || is_json_type ty = false.
Proof.
  unfold jsonb_containment. intros Hc Hfe Hty. rewrite Hfe, Hty in Hc.
  destruct d; [|by left..]. right. case_bool_decide; [by right|by left].
Qed.

Lemma parse_filter_key_clean d key fe :
  parse_filter_key key = Ok fe → clean d key = true →
  clean d (join "." (fe_path fe)) = true ∧ clean d (default "" (head (fe_path fe))) = true.
Proof.
  intros (p&t&->&->)%parse_filter_key_prefix Hk. rewrite clean_app in Hk.
  apply andb_true_iff in Hk as [Hp _]. split.
  - apply clean_split_join; [done|]. by destruct d.
  - pose proof (split_contains (marker d) "." p) as Hall.
    destruct (split "." p) as [|x l]; [by destruct d|]. cbn.
    apply negb_true_iff in Hp. apply negb_true_iff, Hall; [by left|done].
Qed.

Lemma exists_clean d sb jb base path_str cond :
  clean d (sb_table sb) = true → clean d base = true → clean d path_str = true →
  build_exists sb jb base path_str (behavior_of d) = Ok cond → clean d cond = true.
Proof.
  intros Ht Hb Hp. unfold build_exists. destruct jb.
  - assert (∀ x, x ∈ split "." path_str → clean d x = true) as Hall.
    { apply negb_true_iff in Hp. intros x Hx%(split_contains (marker d)); [|done].
      by apply negb_true_iff. }
    destruct (split "." path_str) as [|c rest]; [done|]. intros [= <-].
    rewrite clean_app, extract_clean; [by destruct d|apply Hall; by left|].
    apply clean_join; [by destruct d|]. apply Forall_elem. intros x ?. apply Hall. by right.
  - intros [= <-]. rewrite !clean_app, Ht, Hb. by destruct d.
Qed.

Lemma apply_filter_inv json_string d table ctx t sb kv sb' :
  sb_inv d table sb → key_ok d t kv.1 = true →
  apply_filter json_string ctx t sb kv = Ok sb' → sb_inv d table sb'.
Proof.
  intros Hinv Hk. destruct kv as [key v]. cbn [fst] in Hk.
  unfold apply_filter. intros H. inv_ok. rename x into fe.
  destruct (_ && _); [done|]. destruct (negb _); [done|]. inv_ok.
  unfold key_ok in Hk. apply andb_true_iff in Hk as [Hk Hpg%negb_true_iff].
  match goal with H' : get_column_type_for_filter _ _ = Some _ |- _ => pose proof H' as Hty end.
  pose proof (jsonb_containment_false _ _ _ _ _ Hpg H Hty) as Hno.
  destruct (parse_filter_key_clean d _ _ H Hk) as [Hp Hb].
  pose proof (inv_table_clean _ _ _ Hinv) as Htc.
  rewrite <-(inv_table _ _ _ Hinv) in Htc.
  unfold apply_filter_expression in *. rewrite (inv_behavior _ _ _ Hinv) in *.
  match goal with H : (if ?b then _ else _) = Ok _ |- _ => rename H into Hcase end.
  case_bool_decide as Hex.
  - inv_ok. apply push_condition_inv; [done| |lia]. rewrite Nat.add_0_r. constructor.
    eapply (exists_clean d sb); [exact Htc|exact Hb|exact Hp|eassumption].
  - inv_ok. apply push_condition_inv; [done| |by rewrite length_app, length_map].
    apply filter_condition_holed; try done. by apply (inv_driver _ _ _ Hinv).
Qed.

Lemma apply_filters_inv json_string iter d table ctx t sb fs sb' :
  sb_inv d table sb → forallb (λ kv, key_ok d t kv.1) (iter fs) = true →
  apply_filters json_string iter sb ctx fs t = Ok sb' → sb_inv d table sb'.
Proof.
  intros Hinv Hk. unfold apply_filters. rewrite forallb_elem in Hk.
  apply try_fold_inv with (P := sb_inv d table); [|done].
  intros s kv s' Hkv Hs. apply apply_filter_inv; auto.
Qed.

(** ** Sorting and the final text *)

(** A nested notation that names a whole JSONB column, such as [metadata[]]:
    for PostgreSQL its path is written [$]. *)
Definition names_json_root (d : DatabaseDriver) (t : TableConfig) (field : string) : bool :=
  bool_decide (d = Postgres) && (is_dotted_path field || is_bracket_notation field) &&
  is_jsonb_column (parse_sort_field field).1 (tbl_columns t) &&
  bool_decide ((parse_sort_field field).2 = []).

(** A sort field whose text is copied without placeholder characters. *)
Definition sort_ok (d : DatabaseDriver) (t : TableConfig) (field : string) : bool :=
  clean d field && negb (names_json_root d t field).

Lemma parse_sort_field_clean d field :
  clean d field = true →
  clean d (parse_sort_field field).1 = true ∧
  Forall (λ s, clean d s = true) (parse_sort_field field).2.
Proof.
  intros Hf. unfold parse_sort_field. apply negb_true_iff in Hf.
  assert (Forall (λ x, contains_char (marker d) x = false) (parse_sort_go field [] "" None)) as Hall.
  { apply parse_sort_go_lacks; by try destruct d. }
  assert (Forall (λ s, clean d s = true) (parse_sort_go field [] "" None)) as Hall'.
  { eapply Forall_impl; [|exact Hall]. intros x Hx. by apply negb_true_iff. }
  destruct (parse_sort_go _ _ _ _); cbn.
  - split; [by apply negb_true_iff|constructor].
  - by apply Forall_cons_iff in Hall'.
Qed.

Lemma order_clause_clean d table sb field t o :
  sb_inv d table sb → sort_ok d t field = true →
  clean d (order_clause sb field (tbl_columns t) (show_order o)) = true.
Proof.
  intros Hinv Hok. unfold sort_ok in Hok. apply andb_true_iff in Hok as [Hf Hpath].
  destruct (parse_sort_field_clean d field Hf) as [Hb Hp].
  pose proof (inv_driver _ _ _ Hinv) as Hd. pose proof (inv_table _ _ _ Hinv) as Ht.
  pose proof (inv_table_clean _ _ _ Hinv) as Htc.
  unfold order_clause, extract_jsonb_path. unfold names_json_root in Hpath.
  destruct (parse_sort_field field) as [base path]. cbn [fst snd] in *.
  rewrite Hd, Ht.
  assert (∀ s, clean d s = true → clean d (s +:+ " " +:+ show_order o) = true) as Hsuf.
  { intros s Hs. rewrite clean_app, Hs. by destruct d, o. }
  assert (clean d (if negb (bool_decide (sb_joins sb = [])) && negb (contains_char "." field)
            then table +:+ "." +:+ field else field) = true) as Hplain.
  { destruct (negb (bool_decide _) && _); [|done]. rewrite !clean_app, Htc, Hf. by destruct d. }
  destruct (is_dotted_path field || is_bracket_notation field); [|by apply Hsuf].
  destruct (is_jsonb_column base (tbl_columns t)); [|by apply Hsuf]. apply Hsuf.
  destruct path as [|p path].
  { cbn in Hpath. destruct d; [done| |]; by rewrite !clean_app, Hb. }
  assert (clean d (join "." (p :: path)) = true) as Hj by (apply clean_join; by destruct d).
  destruct d.
  - rewrite strip_prefix_app. cbn [default].
    unfold id. rewrite !clean_app, Hb, (clean_split_join Postgres "." "," _ Hj eq_refl). done.
  - rewrite !clean_app, Hb, Hj. done.
  - rewrite !clean_app, Hb, Hj. done.
Qed.

Lemma apply_sorting_inv ua jp uw d table sb ctx t qp sb' :
  sb_inv d table sb →
  (if sel_sorting_enabled ctx then sort_ok d t (sort_field_of ctx t qp) else true) = true →
  apply_sorting ua jp uw sb ctx t qp = Ok sb' → sb_inv d table sb'.
Proof.
  intros Hinv Hok. unfold apply_sorting.
  destruct (sel_sorting_enabled ctx); cbn [negb]; [|by intros [= <-]].
  destruct (negb _); [done|]. destruct (negb _); [done|]. destruct (_ && _); [done|].
  intros [= <-].
  pose proof (order_clause_clean _ _ _ _ t
    (default (sel_sorting_default_order ctx) (qp_order qp)) Hinv Hok).
  destruct Hinv. by constructor.
Qed.

(** The text the builder renders. *)
Lemma build_holed d table sb :
  sb_inv d table sb → holed d 1 (sb_param_idx sb) (bq_sql (build sb)).
Proof.
  intros []. cbn [build bq_sql]. rewrite inv_limit0. cbn [limit_clause].
  rewrite inv_table0, app_nil_r.
  apply holed_pre; [by destruct d|]. apply holed_pre.
  { apply clean_join; [by destruct d|]. apply all_clean_Forall.
    by rewrite all_clean_app, inv_fields0, inv_computed0. }
  apply holed_pre; [by destruct d|]. apply holed_pre; [done|]. apply holed_pre.
  { apply clean_join; [by destruct d|]. apply Forall_elem.
    intros x (j&->&Hj)%list_elem_of_fmap. unfold all_clean in inv_joins0.
    rewrite forallb_elem in inv_joins0. rewrite clean_app, (inv_joins0 j Hj). by destruct d. }
  assert (clean d (opt_clause " ORDER BY " (sb_order_by sb)) = true) as Ho.
  { destruct (sb_order_by sb) as [o|]; cbn [opt_clause default] in *; [|by destruct d].
    unfold id in inv_order0. rewrite clean_app, inv_order0. by destruct d. }
  case_bool_decide as Hc.
  - rewrite Hc in inv_conditions0. inversion inv_conditions0; subst. by constructor.
  - rewrite app_assoc. apply holed_pre; [by destruct d|].
    eapply holed_app; [by apply holed_join; [destruct d|..]| |by constructor].
    by destruct (sb_order_by sb).
Qed.

(** ** The list query *)

(** The configured part of the text holds no placeholder characters. *)
Definition config_ok (d : DatabaseDriver) (table : TableConfig) (ctx : SelectContext) : bool :=
  clean d (tbl_name table) &&
  all_clean d (resolve_fields (sel_fields ctx) table) &&
  forallb (join_clean d) (sel_joins ctx) &&
  forallb (computed_clean d) (sel_computed_fields ctx) &&
  match sel_where_clause ctx with Some wc => where_ok d wc | None => true end.

(** Nor does the part taken from the request. *)
Definition request_ok (iter : gmap string string → list (string * string)) (d : DatabaseDriver)
    (table : TableConfig) (ctx : SelectContext) (qp : QueryParams) : bool :=
  forallb (λ kv, key_ok d table kv.1) (iter (qp_filters qp)) &&
  (if sel_sorting_enabled ctx then sort_ok d table (sort_field_of ctx table qp) else true).

(** Joins and computed fields bind nothing. *)
Lemma apply_joins_params sb ctx :
  sb_params (apply_computed_fields (apply_joins sb ctx) ctx) = sb_params sb.
Proof.
  cbn. unfold apply_joins. case_bool_decide as Hne; [done|]. clear Hne.
  change (sb_params sb) with (sb_params (qualify_main_fields sb)).
  generalize (qualify_main_fields sb).
  induction (sel_joins ctx) as [|j js IH]; intros s; [done|]. cbn. by rewrite IH.
Qed.

Lemma pagination_holed d table sb ctx qp :
  sb_inv d table sb →
  let sb' := apply_pagination sb ctx qp in
  holed d 1 (S (length (sb_params sb'))) (bq_sql (build sb')).
Proof.
  intros Hinv. pose proof (build_holed _ _ _ Hinv) as Hb. destruct Hinv.
  unfold apply_pagination. destruct (sel_pagination_enabled ctx); cbv zeta; cbn [negb].
  2: { by rewrite <-inv_idx0. }
  set (sb' := with_limit sb _ _ 2).
  assert (bq_sql (build sb') = bq_sql (build sb) +:+ " LIMIT " +:+
    placeholder d (sb_param_idx sb) +:+ " OFFSET " +:+ placeholder d (sb_param_idx sb + 1)) as ->.
  { cbn [build bq_sql sb' with_limit sb_select_fields sb_computed sb_table sb_joins sb_conditions
      sb_order_by sb_limit_offset]. rewrite inv_limit0, inv_driver0. cbn [limit_clause].
    rewrite app_nil_r, !app_assoc. repeat f_equal. by destruct d; cbn; rewrite ?andb_false_r. }
  eapply holed_app; [done|done|]. apply (holed_pre _ _ _ " LIMIT "); [by destruct d|].
  eapply holed_app; [apply holed_placeholder|done|].
  apply (holed_pre _ _ _ " OFFSET "); [by destruct d|]. rewrite Nat.add_1_r.
  cbn [sb' with_limit sb_params]. rewrite length_app, <-Nat.add_succ_l, <-inv_idx0. cbn.
  rewrite Nat.add_comm. cbn. apply holed_placeholder.
Qed.

(** C4: the list query is well-formed on every driver: the placeholders of its
    SQL text, in order, are the ones numbered 1, ..., n for its n bound
    parameters. This is asked of the texts that are copied: the configured
    names and clauses and the filter and sort keys hold no placeholder
    character, and in the where clause no digit follows a reference directly
    (it would be read as a part of the placeholder's number). Excluded are
    two requests to PostgreSQL: [contains] on a column of a JSON type or on a
    path below a column, which binds a parameter for which the text has no
    placeholder, and a nested sort field that names a whole JSON column,
    whose path is written as the placeholder character. [contains] on a
    column of another type is covered. *)
Theorem select_list_placeholders
    (unicode_alnum json_path_ok unicode_word : string → bool)
    (json_string : string → string) (iter : gmap string string → list (string * string))
    (db : DatabaseContext) (ctx : SelectContext) (qp : QueryParams) (rc : RequestContext)
    (q : BuiltQuery)
    (Hconfig : config_ok (dbx_driver db) (dbx_table db) ctx = true)
    (Hrequest : request_ok iter (dbx_driver db) (dbx_table db) ctx qp = true)
    (Hq : build_select_list unicode_alnum json_path_ok unicode_word json_string iter
            db ctx qp rc = Ok q) :
  placeholders_in (dbx_driver db) (bq_sql q) = numbered (dbx_driver db) 1 (length (bq_params q)).
Proof.
  unfold config_ok, request_ok in *. bool_simpl.
  destruct Hconfig as [[[[Ht Hf] Hj] Hc] Hw]. destruct Hrequest as [Hk Hs].
  unfold build_select_list in Hq. apply bind_Ok in Hq as (sb1&Hwhere&Hq).
  apply bind_Ok in Hq as (sb2&Hfil&Hq). apply bind_Ok in Hq as (sb3&Hsort&[= <-]).
  set (d := dbx_driver db) in *. set (t := dbx_table db) in *.
  assert (sb_inv d (tbl_name t) sb3) as Hinv.
  { eapply apply_sorting_inv; [|done|done]. eapply apply_filters_inv; [|done|done].
    eapply apply_where_inv; [| |done|done].
    - apply apply_computed_inv; [|done]. apply apply_joins_inv; [|done]. by apply new_inv.
    - apply apply_joins_params. }
  apply (pagination_holed _ _ _ ctx qp) in Hinv. apply holed_placeholders in Hinv.
  rewrite Hinv. f_equal. cbn [build bq_params]. lia.
Qed.

Definition posts : TableConfig := {|
  tbl_name := "posts"; tbl_database := "main";
  tbl_columns := [mk_col "id" Integer true; mk_col "title" Text false;
                  mk_col "author" Varchar false; mk_col "metadata" Jsonb false];
  tbl_foreign_keys := [] |}.

Definition posts_where : SelectContext := {|
  sel_fields := ["*"]; sel_joins := []; sel_computed_fields := [];
  sel_where_clause := Some "author = ${request.user.id} AND title <> ${request.query.t:-x}";
  sel_filtering_enabled := true; sel_filtering_allowed_fields := ["*"];
  sel_sorting_enabled := true; sel_sorting_default_field := "";
  sel_sorting_default_order := Desc; sel_sorting_allowed_fields := ["*"];
  sel_pagination_enabled := true; sel_pagination_default_page_size := 20;
  sel_pagination_max_page_size := 100 |}.

Definition alice : RequestContext := {|
  rc_user_id := Some "7"; rc_user_email := None; rc_user_role := Some "user";
  rc_headers := ∅; rc_method := "GET"; rc_path := "/posts"; rc_raw_query_params := ∅ |}.

Definition params_of (page size : option Z) (fs : list (string * string)) : QueryParams := {|
  qp_page := page; qp_page_size := size; qp_sort := None; qp_order := None;
  qp_filters := list_to_map fs |}.

Definition no (_ : string) : bool := false.
Definition quoted (s : string) : string := dquote +:+ s +:+ dquote.

Definition list_query (d : DatabaseDriver) (qp : QueryParams) : result AppError BuiltQuery :=
  build_select_list no no no quoted map_to_list
    {| dbx_driver := d; dbx_table := posts |} posts_where qp alice.

Lemma select_list_placeholders_witness :
  ∃ q, list_query Postgres (params_of None None [("metadata.role[in]", "a,b"); ("title[contains]", "x%")]) = Ok q ∧
       placeholders_in Postgres (bq_sql q) = ["$1"; "$2"; "$3"; "$4"; "$5"; "$6"; "$7"].
Proof.
  eexists. split; [vm_compute; reflexivity|].
  refine (eq_trans (select_list_placeholders no no no quoted map_to_list
    {| dbx_driver := Postgres; dbx_table := posts |} posts_where
    (params_of None None [("metadata.role[in]", "a,b"); ("title[contains]", "x%")]) alice _ _ _ _) _);
    vm_compute; reflexivity.
Defined.

(** ** The count query *)

(** What the WHERE steps read and write. *)
Definition core (sb : SelectBuilder) :=
  (sb_table sb, sb_conditions sb, sb_params sb, sb_param_idx sb, sb_driver sb,
   sb_filter_behavior sb).

Lemma apply_where_core sb sb' ctx rc :
  core sb = core sb' → core <$> apply_where_clause sb ctx rc = core <$> apply_where_clause sb' ctx rc.
Proof.
  destruct sb, sb'. unfold core. cbn. intros [= -> -> -> -> -> ->].
  unfold apply_where_clause. destruct (sel_where_clause ctx); [|done]. cbn.
  by destruct (interpolate_where_clause _ _ _ _ _) as [[[]]|].
Qed.

Lemma apply_filter_core js ctx t sb sb' kv :
  core sb = core sb' → core <$> apply_filter js ctx t sb kv = core <$> apply_filter js ctx t sb' kv.
Proof.
  destruct sb, sb'. unfold core. cbn. intros [= -> -> -> -> -> ->].
  destruct kv as [key v]. unfold apply_filter. destruct (parse_filter_key key) as [fe|]; [|done]. cbn.
  destruct (head (fe_path fe)); [|done]. cbn. destruct (_ && _); [done|].
  destruct (negb _); [done|]. destruct (get_column_type_for_filter _ _) as [ct|]; [|done].
  cbn. unfold apply_filter_expression. case_bool_decide; [|done]. cbn.
  unfold build_exists. cbn. destruct (_ || _); [|done]. by destruct (split _ _).
Qed.

Lemma apply_filters_core js iter ctx t fs sb sb' :
  core sb = core sb' →
  core <$> apply_filters js iter sb ctx fs t = core <$> apply_filters js iter sb' ctx fs t.
Proof.
  unfold apply_filters. generalize (iter fs). intros l. revert sb sb'.
  induction l as [|kv l IH]; intros sb sb' Hc; [cbn; by rewrite Hc|]. cbn.
  pose proof (apply_filter_core js ctx t sb sb' kv Hc) as Hf.
  destruct (apply_filter js ctx t sb kv), (apply_filter js ctx t sb' kv);
    try discriminate Hf; [apply IH; exact (Ok_inj _ _ Hf)|cbn in *; congruence].
Qed.

Lemma fmap_core_Ok sb (r : result AppError SelectBuilder) :
  core <$> r = Ok (core sb) → ∃ sb', r = Ok sb' ∧ core sb' = core sb.
Proof. destruct r as [sb'|]; [|done]. intros H%Ok_inj. eauto. Qed.

(** Joins and computed fields leave the WHERE state alone. *)
Lemma apply_joins_core sb ctx : core (apply_computed_fields (apply_joins sb ctx) ctx) = core sb.
Proof.
  cbn. unfold apply_joins. case_bool_decide as Hne; [done|]. clear Hne.
  change (core sb) with (core (qualify_main_fields sb)).
  generalize (qualify_main_fields sb).
  induction (sel_joins ctx) as [|j js IH]; intros s; [done|]. cbn. by rewrite IH.
Qed.

(** What the WHERE steps leave alone. *)
Definition frame (sb : SelectBuilder) :=
  (sb_select_fields sb, sb_joins sb, sb_computed sb, sb_order_by sb, sb_limit_offset sb).

Lemma apply_where_frame sb ctx rc sb' :
  apply_where_clause sb ctx rc = Ok sb' → frame sb' = frame sb.
Proof.
  unfold apply_where_clause. destruct (sel_where_clause ctx); [|by intros [= ->]].
  intros H. inv_ok. destruct x as [[]]. by inv_ok.
Qed.

Lemma apply_where_table sb ctx rc sb' :
  apply_where_clause sb ctx rc = Ok sb' → sb_table sb' = sb_table sb.
Proof.
  unfold apply_where_clause. destruct (sel_where_clause ctx); [|by intros [= ->]].
  intros H. inv_ok. destruct x as [[]]. by inv_ok.
Qed.

Lemma apply_filter_table js ctx t sb kv sb' :
  apply_filter js ctx t sb kv = Ok sb' → frame sb' = frame sb ∧ sb_table sb' = sb_table sb.
Proof.
  destruct kv as [key v]. unfold apply_filter. intros H. inv_ok.
  destruct (_ && _); [done|]. destruct (negb _); [done|]. inv_ok.
  unfold apply_filter_expression in *.
  match goal with H : (if ?b then _ else _) = Ok _ |- _ => destruct b end; by inv_ok.
Qed.

Lemma apply_filters_frame js iter sb ctx fs t sb' :
  apply_filters js iter sb ctx fs t = Ok sb' → frame sb' = frame sb.
Proof.
  unfold apply_filters. apply try_fold_inv with (P := λ s, frame s = frame sb); [|done].
  intros s kv s' _ <- H. by destruct (apply_filter_table _ _ _ _ _ _ H).
Qed.

Lemma apply_filters_table js iter sb ctx fs t sb' :
  apply_filters js iter sb ctx fs t = Ok sb' → sb_table sb' = sb_table sb.
Proof.
  unfold apply_filters. apply try_fold_inv with (P := λ s, sb_table s = sb_table sb); [|done].
  intros s kv s' _ <- H. by destruct (apply_filter_table _ _ _ _ _ _ H).
Qed.

Lemma build_text sb :
  bq_sql (build sb)
  = "SELECT " +:+ join ", " (sb_select_fields sb ++ sb_computed sb) +:+ " FROM " +:+ sb_table sb +:+
    join "" (map (λ j, " " +:+ j) (sb_joins sb)) +:+
    (if bool_decide (sb_conditions sb = []) then ""
     else " WHERE " +:+ join " AND " (sb_conditions sb)) +:+
    opt_clause " ORDER BY " (sb_order_by sb) +:+ limit_clause (sb_limit_offset sb).
Proof. done. Qed.

Definition where_text (sb : SelectBuilder) : string :=
  if bool_decide (sb_conditions sb = []) then ""
  else " WHERE " +:+ join " AND " (sb_conditions sb).

(** Whenever the list query is built, so is the count query of the same
    request, with the same WHERE text (where clause and filters, in the same
    order), and the list query binds the count query's parameters followed
    by nothing but the page size and offset: the total a client is told
    counts the rows its pages show. *)
Theorem count_query_matches_list
    (unicode_alnum json_path_ok unicode_word : string → bool)
    (json_string : string → string) (iter : gmap string string → list (string * string))
    (db : DatabaseContext) (ctx : SelectContext) (qp : QueryParams) (rc : RequestContext)
    (ql : BuiltQuery)
    (Hl : build_select_list unicode_alnum json_path_ok unicode_word json_string iter
            db ctx qp rc = Ok ql) :
  ∃ qc w select joins rest page,
    build_select_list_count json_string iter (tbl_name (dbx_table db)) (dbx_driver db) ctx qp rc
      (dbx_table db) = Ok qc ∧
    bq_sql qc = "SELECT COUNT(*) as count FROM " +:+ tbl_name (dbx_table db) +:+ w ∧
    bq_sql ql = "SELECT " +:+ select +:+ " FROM " +:+ tbl_name (dbx_table db) +:+ joins +:+ w +:+ rest ∧
    bq_params ql = bq_params qc ++ page ∧
    length page = (if sel_pagination_enabled ctx then 2 else 0).
Proof.
  unfold build_select_list in Hl. apply bind_Ok in Hl as (sb1&Hwhere&Hl).
  apply bind_Ok in Hl as (sb2&Hfil&Hl). apply bind_Ok in Hl as (sb3&Hsort&[= <-]).
  set (d := dbx_driver db) in *. set (t := dbx_table db) in *.
  set (sbc := new (tbl_name t) ["COUNT(*) as count"] d).
  destruct (fmap_core_Ok sb1 (apply_where_clause sbc ctx rc)) as (c1&Hc1&Hcore1).
  { change (Ok (core sb1)) with (core <$> @Ok AppError _ sb1).
    rewrite <-Hwhere. apply apply_where_core. symmetry.
    exact (apply_joins_core (new (tbl_name t) (resolve_fields (sel_fields ctx) t) d) ctx). }
  destruct (fmap_core_Ok sb2 (apply_filters json_string iter c1 ctx (qp_filters qp) t)) as (c2&Hc2&Hcore2).
  { rewrite (apply_filters_core _ _ _ _ _ _ _ Hcore1). by rewrite Hfil. }
  assert (core sb3 = core sb2) as Hcore3.
  { unfold apply_sorting in Hsort. destruct (negb _); [by simplify_eq|].
    repeat (destruct (_ : bool); [done|]). by simplify_eq. }
  assert (frame c2 = frame sbc) as Hf.
  { rewrite (apply_filters_frame _ _ _ _ _ _ _ Hc2). by eapply apply_where_frame. }
  assert (sb_table c2 = tbl_name t) as Htab.
  { rewrite (apply_filters_table _ _ _ _ _ _ _ Hc2). by rewrite (apply_where_table _ _ _ _ Hc1). }
  unfold core in Hcore2, Hcore3. injection Hcore2 as Ht2 Hco2 Hp2 _ _ _.
  injection Hcore3 as Ht3 Hco3 Hp3 _ _ _. injection Hf as Hf1 Hf2 Hf3 Hf4 Hf5.
  set (sb4 := apply_pagination sb3 ctx qp).
  assert (sb_table sb4 = sb_table sb3 ∧ sb_conditions sb4 = sb_conditions sb3 ∧
    ∃ page, sb_params sb4 = sb_params sb3 ++ page ∧
            length page = (if sel_pagination_enabled ctx then 2 else 0)) as (Ht4&Hc4&page&Hp4&Hlen).
  { subst sb4. unfold apply_pagination. destruct (sel_pagination_enabled ctx); cbn; [by eauto|].
    split_and!; [done..|]. exists []. by rewrite (right_id_L [] (++)). }
  exists (build c2), (where_text c2), (join ", " (sb_select_fields sb4 ++ sb_computed sb4)),
    (join "" (map (λ j, " " +:+ j) (sb_joins sb4))),
    (opt_clause " ORDER BY " (sb_order_by sb4) +:+ limit_clause (sb_limit_offset sb4)), page.
  split_and!; [| | | |done].
  - unfold build_select_list_count. fold sbc. rewrite Hc1. cbn. by rewrite Hc2.
  - rewrite build_text, Hf1, Hf2, Hf3, Hf4, Hf5, Htab. cbn. by rewrite !app_nil_r.
  - rewrite build_text, Ht4, Hc4, Ht3, Hco3, <-Hco2, <-Ht2, Htab. done.
  - cbn. by rewrite Hp4, Hp3, Hp2.
Qed.

Lemma count_query_matches_list_witness :
  ∃ ql, list_query Sqlite (params_of (Some 3%Z) (Some 50%Z) [("title[like]", "x%")]) = Ok ql ∧
  ∃ qc w select joins rest page,
    build_select_list_count quoted map_to_list "posts" Sqlite posts_where
      (params_of (Some 3%Z) (Some 50%Z) [("title[like]", "x%")]) alice posts = Ok qc ∧
    bq_sql qc = "SELECT COUNT(*) as count FROM " +:+ "posts" +:+ w ∧
    bq_sql ql = "SELECT " +:+ select +:+ " FROM " +:+ "posts" +:+ joins +:+ w +:+ rest ∧
    bq_params ql = bq_params qc ++ page ∧ length page = 2.
Proof.
  eexists. split; [vm_compute; reflexivity|].
  apply (count_query_matches_list no no no quoted map_to_list
    {| dbx_driver := Sqlite; dbx_table := posts |} posts_where
    (params_of (Some 3%Z) (Some 50%Z) [("title[like]", "x%")]) alice).
  vm_compute. reflexivity.
Defined.
