(* ===== verification/SelectSafety.v ===== *)
(** * What a request can do to a SELECT

    Filter values reach the database only as parameters; page size and offset
    are bounded; a filter key, on the other hand, can carry SQL text. *)

From S2P Require Import Prelude RustStr Json Config Errors SqlHelpers Interp Holes Select SelectSpec.
Local Open Scope stdpp_scope.

(** ** Values do not reach the text *)

(** Two filters with the same key whose values have the same number of
    comma-separated parts. *)
Definition same_shape (kv kv' : string * string) : Prop :=
  kv.1 = kv'.1 ∧ length (split "," kv.2) = length (split "," kv'.2).

(** Everything of a builder but the parameters. *)
Definition text (sb : SelectBuilder) :=
  (sb_table sb, sb_select_fields sb, sb_joins sb, sb_computed sb, sb_conditions sb,
   sb_order_by sb, sb_limit_offset sb, sb_param_idx sb, sb_driver sb, sb_filter_behavior sb).

(** The values of a filter matter to its condition only through their number,
    unless it is JSONB containment on PostgreSQL. *)
Lemma filter_condition_same js sb op base jb p n v v' :
  @uses_jsonb_ops (sb_filter_behavior sb) = false ∨ op ≠ OpContains ∨ jb = false →
  build_filter_condition js sb op base jb p n v (sb_filter_behavior sb)
  = build_filter_condition js sb op base jb p n v' (sb_filter_behavior sb).
Proof.
  intros Hc. destruct op; try done.
  unfold build_filter_condition, build_contains. destruct (split "." p); [done|].
  destruct jb; [|done]. destruct Hc as [->|[?|?]]; done.
Qed.

Lemma filter_values_length op jb v v' :
  length (split "," v) = length (split "," v') →
  length (filter_values op jb v) = length (filter_values op jb v').
Proof. intros H. destruct op; cbn; rewrite ?length_map; try done; by destruct jb. Qed.

(** No filter of the request is JSONB containment spliced into the text. *)
Definition no_splice (t : TableConfig) (sb : SelectBuilder) (kv : string * string) : Prop :=
  ∀ fe ty, parse_filter_key kv.1 = Ok fe →
  get_column_type_for_filter kv.1 (tbl_columns t) = Some ty →
  @uses_jsonb_ops (sb_filter_behavior sb) = false ∨ fe_operator fe ≠ OpContains ∨
  (1 <? length (fe_path fe)) || is_json_type ty = false.

(** The steps depend on the text part only. *)
Lemma condition_text js sb sb' op base jb p n v :
  text sb = text sb' →
  build_filter_condition js sb op base jb p n v (sb_filter_behavior sb)
  = build_filter_condition js sb' op base jb p n v (sb_filter_behavior sb').
Proof. destruct sb, sb'. unfold text. cbn. by intros [= -> -> -> -> -> -> -> -> -> ->]. Qed.

Lemma exists_text sb sb' jb base p :
  text sb = text sb' →
  build_exists sb jb base p (sb_filter_behavior sb) = build_exists sb' jb base p (sb_filter_behavior sb').
Proof. destruct sb, sb'. unfold text. cbn. by intros [= -> -> -> -> -> -> -> -> -> ->]. Qed.

Lemma push_condition_text sb sb' c ps ps' n :
  text sb = text sb' → text (push_condition sb c ps n) = text (push_condition sb' c ps' n).
Proof. destruct sb, sb'. unfold text. cbn. by intros [= -> -> -> -> -> -> -> -> -> ->]. Qed.

Lemma sorting_text ua jp uw sb sb' ctx t qp qp' :
  text sb = text sb' → qp_sort qp = qp_sort qp' → qp_order qp = qp_order qp' →
  text <$> apply_sorting ua jp uw sb ctx t qp = text <$> apply_sorting ua jp uw sb' ctx t qp'.
Proof.
  destruct sb, sb'. unfold text. cbn. intros [= -> -> -> -> -> -> -> -> -> ->] Hs Ho.
  unfold apply_sorting, sort_field_of. rewrite <-Hs, <-Ho. cbn.
  by repeat (destruct (_ : bool); [done|]).
Qed.

Lemma pagination_text sb sb' ctx qp qp' :
  text sb = text sb' →
  bq_sql (build (apply_pagination sb ctx qp)) = bq_sql (build (apply_pagination sb' ctx qp')).
Proof.
  destruct sb, sb'. unfold text. cbn. intros [= -> -> -> -> -> -> -> -> -> ->].
  unfold apply_pagination. by destruct (sel_pagination_enabled ctx).
Qed.

Lemma text_table sb sb' : text sb = text sb' → sb_table sb = sb_table sb'.
Proof. unfold text. congruence. Qed.
Lemma text_behavior sb sb' : text sb = text sb' → sb_filter_behavior sb = sb_filter_behavior sb'.
Proof. unfold text. congruence. Qed.

Lemma core_behavior sb sb' : core sb = core sb' → sb_filter_behavior sb = sb_filter_behavior sb'.
Proof. unfold core. congruence. Qed.

Lemma apply_filter_same js ctx t sb sb' kv kv' :
  same_shape kv kv' → no_splice t sb kv → text sb = text sb' →
  text <$> apply_filter js ctx t sb kv = text <$> apply_filter js ctx t sb' kv'.
Proof.
  destruct kv as [key v], kv' as [key' v']. unfold same_shape, no_splice. cbn.
  intros [<- Hlen] Hns Htext. unfold apply_filter.
  destruct (parse_filter_key key) as [fe|] eqn:Hfe; [|done]. cbn.
  destruct (head (fe_path fe)) as [b|]; [|done]. cbn. destruct (_ && _); [done|].
  rewrite (text_table _ _ Htext).
  destruct (negb _); [done|]. destruct (get_column_type_for_filter _ _) as [ct|] eqn:Hct; [|done]. cbn.
  unfold apply_filter_expression.
  set (jb := (1 <? length (fe_path fe)) || is_json_type ct).
  rewrite <-(filter_values_length _ jb _ _ Hlen).
  case_bool_decide.
  - rewrite (exists_text _ _ _ _ _ Htext). destruct (build_exists _ _ _ _ _); [|done].
    cbn [mbind result_bind fmap result_map]. f_equal. by apply push_condition_text.
  - cbn [fmap result_map]. f_equal.
    rewrite (filter_condition_same js sb _ _ _ _ _ v v') by (by apply Hns).
    rewrite (condition_text _ _ _ _ _ _ _ _ _ Htext). by apply push_condition_text.
Qed.

Lemma apply_filter_behavior js ctx t sb kv sb' :
  apply_filter js ctx t sb kv = Ok sb' → sb_filter_behavior sb' = sb_filter_behavior sb.
Proof.
  destruct kv as [key v]. unfold apply_filter. intros H. inv_ok.
  destruct (_ && _); [done|]. destruct (negb _); [done|]. inv_ok.
  unfold apply_filter_expression in *.
  match goal with H : (if ?b then _ else _) = Ok _ |- _ => destruct b end; by inv_ok.
Qed.

Lemma apply_filters_same js ctx t l l' sb sb' :
  Forall2 same_shape l l' → Forall (no_splice t sb) l → text sb = text sb' →
  text <$> try_fold (apply_filter js ctx t) sb l = text <$> try_fold (apply_filter js ctx t) sb' l'.
Proof.
  intros Hl. revert sb sb'. induction Hl as [|kv kv' l l' Hkv Hl IH]; intros sb sb' Hns Ht.
  { cbn. by rewrite Ht. }
  inversion Hns as [|?? Hn Hns']; subst. cbn.
  pose proof (apply_filter_same js ctx t sb sb' kv kv' Hkv Hn Ht) as Hf.
  destruct (apply_filter js ctx t sb kv) as [s|] eqn:Hs, (apply_filter js ctx t sb' kv');
    try discriminate Hf; [|cbn in *; congruence]. apply IH; [|exact (Ok_inj _ _ Hf)].
  eapply Forall_impl; [|exact Hns']. intros x. unfold no_splice.
  by rewrite (apply_filter_behavior _ _ _ _ _ _ Hs).
Qed.

(** C5: filter values are bound, never spliced. Two requests with the same
    sort field and order whose filters have the same keys, in the same order,
    and values with equally many comma-separated parts get the same SQL text
    or the same error, whatever the values and the page are. Excluded is
    [contains] on PostgreSQL for a column of a JSON type or a path below a
    column, which writes the value into the text; on a column of another type
    it is covered. *)
Theorem filter_values_do_not_reach_sql
    (unicode_alnum json_path_ok unicode_word : string → bool)
    (json_string : string → string) (iter : gmap string string → list (string * string))
    (db : DatabaseContext) (ctx : SelectContext) (qp qp' : QueryParams) (rc : RequestContext)
    (Hshape : Forall2 same_shape (iter (qp_filters qp)) (iter (qp_filters qp')))
    (Hsort : qp_sort qp = qp_sort qp') (Horder : qp_order qp = qp_order qp')
    (Hcontains : ∀ kv, kv ∈ iter (qp_filters qp) →
       jsonb_containment (dbx_driver db) (dbx_table db) kv.1 = false) :
  let query qp := build_select_list unicode_alnum json_path_ok unicode_word
                    json_string iter db ctx qp rc in
  bq_sql <$> query qp = bq_sql <$> query qp'.
Proof.
  cbv zeta. unfold build_select_list.
  set (sb0 := apply_computed_fields _ _).
  destruct (apply_where_clause sb0 ctx rc) as [sb1|] eqn:Hw; [|done].
  cbn [mbind result_bind]. unfold apply_filters.
  assert (Forall (no_splice (dbx_table db) sb1) (iter (qp_filters qp))) as Hns.
  { apply Forall_elem. intros kv Hkv fe ty Hfe Hty.
    destruct (jsonb_containment_false _ _ _ _ _ (Hcontains _ Hkv) Hfe Hty) as [Hd|Hc]; [left|by right].
    assert (core sb0 = core (new (tbl_name (dbx_table db))
      (resolve_fields (sel_fields ctx) (dbx_table db)) (dbx_driver db))) as Hcore
      by apply apply_joins_core.
    assert (sb_filter_behavior sb1 = sb_filter_behavior sb0) as ->.
    { unfold apply_where_clause in Hw. destruct (sel_where_clause ctx); [|by simplify_eq].
      inv_ok. destruct x as [[]]. by inv_ok. }
    rewrite (core_behavior _ _ Hcore). cbn. by destruct (dbx_driver db). }
  pose proof (apply_filters_same json_string ctx (dbx_table db) _ _ sb1 sb1 Hshape Hns eq_refl) as Hf.
  destruct (try_fold _ sb1 (iter (qp_filters qp))) as [sb2|],
    (try_fold _ sb1 (iter (qp_filters qp'))) as [sb2'|];
    try discriminate Hf; [|cbn in *; congruence]. apply Ok_inj in Hf. cbn [mbind result_bind].
  pose proof (sorting_text unicode_alnum json_path_ok unicode_word sb2 sb2' ctx
    (dbx_table db) qp qp' Hf Hsort Horder) as Hs.
  destruct (apply_sorting _ _ _ sb2 _ _ _) as [sb3|], (apply_sorting _ _ _ sb2' _ _ _) as [sb3'|];
    try discriminate Hs; [|cbn in *; congruence]. apply Ok_inj in Hs.
  cbn [mbind result_bind fmap result_map]. f_equal. by apply pagination_text.
Qed.

Lemma filter_values_do_not_reach_sql_witness :
  bq_sql <$> list_query Postgres (params_of None None [("title[contains]", "x'; DROP TABLE posts; --")])
  = bq_sql <$> list_query Postgres (params_of (Some 9%Z) None [("title[contains]", "")]).
Proof.
  apply (filter_values_do_not_reach_sql no no no quoted map_to_list
    {| dbx_driver := Postgres; dbx_table := posts |} posts_where
    (params_of None None [("title[contains]", "x'; DROP TABLE posts; --")])
    (params_of (Some 9%Z) None [("title[contains]", "")]) alice).
  - vm_compute. repeat constructor.
  - reflexivity.
  - reflexivity.
  - intros kv Hkv. vm_compute in Hkv. apply list_elem_of_singleton in Hkv as ->. reflexivity.
Defined.

(** ** Pagination *)

Definition u64_params (qp : QueryParams) : Prop :=
  u64 (default 1%Z (qp_page qp)) ∧ u64 (default 0%Z (qp_page_size qp)).
Definition u64_config (ctx : SelectContext) : Prop :=
  u64 (sel_pagination_default_page_size ctx) ∧ u64 (sel_pagination_max_page_size ctx).

Lemma clamp_i64_range n : (0 ≤ n)%Z → (0 ≤ clamp_i64 n ≤ Z.min n i64_max)%Z.
Proof. unfold clamp_i64, i64_max. intros. destruct (Z.leb_spec n 9223372036854775807); lia. Qed.

Lemma page_size_range ctx qp :
  u64_params qp → u64_config ctx →
  (0 ≤ page_size_of ctx qp ≤ sel_pagination_max_page_size ctx)%Z.
Proof.
  unfold u64_params, u64_config, u64, page_size_of. intros [_ Hs] [Hd Hm].
  destruct (qp_page_size qp); cbn in *; lia.
Qed.

Lemma build_select_list_page ua jp uw js iter db ctx qp rc q :
  build_select_list ua jp uw js iter db ctx qp rc = Ok q → sel_pagination_enabled ctx = true →
  ∃ ps, bq_params q = ps ++ [json_int (clamp_i64 (page_size_of ctx qp));
                             json_int (clamp_i64 (offset_of ctx qp))].
Proof.
  unfold build_select_list. intros Hq Hp. inv_ok. unfold apply_pagination. rewrite Hp. cbn. eauto.
Qed.

(** With pagination enabled the list query ends with a page size and an
    offset. The size never exceeds the configured maximum, whatever the
    client asks for; both fit a signed 64-bit integer; and the offset is
    [(page - 1) * size], pages below 1 counting as 1, as long as that
    product fits. *)
Theorem pagination_bounds
    (unicode_alnum json_path_ok unicode_word : string → bool)
    (json_string : string → string) (iter : gmap string string → list (string * string))
    (db : DatabaseContext) (ctx : SelectContext) (qp : QueryParams) (rc : RequestContext)
    (q : BuiltQuery)
    (Henabled : sel_pagination_enabled ctx = true)
    (Hparams : u64_params qp) (Hconf : u64_config ctx)
    (Hq : build_select_list unicode_alnum json_path_ok unicode_word json_string iter
            db ctx qp rc = Ok q) :
  ∃ ps size offset,
    bq_params q = ps ++ [json_int size; json_int offset] ∧
    (0 ≤ size ≤ Z.min (sel_pagination_max_page_size ctx) i64_max)%Z ∧
    (0 ≤ offset ≤ i64_max)%Z ∧
    (((page_of qp - 1) * page_size_of ctx qp ≤ i64_max)%Z →
     offset = ((page_of qp - 1) * page_size_of ctx qp)%Z).
Proof.
  destruct (build_select_list_page _ _ _ _ _ _ _ _ _ _ Hq Henabled) as [ps Hps].
  pose proof (page_size_range _ _ Hparams Hconf) as Hs.
  pose proof (u64_wrap_range ((page_of qp - 1) * page_size_of ctx qp)) as Hw.
  pose proof (clamp_i64_range (page_size_of ctx qp)) as Hcs.
  pose proof (clamp_i64_range (offset_of ctx qp)) as Hco.
  exists ps, (clamp_i64 (page_size_of ctx qp)), (clamp_i64 (offset_of ctx qp)).
  split; [done|]. unfold u64, offset_of in *. split; [lia|]. split; [lia|].
  intros Hsmall. rewrite u64_wrap_small.
  - unfold clamp_i64. by rewrite (proj2 (Z.leb_le _ _) Hsmall).
  - unfold u64, u64_max, i64_max in *. assert (1 ≤ page_of qp)%Z by (unfold page_of; lia). nia.
Qed.

Lemma pagination_bounds_witness :
  ∃ q, list_query Mysql (params_of (Some 3%Z) (Some 5000%Z) []) = Ok q ∧
  ∃ ps size offset, bq_params q = ps ++ [json_int size; json_int offset] ∧
    (0 ≤ size ≤ 100)%Z ∧ offset = 200%Z.
Proof.
  eexists. split; [vm_compute; reflexivity|].
  edestruct (pagination_bounds no no no quoted map_to_list
    {| dbx_driver := Mysql; dbx_table := posts |} posts_where
    (params_of (Some 3%Z) (Some 5000%Z) []) alice) as (ps&size&offset&Hps&Hs&_&Ho).
  - reflexivity.
  - vm_compute. split; split; discriminate.
  - vm_compute. split; split; discriminate.
  - vm_compute. reflexivity.
  - exists ps, size, offset. split; [exact Hps|]. split; [exact Hs|].
    rewrite Ho; [reflexivity|]. vm_compute. discriminate.
Defined.

(** The product is reduced modulo 2^64 before it is clamped, so a far
    page is not past the end: for every endpoint that allows pages of two
    rows, page 2^63 + 1 of size 2 is the very same query as page 1. *)
Theorem far_page_repeats_first_page
    (unicode_alnum json_path_ok unicode_word : string → bool)
    (json_string : string → string) (iter : gmap string string → list (string * string))
    (db : DatabaseContext) (ctx : SelectContext) (rc : RequestContext)
    (fs : list (string * string))
    (Hmax : (2 ≤ sel_pagination_max_page_size ctx)%Z) :
  build_select_list unicode_alnum json_path_ok unicode_word json_string iter db ctx
    (params_of (Some 9223372036854775809%Z) (Some 2%Z) fs) rc
  = build_select_list unicode_alnum json_path_ok unicode_word json_string iter db ctx
      (params_of (Some 1%Z) (Some 2%Z) fs) rc.
Proof.
  assert (∀ sb, apply_pagination sb ctx (params_of (Some 9223372036854775809%Z) (Some 2%Z) fs)
                = apply_pagination sb ctx (params_of (Some 1%Z) (Some 2%Z) fs)) as Hpage.
  { intros sb. unfold apply_pagination, offset_of, page_size_of, page_of. cbn.
    by rewrite (Z.min_l 2 _ Hmax). }
  unfold build_select_list.
  destruct (apply_where_clause _ _ _) as [sb1|]; [|done]. cbn.
  destruct (apply_filters _ _ _ _ _ _) as [sb2|]; [|done]. cbn.
  change (apply_sorting unicode_alnum json_path_ok unicode_word sb2 ctx (dbx_table db)
    (params_of (Some 9223372036854775809%Z) (Some 2%Z) fs))
    with (apply_sorting unicode_alnum json_path_ok unicode_word sb2 ctx (dbx_table db)
    (params_of (Some 1%Z) (Some 2%Z) fs)).
  destruct (apply_sorting _ _ _ _ _ _ _); [|done]. cbn. by rewrite Hpage.
Qed.

Lemma far_page_repeats_first_page_witness :
  list_query Sqlite (params_of (Some 9223372036854775809%Z) (Some 2%Z) [])
  = list_query Sqlite (params_of (Some 1%Z) (Some 2%Z) []).
Proof.
  apply (far_page_repeats_first_page no no no quoted map_to_list
    {| dbx_driver := Sqlite; dbx_table := posts |} posts_where alice []).
  vm_compute. discriminate.
Defined.

(** ** Keys do reach the text *)

Definition word (s : string) : bool :=
  negb (is_empty s) && all_ascii (λ a, is_alnum_ascii a || Ascii.eqb a "_") s.

Lemma word_lacks s c :
  word s = true → is_alnum_ascii c || Ascii.eqb c "_" = false → contains_char c s = false.
Proof. intros [_ Hw]%andb_true_iff Hc. by eapply all_ascii_contains. Qed.

(** The column a filter key is checked as. *)
Lemma extract_base_column_arrow c t :
  word c = true → extract_base_column (c +:+ "->" +:+ t) = c.
Proof.
  intros Hw. unfold extract_base_column.
  assert (starts_with "$" (c +:+ "->" +:+ t) = false) as ->.
  { apply not_true_is_false. intros [r Hr]%starts_with_true. destruct c as [|a c]; [done|].
    pose proof (word_lacks _ "$" Hw eq_refl) as Hc. rewrite app_cons in Hr.
    injection Hr as -> _. discriminate Hc. }
  rewrite (proj2 (contains_str_true "->" _)) by eauto. rewrite !orb_true_l.
  assert (split_pred (λ x, Ascii.eqb x ">" || Ascii.eqb x "#") (c +:+ "->" +:+ t)
          = (c +:+ "-") :: split_pred (λ x, Ascii.eqb x ">" || Ascii.eqb x "#") t) as ->.
  { pose proof (word_lacks _ ">" Hw eq_refl) as H1. pose proof (word_lacks _ "#" Hw eq_refl) as H2.
    clear Hw. induction c as [|a c IH]; [done|]. apply orb_false_iff in H1 as [H1 H1'].
    apply orb_false_iff in H2 as [H2 H2']. rewrite (app_cons a c ("->" +:+ t)), (app_cons a c "-").
    cbn [split_pred].
    by rewrite H1, H2, (IH H1' H2'). }
  apply trim_end_app_one. by apply word_lacks.
Qed.

(** A filter key is copied into the SQL text. For every table, every
    non-JSON column [c] the client may filter on and every text [t] without
    dots and brackets, the key [c->t] passes the allow-list and the column
    check as [c], and the query compares the raw text [c->t]: a client who
    may filter on one column can write SQL of its own, such as
    [id->1 OR 1=1], into the WHERE clause. *)
Theorem filter_key_reaches_sql
    (json_string : string → string) (iter : gmap string string → list (string * string))
    (d : DatabaseDriver) (table : TableConfig) (ctx : SelectContext) (qp : QueryParams)
    (rc : RequestContext) (c t v : string) (col : ColumnConfig)
    (Hword : word c = true)
    (Ht : contains_char "." t = false ∧ contains_char "[" t = false ∧ contains_char "]" t = false)
    (Hallowed : "*" ∈ sel_filtering_allowed_fields ctx ∨ c ∈ sel_filtering_allowed_fields ctx)
    (Hcol : find_first (λ x, bool_decide (col_name x = c)) (tbl_columns table) = Some col)
    (Htype : is_json_type (col_type col) = false)
    (Hwhere : sel_where_clause ctx = None)
    (Hfilters : iter (qp_filters qp) = [(c +:+ "->" +:+ t, v)]) :
  bq_sql <$> build_select_list_count json_string iter (tbl_name table) d ctx qp rc table
  = Ok ("SELECT COUNT(*) as count FROM " +:+ tbl_name table +:+ " WHERE " +:+
        tbl_name table +:+ "." +:+ c +:+ "->" +:+ t +:+ " = " +:+ placeholder d 1).
Proof.
  destruct Ht as (Hdot&Hopen&Hclose).
  unfold build_select_list_count, apply_where_clause, apply_filters. rewrite Hwhere, Hfilters.
  cbn [mbind result_bind try_fold]. unfold apply_filter.
  assert (∀ x, is_alnum_ascii x || Ascii.eqb x "_" = false → contains_char x "->" = false →
    contains_char x t = false → contains_char x (c +:+ "->" +:+ t) = false) as Hlack.
  { intros x H1 H2 H3. by rewrite !contains_char_app, H2, H3, (word_lacks c x Hword H1). }
  assert (parse_filter_key (c +:+ "->" +:+ t)
          = Ok {| fe_path := [c +:+ "->" +:+ t]; fe_operator := OpEq |}) as ->.
  { unfold parse_filter_key, filter_key_captures.
    rewrite (proj2 (rsplit_once_None "[" _)) by auto. rewrite !Hlack by done. cbn.
    rewrite split_no_sep by auto. done. }
  cbn [mbind result_bind fe_path head ok_or]. rewrite (extract_base_column_arrow _ _ Hword).
  assert (negb (bool_decide ("*" ∈ sel_filtering_allowed_fields ctx))
          && negb (bool_decide (c ∈ sel_filtering_allowed_fields ctx)) = false) as ->.
  { destruct Hallowed; [by rewrite bool_decide_eq_true_2|].
    by rewrite (bool_decide_eq_true_2 (c ∈ _)), andb_false_r. }
  unfold is_valid_filter_column, get_column_type_for_filter, column_exists.
  rewrite (extract_base_column_arrow _ _ Hword), Hcol.
  assert (existsb (λ x, bool_decide (col_name x = c)) (tbl_columns table) = true) as ->.
  { apply find_first_elem in Hcol. apply existsb_elem. eauto. }
  rewrite orb_true_r. cbn [negb fmap option_fmap option_map ok_or mbind result_bind].
  unfold apply_filter_expression. cbn [fe_path fe_operator length head default]. rewrite Htype.
  rewrite bool_decide_eq_false_2 by done. destruct d; cbn; by rewrite ?app_nil_r, ?app_assoc.
Qed.

Lemma filter_key_reaches_sql_witness :
  bq_sql <$> build_select_list_count quoted map_to_list "posts" Sqlite permissive
    (params_of None None [("id->1 OR 1=1 OR 1", "x")]) alice posts
  = Ok ("SELECT COUNT(*) as count FROM posts WHERE posts.id->1 OR 1=1 OR 1 = ?").
Proof.
  apply (filter_key_reaches_sql quoted map_to_list Sqlite posts permissive
    (params_of None None [("id->1 OR 1=1 OR 1", "x")]) alice "id" "1 OR 1=1 OR 1" "x"
    (mk_col "id" Integer true)).
  - reflexivity.
  - repeat split.
  - left. by left.
  - reflexivity.
  - reflexivity.
  - reflexivity.
  - vm_compute. reflexivity.
Defined.
