(* ===== verification/Mutations.v ===== *)
(** * INSERT, UPDATE and DELETE

    The builders of src/src/db/query/builders/ for the mutating requests of a
    CRUD endpoint. A JSON object is the list of its entries in iteration
    order. *)

From S2P Require Import Prelude RustStr Json Config Errors SqlHelpers Interp Holes Select SelectSpec.
Local Open Scope stdpp_scope.

Section mutations.
(** [char::is_alphanumeric] on a non-ASCII scalar value. *)
Context (unicode_alnum : string → bool).

(** [interpolate_value] for a JSON string, the value itself otherwise. *)
Definition interpolated (v : value) (rc : RequestContext) : result AppError value :=
  match as_str v with
  | Some s => interpolate_value s rc
  | None => Ok v
  end.

(** The placeholder of a written column: PostgreSQL casts JSONB columns. *)
Definition column_placeholder (db : DatabaseContext) (key : string) (idx : nat) : string :=
  let driver := dbx_driver db in
  if bool_decide (driver = Postgres) &&
     existsb (λ c, bool_decide (col_name c = key) && bool_decide (col_type c = Jsonb))
       (tbl_columns (dbx_table db))
  then placeholder driver idx +:+ "::jsonb"
  else placeholder driver idx.

(** Columns, placeholders and parameters collected so far; the next
    placeholder has the number of parameters plus one. *)
Record InsertState := {
  ins_columns : list string;
  ins_placeholders : list string;
  ins_params : list value;
  ins_idx : nat;
}.

Definition ins_push (st : InsertState) (column ph : string) (v : value) : InsertState := {|
  ins_columns := ins_columns st ++ [column];
  ins_placeholders := ins_placeholders st ++ [ph];
  ins_params := ins_params st ++ [v];
  ins_idx := S (ins_idx st) |}.

(** Source: db/query/builders/insert_builder.rs:45-64 [build_insert (owner)] *)
Definition insert_owner_field (db : DatabaseContext) (ctx : MutationContext)
    (rc : RequestContext) : InsertState :=
  let empty := {| ins_columns := []; ins_placeholders := []; ins_params := []; ins_idx := 1 |} in
  match mc_insert_owner ctx, rc_user_id rc with
  | Some owner_field, Some user_id =>
      let coerced :=
        match find_first (λ c, bool_decide (col_name c = owner_field)) (tbl_columns (dbx_table db)) with
        | None => VString user_id
        | Some c => coerce_filter_value_by_type user_id (col_type c) (dbx_driver db)
        end in
      ins_push empty owner_field (placeholder (dbx_driver db) (ins_idx empty)) coerced
  | _, _ => empty
  end.

(** Source: db/query/builders/insert_builder.rs:66-107 [build_insert (loop)] *)
Definition insert_field (db : DatabaseContext) (ctx : MutationContext) (rc : RequestContext)
    (writable : gset string) (st : InsertState) (kv : string * value) : result AppError InsertState :=
  let '(key, v) := kv in
  if bool_decide (mc_insert_owner ctx = Some key) then Ok st
  else if negb (bool_decide (key ∈ writable)) then Ok st
  else if negb (is_valid_identifier unicode_alnum key) then
    Err (BadRequest ("Invalid field name: " +:+ key))
  else
    final_value ← interpolated v rc;
    Ok (ins_push st key (column_placeholder db key (ins_idx st)) final_value).

Definition returning (db : DatabaseContext) (ctx : MutationContext) (pk_col : string) : string :=
  let driver := dbx_driver db in
  match driver with
  | Mysql => ""
  | _ =>
      match mc_insert_owner ctx with
      | None => " RETURNING " +:+ quote_identifier pk_col driver
      | Some owner =>
          " RETURNING " +:+ quote_identifier pk_col driver +:+ ", " +:+ quote_identifier owner driver
      end
  end.

(** Source: db/query/builders/insert_builder.rs [build_insert] *)
Definition build_insert (db : DatabaseContext) (ctx : MutationContext) (body : value)
    (rc : RequestContext) : result AppError BuiltQuery :=
  obj ← ok_or (BadRequest "Request body must be a JSON object") (as_object body);
  let writable := resolve_writable_fields (mc_writable_fields ctx) (dbx_table db) in
  st ← try_fold (insert_field db ctx rc writable) (insert_owner_field db ctx rc) obj;
  if bool_decide (ins_columns st = []) then
    Err (BadRequest "No writable fields provided in request body")
  else
    pk_col ← find_pk_column (dbx_table db);
    Ok {| bq_sql := "INSERT INTO " +:+ tbl_name (dbx_table db) +:+ " (" +:+
                    join ", " (ins_columns st) +:+ ") VALUES (" +:+
                    join ", " (ins_placeholders st) +:+ ")" +:+ returning db ctx pk_col;
          bq_params := ins_params st |}.

Record UpdateState := {
  upd_set_parts : list string;
  upd_params : list value;
  upd_idx : nat;
}.

(** Source: db/query/builders/update_builder.rs:41-73 [build_update (loop)] *)
Definition update_field (db : DatabaseContext) (rc : RequestContext) (writable : gset string)
    (st : UpdateState) (kv : string * value) : result AppError UpdateState :=
  let '(key, v) := kv in
  if negb (bool_decide (key ∈ writable)) then Ok st
  else if negb (is_valid_identifier unicode_alnum key) then
    Err (BadRequest ("Invalid field name: " +:+ key))
  else
    final_value ← interpolated v rc;
    Ok {| upd_set_parts := upd_set_parts st ++ [key +:+ " = " +:+ column_placeholder db key (upd_idx st)];
          upd_params := upd_params st ++ [final_value];
          upd_idx := S (upd_idx st) |}.

(** [format!("{sql} AND {}", parts.join(""))] with the clause's parameters. *)
Definition and_where (db : DatabaseContext) (rc : RequestContext) (where_clause : option string)
    (sql : string) (params : list value) : result AppError BuiltQuery :=
  match where_clause with
  | None => Ok {| bq_sql := sql; bq_params := params |}
  | Some wc =>
      '(params', parts, _) ← interpolate_where_clause wc rc (dbx_driver db) params [];
      Ok {| bq_sql := sql +:+ " AND " +:+ join "" parts; bq_params := params' |}
  end.

(** Source: db/query/builders/update_builder.rs [build_update] *)
Definition build_update (db : DatabaseContext) (ctx : MutationContext) (pk_value : string)
    (body : value) (rc : RequestContext) (where_clause : option string)
    : result AppError BuiltQuery :=
  let table := dbx_table db in
  let driver := dbx_driver db in
  obj ← ok_or (BadRequest "Request body must be a JSON object") (as_object body);
  let writable := resolve_writable_fields (mc_writable_fields ctx) table in
  pk_col ← find_pk_column table;
  st ← try_fold (update_field db rc writable)
         {| upd_set_parts := []; upd_params := []; upd_idx := 1 |} obj;
  if bool_decide (upd_set_parts st = []) then
    Err (BadRequest "No writable fields provided in request body")
  else
    let pk_val := coerce_pk_value table pk_value in
    let set := join ", " (upd_set_parts st) in
    if is_coercion_sentinel pk_val then
      and_where db rc where_clause
        ("UPDATE " +:+ quote_identifier (tbl_name table) driver +:+ " SET " +:+ set +:+ " WHERE 1 = 0")
        (upd_params st)
    else
      and_where db rc where_clause
        ("UPDATE " +:+ tbl_name table +:+ " SET " +:+ set +:+ " WHERE " +:+ pk_col +:+ " = " +:+
         placeholder driver (upd_idx st))
        (upd_params st ++ [pk_val]).

(** Source: db/query/builders/delete_builder.rs [build_delete] *)
Definition build_delete (pk_value : string) (db : DatabaseContext) (rc : RequestContext)
    (where_clause : option string) : result AppError BuiltQuery :=
  let table := dbx_table db in
  let driver := dbx_driver db in
  pk_col ← find_pk_column table;
  let pk_val := coerce_pk_value table pk_value in
  if is_coercion_sentinel pk_val then
    and_where db rc where_clause
      ("DELETE FROM " +:+ quote_identifier (tbl_name table) driver +:+ " WHERE 1 = 0") []
  else
    and_where db rc where_clause
      ("DELETE FROM " +:+ tbl_name table +:+ " WHERE " +:+ pk_col +:+ " = " +:+ placeholder driver 1)
      [pk_val].
End mutations.

(** ** Inserting *)

(** The entries of the body that are written. *)
Definition written (db : DatabaseContext) (ctx : MutationContext) (kv : string * value) : bool :=
  negb (bool_decide (mc_insert_owner ctx = Some kv.1)) &&
  bool_decide (kv.1 ∈ resolve_writable_fields (mc_writable_fields ctx) (dbx_table db)).

(** The column the server sets itself, with its value. *)
Definition owner_entry (db : DatabaseContext) (ctx : MutationContext) (rc : RequestContext)
    : list (string * value) :=
  match mc_insert_owner ctx, rc_user_id rc with
  | Some owner, Some uid =>
      [(owner, match find_first (λ c, bool_decide (col_name c = owner)) (tbl_columns (dbx_table db)) with
               | None => VString uid
               | Some c => coerce_filter_value_by_type uid (col_type c) (dbx_driver db)
               end)]
  | _, _ => []
  end.

(** What a body value is stored as: the text with its references replaced. *)
Definition stored (rc : RequestContext) (v : value) : value :=
  match v with
  | VString s =>
      VString (join "" (map (λ m, m.1 +:+ substitute rc m.2) (scan s).1) +:+ (scan s).2)
  | _ => v
  end.

Lemma interpolated_stored v rc : interpolated v rc = Ok (stored rc v).
Proof. destruct v; try done. cbn. apply interpolate_value_closed. Qed.

Lemma insert_loop ua db ctx rc obj st :
  try_fold (insert_field ua db ctx rc (resolve_writable_fields (mc_writable_fields ctx) (dbx_table db)))
    st obj
  = match find_first (λ kv, written db ctx kv && negb (is_valid_identifier ua kv.1)) obj with
    | Some kv => Err (BadRequest ("Invalid field name: " +:+ kv.1))
    | None =>
        let l := filter (λ kv, written db ctx kv = true) obj in
        Ok {| ins_columns := ins_columns st ++ map fst l;
              ins_placeholders := ins_placeholders st ++
                imap (λ i kv, column_placeholder db kv.1 (ins_idx st + i)) l;
              ins_params := ins_params st ++ map (λ kv, stored rc kv.2) l;
              ins_idx := ins_idx st + length l |}
    end.
Proof.
  revert st. induction obj as [|[key v] obj IH]; intros st.
  { cbn. rewrite !(right_id_L [] (++)), Nat.add_0_r. by destruct st. }
  cbn [try_fold find_first]. unfold insert_field at 1. unfold written at 1. cbn [fst].
  destruct (bool_decide (mc_insert_owner ctx = Some key)) eqn:Ho; cbn [negb andb].
  { rewrite IH. destruct (find_first _ _); [done|]. cbv zeta.
    rewrite filter_cons_False; [done|]. unfold written. cbn. by rewrite Ho. }
  destruct (bool_decide (key ∈ _)) eqn:Hw; cbn [negb andb].
  2: { rewrite IH. destruct (find_first _ _); [done|]. cbv zeta.
       rewrite filter_cons_False; [done|]. unfold written. cbn. by rewrite Ho, Hw. }
  destruct (is_valid_identifier ua key) eqn:Hv; cbn [negb andb]; [|done].
  rewrite interpolated_stored. cbn [mbind result_bind]. rewrite IH.
  destruct (find_first _ _); [done|]. cbv zeta.
  rewrite filter_cons_True by (unfold written; cbn; by rewrite Ho, Hw).
  cbn. rewrite <-!(assoc_L (++)), Nat.add_0_r. cbn. f_equal. f_equal; [|lia].
  do 2 f_equal. apply imap_ext. intros i x _. cbn. f_equal. lia.
Qed.

(** What an INSERT writes. The body must be an object. Its entries that
    name a writable column, other than the owner column, are written in
    order with their interpolated values; an entry of that kind with an
    ill-formed name is an error, every other entry is ignored. The owner
    column comes first and always holds the authenticated user's id: the
    body cannot set it. Columns, placeholders and parameters correspond one
    to one, the i-th placeholder being number i (cast to JSONB for a JSONB
    column on PostgreSQL). *)
Theorem build_insert_spec (unicode_alnum : string → bool) (db : DatabaseContext)
    (ctx : MutationContext) (body : value) (rc : RequestContext) :
  build_insert unicode_alnum db ctx body rc
  = match body with
    | VObject obj =>
        match find_first (λ kv, written db ctx kv && negb (is_valid_identifier unicode_alnum kv.1)) obj with
        | Some kv => Err (BadRequest ("Invalid field name: " +:+ kv.1))
        | None =>
            let own := owner_entry db ctx rc in
            let l := filter (λ kv, written db ctx kv = true) obj in
            if bool_decide (own ++ l = []) then
              Err (BadRequest "No writable fields provided in request body")
            else
              pk_col ← find_pk_column (dbx_table db);
              Ok {| bq_sql :=
                      "INSERT INTO " +:+ tbl_name (dbx_table db) +:+ " (" +:+
                      join ", " (map fst (own ++ l)) +:+ ") VALUES (" +:+
                      join ", " (map (λ _, placeholder (dbx_driver db) 1) own ++
                                 imap (λ i kv, column_placeholder db kv.1 (S (length own + i))) l) +:+
                      ")" +:+ returning db ctx pk_col;
                    bq_params := map snd own ++ map (λ kv, stored rc kv.2) l |}
        end
    | _ => Err (BadRequest "Request body must be a JSON object")
    end.
Proof.
  unfold build_insert. destruct body as [| | | | |obj]; try done.
  cbn [as_object ok_or mbind result_bind]. rewrite insert_loop.
  destruct (find_first _ obj) as [kv|]; [done|]. cbn [mbind result_bind].
  set (l := filter _ obj). unfold insert_owner_field, owner_entry.
  destruct (mc_insert_owner ctx) as [owner|], (rc_user_id rc) as [uid|]; cbn;
    destruct l as [|x l']; cbn; try done;
    rewrite ?bool_decide_eq_false_2 by done; done.
Qed.

(** ** Updating *)

Lemma update_loop ua db rc writable obj st :
  try_fold (update_field ua db rc writable) st obj
  = match find_first (λ kv, bool_decide (kv.1 ∈ writable) && negb (is_valid_identifier ua kv.1)) obj with
    | Some kv => Err (BadRequest ("Invalid field name: " +:+ kv.1))
    | None =>
        let l := filter (λ kv, kv.1 ∈ writable) obj in
        Ok {| upd_set_parts := upd_set_parts st ++
                imap (λ i kv, kv.1 +:+ " = " +:+ column_placeholder db kv.1 (upd_idx st + i)) l;
              upd_params := upd_params st ++ map (λ kv, stored rc kv.2) l;
              upd_idx := upd_idx st + length l |}
    end.
Proof.
  revert st. induction obj as [|[key v] obj IH]; intros st.
  { cbn. rewrite !(right_id_L [] (++)), Nat.add_0_r. by destruct st. }
  cbn [try_fold find_first]. unfold update_field at 1. cbn [fst].
  destruct (decide (key ∈ writable)) as [Hw|Hw].
  2: { rewrite (bool_decide_eq_false_2 _ Hw). cbn [negb andb].
       rewrite IH. destruct (find_first _ _); [done|]. by rewrite filter_cons_False. }
  rewrite (bool_decide_eq_true_2 _ Hw). cbn [negb andb].
  destruct (is_valid_identifier ua key) eqn:Hv; cbn [negb]; [|done].
  rewrite interpolated_stored. cbn [mbind result_bind]. rewrite IH.
  destruct (find_first _ _); [done|]. cbv zeta. rewrite filter_cons_True by done.
  cbn. rewrite <-!(assoc_L (++)), Nat.add_0_r. cbn. f_equal. f_equal; [|lia].
  do 2 f_equal. apply imap_ext. intros i x _. cbn. do 2 f_equal. f_equal. lia.
Qed.

Lemma and_where_Ok db rc wc sql ps q :
  and_where db rc wc sql ps = Ok q →
  match wc with
  | None => q = {| bq_sql := sql; bq_params := ps |}
  | Some wc =>
      bq_sql q = sql +:+ " AND " +:+
        join "" (where_parts (dbx_driver db) 1 (scan wc).1 ++ [(scan wc).2]) ∧
      ∃ vs, bq_params q = ps ++ map VString vs ∧ length vs = length (scan wc).1
  end.
Proof.
  unfold and_where. destruct wc as [wc|]; [|by intros [= <-]].
  intros H. inv_ok. destruct x as [[ps' parts] n]. inv_ok.
  apply interpolate_where_clause_Ok in H as (->&->&vs&->&Hvs). cbn. eauto.
Qed.

Lemma and_where_extends db rc wc sql ps q :
  and_where db rc wc sql ps = Ok q →
  ∃ rest more, bq_sql q = sql +:+ rest ∧ bq_params q = ps ++ more.
Proof.
  intros H%and_where_Ok. destruct wc as [wc|].
  - destruct H as (->&vs&->&_). eauto.
  - subst q. exists "", []. by rewrite app_nil_r, (right_id_L [] (++)).
Qed.

(** The columns an UPDATE assigns. *)
Definition assigned (db : DatabaseContext) (ctx : MutationContext) (obj : list (string * value))
    : list (string * value) :=
  filter (λ kv, kv.1 ∈ resolve_writable_fields (mc_writable_fields ctx) (dbx_table db)) obj.

Definition set_text (db : DatabaseContext) (l : list (string * value)) : string :=
  join ", " (imap (λ i kv, kv.1 +:+ " = " +:+ column_placeholder db kv.1 (S i)) l).

(** The statement before its where clause is appended. *)
Lemma build_update_Ok ua db ctx pk obj rc wc q :
  build_update ua db ctx pk (VObject obj) rc wc = Ok q →
  let l := assigned db ctx obj in
  let ps := map (λ kv, stored rc kv.2) l in
  l ≠ [] ∧ Forall (λ kv, is_valid_identifier ua kv.1 = true) l ∧
  ∃ pk_col, find_pk_column (dbx_table db) = Ok pk_col ∧
  if is_coercion_sentinel (coerce_pk_value (dbx_table db) pk) then
    and_where db rc wc ("UPDATE " +:+ quote_identifier (tbl_name (dbx_table db)) (dbx_driver db) +:+
      " SET " +:+ set_text db l +:+ " WHERE 1 = 0") ps = Ok q
  else
    and_where db rc wc ("UPDATE " +:+ tbl_name (dbx_table db) +:+ " SET " +:+ set_text db l +:+
      " WHERE " +:+ pk_col +:+ " = " +:+ placeholder (dbx_driver db) (S (length l)))
      (ps ++ [coerce_pk_value (dbx_table db) pk]) = Ok q.
Proof.
  unfold build_update. cbn [as_object ok_or mbind result_bind]. intros H.
  apply bind_Ok in H as (pk_col&Hpk&H). apply bind_Ok in H as (st&Hst&H).
  rewrite update_loop in Hst. destruct (find_first _ obj) eqn:Hf; [done|].
  fold (assigned db ctx obj) in Hst. cbv zeta in Hst. cbn [upd_set_parts upd_params upd_idx] in Hst.
  injection Hst as <-. cbn [upd_set_parts upd_params upd_idx app] in H. cbv zeta.
  revert H. case_bool_decide as He; [done|]. intros H.
  split; [by intros Hnil; rewrite Hnil in He|]. split.
  { apply Forall_elem. intros kv [Hw Hkv]%list_elem_of_filter.
    rewrite find_first_None in Hf. specialize (Hf kv Hkv).
    rewrite bool_decide_eq_true_2 in Hf by done. by apply negb_false_iff in Hf. }
  exists pk_col. split; [done|]. destruct (is_coercion_sentinel _); exact H.
Qed.

(** A mutation assigns writable columns only. For every object body and
    every driver, a built UPDATE assigns exactly the body's entries that
    name a writable column, in order, each a valid identifier and set to
    the placeholder of its own number; their interpolated values are the
    first parameters. There is at least one, and the statement is limited
    to the primary key, or to no row when the key cannot be coerced. *)
Theorem build_update_assigns_writable (unicode_alnum : string → bool) (db : DatabaseContext)
    (ctx : MutationContext) (pk : string) (obj : list (string * value)) (rc : RequestContext)
    (wc : option string) (q : BuiltQuery)
    (Hq : build_update unicode_alnum db ctx pk (VObject obj) rc wc = Ok q) :
  let l := assigned db ctx obj in
  l ≠ [] ∧ Forall (λ kv, is_valid_identifier unicode_alnum kv.1 = true) l ∧
  ∃ table pk_col row rest more,
    bq_sql q = "UPDATE " +:+ table +:+ " SET " +:+ set_text db l +:+ " WHERE " +:+ row +:+ rest ∧
    bq_params q = map (λ kv, stored rc kv.2) l ++ more ∧
    find_pk_column (dbx_table db) = Ok pk_col ∧
    row = (if is_coercion_sentinel (coerce_pk_value (dbx_table db) pk) then "1 = 0"
           else pk_col +:+ " = " +:+ placeholder (dbx_driver db) (S (length l))).
Proof.
  destruct (build_update_Ok _ _ _ _ _ _ _ _ Hq) as (Hne&Hid&pk_col&Hpk&Hw).
  cbv zeta. split; [done|]. split; [done|].
  destruct (is_coercion_sentinel _);
    destruct (and_where_extends _ _ _ _ _ _ Hw) as (rest&more&->&->).
  - exists (quote_identifier (tbl_name (dbx_table db)) (dbx_driver db)), pk_col, "1 = 0", rest, more.
    by rewrite !app_assoc.
  - exists (tbl_name (dbx_table db)), pk_col,
      (pk_col +:+ " = " +:+ placeholder (dbx_driver db) (S (length (assigned db ctx obj)))), rest,
      ([coerce_pk_value (dbx_table db) pk] ++ more).
    by rewrite !app_assoc, (assoc_L (++)).
Qed.

Lemma build_update_assigns_writable_witness :
  ∃ q, build_update no {| dbx_driver := Postgres; dbx_table := posts |}
         {| mc_writable_fields := ["title"; "metadata"]; mc_insert_owner := None;
            mc_update_where_clause := None; mc_delete_where_clause := None |}
         "5" (VObject [("title", VString "t"); ("author", VString "mallory"); ("metadata", VNull)])
         alice None = Ok q ∧
  ∃ table pk_col row rest more,
    bq_sql q = "UPDATE " +:+ table +:+ " SET " +:+ "title = $1, metadata = $2::jsonb" +:+
      " WHERE " +:+ row +:+ rest ∧
    bq_params q = [VString "t"; VNull] ++ more ∧
    find_pk_column posts = Ok pk_col ∧ row = pk_col +:+ " = " +:+ "$3".
Proof.
  eexists. split; [vm_compute; reflexivity|].
  refine (proj2 (proj2 (build_update_assigns_writable no
    {| dbx_driver := Postgres; dbx_table := posts |}
    {| mc_writable_fields := ["title"; "metadata"]; mc_insert_owner := None;
       mc_update_where_clause := None; mc_delete_where_clause := None |}
    "5" [("title", VString "t"); ("author", VString "mallory"); ("metadata", VNull)] alice None _ _))).
  vm_compute. reflexivity.
Defined.

(** ** Placeholders of the row statements *)

(** A valid identifier is clean on every driver. *)
Lemma identifier_clean ua d s : is_valid_identifier ua s = true → clean d s = true.
Proof.
  intros Hs. apply negb_true_iff, not_true_is_false. intros Hc.
  pose proof (is_valid_identifier_ascii ua s (marker d) Hs) as H.
  destruct d; by specialize (H eq_refl Hc).
Qed.

Lemma column_placeholder_holed db key k :
  holed (dbx_driver db) k (S k) (column_placeholder db key k).
Proof.
  unfold column_placeholder. destruct (_ && _) eqn:Hj; [|apply holed_placeholder].
  apply andb_true_iff in Hj as [Hd%bool_decide_eq_true _]. rewrite Hd.
  eapply holed_app; [apply holed_placeholder|done|by constructor].
Qed.

Lemma set_text_holed ua db l :
  Forall (λ kv, is_valid_identifier ua kv.1 = true) l →
  holed (dbx_driver db) 1 (S (length l)) (set_text db l).
Proof.
  intros Hl. apply holed_join; [by destruct (dbx_driver db)|done|done|].
  change (S (length l)) with (1 + length l).
  assert (∀ k, holed_seq (dbx_driver db) k (k + length l)
    (imap (λ i kv, kv.1 +:+ " = " +:+ column_placeholder db kv.1 (k + i)) l)) as Hk; [|by apply Hk].
  induction Hl as [|kv l Hkv Hl IH]; intros k; [rewrite Nat.add_0_r; constructor|].
  cbn [imap length]. rewrite Nat.add_succ_r. apply (holed_seq_cons _ _ (S k)).
  - rewrite Nat.add_0_r. apply holed_pre; [by eapply identifier_clean|].
    apply (holed_pre _ _ _ " = "); [by destruct (dbx_driver db)|]. apply column_placeholder_holed.
  - specialize (IH (S k)). erewrite imap_ext; [exact IH|].
    intros i x _. cbn. by rewrite Nat.add_succ_r.
Qed.

(** The number of references of a where clause. *)
Definition references (wc : option string) : nat :=
  match wc with Some wc => length (scan wc).1 | None => 0 end.
Definition opt_where_ok (d : DatabaseDriver) (wc : option string) : bool :=
  match wc with Some wc => where_ok d wc | None => true end.

Lemma and_where_placeholders db rc wc sql ps n q :
  and_where db rc wc sql ps = Ok q → opt_where_ok (dbx_driver db) wc = true →
  holed (dbx_driver db) 1 (S n) sql → length ps = n →
  placeholders_in (dbx_driver db) (bq_sql q)
  = numbered (dbx_driver db) 1 n ++ numbered (dbx_driver db) 1 (references wc) ∧
  length (bq_params q) = n + references wc.
Proof.
  intros H%and_where_Ok Hok Hsql Hn. apply holed_placeholders in Hsql.
  replace (S n - 1) with n in Hsql by lia. destruct wc as [wc|]; cbn in *.
  - destruct H as (->&vs&->&Hvs). rewrite length_app, length_map, Hvs, Hn. split; [|done].
    unfold where_ok in Hok. destruct (scan wc) as [ms t]. cbn [fst snd] in *.
    apply andb_true_iff in Hok as [Hc Hs].
    rewrite placeholders_in_app by done. rewrite Hsql. f_equal.
    pose proof (where_parts_holed (dbx_driver db) 1 ms t Hc Hs) as Hw.
    apply (holed_pre _ _ _ " AND ") in Hw; [|by destruct (dbx_driver db)].
    apply holed_placeholders in Hw. rewrite Hw. by rewrite Nat.add_comm, Nat.add_sub.
  - subst q. cbn. by rewrite Hsql, Hn, Nat.add_0_r, (right_id_L [] (++)).
Qed.

(** The placeholders of an UPDATE. The assigned columns and the primary
    key are numbered 1, ..., n, but the references of the ownership clause
    start again at 1, while their values are bound after the n others. With
    question marks (MySQL, SQLite) the count still agrees and the order is
    right; on PostgreSQL a statement whose clause has a reference reads an
    assigned value in its place and names fewer placeholders than it binds. *)
Theorem update_placeholders (unicode_alnum : string → bool) (db : DatabaseContext)
    (ctx : MutationContext) (pk : string) (obj : list (string * value)) (rc : RequestContext)
    (wc : option string) (q : BuiltQuery)
    (Htable : clean (dbx_driver db) (tbl_name (dbx_table db)) = true)
    (Hpk : clean (dbx_driver db) (default "" (ok (find_pk_column (dbx_table db)))) = true)
    (Hwc : opt_where_ok (dbx_driver db) wc = true)
    (Hq : build_update unicode_alnum db ctx pk (VObject obj) rc wc = Ok q) :
  let d := dbx_driver db in
  let n := length (assigned db ctx obj) +
           (if is_coercion_sentinel (coerce_pk_value (dbx_table db) pk) then 0 else 1) in
  placeholders_in d (bq_sql q) = numbered d 1 n ++ numbered d 1 (references wc) ∧
  length (bq_params q) = n + references wc.
Proof.
  destruct (build_update_Ok _ _ _ _ _ _ _ _ Hq) as (_&Hid&pk_col&Hp&Hw). cbv zeta.
  rewrite Hp in Hpk. cbn in Hpk. pose proof (set_text_holed _ db _ Hid) as Hset.
  assert (∀ s, clean (dbx_driver db) s = true → clean (dbx_driver db) ("UPDATE " +:+ s) = true) as Hu.
  { intros s Hs. rewrite clean_app, Hs. by destruct (dbx_driver db). }
  destruct (is_coercion_sentinel _).
  - eapply and_where_placeholders; [done|done| |by rewrite length_map, Nat.add_0_r].
    rewrite Nat.add_0_r. apply holed_pre; [by destruct (dbx_driver db)|].
    apply holed_pre; [by apply quote_clean|].
    apply holed_pre; [by destruct (dbx_driver db)|].
    eapply holed_app; [exact Hset|done|]. constructor. by destruct (dbx_driver db).
  - eapply and_where_placeholders; [done|done| |by rewrite length_app, length_map].
    apply holed_pre; [by destruct (dbx_driver db)|]. apply holed_pre; [done|].
    apply holed_pre; [by destruct (dbx_driver db)|].
    eapply holed_app; [exact Hset|done|]. apply holed_pre; [by destruct (dbx_driver db)|].
    apply holed_pre; [done|]. apply holed_pre; [by destruct (dbx_driver db)|].
    rewrite Nat.add_1_r. apply holed_placeholder.
Qed.

Definition owned : MutationContext := {|
  mc_writable_fields := ["title"]; mc_insert_owner := Some "author";
  mc_update_where_clause := Some "author = ${request.user.id}";
  mc_delete_where_clause := Some "author = ${request.user.id}" |}.

Lemma update_placeholders_witness :
  ∃ q, build_update no {| dbx_driver := Postgres; dbx_table := posts |} owned "5"
         (VObject [("title", VString "x")]) alice (mc_update_where_clause owned) = Ok q ∧
       placeholders_in Postgres (bq_sql q) = ["$1"; "$2"; "$1"] ∧ length (bq_params q) = 3.
Proof.
  eexists. split; [vm_compute; reflexivity|].
  exact (update_placeholders no {| dbx_driver := Postgres; dbx_table := posts |} owned "5"
    [("title", VString "x")] alice (mc_update_where_clause owned) _ eq_refl eq_refl eq_refl eq_refl).
Defined.

(** The placeholders of a DELETE, with the same defect: the primary key is
    number 1 and so is the first reference of the ownership clause, so on
    PostgreSQL an owner-scoped delete compares the owner column with the
    primary key and binds a parameter no placeholder names. *)
Theorem delete_placeholders (db : DatabaseContext) (pk : string) (rc : RequestContext)
    (wc : option string) (q : BuiltQuery)
    (Htable : clean (dbx_driver db) (tbl_name (dbx_table db)) = true)
    (Hpk : clean (dbx_driver db) (default "" (ok (find_pk_column (dbx_table db)))) = true)
    (Hwc : opt_where_ok (dbx_driver db) wc = true)
    (Hq : build_delete pk db rc wc = Ok q) :
  let d := dbx_driver db in
  let n := if is_coercion_sentinel (coerce_pk_value (dbx_table db) pk) then 0 else 1 in
  placeholders_in d (bq_sql q) = numbered d 1 n ++ numbered d 1 (references wc) ∧
  length (bq_params q) = n + references wc.
Proof.
  unfold build_delete in Hq. apply bind_Ok in Hq as (pk_col&Hp&Hq). cbv zeta.
  rewrite Hp in Hpk. cbn in Hpk. destruct (is_coercion_sentinel _).
  - eapply and_where_placeholders; [done|done| |done].
    constructor. rewrite !clean_app, quote_clean by done. by destruct (dbx_driver db).
  - eapply and_where_placeholders; [done|done| |done].
    apply holed_pre; [by destruct (dbx_driver db)|]. apply holed_pre; [done|].
    apply holed_pre; [by destruct (dbx_driver db)|]. apply holed_pre; [done|].
    apply holed_pre; [by destruct (dbx_driver db)|]. apply holed_placeholder.
Qed.

Lemma delete_placeholders_witness :
  ∃ q, build_delete "5" {| dbx_driver := Postgres; dbx_table := posts |} alice
         (mc_delete_where_clause owned) = Ok q ∧
       placeholders_in Postgres (bq_sql q) = ["$1"; "$1"] ∧ length (bq_params q) = 2.
Proof.
  eexists. split; [vm_compute; reflexivity|].
  exact (delete_placeholders {| dbx_driver := Postgres; dbx_table := posts |} "5" alice
    (mc_delete_where_clause owned) _ eq_refl eq_refl eq_refl eq_refl).
Defined.
