(* ===== verification/Statements.v ===== *)
(** * Fixed statements

    The statements outside the CRUD builders: look-ups by a field
    (src/src/db/query/select_one.rs), trash and path updates (update.rs),
    token revocation (revocation.rs) and content references
    (builders/file_ref.rs). Several return no parameters: their callers bind
    them in the order of the placeholders. *)

From S2P Require Import Prelude RustStr Json Config Errors SqlHelpers Interp Holes.
Local Open Scope stdpp_scope.

Definition quoted_list (columns : list string) (driver : DatabaseDriver) : string :=
  join ", " (map (λ c, quote_identifier c driver) columns).

Definition no_params (sql : string) : BuiltQuery := {| bq_sql := sql; bq_params := [] |}.

(** ** select_one.rs *)

(** Source: db/query/select_one.rs [build_select_by_field] *)
Definition build_select_by_field (table_name : string) (columns : list string) (field : string)
    (param_value : value) (driver : DatabaseDriver) : result AppError BuiltQuery :=
  if bool_decide (columns = []) then Err (BadRequest "At least one column is required")
  else if is_empty field then Err (BadRequest "Field name is required")
  else Ok {| bq_sql := "SELECT " +:+ quoted_list columns driver +:+ " FROM " +:+
               quote_identifier table_name driver +:+ " WHERE " +:+ quote_identifier field driver +:+
               " = " +:+ placeholder driver 1 +:+ " LIMIT 1";
             bq_params := [param_value] |}.

(** Source: db/query/select_one.rs [build_select_file_path] *)
Definition build_select_file_path (table_name : string) (driver : DatabaseDriver) : BuiltQuery :=
  no_params ("SELECT file_path FROM " +:+ quote_identifier table_name driver +:+
             " WHERE id = " +:+ placeholder driver 1).

(** Source: db/query/select_one.rs [build_select_trashed_item] *)
Definition build_select_trashed_item (table_name : string) (driver : DatabaseDriver) : BuiltQuery :=
  no_params ("SELECT id, file_path FROM " +:+ quote_identifier table_name driver +:+
             " WHERE id = " +:+ placeholder driver 1 +:+ " AND trashed_at IS NOT NULL").

(** Source: db/query/select_one.rs [build_select_trashed] *)
Definition build_select_trashed (table_name : string) (driver : DatabaseDriver) : BuiltQuery :=
  no_params ("SELECT * FROM " +:+ quote_identifier table_name driver +:+
             " WHERE trashed_at IS NOT NULL").

(** Source: db/query/select_one.rs [build_select_trashed_ids] *)
Definition build_select_trashed_ids (table_name : string) (driver : DatabaseDriver) : BuiltQuery :=
  no_params ("SELECT id FROM " +:+ quote_identifier table_name driver +:+
             " WHERE trashed_at IS NOT NULL").

(** Source: db/query/select_one.rs [build_select_user_for_login] *)
Definition build_select_user_for_login (table_name : string) (driver : DatabaseDriver)
    : result AppError BuiltQuery :=
  if is_empty table_name then Err (BadRequest "Table name is required")
  else Ok (no_params ("SELECT id, email, password_hash, role FROM " +:+
             quote_identifier table_name driver +:+ " WHERE email = " +:+ placeholder driver 1 +:+
             " LIMIT 1")).

(** Source: db/query/select_one.rs [build_insert_user] *)
Definition build_insert_user (table_name email password_hash role : string)
    (include_timestamps : bool) (driver : DatabaseDriver) : result AppError BuiltQuery :=
  if is_empty table_name || is_empty email || is_empty password_hash || is_empty role then
    Err (BadRequest "table_name, email, password_hash, and role are required")
  else
    let cols := map (λ c, quote_identifier c driver)
                  (["email"; "password_hash"; "role"] ++
                   if include_timestamps then ["created_at"; "updated_at"] else []) in
    let placeholders := [placeholder driver 1; placeholder driver 2; placeholder driver 3] ++
                        if include_timestamps then [now_expr driver; now_expr driver] else [] in
    Ok {| bq_sql := "INSERT INTO " +:+ quote_identifier table_name driver +:+ " (" +:+
                    join ", " cols +:+ ") VALUES (" +:+ join ", " placeholders +:+ ")";
          bq_params := [VString email; VString password_hash; VString role] |}.

(** Source: db/query/select_one.rs [build_select_by_id] *)
Definition build_select_by_id (table_name : string) (columns : list string)
    (driver : DatabaseDriver) : result AppError BuiltQuery :=
  if bool_decide (columns = []) then Err (BadRequest "At least one column is required")
  else Ok (no_params ("SELECT " +:+ quoted_list columns driver +:+ " FROM " +:+
             quote_identifier table_name driver +:+ " WHERE id = " +:+ placeholder driver 1)).

(** Source: db/query/select_one.rs [build_table_columns] *)
Definition build_table_columns (table_name : string) (driver : DatabaseDriver) : BuiltQuery :=
  match driver with
  | Sqlite => no_params ("PRAGMA table_info(" +:+ quote_identifier table_name driver +:+ ")")
  | Postgres =>
      {| bq_sql := "SELECT column_name FROM information_schema.columns WHERE table_name = $1 ORDER BY ordinal_position";
         bq_params := [VString table_name] |}
  | Mysql =>
      {| bq_sql := "SELECT column_name FROM information_schema.columns WHERE table_schema = DATABASE() AND table_name = ? ORDER BY ordinal_position";
         bq_params := [VString table_name] |}
  end.

(** ** update.rs *)

(** Source: db/query/update.rs [build_set_trashed] *)
Definition build_set_trashed (table_name : string) (driver : DatabaseDriver)
    : result AppError BuiltQuery :=
  if is_empty table_name then Err (BadRequest "Table name is required")
  else Ok (no_params ("UPDATE " +:+ quote_identifier table_name driver +:+ " SET deleted_at = " +:+
             now_expr driver +:+ ", trashed_at = " +:+ now_expr driver +:+ " WHERE id = " +:+
             placeholder driver 1)).

(** Source: db/query/update.rs [build_set_restored] *)
Definition build_set_restored (table_name : string) (driver : DatabaseDriver)
    : result AppError BuiltQuery :=
  if is_empty table_name then Err (BadRequest "Table name is required")
  else Ok (no_params ("UPDATE " +:+ quote_identifier table_name driver +:+
             " SET trashed_at = NULL, deleted_at = NULL WHERE id = " +:+ placeholder driver 1)).

(** Source: db/query/update.rs [build_set_file_path] *)
Definition build_set_file_path (table_name new_path : string) (driver : DatabaseDriver)
    : result AppError BuiltQuery :=
  if is_empty table_name || is_empty new_path then
    Err (BadRequest "table_name and new_path are required")
  else Ok {| bq_sql := "UPDATE " +:+ quote_identifier table_name driver +:+ " SET file_path = " +:+
                       placeholder driver 1 +:+ " WHERE id = " +:+ placeholder driver 2;
             bq_params := [VString new_path] |}.

(** ** revocation.rs *)

(** Source: db/query/revocation.rs [build_revoke_cleanup] *)
Definition build_revoke_cleanup (table_name : string) (driver : DatabaseDriver) : BuiltQuery :=
  no_params ("DELETE FROM " +:+ quote_identifier table_name driver +:+ " WHERE expires_at < " +:+
             now_expr driver).

(** Source: db/query/revocation.rs [build_revoke_check] *)
Definition build_revoke_check (table_name : string) (driver : DatabaseDriver) (param_value : value)
    : BuiltQuery :=
  {| bq_sql := "SELECT 1 FROM " +:+ quote_identifier table_name driver +:+ " WHERE jti = " +:+
               placeholder driver 1 +:+ " LIMIT 1";
     bq_params := [param_value] |}.

(** Source: db/query/revocation.rs [build_revoke_insert] *)
Definition build_revoke_insert (table_name jti revoked_at expires_at : string)
    (driver : DatabaseDriver) : result AppError BuiltQuery :=
  if is_empty jti || is_empty revoked_at || is_empty expires_at then
    Err (BadRequest "JTI, revoked_at, and expires_at are required")
  else
    let table := quote_identifier table_name driver in
    let sql :=
      match driver with
      | Sqlite => "INSERT OR REPLACE INTO " +:+ table +:+
                  " (jti, revoked_at, expires_at) VALUES (?, ?, ?)"
      | Postgres => "INSERT INTO " +:+ table +:+
          " (jti, revoked_at, expires_at) VALUES ($1, $2, $3) ON CONFLICT (jti) DO UPDATE SET expires_at = EXCLUDED.expires_at"
      | Mysql => "INSERT INTO " +:+ table +:+
          " (jti, revoked_at, expires_at) VALUES (?, ?, ?) ON DUPLICATE KEY UPDATE expires_at = VALUES(expires_at)"
      end in
    Ok {| bq_sql := sql; bq_params := [VString jti; VString revoked_at; VString expires_at] |}.

(** ** builders/file_ref.rs *)

(** Source: db/query/builders/file_ref.rs [build_file_ref_max_order] *)
Definition build_file_ref_max_order (table_name order_col : string) (driver : DatabaseDriver)
    : BuiltQuery :=
  no_params ("SELECT COALESCE(MAX(" +:+ quote_identifier order_col driver +:+
             "), 0) as max_order FROM " +:+ quote_identifier table_name driver).

(** Source: db/query/builders/file_ref.rs [build_file_ref_select_by_file_id] *)
Definition build_file_ref_select_by_file_id
    (table_name file_id_col entity_id_col content_type_col : string) (driver : DatabaseDriver)
    : BuiltQuery :=
  no_params ("SELECT " +:+ quote_identifier entity_id_col driver +:+ ", " +:+
             quote_identifier content_type_col driver +:+ " FROM " +:+
             quote_identifier table_name driver +:+ " WHERE " +:+
             quote_identifier file_id_col driver +:+ " = " +:+ placeholder driver 1).

(** Source: db/query/builders/file_ref.rs [build_file_ref_insert] *)
Definition build_file_ref_insert (table_name : string) (columns : list string)
    (driver : DatabaseDriver) : BuiltQuery :=
  no_params ("INSERT INTO " +:+ quote_identifier table_name driver +:+ " (" +:+
             quoted_list columns driver +:+ ") VALUES (" +:+
             join ", " (map (placeholder driver) (seq 1 (length columns))) +:+ ")").

(** The condition on one reference, shared by the two statements below. *)
Definition file_ref_key (file_id_col entity_id_col content_type_col : string)
    (driver : DatabaseDriver) : string :=
  quote_identifier file_id_col driver +:+ " = " +:+ placeholder driver 1 +:+ " AND " +:+
  quote_identifier entity_id_col driver +:+ " = " +:+ placeholder driver 2 +:+ " AND " +:+
  quote_identifier content_type_col driver +:+ " = " +:+ placeholder driver 3.

(** Source: db/query/builders/file_ref.rs [build_file_ref_select] *)
Definition build_file_ref_select (table_name file_id_col entity_id_col content_type_col : string)
    (driver : DatabaseDriver) : BuiltQuery :=
  no_params ("SELECT * FROM " +:+ quote_identifier table_name driver +:+ " WHERE " +:+
             file_ref_key file_id_col entity_id_col content_type_col driver).

(** Source: db/query/builders/file_ref.rs [build_file_ref_delete] *)
Definition build_file_ref_delete (table_name file_id_col entity_id_col content_type_col : string)
    (driver : DatabaseDriver) : BuiltQuery :=
  no_params ("DELETE FROM " +:+ quote_identifier table_name driver +:+ " WHERE " +:+
             file_ref_key file_id_col entity_id_col content_type_col driver).

(** ** Placeholders *)

(** A literal text, then more. *)
Ltac hole_step :=
  first [ apply holed_placeholder
        | eapply holed_app; [apply holed_placeholder|reflexivity|]
        | apply holed_pre; [first [reflexivity | by apply quote_clean | assumption]|]
        | apply holed_text; first [reflexivity | by apply quote_clean | assumption] ].

Lemma file_ref_key_holed d f e c :
  clean d f = true → clean d e = true → clean d c = true →
  holed d 1 4 (file_ref_key f e c d).
Proof. intros. unfold file_ref_key. destruct d; repeat hole_step. Qed.

Lemma file_ref_insert_holed d t cols :
  clean d t = true → Forall (λ c, clean d c = true) cols →
  holed d 1 (S (length cols)) (bq_sql (build_file_ref_insert t cols d)).
Proof.
  intros Ht Hc. cbn [build_file_ref_insert no_params bq_sql].
  assert (clean d (quoted_list cols d) = true) as Hq.
  { apply clean_join; [by destruct d|]. apply Forall_elem.
    intros x (c&->&Hx)%list_elem_of_fmap. apply quote_clean.
    rewrite Forall_elem in Hc. auto. }
  pose proof (holed_list d 1 (length cols) ", ") as Hl.
  apply holed_pre; [by destruct d|]. apply holed_pre; [by apply quote_clean|].
  apply holed_pre; [by destruct d|]. apply holed_pre; [done|].
  apply holed_pre; [by destruct d|].
  eapply holed_app; [apply Hl; by destruct d|done|]. constructor. by destruct d.
Qed.

(** The statements for content references. Attaching a reference names one
    placeholder per column, selecting or detaching one names file, entity
    and content type as 1, 2 and 3, so the callers that bind the values in
    this order bind every placeholder once. *)
Theorem file_ref_placeholders (d : DatabaseDriver) (t f e c : string) (cols : list string)
    (Ht : clean d t = true) (Hf : clean d f = true) (He : clean d e = true)
    (Hc : clean d c = true) (Hcols : Forall (λ c, clean d c = true) cols) :
  placeholders_in d (bq_sql (build_file_ref_insert t cols d)) = numbered d 1 (length cols) ∧
  placeholders_in d (bq_sql (build_file_ref_select t f e c d)) = numbered d 1 3 ∧
  placeholders_in d (bq_sql (build_file_ref_delete t f e c d)) = numbered d 1 3.
Proof.
  pose proof (file_ref_key_holed d f e c Hf He Hc) as Hk. split_and!.
  - rewrite (holed_placeholders _ _ _ _ (file_ref_insert_holed d t cols Ht Hcols)).
    by rewrite Nat.sub_succ, Nat.sub_0_r.
  - apply (holed_placeholders _ 1 4). cbn [build_file_ref_select no_params bq_sql].
    destruct d; repeat hole_step; exact Hk.
  - apply (holed_placeholders _ 1 4). cbn [build_file_ref_delete no_params bq_sql].
    destruct d; repeat hole_step; exact Hk.
Qed.

Lemma file_ref_placeholders_witness :
  placeholders_in Postgres (bq_sql (build_file_ref_insert "refs" ["a"; "b"; "c"; "d"] Postgres))
  = ["$1"; "$2"; "$3"; "$4"].
Proof.
  exact (proj1 (file_ref_placeholders Postgres "refs" "a" "b" "c" ["a"; "b"; "c"; "d"]
    eq_refl eq_refl eq_refl eq_refl ltac:(repeat constructor))).
Defined.
