(* ===== verification/Pool.v ===== *)
(** * The database

    What the rest asks of src/src/db/pool.rs: the operations of a connection
    pool over a database state, and the creation and closing of the pools of
    a configuration. The drivers and the databases themselves are
    parameters. *)

From Stdlib Require Import SpecFloat.
From S2P Require Import Prelude RustStr Json Config Errors.
Local Open Scope stdpp_scope.

(** A pool of one of the three drivers. The driver's own pool is a number, by
    which two pools for one database are told apart.
    Source: db/pool.rs [DatabasePool] *)
Inductive DatabasePool := PoolSqlite (p : nat) | PoolPostgres (p : nat) | PoolMysql (p : nat).

Global Instance DatabasePool_eq_dec : EqDecision DatabasePool.
Proof. solve_decision. Defined.

(** Source: db/pool.rs [DatabasePool::driver] *)
Definition pool_driver (pool : DatabasePool) : DatabaseDriver :=
  match pool with PoolSqlite _ => Sqlite | PoolPostgres _ => Postgres | PoolMysql _ => Mysql end.

(** The rows of a query, its first row, and the execution of a statement: with
    parameters (and the number of rows it affects, or the identifier the
    database generated) and without. A statement that fails leaves the
    database as it was. The first row of a statement that writes and returns
    rows (the same [fetch_optional_json] of the sources, given an
    [INSERT ... RETURNING]) comes with the new database. *)
Class Pool (DB : Type) := {
  fetch_all_json : DatabasePool → string → list value → DB → result AppError (list value);
  fetch_optional_json : DatabasePool → string → list value → DB → result AppError (option value);
  fetch_optional_returning :
    DatabasePool → string → list value → DB → result AppError (option value * DB);
  execute_with_params : DatabasePool → string → list value → DB → result AppError (Z * DB);
  execute_with_params_and_last_id :
    DatabasePool → string → list value → DB → result AppError (Z * DB);
  execute_raw : DatabasePool → string → DB → result AppError DB;
}.

(** A statement without parameters, with the error it is reported as. *)
Definition run_raw {DB} `{!Pool DB} (wrap : AppError → AppError) (pool : DatabasePool) (sql : string)
    (db : DB) : DB * result AppError () :=
  match execute_raw pool sql db with Ok db' => (db', Ok tt) | Err e => (db, Err (wrap e)) end.

(** The drivers' side of a pool's life: connecting, which may fail, and
    closing. *)
Class PoolDriver (DB : Type) := {
  connect : DatabaseConfig → DB → DB * result AppError DatabasePool;
  close : DatabasePool → DB → DB;
}.

Section lifecycle.
Context {DB : Type} `{!PoolDriver DB}.
Context (iter : ∀ A : Type, gmap string A → list (string * A)).

(** The pools connected so far, and the rest of the databases. *)
Fixpoint connect_all (databases : list (string * DatabaseConfig)) (pools : gmap string DatabasePool)
    (db : DB) : DB * result AppError (gmap string DatabasePool) :=
  match databases with
  | [] => (db, Ok pools)
  | (name, config) :: databases =>
      match connect config db with
      | (db, Ok pool) => connect_all databases (<[name := pool]> pools) db
      | (db, Err e) => (db, Err e)
      end
  end.

(** Source: db/pool.rs [create_pools] *)
Definition create_pools (databases : gmap string DatabaseConfig) (db : DB)
  : DB * result AppError (gmap string DatabasePool) :=
  connect_all (iter _ databases) ∅ db.

(** Source: db/pool.rs [close_pools] *)
Definition close_pools (pools : gmap string DatabasePool) (db : DB) : DB :=
  foldl (λ db np, close np.2 db) db (iter _ pools).
End lifecycle.

(** ** Parameters and rows

    What a JSON value is bound as, and how a row becomes JSON: each column is
    read as the first of five types that the driver can read it as. The same
    macro makes these functions for each driver. *)

Inductive bound := BindNull | BindBool (b : bool) | BindInt (z : Z) | BindFloat (f : spec_float)
| BindText (s : string).

(** [Number::as_f64]; an integer beyond the range of [i64] is rounded. *)
Definition number_as_f64 (n : number) : spec_float :=
  match n with NFloat f => f | NInt z => f64_of_Z z end.

Section rows.
Context (json_string : value → string).

(** Source: db/pool.rs:287-305 [bind_param] *)
Definition bind_param (param : value) : bound :=
  match param with
  | VNull => BindNull
  | VBool b => BindBool b
  | VNumber n => match number_as_i64 n with Some i => BindInt i | None => BindFloat (number_as_f64 n) end
  | VString s => BindText s
  | other => BindText (json_string other)
  end.

(** [try_get::<Option<T>>] of a cell, for the five types: an error, NULL or a
    value. *)
Context {Cell : Type}.
Context (try_i64 try_i32 : Cell → option (option Z)) (try_f64 : Cell → option (option spec_float)).
Context (try_bool : Cell → option (option bool)) (try_str : Cell → option (option string)).

Definition as_json {A} (f : A → value) (o : option A) : value :=
  match o with Some a => f a | None => VNull end.

Definition cell_to_json (cell : Cell) : value :=
  match try_i64 cell, try_i32 cell, try_f64 cell, try_bool cell, try_str cell with
  | Some o, _, _, _, _ => as_json json_int o
  | None, Some o, _, _, _ => as_json json_int o
  | None, None, Some o, _, _ => as_json json_float o
  | None, None, None, Some o, _ => as_json VBool o
  | None, None, None, None, Some o => as_json VString o
  | None, None, None, None, None => VNull
  end.

(** Of two columns with one name the later counts.
    Source: db/pool.rs:308-352 [row_to_json] *)
Definition row_to_json (row : list (string * Cell)) : value :=
  VObject (foldl (λ map '(name, cell), obj_set name (cell_to_json cell) map) [] row).
End rows.
