(* ===== verification/Sqlx.v ===== *)
(** * The pools of the drivers

    The operations of src/src/db/pool.rs over what the [sqlx] library does:
    opening a pool with its options, running a statement with bound
    parameters, and closing. This implements the interface of [Pool], which
    the rest is written against. *)

From Stdlib Require Import SpecFloat.
From S2P Require Import Prelude RustStr Json Config Errors Pool.
Local Open Scope stdpp_scope.

(** The options of a pool; a time is in nanoseconds. *)
Record PoolOptions := {
  po_min_connections : Z;
  po_max_connections : Z;
  po_acquire_timeout : Z;
}.

Record exec_result := { er_rows_affected : Z; er_last_insert_id : Z }.

(** The library. The rows of a query, its first row, and the outcome of a
    statement are those of a text with its bound parameters; an error is its
    text. *)
Class Sqlx (DB Cell : Type) := {
  parse_sqlite_url : string → result string ();
  connect_sqlite : PoolOptions → string → bool → DB → DB * result string nat;
  connect_postgres : PoolOptions → string → DB → DB * result string nat;
  connect_mysql : PoolOptions → string → DB → DB * result string nat;
  close_pool : DatabasePool → DB → DB;
  query_fetch_all : DatabasePool → string → list bound → DB → result string (list (list (string * Cell)));
  query_fetch_optional :
    DatabasePool → string → list bound → DB → result string (option (list (string * Cell)) * DB);
  query_execute : DatabasePool → string → list bound → DB → result string (exec_result * DB);
}.

Section pools.
Context {DB Cell : Type} `{!Sqlx DB Cell}.
Context (json_string : value → string).
Context (try_i64 try_i32 : Cell → option (option Z)) (try_f64 : Cell → option (option spec_float)).
Context (try_bool : Cell → option (option bool)) (try_str : Cell → option (option string)).

Local Notation row_to_json := (row_to_json try_i64 try_i32 try_f64 try_bool try_str).
Local Notation bound_params params := (map (bind_param json_string) params).

Local Notation sqlx_query_fetch_optional := (query_fetch_optional (DB := DB) (Cell := Cell)).
Local Notation sqlx_query_fetch_all := (query_fetch_all (DB := DB) (Cell := Cell)).
Local Notation sqlx_query_execute := (query_execute (DB := DB) (Cell := Cell)).
Local Notation sqlx_connect_sqlite := (connect_sqlite (DB := DB) (Cell := Cell)).
Local Notation sqlx_connect_postgres := (connect_postgres (DB := DB) (Cell := Cell)).
Local Notation sqlx_connect_mysql := (connect_mysql (DB := DB) (Cell := Cell)).
Local Notation sqlx_close_pool := (close_pool (DB := DB) (Cell := Cell)).
Local Notation sqlx_parse_sqlite_url := (parse_sqlite_url (DB := DB) (Cell := Cell)).

(** The [From] conversion of a [sqlx] error. *)
Definition database {A} (m : result string A) : result AppError A := map_err Database m.

(** The functions of a driver, one set for each; they differ in the library's
    types only.
    Source: db/pool.rs:248-259 [impl_db_helpers (fetch)] *)
Definition fetch_fn (pool : DatabasePool) (sql : string) (params : list value) (db : DB)
  : result AppError (list value) :=
  rows ← database (sqlx_query_fetch_all pool sql (bound_params params) db);
  Ok (map row_to_json rows).

(** Source: db/pool.rs:261-272 [impl_db_helpers (fetch_opt)] *)
Definition fetch_opt_fn (pool : DatabasePool) (sql : string) (params : list value) (db : DB)
  : result AppError (option value * DB) :=
  '(row, db) ← database (sqlx_query_fetch_optional pool sql (bound_params params) db);
  Ok (option_map row_to_json row, db).

(** Source: db/pool.rs:274-285 [impl_db_helpers (exec)] *)
Definition exec_fn (pool : DatabasePool) (sql : string) (params : list value) (db : DB)
  : result AppError (Z * DB) :=
  '(done, db) ← database (sqlx_query_execute pool sql (bound_params params) db);
  Ok (er_rows_affected done, db).

(** Source: db/pool.rs:110-128 [DatabasePool::fetch_all_json] *)
Definition pool_fetch_all_json (pool : DatabasePool) (sql : string) (params : list value) (db : DB)
  : result AppError (list value) := fetch_fn pool sql params db.

(** Source: db/pool.rs [DatabasePool::fetch_optional_json] *)
Definition pool_fetch_optional (pool : DatabasePool) (sql : string) (params : list value) (db : DB)
  : result AppError (option value * DB) := fetch_opt_fn pool sql params db.

(** Source: db/pool.rs [DatabasePool::execute_with_params] *)
Definition pool_execute_with_params (pool : DatabasePool) (sql : string) (params : list value) (db : DB)
  : result AppError (Z * DB) := exec_fn pool sql params db.

(** Source: db/pool.rs [execute_mysql_with_last_id] *)
Definition execute_mysql_with_last_id (pool : DatabasePool) (sql : string) (params : list value) (db : DB)
  : result AppError (Z * DB) :=
  '(done, db) ← database (sqlx_query_execute pool sql (bound_params params) db);
  Ok (er_last_insert_id done, db).

(** [cast_unsigned] wraps a negative identifier.
    Source: db/pool.rs [execute_with_last_id_sqlite] *)
Definition execute_with_last_id_sqlite (pool : DatabasePool) (sql : string) (params : list value) (db : DB)
  : result AppError (Z * DB) :=
  '(done, db) ← database (sqlx_query_execute pool sql (bound_params params) db);
  Ok (u64_wrap (er_last_insert_id done), db).

(** On PostgreSQL nothing is executed.
    Source: db/pool.rs [DatabasePool::execute_with_params_and_last_id] *)
Definition pool_execute_and_last_id (pool : DatabasePool) (sql : string) (params : list value) (db : DB)
  : result AppError (Z * DB) :=
  match pool with
  | PoolSqlite _ => execute_with_last_id_sqlite pool sql params db
  | PoolMysql _ => execute_mysql_with_last_id pool sql params db
  | PoolPostgres _ => Ok (0%Z, db)
  end.

(** Source: db/pool.rs [DatabasePool::execute_raw] *)
Definition pool_execute_raw (pool : DatabasePool) (sql : string) (db : DB) : result AppError DB :=
  '(_, db) ← database (sqlx_query_execute pool sql [] db); Ok db.

(** The interface the rest is written against. *)
Definition sqlx_pool : Pool DB := {|
  fetch_all_json := pool_fetch_all_json;
  fetch_optional_json pool sql params db := fst <$> pool_fetch_optional pool sql params db;
  fetch_optional_returning := pool_fetch_optional;
  execute_with_params := pool_execute_with_params;
  execute_with_params_and_last_id := pool_execute_and_last_id;
  execute_raw := pool_execute_raw |}.

(** ** Opening and closing *)

Definition pool_options (config : DatabaseConfig) : PoolOptions := {|
  po_min_connections := dbc_min_connections config; po_max_connections := dbc_max_connections config;
  po_acquire_timeout := dbc_acquire_timeout config * 1000000000 |}.

Definition as_pool (name : string) (kind : nat → DatabasePool) (m : DB * result string nat)
  : DB * result AppError DatabasePool :=
  let '(db, r) := m in
  (db, p ← map_err (λ e, ConfigurationError ("Failed to connect to " +:+ name +:+ ": " +:+ e)) r; Ok (kind p)).

(** Source: db/pool.rs [DatabasePool::connect] *)
Definition pool_connect (config : DatabaseConfig) (db : DB) : DB * result AppError DatabasePool :=
  let options := pool_options config in
  match dbc_driver config with
  | Sqlite =>
      match sqlx_parse_sqlite_url (dbc_url config) with
      | Err e => (db, Err (ConfigurationError ("Invalid SQLite URL: " +:+ e)))
      | Ok _ => as_pool "SQLite" PoolSqlite (sqlx_connect_sqlite options (dbc_url config) true db)
      end
  | Postgres => as_pool "Postgres" PoolPostgres (sqlx_connect_postgres options (dbc_url config) db)
  | Mysql => as_pool "MySQL" PoolMysql (sqlx_connect_mysql options (dbc_url config) db)
  end.

(** Source: db/pool.rs [DatabasePool::close] *)
Definition pool_close (pool : DatabasePool) (db : DB) : DB := sqlx_close_pool pool db.

Definition sqlx_driver : PoolDriver DB := {| connect := pool_connect; close := pool_close |}.

(** ** What is stored and read

    The value a driver reads from a cell: the outcome of the first of the
    five attempts that does not fail. *)
Definition reads_as (cell : Cell) (b : bound) : Prop :=
  let attempts : list (option bound) :=
    [ (λ o, match o with Some z => BindInt z | None => BindNull end) <$> try_i64 cell;
      (λ o, match o with Some z => BindInt z | None => BindNull end) <$> try_i32 cell;
      (λ o, match o with Some f => BindFloat f | None => BindNull end) <$> try_f64 cell;
      (λ o, match o with Some b => BindBool b | None => BindNull end) <$> try_bool cell;
      (λ o, match o with Some s => BindText s | None => BindNull end) <$> try_str cell ] in
  head (omap id attempts) = Some b.

(** What comes back of a value: itself, for null, Booleans, text and the
    numbers of an [i64]; other numbers are rounded; arrays and objects come
    back as their JSON text. *)
Definition comes_back (v : value) : value :=
  match v with
  | VNumber n => match number_as_i64 n with Some i => json_int i | None => json_float (number_as_f64 n) end
  | VArray _ | VObject _ => VString (json_string v)
  | other => other
  end.

(** A value that is bound, stored and read again: what is read is what was
    bound, when the driver reads the stored cell as the type that was bound. *)
Theorem bound_value_comes_back (v : value) (cell : Cell) :
  reads_as cell (bind_param json_string v) →
  cell_to_json try_i64 try_i32 try_f64 try_bool try_str cell = comes_back v.
Proof.
  unfold reads_as, cell_to_json, bind_param, comes_back.
  destruct (try_i64 cell) as [[]|], (try_i32 cell) as [[]|], (try_f64 cell) as [[]|], (try_bool cell) as [[]|],
    (try_str cell) as [[]|], v as [| |n| | |]; cbn; try destruct (number_as_i64 n); intros; simplify_eq; done.
Qed.
End pools.
