(* ===== verification/Paths.v ===== *)
(** * Paths

    [std::path] on Unix, and the path functions of
    src/src/handlers/common/path.rs. A [Path] is its text; equality, hashing,
    [starts_with], [parent] and [file_name] look at its components. *)

From S2P Require Import Prelude RustStr Config Errors.
Local Open Scope stdpp_scope.

(** ** std::path *)

Inductive component := RootDir | CurDir | ParentDir | Normal (s : string).

Global Instance component_eq_dec : EqDecision component.
Proof. solve_decision. Defined.
Global Instance component_countable : Countable component.
Proof.
  refine (inj_countable'
    (λ c, match c with
          | RootDir => inl (inl ()) | CurDir => inl (inr ())
          | ParentDir => inr (inl ()) | Normal s => inr (inr s)
          end)
    (λ x, match x with
          | inl (inl _) => RootDir | inl (inr _) => CurDir
          | inr (inl _) => ParentDir | inr (inr s) => Normal s
          end) _).
  by intros [].
Defined.

(** The component a segment stands for after the first one: empty segments
    and [.] are dropped. *)
Definition component_of (seg : string) : option component :=
  if bool_decide (seg = "") || bool_decide (seg = ".") then None
  else if bool_decide (seg = "..") then Some ParentDir
  else Some (Normal seg).

(** [path.components()] *)
Definition components (p : string) : list component :=
  let segs := split "/" p in
  let body := omap component_of segs in
  if starts_with "/" p then RootDir :: body
  else match segs with
       | "." :: _ => CurDir :: body
       | _ => body
       end.

Definition is_absolute (p : string) : bool := starts_with "/" p.
Definition starts_with_dot (p : string) : bool := bool_decide (head (split "/" p) = Some ".").

Fixpoint ends_with_char (c : ascii) (s : string) : bool :=
  match s with
  | "" => false
  | String a "" => Ascii.eqb a c
  | String _ s' => ends_with_char c s'
  end.

(** [base.join(p)] and [base.push(p)]: an absolute path replaces the base. *)
Definition path_join (base p : string) : string :=
  if is_absolute p then p
  else if is_empty base || ends_with_char "/" base then base +:+ p
  else base +:+ "/" +:+ p.

(** Component-wise prefix: [path.starts_with(base)] and [strip_prefix]. *)
Definition starts_with_comps (base path : list component) : bool := bool_decide (base `prefix_of` path).
Definition path_starts_with (path base : string) : bool :=
  starts_with_comps (components base) (components path).

(** [path.file_name()] and [path.parent()] of the components. *)
Definition comps_file_name (cs : list component) : option string :=
  match list.last cs with Some (Normal s) => Some s | _ => None end.
Definition comps_parent (cs : list component) : option (list component) :=
  match list.last cs with
  | Some RootDir | None => None
  | Some _ => Some (take (length cs - 1) cs)
  end.

(** [path.extension()]: what follows the last dot of the file name, if
    something precedes it. *)
Definition extension (p : string) : option string :=
  name ← comps_file_name (components p);
  match rsplit_once "." name with
  | Some (stem, ext) => if is_empty stem then None else Some ext
  | None => None
  end.

(** [Path::parent] and [Path::strip_prefix] are slices of the text of the
    path. [void] segments are no components; a slice ends with a component,
    and what is left of a prefix begins with one. *)
Definition void (seg : string) : bool := match component_of seg with Some _ => false | None => true end.
Fixpoint drop_void (segs : list string) : list string :=
  match segs with
  | [] => []
  | seg :: segs' => if void seg then drop_void segs' else segs
  end.
Definition trim_segments (segs : list string) : list string := rev (drop_void (rev segs)).
Definition drop_last_component (segs : list string) : list string :=
  rev (drop_void (tail (drop_void (rev segs)))).
Fixpoint drop_components (n : nat) (segs : list string) : list string :=
  match n with
  | 0 => drop_void segs
  | S n => drop_components n (tail (drop_void segs))
  end.

(** The text of the first segments of [p]; the root and a leading dot stay. *)
Definition path_slice (p : string) (segs : list string) : string :=
  match segs with
  | [] => if is_absolute p then "/" else if starts_with_dot p then "." else ""
  | _ => join "/" segs
  end.

Definition path_parent (p : string) : option string :=
  match comps_parent (components p) with
  | Some [] => Some ""
  | Some _ => Some (path_slice p (drop_last_component (split "/" p)))
  | None => None
  end.

Definition leading (p : string) : nat :=
  match components p with (RootDir | CurDir) :: _ => 1 | _ => 0 end.
Definition path_strip_prefix (path base : string) : option string :=
  if starts_with_comps (components base) (components path) then
    let n := length (components base) in
    Some (if n =? 0 then path_slice path (trim_segments (split "/" path))
          else join "/" (drop_components (n - leading path) (trim_segments (split "/" path))))
  else None.

(** The text of components, as a [PathBuf] that is built from them has it. *)
Definition component_text (c : component) : string :=
  match c with RootDir => "" | CurDir => "." | ParentDir => ".." | Normal s => s end.
Definition render_path (cs : list component) : string :=
  match cs with
  | [RootDir] => "/"
  | _ => join "/" (map component_text cs)
  end.

Definition has_parent_dir (p : string) : bool :=
  existsb (λ c, bool_decide (c = ParentDir)) (components p).

(** ** handlers/common/path.rs *)

Section paths.
(** [Uuid::new_v4] of this call, the non-ASCII part of [to_lowercase], the
    date fields of this call, and percent-decoding with its UTF-8 check. *)
Context (lowercase : string → string).
Context (percent_decode : string → option string).

(** Source: handlers/common/path.rs [generate_upload_filename] *)
Definition generate_upload_filename (uuid original_filename : string)
    (allowed_extensions : list string) : result AppError string :=
  let ext := lowercase (default "" (extension original_filename)) in
  if negb (is_empty ext) && negb (bool_decide (allowed_extensions = []))
     && negb (existsb (λ e, bool_decide (e = ext)) allowed_extensions) then
    Err (BadRequest ("File extension ." +:+ ext +:+ " is not allowed. Allowed: " +:+
                     join ", " allowed_extensions))
  else if is_empty ext then Ok uuid
  else Ok (uuid +:+ "." +:+ ext).

(** [!c.is_ascii_control()]; a control character is a single byte. *)
Definition not_control (a : ascii) : bool :=
  negb ((N_of_ascii a <? 32)%N || (N_of_ascii a =? 127)%N).
Fixpoint filter_bytes (p : ascii → bool) (s : string) : string :=
  match s with
  | "" => ""
  | String a s' => if p a then String a (filter_bytes p s') else filter_bytes p s'
  end.

(** Source: handlers/common/path.rs [sanitize_filename] *)
Definition sanitize_filename (uuid name : string) (is_upload : bool) : result AppError string :=
  if contains_char "/" name || contains_char "\" name || contains_str ".." name then
    Err (BadRequest "Invalid filename")
  else
    let sanitized := filter_bytes not_control name in
    if is_empty sanitized then Err (BadRequest "Filename cannot be empty")
    else if is_upload then Ok (lowercase (uuid +:+ "." +:+ sanitized))
    else Ok (lowercase sanitized).

(** [clock] gives year, month and day; [uuid] the identifier of the call.
    Source: handlers/common/path.rs [build_storage_path] *)
Definition build_storage_path (clock : string * string * string) (uuid root filename user_id : string)
    (subdirectory_pattern : option string) : result AppError string :=
  let '(year, month, day) := clock in
  final_path ←
    match subdirectory_pattern with
    | Some pattern =>
        let expanded :=
          replace "{uuid}" uuid (replace "{day}" day (replace "{month}" month
            (replace "{year}" year (replace "{user_id}" user_id pattern)))) in
        if existsb (λ seg, bool_decide (seg = "..")) (split "/" expanded) then
          Err (Forbidden "Invalid subdirectory pattern")
        else Ok (path_join (path_join root expanded) filename)
    | None => Ok (path_join root filename)
    end;
  if has_parent_dir final_path then Err (Forbidden "Invalid path") else Ok final_path.

(** Source: handlers/common/path.rs [validate_path_within] *)
Definition validate_path_within (path root : string) : result AppError () :=
  if has_parent_dir path || negb (path_starts_with path root) then
    Err (Forbidden "Path traversal denied")
  else Ok ().

(** Source: handlers/common/path.rs [extract_relative_path] *)
Definition extract_relative_path (request_path endpoint_path : string) : result AppError string :=
  let ep_path :=
    trim_end_str "{*rest}" (trim_end_str "/*" endpoint_path) in
  let stripped := trim_start "/" (default request_path (strip_prefix ep_path request_path)) in
  if is_empty stripped then Ok stripped
  else
    decoded ← ok_or (BadRequest "Invalid UTF-8 in path") (percent_decode stripped);
    if existsb (λ seg, bool_decide (seg = "..") || bool_decide (seg = ".")) (split "/" decoded)
    then Err (Forbidden "Path traversal denied")
    else Ok stripped.
End paths.

(** ** Lemmas on components *)

Lemma components_rel p :
  is_absolute p = false → head (split "/" p) ≠ Some "." → components p = omap component_of (split "/" p).
Proof.
  unfold components, is_absolute. intros -> Hd.
  destruct (split "/" p) as [|[|[[] [] [] [] [] [] [] []] []] l] eqn:Hs; try done.
Qed.

Lemma has_parent_dir_split p :
  has_parent_dir p = existsb (λ seg, bool_decide (seg = "..")) (split "/" p).
Proof.
  unfold has_parent_dir.
  assert (existsb (λ c, bool_decide (c = ParentDir)) (components p)
          = existsb (λ c, bool_decide (c = ParentDir)) (omap component_of (split "/" p))) as ->.
  { unfold components. destruct (starts_with "/" p); [done|].
    by destruct (split "/" p) as [|[|[[] [] [] [] [] [] [] []] []] l]. }
  induction (split "/" p) as [|s l IH]; [done|]. cbn.
  unfold component_of at 1. repeat case_bool_decide; subst; cbn; try done.
Qed.

Lemma split_slash_join s t : split "/" (s +:+ "/" +:+ t) = split "/" s ++ split "/" t.
Proof.
  unfold split. change ("/" +:+ t) with (String "/" t).
  induction s as [|a s IH]; [done|]. rewrite app_cons. cbn [split_pred].
  destruct (Ascii.eqb a "/"); [by rewrite IH|]. rewrite IH.
  destruct (split_pred _ s) eqn:Hs; [by apply split_pred_ne_nil in Hs|done].
Qed.

Lemma ends_with_char_last c s : ends_with_char c (s +:+ String c "") = true.
Proof.
  induction s as [|a s IH]; cbn; [apply Ascii.eqb_refl|].
  by destruct s.
Qed.

Lemma ends_with_char_snoc c s : ends_with_char c s = true → ∃ r, s = r +:+ String c "".
Proof.
  induction s as [|a s IH]; [done|]. destruct s as [|b s].
  - intros Ha%Ascii.eqb_eq. subst. by exists "".
  - intros H. destruct (IH H) as [r Hr]. exists (String a r). by rewrite app_cons, <-Hr.
Qed.

Lemma starts_with_app_nonempty a b s :
  starts_with "/" (String a (b +:+ s)) = starts_with "/" (String a b).
Proof. unfold starts_with. cbn [strip_prefix]. by destruct (Ascii.eqb "/" a). Qed.

(** The components of a text with a slash inside. *)
Lemma components_slash b p :
  b ≠ "" → components (b +:+ "/" +:+ p) = components b ++ omap component_of (split "/" p).
Proof.
  intros Hb. unfold components. rewrite split_slash_join, omap_app.
  destruct b as [|a b]; [done|]. rewrite app_cons, starts_with_app_nonempty.
  destruct (starts_with "/" (String a b)); [done|].
  destruct (split "/" (String a b)) as [|x l] eqn:Hsp; [by apply split_pred_ne_nil in Hsp|].
  cbn [app]. by destruct x as [|[[] [] [] [] [] [] [] []] []].
Qed.

(** Joining a relative path appends its segments to the components of the
    base. *)
Lemma components_join_segs base p :
  is_absolute p = false → base ≠ "" →
  components (path_join base p) = components base ++ omap component_of (split "/" p).
Proof.
  intros Ha Hb. unfold path_join. rewrite Ha.
  destruct base as [|a base]; [done|]. cbn [is_empty orb].
  destruct (ends_with_char "/" (String a base)) eqn:Hs; [|by apply components_slash].
  apply ends_with_char_snoc in Hs as [r Hr]. rewrite Hr. destruct r as [|b r].
  - unfold components. cbn. done.
  - rewrite app_assoc. change (String "/" "" +:+ p) with ("/" +:+ p).
    rewrite components_slash by done.
    change (String "/" "") with ("/" +:+ ""). rewrite components_slash by done.
    change (omap component_of (split "/" "")) with (@nil component).
    by rewrite (right_id_L [] (++)).
Qed.

Lemma components_join base p :
  is_absolute p = false → head (split "/" p) ≠ Some "." → base ≠ "" →
  components (path_join base p) = components base ++ components p.
Proof. intros Ha Hd Hb. by rewrite (components_rel p Ha Hd), components_join_segs. Qed.

(** A relative path is joined below the base. *)
Lemma path_join_below base p : is_absolute p = false → path_starts_with (path_join base p) base = true.
Proof.
  intros Ha. apply bool_decide_eq_true. destruct base as [|a base]; [apply prefix_nil|].
  rewrite components_join_segs by done. by apply prefix_app_r.
Qed.

(** A text that is a single component: a name. *)
Definition plain_name (s : string) : Prop := component_of s = Some (Normal s) ∧ contains_char "/" s = false.

Lemma plain_name_app s t : plain_name s → contains_char "/" t = false → plain_name (s +:+ t).
Proof.
  intros [Hs Hslash] Ht. split; [|by rewrite contains_char_app, Hslash, Ht].
  unfold component_of in *. destruct s as [|a [|b s]]; [done| |].
  - destruct t as [|b t]; [done|]. rewrite app_cons, app_nil_l.
    rewrite !bool_decide_eq_false_2; [done|intros [= -> -> ->]; done..|done|done].
  - rewrite !bool_decide_eq_false_2; [done| |done|done]. intros Hdots. cbn in Hdots.
    injection Hdots as -> -> Hst. destruct s; [done|by destruct t].
Qed.

(** Joining a name adds one component, whatever the base is. *)
Lemma components_join_name base s :
  plain_name s → components (path_join base s) = components base ++ [Normal s].
Proof.
  intros [Hs Hslash]. assert (split "/" s = [s]) as Hsplit by (by apply split_no_sep).
  assert (is_absolute s = false) as Ha.
  { unfold is_absolute, starts_with. destruct s as [|a s]; [done|]. cbn [strip_prefix].
    cbn in Hslash. apply orb_false_iff in Hslash as [Ha _]. by rewrite Ascii.eqb_sym, Ha. }
  destruct base as [|b base].
  - unfold path_join. rewrite Ha. cbn [is_empty orb]. rewrite app_nil_l, components_rel, Hsplit; [|done|].
    + cbn. by rewrite Hs.
    + rewrite Hsplit. intros [= ->]. by vm_compute in Hs.
  - rewrite components_join_segs, Hsplit by done. cbn. by rewrite Hs.
Qed.

(** ** Slices of paths *)

Definition lead (p : string) : list component :=
  if is_absolute p then [RootDir] else if starts_with_dot p then [CurDir] else [].

Lemma components_lead p : components p = lead p ++ omap component_of (split "/" p).
Proof.
  unfold components, lead, is_absolute, starts_with_dot. destruct (starts_with "/" p); [done|].
  destruct (split "/" p) as [|x l]; [done|]. cbn [head].
  by destruct x as [|[[] [] [] [] [] [] [] []] []].
Qed.

Lemma void_component seg : void seg = true ↔ component_of seg = None.
Proof. unfold void. by destruct (component_of seg). Qed.

Lemma omap_drop_void segs : omap component_of (drop_void segs) = omap component_of segs.
Proof.
  induction segs as [|seg segs IH]; [done|]. cbn [drop_void]. destruct (void seg) eqn:Hv; [|done].
  apply void_component in Hv. rewrite IH. cbn. by rewrite Hv.
Qed.

(** What is left begins with a component. *)
Lemma drop_void_head segs :
  drop_void segs = [] ∨ ∃ seg rest c, drop_void segs = seg :: rest ∧ component_of seg = Some c.
Proof.
  induction segs as [|seg segs IH]; [by left|]. cbn [drop_void]. unfold void.
  destruct (component_of seg) as [c|] eqn:Hc; [|done]. right. eauto.
Qed.

Lemma drop_void_suffix segs : ∃ pre, segs = pre ++ drop_void segs.
Proof.
  induction segs as [|seg segs [pre IH]]; [by exists []|]. cbn [drop_void].
  destruct (void seg); [|by exists []]. exists (seg :: pre). cbn. by rewrite <-IH.
Qed.

Lemma tail_drop_void segs : omap component_of (tail (drop_void segs)) = tail (omap component_of segs).
Proof.
  rewrite <-(omap_drop_void segs). destruct (drop_void_head segs) as [->|(seg&rest&c&->&Hc)]; [done|].
  cbn. by rewrite Hc.
Qed.

Lemma omap_rev segs : omap component_of (rev segs) = rev (omap component_of segs).
Proof.
  induction segs as [|seg segs IH]; [done|]. cbn [rev]. rewrite omap_app, IH. cbn.
  destruct (component_of seg); cbn; [done|]. by rewrite List.app_nil_r.
Qed.

Lemma omap_drop_components n segs :
  omap component_of (drop_components n segs) = drop n (omap component_of segs).
Proof.
  revert segs. induction n as [|n IH]; intros segs; cbn [drop_components]; [apply omap_drop_void|].
  rewrite IH, tail_drop_void. destruct (omap component_of segs); cbn; [by rewrite drop_nil|done].
Qed.

Lemma omap_drop_last segs :
  omap component_of (drop_last_component segs) = rev (tail (rev (omap component_of segs))).
Proof. unfold drop_last_component. by rewrite omap_rev, omap_drop_void, tail_drop_void, omap_rev. Qed.

Lemma omap_trim_segments segs : omap component_of (trim_segments segs) = omap component_of segs.
Proof. unfold trim_segments. by rewrite omap_rev, omap_drop_void, omap_rev, rev_involutive. Qed.

(** The slices are prefixes of the segments that end with a component. *)
Definition ends_in_component (segs : list string) : Prop :=
  segs = [] ∨ ∃ l x c, segs = l ++ [x] ∧ component_of x = Some c.

Lemma ends_in_drop_void segs : ends_in_component (rev (drop_void segs)).
Proof.
  destruct (drop_void_head segs) as [->|(x&l&c&->&Hc)]; [by left|]. right. by exists (rev l), x, c.
Qed.

Lemma rev_suffix_prefix {A} (pre l m : list A) : rev m = pre ++ l → ∃ post, m = rev l ++ post.
Proof. intros H. exists (rev pre). rewrite <-rev_app_distr, <-H. by rewrite rev_involutive. Qed.

Lemma trim_segments_prefix segs : ∃ post, segs = trim_segments segs ++ post.
Proof. destruct (drop_void_suffix (rev segs)) as [pre Hpre]. by eapply rev_suffix_prefix. Qed.

Lemma drop_last_prefix segs : ∃ post, segs = drop_last_component segs ++ post.
Proof.
  destruct (drop_void_suffix (rev segs)) as [pre Hpre].
  destruct (drop_void_suffix (tail (drop_void (rev segs)))) as [pre' Hpre'].
  unfold drop_last_component. destruct (drop_void (rev segs)) as [|x l]; [by exists segs|]. cbn [tail] in *.
  apply (rev_suffix_prefix (pre ++ x :: pre')). rewrite Hpre, Hpre' at 1. cbn.
  by rewrite <-List.app_assoc.
Qed.

Lemma is_absolute_split p : is_absolute p = true ↔ ∃ x l, split "/" p = "" :: x :: l.
Proof.
  unfold is_absolute, starts_with, split. destruct p as [|a p]; [naive_solver|].
  cbn [strip_prefix split_pred]. rewrite (Ascii.eqb_sym "/" a). destruct (Ascii.eqb a "/").
  - split; [intros _|done]. destruct (split_pred _ p) as [|x l] eqn:Hs; [by apply split_pred_ne_nil in Hs|eauto].
  - split; [done|]. intros (x&l&H). by destruct (split_pred _ p).
Qed.

Lemma components_path_slice p segs post :
  split "/" p = segs ++ post → ends_in_component segs →
  components (path_slice p segs) = lead p ++ omap component_of segs.
Proof.
  intros Hp [->|(l&x&c&->&Hc)].
  { unfold path_slice, lead. destruct (is_absolute p); [done|]. by destruct (starts_with_dot p). }
  assert (split "/" (join "/" (l ++ [x])) = l ++ [x]) as Hsplit.
  { apply (split_join "/"); [by destruct l|]. apply list.Forall_forall. intros y Hy.
    apply (split_no_sep_elem "/" p). rewrite Hp. apply elem_of_app. by left. }
  assert (path_slice p (l ++ [x]) = join "/" (l ++ [x])) as -> by (by destruct l).
  rewrite components_lead, Hsplit. f_equal. unfold lead.
  assert (is_absolute (join "/" (l ++ [x])) = is_absolute p) as ->.
  { apply eq_true_iff_eq. rewrite !is_absolute_split, Hsplit, Hp. destruct l as [|y [|z l]]; cbn.
    - split; [naive_solver|]. intros (?&?&[= ->]). by vm_compute in Hc.
    - naive_solver.
    - naive_solver. }
  assert (starts_with_dot (join "/" (l ++ [x])) = starts_with_dot p) as ->; [|done].
  unfold starts_with_dot. rewrite Hsplit, Hp. by destruct l.
Qed.

(** The parent of a path has the components of the path but the last. *)
Lemma path_parent_components p q :
  path_parent p = Some q → comps_parent (components p) = Some (components q).
Proof.
  unfold path_parent. destruct (comps_parent _) as [cs|] eqn:Hcs; [|done]. intros H. f_equal.
  destruct cs as [|c0 cs]; [by injection H as <-|]. injection H as <-.
  destruct (drop_last_prefix (split "/" p)) as [post Hpost].
  rewrite (components_path_slice _ _ _ Hpost) by apply ends_in_drop_void. rewrite omap_drop_last.
  rewrite components_lead in Hcs. revert Hcs. generalize (omap component_of (split "/" p)). intros body.
  destruct body as [|x body _] using rev_ind; unfold comps_parent.
  { unfold lead. by destruct (is_absolute p), (starts_with_dot p). }
  rewrite rev_app_distr. cbn [rev List.app tail]. rewrite rev_involutive, (assoc_L (++)), list.last_snoc.
  rewrite !length_app, Nat.add_sub, <-length_app, take_app_length. intros Hcs. by destruct x; simplify_eq.
Qed.

Lemma components_join_segments segs :
  (∀ x, x ∈ segs → contains_char "/" x = false) →
  segs = [] ∨ (∃ x l c, segs = x :: l ∧ component_of x = Some c) →
  components (join "/" segs) = omap component_of segs.
Proof.
  intros Hslash [->|(x&l&c&->&Hc)]; [done|].
  assert (split "/" (join "/" (x :: l)) = x :: l) as Hsplit.
  { apply (split_join "/"); [done|]. by apply list.Forall_forall. }
  rewrite components_lead, Hsplit. unfold lead.
  assert (is_absolute (join "/" (x :: l)) = false) as ->.
  { apply not_true_is_false. rewrite is_absolute_split, Hsplit. by intros (?&?&[= -> _]). }
  unfold starts_with_dot. rewrite Hsplit. cbn [head]. by rewrite bool_decide_eq_false_2 by (by intros [= ->]).
Qed.

Lemma drop_components_elem n segs x : x ∈ drop_components n segs → x ∈ segs.
Proof.
  assert (∀ segs, x ∈ drop_void segs → x ∈ segs) as Hvoid.
  { intros l. destruct (drop_void_suffix l) as [pre Hpre]. rewrite Hpre at 2. set_solver. }
  revert segs. induction n as [|n IH]; intros segs; cbn [drop_components]; [apply Hvoid|].
  intros Hx%IH. apply Hvoid. destruct (drop_void segs); [done|by right].
Qed.

Lemma drop_components_head n segs :
  drop_components n segs = [] ∨ ∃ x l c, drop_components n segs = x :: l ∧ component_of x = Some c.
Proof. revert segs. induction n as [|n IH]; intros segs; [apply drop_void_head|apply IH]. Qed.

(** What follows a prefix has the components that follow it. *)
Lemma path_strip_prefix_components path base r :
  path_strip_prefix path base = Some r → components path = components base ++ components r.
Proof.
  unfold path_strip_prefix, starts_with_comps. case_bool_decide as Hpre; [|done]. destruct Hpre as [rest Hrest].
  destruct (trim_segments_prefix (split "/" path)) as [post Hpost].
  destruct (components base) as [|c0 base'] eqn:Hb; intros [= <-].
  { by rewrite (components_path_slice _ _ _ Hpost), omap_trim_segments, <-components_lead
      by apply ends_in_drop_void. }
  rewrite components_join_segments; [|intros x Hx%drop_components_elem|apply drop_components_head].
  2:{ apply (split_no_sep_elem "/" path). rewrite Hpost. apply elem_of_app. by left. }
  rewrite omap_drop_components, omap_trim_segments, Hrest. f_equal.
  rewrite components_lead in Hrest. unfold leading. rewrite components_lead.
  assert (∀ body', omap component_of (split "/" path) ≠ RootDir :: body' ∧
                   omap component_of (split "/" path) ≠ CurDir :: body') as Hinner.
  { assert (∀ c l, omap component_of (split "/" path) = c :: l → c ≠ RootDir ∧ c ≠ CurDir) as Hc; [|naive_solver].
    intros c l H. pose proof (list_elem_of_here c l) as Hin. rewrite <-H in Hin.
    apply list_elem_of_omap in Hin as (seg&_&Hseg). unfold component_of in Hseg.
    repeat case_bool_decide; simplify_eq; naive_solver. }
  revert Hrest Hinner. unfold lead. generalize (omap component_of (split "/" path)). intros body Hrest Hinner.
  destruct (is_absolute path); [|destruct (starts_with_dot path)]; cbn [List.app] in *.
  - injection Hrest as _ ->. rewrite Nat.sub_succ, Nat.sub_0_r. by rewrite drop_app_length.
  - injection Hrest as _ ->. rewrite Nat.sub_succ, Nat.sub_0_r. by rewrite drop_app_length.
  - rewrite Hrest at 2. destruct body as [|[] body];
      [done|by destruct (Hinner body)|by destruct (Hinner body)|..];
      rewrite Nat.sub_0_r; exact (eq_sym (drop_app_length (c0 :: base') rest)).
Qed.

(** Only the empty path has no components. *)
Lemma components_nil p : components p = [] → p = "".
Proof.
  rewrite components_lead. intros [Hlead Hbody]%app_nil. unfold lead in Hlead.
  destruct (is_absolute p) eqn:Habs; [done|]. destruct (starts_with_dot p) eqn:Hdot; [done|].
  rewrite <-(join_split "/" p). destruct (split "/" p) as [|x l] eqn:Hs; [by apply split_pred_ne_nil in Hs|].
  unfold starts_with_dot in Hdot. rewrite Hs in Hdot. apply bool_decide_eq_false in Hdot. cbn in Hdot, Hbody.
  destruct (component_of x) eqn:Hx; [done|]. unfold component_of in Hx.
  repeat case_bool_decide; simplify_eq; try naive_solver.
  destruct l as [|y l]; [done|]. apply not_true_iff_false in Habs. rewrite is_absolute_split in Habs. naive_solver.
Qed.

Lemma path_strip_prefix_relative path base r :
  base ≠ "" → path_strip_prefix path base = Some r → is_absolute r = false.
Proof.
  unfold path_strip_prefix. intros Hb. destruct (starts_with_comps _ _); [|done]. intros [= <-].
  destruct (components base) as [|c0 cs] eqn:Hc; [by apply components_nil in Hc|]. cbn [length Nat.eqb].
  apply not_true_is_false. rewrite is_absolute_split. intros (y&l&Hs).
  destruct (drop_components_head (S (length cs) - leading path) (trim_segments (split "/" path)))
    as [Hd|(x&l'&c&Hd&Hx)]; rewrite Hd in Hs; [done|].
  rewrite (split_join "/") in Hs; [|done|].
  - injection Hs as -> _. by vm_compute in Hx.
  - apply list.Forall_forall. intros z Hz. rewrite <-Hd in Hz. apply drop_components_elem in Hz.
    apply (split_no_sep_elem "/" path). destruct (trim_segments_prefix (split "/" path)) as [post ->].
    apply elem_of_app. by left.
Qed.

(** ** Requests stay below the root *)

(** What the code relies on of the [percent_encoding] crate: an encoded slash
    decodes to a slash within its segment, a literal slash stays one, and
    dots stand for themselves. *)
Class PercentDecode (decode : string → option string) : Prop := {
  decode_slash a b d :
    decode (a +:+ "/" +:+ b) = Some d →
    ∃ a' b', decode a = Some a' ∧ decode b = Some b' ∧ d = a' +:+ "/" +:+ b';
  decode_dots s : s = "." ∨ s = ".." → decode s = Some s;
}.

(** A dot segment of the encoded path is one of the decoded path. *)
Lemma decode_dot_segment decode `{!PercentDecode decode} s d x :
  decode s = Some d → x = "." ∨ x = ".." → x ∈ split "/" s → x ∈ split "/" d.
Proof.
  intros Hd Hx Hin. rewrite <-(join_split "/" s) in Hd.
  pose proof (λ y, split_no_sep_elem "/" s y) as Hno.
  revert d Hd. induction (split "/" s) as [|y l IH]; intros d Hd; [set_solver|].
  assert (split "/" x = [x]) as Hxs by (destruct Hx as [-> | ->]; done).
  destruct l as [|z l].
  - apply list_elem_of_singleton in Hin as ->. rewrite join_single in Hd.
    rewrite decode_dots in Hd by done. simplify_eq. rewrite Hxs. by left.
  - rewrite join_cons2 in Hd. apply decode_slash in Hd as (a&b&Ha&Hb&->).
    rewrite split_slash_join. apply elem_of_cons in Hin as [->|Hin].
    + rewrite decode_dots in Ha by done. simplify_eq. rewrite Hxs. by left.
    + apply elem_of_app. right. apply (IH Hin); [|done]. intros w ?. apply Hno. by right.
Qed.

Lemma trim_start_not_absolute s : is_absolute (trim_start "/" s) = false.
Proof.
  induction s as [|a s IH]; [done|]. cbn [trim_start]. destruct (Ascii.eqb a "/") eqn:Ha; [done|].
  unfold is_absolute, starts_with. cbn [strip_prefix]. by rewrite Ascii.eqb_sym, Ha.
Qed.

Lemma extract_relative_path_Ok decode req ep r :
  extract_relative_path decode req ep = Ok r →
  is_absolute r = false ∧
  (r = "" ∨ ∃ d, decode r = Some d ∧ ∀ x, x ∈ split "/" d → x ≠ "." ∧ x ≠ "..").
Proof.
  unfold extract_relative_path. set (s := trim_start "/" _).
  assert (is_absolute s = false) as Hs by apply trim_start_not_absolute.
  destruct (is_empty s) eqn:He; [intros [= <-]; split; [done|left; by destruct s]|].
  intros H. inv_ok. destruct (existsb _ _) eqn:Hex; [done|]. inv_ok. split; [done|].
  right. eexists. split; [done|]. intros y Hy. rewrite existsb_elem_false in Hex.
  specialize (Hex y Hy). apply orb_false_iff in Hex as [H1%bool_decide_eq_false H2%bool_decide_eq_false].
  done.
Qed.

(** Joining a relative path without dot segments stays below the base. *)
Lemma join_dotless root r :
  root ≠ "" → is_absolute r = false → (∀ x, x ∈ split "/" r → x ≠ "." ∧ x ≠ "..") →
  path_starts_with (path_join root r) root = true ∧
  has_parent_dir (path_join root r) = has_parent_dir root.
Proof.
  intros Hroot Habs Hdots.
  assert (head (split "/" r) ≠ Some ".") as Hhead.
  { destruct (split "/" r) as [|x l]; [done|]. intros [= ->]. by destruct (Hdots "."); [left|]. }
  unfold path_starts_with, has_parent_dir. rewrite (components_join _ _ Habs Hhead Hroot). split.
  - apply bool_decide_eq_true. by apply prefix_app_r.
  - rewrite existsb_app.
    assert (existsb (λ c, bool_decide (c = ParentDir)) (components r) = false) as ->; [|apply orb_false_r].
    change (has_parent_dir r = false). rewrite has_parent_dir_split. apply existsb_elem_false.
    intros x Hx. apply bool_decide_eq_false. by destruct (Hdots x Hx).
Qed.

(** C10: a static-file request cannot leave the store. Whenever the relative
    path of a request is accepted, joining it to the root gives a path below
    the root, component by component, that has a parent reference only if
    the root itself has one; percent-encoded dots and slashes included. *)
Theorem relative_path_stays_below_root (decode : string → option string) `{!PercentDecode decode}
    (request_path endpoint_path root r : string)
    (Hroot : root ≠ "")
    (Hr : extract_relative_path decode request_path endpoint_path = Ok r) :
  path_starts_with (path_join root r) root = true ∧
  has_parent_dir (path_join root r) = has_parent_dir root.
Proof.
  apply extract_relative_path_Ok in Hr as [Habs Hseg].
  assert (∀ x, x ∈ split "/" r → x ≠ "." ∧ x ≠ "..") as Hdots.
  { destruct Hseg as [->|(d&Hd&Hseg)].
    - intros x ->%list_elem_of_singleton. done.
    - intros x Hx. split; intros ->; [pose proof (decode_dot_segment decode r d "." Hd) as H
        |pose proof (decode_dot_segment decode r d ".." Hd) as H];
        apply H in Hx; auto; by destruct (Hseg _ Hx). }
  by apply join_dotless.
Qed.

#[export] Instance identity_decode : PercentDecode Some.
Proof. split; [intros a b d [= <-]; eauto|done]. Qed.

Lemma relative_path_stays_below_root_witness :
  path_starts_with (path_join "/srv/www" "css/site.css") "/srv/www" = true ∧
  has_parent_dir (path_join "/srv/www" "css/site.css") = false.
Proof.
  apply (relative_path_stays_below_root Some "/static/css/site.css" "/static/{*rest}" "/srv/www");
    [discriminate|vm_compute; reflexivity].
Defined.

(** ** Upload paths *)

(** The directory of an upload: the configured pattern below the root, with
    its placeholders filled in. *)
Definition filled_pattern (clock : string * string * string) (uuid user_id pattern : string) : string :=
  let '(year, month, day) := clock in
  foldl (λ s '(placeholder, text), replace placeholder text s) pattern
    [("{user_id}", user_id); ("{year}", year); ("{month}", month); ("{day}", day); ("{uuid}", uuid)].
Definition upload_directory (clock : string * string * string) (uuid root user_id : string)
    (pattern : option string) : string :=
  match pattern with
  | Some pattern => path_join root (filled_pattern clock uuid user_id pattern)
  | None => root
  end.
(** The part of it that comes from the pattern. *)
Definition upload_subdirectory (clock : string * string * string) (uuid user_id : string)
    (pattern : option string) : string := from_option (filled_pattern clock uuid user_id) "" pattern.

Lemma upload_directory_below clock uuid root user_id pattern :
  is_absolute (upload_subdirectory clock uuid user_id pattern) = false →
  path_starts_with (upload_directory clock uuid root user_id pattern) root = true.
Proof.
  destruct pattern as [pattern|]; cbn; [by apply path_join_below|]. intros _. by apply bool_decide_eq_true.
Qed.

(** Where [build_storage_path] puts a file with a plain name. *)
Lemma build_storage_path_place clock uuid root filename user_id pattern path :
  build_storage_path clock uuid root filename user_id pattern = Ok path → plain_name filename →
  components path = components (upload_directory clock uuid root user_id pattern) ++ [Normal filename] ∧
  has_parent_dir path = false ∧
  (is_absolute (upload_subdirectory clock uuid user_id pattern) = false → path_starts_with path root = true).
Proof.
  intros H Hname. destruct clock as [[year month] day].
  assert (path = path_join (upload_directory (year, month, day) uuid root user_id pattern) filename ∧
          has_parent_dir path = false) as [-> Hdots].
  { unfold build_storage_path in H. destruct pattern as [pattern|]; inv_ok; repeat case_match; simplify_eq; done. }
  rewrite components_join_name by done. split_and!; [done..|].
  intros Habs%(upload_directory_below _ _ root). unfold path_starts_with, starts_with_comps in *.
  rewrite components_join_name by done. apply bool_decide_eq_true in Habs. apply bool_decide_eq_true.
  by apply prefix_app_r.
Qed.

Lemma contains_filter_bytes c p s : contains_char c s = false → contains_char c (filter_bytes p s) = false.
Proof.
  induction s as [|a s IH]; [done|]. cbn. intros [Ha Hs]%orb_false_iff.
  destruct (p a); [cbn; by rewrite Ha, IH|by apply IH].
Qed.

Lemma extension_no_slash name : contains_char "/" (default "" (extension name)) = false.
Proof.
  unfold extension. destruct (comps_file_name (components name)) as [file|] eqn:Hf; [|done].
  cbn [mbind option_bind]. destruct (rsplit_once "." file) as [[stem ext]|] eqn:Hr; [|done].
  destruct (is_empty stem); [done|]. cbn.
  unfold comps_file_name in Hf. destruct (list.last (components name)) as [c|] eqn:Hl; [|done].
  assert (contains_char "/" file = false) as Hslash.
  { destruct c; try done. injection Hf as ->. apply list.last_Some_elem_of in Hl.
    rewrite components_lead in Hl. apply elem_of_app in Hl as [Hl|Hl].
    - unfold lead in Hl. repeat case_match; set_solver.
    - apply list_elem_of_omap in Hl as (seg&Hseg&Hc). unfold component_of in Hc.
      repeat case_bool_decide; cbn in Hc; simplify_eq. by apply (split_no_sep_elem "/" name). }
  apply rsplit_once_Some in Hr as [-> _]. rewrite contains_char_app in Hslash.
  by apply orb_false_iff in Hslash as [_ Hslash].
Qed.

(** An upload subdirectory built from the user id can leave the store. The
    function promises [Forbidden] for a path outside the root, but joining
    an absolute directory replaces the root: for every root and every user id
    that is an absolute path without parent references, the pattern
    [{user_id}] yields a path that does not depend on the root at all. *)
Theorem absolute_user_id_escapes_root (clock : string * string * string)
    (uuid root filename user_id : string)
    (Habs : is_absolute user_id = true)
    (Hdots : has_parent_dir user_id = false ∧ has_parent_dir (path_join user_id filename) = false)
    (Huser : Forall (λ p, contains_str p user_id = false) ["{year}"; "{month}"; "{day}"; "{uuid}"]) :
  build_storage_path clock uuid root filename user_id (Some "{user_id}")
  = Ok (path_join user_id filename).
Proof.
  destruct clock as [[year month] day]. destruct Hdots as [Hd1 Hd2].
  unfold build_storage_path.
  assert (replace "{user_id}" user_id "{user_id}" = user_id) as -> by apply app_nil_r.
  repeat match goal with H : Forall _ (_ :: _) |- _ => apply Forall_cons_iff in H as [? H] end.
  rewrite (replace_absent "{year}"), (replace_absent "{month}"), (replace_absent "{day}"),
    (replace_absent "{uuid}") by done.
  rewrite has_parent_dir_split in Hd1. rewrite Hd1. cbn [mbind result_bind].
  assert (path_join root user_id = user_id) as -> by (unfold path_join; by rewrite Habs).
  by rewrite Hd2.
Qed.

Lemma absolute_user_id_escapes_root_witness :
  build_storage_path ("2024", "05", "06") "uuid" "/srv/uploads" "a.png" "/etc/cron.d" (Some "{user_id}")
  = Ok "/etc/cron.d/a.png".
Proof.
  apply (absolute_user_id_escapes_root ("2024", "05", "06") "uuid" "/srv/uploads" "a.png" "/etc/cron.d").
  - reflexivity.
  - split; reflexivity.
  - repeat constructor.
Defined.

(** A name with a control character between two dots passes the traversal
    check, which looks for two adjacent dots before control characters are
    removed, and is sanitized to the parent directory reference itself. *)
Theorem sanitize_filename_makes_parent_reference (lowercase : string → string) (uuid : string)
    (c : ascii) (Hc : not_control c = false) :
  sanitize_filename lowercase uuid (String "." (String c ".")) false = Ok (lowercase "..").
Proof.
  unfold sanitize_filename.
  assert (∀ x, not_control x = true → Ascii.eqb c x = false) as Hne.
  { intros x Hx. apply not_true_is_false. intros ->%Ascii.eqb_eq. congruence. }
  assert (contains_char "/" (String "." (String c ".")) = false) as ->.
  { cbn [contains_char]. rewrite Hne by done. done. }
  assert (contains_char "\" (String "." (String c ".")) = false) as ->.
  { cbn [contains_char]. rewrite Hne by done. done. }
  assert (contains_str ".." (String "." (String c ".")) = false) as ->.
  { unfold contains_str. cbn [split_once_str strip_prefix].
    rewrite (Ascii.eqb_sym "." c), Hne by done. by destruct c as [[] [] [] [] [] [] [] []]. }
  cbn [orb filter_bytes]. by rewrite Hc.
Qed.

Lemma sanitize_filename_makes_parent_reference_witness :
  sanitize_filename to_lower "uuid" (String "." (String (ascii_of_N 1) ".")) false = Ok "..".
Proof. exact (sanitize_filename_makes_parent_reference to_lower "uuid" (ascii_of_N 1) eq_refl). Defined.

(** Identifiers for sample runs, and a conversion to lower case that keeps
    paths apart. *)
Definition sample_uuid (n : nat) : string := match n with 0 => "id-0" | _ => "id-1" end.

Lemma sample_uuid_plain n : plain_name (sample_uuid n).
Proof. by destruct n. Qed.

Lemma to_lower_no_slash s : contains_char "/" s = false → contains_char "/" (to_lower s) = false.
Proof.
  induction s as [|a s IH]; [done|]. cbn. intros [Ha Hs]%orb_false_iff. rewrite IH by done.
  by destruct a as [[] [] [] [] [] [] [] []].
Qed.
