(* ===== verification/Storage.v ===== *)
(** * The storage interface

    The [Storage] trait of src/src/storage/mod.rs with the laws its clients
    rely on, and the metadata types. An operation takes the store's state and
    returns its result with the new state; paths are compared by their
    components. *)

From Stdlib Require Import Init.Byte.
From S2P Require Import Prelude RustStr Config Errors Paths.
Local Open Scope stdpp_scope.

Notation bytes := (list Byte.byte).

Global Instance byte_eq_dec : EqDecision Byte.byte := Byte.byte_eq_dec.

(** Times are kept as seconds since the epoch.
    Source: storage/metadata.rs [FileMetadata] *)
Record FileMetadata := {
  fm_name : string;
  fm_is_file : bool;
  fm_size : Z;
  fm_created : option Z;
  fm_modified : option Z;
}.

(** Source: storage/metadata.rs [FileMetadata::new] *)
Definition new_FileMetadata (name : string) (is_file : bool) (size : Z) : FileMetadata := {|
  fm_name := name; fm_is_file := is_file; fm_size := size; fm_created := None; fm_modified := None |}.

(** Source: storage/metadata.rs [DirEntry] *)
Record DirEntry := {
  de_name : string;
  de_is_dir : bool;
  de_size : Z;
  de_path : string;
  de_mode : Z;
  de_uid : Z;
  de_gid : Z;
  de_modified : option Z;
}.

(** Source: storage/metadata.rs [DirEntry::new] *)
Definition new_DirEntry (name : string) (is_dir : bool) (size : Z) : DirEntry := {|
  de_name := name; de_is_dir := is_dir; de_size := size; de_path := ""; de_mode := 0;
  de_uid := 0; de_gid := 0; de_modified := None |}.

(** Source: storage/metadata.rs [DirEntry::with_mode] *)
Definition with_mode (e : DirEntry) (mode : Z) : DirEntry := {|
  de_name := de_name e; de_is_dir := de_is_dir e; de_size := de_size e; de_path := de_path e;
  de_mode := mode; de_uid := de_uid e; de_gid := de_gid e; de_modified := de_modified e |}.

(** Source: storage/metadata.rs [DirEntry::with_uid] *)
Definition with_uid (e : DirEntry) (uid : Z) : DirEntry := {|
  de_name := de_name e; de_is_dir := de_is_dir e; de_size := de_size e; de_path := de_path e;
  de_mode := de_mode e; de_uid := uid; de_gid := de_gid e; de_modified := de_modified e |}.

(** Source: storage/metadata.rs [DirEntry::with_gid] *)
Definition with_gid (e : DirEntry) (gid : Z) : DirEntry := {|
  de_name := de_name e; de_is_dir := de_is_dir e; de_size := de_size e; de_path := de_path e;
  de_mode := de_mode e; de_uid := de_uid e; de_gid := gid; de_modified := de_modified e |}.

(** Source: storage/metadata.rs [DirEntry::with_path] *)
Definition with_path (e : DirEntry) (path : string) : DirEntry := {|
  de_name := de_name e; de_is_dir := de_is_dir e; de_size := de_size e; de_path := path;
  de_mode := de_mode e; de_uid := de_uid e; de_gid := de_gid e; de_modified := de_modified e |}.

(** Source: storage/metadata.rs [DirEntry::with_modified] *)
Definition with_modified (e : DirEntry) (m : option Z) : DirEntry := {|
  de_name := de_name e; de_is_dir := de_is_dir e; de_size := de_size e; de_path := de_path e;
  de_mode := de_mode e; de_uid := de_uid e; de_gid := de_gid e; de_modified := m |}.

(** A reader is the bytes it will deliver.
    Source: storage/mod.rs [Storage] *)
Class Storage (St : Type) := {
  st_exists : string → St → bool;
  st_is_file : string → St → bool;
  st_is_dir : string → St → bool;
  st_read : string → St → result StorageError bytes;
  st_open : string → St → result StorageError bytes;
  st_seek_read : string → Z → St → result StorageError bytes;
  st_write : string → bytes → St → result StorageError () * St;
  st_append : string → bytes → St → result StorageError () * St;
  st_delete : string → St → result StorageError () * St;
  st_metadata : string → St → result StorageError FileMetadata;
  st_list : string → St → result StorageError (list DirEntry);
  st_create_dir : string → St → result StorageError () * St;
  st_create_dir_all : string → St → result StorageError () * St;
  st_remove_dir : string → St → result StorageError () * St;
  st_remove_dir_all : string → St → result StorageError () * St;
  st_rename : string → string → St → result StorageError () * St;
  st_copy : string → string → St → result StorageError () * St;
  st_canonicalize : string → St → result StorageError string;
  st_size : string → St → result StorageError Z;
  st_root_path : St → option string;
}.

(** The content of the file at a path, if it can be read. *)
Definition content {St} `{Storage St} (p : string) (s : St) : option bytes := ok (st_read p s).

(** What the handlers rely on. [apart] are the paths whose files a backend
    keeps apart, and [names_file] the paths of which a backend never makes a
    directory of its own. An operation that fails promises little: what it
    has done to the paths it names is left open. *)
Class StorageLaws (St : Type) `{Storage St} := {
  apart : string → string → Prop;
  apart_sym p q : apart p q → apart q p;
  names_file : string → bool;
  read_after_write p c s s' :
    st_write p c s = (Ok (), s') → content p s' = Some c;
  write_frame p q c s r s' :
    st_write p c s = (r, s') → apart p q → content q s' = content q s;
  metadata_of_file p c s :
    content p s = Some c →
    ∃ m, st_metadata p s = Ok m ∧ fm_is_file m = true ∧
      (u64 (Z.of_nat (length c)) → fm_size m = Z.of_nat (length c));
  seek_read_drop p c off s :
    (0 ≤ off < Z.of_nat (length c))%Z → content p s = Some c →
    st_seek_read p off s = Ok (drop (Z.to_nat off) c);
  exists_of_read p c s : content p s = Some c → st_exists p s = true;
  create_dir_all_frame p q s r s' :
    st_create_dir_all p s = (r, s') → names_file q = true → content q s' = content q s;
  delete_file p c s r s' :
    content p s = Some c → st_delete p s = (r, s') →
    (r = Ok () → content p s' = None) ∧ ∀ q, apart p q → content q s' = content q s;
  rename_file p q c s s' :
    content p s = Some c → apart p q → st_rename p q s = (Ok (), s') →
    content q s' = Some c ∧ content p s' = None;
  rename_frame p q x s r s' :
    st_rename p q s = (r, s') → (r = Ok () → apart p x) → apart q x → content x s' = content x s;
}.

(** An action as an operation of the interface. *)
Definition flipped {S X} (m : action StorageError S X) (s : S) : result StorageError X * S :=
  let '(s', r) := m s in (r, s').

Lemma flipped_result {S X} (m : action StorageError S X) s r s' : flipped m s = (r, s') → m s = (s', r).
Proof. unfold flipped. destruct (m s). congruence. Qed.

Lemma content_Some {St} `{Storage St} p (s : St) c : content p s = Some c ↔ st_read p s = Ok c.
Proof. unfold content. destruct (st_read p s); cbn; naive_solver. Qed.
