(* ===== verification/Responses.v ===== *)
(** * Responses

    The response of a handler with its headers, and the helpers of
    src/src/handlers/common/utils.rs that set them; the fixed responses of
    src/src/handlers/custom_response.rs. *)

From Stdlib Require Import Init.Byte.
From S2P Require Import Prelude RustStr Json Config Errors Paths Storage.
Local Open Scope stdpp_scope.

(** A response with its headers; a streamed body is the bytes it delivers. *)
Record http_response := {
  hr_status : Z;
  hr_headers : gmap string string;
  hr_body : bytes;
}.

(** ** Headers *)

(** Source: config/types/endpoints/common.rs [mime_from_path] *)
Definition mime_from_path (path : string) : string :=
  default "application/octet-stream"
    (assoc (default "" (extension path))
      [("html", "text/html; charset=utf-8"); ("htm", "text/html; charset=utf-8");
       ("css", "text/css; charset=utf-8");
       ("js", "application/javascript; charset=utf-8"); ("mjs", "application/javascript; charset=utf-8");
       ("json", "application/json; charset=utf-8"); ("png", "image/png");
       ("jpg", "image/jpeg"); ("jpeg", "image/jpeg"); ("gif", "image/gif");
       ("svg", "image/svg+xml"); ("ico", "image/x-icon"); ("woff", "font/woff");
       ("woff2", "font/woff2"); ("ttf", "font/ttf"); ("otf", "font/otf");
       ("pdf", "application/pdf"); ("xml", "application/xml; charset=utf-8");
       ("txt", "text/plain; charset=utf-8"); ("text", "text/plain; charset=utf-8");
       ("md", "text/plain; charset=utf-8"); ("wasm", "application/wasm");
       ("webp", "image/webp"); ("mp4", "video/mp4"); ("webm", "video/webm");
       ("mp3", "audio/mpeg"); ("ogg", "audio/ogg")]).

(** Source: config/types/endpoints/common.rs [DEFAULT_CACHE_MAX_AGE] *)
Definition DEFAULT_CACHE_MAX_AGE : Z := 3600.

(** Source: handlers/common/utils.rs [get_cache_control] *)
Definition get_cache_control (path : string) (default_max_age : Z)
    (cache_rules : list CacheRuleConfig) : string :=
  let ext := default "" (extension path) in
  match find_first (λ rule, existsb (λ e, bool_decide (trim_start "." e = ext)) (cr_extensions rule))
          cache_rules with
  | Some rule => cr_cache_control rule
  | None => "public, max-age=" +:+ show_Z default_max_age
  end.

Section headers.
(** [HeaderValue::from_str] accepts this text. *)
Context (header_value_ok : string → bool).

Definition insert_header (name v : string) (r : http_response) : http_response := {|
  hr_status := hr_status r; hr_headers := <[name := v]> (hr_headers r); hr_body := hr_body r |}.

Definition header_or (v fallback : string) : string := if header_value_ok v then v else fallback.

(** Source: handlers/common/utils.rs [apply_content_type] *)
Definition apply_content_type (content_type : string) : http_response → http_response :=
  insert_header "content-type" (header_or content_type "application/octet-stream").
(** Source: handlers/common/utils.rs [apply_content_range] *)
Definition apply_content_range (content_range : string) : http_response → http_response :=
  insert_header "content-range" (header_or content_range "bytes */0").
(** Source: handlers/common/utils.rs [apply_content_length] *)
Definition apply_content_length (content_length : string) : http_response → http_response :=
  insert_header "content-length" (header_or content_length "0").
(** Source: handlers/common/utils.rs [apply_cache_control] *)
Definition apply_cache_control (cache_max_age : Z) (path : option string)
    (cache_rules : list CacheRuleConfig) : http_response → http_response :=
  let cache_control :=
    match path, cache_rules with
    | Some p, _ :: _ => get_cache_control p cache_max_age cache_rules
    | _, _ => "public, max-age=" +:+ show_Z cache_max_age
    end in
  insert_header "cache-control"
    (header_or cache_control
       (header_or ("public, max-age=" +:+ show_Z DEFAULT_CACHE_MAX_AGE) "public")).

(** [(status, Vec<u8>).into_response()] and [Response::new(body)]. *)
Definition bytes_response (status : Z) (body : bytes) : http_response := {|
  hr_status := status; hr_headers := {["content-type" := "application/octet-stream"]};
  hr_body := body |}.
Definition stream_response (status : Z) (body : bytes) : http_response := {|
  hr_status := status; hr_headers := ∅; hr_body := body |}.


(** ** Fixed responses *)

(** [HeaderName::from_str], which folds the case, and the iteration order of
    the configured headers. *)
Context (header_name : string → option string).
Context (iter : gmap string string → list (string * string)).

(** [(status, String).into_response()] *)
Definition text_response (status : Z) (body : string) : http_response := {|
  hr_status := status; hr_headers := {["content-type" := "text/plain; charset=utf-8"]};
  hr_body := String.list_byte_of_string body |}.

(** [StatusCode::from_u16(n).unwrap_or(OK)] *)
Definition status_code (n : Z) : Z := if ((100 <=? n) && (n <? 1000))%Z then n else 200.

Definition insert_if_valid (name : option string) (v : string) (r : http_response) : http_response :=
  match name with
  | Some name => if header_value_ok v then insert_header name v r else r
  | None => r
  end.

(** Source: handlers/custom_response.rs [handle_custom_response] *)
Definition handle_custom_response (endpoint : EndpointConfig) : result AppError http_response :=
  cr ← ok_or (Internal "custom_response config missing") (ep_custom_response endpoint);
  let status := status_code (cu_status cr) in
  let response := text_response status (cu_body cr) in
  let response :=
    if ((300 <=? status) && (status <? 400))%Z then
      match opt_or (cu_headers cr !! "Location") (cu_headers cr !! "location") with
      | Some location => insert_if_valid (Some "location") location response
      | None => response
      end
    else response in
  let response := apply_content_type (cu_content_type cr) response in
  Ok (foldl (λ r '(key, v), insert_if_valid (header_name key) v r) response (iter (cu_headers cr))).
End headers.
