(* ===== verification/Images.v ===== *)
(** * Resized images

    The image resizing of src/src/handlers/common/resize.rs. Decoding,
    resampling and encoding of an image are the [image] crate's. *)

From Stdlib Require Import Init.Byte SpecFloat.
From S2P Require Import Prelude RustStr Json Config Errors Paths Storage Responses.
Local Open Scope stdpp_scope.

(** Source: handlers/common/helpers.rs [is_image_extension] *)
Definition is_image_extension (ext : string) : bool :=
  bool_decide (to_lower ext ∈ ["jpg"; "jpeg"; "png"; "gif"; "webp"; "bmp"; "svg"; "ico"]).

(** The formats of the [image] crate; the ones the code tells apart. *)
Inductive ImageFormat := Png | Jpeg | Gif | WebP | OtherFormat (name : string).

(** What the code asks of the [image] crate. Dimensions are [u32]. *)
Class ImageCrate (Image : Type) := {
  guess_format : bytes → option ImageFormat;
  from_extension : string → option ImageFormat;
  load_from_memory : bytes → option Image;
  img_width : Image → Z;
  img_height : Image → Z;
  img_resize : Image → Z → Z → Image;
  write_to : Image → ImageFormat → option bytes;
}.

(** Source: handlers/common/resize.rs [ResizeParams] *)
Record ResizeParams := {
  rp_width : option Z;
  rp_height : option Z;
  rp_fit : option string;
  rp_output_format : option ImageFormat;
}.

Definition u32_max : Z := 4294967295.
Definition parse_u32 (s : string) : option Z :=
  z ← parse_u64 s; if (z <=? u32_max)%Z then Some z else None.

(** [f as u32] of a float: the fraction is dropped, the range saturates. *)
Definition f64_to_u32 (f : spec_float) : Z :=
  match f with
  | S754_finite false m e => Z.min u32_max (Z.shiftl (Zpos m) e)
  | S754_infinity false => u32_max
  | _ => 0%Z
  end.

Definition f64_div : spec_float → spec_float → spec_float := SFdiv 53 1024.
Definition f64_mul : spec_float → spec_float → spec_float := SFmul 53 1024.

(** [v.clamp(1, max)], which panics when [max] is 0. *)
Definition clamp_dimension (max v : Z) : option Z :=
  if (max <? 1)%Z then None else Some (Z.max 1 (Z.min v max)).

(** The target of a request, [None] when the computation panics.
    Source: handlers/common/resize.rs [calculate_target_dimensions] *)
Definition calculate_target_dimensions (src_width src_height : Z) (params : ResizeParams)
    (max_dimension : Z) : option (Z * Z) :=
  match rp_width params, rp_height params with
  | Some w, None => Some (w, src_height)
  | None, Some h => Some (src_width, h)
  | Some w, Some h =>
      if bool_decide (rp_fit params = Some "cover") then
        let ratio := f64_div (f64_of_Z src_width) (f64_of_Z src_height) in
        let h_ratio := f64_div (f64_of_Z h) (f64_of_Z w) in
        if SFltb h_ratio ratio then Some (w, f64_to_u32 (f64_div (f64_of_Z w) ratio))
        else Some (f64_to_u32 (f64_mul (f64_of_Z h) ratio), h)
      else
        w' ← clamp_dimension max_dimension w;
        h' ← clamp_dimension max_dimension h;
        Some (w', h')
  | None, None => Some (src_width, src_height)
  end.

Section images.
Context {Image : Type} `{!ImageCrate Image}.
Context (header_value_ok : string → bool).

(** Source: handlers/common/resize.rs [parse_resize_params] *)
Definition parse_resize_params (query_params : gmap string string) : ResizeParams := {|
  rp_width := query_params !! "w" ≫= parse_u32;
  rp_height := query_params !! "h" ≫= parse_u32;
  rp_fit := query_params !! "fit";
  rp_output_format := query_params !! "format" ≫= from_extension |}.

Definition format_content_type (format : ImageFormat) : string :=
  match format with
  | Png => "image/png" | Jpeg => "image/jpeg" | Gif => "image/gif" | WebP => "image/webp"
  | OtherFormat _ => "application/octet-stream"
  end.

(** Source: handlers/common/resize.rs [resize_image] *)
Definition resize_image (image_data : bytes) (params : ResizeParams) (default_format : ImageFormat)
    (max_dimension : Z) : outcome (bytes * string) :=
  let format := default default_format (rp_output_format params) in
  match load_from_memory image_data with
  | None => Returns (Err (BadRequest "Invalid image data"))
  | Some img =>
      match calculate_target_dimensions (img_width img) (img_height img) params max_dimension with
      | None => Panics
      | Some (target_w, target_h) =>
          Returns (output_bytes ← ok_or (Internal "Failed to encode resized image")
                                    (write_to (img_resize img target_w target_h) format);
                   Ok (output_bytes, format_content_type format))
      end
  end.

(** Source: handlers/common/resize.rs [build_resize_response] *)
Definition build_resize_response (output_bytes : bytes) (content_type : string)
    (cache_max_age : option Z) : http_response :=
  let response := apply_content_type header_value_ok content_type (bytes_response 200 output_bytes) in
  match cache_max_age with
  | Some max_age => apply_cache_control header_value_ok max_age None [] response
  | None => response
  end.
End images.

(** ** The limit on dimensions *)

(** A format of one byte per pixel and a single row, for examples. *)
Definition strip_images : ImageCrate (Z * Z) := {|
  guess_format _ := Some Png;
  from_extension _ := None;
  load_from_memory data := Some (Z.of_nat (length data), 1%Z);
  img_width := fst;
  img_height := snd;
  img_resize _ w h := (w, h);
  write_to img _ := Some (repeat x00 (Z.to_nat (img.1 * img.2)))
|}.

(** The limit on the dimensions of a resized image holds where both
    dimensions are asked for, in any fit but [cover]; a single dimension is
    passed on as it is, whatever the limit, and a limit of 0 makes a request
    for both panic. *)
Theorem dimension_limit (src_width src_height max_dimension : Z) (w h : Z) (fit : option string)
    (format : option ImageFormat) :
  let target rw rh := calculate_target_dimensions src_width src_height
    {| rp_width := rw; rp_height := rh; rp_fit := fit; rp_output_format := format |} max_dimension in
  target (Some w) None = Some (w, src_height) ∧
  target None (Some h) = Some (src_width, h) ∧
  (fit ≠ Some "cover" →
   (1 ≤ max_dimension)%Z →
   ∃ tw th, target (Some w) (Some h) = Some (tw, th) ∧
     (1 ≤ tw ≤ max_dimension)%Z ∧ (1 ≤ th ≤ max_dimension)%Z ∧
     ((1 ≤ w ≤ max_dimension)%Z → tw = w) ∧ ((1 ≤ h ≤ max_dimension)%Z → th = h)) ∧
  (fit ≠ Some "cover" → max_dimension = 0%Z → target (Some w) (Some h) = None).
Proof.
  unfold calculate_target_dimensions. cbn. split_and!; [done|done| |]; intros Hfit Hmax;
    rewrite bool_decide_eq_false_2 by done; unfold clamp_dimension.
  - destruct (Z.ltb_spec max_dimension 1); [lia|]. cbn. do 2 eexists. split; [done|]. lia.
  - by subst.
Qed.
