(* ===== verification/MemoryStorage.v ===== *)
(** * The in-memory store

    [MemoryStorage] of src/src/storage/backend/memory.rs. The two maps are
    keyed by the components of a path, as [PathBuf]'s equality and hash are.
    Every method is one step: the locks it takes one after the other are not
    interleaved with those of other tasks. *)

From Stdlib Require Import Init.Byte Sorted.
From stdpp Require Import sorting.
From S2P Require Import Prelude RustStr Config Errors Paths Storage.
Local Open Scope stdpp_scope.

(** Source: storage/backend/memory.rs [MemoryStorage] *)
Record MemoryStorage := {
  mem_data : gmap (list component) bytes;
  mem_dirs : gset (list component);
}.

(** Source: storage/backend/memory.rs [MemoryStorage::new] *)
Definition new_memory : MemoryStorage := {| mem_data := ∅; mem_dirs := ∅ |}.

Section memory.
(** The iteration order of the two hash containers. *)
Context (iter_dirs : gset (list component) → list (list component)).
Context (iter_data : gmap (list component) bytes → list (list component * bytes)).

Definition any_key (P : list component → bool) (s : MemoryStorage) : bool :=
  existsb (λ kv, P kv.1) (map_to_list (mem_data s)).
Definition any_dir (P : list component → bool) (s : MemoryStorage) : bool :=
  existsb P (elements (mem_dirs s)).

(** Below [base], or equal to it; pushing an empty component changes nothing. *)
Definition below (base k : list component) : bool := starts_with_comps base k.

(** Source: storage/backend/memory.rs [exists] *)
Definition mem_exists (path : string) (s : MemoryStorage) : bool :=
  let p := components path in
  bool_decide (is_Some (mem_data s !! p)) || bool_decide (p ∈ mem_dirs s)
  || any_key (λ k, below p k && negb (bool_decide (k = p))) s.

(** Source: storage/backend/memory.rs [is_file] *)
Definition mem_is_file (path : string) (s : MemoryStorage) : bool :=
  bool_decide (is_Some (mem_data s !! components path)).

(** Source: storage/backend/memory.rs [is_dir] *)
Definition mem_is_dir (path : string) (s : MemoryStorage) : bool :=
  bool_decide (components path ∈ mem_dirs s).

(** Source: storage/backend/memory.rs [read] *)
Definition mem_read (path : string) (s : MemoryStorage) : result StorageError bytes :=
  ok_or (SNotFound path) (mem_data s !! components path).

(** Source: storage/backend/memory.rs [open] *)
Definition mem_open (path : string) (s : MemoryStorage) : result StorageError bytes :=
  data ← mem_read path s; Ok data.

(** Source: storage/backend/memory.rs [seek_read] *)
Definition mem_seek_read (path : string) (offset : Z) (s : MemoryStorage)
    : result StorageError bytes :=
  data ← mem_read path s;
  if (Z.of_nat (length data) <=? offset)%Z then Ok [] else Ok (drop (Z.to_nat offset) data).

Definition with_data (s : MemoryStorage) d : MemoryStorage :=
  {| mem_data := d; mem_dirs := mem_dirs s |}.
Definition with_dirs (s : MemoryStorage) d : MemoryStorage :=
  {| mem_data := mem_data s; mem_dirs := d |}.

(** Source: storage/backend/memory.rs [write] *)
Definition mem_write (path : string) (contents : bytes) (s : MemoryStorage)
    : result StorageError () * MemoryStorage :=
  (Ok (), with_data s (<[components path := contents]> (mem_data s))).

(** Source: storage/backend/memory.rs [append] *)
Definition mem_append (path : string) (contents : bytes) (s : MemoryStorage)
    : result StorageError () * MemoryStorage :=
  let existing := default [] (mem_data s !! components path) in
  (Ok (), with_data s (<[components path := existing ++ contents]> (mem_data s))).

(** [retain(|k| !k.starts_with(prefix))] on both maps. *)
Definition retain_not_below (p : list component) (s : MemoryStorage) : MemoryStorage := {|
  mem_data := filter (λ kv, below p kv.1 = false) (mem_data s);
  mem_dirs := filter (λ k, below p k = false) (mem_dirs s) |}.

(** Source: storage/backend/memory.rs [delete] *)
Definition mem_delete (path : string) (s : MemoryStorage) : result StorageError () * MemoryStorage :=
  let p := components path in
  if decide (is_Some (mem_data s !! p)) then (Ok (), with_data s (delete p (mem_data s)))
  else if decide (p ∈ mem_dirs s) then
    (Ok (), retain_not_below p (with_dirs s (mem_dirs s ∖ {[p]})))
  else (Err (SNotFound path), s).

(** [path.file_name().unwrap_or_default()] *)
Definition file_name_or_empty (cs : list component) : string := default "" (comps_file_name cs).

(** Source: storage/backend/memory.rs [metadata] *)
Definition mem_metadata (path : string) (s : MemoryStorage) : result StorageError FileMetadata :=
  let p := components path in
  match mem_data s !! p with
  | Some contents =>
      Ok (new_FileMetadata (file_name_or_empty p) true (Z.of_nat (length contents)))
  | None =>
      if bool_decide (p ∈ mem_dirs s) then Ok (new_FileMetadata (file_name_or_empty p) false 0)
      else Err (SNotFound path)
  end.

(** The entries [list] pushes. *)
Definition dir_entry (k : list component) : DirEntry :=
  with_modified (with_mode (new_DirEntry (file_name_or_empty k) true 0) 16877) None.
Definition file_entry (kv : list component * bytes) : DirEntry :=
  with_modified (with_mode (new_DirEntry (file_name_or_empty kv.1) false
                              (Z.of_nat (length kv.2))) 33188) None.
Definition child_of (dir k : list component) : bool := bool_decide (comps_parent k = Some dir).

(** [sort_by] on the names, which is stable. *)
Fixpoint insert_by_name (e : DirEntry) (l : list DirEntry) : list DirEntry :=
  match l with
  | [] => [e]
  | x :: l' => if String.leb (de_name e) (de_name x) then e :: l else x :: insert_by_name e l'
  end.
Definition sort_by_name (l : list DirEntry) : list DirEntry := foldr insert_by_name [] l.

(** Source: storage/backend/memory.rs [list] *)
Definition mem_list (dir : string) (s : MemoryStorage) : result StorageError (list DirEntry) :=
  let d := components dir in
  Ok (sort_by_name
        (map dir_entry (filter (λ k, child_of d k = true) (iter_dirs (mem_dirs s))) ++
         map file_entry (filter (λ kv, child_of d kv.1 = true) (iter_data (mem_data s))))).

(** A missing parent is reported by its text, of which only the components
    are known here.
    Source: storage/backend/memory.rs [create_dir] *)
Definition mem_create_dir (show_path : list component → string) (path : string) (s : MemoryStorage)
    : result StorageError () * MemoryStorage :=
  let p := components path in
  if decide (p ∈ mem_dirs s) then (Err (SAlreadyExists path), s)
  else
    let created := (Ok (), with_dirs s ({[p]} ∪ mem_dirs s)) in
    match comps_parent p with
    | Some parent =>
        if bool_decide (parent = [RootDir]) then created
        else if bool_decide (parent ∈ mem_dirs s)
                || any_key (λ k, below parent k && negb (bool_decide (k = parent))) s
        then created
        else (Err (SNotFound (show_path parent)), s)
    | None => created
    end.

(** The non-empty prefixes of a path: [current] after each [push]. *)
Definition prefixes (p : list component) : list (list component) :=
  map (λ n, take n p) (seq 1 (length p)).

(** Source: storage/backend/memory.rs [create_dir_all] *)
Definition mem_create_dir_all (path : string) (s : MemoryStorage)
    : result StorageError () * MemoryStorage :=
  (Ok (), with_dirs s (fold_left (λ dirs current, {[current]} ∪ dirs)
                         (prefixes (components path)) (mem_dirs s))).

(** Source: storage/backend/memory.rs [remove_dir] *)
Definition mem_remove_dir (path : string) (s : MemoryStorage) : result StorageError () * MemoryStorage :=
  let p := components path in
  if negb (bool_decide (p ∈ mem_dirs s)) then (Err (SNotFound path), s)
  else if any_key (below p) s || any_dir (λ k, below p k && negb (bool_decide (k = p))) s
  then (Err (SDirectoryNotEmpty path), s)
  else (Ok (), with_dirs s (mem_dirs s ∖ {[p]})).

(** Source: storage/backend/memory.rs [remove_dir_all] *)
Definition mem_remove_dir_all (path : string) (s : MemoryStorage)
    : result StorageError () * MemoryStorage :=
  (Ok (), retain_not_below (components path) s).

(** Source: storage/backend/memory.rs [rename] *)
Definition mem_rename (from to : string) (s : MemoryStorage) : result StorageError () * MemoryStorage :=
  let f := components from in
  let t := components to in
  match mem_data s !! f with
  | Some contents => (Ok (), with_data s (<[t := contents]> (delete f (mem_data s))))
  | None =>
      if decide (f ∈ mem_dirs s)
      then (Ok (), with_dirs s ({[t]} ∪ (mem_dirs s ∖ {[f]})))
      else (Err (SNotFound from), s)
  end.

(** Source: storage/backend/memory.rs [copy] *)
Definition mem_copy (from to : string) (s : MemoryStorage) : result StorageError () * MemoryStorage :=
  match mem_data s !! components from with
  | Some contents => (Ok (), with_data s (<[components to := contents]> (mem_data s)))
  | None => (Err (SNotFound from), s)
  end.

(** Source: storage/backend/memory.rs [canonicalize] *)
Definition mem_canonicalize (path : string) (s : MemoryStorage) : result StorageError string := Ok path.

(** Source: storage/backend/memory.rs [size] *)
Definition mem_size (path : string) (s : MemoryStorage) : result StorageError Z :=
  Z.of_nat <$> (length <$> ok_or (SNotFound path) (mem_data s !! components path)).

(** Source: storage/backend/memory.rs:37-362 [impl Storage for MemoryStorage] *)
#[export] Instance memory_storage (show_path : list component → string) : Storage MemoryStorage := {|
  st_exists := mem_exists; st_is_file := mem_is_file; st_is_dir := mem_is_dir;
  st_read := mem_read; st_open := mem_open; st_seek_read := mem_seek_read;
  st_write := mem_write; st_append := mem_append; st_delete := mem_delete;
  st_metadata := mem_metadata; st_list := mem_list;
  st_create_dir := mem_create_dir show_path; st_create_dir_all := mem_create_dir_all;
  st_remove_dir := mem_remove_dir; st_remove_dir_all := mem_remove_dir_all;
  st_rename := mem_rename; st_copy := mem_copy; st_canonicalize := mem_canonicalize;
  st_size := mem_size; st_root_path := λ _, None |}.
End memory.

(** ** The interface's laws *)

Lemma read_insert path c q s :
  mem_read q (with_data s (<[components path := c]> (mem_data s)))
  = if decide (components path = components q) then Ok c else mem_read q s.
Proof.
  unfold mem_read. cbn. case_decide as Hp.
  - by rewrite Hp, lookup_insert_eq.
  - by rewrite lookup_insert_ne.
Qed.

Lemma mem_content iter_dirs iter_data show_path q s :
  @content _ (memory_storage iter_dirs iter_data show_path) q s = mem_data s !! components q.
Proof. unfold content. cbn. unfold mem_read. by destruct (mem_data s !! components q). Qed.

#[export] Instance memory_storage_laws iter_dirs iter_data show_path :
  @StorageLaws MemoryStorage (memory_storage iter_dirs iter_data show_path).
Proof.
  refine {| apart p q := components p ≠ components q; names_file _ := true |}; intros *;
    rewrite ?mem_content; cbn [memory_storage st_exists st_seek_read st_write st_delete st_metadata
    st_create_dir_all st_rename].
  - done.
  - intros [= <-]. cbn. by rewrite lookup_insert_eq.
  - intros [= <- <-] Hne. cbn. by rewrite lookup_insert_ne.
  - unfold mem_metadata. cbv zeta. intros ->. eauto.
  - intros Hoff Hc. unfold mem_seek_read, mem_read. rewrite Hc. cbn.
    by destruct (Z.leb_spec (Z.of_nat (length c)) off); [lia|].
  - unfold mem_exists. cbv zeta. intros ->. by rewrite bool_decide_eq_true_2.
  - by intros [= <- <-].
  - unfold mem_delete. cbv zeta. intros Hc. rewrite decide_True by done. intros [= <- <-]. cbn.
    setoid_rewrite mem_content. cbn. split; [by rewrite lookup_delete_eq|].
    intros q Hq. by rewrite lookup_delete_ne.
  - unfold mem_rename. cbv zeta. intros -> Hne [= <-]. cbn.
    by rewrite lookup_insert_eq, lookup_insert_ne, lookup_delete_eq by done.
  - unfold mem_rename. repeat case_match; intros [= <- <-] Hp Hq; cbn; [|done..].
    by rewrite lookup_insert_ne, lookup_delete_ne by auto.
Defined.

(** ** Directory trees *)

Lemma any_key_true P s : any_key P s = true ↔ ∃ k c, mem_data s !! k = Some c ∧ P k = true.
Proof.
  unfold any_key. rewrite existsb_elem. split.
  - intros ([k c]&Hk%elem_of_map_to_list&?). eauto.
  - intros (k&c&Hk&?). exists (k, c). by rewrite elem_of_map_to_list.
Qed.

Lemma any_dir_true P s : any_dir P s = true ↔ ∃ k, k ∈ mem_dirs s ∧ P k = true.
Proof. unfold any_dir. rewrite existsb_elem. by setoid_rewrite elem_of_elements. Qed.

Lemma below_refl p : below p p = true.
Proof. by apply bool_decide_eq_true. Qed.

Lemma below_trans p q r : below p q = true → below q r = true → below p r = true.
Proof. unfold below, starts_with_comps. rewrite !bool_decide_eq_true. intros. by etrans. Qed.

Lemma retain_data p s k :
  mem_data (retain_not_below p s) !! k = if below p k then None else mem_data s !! k.
Proof.
  cbn. destruct (below p k) eqn:Hb.
  - apply map_lookup_filter_None. right. intros c _. cbn. by rewrite Hb.
  - destruct (mem_data s !! k) as [c|] eqn:Hk.
    + by apply map_lookup_filter_Some.
    + apply map_lookup_filter_None. by left.
Qed.

Lemma retain_dirs p s k :
  k ∈ mem_dirs (retain_not_below p s) ↔ k ∈ mem_dirs s ∧ below p k = false.
Proof. cbn. rewrite elem_of_filter. tauto. Qed.

(** [s'] is [s] without the tree at [p]. *)
Definition tree_removed (p : string) (s s' : MemoryStorage) : Prop :=
  ∀ q, if path_starts_with q p
       then mem_is_file q s' = false ∧ mem_is_dir q s' = false ∧ mem_exists q s' = false
       else mem_read q s' = mem_read q s ∧ mem_is_dir q s' = mem_is_dir q s.

Lemma retain_tree_removed p s : tree_removed p s (retain_not_below (components p) s).
Proof.
  intros q. change (path_starts_with q p) with (below (components p) (components q)).
  destruct (below (components p) (components q)) eqn:Hb.
  - unfold mem_is_file, mem_is_dir, mem_exists. rewrite retain_data, Hb.
    assert (components q ∉ mem_dirs (retain_not_below (components p) s)) as Hd.
    { intros [_ ?]%retain_dirs. congruence. }
    assert (¬ is_Some (@None bytes)) as Hn by (by intros []).
    rewrite (bool_decide_eq_false_2 _ Hd), (bool_decide_eq_false_2 _ Hn). split_and!; [done..|].
    apply not_true_is_false. intros (k&c&Hk&Hkq)%any_key_true. rewrite retain_data in Hk.
    apply andb_true_iff in Hkq as [Hkq _]. by rewrite (below_trans _ _ _ Hb Hkq) in Hk.
  - unfold mem_read, mem_is_dir. rewrite retain_data, Hb. split; [done|].
    apply bool_decide_ext. rewrite retain_dirs. naive_solver.
Qed.

(** Removing a directory tree. [remove_dir_all], and [delete] of a path
    that is a directory and not a file, succeed and leave nothing at or
    below the path: no file, no directory, nothing that exists. Every other
    file keeps its contents and every other directory stays. *)
Theorem memory_tree_removal (p : string) (s : MemoryStorage) :
  (∃ s', mem_remove_dir_all p s = (Ok (), s') ∧ tree_removed p s s') ∧
  (mem_is_file p s = false → mem_is_dir p s = true →
   ∃ s', mem_delete p s = (Ok (), s') ∧ tree_removed p s s').
Proof.
  split.
  - eexists. split; [done|]. apply retain_tree_removed.
  - intros Hf%bool_decide_eq_false Hd%bool_decide_eq_true. unfold mem_delete.
    rewrite decide_False, decide_True by done. eexists. split; [done|].
    pose proof (retain_tree_removed p s) as Ht. intros q. specialize (Ht q).
    assert (retain_not_below (components p) (with_dirs s (mem_dirs s ∖ {[components p]}))
            = retain_not_below (components p) s) as ->; [|done].
    unfold retain_not_below. cbn. f_equal. apply set_eq. intros k.
    rewrite !elem_of_filter, elem_of_difference, elem_of_singleton.
    split; [tauto|]. intros [Hb Hk]. split_and!; [done..|]. intros ->.
    by rewrite below_refl in Hb.
Qed.

Definition demo : MemoryStorage := {|
  mem_data := {[components "/a/x.txt" := [x68; x69]]};
  mem_dirs := {[components "/a"]} |}.

Lemma memory_tree_removal_witness :
  ∃ s', mem_delete "/a" demo = (Ok (), s') ∧ tree_removed "/a" demo s'.
Proof. apply (memory_tree_removal "/a" demo); vm_compute; reflexivity. Defined.

(** [remove_dir] removes empty directories only. It succeeds exactly when
    the path is a directory with no file and no directory below it, and then
    nothing but that directory changes; otherwise the store is unchanged and
    the error says whether the directory is missing or not empty. *)
Theorem memory_remove_dir_empty_only (p : string) (s : MemoryStorage) :
  let occupied := ∃ q, path_starts_with q p = true ∧
    (mem_is_file q s = true ∨ components q ≠ components p ∧ mem_is_dir q s = true) in
  (mem_is_dir p s = false → mem_remove_dir p s = (Err (SNotFound p), s)) ∧
  (mem_is_dir p s = true → occupied → mem_remove_dir p s = (Err (SDirectoryNotEmpty p), s)) ∧
  (mem_is_dir p s = true → (∀ k, below (components p) k = true →
      mem_data s !! k = None ∧ (k ≠ components p → k ∉ mem_dirs s)) →
   ∃ s', mem_remove_dir p s = (Ok (), s') ∧ mem_is_dir p s' = false ∧
     ∀ q, mem_read q s' = mem_read q s ∧
          (components q ≠ components p → mem_is_dir q s' = mem_is_dir q s)).
Proof.
  cbv zeta. unfold mem_is_dir, mem_remove_dir. split_and!.
  - by intros ->.
  - intros -> (q&Hb&Hq). cbn [negb].
    change (below (components p) (components q) = true) in Hb.
    assert (any_key (below (components p)) s
      || any_dir (λ k, below (components p) k && negb (bool_decide (k = components p))) s = true) as ->;
      [|done].
    apply orb_true_iff. destruct Hq as [Hf|[Hne Hd]].
    + left. apply any_key_true. apply bool_decide_eq_true in Hf as [c Hc]. eauto.
    + right. apply any_dir_true. apply bool_decide_eq_true in Hd. exists (components q).
      split; [done|]. by rewrite Hb, bool_decide_eq_false_2.
  - intros -> Hempty. cbn [negb].
    assert (any_key (below (components p)) s
      || any_dir (λ k, below (components p) k && negb (bool_decide (k = components p))) s = false) as ->.
    { apply orb_false_iff. split; apply not_true_is_false.
      - intros (k&c&Hk&Hb)%any_key_true. destruct (Hempty k Hb). congruence.
      - intros (k&Hk&[Hb Hne%negb_true_iff%bool_decide_eq_false]%andb_true_iff)%any_dir_true.
        destruct (Hempty k Hb) as [_ H]. by apply H. }
    eexists. split; [done|]. cbn. split; [apply bool_decide_eq_false; set_solver|].
    intros q. split; [done|]. intros Hne. apply bool_decide_ext. set_solver.
Qed.

Lemma memory_remove_dir_empty_only_witness :
  mem_remove_dir "/a" demo = (Err (SDirectoryNotEmpty "/a"), demo).
Proof.
  apply (proj1 (proj2 (memory_remove_dir_empty_only "/a" demo))); [vm_compute; reflexivity|].
  exists "/a/x.txt". split; [vm_compute; reflexivity|left; vm_compute; reflexivity].
Defined.

(** ** Creating directories *)

Lemma fold_insert (l : list (list component)) (ds : gset (list component)) k :
  k ∈ fold_left (λ dirs current, {[current]} ∪ dirs) l ds ↔ k ∈ l ∨ k ∈ ds.
Proof.
  revert ds. induction l as [|x l IH]; intros ds; cbn; [set_solver|]. rewrite IH. set_solver.
Qed.

Lemma elem_of_prefixes k p : k ∈ prefixes p ↔ k ≠ [] ∧ k `prefix_of` p.
Proof.
  unfold prefixes. rewrite list_elem_of_fmap. split.
  - intros (n&->&Hn%elem_of_seq). split; [|apply prefix_take].
    intros Hnil. apply (f_equal length) in Hnil. rewrite length_take in Hnil. cbn in Hnil. lia.
  - intros [Hne [r ->]]. exists (length k). rewrite take_app_length, elem_of_seq, length_app.
    destruct k; [done|]. cbn. split; [done|lia].
Qed.

(** [create_dir_all] makes the path and every path above it a directory,
    keeps every other directory and every file, and so a directory can be
    created inside it afterwards: [create_dir] of a new child succeeds. *)
Theorem memory_create_dir_all_spec (show_path : list component → string) (p : string)
    (s : MemoryStorage) :
  ∃ s', mem_create_dir_all p s = (Ok (), s') ∧
    (∀ q, mem_read q s' = mem_read q s) ∧
    (∀ q, mem_is_dir q s' = true ↔
          mem_is_dir q s = true ∨ (components q ≠ [] ∧ path_starts_with p q = true)) ∧
    (∀ c, components p ≠ [] → comps_parent (components c) = Some (components p) →
          mem_is_dir c s' = false → (mem_create_dir show_path c s').1 = Ok ()).
Proof.
  eexists. split; [done|]. split; [done|].
  assert (∀ k, k ∈ mem_dirs (with_dirs s (fold_left (λ dirs current, {[current]} ∪ dirs)
                         (prefixes (components p)) (mem_dirs s))) ↔
               k ∈ mem_dirs s ∨ k ≠ [] ∧ k `prefix_of` components p) as Hk.
  { intros k. cbn. rewrite fold_insert, elem_of_prefixes. tauto. }
  split.
  - intros q. unfold mem_is_dir. rewrite bool_decide_eq_true, Hk, bool_decide_eq_true.
    unfold path_starts_with, starts_with_comps. by rewrite bool_decide_eq_true.
  - intros c Hp Hc. unfold mem_is_dir, mem_create_dir. cbv zeta.
    intros Hd%bool_decide_eq_false. rewrite decide_False by done. rewrite Hc.
    case_bool_decide; [done|]. rewrite bool_decide_eq_true_2; [done|]. apply Hk. by right.
Qed.

Lemma memory_create_dir_all_spec_witness :
  ∃ s', mem_create_dir_all "/a/b/c" demo = (Ok (), s') ∧ mem_is_dir "/a/b" s' = true ∧
        (mem_create_dir (λ _, "") "/a/b/c/d" s').1 = Ok ().
Proof.
  destruct (memory_create_dir_all_spec (λ _, "") "/a/b/c" demo) as (s'&Hs&_&Hd&Hc).
  exists s'. split; [exact Hs|]. split.
  - apply Hd. right. split; [discriminate|vm_compute; reflexivity].
  - apply Hc; [discriminate|reflexivity|]. injection Hs as <-. vm_compute. reflexivity.
Defined.

(** ** Renaming *)

(** Renaming a directory moves the directory entry alone. Its files stay
    readable under the old path and are not found under the new one, so a
    renamed directory is empty and its contents are stranded, although the
    interface speaks of moving a file or directory. *)
Theorem memory_rename_strands_children (from to : string) (s : MemoryStorage)
    (Hfile : mem_is_file from s = false) (Hdir : mem_is_dir from s = true) :
  ∃ s', mem_rename from to s = (Ok (), s') ∧ mem_is_dir to s' = true ∧
        ∀ q, mem_read q s' = mem_read q s.
Proof.
  unfold mem_is_file, mem_is_dir, mem_rename in *. cbv zeta.
  apply bool_decide_eq_false in Hfile. apply bool_decide_eq_true in Hdir.
  destruct (mem_data s !! components from); [by destruct Hfile|]. rewrite decide_True by done.
  eexists. split; [done|]. split; [|done]. apply bool_decide_eq_true. cbn. set_solver.
Qed.

Lemma memory_rename_strands_children_witness :
  ∃ s', mem_rename "/a" "/b" demo = (Ok (), s') ∧ mem_is_dir "/b" s' = true ∧
        ∀ q, mem_read q s' = mem_read q demo.
Proof. apply memory_rename_strands_children; vm_compute; reflexivity. Defined.

(** ** Listing *)

(** Directories come before files of the same name. *)
Definition entry_le (a b : DirEntry) : Prop :=
  String.le (de_name a) (de_name b) ∧
  (de_name a = de_name b → de_is_dir b = true → de_is_dir a = true).

Lemma insert_by_name_perm e l : insert_by_name e l ≡ₚ e :: l.
Proof.
  induction l as [|x l IH]; [done|]. cbn. destruct (String.leb _ _); [done|].
  rewrite IH. apply Permutation_swap.
Qed.
Lemma sort_by_name_perm l : sort_by_name l ≡ₚ l.
Proof. induction l as [|e l IH]; [done|]. cbn. by rewrite insert_by_name_perm, IH. Qed.

Lemma insert_by_name_sorted e l :
  StronglySorted entry_le l → (∀ x, x ∈ l → de_is_dir x = true → de_is_dir e = true) →
  StronglySorted entry_le (insert_by_name e l).
Proof.
  intros Hl He. induction Hl as [|x l Hl IH Hx]; [repeat constructor|]. cbn.
  destruct (String.leb (de_name e) (de_name x)) eqn:Hle.
  - constructor; [by constructor|]. rewrite Forall_elem. intros y Hy. split; [|intros _ ?; by apply (He y)].
    assert (String.le (de_name e) (de_name x)) as Hex by (unfold String.le; by rewrite Hle).
    apply elem_of_cons in Hy as [->|Hy]; [done|]. rewrite Forall_elem in Hx.
    etrans; [done|]. by apply Hx.
  - assert (String.le (de_name x) (de_name e)) as Hxe.
    { destruct (String.le_total (de_name x) (de_name e)) as [|H]; [done|].
      unfold String.le in H. by rewrite Hle in H. }
    constructor; [apply IH; intros y ?; apply He; by right|].
    rewrite insert_by_name_perm. constructor; [|done]. split; [done|].
    intros Heq. unfold String.le in Hxe. rewrite Heq in Hle.
    pose proof (reflexivity (R:=String.le) (de_name e)) as Hr. unfold String.le in Hr.
    by rewrite Hle in Hr.
Qed.

Lemma sort_by_name_sorted ds fs :
  (∀ e, e ∈ ds → de_is_dir e = true) → (∀ e, e ∈ fs → de_is_dir e = false) →
  StronglySorted entry_le (sort_by_name (ds ++ fs)).
Proof.
  intros Hd Hf. induction ds as [|e ds IH]; cbn.
  - clear Hd. induction fs as [|e fs IH]; [constructor|]. cbn. apply insert_by_name_sorted.
    + apply IH. intros x ?. apply Hf. by right.
    + intros x Hx Hxd. exfalso. rewrite sort_by_name_perm in Hx.
      rewrite (Hf x) in Hxd; [done|by right].
  - apply insert_by_name_sorted; [apply IH; intros x ?; apply Hd; by right|].
    intros x _ _. apply Hd. by left.
Qed.

Lemma comps_parent_snoc k d : comps_parent k = Some d → ∃ x, k = d ++ [x] ∧ list.last k = Some x.
Proof.
  unfold comps_parent. destruct (list.last k) as [x|] eqn:Hx; [|done].
  destruct (proj1 (list.last_Some _ _) Hx) as [k' ->]. intros Hd. exists x. split; [|done].
  rewrite length_app, Nat.add_sub, take_app_length in Hd. by destruct x; simplify_eq.
Qed.

(** Paths that end in a name, as those of files and directories a request
    creates do. *)
Definition named (s : MemoryStorage) : Prop :=
  ∀ k, is_Some (mem_data s !! k) ∨ k ∈ mem_dirs s → is_Some (comps_parent k) →
       ∃ n, list.last k = Some (Normal n).

Lemma named_child s k d :
  named s → is_Some (mem_data s !! k) ∨ k ∈ mem_dirs s → comps_parent k = Some d →
  k = d ++ [Normal (file_name_or_empty k)].
Proof.
  intros Hs Hk Hd. destruct (comps_parent_snoc _ _ Hd) as (x&Hkx&Hl).
  destruct (Hs k Hk) as [n Hn]; [by eauto|]. unfold file_name_or_empty, comps_file_name.
  rewrite Hn. cbn. congruence.
Qed.

(** The entries [list] collects, before sorting. *)
Definition entries (d : list component) (ds : list (list component))
    (fs : list (list component * bytes)) : list DirEntry :=
  map dir_entry (filter (λ k, child_of d k = true) ds) ++
  map file_entry (filter (λ kv, child_of d kv.1 = true) fs).

Definition listed (d : list component) (s : MemoryStorage) (e : DirEntry) : Prop :=
  (∃ k, k ∈ mem_dirs s ∧ comps_parent k = Some d ∧ e = dir_entry k) ∨
  (∃ k c, mem_data s !! k = Some c ∧ comps_parent k = Some d ∧ e = file_entry (k, c)).

Lemma entries_listed d s ds fs e :
  ds ≡ₚ elements (mem_dirs s) → fs ≡ₚ map_to_list (mem_data s) →
  e ∈ sort_by_name (entries d ds fs) ↔ listed d s e.
Proof.
  intros Hd Hf. rewrite sort_by_name_perm. unfold entries, listed, child_of.
  rewrite Hd, Hf, elem_of_app, !list_elem_of_fmap. setoid_rewrite list_elem_of_filter.
  setoid_rewrite elem_of_elements. setoid_rewrite bool_decide_eq_true.
  f_equiv; [naive_solver|]. split.
  - intros ([k c]&->&Hp&Hk%elem_of_map_to_list). eauto.
  - intros (k&c&Hk&Hp&->). exists (k, c). by rewrite elem_of_map_to_list.
Qed.

Lemma entries_sorted d ds fs : StronglySorted entry_le (sort_by_name (entries d ds fs)).
Proof. apply sort_by_name_sorted; by intros e (x&->&_)%list_elem_of_fmap. Qed.

(** Two entries of one listing that compare both ways are the same. *)
Lemma listed_antisym d s e1 e2 :
  named s → listed d s e1 → listed d s e2 → entry_le e1 e2 → entry_le e2 e1 → e1 = e2.
Proof.
  intros Hnamed H1 H2 [Hn12 Hd12] [Hn21 Hd21].
  assert (de_name e1 = de_name e2) as Hn by (by apply (anti_symm String.le)).
  specialize (Hd12 Hn). symmetry in Hn. specialize (Hd21 Hn).
  destruct H1 as [(k1&Hk1&Hp1'&->)|(k1&c1&Hk1&Hp1'&->)],
    H2 as [(k2&Hk2&Hp2'&->)|(k2&c2&Hk2&Hp2'&->)]; cbn in *;
    [by unfold dir_entry; rewrite Hn|by specialize (Hd21 eq_refl)|by specialize (Hd12 eq_refl)|].
  assert (k1 = k2) as ->; [|by simplify_eq].
  rewrite (named_child s k1 d), (named_child s k2 d), Hn by (by eauto). done.
Qed.

(** A listing does not depend on the iteration order of the hash
    containers. Whatever order they yield their entries in, [list] returns
    the same sequence: one entry per directory and per file whose parent is
    the listed path, sorted by name, a directory before a file of the same
    name. *)
Theorem memory_list_spec (iter_dirs : gset (list component) → list (list component))
    (iter_data : gmap (list component) bytes → list (list component * bytes))
    (dir : string) (s : MemoryStorage)
    (Hdirs : ∀ X, iter_dirs X ≡ₚ elements X) (Hdata : ∀ m, iter_data m ≡ₚ map_to_list m)
    (Hnamed : named s) :
  ∃ l, mem_list iter_dirs iter_data dir s = Ok l ∧ mem_list elements map_to_list dir s = Ok l ∧
    StronglySorted entry_le l ∧ ∀ e, e ∈ l ↔ listed (components dir) s e.
Proof.
  set (d := components dir).
  exists (sort_by_name (entries d (iter_dirs (mem_dirs s)) (iter_data (mem_data s)))).
  split_and!; [done| |apply entries_sorted|intros e; by apply entries_listed].
  unfold mem_list. fold d. f_equal.
  change (sort_by_name (entries d (elements (mem_dirs s)) (map_to_list (mem_data s)))
    = sort_by_name (entries d (iter_dirs (mem_dirs s)) (iter_data (mem_data s)))).
  eapply StronglySorted_unique_strong; [|apply entries_sorted..|].
  - intros e1 e2 H1 H2. rewrite entries_listed in H1 by done.
    rewrite entries_listed in H2 by done. by eapply listed_antisym.
  - rewrite !sort_by_name_perm. unfold entries. by rewrite Hdirs, Hdata.
Qed.

Lemma memory_list_spec_witness :
  ∃ l, mem_list elements map_to_list "/a" demo = Ok l ∧ map de_name l = ["x.txt"].
Proof.
  destruct (memory_list_spec elements map_to_list "/a" demo) as (l&Hl&_&_&_).
  - done.
  - done.
  - intros k [[c Hc]|Hk] _; cbn in *.
    + apply lookup_singleton_Some in Hc as [<- _]. by exists "x.txt".
    + apply elem_of_singleton in Hk as ->. by exists "a".
  - exists l. split; [exact Hl|]. vm_compute in Hl. by injection Hl as <-.
Defined.
