(* ===== verification/Native.v ===== *)
(** * The disk store

    [NativeStorage] of src/src/storage/backend/native.rs over an interface of
    the file system: the calls the backend makes of [tokio::fs], as operations
    on the state of the disk. Paths that are not absolute are taken from the
    root of the store. *)

From Stdlib Require Import Init.Byte.
From S2P Require Import Prelude RustStr Config Errors Paths Storage.
Local Open Scope stdpp_scope.

(** What the backend reads of [std::fs::Metadata]. *)
Record fs_meta := {
  fsm_is_file : bool;
  fsm_is_dir : bool;
  fsm_len : Z;
  fsm_mode : Z;
  fsm_uid : Z;
  fsm_gid : Z;
  fsm_created : result string Z;
  fsm_modified : result string Z;
}.

(** An entry of a directory, with its metadata if it can be had. *)
Record fs_entry := { fse_path : string; fse_name : string; fse_metadata : result string fs_meta }.

(** The calls of the file system; an error is the text of the [io::Error].
    An open file is read through its handle; the entries of a directory come
    one by one, and each may fail. *)
Class FileSystem (F Handle : Type) := {
  fs_try_exists : string → F → result string bool;
  fs_metadata : string → F → result string fs_meta;
  fs_read : string → F → result string bytes;
  fs_open : string → F → result string Handle;
  fs_seek_from_start : Z → Handle → result string Handle;
  fs_reader : Handle → F → bytes;
  fs_write : string → bytes → F → F * result string ();
  fs_open_append : string → F → F * result string Handle;
  fs_write_all : Handle → bytes → F → F * result string ();
  fs_sync_all : Handle → F → F * result string ();
  fs_remove_file : string → F → F * result string ();
  fs_read_dir : string → F → result string (list (result string fs_entry));
  fs_create_dir : string → F → F * result string ();
  fs_create_dir_all : string → F → F * result string ();
  fs_remove_dir : string → F → F * result string ();
  fs_remove_dir_all : string → F → F * result string ();
  fs_rename : string → string → F → F * result string ();
  fs_copy : string → string → F → F * result string Z;
  fs_canonicalize : string → F → result string string;
}.

(** Source: storage/backend/native.rs [NativeStorage] *)
Record NativeStorage := { native_root : string }.

(** Source: storage/backend/native.rs [NativeStorage::new] *)
Definition new_NativeStorage (root : string) : NativeStorage := {| native_root := root |}.

(** Source: storage/backend/native.rs [default] *)
Definition default_NativeStorage : NativeStorage := new_NativeStorage ".".

Section native.
Context {F Handle : Type} `{!FileSystem F Handle}.
(** [OsStr::to_string_lossy] *)
Context (to_string_lossy : string → string).
Context (store : NativeStorage).

Notation A := (action StorageError F).

(** Source: storage/backend/native.rs [resolve] *)
Definition native_resolve (path : string) : string :=
  if is_absolute path then path else path_join (native_root store) path.

(** A call whose error is reported for a path. *)
Definition asking {X} (resolved : string) (r : result string X) : result StorageError X :=
  map_err (SIo resolved) r.
Definition calling {X} (resolved : string) (op : F → F * result string X) : A X :=
  λ s, let '(s', r) := op s in (s', asking resolved r).

Definition ok_and {E X} (r : result E X) (p : X → bool) : bool :=
  match r with Ok x => p x | Err _ => false end.

(** Source: storage/backend/native.rs [exists] *)
Definition native_exists (path : string) (s : F) : bool :=
  ok_and (fs_try_exists (native_resolve path) s) id.
(** Source: storage/backend/native.rs [is_file] *)
Definition native_is_file (path : string) (s : F) : bool :=
  ok_and (fs_metadata (native_resolve path) s) fsm_is_file.
(** Source: storage/backend/native.rs [is_dir] *)
Definition native_is_dir (path : string) (s : F) : bool :=
  ok_and (fs_metadata (native_resolve path) s) fsm_is_dir.

(** Source: storage/backend/native.rs [read] *)
Definition native_read (path : string) (s : F) : result StorageError bytes :=
  let resolved := native_resolve path in
  asking resolved (fs_read resolved s).

(** Source: storage/backend/native.rs [open] *)
Definition native_open (path : string) (s : F) : result StorageError bytes :=
  let resolved := native_resolve path in
  file ← asking resolved (fs_open resolved s);
  Ok (fs_reader file s).

(** Source: storage/backend/native.rs [seek_read] *)
Definition native_seek_read (path : string) (offset : Z) (s : F) : result StorageError bytes :=
  let resolved := native_resolve path in
  file ← asking resolved (fs_open resolved s);
  file ← asking resolved (fs_seek_from_start offset file);
  Ok (fs_reader file s).

(** Source: storage/backend/native.rs [write] *)
Definition native_write (path : string) (contents : bytes) : A () :=
  let resolved := native_resolve path in
  calling resolved (fs_write resolved contents).

(** Source: storage/backend/native.rs [append] *)
Definition native_append (path : string) (contents : bytes) : A () :=
  let resolved := native_resolve path in
  file ← calling resolved (fs_open_append resolved);
  _ ← calling resolved (fs_write_all file contents);
  _ ← calling resolved (fs_sync_all file);
  mret tt.

(** Source: storage/backend/native.rs [delete] *)
Definition native_delete (path : string) : A () :=
  let resolved := native_resolve path in
  calling resolved (fs_remove_file resolved).

(** The name is that of the path as it was given.
    Source: storage/backend/native.rs [metadata] *)
Definition native_metadata (path : string) (s : F) : result StorageError FileMetadata :=
  let resolved := native_resolve path in
  meta ← asking resolved (fs_metadata resolved s);
  Ok {| fm_name := to_string_lossy (default "" (comps_file_name (components path)));
        fm_is_file := fsm_is_file meta; fm_size := fsm_len meta;
        fm_created := ok (fsm_created meta); fm_modified := ok (fsm_modified meta) |}.

(** The numbers a Unix system has.
    Source: storage/backend/native.rs:165-186 [list] *)
Definition native_entry (entry : fs_entry) (meta : fs_meta) : DirEntry :=
  let name := to_string_lossy (fse_name entry) in
  let e := with_path (new_DirEntry name (fsm_is_dir meta) (fsm_len meta)) (fse_path entry) in
  with_modified (with_gid (with_uid (with_mode e (fsm_mode meta)) (fsm_uid meta)) (fsm_gid meta))
    (ok (fsm_modified meta)).

(** The loop over the entries: it ends at the first that cannot be read, and
    fails at the first whose metadata cannot.
    Source: storage/backend/native.rs:164-193 [list] *)
Fixpoint native_entries (resolved : string) (read_dir : list (result string fs_entry))
    : result StorageError (list DirEntry) :=
  match read_dir with
  | Ok entry :: read_dir =>
      match fse_metadata entry with
      | Ok meta => rest ← native_entries resolved read_dir; Ok (native_entry entry meta :: rest)
      | Err e => Err (SIo resolved e)
      end
  | _ => Ok []
  end.

(** Source: storage/backend/native.rs [list] *)
Definition native_list (dir : string) (s : F) : result StorageError (list DirEntry) :=
  let resolved := native_resolve dir in
  read_dir ← asking resolved (fs_read_dir resolved s);
  native_entries resolved read_dir.

(** Source: storage/backend/native.rs [create_dir] *)
Definition native_create_dir (path : string) : A () :=
  let resolved := native_resolve path in
  calling resolved (fs_create_dir resolved).
(** Source: storage/backend/native.rs [create_dir_all] *)
Definition native_create_dir_all (path : string) : A () :=
  let resolved := native_resolve path in
  calling resolved (fs_create_dir_all resolved).
(** Source: storage/backend/native.rs [remove_dir] *)
Definition native_remove_dir (path : string) : A () :=
  let resolved := native_resolve path in
  calling resolved (fs_remove_dir resolved).
(** Source: storage/backend/native.rs [remove_dir_all] *)
Definition native_remove_dir_all (path : string) : A () :=
  let resolved := native_resolve path in
  calling resolved (fs_remove_dir_all resolved).

(** Source: storage/backend/native.rs [rename] *)
Definition native_rename (from to : string) : A () :=
  let resolved_from := native_resolve from in
  let resolved_to := native_resolve to in
  calling resolved_from (fs_rename resolved_from resolved_to).

(** Source: storage/backend/native.rs [copy] *)
Definition native_copy (from to : string) : A () :=
  let resolved_from := native_resolve from in
  let resolved_to := native_resolve to in
  _ ← calling resolved_from (fs_copy resolved_from resolved_to);
  mret tt.

(** Source: storage/backend/native.rs [canonicalize] *)
Definition native_canonicalize (path : string) (s : F) : result StorageError string :=
  let resolved := native_resolve path in
  asking resolved (fs_canonicalize resolved s).

(** Source: storage/backend/native.rs [size] *)
Definition native_size (path : string) (s : F) : result StorageError Z :=
  let resolved := native_resolve path in
  meta ← asking resolved (fs_metadata resolved s);
  Ok (fsm_len meta).

(** Source: storage/backend/native.rs [root_path] *)
Definition native_root_path (s : F) : option string := Some (native_root store).

(** Source: storage/backend/native.rs:49-261 [impl Storage for NativeStorage] *)
#[local] Instance native_storage : Storage F := {|
  st_exists := native_exists; st_is_file := native_is_file; st_is_dir := native_is_dir;
  st_read := native_read; st_open := native_open; st_seek_read := native_seek_read;
  st_write p c := flipped (native_write p c); st_append p c := flipped (native_append p c);
  st_delete p := flipped (native_delete p); st_metadata := native_metadata; st_list := native_list;
  st_create_dir p := flipped (native_create_dir p); st_create_dir_all p := flipped (native_create_dir_all p);
  st_remove_dir p := flipped (native_remove_dir p); st_remove_dir_all p := flipped (native_remove_dir_all p);
  st_rename p q := flipped (native_rename p q); st_copy p q := flipped (native_copy p q);
  st_canonicalize := native_canonicalize; st_size := native_size; st_root_path := native_root_path |}.
End native.
