(* ===== verification/NativeSpec.v ===== *)
(** * The disk store as a store

    With a file system that answers as it is documented the disk store keeps
    the laws of the interface; a relative root is applied twice. *)

From Stdlib Require Import Init.Byte.
From S2P Require Import Prelude RustStr Config Errors Paths Storage MemoryStorage Native.
Local Open Scope stdpp_scope.

(** ** The file system

    [fs_content] is what a path has, for the paths that name a regular file
    that can be read. [fs_apart] are paths of different files, however the
    file system resolves them. Making directories can only make more paths
    with parent references resolve. *)
Class FileSystemLaws (F Handle : Type) `{FileSystem F Handle} := {
  fs_apart : string → string → Prop;
  fs_apart_sym p q : fs_apart p q → fs_apart q p;
  fs_exists_file p s c : fs_read p s = Ok c → fs_try_exists p s = Ok true;
  fs_metadata_file p s c :
    fs_read p s = Ok c →
    ∃ m, fs_metadata p s = Ok m ∧ fsm_is_file m = true ∧
      (u64 (Z.of_nat (length c)) → fsm_len m = Z.of_nat (length c));
  fs_open_file p s c off :
    fs_read p s = Ok c → (0 ≤ off < Z.of_nat (length c))%Z →
    ∃ h h', fs_open p s = Ok h ∧ fs_seek_from_start off h = Ok h' ∧
      fs_reader h' s = drop (Z.to_nat off) c;
  fs_write_effect p c s s' r :
    fs_write p c s = (s', r) →
    (r = Ok tt → fs_read p s' = Ok c) ∧ ∀ q, fs_apart p q → ok (fs_read q s') = ok (fs_read q s);
  fs_remove_effect p s s' r :
    fs_remove_file p s = (s', r) →
    (r = Ok tt → ok (fs_read p s') = None) ∧ ∀ q, fs_apart p q → ok (fs_read q s') = ok (fs_read q s);
  fs_rename_effect p q s s' r :
    fs_rename p q s = (s', r) →
    match r with
    | Ok _ => (∀ c, fs_read p s = Ok c → fs_apart p q → fs_read q s' = Ok c ∧ ok (fs_read p s') = None) ∧
              (∀ x, fs_apart p x → fs_apart q x → ok (fs_read x s') = ok (fs_read x s))
    | Err _ => s' = s
    end;
  fs_create_dir_all_effect p q s s' r :
    fs_create_dir_all p s = (s', r) → has_parent_dir q = false →
    ok (fs_read q s') = ok (fs_read q s);
}.

Section laws.
Context {F Handle : Type} `{!FileSystem F Handle, !FileSystemLaws F Handle}.
Context (to_string_lossy : string → string) (store : NativeStorage).
Notation disk := (native_storage to_string_lossy store).
Notation resolve := (native_resolve store).

Lemma native_content p s : @content F disk p s = ok (fs_read (resolve p) s).
Proof. unfold content. cbn. unfold native_read, asking. by destruct (fs_read _ s). Qed.

Lemma native_content_Some p s c : @content F disk p s = Some c → fs_read (resolve p) s = Ok c.
Proof. rewrite native_content. destruct (fs_read _ s); cbn; congruence. Qed.

Lemma calling_result {X} p (op : F → F * result string X) s s' r :
  calling p op s = (s', r) → ∃ r', op s = (s', r') ∧ r = asking p r'.
Proof. unfold calling. destruct (op s) as [s1 r1]. intros [= <- <-]. eauto. Qed.

Definition native_storage_laws : @StorageLaws F disk.
Proof.
  refine {| apart p q := fs_apart (resolve p) (resolve q);
            names_file p := negb (has_parent_dir (resolve p)) |}; intros *.
  - apply fs_apart_sym.
  - intros (r&H&Hr)%flipped_result%calling_result. apply fs_write_effect in H as [Hok _].
    rewrite native_content. destruct r as [[]|]; [|done]. by rewrite Hok.
  - intros (r'&H&_)%flipped_result%calling_result Hpq. apply fs_write_effect in H as [_ Hframe].
    rewrite !native_content. by apply Hframe.
  - intros (m&Hm&Hf&Hlen)%native_content_Some%fs_metadata_file. cbn. unfold native_metadata.
    rewrite Hm. cbn. eauto.
  - intros Hoff Hc%native_content_Some. destruct (fs_open_file _ _ _ _ Hc Hoff) as (h&h'&Ho&Hs&<-).
    cbn. unfold native_seek_read. rewrite Ho. cbn. by rewrite Hs.
  - intros Hc%native_content_Some%fs_exists_file. cbn. unfold native_exists. by rewrite Hc.
  - intros (r'&H&_)%flipped_result%calling_result Hq%negb_true_iff. rewrite !native_content.
    by eapply fs_create_dir_all_effect.
  - intros _ (r'&H&->)%flipped_result%calling_result. apply fs_remove_effect in H as [Hok Hframe].
    setoid_rewrite native_content. split; [|by auto].
    intros Hr. apply Hok. by destruct r' as [[]|].
  - intros Hc%native_content_Some Hpq (r'&H&Hr)%flipped_result%calling_result.
    apply fs_rename_effect in H. destruct r' as [[]|]; [|done]. rewrite !native_content.
    destruct (proj1 H _ Hc Hpq) as [-> ->]. done.
  - intros (r'&H&->)%flipped_result%calling_result Hp Hq. rewrite !native_content.
    apply fs_rename_effect in H. destruct r' as [[]|]; [|by rewrite H]. apply (proj2 H); auto.
Defined.
End laws.

(** ** Listing *)

Section listing.
Context {F Handle : Type} `{!FileSystem F Handle}.
Context (to_string_lossy : string → string) (store : NativeStorage).

(** A listing is cut short without an error. The entries are those the file
    system delivers before the first that cannot be read; what comes after it
    is missing from the answer, which is a success all the same. *)
Theorem native_list_stops_at_unreadable (dir : string) (s : F) (before after : list (result string fs_entry))
    (e : string) (metas : list (fs_entry * fs_meta))
    (Hdir : fs_read_dir (native_resolve store dir) s = Ok (before ++ Err e :: after))
    (Hbefore : before = map (λ em, Ok em.1) metas)
    (Hmetas : Forall (λ em, fse_metadata em.1 = Ok em.2) metas) :
  native_list to_string_lossy store dir s
  = Ok (map (λ em, native_entry to_string_lossy em.1 em.2) metas).
Proof.
  unfold native_list. rewrite Hdir. cbn. subst before. clear Hdir.
  induction Hmetas as [|[en m] metas Hm _ IH]; [done|]. cbn in *. rewrite Hm. cbn in *. by rewrite IH.
Qed.
End listing.

(** ** A file system

    The files of the in-memory store, which has directories of its own; every
    file is readable, and an open file is its path with what is left to read. *)

Definition io_result {X} (r : result StorageError X) : result string X := map_err (λ _, "No such file or directory") r.
Definition io_step {X} (m : result StorageError X * MemoryStorage) : MemoryStorage * result string X :=
  (m.2, io_result m.1).
Definition plain_meta (is_file : bool) (len : Z) : fs_meta := {|
  fsm_is_file := is_file; fsm_is_dir := negb is_file; fsm_len := len; fsm_mode := 420; fsm_uid := 0;
  fsm_gid := 0; fsm_created := Err "unsupported"; fsm_modified := Ok 0%Z |}.
Definition memory_meta (p : string) (s : MemoryStorage) : result string fs_meta :=
  io_result (m ← mem_metadata p s; Ok (plain_meta (fm_is_file m) (fm_size m))).

#[export] Instance memory_fs : FileSystem MemoryStorage (string * bytes) := {|
  fs_try_exists p s := Ok (mem_exists p s);
  fs_metadata := memory_meta;
  fs_read p s := io_result (mem_read p s);
  fs_open p s := c ← io_result (mem_read p s); Ok (p, c);
  fs_seek_from_start off h := Ok (h.1, drop (Z.to_nat off) h.2);
  fs_reader h _ := h.2;
  fs_write p c s := io_step (mem_write p c s);
  fs_open_append p s := ((mem_append p [] s).2, Ok (p, []));
  fs_write_all h c s := io_step (mem_append h.1 c s);
  fs_sync_all h s := (s, Ok tt);
  fs_remove_file p s := if mem_is_file p s then io_step (mem_delete p s) else (s, Err "No such file or directory");
  fs_read_dir p s :=
    l ← io_result (mem_list elements map_to_list p s);
    Ok (map (λ e, Ok {| fse_path := path_join p (de_name e); fse_name := de_name e;
                        fse_metadata := Ok (plain_meta (negb (de_is_dir e)) (de_size e)) |}) l);
  fs_create_dir p s := io_step (mem_create_dir render_path p s);
  fs_create_dir_all p s := io_step (mem_create_dir_all p s);
  fs_remove_dir p s := io_step (mem_remove_dir p s);
  fs_remove_dir_all p s := io_step (mem_remove_dir_all p s);
  fs_rename p q s := io_step (mem_rename p q s);
  fs_copy p q s := io_step (r ← (mem_copy p q s).1; Ok 0%Z, (mem_copy p q s).2);
  fs_canonicalize p s := Ok p;
|}.

#[export] Instance memory_fs_laws : FileSystemLaws MemoryStorage (string * bytes).
Proof.
  assert (∀ p s, ok (io_result (mem_read p s)) = mem_data s !! components p) as Hread.
  { intros p s. unfold mem_read. by destruct (mem_data s !! components p). }
  assert (∀ p s c, io_result (mem_read p s) = Ok c → mem_data s !! components p = Some c) as Hfile.
  { intros p s c Hc. by rewrite <-Hread, Hc. }
  assert (∀ p s c, mem_data s !! components p = Some c → io_result (mem_read p s) = Ok c) as Hfile'.
  { intros p s c Hc. unfold mem_read. by rewrite Hc. }
  refine {| fs_apart p q := components p ≠ components q |}; intros *;
    cbn [memory_fs fs_try_exists fs_metadata fs_read fs_open fs_seek_from_start fs_reader fs_write
         fs_remove_file fs_rename fs_create_dir_all]; rewrite ?Hread; unfold io_step.
  - done.
  - intros Hc%Hfile. unfold mem_exists. cbv zeta. by rewrite Hc, bool_decide_eq_true_2.
  - intros Hc%Hfile. unfold memory_meta, mem_metadata. cbv zeta. rewrite Hc. cbn. eauto.
  - intros -> Hoff. by exists (p, c), (p, drop (Z.to_nat off) c).
  - intros [= <- <-]. split.
    + intros _. apply Hfile'. cbn. by rewrite lookup_insert_eq.
    + intros q Hq. rewrite !Hread. cbn. by rewrite lookup_insert_ne.
  - destruct (mem_is_file p s) eqn:Hf; [|by intros [= <- <-]].
    apply bool_decide_eq_true in Hf. unfold mem_delete. cbv zeta. rewrite decide_True by done.
    intros [= <- <-]. split; [intros _; cbn; by rewrite lookup_delete_eq|].
    intros q Hq. rewrite !Hread. cbn. by rewrite lookup_delete_ne.
  - unfold mem_rename. cbv zeta. destruct (mem_data s !! components p) as [c0|] eqn:Hc.
    + intros [= <- <-]. cbn [fst snd]. change (io_result (Ok ())) with (Ok (E := string) ()). split.
      * intros c Hc'%Hfile Hne. rewrite Hc in Hc'. injection Hc' as ->. split.
        -- apply Hfile'. cbn. by rewrite lookup_insert_eq.
        -- cbn. by rewrite lookup_insert_ne, lookup_delete_eq by done.
      * intros x Hp Hq. rewrite !Hread. cbn. by rewrite lookup_insert_ne, lookup_delete_ne.
    + destruct (decide _); intros [= <- <-]; [|done]. split; [|done]. intros c Hc'%Hfile. congruence.
  - by intros [= <- <-].
Defined.

(** A store on that disk. *)
Definition srv : NativeStorage := new_NativeStorage "/srv".
Definition srv_storage : Storage MemoryStorage := native_storage id srv.
Definition srv_storage_laws : @StorageLaws MemoryStorage srv_storage := native_storage_laws id srv.

Lemma native_list_stops_at_unreadable_witness :
  @native_list (list (result string fs_entry)) ()
    {| fs_try_exists _ _ := Ok true; fs_metadata _ _ := Err ""; fs_read _ _ := Err ""; fs_open _ _ := Ok tt;
       fs_seek_from_start _ _ := Ok tt; fs_reader _ _ := []; fs_write _ _ s := (s, Ok tt);
       fs_open_append _ s := (s, Ok tt); fs_write_all _ _ s := (s, Ok tt); fs_sync_all _ s := (s, Ok tt);
       fs_remove_file _ s := (s, Ok tt); fs_read_dir _ s := Ok s; fs_create_dir _ s := (s, Ok tt);
       fs_create_dir_all _ s := (s, Ok tt); fs_remove_dir _ s := (s, Ok tt);
       fs_remove_dir_all _ s := (s, Ok tt); fs_rename _ _ s := (s, Ok tt); fs_copy _ _ s := (s, Ok 0%Z);
       fs_canonicalize p _ := Ok p |} id srv "a"
    [Ok {| fse_path := "/srv/a/x"; fse_name := "x"; fse_metadata := Ok (plain_meta true 3) |}; Err "EIO";
     Ok {| fse_path := "/srv/a/y"; fse_name := "y"; fse_metadata := Ok (plain_meta true 4) |}]
  = Ok [native_entry id {| fse_path := "/srv/a/x"; fse_name := "x"; fse_metadata := Ok (plain_meta true 3) |}
          (plain_meta true 3)].
Proof.
  refine (native_list_stops_at_unreadable id srv "a" _
    [Ok {| fse_path := "/srv/a/x"; fse_name := "x"; fse_metadata := Ok (plain_meta true 3) |}] _ "EIO"
    [({| fse_path := "/srv/a/x"; fse_name := "x"; fse_metadata := Ok (plain_meta true 3) |}, plain_meta true 3)]
    _ eq_refl _); [reflexivity|].
  by repeat constructor.
Defined.
