(* ===== verification/S3.v ===== *)
(** * The S3 store

    [S3Storage] of src/src/storage/backend/s3.rs over an interface of the
    client library: the requests the backend makes of a bucket, as operations
    on the state of the service. Directories are prefixes of keys that end
    with a slash; an object of such a key marks an empty one. *)

From Stdlib Require Import Init.Byte.
From S2P Require Import Prelude RustStr Config Errors Paths Storage.
Local Open Scope stdpp_scope.

(** The answers of the service, as far as the backend reads them. *)
Record s3_head := {
  head_content_length : option Z;
  head_content_type : option string;
  (** The text of the time. *)
  head_last_modified : option string;
}.
Record s3_object := { obj_key : option string; obj_size : option Z }.
Record s3_list := {
  list_contents : list s3_object;
  list_common_prefixes : list (option string);
}.

(** The client of the service: the first text of an operation is the bucket,
    an error is the text of the library's error, and a body arrives in
    chunks that may break off. *)
Class S3Client (B : Type) := {
  head_object : string → string → B → result string s3_head;
  get_object : string → string → option string → B → result string (list (result string bytes));
  put_object : string → string → option string → bytes → B → B * result string ();
  delete_object : string → string → B → B * result string ();
  (** The source of the copy, with its bucket, the key and the content type. *)
  copy_object : string → string → string → string → B → B * result string ();
  (** The prefix and the delimiter. *)
  list_objects_v2 : string → option string → option string → B → result string s3_list;
}.

(** Source: storage/backend/s3.rs [S3Storage] *)
Record S3Storage := { s3s_bucket : string }.

(** Source: storage/backend/s3.rs [new] *)
Definition new_S3Storage (config : StoreConfig) : result StorageError S3Storage :=
  s3 ← ok_or (SInvalidBackend "s3 config section must be present for s3 backend") (st_s3 config);
  Ok {| s3s_bucket := s3_bucket s3 |}.

(** Source: storage/backend/s3.rs [path_to_key] *)
Definition path_to_key (path : string) : string := default path (strip_prefix "/" path).

Section s3.
Context {B : Type} `{!S3Client B}.
(** [str::to_lowercase] and the parsing of a time. *)
Context (lowercase : string → string) (parse_from_rfc3339 : string → option Z).
Context (s3 : S3Storage).

Notation bucket := (s3s_bucket s3).
Notation A := (action StorageError B).

(** Source: storage/backend/s3.rs [map_error] *)
Definition s3_map_error (key err : string) : StorageError :=
  let msg := lowercase err in
  let has s := contains_str s msg in
  if has "no such bucket" || has "no such key" || has "notfound" || has "404" then SNotFound key
  else if has "accessdenied" || has "access denied" || has "forbidden" || has "403" then
    SAuthentication ("S3 access denied: " +:+ err)
  else if has "503" || has "service unavailable" then
    SServiceUnavailable ("S3 service unavailable: " +:+ err)
  else SInternal ("S3 error: " +:+ err).

(** A request whose error is reported for a key; one whose outcome is
    dropped. *)
Definition request {X} (key : string) (op : B → B * result string X) : A X :=
  λ b, let '(b', r) := op b in (b', map_err (s3_map_error key) r).
Definition query {X} (key : string) (op : B → result string X) : A X :=
  read (λ b, map_err (s3_map_error key) (op b)).
Definition dropping {X} (op : B → B * result string X) : A () := λ b, ((op b).1, Ok tt).

(** Source: storage/backend/s3.rs [key_exists] *)
Definition key_exists (key : string) (b : B) : bool := is_ok (head_object bucket key b).

(** Source: storage/backend/s3.rs [collect_body] *)
Fixpoint collect_body (acc : bytes) (chunks : list (result string bytes)) : result StorageError bytes :=
  match chunks with
  | [] => Ok acc
  | Ok chunk :: chunks => collect_body (acc ++ chunk) chunks
  | Err e :: _ => Err (SInternal ("Failed to read S3 body: " +:+ e))
  end.

(** Source: storage/backend/s3.rs [exists] *)
Definition s3_exists (path : string) (b : B) : bool := key_exists (path_to_key path) b.

(** Source: storage/backend/s3.rs [is_file] *)
Definition s3_is_file (path : string) (b : B) : bool :=
  let key := path_to_key path in
  match head_object bucket key b with
  | Ok response =>
      negb ((default 0 (head_content_length response) =? 0)%Z && ends_with_char "/" key)
  | Err _ => false
  end.

(** A key with its trailing slash. *)
Definition dir_key (key : string) : string := if ends_with_char "/" key then key else key +:+ "/".
(** The same, where the key of the root stays empty. *)
Definition marker_key (key : string) : string := if is_empty key then "" else dir_key key.

Definition some_bool {E X} (f : X → bool) (r : result E X) : bool :=
  match r with Ok x => f x | Err _ => false end.
Definition has_prefixes (l : s3_list) : bool := negb (bool_decide (length (list_common_prefixes l) = 0)).
Definition has_contents (l : s3_list) : bool := negb (bool_decide (length (list_contents l) = 0)).

(** Source: storage/backend/s3.rs [is_dir] *)
Definition s3_is_dir (path : string) (b : B) : bool :=
  let key := path_to_key path in
  let marker := marker_key key in
  if key_exists marker b then true
  else if is_empty key then some_bool has_prefixes (list_objects_v2 bucket None (Some "/") b)
  else some_bool (λ r, has_prefixes r || has_contents r)
         (list_objects_v2 bucket (Some marker) (Some "/") b).

Definition body_of (key : string) (range : option string) (b : B) : result StorageError bytes :=
  response ← map_err (s3_map_error key) (get_object bucket key range b);
  collect_body [] response.

(** Source: storage/backend/s3.rs [read] *)
Definition s3_read (path : string) (b : B) : result StorageError bytes :=
  body_of (path_to_key path) None b.
(** Source: storage/backend/s3.rs [open] *)
Definition s3_open (path : string) (b : B) : result StorageError bytes :=
  body_of (path_to_key path) None b.
(** Source: storage/backend/s3.rs [seek_read] *)
Definition s3_seek_read (path : string) (offset : Z) (b : B) : result StorageError bytes :=
  body_of (path_to_key path) (Some ("bytes=" +:+ show_Z offset +:+ "-")) b.

(** Source: storage/backend/s3.rs [write] *)
Definition s3_write (path : string) (contents : bytes) : A () :=
  let key := path_to_key path in
  _ ← request key (put_object bucket key None contents);
  mret tt.

(** Source: storage/backend/s3.rs [append] *)
Definition s3_append (path : string) (contents : bytes) : A () :=
  existing ← read (s3_read path);
  s3_write path (existing ++ contents).

(** Source: storage/backend/s3.rs [delete] *)
Definition s3_delete (path : string) : A () :=
  let key := path_to_key path in
  _ ← request key (delete_object bucket key);
  mret tt.

(** Source: storage/backend/s3.rs [metadata] *)
Definition s3_metadata (path : string) (b : B) : result StorageError FileMetadata :=
  let key := path_to_key path in
  response ← map_err (s3_map_error key) (head_object bucket key b);
  Ok {| fm_name := default path (comps_file_name (components path)); fm_is_file := true;
        fm_size := u64_wrap (default 0%Z (head_content_length response)); fm_created := None;
        fm_modified := head_last_modified response ≫= parse_from_rfc3339 |}.

(** Source: storage/backend/s3.rs:326-350 [list] *)
Definition list_file (dir marker : string) (obj : s3_object) : option DirEntry :=
  key ← obj_key obj;
  if bool_decide (key = marker) then None
  else
    relative ← strip_prefix marker key;
    if is_empty relative || ends_with_char "/" relative then None
    else
      name ← list.last (split "/" relative);
      Some (with_path (new_DirEntry name false (u64_wrap (default 0%Z (obj_size obj))))
              (path_join dir relative)).

(** Source: storage/backend/s3.rs:352-365 [list] *)
Definition list_prefix (dir marker : string) (prefix_item : option string) : option DirEntry :=
  full_prefix ← prefix_item;
  let stripped :=
    default full_prefix (strip_suffix "/" (default full_prefix (strip_prefix marker full_prefix))) in
  let name := default stripped (list.last (split "/" stripped)) in
  Some (with_path (new_DirEntry name true 0) (path_join dir stripped)).

(** Source: storage/backend/s3.rs [list] *)
Definition s3_list_dir (dir : string) (b : B) : result StorageError (list DirEntry) :=
  let prefix := path_to_key dir in
  let marker := marker_key prefix in
  response ← map_err (s3_map_error prefix) (list_objects_v2 bucket (Some marker) (Some "/") b);
  Ok (omap (list_file dir marker) (list_contents response) ++
      omap (list_prefix dir marker) (list_common_prefixes response)).

Definition put_marker (key : string) : B → B * result string () :=
  put_object bucket key (Some "application/x-directory") [].

(** Source: storage/backend/s3.rs [create_dir] *)
Definition s3_create_dir (path : string) : A () :=
  let key := dir_key (path_to_key path) in
  _ ← request key (put_marker key);
  mret tt.

Definition normal_part (c : component) : option string :=
  match c with Normal s => Some s | _ => None end.

(** Source: storage/backend/s3.rs [create_dir_all] *)
Definition s3_create_dir_all (path : string) : A () :=
  let parts : list string := omap normal_part (components (dir_key (path_to_key path))) in
  for_each (λ i : nat,
    let partial := join "/" (take i parts) in
    if is_empty partial then (mret tt : A ()) else dropping (put_marker (partial +:+ "/")))
    (seq 0 (S (length parts))).

(** Source: storage/backend/s3.rs [remove_dir] *)
Definition s3_remove_dir (path : string) : A () :=
  let prefix := dir_key (path_to_key path) in
  result ← query prefix (list_objects_v2 bucket (Some prefix) None);
  if has_contents result then lift (Err (SDirectoryNotEmpty path))
  else
    _ ← dropping (delete_object bucket prefix);
    mret tt.

(** Source: storage/backend/s3.rs [remove_dir_all] *)
Definition s3_remove_dir_all (path : string) : A () :=
  let prefix := dir_key (path_to_key path) in
  result ← query prefix (list_objects_v2 bucket (Some prefix) None);
  for_each (λ obj, match obj_key obj with Some key => dropping (delete_object bucket key) | None => (mret tt : A ()) end)
    (list_contents result).

(** Source: storage/backend/s3.rs [copy] *)
Definition s3_copy (from to : string) : A () :=
  let from_key := path_to_key from in
  let to_key := path_to_key to in
  response ← query from_key (head_object bucket from_key);
  let content_type := default "application/octet-stream" (head_content_type response) in
  _ ← request to_key (copy_object bucket (bucket +:+ "/" +:+ from_key) to_key content_type);
  mret tt.

(** Source: storage/backend/s3.rs [rename] *)
Definition s3_rename (from to : string) : A () :=
  _ ← s3_copy from to;
  s3_delete from.

(** Source: storage/backend/s3.rs [canonicalize] *)
Definition s3_canonicalize (path : string) (b : B) : result StorageError string :=
  Ok ("s3://" +:+ bucket +:+ "/" +:+ path_to_key path).

(** Source: storage/backend/s3.rs [size] *)
Definition s3_size (path : string) (b : B) : result StorageError Z :=
  let key := path_to_key path in
  response ← map_err (s3_map_error key) (head_object bucket key b);
  Ok (u64_wrap (default 0%Z (head_content_length response))).

(** Source: storage/backend/s3.rs:128-542 [impl Storage for S3Storage] *)
#[local] Instance s3_storage : Storage B := {|
  st_exists := s3_exists; st_is_file := s3_is_file; st_is_dir := s3_is_dir;
  st_read := s3_read; st_open := s3_open; st_seek_read := s3_seek_read;
  st_write p c := flipped (s3_write p c); st_append p c := flipped (s3_append p c);
  st_delete p := flipped (s3_delete p); st_metadata := s3_metadata; st_list := s3_list_dir;
  st_create_dir p := flipped (s3_create_dir p); st_create_dir_all p := flipped (s3_create_dir_all p);
  st_remove_dir p := flipped (s3_remove_dir p); st_remove_dir_all p := flipped (s3_remove_dir_all p);
  st_rename p q := flipped (s3_rename p q); st_copy p q := flipped (s3_copy p q);
  st_canonicalize := s3_canonicalize; st_size := s3_size; st_root_path _ := None |}.
End s3.
