(* ===== verification/S3Spec.v ===== *)
(** * What the S3 store promises

    The file operations as a refinement of operations on the objects of a
    bucket, for a service that answers as it documents; and what removing
    directories does. *)

From Stdlib Require Import Init.Byte.
From S2P Require Import Prelude RustStr Config Errors Paths Storage S3.
Local Open Scope stdpp_scope.

(** ** The service

    [objects] are the objects of a bucket. A request that succeeds has its
    effect; one that fails has it or has none. A list without a delimiter
    names the keys with the prefix, up to the size of a page. *)
Class S3Laws (B : Type) `{S3Client B} := {
  objects : string → B → gmap string bytes;
  page : nat;
  page_positive : page ≠ 0;
  head_spec bk k b h :
    head_object bk k b = Ok h →
    ∃ c, objects bk b !! k = Some c ∧ head_content_length h = Some (Z.of_nat (length c));
  get_spec bk k b chunks c :
    get_object bk k None b = Ok chunks → collect_body [] chunks = Ok c → objects bk b !! k = Some c;
  put_spec bk k ct c b b' r :
    put_object bk k ct c b = (b', r) →
    objects bk b' = <[k := c]> (objects bk b) ∨ is_err r = true ∧ objects bk b' = objects bk b;
  delete_spec bk k b b' r :
    delete_object bk k b = (b', r) →
    objects bk b' = delete k (objects bk b) ∨ is_err r = true ∧ objects bk b' = objects bk b;
  copy_spec bk k k' ct b b' r :
    copy_object bk (bk +:+ "/" +:+ k) k' ct b = (b', r) →
    (∃ c, objects bk b !! k = Some c ∧ objects bk b' = <[k' := c]> (objects bk b)) ∨
    is_err r = true ∧ objects bk b' = objects bk b;
  list_spec bk p b l :
    list_objects_v2 bk (Some p) None b = Ok l →
    ∃ keys, NoDup keys ∧ (∀ k, k ∈ keys ↔ is_Some (objects bk b !! k) ∧ starts_with p k = true) ∧
      map obj_key (list_contents l) = Some <$> take page keys;
}.

Section spec.
Context {B : Type} `{!S3Client B, !S3Laws B}.
Context (lowercase : string → string).
Context (s3 : S3Storage).
Notation objects := (objects (s3s_bucket s3)).

(** ** Operations on files *)

Inductive file_op :=
| FileWrite (path : string) (contents : bytes)
| FileAppend (path : string) (contents : bytes)
| FileDelete (path : string)
| FileCopy (from to : string)
| FileRename (from to : string).

Definition run_file_op (op : file_op) : action StorageError B () :=
  match op with
  | FileWrite p c => s3_write lowercase s3 p c
  | FileAppend p c => s3_append lowercase s3 p c
  | FileDelete p => s3_delete lowercase s3 p
  | FileCopy p q => s3_copy lowercase s3 p q
  | FileRename p q => s3_rename lowercase s3 p q
  end.

(** The changes an operation makes to the objects, one after the other; it
    has none where the object it starts from is missing. *)
Definition changes (op : file_op) (m : gmap string bytes) : option (list (gmap string bytes)) :=
  match op with
  | FileWrite p c => Some [<[path_to_key p := c]> m]
  | FileAppend p c => c0 ← m !! path_to_key p; Some [<[path_to_key p := c0 ++ c]> m]
  | FileDelete p => Some [delete (path_to_key p) m]
  | FileCopy p q => c ← m !! path_to_key p; Some [<[path_to_key q := c]> m]
  | FileRename p q =>
      c ← m !! path_to_key p;
      let copied := <[path_to_key q := c]> m in Some [copied; delete (path_to_key p) copied]
  end.

(** The abstract store: an operation that succeeds makes all its changes, one
    that fails some of the first ones, and is allowed to fail. *)
Inductive object_step : gmap string bytes → file_op * bool → gmap string bytes → Prop :=
| op_succeeds m op ms m' :
    changes op m = Some ms → list.last ms = Some m' → object_step m (op, true) m'
| op_fails m op m' :
    m' = m ∨ (∃ ms, changes op m = Some ms ∧ m' ∈ ms) → object_step m (op, false) m'.

(** The store of the code. *)
Inductive s3_step : B → file_op * bool → B → Prop :=
| s3_steps b op b' r : run_file_op op b = (b', r) → s3_step b (op, is_ok r) b'.

Lemma request_Ok {X} key (op : B → B * result string X) b b' x :
  request lowercase key op b = (b', Ok x) → op b = (b', Ok x).
Proof. unfold request. destruct (op b) as [b1 [y|e]]; cbn; congruence. Qed.

Lemma write_effect p c b b' r :
  s3_write lowercase s3 p c b = (b', r) →
  objects b' = <[path_to_key p := c]> (objects b) ∨ is_err r = true ∧ objects b' = objects b.
Proof.
  unfold s3_write, mbind, action_bind, request. destruct (put_object _ _ _ _ _) as [b1 x] eqn:Hp.
  apply put_spec in Hp. destruct x; cbn; intros [= -> <-]; naive_solver.
Qed.

Lemma delete_effect p b b' r :
  s3_delete lowercase s3 p b = (b', r) →
  objects b' = delete (path_to_key p) (objects b) ∨ is_err r = true ∧ objects b' = objects b.
Proof.
  unfold s3_delete, mbind, action_bind, request. destruct (delete_object _ _ _) as [b1 x] eqn:Hp.
  apply delete_spec in Hp. destruct x; cbn; intros [= -> <-]; naive_solver.
Qed.

Lemma copy_effect p q b b' r :
  s3_copy lowercase s3 p q b = (b', r) →
  (∃ c, objects b !! path_to_key p = Some c ∧ objects b' = <[path_to_key q := c]> (objects b)) ∨
  is_err r = true ∧ objects b' = objects b.
Proof.
  unfold s3_copy, mbind, action_bind, query, request, read.
  destruct (head_object _ _ _) as [h|e]; cbn; [|intros [= -> <-]; by right].
  destruct (copy_object _ _ _ _ _) as [b1 x] eqn:Hp. apply copy_spec in Hp.
  destruct x; cbn; intros [= -> <-]; naive_solver.
Qed.

Lemma s3_read_object p b c : s3_read lowercase s3 p b = Ok c → objects b !! path_to_key p = Some c.
Proof.
  unfold s3_read, body_of. intros (chunks&Hg%map_err_Ok&Hc)%bind_Ok. by eapply get_spec.
Qed.

(** All changes were made, whatever the outcome; none was made, in a failure. *)
Lemma all_changes m op ms m' (r : result StorageError ()) :
  changes op m = Some ms → list.last ms = Some m' → object_step m (op, is_ok r) m'.
Proof.
  intros Hms Hlast. destruct r; [by eapply op_succeeds|]. apply op_fails. right. exists ms.
  split; [done|]. by apply list.last_Some_elem_of.
Qed.
Lemma no_changes m op m' (r : result StorageError ()) :
  is_err r = true → m' = m → object_step m (op, is_ok r) m'.
Proof. intros Hr ->. destruct r; [done|]. apply op_fails. by left. Qed.

Lemma s3_step_refines b e b' : s3_step b e b' → object_step (objects b) e (objects b').
Proof.
  intros [b0 op b1 r H]. destruct op as [p c|p c|p|p q|p q]; cbn [run_file_op] in H.
  - apply write_effect in H as [->|[? ->]]; [by eapply all_changes|by apply no_changes].
  - unfold s3_append, mbind, action_bind, read in H.
    destruct (s3_read lowercase s3 p b0) as [c0|err] eqn:Hread; cbn in H; [|injection H as -> <-; by apply no_changes].
    apply s3_read_object in Hread. apply write_effect in H as [->|[? ->]]; [|by apply no_changes].
    eapply all_changes; [unfold changes; by rewrite Hread|done].
  - apply delete_effect in H as [->|[? ->]]; [by eapply all_changes|by apply no_changes].
  - apply copy_effect in H as [(c&Hc&->)|[? ->]]; [|by apply no_changes]. eapply all_changes; [unfold changes; by rewrite Hc|done].
  - unfold s3_rename, mbind, action_bind in H.
    destruct (s3_copy lowercase s3 p q b0) as [b2 r2] eqn:Hcopy. apply copy_effect in Hcopy.
    destruct Hcopy as [(c&Hc&Hb2)|[Hr2 Hb2]].
    2:{ destruct r2; [done|]. injection H as <- <-. by apply no_changes. }
    assert (changes (FileRename p q) (objects b0)
            = Some [objects b2; delete (path_to_key p) (objects b2)]) as Hms by (unfold changes; by rewrite Hc, Hb2).
    destruct r2 as [u|err]; cbn in H.
    + apply delete_effect in H as [->|[Hr ->]]; [by eapply all_changes|].
      destruct r; [done|]. apply op_fails. right. eexists. split; [done|]. by left.
    + injection H as <- <-. apply op_fails. right. eexists. split; [done|]. by left.
Qed.

(** C34: the file operations of the S3 store are operations on the objects of
    the bucket, under the path without its leading slash. Any run of writes,
    appends, deletes, copies and renames, whatever fails in between, is a run
    of the abstract store of objects with the same outcomes: an operation
    that succeeds has its whole effect, appending, copying and renaming need
    the object, and one that fails has made none of its changes or the
    first ones (a rename that fails may have left the copy). *)
Theorem s3_files_refine_objects (b b' : B) (run : list (file_op * bool))
    (Hrun : steps s3_step b run b') :
  steps object_step (objects b) run (objects b').
Proof.
  destruct (steps_simulation (λ b m, objects b = m) s3_step object_step) with
    (s := b) (es := run) (s1 := b') (t := objects b) as (m&Hm&<-); [|done|done|done].
  intros s e s1 m Hs <-. exists (objects s1). split; [by apply s3_step_refines|done].
Qed.

(** ** Removing directories *)

Lemma contents_of_prefix prefix b l :
  list_objects_v2 (s3s_bucket s3) (Some prefix) None b = Ok l →
  has_contents l = false → ∀ k, starts_with prefix k = true → objects b !! k = None.
Proof.
  intros (keys&_&Hkeys&Hl)%list_spec Hc k Hk. unfold has_contents in Hc.
  apply negb_false_iff, bool_decide_eq_true in Hc.
  assert (length (take page keys) = 0) as Hlen.
  { apply (f_equal length) in Hl. rewrite length_map, Hc, length_fmap in Hl. done. }
  destruct (objects b !! k) as [c|] eqn:Hb; [|done].
  assert (k ∈ keys) as Hin by (apply Hkeys; eauto). exfalso.
  pose proof page_positive. destruct keys; [by apply not_elem_of_nil in Hin|].
  rewrite length_take in Hlen. cbn in Hlen. lia.
Qed.

Lemma starts_with_refl s : starts_with s s = true.
Proof. apply starts_with_true. exists "". by rewrite app_nil_r. Qed.

(** Removing a directory removes nothing. Whatever the bucket holds and
    whatever the service answers, its objects are the same before and after;
    in particular a directory that was just created is found not to be empty,
    because the list of its keys has its own marker. *)
Theorem s3_remove_dir_removes_nothing (path : string) (b b' : B) (r : result StorageError ())
    (Hremove : s3_remove_dir lowercase s3 path b = (b', r)) :
  objects b' = objects b ∧
  (is_Some (objects b !! dir_key (path_to_key path)) → is_err r = true).
Proof.
  unfold s3_remove_dir, mbind, action_bind, query, read in Hremove.
  destruct (list_objects_v2 _ _ _ b) as [l|e] eqn:Hl; cbn in Hremove; [|by injection Hremove as -> <-].
  pose proof (contents_of_prefix _ _ _ Hl) as Hnone.
  destruct (has_contents l); [by injection Hremove as <- <-|].
  assert (objects b !! dir_key (path_to_key path) = None) as Hno by (apply Hnone, starts_with_refl; done).
  unfold dropping in Hremove. destruct (delete_object _ _ b) as [b1 r1] eqn:Hd. cbn in Hremove.
  injection Hremove as <- <-. split.
  - apply delete_spec in Hd as [->|[_ ->]]; [|done]. by apply delete_id.
  - intros [c Hc]. congruence.
Qed.

(** The objects of a directory, its marker included. *)
Definition objects_below (path : string) (b : B) : gmap string bytes :=
  filter (λ kv, starts_with (dir_key (path_to_key path)) kv.1 = true) (objects b).

(** Every delete of the service succeeds. *)
Definition deletes_succeed : Prop := ∀ k b, is_ok (delete_object (s3s_bucket s3) k b).2 = true.

Lemma delete_loop (Hdel : deletes_succeed) ks l b :
  map obj_key l = Some <$> ks →
  ∃ b', for_each (λ obj, match obj_key obj with
                         | Some key => dropping (delete_object (s3s_bucket s3) key)
                         | None => (mret tt : action StorageError B ())
                         end) l b = (b', Ok tt) ∧
    ∀ k, objects b' !! k = if decide (k ∈ ks) then None else objects b !! k.
Proof.
  revert l b. induction ks as [|k0 ks IH]; intros [|o l] b Hl; try done.
  { exists b. split; [done|]. intros k. by rewrite decide_False by apply not_elem_of_nil. }
  cbn in Hl. injection Hl as Ho Hl. cbn [for_each]. rewrite Ho. unfold dropping at 1. cbn.
  specialize (Hdel k0 b). destruct (delete_object _ k0 b) as [b1 r1] eqn:Hd. cbn in *.
  apply delete_spec in Hd as [Hb1|[Hr _]]; [|by destruct r1].
  destruct (IH l b1 Hl) as (b'&Hrun&Hb'). exists b'. split; [done|]. intros k. rewrite Hb', Hb1.
  destruct (decide (k = k0)) as [->|Hne].
  - rewrite lookup_delete_eq, (decide_True (P := k0 ∈ k0 :: ks)) by left. by destruct (decide _).
  - rewrite lookup_delete_ne by done. destruct (decide (k ∈ ks)) as [Hin|Hin].
    + by rewrite decide_True by (by right).
    + rewrite decide_False; [done|]. by intros [|]%elem_of_cons.
Qed.

Lemma objects_below_keys path b keys :
  NoDup keys →
  (∀ k, k ∈ keys ↔ is_Some (objects b !! k) ∧ starts_with (dir_key (path_to_key path)) k = true) →
  size (objects_below path b) = length keys.
Proof.
  intros Hnd Hkeys. rewrite <-size_dom.
  assert (dom (objects_below path b) = list_to_set (C := gset string) keys) as ->.
  { apply set_eq. intros k. rewrite elem_of_dom, elem_of_list_to_set, Hkeys. unfold objects_below.
    unfold is_Some. setoid_rewrite map_lookup_filter_Some. naive_solver. }
  by apply size_list_to_set.
Qed.

(** Removing a directory with its contents removes one page of it. Where
    the service carries out every delete, the objects outside the directory
    stay, and of those of the directory as many go as a list names in one
    answer: a directory with more of them is not empty afterwards, although
    the removal has succeeded. *)
Theorem s3_remove_dir_all_one_page (path : string) (b b' : B)
    (Hdel : deletes_succeed)
    (Hremove : s3_remove_dir_all lowercase s3 path b = (b', Ok tt)) :
  (∀ k, starts_with (dir_key (path_to_key path)) k = false → objects b' !! k = objects b !! k) ∧
  size (objects_below path b') = size (objects_below path b) - page.
Proof.
  unfold s3_remove_dir_all, mbind, action_bind, query, read in Hremove.
  destruct (list_objects_v2 _ _ _ b) as [l|e] eqn:Hl; cbn in Hremove; [|done].
  apply list_spec in Hl as (keys&Hnd&Hkeys&Hl).
  destruct (delete_loop Hdel _ _ b Hl) as (b1&Hrun&Hb'). rewrite Hrun in Hremove. injection Hremove as <-.
  split.
  - intros k Hk. rewrite Hb'. destruct (decide _) as [Hin|]; [|done].
    assert (k ∈ keys) as [_ Hstart]%Hkeys by (rewrite <-(take_drop page keys); apply elem_of_app; by left).
    congruence.
  - rewrite (objects_below_keys path b keys Hnd Hkeys).
    rewrite (objects_below_keys path b1 (drop page keys)); [apply length_drop| |].
    + rewrite <-(take_drop page keys) in Hnd. by apply list.NoDup_app in Hnd as (_&_&?).
    + intros k. rewrite Hb'. rewrite <-(take_drop page keys) in Hnd.
      apply list.NoDup_app in Hnd as (_&Hdisj&_).
      assert (k ∈ keys ↔ k ∈ take page keys ∨ k ∈ drop page keys) as Hsplit.
      { by rewrite <-elem_of_app, take_drop. }
      destruct (decide (k ∈ take page keys)) as [Hin|Hin].
      * split; [intros Hd; exfalso; by eapply Hdisj|]. by intros [[? ?] _].
      * rewrite <-Hkeys, Hsplit. naive_solver.
Qed.
End spec.

(** ** The interface of the handlers

    A service that carries out what it is asked: a request for an object is
    answered, ranges included, and one that fails has no effect. *)
Class S3Reliable (B : Type) `{S3Laws B} : Prop := {
  head_answers bk k b c : objects bk b !! k = Some c → is_ok (head_object bk k b) = true;
  get_answers bk k b c :
    objects bk b !! k = Some c → ∃ chunks, get_object bk k None b = Ok chunks ∧ collect_body [] chunks = Ok c;
  get_range bk k b c off :
    objects bk b !! k = Some c → (0 ≤ off < Z.of_nat (length c))%Z →
    ∃ chunks, get_object bk k (Some ("bytes=" +:+ show_Z off +:+ "-")) b = Ok chunks ∧
      collect_body [] chunks = Ok (drop (Z.to_nat off) c);
  put_fails bk k ct c b b' e : put_object bk k ct c b = (b', Err e) → objects bk b' = objects bk b;
  delete_fails bk k b b' e : delete_object bk k b = (b', Err e) → objects bk b' = objects bk b;
  copy_fails bk source k ct b b' e :
    copy_object bk source k ct b = (b', Err e) → objects bk b' = objects bk b;
}.

Section laws.
Context {B : Type} `{!S3Client B, !S3Laws B, !S3Reliable B}.
Context (lowercase : string → string) (parse_from_rfc3339 : string → option Z) (s3 : S3Storage).
Notation objects := (objects (s3s_bucket s3)).
Notation store := (s3_storage lowercase parse_from_rfc3339 s3).
Notation content := (@content B store).

Lemma s3_content p b : content p b = objects b !! path_to_key p.
Proof.
  unfold content. cbn [s3_storage st_read]. destruct (objects b !! path_to_key p) as [c|] eqn:Hc.
  - apply get_answers in Hc as (chunks&Hg&Hb). unfold s3_read, body_of. by rewrite Hg; cbn; rewrite Hb.
  - destruct (s3_read lowercase s3 p b) as [c|e] eqn:Hr; [|done]. apply s3_read_object in Hr. congruence.
Qed.

(** Markers are objects whose keys end with a slash. *)
Lemma create_dir_all_objects p b k :
  ends_with_char "/" k = false → objects (s3_create_dir_all s3 p b).1 !! k = objects b !! k.
Proof.
  intros Hk. unfold s3_create_dir_all.
  set (body := λ i : nat, _). pattern (for_each body (seq 0 (S (length (omap normal_part
    (components (dir_key (path_to_key p))))))) b).1.
  apply (for_each_inv (λ b', objects b' !! k = objects b !! k)); [|done]. intros i b1 _ <-. unfold body.
  cbv zeta. destruct (is_empty _); [done|]. unfold dropping, put_marker.
  destruct (put_object _ _ _ _ b1) as [b2 r] eqn:Hp. cbn [fst]. apply put_spec in Hp as [->|[_ ->]]; [|done].
  apply lookup_insert_ne. intros <-. by rewrite ends_with_char_last in Hk.
Qed.

Lemma delete_file_effect p b b' r :
  s3_delete lowercase s3 p b = (b', r) →
  objects b' = match r with Ok _ => delete (path_to_key p) (objects b) | Err _ => objects b end.
Proof.
  unfold s3_delete, mbind, action_bind, request. destruct (delete_object _ _ _) as [b1 x] eqn:Hp.
  pose proof (delete_spec _ _ _ _ _ Hp) as Hs. destruct x; cbn; intros [= -> <-].
  - naive_solver.
  - by eapply delete_fails.
Qed.

Lemma rename_effect p q b b' r :
  s3_rename lowercase s3 p q b = (b', r) →
  match r with
  | Ok _ => ∃ c, objects b !! path_to_key p = Some c ∧
                 objects b' = delete (path_to_key p) (<[path_to_key q := c]> (objects b))
  | Err _ => ∀ k, k ≠ path_to_key q → objects b' !! k = objects b !! k
  end.
Proof.
  unfold s3_rename, mbind, action_bind. destruct (s3_copy lowercase s3 p q b) as [b1 x] eqn:Hc.
  apply copy_effect in Hc. destruct x as [u|e]; cbn.
  - intros H%delete_file_effect. destruct Hc as [(c&Hc&Hb1)|[? _]]; [|done]. rewrite Hb1 in H.
    destruct r; [by exists c|]. intros k Hk. rewrite H. by apply lookup_insert_ne.
  - intros [= -> <-] k Hk. destruct Hc as [(c&_&->)|[_ ->]]; [|done]. by apply lookup_insert_ne.
Qed.

#[local] Existing Instance s3_storage.

(** The store of a reliable service is a store the handlers can use. *)
Definition s3_storage_laws : @StorageLaws B store.
Proof.
  refine {| apart p q := path_to_key p ≠ path_to_key q;
            names_file p := negb (ends_with_char "/" (path_to_key p)) |}; intros *;
    rewrite ?s3_content; cbn [s3_storage st_exists st_seek_read st_write st_delete st_metadata
      st_create_dir_all st_rename].
  - done.
  - intros H%flipped_result%write_effect. destruct H as [->|[? _]]; [by rewrite lookup_insert_eq|done].
  - intros H%flipped_result%write_effect Hne. destruct H as [->|[_ ->]]; [by rewrite lookup_insert_ne|done].
  - intros Hc. pose proof (head_answers _ _ _ _ Hc) as Hh. unfold s3_metadata.
    destruct (head_object _ _ _) as [h|] eqn:Hhead; [|done]. cbn. eexists. split; [done|]. split; [done|].
    intros Hlen. apply head_spec in Hhead as (c'&Hc'&->). cbn. rewrite u64_wrap_small; congruence.
  - intros Hoff Hc. destruct (get_range _ _ _ _ _ Hc Hoff) as (chunks&Hg&Hb).
    unfold s3_seek_read, body_of. rewrite Hg. cbn. by rewrite Hb.
  - intros Hc. unfold s3_exists, key_exists. by eapply head_answers.
  - intros H%flipped_result Hq%negb_true_iff. rewrite <-(create_dir_all_objects p s) by done. by rewrite H.
  - intros _ H%flipped_result%delete_file_effect. setoid_rewrite s3_content. rewrite H. split.
    + intros ->. apply lookup_delete_eq.
    + intros q Hq. destruct r; [|done]. by apply lookup_delete_ne.
  - intros Hc Hne (c'&Hc'&->)%flipped_result%rename_effect. rewrite Hc in Hc'. injection Hc' as <-.
    by rewrite lookup_delete_eq, lookup_delete_ne, lookup_insert_eq by done.
  - intros H%flipped_result%rename_effect Hp Hq. destruct r as [[]|e]; [|by apply H].
    destruct H as (c&_&->). rewrite lookup_delete_ne, lookup_insert_ne; auto.
Defined.
End laws.

(** ** A service

    Buckets are maps from keys to contents; a list has pages of two keys. *)

Notation buckets := (gmap string (gmap string bytes)).
Definition bucket_of (bk : string) (b : buckets) : gmap string bytes := default ∅ (b !! bk).
Definition with_bucket (bk : string) (m : gmap string bytes) (b : buckets) : buckets := <[bk := m]> b.
Definition keys_with (p : string) (m : gmap string bytes) : list string :=
  filter (λ k, starts_with p k = true) (map_to_list m).*1.

Definition listed (p : string) (delimiter : option string) (m : gmap string bytes) : s3_list :=
  let rest k := default "" (strip_prefix p k) in
  let keys := keys_with p m in
  let plain := match delimiter with
               | Some _ => filter (λ k, contains_char "/" (rest k) = false) keys
               | None => keys
               end in
  {| list_contents :=
       map (λ k, {| obj_key := Some k; obj_size := Z.of_nat <$> (length <$> m !! k) |}) (take 2 plain);
     list_common_prefixes :=
       match delimiter with
       | Some _ =>
           map Some (remove_dups (omap (λ k, split_once "/" (rest k) ≫= λ '(d, _), Some (p +:+ d +:+ "/")) keys))
       | None => []
       end |}.

#[export] Instance buckets_client : S3Client buckets := {|
  head_object bk k b :=
    match bucket_of bk b !! k with
    | Some c => Ok {| head_content_length := Some (Z.of_nat (length c)); head_content_type := None;
                      head_last_modified := None |}
    | None => Err "no such key"
    end;
  get_object bk k range b :=
    match bucket_of bk b !! k, range with
    | Some c, None => Ok [Ok c]
    | Some c, Some range =>
        match find_first (λ off, bool_decide (range = "bytes=" +:+ show_Z (Z.of_nat off) +:+ "-")) (seq 0 (length c)) with
        | Some off => Ok [Ok (drop off c)]
        | None => Err "range not satisfiable"
        end
    | None, _ => Err "no such key"
    end;
  put_object bk k ct c b := (with_bucket bk (<[k := c]> (bucket_of bk b)) b, Ok tt);
  delete_object bk k b := (with_bucket bk (delete k (bucket_of bk b)) b, Ok tt);
  copy_object bk source k ct b :=
    match strip_prefix (bk +:+ "/") source ≫= λ k0, bucket_of bk b !! k0 with
    | Some c => (with_bucket bk (<[k := c]> (bucket_of bk b)) b, Ok tt)
    | None => (b, Err "no such key")
    end;
  list_objects_v2 bk p d b := Ok (listed (default "" p) d (bucket_of bk b));
|}.

Lemma bucket_of_with bk m b : bucket_of bk (with_bucket bk m b) = m.
Proof. unfold bucket_of, with_bucket. by rewrite lookup_insert_eq. Qed.

#[export] Instance buckets_laws : S3Laws buckets.
Proof.
  refine {| objects := bucket_of; page := 2 |}; [done|..].
  - intros bk k b h. cbn. destruct (bucket_of bk b !! k) as [c|]; [|done]. intros [= <-]. by exists c.
  - intros bk k b chunks c. cbn. destruct (bucket_of bk b !! k) as [c0|]; [|done]. by intros [= <-] [= <-].
  - intros bk k ct c b b' r [= <- _]. left. apply bucket_of_with.
  - intros bk k b b' r [= <- _]. left. apply bucket_of_with.
  - intros bk k k' ct b b' r. cbn. rewrite <-app_assoc, strip_prefix_app. cbn.
    destruct (bucket_of bk b !! k) as [c|]; intros [= <- <-]; [|by right].
    left. exists c. split; [done|]. apply bucket_of_with.
  - intros bk p b l [= <-]. exists (keys_with p (bucket_of bk b)). split_and!.
    + apply list.NoDup_filter, NoDup_fst_map_to_list.
    + intros k. unfold keys_with. rewrite list_elem_of_filter, list_elem_of_fmap. split.
      * intros [Hk ([k0 c]&->&Hin%elem_of_map_to_list)]. eauto.
      * intros [[c Hc] Hk]. split; [done|]. exists (k, c). split; [done|]. by apply elem_of_map_to_list.
    + cbn. rewrite map_map. done.
Defined.

#[export] Instance buckets_reliable : S3Reliable buckets.
Proof.
  split.
  - intros bk k b c. cbn. by intros ->.
  - intros bk k b c. cbn. intros ->. by exists [Ok c].
  - intros bk k b c off. cbn [objects buckets_laws get_object buckets_client]. intros -> Hoff.
    set (P := λ o : nat, bool_decide ("bytes=" +:+ show_Z off +:+ "-" = "bytes=" +:+ show_Z (Z.of_nat o) +:+ "-")).
    assert (∀ o, P o = true → off = Z.of_nat o) as HP.
    { intros o Ho%bool_decide_eq_true. apply app_inj_l in Ho.
      assert (strip_suffix "-" (show_Z off +:+ "-") = Some (show_Z (Z.of_nat o))) as Hs by (by apply strip_suffix_Some).
      assert (strip_suffix "-" (show_Z off +:+ "-") = Some (show_Z off)) as Hs' by (by apply strip_suffix_Some).
      apply (inj (pretty (A := Z))). unfold show_Z in *. congruence. }
    destruct (find_first P (seq 0 (length c))) as [o|] eqn:Hfind.
    + apply find_first_elem in Hfind as [_ ->%HP]. eexists. split; [done|]. cbn. by rewrite Nat2Z.id.
    + assert (P (Z.to_nat off) = false) as HPoff.
      { apply (proj1 (find_first_None _ _) Hfind). apply elem_of_seq. lia. }
      apply bool_decide_eq_false in HPoff. by rewrite Z2Nat.id in HPoff by lia.
  - done.
  - done.
  - intros bk source k ct b b' e. cbn. destruct (strip_prefix _ _ ≫= _); congruence.
Qed.

(** ** Witnesses *)

Definition photos : S3Storage := {| s3s_bucket := "photos" |}.
Definition three_photos : buckets :=
  {["photos" := {["a/1" := [x61]; "a/2" := [x62]; "a/3" := [x63]; "b" := [x64]]}]}.

Definition after (op : file_op) (b : buckets) : buckets := (run_file_op id photos op b).1.
Definition new_photo : file_op := FileWrite "/a/4" [x65].
Definition moved_photo : file_op := FileRename "a/4" "c".
Definition lost_photo : file_op := FileAppend "d" [x66].

Lemma s3_files_refine_objects_witness :
  steps object_step (objects "photos" three_photos) [(new_photo, true); (moved_photo, true); (lost_photo, false)]
    (objects "photos" (after lost_photo (after moved_photo (after new_photo three_photos)))).
Proof.
  refine (s3_files_refine_objects id photos three_photos _ _ _).
  refine (steps_cons _ _ _ (after new_photo three_photos) _ _ _ _).
  { refine (s3_steps id photos _ _ _ (Ok tt) _). vm_compute. reflexivity. }
  refine (steps_cons _ _ _ (after moved_photo (after new_photo three_photos)) _ _ _ _).
  { refine (s3_steps id photos _ _ _ (Ok tt) _). vm_compute. reflexivity. }
  refine (steps_cons _ _ _ _ _ _ _ (steps_nil _ _)).
  refine (s3_steps id photos _ _ _ (Err (SNotFound "d")) _). vm_compute. reflexivity.
Defined.

(** A directory that was just created. *)
Definition new_album : buckets := (s3_create_dir id photos "/album" three_photos).1.

Lemma s3_remove_dir_removes_nothing_witness :
  (s3_remove_dir id photos "/album" new_album).2 = Err (SDirectoryNotEmpty "/album") ∧
  objects "photos" (s3_remove_dir id photos "/album" new_album).1 = objects "photos" new_album.
Proof.
  split; [vm_compute; reflexivity|].
  refine (proj1 (s3_remove_dir_removes_nothing id photos "/album" new_album
    (s3_remove_dir id photos "/album" new_album).1 (Err (SDirectoryNotEmpty "/album")) _)).
  vm_compute. reflexivity.
Defined.

Lemma s3_remove_dir_all_one_page_witness :
  size (objects_below photos "/a" (s3_remove_dir_all id photos "/a" three_photos).1) = 1.
Proof.
  refine (eq_trans (proj2 (s3_remove_dir_all_one_page id photos "/a" three_photos
    (s3_remove_dir_all id photos "/a" three_photos).1 _ _)) _).
  - intros k b. reflexivity.
  - vm_compute. reflexivity.
  - vm_compute. reflexivity.
Defined.
