(* ===== verification/Http.v ===== *)
(** * HTTP clients

    What the cloud stores use of the HTTP client library: a request is sent to
    the world outside, which changes and answers. The effects of the stores
    that speak HTTP can also panic. *)

From Stdlib Require Import Init.Byte.
From S2P Require Import Prelude RustStr Errors Storage.
Local Open Scope stdpp_scope.

Record request := {
  req_method : string;
  req_url : string;
  req_headers : list (string * string);
  req_body : option bytes;
}.

(** A header is read as text, where it is one; the body may break off. *)
Record reply := {
  rep_status : Z;
  rep_header : string → option string;
  rep_body : result string bytes;
}.

(** Sending a request; the error is the text of the library's error. *)
Class HttpClient (W : Type) := { send : request → W → W * result string reply }.

(** [StatusCode::is_success] and [is_server_error]. *)
Definition is_success (status : Z) : bool := (200 <=? status)%Z && (status <? 300)%Z.
Definition is_server_error (status : Z) : bool := (500 <=? status)%Z && (status <? 600)%Z.

(** ** Effects

    A task that panics ends, whoever waits for its result. *)
Inductive failure := Failure (e : StorageError) | Panicked.

Section effects.
Context {W : Type}.
Notation A := (action failure W).

Definition pure {X} (r : result StorageError X) : A X := lift (map_err Failure r).
Definition look {X} (f : W → X) : A X := read (λ w, Ok (f w)).

(** [let Ok(x) = m else { ... }]: the error is dropped. *)
Definition attempt {X} (m : A X) : A (option X) := λ w,
  match m w with
  | (w', Ok x) => (w', Ok (Some x))
  | (w', Err (Failure _)) => (w', Ok None)
  | (w', Err Panicked) => (w', Err Panicked)
  end.

(** [client.execute(request)] *)
Definition sending `{!HttpClient W} (failed : string → StorageError) (req : request) : A reply := λ w,
  let '(w', r) := send req w in (w', map_err (λ e, Failure (failed e)) r).
(** The same where the error is looked at. *)
Definition try_sending `{!HttpClient W} (req : request) : A (option reply) := λ w,
  let '(w', r) := send req w in (w', Ok (ok r)).

(** A loop over what has been listed. *)
Definition each {X} (f : X → A ()) (xs : list X) : A () := for_each f xs.
End effects.
