(* ===== verification/Azure.v ===== *)
(** * The Azure store

    [AzureStorage] of src/src/storage/backend/azure.rs over the HTTP client:
    the signature of a request, the errors of an answer, the lists of a
    container and the operations of the storage trait. *)

From Stdlib Require Import Init.Byte.
From S2P Require Import Prelude RustStr Config Errors Paths Storage Http.
Local Open Scope stdpp_scope.

(** Source: storage/backend/azure.rs [AZURE_BLOB_API_VERSION] *)
Definition AZURE_BLOB_API_VERSION : string := "2023-11-03".
(** Source: storage/backend/azure.rs [MAX_COPY_RETRIES] *)
Definition MAX_COPY_RETRIES : nat := 60.

Definition newline : string := String (ascii_of_N 10) "".
Definition carriage_return : string := String (ascii_of_N 13) "".

(** Source: storage/backend/azure.rs [AzureStorage] *)
Record AzureStorage := { azs_account_name : string; azs_account_key : string; azs_container : string }.

(** Source: storage/backend/azure.rs [new] *)
Definition new_AzureStorage (config : StoreConfig) : result StorageError AzureStorage :=
  azure ← ok_or (SInvalidBackend "azure config section must be present for azure backend") (st_azure config);
  Ok {| azs_account_name := az_account_name azure; azs_account_key := az_account_key azure;
        azs_container := az_container azure |}.

(** Source: storage/backend/azure.rs [path_to_blob_name] *)
Definition path_to_blob_name (path : string) : string := default path (strip_prefix "/" path).

(** ** Signatures *)

Definition xor_byte (a b : Byte.byte) : Byte.byte :=
  default x00 (Byte.of_N (N.lxor (Byte.to_N a) (Byte.to_N b))).

(** The [i]-th bytes of both pads; [k] is read below the length of the key. *)
Definition pad_byte (key_length : nat) (k : bytes) (i : nat) : option (Byte.byte * Byte.byte) :=
  if i <? key_length then b ← k !! i; Some (xor_byte x36 b, xor_byte x5c b) else Some (x36, x5c).

(** [None] is an index out of bounds.
    Source: storage/backend/azure.rs [compute_hmac_sha256] *)
Definition compute_hmac_sha256 (sha256 : bytes → bytes) (key message : bytes) : option bytes :=
  let block_size := 64 in
  let k := if block_size <? length key then sha256 key
           else key ++ repeat x00 (block_size - length key) in
  pads ← mapM (pad_byte (length key) k) (seq 0 block_size);
  let inner_hash := sha256 (map fst pads ++ message) in
  Some (sha256 (map snd pads ++ inner_hash)).

(** ** Lists *)

(** The answer of a list request as it is deserialized; a size is text.
    Source: storage/backend/azure.rs [AzureBlob] *)
Record AzureBlob := { blob_name : string; blob_size : option string }.
(** Source: storage/backend/azure.rs [ListResponse] *)
Record ListResponse := { lr_blobs : option (list AzureBlob); lr_prefixes : list string }.

(** [dirs.push(d)] unless it is there. *)
Definition push_new (d : string) (dirs : list string) : list string :=
  if bool_decide (d ∈ dirs) then dirs else dirs ++ [d].

Notation ListResult := (list (string * Z) * list string)%type.

(** Source: storage/backend/azure.rs:294-314 [parse_list_xml] *)
Definition list_blob (prefix : string) (acc : ListResult) (blob : AzureBlob) : ListResult :=
  let '(files, dirs) := acc in
  if bool_decide (blob_name blob = prefix) then acc
  else match strip_prefix prefix (blob_name blob) with
       | None => acc
       | Some suffix =>
           let suffix := default suffix (strip_prefix "/" suffix) in
           match split_once "/" suffix with
           | Some (dir_name, _) => (files, push_new dir_name dirs)
           | None =>
               if is_empty suffix then acc
               else (files ++ [(suffix, default 0%Z (blob_size blob ≫= parse_u64))], dirs)
           end
       end.

(** Source: storage/backend/azure.rs:317-326 [parse_list_xml] *)
Definition list_blob_prefix (prefix : string) (acc : ListResult) (name : string) : ListResult :=
  let '(files, dirs) := acc in
  match strip_prefix prefix name with
  | None => acc
  | Some suffix =>
      let dir_name := trim_end "/" suffix in
      if is_empty dir_name then acc else (files, push_new dir_name dirs)
  end.

(** Source: storage/backend/azure.rs [parse_list_xml] *)
Definition parse_list_xml (from_str : string → result string ListResponse) (xml prefix : string)
  : result StorageError ListResult :=
  doc ← map_err (λ e, SInternal ("Failed to parse Azure list response: " +:+ e)) (from_str xml);
  let prefix := trim_end "/" prefix in
  let found := foldl (list_blob prefix) ([], []) (default [] (lr_blobs doc)) in
  Ok (foldl (list_blob_prefix prefix) found (lr_prefixes doc)).

(** ** Answers *)

(** [show_status] is the code with its reason phrase.
    Source: storage/backend/azure.rs [handle_response] *)
Definition handle_response (show_status : Z → string) (response : reply) (blob_name : string) : result StorageError reply :=
  let status := rep_status response in
  if bool_decide (status ∈ [200; 201; 204; 202; 409])%Z then Ok response
  else if (status =? 404)%Z then Err (SNotFound blob_name)
  else if ((status =? 403) || (status =? 401))%Z then Err (SAuthentication "Azure authentication failed")
  else if (status =? 429)%Z then Err (SServiceUnavailable "Azure rate limited")
  else if is_server_error status then
    Err (SServiceUnavailable ("Azure service error: " +:+ show_status status))
  else Ok response.

(** A header of the text that was signed.
    Source: storage/backend/azure.rs [parse_canonicalized_headers] *)
Definition parse_canonicalized_headers (s : string) : list (string * string) :=
  let line l := default l (strip_suffix carriage_return l) in
  omap (split_once ":") (filter (λ l, is_empty l = false) (map line (split (ascii_of_N 10) s))).

Section azure.
Context {W : Type} `{!HttpClient W}.
(** What the time and the next random identifier are in a world. *)
Context (rfc3339_timestamp new_v4 : W → string).
Context (sha256 : bytes → bytes) (base64_decode : string → option bytes) (base64_encode : bytes → string).
(** Percent encoding with BLOB_NAME_ENCODE_SET, the XML of a list, the text of
    a body, and a time of RFC 2822. *)
Context (percent_encode : string → string) (from_str : string → result string ListResponse).
Context (text : bytes → string) (parse_from_rfc2822 : string → option Z) (show_status : Z → string).
Context (azure : AzureStorage).

Notation A := (action failure W).
Notation handle r name := (pure (handle_response show_status r name)).

(** Source: storage/backend/azure.rs [base_url] *)
Definition base_url : string :=
  "https://" +:+ azs_account_name azure +:+ ".blob.core.windows.net/" +:+ azs_container azure.
(** Source: storage/backend/azure.rs [blob_url] *)
Definition blob_url (blob_name query : string) : string :=
  let encoded := percent_encode blob_name in
  if is_empty query then base_url +:+ "/" +:+ encoded else base_url +:+ "/" +:+ encoded +:+ "?" +:+ query.

(** The lines sorted by name, whatever the order of the map.
    Source: storage/backend/azure.rs [build_canonicalized_headers] *)
Definition build_canonicalized_headers (w : W) : string :=
  "x-ms-client-request-id:" +:+ new_v4 w +:+ newline +:+
  "x-ms-date:" +:+ rfc3339_timestamp w +:+ newline +:+
  "x-ms-version:" +:+ AZURE_BLOB_API_VERSION +:+ newline.

(** Source: storage/backend/azure.rs [build_canonicalized_resource] *)
Definition build_canonicalized_resource (blob_name query : string) : string :=
  let resource := "/" +:+ azs_account_name azure +:+ "/" +:+ azs_container azure +:+ "/" +:+ blob_name in
  if is_empty query then resource else resource +:+ newline +:+ query.

Definition newlines (n : nat) : string := join "" (repeat newline n).

(** Source: storage/backend/azure.rs [decode_base64] *)
Definition decode_base64 (s : string) : result StorageError bytes :=
  ok_or (SAuthentication "Invalid base64 in account key") (base64_decode s).

(** Source: storage/backend/azure.rs [sign_request] *)
Definition sign_request (verb : string) (content_length : Z) (canonicalized_headers canonicalized_resource : string)
  : A string :=
  let signing_string :=
    verb +:+ newlines 3 +:+ show_Z content_length +:+ newlines 10 +:+ canonicalized_headers +:+ newline +:+
    canonicalized_resource +:+ newline in
  key ← pure (decode_base64 (azs_account_key azure));
  signature ← lift (ok_or Panicked
                (compute_hmac_sha256 sha256 key (String.list_byte_of_string signing_string)));
  mret ("SharedKey " +:+ azs_account_name azure +:+ ":" +:+ base64_encode signature).

(** A signed request with more headers. *)
Definition signed_request (method blob_name query : string) (more : list (string * string))
    (body : option bytes) : A request :=
  canonicalized_headers ← look build_canonicalized_headers;
  auth ← sign_request method (match body with Some b => Z.of_nat (length b) | None => 0 end)
           canonicalized_headers (build_canonicalized_resource blob_name query);
  mret {| req_method := method; req_url := blob_url blob_name query;
          req_headers := [("Authorization", auth); ("x-ms-blob-type", "BlockBlob")] ++ more ++
                         parse_canonicalized_headers canonicalized_headers;
          req_body := body |}.

Definition unavailable (e : string) : StorageError := SServiceUnavailable ("Azure request failed: " +:+ e).

(** Source: storage/backend/azure.rs [request] *)
Definition azure_request (method blob_name query : string) (body : option bytes) : A reply :=
  req ← signed_request method blob_name query [] body;
  sending unavailable req.

(** A body read to its end. *)
Definition body_bytes (what : string) (response : reply) : A bytes :=
  pure (map_err (λ e, SInternal (what +:+ e)) (rep_body response)).

(** ** The operations *)

(** Source: storage/backend/azure.rs [exists] *)
Definition azure_exists (path : string) : A bool :=
  let name := path_to_blob_name path in
  response ← attempt (azure_request "HEAD" name "comp=properties" None);
  mret match response with
       | Some response => is_ok (handle_response show_status response name)
       | None => false
       end.

(** Source: storage/backend/azure.rs [is_file] *)
Definition azure_is_file (path : string) : A bool := azure_exists path.

(** The prefix of the blobs in a directory, and the query that lists them. *)
Definition dir_prefix (name : string) : string := if is_empty name then "" else name +:+ "/".
Definition list_query (prefix : string) : string := "restype=container&comp=list&delimiter=/&prefix=" +:+ prefix.

(** The answer of a list request. *)
Definition read_list (what prefix : string) (response : reply) : A ListResult :=
  body ← body_bytes what response;
  pure (parse_list_xml from_str (text body) prefix).

(** Source: storage/backend/azure.rs [is_dir] *)
Definition azure_is_dir (path : string) : A bool :=
  let name := path_to_blob_name path in
  let prefix := dir_prefix name in
  found ← attempt (response ← azure_request "GET" "" (list_query prefix) None;
                   response ← handle response name;
                   read_list "" prefix response);
  mret match found with Some (files, dirs) => negb (bool_decide (files = [] ∧ dirs = [])) | None => false end.

Definition get_blob (name : string) (what : string) : A bytes :=
  response ← azure_request "GET" name "comp=properties" None;
  response ← handle response name;
  body_bytes what response.

(** Source: storage/backend/azure.rs [read] *)
Definition azure_read (path : string) : A bytes :=
  get_blob (path_to_blob_name path) "Failed to read response body: ".
(** Source: storage/backend/azure.rs [open] *)
Definition azure_open (path : string) : A bytes :=
  get_blob (path_to_blob_name path) "Failed to read response body: ".

(** The status of the answer is not looked at.
    Source: storage/backend/azure.rs [seek_read] *)
Definition azure_seek_read (path : string) (offset : Z) : A bytes :=
  req ← signed_request "GET" (path_to_blob_name path) "comp=properties"
          [("Range", "bytes=" +:+ show_Z offset +:+ "-")] None;
  response ← sending unavailable req;
  body_bytes "Failed to read response body: " response.

(** Source: storage/backend/azure.rs [write] *)
Definition azure_write (path : string) (contents : bytes) : A () :=
  let name := path_to_blob_name path in
  response ← azure_request "PUT" name "comp=blockblob" (Some contents);
  _ ← handle response name;
  mret tt.

(** Source: storage/backend/azure.rs [append] *)
Definition azure_append (path : string) (contents : bytes) : A () :=
  let name := path_to_blob_name path in
  head_response ← attempt (azure_request "HEAD" name "comp=properties" None);
  match head_response with
  | None => azure_write path contents
  | Some head_response =>
      existing ← (if is_success (rep_status head_response)
                  then get_blob name "Failed to read existing blob: " else mret [] : A bytes);
      azure_write path (existing ++ contents)
  end.

(** Source: storage/backend/azure.rs [delete] *)
Definition azure_delete (path : string) : A () :=
  let name := path_to_blob_name path in
  response ← azure_request "DELETE" name "" None;
  _ ← handle response name;
  mret tt.

Definition header_or (name fallback : string) (response : reply) : string :=
  default fallback (rep_header response name).

(** Source: storage/backend/azure.rs [metadata] *)
Definition azure_metadata (path : string) : A FileMetadata :=
  let name := path_to_blob_name path in
  response ← azure_request "HEAD" name "comp=properties" None;
  response ← handle response name;
  mret {| fm_name := default path (comps_file_name (components path)); fm_is_file := true;
          fm_size := default 0%Z (parse_u64 (header_or "x-ms-blob-content-length" "0" response));
          fm_created := None;
          fm_modified := rep_header response "x-ms-last-modified" ≫= parse_from_rfc2822 |}.

(** Source: storage/backend/azure.rs [list] *)
Definition azure_list (dir : string) : A (list DirEntry) :=
  let name := path_to_blob_name dir in
  let prefix := if is_empty name || bool_decide (name = "/") then "" else name +:+ "/" in
  response ← azure_request "GET" "" (list_query prefix) None;
  response ← handle response "";
  '(files, dirs) ← read_list "Failed to read list response body: " prefix response;
  mret (map (λ '(file_name, size), with_path (new_DirEntry file_name false size) (prefix +:+ file_name)) files ++
        map (λ dir_name, with_path (new_DirEntry dir_name true 0) (prefix +:+ dir_name)) dirs).

(** Source: storage/backend/azure.rs [create_dir] *)
Definition azure_create_dir (path : string) : A () :=
  let name := path_to_blob_name path in
  azure_write (if negb (is_empty name) && negb (ends_with_char "/" name) then name +:+ "/" else name) [].

(** Source: storage/backend/azure.rs [create_dir_all] *)
Definition azure_create_dir_all (path : string) : A () :=
  let prefix := dir_prefix (path_to_blob_name path) in
  response ← attempt (azure_request "GET" "" (list_query prefix) None);
  match response with
  | None => azure_create_dir path
  | Some response =>
      present ← (if is_success (rep_status response) then
                   '(files, dirs) ← read_list "Failed to read list response: " prefix response;
                   mret (negb (bool_decide (files = [])) || negb (bool_decide (dirs = [])))
                 else mret false : A bool);
      if (present : bool) then mret tt else azure_create_dir path
  end.

(** The listed files of a directory are deleted. *)
Definition delete_files (prefix : string) (files : list (string * Z)) : A () :=
  each (λ '(file, _), azure_delete (prefix +:+ file)) files.

(** Source: storage/backend/azure.rs [remove_dir] *)
Definition azure_remove_dir (path : string) : A () :=
  let name := path_to_blob_name path in
  let prefix := dir_prefix name in
  response ← azure_request "GET" "" (list_query prefix) None;
  response ← handle response "";
  _ ← (if is_success (rep_status response) then
         '(files, _) ← read_list "Failed to read list response: " prefix response;
         delete_files prefix files
       else mret tt : A ());
  azure_delete (name +:+ "/").

(** The files of a subdirectory; a request that fails is skipped.
    Source: storage/backend/azure.rs:730-748 [remove_dir_all] *)
Definition remove_sub_dir (prefix : string) : A () :=
  sub_response ← attempt (azure_request "GET" "" (list_query prefix) None);
  match sub_response with
  | None => mret tt
  | Some sub_response =>
      if is_success (rep_status sub_response) then
        '(sub_files, _) ← read_list "Failed to read list: " prefix sub_response;
        delete_files prefix sub_files
      else mret tt
  end.

(** One round of the loop: whether it goes on.
    Source: storage/backend/azure.rs:702-749 [remove_dir_all] *)
Definition remove_round (prefix : string) : A bool :=
  response ← attempt (azure_request "GET" "" (list_query prefix) None);
  match response with
  | None => mret false
  | Some response =>
      if is_success (rep_status response) then
        '(files, sub_dirs) ← read_list "Failed to read list response: " prefix response;
        _ ← delete_files prefix files;
        if bool_decide (sub_dirs = []) then mret false
        else
          _ ← each (λ d, remove_sub_dir (prefix +:+ d +:+ "/")) sub_dirs;
          mret true
      else mret false
  end.

(** [None] is running out of fuel.
    Source: storage/backend/azure.rs [remove_dir_all] *)
Fixpoint remove_loop (fuel : nat) (prefix : string) (w : W) : option (W * result failure ()) :=
  match fuel with
  | O => None
  | S fuel =>
      match remove_round prefix w with
      | (w', Ok true) => remove_loop fuel prefix w'
      | (w', Ok false) => Some (w', Ok tt)
      | (w', Err e) => Some (w', Err e)
      end
  end.
Definition azure_remove_dir_all (fuel : nat) (path : string) : W → option (W * result failure ()) :=
  remove_loop fuel (dir_prefix (path_to_blob_name path)).

(** The status of a copy is asked for at most [n] times, half a second apart;
    the answers in [done_] end the wait.
    Source: storage/backend/azure.rs:769-788 [rename] *)
Fixpoint await_copy (n : nat) (done_ : list string) (failed : string) (blob : string) : A () :=
  match n with
  | O => mret tt
  | S n =>
      check_response ← try_sending {| req_method := "HEAD"; req_url := blob_url blob "comp=properties";
                                      req_headers := []; req_body := None |};
      match check_response with
      | Some r =>
          let status := header_or "x-ms-copy-status" "" r in
          if bool_decide (status ∈ done_) then mret tt
          else if bool_decide (status = "failure") then pure (Err (SInternal failed))
          else await_copy n done_ failed blob
      | None => await_copy n done_ failed blob
      end
  end.

(** The request that is meant to copy, and the wait for its end. *)
Definition start_copy (n : nat) (done_ : list string) (failed to_blob : string) : A () :=
  response ← azure_request "PUT" to_blob "comp=copy" None;
  let copy_status := header_or "x-ms-copy-status" "" response in
  _ ← handle response to_blob;
  if bool_decide (copy_status ∈ ["pending"; "success"]) then await_copy n done_ failed to_blob else mret tt.

(** Source: storage/backend/azure.rs [rename] *)
Definition azure_rename (from to : string) : A () :=
  _ ← start_copy 60 ["success"] "Copy failed during rename" (path_to_blob_name to);
  _ ← azure_delete from;
  mret tt.

(** The source of the copy is not used.
    Source: storage/backend/azure.rs [copy] *)
Definition azure_copy (_from to : string) : A () :=
  start_copy MAX_COPY_RETRIES ["success"; "invalid"] "Copy failed" (path_to_blob_name to).

(** Source: storage/backend/azure.rs [canonicalize] *)
Definition azure_canonicalize (path : string) : A string :=
  mret (base_url +:+ "/" +:+ percent_encode (path_to_blob_name path)).

(** [show_parse] is the error of a size that is no number.
    Source: storage/backend/azure.rs [size] *)
Definition azure_size (show_parse : string → string) (path : string) : A Z :=
  let name := path_to_blob_name path in
  response ← azure_request "HEAD" name "comp=properties" None;
  response ← handle response name;
  let size_str := header_or "x-ms-blob-content-length" "0" response in
  pure (ok_or (SInternal ("Failed to parse blob size: " +:+ show_parse size_str)) (parse_u64 size_str)).
End azure.
