(* ===== verification/AzureSpec.v ===== *)
(** * What the Azure store promises

    The signature as a keyed hash, which answers count as errors, what copying
    does with its source, and what removing a directory leaves. *)

From Stdlib Require Import Init.Byte.
From S2P Require Import Prelude RustStr Config Errors Paths Storage Http Azure.
Local Open Scope stdpp_scope.

(** ** The keyed hash *)

(** The hash of RFC 2104 for blocks of 64 bytes. *)
Definition hmac (sha256 : bytes → bytes) (key message : bytes) : bytes :=
  let key := if 64 <? length key then sha256 key else key in
  let block := key ++ repeat x00 (64 - length key) in
  let pad b := map (λ k, xor_byte b k) block in
  sha256 (pad x5c ++ sha256 (pad x36 ++ message)).

Lemma pad_bytes key :
  length key ≤ 64 →
  mapM (pad_byte (length key) (key ++ repeat x00 (64 - length key))) (seq 0 64)
  = Some (map (λ k, (xor_byte x36 k, xor_byte x5c k)) (key ++ repeat x00 (64 - length key))).
Proof.
  intros Hlen. set (block := key ++ _). assert (length block = 64) as Hblock.
  { unfold block. rewrite length_app, repeat_length. lia. }
  apply mapM_Some. apply Forall2_same_length_lookup. split.
  { by rewrite length_seq, length_map. }
  intros i j p Hi Hp. apply lookup_seq in Hi as [-> Hi]. rewrite Nat.add_0_l.
  rewrite list_lookup_fmap in Hp. destruct (block !! i) as [b|] eqn:Hb; [|done]. injection Hp as <-.
  unfold pad_byte. destruct (Nat.ltb_spec i (length key)) as [Hlt|Hge]; [by rewrite Hb|].
  unfold block in Hb. rewrite lookup_app_r in Hb by done.
  apply list_elem_of_lookup_2, list_elem_of_In, repeat_spec in Hb as ->. done.
Qed.

(** C35: the hash that signs a request is the keyed hash of RFC 2104 for keys up
    to the length of a block. A longer key, which the standard hashes first,
    makes the computation panic: the loop that fills the pads reads the hashed
    key at the indices of the original one. *)
Theorem signature_is_hmac (sha256 : bytes → bytes) (key message : bytes)
    (Hsha : ∀ m, length (sha256 m) = 32) :
  (length key ≤ 64 → compute_hmac_sha256 sha256 key message = Some (hmac sha256 key message)) ∧
  (64 < length key → compute_hmac_sha256 sha256 key message = None).
Proof.
  unfold compute_hmac_sha256, hmac. split; intros Hlen.
  - assert (64 <? length key = false) as -> by (by apply Nat.ltb_ge).
    rewrite pad_bytes by done. cbn [mbind option_bind]. by rewrite !map_map.
  - assert (64 <? length key = true) as -> by (by apply Nat.ltb_lt).
    destruct (mapM _ _) as [pads|] eqn:Hpads; [|done]. apply mapM_Some in Hpads.
    apply (Forall2_lookup_l _ _ _ 32 32) in Hpads as (p&_&Hp); [|done].
    unfold pad_byte in Hp. assert (32 <? length key = true) as Hlt by (apply Nat.ltb_lt; lia).
    rewrite Hlt in Hp. rewrite lookup_ge_None_2 in Hp by (by rewrite Hsha). done.
Qed.

Section spec.
Context {W : Type} `{!HttpClient W}.
Context (rfc3339_timestamp new_v4 : W → string).
Context (sha256 : bytes → bytes) (base64_decode : string → option bytes) (base64_encode : bytes → string).
Context (percent_encode : string → string) (show_status : Z → string) (azure : AzureStorage).

Notation sign := (signed_request rfc3339_timestamp new_v4 sha256 base64_decode base64_encode percent_encode azure).
Notation url := (blob_url percent_encode azure).
Notation write := (azure_write rfc3339_timestamp new_v4 sha256 base64_decode base64_encode percent_encode
  show_status azure).
Notation remove := (azure_delete rfc3339_timestamp new_v4 sha256 base64_decode base64_encode percent_encode
  show_status azure).
Notation copy := (azure_copy rfc3339_timestamp new_v4 sha256 base64_decode base64_encode percent_encode
  show_status azure).
Notation rename := (azure_rename rfc3339_timestamp new_v4 sha256 base64_decode base64_encode percent_encode
  show_status azure).

(** The key of the account, where it signs requests. *)
Definition signing_key : Prop :=
  ∃ key, base64_decode (azs_account_key azure) = Some key ∧ length key ≤ 64.

Lemma signed_request_Ok method name query more body w :
  (∀ m, length (sha256 m) = 32) → signing_key →
  ∃ req, sign method name query more body w = (w, Ok req) ∧ req_method req = method ∧
    req_url req = url name query ∧ req_body req = body.
Proof.
  intros Hsha (key&Hkey&Hlen). unfold signed_request, look, read, mbind, action_bind, and_then.
  unfold sign_request, pure, lift, decode_base64, mbind, action_bind, and_then. rewrite Hkey. cbn -[compute_hmac_sha256].
  rewrite (proj1 (signature_is_hmac sha256 key _ Hsha) Hlen). cbn. by eexists.
Qed.

(** ** Errors *)

(** The statuses that are reported as errors. *)
Definition reported (status : Z) : bool :=
  bool_decide (status ∈ [401; 403; 404; 429]%Z) || is_server_error status.

Lemma handle_response_reported response name :
  is_err (handle_response show_status response name) = reported (rep_status response).
Proof.
  unfold handle_response, reported. set (s := rep_status response).
  destruct (bool_decide_reflect (s ∈ [200; 201; 204; 202; 409]%Z)) as [Hin|_].
  { set_unfold. by repeat destruct Hin as [->|Hin]. }
  destruct (Z.eqb_spec s 404) as [->|H404]; [done|].
  destruct (Z.eqb_spec s 403) as [->|H403]; [done|]. destruct (Z.eqb_spec s 401) as [->|H401]; [done|].
  destruct (Z.eqb_spec s 429) as [->|H429]; [done|].
  rewrite bool_decide_eq_false_2 by set_solver. cbn. by destruct (is_server_error s).
Qed.

(** C36: a write that the service refuses can succeed. The outcome of a write
    whose request was answered depends on the status alone, and it is an
    error only for 401, 403, 404, 429 and the server errors: with any other
    status, such as 400, 409 or 412, by which the service refuses the blob, the
    write answers as if it had been stored. *)
Theorem azure_write_outcome (path : string) (contents : bytes) (req : request) (response : reply) (w w' : W)
    (Hsign : sign "PUT" (path_to_blob_name path) "comp=blockblob" [] (Some contents) w = (w, Ok req))
    (Hsend : send req w = (w', Ok response)) :
  (write path contents w).1 = w' ∧ is_err (write path contents w).2 = reported (rep_status response).
Proof.
  unfold azure_write, azure_request, mbind, action_bind, and_then. rewrite Hsign.
  unfold sending. rewrite Hsend. cbn [map_err]. rewrite <-(handle_response_reported response (path_to_blob_name path)).
  unfold pure, lift. by destruct (handle_response _ _ _).
Qed.

(** ** Copies *)

Section copies.
(** The blobs of the container, and what a service does that keeps blobs
    apart: a request for one blob neither reads nor changes the others. *)
Context (blobs : W → gmap string bytes) (from : string).
Definition agree (w v : W) : Prop := ∀ k, k ≠ from → blobs w !! k = blobs v !! k.

Definition same {X} (m : action failure W X) : Prop :=
  ∀ w v, agree w v → (m w).2 = (m v).2 ∧ agree (m w).1 (m v).1.

Lemma same_bind {X Y} (m : action failure W X) (f : X → action failure W Y) :
  same m → (∀ x, same (f x)) → same (x ← m; f x).
Proof.
  intros Hm Hf w v Hwv. destruct (Hm w v Hwv) as [Hr Hs]. unfold mbind, action_bind.
  destruct (m w) as [w1 r1], (m v) as [v1 r2]. cbn in Hr, Hs. subst r2.
  destruct r1; cbn; [by apply Hf|done].
Qed.
Lemma same_lift {X} (r : result failure X) : same (lift r).
Proof. by intros w v Hwv. Qed.
Lemma same_ret {X} (x : X) : same (mret x).
Proof. by intros w v Hwv. Qed.

Context (Hclock : ∀ w v, agree w v → rfc3339_timestamp w = rfc3339_timestamp v ∧ new_v4 w = new_v4 v).
Context (Hsend : ∀ req name query w v, name ≠ "" → name ≠ from → req_url req = url name query → agree w v →
  (send req w).2 = (send req v).2 ∧ agree (send req w).1 (send req v).1).

Lemma same_signed_request method name query more body : same (sign method name query more body).
Proof.
  intros w v Hwv. destruct (Hclock w v Hwv) as [Ht Hu].
  assert (build_canonicalized_headers rfc3339_timestamp new_v4 w
          = build_canonicalized_headers rfc3339_timestamp new_v4 v) as Hh.
  { unfold build_canonicalized_headers. by rewrite Ht, Hu. }
  unfold signed_request, look, read, mbind, action_bind, and_then. rewrite Hh.
  unfold sign_request, pure, lift, mbind, action_bind, and_then.
  destruct (map_err _ _); [|done]. by destruct (ok_or _ _).
Qed.

Lemma signed_request_url method name query more body w w1 req :
  sign method name query more body w = (w1, Ok req) → req_url req = url name query.
Proof.
  unfold signed_request, mbind, action_bind, and_then. destruct (look _ w) as [w2 [h|e]]; [|done].
  destruct (sign_request _ _ _ _ _ _ _ _ _) as [w3 [a|e]]; [|done]. by intros [= _ <-].
Qed.

Lemma same_try_sending req name query :
  name ≠ "" → name ≠ from → req_url req = url name query → same (try_sending req).
Proof.
  intros Hne Hname Hurl w v Hwv. destruct (Hsend req name query w v Hne Hname Hurl Hwv) as [Hr Hs].
  unfold try_sending. destruct (send req w), (send req v). cbn in *. by subst.
Qed.

Lemma same_request method name query body :
  name ≠ "" → name ≠ from →
  same (azure_request rfc3339_timestamp new_v4 sha256 base64_decode base64_encode percent_encode azure
          method name query body).
Proof.
  intros Hne Hname w v Hwv. destruct (same_signed_request method name query [] body w v Hwv) as [Hr Hs].
  unfold azure_request, mbind, action_bind.
  destruct (sign method name query [] body w) as [w1 r] eqn:Hw, (sign method name query [] body v) as [v1 r'].
  cbn in Hr, Hs. subst r'. destruct r as [req|e]; [|done]. apply signed_request_url in Hw. cbn [and_then].
  destruct (Hsend req name query w1 v1 Hne Hname Hw Hs) as [Hr Hs']. unfold sending.
  destruct (send req w1), (send req v1). cbn in *. by subst.
Qed.

Lemma same_await_copy n done_ failed name :
  name ≠ "" → name ≠ from → same (await_copy percent_encode azure n done_ failed name).
Proof.
  intros Hne Hname. induction n as [|n IH]; [apply same_ret|]. cbn [await_copy].
  apply same_bind; [by eapply same_try_sending|]. intros [r|]; [|done].
  case_bool_decide; [apply same_ret|]. case_bool_decide; [apply same_lift|done].
Qed.

Lemma same_start_copy n done_ failed name :
  name ≠ "" → name ≠ from →
  same (start_copy rfc3339_timestamp new_v4 sha256 base64_decode base64_encode percent_encode show_status azure
          n done_ failed name).
Proof.
  intros Hne Hname. unfold start_copy. apply same_bind; [by apply same_request|]. intros response.
  apply same_bind; [apply same_lift|]. intros _. case_bool_decide; [by apply same_await_copy|apply same_ret].
Qed.

(** Copies and renames do not carry the content over. Take a service that
    keeps blobs apart, and two worlds that differ in nothing but the content
    of the source: the blob at the destination is the same in both after a
    copy, and after a rename, which then deletes the source. So what the
    destination holds has nothing to do with the source, whose content is
    lost. *)
Theorem azure_copy_ignores_content (src to : string) (w v : W)
    (Hframe : ∀ req query w, req_url req = url from query → agree w (send req w).1)
    (Hsrc : path_to_blob_name src = from) (Hne : path_to_blob_name to ≠ "")
    (Hto : path_to_blob_name to ≠ from) (Hwv : agree w v) :
  let dest m w := blobs (m w).1 !! path_to_blob_name to in
  dest (copy src to) w = dest (copy src to) v ∧ dest (rename src to) w = dest (rename src to) v.
Proof.
  cbv zeta. split.
  - unfold azure_copy. by apply (same_start_copy MAX_COPY_RETRIES _ _ _ Hne Hto w v Hwv).
  - unfold azure_rename, mbind, action_bind.
    destruct (same_start_copy 60 ["success"] "Copy failed during rename" _ Hne Hto w v Hwv) as [Hr Hs].
    set (copied := start_copy _ _ _ _ _ _ _ _ _ _ _ _) in *.
    destruct (copied w) as [w1 r], (copied v) as [v1 r']. cbn in Hr, Hs. subst r'.
    destruct r as [[]|e]; [|by apply Hs]. cbn [and_then].
    assert (∀ u, agree u (remove src u).1) as Hdel.
    { intros u. unfold azure_delete, azure_request, mbind, action_bind. rewrite Hsrc.
      destruct (sign "DELETE" from "" [] None u) as [u1 r] eqn:Hu.
      assert (u1 = u) as ->.
      { unfold signed_request, look, read, sign_request, pure, lift, mbind, action_bind, and_then in Hu.
        by destruct (map_err _ _); [destruct (ok_or _ _)|]; injection Hu. }
      destruct r as [req|e]; [|done]. cbn [and_then]. apply signed_request_url in Hu.
      specialize (Hframe req "" u Hu). unfold sending, pure, lift. destruct (send req u) as [u2 [rep|e]]; [|done].
      cbn in *. by destruct (handle_response _ _ _). }
    pose proof (Hdel w1 _ Hto) as H1. pose proof (Hdel v1 _ Hto) as H2. specialize (Hs _ Hto).
    destruct (remove src w1) as [w2 [[]|]], (remove src v1) as [v2 [[]|]]; cbn in *; congruence.
Qed.
End copies.

(** ** Directories *)

Section directories.
Context (from_str : string → result string ListResponse) (text : bytes → string).
Notation remove_dir_all := (azure_remove_dir_all rfc3339_timestamp new_v4 sha256 base64_decode base64_encode
  percent_encode from_str text show_status azure).
(** The files of the directory with the prefix: what follows has no slash. *)
Definition child (prefix k : string) : bool :=
  match strip_prefix prefix k with
  | Some rest => negb (is_empty rest) && negb (contains_char "/" rest)
  | None => false
  end.
Definition listed (prefix k : string) : bool := bool_decide (k = prefix) || child prefix k.

(** A service as it is documented: a delete of a blob removes it, and a list
    with a prefix and the delimiter names the blobs with the prefix that have
    no slash after it; the entries for deeper ones are no blobs, and they are
    not where the code looks for prefixes. *)
Context (blobs : W → gmap string bytes).
Hypothesis delete_answer : ∀ req name w,
  name ≠ "" → req_method req = "DELETE" → req_url req = url name "" → is_Some (blobs w !! name) →
  ∃ w' response, send req w = (w', Ok response) ∧ rep_status response = 202%Z ∧
    blobs w' = delete name (blobs w).
Hypothesis list_answer : ∀ req prefix w,
  req_method req = "GET" → req_url req = url "" (list_query prefix) →
  ∃ w' response body found, send req w = (w', Ok response) ∧ rep_status response = 200%Z ∧
    blobs w' = blobs w ∧ rep_body response = Ok body ∧
    from_str (text body) = Ok {| lr_blobs := Some found; lr_prefixes := [] |} ∧
    NoDup (map blob_name found) ∧
    ∀ k, k ∈ map blob_name found ↔ is_Some (blobs w !! k) ∧ listed prefix k = true.
Hypothesis sha256_length : ∀ m, length (sha256 m) = 32.
Hypothesis key_signs : signing_key.

Lemma list_blob_child name acc blob rest :
  blob_name blob = name +:+ "/" +:+ rest → contains_char "/" rest = false →
  list_blob name (acc, []) blob
  = (if is_empty rest then acc else acc ++ [(rest, default 0%Z (blob_size blob ≫= parse_u64))], []).
Proof.
  intros Hblob Hrest. unfold list_blob. rewrite Hblob.
  rewrite bool_decide_eq_false_2.
  2:{ intros Heq. rewrite <-(app_nil_r name) in Heq at 2. by apply app_inj_l in Heq. }
  rewrite strip_prefix_app. change (strip_prefix "/" ("/" +:+ rest)) with (Some rest).
  change (default ("/" +:+ rest) (Some rest)) with rest.
  assert (split_once "/" rest = None) as -> by (by apply split_once_None). by destruct (is_empty rest).
Qed.

Lemma list_blobs name found acc :
  (∀ blob, blob ∈ found → listed (name +:+ "/") (blob_name blob) = true) →
  ∃ files, foldl (list_blob name) (acc, []) found = (acc ++ files, []) ∧
    map (λ f, name +:+ "/" +:+ f.1) files = filter (λ k, child (name +:+ "/") k = true) (map blob_name found).
Proof.
  revert acc. induction found as [|blob found IH]; intros acc Hfound.
  { exists []. by rewrite List.app_nil_r. }
  assert (∃ rest, blob_name blob = name +:+ "/" +:+ rest ∧ contains_char "/" rest = false ∧
                  child (name +:+ "/") (blob_name blob) = negb (is_empty rest)) as (rest&Hblob&Hrest&Hchild).
  { specialize (Hfound blob (list_elem_of_here _ _)). unfold listed, child in Hfound.
    apply orb_true_iff in Hfound as [Heq|Hc].
    - apply bool_decide_eq_true in Heq. exists "". unfold child. rewrite Heq.
      assert (strip_prefix (name +:+ "/") (name +:+ "/") = Some "") as ->.
      { rewrite <-(app_nil_r (name +:+ "/")) at 2. apply strip_prefix_app. }
      by rewrite app_nil_r.
    - unfold child. destruct (strip_prefix _ _) as [rest|] eqn:Hs; [|done].
      apply andb_true_iff in Hc as [He Hc]. exists rest. apply strip_prefix_Some in Hs.
      rewrite Hs, app_assoc. apply negb_true_iff in Hc. by rewrite He, Hc. }
  cbn [foldl map]. rewrite (list_blob_child _ _ _ _ Hblob Hrest).
  destruct (IH (if is_empty rest then acc else acc ++ [(rest, default 0%Z (blob_size blob ≫= parse_u64))]))
    as (files&Hfold&Hfiles); [intros; apply Hfound; by right|].
  rewrite Hfold. rewrite filter_cons, Hchild. destruct (is_empty rest) eqn:He; cbn [negb].
  - exists files. by rewrite decide_False by done.
  - exists ((rest, default 0%Z (blob_size blob ≫= parse_u64)) :: files). rewrite decide_True by done.
    rewrite <-List.app_assoc. split; [done|]. cbn [map fst]. by rewrite Hfiles, Hblob.
Qed.

Lemma delete_files_run prefix files w :
  prefix ≠ "" →
  (∀ f, f ∈ files → is_absolute (prefix +:+ f.1) = false ∧ is_Some (blobs w !! (prefix +:+ f.1))) →
  NoDup (map (λ f, prefix +:+ f.1) files) →
  ∃ w', delete_files rfc3339_timestamp new_v4 sha256 base64_decode base64_encode percent_encode show_status
          azure prefix files w = (w', Ok tt) ∧
    ∀ k, blobs w' !! k = if decide (k ∈ map (λ f, prefix +:+ f.1) files) then None else blobs w !! k.
Proof.
  intros Hne. revert w. induction files as [|[f size] files IH]; intros w Hfiles Hnd.
  { exists w. split; [done|]. intros k. by rewrite decide_False by apply not_elem_of_nil. }
  cbn [map fst] in Hnd. apply list.NoDup_cons in Hnd as [Hf Hnd].
  destruct (Hfiles _ (list_elem_of_here _ _)) as [Habs Hsome]. cbn [fst] in *.
  assert (path_to_blob_name (prefix +:+ f) = prefix +:+ f) as Hname.
  { unfold path_to_blob_name. unfold is_absolute, starts_with in Habs. by destruct (strip_prefix _ _). }
  destruct (signed_request_Ok "DELETE" (prefix +:+ f) "" [] None w sha256_length key_signs)
    as (req&Hreq&Hmethod&Hurl&_).
  assert (prefix +:+ f ≠ "") as Hnonempty by (intros [? _]%app_eq_nil; done).
  destruct (delete_answer req _ w Hnonempty Hmethod Hurl Hsome) as (w1&response&Hsend&Hstatus&Hw1).
  assert (remove (prefix +:+ f) w = (w1, Ok tt)) as Hrun.
  { unfold azure_delete, azure_request, mbind, action_bind. rewrite Hname, Hreq. cbn [and_then].
    unfold sending. rewrite Hsend. cbn [map_err and_then]. unfold handle_response. by rewrite Hstatus. }
  unfold delete_files, each in *. cbn [for_each]. rewrite Hrun. cbn [and_then].
  destruct (IH w1) as (w'&Hloop&Hw'); [|done|].
  { intros g Hg. destruct (Hfiles g (list_elem_of_further _ _ _ Hg)) as [? ?]. split; [done|].
    rewrite Hw1, lookup_delete_ne; [done|]. intros Heq. apply Hf. rewrite Heq.
    by apply (list_elem_of_fmap_2 (λ f, prefix +:+ f.1)). }
  exists w'. split; [done|]. intros k. rewrite Hw', Hw1. cbn [map fst].
  destruct (decide (k = prefix +:+ f)) as [->|Hk].
  - rewrite lookup_delete_eq, (decide_True (P := _ ∈ _ :: _)) by left. by destruct (decide _).
  - rewrite lookup_delete_ne by done.
    destruct (decide (k ∈ map (λ f, prefix +:+ f.1) files)) as [Hin|Hin].
    + by rewrite decide_True by (by right).
    + rewrite decide_False; [done|]. by intros [|]%elem_of_cons.
Qed.

(** Removing a directory with its contents removes its files and keeps its
    subdirectories. With a service that answers as it is documented, the
    first round of the loop is the last one: the removal succeeds, exactly the
    blobs directly in the directory are gone, and every blob in a subdirectory
    is still there. *)
Theorem azure_remove_dir_all_keeps_subdirectories (path : string) (w : W) :
  let name := path_to_blob_name path in
  name ≠ "" → is_absolute name = false → trim_end "/" (name +:+ "/") = name →
  ∃ w', remove_dir_all 1 path w = Some (w', Ok tt) ∧
    ∀ k, blobs w' !! k = if child (name +:+ "/") k then None else blobs w !! k.
Proof.
  cbv zeta. set (name := path_to_blob_name path). intros Hne Habs Htrim.
  assert (dir_prefix name = name +:+ "/") as Hprefix by (unfold dir_prefix; by destruct name).
  unfold azure_remove_dir_all. fold name. rewrite Hprefix. cbn [remove_loop]. unfold remove_round.
  destruct (signed_request_Ok "GET" "" (list_query (name +:+ "/")) [] None w sha256_length key_signs)
    as (req&Hreq&Hmethod&Hurl&_).
  destruct (list_answer req _ w Hmethod Hurl)
    as (w1&response&body&found&Hsend&Hstatus&Hw1&Hbody&Hxml&Hnd&Hfound).
  destruct (list_blobs name found []) as (files&Hfold&Hfiles).
  { intros blob Hblob. by apply Hfound, (list_elem_of_fmap_2 blob_name). }
  assert (∀ f, name +:+ "/" +:+ f = (name +:+ "/") +:+ f) as Hassoc by (intros; by rewrite app_assoc).
  rewrite (map_ext _ (λ f, (name +:+ "/") +:+ f.1) (λ f, Hassoc f.1)) in Hfiles.
  destruct (delete_files_run (name +:+ "/") files w1) as (w'&Hdel&Hw').
  { by intros [? _]%app_eq_nil. }
  { intros f Hf. apply (list_elem_of_fmap_2 (λ f, (name +:+ "/") +:+ f.1)) in Hf.
    change (_ <$> files) with (map (λ f : string * Z, (name +:+ "/") +:+ f.1) files) in Hf.
    rewrite Hfiles in Hf. apply list_elem_of_filter in Hf as [_ Hf]. apply Hfound in Hf as [Hsome _].
    rewrite Hw1. split; [|done]. clear -Hne Habs. clearbody name. unfold is_absolute, starts_with in *.
    destruct name as [|a name]; [done|]. rewrite !app_cons. cbn [strip_prefix] in *. by destruct (Ascii.eqb _ _). }
  { rewrite Hfiles. by apply list.NoDup_filter. }
  unfold attempt, azure_request, mbind, action_bind. rewrite Hreq. cbn [and_then]. unfold sending. rewrite Hsend.
  cbn [map_err and_then]. rewrite Hstatus. cbn [is_success Z.leb Z.ltb Z.compare Pos.compare Pos.compare_cont andb].
  unfold read_list, body_bytes, pure, lift, mbind, action_bind. rewrite Hbody. cbn [map_err and_then].
  unfold parse_list_xml. rewrite Hxml. cbn [map_err mbind result_bind lr_blobs lr_prefixes foldl].
  rewrite Htrim. change (default [] (Some found)) with found. rewrite Hfold. cbn [map_err and_then app].
  rewrite Hdel. cbn [and_then]. exists w'. split; [done|].
  intros k. rewrite Hw', Hfiles, Hw1. destruct (child (name +:+ "/") k) eqn:Hk.
  - destruct (decide _) as [|Hin]; [done|]. destruct (blobs w !! k) eqn:Hb; [|done]. exfalso. apply Hin.
    apply list_elem_of_filter. split; [done|]. apply Hfound. unfold listed. rewrite Hk, orb_true_r. eauto.
  - rewrite decide_False; [done|]. intros [Hc _]%list_elem_of_filter. congruence.
Qed.
End directories.
End spec.

(** ** A service

    A container of blobs. Names are written in the binary digits of their
    code, as is the list of the names in an answer; blobs below [locked/]
    cannot be written, and a copy needs a source. *)

Fixpoint pos_text (p : positive) : string :=
  match p with
  | xH => ""
  | xO p => String "0" (pos_text p)
  | xI p => String "1" (pos_text p)
  end.
Fixpoint text_pos (s : string) : positive :=
  match s with
  | "" => xH
  | String a s => if Ascii.eqb a "1" then xI (text_pos s) else xO (text_pos s)
  end.
Lemma text_pos_text p : text_pos (pos_text p) = p.
Proof. induction p as [p IH|p IH|]; cbn; by rewrite ?IH. Qed.
Lemma pos_text_plain p : contains_char "?" (pos_text p) = false.
Proof. by induction p as [p IH|p IH|]. Qed.

Definition code (name : string) : string := pos_text (encode name).
Definition decode_list (s : string) : result string ListResponse :=
  names ← ok_or "" (decode (A := list string) (text_pos s));
  Ok {| lr_blobs := Some (map (λ n, {| blob_name := n; blob_size := None |}) names); lr_prefixes := [] |}.

Definition account : AzureStorage :=
  {| azs_account_name := "acc"; azs_account_key := "key"; azs_container := "c" |}.

(** The blob and the query a request is about. *)
Definition address (req : request) : option (string * string) :=
  rest ← strip_prefix (base_url account +:+ "/") (req_url req);
  let '(n, query) := default (rest, "") (split_once "?" rest) in
  name ← decode (A := string) (text_pos n);
  Some (name, query).

Definition answer (status : Z) (body : bytes) : reply :=
  {| rep_status := status; rep_header _ := None; rep_body := Ok body |}.
Definition names_in (prefix : string) (m : gmap string bytes) : list string :=
  filter (λ k, listed prefix k = true) (map_to_list m).*1.

Definition serve (method name query : string) (body : option bytes) (m : gmap string bytes)
  : gmap string bytes * reply :=
  if bool_decide (name = "") then
    let prefix := default "" (strip_prefix (list_query "") query) in
    (m, answer 200 (String.list_byte_of_string (pos_text (encode (names_in prefix m)))))
  else if bool_decide (method = "DELETE") then
    match m !! name with
    | Some _ => (delete name m, answer 202 [])
    | None => (m, answer 404 [])
    end
  else if bool_decide (method = "PUT") then
    if negb (bool_decide (query = "comp=blockblob")) then (m, answer 400 [])
    else if starts_with "locked/" name then (m, answer 409 [])
    else (<[name := default [] body]> m, answer 201 [])
  else (m, match m !! name with Some c => answer 200 c | None => answer 404 [] end).

#[export] Instance container_client : HttpClient (gmap string bytes) := {|
  send req m := match address req with
                | Some (name, query) =>
                    let '(m', r) := serve (req_method req) name query (req_body req) m in (m', Ok r)
                | None => (m, Err "no such host")
                end |}.

Lemma address_url req name query :
  req_url req = blob_url code account name query → address req = Some (name, query).
Proof.
  intros Hurl. unfold address. rewrite Hurl. unfold blob_url.
  assert (∀ q, strip_prefix (base_url account +:+ "/") (base_url account +:+ "/" +:+ q) = Some q) as Hstrip.
  { intros q. rewrite <-app_assoc. apply strip_prefix_app. }
  assert (text_pos (code name) = encode name) as Hcode by apply text_pos_text.
  destruct query as [|a query]; cbn [is_empty]; rewrite Hstrip; cbn [mbind option_bind].
  - assert (split_once "?" (code name) = None) as -> by (apply split_once_None, pos_text_plain).
    cbn -[decode text_pos code]. by rewrite Hcode, decode_encode.
  - change ("?" +:+ String a query) with (String "?" (String a query)).
    rewrite (proj2 (split_once_Some "?" _ (code name) (String a query))) by (split; [done|apply pos_text_plain]).
    cbn -[decode text_pos code]. by rewrite Hcode, decode_encode.
Qed.

Definition ten_bytes (_ : bytes) : bytes := repeat x0a 32.
Definition some_key (_ : string) : option bytes := Some [x01; x02; x03].

Lemma container_delete (req : request) (name : string) (m : gmap string bytes) :
  name ≠ "" → req_method req = "DELETE" → req_url req = blob_url code account name "" → is_Some (m !! name) →
  ∃ m' response, send req m = (m', Ok response) ∧ rep_status response = 202%Z ∧ m' = delete name m.
Proof.
  intros Hne Hmethod Hurl [c Hc]. cbn. rewrite (address_url _ _ _ Hurl). unfold serve.
  rewrite bool_decide_eq_false_2, Hmethod, bool_decide_eq_true_2, Hc by done. by do 2 eexists.
Qed.

Lemma decode_names names :
  decode_list (String.string_of_list_byte (String.list_byte_of_string (pos_text (encode names))))
  = Ok {| lr_blobs := Some (map (λ n, {| blob_name := n; blob_size := None |}) names); lr_prefixes := [] |}.
Proof.
  rewrite String.string_of_list_byte_of_string. unfold decode_list. rewrite text_pos_text, decode_encode. done.
Qed.

Lemma container_list (req : request) (prefix : string) (m : gmap string bytes) :
  req_url req = blob_url code account "" (list_query prefix) →
  ∃ m' response body found, send req m = (m', Ok response) ∧ rep_status response = 200%Z ∧ m' = m ∧
    rep_body response = Ok body ∧
    decode_list (String.string_of_list_byte body) = Ok {| lr_blobs := Some found; lr_prefixes := [] |} ∧
    NoDup (map blob_name found) ∧
    ∀ k, k ∈ map blob_name found ↔ is_Some (m !! k) ∧ listed prefix k = true.
Proof.
  intros Hurl. cbn. rewrite (address_url _ _ _ Hurl). unfold serve. rewrite bool_decide_eq_true_2 by done.
  assert (strip_prefix (list_query "") (list_query prefix) = Some prefix) as -> by (apply strip_prefix_app).
  change (default "" (Some prefix)) with prefix.
  do 3 eexists. exists (map (λ n, {| blob_name := n; blob_size := None |}) (names_in prefix m)).
  split_and!; [done|done|done|done|apply decode_names|..]; rewrite map_map; cbn [blob_name]; rewrite map_id.
  - apply list.NoDup_filter, NoDup_fst_map_to_list.
  - intros k. unfold names_in. rewrite list_elem_of_filter, list_elem_of_fmap. split.
    + intros [Hk ([k0 c]&->&Hin%elem_of_map_to_list)]. eauto.
    + intros [[c Hc] Hk]. split; [done|]. exists (k, c). split; [done|]. by apply elem_of_map_to_list.
Qed.

(** ** Witnesses *)

Lemma signature_is_hmac_witness :
  compute_hmac_sha256 ten_bytes [x01] [x02] = Some (hmac ten_bytes [x01] [x02]) ∧
  compute_hmac_sha256 ten_bytes (repeat x01 65) [x02] = None.
Proof.
  refine (conj (proj1 (signature_is_hmac ten_bytes [x01] [x02] _) _)
               (proj2 (signature_is_hmac ten_bytes (repeat x01 65) [x02] _) _)).
  - reflexivity.
  - vm_compute. lia.
  - reflexivity.
  - vm_compute. lia.
Defined.

Definition write_sample (path : string) (m : gmap string bytes) :=
  azure_write (λ _, "now") (λ _, "id") ten_bytes some_key (λ _, "mac") code show_Z account path [x61] m.

Lemma azure_write_outcome_witness :
  (write_sample "/locked/a" ∅).1 = ∅ ∧ is_err (write_sample "/locked/a" ∅).2 = false.
Proof.
  refine (azure_write_outcome (λ _, "now") (λ _, "id") ten_bytes some_key (λ _, "mac") code show_Z account
    "/locked/a" [x61]
    {| req_method := "PUT"; req_url := blob_url code account "locked/a" "comp=blockblob";
       req_headers := [("Authorization", "SharedKey acc:mac"); ("x-ms-blob-type", "BlockBlob");
                       ("x-ms-client-request-id", "id"); ("x-ms-date", "now"); ("x-ms-version", "2023-11-03")];
       req_body := Some [x61] |} (answer 409 []) ∅ ∅ _ _).
  - vm_compute. reflexivity.
  - vm_compute. reflexivity.
Defined.

Definition rename_sample (m : gmap string bytes) :=
  (azure_rename (λ _, "now") (λ _, "id") ten_bytes some_key (λ _, "mac") code show_Z account "/a" "/b" m).1.

Lemma azure_copy_ignores_content_witness :
  rename_sample {["a" := [x61]]} !! "b" = rename_sample {["a" := [x62]]} !! "b".
Proof.
  refine (proj2 (azure_copy_ignores_content (λ _, "now") (λ _, "id") ten_bytes some_key (λ _, "mac") code
    show_Z account (λ m, m) "a" _ _ "/a" "/b" {["a" := [x61]]} {["a" := [x62]]} _ eq_refl _ _ _)).
  - intros w v _. done.
  - intros req name query w v Hne Hname Hurl Hwv. cbn. rewrite (address_url _ _ _ Hurl). unfold serve.
    rewrite bool_decide_eq_false_2 by done. rewrite (Hwv name Hname).
    repeat case_match; simplify_eq/=; (split; [done|]); intros k Hk; try (by apply Hwv);
      (destruct (decide (k = name)) as [->|]; [by rewrite ?lookup_delete_eq, ?lookup_insert_eq|]);
      rewrite ?lookup_delete_ne, ?lookup_insert_ne by done; by apply Hwv.
  - intros req query w Hurl k Hk. cbn. rewrite (address_url _ _ _ Hurl). unfold serve.
    repeat case_match; simplify_eq/=; try done.
    + by rewrite lookup_delete_ne.
    + by rewrite lookup_insert_ne.
  - vm_compute. discriminate.
  - vm_compute. discriminate.
  - intros k Hk. by rewrite !lookup_singleton_ne.
Defined.

Definition album : gmap string bytes := {["a/1" := [x61]; "a/b/2" := [x62]; "c" := [x63]]}.

Lemma azure_remove_dir_all_keeps_subdirectories_witness :
  ∃ m', azure_remove_dir_all (λ _, "now") (λ _, "id") ten_bytes some_key (λ _, "mac") code decode_list
          String.string_of_list_byte show_Z account 1 "/a" album = Some (m', Ok tt) ∧
    ∀ k, m' !! k = if child ("a" +:+ "/") k then None else album !! k.
Proof.
  refine (azure_remove_dir_all_keeps_subdirectories (λ _, "now") (λ _, "id") ten_bytes some_key (λ _, "mac")
    code show_Z account decode_list String.string_of_list_byte (λ m, m) container_delete _ _ _ "/a" album _ _ _).
  - intros req prefix m _. apply container_list.
  - reflexivity.
  - exists [x01; x02; x03]. split; [reflexivity|vm_compute; lia].
  - discriminate.
  - reflexivity.
  - reflexivity.
Defined.
