(* ===== verification/Gcs.v ===== *)
(** * The Google Cloud Storage store

    [GcsStorage] of src/src/storage/backend/gcs.rs over the HTTP client: the
    cache of access tokens, the requests of the JSON API and the operations
    of the storage trait. The state is the world outside and the cache. *)

From Stdlib Require Import Init.Byte.
From S2P Require Import Prelude RustStr Config Errors Paths Storage Http.
Local Open Scope stdpp_scope.

(** Source: storage/backend/gcs.rs [GCS_API_URL] *)
Definition GCS_API_URL : string := "https://storage.googleapis.com/storage/v1".
(** Source: storage/backend/gcs.rs [OAUTH2_TOKEN_URL] *)
Definition OAUTH2_TOKEN_URL : string := "https://oauth2.googleapis.com/token".
(** Source: storage/backend/gcs.rs [TOKEN_SAFETY_MARGIN_SECS] *)
Definition TOKEN_SAFETY_MARGIN_SECS : Z := 60.

(** Source: storage/backend/gcs.rs [ServiceAccountCredentials] *)
Record ServiceAccountCredentials := { sac_client_email : string; sac_private_key : string }.

(** Source: storage/backend/gcs.rs [AuthToken] *)
Record AuthToken := { at_token : string; at_expires_at : Z }.

(** Source: storage/backend/gcs.rs:37-45 [ServiceAccountCredentials (Debug)] *)
Definition debug_ServiceAccountCredentials (debug_str : string → string) (c : ServiceAccountCredentials) : string :=
  debug_struct "ServiceAccountCredentials"
    [("client_email", debug_str (sac_client_email c)); ("private_key", redacted debug_str)].

(** [finish_non_exhaustive] leaves the token out.
    Source: storage/backend/gcs.rs:68-75 [AuthToken (Debug)] *)
Definition debug_AuthToken (t : AuthToken) : string :=
  "AuthToken { expires_at: " +:+ show_Z (at_expires_at t) +:+ ", .. }".

(** Source: storage/backend/gcs.rs [is_valid] *)
Definition token_is_valid (now : Z) (token : AuthToken) : bool :=
  (now <? u64_wrap (at_expires_at token - TOKEN_SAFETY_MARGIN_SECS))%Z.

(** Source: storage/backend/gcs.rs [GcsJwtClaims] *)
Record GcsJwtClaims := {
  gjc_iss : string; gjc_sub : string; gjc_scope : string; gjc_aud : string; gjc_exp : Z; gjc_iat : Z }.

(** Source: storage/backend/gcs.rs [GcsObjectMetadata] *)
Record GcsObjectMetadata := {
  gom_name : string; gom_size : string; gom_time_created : option string; gom_updated : option string }.
(** Source: storage/backend/gcs.rs [GcsListResponse] *)
Record GcsListResponse := {
  glr_items : option (list GcsObjectMetadata); glr_prefixes : option (list string) }.

(** Source: storage/backend/gcs.rs [parse_size] *)
Definition parse_size (m : GcsObjectMetadata) : Z := default 0%Z (parse_u64 (gom_size m)).

(** Source: storage/backend/gcs.rs [GcsStorage] *)
Record GcsStorage := { gcs_store_bucket : string; gcs_store_credentials : ServiceAccountCredentials }.

(** Source: storage/backend/gcs.rs [path_to_object_name] *)
Definition path_to_object_name (path : string) : string := default path (strip_prefix "/" path).

(** The parsing of the JSON of credentials and the reading of a file.
    Source: storage/backend/gcs.rs [load_credentials] *)
Definition load_credentials (from_str : string → result string ServiceAccountCredentials)
    (read_to_string : string → result string string) (raw : string)
  : result StorageError ServiceAccountCredentials :=
  let parsed text := map_err (λ e, SAuthentication ("Invalid GCS credentials JSON: " +:+ e)) (from_str text) in
  if is_empty raw then Err (SInvalidBackend "gcs credentials must not be empty")
  else if starts_with "{" raw || starts_with "[" raw then parsed raw
  else
    contents ← map_err (λ e, SAuthentication ("Failed to read credentials file: " +:+ e)) (read_to_string raw);
    parsed contents.

(** Source: storage/backend/gcs.rs:291-312 [GcsStorage::new] *)
Definition new_GcsStorage (from_str : string → result string ServiceAccountCredentials)
    (read_to_string : string → result string string) (config : StoreConfig) : result StorageError GcsStorage :=
  gcs ← ok_or (SInvalidBackend "gcs config section must be present for gcs backend") (st_gcs config);
  credentials ← load_credentials from_str read_to_string (gcs_credentials gcs);
  Ok {| gcs_store_bucket := gcs_bucket gcs; gcs_store_credentials := credentials |}.

(** Source: storage/backend/gcs.rs [map_http_error] *)
Definition map_http_error (show_status : Z → string) (status : Z) (object_name body : string) : StorageError :=
  let returned := "GCS returned " +:+ show_status status +:+ ": " +:+ body in
  if (status =? 404)%Z then SNotFound object_name
  else if ((status =? 401) || (status =? 403))%Z then SAuthentication returned
  else if ((status =? 429) || (500 <=? status))%Z then SServiceUnavailable returned
  else SInternal ("GCS error " +:+ show_status status +:+ ": " +:+ body).

Section gcs.
Context {W Key : Type} `{!HttpClient W}.
(** The seconds since the epoch in a world. *)
Context (now : W → Z).
(** Keys and signatures, the form of a token request and its answer. *)
Context (from_rsa_pem : string → result string Key) (jwt_encode : Key → GcsJwtClaims → result string string).
Context (form : list (string * string) → bytes) (parse_token : string → result string (string * Z)).
(** The JSON of objects and lists, the text of a body, percent encoding of
    everything that is not alphanumeric, and a time of RFC 3339. *)
Context (parse_metadata : string → result string GcsObjectMetadata).
Context (parse_list : string → result string GcsListResponse).
Context (text : bytes → string) (percent_encode : string → string).
Context (parse_from_rfc3339 : string → option Z) (show_status : Z → string).
Context (gcs : GcsStorage).

Notation bucket := (gcs_store_bucket gcs).
Notation credentials := (gcs_store_credentials gcs).
(** The world and the cached token. *)
Notation St := (W * option AuthToken)%type.
Notation A := (action StorageError St).

Definition sending (failed : string → StorageError) (req : request) : A reply := λ s,
  let '(w, r) := send req s.1 in ((w, s.2), map_err failed r).

(** ** Tokens *)

(** Source: storage/backend/gcs.rs [create_jwt] *)
Definition create_jwt (now : Z) : result StorageError string :=
  let now := i64_wrap now in
  let claims := {|
    gjc_iss := sac_client_email credentials; gjc_sub := sac_client_email credentials;
    gjc_scope := "https://www.googleapis.com/auth/cloud-platform"; gjc_aud := OAUTH2_TOKEN_URL;
    gjc_exp := i64_wrap (now + 3600); gjc_iat := now |} in
  signing_key ← map_err (λ e, SAuthentication ("Failed to load RSA key: " +:+ e))
                  (from_rsa_pem (sac_private_key credentials));
  map_err (λ e, SAuthentication ("Failed to create JWT: " +:+ e)) (jwt_encode signing_key claims).

Definition token_request (jwt : string) : request := {|
  req_method := "POST"; req_url := OAUTH2_TOKEN_URL; req_headers := [];
  req_body := Some (form [("grant_type", "urn:ietf:params:oauth:grant-type:jwt-bearer"); ("assertion", jwt)]) |}.

(** Source: storage/backend/gcs.rs [fetch_token] *)
Definition fetch_token : A AuthToken :=
  jwt ← read (λ s, create_jwt (now s.1));
  resp ← sending (λ e, SAuthentication ("Failed to exchange JWT: " +:+ e))
           (token_request jwt);
  body ← lift (map_err (λ e, SAuthentication ("Failed to read token response: " +:+ e)) (rep_body resp));
  let body := text body in
  if negb (is_success (rep_status resp)) then
    lift (Err (SAuthentication ("OAuth2 token exchange failed (" +:+ show_status (rep_status resp) +:+ "): " +:+
                                body)))
  else
    '(access_token, expires_in) ← lift (map_err (λ e, SAuthentication ("Failed to parse token response: " +:+ e))
                                          (parse_token body));
    now ← read (λ s, Ok (now s.1));
    mret {| at_token := access_token;
            at_expires_at := u64_wrap (now + expires_in - TOKEN_SAFETY_MARGIN_SECS) |}.

(** The cached token, if it is valid. *)
Definition cached_token (s : St) : option string :=
  token ← s.2; if token_is_valid (now s.1) token then Some (at_token token) else None.

(** The cache is looked at twice, as other tasks may have filled it in between.
    Source: storage/backend/gcs.rs [get_token] *)
Definition get_token : A string :=
  first ← read (λ s, Ok (cached_token s));
  match first with
  | Some token => mret token
  | None =>
      second ← read (λ s, Ok (cached_token s));
      match second with
      | Some token => mret token
      | None =>
          new_token ← fetch_token;
          _ ← ((λ s, ((s.1, Some new_token), Ok tt)) : A ());
          mret (at_token new_token)
      end
  end.

(** ** Requests *)

Definition failed (e : string) : StorageError := SInternal ("GCS request failed: " +:+ e).

(** A request with a token; [path] is what follows the URL of the API.
    Source: storage/backend/gcs.rs [gcs_request] *)
Definition gcs_request (method path : string) (more : list (string * string)) (body : option bytes) : A reply :=
  token ← get_token;
  sending failed
    {| req_method := method; req_url := GCS_API_URL +:+ path;
       req_headers := ("authorization", "Bearer " +:+ token) :: more; req_body := body |}.

Definition body_text (what : string) (resp : reply) : result StorageError string :=
  map_err (λ e, SInternal (what +:+ e)) (text <$> rep_body resp).

(** An answer that is no success is an error. *)
Definition successful (what name : string) (resp : reply) : A () :=
  if is_success (rep_status resp) then mret tt
  else
    body ← lift (body_text what resp);
    lift (Err (map_http_error show_status (rep_status resp) name body)).

Definition object_path (name : string) : string := "/b/" +:+ bucket +:+ "/o/" +:+ name.
Definition reading_error : string := "Failed to read error response: ".

(** Source: storage/backend/gcs.rs [metadata] *)
Definition gcs_metadata (path : string) : A FileMetadata :=
  let object_name := path_to_object_name path in
  resp ← gcs_request "GET" (object_path (percent_encode object_name)) [] None;
  _ ← successful reading_error object_name resp;
  body ← lift (body_text "Failed to read GCS response: " resp);
  metadata ← lift (map_err (λ e, SInternal ("Failed to parse GCS metadata: " +:+ e)) (parse_metadata body));
  mret {| fm_name := gom_name metadata; fm_is_file := negb (ends_with_char "/" (gom_name metadata));
          fm_size := parse_size metadata; fm_created := gom_time_created metadata ≫= parse_from_rfc3339;
          fm_modified := gom_updated metadata ≫= parse_from_rfc3339 |}.

(** An action whose error is looked at. *)
Definition attempted {X} (m : A X) : A (option X) := λ s, let '(s', r) := m s in (s', Ok (ok r)).

(** Source: storage/backend/gcs.rs [exists] *)
Definition gcs_exists (path : string) : A bool :=
  meta ← attempted (gcs_metadata path);
  mret (match meta with Some _ => true | None => false end).

(** Source: storage/backend/gcs.rs [is_file] *)
Definition gcs_is_file (path : string) : A bool :=
  meta ← attempted (gcs_metadata path);
  mret (match meta with Some meta => fm_is_file meta | None => false end).

(** The name of the object is not encoded in the paths of downloads. *)
Definition download (name : string) (range : list (string * string)) : A bytes :=
  resp ← gcs_request "GET" (object_path name +:+ "?alt=media") range None;
  _ ← successful reading_error name resp;
  lift (map_err (λ e, SInternal ("Failed to read response body: " +:+ e)) (rep_body resp)).

(** Source: storage/backend/gcs.rs [read] *)
Definition gcs_read (path : string) : A bytes := download (path_to_object_name path) [].
(** A reader is the bytes it delivers.
    Source: storage/backend/gcs.rs [download_to_file] *)
Definition gcs_open (path : string) : A bytes := download (path_to_object_name path) [].
(** Source: storage/backend/gcs.rs [download_to_file_with_range] *)
Definition gcs_seek_read (path : string) (offset : Z) : A bytes :=
  download (path_to_object_name path) [("range", "bytes=" +:+ show_Z offset +:+ "-")].

(** Source: storage/backend/gcs.rs [write] *)
Definition gcs_write (path : string) (contents : bytes) : A () :=
  let object_name := path_to_object_name path in
  resp ← gcs_request "POST"
           ("/b/" +:+ bucket +:+ "/o?uploadType=media&name=" +:+ percent_encode object_name)
           [("content-type", "application/octet-stream")] (Some contents);
  successful reading_error object_name resp.

(** Source: storage/backend/gcs.rs [append] *)
Definition gcs_append (path : string) (contents : bytes) : A () :=
  existing ← gcs_read path;
  gcs_write path (existing ++ contents).

(** Source: storage/backend/gcs.rs [delete] *)
Definition gcs_delete (path : string) : A () :=
  let object_name := path_to_object_name path in
  resp ← gcs_request "DELETE" (object_path (percent_encode object_name)) [] None;
  successful reading_error object_name resp.

(** ** Directories *)

(** Source: storage/backend/gcs.rs:722-738 [list] *)
Definition list_prefix (dir prefix : string) : option DirEntry :=
  let dir_name := trim_end "/" prefix in
  let name := default dir_name (list.last (split "/" dir_name)) in
  if match strip_suffix "/.dir" name with Some _ => true | None => bool_decide (name = ".dir") end then None
  else Some (with_path (new_DirEntry name true 0) (path_join (path_join "/" dir) name)).

(** Source: storage/backend/gcs.rs:741-762 [list] *)
Definition list_item (dir prefix : string) (item : GcsObjectMetadata) : option DirEntry :=
  let marker suffix := match strip_suffix suffix (gom_name item) with Some _ => true | None => false end in
  if marker "/.dir/" || marker "/.dir" then None
  else
    let item_name := match strip_prefix prefix (gom_name item) with
                     | Some stripped => trim_start "/" stripped
                     | None => gom_name item
                     end in
    Some (with_modified
            (with_path (new_DirEntry item_name false (parse_size item)) (path_join (path_join "/" dir) item_name))
            (gom_updated item ≫= parse_from_rfc3339)).

Definition list_path (prefix : string) : string :=
  "/b/" +:+ bucket +:+ "/o?prefix=" +:+ percent_encode prefix +:+ "&delimiter=/&maxResults=1000".

(** The prefix of a list request: the path without the slashes around it. *)
Definition list_prefix_of (dir : string) : string :=
  let gcs_prefix := default dir (strip_prefix "/" dir) in
  default gcs_prefix (strip_suffix "/" gcs_prefix).

(** Source: storage/backend/gcs.rs [list] *)
Definition gcs_list (dir : string) : A (list DirEntry) :=
  let prefix := list_prefix_of dir in
  resp ← gcs_request "GET" (list_path prefix) [] None;
  if (rep_status resp =? 404)%Z then mret []
  else
    _ ← successful "Failed to read list response: " dir resp;
    body ← lift (body_text "Failed to read GCS response: " resp);
    list_resp ← lift (map_err (λ e, SInternal ("Failed to parse GCS list response: " +:+ e)) (parse_list body));
    mret (omap (list_prefix dir) (default [] (glr_prefixes list_resp)) ++
          omap (list_item dir prefix) (default [] (glr_items list_resp))).

(** Any answer to the request for the marker counts, whatever its status.
    Source: storage/backend/gcs.rs [is_dir] *)
Definition gcs_is_dir (path : string) : A bool :=
  let object_name := path_to_object_name path in
  let marker := if ends_with_char "/" object_name then object_name else object_name +:+ "/" in
  token ← attempted get_token;
  match token with
  | None => mret false
  | Some token =>
      marker ← attempted (sending failed
        {| req_method := "GET"; req_url := GCS_API_URL +:+ object_path marker;
           req_headers := [("authorization", "Bearer " +:+ token)]; req_body := None |});
      match marker with
      | Some _ => mret true
      | None =>
          entries ← attempted (gcs_list path);
          mret (match entries with Some (_ :: _) => true | _ => false end)
      end
  end.

(** Source: storage/backend/gcs.rs [create_dir] *)
Definition gcs_create_dir (path : string) : A () :=
  let object_name := path_to_object_name path in
  gcs_write (if ends_with_char "/" object_name then object_name +:+ ".dir/" else object_name +:+ "/.dir/") [].

(** The path so far and the next part of it. *)
Definition push_part (current part : string) : string :=
  (if is_empty current then "" else current +:+ "/") +:+ part.

(** Source: storage/backend/gcs.rs:793-806 [create_dir_all] *)
Fixpoint create_markers (current : string) (parts : list string) : A () :=
  match parts with
  | [] => mret tt
  | part :: parts =>
      if is_empty part then create_markers current parts
      else
        let current := push_part current part in
        _ ← gcs_write (current +:+ "/.dir/") [];
        create_markers current parts
  end.

(** Source: storage/backend/gcs.rs [create_dir_all] *)
Definition gcs_create_dir_all (path : string) : A () :=
  let object_name := path_to_object_name path in
  create_markers "" (split "/" (default object_name (strip_suffix "/" object_name))).

Definition delete_entries (entries : list DirEntry) : A () := for_each (λ e, gcs_delete (de_path e)) entries.

(** Source: storage/backend/gcs.rs [remove_dir] *)
Definition gcs_remove_dir (path : string) : A () :=
  entries ← gcs_list path;
  let content e := negb (de_is_dir e) ||
                   match strip_suffix "/.dir" (de_name e) with Some _ => false | None => true end in
  if existsb content entries then lift (Err (SDirectoryNotEmpty path)) else delete_entries entries.

(** Source: storage/backend/gcs.rs [remove_dir_all] *)
Definition gcs_remove_dir_all (path : string) : A () :=
  entries ← gcs_list path;
  delete_entries entries.

(** Source: storage/backend/gcs.rs [copy] *)
Definition gcs_copy (from to : string) : A () :=
  let from_name := path_to_object_name from in
  let to_name := path_to_object_name to in
  resp ← gcs_request "POST"
           (object_path (percent_encode from_name) +:+ "?destination=" +:+ percent_encode to_name)
           [("content-type", "application/json")] None;
  successful reading_error to_name resp.

(** Source: storage/backend/gcs.rs [rename] *)
Definition gcs_rename (from to : string) : A () :=
  _ ← gcs_copy from to;
  gcs_delete from.

(** Source: storage/backend/gcs.rs [canonicalize] *)
Definition gcs_canonicalize (path : string) : A string :=
  mret ("gs://" +:+ bucket +:+ "/" +:+ path_to_object_name path).

(** Source: storage/backend/gcs.rs [size] *)
Definition gcs_size (path : string) : A Z :=
  meta ← gcs_metadata path;
  mret (fm_size meta).
End gcs.
