(* ===== verification/GcsSpec.v ===== *)
(** * What the Google Cloud store promises

    How long an access token is used, what counts as a directory, and what a
    list names. *)

From Stdlib Require Import Init.Byte.
From S2P Require Import Prelude RustStr Config Errors Paths Storage Http Gcs.
Local Open Scope stdpp_scope.

Section spec.
Context {W Key : Type} `{!HttpClient W}.
Context (now : W → Z).
Context (from_rsa_pem : string → result string Key) (jwt_encode : Key → GcsJwtClaims → result string string).
Context (form : list (string * string) → bytes) (parse_token : string → result string (string * Z)).
Context (text : bytes → string) (show_status : Z → string) (gcs : GcsStorage).

Notation St := (W * option AuthToken)%type.
Notation fetch := (fetch_token now from_rsa_pem jwt_encode form parse_token text show_status gcs).
Notation token := (get_token now from_rsa_pem jwt_encode form parse_token text show_status gcs).

(** ** Tokens *)

(** The token of the answer to the request that a fetch makes, with its
    lifetime. *)
Definition token_answer (s : St) (access : string) (lifetime : Z) : Prop :=
  ∃ jwt rep body,
    create_jwt from_rsa_pem jwt_encode gcs (now s.1) = Ok jwt ∧
    (send (token_request form jwt) s.1).2 = Ok rep ∧ rep_body rep = Ok body ∧
    parse_token (text body) = Ok (access, lifetime).

Lemma fetched_expiry s s' tok access lifetime :
  token_answer s access lifetime → fetch s = (s', Ok tok) →
  at_expires_at tok = u64_wrap (now s'.1 + lifetime - TOKEN_SAFETY_MARGIN_SECS).
Proof.
  intros (jwt&rep&body&Hjwt&Hsend&Hbody&Htok) H.
  unfold fetch_token, read, mbind, action_bind, sending in H. rewrite Hjwt in H. cbn [and_then] in H.
  destruct (send _ s.1) as [w r]. cbn in Hsend. subst r. cbn [map_err and_then] in H.
  unfold lift in H. rewrite Hbody in H. cbn [map_err and_then] in H.
  destruct (negb _); [done|]. rewrite Htok in H. cbn [map_err and_then] in H. by injection H as <- <-.
Qed.

(** An access token is used until two minutes before its end. The margin
    of a minute is subtracted when the token is stored and again when it is
    checked. So as long as less than its lifetime but two minutes has passed
    since it was fetched, it is taken from the cache without any request, and
    after that every call fetches a new one. *)
Theorem gcs_token_lifetime (s0 s1 : St) (tok : AuthToken) (access : string) (lifetime : Z) (w : W)
    (Hanswer : token_answer s0 access lifetime) (Hfetch : fetch s0 = (s1, Ok tok))
    (Hnow : (0 ≤ now s1.1)%Z) (Hlife : (120 ≤ lifetime)%Z) (Hmax : (now s1.1 + lifetime ≤ u64_max)%Z) :
  if (now w <? now s1.1 + lifetime - 120)%Z
  then token (w, Some tok) = ((w, Some tok), Ok (at_token tok))
  else token (w, Some tok)
       = and_then (fetch (w, Some tok)) (λ new s, ((s.1, Some new), Ok (at_token new))).
Proof.
  pose proof (fetched_expiry _ _ _ _ _ Hanswer Hfetch) as Hexp.
  assert (token_is_valid (now w) tok = (now w <? now s1.1 + lifetime - 120)%Z) as Hvalid.
  { unfold token_is_valid. rewrite Hexp. unfold TOKEN_SAFETY_MARGIN_SECS.
    rewrite (u64_wrap_small (now s1.1 + lifetime - 60)) by (unfold u64, u64_max in *; lia).
    rewrite u64_wrap_small by (unfold u64, u64_max in *; lia). f_equal. lia. }
  unfold get_token, read, mbind, action_bind, cached_token. cbn [fst snd mbind option_bind].
  rewrite Hvalid. destruct (_ <? _)%Z; [done|]. cbn -[fetch_token]. rewrite Hvalid.
  by destruct (fetch _) as [s [new|e]].
Qed.

(** ** Directories *)

Context (parse_list : string → result string GcsListResponse) (percent_encode : string → string).
Context (parse_from_rfc3339 : string → option Z).
Notation list_dir := (gcs_list now from_rsa_pem jwt_encode form parse_token parse_list text percent_encode
  parse_from_rfc3339 show_status gcs).
Notation remove_dir := (gcs_remove_dir now from_rsa_pem jwt_encode form parse_token parse_list text
  percent_encode parse_from_rfc3339 show_status gcs).
Notation is_dir := (gcs_is_dir now from_rsa_pem jwt_encode form parse_token parse_list text
  percent_encode parse_from_rfc3339 show_status gcs).

Lemma request_sent method path more body s access w rep :
  token s = (s, Ok access) →
  (∀ req, req_method req = method → req_url req = GCS_API_URL +:+ path → send req s.1 = (w, Ok rep)) →
  gcs_request now from_rsa_pem jwt_encode form parse_token text show_status gcs method path more body s
  = ((w, s.2), Ok rep).
Proof.
  intros Htok Hsend. unfold gcs_request, mbind, action_bind. rewrite Htok. cbn [and_then].
  unfold Gcs.sending. by rewrite Hsend.
Qed.

(** To the Google Cloud store every path is a directory. As soon as the
    service answers the request for the marker, with whatever status, 404
    included, the path counts as one. *)
Theorem gcs_every_path_is_directory (path access : string) (s : St)
    (Htoken : token s = (s, Ok access))
    (Hanswers : ∀ req, is_ok (send req s.1).2 = true) :
  (is_dir path s).2 = Ok true.
Proof.
  unfold gcs_is_dir, attempted, mbind, action_bind. rewrite Htoken. cbn [ok and_then].
  unfold Gcs.sending. set (req := Build_request _ _ _ _). specialize (Hanswers req).
  destruct (send req s.1) as [w [rep|e]]; [done|by cbn in Hanswers].
Qed.

Section lists.
(** A service as it is documented: a list with a prefix and the delimiter
    names the objects with the prefix that have no slash after it, and the
    prefixes up to the next slash of the others (all of them, where they fit
    in one answer). *)
Context (objects : W → gmap string bytes).
Definition answers_list (prefix : string) (w : W) : Prop :=
  ∃ w' rep body l,
    (∀ req, req_method req = "GET" → req_url req = GCS_API_URL +:+ list_path percent_encode gcs prefix →
       send req w = (w', Ok rep)) ∧
    rep_status rep = 200%Z ∧ rep_body rep = Ok body ∧ objects w' = objects w ∧
    parse_list (text body) = Ok l ∧
    (∀ k, k ∈ map gom_name (default [] (glr_items l)) ↔
       is_Some (objects w !! k) ∧ ∃ rest, k = prefix +:+ rest ∧ contains_char "/" rest = false) ∧
    (∀ d, d ∈ default [] (glr_prefixes l) ↔
       ∃ a b, d = prefix +:+ a +:+ "/" ∧ contains_char "/" a = false ∧ is_Some (objects w !! (d +:+ b))).

(** The name of the directory of a path: the last segment of its prefix. *)
Definition dir_name (prefix : string) : string := default prefix (list.last (split "/" prefix)).

Lemma last_no_slash prefix : contains_char "/" (dir_name prefix) = false.
Proof.
  unfold dir_name. destruct (list.last (split "/" prefix)) as [x|] eqn:Hx.
  - apply list.last_Some_elem_of in Hx. by apply split_no_sep_elem in Hx.
  - apply list.last_None in Hx. by apply split_pred_ne_nil in Hx.
Qed.

Lemma no_marker_suffix prefix : strip_suffix "/.dir" (dir_name prefix) = None.
Proof.
  destruct (strip_suffix "/.dir" (dir_name prefix)) as [r|] eqn:Hs; [|done].
  apply strip_suffix_Some in Hs. pose proof (last_no_slash prefix) as Hno. rewrite Hs in Hno.
  change (r +:+ "/.dir") with (r +:+ String "/" ".dir") in Hno. rewrite contains_char_app in Hno.
  by apply orb_false_iff in Hno as [_ Hno].
Qed.

Lemma own_entry dir prefix :
  trim_end "/" (prefix +:+ "/") = prefix → dir_name prefix ≠ ".dir" →
  list_prefix dir (prefix +:+ "/")
  = Some (with_path (new_DirEntry (dir_name prefix) true 0) (path_join (path_join "/" dir) (dir_name prefix))).
Proof.
  intros Htrim Hname. unfold list_prefix. rewrite Htrim. fold (dir_name prefix).
  by rewrite no_marker_suffix, bool_decide_eq_false_2.
Qed.

(** Listing a directory names the directory, not what is in it. The prefix
    of the list request is the path without the slash after it. So for a
    directory with objects in it the list has the directory itself as an
    entry, every file in the list is an object next to the directory whose
    name begins with the name of the directory, and removing the directory
    while it has objects, their own markers included, is refused and removes
    nothing. *)
Theorem gcs_list_names_directory (dir access : string) (s : St)
    (Htoken : token s = (s, Ok access))
    (Htrim : trim_end "/" (list_prefix_of dir +:+ "/") = list_prefix_of dir)
    (Hname : dir_name (list_prefix_of dir) ≠ ".dir")
    (Hlist : answers_list (list_prefix_of dir) s.1)
    (Hsome : ∃ rest, is_Some (objects s.1 !! (list_prefix_of dir +:+ "/" +:+ rest))) :
  ∃ s' entries,
    list_dir dir s = (s', Ok entries) ∧ objects s'.1 = objects s.1 ∧
    (∃ e, e ∈ entries ∧ de_is_dir e = true ∧ de_name e = dir_name (list_prefix_of dir)) ∧
    (∀ e, e ∈ entries → de_is_dir e = false →
       ∃ k rest, is_Some (objects s.1 !! k) ∧ k = list_prefix_of dir +:+ rest ∧
         contains_char "/" rest = false ∧ de_name e = rest) ∧
    remove_dir dir s = (s', Err (SDirectoryNotEmpty dir)).
Proof.
  destruct Hlist as (w'&rep&body&l&Hsend&Hstatus&Hbody&Hw'&Hl&Hitems&Hprefixes).
  set (p := list_prefix_of dir) in *.
  set (entries := omap (list_prefix dir) (default [] (glr_prefixes l)) ++
                  omap (list_item parse_from_rfc3339 dir p) (default [] (glr_items l))).
  assert (list_dir dir s = ((w', s.2), Ok entries)) as Hrun.
  { unfold gcs_list, mbind, action_bind. fold p.
    rewrite (request_sent "GET" _ _ _ s access w' rep Htoken Hsend). cbn [and_then]. rewrite Hstatus.
    cbn [Z.eqb Pos.eqb]. unfold successful. rewrite Hstatus. cbn [is_success Z.leb Z.ltb Z.compare
      Pos.compare Pos.compare_cont andb]. unfold mret, action_ret. cbn [and_then]. unfold body_text, lift.
    rewrite Hbody. cbn [fmap result_map map_err and_then]. by rewrite Hl. }
  assert (Some (with_path (new_DirEntry (dir_name p) true 0) (path_join (path_join "/" dir) (dir_name p)))
          = list_prefix dir (p +:+ "/")) as Hown by (by rewrite own_entry).
  set (own := with_path _ _) in Hown.
  assert (own ∈ entries) as Hin.
  { apply elem_of_app. left. apply list_elem_of_omap. exists (p +:+ "/"). split; [|done].
    apply Hprefixes. destruct Hsome as (rest&Hsome). exists "", rest. split; [done|]. split; [done|].
    by rewrite app_assoc. }
  exists (w', s.2), entries. split_and!; [done|done| | |].
  - by exists own.
  - intros e [He|He]%elem_of_app Hfile; apply list_elem_of_omap in He as (x&Hx&He).
    { unfold list_prefix in He. by repeat case_match; simplify_eq. }
    destruct (proj1 (Hitems (gom_name x)) (list_elem_of_fmap_2 gom_name _ _ Hx)) as (Hobj&rest&Hk&Hrest).
    exists (gom_name x), rest. split_and!; try done. unfold list_item in He. destruct (_ || _); [done|].
    injection He as <-. cbn. rewrite Hk, strip_prefix_app.
    destruct rest as [|a rest]; [done|]. cbn [contains_char] in Hrest. apply orb_false_iff in Hrest as [Ha _].
    cbn [trim_start]. by rewrite Ha.
  - unfold gcs_remove_dir, mbind, action_bind. rewrite Hrun. cbn [and_then].
    assert (existsb (λ e, negb (de_is_dir e) ||
              match strip_suffix "/.dir" (de_name e) with Some _ => false | None => true end) entries = true) as ->.
    { apply existsb_exists. exists own. split; [by apply list_elem_of_In|]. cbn.
      by rewrite no_marker_suffix. }
    done.
Qed.
End lists.
End spec.

(** ** Witnesses

    A service with a clock and one object, which answers every request. *)

Record google := { goo_now : Z; goo_objects : gmap string bytes }.
Definition google_reply (req : request) : reply := {|
  rep_status := if bool_decide (req_method req = "GET" ∧ strip_suffix "/a/" (req_url req) ≠ None) then 404 else 200;
  rep_header _ := None; rep_body := Ok [] |}.
#[export] Instance google_client : HttpClient google := {| send req w := (w, Ok (google_reply req)) |}.

Definition drive : GcsStorage := {|
  gcs_store_bucket := "drive";
  gcs_store_credentials := {| sac_client_email := "me"; sac_private_key := "key" |} |}.
Definition sample_token : AuthToken := {| at_token := "tok"; at_expires_at := 4540 |}.
Definition one_object (now : Z) : google := {| goo_now := now; goo_objects := {["a/1" := [x61]]} |}.
Definition directory_a (_ : string) : result string GcsListResponse :=
  Ok {| glr_items := None; glr_prefixes := Some ["a/"] |}.

Lemma gcs_token_lifetime_witness :
  get_token goo_now Ok (λ _ _, Ok "jwt") (λ _, []) (λ _, Ok ("tok", 3600%Z)) (λ _, "") show_Z drive
    (one_object 4479, Some sample_token) = ((one_object 4479, Some sample_token), Ok "tok").
Proof.
  refine (gcs_token_lifetime goo_now Ok (λ _ _, Ok "jwt") (λ _, []) (λ _, Ok ("tok", 3600%Z)) (λ _, "") show_Z
    drive (one_object 1000, None) (one_object 1000, None) sample_token "tok" 3600 (one_object 4479) _ _ _ _ _).
  - exists "jwt". do 2 eexists. split_and!; reflexivity.
  - vm_compute. reflexivity.
  - vm_compute. discriminate.
  - lia.
  - vm_compute. discriminate.
Defined.

Lemma gcs_every_path_is_directory_witness :
  (gcs_is_dir goo_now Ok (λ _ _, Ok "jwt") (λ _, []) (λ _, Ok ("tok", 3600%Z)) directory_a (λ _, "") id
     (λ _, None) show_Z drive "/no/a" (one_object 1000, Some sample_token)).2 = Ok true.
Proof.
  refine (gcs_every_path_is_directory goo_now Ok (λ _ _, Ok "jwt") (λ _, []) (λ _, Ok ("tok", 3600%Z)) (λ _, "")
    show_Z drive directory_a id (λ _, None) "/no/a" "tok" (one_object 1000, Some sample_token) _ _).
  - vm_compute. reflexivity.
  - intros req. reflexivity.
Defined.

Lemma directory_a_listed : answers_list (λ _, "") drive directory_a id goo_objects "a" (one_object 1000).
Proof.
  exists (one_object 1000), {| rep_status := 200; rep_header _ := None; rep_body := Ok [] |}, [].
  exists {| glr_items := None; glr_prefixes := Some ["a/"] |}. split_and!; [|done|done|done|done| |].
  - intros req Hmethod Hurl. cbn. unfold google_reply. rewrite Hurl. by rewrite bool_decide_eq_false_2 by (vm_compute; naive_solver).
  - intros k. cbn [goo_objects one_object]. split; [by intros ?%not_elem_of_nil|].
    intros [[c [Hk _]%lookup_singleton_Some] (rest&->&Hrest)]. change "a/1" with ("a" +:+ "/1") in Hk.
    apply app_inj_l in Hk as <-. by vm_compute in Hrest.
  - intros d. cbn [goo_objects one_object]. split.
    + intros ->%list_elem_of_singleton. exists "", "1". split; [done|]. split; [done|]. by exists [x61].
    + intros (a&b&->&Ha&[c [Hk _]%lookup_singleton_Some]). change "a/1" with ("a" +:+ "/1") in Hk.
      rewrite !app_assoc in Hk. apply app_inj_l in Hk. destruct a as [|x a]; [by left|].
      injection Hk as <- _. by vm_compute in Ha.
Qed.

Lemma gcs_list_names_directory_witness :
  (gcs_remove_dir goo_now Ok (λ _ _, Ok "jwt") (λ _, []) (λ _, Ok ("tok", 3600%Z)) directory_a (λ _, "") id
     (λ _, None) show_Z drive "/a" (one_object 1000, Some sample_token)).2 = Err (SDirectoryNotEmpty "/a").
Proof.
  destruct (gcs_list_names_directory goo_now Ok (λ _ _, Ok "jwt") (λ _, []) (λ _, Ok ("tok", 3600%Z)) (λ _, "")
    show_Z drive directory_a id (λ _, None) goo_objects "/a" "tok" (one_object 1000, Some sample_token))
    as (s'&entries&_&_&_&_&Hremove).
  - vm_compute. reflexivity.
  - vm_compute. reflexivity.
  - vm_compute. discriminate.
  - exact directory_a_listed.
  - exists "1". exists [x61]. reflexivity.
  - exact (f_equal snd Hremove).
Defined.
