(* ===== verification/Migration.v ===== *)
(** * Schema migration

    The DDL generated from the table configuration, the plan for an existing
    table, the order in which tables are created and the run over all of
    them, of src/src/db/migration.rs. The tables are numbered by their
    position, a hash map from these numbers is iterated in the order [iter],
    and the queue of the topological sort, a vector with a head pointer, is
    the list after the pointer. *)

From S2P Require Import Prelude RustStr Json Config Errors SqlHelpers Statements Pool.
Local Open Scope stdpp_scope.

(** ** Statements *)

(** Source: db/migration.rs [column_type_to_sql] *)
Definition column_type_to_sql (ct : ColumnType) (driver : DatabaseDriver) : string :=
  match ct, driver with
  | Integer, _ | Serial, Sqlite | Boolean, Sqlite => "INTEGER"
  | Bigint, _ => "BIGINT"
  | Smallint, _ => "SMALLINT"
  | Serial, Postgres => "SERIAL"
  | Serial, Mysql => "INTEGER AUTO_INCREMENT"
  | Bigserial, Sqlite => "INTEGER PRIMARY KEY AUTOINCREMENT"
  | Bigserial, Postgres => "BIGSERIAL"
  | Bigserial, Mysql => "BIGINT AUTO_INCREMENT"
  | Text, _ | Varchar, Sqlite | Char, Sqlite | Date, Sqlite | Timestamp, Sqlite
  | Timestamptz, Sqlite | Uuid, Sqlite => "TEXT"
  | Varchar, _ => "VARCHAR(255)"
  | Char, _ => "CHAR(255)"
  | Boolean, _ => "BOOLEAN"
  | Float, _ | Double, Sqlite | Decimal, Sqlite => "REAL"
  | Double, _ => "DOUBLE PRECISION"
  | Decimal, _ => "DECIMAL(10,2)"
  | Date, _ | Timestamp, Mysql | Timestamptz, Mysql => "DATETIME"
  | Timestamp, Postgres => "TIMESTAMP"
  | Timestamptz, Postgres => "TIMESTAMPTZ"
  | Uuid, Postgres => "UUID"
  | Uuid, Mysql => "CHAR(36)"
  | Json, _ | Jsonb, Mysql => "JSON"
  | Jsonb, _ => "JSONB"
  | Blob, Postgres | Bytea, Postgres => "BYTEA"
  | Blob, _ | Bytea, _ => "BLOB"
  end.

(** Source: db/migration.rs [fk_action_to_sql] *)
Definition fk_action_to_sql (action : ForeignKeyAction) : string :=
  match action with
  | Cascade => "CASCADE" | SetNull => "SET NULL" | Restrict => "RESTRICT" | NoAction => "NO ACTION"
  end.

Definition default_clause (col : ColumnConfig) : string :=
  match col_default col with Some d => " DEFAULT " +:+ d | None => "" end.

(** Source: db/migration.rs [generate_add_column] *)
Definition generate_add_column (table_name : string) (col : ColumnConfig) (driver : DatabaseDriver)
  : string :=
  let col_def :=
    quote_identifier (col_name col) driver +:+ " " +:+ column_type_to_sql (col_type col) driver +:+
    (if col_nullable col then "" else " NOT NULL") +:+
    (if col_unique col && negb (bool_decide (driver = Sqlite)) then " UNIQUE" else "") +:+
    default_clause col in
  "ALTER TABLE " +:+ quote_identifier table_name driver +:+ " ADD COLUMN " +:+ col_def.

(** Source: db/migration.rs [generate_drop_column] *)
Definition generate_drop_column (table_name column_name : string) (driver : DatabaseDriver) : string :=
  "ALTER TABLE " +:+ quote_identifier table_name driver +:+ " DROP COLUMN " +:+
  quote_identifier column_name driver.

Definition push_unless_contains (part s : string) : string :=
  if contains_str part s then s else s +:+ " " +:+ part.

(** Source: db/migration.rs [generate_column_def] *)
Definition generate_column_def (col : ColumnConfig) (driver : DatabaseDriver) : string :=
  let col_def := "  " +:+ quote_identifier (col_name col) driver +:+ " " +:+
                 column_type_to_sql (col_type col) driver in
  let col_def :=
    if col_primary_key col && bool_decide (driver = Sqlite)
    then push_unless_contains "AUTOINCREMENT" (push_unless_contains "PRIMARY KEY" col_def)
    else col_def in
  col_def +:+ (if negb (col_nullable col) || col_primary_key col then " NOT NULL" else "") +:+
  (if col_unique col then " UNIQUE" else "") +:+ default_clause col.

(** Source: db/migration.rs [add_pk_constraint] *)
Definition add_pk_constraint (parts : list string) (columns : list ColumnConfig)
    (driver : DatabaseDriver) : list string :=
  let pk_columns :=
    map (λ c, quote_identifier (col_name c) driver)
      (List.filter (λ c, col_primary_key c) columns) in
  if bool_decide (pk_columns = []) then parts else
  let is_single_pk := Nat.eqb (length pk_columns) 1 in
  if (if bool_decide (driver = Sqlite) then negb is_single_pk else true)
  then parts ++ ["  PRIMARY KEY (" +:+ join ", " pk_columns +:+ ")"] else parts.

Definition newline : string := String (ascii_of_N 10) "".

(** Source: db/migration.rs [generate_create_table] *)
Definition generate_create_table (table : TableConfig) (driver : DatabaseDriver) : string :=
  let parts := map (λ c, generate_column_def c driver) (tbl_columns table) in
  let parts := add_pk_constraint parts (tbl_columns table) driver in
  let parts := parts ++ map (λ fk,
    "  FOREIGN KEY (" +:+ quote_identifier (fk_column fk) driver +:+ ") REFERENCES " +:+
    quote_identifier (fk_references_table fk) driver +:+ " (" +:+
    quote_identifier (fk_references_column fk) driver +:+ ") ON DELETE " +:+
    fk_action_to_sql (fk_on_delete fk) +:+ " ON UPDATE " +:+ fk_action_to_sql (fk_on_update fk))
    (tbl_foreign_keys table) in
  "CREATE TABLE IF NOT EXISTS " +:+ quote_identifier (tbl_name table) driver +:+ " (" +:+ newline +:+
  join ("," +:+ newline) parts +:+ newline +:+ ")".

(** Source: db/migration.rs [generate_create_index] *)
Definition generate_create_index (table_name column_name : string) (driver : DatabaseDriver) : string :=
  let idx_name := "idx_" +:+ table_name +:+ "_" +:+ column_name in
  (match driver with Mysql => "CREATE INDEX " | _ => "CREATE INDEX IF NOT EXISTS " end) +:+
  quote_identifier idx_name driver +:+ " ON " +:+ quote_identifier table_name driver +:+ " (" +:+
  quote_identifier column_name driver +:+ ")".

(** ** The order of the tables *)

(** The position of the table of each name; of two tables with one name the
    later counts. *)
Definition table_map (tables : list TableConfig) : gmap string nat :=
  foldl (λ m it, <[tbl_name it.2 := it.1]> m) ∅ (imap (λ i t, (i, t)) tables).

(** The numbers a table depends on are added to those of its number. *)
Definition add_dependencies (tm : gmap string nat) (deps : gmap nat (list nat)) (table : TableConfig)
  : result AppError (gmap nat (list nat)) :=
  idx ← ok_or (Internal ("Table '" +:+ tbl_name table +:+ "' not found in table_map"))
          (tm !! tbl_name table);
  let found := omap (λ fk, tm !! fk_references_table fk) (tbl_foreign_keys table) in
  Ok (<[idx := default [] (deps !! idx) ++ found]> deps).

Definition dependencies (tables : list TableConfig) : result AppError (gmap nat (list nat)) :=
  try_fold (add_dependencies (table_map tables)) ∅ tables.

(** The number of dependencies of each table, and the tables that depend on
    each. *)
Definition in_degrees (l : list (nat * list nat)) : gmap nat nat :=
  foldl (λ m id, <[id.1 := length id.2]> m) ∅ l.
Definition reverse_edges (l : list (nat * list nat)) : gmap nat (list nat) :=
  foldl (λ m id, foldl (λ m dep, <[dep := default [] (m !! dep) ++ [id.1]]> m) m id.2) ∅ l.

(** [queue.insert(partition_point(|x| x < new), new)] *)
Fixpoint insert_sorted (new : nat) (queue : list nat) : list nat :=
  match queue with
  | [] => [new]
  | x :: queue' => if x <? new then x :: insert_sorted new queue' else new :: queue
  end.
Definition sort_unstable (l : list nat) : list nat := foldr insert_sorted [] l.

(** One dependent of the table just placed. *)
Definition release (s : gmap nat nat * list nat) (dependent : nat)
  : result AppError (gmap nat nat * list nat) :=
  degree ← ok_or (Internal "Missing in_degree during topological sort") (s.1 !! dependent);
  let degree := degree - 1 in
  Ok (<[dependent := degree]> s.1, if Nat.eqb degree 0 then insert_sorted dependent s.2 else s.2).

(** The loop of Kahn's algorithm; every round places one table. *)
Fixpoint kahn (fuel : nat) (reverse : gmap nat (list nat)) (in_degree : gmap nat nat)
    (placed queue : list nat) : result AppError (list nat) :=
  match queue with
  | [] => Ok placed
  | idx :: queue =>
      match fuel with
      | O => Ok placed
      | S fuel =>
          '(in_degree, queue) ← try_fold release (in_degree, queue) (default [] (reverse !! idx));
          kahn fuel reverse in_degree (placed ++ [idx]) queue
      end
  end.

Section sorting.
Context (iter : gmap nat (list nat) → list (nat * list nat)).

(** Source: db/migration.rs [sort_tables_topologically] *)
Definition sort_tables_topologically (tables : list TableConfig) : result AppError (list TableConfig) :=
  deps ← dependencies tables;
  let in_degree := in_degrees (iter deps) in
  let queue := sort_unstable (map fst (List.filter (λ nd, Nat.eqb nd.2 0) (map_to_list in_degree))) in
  placed ← kahn (length tables) (reverse_edges (iter deps)) in_degree [] queue;
  if negb (Nat.eqb (length placed) (length tables)) then
    let cycle_tables :=
      map tbl_name (List.filter (λ t,
        match table_map tables !! tbl_name t with
        | Some i => negb (bool_decide (i ∈ placed)) | None => true end) tables) in
    Err (Internal ("Circular dependency detected among tables: [" +:+ join ", " cycle_tables +:+ "]"))
  else Ok (omap (λ idx, tables !! idx) placed).

(** ** The run *)

Context {DB : Type} `{!Pool DB}.

Definition failed (what : string) (e : AppError) : AppError :=
  ConfigurationError (what +:+ ": " +:+ show_AppError e).

(** The name in a row of a description, under the first of the keys present. *)
Definition name_in (keys : list string) (row : value) : option string :=
  match find_first (λ k, bool_decide (is_Some (get k row))) keys with
  | Some k => get k row ≫= as_str
  | None => None
  end.

(** Source: db/migration.rs [get_existing_columns] *)
Definition get_existing_columns (pool : DatabasePool) (driver : DatabaseDriver) (table_name : string) (db : DB)
  : result AppError (list string) :=
  let q := build_table_columns table_name driver in
  rows ← fetch_all_json pool (bq_sql q) (bq_params q) db;
  Ok (omap (name_in ["name"; "column_name"; "COLUMN_NAME"]) (rows : list value)).

(** Source: db/migration.rs [get_existing_indexes] *)
Definition get_existing_indexes (pool : DatabasePool) (driver : DatabaseDriver) (table_name : string) (db : DB)
  : result AppError (list string) :=
  rows ← (match driver with
    | Sqlite =>
        fetch_all_json pool ("PRAGMA index_list(" +:+ quote_identifier table_name driver +:+ ")") [] db
    | Postgres =>
        fetch_all_json pool "SELECT indexname FROM pg_indexes WHERE tablename = $1"
          [VString table_name] db
    | Mysql =>
        fetch_all_json pool
          "SELECT index_name FROM information_schema.statistics WHERE table_schema = DATABASE() AND table_name = ? GROUP BY index_name"
          [VString table_name] db
    end);
  Ok (omap (name_in ["name"; "indexname"; "index_name"; "INDEX_NAME"]) (rows : list value)).

(** The columns to add to an existing table: new ones that are no primary key
    and can be filled in the rows that exist. *)
Definition can_add (existing : list string) (col : ColumnConfig) : bool :=
  negb (bool_decide (col_name col ∈ existing)) && negb (col_primary_key col) &&
  (col_nullable col || bool_decide (is_Some (col_default col))).

(** Source: db/migration.rs [alter_existing_table] *)
Definition alter_existing_table (pool : DatabasePool) (driver : DatabaseDriver) (table_config : TableConfig)
    (existing_columns : list string) (allow_destructive : bool) (db : DB) : DB * result AppError () :=
  let table_name := tbl_name table_config in
  let yaml_names := map col_name (tbl_columns table_config) in
  and_then
    (for_each (λ col db,
       if can_add existing_columns col then
         run_raw (failed ("Failed to add column '" +:+ col_name col +:+ "' to table '" +:+ table_name +:+ "'"))
           pool (generate_add_column table_name col driver) db
       else (db, Ok tt)) (tbl_columns table_config) db)
    (λ _, for_each (λ existing db,
       if bool_decide (existing ∈ yaml_names) then (db, Ok tt)
       else if allow_destructive then
         run_raw (failed ("Failed to drop column '" +:+ existing +:+ "' from table '" +:+ table_name +:+ "'"))
           pool (generate_drop_column table_name existing driver) db
       else (db, Ok tt)) existing_columns).

(** The table is created, or altered when it has columns. *)
Definition create_or_alter (pool : DatabasePool) (db_config : option DatabaseConfig)
    (table_config : TableConfig) (db : DB) : DB * result AppError () :=
  let table_name := tbl_name table_config in
  let driver := pool_driver pool in
  match get_existing_columns pool driver table_name db with
  | Err e => (db, Err e)
  | Ok [] =>
      run_raw (failed ("Migration failed for table '" +:+ table_name +:+ "'"))
        pool (generate_create_table table_config driver) db
  | Ok existing_columns =>
      let allow_destructive := match db_config with Some c => dbc_allow_destructive c | None => false end in
      alter_existing_table pool driver table_config existing_columns allow_destructive db
  end.

(** The indexes of the indexed columns; MySQL cannot skip one that exists. *)
Definition create_indexes (pool : DatabasePool) (table_config : TableConfig) (db : DB)
  : DB * result AppError () :=
  let table_name := tbl_name table_config in
  let driver := pool_driver pool in
  match (match driver with
         | Mysql => get_existing_indexes pool driver table_name db
         | _ => Ok []
         end) with
  | Err e => (db, Err e)
  | Ok existing_indexes =>
      for_each (λ col db,
        if col_indexed col && negb (col_primary_key col) then
          let idx_name := "idx_" +:+ table_name +:+ "_" +:+ col_name col in
          if bool_decide (driver = Mysql) && bool_decide (idx_name ∈ (existing_indexes : list string))
          then (db, Ok tt)
          else
            run_raw (failed ("Failed to create index on '" +:+ table_name +:+ "." +:+ col_name col +:+ "'"))
              pool (generate_create_index table_name (col_name col) driver) db
        else (db, Ok tt)) (tbl_columns table_config) db
  end.

(** The migration of one table.
    Source: db/migration.rs:105-175 [run_migrations (one table)] *)
Definition migrate_table (pools : gmap string DatabasePool)
    (databases : gmap string DatabaseConfig) (table_config : TableConfig) (db : DB)
  : DB * result AppError () :=
  let table_name := tbl_name table_config in
  let db_name := tbl_database table_config in
  let db_config := databases !! db_name in
  let should_migrate := match db_config with Some c => dbc_auto_migrate c | None => true end in
  if negb should_migrate then (db, Ok tt) else
  match ok_or (ConfigurationError ("Table '" +:+ table_name +:+ "' references database '" +:+
                 db_name +:+ "' which has no pool")) (pools !! db_name) with
  | Err e => (db, Err e)
  | Ok pool =>
      and_then (create_or_alter pool db_config table_config db)
        (λ _, create_indexes pool table_config)
  end.

(** Source: db/migration.rs [run_migrations] *)
Definition run_migrations (tables : list TableConfig) (pools : gmap string DatabasePool)
    (databases : gmap string DatabaseConfig) (db : DB) : DB * result AppError () :=
  match sort_tables_topologically tables with
  | Err e => (db, Err e)
  | Ok sorted => for_each (migrate_table pools databases) sorted db
  end.
End sorting.

(** ** The table of revoked tokens and the columns of media tables *)

Section fixed_tables.
Context {DB : Type} `{!Pool DB}.
Context (iter : ∀ A : Type, gmap string A → list (string * A)).

Definition revocation_table (driver : DatabaseDriver) : string :=
  let q s := dquote +:+ s +:+ dquote in
  match driver with
  | Sqlite =>
      "CREATE TABLE IF NOT EXISTS " +:+ q "token_blacklist" +:+ " (" +:+ q "jti" +:+
      " TEXT PRIMARY KEY NOT NULL, " +:+ q "revoked_at" +:+ " TEXT NOT NULL, " +:+
      q "expires_at" +:+ " TEXT NOT NULL)"
  | Postgres =>
      "CREATE TABLE IF NOT EXISTS " +:+ q "token_blacklist" +:+ " (" +:+ q "jti" +:+
      " VARCHAR(255) PRIMARY KEY NOT NULL, " +:+ q "revoked_at" +:+ " TIMESTAMPTZ NOT NULL, " +:+
      q "expires_at" +:+ " TIMESTAMPTZ NOT NULL)"
  | Mysql =>
      "CREATE TABLE IF NOT EXISTS `token_blacklist` (`jti` VARCHAR(255) PRIMARY KEY NOT NULL, `revoked_at` DATETIME NOT NULL, `expires_at` DATETIME NOT NULL)"
  end.

(** Source: db/migration.rs [create_revocation_tables] *)
Definition create_revocation_tables (pools : gmap string DatabasePool) (db : DB)
  : DB * result AppError () :=
  match iter _ pools with
  | [] => (db, Ok tt)
  | (_, first) :: _ =>
      for_each (λ np, run_raw
          (failed ("Failed to create revocation table in database '" +:+ np.1 +:+ "'"))
          np.2 (revocation_table (pool_driver first)))
        (iter _ pools) db
  end.

(** The tables of the media endpoints, each once. *)
Definition media_tables (endpoints : list EndpointConfig) : list (string * string) :=
  foldl (λ acc endpoint,
    match ep_media endpoint with
    | Some media =>
        let key := (media_database media, media_table media) in
        if bool_decide (key ∈ acc) then acc else acc ++ [key]
    | None => acc
    end) [] endpoints.

(** What the catalogue says of the column of a media table. *)
Definition file_path_count (pool : DatabasePool) (table_name : string) (db : DB)
  : result AppError (option value) :=
  match pool_driver pool with
  | Sqlite =>
      fetch_optional_json pool ("SELECT COUNT(*) as cnt FROM pragma_table_info(" +:+
        quote_identifier table_name Sqlite +:+ ") WHERE name = 'file_path'") [] db
  | Postgres =>
      fetch_optional_json pool
        "SELECT COUNT(*) as cnt FROM information_schema.columns WHERE table_name = $1 AND column_name = 'file_path'"
        [VString table_name] db
  | Mysql =>
      fetch_optional_json pool
        "SELECT COUNT(*) as cnt FROM information_schema.columns WHERE table_name = ? AND column_name = 'file_path'"
        [VString table_name] db
  end.

Definition counted (row : option value) : bool :=
  match (row ≫= get "cnt") ≫= as_i64 with Some c => (0 <? c)%Z | None => false end.

Definition file_path_exists (pool : DatabasePool) (table_name : string) (db : DB) : result AppError bool :=
  counted <$> file_path_count pool table_name db.

(** One media table. *)
Definition ensure_media_column (pools : gmap string DatabasePool) (key : string * string) (db : DB)
  : DB * result AppError () :=
  match (pool ← ok_or (ConfigurationError ("Database '" +:+ key.1 +:+ "' not found")) (pools !! key.1);
         col_exists ← file_path_exists pool key.2 db;
         Ok (pool, col_exists)) with
  | Err e => (db, Err e)
  | Ok (pool, true) => (db, Ok tt)
  | Ok (pool, false) =>
      run_raw (failed ("Failed to add file_path column to '" +:+ key.2 +:+ "'")) pool
        ("ALTER TABLE " +:+ quote_identifier key.2 (pool_driver pool) +:+ " ADD COLUMN " +:+
         dquote +:+ "file_path" +:+ dquote +:+ " TEXT") db
  end.

(** Source: db/migration.rs [ensure_media_columns] *)
Definition ensure_media_columns (endpoints : list EndpointConfig) (pools : gmap string DatabasePool)
    (db : DB) : DB * result AppError () :=
  for_each (ensure_media_column pools) (media_tables endpoints) db.
End fixed_tables.
