(* ===== verification/MigrationSpec.v ===== *)
(** * What migrations guarantee

    The order in which tables are created, and what a migration may do to a
    table that exists. *)

From stdpp Require Import relations.
From S2P Require Import Prelude RustStr Json Config Errors SqlHelpers Statements Pool Migration.
Local Open Scope stdpp_scope.

(** ** Counting *)

Definition occ (d : nat) (l : list nat) : nat := length (filter (λ x, x = d) l).

(** The dependencies in [l] that are not placed yet. *)
Definition waiting (l placed : list nat) : nat := length (filter (λ d, d ∉ placed) l).

Lemma occ_cons d x l : occ d (x :: l) = (if decide (x = d) then 1 else 0) + occ d l.
Proof. unfold occ. rewrite filter_cons. by case_decide. Qed.

Lemma occ_app d l k : occ d (l ++ k) = occ d l + occ d k.
Proof. unfold occ. by rewrite list.filter_app, length_app. Qed.

Lemma occ_zero d l : occ d l = 0 ↔ d ∉ l.
Proof.
  induction l as [|x l IH]; [set_solver|]. rewrite occ_cons, elem_of_cons.
  case_decide; [split; [lia|naive_solver]|]. rewrite Nat.add_0_l, IH. naive_solver.
Qed.

Lemma occ_pos d l : 0 < occ d l ↔ d ∈ l.
Proof.
  destruct (decide (d ∈ l)) as [Hd|Hd].
  - split; [done|]. intros _. destruct (occ d l) eqn:Ho; [|lia]. by apply occ_zero in Ho.
  - apply occ_zero in Hd as Ho. rewrite Ho. split; [lia|done].
Qed.

Lemma waiting_place l placed idx :
  idx ∉ placed → waiting l (placed ++ [idx]) + occ idx l = waiting l placed.
Proof.
  intros Hi. induction l as [|d l IH]; [done|]. rewrite occ_cons. unfold waiting in *.
  rewrite !filter_cons. destruct (decide (d = idx)) as [->|Hd].
  - rewrite decide_False by set_solver. rewrite (decide_True (P := idx ∉ placed)) by done.
    cbn. lia.
  - destruct (decide (d ∉ placed)).
    + rewrite decide_True by set_solver. cbn. lia.
    + rewrite decide_False by set_solver. lia.
Qed.

Lemma waiting_zero l placed : waiting l placed = 0 ↔ ∀ d, d ∈ l → d ∈ placed.
Proof.
  unfold waiting. induction l as [|d l IH]; [set_solver|]. rewrite filter_cons.
  case_decide as Hd; cbn.
  - split; [done|]. intros H. destruct Hd. set_solver.
  - rewrite IH. set_solver.
Qed.

Lemma elem_of_insert_sorted n q x : x ∈ insert_sorted n q ↔ x = n ∨ x ∈ q.
Proof. induction q as [|y q IH]; cbn; [set_solver|]. case_match; set_solver. Qed.

Lemma insert_sorted_perm n q : insert_sorted n q ≡ₚ n :: q.
Proof.
  induction q as [|y q IH]; cbn; [done|]. case_match; [|done].
  rewrite IH. apply Permutation_swap.
Qed.

Lemma sort_unstable_perm l : sort_unstable l ≡ₚ l.
Proof. induction l as [|x l IH]; cbn; [done|]. by rewrite insert_sorted_perm, IH. Qed.

(** ** Kahn's algorithm *)

Section orders.
Context (deps : gmap nat (list nat)).
Notation deps_of x := (default [] (deps !! x)).

(** Every dependency of a placed number was placed before it. *)
Definition ordered (placed : list nat) : Prop :=
  ∀ l1 x l2, placed = l1 ++ x :: l2 → ∀ d, d ∈ deps_of x → d ∈ l1.

(** A number has a dependency. *)
Definition depends (x d : nat) : Prop := d ∈ deps_of x.

Lemma deps_of_dom y d : d ∈ deps_of y → y ∈ dom deps.
Proof. intros Hd. apply elem_of_dom. destruct (deps !! y); [eauto|set_solver]. Qed.

Lemma ordered_snoc placed idx :
  ordered placed → (∀ d, d ∈ deps_of idx → d ∈ placed) → ordered (placed ++ [idx]).
Proof.
  intros Hord Hidx l1 x l2 Heq d Hd. destruct l2 as [|y l2 _] using rev_ind.
  - apply app_inj_tail in Heq as [-> ->]. auto.
  - rewrite app_comm_cons, List.app_assoc in Heq. apply app_inj_tail in Heq as [-> _].
    by eapply Hord.
Qed.

(** An order of all numbers leaves no room for a cycle. *)
Lemma ordered_acyclic placed :
  NoDup placed → ordered placed → (∀ x, x ∈ dom deps → x ∈ placed) → ∀ x, ¬ tc depends x x.
Proof.
  intros Hnd Hord Hall.
  assert (Hbefore : ∀ x y, tc depends x y → ∃ l1 l2, placed = l1 ++ x :: l2 ∧ y ∈ l1).
  { induction 1 as [x y Hxy|x y z Hxy _ (l1&l2&Heq&Hz)].
    - destruct (list_elem_of_split placed x) as (l1&l2&Heq).
      { eapply Hall, deps_of_dom; eauto. }
      exists l1, l2. split; [done|]. by eapply Hord.
    - destruct (list_elem_of_split placed x) as (m1&m2&Heq').
      { eapply Hall, deps_of_dom; eauto. }
      exists m1, m2. split; [done|].
      assert (Hy : y ∈ m1) by (by eapply Hord).
      apply list_elem_of_split in Hy as (k1&k2&->).
      rewrite <-List.app_assoc in Heq'. cbn in Heq'.
      assert (l1 = k1) as ->; [|set_solver].
      rewrite Heq in Heq', Hnd. clear -Heq' Hnd.
      revert k1 Heq'. induction l1 as [|a l1 IH]; intros [|b k1] Heq'; simplify_eq/=.
      + done.
      + apply list.NoDup_cons in Hnd as [Hn _]. set_solver.
      + apply list.NoDup_cons in Hnd as [Hn _]. set_solver.
      + apply list.NoDup_cons in Hnd as [_ Hnd]. f_equal. eauto. }
  intros x Hc. destruct (Hbefore x x Hc) as (l1&l2&->&Hx).
  apply list.NoDup_app in Hnd as (_&Hdisj&_). apply (Hdisj x Hx). by left.
Qed.
End orders.

Section kahn.
Context (deps : gmap nat (list nat)) (reverse : gmap nat (list nat)).
Notation deps_of x := (default [] (deps !! x)).
Notation ordered := (ordered deps).
Notation depends := (depends deps).
Notation dependents x := (default [] (reverse !! x)).

(** The dependents of the table just placed, one by one: [f] is what each
    degree was before. *)
Lemma release_loop (f : nat → nat) ys degree queue :
  (∀ y, y ∈ ys → degree !! y = Some (f y) ∧ occ y ys ≤ f y ∧ y ∉ queue) → NoDup queue →
  ∃ degree' queue', try_fold release (degree, queue) ys = Ok (degree', queue') ∧
    (∀ y, degree' !! y = if decide (y ∈ ys) then Some (f y - occ y ys) else degree !! y) ∧
    NoDup queue' ∧ (∀ y, y ∈ queue' ↔ y ∈ queue ∨ (y ∈ ys ∧ f y = occ y ys)).
Proof.
  revert f degree queue. induction ys as [|y ys IH]; intros f degree queue Hys Hq.
  { exists degree, queue. split_and!; [done| |done|set_solver].
    intros y. by rewrite decide_False by set_solver. }
  destruct (Hys y) as (Hy&Hle&Hyq); [left|]. rewrite occ_cons, decide_True in Hle by done.
  cbn [try_fold]. unfold release at 1. cbn [fst snd]. rewrite Hy. cbn [ok_or mbind result_bind].
  set (queue1 := if Nat.eqb (f y - 1) 0 then insert_sorted y queue else queue).
  set (f1 := λ x, if decide (x = y) then f y - 1 else f x).
  assert (Hq1 : ∀ x, x ∈ queue1 ↔ x ∈ queue ∨ (x = y ∧ f y = 1)).
  { intros x. unfold queue1. destruct (Nat.eqb_spec (f y - 1) 0).
    - rewrite elem_of_insert_sorted. split; [intros [->|?]; [right; split; [done|lia]|auto]|].
      intros [?|[-> _]]; auto.
    - split; [auto|]. intros [?|[_ ?]]; [done|lia]. }
  destruct (IH f1 (<[y := f y - 1]> degree) queue1) as (degree'&queue'&Hrun&Hd&Hn&Hm).
  - intros x Hx. destruct (Hys x) as (Hdx&Hox&Hxq); [by right|]. rewrite occ_cons in Hox.
    unfold f1. rewrite Hq1. destruct (decide (x = y)) as [->|Hne].
    + rewrite lookup_insert_eq. rewrite decide_True in Hox by done.
      assert (0 < occ y ys) by (by apply occ_pos).
      split_and!; [done|lia|]. intros [?|[_ ?]]; [done|lia].
    + rewrite lookup_insert_ne by done. rewrite decide_False in Hox by done.
      split_and!; [done|lia|]. intros [?|[? _]]; done.
  - unfold queue1. destruct (Nat.eqb _ _); [|done]. rewrite insert_sorted_perm. by constructor.
  - exists degree', queue'. split_and!; [done| |done|].
    + intros x. rewrite Hd, occ_cons. unfold f1.
      destruct (decide (x = y)) as [->|Hne].
      * rewrite (decide_True (P := y ∈ y :: ys)) by left.
        rewrite (decide_True (P := y = y)) by done.
        case_decide as Hin; [f_equal; lia|]. rewrite lookup_insert_eq.
        apply occ_zero in Hin. f_equal. lia.
      * rewrite (decide_False (P := y = x)) by done. rewrite lookup_insert_ne by done.
        destruct (decide (x ∈ ys)); [rewrite decide_True by (by right)|
          rewrite decide_False by set_solver]; done.
    + intros x. rewrite Hm, Hq1, occ_cons, elem_of_cons. unfold f1.
      destruct (decide (x = y)) as [->|Hne].
      * rewrite decide_True by done. destruct (decide (y ∈ ys)) as [Hin|Hin].
        -- split; [intros [[?|[_ ?]]|[_ ?]]; auto|].
           ++ right. split; [auto|]. apply occ_pos in Hin. lia.
           ++ right. split; [auto|]. lia.
           ++ intros [?|[_ ?]]; [auto|]. right. split; [done|lia].
        -- apply occ_zero in Hin as Ho. split.
           ++ intros [[?|[_ ?]]|[? _]]; [auto|right; split; [auto|lia]|done].
           ++ intros [?|[_ ?]]; [auto|]. left. right. split; [done|lia].
      * rewrite (decide_False (P := y = x)) by done. split.
        -- intros [[?|[? _]]|[? ?]]; [auto|done|auto].
        -- intros [?|[[?|?] ?]]; [auto|done|auto].
Qed.

Context (reverse_deps : ∀ x y, occ y (dependents x) = occ x (deps_of y)).
Context (closed : ∀ x d, d ∈ deps_of x → d ∈ dom deps).

Record state_ok (degree : gmap nat nat) (placed queue : list nat) : Prop := {
  ok_nodup : NoDup (placed ++ queue);
  ok_dom : ∀ x, x ∈ placed ++ queue → x ∈ dom deps;
  ok_degree : ∀ x, x ∈ dom deps → degree !! x = Some (waiting (deps_of x) placed);
  ok_free : ∀ x, x ∈ dom deps → x ∈ placed ++ queue ↔ waiting (deps_of x) placed = 0;
  ok_ordered : ordered placed;
}.

(** One round of the loop. *)
Lemma round_ok degree placed idx queue :
  state_ok degree placed (idx :: queue) →
  ∃ degree' queue', try_fold release (degree, queue) (dependents idx) = Ok (degree', queue') ∧
    state_ok degree' (placed ++ [idx]) queue'.
Proof.
  intros [Hnd Hdom Hdeg Hfree Hord].
  apply list.NoDup_app in Hnd as (Hnp&Hdisj&Hnq). apply list.NoDup_cons in Hnq as [Hiq Hnq].
  assert (Hip : idx ∉ placed) by (intros Hp; apply (Hdisj idx Hp); by left).
  assert (Hidx : idx ∈ dom deps) by (apply Hdom; set_solver).
  assert (Hzero : waiting (deps_of idx) placed = 0) by (apply Hfree; set_solver).
  set (f := λ y, waiting (deps_of y) placed).
  assert (Hplace : ∀ y, waiting (deps_of y) (placed ++ [idx]) + occ y (dependents idx) = f y).
  { intros y. rewrite reverse_deps. by apply waiting_place. }
  assert (Hdep : ∀ y, y ∈ dependents idx → y ∈ dom deps ∧ 0 < f y).
  { intros y Hy%occ_pos. rewrite reverse_deps in Hy. split.
    - apply (deps_of_dom deps y idx). by apply occ_pos.
    - specialize (Hplace y). rewrite reverse_deps in Hplace. lia. }
  destruct (release_loop f (dependents idx) degree queue) as (degree'&queue'&Hrun&Hd&Hn&Hm).
  { intros y Hy. destruct (Hdep y Hy) as [Hyd Hpos]. split_and!.
    - by apply Hdeg.
    - specialize (Hplace y). lia.
    - intros Hyq. assert (f y = 0) by (apply Hfree; [done|set_solver]). lia. }
  { done. }
  exists degree', queue'. split; [exact Hrun|].
  assert (Hnew : ∀ y, y ∈ queue' → y ∈ queue ∨ (y ∈ dom deps ∧ 0 < f y ∧
    waiting (deps_of y) (placed ++ [idx]) = 0)).
  { intros y [?|[Hy Hfy]]%Hm; [by left|]. right. destruct (Hdep y Hy). specialize (Hplace y).
    split_and!; [done|done|lia]. }
  split.
  - apply list.NoDup_app. split_and!; [|intros y Hy Hyq|done].
    + apply list.NoDup_app. split_and!; [done|set_solver|apply NoDup_singleton].
    + destruct (Hnew y Hyq) as [Hq|(Hyd&Hpos&_)].
      * apply elem_of_app in Hy as [Hy|Hy%list_elem_of_singleton]; [|subst; done].
        apply (Hdisj y Hy). by right.
      * assert (f y = 0); [|lia]. apply Hfree; [done|set_solver].
  - intros x [[?|Hx%list_elem_of_singleton]%elem_of_app|Hx]%elem_of_app.
    + apply Hdom. set_solver.
    + by subst.
    + destruct (Hnew x Hx) as [?|(?&_)]; [|done]. apply Hdom. set_solver.
  - intros x Hx. rewrite Hd. specialize (Hplace x). case_decide as Hin; [f_equal; lia|].
    rewrite (Hdeg x Hx). apply occ_zero in Hin. f_equal. fold (f x). lia.
  - intros x Hx. specialize (Hplace x). split.
    + intros [[Hp|Hp%list_elem_of_singleton]%elem_of_app|Hq]%elem_of_app.
      * assert (f x = 0) by (apply Hfree; [done|set_solver]). lia.
      * subst x. unfold f in Hplace. lia.
      * destruct (Hnew x Hq) as [Hq'|(_&_&?)]; [|done].
        assert (f x = 0) by (apply Hfree; [done|set_solver]). lia.
    + intros Hw. destruct (decide (f x = 0)) as [Hf|Hf].
      * apply (Hfree x Hx) in Hf. apply elem_of_app in Hf as [?|[->|?]%elem_of_cons].
        -- set_solver.
        -- set_solver.
        -- apply elem_of_app. right. apply Hm. by left.
      * apply elem_of_app. right. apply Hm. right. split; [|lia]. apply occ_pos. lia.
  - apply ordered_snoc; [done|]. by apply waiting_zero.
Qed.

Lemma state_ok_length degree placed queue :
  state_ok degree placed queue → length (placed ++ queue) ≤ size deps.
Proof.
  intros H. rewrite <-size_dom. rewrite <-(size_list_to_set (C := gset nat)) by apply H.
  apply subseteq_size. intros x Hx%elem_of_list_to_set. by apply (ok_dom _ _ _ H).
Qed.

(** The loop ends with everything placed that can be. *)
Lemma kahn_ok fuel degree placed queue :
  state_ok degree placed queue → size deps ≤ fuel + length placed →
  ∃ result degree', kahn fuel reverse degree placed queue = Ok result ∧ state_ok degree' result [].
Proof.
  revert degree placed queue. induction fuel as [|fuel IH]; intros degree placed queue Hok Hf;
    destruct queue as [|idx queue]; try (exists placed, degree; by split).
  - apply state_ok_length in Hok. rewrite length_app in Hok. cbn in Hok. lia.
  - cbn [kahn]. destruct (round_ok _ _ _ _ Hok) as (degree'&queue'&->&Hok').
    cbn [mbind result_bind]. apply IH; [done|]. rewrite length_app. cbn. lia.
Qed.

(** Without cycles nothing is left over. *)
Lemma acyclic_complete degree result :
  state_ok degree result [] → (∀ x, ¬ tc depends x x) → ∀ x, x ∈ dom deps → x ∈ result.
Proof.
  intros Hok Hac x Hx.
  assert (Hsn : sn depends x).
  { apply tc_finite_sn; [exact Hac|]. apply (pred_finite_set (C := gset nat)).
    exists (dom deps). induction 1 as [a d Had|a b d Hab Hbd IH]; [by eapply closed|].
    apply IH. by eapply closed. }
  revert Hx. induction Hsn as [x _ IH]; intros Hx.
  apply (ok_free _ _ _ Hok x) in Hx as Hfree. rewrite List.app_nil_r in Hfree.
  apply Hfree, waiting_zero. intros d Hd. apply IH; [exact Hd|]. by eapply closed.
Qed.

End kahn.

(** ** The starting state *)

Lemma in_degrees_lookup l (m0 : gmap nat nat) x :
  NoDup l.*1 →
  foldl (λ m (id : nat * list nat), <[id.1 := length id.2]> m) m0 l !! x =
  match find_first (λ id, Nat.eqb id.1 x) l with
  | Some id => Some (length id.2) | None => m0 !! x end.
Proof.
  revert m0. induction l as [|[y ds] l IH]; intros m0 Hnd; [done|]. cbn [foldl find_first fst].
  apply list.NoDup_cons in Hnd as [Hy Hnd]. rewrite IH by done.
  destruct (Nat.eqb_spec y x) as [->|Hne].
  - destruct (find_first _ l) as [[z es]|] eqn:Hf.
    + apply find_first_elem in Hf as [Hin Hz%Nat.eqb_eq]. cbn in Hz. subst z.
      destruct Hy. apply list_elem_of_fmap. by exists (x, es).
    + by rewrite lookup_insert_eq.
  - destruct (find_first _ l); [done|]. by rewrite lookup_insert_ne.
Qed.

Lemma push_dependents y ds (m : gmap nat (list nat)) d z :
  occ z (default [] (foldl (λ m dep, <[dep := default [] (m !! dep) ++ [y]]> m) m ds !! d)) =
  occ z (default [] (m !! d)) + (if decide (y = z) then occ d ds else 0).
Proof.
  revert m. induction ds as [|e ds IH]; intros m; cbn [foldl].
  { case_decide; cbn; lia. }
  rewrite IH, occ_cons. destruct (decide (e = d)) as [->|Hne].
  - rewrite lookup_insert_eq. cbn [default from_option id]. rewrite occ_app, occ_cons.
    case_decide; cbn; lia.
  - rewrite lookup_insert_ne by done. case_decide; lia.
Qed.

Lemma reverse_edges_occ l (m0 : gmap nat (list nat)) d z :
  NoDup l.*1 →
  occ z (default [] (foldl (λ m (id : nat * list nat),
    foldl (λ m dep, <[dep := default [] (m !! dep) ++ [id.1]]> m) m id.2) m0 l !! d)) =
  occ z (default [] (m0 !! d)) +
  match find_first (λ id, Nat.eqb id.1 z) l with Some id => occ d id.2 | None => 0 end.
Proof.
  revert m0. induction l as [|[y ds] l IH]; intros m0 Hnd; cbn [foldl find_first fst snd]; [lia|].
  apply list.NoDup_cons in Hnd as [Hy Hnd]. rewrite IH, push_dependents by done.
  destruct (Nat.eqb_spec y z) as [->|Hne].
  - rewrite decide_True by done. destruct (find_first _ l) as [[z' es]|] eqn:Hf; [|cbn [snd]; lia].
    apply find_first_elem in Hf as [Hin Hz%Nat.eqb_eq]. cbn in Hz. subst z'.
    destruct Hy. apply list_elem_of_fmap. by exists (z, es).
  - rewrite decide_False by done. lia.
Qed.

Section start.
Context (deps : gmap nat (list nat)) (l : list (nat * list nat)).
Context (iterated : l ≡ₚ map_to_list deps).

Lemma iterated_find x :
  snd <$> find_first (λ id, Nat.eqb id.1 x) l = deps !! x.
Proof.
  destruct (find_first _ l) as [[y ds]|] eqn:Hf.
  - apply find_first_elem in Hf as [Hin Hy%Nat.eqb_eq]. cbn in Hy. subst y.
    rewrite iterated, elem_of_map_to_list in Hin. by rewrite Hin.
  - symmetry. cbn. destruct (deps !! x) as [ds|] eqn:Hx; [|done]. exfalso.
    apply elem_of_map_to_list in Hx. rewrite <-iterated in Hx.
    rewrite find_first_None in Hf. specialize (Hf _ Hx). cbn in Hf. by rewrite Nat.eqb_refl in Hf.
Qed.

Lemma iterated_keys : NoDup l.*1.
Proof. rewrite iterated. apply NoDup_fst_map_to_list. Qed.

Lemma in_degrees_spec x : in_degrees l !! x = length <$> deps !! x.
Proof.
  unfold in_degrees. rewrite in_degrees_lookup by apply iterated_keys.
  rewrite <-iterated_find. by destruct (find_first _ l).
Qed.

Lemma reverse_edges_spec x y :
  occ y (default [] (reverse_edges l !! x)) = occ x (default [] (deps !! y)).
Proof.
  unfold reverse_edges. rewrite reverse_edges_occ by apply iterated_keys.
  rewrite <-iterated_find. by destruct (find_first _ l).
Qed.

Definition start_queue : list nat :=
  sort_unstable (map fst (List.filter (λ nd, Nat.eqb nd.2 0) (map_to_list (in_degrees l)))).

Lemma start_queue_elem x : x ∈ start_queue ↔ deps !! x = Some [].
Proof.
  unfold start_queue. rewrite sort_unstable_perm, list_elem_of_In, in_map_iff. split.
  - intros ([y n]&<-&[Hin Hn%Nat.eqb_eq]%filter_In). cbn in *. subst n.
    apply list_elem_of_In, elem_of_map_to_list in Hin. rewrite in_degrees_spec in Hin.
    destruct (deps !! y) as [[|]|]; [done|done|done].
  - intros Hx. exists (x, 0). split; [done|]. apply filter_In. split; [|done].
    apply list_elem_of_In, elem_of_map_to_list. by rewrite in_degrees_spec, Hx.
Qed.

Lemma start_queue_nodup : NoDup start_queue.
Proof.
  unfold start_queue. rewrite sort_unstable_perm.
  pose proof (NoDup_fst_map_to_list (in_degrees l)) as Hnd.
  induction (map_to_list (in_degrees l)) as [|[y n] k IH]; [constructor|].
  apply list.NoDup_cons in Hnd as [Hy Hnd]. cbn [List.filter snd].
  destruct (Nat.eqb n 0); [|auto]. cbn [map fst]. apply list.NoDup_cons. split; [|auto].
  intros Hin. apply Hy. apply list_elem_of_In, in_map_iff in Hin as ([z m]&Hz&[Hin _]%filter_In).
  apply list_elem_of_fmap. exists (z, m). split; [done|]. by apply list_elem_of_In.
Qed.

Lemma start_ok : state_ok deps (in_degrees l) [] start_queue.
Proof.
  assert (Hw : ∀ k, waiting k [] = length k).
  { intros k. unfold waiting. induction k as [|d k IH]; [done|].
    rewrite filter_cons, decide_True by set_solver. cbn. by rewrite IH. }
  split.
  - apply start_queue_nodup.
  - intros x Hx%start_queue_elem. apply elem_of_dom. eauto.
  - intros x [ds Hx]%elem_of_dom. by rewrite in_degrees_spec, Hx, Hw.
  - intros x [ds Hx]%elem_of_dom. cbn [app]. rewrite start_queue_elem, Hx, Hw. cbn.
    split; [by intros [= ->]|]. by intros ->%length_zero_iff_nil.
  - intros [] ? ?; done.
Qed.
End start.

(** ** Tables and their numbers *)

(** Table [t] has a foreign key to the configured table [u]. *)
Definition references (tables : list TableConfig) (t u : string) : Prop :=
  u ∈ map tbl_name tables ∧
  ∃ table, table ∈ tables ∧ tbl_name table = t ∧ u ∈ map fk_references_table (tbl_foreign_keys table).

Lemma omap_seq {A} (l : list A) : omap (λ i, l !! i) (seq 0 (length l)) = l.
Proof.
  assert (Hgen : ∀ pre k : list A, omap (λ i, (pre ++ k) !! i) (seq (length pre) (length k)) = k).
  { intros pre k. revert pre. induction k as [|x k IH]; intros pre; [done|]. cbn.
    rewrite list_lookup_middle by done. f_equal.
    specialize (IH (pre ++ [x])). rewrite <-List.app_assoc, length_app, Nat.add_1_r in IH.
    exact IH. }
  exact (Hgen [] l).
Qed.

Lemma omap_lookup_all (tables : list TableConfig) placed :
  (∀ i, i ∈ placed → i < length tables) →
  ∃ sorted, omap (λ i, tables !! i) placed = sorted ∧ length sorted = length placed ∧
    ∀ n i, placed !! n = Some i → sorted !! n = tables !! i.
Proof.
  induction placed as [|i placed IH]; intros Hlt.
  { exists []. split_and!; [done|done|]. by intros [|n]. }
  destruct IH as (sorted&Hs&Hlen&Hall); [intros; apply Hlt; by right|].
  destruct (lookup_lt_is_Some_2 tables i) as [t Ht]; [apply Hlt; left|].
  exists (t :: sorted). cbn. rewrite Ht. cbn in Hs. rewrite Hs. split_and!; [done|by f_equal|].
  intros [|n] j Hj; cbn in *; [by simplify_eq|auto].
Qed.

Section numbers.
Context (tables : list TableConfig).
Notation tm := (table_map tables).

Lemma table_map_snoc ts t :
  table_map (ts ++ [t]) = <[tbl_name t := length ts]> (table_map ts).
Proof.
  unfold table_map. rewrite imap_app, foldl_app. cbn. by rewrite Nat.add_0_r.
Qed.

Lemma table_map_Some ts n i :
  table_map ts !! n = Some i → ∃ t, ts !! i = Some t ∧ tbl_name t = n.
Proof.
  revert i. induction ts as [|t ts IH] using rev_ind; intros i H; [done|].
  rewrite table_map_snoc in H. destruct (decide (tbl_name t = n)) as [Hn|Hn].
  - rewrite Hn, lookup_insert_eq in H. injection H as <-. exists t. split; [|done].
    by apply list_lookup_middle.
  - rewrite lookup_insert_ne in H by done. destruct (IH i H) as (t'&Ht'&?).
    exists t'. split; [|done]. by apply lookup_app_l_Some.
Qed.

Lemma table_map_total ts t : t ∈ ts → is_Some (table_map ts !! tbl_name t).
Proof.
  induction ts as [|t' ts IH] using rev_ind; [set_solver|].
  rewrite table_map_snoc, elem_of_app. intros Ht.
  destruct (decide (tbl_name t' = tbl_name t)) as [->|Hn]; [rewrite lookup_insert_eq; eauto|].
  rewrite lookup_insert_ne by done. destruct Ht as [?|Ht%list_elem_of_singleton]; [auto|congruence].
Qed.

Lemma table_map_nodup ts i t :
  NoDup (map tbl_name ts) → ts !! i = Some t → table_map ts !! tbl_name t = Some i.
Proof.
  intros Hnd Ht. destruct (table_map_total ts t) as [j Hj]; [by eapply list_elem_of_lookup_2|].
  rewrite Hj. f_equal. apply table_map_Some in Hj as (t'&Ht'&Hn).
  eapply (NoDup_lookup (map tbl_name ts)); [done| |]; rewrite list_lookup_fmap.
  - by rewrite Ht'.
  - by rewrite Ht, Hn.
Qed.

(** The dependencies of the tables in [ts], between the numbers in [m]. *)
Lemma add_dependencies_all (m : gmap string nat) ts deps0 :
  (∀ t, t ∈ ts → is_Some (m !! tbl_name t)) →
  ∃ deps, try_fold (add_dependencies m) deps0 ts = Ok deps ∧
    (∀ i, i ∈ dom deps ↔ i ∈ dom deps0 ∨ ∃ t, t ∈ ts ∧ m !! tbl_name t = Some i) ∧
    (∀ i d, d ∈ default [] (deps !! i) ↔ d ∈ default [] (deps0 !! i) ∨
       ∃ t fk, t ∈ ts ∧ m !! tbl_name t = Some i ∧ fk ∈ tbl_foreign_keys t ∧
         m !! fk_references_table fk = Some d).
Proof.
  revert deps0. induction ts as [|t ts IH]; intros deps0 Hts.
  { exists deps0. split_and!; [done|set_solver|set_solver]. }
  destruct (Hts t) as [i Hi]; [left|]. cbn [try_fold]. unfold add_dependencies at 1.
  rewrite Hi. cbn [ok_or mbind result_bind].
  set (found := omap (λ fk, m !! fk_references_table fk) (tbl_foreign_keys t)).
  assert (Hfound : ∀ d, d ∈ found ↔
    ∃ fk, fk ∈ tbl_foreign_keys t ∧ m !! fk_references_table fk = Some d).
  { intros d. apply list_elem_of_omap. }
  destruct (IH (<[i := default [] (deps0 !! i) ++ found]> deps0)) as (deps&->&Hdom&Hdeps);
    [intros; apply Hts; by right|].
  exists deps. split; [done|]. split.
  - intros j. rewrite Hdom, dom_insert, elem_of_union, elem_of_singleton. split.
    + intros [[->|?]|(t'&?&?)]; [right; exists t; split; [left|done]|by left|].
      right. exists t'. split; [by right|done].
    + intros [?|(t'&[->|?]%elem_of_cons&Ht')]; [auto|left; left; congruence|eauto].
  - intros j d. rewrite Hdeps. destruct (decide (i = j)) as [->|Hij].
    + rewrite lookup_insert_eq. cbn [default from_option id]. rewrite elem_of_app, Hfound. split.
      * intros [[?|(fk&?&?)]|(t'&fk&?&?&?&?)]; [by left| |]; right.
        -- exists t, fk. split_and!; [left|done..].
        -- exists t', fk. split_and!; [by right|done..].
      * intros [?|(t'&fk&[->|?]%elem_of_cons&?&?&?)]; [auto|eauto 10|eauto 10].
    + rewrite lookup_insert_ne by done. split.
      * intros [?|(t'&fk&?&?&?&?)]; [by left|]. right. exists t', fk. split_and!; [by right|done..].
      * intros [?|(t'&fk&[->|?]%elem_of_cons&?&?&?)]; [auto|congruence|eauto 10].
Qed.

Lemma dependencies_all :
  ∃ deps, dependencies tables = Ok deps ∧
    (∀ i, i ∈ dom deps ↔ ∃ t, t ∈ tables ∧ tm !! tbl_name t = Some i) ∧
    (∀ i d, d ∈ default [] (deps !! i) ↔ ∃ t fk, t ∈ tables ∧ tm !! tbl_name t = Some i ∧
       fk ∈ tbl_foreign_keys t ∧ tm !! fk_references_table fk = Some d).
Proof.
  destruct (add_dependencies_all tm tables ∅ (table_map_total tables)) as (deps&Hd&Hdom&Hdeps).
  exists deps. split; [done|]. split.
  - intros i. rewrite Hdom, dom_empty. set_solver.
  - intros i d. rewrite Hdeps, lookup_empty. cbn. set_solver.
Qed.

Section graph.
Context (deps : gmap nat (list nat)).
Context (deps_dom : ∀ i, i ∈ dom deps ↔ ∃ t, t ∈ tables ∧ tm !! tbl_name t = Some i).
Context (deps_edge : ∀ i d, d ∈ default [] (deps !! i) ↔ ∃ t fk, t ∈ tables ∧
  tm !! tbl_name t = Some i ∧ fk ∈ tbl_foreign_keys t ∧ tm !! fk_references_table fk = Some d).

Lemma deps_closed x d : d ∈ default [] (deps !! x) → d ∈ dom deps.
Proof.
  intros (t&fk&_&_&_&Hd)%deps_edge. apply deps_dom.
  apply table_map_Some in Hd as Ht. destruct Ht as (u&Hu&Hn).
  exists u. split; [by eapply list_elem_of_lookup_2|]. by rewrite Hn.
Qed.

Lemma deps_size : size deps ≤ length tables.
Proof.
  rewrite <-size_dom.
  transitivity (size (list_to_set (seq 0 (length tables)) : gset nat)).
  - apply subseteq_size. intros i (t&_&(u&Hu&_)%table_map_Some)%deps_dom.
    apply elem_of_list_to_set, elem_of_seq. apply lookup_lt_Some in Hu. lia.
  - rewrite size_list_to_set by apply NoDup_seq. by rewrite length_seq.
Qed.

(** The table with a number has its name. *)
Lemma deps_name i : i ∈ dom deps → ∃ t, tables !! i = Some t ∧ tm !! tbl_name t = Some i.
Proof.
  intros (t&_&Hi)%deps_dom. destruct (table_map_Some _ _ _ Hi) as (u&Hu&Hn).
  exists u. by rewrite Hn.
Qed.

Lemma tc_depends_references i j :
  tc (depends deps) i j → ∀ t u, tables !! i = Some t → tables !! j = Some u →
  tc (references tables) (tbl_name t) (tbl_name u).
Proof.
  assert (Hone : ∀ i j t u, depends deps i j → tables !! i = Some t → tables !! j = Some u →
    references tables (tbl_name t) (tbl_name u)).
  { intros a b t u (t'&fk&Ht'&Ha&Hfk&Hb)%deps_edge Ht Hu.
    apply table_map_Some in Ha as (t2&Ht2&Hn). apply table_map_Some in Hb as (u2&Hu2&Hm).
    rewrite Ht in Ht2. rewrite Hu in Hu2. injection Ht2 as <-. injection Hu2 as <-. split.
    - apply list_elem_of_fmap. exists u. split; [done|]. by eapply list_elem_of_lookup_2.
    - exists t'. split_and!; [done|done|]. rewrite Hm. apply list_elem_of_fmap. eauto. }
  induction 1 as [a b Hab|a b c Hab Hbc IH]; intros t u Ht Hu; [apply tc_once; eauto|].
  assert (Hb : b ∈ dom deps) by (by eapply deps_closed).
  apply deps_name in Hb as (v&Hv&_). eapply tc_l; eauto.
Qed.

Lemma references_depends t u i j :
  references tables t u → tm !! t = Some i → tm !! u = Some j → depends deps i j.
Proof.
  intros (_&t'&Ht'&<-&(fk&->&Hfk)%list_elem_of_fmap) Hi Hj. apply deps_edge.
  exists t', fk. done.
Qed.

Lemma tc_references_depends t u :
  tc (references tables) t u →
  ∀ i j, tm !! t = Some i → tm !! u = Some j → tc (depends deps) i j.
Proof.
  induction 1 as [a b Hab|a b c Hab Hbc IH]; intros i j Hi Hj; [apply tc_once; by eapply references_depends|].
  destruct Hab as [Hb Hab']. apply list_elem_of_fmap in Hb as (v&->&Hv).
  destruct (table_map_total tables v Hv) as [k Hk].
  eapply tc_l; [eapply (references_depends a (tbl_name v)); [|done|done]|by eapply IH].
  split; [|done]. apply list_elem_of_fmap. eauto.
Qed.

(** ** From the placed numbers to the tables *)

Context (degree : gmap nat nat) (placed : list nat).
Context (placed_ok : state_ok deps degree placed []).

Lemma placed_nodup : NoDup placed.
Proof. pose proof (ok_nodup _ _ _ _ placed_ok) as H. by rewrite List.app_nil_r in H. Qed.

Lemma placed_dom i : i ∈ placed → i ∈ dom deps.
Proof. intros Hi. apply (ok_dom _ _ _ _ placed_ok). by rewrite List.app_nil_r. Qed.

Lemma placed_full : length placed = length tables → placed ≡ₚ seq 0 (length tables).
Proof.
  intros Hlen. apply submseteq_length_Permutation; [|by rewrite length_seq, Hlen].
  apply NoDup_submseteq; [apply placed_nodup|]. intros i Hi%placed_dom.
  apply deps_name in Hi as (t&Ht%lookup_lt_Some&_). apply elem_of_seq. lia.
Qed.

Lemma full_dom i t : length placed = length tables → tables !! i = Some t →
  i ∈ placed ∧ tm !! tbl_name t = Some i.
Proof.
  intros Hlen Ht. assert (Hi : i ∈ placed).
  { rewrite placed_full by done. apply elem_of_seq. apply lookup_lt_Some in Ht. lia. }
  split; [done|]. destruct (deps_name i (placed_dom i Hi)) as (t'&Ht'&?). congruence.
Qed.

Lemma references_end t u : tc (references tables) t u → u ∈ map tbl_name tables.
Proof. induction 1 as [? ? [? _]|]; done. Qed.

(** All numbers placed: the names are distinct and there is no cycle. *)
Lemma placed_all :
  length placed = length tables →
  NoDup (map tbl_name tables) ∧ ∀ t, ¬ tc (references tables) t t.
Proof.
  intros Hlen. split.
  - apply NoDup_alt. intros i j n Hi Hj. rewrite list_lookup_fmap in Hi, Hj.
    destruct (tables !! i) as [t|] eqn:Ht; [|done]. destruct (tables !! j) as [u|] eqn:Hu; [|done].
    destruct (full_dom i t Hlen Ht), (full_dom j u Hlen Hu). cbn in *. congruence.
  - intros t Hc. pose proof (references_end _ _ Hc) as Hin.
    apply list_elem_of_fmap in Hin as (table&->&Htable).
    destruct (table_map_total tables table Htable) as [i Hi].
    pose proof (tc_references_depends _ _ Hc i i Hi Hi) as Hcycle.
    refine (ordered_acyclic deps placed placed_nodup (ok_ordered _ _ _ _ placed_ok) _ i Hcycle).
    intros x Hx. destruct (deps_name x Hx) as (t'&Ht'&_). by apply (full_dom x t').
Qed.

(** Distinct names and no cycle: all numbers are placed. *)
Lemma distinct_acyclic_placed :
  NoDup (map tbl_name tables) → (∀ t, ¬ tc (references tables) t t) →
  length placed = length tables.
Proof.
  intros Hnames Hac.
  assert (Hall : ∀ x, x ∈ dom deps → x ∈ placed).
  { eapply (acyclic_complete deps deps_closed); [exact placed_ok|]. intros x Hc.
    assert (Hx : x ∈ dom deps).
    { inversion Hc; subst; by eapply deps_of_dom. }
    destruct (deps_name x Hx) as (t&Ht&_). apply (Hac (tbl_name t)).
    by apply (tc_depends_references x x Hc). }
  apply Nat.le_antisymm.
  - rewrite <-(length_seq (length tables) 0). apply submseteq_length, NoDup_submseteq;
      [apply placed_nodup|]. intros i Hi%placed_dom.
    apply deps_name in Hi as (t&Ht%lookup_lt_Some&_). apply elem_of_seq. lia.
  - rewrite <-(length_seq (length tables) 0) at 1. apply submseteq_length, NoDup_submseteq;
      [apply NoDup_seq|]. intros i [_ Hi]%elem_of_seq. apply Hall.
    destruct (lookup_lt_is_Some_2 tables i) as [t Ht]; [lia|]. apply deps_dom.
    exists t. split; [by eapply list_elem_of_lookup_2|]. by apply table_map_nodup.
Qed.

(** The tables in the order of their numbers: a permutation, referenced
    tables first. *)
Lemma placed_in_order :
  length placed = length tables →
  omap (λ i, tables !! i) placed ≡ₚ tables ∧
  ∀ l1 table l2 u, omap (λ i, tables !! i) placed = l1 ++ table :: l2 →
    references tables (tbl_name table) u → u ∈ map tbl_name l1.
Proof.
  intros Hlen. pose proof (placed_all Hlen) as [Hnames _]. split.
  { rewrite placed_full by done. by rewrite omap_seq. }
  destruct (omap_lookup_all tables placed) as (sorted&->&Hsl&Hs).
  { intros i Hi%placed_dom. apply deps_name in Hi as (t&Ht&_). by eapply lookup_lt_Some. }
  intros l1 table l2 u Heq Href.
  assert (Hk : sorted !! length l1 = Some table) by (rewrite Heq; by apply list_lookup_middle).
  destruct (lookup_lt_is_Some_2 placed (length l1)) as [i Hi].
  { rewrite <-Hsl. by eapply lookup_lt_Some. }
  rewrite (Hs _ _ Hi) in Hk. destruct (full_dom i table Hlen Hk) as [_ Hti].
  destruct Href as [Hu Href]. apply list_elem_of_fmap in Hu as (v&->&Hv).
  destruct (table_map_total tables v Hv) as [d Hd].
  assert (Hdep : depends deps i d).
  { eapply references_depends; [split; [|exact Href]|done|done]. apply list_elem_of_fmap. eauto. }
  pose proof (ok_ordered _ _ _ _ placed_ok (take (length l1) placed) i (drop (S (length l1)) placed)
    ltac:(by rewrite take_drop_middle) d Hdep) as Hin.
  apply list_elem_of_lookup_1 in Hin as [m Hm]. apply lookup_take_Some in Hm as [Hm Hlt].
  destruct (table_map_Some _ _ _ Hd) as (v'&Hv'&Hn).
  pose proof (Hs m d Hm) as Hsm. rewrite Hv' in Hsm. rewrite Heq, lookup_app_l in Hsm by done.
  apply list_elem_of_fmap. exists v'. split; [done|]. by eapply list_elem_of_lookup_2.
Qed.
End graph.
End numbers.

(** ** The order of the tables *)

Section order.
Context (iter : gmap nat (list nat) → list (nat * list nat)).
Context (iter_perm : ∀ m, iter m ≡ₚ map_to_list m).

(** The sort, with what its loop has established at the end. *)
Lemma sort_run tables :
  ∃ deps placed degree,
    (∀ i, i ∈ dom deps ↔ ∃ t, t ∈ tables ∧ table_map tables !! tbl_name t = Some i) ∧
    (∀ i d, d ∈ default [] (deps !! i) ↔ ∃ t fk, t ∈ tables ∧
       table_map tables !! tbl_name t = Some i ∧ fk ∈ tbl_foreign_keys t ∧
       table_map tables !! fk_references_table fk = Some d) ∧
    state_ok deps degree placed [] ∧
    sort_tables_topologically iter tables =
      if Nat.eqb (length placed) (length tables) then Ok (omap (λ idx, tables !! idx) placed)
      else Err (Internal ("Circular dependency detected among tables: [" +:+
        join ", " (map tbl_name (List.filter (λ t,
          match table_map tables !! tbl_name t with
          | Some i => negb (bool_decide (i ∈ placed)) | None => true end) tables)) +:+ "]")).
Proof.
  destruct (dependencies_all tables) as (deps&Hd&Hdom&Hedge).
  pose proof (start_ok deps (iter deps) (iter_perm deps)) as Hstart.
  destruct (kahn_ok deps (reverse_edges (iter deps))
    (λ x y, reverse_edges_spec deps (iter deps) (iter_perm deps) x y)
    (deps_closed tables deps Hdom Hedge) (length tables) _ _ _ Hstart) as (placed&degree&Hk&Hok).
  { cbn. pose proof (deps_size tables deps Hdom). lia. }
  exists deps, placed, degree. split_and!; [done|done|done|].
  unfold sort_tables_topologically. rewrite Hd. cbn [mbind result_bind].
  fold (start_queue (iter deps)). rewrite Hk. cbn [mbind result_bind].
  by destruct (Nat.eqb _ _).
Qed.

(** C30: the creation order of tables. The sort ends for every list of tables,
    whatever order the hash maps are iterated in; when it succeeds, the
    result is a permutation of the tables in which every configured table a
    foreign key refers to comes before the table with the key; and it
    succeeds exactly when the names are distinct and no table refers to
    itself, directly or through others. *)
Theorem sort_tables_spec (tables : list TableConfig) :
  (∀ sorted, sort_tables_topologically iter tables = Ok sorted →
     sorted ≡ₚ tables ∧
     ∀ l1 table l2 u, sorted = l1 ++ table :: l2 → references tables (tbl_name table) u →
       u ∈ map tbl_name l1) ∧
  (is_ok (sort_tables_topologically iter tables) = true ↔
     NoDup (map tbl_name tables) ∧ ∀ t, ¬ tc (references tables) t t).
Proof.
  destruct (sort_run tables) as (deps&placed&degree&Hdom&Hedge&Hok&Hsort).
  pose proof (ok_nodup _ _ _ _ Hok) as Hnd. rewrite List.app_nil_r in Hnd.
  assert (Hlt : ∀ i, i ∈ placed → i < length tables).
  { intros i Hi. destruct (deps_name tables deps Hdom i) as (t&Ht&_).
    - apply (ok_dom _ _ _ _ Hok). by rewrite List.app_nil_r.
    - by eapply lookup_lt_Some. }
  rewrite Hsort. split.
  - intros sorted Hs. destruct (Nat.eqb_spec (length placed) (length tables)) as [Hlen|]; [|done].
    injection Hs as <-. by eapply placed_in_order.
  - destruct (Nat.eqb_spec (length placed) (length tables)) as [Hlen|Hlen]; cbn.
    + split; [intros _|done]. by eapply placed_all.
    + split; [done|]. intros [Hnames Hac]. destruct Hlen.
      eapply distinct_acyclic_placed; eauto.
Qed.
End order.

(** ** Tables that exist *)

Section existing.
Context {DB : Type} `{!Pool DB}.

(** Statements executed in order, up to the first failure. *)
Definition execute_all (pool : DatabasePool) (statements : list string) (db : DB)
  : DB * result AppError () :=
  for_each (run_raw id pool) statements db.

(** The statements for an existing table: the columns that can be added and,
    where that is allowed, the removal of the columns that are not
    configured. *)
Definition plan (driver : DatabaseDriver) (table : TableConfig) (existing : list string)
    (allow_destructive : bool) : list string :=
  map (λ col, generate_add_column (tbl_name table) col driver)
    (List.filter (can_add existing) (tbl_columns table)) ++
  if allow_destructive then
    map (λ name, generate_drop_column (tbl_name table) name driver)
      (List.filter (λ name, negb (bool_decide (name ∈ map col_name (tbl_columns table)))) existing)
  else [].

(** The same effects, and both succeed or both fail. *)
Definition same_effect {A} (m m' : DB * result AppError A) : Prop := m.1 = m'.1 ∧ ok m.2 = ok m'.2.

Lemma for_each_filtered {A} (p : A → bool) (h : A → string) (f : A → AppError → AppError) pool l
    (db : DB) :
  same_effect (for_each (λ x db, if p x then run_raw (f x) pool (h x) db else (db, Ok tt)) l db)
    (execute_all pool (map h (List.filter p l)) db).
Proof.
  revert db. induction l as [|x l IH]; intros db; [done|]. cbn [for_each List.filter].
  destruct (p x); [|apply IH]. cbn [map]. unfold execute_all. cbn [for_each]. unfold run_raw at 1 3.
  destruct (execute_raw pool (h x) db); cbn [and_then]; [apply IH|done].
Qed.

Lemma filter_none {A} (p : A → bool) l : (∀ x, x ∈ l → p x = false) → List.filter p l = [].
Proof.
  induction l as [|x l IH]; intros Hp; [done|]. cbn. rewrite Hp by left. apply IH.
  intros y ?. apply Hp. by right.
Qed.

Lemma execute_all_app pool l k (db : DB) :
  execute_all pool (l ++ k) db = and_then (execute_all pool l db) (λ _, execute_all pool k).
Proof. apply for_each_app. Qed.

Lemma same_effect_then {A B} (m m' : DB * result AppError A) (k k' : A → DB → DB * result AppError B) :
  same_effect m m' → (∀ a db, same_effect (k a db) (k' a db)) →
  same_effect (and_then m k) (and_then m' k').
Proof.
  destruct m as [db [a|e]], m' as [db' [a'|e']]; intros [Hs Hr] Hk; cbn in *; simplify_eq; [apply Hk|done].
Qed.

(** What a migration does to a table that exists. It executes the plan and
    nothing else: every configured column that is missing, is no primary key
    and can be filled in is added, in order; columns that are not
    configured are dropped when the database allows destructive changes and
    are left alone otherwise; and once the added columns are there, the plan
    without removals is empty, so migrating again changes nothing. *)
Theorem existing_table_plan (pool : DatabasePool) (driver : DatabaseDriver) (table : TableConfig)
    (existing : list string) (allow_destructive : bool) (db : DB) :
  same_effect (alter_existing_table pool driver table existing allow_destructive db)
    (execute_all pool (plan driver table existing allow_destructive) db) ∧
  (∀ existing', existing ⊆ existing' →
     (∀ col, col ∈ tbl_columns table → can_add existing col = true → col_name col ∈ existing') →
     plan driver table existing' false = []).
Proof.
  split.
  - unfold alter_existing_table, plan. rewrite execute_all_app. apply same_effect_then.
    + apply (for_each_filtered (can_add existing)
        (λ col, generate_add_column (tbl_name table) col driver)
        (λ col, failed ("Failed to add column '" +:+ col_name col +:+ "' to table '" +:+
           tbl_name table +:+ "'"))).
    + intros _ db1. destruct allow_destructive.
      * rewrite (for_each_ext _ (λ name db,
          if negb (bool_decide (name ∈ map col_name (tbl_columns table))) then
            run_raw (failed ("Failed to drop column '" +:+ name +:+ "' from table '" +:+
              tbl_name table +:+ "'")) pool (generate_drop_column (tbl_name table) name driver) db
          else (db, Ok tt)))
          by (intros name d; by destruct (bool_decide (name ∈ map col_name (tbl_columns table)))).
        apply (for_each_filtered (λ name, negb (bool_decide (name ∈ map col_name (tbl_columns table)))) (λ name, generate_drop_column (tbl_name table) name driver)
          (λ name, failed ("Failed to drop column '" +:+ name +:+ "' from table '" +:+
             tbl_name table +:+ "'"))).
      * cbn. induction existing as [|name l IH]; [done|]. cbn. by destruct (bool_decide _).
  - intros existing' Hsub Hadded. unfold plan. rewrite List.app_nil_r.
    rewrite filter_none; [done|]. intros col Hcol. unfold can_add.
    destruct (bool_decide (col_name col ∈ existing')) eqn:Hin; [done|].
    apply bool_decide_eq_false in Hin. cbn [negb andb].
    destruct (can_add existing col) eqn:Hc; [by destruct Hin; apply Hadded|].
    unfold can_add in Hc. rewrite bool_decide_eq_false_2 in Hc by (intros ?; set_solver).
    exact Hc.
Qed.
End existing.

(** ** Witnesses *)

Definition column (name : string) (ct : ColumnType) (pk nullable : bool) : ColumnConfig := {|
  col_name := name; col_type := ct; col_primary_key := pk; col_nullable := nullable;
  col_default := None; col_unique := false; col_indexed := false; col_validation_schema := None;
  col_validation := None; col_validation_schema_ref := None |}.
Definition key_to (table : string) : ForeignKeyConfig := {|
  fk_column := table +:+ "_id"; fk_references_table := table; fk_references_column := "id";
  fk_on_delete := NoAction; fk_on_update := NoAction |}.
Definition table_of (name : string) (refs : list string) : TableConfig := {|
  tbl_name := name; tbl_database := "main";
  tbl_columns := [column "id" Serial true false; column "title" Varchar false true;
                  column "body" Text false false];
  tbl_foreign_keys := map key_to refs |}.

Definition blog : list TableConfig :=
  [table_of "comments" ["posts"; "users"]; table_of "posts" ["users"]; table_of "users" []].
(** A table of categories, each with a parent category. *)
Definition categories : list TableConfig := [table_of "categories" ["categories"]].

Lemma sort_tables_spec_witness :
  [table_of "users" []; table_of "posts" ["users"]; table_of "comments" ["posts"; "users"]] ≡ₚ blog ∧
  (is_ok (sort_tables_topologically map_to_list categories) = true ↔
     NoDup (map tbl_name categories) ∧ ∀ t, ¬ tc (references categories) t t) ∧
  is_ok (sort_tables_topologically map_to_list categories) = false.
Proof.
  split; [|split].
  - apply (sort_tables_spec map_to_list (λ m, reflexivity _) blog). vm_compute. reflexivity.
  - apply (sort_tables_spec map_to_list (λ m, reflexivity _) categories).
  - vm_compute. reflexivity.
Defined.

(** A pool that logs its statements. *)
Definition log_pool : Pool (list string) := {|
  fetch_all_json _ _ _ _ := Ok []; fetch_optional_json _ _ _ _ := Ok None;
  fetch_optional_returning _ sql _ db := Ok (None, db ++ [sql]);
  execute_with_params _ sql _ db := Ok (1%Z, db ++ [sql]);
  execute_with_params_and_last_id _ sql _ db := Ok (1%Z, db ++ [sql]); execute_raw _ sql db := Ok (db ++ [sql]) |}.

Lemma existing_table_plan_witness :
  (@alter_existing_table _ log_pool (PoolSqlite 0) Sqlite (table_of "posts" []) ["id"; "old"] false []).1
    = ["ALTER TABLE " +:+ dquote +:+ "posts" +:+ dquote +:+ " ADD COLUMN " +:+ dquote +:+
       "title" +:+ dquote +:+ " TEXT"] ∧
  plan Sqlite (table_of "posts" []) ["id"; "old"; "title"] false = [].
Proof.
  destruct (@existing_table_plan _ log_pool (PoolSqlite 0) Sqlite (table_of "posts" []) ["id"; "old"] false [])
    as [[H1 _] H2].
  split; [rewrite H1; reflexivity|]. apply H2; [set_solver|].
  intros col [->|[->|[->|[]%elem_of_nil]%elem_of_cons]%elem_of_cons]%elem_of_cons; cbn.
  - discriminate.
  - intros _. set_solver.
  - discriminate.
Defined.
