(* ===== verification/Roles.v ===== *)
(** * Roles and their inheritance

    The role hierarchy of the configuration: its validation
    (src/src/config/validation/auth.rs), its closure
    (src/src/server/state.rs) and the role check of a request
    (src/src/middleware/auth/validate.rs). A hash map is iterated in an
    unspecified order, so a function that reports what it finds on the way
    takes the order of the keys as an argument. The recursive search and the
    work list run on fuel; [None] is running out of it. *)

From S2P Require Import Prelude RustStr Config Errors.
Local Open Scope stdpp_scope.

(** The authenticated user of a request.
    Source: middleware/auth/extractor.rs [AuthInfo] *)
Record AuthInfo := {
  ai_subject : string;
  ai_email : option string;
  ai_role : option string;
  ai_token : option string;
}.

Section hierarchy.
Context (roles : gmap string (list string)).

(** Every role the hierarchy mentions. *)
Definition mentioned : gset string :=
  dom roles ∪ ⋃ (map (λ rp, list_to_set rp.2) (map_to_list roles)).

(** ** Validation *)

(** The colour of a role in the search: 0 unvisited, 1 on the current path,
    2 done. *)
Definition colour (state : gmap string Z) (role : string) : Z := default 0%Z (state !! role).

(** The loop over the parents of [role], given the search from a parent. *)
Fixpoint visit_parents
    (search : string → gmap string Z → option (option string * gmap string Z))
    (role : string) (parents : list string) (state : gmap string Z)
  : option (option string * gmap string Z) :=
  match parents with
  | [] => Some (None, state)
  | parent :: rest =>
      if (colour state parent =? 0)%Z then
        match search parent state with
        | None => None
        | Some (Some cycle, state') =>
            Some (Some (role +:+ " -> " +:+ parent +:+ " -> " +:+ cycle), state')
        | Some (None, state') => visit_parents search role rest state'
        end
      else if (colour state parent =? 1)%Z then
        Some (Some (role +:+ " -> " +:+ parent), state)
      else visit_parents search role rest state
  end.

(** Source: config/validation/auth.rs [dfs_detect_cycle] *)
Fixpoint dfs_detect_cycle (fuel : nat) (role : string) (state : gmap string Z)
  : option (option string * gmap string Z) :=
  match fuel with
  | O => None
  | S fuel =>
      let state := <[role := 1%Z]> state in
      match visit_parents (dfs_detect_cycle fuel) role (default [] (roles !! role)) state with
      | None => None
      | Some (Some cycle, state') => Some (Some cycle, state')
      | Some (None, state') => Some (None, <[role := 2%Z]> state')
      end
  end.

(** The second loop of the validation: search from every unvisited role. *)
Fixpoint search_all (fuel : nat) (order : list string) (state : gmap string Z)
    (errors : list string) : option (list string) :=
  match order with
  | [] => Some errors
  | role :: order' =>
      if (colour state role =? 0)%Z then
        match dfs_detect_cycle fuel role state with
        | None => None
        | Some (Some cycle, state') =>
            search_all fuel order' state' (errors ++ ["role_hierarchy: cycle detected: " +:+ cycle])
        | Some (None, state') => search_all fuel order' state' errors
        end
      else search_all fuel order' state errors
  end.

Definition self_loop_errors (order : list string) : list string :=
  flat_map (λ role,
    if bool_decide (role ∈ default [] (roles !! role))
    then ["role_hierarchy." +:+ role +:+ ": role cannot list itself as a parent"] else []) order.
End hierarchy.

(** Source: config/validation/auth.rs [validate_role_hierarchy] *)
Definition validate_role_hierarchy (order : list string) (role_hierarchy : option RoleHierarchy)
    (errors : list string) : option (list string) :=
  match role_hierarchy with
  | None => Some errors
  | Some hierarchy =>
      let roles := rh_roles hierarchy in
      search_all roles (size (mentioned roles)) order ((λ _, 0%Z) <$> roles)
        (errors ++ self_loop_errors roles order)
  end.

(** ** Closure *)

(** The work list: the stack's top is the head of the list. *)
Fixpoint inherit_loop (roles : gmap string (list string)) (fuel : nat) (stack : list string)
    (inherited : gset string) : option (gset string) :=
  match stack with
  | [] => Some inherited
  | parent :: stack =>
      match fuel with
      | O => None
      | S fuel =>
          if bool_decide (parent ∈ inherited) then inherit_loop roles fuel stack inherited
          else inherit_loop roles fuel (reverse (default [] (roles !! parent)) ++ stack)
                 ({[parent]} ∪ inherited)
      end
  end.

(** The number of parents listed in the whole hierarchy. *)
Definition listed (roles : gmap string (list string)) : nat :=
  sum_list_with (λ rp, length rp.2) (map_to_list roles).

(** Source: server/state.rs [compute_role_inheritance] *)
Definition compute_role_inheritance (role_hierarchy : option RoleHierarchy)
  : gmap string (gset string) :=
  match role_hierarchy with
  | None => ∅
  | Some hierarchy =>
      let roles := rh_roles hierarchy in
      map_imap (λ role _,
        let stack := default [] (roles !! role) in
        inherit_loop roles (length stack + listed roles) (reverse stack) ∅) roles
  end.

(** ** The check of a request *)

(** Source: middleware/auth/validate.rs [check_roles] *)
Definition check_roles (auth_info : AuthInfo) (required_roles : list string)
    (role_inheritance : gmap string (gset string)) : result AppError unit :=
  match required_roles with
  | [] => Ok tt
  | _ =>
      match ai_role auth_info with
      | None => Err (Forbidden "No role assigned, but this endpoint requires one")
      | Some user_role =>
          if bool_decide (user_role ∈ required_roles) then Ok tt else
          match role_inheritance !! user_role with
          | Some inherited =>
              if existsb (λ r, bool_decide (r ∈ inherited)) required_roles then Ok tt
              else Err (Forbidden ("Role '" +:+ user_role +:+ "' is not authorized for this endpoint"))
          | None => Err (Forbidden ("Role '" +:+ user_role +:+ "' is not authorized for this endpoint"))
          end
      end
  end.
