(* ===== verification/RolesSpec.v ===== *)
(** * The role hierarchy, specified

    The validation accepts exactly the acyclic hierarchies, the computed
    inheritance is the transitive closure of the parent relation, and the
    role check grants access by reachability. *)

From stdpp Require Import relations.
From S2P Require Import Prelude RustStr Config Errors Roles.
Local Open Scope stdpp_scope.

(** [parent roles u v]: role [u] lists [v] as a parent. *)
Definition parent (roles : gmap string (list string)) (u v : string) : Prop :=
  v ∈ default [] (roles !! u).

(** No role inherits from itself. *)
Definition acyclic (roles : gmap string (list string)) : Prop := ∀ u, ¬ tc (parent roles) u u.

Section search.
Context (roles : gmap string (list string)).
Notation edge := (parent roles).

Lemma parent_mentioned u v : edge u v → u ∈ mentioned roles ∧ v ∈ mentioned roles.
Proof.
  unfold parent, mentioned. destruct (roles !! u) as [ps|] eqn:Hu; [|set_solver].
  intros Hv. split; [apply elem_of_union_l, elem_of_dom; eauto|].
  apply elem_of_union_r, elem_of_union_list. exists (list_to_set ps). split.
  - apply list_elem_of_fmap. exists (u, ps). split; [done|]. by apply elem_of_map_to_list.
  - set_solver.
Qed.

(** ** The search *)

(** Done roles are closed under [parent] and lie on no cycle. *)
Definition safe (state : gmap string Z) : Prop := ∀ u, colour state u = 2%Z →
  (∀ v, edge u v → colour state v = 2%Z) ∧ ¬ tc edge u u.

(** The roles the search has reached only grow in number. *)
Definition grows (state state' : gmap string Z) : Prop :=
  ∀ u, colour state u ≠ 0%Z → colour state' u ≠ 0%Z.

(** What a search may assume, and what it promises. *)
Definition found (role : string) (state : gmap string Z) (r : option (option string * gmap string Z))
  : Prop :=
  match r with
  | None => False
  | Some (Some _, state') => grows state state' ∧ ∃ u, tc edge u u
  | Some (None, state') => grows state state' ∧ safe state' ∧
      (∀ u, colour state' u = 1%Z ↔ colour state u = 1%Z) ∧
      (∀ u, colour state u = 2%Z → colour state' u = 2%Z) ∧ colour state' role = 2%Z
  end.

Lemma colour_insert state u c v :
  colour (<[u := c]> state) v = if decide (u = v) then c else colour state v.
Proof. unfold colour. rewrite lookup_insert. by case_decide. Qed.

(** A role whose parents are all done is done. *)
Lemma safe_done state role :
  safe state → colour state role = 1%Z → (∀ v, edge role v → colour state v = 2%Z) →
  safe (<[role := 2%Z]> state).
Proof.
  intros Hs Hr Hp.
  assert (Hreach : ∀ u v, tc edge u v → colour state u = 2%Z → colour state v = 2%Z).
  { induction 1 as [u v Huv|u v w Huv _ IH]; intros Hu; [|apply IH]; by apply (Hs u). }
  assert (Hacyc : ∀ u, colour state u = 2%Z ∨ u = role → ¬ tc edge u u).
  { intros u [Hu| ->]; [by destruct (Hs u Hu)|]. intros Hc.
    inversion Hc as [? ? He|? v ? He Hc']; subst; pose proof (Hp _ He) as H2;
      [congruence|]. apply Hreach in Hc'; congruence. }
  assert (Hcl : ∀ u v, colour state u = 2%Z ∨ u = role → edge u v → colour state v = 2%Z).
  { intros u v [Hu| ->]; [by apply (Hs u)|apply Hp]. }
  intros u. rewrite colour_insert. intros Hu.
  assert (Hor : colour state u = 2%Z ∨ u = role) by (case_decide; auto).
  split; [|by apply Hacyc]. intros v Hv. rewrite colour_insert.
  destruct (decide (role = v)); [done|by eapply Hcl].
Qed.

(** The roles the search has not reached. *)
Definition unvisited (state : gmap string Z) : gset string :=
  filter (λ u, colour state u = 0%Z) (mentioned roles).

Lemma unvisited_grows state state' :
  grows state state' → size (unvisited state') ≤ size (unvisited state).
Proof.
  intros Hg. apply subseteq_size. intros u. unfold unvisited. rewrite !elem_of_filter.
  intros [Hu ?]. split; [|done]. destruct (decide (colour state u = 0%Z)); [done|].
  by destruct (Hg u).
Qed.

Lemma grows_trans s1 s2 s3 : grows s1 s2 → grows s2 s3 → grows s1 s3.
Proof. unfold grows. auto. Qed.

(** What a search from [p] may assume: it has fuel, and every role on the
    path reaches [p]. *)
Definition ready (fuel : nat) (p : string) (state : gmap string Z) : Prop :=
  p ∈ mentioned roles ∧ colour state p = 0%Z ∧ safe state ∧
  size (unvisited state) ≤ fuel ∧ (∀ g, colour state g = 1%Z → rtc edge g p).

(** The promise of the loop over the parents. *)
Definition visited (role : string) (parents : list string) (state : gmap string Z)
    (r : option (option string * gmap string Z)) : Prop :=
  match r with
  | None => False
  | Some (Some _, state') => grows state state' ∧ ∃ u, tc edge u u
  | Some (None, state') => grows state state' ∧ safe state' ∧
      (∀ u, colour state' u = 1%Z ↔ colour state u = 1%Z) ∧
      (∀ u, colour state u = 2%Z → colour state' u = 2%Z) ∧
      (∀ p, p ∈ parents → colour state' p = 2%Z)
  end.

Definition coloured (state : gmap string Z) : Prop :=
  ∀ u, colour state u = 0%Z ∨ colour state u = 1%Z ∨ colour state u = 2%Z.

Lemma visit_parents_visited fuel search role parents state :
  (∀ p state, ready fuel p state → coloured state → found p state (search p state)) →
  (∀ p state c state', search p state = Some (c, state') → coloured state → coloured state') →
  (∀ p, p ∈ parents → edge role p) → coloured state → safe state →
  (∀ g, colour state g = 1%Z → rtc edge g role) → size (unvisited state) ≤ fuel →
  visited role parents state (visit_parents search role parents state).
Proof.
  intros Hsearch Hcol. revert state.
  induction parents as [|p ps IH]; intros state Hps Hc Hs Hg Hf; cbn [visit_parents].
  { split_and!; [by intros ?|done|done|done|set_solver]. }
  assert (Hp : edge role p) by (apply Hps; set_solver).
  destruct (Z.eqb_spec (colour state p) 0) as [H0|H0].
  - assert (Hr : ready fuel p state).
    { split_and!; [by eapply parent_mentioned|done..|].
      intros g Hg'. eapply rtc_r; [by apply Hg|done]. }
    specialize (Hsearch p state Hr Hc). specialize (Hcol p state).
    destruct (search p state) as [[[c|] state']|]; [by destruct Hsearch| |done].
    destruct Hsearch as (Hgr&Hs'&H1&H2&Hp2).
    specialize (IH state' ltac:(set_solver) ltac:(eapply Hcol; done) Hs').
    specialize (IH ltac:(intros g; rewrite H1; apply Hg)).
    specialize (IH ltac:(etrans; [by apply unvisited_grows|done])).
    destruct (visit_parents search role ps state') as [[[c|] s3]|]; cbn [visited] in *; [| |done].
    + destruct IH. split; [by eapply grows_trans|done].
    + destruct IH as (?&?&H1'&H2'&Hall). split_and!; [by eapply grows_trans|done| | |].
      * intros u. by rewrite H1', H1.
      * auto.
      * intros q [->|?]%elem_of_cons; auto.
  - destruct (Z.eqb_spec (colour state p) 1) as [H1|H1].
    + split; [by intros ?|]. exists p. eapply tc_rtc_l; [by apply Hg|by apply tc_once].
    + specialize (IH state ltac:(set_solver) Hc Hs Hg Hf).
      destruct (visit_parents search role ps state) as [[[c|] s3]|]; cbn [visited] in *; [done| |done].
      destruct IH as (?&?&?&H2&Hall). split_and!; [done..|].
      intros q [->|?]%elem_of_cons; [|auto]. apply H2. destruct (Hc p) as [?|[?|?]]; done.
Qed.

Lemma coloured_insert state u c :
  coloured state → c = 1%Z ∨ c = 2%Z → coloured (<[u := c]> state).
Proof. intros Hc Hv v. rewrite colour_insert. case_decide; [auto|apply Hc]. Qed.

Lemma visit_parents_coloured search role parents state c state' :
  (∀ p state c state', search p state = Some (c, state') → coloured state → coloured state') →
  visit_parents search role parents state = Some (c, state') → coloured state → coloured state'.
Proof.
  intros Hsearch. revert state.
  induction parents as [|p ps IH]; intros state H Hc; cbn [visit_parents] in H; [by simplify_eq|].
  destruct (_ =? 0)%Z; [|destruct (_ =? 1)%Z; [by simplify_eq|by eapply IH]].
  destruct (search p state) as [[[cy|] s1]|] eqn:Hp; [|by eapply IH, Hsearch|done].
  simplify_eq. by eapply Hsearch.
Qed.

Lemma dfs_coloured fuel role state c state' :
  dfs_detect_cycle roles fuel role state = Some (c, state') → coloured state → coloured state'.
Proof.
  revert role state c state'. induction fuel as [|fuel IH]; intros role state c state' H Hc; [done|].
  cbn [dfs_detect_cycle] in H.
  destruct (visit_parents _ _ _ _) as [[[cy|] s1]|] eqn:Hv; simplify_eq.
  - eapply visit_parents_coloured; [done..|]. apply coloured_insert; auto.
  - apply coloured_insert; [|auto].
    eapply visit_parents_coloured; [done..|]. apply coloured_insert; auto.
Qed.

Lemma unvisited_mark role state :
  role ∈ mentioned roles → colour state role = 0%Z →
  size (unvisited (<[role := 1%Z]> state)) < size (unvisited state).
Proof.
  intros Hm H0. apply subset_size. split.
  - intros u. unfold unvisited. rewrite !elem_of_filter, colour_insert.
    case_decide; by intros [? ?].
  - intros Hsub. specialize (Hsub role). unfold unvisited in Hsub.
    rewrite !elem_of_filter, colour_insert, decide_True in Hsub by done.
    by destruct Hsub.
Qed.

Lemma unvisited_none role state :
  role ∈ mentioned roles → colour state role = 0%Z → size (unvisited state) ≠ 0.
Proof.
  intros Hm H0 Hf. assert (Hin : role ∈ unvisited state) by (by apply elem_of_filter).
  apply size_empty_iff in Hf. set_solver.
Qed.

Lemma grows_mark role state c : c ≠ 0%Z → grows state (<[role := c]> state).
Proof. intros Hc u Hu. rewrite colour_insert. by case_decide. Qed.

(** A search ends in any state, also after a cycle was found. *)
Lemma dfs_total fuel role state :
  role ∈ mentioned roles → colour state role = 0%Z → size (unvisited state) ≤ fuel →
  ∃ c state', dfs_detect_cycle roles fuel role state = Some (c, state') ∧ grows state state'.
Proof.
  revert role state. induction fuel as [|fuel IH]; intros role state Hm H0 Hf.
  { destruct (unvisited_none role state Hm H0). lia. }
  cbn [dfs_detect_cycle].
  pose proof (unvisited_mark role state Hm H0) as Hless.
  pose proof (grows_mark role state 1 ltac:(done)) as Hgr.
  assert (Hv : ∀ ps st, grows (<[role := 1%Z]> state) st →
    (∀ p, p ∈ ps → edge role p) →
    ∃ c st', visit_parents (dfs_detect_cycle roles fuel) role ps st = Some (c, st') ∧
      grows (<[role := 1%Z]> state) st').
  { induction ps as [|p ps IHps]; intros st Hst Hps; cbn [visit_parents]; [eauto|].
    destruct (Z.eqb_spec (colour st p) 0) as [Hp0|_].
    - pose proof (unvisited_grows _ _ Hst).
      destruct (IH p st) as (c&st'&->&Hg); [|done|lia|].
      { eapply parent_mentioned, Hps. by left. }
      assert (grows (<[role := 1%Z]> state) st') by (by eapply grows_trans).
      destruct c as [c|]; [eauto|]. apply IHps; [done|set_solver].
    - destruct (_ =? 1)%Z; [eauto|]. apply IHps; [done|set_solver]. }
  destruct (Hv (default [] (roles !! role)) (<[role := 1%Z]> state)) as (c&st'&->&Hg);
    [by intros ?|done|].
  destruct c as [c|]; eexists _, _; (split; [done|]).
  - by eapply grows_trans.
  - eapply grows_trans; [done|]. eapply grows_trans; [done|]. by apply grows_mark.
Qed.

(** A search with enough fuel ends, and tells the truth. *)
Lemma dfs_found fuel role state :
  ready fuel role state → coloured state →
  found role state (dfs_detect_cycle roles fuel role state).
Proof.
  revert role state. induction fuel as [|fuel IH]; intros role state (Hm&H0&Hs&Hf&Hg) Hc.
  { destruct (unvisited_none role state Hm H0). lia. }
  cbn [dfs_detect_cycle].
  pose proof (grows_mark role state 1 ltac:(done)) as Hgr.
  assert (Hv : visited role (default [] (roles !! role)) (<[role := 1%Z]> state)
    (visit_parents (dfs_detect_cycle roles fuel) role (default [] (roles !! role))
       (<[role := 1%Z]> state))).
  { apply (visit_parents_visited fuel); [done| |done| | | |].
    - intros p st c st' H. by eapply dfs_coloured.
    - apply coloured_insert; auto.
    - intros u Hu. rewrite colour_insert in Hu. case_decide; [done|].
      destruct (Hs u Hu) as [Hcl ?]. split; [|done]. intros v Hv.
      rewrite colour_insert. case_decide; [subst; specialize (Hcl _ Hv); congruence|auto].
    - intros g. rewrite colour_insert. case_decide; [subst; by intros _|apply Hg].
    - pose proof (unvisited_mark role state Hm H0). lia. }
  destruct (visit_parents _ _ _ _) as [[[cy|] s1]|]; cbn [visited found] in *; [| |done].
  - destruct Hv. split; [by eapply grows_trans|done].
  - destruct Hv as (Hgr1&Hs1&H1&H2&Hall). split_and!.
    + intros u Hu. rewrite colour_insert. case_decide; [done|]. by apply Hgr1, Hgr.
    + apply safe_done; [done| |exact Hall]. apply H1. by rewrite colour_insert, decide_True.
    + intros u. rewrite colour_insert. case_decide as Hu; [subst; rewrite H0; done|].
      by rewrite H1, colour_insert, decide_False.
    + intros u Hu. rewrite colour_insert. case_decide as Hr; [done|].
      apply H2. by rewrite colour_insert, decide_False.
    + by rewrite colour_insert, decide_True.
Qed.

(** ** The validation *)

Lemma search_all_extends order state errors :
  (∀ r, r ∈ order → r ∈ mentioned roles) →
  ∃ more, search_all roles (size (mentioned roles)) order state errors = Some (errors ++ more).
Proof.
  revert state errors. induction order as [|r order IH]; intros state errors Hr; cbn [search_all].
  { exists []. by rewrite List.app_nil_r. }
  assert (Hr' : ∀ r, r ∈ order → r ∈ mentioned roles) by set_solver.
  destruct (Z.eqb_spec (colour state r) 0) as [H0|_]; [|by apply IH].
  destruct (dfs_total (size (mentioned roles)) r state) as (c&st'&->&_); [set_solver|done| |].
  { apply subseteq_size. unfold unvisited. intros u. rewrite elem_of_filter. by intros [_ ?]. }
  destruct c as [c|]; [|by apply IH].
  destruct (IH st' (errors ++ ["role_hierarchy: cycle detected: " +:+ c]) Hr') as [more ->].
  eexists. by rewrite <-List.app_assoc.
Qed.

(** A silent search has visited every role of the order and found no cycle. *)
Lemma search_all_spec order state errors result :
  (∀ r, r ∈ order → r ∈ mentioned roles) → safe state → coloured state →
  (∀ u, colour state u ≠ 1%Z) →
  search_all roles (size (mentioned roles)) order state errors = Some result →
  (result = errors ∧ ∃ state', safe state' ∧
     (∀ u, colour state u = 2%Z → colour state' u = 2%Z) ∧
     ∀ r, r ∈ order → colour state' r = 2%Z) ∨
  (result ≠ errors ∧ ∃ u, tc edge u u).
Proof.
  revert state errors. induction order as [|r order IH]; intros state errors Hr Hs Hc H1 H;
    cbn [search_all] in H.
  { left. simplify_eq. split; [done|]. exists state. split_and!; [done|done|set_solver]. }
  assert (Hr' : ∀ r, r ∈ order → r ∈ mentioned roles) by set_solver.
  destruct (Z.eqb_spec (colour state r) 0) as [H0|H0].
  - assert (Hready : ready (size (mentioned roles)) r state).
    { split_and!; [set_solver|done|done| |by intros g ?%H1].
      apply subseteq_size. unfold unvisited. intros u. rewrite elem_of_filter. by intros [_ ?]. }
    pose proof (dfs_found _ _ _ Hready Hc) as Hf.
    destruct (dfs_detect_cycle _ _ _ _) as [[[c|] st]|] eqn:Hd; [| |done].
    + right. split; [|by destruct Hf].
      destruct (search_all_extends order st (errors ++ ["role_hierarchy: cycle detected: " +:+ c]) Hr')
        as [more Hm]. rewrite Hm in H. injection H as <-.
      intros Heq%(f_equal length). rewrite !length_app in Heq. cbn in Heq. lia.
    + destruct Hf as (Hg&Hs'&Hgray&H2&Hr2).
      destruct (IH st errors Hr' Hs') as [(->&st'&?&Hg'&Hall)|?]; [|..|by right].
      * by eapply dfs_coloured.
      * intros u Hu. by apply (H1 u), Hgray.
      * done.
      * left. split; [done|]. exists st'. split_and!; [done|by auto|].
        intros q [->|?]%elem_of_cons; auto.
  - destruct (IH state errors Hr' Hs Hc H1 H) as [(->&st'&?&Hg'&Hall)|?]; [|by right].
    left. split; [done|]. exists st'. split_and!; [done..|].
    intros q [->|?]%elem_of_cons; [|auto]. apply Hg'.
    pose proof (H1 r). destruct (Hc r) as [?|[?|?]]; done.
Qed.
End search.

(** The validation, exactly, in the form other components use. *)
Lemma validate_hierarchy (hierarchy : RoleHierarchy) (order errors : list string) :
  order ≡ₚ (map_to_list (rh_roles hierarchy)).*1 →
  ∃ found, validate_role_hierarchy order (Some hierarchy) errors = Some (errors ++ found) ∧
    (found = [] ↔ acyclic (rh_roles hierarchy)).
Proof.
  intros Horder. set (roles := rh_roles hierarchy).
  assert (Hdom : ∀ r, r ∈ order ↔ is_Some (roles !! r)).
  { intros r. rewrite Horder. split.
    - intros ([r' ps]&->&Hr%elem_of_map_to_list)%list_elem_of_fmap. by exists ps.
    - intros [ps Hr]. apply list_elem_of_fmap. exists (r, ps). by rewrite elem_of_map_to_list. }
  assert (Hm : ∀ r, r ∈ order → r ∈ mentioned roles).
  { intros r [ps ?]%Hdom. apply elem_of_union_l, elem_of_dom; eauto. }
  assert (Hcol : ∀ u, colour ((λ _, 0%Z) <$> roles) u = 0%Z).
  { intros u. unfold colour. rewrite lookup_fmap. by destruct (roles !! u). }
  unfold validate_role_hierarchy. fold roles.
  destruct (search_all_extends roles order ((λ _, 0%Z) <$> roles)
    (errors ++ self_loop_errors roles order) Hm) as [more Hs].
  exists (self_loop_errors roles order ++ more). rewrite Hs, <-List.app_assoc. split; [done|].
  apply search_all_spec in Hs as [(Hno&st'&Hsafe&_&Hall)|[Hsome Hcycle]].
  - assert (more = []) as ->.
    { apply (f_equal length) in Hno. rewrite !length_app in Hno. destruct more; [done|].
      cbn in Hno. lia. }
    rewrite List.app_nil_r. split.
    + intros _ u Hu. assert (u ∈ order) as Hin.
      { apply Hdom. inversion Hu as [? ? He|? ? ? He _]; subst; unfold parent in He;
          destruct (roles !! u); [eauto|set_solver|eauto|set_solver]. }
      by destruct (Hsafe u (Hall u Hin)).
    + intros Hac. unfold self_loop_errors. clear -Hac.
      induction order as [|r order IH]; [done|]. cbn. rewrite IH.
      case_bool_decide as Hin; [|done]. destruct (Hac r). by apply tc_once.
  - split; [|intros Hac; destruct Hcycle as [u Hu]; by destruct (Hac u)].
    intros [Hl ->]%List.app_eq_nil. destruct Hsome. by rewrite !List.app_nil_r.
  - done.
  - intros u. by rewrite Hcol.
  - intros u. left. apply Hcol.
  - intros u. by rewrite Hcol.
Qed.

(** C16: the validation of a role hierarchy ends and is exact. Whatever order
    the roles are visited in, it adds errors to the list precisely when some
    role inherits from itself, directly or through others, and adds none
    when the hierarchy is acyclic. *)
Theorem validate_role_hierarchy_spec (hierarchy : RoleHierarchy) (order errors : list string) :
  order ≡ₚ (map_to_list (rh_roles hierarchy)).*1 →
  ∃ found, validate_role_hierarchy order (Some hierarchy) errors = Some (errors ++ found) ∧
    (found = [] ↔ acyclic (rh_roles hierarchy)).
Proof. apply validate_hierarchy. Qed.

(** ** The closure *)

Section closure.
Context (roles : gmap string (list string)).
Notation edge := (parent roles).

(** The parents still to be pushed: those of the roles not inherited yet. *)
Definition weight (inherited : gset string) : nat :=
  sum_list_with (λ rp, if bool_decide (rp.1 ∈ inherited) then 0 else length rp.2)
    (map_to_list roles).

Lemma weight_empty : weight ∅ = listed roles.
Proof.
  unfold weight, listed. induction (map_to_list roles) as [|rp l IH]; [done|].
  cbn. by rewrite IH.
Qed.

Lemma weight_insert p inherited :
  p ∉ inherited →
  weight ({[p]} ∪ inherited) + length (default [] (roles !! p)) = weight inherited.
Proof.
  intros Hp. unfold weight.
  assert (Hother : ∀ m : gmap string (list string), m !! p = None →
    sum_list_with (λ rp : string * list string,
      if bool_decide (rp.1 ∈ {[p]} ∪ inherited) then 0 else length rp.2) (map_to_list m)
    = sum_list_with (λ rp, if bool_decide (rp.1 ∈ inherited) then 0 else length rp.2)
        (map_to_list m)).
  { intros m Hm. assert (Hall : ∀ rp, rp ∈ map_to_list m → rp.1 ≠ p).
    { intros [r ps] Hin%elem_of_map_to_list Heq. cbn in Heq. subst r. congruence. }
    induction (map_to_list m) as [|rp l IH]; [done|]. cbn. rewrite IH by set_solver.
    f_equal. specialize (Hall rp ltac:(set_solver)).
    by rewrite (bool_decide_ext (rp.1 ∈ {[p]} ∪ inherited) (rp.1 ∈ inherited)) by set_solver. }
  destruct (roles !! p) as [ps|] eqn:Hl; cbn [default from_option id].
  - rewrite <-(map_to_list_delete roles p ps Hl). cbn.
    rewrite Hother by apply lookup_delete_eq.
    rewrite bool_decide_eq_true_2, bool_decide_eq_false_2 by set_solver. lia.
  - rewrite Hother by done. cbn. lia.
Qed.

(** What the work list has left to do for [role]. *)
Definition pending (role : string) (stack : list string) (inherited : gset string) : Prop :=
  (∀ v, v ∈ inherited ∨ v ∈ stack → tc edge role v) ∧
  (∀ u v, u = role ∨ u ∈ inherited → edge u v → v ∈ inherited ∨ v ∈ stack).

Lemma pending_init role ps : roles !! role = Some ps → pending role (reverse ps) ∅.
Proof.
  intros Hr. split.
  - intros v [?|Hv]; [set_solver|]. rewrite elem_of_reverse in Hv.
    apply tc_once. unfold parent. by rewrite Hr.
  - intros u v [->|?]; [|set_solver]. unfold parent. rewrite Hr, elem_of_reverse. auto.
Qed.

Lemma pending_done role inherited :
  pending role [] inherited →
  ∃ result, Some inherited = Some result ∧ ∀ v, v ∈ result ↔ tc edge role v.
Proof.
  intros [Hsound Hcl]. exists inherited. split; [done|]. intros v. split; [eauto|].
  assert (Hstep : ∀ u, tc edge u v → u = role ∨ u ∈ inherited → v ∈ inherited); [|by eauto].
  intros u Htc. induction Htc as [u v He|u w v He _ IH]; intros Hu.
  - by destruct (Hcl u v Hu He) as [?|[]%elem_of_nil].
  - apply IH. destruct (Hcl u w Hu He) as [?|[]%elem_of_nil]; auto.
Qed.

Lemma inherit_loop_spec role fuel stack inherited :
  length stack + weight inherited ≤ fuel → pending role stack inherited →
  ∃ result, inherit_loop roles fuel stack inherited = Some result ∧
    ∀ v, v ∈ result ↔ tc edge role v.
Proof.
  revert stack inherited. induction fuel as [|fuel IH]; intros stack inherited Hf [Hsound Hcl];
    destruct stack as [|p stack]; cbn [inherit_loop length] in *; try lia.
  1,2: by apply pending_done.
  case_bool_decide as Hp.
  - apply IH; [lia|]. split; [set_solver|]. intros u v Hu He.
    destruct (Hcl u v Hu He) as [?|[->|?]%elem_of_cons]; auto.
  - pose proof (weight_insert p inherited Hp) as Hw. apply IH.
    + rewrite length_app, length_reverse. lia.
    + split.
      * intros v [[->%elem_of_singleton|?]%elem_of_union|[Hv|?]%elem_of_app].
        -- apply Hsound. set_solver.
        -- auto.
        -- rewrite elem_of_reverse in Hv. eapply tc_r; [apply (Hsound p); set_solver|exact Hv].
        -- apply Hsound. set_solver.
      * intros u v Hu He. rewrite elem_of_union, elem_of_app, elem_of_singleton.
        destruct (decide (u = p)) as [->|Hup].
        { right. left. rewrite elem_of_reverse. exact He. }
        destruct (Hcl u v) as [?|[->|?]%elem_of_cons]; [set_solver|done|auto..].
Qed.
End closure.

(** The inheritance computed for a hierarchy: one entry per role it defines,
    holding what the role reaches. *)
Lemma compute_role_inheritance_lookup hierarchy role inherited :
  compute_role_inheritance (Some hierarchy) !! role = Some inherited →
  ∀ v, v ∈ inherited ↔ tc (parent (rh_roles hierarchy)) role v.
Proof.
  set (roles := rh_roles hierarchy). unfold compute_role_inheritance. fold roles.
  rewrite map_lookup_imap. destruct (roles !! role) as [ps|] eqn:Hr; [|done].
  cbn [mbind option_bind default from_option id]. intros Hi.
  destruct (inherit_loop_spec roles role (length ps + listed roles) (reverse ps) ∅)
    as (result&Hres&Hspec).
  - rewrite weight_empty, length_reverse. lia.
  - by apply pending_init.
  - rewrite Hres in Hi. by simplify_eq.
Qed.

Lemma compute_role_inheritance_dom hierarchy :
  dom (compute_role_inheritance (Some hierarchy)) = dom (rh_roles hierarchy).
Proof.
  apply set_eq. intros role. rewrite !elem_of_dom. unfold compute_role_inheritance.
  set (roles := rh_roles hierarchy). rewrite map_lookup_imap.
  destruct (roles !! role) as [ps|] eqn:Hr;
    cbn [mbind option_bind default from_option id]; [|done].
  destruct (inherit_loop_spec roles role (length ps + listed roles) (reverse ps) ∅)
    as (result&Hres&_).
  - rewrite weight_empty, length_reverse. lia.
  - by apply pending_init.
  - rewrite Hres. split; eauto.
Qed.

(** The role check, by reachability. *)
Lemma check_roles_reach hierarchy auth_info required_roles :
  let inheritance := compute_role_inheritance (Some hierarchy) in
  (check_roles auth_info required_roles inheritance = Ok tt ↔
     required_roles = [] ∨ ∃ role required, ai_role auth_info = Some role ∧
       required ∈ required_roles ∧ rtc (parent (rh_roles hierarchy)) role required) ∧
  (check_roles auth_info required_roles inheritance ≠ Ok tt →
     ∃ m, check_roles auth_info required_roles inheritance = Err (Forbidden m)).
Proof.
  cbv zeta.
  destruct required_roles as [|r0 rs]; [split; [split; auto|done]|].
  unfold check_roles. destruct (ai_role auth_info) as [role|];
    [|split; [split; [done|intros [?|(?&?&?&_)]; done]|eauto]].
  case_bool_decide as Hin.
  { split; [|done]. split; [intros _|done]. right. exists role, role. split_and!; [done..|].
    apply rtc_refl. }
  destruct (compute_role_inheritance (Some hierarchy) !! role) as [inherited|] eqn:Hi.
  - pose proof (compute_role_inheritance_lookup _ _ _ Hi) as Hspec.
    destruct (existsb _ _) eqn:He.
    + apply existsb_elem in He as (r&Hr&Hb%bool_decide_eq_true). apply Hspec in Hb.
      split; [|done]. split; [intros _|done]. right. exists role, r.
      split_and!; [done..|]. by apply tc_rtc.
    + split; [|eauto]. split; [done|]. intros [?|(role'&r&[= <-]&Hr&Hreach)]; [done|].
      apply rtc_tc in Hreach as [->|Htc]; [done|]. apply Hspec in Htc.
      rewrite existsb_elem_false in He. specialize (He r Hr).
      by apply bool_decide_eq_false in He.
  - split; [|eauto]. split; [done|]. intros [?|(role'&r&[= <-]&Hr&Hreach)]; [done|].
    apply rtc_tc in Hreach as [->|Htc]; [done|].
    apply not_elem_of_dom in Hi. rewrite compute_role_inheritance_dom in Hi.
    apply not_elem_of_dom in Hi.
    inversion Htc as [? ? Hp|? ? ? Hp _]; subst; unfold parent in Hp; rewrite Hi in Hp; set_solver.
Qed.

(** C17: who may use an endpoint. For every hierarchy, cyclic ones included,
    and the inheritance the server computes from it, a request passes the
    role check exactly when the endpoint requires no role, or its user has a
    role from which one of the required roles is reached by following
    parents; the computation ends for every hierarchy and covers every role
    it defines, and every other request is answered 403. *)
Theorem check_roles_spec (hierarchy : RoleHierarchy) (auth_info : AuthInfo)
    (required_roles : list string) :
  let inheritance := compute_role_inheritance (Some hierarchy) in
  dom inheritance = dom (rh_roles hierarchy) ∧
  (check_roles auth_info required_roles inheritance = Ok tt ↔
     required_roles = [] ∨ ∃ role required, ai_role auth_info = Some role ∧
       required ∈ required_roles ∧ rtc (parent (rh_roles hierarchy)) role required) ∧
  (check_roles auth_info required_roles inheritance ≠ Ok tt →
     ∃ m, check_roles auth_info required_roles inheritance = Err (Forbidden m)).
Proof.
  cbv zeta. split; [apply compute_role_inheritance_dom|]. apply check_roles_reach.
Qed.

(** ** Witnesses *)

Definition staff : RoleHierarchy := {| rh_roles :=
  {["admin" := ["editor"; "auditor"]; "editor" := ["author"]; "auditor" := []]} |}.
Definition ring : RoleHierarchy := {| rh_roles :=
  {["a" := ["b"]; "b" := ["c"]; "c" := ["a"]]} |}.

Example staff_closure :
  compute_role_inheritance (Some staff) !! "admin" = Some {["editor"; "auditor"; "author"]}.
Proof. vm_compute. reflexivity. Qed.

Example ring_rejected :
  validate_role_hierarchy ["a"; "b"; "c"] (Some ring) []
  = Some ["role_hierarchy: cycle detected: a -> b -> b -> c -> c -> a"].
Proof. vm_compute. reflexivity. Qed.

Lemma validate_role_hierarchy_spec_witness :
  ∃ found, validate_role_hierarchy ((map_to_list (rh_roles ring)).*1) (Some ring) ["e"]
    = Some (["e"] ++ found) ∧ (found = [] ↔ acyclic (rh_roles ring)).
Proof. apply (validate_role_hierarchy_spec ring). reflexivity. Defined.

Lemma check_roles_spec_witness :
  ∃ m, check_roles {| ai_subject := "s"; ai_email := None; ai_role := Some "editor";
                      ai_token := None |} ["auditor"] (compute_role_inheritance (Some staff))
    = Err (Forbidden m).
Proof.
  apply (check_roles_spec staff {| ai_subject := "s"; ai_email := None; ai_role := Some "editor";
    ai_token := None |} ["auditor"]).
  vm_compute. discriminate.
Defined.
