(* ===== verification/Routing.v ===== *)
(** * Endpoint lookup

    The map from paths to endpoint configurations that the router builds
    (src/src/server/router.rs), the prefix and wildcard matching of
    src/src/server/prefix_match.rs and the lookups of
    src/src/server/state.rs by which the middleware and the handlers find the
    configuration of a request. The map is a hash map: [iter] is the order in
    which it is iterated. *)

From S2P Require Import Prelude RustStr Config Errors.
Local Open Scope stdpp_scope.

(** ** Strings *)

Definition upper_ascii (a : ascii) : ascii :=
  if is_lower a then ascii_of_N (N_of_ascii a - 32) else a.
(** [to_uppercase] of a method name, which is ASCII. *)
Fixpoint to_upper (s : string) : string :=
  match s with "" => "" | String a s' => String (upper_ascii a) (to_upper s') end.

Notation endpoint_map := (gmap string EndpointConfig).

(** ** The map of the router *)

(** The router's path of an endpoint. *)
Definition route_path (endpoint : EndpointConfig) : string :=
  let path := replace "*" "{*rest}" (ep_path endpoint) in
  if bool_decide (ep_action endpoint = ActStaticFiles) && negb (contains_str "{*rest}" path)
  then trim_end "/" path +:+ "/{*rest}" else path.

(** The entries of one endpoint, in the order they are inserted. *)
Definition endpoint_entries (endpoint : EndpointConfig) : list string :=
  let path := route_path endpoint in
  map (λ m, path +:+ "#" +:+ method_as_str m) (ep_methods endpoint) ++
  (if bool_decide (ep_action endpoint = ActStaticFiles) then
     let bare := trim_end "/" (trim_end_str "{*rest}" path) in
     if is_empty bare then ["/"] else [bare; bare +:+ "/"]
   else []).

(** The map built by the router: a later endpoint replaces an earlier one.
    Source: server/router.rs:48-80 [build_router (endpoint_configs)] *)
Definition build_endpoint_configs (endpoints : list EndpointConfig) : endpoint_map :=
  foldl (λ configs endpoint,
    foldl (λ configs key, <[key := endpoint]> configs) configs (endpoint_entries endpoint))
    ∅ endpoints.

(** ** Matching *)

(** The loop over the prefixes that end before a slash; it shortens the path
    at every round, so its length is fuel enough. *)
Fixpoint find_prefix_match_go (fuel : nat) (configs : endpoint_map) (current : string)
    (endpoint_check : EndpointConfig → bool) : option EndpointConfig :=
  match fuel with
  | O => None
  | S fuel =>
      if is_empty current then None else
      let next :=
        match rsplit_once "/" current with
        | Some (before, _) => find_prefix_match_go fuel configs before endpoint_check
        | None => None
        end in
      match configs !! current with
      | Some endpoint => if endpoint_check endpoint then Some endpoint else next
      | None => next
      end
  end.

(** Source: server/prefix_match.rs [find_prefix_match] *)
Definition find_prefix_match (configs : endpoint_map) (path : string)
    (endpoint_check : EndpointConfig → bool) : option EndpointConfig :=
  find_prefix_match_go (S (String.length path)) configs path endpoint_check.

(** Whether a stored path is a pattern that covers the request path. *)
Definition covers (stored_path path : string) : bool :=
  match split_once "{" stored_path with
  | Some (base, _) =>
      let pattern_base := trim_end "/" base in
      String.eqb path pattern_base || starts_with (pattern_base +:+ "/") path
  | None => false
  end.

Section lookup.
Context (iter : endpoint_map → list (string * EndpointConfig)).

(** Source: server/prefix_match.rs [find_wildcard_match] *)
Definition find_wildcard_match (configs : endpoint_map) (path : string)
    (endpoint_check : EndpointConfig → bool) : option EndpointConfig :=
  snd <$> find_first (λ ke, covers ke.1 path && endpoint_check ke.2) (iter configs).

(** [a.or_else(|| b)] *)
Definition or_else {A} (a b : option A) : option A :=
  match a with Some _ => a | None => b end.

(** Source: server/state.rs [AppState::get_endpoint_config] *)
Definition get_endpoint_config (configs : endpoint_map) (path : string) : option EndpointConfig :=
  or_else (configs !! path)
    (or_else (find_prefix_match configs path (λ _, true))
       (find_wildcard_match configs path (λ _, true))).

(** Source: server/state.rs [AppState::get_endpoint_config_for_method] *)
Definition get_endpoint_config_for_method (configs : endpoint_map) (path method : string)
  : option EndpointConfig :=
  let method_check endpoint := existsb (λ m, method_matches m method) (ep_methods endpoint) in
  or_else (configs !! (path +:+ "#" +:+ to_upper method))
    (or_else (match configs !! path with
              | Some endpoint => if method_check endpoint then Some endpoint else None
              | None => None
              end)
      (or_else (find_prefix_match configs path method_check)
         (find_wildcard_match configs path method_check))).

(** ** Lemmas *)

Definition listens (method : string) (endpoint : EndpointConfig) : bool :=
  existsb (λ m, method_matches m method) (ep_methods endpoint).

Lemma rsplit_once_shorter c s before after :
  rsplit_once c s = Some (before, after) → String.length before < String.length s.
Proof. intros (->&_)%rsplit_once_Some. rewrite str_length_app. cbn. lia. Qed.

(** The loop body, once: the fuel is always enough. *)
Lemma find_prefix_match_unfold configs path check :
  find_prefix_match configs path check =
  if is_empty path then None else
  let next := match rsplit_once "/" path with
              | Some (before, _) => find_prefix_match configs before check
              | None => None
              end in
  match configs !! path with
  | Some endpoint => if check endpoint then Some endpoint else next
  | None => next
  end.
Proof.
  assert (Hfuel : ∀ n m s, String.length s < n → String.length s < m →
    find_prefix_match_go n configs s check = find_prefix_match_go m configs s check).
  { induction n as [|n IH]; intros [|m] s Hn Hm; try lia. cbn [find_prefix_match_go].
    destruct (is_empty s); [done|].
    destruct (rsplit_once "/" s) as [[before after]|] eqn:Hs; [|done].
    apply rsplit_once_shorter in Hs. by rewrite (IH m before) by lia. }
  unfold find_prefix_match at 1. cbn [find_prefix_match_go].
  destruct (is_empty path); [done|].
  destruct (rsplit_once "/" path) as [[before after]|] eqn:Hs; [|done].
  apply rsplit_once_shorter in Hs. unfold find_prefix_match.
  by rewrite (Hfuel _ (S (String.length before)) before) by lia.
Qed.

(** What is found listens to the method and is stored under a prefix. *)
Lemma find_prefix_match_Some configs path check endpoint :
  find_prefix_match configs path check = Some endpoint →
  ∃ prefix rest, path = prefix +:+ rest ∧ configs !! prefix = Some endpoint ∧
    check endpoint = true.
Proof.
  assert (Hind : ∀ n path, String.length path < n →
    find_prefix_match configs path check = Some endpoint →
    ∃ prefix rest, path = prefix +:+ rest ∧ configs !! prefix = Some endpoint ∧
      check endpoint = true); [|apply (Hind (S (String.length path))); lia].
  intros n. induction n as [|n IH]; intros s Hn H; [lia|].
  rewrite find_prefix_match_unfold in H. destruct (is_empty s); [done|]. cbv zeta in H.
  assert (Hnext : match rsplit_once "/" s with
    | Some (before, _) => find_prefix_match configs before check | None => None end
      = Some endpoint →
    ∃ prefix rest, s = prefix +:+ rest ∧ configs !! prefix = Some endpoint ∧
      check endpoint = true).
  { destruct (rsplit_once "/" s) as [[before after]|] eqn:Hs; [|done]. intros Hp.
    pose proof (rsplit_once_shorter _ _ _ _ Hs).
    destruct (IH before ltac:(lia) Hp) as (prefix&rest&->&?&?).
    apply rsplit_once_Some in Hs as (->&_).
    exists prefix, (rest +:+ String "/" after). by rewrite app_assoc. }
  destruct (configs !! s) as [e|] eqn:He; [|auto].
  destruct (check e) eqn:Hc; [|auto]. simplify_eq.
  exists s, "". by rewrite app_nil_r.
Qed.

Lemma find_prefix_match_None configs path check :
  (∀ prefix rest, path = prefix +:+ rest → configs !! prefix = None) →
  find_prefix_match configs path check = None.
Proof.
  intros Hnone. destruct (find_prefix_match _ _ _) eqn:H; [|done].
  apply find_prefix_match_Some in H as (prefix&rest&Hp&Hl&_).
  by rewrite (Hnone prefix rest Hp) in Hl.
Qed.

(** When every stored path is a pattern and the request path has no brace,
    only the wildcard search can find anything. *)
Lemma lookup_is_wildcard configs path method :
  (∀ key, is_Some (configs !! key) → contains_char "{" key = true) →
  contains_char "{" path = false → contains_char "{" (to_upper method) = false →
  get_endpoint_config_for_method configs path method =
  find_wildcard_match configs path (listens method).
Proof.
  intros Hkeys Hpath Hm. unfold get_endpoint_config_for_method.
  assert (Hno : ∀ key, contains_char "{" key = false → configs !! key = None).
  { intros key Hk. destruct (configs !! key) eqn:He; [|done].
    rewrite Hkeys in Hk; [done|by eexists]. }
  rewrite !Hno; [|done|].
  - cbn [or_else]. rewrite find_prefix_match_None; [done|].
    intros prefix rest ->. apply Hno. rewrite contains_char_app in Hpath.
    by apply orb_false_iff in Hpath as [? _].
  - rewrite !contains_char_app, Hpath, Hm. done.
Qed.

(** The wildcard search returns one of the entries that cover the path, and
    any of them when the iteration begins with it. *)
Lemma find_wildcard_match_elem configs path check endpoint :
  iter configs ≡ₚ map_to_list configs →
  find_wildcard_match configs path check = Some endpoint →
  ∃ key, configs !! key = Some endpoint ∧ covers key path = true ∧ check endpoint = true.
Proof.
  intros Hiter H. unfold find_wildcard_match in H.
  destruct (find_first _ _) as [[key e]|] eqn:Hf; [|done]. cbn in H. simplify_eq.
  apply find_first_elem in Hf as [Hin Hc]. bool_simpl. cbn in Hc.
  exists key. split; [|done]. by rewrite Hiter, elem_of_map_to_list in Hin.
Qed.
End lookup.

(** An iteration order that begins with a given entry. *)
Definition first_entry (key : string) (configs : endpoint_map) : list (string * EndpointConfig) :=
  match configs !! key with
  | Some endpoint => (key, endpoint) :: map_to_list (delete key configs)
  | None => map_to_list configs
  end.

Lemma first_entry_perm key configs : first_entry key configs ≡ₚ map_to_list configs.
Proof.
  unfold first_entry. destruct (configs !! key) eqn:He; [|done].
  by apply map_to_list_delete.
Qed.

Lemma find_wildcard_match_first key configs path check endpoint :
  configs !! key = Some endpoint → covers key path = true → check endpoint = true →
  find_wildcard_match (first_entry key) configs path check = Some endpoint.
Proof.
  intros He Hc Hk. unfold find_wildcard_match, first_entry. rewrite He. cbn [find_first fst snd].
  by rewrite Hc, Hk.
Qed.

(** When one entry only covers the path, every iteration order finds it. *)
Lemma find_wildcard_match_unique iter key configs path check endpoint :
  iter configs ≡ₚ map_to_list configs →
  configs !! key = Some endpoint → covers key path = true → check endpoint = true →
  (∀ key' endpoint', configs !! key' = Some endpoint' → covers key' path = true →
     check endpoint' = true → endpoint' = endpoint) →
  find_wildcard_match iter configs path check = Some endpoint.
Proof.
  intros Hiter He Hc Hk Honly.
  destruct (find_wildcard_match iter configs path check) as [e|] eqn:Hf.
  - destruct (find_wildcard_match_elem iter configs path check e Hiter Hf) as (key'&?&?&?).
    by rewrite (Honly key' e).
  - exfalso. unfold find_wildcard_match in Hf. rewrite fmap_None in Hf; rewrite find_first_None in Hf.
    assert (Hin : (key, endpoint) ∈ iter configs) by (by rewrite Hiter, elem_of_map_to_list).
    specialize (Hf _ Hin). cbn in Hf. by rewrite Hc, Hk in Hf.
Qed.

(** ** What the router's map holds *)

Lemma insert_entries_lookup e keys key endpoint (m : endpoint_map) :
  foldl (λ configs k, <[k := e]> configs) m keys !! key = Some endpoint ↔
  (e = endpoint ∧ key ∈ keys) ∨ (key ∉ keys ∧ m !! key = Some endpoint).
Proof.
  revert m. induction keys as [|k keys IH]; intros m; cbn [foldl]; [set_solver|].
  rewrite IH, lookup_insert_Some, elem_of_cons.
  destruct (decide (k = key)) as [->|Hk].
  - split.
    + intros [[-> _]|[_ [[_ ->]|[? _]]]]; [auto|auto|done].
    + intros [[-> _]|[Hn _]]; [|by destruct Hn; left].
      destruct (decide (key ∈ keys)); auto.
  - split.
    + intros [[-> ?]|[? [[? _]|[_ ?]]]]; [auto|done|]. right. split; [|done]. by intros [->|?].
    + intros [[-> [->|?]]|[Hn ?]]; [done|auto|]. right. auto.
Qed.

(** A stored configuration is that of the last endpoint with the key. *)
Lemma build_endpoint_configs_lookup endpoints key endpoint :
  build_endpoint_configs endpoints !! key = Some endpoint ↔
  ∃ l1 l2, endpoints = l1 ++ endpoint :: l2 ∧ key ∈ endpoint_entries endpoint ∧
    ∀ e, e ∈ l2 → key ∉ endpoint_entries e.
Proof.
  unfold build_endpoint_configs. induction endpoints as [|e es IH] using rev_ind.
  { cbn. rewrite lookup_empty. split; [done|]. intros ([]&?&?&_); done. }
  rewrite foldl_app. cbn [foldl]. rewrite insert_entries_lookup, IH. split.
  - intros [[-> Hk]|(Hk&l1&l2&->&Hin&Hl2)].
    + exists es, []. split_and!; [done..|]. by intros ? ?%elem_of_nil.
    + exists l1, (l2 ++ [e]). split_and!; [by rewrite <-List.app_assoc|done|].
      by intros e' [?| ->%list_elem_of_singleton]%elem_of_app; [apply Hl2|].
  - intros (l1&l2&Heq&Hin&Hl2). destruct l2 as [|e' l2 _] using rev_ind.
    + apply app_inj_tail in Heq as [-> ->]. by left.
    + rewrite app_comm_cons, List.app_assoc in Heq. apply app_inj_tail in Heq as [-> ->].
      right. split; [apply Hl2, elem_of_app; right; by left|]. exists l1, l2.
      split_and!; [done..|]. intros e ?. apply Hl2, elem_of_app. by left.
Qed.
