(* ===== verification/Credentials.v ===== *)
(** * Credentials

    The validators of src/src/middleware/auth/validators/: JSON web tokens
    (their claims, creation and validation), API keys, HTTP basic
    authentication, OAuth2 user information and cookies; and the store of
    revoked tokens of src/src/server/state.rs. Signing, hashing, base64 and
    the calls to an identity provider are parameters. *)

From S2P Require Import Prelude RustStr Json Config Errors Roles.
Local Open Scope stdpp_scope.

(** [AuthInfo::default()] is the same.
    Source: middleware/auth/extractor.rs [AuthInfo::anonymous] *)
Definition AuthInfo_default : AuthInfo :=
  {| ai_subject := ""; ai_email := None; ai_role := None; ai_token := None |}.

(** The extractors of a handler's arguments, from the user in the extensions
    of the request; no handler uses them.
    Source: middleware/auth/extractor.rs:52-74 [RequireAuth] *)
Definition RequireAuth (user : option AuthInfo) : result (Z * string) AuthInfo :=
  ok_or (401%Z, "Missing authentication") user.

(** Source: middleware/auth/extractor.rs:76-89 [OptionalAuth] *)
Definition OptionalAuth (user : option AuthInfo) : result Empty_set (option AuthInfo) := Ok user.

(** ** Revoked tokens *)

(** Source: server/state.rs [RevocationStoreBackend] *)
Class RevocationStoreBackend (S : Type) := {
  is_revoked : string → S → bool;
  revoke : string → Z → S → S;
}.

(** Source: server/state.rs [InMemoryRevocationStore] *)
Record InMemoryRevocationStore := { revoked : gmap string Z }.

(** The entries whose expiry has not passed stay.
    Source: server/state.rs [InMemoryRevocationStore::cleanup] *)
Definition cleanup (now : Z) (st : InMemoryRevocationStore) : InMemoryRevocationStore :=
  {| revoked := filter (λ je, (now < je.2)%Z) (revoked st) |}.

(** Source: server/state.rs:61-73 [InMemoryRevocationStore (RevocationStoreBackend)] *)
Global Instance in_memory_revocation : RevocationStoreBackend InMemoryRevocationStore := {
  is_revoked jti st := bool_decide (is_Some (revoked st !! jti));
  revoke jti expires_at st := {| revoked := <[jti := expires_at]> (revoked st) |};
}.

(** ** JSON web tokens *)

(** [jsonwebtoken]'s algorithms are those of the configuration. *)
(** Source: middleware/auth/validators/jwt.rs [map_algorithm] *)
Definition map_algorithm (alg : JwtAlgorithm) : JwtAlgorithm := alg.

(** What [jsonwebtoken::decode] is asked to check. *)
Record Validation := {
  v_algorithm : JwtAlgorithm;
  v_issuer : list string;
  v_audience : list string;
  v_validate_exp : bool;
  v_validate_nbf : bool;
}.

(** Source: middleware/auth/validators/jwt.rs [Claims] *)
Record Claims := {
  cl_sub : string;
  cl_exp : Z;
  cl_iat : Z;
  cl_iss : string;
  cl_aud : string;
  cl_role : option string;
  cl_jti : option string;
  cl_email : option string;
}.

Definition set_if (c : bool) (k : string) (v : value) (l : list (string * value))
  : list (string * value) := if c then obj_set k v l else l.
Definition set_opt (k : string) (v : option string) (l : list (string * value))
  : list (string * value) := match v with Some s => obj_set k (VString s) l | None => l end.

(** Source: middleware/auth/validators/jwt.rs [extract_bearer_token] *)
Definition extract_bearer_token (auth_header : string) : option string :=
  strip_prefix "Bearer " auth_header.

Section tokens.
(** [decode] with a secret and a validation gives the claims or an error
    text; [encode] with a secret and an algorithm gives a token or one. *)
Context (jwt_decode : string → Validation → string → result string value).
Context (jwt_encode : string → JwtAlgorithm → value → result string string).

Definition token_validation (config : JwtConfig) (validate_exp : bool) : Validation := {|
  v_algorithm := map_algorithm (jwt_algorithm config);
  v_issuer := if is_empty (jwt_issuer config) then [] else [jwt_issuer config];
  v_audience := if is_empty (jwt_audience config) then [] else [jwt_audience config];
  v_validate_exp := validate_exp; v_validate_nbf := false |}.

Definition str_claim (k : string) (claims : value) : option string := get k claims ≫= as_str.

(** Source: middleware/auth/validators/jwt.rs [validate_token] *)
Definition validate_token {S} `{RevocationStoreBackend S} (token : string) (config : JwtConfig)
    (revocation_store : option S) : result AppError Claims :=
  claims ← map_err (λ e, Auth ("Invalid JWT: " +:+ e))
             (jwt_decode (jwt_secret config) (token_validation config true) token);
  sub ← ok_or (Auth "JWT 'sub' claim is missing") (str_claim "sub" claims);
  sub ← (if is_empty (trim sub) then Err (Auth "JWT 'sub' claim is empty") else Ok sub);
  let jti := str_claim "jti" claims in
  if match revocation_store, jti with
     | Some store, Some j => is_revoked j store
     | _, _ => false
     end
  then Err (Auth "Token has been revoked")
  else Ok {|
    cl_sub := sub;
    cl_exp := default 0%Z (get "exp" claims ≫= as_u64);
    cl_iat := default 0%Z (get "iat" claims ≫= as_u64);
    cl_iss := default "" (str_claim "iss" claims);
    cl_aud := default "" (str_claim "aud" claims);
    cl_role := str_claim (jwt_role_claim config) claims;
    cl_jti := jti;
    cl_email := str_claim "email" claims |}.

(** The claims of a new token, [now] in seconds since the epoch. *)
Definition token_claims (now : Z) (sub : string) (role : option string) (config : JwtConfig)
    (jti email : option string) : list (string * value) :=
  let exp := u64_add_sat now (jwt_expiry config) in
  set_opt "email" email (set_opt "jti" jti (set_opt (jwt_role_claim config) role
    (set_if (negb (is_empty (jwt_audience config))) "aud" (VString (jwt_audience config))
    (set_if (negb (is_empty (jwt_issuer config))) "iss" (VString (jwt_issuer config))
      [("exp", json_int exp); ("iat", json_int now); ("sub", VString sub)])))).

(** Source: middleware/auth/validators/jwt.rs [create_token] *)
Definition create_token (now : Z) (sub : string) (role : option string) (config : JwtConfig)
    (jti email : option string) : result AppError string :=
  if (now <? 0)%Z then Err (Internal "System clock before epoch") else
  map_err (λ e, Internal ("JWT encode error: " +:+ e))
    (jwt_encode (jwt_secret config) (map_algorithm (jwt_algorithm config))
       (VObject (token_claims now sub role config jti email))).
End tokens.

(** ** Headers *)

Section headers.
(** [headers.get(name)] followed by [to_str().ok()]. *)
Context {HeaderMap : Type} (header_str : HeaderMap → string → option string).

(** Source: middleware/auth/validators/api_key.rs [validate_api_key] *)
Definition validate_api_key (headers : HeaderMap) (query_params : gmap string string)
    (config : ApiKeyConfig) : result AppError (option string) :=
  key ← ok_or (Auth "API key missing")
          (match ak_location config with
           | LocHeader => header_str headers (ak_name config)
           | LocQuery => query_params !! ak_name config
           end);
  entry ← ok_or (Auth "Invalid API key")
            (find_first (λ e, String.eqb (ake_key e) key) (ak_keys config));
  Ok (ake_role entry).

(** A cookie value without the double quotes around it. *)
Definition unquote (s : string) : string :=
  let quote := Some (ascii_of_N 34) in
  if bool_decide (String.get 0 s = quote) &&
     bool_decide (String.get (String.length s - 1) s = quote) && (2 <=? String.length s)
  then String.substring 1 (String.length s - 2) s else s.

(** Source: middleware/auth/validators/oauth2.rs [extract_cookie] *)
Definition extract_cookie (headers : HeaderMap) (name : string) : option string :=
  cookie_header ← header_str headers "cookie";
  head (omap (λ part, unquote <$> strip_prefix (name +:+ "=") (trim part))
          (split ";" cookie_header)).
End headers.

(** ** Basic authentication *)

Inductive password_check := PasswordOk | PasswordInvalid | PasswordError (e : string).

Section passwords.
(** Base64 decoding to bytes that are UTF-8 ([None]: not base64, [Some
    None]: not UTF-8); [PasswordHash::new] and [verify_password] ([None]: the
    hash does not parse). *)
Context (base64_decode : string → option (option string)).
Context (verify_hash : string → string → option password_check).

(** Source: middleware/auth/validators/basic.rs [extract_basic_auth] *)
Definition extract_basic_auth (auth_header : string) : option string :=
  if starts_with "Basic " auth_header then Some auth_header else None.

(** Source: middleware/auth/validators/basic.rs [validate_basic_auth] *)
Definition validate_basic_auth (auth_header : string) (config : BasicAuthConfig)
  : result AppError (option string) :=
  encoded ← ok_or (Auth "Invalid Basic auth header") (strip_prefix "Basic " auth_header);
  bytes ← ok_or (Auth "Invalid Base64 in Basic auth") (base64_decode encoded);
  decoded ← ok_or (Auth "Invalid UTF-8 in Basic auth credentials") bytes;
  '(username, password) ← ok_or (Auth "Malformed Basic auth credentials") (split_once ":" decoded);
  user ← ok_or (Auth "Invalid credentials")
           (find_first (λ u, String.eqb (bu_username u) username) (ba_users config));
  verdict ← ok_or (Internal "Invalid password hash in config")
              (verify_hash (bu_password_hash user) password);
  match verdict with
  | PasswordOk => Ok (bu_role user)
  | _ => Err (Auth "Invalid credentials")
  end.
End passwords.

(** ** OAuth2 user information *)

(** Source: middleware/auth/validators/oauth2.rs [extract_role_values] *)
Definition extract_role_values (v : value) : list string :=
  match v with
  | VArray arr => omap as_str arr
  | VString s => [s]
  | _ => []
  end.

(** The first element for which the function gives a value. *)
Fixpoint find_map {A B} (f : A → option B) (l : list A) : option B :=
  match l with [] => None | x :: l' => match f x with Some y => Some y | None => find_map f l' end end.

(** The role of a user the provider describes: the mapped one of its roles,
    or the default role, or the role claim when nothing is mapped. The map
    is a list in its iteration order. *)
Definition userinfo_role (role_mapping : option RoleMappingConfig) (userinfo : value) : option string :=
  match role_mapping with
  | None => str_claim "role" userinfo
  | Some mapping =>
      let idp_roles :=
        match get (rm_role_claim mapping) userinfo with
        | Some v => extract_role_values v
        | None => [""]
        end in
      let mapped := find_map (λ idp_role,
        match assoc idp_role (rm_role_map mapping) with
        | Some role => Some role
        | None =>
            match rm_match_mode mapping with
            | Contains => snd <$> find_first (λ kv, contains_str kv.1 idp_role) (rm_role_map mapping)
            | Exact => None
            end
        end) idp_roles in
      match mapped with Some r => Some r | None => Some (rm_default_role mapping) end
  end.

Inductive http_reply := NoReply (e : string) | Status (status : string) | BadJson (e : string)
| Reply (body : value).

Section oauth2.
(** The answer of the provider's user information endpoint. *)
Context (get_userinfo_reply : string → string → http_reply).

(** Source: middleware/auth/validators/oauth2.rs [fetch_userinfo] *)
Definition fetch_userinfo (userinfo_url access_token : string)
    (role_mapping : option RoleMappingConfig) : result AppError (string * option string) :=
  match get_userinfo_reply userinfo_url access_token with
  | NoReply e => Err (Auth ("OAuth2 userinfo request failed: " +:+ e))
  | Status s => Err (Auth ("OAuth2 userinfo returned status " +:+ s))
  | BadJson e => Err (Auth ("OAuth2 userinfo parse error: " +:+ e))
  | Reply userinfo =>
      sub ← ok_or (Auth "OAuth2 userinfo response missing 'sub' claim") (str_claim "sub" userinfo);
      Ok (sub, userinfo_role role_mapping userinfo)
  end.

(** Source: middleware/auth/validators/oauth2.rs [validate_oauth2_token] *)
Definition validate_oauth2_token (token : string) (config : OAuth2Config)
    (role_mapping : option RoleMappingConfig) : result AppError (string * option string) :=
  if is_empty (oa_userinfo_url config)
  then Err (ConfigurationError "OAuth2 userinfo_url is not configured")
  else fetch_userinfo (oa_userinfo_url config) token role_mapping.
End oauth2.
