(* ===== verification/Accounts.v ===== *)
(** * Accounts

    Registration, login and token revocation of src/src/handlers/auth.rs.
    The database is a state with the operations of a pool; hashing,
    signing, the clock and fresh identifiers are parameters. *)

From S2P Require Import Prelude RustStr Json Config Errors SqlHelpers Statements Pool Roles Credentials.
Local Open Scope stdpp_scope.

(** Source: handlers/auth.rs [RegisterRequest] *)
Record RegisterRequest := { rr_email : string; rr_password : string; rr_role : option string }.

(** Source: handlers/auth.rs [LoginRequest] *)
Record LoginRequest := { lr_email : string; lr_password : string }.

Section accounts.
Context {DB : Type} `{!Pool DB}.
Context (db_pools : gmap string DatabasePool).
Context (jwt_encode : string → JwtAlgorithm → value → result string string).
Context (jwt_decode : string → Validation → string → result string value).
Context (hash : string → result string string).
Context (verify_hash : string → string → option password_check).

(** Source: server/state.rs [AppState::db_pool] *)
Definition db_pool (db : string) : result AppError DatabasePool :=
  ok_or (Internal ("Database '" +:+ db +:+ "' has no pool")) (db_pools !! db).

(** Source: server/state.rs [AppState::registration_pool] *)
Definition registration_pool (config : AppConfig)
  : result AppError (DatabasePool * RegisterConfig) :=
  register_config ← ok_or (ConfigurationError "User registration is not enabled")
                      (auth_register (cfg_auth config));
  pool ← db_pool (reg_database register_config);
  Ok (pool, register_config).

(** Source: server/state.rs [AppState::jwt_config] *)
Definition jwt_config (config : AppConfig) : result AppError JwtConfig :=
  ok_or (ConfigurationError "JWT is not configured") (auth_jwt (cfg_auth config)).

(** Source: handlers/auth.rs [create_jwt_token] *)
Definition create_jwt_token (now : Z) (user_id : string) (role : option string)
    (jwt_config : JwtConfig) (jti user_email : string) : result AppError string :=
  create_token jwt_encode now user_id role jwt_config (Some jti) (Some user_email).

(** Source: handlers/auth.rs [hash_password] *)
Definition hash_password (password : string) : result AppError string :=
  map_err (λ e, Internal ("Password hashing error: " +:+ e)) (hash password).

(** Source: handlers/auth.rs [verify_password] *)
Definition verify_password (password hash : string) : result AppError bool :=
  match verify_hash hash password with
  | None => Err (Internal "Invalid password hash")
  | Some PasswordOk => Ok true
  | Some PasswordInvalid => Ok false
  | Some (PasswordError e) => Err (Internal ("Password verification error: " +:+ e))
  end.

Definition query_error (e : AppError) : AppError :=
  Internal ("Database query error: " +:+ show_AppError e).
Definition build_error (what : string) (e : AppError) : AppError :=
  Internal ("Failed to build " +:+ what +:+ ": " +:+ show_AppError e).

(** The name of a column in a row of the table description. *)
Definition column_name (row : value) : option string :=
  match get "name" row with
  | Some v => as_str v
  | None =>
      match get "column_name" row with
      | Some v => as_str v
      | None => get "COLUMN_NAME" row ≫= as_str
      end
  end.

(** Everything registration reads before it writes, ending in the INSERT. *)
Definition prepare_registration (config : AppConfig) (body : RegisterRequest) (db : DB)
  : result AppError (DatabasePool * RegisterConfig * BuiltQuery) :=
  '(pool, register_config) ← registration_pool config;
  if negb (reg_enabled register_config) then
    Err (ConfigurationError "User registration is not enabled") else
  if String.length (rr_password body) <? 6 then
    Err (BadRequest "Password must be at least 6 characters") else
  password_hash ← hash_password (rr_password body);
  let driver := pool_driver pool in
  let table_name := reg_table register_config in
  let columns := build_table_columns table_name driver in
  column_rows ← map_err query_error
    (fetch_all_json pool (bq_sql columns) (bq_params columns) db);
  let col_names := omap column_name (column_rows : list value) in
  let include_timestamps :=
    bool_decide ("created_at" ∈ col_names) && bool_decide ("updated_at" ∈ col_names) in
  built ← map_err (build_error "query")
    (build_select_by_field table_name ["email"] "email" (VString (rr_email body)) driver);
  existing ← map_err query_error (fetch_optional_json pool (bq_sql built) (bq_params built) db);
  match (existing : option value) with
  | Some _ => Err (BadRequest "Email already registered")
  | None =>
      let role := default (reg_default_role register_config) (rr_role body) in
      insert ← map_err (build_error "insert query")
        (build_insert_user table_name (rr_email body) password_hash role include_timestamps driver);
      Ok (pool, register_config, insert)
  end.

(** The account's identifier and address as the table has them. *)
Definition user_id_of (row : value) (otherwise : string) : string :=
  match get "id" row ≫= as_i64 with Some id => show_Z id | None => otherwise end.

(** Source: handlers/auth.rs [handle_register] *)
Definition handle_register (now : Z) (jti : string) (config : AppConfig) (body : RegisterRequest)
    (db : DB) : DB * result AppError string :=
  match prepare_registration config body db with
  | Err e => (db, Err e)
  | Ok (pool, register_config, insert) =>
      let driver := pool_driver pool in
      match execute_with_params pool (bq_sql insert) (bq_params insert) db with
      | Err e => (db, Err (Internal ("Database insert error: " +:+ show_AppError e)))
      | Ok (_, db) =>
          (db,
           built ← map_err (build_error "query")
             (build_select_by_field (reg_table register_config) ["id"; "email"; "role"] "email"
                (VString (rr_email body)) driver);
           found ← map_err query_error (fetch_optional_json pool (bq_sql built) (bq_params built) db);
           user_row ← ok_or (Internal "Failed to retrieve newly created user") found;
           let user_id := user_id_of user_row (rr_email body) in
           let user_email := default (rr_email body) (str_claim "email" user_row) in
           jwt_config ← jwt_config config;
           create_jwt_token now user_id (Some (reg_default_role register_config)) jwt_config jti
             user_email)
      end
  end.

(** Source: handlers/auth.rs [handle_login] *)
Definition handle_login (now : Z) (jti : string) (config : AppConfig) (body : LoginRequest) (db : DB)
  : result AppError string :=
  '(pool, _) ← registration_pool config;
  built ← map_err (build_error "query") (build_select_user_for_login "users" (pool_driver pool));
  row ← map_err query_error
    (fetch_optional_json pool (bq_sql built) [VString (lr_email body)] db);
  row ← ok_or (Auth "Invalid email or password") row;
  email ← ok_or (Auth "Invalid user record") (str_claim "email" row);
  password_hash ← ok_or (Auth "Invalid user record") (str_claim "password_hash" row);
  let role := str_claim "role" row in
  let uid := user_id_of row email in
  verified ← verify_password (lr_password body) password_hash;
  if negb verified then Err (Auth "Invalid email or password") else
  jwt_config ← jwt_config config;
  create_jwt_token now uid role jwt_config jti email.

(** [Instant::now() + Duration::from_secs(exp)], or an hour from now when the
    sum is out of range; [instant_max] bounds an [Instant]. *)
Definition revocation_expiry (instant_max now exp : Z) : Z :=
  let at_exp := (now + exp * 1000000000)%Z in
  if (at_exp <=? instant_max)%Z then at_exp else (now + 3600 * 1000000000)%Z.

(** Source: handlers/auth.rs [handle_revoke] *)
Definition handle_revoke {S} `{RevocationStoreBackend S} (instant_max now : Z)
    (authorization : option string) (config : AppConfig) (store : option S)
  : option S * result AppError value :=
  let outcome :=
    token ← ok_or (Auth "No token provided") (authorization ≫= strip_prefix "Bearer ");
    jwt_config ← jwt_config config;
    claims ← map_err (λ e, Auth ("Failed to decode token for revocation: " +:+ e))
      (jwt_decode (jwt_secret jwt_config) (token_validation jwt_config false) token);
    jti ← ok_or (BadRequest "Token has no jti claim") (str_claim "jti" claims);
    Ok (jti, default 0%Z (get "exp" claims ≫= as_u64)) in
  match outcome with
  | Err e => (store, Err e)
  | Ok (jti, exp) =>
      (revoke jti (revocation_expiry instant_max now exp) <$> store,
       Ok (VObject [("message", VString "Token revoked")]))
  end.
End accounts.

Lemma db_pool_lookup db_pools db pool : db_pools !! db = Some pool → db_pool db_pools db = Ok pool.
Proof. unfold db_pool. by intros ->. Qed.
