(* ===== verification/Auth.v ===== *)
(** * Authentication of requests

    The dispatch on the authentication type
    (src/src/middleware/auth/validate.rs), the middleware in front of every
    handler (src/src/middleware/auth/mod.rs), the state parameter of the
    OAuth2 code flow (src/src/middleware/auth/handler.rs) and the account
    handlers (src/src/handlers/auth.rs). A request is what the middleware
    reads of it. *)

From S2P Require Import Prelude RustStr Json Config Errors SqlHelpers Statements Roles Routing Credentials.
Local Open Scope stdpp_scope.

Section authentication.
Context {HeaderMap : Type} (header_str : HeaderMap → string → option string).
Context (jwt_decode : string → Validation → string → result string value).
Context (base64_decode : string → option (option string)).
Context (verify_hash : string → string → option password_check).
Context (get_userinfo_reply : string → string → http_reply).

(** The token of the Authorization header, or the cookie the OAuth2 code flow
    sets. *)
Definition request_token (auth_config : AuthConfig) (headers : HeaderMap) : result AppError string :=
  match header_str headers "authorization" ≫= extract_bearer_token with
  | Some t => Ok t
  | None =>
      match oa_cookie_name <$> auth_oauth2 auth_config with
      | Some name =>
          if is_empty name then Err (Auth "Missing Authorization header") else
          ok_or (Auth "Missing Authorization header or auth cookie")
            (extract_cookie header_str headers name)
      | None => Err (Auth "Missing Authorization header")
      end
  end.

(** Source: middleware/auth/validate.rs [authenticate] *)
Definition authenticate {S} `{RevocationStoreBackend S} (auth_type : string)
    (auth_config : AuthConfig) (headers : HeaderMap) (query_params : gmap string string)
    (revocation_store : option S) : result AppError AuthInfo :=
  if String.eqb auth_type "none" then Ok AuthInfo_default else
  if String.eqb auth_type "jwt" then
    jwt_config ← ok_or (ConfigurationError "JWT auth configured but no jwt config provided")
                   (auth_jwt auth_config);
    token ← request_token auth_config headers;
    claims ← validate_token jwt_decode token jwt_config revocation_store;
    Ok {| ai_subject := cl_sub claims; ai_email := cl_email claims;
          ai_role := cl_role claims; ai_token := Some token |}
  else if String.eqb auth_type "api_key" then
    api_key_config ← ok_or (ConfigurationError "API key auth configured but no api_key config provided")
                       (auth_api_key auth_config);
    role ← validate_api_key header_str headers query_params api_key_config;
    Ok {| ai_subject := "api_key_user"; ai_email := None; ai_role := role; ai_token := None |}
  else if String.eqb auth_type "basic" then
    basic_config ← ok_or (ConfigurationError "Basic auth configured but no basic config provided")
                     (auth_basic auth_config);
    let dquote := String (ascii_of_N 34) "" in
    let challenge := "Basic realm=" +:+ dquote +:+ ba_realm basic_config +:+ dquote in
    auth_header ← ok_or (AuthChallenge "Missing Authorization header" challenge)
                    (header_str headers "authorization");
    _ ← ok_or (AuthChallenge "Expected Basic credentials" challenge) (extract_basic_auth auth_header);
    role ← map_err (λ e, match e with Auth msg => AuthChallenge msg challenge | other => other end)
             (validate_basic_auth base64_decode verify_hash auth_header basic_config);
    Ok {| ai_subject := "basic_user"; ai_email := None; ai_role := role; ai_token := None |}
  else if String.eqb auth_type "oauth2" then
    oauth2_config ← ok_or (ConfigurationError "OAuth2 auth configured but no oauth2 config provided")
                      (auth_oauth2 auth_config);
    auth_header ← ok_or (Auth "Missing Authorization header") (header_str headers "authorization");
    token ← ok_or (Auth "Expected Bearer token") (extract_bearer_token auth_header);
    '(sub, role) ← validate_oauth2_token get_userinfo_reply token oauth2_config
                     (oa_role_mapping oauth2_config);
    Ok {| ai_subject := sub; ai_email := None; ai_role := role; ai_token := None |}
  else Err (ConfigurationError ("Unknown auth type: '" +:+ auth_type +:+ "'")).

(** ** The middleware *)

(** Source: middleware/auth/mod.rs [SKIP_ROUTES] *)
Definition SKIP_ROUTES : list string :=
  ["/_main-serve/health"; "/_main-serve/reload"; "/_main-serve/oauth2/authorize";
   "/_main-serve/oauth2/callback"].

Record http_request := {
  req_method : string;
  req_path : string;
  req_query : option string;
  req_headers : HeaderMap;
}.

(** The parts of the shared state the middleware reads. *)
Record auth_state {S : Type} := {
  as_endpoint_configs : endpoint_map;
  as_auth : AuthConfig;
  as_role_inheritance : gmap string (gset string);
  as_revocation_store : option S;
}.
Arguments auth_state : clear implicits.

(** The raw query parameters: the last of two with the same name counts. *)
Definition raw_query_params (query : option string) : gmap string string :=
  match query with
  | None => ∅
  | Some q => foldl (λ m kv, <[kv.1 := kv.2]> m) ∅ (omap (split_once "=") (split "&" q))
  end.

(** What the middleware does: it hands the request to the next service, with
    the authenticated user or untouched, or answers with an error. *)
Inductive passage := Next (auth_info : option AuthInfo) | Refused (e : AppError).

(** Source: middleware/auth/mod.rs [auth_middleware] *)
Definition auth_middleware {S} `{RevocationStoreBackend S}
    (iter : endpoint_map → list (string * EndpointConfig))
    (state : auth_state S) (req : http_request) : passage :=
  let path := req_path req in
  if existsb (λ skip, starts_with skip path) SKIP_ROUTES then Next None else
  let endpoint_config :=
    get_endpoint_config_for_method iter (as_endpoint_configs state) path (req_method req) in
  let auth_type := match endpoint_config with Some e => ep_auth e | None => "none" end in
  let required_roles :=
    match endpoint_config with
    | Some e =>
        match find_first (λ m, method_matches m (req_method req)) (ep_methods e) with
        | Some m => clone_for_method (ep_roles e) m
        | None => []
        end
    | None => []
    end in
  if String.eqb auth_type "none" then Next None else
  match (auth_info ← authenticate auth_type (as_auth state) (req_headers req)
           (raw_query_params (req_query req)) (as_revocation_store state);
         _ ← check_roles auth_info required_roles (as_role_inheritance state);
         Ok auth_info) with
  | Ok auth_info => Next (Some auth_info)
  | Err e => Refused e
  end.
End authentication.
Arguments auth_state : clear implicits.

(** ** The pending states of the code flow *)

(** Source: middleware/auth/validators/oauth2.rs [PendingOAuth2] *)
Record PendingOAuth2 := { po_code_verifier : string; po_created_at : Z }.

(** [created_at.elapsed()] at the instant [now]. *)
Definition elapsed (now created_at : Z) : Z := Z.max 0 (now - created_at).

(** Source: middleware/auth/validators/oauth2.rs [cleanup_expired] *)
Definition cleanup_expired (now ttl : Z) (pending : gmap string PendingOAuth2)
  : gmap string PendingOAuth2 :=
  filter (λ kp, (elapsed now (po_created_at kp.2) < ttl)%Z) pending.

(** Source: middleware/auth/handler.rs [validate_state] *)
Definition validate_state (now : Z) (state_param : string) (state_ttl : Z)
    (oauth2_pending : gmap string PendingOAuth2)
  : gmap string PendingOAuth2 * result AppError PendingOAuth2 :=
  let pending := cleanup_expired now state_ttl oauth2_pending in
  (delete state_param pending,
   entry ← ok_or (Auth "Invalid or expired OAuth2 state") (pending !! state_param);
   if (state_ttl <=? elapsed now (po_created_at entry))%Z
   then Err (Auth "OAuth2 state has expired") else Ok entry).

(** The part of the authorization request that has state: the configuration
    checks, and the pending entry of a fresh [state_value] and
    [code_verifier]. [url_of] is the parsed authorization URL with its query.
    Source: middleware/auth/handler.rs [handle_oauth2_authorize] *)
Definition handle_oauth2_authorize (url_of : string → list (string * string) → result string string)
    (code_challenge : string → string) (now : Z) (state_value code_verifier : string)
    (auth : AuthConfig) (oauth2_pending : gmap string PendingOAuth2)
  : gmap string PendingOAuth2 * result AppError string :=
  match auth_oauth2 auth with
  | None => (oauth2_pending, Err (ConfigurationError "OAuth2 is not configured"))
  | Some oauth2 =>
      if is_empty (oa_authorization_url oauth2) then
        (oauth2_pending, Err (ConfigurationError "OAuth2 authorization_url is not configured"))
      else if is_empty (oa_client_id oauth2) then
        (oauth2_pending, Err (ConfigurationError "OAuth2 client_id is not configured"))
      else if is_empty (oa_redirect_url oauth2) then
        (oauth2_pending, Err (ConfigurationError "OAuth2 redirect_url is not configured"))
      else
        match url_of (oa_authorization_url oauth2)
          [("response_type", "code"); ("client_id", oa_client_id oauth2);
           ("redirect_uri", oa_redirect_url oauth2); ("scope", join " " (oa_scopes oauth2));
           ("state", state_value); ("code_challenge", code_challenge code_verifier);
           ("code_challenge_method", "S256")] with
        | Err e => (oauth2_pending, Err (ConfigurationError ("Invalid authorization_url: " +:+ e)))
        | Ok url =>
            let pending := cleanup_expired now (oa_state_ttl oauth2 * 1000000000) oauth2_pending in
            if (oa_max_pending_states oauth2 <=? Z.of_nat (size pending))%Z then
              (pending, Err (Internal "Too many pending OAuth2 authorization flows"))
            else
              (<[state_value := {| po_code_verifier := code_verifier; po_created_at := now |}]> pending,
               Ok url)
        end
  end.

(** The redirect that ends the flow.
    Source: middleware/auth/handler.rs [build_redirect_response] *)
Definition build_redirect_response (header_value_ok : string → bool)
    (success_url cookie_name jwt : string) (has_tls : bool) (max_age : Z)
  : result AppError (Z * list (string * string)) :=
  let cr := String (ascii_of_N 13) "" in
  let lf := String (ascii_of_N 10) "" in
  if contains_str cr success_url || contains_str lf success_url then
    Err (ConfigurationError "OAuth2 success_url contains invalid characters")
  else
    let cookie := cookie_name +:+ "=" +:+ jwt +:+ "; HttpOnly; SameSite=Lax; Path=/; Max-Age=" +:+
                  show_Z max_age +:+ (if has_tls then "; Secure" else "") in
    if header_value_ok success_url && header_value_ok cookie
    then Ok (302%Z, [("location", success_url); ("set-cookie", cookie)])
    else Err (Internal "Failed to build redirect response").
