(* ===== verification/AuthSpec.v ===== *)
(** * What authentication guarantees

    Who gets past the middleware, the life of a token from its creation to
    its revocation, the single use of an OAuth2 state, the account a
    registration creates, and the dependence of the endpoint lookup on the
    iteration order of a hash map. *)

From stdpp Require Import relations.
From S2P Require Import Prelude RustStr Json Config Errors SqlHelpers Statements Pool Roles RolesSpec Routing Credentials Accounts Auth.
Local Open Scope stdpp_scope.

(** ** Objects *)

Lemma assoc_set_opt_ne k v l k' : k' ≠ k → assoc k' (set_opt k v l) = assoc k' l.
Proof. intros. destruct v; [|done]. cbn [set_opt]. by rewrite assoc_obj_set, decide_False. Qed.

Lemma assoc_set_opt_str k v l :
  assoc k l = None → assoc k (set_opt k v l) ≫= as_str = v.
Proof.
  intros Hl. destruct v; cbn [set_opt]; [by rewrite assoc_obj_set, decide_True|by rewrite Hl].
Qed.

Lemma assoc_set_if_ne c k v l k' : k' ≠ k → assoc k' (set_if c k v l) = assoc k' l.
Proof. intros. destruct c; [|done]. cbn [set_if]. by rewrite assoc_obj_set, decide_False. Qed.

(** A string claim that is left out when it is empty. *)
Lemma assoc_set_if_nonempty k s l :
  assoc k l = None →
  default "" (assoc k (set_if (negb (is_empty s)) k (VString s) l) ≫= as_str) = s.
Proof.
  intros Hl. destruct s; cbn [is_empty negb set_if]; [by rewrite Hl|].
  by rewrite assoc_obj_set, decide_True.
Qed.

(** ** Tokens *)

(** The claims of a new token that the configuration may not rename. *)
Definition reserved_claims : list string := ["sub"; "iat"; "exp"; "iss"; "aud"; "jti"; "email"].

(** Two claim names differ: two literals, or one and the role claim. *)
Ltac skip_ne := first
  [ discriminate
  | match goal with H : ∀ k, existsb _ reserved_claims = true → _ |- ?a ≠ ?b =>
      first [exact (H a eq_refl) | exact (not_eq_sym (H b eq_refl))] end ].

(** Look past the claims of other names. *)
Ltac skip_claim := repeat first
  [ rewrite assoc_set_opt_ne by skip_ne | rewrite assoc_set_if_ne by skip_ne ].

Section tokens.
Context (jwt_decode : string → Validation → string → result string value).
Context (jwt_encode : string → JwtAlgorithm → value → result string string).

Lemma token_claims_lookup now sub role config jti email :
  jwt_role_claim config ∉ reserved_claims →
  let claims := VObject (token_claims now sub role config jti email) in
  str_claim "sub" claims = Some sub ∧ str_claim "jti" claims = jti ∧
  str_claim "email" claims = email ∧ str_claim (jwt_role_claim config) claims = role ∧
  default "" (str_claim "iss" claims) = jwt_issuer config ∧
  default "" (str_claim "aud" claims) = jwt_audience config ∧
  get "iat" claims = Some (json_int now) ∧
  get "exp" claims = Some (json_int (u64_add_sat now (jwt_expiry config))).
Proof.
  intros Hr. cbv zeta. unfold str_claim, get, token_claims.
  assert (Hne : ∀ k, existsb (String.eqb k) reserved_claims = true → k ≠ jwt_role_claim config).
  { intros k (k'&Hk&->%String.eqb_eq)%existsb_elem ->. done. }
  split_and!; skip_claim; try reflexivity.
  - apply assoc_set_opt_str. skip_claim. reflexivity.
  - apply assoc_set_opt_str. skip_claim. reflexivity.
  - apply assoc_set_opt_str. skip_claim. cbn [assoc].
    by rewrite !decide_False by skip_ne.
  - apply assoc_set_if_nonempty. reflexivity.
  - apply assoc_set_if_nonempty. skip_claim. reflexivity.
Qed.

(** What the JWT library documents of the checks of [decode] at a time [t], in
    seconds: a token has an expiry, which is not in the past where it is
    checked, and its issuer and its audience, where it has any, are among the
    expected ones. *)
Definition acceptable_claims (t : Z) (v : Validation) (claims : value) : Prop :=
  (∃ e, get "exp" claims = Some (json_int e) ∧ (v_validate_exp v = true → (t ≤ e)%Z)) ∧
  (∀ iss, get "iss" claims = Some iss → ∃ s, iss = VString s ∧ s ∈ v_issuer v) ∧
  (∀ aud, get "aud" claims = Some aud → ∃ s, aud = VString s ∧ s ∈ v_audience v) ∧
  v_validate_nbf v = false.

(** A token that was encoded with a secret and an algorithm is decoded with
    them at a time when its claims are acceptable. *)
Definition decodes_at (t : Z) : Prop :=
  ∀ alg secret claims token v, jwt_encode secret alg claims = Ok token → v_algorithm v = alg →
    acceptable_claims t v claims → jwt_decode secret v token = Ok claims.

Lemma get_set_if_nonempty k s l :
  assoc k l = None → assoc k (set_if (negb (is_empty s)) k (VString s) l) = if is_empty s then None else Some (VString s).
Proof. intros Hl. destruct s; [done|]. cbn. by rewrite assoc_obj_set, decide_True. Qed.

(** The claims of a new token are acceptable to the configuration it was made
    for until they expire. *)
Lemma token_claims_acceptable t now sub role config jti email :
  jwt_role_claim config ∉ reserved_claims → (t ≤ u64_add_sat now (jwt_expiry config))%Z →
  acceptable_claims t (token_validation config true) (VObject (token_claims now sub role config jti email)).
Proof.
  intros Hr Ht. pose proof (token_claims_lookup now sub role config jti email Hr) as (_&_&_&_&_&_&_&Hexp).
  assert (Hne : ∀ k, existsb (String.eqb k) reserved_claims = true → k ≠ jwt_role_claim config).
  { intros k (k'&Hk&->%String.eqb_eq)%existsb_elem ->. done. }
  split_and!; [by eexists|..|done]; intros s; unfold get, token_claims; skip_claim;
    rewrite get_set_if_nonempty by (skip_claim; reflexivity); cbn [token_validation v_issuer v_audience].
  - destruct (is_empty _) eqn:He; [done|]. intros [= <-]. eexists. split; [done|]. set_solver.
  - destruct (is_empty _) eqn:He; [done|]. intros [= <-]. eexists. split; [done|]. set_solver.
Qed.

(** A token means what it was made from. Given a JWT library that decodes at
    a time [t] what it encoded if the claims are acceptable then, a token
    created for a non-blank subject is accepted at that time, up to its
    expiry, while its [jti] is not revoked, with the same subject, role, identifier,
    e-mail address, issuer and audience, an issue time of now and the
    configured expiry, as long as the role claim is not given the name of
    another claim. *)
Theorem created_token_validates {S} `{RevocationStoreBackend S} (t now : Z) (sub : string)
    (role : option string) (config : JwtConfig) (jti email : option string) (store : option S)
    (token : string) :
  decodes_at t → (t ≤ u64_add_sat now (jwt_expiry config))%Z →
  u64 (u64_add_sat now (jwt_expiry config)) → (now ≤ u64_max)%Z →
  is_empty (trim sub) = false → jwt_role_claim config ∉ reserved_claims →
  (∀ st j, store = Some st → jti = Some j → is_revoked j st = false) →
  create_token jwt_encode now sub role config jti email = Ok token →
  validate_token jwt_decode token config store = Ok {|
    cl_sub := sub; cl_exp := u64_add_sat now (jwt_expiry config); cl_iat := now;
    cl_iss := jwt_issuer config; cl_aud := jwt_audience config;
    cl_role := role; cl_jti := jti; cl_email := email |}.
Proof.
  intros Hlib Ht Hexp Hnow Hsub Hrole Hrev Hc. unfold create_token in Hc.
  destruct (Z.ltb_spec now 0); [done|]. apply map_err_Ok in Hc.
  unfold validate_token.
  rewrite (Hlib _ _ _ _ (token_validation config true) Hc) by (done || by apply token_claims_acceptable).
  pose proof (token_claims_lookup now sub role config jti email Hrole) as Hl. cbv zeta in Hl.
  destruct Hl as (Hs&Hj&He&Hr&Hi&Ha&Hiat&Hex).
  cbn [map_err mbind result_bind]. rewrite Hs. cbn [ok_or mbind result_bind]. rewrite Hsub.
  cbn [mbind result_bind]. rewrite Hj, He, Hr, Hi, Ha, Hiat, Hex.
  assert (Hu : ∀ z, u64 z → default 0%Z (Some (json_int z) ≫= as_u64) = z).
  { intros z [? ?]. unfold json_int. cbn.
    by rewrite (proj2 (Z.leb_le _ _)), (proj2 (Z.leb_le _ _)). }
  rewrite !Hu by (done || (unfold u64, u64_max in *; lia)).
  destruct store as [st|], jti as [j|]; try done. by rewrite (Hrev st j).
Qed.
End tokens.

(** ** The OAuth2 state *)

(** A state is accepted if it is pending and younger than its lifetime. *)
Lemma validate_state_Ok now state ttl pending entry :
  (validate_state now state ttl pending).2 = Ok entry ↔
  pending !! state = Some entry ∧ (elapsed now (po_created_at entry) < ttl)%Z.
Proof.
  unfold validate_state, cleanup_expired. cbn [snd].
  destruct (filter _ pending !! state) as [e|] eqn:He; cbn [ok_or mbind result_bind].
  - apply map_lookup_filter_Some in He as [He Hlt]. cbn in Hlt.
    destruct (Z.leb_spec ttl (elapsed now (po_created_at e))); [lia|]. split.
    + by intros [= <-].
    + intros [Hs _]. congruence.
  - split; [done|]. intros [Hs Hlt]. rewrite map_lookup_filter_None in He.
    destruct He as [He|He]; [congruence|]. by destruct (He entry Hs).
Qed.

(** It is spent, accepted or not, and no other is added. *)
Lemma validate_state_pending now state ttl pending :
  (validate_state now state ttl pending).1 !! state = None ∧
  (validate_state now state ttl pending).1 ⊆ pending.
Proof.
  unfold validate_state, cleanup_expired. cbn [fst]. split; [apply lookup_delete_eq|].
  etrans; [apply delete_subseteq|apply map_filter_subseteq].
Qed.

(** An authorization adds at most its own fresh state, and that only below
    the maximum. *)
Lemma authorize_pending url_of challenge now fresh verifier auth oauth2 pending :
  auth_oauth2 auth = Some oauth2 →
  let pending' := (handle_oauth2_authorize url_of challenge now fresh verifier auth pending).1 in
  delete fresh pending' ⊆ pending ∧
  (pending' ⊆ pending ∨ (Z.of_nat (size pending') ≤ oa_max_pending_states oauth2)%Z).
Proof.
  intros Ho. cbv zeta. unfold handle_oauth2_authorize. rewrite Ho.
  assert (∀ p : gmap string PendingOAuth2, p ⊆ pending → delete fresh p ⊆ pending ∧
    (p ⊆ pending ∨ (Z.of_nat (size p) ≤ oa_max_pending_states oauth2)%Z)) as Hsub.
  { intros p Hp. split; [|by left]. etrans; [apply delete_subseteq|done]. }
  repeat (destruct (is_empty _); [by apply Hsub|]). destruct (url_of _ _); [|by apply Hsub]. cbv zeta.
  assert (Hk : cleanup_expired now (oa_state_ttl oauth2 * 1000000000) pending ⊆ pending) by apply map_filter_subseteq.
  destruct (Z.leb_spec (oa_max_pending_states oauth2)
    (Z.of_nat (size (cleanup_expired now (oa_state_ttl oauth2 * 1000000000) pending)))); cbn [fst]; [by apply Hsub|].
  split; [|right].
  - rewrite delete_insert_eq. etrans; [apply delete_subseteq|done].
  - rewrite map_size_insert. destruct (_ !! fresh); cbn; lia.
Qed.

Lemma authorize_without_oauth2 url_of challenge now fresh verifier auth pending :
  auth_oauth2 auth = None → (handle_oauth2_authorize url_of challenge now fresh verifier auth pending).1 = pending.
Proof. unfold handle_oauth2_authorize. by intros ->. Qed.

(** ** The middleware *)

Section middleware.
Context {HeaderMap : Type} (header_str : HeaderMap → string → option string).
Context (jwt_decode : string → Validation → string → result string value).
Context (base64_decode : string → option (option string)).
Context (verify_hash : string → string → option password_check).
Context (get_userinfo_reply : string → string → http_reply).
Context {S : Type} `{!RevocationStoreBackend S}.

Notation middleware :=
  (auth_middleware header_str jwt_decode base64_decode verify_hash get_userinfo_reply).

(** The roles an endpoint requires of a method. *)
Definition roles_for (e : EndpointConfig) (method : string) : list string :=
  match find_first (λ m, method_matches m method) (ep_methods e) with
  | Some m => clone_for_method (ep_roles e) m
  | None => []
  end.

Definition skipped (path : string) : bool := existsb (λ skip, starts_with skip path) SKIP_ROUTES.

Lemma validate_token_inv token config (store : option S) claims :
  validate_token jwt_decode token config store = Ok claims →
  ∃ v, jwt_decode (jwt_secret config) (token_validation config true) token = Ok v ∧
    str_claim "sub" v = Some (cl_sub claims) ∧ is_empty (trim (cl_sub claims)) = false ∧
    cl_role claims = str_claim (jwt_role_claim config) v ∧
    cl_email claims = str_claim "email" v ∧
    ∀ st j, store = Some st → str_claim "jti" v = Some j → is_revoked j st = false.
Proof.
  intros Hv. unfold validate_token in Hv.
  destruct (jwt_decode _ _ _) as [v|] eqn:Hd; [|done]. cbn [map_err mbind result_bind] in Hv.
  destruct (str_claim "sub" v) as [sub|] eqn:Hs; [|done]. cbn [ok_or mbind result_bind] in Hv.
  destruct (is_empty (trim sub)) eqn:Hb; [done|]. cbn [mbind result_bind] in Hv.
  exists v. destruct (match store with Some _ => _ | None => _ end) eqn:Hr; [done|].
  injection Hv as <-. split_and!; try done.
  intros st j -> Hj. by rewrite Hj in Hr.
Qed.

(** Behind the middleware of a guarded endpoint there is a user, who is
    authenticated and has one of the roles. *)
Lemma middleware_next (iter : endpoint_map → list (string * EndpointConfig)) (state : auth_state S)
    (req : @http_request HeaderMap) (e : EndpointConfig) (passed : option AuthInfo) :
  skipped (req_path req) = false →
  get_endpoint_config_for_method iter (as_endpoint_configs state) (req_path req) (req_method req)
    = Some e →
  ep_auth e ≠ "none" → middleware iter state req = Next passed →
  ∃ user, passed = Some user ∧
    authenticate header_str jwt_decode base64_decode verify_hash get_userinfo_reply (ep_auth e)
      (as_auth state) (req_headers req) (raw_query_params (req_query req)) (as_revocation_store state) = Ok user ∧
    check_roles user (roles_for e (req_method req)) (as_role_inheritance state) = Ok tt.
Proof.
  intros Hskip Hfind Hauth Hpass. unfold auth_middleware in Hpass.
  fold (skipped (req_path req)) in Hpass. rewrite Hskip, Hfind in Hpass.
  cbv zeta in Hpass. fold (roles_for e (req_method req)) in Hpass.
  apply String.eqb_neq in Hauth. rewrite Hauth in Hpass.
  destruct (_ ≫= _) as [user|] eqn:Hrun in Hpass; [|done]. injection Hpass as <-.
  apply bind_Ok in Hrun as (u&Ha&Hrun). apply bind_Ok in Hrun as ([]&Hroles&Hu).
  injection Hu as ->. by exists user.
Qed.

(** Who a JWT authenticates. *)
Lemma authenticate_jwt_Ok (auth : AuthConfig) (headers : HeaderMap) (query : gmap string string)
    (store : option S) (user : AuthInfo) :
  authenticate header_str jwt_decode base64_decode verify_hash get_userinfo_reply "jwt" auth headers query store
    = Ok user →
  ∃ config token claims, auth_jwt auth = Some config ∧ request_token header_str auth headers = Ok token ∧
    jwt_decode (jwt_secret config) (token_validation config true) token = Ok claims ∧
    str_claim "sub" claims = Some (ai_subject user) ∧ is_empty (trim (ai_subject user)) = false ∧
    (∀ st jti, store = Some st → str_claim "jti" claims = Some jti → is_revoked jti st = false) ∧
    ai_role user = str_claim (jwt_role_claim config) claims.
Proof.
  intros Ha. unfold authenticate in Ha. cbn [String.eqb Ascii.eqb Bool.eqb] in Ha.
  apply bind_Ok in Ha as (config&Hcfg&Ha). apply ok_or_Ok in Hcfg.
  apply bind_Ok in Ha as (token&Htok&Ha). apply bind_Ok in Ha as (claims&Hv&Hu).
  apply validate_token_inv in Hv as (v&Hd&Hs&Hb&Hr&_&Hrev). injection Hu as <-.
  exists config, token, v. by split_and!.
Qed.

(** C18: who reaches the handler of an endpoint that requires a JWT. Whenever
    the middleware finds such an endpoint for a request outside its four
    exempt routes, it hands the request on only with a user whose token - a
    bearer token or the configured cookie - the JWT library accepts under the
    configured secret, issuer, audience and expiry, has a non-blank subject
    and is not revoked; the user is the token's subject, and the endpoint
    requires no role or one the token's role reaches in the hierarchy. *)
Theorem jwt_endpoint_requires_token (iter : endpoint_map → list (string * EndpointConfig))
    (state : auth_state S) (hierarchy : RoleHierarchy) (req : @http_request HeaderMap)
    (e : EndpointConfig) (passed : option AuthInfo) :
  skipped (req_path req) = false →
  get_endpoint_config_for_method iter (as_endpoint_configs state) (req_path req) (req_method req)
    = Some e →
  ep_auth e = "jwt" →
  as_role_inheritance state = compute_role_inheritance (Some hierarchy) →
  middleware iter state req = Next passed →
  ∃ config token claims user, passed = Some user ∧
    auth_jwt (as_auth state) = Some config ∧
    request_token header_str (as_auth state) (req_headers req) = Ok token ∧
    jwt_decode (jwt_secret config) (token_validation config true) token = Ok claims ∧
    str_claim "sub" claims = Some (ai_subject user) ∧ is_empty (trim (ai_subject user)) = false ∧
    (∀ store jti, as_revocation_store state = Some store → str_claim "jti" claims = Some jti →
       is_revoked jti store = false) ∧
    (roles_for e (req_method req) = [] ∨
     ∃ role required, str_claim (jwt_role_claim config) claims = Some role ∧
       required ∈ roles_for e (req_method req) ∧ rtc (parent (rh_roles hierarchy)) role required).
Proof.
  intros Hskip Hfind Hauth Hinh Hpass.
  apply (middleware_next iter state req e) in Hpass as (user&->&Ha&Hroles); [|done..|by rewrite Hauth].
  rewrite Hauth in Ha. apply authenticate_jwt_Ok in Ha as (config&token&claims&Hcfg&Htok&Hd&Hs&Hb&Hrev&Hr).
  exists config, token, claims, user. split_and!; [done..|].
  rewrite Hinh in Hroles.
  pose proof (proj1 (proj1 (check_roles_reach hierarchy _ _)) Hroles) as [Hn|H]; [by left|].
  right. by rewrite Hr in H.
Qed.

(** Whether a request must authenticate can depend on the iteration order
    of a hash map. Patterns are tried in that order, so when two of them
    cover a path and listen to the method, one public and one that requires a
    JWT, the same configuration lets a request without credentials through
    or refuses it, depending on which pattern the map yields first. *)
Theorem overlapping_patterns_decide_auth (state : auth_state S) (req : @http_request HeaderMap)
    (public private : string) (open protected : EndpointConfig) (jwt : JwtConfig) :
  (∀ key, is_Some (as_endpoint_configs state !! key) → contains_char "{" key = true) →
  contains_char "{" (req_path req) = false → contains_char "{" (to_upper (req_method req)) = false →
  skipped (req_path req) = false →
  as_endpoint_configs state !! public = Some open → covers public (req_path req) = true →
  listens (req_method req) open = true → ep_auth open = "none" →
  as_endpoint_configs state !! private = Some protected → covers private (req_path req) = true →
  listens (req_method req) protected = true → ep_auth protected = "jwt" →
  auth_jwt (as_auth state) = Some jwt →
  header_str (req_headers req) "authorization" = None →
  header_str (req_headers req) "cookie" = None →
  ∃ iter iter', (∀ m, iter m ≡ₚ map_to_list m) ∧ (∀ m, iter' m ≡ₚ map_to_list m) ∧
    middleware iter state req = Next None ∧
    ∃ message, middleware iter' state req = Refused (Auth message).
Proof.
  intros Hkeys Hp Hm Hskip Ho Hco Hlo Hao Hr Hcr Hlr Har Hjwt Hauth Hcookie.
  exists (first_entry public), (first_entry private).
  split; [intros; apply first_entry_perm|]. split; [intros; apply first_entry_perm|].
  unfold auth_middleware. fold (skipped (req_path req)). rewrite Hskip.
  rewrite !lookup_is_wildcard by done.
  rewrite (find_wildcard_match_first public _ _ _ open) by done.
  rewrite (find_wildcard_match_first private _ _ _ protected) by done.
  rewrite Hao, Har. cbv zeta. cbn [String.eqb Ascii.eqb Bool.eqb]. split; [done|].
  unfold authenticate. cbn [String.eqb Ascii.eqb Bool.eqb]. rewrite Hjwt.
  cbn [ok_or mbind result_bind]. unfold request_token. rewrite Hauth. cbn [mbind option_bind].
  destruct (oa_cookie_name <$> auth_oauth2 (as_auth state)) as [name|].
  - destruct (is_empty name); [eexists; reflexivity|]. unfold extract_cookie. rewrite Hcookie.
    eexists. reflexivity.
  - eexists. reflexivity.
Qed.
End middleware.

(** ** Accounts *)

Section accounts.
Context {DB : Type} `{!Pool DB}.
Context (db_pools : gmap string DatabasePool).
Context (jwt_encode : string → JwtAlgorithm → value → result string string).
Context (hash : string → result string string).
Context (verify_hash : string → string → option password_check).

(** What a registration and a login rely on: a stored hash verifies its own
    password, and a user inserted under a new address is the row the login
    query finds under it. *)
Record users_table_laws : Prop := {
  hash_verifies : ∀ password h, hash password = Ok h → verify_hash h password = Some PasswordOk;
  inserted_user_found : ∀ pool timestamps email h role insert by_email login db n db',
    let driver := pool_driver pool in
    build_insert_user "users" email h role timestamps driver = Ok insert →
    build_select_by_field "users" ["email"] "email" (VString email) driver = Ok by_email →
    fetch_optional_json pool (bq_sql by_email) (bq_params by_email) db = Ok None →
    execute_with_params pool (bq_sql insert) (bq_params insert) db = Ok (n, db') →
    build_select_user_for_login "users" driver = Ok login →
    ∃ row, fetch_optional_json pool (bq_sql login) [VString email] db' = Ok (Some row) ∧
      str_claim "email" row = Some email ∧ str_claim "password_hash" row = Some h ∧
      str_claim "role" row = Some role;
}.

(** What a registration that reached its INSERT had established. *)
Lemma prepare_registration_inv config body db pool reg insert :
  prepare_registration db_pools hash config body db = Ok (pool, reg, insert) →
  registration_pool db_pools config = Ok (pool, reg) ∧ reg_enabled reg = true ∧
  let driver := pool_driver pool in
  ∃ h timestamps by_email, hash (rr_password body) = Ok h ∧
    build_select_by_field (reg_table reg) ["email"] "email" (VString (rr_email body)) driver
      = Ok by_email ∧
    fetch_optional_json pool (bq_sql by_email) (bq_params by_email) db = Ok None ∧
    build_insert_user (reg_table reg) (rr_email body) h
      (default (reg_default_role reg) (rr_role body)) timestamps driver = Ok insert.
Proof.
  intros H. unfold prepare_registration in H.
  apply bind_Ok in H as ([p r]&Hpool&H).
  destruct (reg_enabled r) eqn:Hen; cbn [negb] in H; [|done].
  destruct (_ <? _); [done|]. apply bind_Ok in H as (h&Hh&H).
  unfold hash_password in Hh. apply map_err_Ok in Hh. cbv zeta in H.
  apply bind_Ok in H as (rows&_&H).
  apply bind_Ok in H as (by_email&Hby&H). apply map_err_Ok in Hby.
  apply bind_Ok in H as (existing&Hex&H). apply map_err_Ok in Hex.
  destruct existing as [row|]; [done|].
  apply bind_Ok in H as (ins&Hins&H). apply map_err_Ok in Hins.
  injection H as -> -> ->. split_and!; [done..|]. eauto 10.
Qed.

(** Whoever registers chooses their own role. With registration open on
    the users table, a registration that names a role, any role, succeeds
    with a token that carries the default role; but the requested role is
    what is stored, and every later login with the same address and password
    is answered with a token that carries it. *)
Theorem registration_grants_requested_role (now now' : Z) (jti jti' : string) (config : AppConfig)
    (reg : RegisterConfig) (jwt : JwtConfig) (email password role : string) (db db' : DB)
    (token : string) :
  users_table_laws →
  auth_register (cfg_auth config) = Some reg → reg_table reg = "users" →
  auth_jwt (cfg_auth config) = Some jwt →
  handle_register db_pools jwt_encode hash now jti config
    {| rr_email := email; rr_password := password; rr_role := Some role |} db = (db', Ok token) →
  (∃ user_id user_email, create_jwt_token jwt_encode now user_id (Some (reg_default_role reg)) jwt
     jti user_email = Ok token) ∧
  ∃ user_id, handle_login db_pools jwt_encode verify_hash now' jti' config
      {| lr_email := email; lr_password := password |} db'
    = create_jwt_token jwt_encode now' user_id (Some role) jwt jti' email.
Proof.
  intros Hlaws Hreg Htable Hjwt H. unfold handle_register in H.
  destruct (prepare_registration _ _ _ _ _) as [[[pool r] insert]|] eqn:Hprep; [|done].
  apply prepare_registration_inv in Hprep as (Hpool&_&h&timestamps&by_email&Hh&Hby&Hnone&Hins).
  cbn [rr_email rr_password rr_role default from_option id] in *.
  assert (Hr : r = reg).
  { unfold registration_pool in Hpool. rewrite Hreg in Hpool.
    cbn [ok_or mbind result_bind] in Hpool.
    apply bind_Ok in Hpool as (?&_&Hp). by injection Hp as _ ->. }
  subst r. rewrite Htable in *.
  destruct (execute_with_params _ _ _ db) as [[n1 db1]|] eqn:Hexec; [|done].
  injection H as -> H. split.
  - apply bind_Ok in H as (found&_&H). apply bind_Ok in H as (row&_&H). cbv zeta in H.
    apply bind_Ok in H as (j&Hj&H). unfold jwt_config in Hj. rewrite Hjwt in Hj.
    injection Hj as ->. eauto.
  - unfold handle_login. rewrite Hpool. cbn [mbind result_bind].
    destruct (build_select_user_for_login "users" (pool_driver pool)) as [login|] eqn:Hlogin; [|done].
    cbn [map_err mbind result_bind lr_email lr_password].
    destruct (inserted_user_found Hlaws _ _ _ _ _ _ _ _ _ _ _ Hins Hby Hnone Hexec Hlogin)
      as (row&Hrow&He&Hph&Hrole).
    rewrite Hrow. cbn [map_err ok_or mbind result_bind]. rewrite He, Hph, Hrole.
    cbn [ok_or mbind result_bind]. unfold verify_password. rewrite (hash_verifies Hlaws _ _ Hh).
    cbn [mbind result_bind negb]. unfold jwt_config. rewrite Hjwt.
    cbn [ok_or mbind result_bind]. eauto.
Qed.
End accounts.

(** ** Witnesses *)

Definition sample_jwt : JwtConfig := {|
  jwt_secret := "secret"; jwt_algorithm := HS256; jwt_issuer := "main-serve"; jwt_audience := "";
  jwt_expiry := 3600; jwt_role_claim := "role"; jwt_revocation := None |}.

Definition sample_claims : value :=
  VObject (token_claims 1000 "42" (Some "editor") sample_jwt (Some "id-1") (Some "a@b.c")).

Definition atom_eqb (a b : value) : bool :=
  match a, b with
  | VString s, VString t => String.eqb s t
  | VNumber (NInt x), VNumber (NInt y) => Z.eqb x y
  | _, _ => false
  end.
Fixpoint entries_eqb (l m : list (string * value)) : bool :=
  match l, m with
  | [], [] => true
  | (k, a) :: l, (k', b) :: m => String.eqb k k' && atom_eqb a b && entries_eqb l m
  | _, _ => false
  end.
Definition object_eqb (v w : value) : bool :=
  match v, w with VObject l, VObject m => entries_eqb l m | _, _ => false end.

Lemma object_eqb_eq v w : object_eqb v w = true → v = w.
Proof.
  destruct v as [| | | | |l], w as [| | | | |m]; try done. cbn [object_eqb]. intros H. f_equal.
  revert m H. induction l as [|[k a] l IH]; intros [|[k' b] m] H; try done.
  cbn [entries_eqb] in H. apply andb_true_iff in H as [[Hk%String.eqb_eq Ha]%andb_true_iff Hl].
  subst k'. f_equal; [|by apply IH]. f_equal.
  destruct a as [| |[x|]|s| |], b as [| |[y|]|t| |]; try done; cbn in Ha.
  - by apply Z.eqb_eq in Ha as ->.
  - by apply String.eqb_eq in Ha as ->.
Qed.

(** A library that knows one token. *)
Definition one_encode (secret : string) (alg : JwtAlgorithm) (claims : value) : result string string :=
  if object_eqb claims sample_claims then Ok "tok" else Err "unknown claims".
Definition one_decode (secret : string) (v : Validation) (token : string) : result string value :=
  if String.eqb token "tok" then Ok sample_claims else Err "InvalidToken".

Lemma created_token_validates_witness :
  validate_token one_decode "tok" sample_jwt (Some {| revoked := ∅ |}) = Ok {|
    cl_sub := "42"; cl_exp := 4600; cl_iat := 1000; cl_iss := "main-serve"; cl_aud := "";
    cl_role := Some "editor"; cl_jti := Some "id-1"; cl_email := Some "a@b.c" |}.
Proof.
  refine (created_token_validates one_decode one_encode 4600 1000 "42" (Some "editor") sample_jwt
    (Some "id-1") (Some "a@b.c") (Some {| revoked := ∅ |}) "tok" _ _ _ _ _ _ _ _).
  - intros alg secret claims token v He _ _. unfold one_encode in He. unfold one_decode.
    destruct (object_eqb claims sample_claims) eqn:Hq; [|done]. injection He as <-.
    by rewrite (object_eqb_eq _ _ Hq).
  - vm_compute. discriminate.
  - vm_compute. split; discriminate.
  - vm_compute. discriminate.
  - reflexivity.
  - refine (bool_decide_eq_false_1 _ _). reflexivity.
  - intros st j [= <-] [= <-]. reflexivity.
  - reflexivity.
Defined.

Definition sample_config : AppConfig := {|
  cfg_server := default_ServerConfig; cfg_logging := {| log_level := LInfo; log_format := FmtPretty; log_request_body := false;
                    log_response_body := false; log_max_body_log_size := 4096 |};
  cfg_cors := default_CorsConfig; cfg_rate_limit := default_RateLimitConfig;
  cfg_databases := ∅; cfg_tables := [];
  cfg_auth := {| auth_jwt := Some sample_jwt; auth_api_key := None; auth_basic := None;
                 auth_oauth2 := None;
                 auth_register := Some {| reg_enabled := true; reg_table := "users";
                   reg_database := "main"; reg_default_role := "user";
                   reg_password_hash := Argon2id |} |};
  cfg_endpoints := []; cfg_stores := ∅; cfg_role_hierarchy := Some staff;
  cfg_global_schemas := None |}.

Definition no_headers : list (string * string) → string → option string := λ hs n,
  snd <$> find_first (λ h, String.eqb (fst h) n) hs.

Definition posts_endpoint : EndpointConfig :=
  let e := mk_endpoint "/api/posts/{id}" [Get; Put] ActCrud "jwt" in
  {| ep_path := ep_path e; ep_methods := ep_methods e; ep_action := ep_action e;
     ep_crud := None; ep_proxy := None; ep_static_files := None; ep_spa_host := None;
     ep_media := None; ep_file_store := None; ep_custom_response := None;
     ep_auth := "jwt"; ep_roles := Flat ["author"]; ep_cors := None; ep_rate_limit := None |}.

(** A single-page application at the root and an API behind a JWT. *)
Definition site_endpoints : list EndpointConfig :=
  [mk_endpoint "/*" [Get] ActSpaHost "none"; posts_endpoint].

Definition site_state (endpoints : list EndpointConfig) : auth_state InMemoryRevocationStore := {|
  as_endpoint_configs := build_endpoint_configs endpoints;
  as_auth := cfg_auth sample_config;
  as_role_inheritance := compute_role_inheritance (Some staff);
  as_revocation_store := Some {| revoked := ∅ |} |}.

Definition get_post (headers : list (string * string)) : @http_request (list (string * string)) :=
  {| req_method := "GET"; req_path := "/api/posts/42"; req_query := None; req_headers := headers |}.

Lemma jwt_endpoint_requires_token_witness :
  ∃ config token claims user,
    Some {| ai_subject := "42"; ai_email := Some "a@b.c"; ai_role := Some "editor";
            ai_token := Some "tok" |} = Some user ∧
    auth_jwt (cfg_auth sample_config) = Some config ∧
    request_token no_headers (cfg_auth sample_config) [("authorization", "Bearer tok")] = Ok token ∧
    one_decode (jwt_secret config) (token_validation config true) token = Ok claims ∧
    str_claim "sub" claims = Some (ai_subject user) ∧ is_empty (trim (ai_subject user)) = false ∧
    (∀ store jti, Some {| revoked := ∅ |} = Some store → str_claim "jti" claims = Some jti →
       is_revoked jti store = false) ∧
    (roles_for posts_endpoint "GET" = [] ∨
     ∃ role required, str_claim (jwt_role_claim config) claims = Some role ∧
       required ∈ roles_for posts_endpoint "GET" ∧ rtc (parent (rh_roles staff)) role required).
Proof.
  refine (jwt_endpoint_requires_token no_headers one_decode (λ _, None) (λ _ _, None)
    (λ _ _, NoReply "") map_to_list (site_state [posts_endpoint]) staff
    (get_post [("authorization", "Bearer tok")]) posts_endpoint _ _ _ _ _ _);
    vm_compute; reflexivity.
Defined.

Lemma overlapping_patterns_decide_auth_witness :
  ∃ iter iter', (∀ m, iter m ≡ₚ map_to_list m) ∧ (∀ m, iter' m ≡ₚ map_to_list m) ∧
    auth_middleware no_headers one_decode (λ _, None) (λ _ _, None) (λ _ _, NoReply "") iter
      (site_state site_endpoints) (get_post []) = Next None ∧
    ∃ message, auth_middleware no_headers one_decode (λ _, None) (λ _ _, None) (λ _ _, NoReply "")
      iter' (site_state site_endpoints) (get_post []) = Refused (Auth message).
Proof.
  refine (overlapping_patterns_decide_auth no_headers one_decode (λ _, None) (λ _ _, None)
    (λ _ _, NoReply "") (site_state site_endpoints) (get_post []) "/{*rest}#GET"
    "/api/posts/{id}#GET" (mk_endpoint "/*" [Get] ActSpaHost "none") posts_endpoint sample_jwt
    _ _ _ _ _ _ _ _ _ _ _ _ _ _ _); try (vm_compute; reflexivity).
  intros key [e He].
  assert (Hall : map_Forall (λ k (_ : EndpointConfig), contains_char "{" k = true)
    (build_endpoint_configs site_endpoints)).
  { refine (bool_decide_eq_true_1 _ _). vm_compute. reflexivity. }
  exact (Hall key e He).
Defined.

(** A pool over a list of user rows. *)
Global Instance row_pool : Pool (list value) := {
  fetch_all_json _ _ _ _ := Ok [];
  fetch_optional_json _ _ params db :=
    match params with
    | [VString email] => Ok (find_first (λ row, bool_decide (str_claim "email" row = Some email)) db)
    | _ => Err (Database "unexpected query")
    end;
  fetch_optional_returning _ _ _ _ := Err (Database "unexpected statement");
  execute_with_params _ _ params db :=
    match params with
    | [VString email; VString h; VString role] =>
        Ok (1%Z, VObject [("email", VString email); ("id", json_int 1); ("password_hash", VString h);
                          ("role", VString role)] :: db)
    | _ => Err (Database "unexpected statement")
    end;
  execute_with_params_and_last_id _ _ _ _ := Err (Database "unexpected statement");
  execute_raw _ _ _ := Err (Database "unexpected statement");
}.

Definition plain_hash (password : string) : result string string := Ok ("h:" +:+ password).
Definition plain_verify (h password : string) : option password_check :=
  Some (if String.eqb h ("h:" +:+ password) then PasswordOk else PasswordInvalid).

Lemma row_pool_laws : users_table_laws plain_hash plain_verify.
Proof.
  split.
  - intros password h [= <-]. unfold plain_verify. by rewrite String.eqb_refl.
  - intros pool timestamps email h role insert by_email login db n db' driver Hins _ _ Hexec Hlogin. subst driver.
    unfold build_insert_user in Hins. destruct (_ || _); [done|].
    injection Hins as <-. cbn in Hexec. injection Hexec as _ <-.
    injection Hlogin as <-.
    eexists. cbn [fetch_optional_json row_pool find_first].
    rewrite bool_decide_eq_true_2 by done. split_and!; reflexivity.
Qed.

Lemma registration_grants_requested_role_witness :
  (∃ user_id user_email, create_jwt_token (λ _ _ _, Ok "tok") 1000 user_id (Some "user") sample_jwt
     "id-1" user_email = Ok "tok") ∧
  ∃ user_id, handle_login {["main" := PoolSqlite 0]} (λ _ _ _, Ok "tok") plain_verify 2000 "id-2"
      sample_config {| lr_email := "a@b.c"; lr_password := "secret" |}
      [VObject [("email", VString "a@b.c"); ("id", json_int 1); ("password_hash", VString "h:secret");
                ("role", VString "admin")]]
    = create_jwt_token (λ _ _ _, Ok "tok") 2000 user_id (Some "admin") sample_jwt "id-2" "a@b.c".
Proof.
  refine (registration_grants_requested_role {["main" := PoolSqlite 0]} (λ _ _ _, Ok "tok") plain_hash
    plain_verify 1000 2000 "id-1" "id-2" sample_config _ sample_jwt "a@b.c" "secret" "admin" [] _ "tok"
    row_pool_laws _ _ _ _); vm_compute; reflexivity.
Defined.
