(* ===== verification/Stores.v ===== *)
(** * Storage backends by name

    The stores a configuration names (src/src/storage/mod.rs,
    src/src/server/state.rs), the detection of changed stores by a reload, and
    the store of an endpoint (src/src/handlers/common/store.rs). The store of
    each backend is made by a constructor that is an argument. *)

From S2P Require Import Prelude RustStr Config Errors Storage.
Local Open Scope stdpp_scope.

(** [{:?}] of a path is a parameter.
    Source: storage/error.rs:7-46 [StorageError (Display)] *)
Definition show_StorageError (debug : string → string) (e : StorageError) : string :=
  match e with
  | SNotFound p => "Not found: " +:+ debug p
  | SAlreadyExists p => "Already exists: " +:+ debug p
  | SDirectoryNotEmpty p => "Directory not empty: " +:+ debug p
  | SForbidden m => "Permission denied: " +:+ m
  | SInvalidFilename m => "Invalid filename: " +:+ m
  | SIo p e => "IO error for " +:+ debug p +:+ ": " +:+ e
  | SInvalidBackend m => "Invalid storage backend: " +:+ m
  | SInternal m => "Internal error: " +:+ m
  | SServiceUnavailable m => "Service unavailable: " +:+ m
  | SAuthentication m => "Authentication failed: " +:+ m
  end.

Section stores.
Context {Store : Type} (memory_new : Store) (native_new : string → Store).
(** The cloud backends, where their feature is compiled in. *)
Context (s3_new azure_new gcs_new : option (StoreConfig → result StorageError Store)).
Context (debug : string → string).
Context (iter : ∀ A : Type, gmap string A → list (string * A)).

(** The message of a backend that is not compiled in. *)
Definition cloud_store (new : option (StoreConfig → result StorageError Store)) (name feature : string)
    (config : StoreConfig) : result StorageError Store :=
  match new with
  | Some new => new config
  | None => Err (SInternal (name +:+ " support is not compiled in - enable the '" +:+ feature +:+
                            "' feature flag"))
  end.

(** Source: storage/mod.rs [create_store] *)
Definition create_store (config : StoreConfig) : result StorageError Store :=
  match st_backend config with
  | Memory => Ok memory_new
  | Native =>
      root ← ok_or (SInvalidBackend "native backend requires 'root' field") (st_root config);
      Ok (native_new root)
  | S3 => cloud_store s3_new "S3" "s3" config
  | Azure => cloud_store azure_new "Azure" "azure" config
  | Gcs => cloud_store gcs_new "GCS" "gcs" config
  end.

Definition store_failed (what : string) (e : StorageError) : AppError :=
  ConfigurationError ("Failed to create " +:+ what +:+ ": " +:+ show_StorageError debug e +:+
    ". This should not happen - validation runs before AppState construction").

(** Source: server/state.rs [build_stores_from_config] *)
Definition build_stores_from_config (config : AppConfig) : result AppError (gmap string Store) :=
  if bool_decide (cfg_stores config = ∅) then
    store ← map_err (store_failed "default native store")
      (create_store {| st_backend := Native; st_root := Some "./"; st_s3 := None; st_azure := None;
                       st_gcs := None |});
    Ok {["default" := store]}
  else
    try_fold (λ stores '(name, store_config),
      store ← map_err (store_failed ("storage store '" +:+ name +:+ "'")) (create_store store_config);
      Ok (<[name := store]> stores)) ∅ (iter _ (cfg_stores config)).

(** ** Changed stores *)

(** The identifying field of two sections that must both be there or both be
    absent. *)
Definition section_eq {A} (field : A → string) (a b : option A) : bool :=
  match a, b with
  | Some x, Some y => bool_decide (field x = field y)
  | None, None => true
  | _, _ => false
  end.

(** Source: server/state.rs [store_config_eq] *)
Definition store_config_eq (a b : StoreConfig) : bool :=
  bool_decide (st_backend a = st_backend b) && bool_decide (st_root a = st_root b) &&
  match st_backend a with
  | Native | Memory => true
  | S3 => section_eq s3_bucket (st_s3 a) (st_s3 b)
  | Azure => section_eq az_container (st_azure a) (st_azure b)
  | Gcs => section_eq gcs_bucket (st_gcs a) (st_gcs b)
  end.

(** [sort] and [dedup] of a vector of strings. *)
Fixpoint insert_str (s : string) (l : list string) : list string :=
  match l with
  | [] => [s]
  | t :: l' => match String.compare s t with Gt => t :: insert_str s l' | _ => s :: l end
  end.
Definition sort_strs (l : list string) : list string := foldr insert_str [] l.
Fixpoint dedup (l : list string) : list string :=
  match l with
  | s :: (t :: _) as l' => if bool_decide (s = t) then dedup l' else s :: dedup l'
  | _ => l
  end.

Definition unchanged_store (new_configs : gmap string StoreConfig) (nc : string * StoreConfig) : bool :=
  match new_configs !! nc.1 with Some new_cfg => store_config_eq nc.2 new_cfg | None => false end.

(** Source: server/state.rs [compute_store_changes] *)
Definition compute_store_changes (old_configs new_configs : gmap string StoreConfig)
  : list string * list string :=
  let old := iter _ old_configs in
  let unchanged := map fst (List.filter (unchanged_store new_configs) old) in
  let changed_or_removed :=
    map fst (List.filter (λ nc, negb (unchanged_store new_configs nc)) old) ++
    List.filter (λ name, bool_decide (old_configs !! name = None)) (map fst (iter _ new_configs)) in
  (unchanged, dedup (sort_strs changed_or_removed)).

(** ** The store of an endpoint *)

Context (root_path : Store → option string).

(** Source: server/state.rs [AppState::get_store] *)
Definition get_store (stores : gmap string Store) (name : string) : option Store := stores !! name.

(** Source: handlers/common/store.rs [resolve_store] *)
Definition resolve_store (stores : gmap string Store) (store_name : string)
  : result AppError (Store * string) :=
  storage ← ok_or (Internal ("Store '" +:+ store_name +:+ "' not found")) (get_store stores store_name);
  Ok (storage, default store_name (root_path storage)).
End stores.

(** ** Specification of the change detection *)

Section changes.
Context (iter : ∀ A : Type, gmap string A → list (string * A)).
Context (iter_perm : ∀ (A : Type) (m : gmap string A), iter A m ≡ₚ map_to_list m).

Lemma elem_of_insert_str x s l : x ∈ insert_str s l ↔ x = s ∨ x ∈ l.
Proof.
  induction l as [|t l IH]; cbn; [set_solver|]. destruct (String.compare s t); set_solver.
Qed.

Lemma elem_of_sort_strs x l : x ∈ sort_strs l ↔ x ∈ l.
Proof. induction l as [|s l IH]; cbn; [done|]. rewrite elem_of_insert_str. set_solver. Qed.

Lemma elem_of_dedup x l : x ∈ dedup l ↔ x ∈ l.
Proof.
  induction l as [|s [|t l] IH]; [done..|].
  change (dedup (s :: t :: l)) with (if bool_decide (s = t) then dedup (t :: l) else s :: dedup (t :: l)).
  case_bool_decide; set_solver.
Qed.

Lemma elem_of_iter {A} (m : gmap string A) name a : (name, a) ∈ iter A m ↔ m !! name = Some a.
Proof. rewrite (iter_perm A m). by rewrite elem_of_map_to_list. Qed.

(** The two vectors, by the configurations of a name before and after. *)
Lemma store_changes (old new : gmap string StoreConfig) (name : string) :
  let '(unchanged, changed) := compute_store_changes iter old new in
  (name ∈ unchanged ↔
     ∃ a b, old !! name = Some a ∧ new !! name = Some b ∧ store_config_eq a b = true) ∧
  (name ∈ changed ↔
     (is_Some (old !! name) ∨ is_Some (new !! name)) ∧ name ∉ unchanged).
Proof.
  unfold compute_store_changes.
  set (un := map fst (List.filter (unchanged_store new) (iter _ old))).
  assert (Hun : name ∈ un ↔
    ∃ a b, old !! name = Some a ∧ new !! name = Some b ∧ store_config_eq a b = true).
  { unfold un. rewrite list_elem_of_fmap. setoid_rewrite list_elem_of_In. setoid_rewrite filter_In.
    setoid_rewrite <-list_elem_of_In. split.
    - intros ([n a]&->&Hin&Hu). cbn. apply elem_of_iter in Hin. unfold unchanged_store in Hu. cbn in Hu.
      destruct (new !! n) as [b|]; [eauto|done].
    - intros (a&b&Ha&Hb&Heq). exists (name, a). rewrite elem_of_iter. unfold unchanged_store. cbn.
      by rewrite Hb. }
  split; [done|]. rewrite elem_of_dedup, elem_of_sort_strs, elem_of_app, list_elem_of_fmap.
  setoid_rewrite list_elem_of_In. setoid_rewrite filter_In. setoid_rewrite <-list_elem_of_In.
  rewrite list_elem_of_fmap, bool_decide_eq_true. rewrite Hun. split.
  - intros [([n a]&->&Hin&Hu)|[([n b]&->&Hin) Hnone]]; cbn in *; apply elem_of_iter in Hin.
    + split; [by left; exists a|]. intros (a'&b&Ha&Hb&Heq). rewrite Hin in Ha. injection Ha as <-.
      unfold unchanged_store in Hu. cbn in Hu. rewrite Hb in Hu. by rewrite Heq in Hu.
    + split; [by right; exists b|]. intros (a'&_&Ha&_). by rewrite Hnone in Ha.
  - intros [Hsome Hnot]. destruct (old !! name) as [a|] eqn:Ha.
    + left. exists (name, a). rewrite elem_of_iter. split_and!; [done..|]. unfold unchanged_store. cbn.
      destruct (new !! name) as [b|] eqn:Hb; [|done].
      destruct (store_config_eq a b) eqn:Heq; [|done]. destruct Hnot. eauto.
    + right. destruct Hsome as [[? ?]|[b Hb]]; [done|]. split; [|done].
      exists (name, b). by rewrite elem_of_iter.
Qed.
End changes.
