(* ===== verification/Revocation.v ===== *)
(** * The store of revoked tokens

    The database-backed store of src/src/server/state.rs, the choice between
    it and the in-memory store of [Credentials], and the start-up of
    src/src/main.rs that makes it. A store that is kept in a database is the
    pool and the table it uses; its contents are rows of the database. *)

From S2P Require Import Prelude RustStr Json Config Errors SqlHelpers Statements Pool Migration Credentials.
Local Open Scope stdpp_scope.

(** Source: server/state.rs [DatabaseRevocationStore] *)
Record DatabaseRevocationStore := { drs_pool : DatabasePool; drs_table_name : string }.

(** The contents of the in-memory store are shared by its clones, so they are
    part of the server's state.
    Source: server/state.rs [RevocationStoreImpl] *)
Inductive RevocationStoreImpl :=
| InMemory (store : InMemoryRevocationStore)
| Database (store : DatabaseRevocationStore).

(** [Instant::now()] and [Utc::now()], in nanoseconds. *)
Record clocks := { instant_now : Z; utc_now : Z }.

Section stores.
Context {DB : Type} `{!Pool DB}.
(** [DateTime::to_rfc3339]. *)
Context (to_rfc3339 : Z → string).

(** Any answer but a row counts as not revoked, an error too.
    Source: server/state.rs [DatabaseRevocationStore::is_revoked_db] *)
Definition is_revoked_db (store : DatabaseRevocationStore) (jti : string) (db : DB) : bool :=
  let built := build_revoke_check (drs_table_name store) (pool_driver (drs_pool store)) (VString jti) in
  match fetch_optional_json (drs_pool store) (bq_sql built) (bq_params built) db with
  | Ok (Some _) => true
  | _ => false
  end.

(** Source: server/state.rs [DatabaseRevocationStore::revoke_db] *)
Definition revoke_db (now : clocks) (store : DatabaseRevocationStore) (jti : string) (expires_at : Z)
    (db : DB) : DB * result AppError () :=
  let expires_at_utc := (utc_now now + Z.max 0 (expires_at - instant_now now))%Z in
  match build_revoke_insert (drs_table_name store) jti (to_rfc3339 (utc_now now))
          (to_rfc3339 expires_at_utc) (pool_driver (drs_pool store)) with
  | Err e => (db, Err e)
  | Ok built =>
      match execute_with_params (drs_pool store) (bq_sql built) (bq_params built) db with
      | Err e => (db, Err e)
      | Ok (_, db) => (db, Ok tt)
      end
  end.

(** Source: server/state.rs [DatabaseRevocationStore::cleanup_expired] *)
Definition cleanup_expired_db (store : DatabaseRevocationStore) (db : DB) : DB * result AppError () :=
  run_raw id (drs_pool store)
    (bq_sql (build_revoke_cleanup (drs_table_name store) (pool_driver (drs_pool store)))) db.

(** The outcome of a revocation is dropped, an error too.
    Source: server/state.rs:154-163 [DatabaseRevocationStore (RevocationStoreBackend)] *)
Definition database_revocation (now : clocks) : RevocationStoreBackend (DatabaseRevocationStore * DB) := {|
  is_revoked jti s := is_revoked_db s.1 jti s.2;
  revoke jti expires_at s := (s.1, (revoke_db now s.1 jti expires_at s.2).1);
|}.

(** Source: server/state.rs:186-202 [RevocationStoreImpl (RevocationStoreBackend)] *)
Definition revocation_store_impl (now : clocks) : RevocationStoreBackend (RevocationStoreImpl * DB) := {|
  is_revoked jti s :=
    match s.1 with
    | InMemory store => is_revoked jti store
    | Database store => @is_revoked _ (database_revocation now) jti (store, s.2)
    end;
  revoke jti expires_at s :=
    match s.1 with
    | InMemory store => (InMemory (revoke jti expires_at store), s.2)
    | Database store =>
        let s' := @revoke _ (database_revocation now) jti expires_at (store, s.2) in
        (Database s'.1, s'.2)
    end;
|}.

(** Source: server/state.rs [RevocationStoreImpl::cleanup_expired] *)
Definition cleanup_expired_store (store : RevocationStoreImpl) (db : DB) : DB * result AppError () :=
  match store with
  | Database store => cleanup_expired_db store db
  | InMemory _ => (db, Ok tt)
  end.

(** The store of a server that has databases.
    Source: main.rs:223-255 [main (revocation store)] *)
Definition start_revocation_store (iter : ∀ A : Type, gmap string A → list (string * A))
    (revocation_config : option JwtRevocationConfig) (pools : gmap string DatabasePool) (db : DB)
  : DB * result AppError (option RevocationStoreImpl) :=
  match revocation_config with
  | None => (db, Ok None)
  | Some rev_config =>
      match jrc_store rev_config with
      | StoreInMemory => (db, Ok (Some (InMemory {| revoked := ∅ |})))
      | StoreDatabase =>
          and_then (create_revocation_tables iter pools db) (λ _ db,
            (db, Ok match iter _ pools with
                    | (_, pool) :: _ =>
                        Some (Database {| drs_pool := pool;
                          drs_table_name := default "token_blacklist" (jrc_db_table rev_config) |})
                    | [] => None
                    end))
      end
  end.
End stores.
