(* ===== verification/RevocationSpec.v ===== *)
(** * What a store of revoked tokens promises

    An abstract store, the set of the revoked tokens with their expiries, the
    proof that both stores of [Revocation] implement it, with the failures of
    the one in a database, and what that means for a token that the revocation
    endpoint has accepted. *)

From S2P Require Import Prelude RustStr Json Config Errors SqlHelpers Statements Pool Credentials Accounts AuthSpec Revocation.
Local Open Scope stdpp_scope.

(** ** The abstract store *)

(** What is observed of a store: a token is revoked until a time, a check is
    answered, expired entries may be removed at a time, something else
    happens. The statement of a revocation or the query of a check may have
    failed; the caller is not told. *)
Inductive event :=
| Revoked (jti : string) (until : Z) (stored : bool)
| Checked (jti : string) (answer queried : bool)
| Cleaned (now : Z)
| Elapsed.

(** A revocation that is not stored is lost, a check that is not queried
    answers no, and cleaning up removes only what has expired. *)
Inductive store_spec : gmap string Z → event → gmap string Z → Prop :=
| spec_revoke m jti t : store_spec m (Revoked jti t true) (<[jti := t]> m)
| spec_revoke_lost m jti t : store_spec m (Revoked jti t false) m
| spec_check m jti : store_spec m (Checked jti (bool_decide (is_Some (m !! jti))) true) m
| spec_check_failed m jti : store_spec m (Checked jti false false) m
| spec_clean m m' now :
    m' ⊆ m → (∀ jti t, m !! jti = Some t → m' !! jti = None → (t ≤ now)%Z) →
    store_spec m (Cleaned now) m'
| spec_elapsed m : store_spec m Elapsed m.

(** A token that is revoked beyond [limit] stays so. *)
Definition keeps (jti : string) (limit : Z) (e : event) : Prop :=
  match e with
  | Revoked j t true => j = jti → (limit ≤ t)%Z
  | Cleaned now => (now < limit)%Z
  | _ => True
  end.

Definition revoked_beyond (jti : string) (limit : Z) (m : gmap string Z) : Prop :=
  ∃ t, m !! jti = Some t ∧ (limit ≤ t)%Z.

Lemma spec_keeps jti limit m e m' :
  store_spec m e m' → keeps jti limit e → revoked_beyond jti limit m → revoked_beyond jti limit m'.
Proof.
  intros Hs Hk (t&Ht&Hl). destruct Hs as [m j t'|m j t'|m j|m j|m m' now Hsub Hexp|m]; cbn in Hk; try by exists t.
  - destruct (decide (j = jti)) as [->|Hne]; [|exists t; by rewrite lookup_insert_ne].
    exists t'. rewrite lookup_insert_eq. auto.
  - destruct (m' !! jti) as [t'|] eqn:Hm'.
    + exists t'. split; [done|]. rewrite (lookup_weaken _ _ _ _ Hm' Hsub) in Ht. by injection Ht as ->.
    + specialize (Hexp _ _ Ht Hm'). lia.
Qed.

(** ** The implementations *)

Section implementations.
Context {DB : Type} `{!Pool DB}.
Context (to_rfc3339 : Z → string).
(** The rows of the table of revoked tokens, and the time of the database. *)
Context (rows : DB → gmap string string) (db_now : DB → Z).

(** What the statements do to the table when they succeed: one selects the
    row of a token, one inserts or replaces it, one deletes rows that have
    expired. *)
Record table_laws (store : DatabaseRevocationStore) : Prop := {
  select_row : ∀ jti db r,
    let q := build_revoke_check (drs_table_name store) (pool_driver (drs_pool store)) (VString jti) in
    fetch_optional_json (drs_pool store) (bq_sql q) (bq_params q) db = Ok r →
    (is_Some r ↔ is_Some (rows db !! jti));
  upsert_row : ∀ jti revoked_at until q db n db',
    build_revoke_insert (drs_table_name store) jti revoked_at until (pool_driver (drs_pool store)) = Ok q →
    execute_with_params (drs_pool store) (bq_sql q) (bq_params q) db = Ok (n, db') →
    rows db' = <[jti := until]> (rows db);
  delete_expired : ∀ db db',
    let q := build_revoke_cleanup (drs_table_name store) (pool_driver (drs_pool store)) in
    execute_raw (drs_pool store) (bq_sql q) db = Ok db' →
    rows db' ⊆ rows db ∧
    ∀ jti t, rows db !! jti = Some (to_rfc3339 t) → rows db' !! jti = None → (t < db_now db)%Z;
}.

Notation backend now := (revocation_store_impl to_rfc3339 now).

(** The expiry a store keeps: the instant itself, or the time of day. *)
Definition kept_expiry (store : RevocationStoreImpl) (now : clocks) (expires_at : Z) : Z :=
  match store with
  | InMemory _ => expires_at
  | Database _ => utc_now now + Z.max 0 (expires_at - instant_now now)
  end.

(** Whether the statement of a revocation and the query of a check succeed. *)
Definition is_stored (now : clocks) (jti : string) (expires_at : Z) (s : RevocationStoreImpl * DB) : bool :=
  match s.1 with
  | InMemory _ => true
  | Database store => is_ok (revoke_db to_rfc3339 now store jti expires_at s.2).2
  end.
Definition is_queried (jti : string) (s : RevocationStoreImpl * DB) : bool :=
  match s.1 with
  | InMemory _ => true
  | Database store =>
      let q := build_revoke_check (drs_table_name store) (pool_driver (drs_pool store)) (VString jti) in
      is_ok (fetch_optional_json (drs_pool store) (bq_sql q) (bq_params q) s.2)
  end.

(** The operations of a store, each at its own time, and what else happens to
    the databases. *)
Inductive store_runs : RevocationStoreImpl * DB → event → RevocationStoreImpl * DB → Prop :=
| runs_revoke now jti expires_at s :
    store_runs s (Revoked jti (kept_expiry s.1 now expires_at) (is_stored now jti expires_at s))
      (@revoke _ (backend now) jti expires_at s)
| runs_check now jti s :
    store_runs s (Checked jti (@is_revoked _ (backend now) jti s) (is_queried jti s)) s
| runs_clean s :
    store_runs s (Cleaned (db_now s.2)) (s.1, (cleanup_expired_store s.1 s.2).1)
| runs_clean_memory now store db :
    store_runs (InMemory store, db) (Cleaned now) (InMemory (cleanup now store), db)
| runs_elapsed store db db' :
    rows db' = rows db → store_runs (store, db) Elapsed (store, db').

Definition represents (s : RevocationStoreImpl * DB) (m : gmap string Z) : Prop :=
  match s.1 with
  | InMemory store => revoked store = m
  | Database store => table_laws store ∧ rows s.2 = to_rfc3339 <$> m
  end.

Lemma revoke_represents now jti expires_at s m :
  represents s m →
  ∃ m', store_spec m (Revoked jti (kept_expiry s.1 now expires_at) (is_stored now jti expires_at s)) m' ∧
    represents (@revoke _ (backend now) jti expires_at s) m'.
Proof.
  destruct s as [[store|store] db]; unfold is_stored; cbn.
  - intros <-. eexists. split; [constructor|done].
  - intros [Hlaws Hrows]. unfold revoke_db. set (t := (_ + _)%Z).
    destruct (build_revoke_insert _ _ _ _ _) as [q|e] eqn:Hq; [|by exists m; split; [constructor|]].
    destruct (execute_with_params _ _ _ _) as [[n db']|e] eqn:He; [|by exists m; split; [constructor|]].
    exists (<[jti := t]> m). split; [constructor|]. split; [done|]. cbn.
    by rewrite (upsert_row _ Hlaws _ _ _ _ _ _ _ Hq He), Hrows, fmap_insert.
Qed.

(** The answer of a check, and that a failed one is no. *)
Lemma check_represents now jti s m :
  represents s m →
  @is_revoked _ (backend now) jti s = is_queried jti s && bool_decide (is_Some (m !! jti)).
Proof.
  destruct s as [[store|store] db]; unfold is_queried; cbn; [by intros <-|].
  intros [Hlaws Hrows]. unfold is_revoked_db. destruct (fetch_optional_json _ _ _ _) as [r|e] eqn:Hf; [|done].
  pose proof (select_row _ Hlaws jti db r Hf) as Hr. rewrite Hrows, lookup_fmap, fmap_is_Some in Hr.
  cbn. symmetry. destruct r as [row|].
  - apply bool_decide_eq_true. by apply Hr.
  - apply bool_decide_eq_false. intros ?%Hr. by apply is_Some_None in H.
Qed.

Lemma cleanup_represents s m :
  represents s m →
  ∃ m', store_spec m (Cleaned (db_now s.2)) m' ∧
    represents (s.1, (cleanup_expired_store s.1 s.2).1) m'.
Proof.
  assert (Hnone : ∀ m now, store_spec m (Cleaned now) m).
  { intros ? ?. constructor; [done|]. intros ?? H1 H2. congruence. }
  destruct s as [[store|store] db]; cbn; [intros <-; by eexists|].
  intros [Hlaws Hrows]. unfold cleanup_expired_db, run_raw.
  destruct (execute_raw _ _ _) as [db'|e] eqn:Hx; [|by exists m].
  destruct (delete_expired _ Hlaws db db' Hx) as [Hsub Hexp]. cbn.
  set (m' := filter (λ kv, is_Some (rows db' !! kv.1)) m). exists m'. split.
  - constructor; [apply map_filter_subseteq|]. intros jti t Ht Hn. apply Z.lt_le_incl, (Hexp jti).
    + by rewrite Hrows, lookup_fmap, Ht.
    + unfold m' in Hn. rewrite map_lookup_filter_None in Hn. destruct Hn as [?|Hn]; [congruence|].
      specialize (Hn _ Ht). cbn in Hn. by apply eq_None_not_Some.
  - split; [done|]. apply map_eq. intros jti. rewrite lookup_fmap.
    destruct (rows db' !! jti) as [x|] eqn:Hr.
    + pose proof (lookup_weaken _ _ _ _ Hr Hsub) as Hdb. rewrite Hrows, lookup_fmap in Hdb.
      destruct (m !! jti) as [t|] eqn:Ht; [|done]. cbn in Hdb.
      assert (m' !! jti = Some t) as ->; [|by rewrite <-Hdb].
      apply map_lookup_filter_Some. split; [done|]. by exists x.
    + assert (m' !! jti = None) as ->; [|done]. apply map_lookup_filter_None. right.
      intros t _. cbn. rewrite Hr. by intros [? ?].
Qed.

Lemma run_represents s e s1 m :
  store_runs s e s1 → represents s m → ∃ m1, store_spec m e m1 ∧ represents s1 m1.
Proof.
  intros Hrun HR. destruct Hrun as [now jti t s|now jti s|s|now store db|store db db' Hrows].
  - by apply revoke_represents.
  - rewrite (check_represents _ _ _ _ HR). exists m. split; [|done]. destruct (is_queried jti s); constructor.
  - by apply cleanup_represents.
  - cbn in HR. subst m. eexists. split; [|done]. constructor; [apply map_filter_subseteq|].
    intros jti t Ht Hnone. unfold cleanup in Hnone. cbn in Hnone. rewrite map_lookup_filter_None in Hnone.
    destruct Hnone as [?|Hnone]; [congruence|]. specialize (Hnone _ Ht). cbn in Hnone. lia.
  - exists m. split; [constructor|]. destruct store; [done|]. cbn in *. by rewrite Hrows.
Qed.

(** A token that has been stored beyond a time is still there after a run
    that keeps it. *)
Lemma runs_keep s m jti limit events s' :
  represents s m → revoked_beyond jti limit m → steps store_runs s events s' →
  Forall (keeps jti limit) events → ∃ m', represents s' m' ∧ revoked_beyond jti limit m'.
Proof.
  intros HR Hb Hsteps Hk.
  destruct (steps_simulation (λ s m, represents s m) store_runs store_spec run_represents _ _ _ _ Hsteps HR)
    as (m'&Hm'&HR').
  exists m'. split; [done|].
  exact (steps_invariant (revoked_beyond jti limit) (keeps jti limit) store_spec
    (λ m e m1 Hs Hk, spec_keeps jti limit m e m1 Hs Hk) _ _ _ Hm' Hk Hb).
Qed.

(** C21: the store of revoked tokens, in memory or in a database, implements
    the abstract set of revoked tokens: every run of revocations, checks and
    clean-ups, among other work that leaves the table alone, is a run of that
    set with the same answers, in which a revocation whose statement fails is
    lost and a check whose query fails answers no. So a token whose
    revocation was stored is reported as revoked by every check whose query
    succeeds, for as long as no clean-up happens at or after its expiry and
    no later revocation shortens it; nothing is said of failing statements,
    such as every revocation on PostgreSQL. Of the database it is asked that
    the three statements do what they say when they succeed. *)
Theorem revocation_store_refines (s s' : RevocationStoreImpl * DB) (m : gmap string Z)
    (events : list event) :
  represents s m → steps store_runs s events s' →
  (∃ m', steps store_spec m events m' ∧ represents s' m') ∧
  ∀ before jti t since answer after,
    events = before ++ [Revoked jti t true] ++ since ++ [Checked jti answer true] ++ after →
    Forall (keeps jti t) since → answer = true.
Proof.
  intros HR Hsteps.
  destruct (steps_simulation (λ s m, represents s m) store_runs store_spec run_represents _ _ _ _ Hsteps HR)
    as (m'&Hm'&HR').
  split; [by eauto|]. intros before jti t since answer after -> Hsince.
  apply steps_app in Hm' as (m1&_&Hm'). apply steps_app in Hm' as (m2&Hrev&Hm').
  apply steps_app in Hm' as (m3&Hsteps3&Hm'). apply steps_app in Hm' as (m4&Hcheck&_).
  inversion Hrev as [|? ? ? ? ? Hr Hnil]; subst. inversion Hnil; subst.
  inversion Hcheck as [|? ? ? ? ? Hc Hnil']; subst. inversion Hc; subst.
  assert (Hbeyond : revoked_beyond jti t m2).
  { inversion Hr; subst. exists t. rewrite lookup_insert_eq. split; [done|lia]. }
  destruct (steps_invariant (revoked_beyond jti t) (keeps jti t) store_spec
    (λ m e m1 Hs Hk, spec_keeps jti t m e m1 Hs Hk) _ _ _ Hsteps3 Hsince Hbeyond) as (t'&Ht'&_).
  apply bool_decide_eq_true. by exists t'.
Qed.

(** ** The life of a revoked token *)

Context (jwt_decode : string → Validation → string → result string value).

(** C20: a revoked token is dead. On a server that has a store of revoked
    tokens, in memory or in a database, once the revocation endpoint has
    accepted a token and its revocation was stored, the token is refused by
    every request that carries it and whose check is queried, whatever else
    is revoked and cleaned up in between: until the [exp] claim of the token,
    counted in seconds from the revocation, or an hour where that is beyond
    the range of the clock, unless the same identifier is revoked again with
    an earlier expiry. A revocation in memory is always stored and a check
    always queried. Of the JWT library it is asked that decoding a token
    gives the same claims whether or not its expiry is checked. *)
Theorem revoked_token_is_refused (instant_max : Z) (now now' : clocks) (token : string) (config : AppConfig)
    (jwt : JwtConfig) (claims : value) (jti : string) (m : gmap string Z)
    (s s' later : RevocationStoreImpl * DB) (answer : value) (events : list event) :
  (∀ secret v v' tok c c', jwt_decode secret v tok = Ok c → jwt_decode secret v' tok = Ok c' → c = c') →
  represents s m →
  auth_jwt (cfg_auth config) = Some jwt →
  jwt_decode (jwt_secret jwt) (token_validation jwt false) token = Ok claims →
  str_claim "jti" claims = Some jti →
  @handle_revoke jwt_decode _ (backend now) instant_max (instant_now now) (Some ("Bearer " +:+ token)) config (Some s)
    = (Some s', Ok answer) →
  let expires_at := revocation_expiry instant_max (instant_now now) (default 0%Z (get "exp" claims ≫= as_u64)) in
  is_stored now jti expires_at s = true →
  steps store_runs s' events later → Forall (keeps jti (kept_expiry s.1 now expires_at)) events →
  is_queried jti later = true →
  @is_revoked _ (backend now') jti later = true ∧
  is_err (@validate_token jwt_decode _ (backend now') token jwt (Some later)) = true.
Proof.
  intros Hsame HR Hjwt Hdec Hjti Hrev expires_at Hstored Hsteps Hkeep Hqueried.
  unfold handle_revoke, jwt_config in Hrev. cbn [mbind option_bind] in Hrev.
  rewrite (strip_prefix_app "Bearer " token), Hjwt in Hrev.
  cbn [ok_or mbind result_bind] in Hrev. rewrite Hdec in Hrev.
  cbn [map_err mbind result_bind] in Hrev. rewrite Hjti in Hrev.
  cbn [ok_or mbind result_bind fmap option_fmap option_map] in Hrev.
  injection Hrev as Hs' _. fold expires_at in Hs'. subst s'.
  destruct (revoke_represents now jti expires_at s m HR) as (m1&Hm1&HR1). rewrite Hstored in Hm1.
  assert (Hbeyond : revoked_beyond jti (kept_expiry s.1 now expires_at) m1).
  { inversion Hm1; subst. eexists. rewrite lookup_insert_eq. split; [done|lia]. }
  destruct (runs_keep _ _ _ _ _ _ HR1 Hbeyond Hsteps Hkeep) as (m2&HR2&t&Ht&_).
  assert (His : @is_revoked _ (backend now') jti later = true).
  { rewrite (check_represents _ _ _ _ HR2), Hqueried. apply bool_decide_eq_true. by exists t. }
  split; [done|]. unfold validate_token.
  destruct (jwt_decode (jwt_secret jwt) (token_validation jwt true) token) as [c|] eqn:Hc; [|done].
  rewrite (Hsame _ _ _ _ _ _ Hc Hdec). cbn [map_err mbind result_bind].
  destruct (str_claim "sub" claims) as [sub|]; [|done]. cbn [ok_or mbind result_bind].
  destruct (is_empty (trim sub)); [done|]. cbn [mbind result_bind].
  by rewrite Hjti, His.
Qed.

(** Without a store, as on every server without databases, the endpoint
    answers the same and nothing has been revoked. *)
Theorem revocation_without_store (instant_max : Z) (now : clocks) (token : string) (config : AppConfig)
    (jwt : JwtConfig) (claims : value) (jti : string) :
  auth_jwt (cfg_auth config) = Some jwt →
  jwt_decode (jwt_secret jwt) (token_validation jwt false) token = Ok claims →
  str_claim "jti" claims = Some jti →
  @handle_revoke jwt_decode _ (backend now) instant_max (instant_now now) (Some ("Bearer " +:+ token)) config None
  = (None, Ok (VObject [("message", VString "Token revoked")])).
Proof.
  intros Hjwt Hdec Hjti. unfold handle_revoke, jwt_config. cbn [mbind option_bind].
  rewrite (strip_prefix_app "Bearer " token), Hjwt. cbn [ok_or mbind result_bind]. rewrite Hdec.
  cbn [map_err mbind result_bind]. by rewrite Hjti.
Qed.
End implementations.

(** ** Witness *)

(** A database that is the table of revoked tokens at a time; a time is
    written as so many strokes. *)
Record blacklist := { bl_rows : gmap string string; bl_now : Z }.

Fixpoint strokes (n : nat) : string := match n with O => "" | S n => String "|" (strokes n) end.
Definition stamp (t : Z) : string := String "T" (strokes (Z.to_nat t)).

Lemma length_stamp t : String.length (stamp t) = S (Z.to_nat t).
Proof. cbn. f_equal. induction (Z.to_nat t) as [|n IH]; cbn; congruence. Qed.

Global Instance blacklist_pool : Pool blacklist := {
  fetch_all_json _ _ _ _ := Ok [];
  fetch_optional_json _ _ ps db :=
    match ps with
    | [VString jti] => Ok ((λ _, VNull) <$> bl_rows db !! jti)
    | _ => Ok None
    end;
  fetch_optional_returning _ _ _ db := Ok (None, db);
  execute_with_params _ _ ps db :=
    match ps with
    | [VString jti; _; VString until] =>
        Ok (1%Z, {| bl_rows := <[jti := until]> (bl_rows db); bl_now := bl_now db |})
    | _ => Ok (0%Z, db)
    end;
  execute_with_params_and_last_id _ _ _ db := Ok (0%Z, db);
  execute_raw _ _ db :=
    Ok {| bl_rows := filter (λ kv, (bl_now db < Z.of_nat (String.length kv.2))%Z) (bl_rows db);
          bl_now := bl_now db |};
}.

Lemma blacklist_laws store : table_laws stamp bl_rows bl_now store.
Proof.
  split.
  - intros jti db r q [= <-]. by rewrite fmap_is_Some.
  - intros jti at_ until q db n db' Hq. unfold build_revoke_insert in Hq. destruct (_ || _); [done|].
    injection Hq as <-. cbn [bq_params]. by intros [= _ <-].
  - intros db db' q [= <-]. cbn. split; [apply map_filter_subseteq|].
    intros jti t Ht Hnone. rewrite map_lookup_filter_None in Hnone.
    destruct Hnone as [?|Hnone]; [congruence|]. specialize (Hnone _ Ht).
    cbn [snd] in Hnone. rewrite length_stamp in Hnone. lia.
Qed.

Definition blacklist_store : DatabaseRevocationStore := {|
  drs_pool := PoolSqlite 0; drs_table_name := "token_blacklist" |}.

Lemma revocation_store_refines_witness :
  ∃ s' answer,
    steps (store_runs stamp bl_rows bl_now) (Database blacklist_store, {| bl_rows := ∅; bl_now := 5 |})
      [Revoked "a" 7 true; Cleaned 5; Elapsed; Checked "a" answer true] s' ∧ answer = true.
Proof.
  do 2 eexists.
  refine ((λ (Hs : steps (store_runs stamp bl_rows bl_now) _
                     [Revoked "a" 7 true; Cleaned 5; Elapsed; Checked "a" _ true] _),
    conj Hs (proj2 (revocation_store_refines stamp bl_rows bl_now _ _ ∅ _ _ Hs)
      [] "a" 7%Z [Cleaned 5; Elapsed] _ [] eq_refl _)) _).
  - split; [apply blacklist_laws|reflexivity].
  - repeat constructor.
  - eapply steps_cons.
    { exact (runs_revoke stamp bl_rows bl_now {| instant_now := 0; utc_now := 4 |} "a" 3
        (Database blacklist_store, {| bl_rows := ∅; bl_now := 5 |})). }
    eapply steps_cons; [apply runs_clean|].
    eapply steps_cons; [apply (runs_elapsed _ _ _ _ _ {| bl_rows := {["a" := stamp 7]}; bl_now := 6 |}); vm_compute; reflexivity|].
    eapply steps_cons; [exact (runs_check stamp bl_rows bl_now {| instant_now := 0; utc_now := 6 |} "a"
      (Database blacklist_store, {| bl_rows := {["a" := stamp 7]}; bl_now := 6 |}))|constructor].
Defined.

(** A token that is revoked in a database; then another is, and the table is
    cleaned up. *)
Definition at_start : RevocationStoreImpl * blacklist := (Database blacklist_store, {| bl_rows := ∅; bl_now := 5 |}).
Definition noon : clocks := {| instant_now := 7; utc_now := 20 |}.
(** The token expires ten nanoseconds after it is revoked. *)
Definition short_claims : value :=
  VObject [("sub", VString "42"); ("exp", json_int 0); ("jti", VString "id-1")].
Definition short_decode (secret : string) (v : Validation) (token : string) : result string value :=
  if String.eqb token "tok" then Ok short_claims else Err "InvalidToken".
Definition after_revocation : RevocationStoreImpl * blacklist :=
  @revoke _ (revocation_store_impl stamp noon) "id-1" 7 at_start.
Definition after_cleanup : RevocationStoreImpl * blacklist :=
  let s := @revoke _ (revocation_store_impl stamp noon) "id-2" 3 after_revocation in
  (s.1, (cleanup_expired_store s.1 s.2).1).

Lemma revoked_token_is_refused_witness :
  @is_revoked _ (revocation_store_impl stamp noon) "id-1" after_cleanup = true ∧
  is_err (@validate_token short_decode _ (revocation_store_impl stamp noon) "tok" sample_jwt (Some after_cleanup))
    = true.
Proof.
  refine (revoked_token_is_refused stamp bl_rows bl_now short_decode (10 ^ 18) noon noon "tok" sample_config sample_jwt
    short_claims "id-1" ∅ at_start after_revocation after_cleanup (VObject [("message", VString "Token revoked")])
    [Revoked "id-2" 20 true; Cleaned 5] _ _ _ _ _ _ _ _ _ _).
  - intros secret v v' tok c c'. unfold short_decode. destruct (String.eqb tok "tok"); [|done].
    by intros [= <-] [= <-].
  - split; [apply blacklist_laws|reflexivity].
  - reflexivity.
  - reflexivity.
  - reflexivity.
  - vm_compute. reflexivity.
  - vm_compute. reflexivity.
  - eapply steps_cons; [exact (runs_revoke stamp bl_rows bl_now noon "id-2" 3 after_revocation)|].
    eapply steps_cons; [apply runs_clean|constructor].
  - repeat constructor; intros; discriminate.
  - vm_compute. reflexivity.
Defined.

Lemma revocation_without_store_witness :
  @handle_revoke short_decode _ (revocation_store_impl (DB := blacklist) stamp noon) (10 ^ 18) 7 (Some "Bearer tok")
    sample_config None = (None, Ok (VObject [("message", VString "Token revoked")])).
Proof.
  exact (revocation_without_store stamp short_decode (10 ^ 18) noon "tok" sample_config sample_jwt short_claims
    "id-1" eq_refl eq_refl eq_refl).
Defined.
