(* ===== verification/Schemas.v ===== *)
(** * JSON Schemas

    The schema registry of src/src/config/schema_registry.rs, built from a
    configuration and its schema files, and the validation of request bodies
    against it (db/query/helpers/json_validation.rs). *)

From S2P Require Import Prelude RustStr Json Config Errors SqlHelpers Paths.
Local Open Scope stdpp_scope.

(** Source: config/types/schema.rs [SchemaSource] *)
Inductive SchemaSource := ExternalFile (path : string) | Inline | GlobalRef (name : string).

(** Source: config/types/schema.rs:30-38 [SchemaSource (Display)] *)
Definition show_source (s : SchemaSource) : string :=
  match s with
  | ExternalFile path => "external file: " +:+ path
  | Inline => "inline"
  | GlobalRef name => "global schema: " +:+ name
  end.

Section schemas.
(** The [jsonschema] crate's compiled validator, with the location and the
    message of each violation. *)
Context {Validator : Type} (iter_errors : Validator → value → list (string * string)).

(** Source: config/types/schema.rs [JsonSchema] *)
Record JsonSchema := { js_compiled : Validator; js_source : SchemaSource }.

(** Source: config/schema_registry.rs [SchemaRegistry] *)
Definition SchemaRegistry := gmap (string * string) JsonSchema.

(** Source: config/schema_registry.rs [SchemaRegistry::get_table_schema] *)
Definition get_table_schema (registry : SchemaRegistry) (table_name : string)
  : option (gmap string JsonSchema) :=
  let result : gmap string JsonSchema := list_to_map (omap (λ '((t, c), v),
    if bool_decide (t = table_name) then Some (c, v) else None) (map_to_list registry)) in
  if bool_decide (result = ∅) then None else Some result.

(** Source: config/schema_registry.rs [validate_json_with_schema] *)
Definition validate_json_with_schema (v : value) (schema : JsonSchema) : list string :=
  map (λ '(path, message), if is_empty path then message else path +:+ ": " +:+ message)
    (iter_errors (js_compiled schema) v).

(** ** Validation of a request body *)

(** The order in which the validators of a table, a hash map, are iterated. *)
Context (iter_schemas : gmap string JsonSchema → list (string * JsonSchema)).

(** Source: db/query/helpers/json_validation.rs [validate_jsonb_body] *)
Definition validate_jsonb_body (body : value) (table_name : string) (registry : SchemaRegistry)
  : result AppError unit :=
  match get_table_schema registry table_name with
  | None => Ok tt
  | Some validators =>
      let errors := flat_map (λ '(column_name, schema),
        match get column_name body with
        | Some v => map (λ err, column_name +:+ " (" +:+ show_source (js_source schema) +:+ "): " +:+ err)
                      (validate_json_with_schema v schema)
        | None => []
        end) (iter_schemas validators) in
      match errors with
      | [] => Ok tt
      | e :: details => Err (JsonValidationError ("JSONB validation failed: " +:+ e) details)
      end
  end.
End schemas.
Arguments JsonSchema : clear implicits.
Arguments SchemaRegistry : clear implicits.
Arguments js_compiled {Validator} _.
Arguments js_source {Validator} _.

(** ** The registry of a configuration

    The [jsonschema] compiler, [Path::canonicalize], [read_to_string], and
    [serde]'s reading of a file and of a configuration value as JSON. *)

Section registry.
Context {Validator : Type}.
Context (compile : value → result string Validator).
Context (canonicalize : string → result string string).
Context (read_to_string : string → result string string).
Context (from_str : string → result string value).
Context (to_value : yaml → result string value).
Context (iter : ∀ A : Type, gmap string A → list (string * A)).

(** Source: config/types/schema.rs [GlobalSchema] *)
Record GlobalSchema := { gs_name : string; gs_schema : JsonSchema Validator }.

(** Source: config/schema_registry.rs [SchemaRegistry::load_schema_file] *)
Definition load_schema_file (path : string) : result AppError value :=
  content ← map_err (λ e, ConfigurationError ("Failed to read schema file '" +:+ path +:+ "': " +:+ e))
              (read_to_string path);
  map_err (λ e, ConfigurationError ("Failed to parse schema file '" +:+ path +:+ "': " +:+ e))
    (from_str content).

(** Source: config/schema_registry.rs [SchemaRegistry::yaml_to_json] *)
Definition yaml_to_json (v : yaml) : result AppError value :=
  map_err (λ e, ConfigurationError ("Failed to convert schema value to JSON: " +:+ e)) (to_value v).

(** Source: config/schema_registry.rs [SchemaRegistry::resolve_column_schema] *)
Definition resolve_column_schema (col : ColumnConfig) (global_schemas : gmap string GlobalSchema)
    (config_path : string) : result AppError (option (JsonSchema Validator)) :=
  match col_validation_schema col, col_validation col, col_validation_schema_ref col with
  | Some path, _, _ =>
      let full_path := path_join (default "." (path_parent config_path)) path in
      resolved ← map_err (λ e, ConfigurationError
        ("Failed to resolve external schema file '" +:+ path +:+ "': " +:+ e)) (canonicalize full_path);
      json_value ← load_schema_file resolved;
      compiled ← map_err (λ e, ConfigurationError
        ("Invalid schema in external file '" +:+ resolved +:+ "' (column '" +:+ col_name col +:+ "'): " +:+ e))
        (compile json_value);
      Ok (Some {| js_compiled := compiled; js_source := ExternalFile resolved |})
  | None, Some inline, _ =>
      json_value ← yaml_to_json inline;
      compiled ← map_err (λ e, ConfigurationError
        ("Invalid inline schema for column '" +:+ col_name col +:+ "': " +:+ e)) (compile json_value);
      Ok (Some {| js_compiled := compiled; js_source := Inline |})
  | None, None, Some ref =>
      let name := default ref (strip_prefix "global_schemas." ref) in
      global ← ok_or (ConfigurationError ("Global schema '" +:+ name +:+ "' not found (referenced by column '"
                 +:+ col_name col +:+ "')")) (global_schemas !! name);
      Ok (Some (gs_schema global))
  | None, None, None => Ok None
  end.

(** The first step: the global schemas are compiled.
    Source: config/schema_registry.rs:42-57 [SchemaRegistry::new (global schemas)] *)
Definition compile_global_schemas (config : AppConfig) : result AppError (gmap string GlobalSchema) :=
  match cfg_global_schemas config with
  | None => Ok ∅
  | Some schemas =>
      try_fold (λ global_schemas '(name, raw),
        json_value ← yaml_to_json raw;
        compiled ← map_err (λ e, ConfigurationError ("Invalid global schema '" +:+ name +:+ "': " +:+ e))
          (compile json_value);
        Ok (<[name := {| gs_name := name;
                         gs_schema := {| js_compiled := compiled; js_source := GlobalRef name |} |}]>
              global_schemas)) ∅ (iter _ schemas)
  end.

(** One column of a table: it is registered when it has a schema, under the
    names of its table and its own.
    Source: config/schema_registry.rs:63-75 [SchemaRegistry::new (one column)] *)
Definition register_column (config_path : string) (global_schemas : gmap string GlobalSchema)
    (table_name : string) (registry : SchemaRegistry Validator) (col : ColumnConfig)
  : result AppError (SchemaRegistry Validator) :=
  if negb (is_json_type (col_type col)) then Ok registry else
  schema ← resolve_column_schema col global_schemas config_path;
  Ok (match schema with
      | Some schema => <[(table_name, col_name col) := schema]> registry
      | None => registry
      end).

(** Source: config/schema_registry.rs [SchemaRegistry::new] *)
Definition new_SchemaRegistry (config : AppConfig) (config_path : string)
  : result AppError (SchemaRegistry Validator) :=
  global_schemas ← compile_global_schemas config;
  try_fold (λ registry table,
    try_fold (register_column config_path global_schemas (tbl_name table)) registry (tbl_columns table))
    ∅ (cfg_tables config).
End registry.
