(* ===== verification/SchemasSpec.v ===== *)
(** * What the schema registry holds *)

From S2P Require Import Prelude RustStr Json Config Errors Schemas.
Local Open Scope stdpp_scope.

(** Nested loops are one loop over all pairs. *)
Lemma try_fold_flat_map {E S A B} (f : A → S → B → result E S) (g : A → list B) s l :
  try_fold (λ s a, try_fold (f a) s (g a)) s l =
  try_fold (λ s ab, f ab.1 s ab.2) s (flat_map (λ a, map (pair a) (g a)) l).
Proof.
  revert s. induction l as [|a l IH]; intros s; cbn; [done|]. rewrite try_fold_app.
  replace (try_fold (λ s ab, f ab.1 s ab.2) s (map (pair a) (g a))) with (try_fold (f a) s (g a)).
  - destruct (try_fold (f a) s (g a)); cbn; [apply IH|done].
  - generalize (g a) as bs. intros bs. revert s. induction bs as [|b bs IHb]; intros s; cbn; [done|].
    destruct (f a s b); [apply IHb|done].
Qed.

Section registry.
Context {Validator : Type}.
Context (compile : value → result string Validator).
Context (canonicalize : string → result string string).
Context (read_to_string : string → result string string).
Context (from_str : string → result string value).
Context (to_value : yaml → result string value).
Context (iter : ∀ A : Type, gmap string A → list (string * A)).

Local Notation resolve := (resolve_column_schema compile canonicalize read_to_string from_str to_value).

(** The columns of all tables, in the order of the configuration. *)
Definition all_columns (config : AppConfig) : list (TableConfig * ColumnConfig) :=
  flat_map (λ table, map (pair table) (tbl_columns table)) (cfg_tables config).

(** The schema that a column asks for under a table name and a column name. *)
Definition schema_for (globals : gmap string GlobalSchema) (path table column : string)
    (tc : TableConfig * ColumnConfig) : option (JsonSchema Validator) :=
  if bool_decide (tbl_name tc.1 = table) && bool_decide (col_name tc.2 = column) &&
     is_json_type (col_type tc.2)
  then default None (ok (resolve tc.2 globals path)) else None.

Lemma register_all globals path registry l registry' table column :
  try_fold (λ registry tc,
    register_column compile canonicalize read_to_string from_str to_value path globals
      (tbl_name tc.1) registry tc.2) registry l = Ok registry' →
  registry' !! (table, column) =
    match list.last (omap (schema_for globals path table column) l) with
    | Some schema => Some schema
    | None => registry !! (table, column)
    end ∧
  ∀ tc, tc ∈ l → is_json_type (col_type tc.2) = true → is_ok (resolve tc.2 globals path) = true.
Proof.
  revert registry. induction l as [|[t c] l IH]; intros registry; cbn [try_fold].
  { intros [= <-]. split; [done|]. by intros ? ?%elem_of_nil. }
  unfold register_column at 1. cbn [fst snd]. unfold schema_for at 1. fold (schema_for globals path table column).
  destruct (is_json_type (col_type c)) eqn:Hj; cbn [negb].
  - destruct (resolve c globals path) as [o|] eqn:Hr; cbn [mbind result_bind]; [|done]. intros H%IH.
    destruct H as [Hl Hall]. split.
    + rewrite Hl. cbn [omap list_omap]. unfold schema_for at 2. cbn [fst snd]. rewrite Hj, Hr. cbn [ok default from_option id].
      destruct (bool_decide_reflect (tbl_name t = table)) as [->|Ht]; cbn [andb].
      * destruct (bool_decide_reflect (col_name c = column)) as [->|Hc]; cbn [andb].
        -- destruct o as [schema|]; [|done]. rewrite last_cons.
           destruct (list.last _); [done|]. apply (lookup_insert_eq (registry : gmap (string * string) (JsonSchema Validator))).
        -- destruct (list.last _); [done|]. destruct o; [|done]. apply (lookup_insert_ne (registry : gmap (string * string) (JsonSchema Validator))). congruence.
      * destruct (list.last _); [done|]. destruct o; [|done]. apply (lookup_insert_ne (registry : gmap (string * string) (JsonSchema Validator))). congruence.
    + intros tc [->|Htc]%elem_of_cons Hjt; [cbn [snd]; by rewrite Hr|by apply Hall].
  - intros H%IH. destruct H as [Hl Hall]. split.
    + rewrite Hl. cbn [omap list_omap]. unfold schema_for at 2. cbn [fst snd]. by rewrite Hj, andb_false_r.
    + intros tc [->|Htc]%elem_of_cons Hjt; [cbn in Hjt; congruence|by apply Hall].
Qed.

(** What the schema registry holds. It is made exactly when the global
    schemas compile and the schema of every JSON column resolves, and it
    gives a pair of names the schema of the last column of those names in
    the order of the configuration. The name of a table is all it knows of
    it: tables of one name in different databases share their entries, and
    the later table's schema is the one that bodies for both are validated
    against. *)
Theorem schema_registry_spec (config : AppConfig) (path : string) (registry : SchemaRegistry Validator) :
  new_SchemaRegistry compile canonicalize read_to_string from_str to_value iter config path = Ok registry →
  ∃ globals, compile_global_schemas compile to_value iter config = Ok globals ∧
    (∀ table column, table ∈ cfg_tables config → column ∈ tbl_columns table →
       is_json_type (col_type column) = true → is_ok (resolve column globals path) = true) ∧
    ∀ table column, registry !! (table, column) =
      list.last (omap (schema_for globals path table column) (all_columns config)).
Proof.
  intros H. unfold new_SchemaRegistry in H. apply bind_Ok in H as (globals&Hg&H).
  exists globals. split; [done|].
  rewrite (try_fold_flat_map (λ table, register_column compile canonicalize read_to_string from_str to_value
    path globals (tbl_name table))) in H. split.
  - intros table column Ht Hc. apply (proj2 (register_all _ _ _ _ _ "" "" H) (table, column)).
    apply list_elem_of_In, in_flat_map. exists table. split; [by apply list_elem_of_In|].
    apply list_elem_of_In, list_elem_of_fmap. eauto.
  - intros table column. rewrite (proj1 (register_all _ _ _ _ _ table column H)). unfold all_columns.
    by destruct (list.last _).
Qed.
End registry.

(** ** Witness *)

(** A table of events in two databases, each with a schema of its own. *)
Definition events_table (database schema : string) : TableConfig := {|
  tbl_name := "events"; tbl_database := database;
  tbl_columns := [
    {| col_name := "payload"; col_type := Jsonb; col_primary_key := false; col_nullable := true;
       col_default := None; col_unique := false; col_indexed := false; col_validation_schema := None;
       col_validation := Some (YString schema); col_validation_schema_ref := None |}];
  tbl_foreign_keys := [] |}.

Definition events_config : AppConfig := {|
  cfg_server := default_ServerConfig;
  cfg_logging := {| log_level := LInfo; log_format := FmtPretty; log_request_body := false;
                    log_response_body := false; log_max_body_log_size := 4096 |};
  cfg_cors := default_CorsConfig; cfg_rate_limit := default_RateLimitConfig; cfg_databases := ∅;
  cfg_tables := [events_table "main" "strict"; events_table "other" "loose"];
  cfg_auth := {| auth_jwt := None; auth_api_key := None; auth_basic := None; auth_oauth2 := None;
                 auth_register := None |};
  cfg_endpoints := []; cfg_stores := ∅; cfg_role_hierarchy := None; cfg_global_schemas := None |}.

(** A schema is its name. *)
Definition schema_name (v : yaml) : result string value :=
  match v with YString s => Ok (VString s) | _ => Err "not a name" end.

Definition events_registry : SchemaRegistry value :=
  {[("events", "payload") := {| js_compiled := VString "loose"; js_source := Inline |}]}.

Lemma events_registry_made :
  new_SchemaRegistry Ok (λ p, Ok p) Ok (λ s, Ok (VString s)) schema_name (λ A, map_to_list) events_config
    "/etc/config.yaml" = Ok events_registry.
Proof. vm_cast_no_check (eq_refl (Ok (E := AppError) events_registry)). Qed.

Lemma schema_registry_spec_witness :
  ∃ globals, compile_global_schemas Ok schema_name (λ A, map_to_list) events_config = Ok globals ∧
  ∀ table column, events_registry !! (table, column) =
    list.last (omap (schema_for Ok (λ p, Ok p) Ok (λ s, Ok (VString s)) schema_name globals
      "/etc/config.yaml" table column) (all_columns events_config)).
Proof.
  destruct (schema_registry_spec Ok (λ p, Ok p) Ok (λ s, Ok (VString s)) schema_name (λ A, map_to_list)
    events_config "/etc/config.yaml" events_registry events_registry_made) as (globals&Hg&_&H).
  exists globals. split; [exact Hg|exact H].
Defined.
