(* ===== verification/Crud.v ===== *)
(** * CRUD endpoints

    The handlers of src/src/handlers/crud.rs with the database context of
    server/state.rs and the route handler of server/router.rs. A handler takes
    the database and returns it with its response. *)

From S2P Require Import Prelude RustStr Json Config Errors SqlHelpers Interp Select Mutations Pool Roles Routing Accounts Schemas.
Local Open Scope stdpp_scope.

(** ** The handlers *)

(** [u64::div_ceil] *)
Definition div_ceil (a b : Z) : Z := (a / b + (if (0 <? a mod b) then 1 else 0))%Z.

Record json_response := { jr_status : Z; jr_body : value }.

Section crud.
Context {DB : Type} `{!Pool DB}.
Context {Validator : Type} (iter_errors : Validator → value → list (string * string)).
Context (iter_schemas : gmap string (JsonSchema Validator) → list (string * JsonSchema Validator)).
Context (unicode_alnum json_path_ok unicode_word : string → bool).
Context (json_string : string → string).
Context (iter : gmap string string → list (string * string)).

(** Source: handlers/crud.rs [handle_list] *)
Definition handle_list (pool : DatabasePool) (db_ctx : DatabaseContext) (select_ctx : SelectContext)
    (crud : CrudConfig) (query_string : gmap string string) (context : RequestContext) (db : DB)
  : result AppError json_response :=
  let qp := extract_query_params query_string in
  built ← build_select_list unicode_alnum json_path_ok unicode_word json_string iter db_ctx
            select_ctx qp context;
  rows ← fetch_all_json pool (bq_sql built) (bq_params built) db;
  let pagination := crud_pagination crud in
  let effective_page_size :=
    Z.max (Z.min (default (pg_default_page_size pagination) (qp_page_size qp))
             (pg_max_page_size pagination)) 1 in
  let page := default 1%Z (qp_page qp) in
  let total :=
    match build_select_list_count json_string iter (tbl_name (dbx_table db_ctx)) (dbx_driver db_ctx)
            select_ctx qp context (dbx_table db_ctx) with
    | Ok count_build =>
        match fetch_optional_json pool (bq_sql count_build) (bq_params count_build) db with
        | Ok (Some row) => default 0%Z (get "count" row ≫= as_u64)
        | _ => 0%Z
        end
    | Err _ => 0%Z
    end in
  Ok {| jr_status := 200;
        jr_body :=
          if pg_enabled pagination then
            let total_pages :=
              if (0 <? effective_page_size)%Z then div_ceil total effective_page_size else 1%Z in
            VObject [("data", VArray rows); ("page", json_int page);
                     ("page_size", json_int effective_page_size);
                     ("total", json_int total); ("total_pages", json_int total_pages)]
          else VObject [("data", VArray rows)] |}.

Definition row_not_found (crud : CrudConfig) (pk : string) : AppError :=
  NotFound (crud_table crud +:+ " with id '" +:+ pk +:+ "' not found").

(** Source: handlers/crud.rs [handle_get_one] *)
Definition handle_get_one (pool : DatabasePool) (db_ctx : DatabaseContext) (select_ctx : SelectContext)
    (crud : CrudConfig) (pk_value : option string) (context : RequestContext) (db : DB)
  : result AppError json_response :=
  pk ← ok_or (BadRequest "ID parameter required") pk_value;
  built ← build_select_one db_ctx select_ctx pk context;
  found ← fetch_optional_json pool (bq_sql built) (bq_params built) db;
  match (found : option value) with
  | None => Err (row_not_found crud pk)
  | Some row => Ok {| jr_status := 200; jr_body := row |}
  end.

(** [Option<Value>] in [json!]: [None] is [null]. *)
Definition json_option (v : option value) : value := default VNull v.
Definition created (row : option value) : json_response :=
  {| jr_status := 201; jr_body := VObject [("data", json_option row)] |}.

(** What a POST checks before it touches the database, and the INSERT. *)
Definition prepare_create (db_ctx : DatabaseContext) (mutate_ctx : MutationContext)
    (body : option value) (context : RequestContext) (registry : SchemaRegistry Validator)
  : result AppError BuiltQuery :=
  body ← ok_or (BadRequest "Request body required") body;
  _ ← validate_jsonb_body iter_errors iter_schemas body (tbl_name (dbx_table db_ctx)) registry;
  build_insert unicode_alnum db_ctx mutate_ctx body context.

(** The query for a row just inserted, by the identifier it was given. *)
Definition inserted_row_query (db_ctx : DatabaseContext) (pk_col : string) (last_id : Z)
  : BuiltQuery := {|
  bq_sql := "SELECT * FROM " +:+ quote_identifier (tbl_name (dbx_table db_ctx)) (dbx_driver db_ctx) +:+
            " WHERE " +:+ quote_identifier pk_col (dbx_driver db_ctx) +:+ " = " +:+
            placeholder (dbx_driver db_ctx) 1;
  bq_params := [json_int last_id] |}.

(** Source: handlers/crud.rs [handle_create] *)
Definition handle_create (pool : DatabasePool) (db_ctx : DatabaseContext) (mutate_ctx : MutationContext)
    (body : option value) (context : RequestContext) (registry : SchemaRegistry Validator) (db : DB)
  : DB * result AppError json_response :=
  match prepare_create db_ctx mutate_ctx body context registry with
  | Err e => (db, Err e)
  | Ok built =>
      if contains_str "RETURNING" (bq_sql built) then
        match fetch_optional_returning pool (bq_sql built) (bq_params built) db with
        | Err e => (db, Err e)
        | Ok (row, db) => (db, Ok (created row))
        end
      else
        match execute_with_params_and_last_id pool (bq_sql built) (bq_params built) db with
        | Err e => (db, Err e)
        | Ok (last_id, db) =>
            (db,
             pk_col ← find_pk_column (dbx_table db_ctx);
             let q := inserted_row_query db_ctx pk_col last_id in
             row ← fetch_optional_json pool (bq_sql q) (bq_params q) db;
             Ok (created row))
        end
  end.

(** The execution of an UPDATE or DELETE and its response. *)
Definition execute_one (pool : DatabasePool) (crud : CrudConfig) (pk : string) (built : BuiltQuery) (db : DB)
  : DB * result AppError json_response :=
  match execute_with_params pool (bq_sql built) (bq_params built) db with
  | Err e => (db, Err e)
  | Ok (rows_affected, db) =>
      (db,
       if (rows_affected =? 0)%Z then Err (row_not_found crud pk)
       else Ok {| jr_status := 200;
                  jr_body := VObject [("rows_affected", json_int rows_affected)] |})
  end.

(** Source: handlers/crud.rs [handle_update] *)
Definition handle_update (pool : DatabasePool) (db_ctx : DatabaseContext) (mutate_ctx : MutationContext)
    (crud : CrudConfig) (pk_value : option string) (body : option value) (context : RequestContext)
    (registry : SchemaRegistry Validator) (db : DB) : DB * result AppError json_response :=
  match (pk ← ok_or (BadRequest "ID parameter required") pk_value;
         body ← ok_or (BadRequest "Request body required") body;
         _ ← validate_jsonb_body iter_errors iter_schemas body (tbl_name (dbx_table db_ctx)) registry;
         built ← build_update unicode_alnum db_ctx mutate_ctx pk body context
                   (crud_update_where_clause crud);
         Ok (pk, built)) with
  | Err e => (db, Err e)
  | Ok (pk, built) => execute_one pool crud pk built db
  end.

(** Source: handlers/crud.rs [handle_delete] *)
Definition handle_delete (pool : DatabasePool) (db_ctx : DatabaseContext) (crud : CrudConfig)
    (pk_value : option string) (context : RequestContext) (db : DB)
  : DB * result AppError json_response :=
  match (pk ← ok_or (BadRequest "ID parameter required") pk_value;
         built ← build_delete pk db_ctx context (crud_delete_where_clause crud);
         Ok (pk, built)) with
  | Err e => (db, Err e)
  | Ok (pk, built) => execute_one pool crud pk built db
  end.

(** The part of the server's state the handler reads. *)
Record crud_state := {
  cs_config : AppConfig;
  cs_db_pools : gmap string DatabasePool;
  cs_schema_registry : SchemaRegistry Validator;
}.

(** Source: server/state.rs [AppState::get_db_context] *)
Definition get_db_context (state : crud_state) (db table : string)
  : result AppError (DatabasePool * DatabaseContext) :=
  pool ← db_pool (cs_db_pools state) db;
  table_config ← ok_or (Internal ("Table '" +:+ table +:+ "' in database '" +:+ db +:+ "' not found in config"))
    (find_first (λ t, bool_decide (tbl_name t = table) && bool_decide (tbl_database t = db))
       (cfg_tables (cs_config state)));
  Ok (pool, {| dbx_driver := pool_driver pool; dbx_table := table_config |}).

(** Source: handlers/crud.rs [handle_crud] *)
Definition handle_crud (state : crud_state) (method : string)
    (path_params : option (gmap string string)) (query_string : gmap string string)
    (body : option value) (endpoint : EndpointConfig) (context : RequestContext) (db : DB)
  : DB * result AppError json_response :=
  match (crud ← ok_or (Internal "CRUD config missing on crud endpoint") (ep_crud endpoint);
         context ← get_db_context state (crud_database crud) (crud_table crud);
         Ok (crud, context)) with
  | Err e => (db, Err e)
  | Ok (crud, (pool, db_ctx)) =>
      let select_ctx := select_context_of crud in
      let mutate_ctx := mutation_context_of crud in
      let pk_value := path_params ≫= λ p, p !! "id" in
      let registry := cs_schema_registry state in
      let unsupported :=
        (db, Err (MethodNotAllowed "Unsupported method for CRUD endpoint" (ep_methods endpoint))) in
      if bool_decide (method = "GET") then
        match pk_value with
        | None => (db, handle_list pool db_ctx select_ctx crud query_string context db)
        | Some _ => (db, handle_get_one pool db_ctx select_ctx crud pk_value context db)
        end
      else if bool_decide (method = "POST") then
        handle_create pool db_ctx mutate_ctx body context registry db
      else
        match pk_value with
        | None => unsupported
        | Some _ =>
            if bool_decide (method = "PUT") || bool_decide (method = "PATCH") then
              handle_update pool db_ctx mutate_ctx crud pk_value body context registry db
            else if bool_decide (method = "DELETE") then
              handle_delete pool db_ctx crud pk_value context db
            else unsupported
        end
  end.
End crud.
Arguments crud_state : clear implicits.

(** ** The route *)

Section route.
Context {DB : Type} `{!Pool DB}.
Context {Validator : Type} (iter_errors : Validator → value → list (string * string)).
Context (iter_schemas : gmap string (JsonSchema Validator) → list (string * JsonSchema Validator)).
Context (unicode_alnum json_path_ok unicode_word : string → bool).
Context (json_string : string → string).
Context (iter : gmap string string → list (string * string)).
(** The map of endpoints in its iteration order, [axum]'s headers and bodies,
    and [serde_json::from_slice]. *)
Context (iter_endpoints : endpoint_map → list (string * EndpointConfig)).
Context {HeaderMap : Type} (header_str : HeaderMap → string → option string).
Context (header_entries : HeaderMap → list (string * option string)).
Context {B : Type} (to_bytes : B → Z → result string string).
Context (from_slice : string → option value).

(** A request as the router hands it on: [rq_matched_path] is the pattern of
    the route, [rq_auth_info] what the middleware found. *)
Record route_request := {
  rq_matched_path : string;
  rq_auth_info : option AuthInfo;
  rq_method : string;
  rq_headers : HeaderMap;
  rq_path_params : option (gmap string string);
  rq_query : gmap string string;
  rq_body : B;
}.

Definition default_auth_info : AuthInfo :=
  {| ai_subject := ""; ai_email := None; ai_role := None; ai_token := None |}.

(** The context the clauses of the endpoint are interpolated in. *)
Definition route_context (req : route_request) : RequestContext :=
  let auth_info := default default_auth_info (rq_auth_info req) in
  {| rc_user_id := Some (ai_subject auth_info);
     rc_user_email := ai_email auth_info;
     rc_user_role := ai_role auth_info;
     rc_headers := foldl (λ m kv, <[kv.1 := default "" kv.2]> m) ∅ (header_entries (rq_headers req));
     rc_method := rq_method req;
     rc_path := rq_matched_path req;
     rc_raw_query_params := rq_query req |}.

(** A body that is not JSON counts as no body. *)
Definition json_body (state : crud_state Validator) (req : route_request) : result AppError (option value) :=
  match header_str (rq_headers req) "content-type" with
  | Some t =>
      if contains_str "application/json" t then
        bytes ← map_err Body
          (to_bytes (rq_body req) (srv_max_body_size (cfg_server (cs_config state))));
        Ok (from_slice bytes)
      else Ok None
  | None => Ok None
  end.

(** Source: server/router.rs [handle_crud_route] *)
Definition handle_crud_route (configs : endpoint_map) (state : crud_state Validator)
    (req : route_request) (db : DB) : DB * result AppError json_response :=
  match (endpoint ← ok_or (NotFound "Endpoint not found")
           (get_endpoint_config_for_method iter_endpoints configs (rq_matched_path req) (rq_method req));
         body ← json_body state req;
         Ok (endpoint, body)) with
  | Err e => (db, Err e)
  | Ok (endpoint, body) =>
      handle_crud iter_errors iter_schemas unicode_alnum json_path_ok unicode_word json_string iter
        state (rq_method req) (rq_path_params req) (rq_query req) body endpoint (route_context req) db
  end.
End route.
Arguments route_request : clear implicits.
