(* ===== verification/CrudSpec.v ===== *)
(** * What a CRUD endpoint guarantees

    A request changes the database only by running the one statement its
    endpoint builds; an ownership clause is part of every UPDATE and DELETE;
    the paging information of a list covers its rows; and the general where
    clause of an endpoint protects nothing but its reads. *)

From S2P Require Import Prelude RustStr Json Config Errors SqlHelpers Interp Select SelectSpec SelectSafety Mutations Pool Roles Routing Accounts Schemas Crud.
Local Open Scope stdpp_scope.

Section crud.
Context {DB : Type} `{!Pool DB}.
Context {Validator : Type} (iter_errors : Validator → value → list (string * string)).
Context (iter_schemas : gmap string (JsonSchema Validator) → list (string * JsonSchema Validator)).
Context (unicode_alnum json_path_ok unicode_word : string → bool).
Context (json_string : string → string).
Context (iter : gmap string string → list (string * string)).

(** ** Effects *)

(** The statement a mutating request stands for, with all that is checked
    before it is run. *)
Definition statement_of (method : string) (db_ctx : DatabaseContext) (crud : CrudConfig)
    (pk : option string) (body : option value) (rc : RequestContext)
    (registry : SchemaRegistry Validator) : result AppError BuiltQuery :=
  if bool_decide (method = "POST") then
    prepare_create iter_errors iter_schemas unicode_alnum db_ctx (mutation_context_of crud) body rc
      registry
  else
    pk ← ok_or (BadRequest "ID parameter required") pk;
    if bool_decide (method = "DELETE") then build_delete pk db_ctx rc (crud_delete_where_clause crud)
    else
      body ← ok_or (BadRequest "Request body required") body;
      _ ← validate_jsonb_body iter_errors iter_schemas body (tbl_name (dbx_table db_ctx)) registry;
      build_update unicode_alnum db_ctx (mutation_context_of crud) pk body rc
        (crud_update_where_clause crud).

(** One statement takes the database from [db] to [db']. *)
Inductive ran (pool : DatabasePool) (q : BuiltQuery) (db db' : DB) : Prop :=
| ran_returning row :
    fetch_optional_returning pool (bq_sql q) (bq_params q) db = Ok (row, db') → ran pool q db db'
| ran_execute n :
    execute_with_params pool (bq_sql q) (bq_params q) db = Ok (n, db') → ran pool q db db'
| ran_last_id id :
    execute_with_params_and_last_id pool (bq_sql q) (bq_params q) db = Ok (id, db') →
    ran pool q db db'.

Lemma execute_one_spec pool crud pk q db db' r :
  execute_one pool crud pk q db = (db', r) →
  (db' = db ∧ is_err r = true) ∨
  ∃ n, execute_with_params pool (bq_sql q) (bq_params q) db = Ok (n, db') ∧
    (is_err r = true → n = 0%Z).
Proof.
  unfold execute_one. destruct (execute_with_params _ _ _ _) as [[n db1]|]; intros [= <- <-].
  - right. exists n. split; [done|]. by destruct (Z.eqb_spec n 0).
  - by left.
Qed.

Lemma handle_create_spec pool db_ctx crud pk body rc registry db db' r :
  handle_create iter_errors iter_schemas unicode_alnum pool db_ctx (mutation_context_of crud) body rc
    registry db = (db', r) →
  db' = db ∨
  ∃ q, statement_of "POST" db_ctx crud pk body rc registry = Ok q ∧ ran pool q db db' ∧
    (is_err r = true → contains_str "RETURNING" (bq_sql q) = false).
Proof.
  unfold handle_create, statement_of. cbn.
  destruct (prepare_create _ _ _ _ _ _ _ _) as [q|]; [|intros [= <- <-]; by left].
  destruct (contains_str "RETURNING" (bq_sql q)) eqn:Hret.
  - destruct (fetch_optional_returning _ _ _ _) as [[row db1]|] eqn:Hf; intros [= <- <-]; [right|by left].
    exists q. split_and!; [done|by econstructor|done].
  - destruct (execute_with_params_and_last_id _ _ _ _) as [[id db1]|] eqn:Hf; intros [= <- <-];
      [right|by left].
    exists q. split_and!; [done|by eapply ran_last_id|done].
Qed.

Lemma handle_update_spec method pool db_ctx crud pk body rc registry db db' r :
  method = "PUT" ∨ method = "PATCH" →
  handle_update iter_errors iter_schemas unicode_alnum pool db_ctx (mutation_context_of crud) crud pk
    body rc registry db = (db', r) →
  db' = db ∨
  ∃ q n, statement_of method db_ctx crud pk body rc registry = Ok q ∧
    execute_with_params pool (bq_sql q) (bq_params q) db = Ok (n, db') ∧ (is_err r = true → n = 0%Z).
Proof.
  intros Hm. unfold handle_update, statement_of.
  rewrite (bool_decide_eq_false_2 (method = "POST")), (bool_decide_eq_false_2 (method = "DELETE"))
    by (by destruct Hm as [->| ->]).
  destruct pk as [pk|]; [|intros [= <- <-]; by left]. destruct body as [body|]; [|intros [= <- <-]; by left].
  cbn [ok_or mbind result_bind].
  destruct (validate_jsonb_body _ _ _ _ _); [|intros [= <- <-]; by left]. cbn [mbind result_bind].
  destruct (build_update _ _ _ _ _ _ _) as [q|]; [|intros [= <- <-]; by left]. cbn [mbind result_bind].
  intros [[-> _]|(n&Hn&He)]%execute_one_spec; [by left|]. right. eauto.
Qed.

Lemma handle_delete_spec pool db_ctx crud pk body rc registry db db' r :
  handle_delete pool db_ctx crud pk rc db = (db', r) →
  db' = db ∨
  ∃ q n, statement_of "DELETE" db_ctx crud pk body rc registry = Ok q ∧
    execute_with_params pool (bq_sql q) (bq_params q) db = Ok (n, db') ∧ (is_err r = true → n = 0%Z).
Proof.
  unfold handle_delete, statement_of. cbn.
  destruct pk as [pk|]; [|intros [= <- <-]; by left]. cbn [ok_or mbind result_bind].
  destruct (build_delete _ _ _ _) as [q|]; [|intros [= <- <-]; by left]. cbn [mbind result_bind].
  intros [[-> _]|(n&Hn&He)]%execute_one_spec; [by left|]. right. eauto.
Qed.

(** What [handle_crud] does, in the form the properties share. *)
Lemma handle_crud_effect state method path_params query_string body endpoint context db db' r :
  handle_crud iter_errors iter_schemas unicode_alnum json_path_ok unicode_word json_string iter state
    method path_params query_string body endpoint context db = (db', r) →
  db' = db ∨
  ∃ crud pool db_ctx q, ep_crud endpoint = Some crud ∧
    get_db_context state (crud_database crud) (crud_table crud) = Ok (pool, db_ctx) ∧
    statement_of method db_ctx crud (path_params ≫= λ p, p !! "id") body context
      (cs_schema_registry state) = Ok q ∧
    ran pool q db db' ∧ method ≠ "GET" ∧
    (is_err r = true →
     execute_with_params pool (bq_sql q) (bq_params q) db = Ok (0%Z, db') ∨
     method = "POST" ∧ contains_str "RETURNING" (bq_sql q) = false).
Proof.
  unfold handle_crud. destruct (ep_crud endpoint) as [crud|]; [|intros [= <- <-]; by left].
  cbn [ok_or mbind result_bind].
  destruct (get_db_context _ _ _) as [[pool db_ctx]|] eqn:Hctx; [|intros [= <- <-]; by left].
  cbn [mbind result_bind]. set (pk := path_params ≫= _).
  case_bool_decide as Hget; [by destruct pk; intros [= <- _]; left|].
  case_bool_decide as Hpost.
  { subst method. intros [?|(q&Hq&Hran&He)]%(handle_create_spec _ _ _ pk); [by left|].
    right. exists crud, pool, db_ctx, q. split_and!; auto. }
  destruct pk as [pk|]; [|intros [= <- _]; by left].
  destruct (_ || _) eqn:Hput.
  { apply orb_true_iff in Hput. rewrite !bool_decide_eq_true in Hput.
    intros H. destruct (handle_update_spec method _ _ _ _ _ _ _ _ _ _ Hput H) as [?|(q&n&Hq&Hn&He)]; [by left|].
    right. exists crud, pool, db_ctx, q. split_and!; [done..|by econstructor|done|].
    intros Herr. left. by rewrite Hn, (He Herr). }
  clear Hput. case_bool_decide as Hdel; [|intros [= <- _]; by left]. subst method.
  intros [?|(q&n&Hq&Hn&He)]%(handle_delete_spec _ _ _ _ body _ (cs_schema_registry state)); [by left|].
  right. exists crud, pool, db_ctx, q. split_and!; [done..|by econstructor|done|].
  intros Herr. left. by rewrite Hn, (He Herr).
Qed.

(** A request changes the database only by one statement. Whatever the
    method, the identifier in the path, the body and the state of the server,
    either the database is left alone, or exactly one statement was run on
    the endpoint's own pool: the INSERT, UPDATE or DELETE built from the
    endpoint's configuration after every check had passed. If the answer is
    an error nevertheless, the statement affected no row, or it is an INSERT
    of a database without RETURNING whose row could not be read back. *)
Theorem crud_runs_its_statement (state : crud_state Validator) (method : string)
    (path_params : option (gmap string string)) (query_string : gmap string string)
    (body : option value) (endpoint : EndpointConfig) (context : RequestContext) (db db' : DB)
    (r : result AppError json_response) :
  handle_crud iter_errors iter_schemas unicode_alnum json_path_ok unicode_word json_string iter state
    method path_params query_string body endpoint context db = (db', r) →
  db' = db ∨
  ∃ crud pool db_ctx q, ep_crud endpoint = Some crud ∧
    get_db_context state (crud_database crud) (crud_table crud) = Ok (pool, db_ctx) ∧
    method ≠ "GET" ∧
    statement_of method db_ctx crud (path_params ≫= λ p, p !! "id") body context
      (cs_schema_registry state) = Ok q ∧
    ran pool q db db' ∧
    (is_err r = true →
     execute_with_params pool (bq_sql q) (bq_params q) db = Ok (0%Z, db') ∨
     method = "POST" ∧ contains_str "RETURNING" (bq_sql q) = false).
Proof.
  intros [?|(crud&pool&db_ctx&q&H)]%handle_crud_effect; [by left|right]. naive_solver.
Qed.

(** ** Paging *)

Lemma div_ceil_pages total size i : (0 < size)%Z → (0 ≤ i < total)%Z →
  ∃ p, (1 ≤ p ≤ div_ceil total size)%Z ∧ ((p - 1) * size ≤ i < p * size)%Z ∧
    ∀ p', ((p' - 1) * size ≤ i < p' * size)%Z → p' = p.
Proof.
  intros Hs Hi. exists (i / size + 1)%Z. unfold div_ceil.
  pose proof (Z.div_mod i size) as Hdi. pose proof (Z.mod_pos_bound i size Hs) as Hmi.
  pose proof (Z.div_mod total size) as Hdt. pose proof (Z.mod_pos_bound total size Hs) as Hmt.
  split_and!; [|destruct (Z.ltb_spec 0 (total mod size)); nia|nia..|].
  - pose proof (Z.div_pos i size). lia.
  - intros p' Hp'. nia.
Qed.

(** The paging information of a list covers its rows. With pagination
    enabled, a successful list answers with the rows of the query it built
    and a page size of at least one such that every row of the total lies on
    exactly one of the pages 1 to [total_pages]; and the query asks for that
    many rows from the start of the page that is reported (pages below 1
    counting as 1), except that a page size of 0 is reported as 1 while the
    query asks for no row at all. *)
Theorem list_pages_cover_total (pool : DatabasePool) (db_ctx : DatabaseContext) (crud : CrudConfig)
    (qs : gmap string string) (rc : RequestContext) (db : DB) (rsp : json_response) :
  let qp := extract_query_params qs in
  let pg := crud_pagination crud in
  pg_enabled pg = true → (0 ≤ pg_max_page_size pg ≤ i64_max)%Z → (0 ≤ pg_default_page_size pg)%Z →
  u64_params qp →
  handle_list unicode_alnum json_path_ok unicode_word json_string iter pool db_ctx
    (select_context_of crud) crud qs rc db = Ok rsp →
  ∃ q ps rows total page size pages,
    build_select_list unicode_alnum json_path_ok unicode_word json_string iter db_ctx
      (select_context_of crud) qp rc = Ok q ∧
    fetch_all_json pool (bq_sql q) (bq_params q) db = Ok rows ∧
    jr_body rsp = VObject [("data", VArray rows); ("page", json_int page);
                           ("page_size", json_int size);
                           ("total", json_int total); ("total_pages", json_int pages)] ∧
    (1 ≤ size ≤ Z.max 1 (pg_max_page_size pg))%Z ∧
    (∀ i, (0 ≤ i < total)%Z → ∃ p, (1 ≤ p ≤ pages)%Z ∧ ((p - 1) * size ≤ i < p * size)%Z ∧
       ∀ p', ((p' - 1) * size ≤ i < p' * size)%Z → p' = p) ∧
    ((Z.max 1 page - 1) * size ≤ i64_max →
     bq_params q = ps ++ [json_int size; json_int ((Z.max 1 page - 1) * size)] ∨
     size = 1 ∧ bq_params q = ps ++ [json_int 0; json_int 0])%Z.
Proof.
  intros qp pg Hen Hmax Hdef Hu H. unfold handle_list in H. fold qp in H. fold pg in H.
  apply bind_Ok in H as (q&Hq&H). apply bind_Ok in H as (rows&Hrows&H). cbv zeta in H.
  injection H as <-. rewrite Hen.
  destruct (build_select_list_page _ _ _ _ _ _ _ _ _ _ Hq) as [ps Hps]; [exact Hen|].
  set (size := Z.max (Z.min _ _) 1) in *. set (total := match build_select_list_count _ _ _ _ _ _ _ _ with
    Ok _ => _ | Err _ => _ end).
  assert (Hsz : size = Z.max (page_size_of (select_context_of crud) qp) 1) by done.
  assert (Hsize : (1 ≤ size ≤ Z.max 1 (pg_max_page_size pg))%Z) by (unfold size; lia).
  exists q, ps, rows, total, (default 1%Z (qp_page qp)), size, (div_ceil total size).
  rewrite (proj2 (Z.ltb_lt 0 size)) by lia.
  split_and!; [done..|lia|lia| |].
  { intros i Hi. apply div_ceil_pages; lia. }
  intros Hfit. rewrite Hps.
  assert (Hpage : page_of qp = Z.max 1 (default 1%Z (qp_page qp))) by done. rewrite <-Hpage in Hfit |- *.
  assert (Hps0 : page_size_of (select_context_of crud) qp =
    Z.min (default (pg_default_page_size pg) (qp_page_size qp)) (pg_max_page_size pg)) by done.
  assert (1 ≤ page_of qp)%Z by (rewrite Hpage; lia).
  assert (H0 : (0 ≤ page_size_of (select_context_of crud) qp)%Z).
  { destruct Hu as [_ Hu]. rewrite Hps0. unfold u64 in Hu. destruct (qp_page_size qp); cbn in *; lia. }
  unfold offset_of. destruct (Z.eq_dec (page_size_of (select_context_of crud) qp) 0) as [Hz|Hnz].
  - right. rewrite Hz, Z.mul_0_r. split; [lia|done].
  - left. assert (Hs' : page_size_of (select_context_of crud) qp = size) by lia.
    rewrite Hs', u64_wrap_small by (unfold u64, u64_max, i64_max in *; nia).
    unfold clamp_i64. rewrite !(proj2 (Z.leb_le _ _)) by (unfold i64_max in *; nia). done.
Qed.

(** ** The general where clause *)

Definition with_where_clause (crud : CrudConfig) (wc : option string) : CrudConfig := {|
  crud_table := crud_table crud; crud_database := crud_database crud; crud_fields := crud_fields crud;
  crud_writable_fields := crud_writable_fields crud; crud_pagination := crud_pagination crud;
  crud_filtering := crud_filtering crud; crud_sorting := crud_sorting crud; crud_where_clause := wc;
  crud_delete_where_clause := crud_delete_where_clause crud;
  crud_update_where_clause := crud_update_where_clause crud; crud_joins := crud_joins crud;
  crud_computed_fields := crud_computed_fields crud; crud_insert_owner := crud_insert_owner crud |}.

Definition with_crud (endpoint : EndpointConfig) (crud : CrudConfig) : EndpointConfig := {|
  ep_path := ep_path endpoint; ep_methods := ep_methods endpoint; ep_action := ep_action endpoint;
  ep_crud := Some crud; ep_proxy := ep_proxy endpoint; ep_static_files := ep_static_files endpoint;
  ep_spa_host := ep_spa_host endpoint; ep_media := ep_media endpoint;
  ep_file_store := ep_file_store endpoint; ep_custom_response := ep_custom_response endpoint;
  ep_auth := ep_auth endpoint; ep_roles := ep_roles endpoint; ep_cors := ep_cors endpoint;
  ep_rate_limit := ep_rate_limit endpoint |}.

(** The [where_clause] of an endpoint protects its reads only. Although
    the documentation applies it to all queries of the endpoint and combines
    it with the clauses for updates and deletes, a request of any method but
    GET has the same response and the same effect on the database whatever
    the endpoint's [where_clause] is. *)
Theorem where_clause_guards_reads_only (state : crud_state Validator) (method : string)
    (path_params : option (gmap string string)) (query_string : gmap string string)
    (body : option value) (endpoint : EndpointConfig) (crud : CrudConfig) (wc wc' : option string)
    (context : RequestContext) (db : DB) :
  method ≠ "GET" →
  handle_crud iter_errors iter_schemas unicode_alnum json_path_ok unicode_word json_string iter state
    method path_params query_string body (with_crud endpoint (with_where_clause crud wc)) context db
  = handle_crud iter_errors iter_schemas unicode_alnum json_path_ok unicode_word json_string iter state
    method path_params query_string body (with_crud endpoint (with_where_clause crud wc')) context db.
Proof.
  intros Hm. unfold handle_crud. cbn [ep_crud with_crud ok_or mbind result_bind].
  change (get_db_context state (crud_database (with_where_clause crud wc)) (crud_table (with_where_clause crud wc)))
    with (get_db_context state (crud_database crud) (crud_table crud)).
  change (get_db_context state (crud_database (with_where_clause crud wc')) (crud_table (with_where_clause crud wc')))
    with (get_db_context state (crud_database crud) (crud_table crud)).
  destruct (get_db_context _ _ _) as [[pool db_ctx]|]; [|done].
  cbn [mbind result_bind]. by rewrite (bool_decide_eq_false_2 _ Hm).
Qed.
End crud.

(** ** Ownership *)

(** The clause that compares a column with the authenticated user. *)
Definition owned_by (col : string) : string := col +:+ " = ${request.user.id}".

Lemma scan_owned_by col :
  contains_char "$" col = false → scan (owned_by col) = ([(col +:+ " = ", "request.user.id")], "").
Proof.
  intros Hc. unfold scan, owned_by. rewrite (scan_go_literal _ _ _ Hc), app_nil_l.
  change " = ${request.user.id}" with (" = " +:+ ("${" +:+ "request.user.id" +:+ "}" +:+ "")).
  by rewrite scan_go_literal, scan_go_match.
Qed.

(** The statement with the clause: the user's identifier is compared in a
    placeholder of its own, the last one, and is the last parameter. *)
Lemma and_where_owned_by db rc col base ps q user :
  contains_char "$" col = false → rc_user_id rc = Some user →
  and_where db rc (Some (owned_by col)) base ps = Ok q →
  bq_sql q = base +:+ " AND " +:+ col +:+ " = " +:+ placeholder (dbx_driver db) 1 ∧
  bq_params q = ps ++ [VString user].
Proof.
  intros Hc Hu. unfold and_where, interpolate_where_clause. rewrite (scan_owned_by _ Hc). cbn.
  unfold resolve_where_key, resolve_single_key. cbn. rewrite Hu. cbn. intros [= <-]. cbn.
  split; [by rewrite !app_assoc, app_nil_r|done].
Qed.

Lemma build_update_and_where ua db ctx pk body rc wc q :
  build_update ua db ctx pk body rc wc = Ok q → ∃ base ps, and_where db rc wc base ps = Ok q.
Proof.
  unfold build_update. intros H. apply bind_Ok in H as (obj&_&H). apply bind_Ok in H as (pk_col&_&H).
  apply bind_Ok in H as (st&_&H). case_bool_decide; [done|]. destruct (is_coercion_sentinel _); eauto.
Qed.

Lemma build_delete_and_where pk db rc wc q :
  build_delete pk db rc wc = Ok q → ∃ base ps, and_where db rc wc base ps = Ok q.
Proof.
  unfold build_delete. intros H. apply bind_Ok in H as (pk_col&_&H).
  destruct (is_coercion_sentinel _); eauto.
Qed.

Section route.
Context {DB : Type} `{!Pool DB}.
Context {Validator : Type} (iter_errors : Validator → value → list (string * string)).
Context (iter_schemas : gmap string (JsonSchema Validator) → list (string * JsonSchema Validator)).
Context (unicode_alnum json_path_ok unicode_word : string → bool).
Context (json_string : string → string).
Context (iter : gmap string string → list (string * string)).
Context (iter_endpoints : endpoint_map → list (string * EndpointConfig)).
Context {HeaderMap : Type} (header_str : HeaderMap → string → option string).
Context (header_entries : HeaderMap → list (string * option string)).
Context {B : Type} (to_bytes : B → Z → result string string).
Context (from_slice : string → option value).

(** Rows with an owner are changed by their owner. Let the clauses for
    updates and deletes of an endpoint compare a column with the
    authenticated user, on a database with positional placeholders. Then a
    PUT, PATCH or DELETE that gets past the middleware as [info] and changes
    the database did so by one statement that ends in that comparison and
    whose last parameter, the one the comparison is bound to, is the subject
    of [info]: nothing in the path, the query or the body can replace it. *)
Theorem owner_scoped_mutation (configs : endpoint_map) (state : crud_state Validator)
    (req : route_request HeaderMap B) (info : AuthInfo) (endpoint : EndpointConfig) (crud : CrudConfig)
    (pool : DatabasePool) (col : string) (db db' : DB) (r : result AppError json_response) :
  rq_auth_info req = Some info →
  rq_method req ∈ ["PUT"; "PATCH"; "DELETE"] →
  get_endpoint_config_for_method iter_endpoints configs (rq_matched_path req) (rq_method req)
    = Some endpoint →
  ep_crud endpoint = Some crud →
  cs_db_pools state !! crud_database crud = Some pool → pool_driver pool ≠ Postgres →
  contains_char "$" col = false →
  crud_update_where_clause crud = Some (owned_by col) →
  crud_delete_where_clause crud = Some (owned_by col) →
  handle_crud_route iter_errors iter_schemas unicode_alnum json_path_ok unicode_word json_string iter
    iter_endpoints header_str header_entries to_bytes from_slice configs state req db = (db', r) →
  db' = db ∨
  ∃ q base ps, ran pool q db db' ∧
    bq_sql q = base +:+ " AND " +:+ col +:+ " = ?" ∧
    bq_params q = ps ++ [VString (ai_subject info)].
Proof.
  intros Hinfo Hm Hep Hcrud Hpool Hd Hcol Hup Hdel H. unfold handle_crud_route in H.
  rewrite Hep in H. cbn [ok_or mbind result_bind] in H.
  destruct (json_body _ _ _ _ _) as [body|]; [|injection H as <- _; by left].
  cbn [mbind result_bind] in H.
  apply handle_crud_effect in H as [?|(crud'&pool'&db_ctx&q&Hcrud'&Hctx&Hq&Hran&_)]; [by left|right].
  rewrite Hcrud in Hcrud'. injection Hcrud' as <-.
  assert (Hdr : pool' = pool ∧ dbx_driver db_ctx = pool_driver pool).
  { unfold get_db_context, db_pool in Hctx. rewrite Hpool in Hctx. cbn in Hctx.
    apply bind_Ok in Hctx as (t&_&Hctx). by injection Hctx as <- <-. }
  destruct Hdr as [-> Hdr].
  assert (Hwhere : ∃ base ps, and_where db_ctx (route_context header_entries req) (Some (owned_by col))
                                base ps = Ok q).
  { unfold statement_of in Hq. rewrite (bool_decide_eq_false_2 (rq_method req = "POST")) in Hq
      by (intros Heq; rewrite Heq in Hm; set_solver).
    apply bind_Ok in Hq as (pk&_&Hq). case_bool_decide.
    - rewrite Hdel in Hq. by eapply build_delete_and_where.
    - apply bind_Ok in Hq as (b&_&Hq). apply bind_Ok in Hq as ([]&_&Hq). rewrite Hup in Hq.
      by eapply build_update_and_where. }
  destruct Hwhere as (base&ps&Hw).
  apply (and_where_owned_by _ _ _ _ _ _ (ai_subject info) Hcol) in Hw as [Hsql Hps].
  - exists q, base, ps. split_and!; [done| |done]. rewrite Hsql, Hdr. by destruct pool.
  - cbn. by rewrite Hinfo.
Qed.
End route.

(** ** Witnesses *)

(** A database that is the list of the statements it has run; a query answers
    with one row that counts three. *)
Global Instance log_pool : Pool (list (string * list value)) := {
  fetch_all_json _ _ _ _ := Ok [VObject [("id", json_int 1)]];
  fetch_optional_json _ _ _ _ := Ok (Some (VObject [("count", json_int 3)]));
  fetch_optional_returning _ sql ps db := Ok (None, db ++ [(sql, ps)]);
  execute_with_params _ sql ps db := Ok (1%Z, db ++ [(sql, ps)]);
  execute_with_params_and_last_id _ sql ps db := Ok (7%Z, db ++ [(sql, ps)]);
  execute_raw _ sql db := Ok (db ++ [(sql, [])]);
}.

Definition posts_crud : CrudConfig := {|
  crud_table := "posts"; crud_database := "main"; crud_fields := ["*"];
  crud_writable_fields := ["title"];
  crud_pagination := {| pg_enabled := true; pg_default_page_size := 2; pg_max_page_size := 100 |};
  crud_filtering := default_FilteringConfig;
  crud_sorting := crud_sorting default_CrudConfig;
  crud_where_clause := Some "deleted = 0";
  crud_delete_where_clause := Some (owned_by "author");
  crud_update_where_clause := Some (owned_by "author");
  crud_joins := []; crud_computed_fields := []; crud_insert_owner := None |}.

Definition crud_endpoint : EndpointConfig :=
  with_crud (mk_endpoint "/api/posts/{id}" [Get; Put; Delete] ActCrud "jwt") posts_crud.

Definition crud_config : AppConfig := {|
  cfg_server := default_ServerConfig; cfg_logging := {| log_level := LInfo; log_format := FmtPretty;
    log_request_body := false; log_response_body := false; log_max_body_log_size := 4096 |};
  cfg_cors := default_CorsConfig; cfg_rate_limit := default_RateLimitConfig; cfg_databases := ∅;
  cfg_tables := [posts];
  cfg_auth := {| auth_jwt := None; auth_api_key := None; auth_basic := None; auth_oauth2 := None;
                 auth_register := None |};
  cfg_endpoints := [crud_endpoint]; cfg_stores := ∅; cfg_role_hierarchy := None;
  cfg_global_schemas := None |}.

Definition crud_sample_state : crud_state unit := {|
  cs_config := crud_config; cs_db_pools := {["main" := PoolSqlite 0]}; cs_schema_registry := ∅ |}.

Definition by_id : option (gmap string string) := Some {["id" := "5"]}.
Definition title_body : option value := Some (VObject [("title", VString "t")]).

Definition run_crud (method : string) (params : option (gmap string string)) (endpoint : EndpointConfig)
    (db : list (string * list value)) :=
  handle_crud (λ _ _, []) map_to_list no no no quoted map_to_list crud_sample_state method params ∅
    title_body endpoint alice db.

Lemma crud_runs_its_statement_witness :
  ∃ db' r, run_crud "PUT" by_id crud_endpoint [] = (db', r) ∧ length db' = 1 ∧
  (db' = [] ∨
   ∃ crud pool db_ctx q, ep_crud crud_endpoint = Some crud ∧
     get_db_context crud_sample_state (crud_database crud) (crud_table crud) = Ok (pool, db_ctx) ∧
     "PUT" ≠ "GET" ∧
     statement_of (λ _ _, []) map_to_list no "PUT" db_ctx crud (Some "5") title_body alice
       (cs_schema_registry crud_sample_state) = Ok q ∧
     ran pool q [] db' ∧
     (is_err r = true →
      execute_with_params pool (bq_sql q) (bq_params q) [] = Ok (0%Z, db') ∨
      "PUT" = "POST" ∧ contains_str "RETURNING" (bq_sql q) = false)).
Proof.
  do 2 eexists. split; [vm_compute; reflexivity|]. split; [vm_compute; reflexivity|].
  refine (crud_runs_its_statement (λ _ _, []) map_to_list no no no quoted map_to_list
    crud_sample_state "PUT" by_id ∅ title_body crud_endpoint alice [] _ _ _).
  vm_compute. reflexivity.
Defined.

Lemma where_clause_guards_reads_only_witness :
  run_crud "DELETE" by_id (with_crud crud_endpoint (with_where_clause posts_crud (Some "public = 1"))) []
  = run_crud "DELETE" by_id (with_crud crud_endpoint (with_where_clause posts_crud None)) [].
Proof. apply where_clause_guards_reads_only; discriminate. Defined.

Definition page_query : gmap string string := {["page" := "2"; "page_size" := "2"]}.

Lemma list_pages_cover_total_witness :
  ∃ rsp, handle_list no no no quoted map_to_list (PoolSqlite 0) {| dbx_driver := Sqlite; dbx_table := posts |}
    (select_context_of posts_crud) posts_crud page_query alice [] = Ok rsp ∧
  ∃ q ps rows total page size pages,
    build_select_list no no no quoted map_to_list {| dbx_driver := Sqlite; dbx_table := posts |}
      (select_context_of posts_crud) (extract_query_params page_query) alice = Ok q ∧
    fetch_all_json (PoolSqlite 0) (bq_sql q) (bq_params q) ([] : list (string * list value)) = Ok rows ∧
    jr_body rsp = VObject [("data", VArray rows); ("page", json_int page);
                           ("page_size", json_int size);
                           ("total", json_int total); ("total_pages", json_int pages)] ∧
    (1 ≤ size ≤ 100)%Z ∧
    (∀ i, (0 ≤ i < total)%Z → ∃ p, (1 ≤ p ≤ pages)%Z ∧ ((p - 1) * size ≤ i < p * size)%Z ∧
       ∀ p', ((p' - 1) * size ≤ i < p' * size)%Z → p' = p) ∧
    ((Z.max 1 page - 1) * size ≤ i64_max →
     bq_params q = ps ++ [json_int size; json_int ((Z.max 1 page - 1) * size)] ∨
     size = 1 ∧ bq_params q = ps ++ [json_int 0; json_int 0])%Z.
Proof.
  eexists. split; [vm_compute; reflexivity|].
  refine (list_pages_cover_total no no no quoted map_to_list (PoolSqlite 0)
    {| dbx_driver := Sqlite; dbx_table := posts |} posts_crud page_query alice
    ([] : list (string * list value)) _ _ _ _ _ _).
  - reflexivity.
  - vm_compute. split; discriminate.
  - vm_compute. discriminate.
  - vm_compute. split; split; discriminate.
  - vm_compute. reflexivity.
Defined.

Definition put_post : route_request unit string := {|
  rq_matched_path := "/api/posts/{id}";
  rq_auth_info := Some {| ai_subject := "42"; ai_email := None; ai_role := None; ai_token := None |};
  rq_method := "PUT"; rq_headers := tt; rq_path_params := by_id; rq_query := {["user" := "1"]};
  rq_body := "{}" |}.

Lemma owner_scoped_mutation_witness :
  ∃ db' r,
    handle_crud_route (λ _ _, []) map_to_list no no no quoted map_to_list map_to_list
      (λ _ _, Some "application/json") (λ _, []) (λ b _, Ok b) (λ _, title_body)
      (build_endpoint_configs [crud_endpoint]) crud_sample_state put_post [] = (db', r) ∧
    length db' = 1 ∧
    (db' = [] ∨
     ∃ q base ps, ran (PoolSqlite 0) q [] db' ∧ bq_sql q = base +:+ " AND " +:+ "author" +:+ " = ?" ∧
       bq_params q = ps ++ [VString "42"]).
Proof.
  do 2 eexists. split; [vm_compute; reflexivity|]. split; [vm_compute; reflexivity|].
  refine (owner_scoped_mutation (λ _ _, []) map_to_list no no no quoted map_to_list map_to_list
    (λ _ _, Some "application/json") (λ _, []) (λ b _, Ok b) (λ _, title_body)
    (build_endpoint_configs [crud_endpoint]) crud_sample_state put_post
    {| ai_subject := "42"; ai_email := None; ai_role := None; ai_token := None |} crud_endpoint
    posts_crud (PoolSqlite 0) "author" [] _ _ _ _ _ _ _ _ _ _ _ _); try (vm_compute; reflexivity).
  - by left.
  - discriminate.
Defined.
