(* ===== verification/Validation.v ===== *)
(** * Validation of the configuration

    src/src/config/validation/: the semantic checks of a parsed configuration.
    A function of the sources that pushes messages onto a vector returns the
    messages it pushes. A hash map is iterated in the order [iter]. *)

From S2P Require Import Prelude RustStr Json Config Errors SqlHelpers Roles.
Local Open Scope stdpp_scope.

(** The message, when the condition holds. *)
Definition push_if (b : bool) (message : string) : list string := if b then [message] else [].

(** [{:?}] of a vector of plain strings. *)
Definition debug_strs (l : list string) : string :=
  "[" +:+ join ", " (map (λ s, dquote +:+ s +:+ dquote) l) +:+ "]".

Definition is_some {A} (o : option A) : bool := match o with Some _ => true | None => false end.

(** ** Server, databases and CORS *)

(** Source: config/validation/server.rs [validate_server] *)
Definition validate_server (server : ServerConfig) : list string :=
  push_if (is_empty (srv_host server)) "server.host must not be empty" ++
  match srv_tls server with
  | Some tls =>
      push_if (is_empty (tls_cert tls)) "server.tls.cert must not be empty when TLS is configured" ++
      push_if (is_empty (tls_key tls)) "server.tls.key must not be empty when TLS is configured"
  | None => []
  end ++
  push_if (negb (srv_keep_alive server =? 0)%Z && (srv_keep_alive server <? 1)%Z)
    "server.keep_alive must be 0 (disabled) or >= 1" ++
  push_if (srv_shutdown_timeout server <? 1)%Z "server.shutdown_timeout must be >= 1".

Definition validate_database (name : string) (db : DatabaseConfig) : list string :=
  push_if (is_empty (dbc_url db)) ("databases." +:+ name +:+ ".url must not be empty") ++
  push_if (dbc_max_connections db =? 0)%Z ("databases." +:+ name +:+ ".max_connections must be > 0") ++
  push_if (dbc_max_connections db <? dbc_min_connections db)%Z
    ("databases." +:+ name +:+ ".min_connections (" +:+ show_Z (dbc_min_connections db) +:+
     ") must be <= max_connections (" +:+ show_Z (dbc_max_connections db) +:+ ")").

(** Source: config/validation/databases.rs [validate_databases] *)
Definition validate_databases (iter : ∀ A : Type, gmap string A → list (string * A)) (config : AppConfig)
  : list string :=
  flat_map (λ '(name, db), validate_database name db) (iter _ (cfg_databases config)).

(** Source: config/validation/cors.rs [validate_cors] *)
Definition validate_cors (cors : CorsConfig) (label : string) : list string :=
  push_if (existsb (String.eqb "*") (cors_allowed_origins cors) && cors_allow_credentials cors)
    (label +:+ ": allowed_origins contains " +:+ dquote +:+ "*" +:+ dquote +:+
     " but allow_credentials is true — these are mutually exclusive (RFC 6454)").

(** ** Stores *)

Definition store_sections (store : StoreConfig) : list string :=
  push_if (is_some (st_root store)) "root" ++ push_if (is_some (st_s3 store)) "s3" ++
  push_if (is_some (st_azure store)) "azure" ++ push_if (is_some (st_gcs store)) "gcs".

(** The fields of the section of the store's backend.
    Source: config/validation/stores.rs:51-119 [validate_stores (backends)] *)
Definition validate_backend (label : string) (store : StoreConfig) : list string :=
  match st_backend store with
  | Native =>
      push_if (match st_root store with None => true | Some r => is_empty r end)
        (label +:+ ": root directory must not be empty for native backend")
  | Memory =>
      push_if (match st_root store with None => false | Some r => negb (is_empty r) end)
        (label +:+ ": root must not be set for memory backend")
  | S3 =>
      match st_s3 store with
      | None => [label +:+ ": s3 config section must be present for s3 backend"]
      | Some s3 =>
          push_if (is_empty (s3_region s3)) (label +:+ ": s3.region must not be empty") ++
          push_if (is_empty (s3_bucket s3)) (label +:+ ": s3.bucket must not be empty") ++
          push_if (is_empty (s3_access_key s3)) (label +:+ ": s3.access_key must not be empty") ++
          push_if (is_empty (s3_secret_key s3)) (label +:+ ": s3.secret_key must not be empty")
      end
  | Azure =>
      match st_azure store with
      | None => [label +:+ ": azure config section must be present for azure backend"]
      | Some azure =>
          push_if (is_empty (az_account_name azure)) (label +:+ ": azure.account_name must not be empty") ++
          push_if (is_empty (az_account_key azure)) (label +:+ ": azure.account_key must not be empty") ++
          push_if (is_empty (az_container azure)) (label +:+ ": azure.container must not be empty")
      end
  | Gcs =>
      match st_gcs store with
      | None => [label +:+ ": gcs config section must be present for gcs backend"]
      | Some gcs =>
          push_if (is_empty (gcs_project_id gcs)) (label +:+ ": gcs.project_id must not be empty") ++
          push_if (is_empty (gcs_credentials gcs)) (label +:+ ": gcs.credentials must not be empty") ++
          push_if (is_empty (gcs_bucket gcs)) (label +:+ ": gcs.bucket must not be empty")
      end
  end.

(** Source: config/validation/stores.rs [validate_stores] *)
Definition validate_stores (iter : ∀ A : Type, gmap string A → list (string * A))
    (stores : gmap string StoreConfig) : list string :=
  flat_map (λ '(name, store),
    let label := "stores." +:+ name in
    push_if (1 <? length (store_sections store))
      (label +:+ ": conflicting backend config sections: " +:+ debug_strs (store_sections store) +:+
       " (at most one allowed)") ++
    validate_backend label store) (iter _ stores).

(** ** Tables *)

(** The messages for the keys that were seen before. *)
Fixpoint duplicate_tables (seen : gset string) (tables : list TableConfig) : list string :=
  match tables with
  | [] => []
  | t :: tables =>
      let key := tbl_name t +:+ "." +:+ tbl_database t in
      push_if (bool_decide (key ∈ seen)) ("Duplicate table definition for '" +:+ key +:+ "'") ++
      duplicate_tables ({[key]} ∪ seen) tables
  end.

Definition validation_fields (col : ColumnConfig) : list string :=
  push_if (is_some (col_validation_schema col)) "validation_schema" ++
  push_if (is_some (col_validation col)) "validation" ++
  push_if (is_some (col_validation_schema_ref col)) "validation_schema_ref".

(** Source: config/validation/tables.rs:36-85 [validate_tables (columns)] *)
Fixpoint validate_columns (label : string) (seen : gset string) (cols : list ColumnConfig)
  : list string :=
  match cols with
  | [] => []
  | col :: cols =>
      push_if (is_empty (col_name col)) (label +:+ ": has a column with an empty name") ++
      push_if (bool_decide (col_name col ∈ seen))
        (label +:+ ": has duplicate column name '" +:+ col_name col +:+ "'") ++
      push_if (negb (bool_decide (validation_fields col = [])) && negb (is_json_type (col_type col)))
        (label +:+ ": column '" +:+ col_name col +:+ "' has schema validation but type '" +:+
         show_ColumnType (col_type col) +:+ "' is not jsonb or json") ++
      push_if (1 <? length (validation_fields col))
        (label +:+ ": column '" +:+ col_name col +:+ "' has multiple schema validation fields set (" +:+
         join ", " (validation_fields col) +:+ "); at most one is allowed") ++
      validate_columns label ({[col_name col]} ∪ seen) cols
  end.

Definition validate_foreign_key (config : AppConfig) (table : TableConfig) (label : string)
    (fk : ForeignKeyConfig) : list string :=
  push_if (negb (bool_decide (fk_column fk ∈ map col_name (tbl_columns table))))
    (label +:+ ": foreign_keys references column '" +:+ fk_column fk +:+ "' which does not exist") ++
  push_if (negb (existsb (λ t, bool_decide (tbl_name t = fk_references_table fk) &&
                               bool_decide (tbl_database t = tbl_database table)) (cfg_tables config)))
    (label +:+ ": foreign_keys references table '" +:+ fk_references_table fk +:+
     "' which is not defined").

Definition validate_table (config : AppConfig) (i : nat) (table : TableConfig) : list string :=
  let label := "tables[" +:+ show_nat i +:+ "] (" +:+ tbl_name table +:+ ")" in
  push_if (negb (is_some (cfg_databases config !! tbl_database table)))
    (label +:+ ": references database '" +:+ tbl_database table +:+
     "' which is not defined in databases") ++
  push_if (bool_decide (tbl_columns table = [])) (label +:+ ": must have at least one column") ++
  validate_columns label ∅ (tbl_columns table) ++
  push_if (negb (existsb col_primary_key (tbl_columns table)))
    (label +:+ ": must have at least one primary key column") ++
  flat_map (validate_foreign_key config table label) (tbl_foreign_keys table).

(** Source: config/validation/tables.rs [validate_tables] *)
Definition validate_tables (config : AppConfig) : list string :=
  duplicate_tables ∅ (cfg_tables config) ++
  concat (imap (validate_table config) (cfg_tables config)).

(** ** Endpoints *)

Definition endpoint_label (i : nat) (ep : EndpointConfig) : string :=
  "endpoints[" +:+ show_nat i +:+ "] (" +:+ ep_path ep +:+ ")".

(** The name of a table, by itself. *)
Definition table_named (config : AppConfig) (name : string) : bool :=
  existsb (λ t, bool_decide (tbl_name t = name)) (cfg_tables config).

Definition validate_join (label : string) (ji : nat) (join : JoinConfig) : list string :=
  push_if (negb (is_safe_sql_fragment (join_on join)))
    (label +:+ ": crud.joins[" +:+ show_nat ji +:+ "].on contains unsafe SQL characters") ++
  push_if (negb (is_safe_sql_fragment (join_table join)))
    (label +:+ ": crud.joins[" +:+ show_nat ji +:+ "].table contains unsafe SQL characters").

Definition validate_computed (label : string) (ci : nat) (cf : ComputedFieldConfig) : list string :=
  push_if (negb (is_safe_sql_fragment (cf_expression cf)))
    (label +:+ ": crud.computed_fields[" +:+ show_nat ci +:+ "].expression contains unsafe SQL characters") ++
  push_if (negb (is_safe_sql_fragment (cf_name cf)))
    (label +:+ ": crud.computed_fields[" +:+ show_nat ci +:+ "].name contains unsafe SQL characters").

(** Source: config/validation/endpoints.rs [validate_crud_endpoint] *)
Definition validate_crud_endpoint (i : nat) (ep : EndpointConfig) (config : AppConfig) : list string :=
  let label := endpoint_label i ep in
  match ep_crud ep with
  | None => [label +:+ ": action is 'crud' but no crud config provided"]
  | Some crud =>
      let pg := crud_pagination crud in
      (if is_empty (crud_table crud) then [label +:+ ": crud.table must not be empty"]
       else push_if (negb (table_named config (crud_table crud)))
              (label +:+ ": crud.table '" +:+ crud_table crud +:+ "' is not defined in tables")) ++
      (if is_empty (crud_database crud) then [label +:+ ": crud.database must not be empty"]
       else push_if (negb (is_some (cfg_databases config !! crud_database crud)))
              (label +:+ ": crud.database '" +:+ crud_database crud +:+ "' is not defined in databases")) ++
      push_if (pg_default_page_size pg <? MIN_DEFAULT_PAGE_SIZE)%Z
        (label +:+ ": crud.pagination.default_page_size must be >= " +:+ show_Z MIN_DEFAULT_PAGE_SIZE) ++
      push_if (pg_max_page_size pg <? pg_default_page_size pg)%Z
        (label +:+ ": crud.pagination.default_page_size must be <= max_page_size (" +:+
         show_Z (pg_max_page_size pg) +:+ ")") ++
      push_if (MAX_PAGE_SIZE <? pg_max_page_size pg)%Z
        (label +:+ ": crud.pagination.max_page_size must be <= " +:+ show_Z MAX_PAGE_SIZE +:+
         " (spec section 13.1)") ++
      push_if (match crud_where_clause crud with Some wc => negb (is_safe_sql_fragment wc) | None => false end)
        (label +:+ ": crud.where_clause contains unsafe SQL characters (;, --, /" +:+ "*)") ++
      concat (imap (validate_join label) (crud_joins crud)) ++
      concat (imap (validate_computed label) (crud_computed_fields crud))
  end.

(** Source: config/validation/endpoints.rs [validate_proxy_endpoint] *)
Definition validate_proxy_endpoint (i : nat) (ep : EndpointConfig) (config : AppConfig) : list string :=
  let label := endpoint_label i ep in
  match ep_proxy ep with
  | Some proxy => push_if (is_empty (px_upstream proxy)) (label +:+ ": proxy.upstream must not be empty")
  | None => [label +:+ ": action is 'proxy' but no proxy config provided"]
  end.

(** A storage reference of a section. *)
Definition validate_storage (label section storage : string) (config : AppConfig) : list string :=
  if is_empty storage then [label +:+ ": " +:+ section +:+ ".storage must not be empty"]
  else push_if (negb (is_some (cfg_stores config !! storage)))
         (label +:+ ": " +:+ section +:+ ".storage references store '" +:+ storage +:+
          "' which is not defined in stores").

(** Source: config/validation/endpoints.rs [validate_static_files_endpoint] *)
Definition validate_static_files_endpoint (i : nat) (ep : EndpointConfig) (config : AppConfig)
  : list string :=
  let label := endpoint_label i ep in
  match ep_static_files ep with
  | Some sf => validate_storage label "static_files" (sf_storage sf) config
  | None => [label +:+ ": action is 'static_files' but no static_files config provided"]
  end.

(** Source: config/validation/endpoints.rs [validate_spa_host_endpoint] *)
Definition validate_spa_host_endpoint (i : nat) (ep : EndpointConfig) (config : AppConfig)
  : list string :=
  let label := endpoint_label i ep in
  match ep_spa_host ep with
  | Some spa => validate_storage label "spa_host" (spa_storage spa) config
  | None => [label +:+ ": action is 'spa_host' but no spa_host config provided"]
  end.

(** The references of a media or file store section. *)
Definition validate_references (label section storage table database : string) (config : AppConfig)
  : list string :=
  validate_storage label section storage config ++
  (if is_empty table then [label +:+ ": " +:+ section +:+ ".table must not be empty"]
   else push_if (negb (table_named config table))
          (label +:+ ": " +:+ section +:+ ".table '" +:+ table +:+ "' is not defined in tables")) ++
  (if is_empty database then [label +:+ ": " +:+ section +:+ ".database must not be empty"]
   else push_if (negb (is_some (cfg_databases config !! database)))
          (label +:+ ": " +:+ section +:+ ".database references database '" +:+ database +:+
           "' which is not defined in databases")).

(** Source: config/validation/endpoints.rs [validate_media_endpoint] *)
Definition validate_media_endpoint (i : nat) (ep : EndpointConfig) (config : AppConfig) : list string :=
  let label := endpoint_label i ep in
  match ep_media ep with
  | Some media =>
      validate_references label "media" (media_storage media) (media_table media)
        (media_database media) config
  | None => [label +:+ ": action is 'media' but no media config provided"]
  end.

(** Source: config/validation/endpoints.rs [validate_file_store_endpoint] *)
Definition validate_file_store_endpoint (i : nat) (ep : EndpointConfig) (config : AppConfig)
  : list string :=
  let label := endpoint_label i ep in
  match ep_file_store ep with
  | Some fs =>
      validate_references label "file_store" (fs_storage fs) (fs_table fs) (fs_database fs) config
  | None => [label +:+ ": action is 'file_store' but no file_store config provided"]
  end.

(** Source: config/validation/endpoints.rs [validate_custom_response_endpoint] *)
Definition validate_custom_response_endpoint (i : nat) (ep : EndpointConfig) (config : AppConfig)
  : list string :=
  let label := endpoint_label i ep in
  match ep_custom_response ep with
  | None => [label +:+ ": action is 'custom_response' but no custom_response config provided"]
  | Some cr =>
      push_if ((cu_status cr <? 100)%Z || (599 <? cu_status cr)%Z)
        (label +:+ ": custom_response.status must be a valid HTTP status code (100-599)")
  end.

Definition validate_endpoint (config : AppConfig) (i : nat) (ep : EndpointConfig) : list string :=
  let label := endpoint_label i ep in
  push_if (is_empty (ep_path ep)) (label +:+ ": path must not be empty") ++
  push_if (bool_decide (ep_methods ep = [])) (label +:+ ": must have at least one HTTP method") ++
  match ep_action ep with
  | ActCrud => validate_crud_endpoint i ep config
  | ActProxy => validate_proxy_endpoint i ep config
  | ActStaticFiles => validate_static_files_endpoint i ep config
  | ActSpaHost => validate_spa_host_endpoint i ep config
  | ActMedia => validate_media_endpoint i ep config
  | ActFileStore => validate_file_store_endpoint i ep config
  | ActCustomResponse => validate_custom_response_endpoint i ep config
  end.

(** Source: config/validation/endpoints.rs [validate_endpoints] *)
Definition validate_endpoints (config : AppConfig) : list string :=
  concat (imap (validate_endpoint config) (cfg_endpoints config)).

(** ** Authentication *)

Definition valid_providers (auth : AuthConfig) : list string :=
  ["none"] ++ push_if (is_some (auth_jwt auth)) "jwt" ++
  push_if (is_some (auth_api_key auth)) "api_key" ++ push_if (is_some (auth_basic auth)) "basic" ++
  push_if (is_some (auth_oauth2 auth)) "oauth2".

Definition validate_endpoint_auth (config : AppConfig) (i : nat) (ep : EndpointConfig) : list string :=
  let providers := valid_providers (cfg_auth config) in
  push_if (negb (bool_decide (ep_auth ep ∈ providers)))
    (endpoint_label i ep +:+ ": auth '" +:+ ep_auth ep +:+
     "' is not a configured auth provider (available: " +:+ debug_strs providers +:+ ")").

(** Source: config/validation/auth.rs:42-63 [validate_auth (revocation)] *)
Definition validate_revocation (revocation : JwtRevocationConfig) : list string :=
  match jrc_store revocation with
  | StoreInMemory => []
  | StoreDatabase =>
      push_if (match jrc_db_table revocation with None => true | Some t => is_empty t end)
        "auth.jwt.revocation.db_table must not be empty when store is database" ++
      push_if (bool_decide (jrc_cleanup_interval_secs revocation = Some 0%Z))
        "auth.jwt.revocation.cleanup_interval_secs must be > 0"
  end.

Definition validate_jwt (jwt : JwtConfig) : list string :=
  push_if (is_empty (jwt_secret jwt)) "auth.jwt.secret must not be empty" ++
  from_option validate_revocation [] (jwt_revocation jwt).

(** Source: config/validation/auth.rs:72-111 [validate_auth (OAuth2)] *)
Definition validate_oauth2 (auth : AuthConfig) (oauth2 : OAuth2Config) : list string :=
  if is_empty (oa_authorization_url oauth2) then [] else
  push_if (negb (is_some (auth_jwt auth)))
    "auth.jwt must be configured when OAuth2 code flow is enabled (authorization_url is set) because a JWT is minted after login" ++
  push_if (is_empty (oa_token_url oauth2))
    "auth.oauth2.token_url must not be empty when authorization_url is set" ++
  push_if (is_empty (oa_client_id oauth2))
    "auth.oauth2.client_id must not be empty when authorization_url is set" ++
  push_if (is_empty (oa_redirect_url oauth2))
    "auth.oauth2.redirect_url must not be empty when authorization_url is set" ++
  match oa_role_mapping oauth2 with
  | Some mapping =>
      push_if (bool_decide (rm_role_map mapping = []))
        "auth.oauth2.role_mapping.role_map must not be empty when role_mapping is configured" ++
      push_if (is_empty (rm_default_role mapping))
        "auth.oauth2.role_mapping.default_role must not be empty"
  | None => []
  end.

Definition validate_register (register : RegisterConfig) : list string :=
  if negb (reg_enabled register) then [] else
  push_if (is_empty (reg_table register))
    "auth.register.table must not be empty when registration is enabled" ++
  push_if (is_empty (reg_database register))
    "auth.register.database must not be empty when registration is enabled" ++
  push_if (is_empty (reg_default_role register)) "auth.register.default_role must not be empty".

(** Source: config/validation/auth.rs [validate_auth] *)
Definition validate_auth (config : AppConfig) : list string :=
  let auth := cfg_auth config in
  concat (imap (validate_endpoint_auth config) (cfg_endpoints config)) ++
  from_option validate_jwt [] (auth_jwt auth) ++
  push_if (match auth_api_key auth with Some a => bool_decide (ak_keys a = []) | None => false end)
    "auth.api_key.keys must contain at least one key" ++
  from_option (validate_oauth2 auth) [] (auth_oauth2 auth) ++
  from_option validate_register [] (auth_register auth).

(** ** The whole configuration *)

(** [None] is running out of the fuel of the search for role cycles.
    Source: config/validation/mod.rs [validate_config] *)
Definition validate_config (iter : ∀ A : Type, gmap string A → list (string * A)) (config : AppConfig)
  : option (result AppError unit) :=
  let errors :=
    validate_server (cfg_server config) ++ validate_databases iter config ++
    validate_stores iter (cfg_stores config) ++ validate_tables config ++
    validate_endpoints config ++ validate_auth config in
  let order := match cfg_role_hierarchy config with
               | Some h => map fst (iter _ (rh_roles h)) | None => [] end in
  errors ← validate_role_hierarchy order (cfg_role_hierarchy config) errors;
  let errors := errors ++ validate_cors (cfg_cors config) "cors" ++
    concat (imap (λ i ep,
      match ep_cors ep with
      | Some cors => validate_cors cors (endpoint_label i ep)
      | None => []
      end) (cfg_endpoints config)) in
  Some (match errors with
        | [] => Ok tt
        | _ => Err (Validation ("Configuration validation failed:" +:+ String (ascii_of_N 10) "  - " +:+
                 join (String (ascii_of_N 10) "  - ") errors))
        end).
