(* ===== verification/ValidationSpec.v ===== *)
(** * What an accepted configuration guarantees

    The validation accepts exactly the well-formed configurations, and what a
    CRUD endpoint of an accepted configuration can rely on. *)

From S2P Require Import Prelude RustStr Json Config Errors SqlHelpers Interp Select SelectSpec Pool Accounts Roles RolesSpec Routing Validation Schemas Crud CrudSpec.
Local Open Scope stdpp_scope.

(** ** Lists of messages *)

Create HintDb serve_valid.

Lemma push_if_nil b m : push_if b m = [] ↔ b = false.
Proof. by destruct b. Qed.

Lemma app_nil_iff {A} (l l' : list A) : l ++ l' = [] ↔ l = [] ∧ l' = [].
Proof. destruct l; naive_solver. Qed.

Lemma flat_map_nil {A B} (f : A → list B) l : flat_map f l = [] ↔ ∀ x, x ∈ l → f x = [].
Proof.
  induction l as [|x l IH]; cbn; [set_solver|]. rewrite app_nil_iff, IH. set_solver.
Qed.

Lemma concat_imap_nil {A B} (f : nat → A → list B) l :
  concat (imap f l) = [] ↔ ∀ i x, l !! i = Some x → f i x = [].
Proof.
  revert f. induction l as [|x l IH]; intros f; cbn; [done|].
  rewrite app_nil_iff, IH. split.
  - intros [Hx Hl] [|i] y Hy; cbn in Hy; [by simplify_eq|]. by apply (Hl i).
  - intros H. split; [by apply (H 0)|]. intros i y Hy. by apply (H (S i)).
Qed.

Lemma concat_imap_elem {A B} (f : nat → A → list B) (P : A → Prop) l :
  (∀ i x, f i x = [] ↔ P x) → concat (imap f l) = [] ↔ ∀ x, x ∈ l → P x.
Proof.
  intros Hf. rewrite concat_imap_nil. setoid_rewrite Hf. split.
  - intros H x [i Hi]%list_elem_of_lookup. eauto.
  - intros H i x Hi. apply H, list_elem_of_lookup. eauto.
Qed.

Lemma negb_bool_decide_false (P : Prop) `{Decision P} : negb (bool_decide P) = false ↔ P.
Proof. rewrite negb_false_iff. apply bool_decide_eq_true. Qed.

Lemma is_some_spec {A} (o : option A) : negb (is_some o) = false ↔ is_Some o.
Proof. destruct o; cbn; split; try done; by intros [? ?]. Qed.

Lemma is_empty_false s : is_empty s = false ↔ s ≠ "".
Proof. by destruct s. Qed.

Lemma if_empty_nil (s m : string) (l : list string) :
  (if is_empty s then [m] else l) = [] ↔ s ≠ "" ∧ l = [].
Proof. destruct s; cbn; naive_solver. Qed.

#[export] Hint Rewrite push_if_nil @app_nil_iff negb_bool_decide_false @is_some_spec is_empty_false
  if_empty_nil Z.ltb_ge Z.eqb_neq andb_false_iff bool_decide_eq_false : serve_valid.

(** ** Tables *)

Definition table_key (t : TableConfig) : string := tbl_name t +:+ "." +:+ tbl_database t.

Lemma duplicate_tables_nil seen tables :
  duplicate_tables seen tables = [] ↔
  NoDup (map table_key tables) ∧ ∀ t, t ∈ tables → table_key t ∉ seen.
Proof.
  revert seen. induction tables as [|t tables IH]; intros seen; cbn.
  { split; [|done]. intros _. split; [constructor|set_solver]. }
  rewrite app_nil_iff, push_if_nil, bool_decide_eq_false, IH, list.NoDup_cons. fold (table_key t).
  rewrite list_elem_of_fmap. split.
  - intros (Hs&Hnd&Hall). split_and!; [|done|set_solver].
    intros (t'&Ht&Hin). specialize (Hall _ Hin). set_solver.
  - intros ((Hni&Hnd)&Hall). split_and!; [set_solver|done|].
    intros t' Ht'. assert (table_key t' ≠ table_key t) by (intros Heq; apply Hni; eauto). set_solver.
Qed.

(** A column that carries a schema is a JSON column and carries one. *)
Definition column_ok (col : ColumnConfig) : Prop :=
  col_name col ≠ "" ∧ (validation_fields col = [] ∨ is_json_type (col_type col) = true) ∧
  length (validation_fields col) ≤ 1.

Lemma validate_columns_nil label seen cols :
  validate_columns label seen cols = [] ↔
  NoDup (map col_name cols) ∧ (∀ c, c ∈ cols → col_name c ∉ seen) ∧ ∀ c, c ∈ cols → column_ok c.
Proof.
  revert seen. induction cols as [|c cols IH]; intros seen; cbn [validate_columns map].
  { split; [|done]. intros _. split_and!; [constructor|set_solver..]. }
  rewrite !app_nil_iff, !push_if_nil, is_empty_false, bool_decide_eq_false, IH, list.NoDup_cons,
    list_elem_of_fmap, andb_false_iff, negb_bool_decide_false, negb_false_iff, Nat.ltb_ge.
  unfold column_ok. split.
  - intros (Hne&Hs&Hj&Hl&Hnd&Hall&Hok). split_and!; [|done|set_solver|set_solver].
    intros (c'&Hc&Hin). specialize (Hall _ Hin). set_solver.
  - intros ((Hni&Hnd)&Hall&Hok).
    destruct (Hok c) as (?&?&?); [set_solver|]. split_and!; [done|set_solver|done..| |set_solver].
    intros c' Hc'. assert (col_name c' ≠ col_name c) by (intros Heq; apply Hni; eauto). set_solver.
Qed.

Record table_ok (config : AppConfig) (t : TableConfig) : Prop := {
  tok_database : is_Some (cfg_databases config !! tbl_database t);
  tok_columns : ∀ c, c ∈ tbl_columns t → column_ok c;
  tok_distinct : NoDup (map col_name (tbl_columns t));
  tok_primary_key : ∃ c, c ∈ tbl_columns t ∧ col_primary_key c = true;
  tok_foreign_keys : ∀ fk, fk ∈ tbl_foreign_keys t →
    fk_column fk ∈ map col_name (tbl_columns t) ∧
    ∃ t', t' ∈ cfg_tables config ∧ tbl_name t' = fk_references_table fk ∧
      tbl_database t' = tbl_database t;
}.

Lemma validate_foreign_key_nil config t label fk :
  validate_foreign_key config t label fk = [] ↔
  fk_column fk ∈ map col_name (tbl_columns t) ∧
  ∃ t', t' ∈ cfg_tables config ∧ tbl_name t' = fk_references_table fk ∧
    tbl_database t' = tbl_database t.
Proof.
  unfold validate_foreign_key.
  rewrite app_nil_iff, !push_if_nil, negb_bool_decide_false, negb_false_iff, existsb_elem.
  setoid_rewrite andb_true_iff. setoid_rewrite bool_decide_eq_true. done.
Qed.

Lemma validate_table_nil config i t : validate_table config i t = [] ↔ table_ok config t.
Proof.
  unfold validate_table.
  rewrite !app_nil_iff, !push_if_nil, is_some_spec, bool_decide_eq_false, validate_columns_nil,
    negb_false_iff, existsb_elem, flat_map_nil.
  setoid_rewrite validate_foreign_key_nil. split.
  - intros (Hdb&_&(Hnd&_&Hok)&Hpk&Hfk). by split.
  - intros [Hdb Hok Hnd Hpk Hfk]. split_and!; [done| |done|set_solver|done..].
    destruct Hpk as (c&Hc&_). intros Hnil. rewrite Hnil in Hc. set_solver.
Qed.

Lemma validate_tables_nil config :
  validate_tables config = [] ↔
  NoDup (map table_key (cfg_tables config)) ∧ ∀ t, t ∈ cfg_tables config → table_ok config t.
Proof.
  unfold validate_tables. rewrite app_nil_iff, duplicate_tables_nil.
  rewrite (concat_imap_elem _ (table_ok config)) by apply validate_table_nil. set_solver.
Qed.

(** ** Endpoints *)

Definition stored (config : AppConfig) (storage : string) : Prop :=
  storage ≠ "" ∧ is_Some (cfg_stores config !! storage).
Definition tabled (config : AppConfig) (table : string) : Prop :=
  table ≠ "" ∧ ∃ t, t ∈ cfg_tables config ∧ tbl_name t = table.
Definition connected (config : AppConfig) (database : string) : Prop :=
  database ≠ "" ∧ is_Some (cfg_databases config !! database).

(** The table and the database of an endpoint are checked one by one. *)
Record crud_ok (config : AppConfig) (crud : CrudConfig) : Prop := {
  cok_table : tabled config (crud_table crud);
  cok_database : connected config (crud_database crud);
  cok_default : (1 ≤ pg_default_page_size (crud_pagination crud))%Z;
  cok_ordered : (pg_default_page_size (crud_pagination crud) ≤
                 pg_max_page_size (crud_pagination crud))%Z;
  cok_max : (pg_max_page_size (crud_pagination crud) ≤ 100)%Z;
  cok_where : ∀ wc, crud_where_clause crud = Some wc → is_safe_sql_fragment wc = true;
  cok_joins : ∀ j, j ∈ crud_joins crud →
    is_safe_sql_fragment (join_on j) = true ∧ is_safe_sql_fragment (join_table j) = true;
  cok_computed : ∀ c, c ∈ crud_computed_fields crud →
    is_safe_sql_fragment (cf_expression c) = true ∧ is_safe_sql_fragment (cf_name c) = true;
}.

Lemma table_named_spec config table : negb (table_named config table) = false ↔
  ∃ t, t ∈ cfg_tables config ∧ tbl_name t = table.
Proof.
  unfold table_named. rewrite negb_false_iff, existsb_elem. by setoid_rewrite bool_decide_eq_true.
Qed.

Lemma validate_crud_nil config i ep :
  validate_crud_endpoint i ep config = [] ↔ ∃ crud, ep_crud ep = Some crud ∧ crud_ok config crud.
Proof.
  unfold validate_crud_endpoint. destruct (ep_crud ep) as [crud|]; [|split; [done|by intros (?&?&_)]].
  rewrite !app_nil_iff, !if_empty_nil, !push_if_nil, table_named_spec, is_some_spec, !Z.ltb_ge.
  rewrite (concat_imap_elem _ (λ j, is_safe_sql_fragment (join_on j) = true ∧
    is_safe_sql_fragment (join_table j) = true)).
  2:{ intros ??. unfold validate_join. by rewrite app_nil_iff, !push_if_nil, !negb_false_iff. }
  rewrite (concat_imap_elem _ (λ c, is_safe_sql_fragment (cf_expression c) = true ∧
    is_safe_sql_fragment (cf_name c) = true)).
  2:{ intros ??. unfold validate_computed. by rewrite app_nil_iff, !push_if_nil, !negb_false_iff. }
  unfold MIN_DEFAULT_PAGE_SIZE, MAX_PAGE_SIZE. split.
  - intros (Ht&Hd&H1&H2&H3&Hw&Hj&Hc). exists crud. split; [done|]. split; try done.
    intros wc Hwc. rewrite Hwc in Hw. by apply negb_false_iff.
  - intros (?&[= <-]&[Ht Hd H1 H2 H3 Hw Hj Hc]).
    refine (conj Ht (conj Hd (conj H1 (conj H2 (conj H3 (conj _ (conj Hj Hc))))))).
    destruct (crud_where_clause crud) as [wc|]; [|done]. by rewrite (Hw wc eq_refl).
Qed.

Lemma validate_storage_nil label section storage config :
  validate_storage label section storage config = [] ↔ stored config storage.
Proof. unfold validate_storage. by rewrite if_empty_nil, push_if_nil, is_some_spec. Qed.

Lemma validate_references_nil label section storage table database config :
  validate_references label section storage table database config = [] ↔
  stored config storage ∧ tabled config table ∧ connected config database.
Proof.
  unfold validate_references.
  by rewrite !app_nil_iff, validate_storage_nil, !if_empty_nil, !push_if_nil, table_named_spec,
    is_some_spec.
Qed.

(** The section an endpoint's action needs is there and its references
    resolve. *)
Definition action_ok (config : AppConfig) (ep : EndpointConfig) : Prop :=
  match ep_action ep with
  | ActCrud => ∃ crud, ep_crud ep = Some crud ∧ crud_ok config crud
  | ActProxy => ∃ px, ep_proxy ep = Some px ∧ px_upstream px ≠ ""
  | ActStaticFiles => ∃ sf, ep_static_files ep = Some sf ∧ stored config (sf_storage sf)
  | ActSpaHost => ∃ spa, ep_spa_host ep = Some spa ∧ stored config (spa_storage spa)
  | ActMedia => ∃ m, ep_media ep = Some m ∧ stored config (media_storage m) ∧
      tabled config (media_table m) ∧ connected config (media_database m)
  | ActFileStore => ∃ fs, ep_file_store ep = Some fs ∧ stored config (fs_storage fs) ∧
      tabled config (fs_table fs) ∧ connected config (fs_database fs)
  | ActCustomResponse => ∃ cr, ep_custom_response ep = Some cr ∧ (100 ≤ cu_status cr ≤ 599)%Z
  end.

Definition endpoint_ok (config : AppConfig) (ep : EndpointConfig) : Prop :=
  ep_path ep ≠ "" ∧ ep_methods ep ≠ [] ∧ action_ok config ep.

Lemma some_section {A} (o : option A) (P : A → Prop) :
  match o with Some a => P a | None => False end ↔ ∃ a, o = Some a ∧ P a.
Proof. destruct o; naive_solver. Qed.

Lemma section_nil {A} (o : option A) (f : A → list string) (m : string) (P : A → Prop) :
  (∀ a, f a = [] ↔ P a) →
  match o with Some a => f a | None => [m] end = [] ↔ ∃ a, o = Some a ∧ P a.
Proof. intros Hf. destruct o; naive_solver. Qed.

Lemma validate_endpoint_nil config i ep : validate_endpoint config i ep = [] ↔ endpoint_ok config ep.
Proof.
  unfold validate_endpoint, endpoint_ok, action_ok.
  rewrite !app_nil_iff, !push_if_nil, is_empty_false, bool_decide_eq_false.
  enough (He : match ep_action ep with
    | ActCrud => validate_crud_endpoint i ep config | ActProxy => validate_proxy_endpoint i ep config
    | ActStaticFiles => validate_static_files_endpoint i ep config
    | ActSpaHost => validate_spa_host_endpoint i ep config
    | ActMedia => validate_media_endpoint i ep config
    | ActFileStore => validate_file_store_endpoint i ep config
    | ActCustomResponse => validate_custom_response_endpoint i ep config end = [] ↔
    action_ok config ep) by (unfold action_ok in He; tauto).
  unfold action_ok. destruct (ep_action ep).
  - apply validate_crud_nil.
  - apply section_nil. intros px. by rewrite push_if_nil, is_empty_false.
  - apply section_nil. intros sf. apply validate_storage_nil.
  - apply section_nil. intros spa. apply validate_storage_nil.
  - apply section_nil. intros m. apply validate_references_nil.
  - apply section_nil. intros fs. apply validate_references_nil.
  - unfold validate_custom_response_endpoint. destruct (ep_custom_response ep) as [cr|].
    + rewrite push_if_nil, orb_false_iff, !Z.ltb_ge. naive_solver lia.
    + split; [done|]. by intros (?&?&_).
Qed.

(** ** Authentication *)

Definition provider_configured (auth : AuthConfig) (name : string) : Prop :=
  name = "none" ∨ name = "jwt" ∧ is_Some (auth_jwt auth) ∨
  name = "api_key" ∧ is_Some (auth_api_key auth) ∨ name = "basic" ∧ is_Some (auth_basic auth) ∨
  name = "oauth2" ∧ is_Some (auth_oauth2 auth).

Lemma elem_of_push_if x b m : x ∈ push_if b m ↔ b = true ∧ x = m.
Proof. destruct b; set_solver. Qed.

Lemma is_some_true {A} (o : option A) : is_some o = true ↔ is_Some o.
Proof. destruct o; cbn; split; try done; by intros [? ?]. Qed.

Lemma valid_providers_spec auth name : name ∈ valid_providers auth ↔ provider_configured auth name.
Proof.
  unfold valid_providers, provider_configured.
  rewrite !elem_of_app, !elem_of_push_if, !is_some_true, list_elem_of_singleton. tauto.
Qed.

Record auth_ok (config : AppConfig) : Prop := {
  aok_providers : ∀ ep, ep ∈ cfg_endpoints config → provider_configured (cfg_auth config) (ep_auth ep);
  aok_jwt : ∀ jwt, auth_jwt (cfg_auth config) = Some jwt → jwt_secret jwt ≠ "" ∧
    ∀ rv, jwt_revocation jwt = Some rv → jrc_store rv = StoreDatabase →
      (∃ t, jrc_db_table rv = Some t ∧ t ≠ "") ∧ jrc_cleanup_interval_secs rv ≠ Some 0%Z;
  aok_api_key : ∀ a, auth_api_key (cfg_auth config) = Some a → ak_keys a ≠ [];
  aok_oauth2 : ∀ o, auth_oauth2 (cfg_auth config) = Some o → oa_authorization_url o ≠ "" →
    is_Some (auth_jwt (cfg_auth config)) ∧ oa_token_url o ≠ "" ∧ oa_client_id o ≠ "" ∧
    oa_redirect_url o ≠ "" ∧
    ∀ m, oa_role_mapping o = Some m → rm_role_map m ≠ [] ∧ rm_default_role m ≠ "";
  aok_register : ∀ r, auth_register (cfg_auth config) = Some r → reg_enabled r = true →
    reg_table r ≠ "" ∧ reg_database r ≠ "" ∧ reg_default_role r ≠ "";
}.

Lemma from_option_nil {A B} (f : A → list B) (o : option A) (P : A → Prop) :
  (∀ a, f a = [] ↔ P a) → from_option f [] o = [] ↔ ∀ a, o = Some a → P a.
Proof. intros Hf. destruct o; naive_solver. Qed.

Lemma validate_jwt_nil jwt :
  validate_jwt jwt = [] ↔ jwt_secret jwt ≠ "" ∧
    ∀ rv, jwt_revocation jwt = Some rv → jrc_store rv = StoreDatabase →
      (∃ t, jrc_db_table rv = Some t ∧ t ≠ "") ∧ jrc_cleanup_interval_secs rv ≠ Some 0%Z.
Proof.
  unfold validate_jwt. rewrite app_nil_iff, push_if_nil, is_empty_false.
  rewrite (from_option_nil _ _ (λ rv, jrc_store rv = StoreDatabase →
    (∃ t, jrc_db_table rv = Some t ∧ t ≠ "") ∧ jrc_cleanup_interval_secs rv ≠ Some 0%Z)); [done|].
  intros rv. unfold validate_revocation. destruct (jrc_store rv); [done|].
  rewrite app_nil_iff, !push_if_nil, bool_decide_eq_false.
  destruct (jrc_db_table rv) as [t|]; [rewrite is_empty_false|].
  - split; [intros [? ?] _; eauto|]. intros H. by destruct (H eq_refl) as [(?&[= ->]&?) ?].
  - split; [by intros [? _]|]. intros H. by destruct (H eq_refl) as [(?&?&_) _].
Qed.

Lemma validate_oauth2_nil auth o :
  validate_oauth2 auth o = [] ↔ (oa_authorization_url o ≠ "" →
    is_Some (auth_jwt auth) ∧ oa_token_url o ≠ "" ∧ oa_client_id o ≠ "" ∧ oa_redirect_url o ≠ "" ∧
    ∀ m, oa_role_mapping o = Some m → rm_role_map m ≠ [] ∧ rm_default_role m ≠ "").
Proof.
  unfold validate_oauth2. destruct (is_empty (oa_authorization_url o)) eqn:He.
  { split; [|done]. intros _ Hne. by apply is_empty_false in Hne; rewrite He in Hne. }
  apply is_empty_false in He. rewrite !app_nil_iff, !push_if_nil, is_some_spec, !is_empty_false.
  destruct (oa_role_mapping o) as [m|];
    [rewrite app_nil_iff, !push_if_nil, bool_decide_eq_false, is_empty_false|]; naive_solver.
Qed.

Lemma validate_register_nil r :
  validate_register r = [] ↔ (reg_enabled r = true →
    reg_table r ≠ "" ∧ reg_database r ≠ "" ∧ reg_default_role r ≠ "").
Proof.
  unfold validate_register. destruct (reg_enabled r); cbn [negb]; [|by split].
  rewrite !app_nil_iff, !push_if_nil, !is_empty_false. split; [by intros ? _|]. intros H. by apply H.
Qed.

Lemma validate_auth_nil config : validate_auth config = [] ↔ auth_ok config.
Proof.
  unfold validate_auth. rewrite !app_nil_iff.
  rewrite (concat_imap_elem _ (λ ep, provider_configured (cfg_auth config) (ep_auth ep))).
  2:{ intros i ep. unfold validate_endpoint_auth.
      by rewrite push_if_nil, negb_bool_decide_false, valid_providers_spec. }
  rewrite (from_option_nil _ _ _ validate_jwt_nil), (from_option_nil _ _ _ (validate_oauth2_nil _)),
    (from_option_nil _ _ _ validate_register_nil), push_if_nil.
  assert (Hkeys : match auth_api_key (cfg_auth config) with
                  | Some a => bool_decide (ak_keys a = []) | None => false end = false ↔
    ∀ a, auth_api_key (cfg_auth config) = Some a → ak_keys a ≠ []).
  { destruct (auth_api_key _); [rewrite bool_decide_eq_false|]; naive_solver. }
  rewrite Hkeys. split; [intros (?&?&?&?&?); by split|intros []; done].
Qed.

(** ** The rest *)

Definition server_ok (server : ServerConfig) : Prop :=
  srv_host server ≠ "" ∧
  (∀ tls, srv_tls server = Some tls → tls_cert tls ≠ "" ∧ tls_key tls ≠ "") ∧
  (srv_keep_alive server = 0 ∨ 1 ≤ srv_keep_alive server)%Z ∧ (1 ≤ srv_shutdown_timeout server)%Z.

Lemma validate_server_nil server : validate_server server = [] ↔ server_ok server.
Proof.
  unfold validate_server, server_ok.
  rewrite !app_nil_iff, !push_if_nil, is_empty_false, andb_false_iff, negb_false_iff, !Z.ltb_ge, Z.eqb_eq.
  destruct (srv_tls server) as [tls|].
  - rewrite app_nil_iff, !push_if_nil, !is_empty_false. naive_solver.
  - naive_solver.
Qed.

Definition database_ok (db : DatabaseConfig) : Prop :=
  dbc_url db ≠ "" ∧ dbc_max_connections db ≠ 0%Z ∧
  (dbc_min_connections db ≤ dbc_max_connections db)%Z.

Lemma validate_database_nil name db : validate_database name db = [] ↔ database_ok db.
Proof.
  unfold validate_database, database_ok.
  by rewrite !app_nil_iff, !push_if_nil, is_empty_false, Z.eqb_neq, Z.ltb_ge.
Qed.

(** The section of its backend is complete, and there is at most one section. *)
Definition store_ok (store : StoreConfig) : Prop :=
  length (store_sections store) ≤ 1 ∧
  match st_backend store with
  | Native => ∃ r, st_root store = Some r ∧ r ≠ ""
  | Memory => ∀ r, st_root store = Some r → r = ""
  | S3 => ∃ s, st_s3 store = Some s ∧ s3_region s ≠ "" ∧ s3_bucket s ≠ "" ∧ s3_access_key s ≠ "" ∧
      s3_secret_key s ≠ ""
  | Azure => ∃ a, st_azure store = Some a ∧ az_account_name a ≠ "" ∧ az_account_key a ≠ "" ∧
      az_container a ≠ ""
  | Gcs => ∃ g, st_gcs store = Some g ∧ gcs_project_id g ≠ "" ∧ gcs_credentials g ≠ "" ∧
      gcs_bucket g ≠ ""
  end.

Lemma validate_backend_nil label store :
  length (store_sections store) ≤ 1 ∧ validate_backend label store = [] ↔ store_ok store.
Proof.
  unfold store_ok, validate_backend. apply and_iff_compat_l. destruct (st_backend store).
  - rewrite push_if_nil. destruct (st_root store) as [r|].
    + rewrite is_empty_false. split; [eauto|]. by intros (?&[= ->]&?).
    + split; [done|]. by intros (?&?&_).
  - apply section_nil. intros s. by rewrite !app_nil_iff, !push_if_nil, !is_empty_false.
  - apply section_nil. intros s. by rewrite !app_nil_iff, !push_if_nil, !is_empty_false.
  - apply section_nil. intros s. by rewrite !app_nil_iff, !push_if_nil, !is_empty_false.
  - rewrite push_if_nil. destruct (st_root store) as [r|]; [|done].
    rewrite negb_false_iff. split.
    + intros Hr ? [= <-]. by destruct r.
    + intros H. by rewrite (H r eq_refl).
Qed.

Definition cors_ok (cors : CorsConfig) : Prop :=
  ¬ ("*" ∈ cors_allowed_origins cors ∧ cors_allow_credentials cors = true).

Lemma validate_cors_nil cors label : validate_cors cors label = [] ↔ cors_ok cors.
Proof.
  unfold validate_cors, cors_ok. rewrite push_if_nil, <-not_true_iff_false, andb_true_iff, existsb_elem.
  setoid_rewrite String.eqb_eq. naive_solver.
Qed.

(** ** The whole configuration *)

Record well_formed (config : AppConfig) : Prop := {
  wf_server : server_ok (cfg_server config);
  wf_databases : ∀ name db, cfg_databases config !! name = Some db → database_ok db;
  wf_stores : ∀ name st, cfg_stores config !! name = Some st → store_ok st;
  wf_table_keys : NoDup (map table_key (cfg_tables config));
  wf_tables : ∀ t, t ∈ cfg_tables config → table_ok config t;
  wf_endpoints : ∀ ep, ep ∈ cfg_endpoints config → endpoint_ok config ep;
  wf_auth : auth_ok config;
  wf_roles : ∀ h, cfg_role_hierarchy config = Some h → acyclic (rh_roles h);
  wf_cors : cors_ok (cfg_cors config) ∧
    ∀ ep cors, ep ∈ cfg_endpoints config → ep_cors ep = Some cors → cors_ok cors;
}.

Section validation.
Context (iter : ∀ A : Type, gmap string A → list (string * A)).
Context (iter_perm : ∀ (A : Type) (m : gmap string A), iter A m ≡ₚ map_to_list m).

Lemma flat_map_iter {A} (f : string * A → list string) (P : A → Prop) (m : gmap string A) :
  (∀ k a, f (k, a) = [] ↔ P a) →
  flat_map f (iter A m) = [] ↔ ∀ k a, m !! k = Some a → P a.
Proof.
  intros Hf. rewrite flat_map_nil. split.
  - intros H k a Hk. apply (Hf k), H. rewrite iter_perm. by apply elem_of_map_to_list.
  - intros H [k a] Hin. rewrite iter_perm in Hin. apply elem_of_map_to_list in Hin.
    apply Hf. eauto.
Qed.

(** The messages a hierarchy adds. *)
Lemma validate_roles order rh errors :
  (∀ h, rh = Some h → order ≡ₚ (map_to_list (rh_roles h)).*1) →
  ∃ found, validate_role_hierarchy order rh errors = Some (errors ++ found) ∧
    (found = [] ↔ ∀ h, rh = Some h → acyclic (rh_roles h)).
Proof.
  intros Horder. destruct rh as [h|].
  - destruct (validate_hierarchy h order errors (Horder h eq_refl)) as (found&Hf&Hac).
    exists found. split; [done|]. rewrite Hac. naive_solver.
  - exists []. by rewrite (right_id_L [] (++)).
Qed.

(** The validation, exactly. *)
Lemma validate_config_exact (config : AppConfig) :
  ∃ r, validate_config iter config = Some r ∧ (r = Ok tt ↔ well_formed config) ∧
    (r ≠ Ok tt → ∃ m, r = Err (Validation m)).
Proof.
  unfold validate_config. cbv zeta. set (errors := validate_server _ ++ _). set (order := match cfg_role_hierarchy config with Some h => map fst (iter _ (rh_roles h)) | None => [] end).
  destruct (validate_roles order (cfg_role_hierarchy config) errors) as (found&Hf&Hroles).
  { intros h Hh. unfold order. rewrite Hh. by rewrite (iter_perm _ (rh_roles h)). }
  rewrite Hf. cbn [mbind option_bind]. eexists. split; [done|].
  set (all := (errors ++ found) ++ _).
  assert (Hall : all = [] ↔ well_formed config).
  { unfold all, errors. rewrite !app_nil_iff, validate_server_nil, validate_tables_nil, validate_auth_nil,
      Hroles, validate_cors_nil.
    unfold validate_databases, validate_stores, validate_endpoints.
    rewrite (flat_map_iter _ database_ok) by apply validate_database_nil.
    rewrite (flat_map_iter _ store_ok).
    2:{ intros k st. rewrite <-(validate_backend_nil ("stores." +:+ k)).
        by rewrite app_nil_iff, push_if_nil, Nat.ltb_ge. }
    rewrite (concat_imap_elem _ (endpoint_ok config)) by apply validate_endpoint_nil.
    rewrite (concat_imap_elem _ (λ ep, ∀ cors, ep_cors ep = Some cors → cors_ok cors)).
    2:{ intros i ep. destruct (ep_cors ep) as [c|]; [rewrite validate_cors_nil|]; naive_solver. }
    split.
    - intros [[(?&?&?&[? ?]&?&?) ?] [? Hcors]]. split; try done. split; [done|]. intros ep c ?. by apply Hcors.
    - intros [? ? ? ? ? ? ? ? [? Hcors]]. refine (conj (conj _ _) (conj _ _)); try done.
      intros ep ? c. by apply Hcors. }
  destruct all as [|e es]; [split; [by rewrite <-Hall|done]|].
  split; [|eauto]. split; [done|]. intros Hw. by apply Hall in Hw.
Qed.

(** C27: the validation of a configuration ends, and it accepts exactly the
    well-formed configurations, whatever the iteration order of the hash
    maps: every reference to a database, table or store resolves, tables
    have a primary key and distinct columns, page sizes lie between 1 and
    100, the SQL fragments it looks at are safe, each endpoint has the
    section its action needs and a configured authentication, the role
    hierarchy is acyclic. Anything else is rejected with a validation error. *)
Theorem validate_config_accepts_well_formed (config : AppConfig) :
  ∃ r, validate_config iter config = Some r ∧ (r = Ok tt ↔ well_formed config) ∧
    (r ≠ Ok tt → ∃ m, r = Err (Validation m)).
Proof. apply validate_config_exact. Qed.
End validation.

(** ** CRUD endpoints of an accepted configuration *)

Lemma well_formed_table config t :
  well_formed config → t ∈ cfg_tables config → ∃ pk, find_pk_column t = Ok pk.
Proof.
  intros Hwf Ht. destruct (tok_primary_key _ _ (wf_tables _ Hwf _ Ht)) as (c&Hc&Hpk).
  unfold find_pk_column. destruct (find_first col_primary_key (tbl_columns t)) as [c'|] eqn:Hf; cbn; eauto.
  rewrite find_first_None in Hf. by rewrite (Hf _ Hc) in Hpk.
Qed.

(** C28: what a CRUD endpoint of an accepted configuration relies on. With a
    pool for every configured database, its section is there and its
    database context is found, for a table that has a primary key, unless
    tables of the name it gives exist in other databases only: the
    validation looks at the name of the table and at the database one by
    one, so it accepts such an endpoint, and then each of its requests is
    answered with an internal error before the database is touched. *)
Theorem accepted_crud_endpoint {DB} `{!Pool DB} {Validator : Type}
    (iter : ∀ A : Type, gmap string A → list (string * A))
    (iter_perm : ∀ (A : Type) (m : gmap string A), iter A m ≡ₚ map_to_list m)
    (iter_errors : Validator → value → list (string * string))
    (iter_schemas : gmap string (JsonSchema Validator) → list (string * JsonSchema Validator))
    (unicode_alnum json_path_ok unicode_word : string → bool) (json_string : string → string)
    (iter_filters : gmap string string → list (string * string))
    (state : crud_state Validator) (ep : EndpointConfig) :
  let config := cs_config state in
  validate_config iter config = Some (Ok tt) →
  (∀ name, is_Some (cfg_databases config !! name) → is_Some (cs_db_pools state !! name)) →
  ep ∈ cfg_endpoints config → ep_action ep = ActCrud →
  ∃ crud, ep_crud ep = Some crud ∧
  match get_db_context state (crud_database crud) (crud_table crud) with
  | Ok (pool, ctx) =>
      cs_db_pools state !! crud_database crud = Some pool ∧ tbl_name (dbx_table ctx) = crud_table crud ∧
      tbl_database (dbx_table ctx) = crud_database crud ∧ ∃ pk, find_pk_column (dbx_table ctx) = Ok pk
  | Err e =>
      (∃ t, t ∈ cfg_tables config ∧ tbl_name t = crud_table crud) ∧
      (∀ t, t ∈ cfg_tables config → tbl_name t = crud_table crud → tbl_database t ≠ crud_database crud) ∧
      ∃ m, e = Internal m ∧ ∀ method path_params query body context (db : DB),
        handle_crud iter_errors iter_schemas unicode_alnum json_path_ok unicode_word json_string
          iter_filters state method path_params query body ep context db = (db, Err (Internal m))
  end.
Proof.
  intros config Hv Hpools Hep Hact.
  assert (Hwf : well_formed config).
  { destruct (validate_config_exact iter iter_perm config) as (r&Hr&Hiff&_).
    rewrite Hv in Hr. injection Hr as <-. by apply Hiff. }
  destruct (wf_endpoints _ Hwf _ Hep) as (_&_&Ha). unfold action_ok in Ha. rewrite Hact in Ha.
  destruct Ha as (crud&Hcrud&Hok). exists crud. split; [done|].
  destruct (cok_table _ _ Hok) as (_&t&Ht&Hname). destruct (cok_database _ _ Hok) as [_ Hdb].
  destruct (Hpools _ Hdb) as [pool0 Hpool].
  destruct (get_db_context _ _ _) as [[pool ctx]|e] eqn:Hctx; unfold get_db_context in Hctx;
    rewrite (db_pool_lookup _ _ _ Hpool) in Hctx; cbn [mbind result_bind] in Hctx.
  - apply bind_Ok in Hctx as (t'&Hf&Hctx). apply ok_or_Ok, find_first_elem in Hf as [Hin Hp].
    apply andb_true_iff in Hp as [Hn Hd]. rewrite bool_decide_eq_true in Hn, Hd.
    injection Hctx as <- <-. cbn. split_and!; [done..|]. by apply (well_formed_table config).
  - apply bind_Err in Hctx as [Hctx|(?&_&?)]; [|done]. apply ok_or_Err in Hctx as [Hf ->].
    rewrite find_first_None in Hf. split; [eauto|]. split.
    + intros t' Ht' Hn Hd. specialize (Hf t' Ht'). rewrite Hn, Hd in Hf.
      by rewrite !bool_decide_eq_true_2 in Hf by done.
    + eexists. split; [done|]. intros. unfold handle_crud.
      rewrite Hcrud. cbn [ok_or mbind result_bind]. unfold get_db_context.
      rewrite (db_pool_lookup _ _ _ Hpool).
      cbn [mbind result_bind]. by rewrite (proj2 (find_first_None _ _) Hf).
Qed.

(** ** Witnesses *)

Definition sorted_iter (A : Type) (m : gmap string A) : list (string * A) := map_to_list m.

Lemma sorted_iter_perm (A : Type) (m : gmap string A) : sorted_iter A m ≡ₚ map_to_list m.
Proof. done. Qed.

(** Two databases, a table in the first, and an endpoint on the table in
    database [db]. *)
Definition two_databases (db : string) : AppConfig := {|
  cfg_server := default_ServerConfig;
  cfg_logging := cfg_logging crud_config; cfg_cors := default_CorsConfig;
  cfg_rate_limit := default_RateLimitConfig;
  cfg_databases :=
    let dbc := {| dbc_driver := Sqlite; dbc_url := "sqlite://app.db"; dbc_min_connections := 1;
                  dbc_max_connections := 5; dbc_auto_migrate := true; dbc_allow_destructive := false;
                  dbc_acquire_timeout := 30 |} in {["main" := dbc; "other" := dbc]};
  cfg_tables := [posts]; cfg_auth := cfg_auth crud_config;
  cfg_endpoints :=
    let crud := with_where_clause posts_crud None in
    [with_crud (mk_endpoint "/api/posts" [Get] ActCrud "none")
       {| crud_table := crud_table crud; crud_database := db; crud_fields := crud_fields crud;
          crud_writable_fields := []; crud_pagination := crud_pagination crud;
          crud_filtering := crud_filtering crud; crud_sorting := crud_sorting crud;
          crud_where_clause := None; crud_delete_where_clause := None; crud_update_where_clause := None;
          crud_joins := []; crud_computed_fields := []; crud_insert_owner := None |}];
  cfg_stores := ∅; cfg_role_hierarchy := None; cfg_global_schemas := None |}.

Lemma validate_config_accepts_well_formed_witness : well_formed (two_databases "main").
Proof.
  pose proof (validate_config_accepts_well_formed sorted_iter sorted_iter_perm (two_databases "main")) as H.
  destruct H as (r&Hr&Hiff&_). apply Hiff. vm_compute in Hr. by injection Hr as <-.
Defined.

Definition mismatched_state : crud_state unit := {|
  cs_config := two_databases "other"; cs_db_pools := {["main" := PoolSqlite 0; "other" := PoolSqlite 1]};
  cs_schema_registry := ∅ |}.

Lemma accepted_crud_endpoint_witness :
  ∃ ep crud, ep ∈ cfg_endpoints (two_databases "other") ∧ ep_crud ep = Some crud ∧
  match get_db_context mismatched_state (crud_database crud) (crud_table crud) with
  | Ok (pool, ctx) =>
      cs_db_pools mismatched_state !! crud_database crud = Some pool ∧ tbl_name (dbx_table ctx) = crud_table crud ∧
      tbl_database (dbx_table ctx) = crud_database crud ∧ ∃ pk, find_pk_column (dbx_table ctx) = Ok pk
  | Err e =>
      (∃ t, t ∈ [posts] ∧ tbl_name t = crud_table crud) ∧
      (∀ t, t ∈ [posts] → tbl_name t = crud_table crud → tbl_database t ≠ crud_database crud) ∧
      ∃ m, e = Internal m ∧
      ∀ method path_params query body context (db : list (string * list value)),
        handle_crud (λ _ _, []) map_to_list no no no quoted map_to_list mismatched_state method
          path_params query body ep context db = (db, Err (Internal m))
  end.
Proof.
  eexists. refine ((λ H, let '(ex_intro _ c (conj H1 H2)) := H in ex_intro _ c (conj _ (conj H1 H2)))
    (accepted_crud_endpoint sorted_iter sorted_iter_perm (λ _ _, []) map_to_list no no no quoted
      map_to_list mismatched_state _ _ _ _ _)).
  - by left.
  - vm_compute. reflexivity.
  - intros name. cbn [cs_config mismatched_state cs_db_pools cfg_databases two_databases].
    rewrite !lookup_insert_is_Some, !lookup_singleton_is_Some. tauto.
  - by left.
  - reflexivity.
Defined.
