(* ===== verification/Loader.v ===== *)
(** * Loading the configuration

    src/src/config/loader.rs: the environment variables of a configuration
    file, the resolution of [$include] directives over several files, and the
    load of a configuration. The file system, the glob and YAML parsers and
    the environment are parameters; the set of files already included is
    passed along as the sources do. A file may include others, which is the
    one recursion that is not structural: it runs on fuel, and [None] is
    running out of it. *)

From S2P Require Import Prelude RustStr Json Config Errors Paths Validation.
Local Open Scope stdpp_scope.

(** ** Environment variables *)

Definition is_name_start (a : ascii) : bool := is_lower a || is_upper a || Ascii.eqb a "_".
Definition is_name_char (a : ascii) : bool := is_name_start a || is_digit a.

(** The longest prefix of characters that satisfy [p], and the rest. *)
Fixpoint span (p : ascii → bool) (s : string) : string * string :=
  match s with
  | String a s' => if p a then let '(x, y) := span p s' in (String a x, y) else ("", s)
  | "" => ("", "")
  end.

(** A reference at the start of a text: its name, its default, and the number
    of bytes it takes. *)
Definition env_at (s : string) : option (string * option string * nat) :=
  match strip_prefix "${" s with
  | Some (String a _ as r) =>
      if is_name_start a then
        let '(name, rest) := span is_name_char r in
        match strip_prefix "}" rest with
        | Some _ => Some (name, None, String.length name + 3)
        | None =>
            match strip_prefix ":-" rest with
            | Some rest' =>
                match split_once "}" rest' with
                | Some (def, _) => Some (name, Some def, String.length name + String.length def + 5)
                | None => None
                end
            | None => None
            end
        end
      else None
  | _ => None
  end.

Section environment.
Context (env_var : string → option string).

(** The replacement of a reference, and the message for one that has none. *)
Definition env_value (name : string) (def : option string) : string * list string :=
  match env_var name with
  | Some v => (v, [])
  | None =>
      match def with
      | Some d => (d, [])
      | None => ("${UNSET_" +:+ name +:+ "}",
                 ["Environment variable '" +:+ name +:+ "' is not set and has no default"])
      end
  end.

(** [Regex::replace_all]: [skip] counts the bytes of the current match that
    are still to be passed over.
    Source: config/loader.rs:25-30 [ENV_VAR_RE] *)
Fixpoint replace_env (skip : nat) (s : string) : string * list string :=
  match s with
  | "" => ("", [])
  | String a s' =>
      match skip with
      | S n => replace_env n s'
      | O =>
          match env_at s with
          | Some (name, def, len) =>
              let '(v, es) := env_value name def in
              let '(r, errors) := replace_env (len - 1) s' in (v +:+ r, es ++ errors)
          | None => let '(r, errors) := replace_env 0 s' in (String a r, errors)
          end
      end
  end.

(** Source: config/loader.rs [interpolate_env_vars] *)
Definition interpolate_env_vars (input : string) : result AppError string :=
  let '(result, errors) := replace_env 0 input in
  match errors with
  | [] => Ok result
  | _ => Err (ConfigurationError ("Environment variable interpolation failed:" +:+
           String (ascii_of_N 10) "  - " +:+ join (String (ascii_of_N 10) "  - ") errors))
  end.
End environment.

(** ** Includes *)

(** The order of paths: component by component. *)
Definition component_rank (c : component) : nat :=
  match c with RootDir => 0 | CurDir => 1 | ParentDir => 2 | Normal _ => 3 end.
Definition component_compare (a b : component) : comparison :=
  match a, b with
  | Normal s, Normal t => String.compare s t
  | _, _ => Nat.compare (component_rank a) (component_rank b)
  end.
Fixpoint comps_leb (a b : list component) : bool :=
  match a, b with
  | [], _ => true
  | _, [] => false
  | x :: a', y :: b' =>
      match component_compare x y with Lt => true | Gt => false | Eq => comps_leb a' b' end
  end.
Fixpoint insert_path (p : string) (l : list string) : list string :=
  match l with
  | [] => [p]
  | q :: l' => if comps_leb (components p) (components q) then p :: l else q :: insert_path p l'
  end.
Definition sort_paths (l : list string) : list string := foldr insert_path [] l.

Definition type_name (v : yaml) : string :=
  match v with
  | YNull => "null" | YBool _ => "boolean" | YNumber _ => "number" | YSequence _ => "sequence"
  | YMapping _ => "mapping" | YString _ => "string" | YTagged _ _ => "tagged"
  end.

Definition is_include_key (k : yaml) : bool :=
  match k with YString s => String.eqb s "$include" | _ => false end.
(** [map.get("$include")] *)
Definition get_include (m : list (yaml * yaml)) : option yaml :=
  snd <$> find_first (λ kv, is_include_key kv.1) m.

(** What a load threads through: the files included so far. *)
Definition including (A : Type) : Type := gset string → option (result AppError (A * gset string)).
Definition inc_ret {A} (a : A) : including A := λ visited, Some (Ok (a, visited)).
Definition inc_err {A} (e : AppError) : including A := λ _, Some (Err e).
Definition inc_bind {A B} (m : including A) (f : A → including B) : including B := λ visited,
  match m visited with
  | None => None
  | Some (Err e) => Some (Err e)
  | Some (Ok (a, visited')) => f a visited'
  end.
Definition inc_lift {A} (r : result AppError A) : including A := λ visited,
  Some ((λ a, (a, visited)) <$> r).

(** A loop that may stop with an error. *)
Fixpoint inc_map {A B} (f : A → including B) (l : list A) : including (list B) :=
  match l with
  | [] => inc_ret []
  | x :: l' => inc_bind (f x) (λ y, inc_bind (inc_map f l') (λ ys, inc_ret (y :: ys)))
  end.

Section includes.
(** [Path::canonicalize], [read_to_string], the [glob] crate (a bad pattern,
    or one result per match), [serde_yaml]'s parser and the equality of its
    values, and the environment. *)
Context (canonicalize : string → result string string).
Context (read_to_string : string → result string string).
Context (glob : string → result string (list (result string string))).
Context (parse_yaml : string → result string yaml).
Context (value_eqb : yaml → yaml → bool).
Context (env_var : string → option string).

(** The first error of a list of results, or all their values. *)
Fixpoint collect {E A} (l : list (result E A)) : result E (list A) :=
  match l with
  | [] => Ok []
  | r :: l' => x ← r; xs ← collect l'; Ok (x :: xs)
  end.

(** Source: config/loader.rs [resolve_glob] *)
Definition resolve_glob (pattern base_dir : string) : result AppError (list string) :=
  let full_pattern := path_join base_dir pattern in
  matches ← map_err (λ e, ConfigurationError
    ("Invalid $include glob pattern '" +:+ pattern +:+ "': " +:+ e)) (glob full_pattern);
  paths ← map_err (λ e, ConfigurationError
    ("Error reading $include glob '" +:+ pattern +:+ "': " +:+ e)) (collect matches);
  collect (map (λ p, map_err (λ e, ConfigurationError
    ("Failed to resolve include path " +:+ p +:+ ": " +:+ e)) (canonicalize p)) (sort_paths paths)).

(** The files a directive names: its value must be a string, it must be the
    only key, and a file must match. [where_] names the context in the error
    message. *)
Definition include_files (where_ : string) (m : list (yaml * yaml)) (include_val : yaml)
    (base_dir : string) : result AppError (list string) :=
  pattern ← match include_val with
            | YString s => Ok s
            | v => Err (ConfigurationError ("$include value must be a string, got " +:+ type_name v))
            end;
  if 1 <? length m then
    Err (ConfigurationError ("$include in a " +:+ where_ +:+ " must be the only key"))
  else
    files ← resolve_glob pattern base_dir;
    match files with
    | [] => Err (ConfigurationError ("$include pattern '" +:+ pattern +:+
              "' matched no files (resolved from " +:+ base_dir +:+ ")"))
    | _ => Ok files
    end.

(** [Mapping::insert] *)
Fixpoint mapping_insert (k v : yaml) (m : list (yaml * yaml)) : list (yaml * yaml) :=
  match m with
  | [] => [(k, v)]
  | (k', v') :: m' => if value_eqb k' k then (k', v) :: m' else (k', v') :: mapping_insert k v m'
  end.

(** The mappings of several files, merged.
    Source: config/loader.rs:159-178 [resolve_mapping_includes (merge)] *)
Fixpoint merge_files (load : string → including yaml) (files : list string)
    (merged : list (yaml * yaml)) : including yaml :=
  match files with
  | [] => inc_ret (YMapping merged)
  | file :: files' =>
      inc_bind (load file) (λ val,
        match val with
        | YMapping m => merge_files load files' (foldl (λ acc kv, mapping_insert kv.1 kv.2 acc) merged m)
        | _ => inc_err (ConfigurationError
                 ("$include in a mapping context requires YAML files that produce mappings, but " +:+
                  file +:+ " produced a non-mapping value"))
        end)
  end.

(** The directive of a mapping.
    Source: config/loader.rs [resolve_mapping_includes] *)
Definition include_mapping (load : string → including yaml) (base_dir : string)
    (m : list (yaml * yaml)) (include_val : yaml) : including yaml :=
  inc_bind (inc_lift (include_files "mapping" m include_val base_dir)) (λ files,
    match files with
    | [file] => load file
    | _ => merge_files load files []
    end).

(** The values a directive in a sequence stands for.
    Source: config/loader.rs:204-243 [resolve_sequence_includes (directive)] *)
Definition include_items (load : string → including yaml) (base_dir : string)
    (m : list (yaml * yaml)) (include_val : yaml) : including (list yaml) :=
  inc_bind (inc_lift (include_files "sequence item" m include_val base_dir)) (inc_map load).

Definition directive (item : yaml) : option (list (yaml * yaml) * yaml) :=
  match item with
  | YMapping m => (λ v, (m, v)) <$> get_include m
  | _ => None
  end.

(** Source: config/loader.rs [resolve_includes] *)
Fixpoint resolve_includes (load : string → including yaml) (base_dir : string) (v : yaml)
  : including yaml :=
  match v with
  | YMapping m =>
      match get_include m with
      | Some include_val => include_mapping load base_dir m include_val
      | None =>
          inc_bind
            ((fix go (m : list (yaml * yaml)) : including (list (yaml * yaml)) :=
                match m with
                | [] => inc_ret []
                | (k, v) :: m' =>
                    inc_bind (resolve_includes load base_dir v) (λ v',
                    inc_bind (go m') (λ rest, inc_ret ((k, v') :: rest)))
                end) m)
            (λ m', inc_ret (YMapping m'))
      end
  | YSequence l =>
      inc_bind
        ((fix go (l : list yaml) : including (list yaml) :=
            match l with
            | [] => inc_ret []
            | item :: l' =>
                inc_bind
                  (match directive item with
                   | Some (m, include_val) => include_items load base_dir m include_val
                   | None => inc_bind (resolve_includes load base_dir item) (λ v', inc_ret [v'])
                   end)
                  (λ vs, inc_bind (go l') (λ rest, inc_ret (vs ++ rest)))
            end) l)
        (λ l', inc_ret (YSequence l'))
  | other => inc_ret other
  end.

(** Source: config/loader.rs [load_yaml_with_includes] *)
Fixpoint load_yaml_with_includes (fuel : nat) (path : string) : including yaml := λ visited,
  match fuel with
  | O => None
  | S fuel =>
      if bool_decide (path ∈ visited) then
        Some (Err (ConfigurationError ("Circular $include detected: " +:+ path +:+
                    " was already included")))
      else
        inc_bind
          (inc_lift
            (raw ← map_err (λ e, ConfigurationError
               ("Failed to read config file " +:+ path +:+ ": " +:+ e)) (read_to_string path);
             interpolated ← interpolate_env_vars env_var raw;
             map_err (λ e, ConfigurationError
               ("Failed to parse YAML in " +:+ path +:+ ": " +:+ e)) (parse_yaml interpolated)))
          (resolve_includes (load_yaml_with_includes fuel) (default "." (path_parent path)))
          ({[path]} ∪ visited)
  end.

Context (from_value : yaml → result string AppConfig).
Context (iter : ∀ A : Type, gmap string A → list (string * A)).

(** Source: config/loader.rs [load_config] *)
Definition load_config (fuel : nat) (path : string) : option (result AppError AppConfig) :=
  match map_err (λ e, ConfigurationError ("Failed to resolve config path " +:+ path +:+ ": " +:+ e))
          (canonicalize path) with
  | Err e => Some (Err e)
  | Ok canonical =>
      match load_yaml_with_includes fuel canonical ∅ with
      | None => None
      | Some (Err e) => Some (Err e)
      | Some (Ok (value, _)) =>
          match map_err (λ e, ConfigurationError ("Failed to parse YAML config: " +:+ e))
                  (from_value value) with
          | Err e => Some (Err e)
          | Ok config =>
              match validate_config iter config with
              | None => None
              | Some (Err e) => Some (Err e)
              | Some (Ok tt) => Some (Ok config)
              end
          end
      end
  end.
End includes.
