(* ===== verification/LoaderSpec.v ===== *)
(** * What loading a configuration guarantees

    The interpolation of environment variables is substitution; the
    resolution of includes ends whatever the files include; and a file may be
    included only once, circular or not. *)

From S2P Require Import Prelude RustStr Json Config Errors Paths Validation ValidationSpec Loader.
Local Open Scope stdpp_scope.

(** ** Environment variables *)

(** A configuration text as literal text and references. *)
Inductive piece := Lit (s : string) | Ref (name : string) (def : option string).

Definition render (p : piece) : string :=
  match p with
  | Lit s => s
  | Ref name None => "${" +:+ name +:+ "}"
  | Ref name (Some d) => "${" +:+ name +:+ ":-" +:+ d +:+ "}"
  end.

Definition name_ok (name : string) : Prop :=
  all_ascii is_name_char name = true ∧ ∃ a r, name = String a r ∧ is_name_start a = true.

Definition piece_ok (p : piece) : Prop :=
  match p with
  | Lit s => contains_char "$" s = false
  | Ref name def => name_ok name ∧ ∀ d, def = Some d → contains_char "}" d = false
  end.

Lemma span_all p s t :
  all_ascii p s = true → (∀ a t', t = String a t' → p a = false) → span p (s +:+ t) = (s, t).
Proof.
  intros Hs Ht. induction s as [|a s IH].
  - rewrite app_nil_l. destruct t as [|a t]; [done|]. cbn. by rewrite (Ht a t eq_refl).
  - cbn in Hs. apply andb_true_iff in Hs as [Ha Hs]. rewrite app_cons. cbn. rewrite Ha.
    by rewrite (IH Hs).
Qed.

Lemma env_at_ref name def r :
  piece_ok (Ref name def) →
  env_at (render (Ref name def) +:+ r) = Some (name, def, String.length (render (Ref name def))).
Proof.
  intros [(Hn&a&n&->&Ha) Hd]. unfold env_at.
  destruct def as [d|]; cbn [render]; rewrite !app_assoc, strip_prefix_app, app_cons, Ha,
    <-app_cons.
  - rewrite (span_all is_name_char) by (done || by intros ? ? [= <- <-]).
    assert (strip_prefix "}" (":-" +:+ d +:+ "}" +:+ r) = None) as -> by done.
    rewrite strip_prefix_app, (proj2 (split_once_Some "}" _ d r)) by auto.
    do 3 f_equal. rewrite !str_length_app. cbn. lia.
  - rewrite (span_all is_name_char) by (done || by intros ? ? [= <- <-]).
    rewrite strip_prefix_app. do 3 f_equal. rewrite !str_length_app. cbn. lia.
Qed.

Section environment.
Context (env_var : string → option string).

Definition piece_value (p : piece) : string :=
  match p with Lit s => s | Ref name def => (env_value env_var name def).1 end.
Definition piece_errors (p : piece) : list string :=
  match p with Lit _ => [] | Ref name def => (env_value env_var name def).2 end.

Lemma replace_env_skip k s t :
  String.length s = k → replace_env env_var k (s +:+ t) = replace_env env_var 0 t.
Proof.
  revert k. induction s as [|a s IH]; intros k Hk; cbn in Hk; subst; [done|].
  rewrite app_cons. cbn [replace_env]. by apply IH.
Qed.

Lemma replace_env_lit s t :
  contains_char "$" s = false →
  replace_env env_var 0 (s +:+ t)
  = (s +:+ (replace_env env_var 0 t).1, (replace_env env_var 0 t).2).
Proof.
  induction s as [|a s IH]; intros Hs.
  { rewrite !app_nil_l. by destruct (replace_env env_var 0 t). }
  apply orb_false_iff in Hs as [Ha Hs]. rewrite !app_cons. cbn [replace_env].
  assert (env_at (String a (s +:+ t)) = None) as ->.
  { unfold env_at. destruct (strip_prefix "${" _) as [r|] eqn:Hp; [|done].
    apply strip_prefix_Some in Hp. cbn in Hp. injection Hp as -> _. done. }
  by rewrite (IH Hs).
Qed.

Lemma replace_env_ref name def t :
  piece_ok (Ref name def) →
  replace_env env_var 0 (render (Ref name def) +:+ t)
  = (piece_value (Ref name def) +:+ (replace_env env_var 0 t).1,
     piece_errors (Ref name def) ++ (replace_env env_var 0 t).2).
Proof.
  intros Hok. pose proof (env_at_ref name def t Hok) as Hat.
  assert (∃ b, render (Ref name def) = String "$" b) as [b Hb] by (destruct def; cbn; eauto).
  rewrite Hb, app_cons in Hat |- *. cbn [replace_env]. rewrite Hat. cbn [String.length].
  rewrite Nat.sub_succ, Nat.sub_0_r, replace_env_skip by done.
  cbn. destruct (env_value env_var name def), (replace_env env_var 0 t). done.
Qed.

(** The interpolation of environment variables is substitution. A text
    made of literal parts and references becomes the same text with each
    reference replaced by the variable's value, or its default when it is
    not set; the values are not looked at again. If a variable without a
    default is not set, the load is refused with one message for each such
    reference, in order. *)
Theorem interpolate_env_vars_spec (ps : list piece) :
  Forall piece_ok ps →
  interpolate_env_vars env_var (join "" (map render ps))
  = match flat_map piece_errors ps with
    | [] => Ok (join "" (map piece_value ps))
    | errors => Err (ConfigurationError ("Environment variable interpolation failed:" +:+
        String (ascii_of_N 10) "  - " +:+ join (String (ascii_of_N 10) "  - ") errors))
    end.
Proof.
  intros Hok. unfold interpolate_env_vars.
  assert (replace_env env_var 0 (join "" (map render ps))
          = (join "" (map piece_value ps), flat_map piece_errors ps)) as ->; [|by destruct (flat_map piece_errors ps)].
  induction Hok as [|p ps Hp _ IH]; [done|]. cbn [map flat_map]. rewrite !join_nil_sep_cons.
  destruct p as [s|name def].
  - cbn [render]. by rewrite replace_env_lit, IH.
  - by rewrite replace_env_ref, IH.
Qed.
End environment.

(** ** Includes *)

(** An induction principle for YAML values with their items and entries. *)
Section yaml_induction.
Context (P : yaml → Prop).
Context (scalar : ∀ v, match v with YSequence _ | YMapping _ => False | _ => True end → P v).
Context (sequence : ∀ l, Forall P l → P (YSequence l)).
Context (mapping : ∀ m, Forall (λ kv, P kv.2) m → P (YMapping m)).

Fixpoint yaml_induction (v : yaml) : P v :=
  match v with
  | YSequence l => sequence l
      ((fix go (l : list yaml) : Forall P l :=
          match l with
          | [] => Forall_nil P
          | x :: l' => Forall_cons P x l' (yaml_induction x) (go l')
          end) l)
  | YMapping m => mapping m
      ((fix go (m : list (yaml * yaml)) : Forall (λ kv, P kv.2) m :=
          match m with
          | [] => Forall_nil _
          | (k, v) :: m' => Forall_cons _ (k, v) m' (yaml_induction v) (go m')
          end) m)
  | other => scalar other I
  end.
End yaml_induction.

(** A computation that ends from every state in [Q], an upward closed set of
    states, and only adds files. *)
Definition ends {A} (Q : gset string → Prop) (m : including A) : Prop :=
  ∀ visited, Q visited →
    ∃ r, m visited = Some r ∧ ∀ a visited', r = Ok (a, visited') → visited ⊆ visited'.

Section ends.
Context (Q : gset string → Prop).
Context (Q_up : ∀ v v', Q v → v ⊆ v' → Q v').

Lemma ends_ret {A} (a : A) : ends Q (inc_ret a).
Proof. intros v _. eexists. split; [done|]. by intros ? ? [= _ <-]. Qed.

Lemma ends_err {A} e : ends Q (inc_err (A := A) e).
Proof. intros v _. by eexists. Qed.

Lemma ends_lift {A} (r : result AppError A) : ends Q (inc_lift r).
Proof. intros v _. eexists. split; [done|]. destruct r; by intros ? ? [= _ <-]. Qed.

Lemma ends_bind {A B} (m : including A) (f : A → including B) :
  ends Q m → (∀ a, ends Q (f a)) → ends Q (inc_bind m f).
Proof.
  intros Hm Hf v Hv. unfold inc_bind. destruct (Hm v Hv) as (r&->&Hr).
  destruct r as [[a v1]|e]; [|by eexists].
  specialize (Hr _ _ eq_refl). destruct (Hf a v1) as (r'&->&Hr'); [by eapply Q_up|].
  eexists. split; [done|]. intros b v2 Hb. transitivity v1; [done|]. by eapply Hr'.
Qed.

Lemma ends_map {A B} (f : A → including B) l :
  (∀ x, x ∈ l → ends Q (f x)) → ends Q (inc_map f l).
Proof.
  induction l as [|x l IH]; intros Hf; cbn; [apply ends_ret|].
  apply ends_bind; [apply Hf; by left|]. intros y.
  apply ends_bind; [apply IH; intros z ?; apply Hf; by right|]. intros ys. apply ends_ret.
Qed.
End ends.

Section includes.
Context (canonicalize : string → result string string).
Context (read_to_string : string → result string string).
Context (glob : string → result string (list (result string string))).
Context (parse_yaml : string → result string yaml).
Context (value_eqb : yaml → yaml → bool).
Context (env_var : string → option string).
(** The files there are: what a path resolves to. *)
Context (files : gset string).
Context (files_all : ∀ p q, canonicalize p = Ok q → q ∈ files).

Lemma collect_Ok {E A} (l : list (result E A)) (xs : list A) :
  collect l = Ok xs → Forall2 (λ r x, r = Ok x) l xs.
Proof.
  revert xs. induction l as [|r l IH]; cbn; intros xs H.
  - injection H as <-. constructor.
  - apply bind_Ok in H as (x&->&H). apply bind_Ok in H as (ys&Hys&[= <-]). by constructor; auto.
Qed.

Lemma resolve_glob_files pattern base l :
  resolve_glob canonicalize glob pattern base = Ok l → ∀ f, f ∈ l → f ∈ files.
Proof.
  unfold resolve_glob. intros H f Hf. apply bind_Ok in H as (ms&_&H). apply bind_Ok in H as (ps&_&H).
  apply collect_Ok in H. apply list_elem_of_lookup in Hf as [i Hi].
  destruct (Forall2_lookup_r _ _ _ _ _ H Hi) as (r&Hr&->).
  rewrite list_lookup_fmap in Hr. destruct (sort_paths ps !! i) as [p|]; [|done].
  injection Hr as Hr. apply map_err_Ok in Hr. eauto.
Qed.

Lemma include_files_files where_ m v base l :
  include_files canonicalize glob where_ m v base = Ok l → ∀ f, f ∈ l → f ∈ files.
Proof.
  unfold include_files. intros H. apply bind_Ok in H as (pattern&_&H). destruct (1 <? length m); [done|].
  apply bind_Ok in H as (fs&Hfs&H). destruct fs; [done|]. injection H as <-.
  by eapply resolve_glob_files.
Qed.

Section resolve.
Context (Q : gset string → Prop) (Q_up : ∀ v v', Q v → v ⊆ v' → Q v').
Context (load : string → including yaml) (load_ends : ∀ f, f ∈ files → ends Q (load f)).

(** A computation that starts by finding the files of a directive. *)
Lemma ends_files {A} where_ m v base (f : list string → including A) :
  (∀ l, (∀ x, x ∈ l → x ∈ files) → ends Q (f l)) →
  ends Q (inc_bind (inc_lift (include_files canonicalize glob where_ m v base)) f).
Proof.
  intros Hf visited Hv. unfold inc_bind, inc_lift.
  destruct (include_files _ _ _ _ _ _) as [l|e] eqn:Hl; cbn; [|by eexists].
  apply Hf; [|done]. by eapply include_files_files.
Qed.

Lemma merge_files_ends l merged :
  (∀ x, x ∈ l → x ∈ files) → ends Q (merge_files value_eqb load l merged).
Proof.
  revert merged. induction l as [|f l IH]; intros merged Hl; cbn [merge_files]; [apply ends_ret|].
  apply ends_bind; [done|apply load_ends, Hl; by left|]. intros v.
  destruct v; try apply ends_err. apply IH. intros x ?. apply Hl. by right.
Qed.

Lemma resolve_includes_ends base v :
  ends Q (resolve_includes canonicalize glob value_eqb load base v).
Proof.
  induction v as [v Hv|l IH|m IH] using yaml_induction.
  - destruct v; try done; apply ends_ret.
  - cbn [resolve_includes]. apply ends_bind; [done| |intros; apply ends_ret].
    induction IH as [|item l Hitem _ IHl]; [apply ends_ret|].
    apply ends_bind; [done| |intros vs; apply ends_bind; [done|apply IHl|intros; apply ends_ret]].
    destruct (directive item) as [[m iv]|].
    + apply ends_files. intros fs Hfs. apply ends_map; [done|]. intros x Hx. by apply load_ends, Hfs.
    + apply ends_bind; [done|apply Hitem|intros; apply ends_ret].
  - cbn [resolve_includes]. destruct (get_include m) as [iv|].
    + apply ends_files. intros [|f [|g fs]] Hfs; [apply ends_ret|apply load_ends, Hfs; by left|].
      by apply merge_files_ends.
    + apply ends_bind; [done| |intros; apply ends_ret].
      induction IH as [|[k v] m' Hv _ IHm]; [apply ends_ret|].
      apply ends_bind; [done|apply Hv|intros v']. apply ends_bind; [done|apply IHm|intros; apply ends_ret].
Qed.
End resolve.

Local Notation load :=
  (load_yaml_with_includes canonicalize read_to_string glob parse_yaml value_eqb env_var).

(** Loading ends: each nested load has one file less left to include. A file
    that was loaded counts as included. *)
Lemma load_runs fuel path visited :
  path ∈ files → size (files ∖ visited) < fuel →
  ∃ r, load fuel path visited = Some r ∧
    ∀ a visited', r = Ok (a, visited') → {[path]} ∪ visited ⊆ visited'.
Proof.
  revert path visited. induction fuel as [|fuel IH]; intros path visited Hpath Hv; [lia|].
  cbn [load_yaml_with_includes]. case_bool_decide as Hin; [by eexists|].
  assert (Hup : ∀ v v' : gset string,
    size (files ∖ v) < fuel → v ⊆ v' → size (files ∖ v') < fuel).
  { intros v v' Hs Hsub. assert (size (files ∖ v') ≤ size (files ∖ v)) by (apply subseteq_size; set_solver).
    lia. }
  assert (Hless : size (files ∖ ({[path]} ∪ visited)) < fuel).
  { assert (size (files ∖ ({[path]} ∪ visited)) < size (files ∖ visited))
      by (apply subset_size; set_solver). lia. }
  assert (Hload : ∀ f, f ∈ files → ends (λ v, size (files ∖ v) < fuel) (load fuel f)).
  { intros f Hf v Hv'. destruct (IH f v Hf Hv') as (r&Hr&Hsub). exists r. split; [done|].
    intros a v' ->. specialize (Hsub _ _ eq_refl). set_solver. }
  destruct (ends_bind (λ v, size (files ∖ v) < fuel) Hup
    (inc_lift (raw ← map_err (λ e, ConfigurationError
       ("Failed to read config file " +:+ path +:+ ": " +:+ e)) (read_to_string path);
     interpolated ← interpolate_env_vars env_var raw;
     map_err (λ e, ConfigurationError
       ("Failed to parse YAML in " +:+ path +:+ ": " +:+ e)) (parse_yaml interpolated)))
    (resolve_includes canonicalize glob value_eqb (load fuel) (default "." (path_parent path)))
    (ends_lift _ _) (λ v, resolve_includes_ends _ Hup _ Hload _ v) _ Hless) as (r&Hr&Hsub).
  exists r. split; [exact Hr|]. intros a v' ->. by specialize (Hsub _ _ eq_refl).
Qed.

Lemma load_config_runs (from_value : yaml → result string AppConfig)
    (iter : ∀ A : Type, gmap string A → list (string * A))
    (iter_perm : ∀ (A : Type) (m : gmap string A), iter A m ≡ₚ map_to_list m)
    (fuel : nat) (path : string) :
  size files < fuel →
  ∃ r, load_config canonicalize read_to_string glob parse_yaml value_eqb env_var from_value iter fuel
         path = Some r.
Proof.
  intros Hfuel. unfold load_config.
  destruct (canonicalize path) as [canonical|e] eqn:Hc; cbn [map_err]; [|eauto].
  destruct (load_runs fuel canonical ∅) as (r&->&_); [by eapply files_all| |].
  { assert (size (files ∖ ∅) ≤ size files) by (apply subseteq_size; set_solver). lia. }
  destruct r as [[v vis]|e]; [|eauto]. destruct (from_value v) as [config|e]; cbn [map_err]; [|eauto].
  destruct (validate_config_exact iter iter_perm config) as (r&->&_). destruct r as [[]|]; eauto.
Qed.

(** C29: loading a configuration ends. Whatever the files include, directly,
    through others or in a circle, fuel for one more than the files there
    are is enough for a configuration or an error. *)
Theorem load_config_ends (from_value : yaml → result string AppConfig)
    (iter : ∀ A : Type, gmap string A → list (string * A))
    (iter_perm : ∀ (A : Type) (m : gmap string A), iter A m ≡ₚ map_to_list m)
    (fuel : nat) (path : string) :
  size files < fuel →
  ∃ r, load_config canonicalize read_to_string glob parse_yaml value_eqb env_var from_value iter fuel
         path = Some r.
Proof. by apply load_config_runs. Qed.

(** An include directive for [pattern]. *)
Definition include (pattern : string) : yaml := YMapping [(YString "$include", YString pattern)].

(** A file can be included only once. A sequence that includes the same
    file in two places is refused, even when no file includes itself: either
    the file does not load by itself, or its second inclusion is reported as
    circular. *)
Theorem second_include_is_refused (fuel : nat) (path f pattern raw text : string) :
  size files < fuel → path ∈ files →
  read_to_string path = Ok raw → interpolate_env_vars env_var raw = Ok text →
  parse_yaml text = Ok (YSequence [include pattern; include pattern]) →
  resolve_glob canonicalize glob pattern (default "." (path_parent path)) = Ok [f] →
  (∃ e, load fuel f {[path]} = Some (Err e)) ∨
  load (S fuel) path ∅
  = Some (Err (ConfigurationError ("Circular $include detected: " +:+ f +:+ " was already included"))).
Proof.
  intros Hfuel Hpath Hraw Htext Hyaml Hglob.
  assert (Hf : f ∈ files) by (eapply resolve_glob_files; [exact Hglob|by left]).
  destruct (load_runs fuel f {[path]} Hf) as (r&Hr&Hsub).
  { assert (size (files ∖ {[path]}) ≤ size files) by (apply subseteq_size; set_solver). lia. }
  destruct r as [[v v1]|e]; [right|left; by exists e]. specialize (Hsub _ _ eq_refl).
  destruct fuel as [|fuel]; [lia|].
  remember (S fuel) as n eqn:Hn. cbn [load_yaml_with_includes].
  rewrite bool_decide_eq_false_2 by set_solver. rewrite Hraw. cbn [map_err mbind result_bind].
  rewrite Htext. cbn [mbind result_bind]. rewrite Hyaml. unfold inc_bind at 1, inc_lift at 1.
  cbn [map_err fmap result_map]. rewrite (right_id_L ∅ (∪)).
  cbn [resolve_includes directive include get_include find_first is_include_key fst snd fmap option_fmap
    option_map String.eqb Ascii.eqb Bool.eqb].
  unfold include_items, include_files. cbn [length Nat.ltb Nat.leb mbind result_bind]. rewrite Hglob.
  cbn [mbind result_bind]. unfold inc_bind, inc_lift, inc_ret. cbn [fmap result_map inc_map].
  unfold inc_bind, inc_ret. rewrite Hr. cbn [inc_map].
  rewrite Hn at 1. cbn [load_yaml_with_includes]. by rewrite bool_decide_eq_true_2 by set_solver.
Qed.
End includes.

(** ** Witnesses *)

Lemma interpolate_env_vars_spec_witness :
  interpolate_env_vars (λ v, if String.eqb v "HOST" then Some "h${X}" else None)
    "url: ${HOST}:${PORT:-80} # ${request.user.id}"
  = Ok "url: h${X}:80 # ${request.user.id}" ∧
  interpolate_env_vars (λ v, if String.eqb v "HOST" then Some "h${X}" else None)
    "url: ${HOST}:${PORT:-80}"
  = Ok "url: h${X}:80".
Proof.
  split; [vm_compute; reflexivity|].
  refine (interpolate_env_vars_spec (λ v, if String.eqb v "HOST" then Some "h${X}" else None)
    [Lit "url: "; Ref "HOST" None; Lit ":"; Ref "PORT" (Some "80")] _).
  repeat constructor; try (by eexists _, _); by intros ? [= <-].
Defined.

(** Two files: the first includes the second twice. *)
Definition disk : list (string * string) := [("/etc/app.yaml", "A"); ("/etc/t.yaml", "T")].
Definition disk_canonicalize (p : string) : result string string :=
  if existsb (λ f, String.eqb p f.1) disk then Ok p else Err "not found".
Definition disk_read (p : string) : result string string := ok_or "not found" (Json.assoc p disk).
Definition disk_glob (p : string) : result string (list (result string string)) := Ok [Ok p].
Definition disk_parse (text : string) : result string yaml :=
  if String.eqb text "A" then Ok (YSequence [include "t.yaml"; include "t.yaml"]) else Ok (YString "table").
Definition disk_files : gset string := {["/etc/app.yaml"; "/etc/t.yaml"]}.

Lemma disk_files_all p q : disk_canonicalize p = Ok q → q ∈ disk_files.
Proof.
  unfold disk_canonicalize, disk_files. destruct (existsb _ _) eqn:He; [|done]. intros [= <-].
  apply existsb_elem in He as (f&Hf&Hp). apply String.eqb_eq in Hp as ->. set_solver.
Qed.

Lemma load_config_ends_witness :
  ∃ r, load_config disk_canonicalize disk_read disk_glob disk_parse (λ _ _, false) (λ _, None)
         (λ _, Err "not a mapping") sorted_iter 3 "/etc/app.yaml" = Some r.
Proof.
  refine (load_config_ends disk_canonicalize disk_read disk_glob disk_parse (λ _ _, false) (λ _, None)
    disk_files disk_files_all (λ _, Err "not a mapping") sorted_iter sorted_iter_perm 3 "/etc/app.yaml" _).
  vm_compute. lia.
Defined.

Lemma second_include_is_refused_witness :
  (∃ e, load_yaml_with_includes disk_canonicalize disk_read disk_glob disk_parse (λ _ _, false)
          (λ _, None) 3 "/etc/t.yaml" {["/etc/app.yaml"]} = Some (Err e)) ∨
  load_yaml_with_includes disk_canonicalize disk_read disk_glob disk_parse (λ _ _, false) (λ _, None) 4
    "/etc/app.yaml" ∅
  = Some (Err (ConfigurationError
      ("Circular $include detected: " +:+ "/etc/t.yaml" +:+ " was already included"))).
Proof.
  refine (second_include_is_refused disk_canonicalize disk_read disk_glob disk_parse (λ _ _, false)
    (λ _, None) disk_files disk_files_all 3 "/etc/app.yaml" "/etc/t.yaml" "t.yaml" "A" "A" _ _ _ _ _ _);
    vm_compute; reflexivity.
Defined.
