(* ===== verification/DeserializeSpec.v ===== *)
(** * What reading a configuration guarantees

    The code derived for a struct, exactly; the root of a configuration file,
    section by section; the columns that are written back and read again; the
    ranges of the integers; and the keys whose omission does not do what the
    documentation says. The laws of a format state what the documentation of
    serde says of one; the values of the YAML library keep them. *)

From S2P Require Import Prelude RustStr Json Config Errors Paths Credentials Validation Loader Deserialize.
Local Open Scope stdpp_scope.
Local Open Scope serve_scope.

(** ** Formats *)

(** What a format does with values of the shape it is asked for. *)
Class FormatLaws (F : format) : Prop := {
  law_bool b : de_bool (direct F) (YBool b) = Ok b;
  law_str s : de_str (direct F) (YString s) = Ok s;
  law_variant s : de_variant (direct F) (YString s) = Ok s;
  law_none : de_option (direct F) YNull = Ok None;
  law_some v : v ≠ YNull → de_option (direct F) v = Ok (Some v);
  law_value v : de_value (direct F) v = Ok v;
  law_struct m : de_struct (direct F) (YMapping m) = Ok (inr m);
  law_unsigned largest v n : de_unsigned (direct F) largest v = Ok n → (0 ≤ n ≤ largest)%Z;
}.

(** The values of a file as a format: null is an empty sequence or mapping,
    and a tag is looked through. *)
Fixpoint untag (v : yaml) : yaml := match v with YTagged _ v' => untag v' | _ => v end.

Definition bad {A} (expected : string) : result string A := Err ("invalid type, expected " +:+ expected).

Definition read_unsigned (largest : Z) (v : yaml) : result string Z :=
  match v with
  | YNumber s =>
      match parse_digits s with
      | Some n => if (0 <=? n)%Z && (n <=? largest)%Z then Ok n else bad "an integer of the type"
      | None => bad "an integer"
      end
  | _ => bad "an integer"
  end.

Definition read_bool_value (v : yaml) : result string bool :=
  match v with YBool b => Ok b | _ => bad "a boolean" end.
Definition read_text (v : yaml) : result string string :=
  match v with YString s => Ok s | _ => bad "a string" end.
Definition read_maybe (v : yaml) : result string (option yaml) :=
  match v with YNull => Ok None | _ => Ok (Some v) end.

Definition yaml_values : deserializer := {|
  de_bool := read_bool_value ∘ untag; de_unsigned := λ n, read_unsigned n ∘ untag; de_str := read_text ∘ untag;
  de_option := read_maybe;
  de_seq := λ v, match untag v with YSequence l => Ok l | YNull => Ok [] | _ => bad "a sequence" end;
  de_map := λ v, match untag v with YMapping m => Ok m | YNull => Ok [] | _ => bad "a map" end;
  de_struct := λ v, match untag v with YMapping m => Ok (inr m) | YNull => Ok (inr []) | _ => bad "a map" end;
  de_variant := read_text; de_value := Ok;
  unknown_field := λ name _, "unknown field " +:+ name;
  unknown_variant := λ name _, "unknown variant " +:+ name;
  missing_field := λ name, "missing field " +:+ name;
  duplicate_field := λ name, "duplicate field " +:+ name;
  invalid_length := λ n, "invalid length " +:+ show_nat n;
  untagged_mismatch := λ name, "data did not match any variant of untagged enum " +:+ name;
|}.

(** A copy is what it is: null is no sequence, and a struct can be the
    sequence of its fields. *)
Definition copied_values : deserializer := {|
  de_bool := read_bool_value; de_unsigned := read_unsigned; de_str := read_text; de_option := read_maybe;
  de_seq := λ v, match v with YSequence l => Ok l | _ => bad "a sequence" end;
  de_map := λ v, match v with YMapping m => Ok m | _ => bad "a map" end;
  de_struct := λ v, match v with YMapping m => Ok (inr m) | YSequence l => Ok (inl l) | _ => bad "a struct" end;
  de_variant := read_text; de_value := Ok;
  unknown_field := unknown_field yaml_values; unknown_variant := unknown_variant yaml_values;
  missing_field := missing_field yaml_values; duplicate_field := duplicate_field yaml_values;
  invalid_length := invalid_length yaml_values; untagged_mismatch := untagged_mismatch yaml_values;
|}.

Definition yaml_format : format := {| direct := yaml_values; buffered := copied_values |}.

Lemma read_unsigned_range largest v n : read_unsigned largest v = Ok n → (0 ≤ n ≤ largest)%Z.
Proof.
  unfold read_unsigned. destruct v as [| | s| | | |]; try discriminate.
  destruct (parse_digits s) as [z|]; [|discriminate].
  destruct ((0 <=? z)%Z && (z <=? largest)%Z) eqn:Hz; [|discriminate]. intros [= <-]. bool_simpl. lia.
Qed.

Global Instance yaml_format_laws : FormatLaws yaml_format.
Proof. split; try done; [by intros []|]. intros largest v n. apply read_unsigned_range. Qed.

#[export] Hint Rewrite @law_bool @law_str @law_variant @law_none @law_value @law_struct using assumption : format.

(** ** Structs *)

Lemma entry_None name seen : entry name seen = None ↔ name ∉ seen.*1.
Proof.
  unfold entry. destruct (find_first _ seen) as [kv|] eqn:Hf; cbn.
  - apply find_first_elem in Hf as [Hin Heq%String.eqb_eq]. split; [done|]. intros []. subst.
    by apply list_elem_of_fmap_2.
  - rewrite find_first_None in Hf. split; [|done]. intros _ (kv&->&Hin)%list_elem_of_fmap.
    specialize (Hf _ Hin). by rewrite String.eqb_refl in Hf.
Qed.

(** Schemas are made of fields and their application: they look at the
    entries by name, and build a struct only from entries that can be read. *)
Class Composed {A} (s : schema A) : Prop := {
  composed_lookup F seen seen' :
    (∀ name, entry name seen = entry name seen') → sc_build s F seen = sc_build s F seen';
  composed_checks F seen a f v :
    sc_build s F seen = Ok a → f ∈ sc_fields s → entry (f_name f) seen = Some v → f_check f F v = Ok tt;
}.

Global Instance constructor_composed {A} (a : A) : Composed (constructor a).
Proof. split; [done|]. intros F seen a' f v _ H. by apply elem_of_nil in H. Qed.

Global Instance field_schema_composed {A} names (r : reader A) absent : Composed (field_schema names r absent).
Proof.
  split.
  - intros F seen seen' Heq. cbn. by rewrite Heq.
  - intros F seen a f v Hb ->%list_elem_of_singleton Hv. cbn in *. unfold f_name in Hv. cbn in Hv.
    rewrite Hv in Hb. by rewrite Hb.
Qed.

Global Instance apply_schema_composed {A B} (s : schema (A → B)) (t : schema A) :
  Composed s → Composed t → Composed (s <*> t).
Proof.
  intros [Hl Hc] [Hl' Hc']. split.
  - intros F seen seen' Heq. cbn. by rewrite (Hl F _ _ Heq), (Hl' F _ _ Heq).
  - intros F seen b f v Hb [Hf|Hf]%elem_of_app Hv; cbn in Hb; inv_ok; [by eapply Hc|by eapply Hc'].
Qed.

Global Instance required_with_composed {A} (r : reader A) name : Composed (required_with r name).
Proof. apply field_schema_composed. Qed.
Global Instance defaulted_with_composed {A} (r : reader A) name d : Composed (defaulted_with r name d).
Proof. apply field_schema_composed. Qed.
Global Instance required_composed `{Deserialize A} name : Composed (@required A _ name).
Proof. apply field_schema_composed. Qed.
Global Instance defaulted_composed `{Deserialize A} name d : Composed (@defaulted A _ name d).
Proof. apply field_schema_composed. Qed.

Global Instance AppConfig_schema_composed `{HashOrder} : Composed AppConfig_schema.
Proof. unfold AppConfig_schema. apply _. Qed.

Global Instance ColumnConfig_schema_composed : Composed ColumnConfig_schema.
Proof. unfold ColumnConfig_schema. apply _. Qed.

(** The field an entry belongs to. *)
Definition belongs (F : format) (fields : list field) (kv : yaml * yaml) (e : string * yaml) : Prop :=
  ∃ key f, de_str (direct F) kv.1 = Ok key ∧ find_first (answers_to key) fields = Some f ∧
    e = (f_name f, kv.2).

(** ... and can be read as. *)
Definition acceptable (F : format) (fields : list field) (kv : yaml * yaml) (e : string * yaml) : Prop :=
  ∃ key f, de_str (direct F) kv.1 = Ok key ∧ find_first (answers_to key) fields = Some f ∧
    f_check f F kv.2 = Ok tt ∧ e = (f_name f, kv.2).

Lemma read_entries_spec F fields m seen seen' :
  NoDup seen.*1 →
  read_entries F fields seen m = Ok seen' ↔
  ∃ es, Forall2 (acceptable F fields) m es ∧ NoDup (seen ++ es).*1 ∧ seen' = seen ++ es.
Proof.
  revert seen. induction m as [|[k v] m IH]; intros seen Hnd; cbn [read_entries].
  { split; [intros [= <-]; exists []; by rewrite List.app_nil_r|].
    intros (es&Hes&_&->). apply Forall2_nil_inv_l in Hes as ->. by rewrite List.app_nil_r. }
  split.
  - intros H. apply bind_Ok in H as (key&Hkey&H). destruct (find_first _ fields) as [f|] eqn:Hf; [|discriminate].
    destruct (entry (f_name f) seen) eqn:He; [discriminate|]. apply bind_Ok in H as ([]&Hcheck&H).
    apply entry_None in He. apply IH in H as (es&Hes&Hnd'&->).
    + exists ((f_name f, v) :: es). rewrite <-List.app_assoc in *. split_and!; [|done..].
      constructor; [|done]. by exists key, f.
    + rewrite fmap_app. cbn. apply list.NoDup_app. split_and!; [done| |apply NoDup_singleton].
      by intros x Hx ->%list_elem_of_singleton.
  - intros (es&Hes&Hnd'&->). apply Forall2_cons_inv_l in Hes as (e&es'&(key&f&Hkey&Hf&Hcheck&->)&Hes&->).
    cbn in Hkey, Hcheck. rewrite Hkey. cbn. rewrite Hf.
    rewrite fmap_app, fmap_cons in Hnd'. cbn in Hnd'. pose proof Hnd' as (_&Hdis&_)%list.NoDup_app.
    rewrite (proj2 (entry_None _ _)) by (intros Hin; by apply (Hdis _ Hin); left).
    rewrite Hcheck. cbn. apply IH.
    + rewrite fmap_app. cbn. apply list.NoDup_app. split_and!; [done| |apply NoDup_singleton].
      intros x Hx ->%list_elem_of_singleton. by apply (Hdis _ Hx); left.
    + exists es'. rewrite <-List.app_assoc. split_and!; [done| |done]. rewrite fmap_app. exact Hnd'.
Qed.

Lemma NoDup_keys_inj {A} (l : list (string * A)) k v v' :
  NoDup l.*1 → (k, v) ∈ l → (k, v') ∈ l → v = v'.
Proof.
  intros Hnd [i Hi]%list_elem_of_lookup [j Hj]%list_elem_of_lookup.
  enough (i = j) as ->; [congruence|]. eapply (NoDup_lookup l.*1); [done| |]; rewrite list_lookup_fmap.
  - by rewrite Hi.
  - by rewrite Hj.
Qed.

Lemma entry_Some name v seen : NoDup seen.*1 → entry name seen = Some v ↔ (name, v) ∈ seen.
Proof.
  intros Hnd. unfold entry. split.
  - intros ([n' v']&Hf&[= <-])%fmap_Some. apply find_first_elem in Hf as [Hin Heq%String.eqb_eq].
    cbn in Heq. by subst.
  - intros Hin. destruct (find_first (λ kv, String.eqb kv.1 name) seen) as [[n' v']|] eqn:Hf; cbn.
    + apply find_first_elem in Hf as [Hin' Heq%String.eqb_eq]. cbn in Heq. subst n'.
      f_equal. by apply (NoDup_keys_inj seen name).
    + rewrite find_first_None in Hf. specialize (Hf _ Hin). cbn in Hf. by rewrite String.eqb_refl in Hf.
Qed.

Section formats.
Context (F : format) `{!FormatLaws F}.

(** Reading a mapping, exactly: every entry belongs to a field, no field has
    two, and the struct can be built from them. Nothing depends on their
    order. *)
Lemma derive_struct_mapping {A} (s : schema A) `{!Composed s} m a :
  derive_struct s F (YMapping m) = Ok a ↔
  ∃ es, Forall2 (belongs F (sc_fields s)) m es ∧ NoDup es.*1 ∧ sc_build s F es = Ok a.
Proof.
  unfold derive_struct. rewrite law_struct. cbn. split.
  - intros H. apply bind_Ok in H as (seen&H&Hb).
    apply read_entries_spec in H as (es&Hes&Hnd&->); [|constructor]. exists es. split_and!; [|done..].
    apply (list.Forall2_impl _ _ _ _ Hes). intros kv e (key&f&?&?&_&?). by exists key, f.
  - intros (es&Hes&Hnd&Hb). rewrite (proj2 (read_entries_spec F (sc_fields s) m [] es (@NoDup_nil_2 string))); [done|].
    exists es. split_and!; [|done..]. rewrite Forall2_lookup. intros i.
    rewrite Forall2_lookup in Hes. specialize (Hes i).
    destruct (m !! i) as [kv|] eqn:Hm, (es !! i) as [e|] eqn:He; inversion Hes as [x y Hb'|]; subst; constructor.
    destruct Hb' as (key&f&Hkey&Hf&->). exists key, f. split_and!; [done..| |done].
    apply (composed_checks F es a f kv.2 Hb); [by apply find_first_elem in Hf as []|].
    apply entry_Some; [done|]. by apply list_elem_of_lookup_2 in He.
Qed.

(** The entries of a section in another order. *)
Lemma key_order_is_irrelevant {A} (s : schema A) `{!Composed s} m m' a :
  m ≡ₚ m' → derive_struct s F (YMapping m) = Ok a → derive_struct s F (YMapping m') = Ok a.
Proof.
  rewrite !(derive_struct_mapping s). intros Hm (es&Hes&Hnd&Hb).
  assert (∃ es', Forall2 (belongs F (sc_fields s)) m' es' ∧ es ≡ₚ es') as (es'&Hes'&Hp).
  { clear Hnd Hb. revert es Hes. induction Hm as [|x l l' _ IH|x y l|l1 l2 l3 _ IH1 _ IH2]; intros es Hes.
    - by exists es.
    - apply Forall2_cons_inv_l in Hes as (e&es1&He&Hes&->). destruct (IH _ Hes) as (es'&?&?).
      exists (e :: es'). split; by constructor.
    - apply Forall2_cons_inv_l in Hes as (e&es1&He&Hes&->).
      apply Forall2_cons_inv_l in Hes as (e2&es2&He2&Hes&->).
      exists (e2 :: e :: es2). split; [by repeat constructor|by constructor].
    - destruct (IH1 _ Hes) as (es1&H1&?). destruct (IH2 _ H1) as (es2&?&?). exists es2. split; [done|by etrans]. }
  exists es'. split_and!; [done| |].
  - by rewrite <-(fmap_Permutation fst _ _ Hp).
  - rewrite <-Hb. symmetry. apply composed_lookup. intros name.
    destruct (entry name es') as [v|] eqn:He.
    + apply entry_Some in He; [|by rewrite <-(fmap_Permutation fst _ _ Hp)]. apply entry_Some; [done|]. by rewrite Hp.
    + apply entry_None. apply entry_None in He. by rewrite (fmap_Permutation fst _ _ Hp).
Qed.

(** ** The root *)

(** The value under a key of a mapping. *)
Definition under (name : string) (m : list (yaml * yaml)) : option yaml :=
  snd <$> find_first (λ kv, bool_decide (de_str (direct F) kv.1 = Ok name)) m.

(** A field under its own name only. *)
Definition plain (f : field) : bool := bool_decide (f_names f = [f_name f]).

(** Among such fields an entry belongs to the one its key names. *)
Lemma belongs_plain fields kv e :
  forallb plain fields = true → belongs F fields kv e →
  de_str (direct F) kv.1 = Ok e.1 ∧ e.1 ∈ map f_name fields ∧ e.2 = kv.2.
Proof.
  intros Hplain (key&f&Hkey&Hf&->). apply find_first_elem in Hf as [Hin Ha].
  rewrite forallb_elem in Hplain. specialize (Hplain _ Hin). apply bool_decide_eq_true in Hplain.
  unfold answers_to in Ha. rewrite Hplain in Ha. cbn in Ha. rewrite orb_false_r in Ha.
  apply String.eqb_eq in Ha as ->. cbn. split_and!; [done| |done]. by apply list_elem_of_fmap_2.
Qed.

Lemma plain_belongs fields kv key :
  forallb plain fields = true → de_str (direct F) kv.1 = Ok key → key ∈ map f_name fields →
  belongs F fields kv (key, kv.2).
Proof.
  intros Hplain Hkey Hin. rewrite forallb_elem in Hplain.
  destruct (find_first (answers_to key) fields) as [f|] eqn:Hf.
  - exists key, f. split_and!; [done..|]. apply find_first_elem in Hf as [Hf Ha].
    specialize (Hplain _ Hf). apply bool_decide_eq_true in Hplain. unfold answers_to in Ha. rewrite Hplain in Ha.
    cbn in Ha. rewrite orb_false_r in Ha. apply String.eqb_eq in Ha. congruence.
  - rewrite find_first_None in Hf. apply list_elem_of_fmap in Hin as (f&->&Hin).
    specialize (Hf _ Hin). specialize (Hplain _ Hin). apply bool_decide_eq_true in Hplain.
    unfold answers_to in Hf. rewrite Hplain in Hf. cbn in Hf. by rewrite String.eqb_refl in Hf.
Qed.

Lemma under_entry fields m es name :
  forallb plain fields = true → Forall2 (belongs F fields) m es → entry name es = under name m.
Proof.
  intros Hplain. induction 1 as [|kv e m es Hb _ IH]; [done|].
  apply belongs_plain in Hb as (Hk&_&Hv); [|done]. unfold entry, under in *. cbn [find_first].
  destruct (String.eqb_spec e.1 name) as [Heq|Hne].
  - rewrite bool_decide_true by congruence. cbn. by rewrite Hv.
  - rewrite bool_decide_false by congruence. exact IH.
Qed.

(** What a section of the root is: what its value reads as, or the default. *)
Definition section_is {A} `{Deserialize A} (m : list (yaml * yaml)) (name : string) (d a : A) : Prop :=
  match under name m with
  | Some v => deserialize F v = Ok a
  | None => a = d
  end.

Definition section_names : list string :=
  ["server"; "logging"; "cors"; "rate_limit"; "databases"; "tables"; "auth"; "endpoints"; "stores";
   "role_hierarchy"; "global_schemas"].

Lemma build_constructor {A} (a b : A) es : sc_build (constructor a) F es = Ok b ↔ a = b.
Proof. cbn. split; [by intros [= ->]|by intros ->]. Qed.

Lemma build_apply {A B} (s : schema (A → B)) (t : schema A) es b :
  sc_build (s <*> t) F es = Ok b ↔ ∃ f a, sc_build s F es = Ok f ∧ sc_build t F es = Ok a ∧ f a = b.
Proof.
  cbn. split; [intros H; inv_ok; eauto|]. intros (f&a&->&Ht&<-). cbn. by rewrite Ht.
Qed.

Lemma build_defaulted `{Deserialize A} name d (a : A) m es fields :
  forallb plain fields = true → Forall2 (belongs F fields) m es →
  sc_build (defaulted name d) F es = Ok a ↔ section_is m name d a.
Proof.
  intros Hp Hb. unfold section_is. rewrite <-(under_entry _ _ _ name Hp Hb). cbn.
  destruct (entry name es); [done|]. cbn. split; [by intros [= ->]|by intros ->].
Qed.

Lemma keys_of fields m :
  forallb plain fields = true →
  (∃ es, Forall2 (belongs F fields) m es ∧ NoDup es.*1) ↔
  ∃ keys, Forall2 (λ kv k, de_str (direct F) kv.1 = Ok k) m keys ∧ NoDup keys ∧
    ∀ k, k ∈ keys → k ∈ map f_name fields.
Proof.
  intros Hplain. split.
  - intros (es&Hes&Hnd). exists es.*1. split_and!; [|done|].
    + apply Forall2_fmap_r. apply (list.Forall2_impl _ _ _ _ Hes). intros kv e Hb.
      by apply (belongs_plain fields kv e Hplain) in Hb as (?&_).
    + intros k (e&->&He)%list_elem_of_fmap. apply list_elem_of_lookup in He as [i He].
      destruct (Forall2_lookup_r _ _ _ _ _ Hes He) as (kv&_&Hb). by apply (belongs_plain fields kv e Hplain) in Hb as (_&?&_).
  - intros (keys&Hkeys&Hnd&Hin). exists (zip_with (λ kv k, (k, kv.2)) m keys). split.
    + clear Hnd. induction Hkeys as [|kv k m keys Hk _ IH]; cbn; constructor.
      * apply plain_belongs; [done..|]. apply Hin. by left.
      * apply IH. intros k' ?. apply Hin. by right.
    + enough ((zip_with (λ kv k, (k, kv.2)) m keys).*1 = keys) as -> by done.
      clear Hnd Hin. induction Hkeys as [|kv k m keys _ _ IH]; cbn; [done|]. by rewrite IH.
Qed.

(** C24: a file is read section by section. Reading its mapping succeeds exactly
    when its keys are names of sections, none of them twice, and every
    section that is there can be read; a section that is left out has its
    default. The order of the sections does not matter, and a misspelt one is
    an error. *)
Theorem root_reads_sections `{HashOrder} (m : list (yaml * yaml)) (c : AppConfig) :
  read_AppConfig F (YMapping m) = Ok c ↔
  (∃ keys, Forall2 (λ kv k, de_str (direct F) kv.1 = Ok k) m keys ∧ NoDup keys ∧
     ∀ k, k ∈ keys → k ∈ section_names) ∧
  section_is m "server" default_ServerConfig (cfg_server c) ∧
  section_is m "logging" default_LoggingConfig (cfg_logging c) ∧
  section_is m "cors" default_CorsConfig (cfg_cors c) ∧
  section_is m "rate_limit" default_RateLimitConfig (cfg_rate_limit c) ∧
  section_is m "databases" ∅ (cfg_databases c) ∧
  section_is m "tables" [] (cfg_tables c) ∧
  section_is m "auth" default_AuthConfig (cfg_auth c) ∧
  section_is m "endpoints" [] (cfg_endpoints c) ∧
  section_is m "stores" ∅ (cfg_stores c) ∧
  section_is m "role_hierarchy" None (cfg_role_hierarchy c) ∧
  section_is m "global_schemas" None (cfg_global_schemas c).
Proof.
  unfold read_AppConfig. rewrite (derive_struct_mapping AppConfig_schema).
  assert (forallb plain (sc_fields AppConfig_schema) = true) as Hplain by reflexivity.
  change section_names with (map f_name (sc_fields AppConfig_schema)). rewrite <-(keys_of _ m Hplain).
  split.
  - intros (es&Hes&Hnd&Hb). split; [by exists es|]. unfold AppConfig_schema in Hb.
    repeat lazymatch goal with
    | H : sc_build (apply_schema _ _) _ _ = Ok _ |- _ => apply build_apply in H as (?&?&H&?&<-)
    | H : sc_build (constructor _) _ _ = Ok _ |- _ => apply build_constructor in H; subst
    end. cbn [cfg_server cfg_logging cfg_cors cfg_rate_limit cfg_databases cfg_tables cfg_auth cfg_endpoints
              cfg_stores cfg_role_hierarchy cfg_global_schemas].
    split_and!; (eapply build_defaulted; [exact Hplain|exact Hes|done]).
  - intros ((es&Hes&Hnd)&Hs). exists es. split_and!; [done..|]. destruct c. cbn in Hs. unfold AppConfig_schema.
    destruct_and! Hs.
    repeat (apply build_apply; eexists _, _; split_and!; [|eapply build_defaulted; [exact Hplain|exact Hes|eassumption]|reflexivity]).
    by apply build_constructor.
Qed.
End formats.

(** ** Columns, written and read again *)

Section columns.
Context (F : format) `{!FormatLaws F}.

Lemma build_present `{Deserialize A} name d (a : A) v es :
  entry name es = Some v → deserialize F v = Ok a → sc_build (defaulted name d) F es = Ok a.
Proof. cbn. by intros ->. Qed.

Lemma read_write_ColumnType t : read_ColumnType F (write_ColumnType t) = Ok t.
Proof. unfold read_ColumnType, unit_enum, write_ColumnType. rewrite law_variant. by destruct t. Qed.

Lemma read_write_option {A} (r : reader A) (w : A → yaml) (o : option A) :
  (∀ a, w a ≠ YNull) → (∀ a, r F (w a) = Ok a) → read_option r F (write_option w o) = Ok o.
Proof.
  intros Hn Hr. unfold read_option. destruct o as [a|]; cbn; [|by rewrite law_none].
  rewrite law_some by apply Hn. cbn. by rewrite Hr.
Qed.

Lemma read_write_text o : read_option read_string F (write_option YString o) = Ok o.
Proof. apply read_write_option; [done|]. intros s. apply law_str. Qed.

(** An inline schema that is null is read as none. *)
Definition written_validation (v : option yaml) : option yaml :=
  match v with Some YNull => None | _ => v end.

Lemma read_write_validation v : read_option read_value F (write_option id v) = Ok (written_validation v).
Proof.
  unfold read_option. destruct v as [v|]; cbn; [|by rewrite law_none].
  destruct v; [by rewrite law_none|rewrite law_some by done; cbn; unfold read_value; by rewrite law_value..].
Qed.

Definition read_back (c : ColumnConfig) : ColumnConfig := {|
  col_name := col_name c; col_type := col_type c; col_primary_key := col_primary_key c;
  col_nullable := col_nullable c; col_default := col_default c; col_unique := col_unique c;
  col_indexed := col_indexed c; col_validation_schema := col_validation_schema c;
  col_validation := written_validation (col_validation c);
  col_validation_schema_ref := col_validation_schema_ref c |}.

(** C26: a column that is written and read again is the same column, unless its
    inline schema is null, which is read as no schema. *)
Theorem column_round_trip (c : ColumnConfig) :
  read_ColumnConfig F (write_ColumnConfig c) = Ok (read_back c) ∧
  (read_ColumnConfig F (write_ColumnConfig c) = Ok c ↔ col_validation c ≠ Some YNull).
Proof.
  assert (read_ColumnConfig F (write_ColumnConfig c) = Ok (read_back c)) as Hread.
  - unfold read_ColumnConfig, write_ColumnConfig. rewrite (derive_struct_mapping F ColumnConfig_schema).
    eexists [(_, _); (_, _); (_, _); (_, _); (_, _); (_, _); (_, _); (_, _); (_, _); (_, _)]. split_and!.
    + repeat constructor; (eexists _, _; split_and!; [apply law_str|reflexivity|reflexivity]).
    + apply (bool_decide_unpack _). vm_compute. exact I.
    + unfold ColumnConfig_schema, read_back.
      repeat (apply build_apply; eexists _, _; split_and!; [|eapply build_present; [reflexivity|]|reflexivity]);
        [by apply build_constructor|..]; first
        [apply law_str|apply read_write_ColumnType|apply law_bool|apply read_write_text|apply read_write_validation].
  - split; [done|]. rewrite Hread. destruct c as [? ? ? ? ? ? ? ? v ?]. unfold read_back. cbn. split.
    + intros [= Hv]. by destruct v as [[]|].
    + intros Hv. by destruct v as [[]|].
Qed.
End columns.

(** ** The integers of a configuration *)

Definition in_bits (bits n : Z) : Prop := (0 ≤ n < 2 ^ bits)%Z.
Definition on_some {A} (P : A → Prop) (o : option A) : Prop := ∀ a, o = Some a → P a.
Definition always {A} (a : A) : Prop := True.

(** Every integer of a section is one of its type. *)
Definition ranged_ServerConfig (c : ServerConfig) : Prop :=
  in_bits 16 (srv_port c) ∧ in_bits 64 (srv_workers c) ∧ in_bits 64 (srv_max_body_size c) ∧
  in_bits 64 (srv_keep_alive c) ∧ in_bits 64 (srv_shutdown_timeout c).
Definition ranged_LoggingConfig (c : LoggingConfig) : Prop := in_bits 64 (log_max_body_log_size c).
Definition ranged_CorsConfig (c : CorsConfig) : Prop := in_bits 64 (cors_max_age c).
Definition ranged_RateLimitConfig (c : RateLimitConfig) : Prop :=
  in_bits 64 (rl_max_requests c) ∧ in_bits 64 (rl_window_seconds c) ∧ in_bits 64 (rl_cleanup_threshold c).
Definition ranged_DatabaseConfig (c : DatabaseConfig) : Prop :=
  in_bits 32 (dbc_min_connections c) ∧ in_bits 32 (dbc_max_connections c) ∧ in_bits 64 (dbc_acquire_timeout c).
Definition ranged_PaginationConfig (c : PaginationConfig) : Prop :=
  in_bits 64 (pg_default_page_size c) ∧ in_bits 64 (pg_max_page_size c).
Definition ranged_JwtRevocationConfig (c : JwtRevocationConfig) : Prop :=
  on_some (in_bits 64) (jrc_cleanup_interval_secs c).
Definition ranged_JwtConfig (c : JwtConfig) : Prop :=
  in_bits 64 (jwt_expiry c) ∧ on_some ranged_JwtRevocationConfig (jwt_revocation c).
Definition ranged_OAuth2Config (c : OAuth2Config) : Prop :=
  in_bits 64 (oa_state_ttl c) ∧ in_bits 64 (oa_max_pending_states c).
Definition ranged_AuthConfig (c : AuthConfig) : Prop :=
  on_some ranged_JwtConfig (auth_jwt c) ∧ on_some ranged_OAuth2Config (auth_oauth2 c).
Definition ranged_CrudConfig (c : CrudConfig) : Prop := ranged_PaginationConfig (crud_pagination c).
Definition ranged_ProxyTimeouts (c : ProxyTimeouts) : Prop :=
  in_bits 64 (pt_connect c) ∧ in_bits 64 (pt_read c) ∧ in_bits 64 (pt_total c).
Definition ranged_ProxyConfig (c : ProxyConfig) : Prop :=
  ranged_ProxyTimeouts (px_timeouts c) ∧ in_bits 64 (px_max_response_size c).
Definition ranged_UploadConfig (c : UploadConfig) : Prop := in_bits 64 (up_max_size c).
Definition ranged_ImageResizeConfig (c : ImageResizeConfig) : Prop := in_bits 64 (ir_max_dimension c).
Definition ranged_StreamingConfig (c : StreamingConfig) : Prop :=
  in_bits 64 (str_buffer_size c) ∧ in_bits 64 (str_threshold c).
Definition ranged_StaticFilesConfig (c : StaticFilesConfig) : Prop :=
  in_bits 64 (sf_cache_max_age c) ∧ on_some ranged_UploadConfig (sf_upload c) ∧
  on_some ranged_ImageResizeConfig (sf_image_resize c) ∧ on_some ranged_StreamingConfig (sf_streaming c).
Definition ranged_SpaHostConfig (c : SpaHostConfig) : Prop :=
  in_bits 64 (spa_cache_max_age c) ∧ in_bits 16 (spa_fallback_status c).
Definition ranged_CustomResponseConfig (c : CustomResponseConfig) : Prop := in_bits 16 (cu_status c).
Definition ranged_FileStoreConfig (c : FileStoreConfig) : Prop :=
  on_some (λ t, in_bits 32 (fst_retention_days t)) (fs_trash c) ∧ ranged_PaginationConfig (fs_pagination c).
Definition ranged_MediaUploadConfig (c : MediaUploadConfig) : Prop :=
  in_bits 64 (mu_max_size c) ∧ on_some (λ v, in_bits 32 (mv_max_versions v)) (mu_versioning c) ∧
  on_some (λ g, Forall (λ p, in_bits 32 (mp_max_width p) ∧ in_bits 32 (mp_max_height p)) (mpg_previews g))
    (mu_preview_generation c).
Definition ranged_MediaImageResizeConfig (c : MediaImageResizeConfig) : Prop :=
  in_bits 64 (mir_max_dimension c) ∧
  Forall (λ s, in_bits 32 (mis_max_width s) ∧ in_bits 32 (mis_max_height s) ∧ in_bits 8 (mis_quality s))
    (mir_styles c).
Definition ranged_MediaConfig (c : MediaConfig) : Prop :=
  on_some ranged_MediaUploadConfig (media_upload c) ∧
  on_some (λ t, in_bits 32 (mt_retention_days t)) (media_trash c) ∧
  on_some (λ s, in_bits 64 (msh_default_ttl s) ∧ in_bits 64 (msh_max_ttl s)) (media_sharing c) ∧
  ranged_PaginationConfig (media_pagination c) ∧ on_some ranged_MediaImageResizeConfig (media_image_resize c).
Definition ranged_EndpointConfig (c : EndpointConfig) : Prop :=
  on_some ranged_CrudConfig (ep_crud c) ∧ on_some ranged_ProxyConfig (ep_proxy c) ∧
  on_some ranged_StaticFilesConfig (ep_static_files c) ∧ on_some ranged_SpaHostConfig (ep_spa_host c) ∧
  on_some ranged_MediaConfig (ep_media c) ∧ on_some ranged_FileStoreConfig (ep_file_store c) ∧
  on_some ranged_CustomResponseConfig (ep_custom_response c) ∧ on_some ranged_CorsConfig (ep_cors c) ∧
  on_some ranged_RateLimitConfig (ep_rate_limit c).
Definition ranged_AppConfig (c : AppConfig) : Prop :=
  ranged_ServerConfig (cfg_server c) ∧ ranged_LoggingConfig (cfg_logging c) ∧ ranged_CorsConfig (cfg_cors c) ∧
  ranged_RateLimitConfig (cfg_rate_limit c) ∧ map_Forall (λ _, ranged_DatabaseConfig) (cfg_databases c) ∧
  ranged_AuthConfig (cfg_auth c) ∧ Forall ranged_EndpointConfig (cfg_endpoints c).

Create HintDb ranges.

Section ranges.
Context (F : format) `{!FormatLaws F} `{HashOrder}.

(** What is read with [r], or built with [s], satisfies [P]. *)
Definition yields {A} (r : reader A) (P : A → Prop) : Prop := ∀ v a, r F v = Ok a → P a.
Definition builds {A} (s : schema A) (P : A → Prop) : Prop :=
  (∀ es a, sc_build s F es = Ok a → P a) ∧ (∀ i l al, sc_elements s F i l = Ok al → P al.1).

Lemma yields_always {A} (r : reader A) : yields r always.
Proof. done. Qed.

Lemma yields_unsigned bits : yields (unsigned bits) (in_bits bits).
Proof. intros v n Hn. apply law_unsigned in Hn. unfold in_bits. lia. Qed.

Lemma yields_struct {A} (s : schema A) P : builds s P → yields (derive_struct s) P.
Proof.
  intros [Hb He] v a. unfold derive_struct. intros Ha. apply bind_Ok in Ha as ([l|m]&_&Ha).
  - apply bind_Ok in Ha as (al&Hal&Ha). apply He in Hal. destruct al.2; [by injection Ha as <-|discriminate].
  - apply bind_Ok in Ha as (es&_&Ha). by apply Hb in Ha.
Qed.

Lemma builds_constructor {A} (a : A) (P : A → Prop) : P a → builds (constructor a) P.
Proof. intros HP. split; cbn; [by intros es b [= <-]|by intros i l al [= <-]]. Qed.

Lemma builds_apply {A B} (s : schema (A → B)) (t : schema A) (Q : A → Prop) (P : B → Prop) :
  builds t Q → builds s (λ f, ∀ a, Q a → P (f a)) → builds (s <*> t) P.
Proof.
  intros [Ht Ht'] [Hs Hs']. split; cbn.
  - intros es b Hb. inv_ok. eauto.
  - intros i l al Hal. inv_ok. cbn. eapply Hs'; eauto.
Qed.

Lemma builds_field {A} names (r : reader A) absent P :
  yields r P → on_some P absent → builds (field_schema names r absent) P.
Proof.
  intros Hr Ha. split; cbn.
  - intros es a Hb. destruct (entry _ es); [by eapply Hr|]. apply ok_or_Ok in Hb. by apply Ha.
  - intros i [|v l] al Hal; inv_ok; [by apply Ha|by eapply Hr].
Qed.

Lemma builds_field_default {A} names (r : reader A) d P :
  yields r P → P d → builds (field_schema names r (Some d)) P.
Proof. intros Hr Hd. apply builds_field; [done|]. by intros ? [= <-]. Qed.

Lemma builds_required_with {A} (r : reader A) name P : yields r P → builds (required_with r name) P.
Proof. intros Hr. by apply builds_field. Qed.
Lemma builds_defaulted_with {A} (r : reader A) name d P :
  yields r P → P d → builds (defaulted_with r name d) P.
Proof. by apply builds_field_default. Qed.
Lemma builds_required `{Deserialize A} name P : yields (A := A) deserialize P → builds (@required A _ name) P.
Proof. intros Hr. by apply builds_field. Qed.
Lemma builds_defaulted `{Deserialize A} name d P :
  yields deserialize P → P d → builds (@defaulted A _ name d) P.
Proof. by apply builds_field_default. Qed.

Lemma yields_option {A} (r : reader A) P : yields r P → yields (read_option r) (on_some P).
Proof.
  intros Hr v o Ho. unfold read_option in Ho. apply bind_Ok in Ho as ([v'|]&_&Ho); [|by injection Ho as <-].
  apply fmap_Ok in Ho as (a&Ha&->). intros ? [= <-]. by eapply Hr.
Qed.
Lemma yields_deserialize_option `{Deserialize A} P :
  yields (A := A) deserialize P → yields (A := option A) deserialize (on_some P).
Proof. apply yields_option. Qed.

Lemma read_all_Forall {A B} (f : A → result string B) (P : B → Prop) l bs :
  (∀ a b, f a = Ok b → P b) → read_all f l = Ok bs → Forall P bs.
Proof. intros Hf. revert bs. induction l as [|a l IH]; intros bs Hb; cbn in Hb; inv_ok; constructor; eauto. Qed.

Lemma yields_vec `{Deserialize A} P : yields (A := A) deserialize P → yields (A := list A) deserialize (Forall P).
Proof. intros Hr v l Hl. apply bind_Ok in Hl as (es&_&Hl). by eapply read_all_Forall; [|exact Hl]. Qed.

Lemma yields_hash_map `{Deserialize A} P :
  yields (A := A) deserialize P → yields (A := gmap string A) deserialize (map_Forall (λ _, P)).
Proof.
  intros Hr v m Hm. apply bind_Ok in Hm as (es&_&Hm). apply bind_Ok in Hm as (kvs&Hk&[= <-]).
  eapply (read_all_Forall _ (λ kv, P kv.2)) in Hk.
  2:{ intros kv e He. unfold read_entry in He. inv_ok. by eapply Hr. }
  assert (map_Forall (λ _, P) (∅ : gmap string A)) as Hm by apply map_Forall_empty. revert Hm.
  generalize (∅ : gmap string A). induction Hk as [|kv kvs HP _ IH]; intros m Hm; cbn; [done|].
  apply IH. by apply map_Forall_insert_2.
Qed.
End ranges.

#[export] Hint Resolve yields_unsigned builds_field_default builds_required_with builds_defaulted_with builds_required builds_defaulted
  yields_option yields_deserialize_option yields_vec yields_hash_map : ranges.
#[export] Hint Extern 100 (yields _ _ _) => apply yields_always : ranges.
#[export] Hint Extern 0 (always _) => exact I : ranges.
#[export] Hint Extern 1 (in_bits _ _) => split; vm_compute; congruence : ranges.
#[export] Hint Extern 2 (on_some _ _) => cbn; intros ? [= <-] : ranges.

#[export] Hint Extern 3 (_ ∧ _) => split : ranges.
#[export] Hint Extern 3 (ranged_PaginationConfig _) => split : ranges.
#[export] Hint Extern 3 (ranged_ProxyTimeouts _) => split : ranges.
#[export] Hint Extern 3 (Forall _ []) => constructor : ranges.

(** A struct, field by field. *)
Ltac ranged :=
  apply yields_struct; repeat (eapply builds_apply; [solve [eauto 10 with ranges]|]);
  apply builds_constructor; unfold always; intros; try red; cbn; try assumption; split_and?; auto;
  try solve [unfold on_some in *; naive_solver].

Section sections.
Context (F : format) `{!FormatLaws F} `{HashOrder}.
Local Notation reads A P := (yields F (A := A) deserialize P).

Lemma reads_ServerConfig : reads ServerConfig ranged_ServerConfig. Proof. ranged. Qed.
Lemma reads_LoggingConfig : reads LoggingConfig ranged_LoggingConfig. Proof. ranged. Qed.
Lemma reads_CorsConfig : reads CorsConfig ranged_CorsConfig. Proof. ranged. Qed.
Lemma reads_RateLimitConfig : reads RateLimitConfig ranged_RateLimitConfig. Proof. ranged. Qed.
Lemma reads_DatabaseConfig : reads DatabaseConfig ranged_DatabaseConfig. Proof. ranged. Qed.
Lemma reads_PaginationConfig : reads PaginationConfig ranged_PaginationConfig. Proof. ranged. Qed.
Lemma reads_JwtRevocationConfig : reads JwtRevocationConfig ranged_JwtRevocationConfig. Proof. ranged. Qed.
Lemma reads_OAuth2Config : reads OAuth2Config ranged_OAuth2Config. Proof. ranged. Qed.
Lemma reads_UploadConfig : reads UploadConfig ranged_UploadConfig. Proof. ranged. Qed.
Lemma reads_ImageResizeConfig : reads ImageResizeConfig ranged_ImageResizeConfig. Proof. ranged. Qed.
Lemma reads_StreamingConfig : reads StreamingConfig ranged_StreamingConfig. Proof. ranged. Qed.
Lemma reads_SpaHostConfig : reads SpaHostConfig ranged_SpaHostConfig. Proof. ranged. Qed.
Lemma reads_CustomResponseConfig : reads CustomResponseConfig ranged_CustomResponseConfig. Proof. ranged. Qed.
Lemma reads_ProxyTimeouts : reads ProxyTimeouts ranged_ProxyTimeouts. Proof. ranged. Qed.
Lemma reads_FileStoreTrashConfig : reads FileStoreTrashConfig (λ t, in_bits 32 (fst_retention_days t)).
Proof. ranged. Qed.
Lemma reads_MediaVersioningConfig : reads MediaVersioningConfig (λ v, in_bits 32 (mv_max_versions v)).
Proof. ranged. Qed.
Lemma reads_MediaPreviewConfig :
  reads MediaPreviewConfig (λ p, in_bits 32 (mp_max_width p) ∧ in_bits 32 (mp_max_height p)).
Proof. ranged. Qed.
Lemma reads_MediaImageResizeStyle :
  reads MediaImageResizeStyle
    (λ s, in_bits 32 (mis_max_width s) ∧ in_bits 32 (mis_max_height s) ∧ in_bits 8 (mis_quality s)).
Proof. ranged. Qed.
Lemma reads_MediaTrashConfig : reads MediaTrashConfig (λ t, in_bits 32 (mt_retention_days t)).
Proof. ranged. Qed.
Lemma reads_MediaSharingConfig :
  reads MediaSharingConfig (λ s, in_bits 64 (msh_default_ttl s) ∧ in_bits 64 (msh_max_ttl s)).
Proof. ranged. Qed.
End sections.

#[export] Hint Resolve reads_ServerConfig reads_LoggingConfig reads_CorsConfig reads_RateLimitConfig
  reads_DatabaseConfig reads_PaginationConfig reads_JwtRevocationConfig reads_OAuth2Config reads_UploadConfig
  reads_ImageResizeConfig reads_StreamingConfig reads_SpaHostConfig reads_CustomResponseConfig
  reads_ProxyTimeouts reads_FileStoreTrashConfig reads_MediaVersioningConfig reads_MediaPreviewConfig
  reads_MediaImageResizeStyle reads_MediaTrashConfig reads_MediaSharingConfig : ranges.

Section nested_sections.
Context (F : format) `{!FormatLaws F} `{HashOrder}.
Local Notation reads A P := (yields F (A := A) deserialize P).

Lemma reads_JwtConfig : reads JwtConfig ranged_JwtConfig. Proof. ranged. Qed.
Lemma reads_CrudConfig : reads CrudConfig ranged_CrudConfig. Proof. ranged. Qed.
Lemma reads_ProxyConfig : reads ProxyConfig ranged_ProxyConfig. Proof. ranged. Qed.
Lemma reads_StaticFilesConfig : reads StaticFilesConfig ranged_StaticFilesConfig. Proof. ranged. Qed.
Lemma reads_FileStoreConfig : reads FileStoreConfig ranged_FileStoreConfig. Proof. ranged. Qed.
Lemma reads_MediaPreviewGenerationConfig :
  reads MediaPreviewGenerationConfig
    (λ g, Forall (λ p, in_bits 32 (mp_max_width p) ∧ in_bits 32 (mp_max_height p)) (mpg_previews g)).
Proof. ranged. Qed.
Lemma reads_MediaImageResizeConfig : reads MediaImageResizeConfig ranged_MediaImageResizeConfig.
Proof. ranged. Qed.
End nested_sections.

#[export] Hint Resolve reads_JwtConfig reads_CrudConfig reads_ProxyConfig reads_StaticFilesConfig
  reads_FileStoreConfig reads_MediaPreviewGenerationConfig reads_MediaImageResizeConfig : ranges.
#[export] Hint Extern 3 (ranged_ServerConfig _) => split : ranges.
#[export] Hint Extern 3 (ranged_LoggingConfig _) => red : ranges.
#[export] Hint Extern 3 (ranged_CorsConfig _) => red : ranges.
#[export] Hint Extern 3 (ranged_RateLimitConfig _) => split : ranges.
#[export] Hint Extern 3 (ranged_AuthConfig _) => split : ranges.
#[export] Hint Extern 3 (map_Forall _ ∅) => apply map_Forall_empty : ranges.

Section root.
Context (F : format) `{!FormatLaws F} `{HashOrder}.
Local Notation reads A P := (yields F (A := A) deserialize P).

Lemma reads_MediaUploadConfig : reads MediaUploadConfig ranged_MediaUploadConfig. Proof. ranged. Qed.
Lemma reads_AuthConfig : reads AuthConfig ranged_AuthConfig. Proof. ranged. Qed.
Hint Resolve reads_MediaUploadConfig : ranges.
Lemma reads_MediaConfig : reads MediaConfig ranged_MediaConfig. Proof. ranged. Qed.
Hint Resolve reads_MediaConfig : ranges.
Lemma reads_EndpointConfig : reads EndpointConfig ranged_EndpointConfig. Proof. ranged. Qed.
Hint Resolve reads_EndpointConfig reads_AuthConfig : ranges.
Lemma reads_AppConfig : reads AppConfig ranged_AppConfig. Proof. ranged. Qed.

(** C25: the integers of a loaded configuration have the widths of their types,
    wherever they are in the file and whatever was left out: a port or a
    status fits 16 bits, a size of a pool or an image 32, a quality 8, and
    everything else 64. *)
Theorem loaded_config_in_range
    (canonicalize : string → result string string) (read_to_string : string → result string string)
    (glob : string → result string (list (result string string))) (parse_yaml : string → result string yaml)
    (value_eqb : yaml → yaml → bool) (env_var : string → option string) (fuel : nat) (path : string)
    (config : AppConfig) :
  load_config canonicalize read_to_string glob parse_yaml value_eqb env_var (deserialize F) hash_order fuel path
    = Some (Ok config) →
  ranged_AppConfig config.
Proof.
  unfold load_config. intros Hload.
  destruct (map_err _ (canonicalize path)) as [canonical|]; [|discriminate].
  destruct (load_yaml_with_includes _ _ _ _ _ _ _ _ _) as [[[v ?]|]|]; [|discriminate..].
  destruct (deserialize F v) as [c|] eqn:Hc; cbn in Hload; [|discriminate].
  destruct (validate_config hash_order c) as [[[]|]|]; [|discriminate..].
  injection Hload as <-. by eapply reads_AppConfig.
Qed.
End root.

(** ** What is left out *)

Section left_out.
Context (F : format) `{!FormatLaws F} `{HashOrder}.

(** An empty file is the default configuration. *)
Theorem empty_file_is_default : read_AppConfig F (YMapping []) = Ok default_AppConfig.
Proof. apply (root_reads_sections F). split; [|done].
  exists []. split; [constructor|]. split; [constructor|]. intros k Hk. by apply elem_of_nil in Hk.
Qed.

Global Instance OAuth2Config_schema_composed : Composed OAuth2Config_schema.
Proof. unfold OAuth2Config_schema. apply _. Qed.

(** An OAuth2 section that lists no scopes asks for none. The default of the
    section, [openid], which the documentation gives as the value, is never
    used: the attribute of the field hides it. *)
Theorem left_out_scopes_are_none (m : list (yaml * yaml)) (c : OAuth2Config) :
  under F "scopes" m = None → read_OAuth2Config F (YMapping m) = Ok c →
  oa_scopes c = [] ∧ oa_scopes c ≠ oa_scopes default_OAuth2Config.
Proof.
  intros Hm Hc. enough (oa_scopes c = []) as -> by done.
  unfold read_OAuth2Config in Hc. apply (derive_struct_mapping F OAuth2Config_schema) in Hc as (es&Hes&_&Hb).
  assert (forallb plain (sc_fields OAuth2Config_schema) = true) as Hplain by reflexivity.
  unfold OAuth2Config_schema in Hb.
  repeat lazymatch goal with
  | H : sc_build (apply_schema _ _) _ _ = Ok _ |- _ => apply build_apply in H as (?&?&H&?&<-)
  | H : sc_build (constructor _) _ _ = Ok _ |- _ => apply build_constructor in H; subst
  end. cbn [oa_scopes].
  match goal with H : sc_build (defaulted "scopes" _) _ _ = Ok _ |- _ =>
    apply (build_defaulted F "scopes" _ _ m es _ Hplain Hes) in H; unfold section_is in H; by rewrite Hm in H end.
Qed.

(** An entry of the API keys whose key was left out is accepted, and an empty
    header authenticates with its role. *)
Theorem left_out_key_admits_empty_header {HeaderMap : Type} (header_str : HeaderMap → string → option string)
    (headers : HeaderMap) (name role : string) (rest : list ApiKeyEntry) :
  header_str headers name = Some "" →
  ∃ e, read_ApiKeyEntry F (YMapping [(YString "role", YString role)]) = Ok e ∧
    validate_api_key header_str headers ∅ {| ak_location := LocHeader; ak_name := name; ak_keys := e :: rest |}
      = Ok (Some role).
Proof.
  intros Hh. exists {| ake_key := ""; ake_role := Some role |}. split.
  - unfold read_ApiKeyEntry, derive_struct. rewrite law_struct. cbn. rewrite law_str. cbn.
    unfold deserialize, option_deserialize, read_option. rewrite law_some by done. cbn.
    unfold deserialize, read_string. rewrite law_str. cbn. rewrite law_some by done. cbn. by rewrite law_str.
  - unfold validate_api_key. cbn. by rewrite Hh.
Qed.

(** The documentation names two algorithms for passwords; one is known. *)
Theorem bcrypt_is_refused :
  read_PasswordHashAlgorithm F (YString "bcrypt") = Err (unknown_variant (direct F) "bcrypt" ["argon2id"]).
Proof. unfold read_PasswordHashAlgorithm, unit_enum. by rewrite law_variant. Qed.

(** Roles that are null are no roles at all for a field that is a list, but
    an error for the roles of an endpoint. *)
Theorem null_roles_are_refused :
  read_RolesConfig yaml_format YNull = Err (untagged_mismatch yaml_values "RolesConfig") ∧
  read_vec read_string yaml_format YNull = Ok [].
Proof. done. Qed.
End left_out.

(** ** Witnesses *)

Global Instance sorted_order : HashOrder := λ A m, map_to_list m.

Definition sample_server : ServerConfig := {|
  srv_host := "0.0.0.0"; srv_port := 80; srv_workers := 0; srv_max_body_size := 10 * 1024 * 1024;
  srv_keep_alive := 75; srv_shutdown_timeout := 30; srv_tls := None |}.
Definition sample_file : list (yaml * yaml) :=
  [(YString "logging", YNull);
   (YString "server", YMapping [(YString "port", YNumber "80"); (YString "host", YString "0.0.0.0")])].
Definition sample_root : AppConfig := {|
  cfg_server := sample_server; cfg_logging := default_LoggingConfig; cfg_cors := default_CorsConfig;
  cfg_rate_limit := default_RateLimitConfig; cfg_databases := ∅; cfg_tables := []; cfg_auth := default_AuthConfig;
  cfg_endpoints := []; cfg_stores := ∅; cfg_role_hierarchy := None; cfg_global_schemas := None |}.

Lemma root_reads_sections_witness :
  section_is yaml_format sample_file "server" default_ServerConfig sample_server ∧
  under yaml_format "cors" sample_file = None.
Proof.
  split; [|reflexivity].
  assert (read_AppConfig yaml_format (YMapping sample_file) = Ok sample_root) as Hr by (vm_compute; reflexivity).
  apply (root_reads_sections yaml_format sample_file sample_root) in Hr. exact (proj1 (proj2 Hr)).
Defined.

Definition sample_column : ColumnConfig := {|
  col_name := "meta"; col_type := Jsonb; col_primary_key := false; col_nullable := true;
  col_default := Some "'{}'"; col_unique := false; col_indexed := true; col_validation_schema := None;
  col_validation := Some (YMapping [(YString "type", YString "object")]); col_validation_schema_ref := None |}.

Lemma column_round_trip_witness :
  read_ColumnConfig yaml_format (write_ColumnConfig sample_column) = Ok sample_column.
Proof. apply (column_round_trip yaml_format sample_column). discriminate. Defined.

Definition sample_load : option (result AppError AppConfig) :=
  load_config (λ p, Ok p) (λ _, Ok "") (λ _, Ok []) (λ _, Ok (YMapping sample_file)) (λ _ _, false) (λ _, None)
    (deserialize yaml_format) hash_order 2 "config.yaml".

Lemma loaded_config_in_range_witness : sample_load = Some (Ok sample_root) ∧ ranged_AppConfig sample_root.
Proof.
  assert (sample_load = Some (Ok sample_root)) as Hl by (vm_compute; reflexivity). split; [exact Hl|].
  exact (loaded_config_in_range yaml_format _ _ _ _ _ _ 2 "config.yaml" sample_root Hl).
Defined.
