(* ===== verification/Server.v ===== *)
(** * The state of the server, its start and its reload

    The application state of src/src/server/state.rs, the part of
    src/src/main.rs that builds it, and the health and reload endpoints of
    src/src/server/reload.rs. What the source keeps behind an [Arc] is one
    record that every request sees; the fields a clone of the state owns are
    another. The router keeps a clone and gives each request a clone of it. *)

From S2P Require Import Prelude RustStr Json Config Errors Pool Migration Roles Routing Credentials Stores Revocation Schemas Loader.
Local Open Scope stdpp_scope.

Section server.
Context {DB Store Validator : Type} `{!Pool DB, !PoolDriver DB}.
Context (iter : ∀ A : Type, gmap string A → list (string * A)).
Context (iter_tables : gmap nat (list nat) → list (nat * list nat)).
(** The file system, the parsers and the environment of [Loader] and
    [Schemas]. *)
Context (canonicalize : string → result string string).
Context (read_to_string : string → result string string).
Context (glob : string → result string (list (result string string))).
Context (parse_yaml : string → result string yaml).
Context (value_eqb : yaml → yaml → bool).
Context (env_var : string → option string).
Context (from_value : yaml → result string AppConfig).
Context (compile : value → result string Validator).
Context (from_str : string → result string value).
Context (to_value : yaml → result string value).
(** The storage backends. *)
Context (memory_new : Store) (native_new : string → Store).
Context (s3_new azure_new gcs_new : option (StoreConfig → result StorageError Store)).
Context (debug : string → string).

Local Notation create_store := (create_store memory_new native_new s3_new azure_new gcs_new).
Local Notation new_SchemaRegistry :=
  (new_SchemaRegistry compile canonicalize read_to_string from_str to_value iter).

(** The shared part.
    Source: server/state.rs:218-268 [AppState] *)
Record AppState := {
  as_config : AppConfig;
  as_db_pools : gmap string DatabasePool;
  as_endpoint_configs : endpoint_map;
  as_store_configs : gmap string StoreConfig;
  as_role_inheritance : gmap string (gset string);
  as_revocation_store : option RevocationStoreImpl;
  as_schema_registry : SchemaRegistry Validator;
}.

(** The part of a clone. *)
Record AppHandle := {
  ah_config_path : string;
  ah_admin_token : string;
  ah_stores : gmap string Store;
}.

(** ** Start *)

(** Source: server/state.rs [AppState::new] *)
Definition AppState_new (config : AppConfig) (config_path admin_token : string)
  : result AppError (AppHandle * AppState) :=
  stores ← build_stores_from_config memory_new native_new s3_new azure_new gcs_new debug iter config;
  schema_registry ← new_SchemaRegistry config config_path;
  Ok ({| ah_config_path := config_path; ah_admin_token := admin_token; ah_stores := stores |},
      {| as_config := config; as_db_pools := ∅; as_endpoint_configs := ∅;
         as_store_configs := cfg_stores config;
         as_role_inheritance := compute_role_inheritance (cfg_role_hierarchy config);
         as_revocation_store := None; as_schema_registry := schema_registry |}).

(** A [OnceLock] is set once.
    Source: server/state.rs [AppState::set_revocation_store] *)
Definition set_revocation_store (store : RevocationStoreImpl) (s : AppState) : result AppError AppState :=
  match as_revocation_store s with
  | Some _ => Err (Internal "Revocation store already initialized")
  | None => Ok {|
      as_config := as_config s; as_db_pools := as_db_pools s;
      as_endpoint_configs := as_endpoint_configs s; as_store_configs := as_store_configs s;
      as_role_inheritance := as_role_inheritance s; as_revocation_store := Some store;
      as_schema_registry := as_schema_registry s |}
  end.

(** [*pool_lock = pools] *)
Definition with_pools (pools : gmap string DatabasePool) (s : AppState) : AppState := {|
  as_config := as_config s; as_db_pools := pools;
  as_endpoint_configs := as_endpoint_configs s; as_store_configs := as_store_configs s;
  as_role_inheritance := as_role_inheritance s; as_revocation_store := as_revocation_store s;
  as_schema_registry := as_schema_registry s |}.

(** What [build_router] writes into the state. *)
Definition with_endpoint_configs (s : AppState) : AppState := {|
  as_config := as_config s; as_db_pools := as_db_pools s;
  as_endpoint_configs := build_endpoint_configs (cfg_endpoints (as_config s));
  as_store_configs := as_store_configs s;
  as_role_inheritance := as_role_inheritance s; as_revocation_store := as_revocation_store s;
  as_schema_registry := as_schema_registry s |}.

(** The databases of the configuration: the pools, the store of revoked
    tokens and the migrations.
    Source: main.rs:203-296 [main (databases)] *)
Definition start_databases (config : AppConfig) (db : DB)
  : DB * result AppError (gmap string DatabasePool * option RevocationStoreImpl) :=
  if bool_decide (cfg_databases config = ∅) then (db, Ok (∅, None)) else
  and_then (create_pools iter (cfg_databases config) db) (λ pools db,
  let close {A} (m : DB * result AppError A) : DB * result AppError A :=
    match m with (db, Err e) => (close_pools iter pools db, Err e) | _ => m end in
  let revocation_config := auth_jwt (cfg_auth config) ≫= jwt_revocation in
  and_then (close (start_revocation_store iter revocation_config pools db)) (λ revocation_store db,
  and_then (close (run_migrations iter_tables (cfg_tables config) pools (cfg_databases config) db)) (λ _ db,
  and_then (close (ensure_media_columns (cfg_endpoints config) pools db)) (λ _ db,
  (db, Ok (pools, revocation_store)))))).

(** The state the router is built from; the router adds the endpoint map.
    Source: main.rs:191-300 [main (state)] *)
Definition start_server (config : AppConfig) (config_path admin_token : string) (db : DB)
  : DB * result AppError (AppHandle * AppState) :=
  match AppState_new config config_path admin_token with
  | Err e => (db, Err e)
  | Ok (h, s) =>
      and_then (start_databases config db) (λ '(pools, revocation_store) db,
        (db,
          s ← match revocation_store with
              | Some store => set_revocation_store store (with_pools pools s)
              | None => Ok (with_pools pools s)
              end;
          Ok (h, with_endpoint_configs s)))
  end.

(** ** Health *)

(** Source: server/reload.rs [handle_health] *)
Definition handle_health (s : AppState) : value :=
  let count n := json_int (Z.of_nat n) in
  VObject [("databases_configured", count (size (cfg_databases (as_config s))));
           ("databases_connected", count (size (as_db_pools s)));
           ("endpoints_configured", count (length (cfg_endpoints (as_config s))));
           ("status", VString "healthy");
           ("stores_configured", count (size (cfg_stores (as_config s))))].

(** ** Reload *)

Record reload_response := { rr_status : Z; rr_body : value }.

Definition reload_error (status : Z) (code message : string) : reload_response := {|
  rr_status := status;
  rr_body := VObject [("error", VObject [("code", VString code); ("message", VString message)])] |}.

Definition reload_failed (what : string) (e : string) : reload_response :=
  reload_error 500 "reload_failed" (what +:+ ": " +:+ e).

(** The stores after a reload: those of the clone without the changed ones,
    and a new store for every configuration that is not unchanged.
    Source: server/reload.rs:169-204 [handle_reload (stores)] *)
Definition reload_stores (stores : gmap string Store) (unchanged changed_or_removed : list string)
    (new_store_configs : gmap string StoreConfig) : result StorageError (gmap string Store) :=
  if bool_decide (changed_or_removed = []) then Ok stores else
  try_fold (λ map '(name, store_config),
    if bool_decide (name ∈ unchanged) then Ok map else
    store ← create_store store_config; Ok (<[name := store]> map))
    (foldl (λ map name, delete name map) stores changed_or_removed)
    (iter _ new_store_configs).

(** What a reload prepares before it changes the state: pools, migrated
    tables and stores.
    Source: server/reload.rs:114-204 [handle_reload (preparation)] *)
Definition prepare_reload (h : AppHandle) (s : AppState) (config : AppConfig) (db : DB)
  : DB * result reload_response (gmap string DatabasePool * gmap string Store) :=
  let fail {A} (what : string) (m : DB * result AppError A) : DB * result reload_response A :=
    (m.1, map_err (λ e, reload_failed what (show_AppError e)) m.2) in
  let '(unchanged, changed) := compute_store_changes iter (as_store_configs s) (cfg_stores config) in
  and_then (fail "Database pool creation failed" (create_pools iter (cfg_databases config) db)) (λ pools db,
  let close {A} (m : DB * result reload_response A) : DB * result reload_response A :=
    match m with (db, Err e) => (close_pools iter pools db, Err e) | _ => m end in
  and_then (close (fail "Migration failed"
    (run_migrations iter_tables (cfg_tables config) pools (cfg_databases config) db))) (λ _ db,
  and_then (close (fail "Failed to ensure media columns"
    (ensure_media_columns (cfg_endpoints config) pools db))) (λ _ db,
  match reload_stores (ah_stores h) unchanged changed (cfg_stores config) with
  | Err e => (db, Err (reload_failed "Store creation failed" (show_StorageError debug e)))
  | Ok stores => (db, Ok (pools, stores))
  end))).

(** The state after the swap: configuration, pools and store configurations.
    Source: server/reload.rs:208-220 [handle_reload (swap)] *)
Definition swapped (s : AppState) (config : AppConfig) (pools : gmap string DatabasePool) : AppState := {|
  as_config := config; as_db_pools := pools; as_endpoint_configs := as_endpoint_configs s;
  as_store_configs := cfg_stores config; as_role_inheritance := as_role_inheritance s;
  as_revocation_store := as_revocation_store s; as_schema_registry := as_schema_registry s |}.

(** Source: server/reload.rs:222-239 [handle_reload (registry)] *)
Definition with_registry (s : AppState) (registry : SchemaRegistry Validator) : AppState := {|
  as_config := as_config s; as_db_pools := as_db_pools s; as_endpoint_configs := as_endpoint_configs s;
  as_store_configs := as_store_configs s; as_role_inheritance := as_role_inheritance s;
  as_revocation_store := as_revocation_store s; as_schema_registry := registry |}.

Definition with_stores (h : AppHandle) (stores : gmap string Store) : AppHandle := {|
  ah_config_path := ah_config_path h; ah_admin_token := ah_admin_token h; ah_stores := stores |}.

(** The body of a successful reload.
    Source: server/reload.rs:249-260 [handle_reload (answer)] *)
Definition reloaded (config : AppConfig) : reload_response :=
  let count n := json_int (Z.of_nat n) in
  {| rr_status := 200;
     rr_body := VObject [("status", VString "reloaded");
       ("summary", VObject [("databases", count (size (cfg_databases config)));
                            ("endpoints", count (length (cfg_endpoints config)));
                            ("tables", count (length (cfg_tables config)))])] |}.

(** The bearer token of the request is the admin token, compared in constant
    time. *)
Definition admin_authorized (admin_token : string) (authorization : option string) : bool :=
  match authorization ≫= strip_prefix "Bearer " with
  | Some t => bool_decide (t = admin_token)
  | None => false
  end.

(** [h] is the clone of the request; its new stores are returned with it. The
    fuel is that of [load_config].
    Source: server/reload.rs [handle_reload] *)
Definition handle_reload (fuel : nat) (h : AppHandle) (s : AppState) (db : DB)
    (authorization : option string) : option (AppHandle * AppState * DB * reload_response) :=
  if negb (admin_authorized (ah_admin_token h) authorization) then
    Some (h, s, db, reload_error 401 "unauthorized" "Invalid or missing admin token") else
  match load_config canonicalize read_to_string glob parse_yaml value_eqb env_var from_value iter fuel
          (ah_config_path h) with
  | None => None
  | Some (Err e) =>
      Some (h, s, db, reload_error 400 "reload_failed" ("Config reload failed: " +:+ show_AppError e))
  | Some (Ok config) => Some
      match prepare_reload h s config db with
      | (db, Err response) => (h, s, db, response)
      | (db, Ok (pools, stores)) =>
          let old_pools := as_db_pools s in
          let h := with_stores h stores in
          let s := swapped s config pools in
          match new_SchemaRegistry (as_config s) (ah_config_path h) with
          | Err e =>
              (h, s, db, reload_failed "Schema registry rebuild failed" (show_AppError e))
          | Ok registry =>
              (h, with_registry s registry, close_pools iter old_pools db, reloaded config)
          end
      end
  end.

(** A request to the reload endpoint: the handler works on a clone of the
    router's state, which is dropped when it returns. *)
Definition reload_request (fuel : nat) (router : AppHandle) (s : AppState) (db : DB)
    (authorization : option string) : option (AppState * DB * reload_response) :=
  match handle_reload fuel router s db authorization with
  | None => None
  | Some (_, s, db, response) => Some (s, db, response)
  end.
End server.
Arguments AppState : clear implicits.
Arguments AppHandle : clear implicits.

(** ** Requests

    What a server is asked to do while it runs, one request after another. A
    reload reads the files and the environment as they are at that moment;
    every other request may work on the databases and on the tokens that are
    revoked in memory. *)

(** The files and the environment at some moment. *)
Record surroundings := {
  sr_canonicalize : string → result string string;
  sr_read_to_string : string → result string string;
  sr_glob : string → result string (list (result string string));
  sr_env_var : string → option string;
}.

Inductive server_request {DB : Type} :=
| ReloadRequest (env : surroundings) (authorization : option string)
| Work (on_revoked : InMemoryRevocationStore → InMemoryRevocationStore) (on_databases : DB → DB).
Arguments server_request : clear implicits.

Section requests.
Context {DB Store Validator : Type} `{!Pool DB, !PoolDriver DB}.
Context (iter : ∀ A : Type, gmap string A → list (string * A)).
Context (iter_tables : gmap nat (list nat) → list (nat * list nat)).
Context (parse_yaml : string → result string yaml).
Context (value_eqb : yaml → yaml → bool).
Context (from_value : yaml → result string AppConfig).
Context (compile : value → result string Validator).
Context (from_str : string → result string value).
Context (to_value : yaml → result string value).
Context (memory_new : Store) (native_new : string → Store).
Context (s3_new azure_new gcs_new : option (StoreConfig → result StorageError Store)).
Context (debug : string → string).

(** A store in memory is shared by its clones; which store there is, and
    whether there is one, was decided at the start. *)
Definition with_revoked (f : InMemoryRevocationStore → InMemoryRevocationStore) (s : AppState Validator)
  : AppState Validator := {|
  as_config := as_config s; as_db_pools := as_db_pools s; as_endpoint_configs := as_endpoint_configs s;
  as_store_configs := as_store_configs s; as_role_inheritance := as_role_inheritance s;
  as_revocation_store := match as_revocation_store s with
                         | Some (InMemory store) => Some (InMemory (f store))
                         | other => other
                         end;
  as_schema_registry := as_schema_registry s |}.

(** The state after a request, and the answer to a reload. *)
Definition answer_request (fuel : nat) (router : AppHandle Store) (req : server_request DB)
    (x : AppState Validator * DB) : option (AppState Validator * DB * option reload_response) :=
  match req with
  | ReloadRequest env authorization =>
      '(s, db, response) ← reload_request iter iter_tables (sr_canonicalize env) (sr_read_to_string env)
        (sr_glob env) parse_yaml value_eqb (sr_env_var env) from_value compile from_str to_value memory_new
        native_new s3_new azure_new gcs_new debug fuel router x.1 x.2 authorization;
      Some (s, db, Some response)
  | Work on_revoked on_databases => Some (with_revoked on_revoked x.1, on_databases x.2, None)
  end.

Fixpoint serve_requests (fuel : nat) (router : AppHandle Store) (requests : list (server_request DB))
    (x : AppState Validator * DB) : option (AppState Validator * DB) :=
  match requests with
  | [] => Some x
  | req :: requests =>
      '(s, db, _) ← answer_request fuel router req x; serve_requests fuel router requests (s, db)
  end.
End requests.
