(* ===== verification/ServerSpec.v ===== *)
(** * What a running server keeps

    The outcomes of a reload, the invariants of the states that are reached
    by starting a server and reloading its configuration, and what a reload
    does to the tokens that were revoked. *)

From S2P Require Import Prelude RustStr Json Config Errors SqlHelpers Statements Pool Migration Roles Routing Credentials Stores Revocation Schemas Validation Loader LoaderSpec Crud CrudSpec ValidationSpec Server.
Local Open Scope stdpp_scope.

(** ** Pools *)

Section pools.
Context {DB : Type} `{!Pool DB, !PoolDriver DB}.
Context (iter : ∀ A : Type, gmap string A → list (string * A)).
Context (iter_perm : ∀ (A : Type) (m : gmap string A), iter A m ≡ₚ map_to_list m).

(** A closed pool stays closed and answers no query. *)
Record closing_laws (closed : DatabasePool → DB → Prop) : Prop := {
  close_closes : ∀ p db, closed p (close p db);
  close_keeps : ∀ p q db, closed p db → closed p (close q db);
  closed_fails : ∀ p sql ps db, closed p db → is_err (fetch_optional_json p sql ps db) = true;
}.

Lemma close_pools_closes closed pools db name p :
  closing_laws closed → pools !! name = Some p → closed p (close_pools iter pools db).
Proof.
  intros Hlaws Hp. unfold close_pools.
  assert (Hin : (name, p) ∈ iter _ pools) by (rewrite iter_perm; by apply elem_of_map_to_list).
  assert (Hkeep : ∀ l db, closed p db → closed p (foldl (λ db (np : string * DatabasePool), close np.2 db) db l)).
  { induction l as [|[n q] l IH]; intros d Hd; cbn; [done|]. by apply IH, (close_keeps _ Hlaws). }
  revert db. induction (iter _ pools) as [|[n q] l IH]; intros db; [by apply elem_of_nil in Hin|]. cbn.
  apply elem_of_cons in Hin as [[= <- <-]|Hin]; [by apply Hkeep, (close_closes _ Hlaws)|by apply IH].
Qed.

(** There is a pool for every database. *)
Lemma connect_all_dom l pools db db' pools' :
  connect_all l pools db = (db', Ok pools') → dom pools' = list_to_set l.*1 ∪ dom pools.
Proof.
  revert pools db. induction l as [|[name config] l IH]; intros pools db; cbn.
  { intros [= _ <-]. set_solver. }
  destruct (connect config db) as [db1 [pool|e]]; [|done]. intros H%IH. rewrite H, dom_insert_L. set_solver.
Qed.

(** The pools are what connecting to the databases of a configuration gives,
    with the databases as they are at that moment. *)
Definition opens (config : AppConfig) (db : DB) (pools : gmap string DatabasePool) : Prop :=
  ∃ db', create_pools iter (cfg_databases config) db = (db', Ok pools).

Lemma create_pools_dom databases db db' pools :
  create_pools iter databases db = (db', Ok pools) → dom pools = dom databases.
Proof.
  intros H%connect_all_dom. rewrite H, dom_empty_L, union_empty_r_L. apply set_eq. intros name.
  rewrite elem_of_list_to_set, list_elem_of_fmap, elem_of_dom. split.
  - intros ([n c]&->&Hin). rewrite iter_perm in Hin. apply elem_of_map_to_list in Hin. by exists c.
  - intros [c Hc]. exists (name, c). split; [done|]. rewrite iter_perm. by apply elem_of_map_to_list.
Qed.

Lemma opens_dom config db pools : opens config db pools → dom pools = dom (cfg_databases config).
Proof. intros [db' H]. by eapply create_pools_dom. Qed.

Lemma opens_nothing config db : cfg_databases config = ∅ → opens config db ∅.
Proof.
  intros He. exists db. unfold create_pools. rewrite He.
  assert (iter _ (∅ : gmap string DatabaseConfig) = []) as ->; [|done].
  apply Permutation_nil_r. by rewrite iter_perm, map_to_list_empty.
Qed.
End pools.

(** An [and_then] that succeeds. *)
Lemma and_then_Ok {S E A B} (m : S * result E A) (f : A → S → S * result E B) s b :
  and_then m f = (s, Ok b) → ∃ s1 a, m = (s1, Ok a) ∧ f a s1 = (s, Ok b).
Proof. destruct m as [s1 [a|e]]; cbn; [eauto|done]. Qed.

(** ** Reload *)

Section server.
Context {DB Store Validator : Type} `{!Pool DB, !PoolDriver DB}.
Context (iter : ∀ A : Type, gmap string A → list (string * A)).
Context (iter_perm : ∀ (A : Type) (m : gmap string A), iter A m ≡ₚ map_to_list m).
Context (iter_tables : gmap nat (list nat) → list (nat * list nat)).
Context (canonicalize : string → result string string).
Context (read_to_string : string → result string string).
Context (glob : string → result string (list (result string string))).
Context (parse_yaml : string → result string yaml).
Context (value_eqb : yaml → yaml → bool).
Context (env_var : string → option string).
Context (from_value : yaml → result string AppConfig).
Context (compile : value → result string Validator).
Context (from_str : string → result string value).
Context (to_value : yaml → result string value).
Context (memory_new : Store) (native_new : string → Store).
Context (s3_new azure_new gcs_new : option (StoreConfig → result StorageError Store)).
Context (debug : string → string).

Local Notation load := (load_config canonicalize read_to_string glob parse_yaml value_eqb env_var
  from_value iter).
Local Notation registry_of := (new_SchemaRegistry compile canonicalize read_to_string from_str to_value iter).
Local Notation reload := (handle_reload iter iter_tables canonicalize read_to_string glob parse_yaml
  value_eqb env_var from_value compile from_str to_value memory_new native_new s3_new azure_new gcs_new
  debug).
Local Notation request := (reload_request iter iter_tables canonicalize read_to_string glob parse_yaml
  value_eqb env_var from_value compile from_str to_value memory_new native_new s3_new azure_new gcs_new
  debug).
Local Notation prepare := (prepare_reload (Validator := Validator) iter iter_tables memory_new native_new
  s3_new azure_new gcs_new debug).
Local Notation start := (start_server iter iter_tables canonicalize read_to_string compile from_str
  to_value memory_new native_new s3_new azure_new gcs_new debug).

(** The ways a reload can end. *)
Inductive reload_ends (fuel : nat) (h : AppHandle Store) (s : AppState Validator) (db : DB)
    (authorization : option string) :
    AppHandle Store → AppState Validator → DB → reload_response → Prop :=
| ends_unauthorized :
    authorization ≠ Some ("Bearer " +:+ ah_admin_token h) →
    reload_ends fuel h s db authorization h s db
      (reload_error 401 "unauthorized" "Invalid or missing admin token")
| ends_not_loaded e :
    authorization = Some ("Bearer " +:+ ah_admin_token h) → load fuel (ah_config_path h) = Some (Err e) →
    reload_ends fuel h s db authorization h s db
      (reload_error 400 "reload_failed" ("Config reload failed: " +:+ show_AppError e))
| ends_not_prepared config db' r :
    authorization = Some ("Bearer " +:+ ah_admin_token h) → load fuel (ah_config_path h) = Some (Ok config) →
    prepare h s config db = (db', Err r) → rr_status r = 500%Z →
    reload_ends fuel h s db authorization h s db' r
| ends_half_way config db' pools stores e :
    authorization = Some ("Bearer " +:+ ah_admin_token h) → load fuel (ah_config_path h) = Some (Ok config) →
    prepare h s config db = (db', Ok (pools, stores)) → opens iter config db pools →
    registry_of config (ah_config_path h) = Err e →
    reload_ends fuel h s db authorization (with_stores h stores) (swapped s config pools) db'
      (reload_failed "Schema registry rebuild failed" (show_AppError e))
| ends_reloaded config db' pools stores registry :
    authorization = Some ("Bearer " +:+ ah_admin_token h) → load fuel (ah_config_path h) = Some (Ok config) →
    prepare h s config db = (db', Ok (pools, stores)) → opens iter config db pools →
    registry_of config (ah_config_path h) = Ok registry →
    reload_ends fuel h s db authorization (with_stores h stores)
      (with_registry (swapped s config pools) registry)
      (close_pools iter (as_db_pools s) db') (reloaded config).

Lemma authorized_spec (authorization : option string) (token : string) :
  admin_authorized token authorization = true ↔ authorization = Some ("Bearer " +:+ token).
Proof.
  unfold admin_authorized. destruct authorization as [a|]; cbn [mbind option_bind]; [|done].
  split.
  - destruct (strip_prefix "Bearer " a) as [t|] eqn:Ht; [|done]. intros ->%bool_decide_eq_true.
    apply strip_prefix_Some in Ht. by rewrite Ht.
  - intros [= ->]. rewrite (strip_prefix_app "Bearer " token). by apply bool_decide_eq_true.
Qed.

Lemma prepare_Err h s config db db' r : prepare h s config db = (db', Err r) → rr_status r = 500%Z.
Proof.
  unfold prepare_reload. destruct (compute_store_changes _ _ _) as [un ch].
  destruct (create_pools _ _ _) as [db1 [pools|e]]; cbn; [|by intros [= _ <-]].
  destruct (run_migrations _ _ _ _ _) as [db2 [[]|e]]; cbn; [|by intros [= _ <-]].
  destruct (ensure_media_columns _ _ _) as [db3 [[]|e]]; cbn; [|by intros [= _ <-]].
  destruct (reload_stores _ _ _ _ _ _ _ _ _ _); [done|by intros [= _ <-]].
Qed.

Lemma prepare_Ok h s config db db' pools stores :
  prepare h s config db = (db', Ok (pools, stores)) → opens iter config db pools.
Proof.
  unfold prepare_reload. destruct (compute_store_changes _ _ _) as [un ch].
  destruct (create_pools _ _ _) as [db1 [pools'|e]] eqn:Hc; cbn; [|done].
  destruct (run_migrations _ _ _ _ _) as [db2 [[]|e]]; cbn; [|done].
  destruct (ensure_media_columns _ _ _) as [db3 [[]|e]]; cbn; [|done].
  destruct (reload_stores _ _ _ _ _ _ _ _ _ _); [|done]. intros [= _ <- _]. by exists db1.
Qed.

Lemma reload_ends_spec fuel h s db authorization h' s' db' r :
  reload fuel h s db authorization = Some (h', s', db', r) → reload_ends fuel h s db authorization h' s' db' r.
Proof.
  unfold handle_reload. pose proof (authorized_spec authorization (ah_admin_token h)) as Ha.
  destruct (admin_authorized _ _); cbn [negb].
  - assert (Hauth : authorization = Some ("Bearer " +:+ ah_admin_token h)) by by apply Ha.
    destruct (load fuel (ah_config_path h)) as [[config|e]|] eqn:Hl; [| |done].
    + destruct (prepare h s config db) as [db1 [[pools stores]|r1]] eqn:Hp.
      * pose proof (prepare_Ok _ _ _ _ _ _ _ Hp) as Hopens. cbv zeta. cbn [as_config swapped ah_config_path with_stores].
        destruct (registry_of config (ah_config_path h)) as [registry|e] eqn:Hr;
          intros [= <- <- <- <-]; by econstructor.
      * intros [= <- <- <- <-]. econstructor; [done..|]. by eapply prepare_Err.
    + intros [= <- <- <- <-]. by constructor.
  - intros [= <- <- <- <-]. constructor. intros Hauth. by apply Ha in Hauth.
Qed.
(** What a load gives has passed the validation. *)
Lemma load_validated fuel path config :
  load fuel path = Some (Ok config) → validate_config iter config = Some (Ok tt).
Proof.
  unfold load_config. destruct (map_err _ (canonicalize path)) as [canonical|]; [|done].
  destruct (load_yaml_with_includes _ _ _ _ _ _ _ _ _) as [[[v visited]|e]|]; [|done..].
  destruct (map_err _ (from_value v)) as [c|]; [|done].
  destruct (validate_config iter c) as [[[]|e]|] eqn:Hv; [|done..]. by intros [= <-].
Qed.

(** What the databases of a configuration give at the start. *)
Lemma start_databases_Ok config db db' pools store :
  start_databases iter iter_tables config db = (db', Ok (pools, store)) →
  opens iter config db pools ∧
  ∀ st, store = Some (Database st) → ∃ name, pools !! name = Some (drs_pool st).
Proof.
  unfold start_databases. case_bool_decide as Hempty.
  { intros [= _ <- <-]. split; [by apply opens_nothing|done]. }
  intros (db1&pools1&Hc&H)%and_then_Ok. cbv zeta in H. apply and_then_Ok in H as (db2&store1&Hs&H).
  apply and_then_Ok in H as (db3&[]&_&H). apply and_then_Ok in H as (db4&[]&_&[= _ <- <-]).
  split; [by exists db1|]. intros st ->.
  destruct (start_revocation_store _ _ _ _) as [db5 [r|]] eqn:Hr; [|done]. injection Hs as _ ->.
  unfold start_revocation_store in Hr. destruct (_ ≫= jwt_revocation) as [rc|]; [|done].
  destruct (jrc_store rc); [done|]. apply and_then_Ok in Hr as (db6&[]&_&[= _ Hr]).
  destruct (iter _ pools1) as [|[name pool] l] eqn:Hi; [done|]. injection Hr as <-. exists name. cbn.
  assert (Hin : (name, pool) ∈ iter _ pools1) by (rewrite Hi; left).
  rewrite iter_perm in Hin. by apply elem_of_map_to_list in Hin.
Qed.

Lemma start_server_Ok config path token db db' h s :
  start config path token db = (db', Ok (h, s)) →
  ah_config_path h = path ∧ ah_admin_token h = token ∧
  build_stores_from_config memory_new native_new s3_new azure_new gcs_new debug iter config
    = Ok (ah_stores h) ∧
  as_config s = config ∧
  as_endpoint_configs s = build_endpoint_configs (cfg_endpoints config) ∧
  as_role_inheritance s = compute_role_inheritance (cfg_role_hierarchy config) ∧
  as_store_configs s = cfg_stores config ∧
  registry_of config path = Ok (as_schema_registry s) ∧
  opens iter config db (as_db_pools s) ∧
  ∀ st, as_revocation_store s = Some (Database st) → ∃ name, as_db_pools s !! name = Some (drs_pool st).
Proof.
  unfold start_server. destruct (AppState_new _ _ _ _ _ _ _ _ _ _ _ _ _ _ _) as [[h1 s1]|] eqn:Hn; [|done].
  unfold AppState_new in Hn. apply bind_Ok in Hn as (stores&Hstores&Hn).
  apply bind_Ok in Hn as (registry&Hreg&[= <- <-]).
  intros (db1&[pools store]&Hd&[= _ Hs])%and_then_Ok. apply start_databases_Ok in Hd as [Hopens Hpool].
  destruct store as [store|]; cbn in Hs; injection Hs as <- <-; cbn; split_and!; done.
Qed.

(** Every reload is answered. With fuel for one more than the files there
    are, a reload ends. Without the bearer of the admin token it changes
    nothing; with it, a configuration that does not load and pools,
    migrations or stores that fail leave the state as it was, and otherwise
    the loaded configuration takes effect; it does so even when the schema
    registry cannot be rebuilt and the answer is an error, and then with the
    old registry. *)
Theorem reload_answers (files : gset string) (fuel : nat) (h : AppHandle Store) (s : AppState Validator) (db : DB)
    (authorization : option string) :
  (∀ p q, canonicalize p = Ok q → q ∈ files) → size files < fuel →
  ∃ h' s' db' r, reload fuel h s db authorization = Some (h', s', db', r) ∧
  (authorization ≠ Some ("Bearer " +:+ ah_admin_token h) → rr_status r = 401%Z ∧ s' = s ∧ db' = db) ∧
  (authorization = Some ("Bearer " +:+ ah_admin_token h) →
   (∃ e, load fuel (ah_config_path h) = Some (Err e) ∧ rr_status r = 400%Z ∧ s' = s ∧ db' = db) ∨
   ∃ config, load fuel (ah_config_path h) = Some (Ok config) ∧
     (is_err (prepare h s config db).2 = true ∧ rr_status r = 500%Z ∧ s' = s ∨
      is_err (prepare h s config db).2 = false ∧ as_config s' = config ∧
      ((∃ e, registry_of config (ah_config_path h) = Err e ∧ rr_status r = 500%Z ∧
             as_schema_registry s' = as_schema_registry s) ∨
       registry_of config (ah_config_path h) = Ok (as_schema_registry s') ∧ rr_status r = 200%Z))).
Proof.
  intros Hfiles Hfuel.
  destruct (reload fuel h s db authorization) as [[[[h' s'] db'] r]|] eqn:Hr.
  - exists h', s', db', r. split; [done|]. apply reload_ends_spec in Hr.
    destruct Hr as [Hna|e Ha Hl|config db' r Ha Hl Hp Hs|config db' pools stores e Ha Hl Hp Hd He
      |config db' pools stores registry Ha Hl Hp Hd Hg].
    + split; [done|]. by intros ?.
    + split; [by intros []|]. intros _. left. eauto.
    + split; [by intros []|]. intros _. right. exists config. split; [done|]. left. by rewrite Hp.
    + split; [by intros []|]. intros _. right. exists config. split; [done|]. right. rewrite Hp.
      split_and!; [done..|]. left. eauto.
    + split; [by intros []|]. intros _. right. exists config. split; [done|]. right. rewrite Hp.
      split_and!; [done..|]. by right.
  - exfalso. unfold handle_reload in Hr. destruct (negb _); [done|].
    destruct (load_config_runs canonicalize read_to_string glob parse_yaml value_eqb env_var files Hfiles
      from_value iter iter_perm fuel (ah_config_path h) Hfuel) as (l&Hl).
    rewrite Hl in Hr. by destruct l.
Qed.

Lemma request_ends fuel router s db authorization s' db' r :
  request fuel router s db authorization = Some (s', db', r) →
  ∃ h', reload_ends fuel router s db authorization h' s' db' r.
Proof.
  unfold reload_request. destruct (reload _ _ _ _ _) as [[[[h' s1] db1] r1]|] eqn:Hr; [|done].
  intros [= <- <- <-]. exists h'. by apply reload_ends_spec.
Qed.

(** With fuel for one more than the files there are, a reload is answered. *)
Lemma request_answered (files : gset string) fuel router s db authorization :
  (∀ p q, canonicalize p = Ok q → q ∈ files) → size files < fuel →
  ∃ x, request fuel router s db authorization = Some x.
Proof.
  intros Hfiles Hfuel. unfold reload_request, handle_reload.
  destruct (negb _); [eauto|].
  destruct (load_config_runs canonicalize read_to_string glob parse_yaml value_eqb env_var files Hfiles
    from_value iter iter_perm fuel (ah_config_path router) Hfuel) as [[config|e] ->]; [|eauto].
  destruct (prepare _ _ _ _) as [db1 [[pools stores]|r]]; [|eauto]. cbv zeta.
  destruct (new_SchemaRegistry _ _ _ _ _ _ _ _); eauto.
Qed.

(** ** Revoked tokens after a reload *)

Context (to_rfc3339 : Z → string).

(** A reload makes every revoked token valid again. A server that keeps
    revoked tokens in a database keeps them in a pool it opened when it
    started; the first reload that succeeds closes that pool, the store goes
    on using it, and a check that fails counts as not revoked: from then on
    no token is revoked, and every token is validated as if there were no
    store. *)
Theorem reload_reopens_revoked_tokens (closed : DatabasePool → DB → Prop) (config : AppConfig)
    (path token : string) (db db0 db1 db2 : DB) (router : AppHandle Store) (s0 s : AppState Validator)
    (store : DatabaseRevocationStore) (fuel : nat) (authorization : option string) (r : reload_response) :
  closing_laws closed →
  start config path token db = (db0, Ok (router, s0)) →
  as_revocation_store s0 = Some (Database store) →
  request fuel router s0 db1 authorization = Some (s, db2, r) → rr_status r = 200%Z →
  as_revocation_store s = Some (Database store) ∧
  ∀ now, let backend := revocation_store_impl to_rfc3339 now in
    (∀ jti, @is_revoked _ backend jti (Database store, db2) = false) ∧
    ∀ jwt_decode jwt bearer,
      @validate_token jwt_decode _ backend bearer jwt (Some (Database store, db2)) =
      @validate_token jwt_decode _ backend bearer jwt None.
Proof.
  intros Hlaws Hstart Hstore Hreq Hok.
  apply start_server_Ok in Hstart as (_&_&_&_&_&_&_&_&_&Hpool).
  destruct (Hpool _ Hstore) as [name Hname]. apply request_ends in Hreq as [h' Hends].
  destruct Hends; try discriminate; [by rewrite Hok in *|].
  split; [done|]. intros now backend.
  assert (Hnot : ∀ jti, @is_revoked _ backend jti
    (Database store, close_pools iter (as_db_pools s0) db') = false).
  { intros jti. cbn. unfold is_revoked_db.
    pose proof (close_pools_closes iter iter_perm closed _ db' _ _ Hlaws Hname) as Hclosed.
    pose proof (closed_fails _ Hlaws _
      (bq_sql (build_revoke_check (drs_table_name store) (pool_driver (drs_pool store)) (VString jti)))
      (bq_params (build_revoke_check (drs_table_name store) (pool_driver (drs_pool store)) (VString jti)))
      _ Hclosed) as Herr.
    by destruct (fetch_optional_json _ _ _ _). }
  split; [exact Hnot|]. intros jwt_decode jwt bearer. unfold validate_token.
  destruct (jwt_decode _ _ bearer) as [claims|]; [|done]. cbn [map_err mbind result_bind].
  destruct (ok_or _ (str_claim "sub" claims)) as [sub|]; [|done]. cbn [mbind result_bind].
  destruct (is_empty (trim sub)); [done|]. cbn [mbind result_bind].
  destruct (str_claim "jti" claims) as [jti|]; [|done]. by rewrite Hnot.
Qed.
End server.

(** ** A running server *)

Section running.
Context {DB Store Validator : Type} `{!Pool DB, !PoolDriver DB}.
Context (iter : ∀ A : Type, gmap string A → list (string * A)).
Context (iter_perm : ∀ (A : Type) (m : gmap string A), iter A m ≡ₚ map_to_list m).
Context (iter_tables : gmap nat (list nat) → list (nat * list nat)).
Context (parse_yaml : string → result string yaml).
Context (value_eqb : yaml → yaml → bool).
Context (from_value : yaml → result string AppConfig).
Context (compile : value → result string Validator).
Context (from_str : string → result string value).
Context (to_value : yaml → result string value).
Context (memory_new : Store) (native_new : string → Store).
Context (s3_new azure_new gcs_new : option (StoreConfig → result StorageError Store)).
Context (debug : string → string).

Local Notation load_in env := (load_config (sr_canonicalize env) (sr_read_to_string env) (sr_glob env)
  parse_yaml value_eqb (sr_env_var env) from_value iter).
Local Notation registry_in env :=
  (new_SchemaRegistry compile (sr_canonicalize env) (sr_read_to_string env) from_str to_value iter).
Local Notation start_in env := (start_server iter iter_tables (sr_canonicalize env) (sr_read_to_string env)
  compile from_str to_value memory_new native_new s3_new azure_new gcs_new debug).
Local Notation answer_request := (answer_request iter iter_tables parse_yaml value_eqb from_value compile
  from_str to_value memory_new native_new s3_new azure_new gcs_new debug).
Local Notation serve_requests := (serve_requests iter iter_tables parse_yaml value_eqb from_value compile
  from_str to_value memory_new native_new s3_new azure_new gcs_new debug).
Local Notation state := (AppState Validator * DB)%type.

(** A request and, for a reload, its answer. *)
Notation server_event := (server_request DB * option reload_response)%type.

Inductive server_step (router : AppHandle Store) : state → server_event → state → Prop :=
| step_request fuel req x s db answer :
    answer_request fuel router req x = Some (s, db, answer) → server_step router x (req, answer) (s, db).

Lemma serve_requests_steps fuel router requests x y :
  serve_requests fuel router requests x = Some y →
  ∃ events, events.*1 = requests ∧ steps (server_step router) x events y.
Proof.
  revert x. induction requests as [|req requests IH]; intros x; cbn.
  { intros [= ->]. exists []. split; [done|constructor]. }
  destruct (answer_request fuel router req x) as [[[s db] answer]|] eqn:Ha; [|done]. intros H.
  apply IH in H as (events&<-&Hs). exists ((req, answer) :: events). split; [done|].
  econstructor; [by econstructor|done].
Qed.

(** Every request is answered, with fuel for one more than the files that any
    of the reloads can see. *)
Definition sees (files : gset string) (req : server_request DB) : Prop :=
  match req with
  | ReloadRequest env _ => ∀ p q, sr_canonicalize env p = Ok q → q ∈ files
  | Work _ _ => True
  end.

Lemma serve_requests_ends files fuel router requests x :
  Forall (sees files) requests → size files < fuel → ∃ y, serve_requests fuel router requests x = Some y.
Proof.
  intros Hfiles Hfuel. revert x. induction Hfiles as [|req requests Hreq _ IH]; intros x; cbn; [eauto|].
  destruct req as [env a|f g]; cbn; [|apply IH].
  match goal with |- context [reload_request ?i ?it ?c ?rd ?g ?py ?v ?ev ?fv ?co ?fs ?tv ?m ?n ?s3 ?az ?gc ?d] =>
    destruct (request_answered i iter_perm it c rd g py v ev fv co fs tv m n s3 az gc d files fuel router x.1 x.2 a
      Hreq Hfuel) as [[[s db] r] ->]
  end.
  cbn. apply IH.
Qed.

(** A reload that answered with success. *)
Definition reload_succeeded (e : server_event) : Prop := ∃ r, e.2 = Some r ∧ rr_status r = 200%Z.

(** What a request does to the state: it leaves the configuration, the pools
    and the schemas as they are, or it is a reload that takes effect, with
    the files and the databases of that moment. *)
Inductive step_effect (router : AppHandle Store) (x : state) (e : server_event) (s : AppState Validator) : Prop :=
| keeps :
    ¬ reload_succeeded e →
    as_config s = as_config x.1 → as_db_pools s = as_db_pools x.1 →
    as_store_configs s = as_store_configs x.1 → as_schema_registry s = as_schema_registry x.1 →
    step_effect router x e s
| takes_effect env fuel r :
    e = (ReloadRequest env (Some ("Bearer " +:+ ah_admin_token router)), Some r) →
    load_in env fuel (ah_config_path router) = Some (Ok (as_config s)) →
    opens iter (as_config s) x.2 (as_db_pools s) → as_store_configs s = cfg_stores (as_config s) →
    (rr_status r = 200%Z ∧ registry_in env (as_config s) (ah_config_path router) = Ok (as_schema_registry s) ∨
     rr_status r = 500%Z ∧ is_err (registry_in env (as_config s) (ah_config_path router)) = true ∧
     as_schema_registry s = as_schema_registry x.1) →
    step_effect router x e s.

(** What no request changes: the endpoint map, the closure of the roles, and
    which store of revoked tokens there is. *)
Definition same_frozen (s s' : AppState Validator) : Prop :=
  as_endpoint_configs s' = as_endpoint_configs s ∧ as_role_inheritance s' = as_role_inheritance s ∧
  (∀ st, as_revocation_store s' = Some (Database st) ↔ as_revocation_store s = Some (Database st)) ∧
  (as_revocation_store s' = None ↔ as_revocation_store s = None).

Lemma step_does router x e y :
  server_step router x e y → same_frozen x.1 y.1 ∧ step_effect router x e y.1.
Proof.
  intros [fuel req [s db] s' db' answer Hreq]. destruct req as [env a|f g]; cbn in Hreq.
  - destruct (reload_request _ _ _ _ _ _ _ _ _ _ _ _ _ _ _ _ _ _ _ _ _ _ _) as [[[s1 db1] r]|] eqn:Hr;
      [|done].
    injection Hreq as -> -> <-. apply request_ends in Hr as [h' Hends].
    destruct Hends as [|err|config db2 r ? ? ? Hstatus|config db2 pools stores err|config db2 pools stores reg]; subst.
    1-3: split; [done|]; apply keeps; [|done..]; by intros (r'&[= <-]&?); cbn in *; congruence.
    + split; [done|]. eapply takes_effect; [done..|]. right. split_and!; [done| |done].
      cbn. by match goal with H : _ = Err _ |- _ => rewrite H end.
    + split; [done|]. eapply takes_effect; [done..|]. by left.
  - injection Hreq as <- <- <-. split; [|apply keeps; [by intros (?&?&_)|done..]].
    unfold same_frozen, with_revoked. cbn.
    destruct (as_revocation_store s) as [[m|st]|]; split_and!; try done; by split; intros.
Qed.

(** The configuration in force after [events]: the one of the start, or that
    of the last reload that took effect. *)
Definition in_force (env0 : surroundings) (config : AppConfig) (router : AppHandle Store) (db : DB) (x0 : state)
    (events : list server_event) (s : AppState Validator) : Prop :=
  (as_config s = config ∧ opens iter config db (as_db_pools s) ∧
   registry_in env0 config (ah_config_path router) = Ok (as_schema_registry s) ∧
   Forall (λ e, ¬ reload_succeeded e) events) ∨
  ∃ before env r after x fuel,
    events = before ++ (ReloadRequest env (Some ("Bearer " +:+ ah_admin_token router)), Some r) :: after ∧
    steps (server_step router) x0 before x ∧
    load_in env fuel (ah_config_path router) = Some (Ok (as_config s)) ∧
    opens iter (as_config s) x.2 (as_db_pools s) ∧
    (rr_status r = 200%Z ∧ registry_in env (as_config s) (ah_config_path router) = Ok (as_schema_registry s) ∨
     rr_status r = 500%Z ∧ is_err (registry_in env (as_config s) (ah_config_path router)) = true ∧
     as_schema_registry s = as_schema_registry x.1) ∧
    Forall (λ e, ¬ reload_succeeded e) after.

Lemma in_force_keeps env0 config router db x0 events x e s :
  in_force env0 config router db x0 events x → ¬ reload_succeeded e →
  as_config s = as_config x → as_db_pools s = as_db_pools x → as_schema_registry s = as_schema_registry x →
  in_force env0 config router db x0 (events ++ [e]) s.
Proof.
  unfold in_force. intros Hx He -> -> ->.
  destruct Hx as [(?&?&?&?)|(before&env&r&after&x1&fuel&->&?&?&?&?&?)].
  - left. split_and!; [done..|]. by apply Forall_app_2; [|constructor].
  - right. exists before, env, r, (after ++ [e]), x1, fuel. rewrite <-List.app_assoc. split_and!; [done..|].
    by apply Forall_app_2; [|constructor].
Qed.

(** What holds of the state after any requests. *)
Lemma steps_state env0 config router db x0 events y :
  steps (server_step router) x0 events y →
  in_force env0 config router db x0 [] x0.1 → as_store_configs x0.1 = cfg_stores (as_config x0.1) →
  same_frozen x0.1 y.1 ∧ as_store_configs y.1 = cfg_stores (as_config y.1) ∧
  in_force env0 config router db x0 events y.1.
Proof.
  intros Hs Hx0 Hst. revert y Hs. induction events as [|e events IH] using rev_ind; intros y Hs.
  { inversion Hs; subst. by split_and!. }
  apply steps_app in Hs as (x&Hx&Hs). inversion Hs as [|? ? y1 ? ? Hstep Hnil]; subst.
  inversion Hnil; subst. destruct (IH _ Hx) as (Hf&Hsc&Hin). destruct (step_does _ _ _ _ Hstep) as [Hf' He].
  split; [unfold same_frozen in *; naive_solver congruence|].
  destruct He as [Hno Hc Hp Hst' Hr|env fuel r -> Hl Ho Hst' Hr].
  - split; [congruence|]. by eapply in_force_keeps.
  - split; [done|]. right. exists events, env, r, [], x, fuel. by split_and!.
Qed.

(** C22: the state of a running server. Files and environment may be
    different at every reload, and the other requests may do anything to the
    databases; the requests are taken one after another. Whatever is
    reloaded, and however the reloads end, the endpoint map, the closure of
    the roles, the stores of the requests and the kind of the store of
    revoked tokens are those of the start. The configuration is one that
    passed the validation, and its store configurations are the stored ones.
    Configuration, pools and schema registry are either those of the start,
    the pools opened then, and no reload has succeeded; or there is a reload,
    sent with the bearer of the admin token, after which none has succeeded:
    the configuration is what loading the files gave at that moment, and the
    pools are those that connecting to its databases gave, with the databases
    as the requests before had left them. The schema registry is then the
    one built from the files of that moment when the reload answered with
    success, and the one from before when building it failed. *)
Theorem running_server_state (env0 : surroundings) (config : AppConfig) (path token : string) (db db0 db1 : DB)
    (router : AppHandle Store) (s0 s : AppState Validator) (events : list server_event) :
  validate_config iter config = Some (Ok tt) →
  start_in env0 config path token db = (db0, Ok (router, s0)) →
  steps (server_step router) (s0, db0) events (s, db1) →
  (as_endpoint_configs s = build_endpoint_configs (cfg_endpoints config) ∧
   as_role_inheritance s = compute_role_inheritance (cfg_role_hierarchy config) ∧
   build_stores_from_config memory_new native_new s3_new azure_new gcs_new debug iter config
     = Ok (ah_stores router) ∧
   (∀ st, as_revocation_store s = Some (Database st) ↔ as_revocation_store s0 = Some (Database st)) ∧
   (as_revocation_store s = None ↔ as_revocation_store s0 = None)) ∧
  validate_config iter (as_config s) = Some (Ok tt) ∧ as_store_configs s = cfg_stores (as_config s) ∧
  ((as_config s = config ∧ opens iter config db (as_db_pools s) ∧
    registry_in env0 config path = Ok (as_schema_registry s) ∧
    Forall (λ e, ¬ reload_succeeded e) events) ∨
   ∃ before env r after x fuel,
     events = before ++ (ReloadRequest env (Some ("Bearer " +:+ token)), Some r) :: after ∧
     steps (server_step router) (s0, db0) before x ∧
     load_in env fuel path = Some (Ok (as_config s)) ∧
     opens iter (as_config s) x.2 (as_db_pools s) ∧
     (rr_status r = 200%Z ∧ registry_in env (as_config s) path = Ok (as_schema_registry s) ∨
      rr_status r = 500%Z ∧ is_err (registry_in env (as_config s) path) = true ∧
      as_schema_registry s = as_schema_registry x.1) ∧
     Forall (λ e, ¬ reload_succeeded e) after).
Proof.
  intros Hvalid Hstart Hsteps.
  apply start_server_Ok in Hstart as (<-&<-&Hst&Hc0&He0&Hr0&Hs0&Hreg0&Ho0&_); [|done].
  destruct (steps_state env0 config _ db _ _ _ Hsteps) as ((He&Hr&Hd&Hn)&Hsc&Hin).
  - left. by split_and!.
  - cbn. congruence.
  - cbn in He, Hr, Hd, Hn, Hsc, Hin. split; [split_and!; [congruence..|done|done|done]|]. split; [|done].
    destruct Hin as [(->&_)|(?&?&?&?&?&?&_&_&Hl&_)]; [done|]. by eapply load_validated.
Qed.
End running.

(** ** Witnesses *)

(** Databases whose pools are numbered in the order they are opened; the
    tables hold the tokens [db_revoked]. *)
Record pooled := { pd_opened : nat; pd_closed : list DatabasePool; pd_revoked : list string }.

Definition if_open {A} (pool : DatabasePool) (db : pooled) (a : A) : result AppError A :=
  if bool_decide (pool ∈ pd_closed db) then Err (Errors.Database "pool closed") else Ok a.

Global Instance pooled_pool : Pool pooled := {
  fetch_all_json pool _ _ db := if_open pool db [];
  fetch_optional_json pool _ ps db :=
    if_open pool db
      match ps with
      | [VString jti] => if bool_decide (jti ∈ pd_revoked db) then Some VNull else None
      | _ => None
      end;
  fetch_optional_returning pool _ _ db := if_open pool db (None, db);
  execute_with_params pool _ _ db := if_open pool db (1%Z, db);
  execute_with_params_and_last_id pool _ _ db := if_open pool db (1%Z, db);
  execute_raw pool _ db := if_open pool db db;
}.
Global Instance pooled_driver : PoolDriver pooled := {
  connect config db :=
    ({| pd_opened := S (pd_opened db); pd_closed := pd_closed db; pd_revoked := pd_revoked db |},
     Ok (PoolSqlite (pd_opened db)));
  close pool db :=
    {| pd_opened := pd_opened db; pd_closed := pool :: pd_closed db; pd_revoked := pd_revoked db |};
}.

Definition pool_closed (pool : DatabasePool) (db : pooled) : Prop := pool ∈ pd_closed db.

Lemma pooled_closing : closing_laws pool_closed.
Proof.
  split.
  - intros p db. left.
  - intros p q db Hp. by right.
  - intros p sql ps db Hp. cbn. unfold if_open. by rewrite bool_decide_eq_true_2.
Qed.

(** A configuration with two databases that keeps revoked tokens in one. *)
Definition blacklist_config : AppConfig :=
  let config := two_databases "main" in {|
  cfg_server := cfg_server config; cfg_logging := cfg_logging config; cfg_cors := cfg_cors config;
  cfg_rate_limit := cfg_rate_limit config; cfg_databases := cfg_databases config;
  cfg_tables := cfg_tables config;
  cfg_auth := {| auth_jwt := Some {|
      jwt_secret := "secret"; jwt_algorithm := HS256; jwt_issuer := ""; jwt_audience := "";
      jwt_expiry := 3600; jwt_role_claim := "role";
      jwt_revocation := Some {| jrc_store := StoreDatabase; jrc_db_table := Some "token_blacklist";
                                jrc_cleanup_interval_secs := None |} |};
    auth_api_key := None; auth_basic := None; auth_oauth2 := None; auth_register := None |};
  cfg_endpoints := cfg_endpoints config; cfg_stores := cfg_stores config;
  cfg_role_hierarchy := None; cfg_global_schemas := None |}.

(** A disk with one file, which holds that configuration. *)
Definition one_file (p : string) : result string string := Ok "/etc/config.yaml".
Definition read_text (_ : string) : result string string := Ok "text".
Definition no_glob (_ : string) : result string (list (result string string)) := Ok [].
Definition parse_null (_ : string) : result string yaml := Ok YNull.
Definition from_null (_ : yaml) : result string AppConfig := Ok blacklist_config.
Definition compiled (_ : value) : result string unit := Ok tt.
Definition json_text (_ : string) : result string value := Ok VNull.
Definition json_of (_ : yaml) : result string value := Ok VNull.
Definition no_env (_ : string) : option string := None.

Definition start_sample : pooled * result AppError (AppHandle string * AppState unit) :=
  start_server (DB := pooled) sorted_iter map_to_list one_file read_text compiled json_text json_of "memory" id
    None None None id blacklist_config "/etc/config.yaml" "admin"
    {| pd_opened := 0; pd_closed := []; pd_revoked := ["id-1"] |}.

Definition sample_router : AppHandle string := {|
  ah_config_path := "/etc/config.yaml"; ah_admin_token := "admin"; ah_stores := {["default" := "./"]} |}.
Definition sample_state : AppState unit := {|
  as_config := blacklist_config;
  as_db_pools := {["main" := PoolSqlite 1; "other" := PoolSqlite 0]};
  as_endpoint_configs := build_endpoint_configs (cfg_endpoints blacklist_config);
  as_store_configs := ∅; as_role_inheritance := ∅;
  as_revocation_store := Some (Database {| drs_pool := PoolSqlite 0; drs_table_name := "token_blacklist" |});
  as_schema_registry := ∅ |}.
Definition sample_databases : pooled := {| pd_opened := 2; pd_closed := []; pd_revoked := ["id-1"] |}.

Definition reload_sample (db : pooled) (authorization : option string) :=
  reload_request (Validator := unit) sorted_iter map_to_list one_file read_text no_glob parse_null (λ _ _, false)
    no_env from_null compiled json_text json_of "memory" id None None None id 2 sample_router sample_state db
    authorization.

Lemma sample_starts : start_sample = (sample_databases, Ok (sample_router, sample_state)).
Proof. vm_compute. reflexivity. Qed.

Lemma sample_valid : validate_config sorted_iter blacklist_config = Some (Ok tt).
Proof. vm_compute. reflexivity. Qed.

(** The state after the reload of the same file: new pools. *)
Definition reloaded_state : AppState unit :=
  with_registry (swapped sample_state blacklist_config
    {["main" := PoolSqlite 3; "other" := PoolSqlite 2]}) ∅.
Definition reloaded_databases : pooled := {|
  pd_opened := 4; pd_closed := [PoolSqlite 1; PoolSqlite 0]; pd_revoked := ["id-1"] |}.

Lemma sample_reloads :
  reload_sample sample_databases (Some "Bearer admin") =
    Some (reloaded_state, reloaded_databases, reloaded blacklist_config).
Proof. vm_compute. reflexivity. Qed.

Definition sample_disk : surroundings := {|
  sr_canonicalize := one_file; sr_read_to_string := read_text; sr_glob := no_glob; sr_env_var := no_env |}.
(** Later the file is gone. *)
Definition empty_disk : surroundings := {|
  sr_canonicalize _ := Err "no such file"; sr_read_to_string := read_text; sr_glob := no_glob;
  sr_env_var := no_env |}.
Definition sample_requests : list (server_request pooled) :=
  [Work id id; ReloadRequest sample_disk (Some "Bearer admin"); ReloadRequest empty_disk (Some "Bearer admin");
   ReloadRequest empty_disk None].
Definition sample_answers : list (server_request pooled * option reload_response) :=
  zip sample_requests
    [None; Some (reloaded blacklist_config);
     Some (reload_error 400 "reload_failed" ("Config reload failed: " +:+
       show_AppError (ConfigurationError "Failed to resolve config path /etc/config.yaml: no such file")));
     Some (reload_error 401 "unauthorized" "Invalid or missing admin token")].

Notation sample_step := (server_step (DB := pooled) (Validator := unit) sorted_iter map_to_list parse_null
  (λ _ _, false) from_null compiled json_text json_of "memory" id None None None id sample_router).

Lemma running_server_state_witness :
  as_endpoint_configs reloaded_state = build_endpoint_configs (cfg_endpoints blacklist_config) ∧
  ∃ before x, steps sample_step (sample_state, sample_databases) before x ∧
    opens sorted_iter blacklist_config x.2 (as_db_pools reloaded_state).
Proof.
  destruct (running_server_state sorted_iter sorted_iter_perm map_to_list parse_null (λ _ _, false) from_null
    compiled json_text json_of "memory" id None None None id
    sample_disk blacklist_config "/etc/config.yaml" "admin"
    {| pd_opened := 0; pd_closed := []; pd_revoked := ["id-1"] |} sample_databases reloaded_databases
    sample_router sample_state reloaded_state sample_answers)
    as ((H1&_)&_&_&[(_&_&_&Hno)|(before&env&r&after&x&fuel&_&Hs&_&Ho&_)]).
  - exact sample_valid.
  - exact sample_starts.
  - eapply steps_cons; [apply step_request with (fuel := 2); reflexivity|].
    eapply steps_cons; [apply step_request with (fuel := 2); vm_compute; reflexivity|].
    eapply steps_cons; [apply step_request with (fuel := 2); vm_compute; reflexivity|].
    eapply steps_cons; [apply step_request with (fuel := 2); vm_compute; reflexivity|].
    constructor.
  - exfalso. inversion Hno as [|? ? _ Hno']. inversion Hno' as [|? ? Hsucc _].
    apply Hsucc. by eexists.
  - split; [exact H1|]. by exists before, x.
Defined.

Lemma reload_answers_witness :
  ∃ h' s' db' r,
    handle_reload (Validator := unit) sorted_iter map_to_list one_file read_text no_glob parse_null
      (λ _ _, false) no_env from_null compiled json_text json_of "memory" id None None None id 2
      sample_router sample_state sample_databases None = Some (h', s', db', r) ∧
    rr_status r = 401%Z ∧ s' = sample_state ∧ db' = sample_databases.
Proof.
  destruct (reload_answers sorted_iter sorted_iter_perm map_to_list one_file read_text no_glob
    parse_null (λ _ _, false) no_env from_null compiled json_text json_of "memory" id None None None id
    {["/etc/config.yaml"]} 2 sample_router sample_state sample_databases None)
    as (h'&s'&db'&r&Hr&Hno&_).
  - intros p q [= <-]. set_solver.
  - rewrite size_singleton. lia.
  - exists h', s', db', r. split; [exact Hr|]. by apply Hno.
Defined.

(** A token that was revoked before the reload. *)
Lemma reload_reopens_revoked_tokens_witness :
  let store := {| drs_pool := PoolSqlite 0; drs_table_name := "token_blacklist" |} in
  let backend := revocation_store_impl show_Z {| instant_now := 0; utc_now := 0 |} in
  @is_revoked _ backend "id-1" (Database store, sample_databases) = true ∧
  @is_revoked _ backend "id-1" (Database store, reloaded_databases) = false.
Proof.
  intros store backend. split; [vm_compute; reflexivity|].
  apply (reload_reopens_revoked_tokens sorted_iter sorted_iter_perm map_to_list one_file read_text no_glob
    parse_null (λ _ _, false) no_env from_null compiled json_text json_of "memory" id None None None id
    show_Z pool_closed blacklist_config "/etc/config.yaml" "admin"
    {| pd_opened := 0; pd_closed := []; pd_revoked := ["id-1"] |} sample_databases sample_databases
    reloaded_databases sample_router sample_state reloaded_state store 2 (Some "Bearer admin")
    (reloaded blacklist_config)).
  - exact pooled_closing.
  - exact sample_starts.
  - reflexivity.
  - exact sample_reloads.
  - reflexivity.
Defined.
