(* ===== verification/Handlers.v ===== *)
(** * What the handlers share

    The context of a request and the helpers of src/src/handlers/common/
    (helpers.rs, utils.rs): authentication inside a handler, identifiers in
    paths, images, multipart forms and bodies. *)

From Stdlib Require Import Init.Byte.
From S2P Require Import Prelude RustStr Json Config Errors SqlHelpers Select Statements Pool Roles Routing Credentials Auth Schemas Paths Storage Responses Images Stores Crud.
Local Open Scope stdpp_scope.

(** ** Identifiers, rows and bodies *)

(** Source: handlers/common/helpers.rs [extract_id] *)
Definition extract_id (path : string) : option string :=
  list.last (split "/" (trim_start "/" (trim_end "/" path))).

(** Source: handlers/common/helpers.rs [extract_file_path] *)
Definition extract_file_path (row : option value) (id : string) : result AppError string :=
  ok_or (NotFound ("Item with id '" +:+ id +:+ "' not found"))
    ((row ≫= get "file_path") ≫= as_str).

(** [map.insert] for each entry of a list, in order. *)
Definition obj_insert_all (entries acc : list (string * value)) : list (string * value) :=
  foldl (λ acc '(k, v), obj_set k v acc) acc entries.

(** Source: handlers/common/utils.rs [filter_writable_body] *)
Definition filter_writable_body (body : value) (writable_columns : list string)
  : list (string * value) :=
  obj_insert_all
    (List.filter (λ kv, bool_decide (kv.1 ∈ writable_columns)) (default [] (as_object body))) [].

Lemma assoc_obj_insert_all k entries acc :
  NoDup entries.*1 →
  assoc k (obj_insert_all entries acc) = or_else (assoc k entries) (assoc k acc).
Proof.
  unfold obj_insert_all. revert acc.
  induction entries as [|[k' v'] entries IH]; intros acc H; cbn [foldl assoc]; [done|].
  inversion H as [|? ? Hnin Hnd]; subst. rewrite IH by done. rewrite assoc_obj_set.
  case_decide as Hk; [|done]. subst. cbn in Hnin. apply assoc_None in Hnin. by rewrite Hnin.
Qed.

(** The body that is written is the client's, restricted to the columns. *)
Lemma assoc_filter_writable k obj columns :
  NoDup obj.*1 →
  assoc k (filter_writable_body (VObject obj) columns)
  = if bool_decide (k ∈ columns) then assoc k obj else None.
Proof.
  intros Hnd. unfold filter_writable_body. cbn [as_object default id]. rewrite assoc_obj_insert_all.
  - assert (assoc k (List.filter (λ kv, bool_decide (kv.1 ∈ columns)) obj)
            = if bool_decide (k ∈ columns) then assoc k obj else None) as ->; [|by destruct (bool_decide _); [destruct (assoc k obj)|]].
    clear Hnd. induction obj as [|[k' v'] obj IH]; cbn [List.filter assoc fst]; [by case_bool_decide|].
    destruct (bool_decide (k' ∈ columns)) eqn:Hk'; cbn [assoc];
      destruct (decide (k = k')) as [->|]; rewrite ?Hk'; try done.
    rewrite IH. by rewrite Hk'.
  - clear -Hnd. induction obj as [|[k' v'] obj IH]; cbn [List.filter fst]; [constructor|].
    inversion Hnd as [|? ? Hnin Hnd']; subst. destruct (bool_decide _); cbn; [|auto]. constructor; [|auto].
    intros Hin. apply Hnin. apply list_elem_of_fmap in Hin as (kv&->&Hin). apply list_elem_of_fmap.
    exists kv. split; [done|]. apply list_elem_of_In, filter_In in Hin as [Hin _]. by apply list_elem_of_In.
Qed.

(** An identifier that is a number is answered as its digits; any other is
    answered as its JSON text, a string with its quotes. *)
Definition id_text (json_text : value → string) (id_val : value) : string :=
  match as_i64 id_val with Some i => show_Z i | None => json_text id_val end.
Definition stringify_id (json_text : value → string) (row : value) : value :=
  match row with
  | VObject obj =>
      match assoc "id" obj with
      | Some id_val => VObject (obj_set "id" (VString (id_text json_text id_val)) obj)
      | None => row
      end
  | _ => row
  end.

(** ** Images *)

Definition bytes_of (l : list N) : bytes := omap Byte.of_N l.
Definition ascii_bytes (s : string) : bytes := String.list_byte_of_string s.
Definition is_at (sig : bytes) (offset : nat) (data : bytes) : bool :=
  bool_decide (take (length sig) (drop offset data) = sig).

(** Source: handlers/common/helpers.rs [validate_image_magic_bytes] *)
Definition validate_image_magic_bytes (data : bytes) : result AppError () :=
  if is_at (bytes_of [137; 80; 78; 71; 13; 10; 26; 10]%N) 0 data          (* PNG *)
     || is_at (bytes_of [255; 216; 255]%N) 0 data                          (* JPEG *)
     || is_at (ascii_bytes "GIF87a") 0 data || is_at (ascii_bytes "GIF89a") 0 data
     || is_at (ascii_bytes "BM") 0 data
     || is_at (ascii_bytes "RIFF") 0 data && is_at (ascii_bytes "WEBP") 8 data
     || (4 <=? length data) && is_at (ascii_bytes "<?") 0 data             (* SVG *)
  then Ok tt
  else Err (BadRequest "File does not appear to be a valid image based on magic bytes").

(** ** Multipart forms *)

(** A field of a form as the parser delivers it: its chunks may break off
    with an error. *)
Record form_field := {
  ff_name : option string;
  ff_file_name : option string;
  ff_chunks : list (result string bytes);
}.

(** The chunks of a field, up to the first error. *)
Fixpoint read_chunks (chunks : list (result string bytes)) (acc : bytes) : result AppError bytes :=
  match chunks with
  | [] => Ok acc
  | Ok chunk :: chunks => read_chunks chunks (acc ++ chunk)
  | Err e :: _ => Err (BadRequest ("Failed to read file content: " +:+ e))
  end.

Definition byte_count (content : bytes) : Z := Z.of_nat (length content).

(** The file of a field that has a file name. *)
Definition read_file_field (max_size : Z) (validate_image_magic : bool) (filename : string)
    (chunks : list (result string bytes)) : result AppError (bytes * string) :=
  content ← read_chunks chunks [];
  if (max_size <? byte_count content)%Z then
    Err (PayloadTooLarge ("File size " +:+ show_Z (byte_count content) +:+ " exceeds maximum allowed size " +:+
                          show_Z max_size))
  else
    _ ← (match extension filename with
         | Some ext =>
             if validate_image_magic && is_image_extension ext
             then validate_image_magic_bytes content else Ok tt
         | None => Ok tt
         end);
    Ok (content, filename).

(** The fields of the form; the last file counts.
    Source: handlers/common/helpers.rs [parse_multipart_file] *)
Fixpoint parse_multipart_file (fields : list (result string form_field)) (max_size : Z)
    (validate_image_magic : bool) (found : option (bytes * string))
  : result AppError (bytes * string) :=
  match fields with
  | [] => ok_or (BadRequest "No file provided in multipart form") found
  | Err e :: _ => Err (BadRequest ("Failed to parse multipart form: " +:+ e))
  | Ok field :: fields =>
      match ff_name field, ff_file_name field with
      | None, _ => Err (BadRequest "Form field missing name")
      | Some _, None => parse_multipart_file fields max_size validate_image_magic found
      | Some _, Some filename =>
          file ← read_file_field max_size validate_image_magic filename (ff_chunks field);
          parse_multipart_file fields max_size validate_image_magic (Some file)
      end
  end.

(** The last field of a form with a file name: its file name and the bytes of
    its chunks. *)
Definition is_file (f : result string form_field) : Prop :=
  match f with Ok field => ff_file_name field ≠ None | Err _ => False end.
Definition last_file (fields : list (result string form_field)) (filename : string) (content : bytes) : Prop :=
  ∃ before field chunks after, fields = before ++ Ok field :: after ∧
    ff_file_name field = Some filename ∧ ff_chunks field = map Ok chunks ∧ content = concat chunks ∧
    Forall (λ f, ¬ is_file f) after.

Lemma read_chunks_Ok chunks acc content :
  read_chunks chunks acc = Ok content → ∃ cs, chunks = map Ok cs ∧ content = acc ++ concat cs.
Proof.
  revert acc. induction chunks as [|[c|e] chunks IH]; intros acc; cbn; [|intros (cs&->&->)%IH|done].
  - intros [= ->]. exists []. by rewrite List.app_nil_r.
  - exists (c :: cs). by rewrite <-List.app_assoc.
Qed.

Lemma read_file_field_Ok max v filename chunks content name :
  read_file_field max v filename chunks = Ok (content, name) →
  name = filename ∧ (byte_count content ≤ max)%Z ∧ ∃ cs, chunks = map Ok cs ∧ content = concat cs.
Proof.
  unfold read_file_field. intros (c&(cs&->&->)%read_chunks_Ok&H)%bind_Ok.
  destruct (Z.ltb_spec max (byte_count ([] ++ concat cs))); [done|].
  apply bind_Ok in H as (?&_&[= <- <-]). split_and!; [done..|by exists cs].
Qed.

(** What is read of a form: its last file, which the limit holds for. *)
Lemma parse_multipart_file_Ok fields max v found content name :
  parse_multipart_file fields max v found = Ok (content, name) →
  (found = Some (content, name) ∧ Forall (λ f, ¬ is_file f) fields) ∨
  (last_file fields name content ∧ (byte_count content ≤ max)%Z).
Proof.
  revert found. induction fields as [|[f|e] fields IH]; intros found H; cbn in H; [|..|done].
  { left. split; [|constructor]. by destruct found; simplify_eq/=. }
  destruct (ff_name f); [|done]. destruct (ff_file_name f) as [filename|] eqn:Hf.
  - right. apply bind_Ok in H as ([c n]&(->&Hmax&cs&Hcs&->)%read_file_field_Ok&H).
    apply IH in H as [[[= <- <-] Hrest]|[(before&g&chunks&after&->&Hg&Hc&Hcontent&Hrest) Hsize]].
    + split; [|done]. by exists [], f, cs, fields.
    + split; [|done]. by exists (Ok f :: before), g, chunks, after.
  - apply IH in H as [[-> Hrest]|[(before&g&chunks&after&->&Hg&Hc&Hcontent&Hrest) Hsize]].
    + left. split; [done|]. constructor; [|done]. cbn. intros Hfile. by apply Hfile.
    + right. split; [|done]. by exists (Ok f :: before), g, chunks, after.
Qed.

(** ** The context of a request *)

Section context.
Context {HeaderMap Validator : Type} (header_str : HeaderMap → string → option string).
Context (jwt_decode : string → Validation → string → result string value).
Context (base64_decode : string → option (option string)).
Context (verify_hash : string → string → option password_check).
Context (get_userinfo_reply : string → string → http_reply).

(** The state is what a handler reads of it.
    Source: handlers/common/utils.rs [HandlerContext] *)
Record HandlerContext := {
  hc_config : AppConfig;
  hc_db_pools : gmap string DatabasePool;
  hc_schema_registry : SchemaRegistry Validator;
  hc_endpoint : EndpointConfig;
  hc_headers : HeaderMap;
  hc_query_params : gmap string string;
}.

(** Source: handlers/common/utils.rs [HandlerContext::extract_auth_info] *)
Definition extract_auth_info (hc : HandlerContext) : result AppError AuthInfo :=
  if String.eqb (ep_auth (hc_endpoint hc)) "none" then Ok AuthInfo_default else
  authenticate (S := InMemoryRevocationStore) header_str jwt_decode base64_decode verify_hash
    get_userinfo_reply (ep_auth (hc_endpoint hc)) (cfg_auth (hc_config hc)) (hc_headers hc)
    (hc_query_params hc) None.

(** Source: handlers/common/utils.rs [HandlerContext::extract_user_id] *)
Definition extract_user_id (hc : HandlerContext) : result AppError string :=
  ai_subject <$> extract_auth_info hc.

Definition state_of (hc : HandlerContext) : crud_state Validator := {|
  cs_config := hc_config hc; cs_db_pools := hc_db_pools hc; cs_schema_registry := hc_schema_registry hc |}.

(** The roles of a user, as a list.
    Source: handlers/file_store/mod.rs [user_roles] *)
Definition user_roles (role : option string) : list string :=
  match role with Some r => [r] | None => [] end.
End context.
Arguments HandlerContext : clear implicits.
Arguments hc_config {_ _} _.
Arguments hc_db_pools {_ _} _.
Arguments hc_schema_registry {_ _} _.
Arguments hc_endpoint {_ _} _.
Arguments hc_headers {_ _} _.
Arguments hc_query_params {_ _} _.

(** [json!({...})]: the keys of an object are ordered. *)
Definition json_object (entries : list (string * value)) : value := VObject (obj_insert_all entries []).

(** A response as a handler builds it: a JSON value, a status alone, bytes with
    headers, or none at all because the handler panicked. *)
Inductive handler_response :=
| json_reply (status : Z) (body : value)
| empty_reply (status : Z)
| bytes_reply (r : http_response)
| no_reply.

(** [(total as f64 / page_size as f64).ceil() as usize], exact for fewer than
    2^53 rows; a division by zero is infinite, or not a number. *)
Definition total_pages (total page_size : Z) : Z :=
  if (page_size =? 0)%Z then (if (total =? 0)%Z then 0 else u64_max)%Z else div_ceil total page_size.

Definition pagination_json (page page_size total pages : Z) : value :=
  json_object [("page", json_int page); ("page_size", json_int page_size); ("total", json_int total);
               ("total_pages", json_int pages)].

(** ** What a handler does

    A handler works on the databases and on the store its endpoint names; a
    step that fails keeps what the steps before it did. *)

Section effects.
Context {DB St : Type} `{!Pool DB, !Storage St}.
Context (debug : string → string).

Definition eff : Type → Type := action AppError (DB * St).

Definition pass {A} (r : result AppError A) : eff A := λ w, (w, r).

(** The queries and statements of a pool. *)
Definition fetch_one (pool : DatabasePool) (q : BuiltQuery) : eff (option value) :=
  λ w, (w, fetch_optional_json pool (bq_sql q) (bq_params q) w.1).
Definition fetch_rows (pool : DatabasePool) (q : BuiltQuery) : eff (list value) :=
  λ w, (w, fetch_all_json pool (bq_sql q) (bq_params q) w.1).
Definition fetch_returning (pool : DatabasePool) (q : BuiltQuery) : eff (option value) :=
  λ w, match fetch_optional_returning pool (bq_sql q) (bq_params q) w.1 with
       | Ok (row, db) => ((db, w.2), Ok row)
       | Err e => (w, Err e)
       end.
Definition execute (pool : DatabasePool) (q : BuiltQuery) : eff Z :=
  λ w, match execute_with_params pool (bq_sql q) (bq_params q) w.1 with
       | Ok (rows_affected, db) => ((db, w.2), Ok rows_affected)
       | Err e => (w, Err e)
       end.

(** A query built without parameters, run with [ps]. *)
Definition with_params (q : BuiltQuery) (ps : list value) : BuiltQuery :=
  {| bq_sql := bq_sql q; bq_params := ps |}.

(** The store: a question, one that may fail, and an operation whose outcome is
    a value. *)
Definition ask_store {A} (f : St → A) : eff A := λ w, (w, Ok (f w.2)).
Definition try_store {A} (e : StorageError → AppError) (f : St → result StorageError A) : eff A :=
  λ w, (w, map_err e (f w.2)).
Definition store_op (f : St → result StorageError () * St) : eff (result StorageError ()) :=
  λ w, let '(r, st) := f w.2 in ((w.1, st), Ok r).

(** [.map_err(|e| AppError::FileOperation(format!("...: {e}")))?] of an operation. *)
Definition or_file_error (what : string) (f : St → result StorageError () * St) : eff () :=
  r ← store_op f;
  pass (map_err (λ e, FileOperation (what +:+ ": " +:+ show_StorageError debug e)) r).

(** The directory a path is in is created, where it has one. *)
Definition create_parent (what path : string) : eff () :=
  match path_parent path with
  | Some parent => or_file_error what (st_create_dir_all parent)
  | None => mret tt
  end.

(** [let _ = ...]: the outcome is dropped, what was done is kept. *)
Definition ignoring {A} (m : eff A) : eff () := λ w, ((m w).1, Ok tt).

(** The file path of an entry. *)
Definition file_path_query (table id : string) (driver : DatabaseDriver) : BuiltQuery :=
  with_params (build_select_file_path table driver) [VString id].

(** [f] of the file path of the entry [id], if it has one. *)
Definition with_file_path (table : string) (pool : DatabasePool) (id : string)
    (f : string → eff ()) : eff () :=
  row ← fetch_one pool (file_path_query table id (pool_driver pool));
  match (row ≫= get "file_path") ≫= as_str with Some file_path => f file_path | None => mret tt end.

(** The trashed copy of a file is deleted; the outcome is dropped. *)
Definition delete_trashed (trash_path : string) : eff () :=
  present ← ask_store (st_exists trash_path);
  if (present : bool) then ignoring (store_op (st_delete trash_path)) else mret tt.

Definition not_allowed {A} (endpoint : EndpointConfig) (message : string) : eff A :=
  pass (Err (MethodNotAllowed message (ep_methods endpoint))).

(** An action on one of the stores of the server, and on its root. *)
Definition in_store {A} (name : string) (m : string → eff A)
  : action AppError (DB * gmap string St) A :=
  λ '(db, stores),
    match resolve_store st_root_path stores name with
    | Err e => ((db, stores), Err e)
    | Ok (store, root) =>
        let '((db, store), r) := m root (db, store) in
        ((db, <[name := store]> stores), r)
    end.

End effects.
Arguments eff : clear implicits.

(** ** Running a handler *)

Section running.
Context {DB St : Type} `{!Pool DB, !Storage St}.
Notation E := (eff DB St).

Lemma eff_passE {A} (r : result AppError A) (w : DB * St) : pass r w = (w, r).
Proof. done. Qed.

Lemma eff_retE {A} (a : A) (w : DB * St) : (mret a : E A) w = (w, Ok a).
Proof. done. Qed.
Lemma or_file_errorE debug what (f : St → result StorageError () * St) (w : DB * St) :
  or_file_error debug what f w
  = ((w.1, (f w.2).2),
     map_err (λ e, FileOperation (what +:+ ": " +:+ show_StorageError debug e)) (f w.2).1).
Proof. unfold or_file_error, store_op, mbind, action_bind. by destruct (f w.2). Qed.
Lemma ignoring_store_opE (f : St → result StorageError () * St) (w : DB * St) :
  ignoring (store_op f) w = ((w.1, (f w.2).2), Ok tt).
Proof. unfold ignoring, store_op. by destruct (f w.2). Qed.
(** A statement does not touch the store. *)
Lemma execute_store pool q (w w' : DB * St) r : execute pool q w = (w', r) → w'.2 = w.2.
Proof. unfold execute. destruct (execute_with_params _ _ _ _) as [[n db]|e]; by intros [= <- <-]. Qed.

(** A handler that answers went through its steps. *)
Lemma eff_bind_Ok {A B} (m : E A) (f : A → E B) w w' b :
  (x ← m; f x) w = (w', Ok b) → ∃ w1 a, m w = (w1, Ok a) ∧ f a w1 = (w', Ok b).
Proof. unfold mbind, action_bind, and_then. destruct (m w) as [w1 [a|e]]; [eauto|done]. Qed.

(** Handlers that differ only after a step. *)
Lemma eff_bind_ext {A B} (m : E A) (f g : A → E B) w :
  (∀ a w', f a w' = g a w') → (x ← m; f x) w = (x ← m; g x) w.
Proof. intros Hfg. unfold mbind, action_bind, and_then. by destruct (m w) as [w1 [a|e]]. Qed.

(** The steps that leave the state as it is. *)
Definition reads_only {A} (m : E A) : Prop := ∀ w, (m w).1 = w.

Lemma reads_pass {A} (r : result AppError A) : reads_only (pass r).
Proof. done. Qed.
Lemma reads_ret {A} (a : A) : reads_only (mret a : E A).
Proof. done. Qed.
Lemma reads_try_store {A} e (f : St → result StorageError A) : reads_only (try_store e f).
Proof. done. Qed.
Lemma reads_ask_store {A} (f : St → A) : reads_only (ask_store f).
Proof. done. Qed.
Lemma reads_fetch_one pool q : reads_only (fetch_one pool q).
Proof. done. Qed.
Lemma reads_fetch_rows pool q : reads_only (fetch_rows pool q).
Proof. done. Qed.
Lemma reads_bind {A B} (m : E A) (f : A → E B) :
  reads_only m → (∀ a, reads_only (f a)) → reads_only (x ← m; f x).
Proof.
  intros Hm Hf w. unfold mbind, action_bind, and_then. specialize (Hm w).
  destruct (m w) as [w1 [a|e]]; cbn in *; subst; [apply Hf|done].
Qed.

(** What changed the state comes after the steps that only read. *)
Lemma changed_after {A B} (m : E A) (f : A → E B) w :
  reads_only m → ((x ← m; f x) w).1 ≠ w → ∃ a, m w = (w, Ok a) ∧ (f a w).1 ≠ w.
Proof.
  intros Hm. unfold mbind, action_bind, and_then. specialize (Hm w).
  destruct (m w) as [w1 [a|e]]; cbn in *; subst; [eauto|done].
Qed.
End running.

(** Running a handler step by step. *)
Ltac run_step :=
  match goal with
  | |- context [@mbind ?M ?H ?A ?B ?f ?m ?w] =>
      change (@mbind M H A B f m w) with (and_then (m w) f); rewrite ?eff_passE, ?eff_retE; cbn [and_then]
  end.

Create HintDb reads.
#[export] Hint Resolve reads_pass reads_ret reads_fetch_one reads_fetch_rows reads_ask_store
  reads_try_store : reads.

Ltac reads_step :=
  lazymatch goal with
  | |- reads_only (mbind _ _) => apply reads_bind; [|intros ?]
  | |- reads_only (match ?x with _ => _ end) => destruct x
  | |- reads_only _ => solve [auto with reads]
  end.
Ltac reads := intros; repeat reads_step.

(** The next step of a handler that changed the state, or that answered. *)
Ltac changed x Hx H :=
  apply changed_after in H as (x&Hx&H); [|solve [reads]].
Ltac answered w x Hx H := apply eff_bind_Ok in H as (w&x&Hx&H).

(** ** Files *)

Section files.
Context {DB St : Type} `{!Storage St, !StorageLaws St}.

Definition file_at (p : string) (w : DB * St) : option bytes := content p w.2.

(** Paths of two files. *)
Definition two_files (p q : string) : Prop :=
  apart p q ∧ names_file p = true ∧ names_file q = true.

Lemma two_files_sym p q : two_files p q → two_files q p.
Proof. intros (?&?&?). split_and!; [by apply apart_sym|done..]. Qed.

(** What is kept of the files but for the directories a request makes. *)
Definition same_files (w w' : DB * St) : Prop :=
  ∀ q, names_file q = true → file_at q w' = file_at q w.

Lemma create_dir_all_file debug what (p : string) (w w' : DB * St) r :
  or_file_error debug what (st_create_dir_all p) w = (w', r) →
  w'.1 = w.1 ∧ same_files w w'.
Proof.
  rewrite or_file_errorE. intros [= <- _]. split; [done|]. intros q Hq. unfold file_at. cbn.
  destruct (st_create_dir_all p w.2) eqn:Hc. by eapply create_dir_all_frame.
Qed.

(** The parent directory of a path is made, where it has one. *)
Lemma parent_made debug what (p : string) (w w' : DB * St) r :
  create_parent debug what p w = (w', r) → w'.1 = w.1 ∧ same_files w w'.
Proof. unfold create_parent. destruct (path_parent p); [apply create_dir_all_file|by intros [= <- _]]. Qed.

(** What moving a file does to the store, if it succeeded. *)
Definition moved (src dst : string) (c : bytes) (w w' : DB * St) : Prop :=
  w'.1 = w.1 ∧ file_at dst w' = Some c ∧ file_at src w' = None ∧
  ∀ q, names_file q = true → apart q src → apart q dst → file_at q w' = file_at q w.

Lemma rename_moved src dst c (w w1 w' : DB * St) :
  w1.1 = w.1 → same_files w w1 →
  w' = (w1.1, (st_rename src dst w1.2).2) → two_files src dst →
  file_at src w = Some c → (st_rename src dst w1.2).1 = Ok tt → moved src dst c w w'.
Proof.
  intros Hdb Hw1 -> (Hne&Hsrc&_) Hc Hr. destruct (st_rename src dst w1.2) as [r s'] eqn:Hs. cbn in Hr. subst r.
  unfold moved, same_files, file_at in *. cbn in *. rewrite <-Hw1 in Hc by done.
  destruct (rename_file _ _ _ _ _ Hc Hne Hs) as (H1&H2).
  split_and!; try done. intros q Hq Hp Hd.
  rewrite (rename_frame _ _ q _ _ _ Hs) by (intros; by apply apart_sym). by apply Hw1.
Qed.

(** A file that is gone was renamed. *)
Lemma gone_renamed src dst c (w1 : DB * St) :
  apart src dst →
  file_at src w1 = Some c → file_at src (w1.1, (st_rename src dst w1.2).2) = None →
  (st_rename src dst w1.2).1 = Ok tt.
Proof.
  unfold file_at. cbn. intros Hne Hc Hgone. destruct (st_rename src dst w1.2) as [[[]|e] s'] eqn:Hr; [done|].
  cbn in Hgone. rewrite (rename_frame _ _ src _ _ _ Hr) in Hgone; [congruence|done|by apply apart_sym].
Qed.

End files.
