(* ===== verification/FileStore.v ===== *)
(** * File store endpoints

    The handlers of src/src/handlers/file_store/: a catalogue of files kept in
    a table, with the files in a store. A handler is an action on the
    databases and on the store of the endpoint ([eff] of [Handlers]). *)

From S2P Require Import Prelude RustStr Json Config Errors SqlHelpers Select Mutations Statements Paths Storage Pool Roles Routing Accounts Credentials Auth Schemas Stores Handlers Crud.
Local Open Scope stdpp_scope.

(** ** Field permissions *)

(** Source: handlers/file_store/mod.rs [is_field_writable] *)
Definition is_field_writable (field : string) (user_roles : list string)
    (permissions : gmap string FileStoreFieldPermissions) : bool :=
  match permissions !! field with
  | Some field_perm =>
      if existsb (String.eqb "*") (ffp_write field_perm) then true
      else existsb (λ r, bool_decide (r ∈ ffp_write field_perm)) user_roles
  | None => true
  end.

Definition owner_column (config : FileStoreConfig) : string :=
  match fs_ownership config with Some o => fso_owner_column o | None => "owner_id" end.

(** Source: handlers/file_store/mod.rs [is_field_readable] *)
Definition is_field_readable (field : string) (config : FileStoreConfig) : bool :=
  if bool_decide (field ∈ ["id"; "created_at"; "updated_at"; owner_column config]) then true
  else
    match fs_field_permissions config with
    | Some permissions =>
        match permissions !! field with
        | Some field_perm => if existsb (String.eqb "*") (ffp_read field_perm) then true else true
        | None => true
        end
    | None => true
    end.

(** Source: handlers/file_store/mod.rs [is_field_readable_by_role] *)
Definition is_field_readable_by_role (field : string) (user_roles : list string)
    (permissions : gmap string FileStoreFieldPermissions) : bool :=
  match permissions !! field with
  | Some field_perm =>
      if existsb (String.eqb "*") (ffp_read field_perm) then true
      else existsb (λ r, bool_decide (r ∈ ffp_read field_perm)) user_roles
  | None => true
  end.

(** The entries of an object that [p] keeps, inserted one by one. *)
Definition keep_fields (p : string → bool) (obj : list (string * value)) : list (string * value) :=
  obj_insert_all (List.filter (λ kv, p kv.1) obj) [].

(** Source: handlers/file_store/mod.rs [apply_row_permissions] *)
Definition apply_row_permissions (rows : list value) (config : FileStoreConfig) : list value :=
  map (λ row, match row with
              | VObject obj => VObject (keep_fields (λ key, is_field_readable key config) obj)
              | _ => row
              end) rows.

(** The first field of a body that is a column of the table and that the user
    may not write. *)
Definition check_writable (table : TableConfig) (exempt : list string) (roles : list string)
    (permissions : option (gmap string FileStoreFieldPermissions)) (body : option value)
  : result AppError () :=
  match permissions with
  | None => Ok tt
  | Some permissions =>
      match find_first (λ k, existsb (λ c, bool_decide (col_name c = k)) (tbl_columns table)
                             && negb (bool_decide (k ∈ exempt))
                             && negb (is_field_writable k roles permissions))
              (map fst (default [] (body ≫= as_object))) with
      | Some k => Err (Forbidden ("Field '" +:+ k +:+ "' is not writable by the current user's roles"))
      | None => Ok tt
      end
  end.

Section file_store.
Context {DB St : Type} `{!Pool DB, !Storage St}.
Context {HeaderMap Validator : Type} (header_str : HeaderMap → string → option string).
Context (jwt_decode : string → Validation → string → result string value).
Context (base64_decode : string → option (option string)).
Context (verify_hash : string → string → option password_check).
Context (get_userinfo_reply : string → string → http_reply).
Context (iter_errors : Validator → value → list (string * string)).
Context (iter_schemas : gmap string (JsonSchema Validator) → list (string * JsonSchema Validator)).
Context (unicode_alnum json_path_ok unicode_word : string → bool).
Context (json_string : string → string) (json_text : value → string) (debug : string → string).
Context (iter : gmap string string → list (string * string)).
(** The readings of the clock by one request, in order. *)
Context (utc_now : nat → string).

Notation HandlerContext := (HandlerContext HeaderMap Validator).
Notation auth_info_of :=
  (extract_auth_info header_str jwt_decode base64_decode verify_hash get_userinfo_reply).
Notation user_id_of :=
  (extract_user_id header_str jwt_decode base64_decode verify_hash get_userinfo_reply).
Notation E := (eff DB St).

(** The table of the database context is [fsc_db_ctx], its pool
    [fsc_pool]; the store itself is part of the state, and
    [fsc_has_storage] tells whether the context refers to it.
    Source: handlers/file_store/mod.rs [FileStoreContext] *)
Record FileStoreContext := {
  fsc_handler : HandlerContext;
  fsc_pool : DatabasePool;
  fsc_db_ctx : DatabaseContext;
  fsc_config : FileStoreConfig;
  fsc_id : option string;
  fsc_body : option value;
  fsc_has_storage : bool;
}.

(** Source: handlers/file_store/mod.rs [FileStoreContext::require_id] *)
Definition require_id (ctx : FileStoreContext) : result AppError string :=
  ok_or (Internal "File ID required") (fsc_id ctx).

(** Source: handlers/file_store/mod.rs [FileStoreContext::require_storage] *)
Definition require_storage (ctx : FileStoreContext) : result AppError () :=
  if fsc_has_storage ctx then Ok tt else Err (Internal "Storage backend required").

(** The query for the owner of an entry. *)
Definition owner_query (config : FileStoreConfig) (driver : DatabaseDriver) : result AppError BuiltQuery :=
  map_err (build_error "query") (build_select_by_id (fs_table config) [owner_column config] driver).

(** Source: handlers/file_store/mod.rs [check_file_store_ownership] *)
Definition check_file_store_ownership (hc : HandlerContext) (config : FileStoreConfig) (id : string)
    (driver : DatabaseDriver) : E () :=
  user_id ← pass (user_id_of hc);
  pool ← pass (db_pool (hc_db_pools hc) (fs_database config));
  built ← pass (owner_query config driver);
  row ← fetch_one pool (with_params built [VString id]);
  match (row ≫= get (owner_column config)) ≫= as_str with
  | Some owner_id =>
      if bool_decide (owner_id = user_id) then mret tt
      else pass (Err (Forbidden "Access denied: file entry owned by another user"))
  | None => mret tt
  end.

(** The check of the handlers that change an entry: an administrator of the
    endpoint may change any. *)
Definition check_unless_admin (ctx : FileStoreContext) (id : string) : E () :=
  match fs_ownership (fsc_config ctx) with
  | None => mret tt
  | Some _ =>
      auth_info ← pass (auth_info_of (fsc_handler ctx));
      if is_admin (ep_roles (hc_endpoint (fsc_handler ctx))) (ai_role auth_info) then mret tt
      else check_file_store_ownership (fsc_handler ctx) (fsc_config ctx) id (pool_driver (fsc_pool ctx))
  end.

(** ** Creating *)

Definition column_names (table : TableConfig) : list string := map col_name (tbl_columns table).
Definition body_or_empty (ctx : FileStoreContext) : value := default (VObject []) (fsc_body ctx).
Definition all_fields : MutationContext := {|
  mc_writable_fields := ["*"]; mc_insert_owner := None; mc_update_where_clause := None;
  mc_delete_where_clause := None |}.

(** A column of the table, set to a text. *)
Definition set_column (table : TableConfig) (column : string) (text : string)
    (body : list (string * value)) : list (string * value) :=
  if bool_decide (column ∈ column_names table) then obj_set column (VString text) body else body.

Definition set_owner (config : FileStoreConfig) (user_id : string) (obj : list (string * value))
  : list (string * value) :=
  match fs_ownership config with
  | Some o => obj_set (fso_owner_column o) (VString user_id) obj
  | None => obj
  end.

(** The row an entry is created with. *)
Definition create_body (ctx : FileStoreContext) (user_id : string) : list (string * value) :=
  let table := dbx_table (fsc_db_ctx ctx) in
  let body_map := filter_writable_body (body_or_empty ctx) (column_names table) in
  set_column table "updated_at" (utc_now 1)
    (set_column table "created_at" (utc_now 0) (set_owner (fsc_config ctx) user_id body_map)).

(** The inserted row as it is answered. *)
Definition created_row (config : FileStoreConfig) (user_id : string) (row : option value) : option value :=
  match row with
  | Some (VObject obj) => Some (stringify_id json_text (VObject (set_owner config user_id obj)))
  | _ => row
  end.

(** Source: handlers/file_store/create.rs [handle_file_store_create] *)
Definition handle_file_store_create (ctx : FileStoreContext) : E handler_response :=
  let hc := fsc_handler ctx in
  let config := fsc_config ctx in
  let table := dbx_table (fsc_db_ctx ctx) in
  user_id ← pass (user_id_of hc);
  _ ← (match fs_field_permissions config with
       | Some _ =>
           auth_info ← pass (auth_info_of hc);
           pass (check_writable table [] (user_roles (ai_role auth_info))
                   (fs_field_permissions config) (fsc_body ctx))
       | None => mret tt
       end : E ());
  _ ← pass (validate_jsonb_body iter_errors iter_schemas (body_or_empty ctx) (tbl_name table)
              (hc_schema_registry hc));
  built ← pass (build_insert unicode_alnum (fsc_db_ctx ctx) all_fields
                  (VObject (create_body ctx user_id)) empty_context);
  if contains_str "RETURNING" (bq_sql built) then
    row ← fetch_returning (fsc_pool ctx) built;
    mret (json_reply 201 (json_object [("data", json_option (created_row config user_id row))]))
  else
    rows_affected ← execute (fsc_pool ctx) built;
    mret (json_reply 201 (json_object [("rows_affected", json_int rows_affected)])).

(** ** Reading *)

Definition entry_not_found (id : string) : AppError := NotFound ("File entry with id '" +:+ id +:+ "' not found").

(** The columns of a row the user's roles may read. *)
Definition readable_row (hc : HandlerContext) (config : FileStoreConfig) (row : value) : E value :=
  match fs_field_permissions config with
  | Some permissions =>
      auth_info ← pass (auth_info_of hc);
      mret (VObject (keep_fields
              (λ key, is_field_readable_by_role key (user_roles (ai_role auth_info)) permissions)
              (default [] (as_object row))))
  | None => mret row
  end.

(** Ownership is checked only where administrators may override it.
    Source: handlers/file_store/get_one.rs [handle_file_store_get_one] *)
Definition handle_file_store_get_one (hc : HandlerContext) (pool : DatabasePool)
    (db_ctx : DatabaseContext) (config : FileStoreConfig) (id : string) : E handler_response :=
  _ ← (match fs_ownership config with
       | Some ownership =>
           auth_info ← pass (auth_info_of hc);
           if fso_admin_override ownership && negb (is_admin (ep_roles (hc_endpoint hc)) (ai_role auth_info))
           then check_file_store_ownership hc config id (pool_driver pool) else mret tt
       | None => mret tt
       end : E ());
  built ← pass (build_select_one db_ctx permissive id empty_context);
  found ← fetch_one pool built;
  match found with
  | Some row =>
      row ← readable_row hc config row;
      mret (json_reply 200 (stringify_id json_text row))
  | None => pass (Err (entry_not_found id))
  end.

(** What a list asks for before the owner is taken into account. *)
Definition list_params (config : FileStoreConfig) (query_params : gmap string string) : QueryParams :=
  let qp := extract_query_params query_params in
  let sorting := fs_sorting config in
  {| qp_page := Some (default 1%Z (qp_page qp));
     qp_page_size := Some (default (pg_default_page_size (fs_pagination config)) (qp_page_size qp));
     qp_sort := match qp_sort qp with
                | Some s => Some s
                | None => if is_empty (sc_default_field sorting) then None
                          else Some (sc_default_field sorting)
                end;
     qp_order := Some (default (sc_default_order sorting) (qp_order qp));
     qp_filters := qp_filters qp |}.

Definition with_filter (qp : QueryParams) (column text : string) : QueryParams := {|
  qp_page := qp_page qp; qp_page_size := qp_page_size qp; qp_sort := qp_sort qp;
  qp_order := qp_order qp; qp_filters := <[column := text]> (qp_filters qp) |}.

(** A row that was not moved to the trash. *)
Definition not_trashed (row : value) : bool :=
  match get "trashed_at" row ≫= as_str with Some _ => false | None => true end.

(** Source: handlers/file_store/list.rs [handle_file_store_list] *)
Definition handle_file_store_list (ctx : FileStoreContext) : E handler_response :=
  let hc := fsc_handler ctx in
  let config := fsc_config ctx in
  let qp := list_params config (hc_query_params hc) in
  qp ← (match fs_ownership config with
        | Some ownership =>
            user_id ← pass (user_id_of hc);
            auth_info ← pass (auth_info_of hc);
            mret (if is_admin (ep_roles (hc_endpoint hc)) (ai_role auth_info) then qp
                  else with_filter qp (fso_owner_column ownership) user_id)
        | None => mret qp
        end : E QueryParams);
  built ← pass (build_select_list unicode_alnum json_path_ok unicode_word json_string iter
                  (fsc_db_ctx ctx) permissive qp empty_context);
  rows ← fetch_rows (fsc_pool ctx) built;
  let rows := List.filter not_trashed rows in
  let total := Z.of_nat (length rows) in
  let rows := apply_row_permissions (map (stringify_id json_text) rows) config in
  let default_page_size := pg_default_page_size (fs_pagination config) in
  let page := default default_page_size (qp_page qp) in
  let page_size := default default_page_size (qp_page_size qp) in
  mret (json_reply 200 (json_object
    [("data", VArray rows);
     ("pagination", pagination_json page page_size total (total_pages total page_size))])).

(** ** Updating *)

(** Source: handlers/file_store/update.rs [handle_file_store_update] *)
Definition handle_file_store_update (ctx : FileStoreContext) : E handler_response :=
  let hc := fsc_handler ctx in
  let config := fsc_config ctx in
  let table := dbx_table (fsc_db_ctx ctx) in
  auth_info ← pass (auth_info_of hc);
  _ ← (match fs_ownership config with
       | Some _ =>
           if is_admin (ep_roles (hc_endpoint hc)) (ai_role auth_info) then mret tt
           else id ← pass (require_id ctx);
                check_file_store_ownership hc config id (pool_driver (fsc_pool ctx))
       | None => mret tt
       end : E ());
  _ ← pass (check_writable table ["updated_at"] (user_roles (ai_role auth_info))
              (fs_field_permissions config) (fsc_body ctx));
  _ ← pass (validate_jsonb_body iter_errors iter_schemas (body_or_empty ctx) (tbl_name table)
              (hc_schema_registry hc));
  let body_map := obj_set "updated_at" (VString (utc_now 0))
                    (filter_writable_body (body_or_empty ctx) (column_names table)) in
  id ← pass (require_id ctx);
  built ← pass (build_update unicode_alnum (fsc_db_ctx ctx) all_fields id (VObject body_map)
                  empty_context None);
  rows_affected ← execute (fsc_pool ctx) built;
  if (rows_affected =? 0)%Z then pass (Err (entry_not_found id))
  else
    built ← pass (build_select_one (fsc_db_ctx ctx) permissive id empty_context);
    row ← fetch_one (fsc_pool ctx) built;
    mret (json_reply 200 (default (json_object [("rows_affected", json_int rows_affected)]) row)).

(** ** Deleting *)

(** The file of an entry is moved below [.trash] of the store; a move that
    fails is dropped.
    Source: handlers/file_store/delete.rs:41-54 [handle_file_store_delete] *)
Definition move_to_trash (config : FileStoreConfig) (file_path : string) : E () :=
  store_root ← ask_store (λ st, default (fs_storage config) (st_root_path st));
  let trash_dest := path_join (path_join store_root ".trash") file_path in
  let source_path := path_join store_root file_path in
  present ← ask_store (st_exists source_path);
  if (present : bool) then
    _ ← create_parent debug "Failed to create trash directory" trash_dest;
    ignoring (store_op (st_rename source_path trash_dest))
  else mret tt.

(** The file of an entry is deleted. *)
Definition delete_file_of (config : FileStoreConfig) (file_path : string) : E () :=
  store_root ← ask_store (λ st, default (fs_storage config) (st_root_path st));
  let file_path_buf := path_join store_root file_path in
  present ← ask_store (st_exists file_path_buf);
  if (present : bool) then or_file_error debug "Failed to delete file" (st_delete file_path_buf)
  else mret tt.

Definition trash_enabled (config : FileStoreConfig) : bool :=
  match fs_trash config with Some t => fst_enabled t | None => false end.

(** A statement that must affect the entry [id]. *)
Definition execute_on_entry (pool : DatabasePool) (id : string) (q : BuiltQuery) : E handler_response :=
  rows_affected ← execute pool q;
  if (rows_affected =? 0)%Z then pass (Err (entry_not_found id))
  else mret (empty_reply 204).

(** Without trash the ownership is checked a second time.
    Source: handlers/file_store/delete.rs [handle_file_store_delete] *)
Definition handle_file_store_delete (ctx : FileStoreContext) : E handler_response :=
  let config := fsc_config ctx in
  let pool := fsc_pool ctx in
  _ ← pass (require_storage ctx);
  id ← pass (require_id ctx);
  _ ← check_unless_admin ctx id;
  if trash_enabled config then
    _ ← with_file_path (fs_table config) pool id (move_to_trash config);
    built ← pass (map_err (build_error "query") (build_set_trashed (fs_table config) (pool_driver pool)));
    execute_on_entry pool id (with_params built [VString id])
  else
    _ ← check_unless_admin ctx id;
    _ ← with_file_path (fs_table config) pool id (delete_file_of config);
    built ← pass (build_delete id (fsc_db_ctx ctx) empty_context None);
    execute_on_entry pool id built.

(** ** The trash *)

(** Source: handlers/file_store/trash.rs [handle_file_store_trash_list] *)
Definition handle_file_store_trash_list (pool : DatabasePool) (db_ctx : DatabaseContext)
  : E handler_response :=
  rows ← fetch_rows pool (build_select_trashed (tbl_name (dbx_table db_ctx)) (pool_driver pool));
  let total := Z.of_nat (length rows) in
  mret (json_reply 200 (json_object
    [("data", VArray rows); ("pagination", pagination_json 1 total total 1)])).

Definition require_trash (config : FileStoreConfig) : result AppError FileStoreTrashConfig :=
  ok_or (Internal "Trash not enabled") (fs_trash config).

(** The file path of a trashed entry; empty when there is none. *)
Definition trashed_file_path (config : FileStoreConfig) (pool : DatabasePool) (id : string) : E string :=
  row ← fetch_one pool
          (with_params (build_select_trashed_item (fs_table config) (pool_driver pool)) [VString id]);
  mret (match extract_file_path row id with Ok file_path => file_path | Err _ => "" end).

(** Source: handlers/file_store/trash.rs [handle_file_store_trash_restore] *)
Definition handle_file_store_trash_restore (id : string) (config : FileStoreConfig) (root : string)
    (pool : DatabasePool) : E handler_response :=
  trash_config ← pass (require_trash config);
  file_path ← trashed_file_path config pool id;
  let trash_path := path_join (path_join root (fst_prefix trash_config)) file_path in
  let restore_path := path_join root file_path in
  present ← ask_store (st_exists trash_path);
  _ ← (if (present : bool) then
         _ ← create_parent debug "Failed to create directory" restore_path;
         or_file_error debug "Failed to restore file" (st_rename trash_path restore_path)
       else mret tt : E ());
  built ← pass (map_err (build_error "query") (build_set_restored (fs_table config) (pool_driver pool)));
  _ ← execute pool (with_params built [VString id]);
  mret (json_reply 200 (json_object
    [("success", VBool true); ("message", VString "File store entry restored from trash")])).

(** The rows of the trash, one after the other; those without an identifier
    are skipped. *)
Fixpoint empty_trash (config : FileStoreConfig) (db_ctx : DatabaseContext) (pool : DatabasePool)
    (trash_dir : string) (rows : list value) (deleted_count : Z) : E Z :=
  match rows with
  | [] => mret deleted_count
  | row :: rows =>
      match get "id" row ≫= as_str with
      | Some id =>
          _ ← with_file_path (fs_table config) pool id (λ file_path, delete_trashed (path_join trash_dir file_path));
          built ← pass (build_delete id db_ctx empty_context None);
          _ ← ignoring (execute pool built);
          empty_trash config db_ctx pool trash_dir rows (deleted_count + 1)
      | None => empty_trash config db_ctx pool trash_dir rows deleted_count
      end
  end.

(** Source: handlers/file_store/trash.rs [handle_file_store_trash_empty] *)
Definition handle_file_store_trash_empty (config : FileStoreConfig) (db_ctx : DatabaseContext)
    (root : string) (pool : DatabasePool) : E handler_response :=
  trash_config ← pass (require_trash config);
  rows ← fetch_rows pool (build_select_trashed_ids (fs_table config) (pool_driver pool));
  deleted_count ← empty_trash config db_ctx pool (path_join root (fst_prefix trash_config))
                    (map (stringify_id json_text) rows) 0;
  mret (json_reply 200 (json_object
    [("success", VBool true);
     ("message", VString ("Emptied trash, deleted " +:+ show_Z deleted_count +:+ " items"));
     ("deleted_count", json_int deleted_count)])).

(** Source: handlers/file_store/trash.rs [handle_file_store_trash_permanent_delete] *)
Definition handle_file_store_trash_permanent_delete (id : string) (config : FileStoreConfig)
    (db_ctx : DatabaseContext) (root : string) (pool : DatabasePool) : E handler_response :=
  trash_config ← pass (require_trash config);
  file_path ← trashed_file_path config pool id;
  _ ← (if is_empty file_path then mret tt
       else delete_trashed (path_join (path_join root (fst_prefix trash_config)) file_path) : E ());
  built ← pass (build_delete id db_ctx empty_context None);
  rows_affected ← execute pool built;
  if (rows_affected =? 0)%Z then pass (Err (NotFound "Trashed file store entry not found"))
  else mret (json_reply 200 (json_object
    [("success", VBool true);
     ("message", VString "File store entry permanently deleted from trash");
     ("rows_affected", json_int rows_affected)])).

Definition trash_route : string := "/_main-serve/file-store/trash".

(** Source: handlers/file_store/trash.rs [handle_file_store_trash] *)
Definition handle_file_store_trash (method path : string) (endpoint : EndpointConfig)
    (config : FileStoreConfig) (root : string) (pool : DatabasePool) (db_ctx : DatabaseContext)
  : E handler_response :=
  match fs_trash config with
  | None => not_allowed endpoint "Trash is not enabled"
  | Some trash_config =>
      let item := strip_prefix (trash_route +:+ "/") path in
      if negb (fst_enabled trash_config) then not_allowed endpoint "Trash is not enabled"
      else if bool_decide (method = "GET") then handle_file_store_trash_list pool db_ctx
      else if bool_decide (method = "DELETE") &&
              (bool_decide (path = trash_route) || bool_decide (path = trash_route +:+ "/")) then
        handle_file_store_trash_empty config db_ctx root pool
      else if bool_decide (method = "POST") then
        match item ≫= strip_suffix "/restore" with
        | Some id => handle_file_store_trash_restore id config root pool
        | None => pass (Err (BadRequest "Invalid trash restore path"))
        end
      else if bool_decide (method = "DELETE") then
        match item with
        | Some id => handle_file_store_trash_permanent_delete id config db_ctx root pool
        | None => pass (Err (BadRequest "Invalid trash delete path"))
        end
      else not_allowed endpoint "Method not allowed for trash endpoint"
  end.

(** ** Content references *)

Definition enabled_references (endpoint : EndpointConfig) (config : FileStoreConfig)
  : result AppError FileStoreContentReferencesConfig :=
  content_refs ← ok_or (MethodNotAllowed "Content references not enabled" (ep_methods endpoint))
                   (fs_content_references config);
  if fsr_enabled content_refs then Ok content_refs
  else Err (MethodNotAllowed "Content references are disabled" (ep_methods endpoint)).

(** A text or an integer, as text. *)
Definition reference_id (v : value) : option string :=
  match as_str v with
  | Some s => Some s
  | None => show_Z <$> opt_or (as_i64 v) (as_u64 v)
  end.

(** Source: handlers/file_store/content_refs.rs [handle_file_store_attach] *)
Definition handle_file_store_attach (id : string) (endpoint : EndpointConfig) (config : FileStoreConfig)
    (pool : DatabasePool) (body : value) : E handler_response :=
  refs ← pass (enabled_references endpoint config);
  entity_id ← pass (ok_or (BadRequest "entity_id is required") (get "entity_id" body ≫= reference_id));
  content_type ← pass (ok_or (BadRequest "content_type is required") (get "content_type" body ≫= as_str));
  let driver := pool_driver pool in
  max_row ← fetch_one pool (build_file_ref_max_order (fsr_table refs) (fsr_order_column refs) driver);
  let max_order := default 0%Z ((max_row ≫= get "max_order") ≫= as_i64) in
  let built := build_file_ref_insert (fsr_table refs)
    [fsr_media_id_column refs; fsr_entity_id_column refs; fsr_content_type_column refs;
     fsr_order_column refs] driver in
  _ ← execute pool (with_params built
        [VString id; VString entity_id; VString content_type;
         json_int (i64_wrap (max_order + 1))]);
  let built := build_file_ref_select (fsr_table refs) (fsr_media_id_column refs)
    (fsr_entity_id_column refs) (fsr_content_type_column refs) driver in
  row ← fetch_one pool (with_params built [VString id; VString entity_id; VString content_type]);
  mret (json_reply 201 (json_object [("data", json_option row)])).

(** Source: handlers/file_store/content_refs.rs [handle_file_store_detach] *)
Definition handle_file_store_detach (id entity_id : string) (endpoint : EndpointConfig)
    (config : FileStoreConfig) (pool : DatabasePool) : E handler_response :=
  refs ← pass (enabled_references endpoint config);
  let built := build_file_ref_delete (fsr_table refs) (fsr_media_id_column refs)
    (fsr_entity_id_column refs) (fsr_content_type_column refs) (pool_driver pool) in
  rows_affected ← execute pool (with_params built [VString id; VString entity_id]);
  if (rows_affected =? 0)%Z then
    pass (Err (NotFound ("No content reference found for file id '" +:+ id +:+ "', entity '" +:+
                         entity_id +:+ "'")))
  else mret (json_reply 200 (json_object
    [("success", VBool true);
     ("message", VString ("Detached file '" +:+ id +:+ "' from entity '" +:+ entity_id +:+ "'"));
     ("rows_affected", json_int rows_affected)])).

(** ** Dispatch *)

Definition file_store_context (hc : HandlerContext) (pool : DatabasePool) (db_ctx : DatabaseContext)
    (config : FileStoreConfig) (id : option string) (body : option value) (has_storage : bool)
  : FileStoreContext := {|
  fsc_handler := hc; fsc_pool := pool; fsc_db_ctx := db_ctx; fsc_config := config; fsc_id := id;
  fsc_body := body; fsc_has_storage := has_storage |}.

(** The path of an endpoint without the first of the suffixes it has. *)
Definition base_path (suffixes : list string) (endpoint : EndpointConfig) : string :=
  let endpoint_path := trim_end "/" (ep_path endpoint) in
  trim_end "/" (default endpoint_path
    (foldr (λ suffix rest, opt_or (strip_suffix suffix endpoint_path) rest) None suffixes)).

(** Source: handlers/file_store/mod.rs [dispatch_file_store_get] *)
Definition dispatch_file_store_get (hc : HandlerContext) (pool : DatabasePool) (db_ctx : DatabaseContext)
    (config : FileStoreConfig) (path : string) : E handler_response :=
  let base := base_path ["/{id}"; "/*"] (hc_endpoint hc) in
  let path_normalized := trim_end "/" path in
  if is_empty path_normalized || bool_decide (path_normalized = "/") || bool_decide (path_normalized = base)
  then handle_file_store_list (file_store_context hc pool db_ctx config None None false)
  else
    match extract_id path with
    | Some id => handle_file_store_get_one hc pool db_ctx config id
    | None => pass (Err (BadRequest "File ID required"))
    end.

(** The entry that a reference is attached to: [{id}] of [.../{id}/refs]. *)
Definition attach_target (path : string) : option string :=
  path_without_refs ← opt_or (strip_suffix "/refs" path) (strip_suffix "/refs/" path);
  extract_id path_without_refs.

(** Source: handlers/file_store/mod.rs [dispatch_file_store_post] *)
Definition dispatch_file_store_post (hc : HandlerContext) (pool : DatabasePool) (db_ctx : DatabaseContext)
    (config : FileStoreConfig) (body : value) (path : string) : E handler_response :=
  let endpoint := hc_endpoint hc in
  let base := base_path ["/*"; "/{*rest}"] endpoint in
  match attach_target path with
  | Some id => handle_file_store_attach id endpoint config pool body
  | None =>
      if is_empty path || bool_decide (path = "/") || bool_decide (path = base) then
        handle_file_store_create (file_store_context hc pool db_ctx config None (Some body) false)
      else not_allowed endpoint "POST not allowed on this path"
  end.

(** The entry and the entity of [/.../{id}/refs/{entity_id}/...]. *)
Definition detach_target (path : string) : option (string * string) :=
  rest ← strip_prefix "/" path;
  '(before_refs, after_refs) ← split_once_str "/refs/" rest;
  id ← extract_id before_refs;
  let entity_id := default "" (head (split "/" after_refs)) in
  if is_empty entity_id then None else Some (id, entity_id).

(** The methods that need the store of the endpoint and its table.
    Source: handlers/file_store/mod.rs:141-208 [dispatch_file_store] *)
Definition dispatch_method (hc : HandlerContext) (pool : DatabasePool) (db_ctx : DatabaseContext)
    (config : FileStoreConfig) (method path : string) (body : value) : E handler_response :=
  let context := file_store_context hc pool db_ctx config in
  if bool_decide (method = "GET") then dispatch_file_store_get hc pool db_ctx config path
  else if bool_decide (method = "POST") then dispatch_file_store_post hc pool db_ctx config body path
  else if bool_decide (method = "PATCH") then
    match extract_id path with
    | Some id => handle_file_store_update (context (Some id) (Some body) false)
    | None => pass (Err (BadRequest ("File ID required for path: " +:+ path)))
    end
  else if bool_decide (method = "DELETE") then
    match detach_target path with
    | Some (id, entity_id) => handle_file_store_detach id entity_id (hc_endpoint hc) config pool
    | None =>
        match extract_id path with
        | Some id => handle_file_store_delete (context (Some id) None true)
        | None => pass (Err (BadRequest "File ID required"))
        end
    end
  else not_allowed (hc_endpoint hc) "Method not allowed for file store endpoint".

(** Source: handlers/file_store/mod.rs [dispatch_file_store] *)
Definition dispatch_file_store (hc : HandlerContext) (method path : string) (body : value)
  : action AppError (DB * gmap string St) handler_response :=
  match ep_file_store (hc_endpoint hc) with
  | None => lift (Err (NotFound "File store config not found"))
  | Some config =>
      in_store (fs_storage config) (λ root,
        '(pool, db_ctx) ← pass (get_db_context (state_of hc) (fs_database config) (fs_table config));
        if starts_with trash_route path then
          handle_file_store_trash method path (hc_endpoint hc) config root pool db_ctx
        else dispatch_method hc pool db_ctx config method path body)
  end.

(** ** The route *)

Context (iter_endpoints : endpoint_map → list (string * EndpointConfig)).
Context (from_slice : string → option value).

(** A body that is empty or not JSON counts as an empty object.
    Source: handlers/file_store/mod.rs [handle_file_store_route] *)
Definition handle_file_store_route (config : AppConfig) (db_pools : gmap string DatabasePool)
    (registry : SchemaRegistry Validator) (configs : endpoint_map) (matched_path method path : string)
    (headers : HeaderMap) (query : gmap string string) (body : string)
  : action AppError (DB * gmap string St) handler_response :=
  endpoint ← lift (ok_or (NotFound "Endpoint not found")
                     (get_endpoint_config_for_method iter_endpoints configs matched_path method));
  let body_value := default (VObject []) (if is_empty body then None else from_slice body) in
  dispatch_file_store
    {| hc_config := config; hc_db_pools := db_pools; hc_schema_registry := registry;
       hc_endpoint := endpoint; hc_headers := headers; hc_query_params := query |}
    method path body_value.
End file_store.
Arguments FileStoreContext : clear implicits.
