(* ===== verification/FileStoreSpec.v ===== *)
(** * What the file store promises

    Who may change the catalogue, what happens to the files of deleted and
    restored entries, and what the handlers do not check. *)

From S2P Require Import Prelude RustStr Json Config Errors SqlHelpers Select Mutations Statements Paths Storage MemoryStorage Pool Roles Accounts Credentials Auth Schemas Stores Handlers Crud FileStore SelectSpec AuthSpec.
Local Open Scope stdpp_scope.

Section spec.
Context {DB St : Type} `{!Pool DB, !Storage St}.
Context {HeaderMap Validator : Type} (header_str : HeaderMap → string → option string).
Context (jwt_decode : string → Validation → string → result string value).
Context (base64_decode : string → option (option string)).
Context (verify_hash : string → string → option password_check).
Context (get_userinfo_reply : string → string → http_reply).
Context (iter_errors : Validator → value → list (string * string)).
Context (iter_schemas : gmap string (JsonSchema Validator) → list (string * JsonSchema Validator)).
Context (unicode_alnum json_path_ok unicode_word : string → bool).
Context (json_string : string → string) (json_text : value → string) (debug : string → string).
Context (iter : gmap string string → list (string * string)).
Context (utc_now : nat → string).

Notation HandlerContext := (HandlerContext HeaderMap Validator).
Notation auth_info_of :=
  (extract_auth_info header_str jwt_decode base64_decode verify_hash get_userinfo_reply).
Notation check_ownership :=
  (check_file_store_ownership (DB := DB) (St := St) (Validator := Validator) header_str jwt_decode base64_decode verify_hash
     get_userinfo_reply).
Notation dispatch :=
  (dispatch_method (DB := DB) (St := St) header_str jwt_decode base64_decode verify_hash
     get_userinfo_reply iter_errors iter_schemas unicode_alnum json_path_ok unicode_word json_string
     json_text debug iter utc_now).

(** ** Who may change the catalogue *)

(** The owner of an entry, as the database answers. *)
Definition entry_owner (hc : HandlerContext) (config : FileStoreConfig) (id : string)
    (driver : DatabaseDriver) (db : DB) : result AppError (option string) :=
  pool ← db_pool (hc_db_pools hc) (fs_database config);
  built ← owner_query config driver;
  row ← fetch_optional_json pool (bq_sql built) [VString id] db;
  Ok ((row ≫= get (owner_column config)) ≫= as_str).





(** The check reads the owner and compares. *)
Lemma check_ownership_run hc config id driver w :
  check_ownership hc config id driver w
  = (w, ai ← auth_info_of hc;
        owner ← entry_owner hc config id driver w.1;
        match owner with
        | Some o => if bool_decide (o = ai_subject ai) then Ok tt
                    else Err (Forbidden "Access denied: file entry owned by another user")
        | None => Ok tt
        end).
Proof.
  unfold check_file_store_ownership, entry_owner, extract_user_id.
  run_step. destruct (auth_info_of hc) as [ai|e]; [|done]. cbn [fmap result_map and_then].
  run_step. destruct (db_pool _ _) as [pool|e]; [|done]. cbn [and_then].
  run_step. destruct (owner_query _ _) as [q|e]; [|done]. cbn [and_then].
  run_step. unfold fetch_one. cbn. destruct (fetch_optional_json _ _ _ _) as [row|e]; [|done]. cbn.
  destruct (_ ≫= as_str) as [o|]; [|done]. by case_bool_decide.
Qed.

Lemma check_ownership_reads hc config id driver : reads_only (check_ownership hc config id driver).
Proof. intros w. by rewrite check_ownership_run. Qed.
#[local] Hint Resolve check_ownership_reads : reads.


Lemma check_unless_admin_reads ctx id :
  reads_only (check_unless_admin (DB := DB) (St := St) (Validator := Validator) header_str jwt_decode
    base64_decode verify_hash get_userinfo_reply ctx id).
Proof. unfold check_unless_admin. reads. Qed.
#[local] Hint Resolve check_unless_admin_reads : reads.



(** ** What each handler checked before it changed anything *)

Notation create := (handle_file_store_create (DB := DB) (St := St) header_str jwt_decode base64_decode
  verify_hash get_userinfo_reply iter_errors iter_schemas unicode_alnum json_text utc_now).
Notation update := (handle_file_store_update (DB := DB) (St := St) header_str jwt_decode base64_decode
  verify_hash get_userinfo_reply iter_errors iter_schemas unicode_alnum utc_now).
Notation delete_entry := (handle_file_store_delete (Validator := Validator) header_str jwt_decode base64_decode
  verify_hash get_userinfo_reply debug).






(** ** The files of entries *)

Context `{!StorageLaws St}.
Notation restore := (handle_file_store_trash_restore (DB := DB) (St := St) debug).

(** Where the handlers look for the file of an entry. *)
Definition store_root (config : FileStoreConfig) (w : DB * St) : string :=
  default (fs_storage config) (st_root_path w.2).
Definition file_of (root file_path : string) : string := path_join root file_path.


(** The path a query for an entry answers with. *)
Definition answers_path (pool : DatabasePool) (q : BuiltQuery) (db : DB) (file_path : string) : Prop :=
  ∃ row, fetch_optional_json pool (bq_sql q) (bq_params q) db = Ok (Some row) ∧
    (get "file_path" row ≫= as_str) = Some file_path.




Lemma with_file_path_run table pool id (f : string → eff DB St ()) (w : DB * St) fp :
  answers_path pool (file_path_query table id (pool_driver pool)) w.1 fp →
  with_file_path table pool id f w = f fp w.
Proof.
  intros (row&Hrow&Hpath). unfold with_file_path. run_step. unfold fetch_one. rewrite Hrow.
  cbn [and_then]. change (Some row ≫= get "file_path") with (get "file_path" row). by rewrite Hpath.
Qed.

(** The steps of a DELETE up to the ownership check. *)
Lemma delete_checked hc pool db_ctx config id (w w' : DB * St) r :
  delete_entry (file_store_context hc pool db_ctx config (Some id) None true) w = (w', Ok r) →
  (if trash_enabled config then
     _ ← with_file_path (fs_table config) pool id (move_to_trash debug config);
     built ← pass (map_err (build_error "query") (build_set_trashed (fs_table config) (pool_driver pool)));
     execute_on_entry pool id (with_params built [VString id])
   else
     _ ← with_file_path (fs_table config) pool id (delete_file_of debug config);
     built ← pass (build_delete id db_ctx empty_context None);
     execute_on_entry pool id built) w = (w', Ok r).
Proof.
  set (ctx := file_store_context _ _ _ _ _ _ _). unfold handle_file_store_delete. intros H.
  change (fsc_config ctx) with config in H. change (fsc_pool ctx) with pool in H.
  answered w1 u Hs H. injection Hs as <- <-. answered w1 id' Hid H. injection Hid as <- <-.
  assert (∀ w1 u, check_unless_admin header_str jwt_decode base64_decode verify_hash get_userinfo_reply ctx id w
                  = (w1, Ok u) → w1 = w) as Hsame.
  { intros w1 v Hv. by rewrite <-(check_unless_admin_reads ctx id w), Hv. }
  answered w1 u' Hu H. apply Hsame in Hu as ->.
  destruct (trash_enabled config); [done|]. by answered w1 v Hu H; apply Hsame in Hu as ->.
Qed.




Lemma assoc_set_column_ne k table column text body :
  k ≠ column → assoc k (set_column table column text body) = assoc k body.
Proof.
  intros Hk. unfold set_column. case_bool_decide; [|done]. rewrite assoc_obj_set. by case_decide.
Qed.

Lemma delete_file_of_run config file_path (w : DB * St) :
  delete_file_of debug config file_path w
  = let p := file_of (store_root config w) file_path in
    if st_exists p w.2 then or_file_error debug "Failed to delete file" (st_delete p) w else (w, Ok tt).
Proof.
  unfold delete_file_of, file_of, store_root. cbv zeta. unfold mbind, action_bind, ask_store. cbn.
  by destruct (st_exists _ _).
Qed.

(** The path of an entry is not confined to the store. A client that may
    create an entry chooses the column [file_path] of its row freely, and
    deleting an entry whose path is absolute deletes that file, wherever the
    store keeps its own. *)
Theorem entry_path_escapes_store (hc : HandlerContext) (pool : DatabasePool) (db_ctx : DatabaseContext)
    (config : FileStoreConfig) (id user_id file_path : string) (obj : list (string * value)) (c : bytes)
    (w w1 : DB * St) (r : handler_response)
    (Hcolumn : "file_path" ∈ column_names (dbx_table db_ctx))
    (Howner : owner_column config ≠ "file_path") (Hbody : NoDup obj.*1)
    (Hnotrash : trash_enabled config = false) (Hnoowner : fs_ownership config = None)
    (Hrow : answers_path pool (file_path_query (fs_table config) id (pool_driver pool)) w.1 file_path)
    (Habs : is_absolute file_path = true) (Hfile : file_at file_path w = Some c)
    (Hdelete : delete_entry (file_store_context hc pool db_ctx config (Some id) None true) w = (w1, Ok r)) :
  assoc "file_path" (create_body utc_now
    (file_store_context hc pool db_ctx config None (Some (VObject obj)) false) user_id)
  = assoc "file_path" obj ∧
  file_at file_path w1 = None.
Proof.
  split.
  - set (ctx := file_store_context _ _ _ _ _ _ _). unfold create_body, set_owner.
    change (fsc_config ctx) with config. change (body_or_empty ctx) with (VObject obj).
    rewrite Hnoowner, !assoc_set_column_ne by done. rewrite assoc_filter_writable by done.
    by rewrite bool_decide_eq_true_2.
  - apply delete_checked in Hdelete. rewrite Hnotrash in Hdelete. rename Hdelete into H.
    answered w2 u Hm H. rewrite (with_file_path_run _ _ _ _ _ _ Hrow), delete_file_of_run in Hm.
    unfold file_of, path_join in Hm. rewrite Habs in Hm. cbv zeta in Hm.
    unfold file_at in *. rewrite (exists_of_read _ _ _ Hfile), or_file_errorE in Hm.
    destruct (st_delete file_path w.2) as [rd s'] eqn:Hd. injection Hm as <- Hok%map_err_Ok.
    destruct (delete_file _ _ _ _ _ Hfile Hd) as [Hgone _]. destruct u.
    answered w3 q Hq H. injection Hq as <- Hq. unfold execute_on_entry in H. answered w4 n He H.
    apply execute_store in He.
    assert (w1 = w4) as -> by (destruct (n =? 0)%Z; [done|by injection H]).
    rewrite He. by apply Hgone.
Qed.

(** Restoring an entry that is not in the trash is answered as a success,
    whatever its identifier, when the trash has no directory of its own. *)
Theorem restore_of_unknown_entry (config : FileStoreConfig) (tc : FileStoreTrashConfig)
    (pool : DatabasePool) (id root : string) (w : DB * St) (n : Z) (db : DB) (q : BuiltQuery)
    (Htrash : fs_trash config = Some tc)
    (Hnone : fetch_optional_json pool (bq_sql (build_select_trashed_item (fs_table config) (pool_driver pool)))
               [VString id] w.1 = Ok None)
    (Hdir : st_exists (path_join (path_join root (fst_prefix tc)) "") w.2 = false)
    (Hq : build_set_restored (fs_table config) (pool_driver pool) = Ok q)
    (Hexec : execute_with_params pool (bq_sql q) [VString id] w.1 = Ok (n, db)) :
  restore id config root pool w
  = ((db, w.2), Ok (json_reply 200 (json_object
      [("success", VBool true); ("message", VString "File store entry restored from trash")]))).
Proof.
  unfold handle_file_store_trash_restore, require_trash, trashed_file_path. rewrite Htrash, Hq.
  run_step. unfold mbind, action_bind, fetch_one, ask_store, execute, and_then. cbn [with_params bq_sql bq_params].
  rewrite Hnone. cbn -[path_join json_object]. rewrite Hdir. cbn -[json_object]. by rewrite Hexec.
Qed.

(** ** What the reads do not check *)

Definition with_permissions (config : FileStoreConfig) (p : option (gmap string FileStoreFieldPermissions))
  : FileStoreConfig := {|
  fs_storage := fs_storage config; fs_table := fs_table config; fs_database := fs_database config;
  fs_metadata_columns := fs_metadata_columns config; fs_field_permissions := p;
  fs_ownership := fs_ownership config; fs_trash := fs_trash config;
  fs_content_references := fs_content_references config; fs_pagination := fs_pagination config;
  fs_sorting := fs_sorting config; fs_filtering := fs_filtering config |}.

Definition with_ownership (config : FileStoreConfig) (o : option FileStoreOwnershipConfig)
  : FileStoreConfig := {|
  fs_storage := fs_storage config; fs_table := fs_table config; fs_database := fs_database config;
  fs_metadata_columns := fs_metadata_columns config;
  fs_field_permissions := fs_field_permissions config; fs_ownership := o; fs_trash := fs_trash config;
  fs_content_references := fs_content_references config; fs_pagination := fs_pagination config;
  fs_sorting := fs_sorting config; fs_filtering := fs_filtering config |}.

Notation get_one := (handle_file_store_get_one (DB := DB) (St := St) (Validator := Validator) header_str
  jwt_decode base64_decode verify_hash get_userinfo_reply json_text).

Lemma every_field_is_readable field config : is_field_readable field config = true.
Proof. unfold is_field_readable. repeat case_match; done. Qed.

Lemma apply_row_permissions_any rows config config' :
  apply_row_permissions rows config = apply_row_permissions rows config'.
Proof.
  apply map_ext. intros [| | | | |obj]; try done. unfold keep_fields. do 2 f_equal.
  apply filter_ext. intros kv. by rewrite !every_field_is_readable.
Qed.

(** What the reads of a file store do not check. Field permissions do not
    apply to the list of the entries: it is the same whatever columns they
    withhold. And where administrators may not override ownership, any
    authenticated user reads any single entry as if entries had no owners. *)
Theorem file_store_reads_unchecked (hc : HandlerContext) (pool : DatabasePool) (db_ctx : DatabaseContext)
    (config : FileStoreConfig) (permissions : option (gmap string FileStoreFieldPermissions))
    (column id : string) (w : DB * St) :
  let list_of config := handle_file_store_list header_str jwt_decode base64_decode verify_hash
    get_userinfo_reply unicode_alnum json_path_ok unicode_word json_string json_text iter
    (file_store_context hc pool db_ctx config None None false) w in
  list_of config = list_of (with_permissions config permissions) ∧
  (is_ok (auth_info_of hc) = true →
   get_one hc pool db_ctx
     (with_ownership config (Some {| fso_owner_column := column; fso_admin_override := false |})) id w
   = get_one hc pool db_ctx (with_ownership config None) id w).
Proof.
  cbv zeta. split.
  - unfold handle_file_store_list. set (c1 := file_store_context _ _ _ _ _ _ _).
    set (c2 := file_store_context _ _ _ (with_permissions _ _) _ _ _).
    change (fsc_config c2) with (with_permissions config permissions).
    change (fsc_config c1) with config. apply eff_bind_ext. intros qp w1.
    apply eff_bind_ext. intros built w2. apply eff_bind_ext. intros rows w3.
    by rewrite (apply_row_permissions_any _ (with_permissions config permissions) config).
  - intros Hai. unfold handle_file_store_get_one. cbn [with_ownership fs_ownership fs_field_permissions].
    destruct (auth_info_of hc); done.
Qed.
End spec.

(** ** Witnesses *)

(** A catalogue of one entry, which answers every query, and the number of
    statements it has run. *)
Record catalogue := { ct_entry : value; ct_statements : nat }.
Definition ran_statement (db : catalogue) : catalogue :=
  {| ct_entry := ct_entry db; ct_statements := S (ct_statements db) |}.
#[export] Instance catalogue_pool : Pool catalogue := {
  fetch_all_json _ _ _ db := Ok [ct_entry db];
  fetch_optional_json _ _ _ db := Ok (Some (ct_entry db));
  fetch_optional_returning _ _ _ db := Ok (Some (ct_entry db), ran_statement db);
  execute_with_params _ _ _ db := Ok (1%Z, ran_statement db);
  execute_with_params_and_last_id _ _ _ db := Ok (1%Z, ran_statement db);
  execute_raw _ _ db := Ok (ran_statement db);
}.

#[export] Instance sample_storage : Storage MemoryStorage :=
  memory_storage elements map_to_list render_path.
#[export] Instance sample_storage_laws : StorageLaws MemoryStorage :=
  memory_storage_laws elements map_to_list render_path.

Definition files_table : TableConfig := {|
  tbl_name := "files"; tbl_database := "main";
  tbl_columns := [mk_col "id" Integer true; mk_col "file_path" Text false; mk_col "owner_id" Varchar false;
                  mk_col "title" Text false; mk_col "updated_at" Text false];
  tbl_foreign_keys := [] |}.

(** Entries with owners, with a trash, and a column that staff writes. *)
Definition files_config (owned trash : bool) : FileStoreConfig := {|
  fs_storage := "media"; fs_table := "files"; fs_database := "main"; fs_metadata_columns := [];
  fs_field_permissions := Some {["title" := {| ffp_read := ["editor"]; ffp_write := ["editor"] |}]};
  fs_ownership :=
    if owned then Some {| fso_owner_column := "owner_id"; fso_admin_override := true |} else None;
  fs_trash := Some {| fst_enabled := trash; fst_retention_days := 30; fst_prefix := ".trash" |};
  fs_content_references := None; fs_pagination := default_PaginationConfig;
  fs_sorting := default_SortingConfig; fs_filtering := default_FilteringConfig |}.

Definition files_endpoint : EndpointConfig :=
  let e := mk_endpoint "/api/files" [Get; Post; Patch; Delete] ActFileStore "jwt" in
  {| ep_path := ep_path e; ep_methods := ep_methods e; ep_action := ep_action e;
     ep_crud := None; ep_proxy := None; ep_static_files := None; ep_spa_host := None;
     ep_media := None; ep_file_store := Some (files_config true true); ep_custom_response := None;
     ep_auth := "jwt"; ep_roles := Flat ["admin"]; ep_cors := None; ep_rate_limit := None |}.

Definition files_request : HandlerContext (list (string * string)) () := {|
  hc_config := sample_config; hc_db_pools := {["main" := PoolSqlite 0]};
  hc_schema_registry := ∅; hc_endpoint := files_endpoint;
  hc_headers := [("authorization", "Bearer tok")]; hc_query_params := ∅ |}.

Definition files_db_ctx : DatabaseContext := {| dbx_driver := Sqlite; dbx_table := files_table |}.
Definition entry_at (path : string) : catalogue := {|
  ct_entry := VObject [("file_path", VString path); ("owner_id", VString "42")]; ct_statements := 0 |}.
Definition one_file (path : string) : MemoryStorage :=
  {| mem_data := {[components path := ascii_bytes "data"]}; mem_dirs := ∅ |}.
Definition one_entry (path file : string) : catalogue * MemoryStorage := (entry_at path, one_file file).


Definition delete_sample (config : FileStoreConfig) (w : catalogue * MemoryStorage) :=
  handle_file_store_delete no_headers one_decode (λ _, None) (λ _ _, None) (λ _ _, NoReply "") id
    (file_store_context files_request (PoolSqlite 0) files_db_ctx config (Some "7") None true) w.


Lemma entry_path_escapes_store_witness :
  let obj := [("file_path", VString "/etc/site.key")] in
  let w := one_entry "/etc/site.key" "/etc/site.key" in
  assoc "file_path" (create_body (λ _, "now")
    (file_store_context files_request (PoolSqlite 0) files_db_ctx (files_config false false) None
       (Some (VObject obj)) false) "42") = Some (VString "/etc/site.key") ∧
  file_at "/etc/site.key" (delete_sample (files_config false false) w).1 = None.
Proof.
  cbv zeta.
  refine (entry_path_escapes_store no_headers one_decode (λ _, None) (λ _ _, None) (λ _ _, NoReply "") id
    (λ _, "now") files_request (PoolSqlite 0) files_db_ctx (files_config false false) "7" "42"
    "/etc/site.key" [("file_path", VString "/etc/site.key")] (ascii_bytes "data")
    (one_entry "/etc/site.key" "/etc/site.key")
    (delete_sample (files_config false false) (one_entry "/etc/site.key" "/etc/site.key")).1
    (empty_reply 204) _ _ _ eq_refl eq_refl _ eq_refl _ _).
  - vm_compute. right. left.
  - discriminate.
  - apply NoDup_singleton.
  - eexists. split; reflexivity.
  - vm_compute. reflexivity.
  - vm_compute. reflexivity.
Defined.

(** A reader who is not the owner. *)
Lemma file_store_reads_unchecked_witness :
  let w := ({| ct_entry := VObject [("id", json_int 7); ("owner_id", VString "43")]; ct_statements := 0 |},
            one_file "media/a.txt") in
  let get_one config := handle_file_store_get_one no_headers one_decode (λ _, None) (λ _ _, None)
    (λ _ _, NoReply "") (λ _, "") files_request (PoolSqlite 0) files_db_ctx config "7" w in
  get_one (with_ownership (files_config true true)
             (Some {| fso_owner_column := "owner_id"; fso_admin_override := false |}))
  = get_one (with_ownership (files_config true true) None).
Proof.
  cbv zeta.
  refine (proj2 (file_store_reads_unchecked no_headers one_decode (λ _, None) (λ _ _, None)
    (λ _ _, NoReply "") no no no quoted (λ _, "") map_to_list files_request (PoolSqlite 0) files_db_ctx
    (files_config true true) None "owner_id" "7" _) _).
  vm_compute. reflexivity.
Defined.
