(* ===== verification/Media.v ===== *)
(** * Media endpoints

    The handlers of src/src/handlers/media/: uploads with their rows in a
    table, moving and renaming, the trash, shared files, content references
    and resized images. They are actions on the databases and on the store of
    the endpoint, as those of [FileStore]. *)

From Stdlib Require Import Init.Byte.
From S2P Require Import Prelude RustStr Json Config Errors SqlHelpers Select Mutations Statements Paths Storage Responses Images Pool Roles Routing Accounts Credentials Auth Schemas Stores Crud Handlers.
Local Open Scope stdpp_scope.

Section media.
Context {DB St Image : Type} `{!Pool DB, !Storage St, !ImageCrate Image}.
Context {HeaderMap Validator : Type} (header_str : HeaderMap → string → option string).
Context (jwt_decode : string → Validation → string → result string value).
Context (base64_decode : string → option (option string)).
Context (verify_hash : string → string → option password_check).
Context (get_userinfo_reply : string → string → http_reply).
Context (unicode_alnum json_path_ok unicode_word : string → bool).
Context (json_string : string → string) (debug : string → string).
(** [{:?}] of a list of strings. *)
Context (debug_list : list string → string).
Context (iter : gmap string string → list (string * string)).
Context (header_value_ok : string → bool) (lowercase : string → string).
(** The clock, its date fields and the identifiers made by one request. *)
Context (utc_now : nat → string) (date : string * string * string) (new_uuid : nat → string).

Notation HandlerContext := (HandlerContext HeaderMap Validator).
Notation auth_info_of :=
  (extract_auth_info header_str jwt_decode base64_decode verify_hash get_userinfo_reply).
Notation user_id_of :=
  (extract_user_id header_str jwt_decode base64_decode verify_hash get_userinfo_reply).
Notation E := (eff DB St).

Definition media_not_found (id : string) : AppError := NotFound ("Media item with id '" +:+ id +:+ "' not found").
(** A section of the configuration that a handler needs, and that must be
    enabled. *)
Definition require_enabled {A} (endpoint : EndpointConfig) (section : option A) (enabled : A → bool)
    (missing disabled : string) : result AppError A :=
  a ← ok_or (MethodNotAllowed missing (ep_methods endpoint)) section;
  if enabled a then Ok a else Err (MethodNotAllowed disabled (ep_methods endpoint)).

(** ** Rows *)

(** [MutationContext::default()] *)
Definition no_fields : MutationContext := {|
  mc_writable_fields := []; mc_insert_owner := None; mc_update_where_clause := None;
  mc_delete_where_clause := None |}.

Definition set_if_column (table : TableConfig) (column text : string) (body : list (string * value))
  : list (string * value) :=
  if column_exists column (tbl_columns table) then obj_set column (VString text) body else body.

(** Source: handlers/media/create.rs [handle_media_create] *)
Definition handle_media_create (pool : DatabasePool) (db_ctx : DatabaseContext) (hc : HandlerContext)
    (body : value) : E handler_response :=
  let table := dbx_table db_ctx in
  user_id ← pass (user_id_of hc);
  let body_map := filter_writable_body body (map col_name (tbl_columns table)) in
  let body_map := set_if_column table "created_at" (utc_now 0)
                    (set_if_column table "uploader_id" user_id body_map) in
  built ← pass (build_insert unicode_alnum db_ctx no_fields (VObject body_map) empty_context);
  if contains_str "RETURNING" (bq_sql built) then
    row ← fetch_returning pool built;
    mret (json_reply 201 (json_object [("data", json_option row)]))
  else
    rows_affected ← execute pool built;
    mret (json_reply 201 (json_object [("rows_affected", json_int rows_affected)])).

(** The uploader of an item must be the user, where items are private. *)
Definition check_uploader (hc : HandlerContext) (config : MediaConfig) (pool : DatabasePool)
    (id subject : string) : E () :=
  match media_user_scope config with
  | Some user_scope =>
      if mus_enabled user_scope && negb (mus_allow_cross_user_browse user_scope) then
        built ← pass (map_err (build_error "query")
                        (build_select_by_id (media_table config) ["uploader_id"] (pool_driver pool)));
        row ← fetch_one pool (with_params built [VString id]);
        match (row ≫= get "uploader_id") ≫= as_str with
        | Some uploader_id =>
            if bool_decide (uploader_id = subject) then mret tt
            else pass (Err (Forbidden "Cannot update media owned by another user"))
        | None => mret tt
        end
      else mret tt
  | None => mret tt
  end.

(** Source: handlers/media/update.rs [handle_media_update] *)
Definition handle_media_update (hc : HandlerContext) (id : string) (config : MediaConfig)
    (pool : DatabasePool) (db_ctx : DatabaseContext) (body : value) : E handler_response :=
  let table := dbx_table db_ctx in
  auth_info ← pass (auth_info_of hc);
  _ ← check_uploader hc config pool id (ai_subject auth_info);
  let body_map := filter_writable_body body (map col_name (tbl_columns table)) in
  let body_map := obj_set "last_modified_by" (VString (ai_subject auth_info))
                    (set_if_column table "updated_at" (utc_now 0) body_map) in
  built ← pass (build_update unicode_alnum db_ctx no_fields id (VObject body_map) empty_context None);
  rows_affected ← execute pool built;
  if (rows_affected =? 0)%Z then pass (Err (media_not_found id))
  else mret (json_reply 200 (json_object [("rows_affected", json_int rows_affected)])).

(** The query of a list; the order of the request is not read. *)
Definition media_params (config : MediaConfig) (query_params : gmap string string) : QueryParams :=
  let sorting := media_sorting config in
  let qp := extract_query_params query_params in
  {| qp_page := Some (default 1%Z (qp_page qp));
     qp_page_size := Some (default (pg_default_page_size (media_pagination config)) (qp_page_size qp));
     qp_sort := opt_or (query_params !! "sort")
                  (if is_empty (sc_default_field sorting) then None else Some (sc_default_field sorting));
     qp_order := Some (sc_default_order sorting);
     qp_filters := qp_filters qp |}.

(** Source: handlers/media/list.rs [handle_media_list] *)
Definition handle_media_list (pool : DatabasePool) (db_ctx : DatabaseContext) (config : MediaConfig)
    (query_params : gmap string string) : E handler_response :=
  let qp := media_params config query_params in
  built ← pass (build_select_list unicode_alnum json_path_ok unicode_word json_string iter db_ctx
                  permissive qp empty_context);
  rows ← fetch_rows pool built;
  count_built ← pass (build_select_list_count json_string iter (media_table config) (pool_driver pool)
                        permissive qp empty_context (dbx_table db_ctx));
  count_row ← fetch_one pool count_built;
  let total := default 0%Z ((count_row ≫= get "count") ≫= as_i64) in
  let page := default 1%Z (qp_page qp) in
  let page_size := default 0%Z (qp_page_size qp) in
  mret (json_reply 200 (json_object
    [("data", VArray rows);
     ("pagination", pagination_json page page_size total (total_pages total page_size))])).

(** Source: handlers/media/list.rs [handle_media_get] *)
Definition handle_media_get (pool : DatabasePool) (db_ctx : DatabaseContext) (id : string)
  : E handler_response :=
  built ← pass (build_select_one db_ctx permissive id empty_context);
  found ← fetch_one pool built;
  match found with
  | Some row => mret (json_reply 200 row)
  | None => pass (Err (media_not_found id))
  end.

(** ** The trash *)

Definition success (message : string) (more : list (string * value)) : handler_response :=
  json_reply 200 (json_object ([("success", VBool true); ("message", VString message)] ++ more)).

(** The file of an item in the trash of a user.
    Source: handlers/media/trash.rs:133-136 [handle_media_trash_restore] *)
Definition trash_file (root prefix subject file_path : string) : string :=
  path_join (path_join (path_join root prefix) subject) file_path.

Definition require_media_trash (config : MediaConfig) (message : string) : result AppError MediaTrashConfig :=
  ok_or (Internal message) (media_trash config).

(** The path of a trashed item. *)
Definition trashed_item (config : MediaConfig) (pool : DatabasePool) (id : string) : E string :=
  row ← fetch_one pool
          (with_params (build_select_trashed_item (media_table config) (pool_driver pool)) [VString id]);
  pass (extract_file_path row id).

(** The path of an item. *)
Definition item_path (config : MediaConfig) (pool : DatabasePool) (id : string) : E string :=
  row ← fetch_one pool (file_path_query (media_table config) id (pool_driver pool));
  pass (extract_file_path row id).

(** Source: handlers/media/trash.rs [handle_media_trash_list] *)
Definition handle_media_trash_list (pool : DatabasePool) (db_ctx : DatabaseContext) : E handler_response :=
  rows ← fetch_rows pool (build_select_trashed (tbl_name (dbx_table db_ctx)) (pool_driver pool));
  mret (json_reply 200 (VArray rows)).

(** The trash of the user who restores is searched, not that of the user who
    deleted.
    Source: handlers/media/trash.rs [handle_media_trash_restore] *)
Definition handle_media_trash_restore (hc : HandlerContext) (id : string) (config : MediaConfig)
    (root : string) (pool : DatabasePool) : E handler_response :=
  trash_config ← pass (require_media_trash config "Trash not enabled");
  file_path ← trashed_item config pool id;
  auth_info ← pass (auth_info_of hc);
  let trash_path := trash_file root (mt_prefix trash_config) (ai_subject auth_info) file_path in
  let restore_path := path_join root file_path in
  present ← ask_store (st_exists trash_path);
  _ ← (if (present : bool) then
         _ ← create_parent debug "Failed to create directory" restore_path;
         or_file_error debug "Failed to restore file" (st_rename trash_path restore_path)
       else mret tt : E ());
  built ← pass (map_err (build_error "query") (build_set_restored (media_table config) (pool_driver pool)));
  _ ← execute pool (with_params built [VString id]);
  mret (success "Media item restored from trash" []).

(** The rows of the trash; those whose identifier is no text are skipped. *)
Fixpoint empty_media_trash (db_ctx : DatabaseContext) (pool : DatabasePool) (rows : list value)
    (deleted_count : Z) : E Z :=
  match rows with
  | [] => mret deleted_count
  | row :: rows =>
      match get "id" row ≫= as_str with
      | Some id =>
          built ← pass (build_delete id db_ctx empty_context None);
          _ ← ignoring (execute pool built);
          empty_media_trash db_ctx pool rows (deleted_count + 1)
      | None => empty_media_trash db_ctx pool rows deleted_count
      end
  end.

(** Source: handlers/media/trash.rs [handle_media_trash_empty] *)
Definition handle_media_trash_empty (config : MediaConfig) (db_ctx : DatabaseContext)
    (pool : DatabasePool) : E handler_response :=
  rows ← fetch_rows pool (build_select_trashed_ids (media_table config) (pool_driver pool));
  deleted_count ← empty_media_trash db_ctx pool rows 0;
  mret (success ("Emptied trash, deleted " +:+ show_Z deleted_count +:+ " items")
          [("deleted_count", json_int deleted_count)]).

(** Source: handlers/media/trash.rs [handle_media_trash_permanent_delete] *)
Definition handle_media_trash_permanent_delete (hc : HandlerContext) (id : string)
    (config : MediaConfig) (root : string) (pool : DatabasePool) (db_ctx : DatabaseContext)
  : E handler_response :=
  trash_config ← pass (require_media_trash config "Trash not enabled");
  file_path ← trashed_item config pool id;
  _ ← (if is_empty file_path then mret tt
       else
         auth_info ← pass (auth_info_of hc);
         delete_trashed (trash_file root (mt_prefix trash_config) (ai_subject auth_info) file_path) : E ());
  built ← pass (build_delete id db_ctx empty_context None);
  rows_affected ← execute pool built;
  if (rows_affected =? 0)%Z then pass (Err (NotFound "Trashed media item not found"))
  else mret (success "Media item permanently deleted from trash" [("rows_affected", json_int rows_affected)]).

(** Source: handlers/media/trash.rs [handle_media_trash_delete] *)
Definition handle_media_trash_delete (hc : HandlerContext) (id : string) (config : MediaConfig)
    (root : string) (pool : DatabasePool) : E handler_response :=
  trash_config ← pass (require_media_trash config "Trash not enabled but delete was called");
  auth_info ← pass (auth_info_of hc);
  file_path ← item_path config pool id;
  let trash_dest := trash_file root (mt_prefix trash_config) (ai_subject auth_info) file_path in
  _ ← create_parent debug "Failed to create trash directory" trash_dest;
  let source_path := path_join root file_path in
  present ← ask_store (st_exists source_path);
  _ ← (if (present : bool) then
         or_file_error debug "Failed to move file to trash" (st_rename source_path trash_dest)
       else mret tt : E ());
  built ← pass (map_err (build_error "query") (build_set_trashed (media_table config) (pool_driver pool)));
  rows_affected ← execute pool (with_params built [VString id]);
  if (rows_affected =? 0)%Z then pass (Err (media_not_found id))
  else mret (success "Media moved to trash" [("rows_affected", json_int rows_affected)]).

Definition media_trash_route : string := "/_main-serve/media/trash".

(** Source: handlers/media/trash.rs [handle_media_trash] *)
Definition handle_media_trash (hc : HandlerContext) (method path : string) (config : MediaConfig)
    (root : string) (pool : DatabasePool) (db_ctx : DatabaseContext) : E handler_response :=
  let endpoint := hc_endpoint hc in
  let item := strip_prefix (media_trash_route +:+ "/") path in
  _ ← pass (require_enabled endpoint (media_trash config) mt_enabled "Trash is not enabled"
              "Trash is not enabled");
  if bool_decide (method = "GET") then handle_media_trash_list pool db_ctx
  else if bool_decide (method = "DELETE") &&
          (bool_decide (path = media_trash_route) || bool_decide (path = media_trash_route +:+ "/")) then
    handle_media_trash_empty config db_ctx pool
  else if bool_decide (method = "POST") then
    match item ≫= strip_suffix "/restore" with
    | Some id => handle_media_trash_restore hc id config root pool
    | None => pass (Err (BadRequest "Invalid trash restore path"))
    end
  else if bool_decide (method = "DELETE") then
    match item with
    | Some id => handle_media_trash_permanent_delete hc id config root pool db_ctx
    | None => pass (Err (BadRequest "Invalid trash delete path"))
    end
  else not_allowed endpoint "Method not allowed for trash endpoint".

(** ** Deleting *)

(** The references of an item to content, as they are reported. *)
Definition reference_detail (refs : MediaContentReferencesConfig) (row : value) : string :=
  default "?" (get (mcr_content_type_column refs) row ≫= as_str) +:+ ":" +:+
  default "?" (get (mcr_entity_id_column refs) row ≫= as_str).

(** Items with references are kept, where the configuration says so. *)
Definition check_references (config : MediaConfig) (pool : DatabasePool) (id : string) : E () :=
  match media_content_references config with
  | Some refs =>
      match mcr_on_delete refs with
      | OnDeleteError =>
          let built := build_file_ref_select_by_file_id (mcr_table refs) (mcr_media_id_column refs)
                         (mcr_entity_id_column refs) (mcr_content_type_column refs) (pool_driver pool) in
          rows ← fetch_rows pool (with_params built [VString id]);
          if bool_decide (rows = []) then mret tt
          else pass (Err (Conflict
            ("Media item '" +:+ id +:+ "' is attached to " +:+ show_nat (length rows) +:+
             " content entity(ies). Use on_delete: detach or delete the references first.")
            (map (reference_detail refs) rows)))
      | _ => mret tt
      end
  | None => mret tt
  end.

(** Source: handlers/media/delete.rs [delete_media_permanently] *)
Definition delete_media_permanently (id : string) (config : MediaConfig) (root : string)
    (pool : DatabasePool) (db_ctx : DatabaseContext) : E handler_response :=
  _ ← with_file_path (media_table config) pool id (λ file_path,
        let file_path_buf := path_join root file_path in
        present ← ask_store (st_exists file_path_buf);
        if (present : bool) then or_file_error debug "Failed to delete file" (st_delete file_path_buf)
        else mret tt);
  built ← pass (build_delete id db_ctx empty_context None);
  rows_affected ← execute pool built;
  if (rows_affected =? 0)%Z then pass (Err (media_not_found id))
  else mret (json_reply 200 (json_object [("rows_affected", json_int rows_affected)])).

(** Source: handlers/media/delete.rs [handle_media_delete] *)
Definition handle_media_delete (hc : HandlerContext) (id : string) (config : MediaConfig) (root : string)
    (pool : DatabasePool) (db_ctx : DatabaseContext) : E handler_response :=
  _ ← check_references config pool id;
  if match media_trash config with Some t => mt_enabled t | None => false end then
    handle_media_trash_delete hc id config root pool
  else delete_media_permanently id config root pool db_ctx.

(** ** Moving and renaming *)

(** The path of an item below the root.
    Source: handlers/media/move_rename.rs:78-81 [handle_media_move] *)
Definition relative_to (root new_path : string) : string :=
  "/" +:+ default new_path (path_strip_prefix new_path root).

(** The row that records the new path.
    Source: handlers/media/move_rename.rs:83-96 [handle_media_move] *)
Definition record_path (config : MediaConfig) (pool : DatabasePool) (id new_relative : string) : E () :=
  let stored := trim_start "/" new_relative in
  built ← pass (map_err (build_error "query")
                  (build_set_file_path (media_table config) stored (pool_driver pool)));
  _ ← execute pool (with_params built [VString stored; VString id]);
  mret tt.

(** Source: handlers/media/move_rename.rs [handle_media_move] *)
Definition handle_media_move (id : string) (endpoint : EndpointConfig) (config : MediaConfig)
    (pool : DatabasePool) (root : string) (body : value) : E handler_response :=
  move_config ← pass (require_enabled endpoint (media_move_config config) mm_enabled
                        "Media move is not configured" "Media move is disabled");
  destination_path ← pass (ok_or (BadRequest "destination_path is required")
                             (get "destination_path" body ≫= as_str));
  current_file_path ← item_path config pool id;
  let current_path := path_join root current_file_path in
  let new_path := path_join root (trim_start "/" destination_path) in
  _ ← pass (validate_path_within new_path root);
  _ ← (if mm_auto_create_destination move_config
       then create_parent debug "Failed to create directory" new_path else mret tt : E ());
  _ ← or_file_error debug "Failed to move file" (st_rename current_path new_path);
  let new_relative := relative_to root new_path in
  _ ← record_path config pool id new_relative;
  mret (success "Media file moved successfully" [("new_path", VString new_relative)]).

(** Source: handlers/media/move_rename.rs [handle_media_rename] *)
Definition handle_media_rename (id : string) (endpoint : EndpointConfig) (config : MediaConfig)
    (pool : DatabasePool) (root : string) (body : value) : E handler_response :=
  _ ← pass (require_enabled endpoint (media_rename config) mrn_enabled
              "Media rename is not configured" "Media rename is disabled");
  new_name ← pass (ok_or (BadRequest "name is required") (get "name" body ≫= as_str));
  current_file_path ← item_path config pool id;
  let current_path := path_join root current_file_path in
  parent ← pass (ok_or (BadRequest "Cannot determine parent directory") (path_parent current_path));
  let new_path := path_join parent new_name in
  _ ← pass (validate_path_within new_path root);
  _ ← or_file_error debug "Failed to rename file" (st_rename current_path new_path);
  let new_relative := relative_to root new_path in
  _ ← record_path config pool id new_relative;
  mret (success "Media file renamed successfully" [("new_path", VString new_relative)]).

(** ** Content references *)

Definition media_references (endpoint : EndpointConfig) (config : MediaConfig)
  : result AppError MediaContentReferencesConfig :=
  require_enabled endpoint (media_content_references config) mcr_enabled
    "Content references not enabled" "Content references are disabled".

Definition required_text (key : string) (body : value) : result AppError string :=
  ok_or (BadRequest (key +:+ " is required")) (get key body ≫= as_str).

Definition content_type_allowed (refs : MediaContentReferencesConfig) (content_type : string)
  : result AppError () :=
  match mcr_allowed_content_types refs with
  | Some ((_ :: _) as allowed) =>
      if bool_decide (content_type ∈ allowed) then Ok tt
      else Err (BadRequest ("content_type '" +:+ content_type +:+ "' is not allowed. Allowed: " +:+
                            debug_list allowed))
  | _ => Ok tt
  end.

(** Source: handlers/media/content_refs.rs [handle_media_attach] *)
Definition handle_media_attach (id : string) (endpoint : EndpointConfig) (config : MediaConfig)
    (pool : DatabasePool) (body : value) : E handler_response :=
  refs ← pass (media_references endpoint config);
  entity_id ← pass (required_text "entity_id" body);
  content_type ← pass (required_text "content_type" body);
  _ ← pass (content_type_allowed refs content_type);
  let driver := pool_driver pool in
  max_row ← fetch_one pool (build_file_ref_max_order (mcr_table refs) (mcr_order_column refs) driver);
  let max_order := default 0%Z ((max_row ≫= get "max_order") ≫= as_i64) in
  let built := build_file_ref_insert (mcr_table refs)
    [mcr_media_id_column refs; mcr_entity_id_column refs; mcr_content_type_column refs;
     mcr_order_column refs] driver in
  _ ← execute pool (with_params built
        [VString id; VString entity_id; VString content_type; json_int (i64_wrap (max_order + 1))]);
  let built := build_file_ref_select (mcr_table refs) (mcr_media_id_column refs)
    (mcr_entity_id_column refs) (mcr_content_type_column refs) driver in
  row ← fetch_one pool (with_params built [VString id; VString entity_id; VString content_type]);
  mret (json_reply 201 (json_object [("data", json_option row)])).

(** Source: handlers/media/content_refs.rs [handle_media_detach] *)
Definition handle_media_detach (id : string) (endpoint : EndpointConfig) (config : MediaConfig)
    (pool : DatabasePool) (body : value) : E handler_response :=
  refs ← pass (media_references endpoint config);
  entity_id ← pass (required_text "entity_id" body);
  content_type ← pass (required_text "content_type" body);
  let built := build_file_ref_delete (mcr_table refs) (mcr_media_id_column refs)
    (mcr_entity_id_column refs) (mcr_content_type_column refs) (pool_driver pool) in
  rows_affected ← execute pool
    (with_params built [VString id; VString entity_id; VString content_type]);
  if (rows_affected =? 0)%Z then
    pass (Err (NotFound ("No content reference found for media id '" +:+ id +:+ "', entity '" +:+
                         entity_id +:+ "', type '" +:+ content_type +:+ "'")))
  else mret (success ("Detached media '" +:+ id +:+ "' from entity '" +:+ entity_id +:+ ":" +:+
                      content_type +:+ "'") [("rows_affected", json_int rows_affected)]).

(** ** Images and shared files *)

(** Source: handlers/media/resize.rs [handle_media_resize] *)
Definition handle_media_resize (root id : string) (endpoint : EndpointConfig) (config : MediaConfig)
    (query_params : gmap string string) (pool : DatabasePool) : E handler_response :=
  image_resize ← pass (require_enabled endpoint (media_image_resize config) mir_enabled
                         "Image resize is not enabled" "Image resize is not enabled");
  file_path ← item_path config pool id;
  image_data ← try_store (λ _, NotFound ("Media file not found: " +:+ file_path))
                 (st_read (path_join root file_path));
  let params := parse_resize_params (Image := Image) query_params in
  let default_format := default Png (guess_format (Image := Image) image_data) in
  match resize_image (Image := Image) image_data params default_format
          (Z.min u32_max (mir_max_dimension image_resize)) with
  | Panics => mret no_reply
  | Returns resized =>
      '(resized_bytes, content_type) ← pass resized;
      mret (bytes_reply (build_resize_response header_value_ok resized_bytes content_type (Some 86400%Z)))
  end.

(** Source: handlers/media/resize.rs [handle_media_thumbnail] *)
Definition handle_media_thumbnail (root id : string) (endpoint : EndpointConfig) (config : MediaConfig)
    (pool : DatabasePool) : E handler_response :=
  image_resize ← pass (ok_or (MethodNotAllowed "Image resize is not enabled" (ep_methods endpoint))
                         (media_image_resize config));
  let default_size :=
    match find_first (λ s, String.eqb (mis_name s) "thumbnail") (mir_styles image_resize) with
    | Some s => Z.min (mis_max_width s) (mis_max_height s)
    | None => 150%Z
    end in
  handle_media_resize root id endpoint config
    {["w" := show_Z default_size; "h" := show_Z default_size]} pool.

(** Whether sharing is enabled is not read.
    Source: handlers/media/sharing.rs [handle_media_share_get] *)
Definition handle_media_share_get (token : string) (endpoint : EndpointConfig) (config : MediaConfig)
    (root : string) : E handler_response :=
  sharing_config ← pass (ok_or (MethodNotAllowed "Sharing is not enabled" (ep_methods endpoint))
                           (media_sharing config));
  let shared_path := path_join (path_join root (msh_prefix sharing_config)) token in
  meta ← try_store (λ _, NotFound "Shared file not found or share link expired") (st_metadata shared_path);
  contents ← try_store (λ _, NotFound "Shared file not found") (st_read shared_path);
  mret (bytes_reply
    (apply_content_length header_value_ok (show_Z (fm_size meta))
       (apply_content_type header_value_ok (mime_from_path shared_path) (bytes_response 200 contents)))).

(** ** Uploading *)

Definition upload_section (endpoint : EndpointConfig) (config : MediaConfig) : result AppError MediaUploadConfig :=
  require_enabled endpoint (media_upload config) (λ u, negb (mu_max_size u =? 0)%Z)
    "Media upload is not enabled" "Media upload is not enabled".

(** The row of an uploaded file. *)
Definition upload_row (name mime_type user_id file_path now : string) (size : Z) : value :=
  json_object
    [("original_name", VString name); ("mime_type", VString mime_type); ("size", json_int size);
     ("uploader_id", VString user_id); ("file_path", VString file_path); ("created_at", VString now);
     ("updated_at", VString now)].

Definition writing (columns : list string) : MutationContext := {|
  mc_writable_fields := columns; mc_insert_owner := None; mc_update_where_clause := None;
  mc_delete_where_clause := None |}.

(** The row is inserted; its identifier is answered where it is a text.
    Source: handlers/media/upload.rs:146-180 [handle_media_upload] *)
Definition insert_upload (pool : DatabasePool) (db_ctx : DatabaseContext) (row : value) : E (option string) :=
  built ← pass (build_insert unicode_alnum db_ctx (writing (map col_name (tbl_columns (dbx_table db_ctx))))
                  row empty_context);
  if contains_str "RETURNING" (bq_sql built) then
    row ← fetch_returning pool built;
    mret ((row ≫= get "id") ≫= as_str)
  else
    _ ← execute pool built;
    mret None.

(** The file is stored, then its row.
    Source: handlers/media/upload.rs:58-198 [handle_media_upload] *)
Definition store_upload (hc : HandlerContext) (config : MediaConfig) (upload_config : MediaUploadConfig)
    (multipart : list (result string form_field)) (root : string) : E handler_response :=
  auth_info ← pass (auth_info_of hc);
  let user_id := ai_subject auth_info in
  '(file_content, original_filename) ←
    pass (parse_multipart_file multipart (mu_max_size upload_config) false None);
  let size := byte_count file_content in
  _ ← pass (if (mu_max_size upload_config <? size)%Z then
              Err (PayloadTooLarge ("File size " +:+ show_Z size +:+ " exceeds maximum allowed size " +:+
                                    show_Z (mu_max_size upload_config)))
            else Ok tt);
  sanitized ← pass (sanitize_filename lowercase "" original_filename false);
  let sanitized_filename := new_uuid 0 +:+ "-" +:+ sanitized in
  storage_path ← pass (build_storage_path date (new_uuid 1) root sanitized_filename user_id
                         (mu_create_subdirectory upload_config));
  _ ← create_parent debug "Failed to create directory" storage_path;
  _ ← or_file_error debug "Failed to write file" (st_write storage_path file_content);
  _ ← try_store (λ e, FileOperation ("Failed to read file metadata: " +:+ show_StorageError debug e))
        (st_metadata storage_path);
  let mime_type := mime_from_path storage_path in
  '(pool, db_ctx) ← pass (get_db_context (state_of hc) (media_database config) (media_table config));
  let file_path := default sanitized_filename (path_strip_prefix storage_path root) in
  let now := utc_now 0 in
  returned_id ← insert_upload pool db_ctx
    (upload_row sanitized_filename mime_type user_id file_path now size);
  mret (json_reply 201 (json_object
    [("success", VBool true); ("path", VString ("/" +:+ file_path)); ("name", VString sanitized_filename);
     ("size", json_int size); ("type", VString mime_type); ("created", VString now);
     ("message", VString "Media uploaded successfully");
     ("id", match returned_id with Some id => VString id | None => VNull end)])).

(** Source: handlers/media/upload.rs [handle_media_upload] *)
Definition handle_media_upload (hc : HandlerContext) (multipart : list (result string form_field))
  : action AppError (DB * gmap string St) handler_response :=
  let endpoint := hc_endpoint hc in
  config ← lift (ok_or (NotFound "Media config not found") (ep_media endpoint));
  upload_config ← lift (upload_section endpoint config);
  in_store (media_storage config) (store_upload hc config upload_config multipart).

(** Source: handlers/media/mod.rs [handle_media_upload_route] *)
Definition handle_media_upload_route (hc : HandlerContext) (method : string)
    (multipart : list (result string form_field))
  : action AppError (DB * gmap string St) handler_response :=
  let endpoint := hc_endpoint hc in
  if negb (bool_decide (method ∈ ["POST"; "PUT"; "PATCH"])) then
    lift (Err (MethodNotAllowed "Method not allowed for media upload" (ep_methods endpoint)))
  else
    config ← lift (ok_or (NotFound "Media config not found") (ep_media endpoint));
    if match media_upload config with Some u => (mu_max_size u =? 0)%Z | None => false end then
      lift (Err (MethodNotAllowed "Media upload is not enabled" (ep_methods endpoint)))
    else handle_media_upload hc multipart.

(** ** Dispatch *)

(** The path of the endpoint that lists. Where its last suffix is not [/*] the
    path of the endpoint counts as it is.
    Source: handlers/media/mod.rs:244-255 [handle_media] *)
Definition media_base (endpoint : EndpointConfig) : string :=
  let path := ep_path endpoint in
  trim_end "/" (default path (strip_suffix "/*" (default path (strip_suffix "/{id}" path)))).

(** Source: handlers/media/mod.rs:257-260 [handle_media] *)
Definition is_list_request (endpoint : EndpointConfig) (path : string) : bool :=
  let base := media_base endpoint in
  is_empty (trim_end "/" path) || bool_decide (trim_end "/" path = "/") ||
  bool_decide (trim_end "/" path = base) || bool_decide (path = base +:+ "/").

(** An action on an item: its name is looked for anywhere in the path, and the
    item is the last segment of the path.
    Source: handlers/media/mod.rs:220-221 [handle_media] *)
Definition item_action (path action : string) : option string :=
  if contains_str action path then extract_id path else None.

(** Source: handlers/media/mod.rs:262-297 [handle_media] *)
Definition media_method (hc : HandlerContext) (config : MediaConfig) (pool : DatabasePool)
    (db_ctx : DatabaseContext) (root method path : string) (body : value) : E handler_response :=
  let endpoint := hc_endpoint hc in
  let id_required := pass (Err (BadRequest "Media ID required")) in
  if bool_decide (method = "GET") then
    if is_list_request endpoint path then handle_media_list pool db_ctx config (hc_query_params hc)
    else match extract_id path with Some id => handle_media_get pool db_ctx id | None => id_required end
  else if bool_decide (method = "POST") then
    if is_empty path || bool_decide (path = "/") then handle_media_create pool db_ctx hc body
    else not_allowed endpoint "POST not allowed on this path"
  else if bool_decide (method = "PATCH") then
    match extract_id path with
    | Some id => handle_media_update hc id config pool db_ctx body
    | None => id_required
    end
  else if bool_decide (method = "DELETE") then
    match extract_id path with
    | Some id => handle_media_delete hc id config root pool db_ctx
    | None => id_required
    end
  else not_allowed endpoint "Method not allowed for media endpoint".

(** The first of the actions that the path names, or the method.
    Source: handlers/media/mod.rs:163-242 [handle_media] *)
Definition media_request (hc : HandlerContext) (config : MediaConfig) (root : string)
    (pool : DatabasePool) (db_ctx : DatabaseContext) (method path : string) (body : value)
  : E handler_response :=
  let endpoint := hc_endpoint hc in
  if starts_with media_trash_route path then handle_media_trash hc method path config root pool db_ctx
  else if starts_with "/shared/" path then
    handle_media_share_get (default "" (strip_prefix "/shared/" path)) endpoint config root
  else
    match item_action path "/resize", item_action path "/thumbnail", item_action path "/attach",
          item_action path "/detach", item_action path "/move", item_action path "/rename" with
    | Some id, _, _, _, _, _ => handle_media_resize root id endpoint config (hc_query_params hc) pool
    | None, Some id, _, _, _, _ => handle_media_thumbnail root id endpoint config pool
    | None, None, Some id, _, _, _ => handle_media_attach id endpoint config pool body
    | None, None, None, Some id, _, _ => handle_media_detach id endpoint config pool body
    | None, None, None, None, Some id, _ => handle_media_move id endpoint config pool root body
    | None, None, None, None, None, Some id => handle_media_rename id endpoint config pool root body
    | None, None, None, None, None, None => media_method hc config pool db_ctx root method path body
    end.

(** Source: handlers/media/mod.rs [handle_media] *)
Definition handle_media (hc : HandlerContext) (method path : string) (body : value)
  : action AppError (DB * gmap string St) handler_response :=
  config ← lift (ok_or (NotFound "Media config not found") (ep_media (hc_endpoint hc)));
  in_store (media_storage config) (λ root,
    '(pool, db_ctx) ← pass (get_db_context (state_of hc) (media_database config) (media_table config));
    media_request hc config root pool db_ctx method path body).

(** A body that is empty or not JSON counts as an empty object.
    Source: handlers/media/mod.rs [handle_media_route] *)
Definition handle_media_route (from_slice : string → option value)
    (iter_endpoints : endpoint_map → list (string * EndpointConfig)) (config : AppConfig)
    (db_pools : gmap string DatabasePool) (registry : SchemaRegistry Validator) (configs : endpoint_map)
    (matched_path method path : string) (headers : HeaderMap) (query : gmap string string) (body : string)
  : action AppError (DB * gmap string St) handler_response :=
  endpoint ← lift (ok_or (NotFound "Endpoint not found")
                     (get_endpoint_config_for_method iter_endpoints configs matched_path method));
  handle_media
    {| hc_config := config; hc_db_pools := db_pools; hc_schema_registry := registry;
       hc_endpoint := endpoint; hc_headers := headers; hc_query_params := query |}
    method path (default (VObject []) (if is_empty body then None else from_slice body)).
End media.
