(* ===== verification/MediaSpec.v ===== *)
(** * What the media library promises

    Where uploads and moves put a file, and what the handlers do not do. *)

From S2P Require Import Prelude RustStr Json Config Errors SqlHelpers Interp Select Mutations Statements Paths Storage Responses Images MemoryStorage Pool Roles Routing Accounts Credentials Auth Schemas Stores Crud Handlers Media FileStoreSpec AuthSpec SelectSpec.
Local Open Scope stdpp_scope.

(** ** Nothing is writable by default *)

Lemma update_nothing_writable unicode_alnum db rc where_clause pk (entries : list (string * value)) :
  is_err (build_update unicode_alnum db no_fields pk (VObject entries) rc where_clause) = true.
Proof.
  unfold build_update. cbn [as_object ok_or mbind result_bind]. destruct (find_pk_column _); [|done].
  cbn [mbind result_bind]. rewrite try_fold_skip; [done|]. intros [k v] _. unfold update_field.
  by rewrite bool_decide_eq_false_2 by set_solver.
Qed.

Lemma insert_nothing_writable unicode_alnum db (entries : list (string * value)) :
  is_err (build_insert unicode_alnum db no_fields (VObject entries) empty_context) = true.
Proof.
  unfold build_insert. cbn [as_object ok_or mbind result_bind].
  rewrite try_fold_skip; [done|]. intros [k v] _. unfold insert_field.
  rewrite bool_decide_eq_false_2 by done. by rewrite bool_decide_eq_false_2 by set_solver.
Qed.

(** ** The item of an action *)

Lemma last_split_trim_start s : list.last (split "/" (trim_start "/" s)) = list.last (split "/" s).
Proof.
  induction s as [|a s IH]; [done|]. cbn [trim_start]. destruct (Ascii.eqb a "/") eqn:Ha; [|done].
  rewrite IH. unfold split at 2. cbn [split_pred]. rewrite Ha.
  destruct (split_pred _ s) as [|x l] eqn:Hs; [by apply split_pred_ne_nil in Hs|].
  unfold split. by rewrite Hs.
Qed.

Lemma trim_start_relative s : is_absolute s = false → trim_start "/" ("/" +:+ s) = s.
Proof.
  unfold is_absolute, starts_with. destruct s as [|a s]; [done|]. cbn [strip_prefix].
  change ("/" +:+ String a s) with (String "/" (String a s)). cbn [trim_start].
  rewrite Ascii.eqb_refl, (Ascii.eqb_sym a "/"). by destruct (Ascii.eqb "/" a).
Qed.

(** The last segment of a path. *)
Lemma extract_id_last base action :
  contains_char "/" action = false → action ≠ "" → extract_id (base +:+ "/" +:+ action) = Some action.
Proof.
  intros Hslash Hne. unfold extract_id. rewrite last_split_trim_start.
  rewrite <-app_assoc, (trim_end_app_id "/" _ action), app_assoc by done.
  rewrite split_slash_join, (split_no_sep "/" action) by done. apply list.last_snoc.
Qed.

Lemma validate_path_within_Ok path root :
  validate_path_within path root = Ok tt → has_parent_dir path = false ∧ path_starts_with path root = true.
Proof.
  unfold validate_path_within. by destruct (has_parent_dir path), (path_starts_with path root).
Qed.

Section spec.
Context {DB St Image : Type} `{!Pool DB, !Storage St, !ImageCrate Image}.
Context {HeaderMap Validator : Type} (header_str : HeaderMap → string → option string).
Context (jwt_decode : string → Validation → string → result string value).
Context (base64_decode : string → option (option string)).
Context (verify_hash : string → string → option password_check).
Context (get_userinfo_reply : string → string → http_reply).
Context (unicode_alnum json_path_ok unicode_word : string → bool).
Context (json_string : string → string) (debug : string → string).
Context (debug_list : list string → string).
Context (iter : gmap string string → list (string * string)).
Context (header_value_ok : string → bool) (lowercase : string → string).
Context (utc_now : nat → string) (date : string * string * string) (new_uuid : nat → string).

Notation HandlerContext := (HandlerContext HeaderMap Validator).
Notation auth_info_of :=
  (extract_auth_info header_str jwt_decode base64_decode verify_hash get_userinfo_reply).
Notation create := (handle_media_create (DB := DB) (St := St) (Validator := Validator) header_str jwt_decode
  base64_decode verify_hash get_userinfo_reply unicode_alnum utc_now).
Notation update := (handle_media_update (DB := DB) (St := St) (Validator := Validator) header_str jwt_decode
  base64_decode verify_hash get_userinfo_reply unicode_alnum utc_now).

Lemma check_uploader_reads hc config pool id subject :
  reads_only (check_uploader (DB := DB) (St := St) (HeaderMap := HeaderMap) (Validator := Validator)
    hc config pool id subject).
Proof. unfold check_uploader. reads. Qed.

(** The metadata of media items cannot be written. Whatever the table, the
    user and the body, creating an entry and updating one fail before any
    statement runs: the list of writable fields they pass on is empty, and an
    empty list allows no column. *)
Theorem media_metadata_never_written (hc : HandlerContext) (config : MediaConfig) (pool : DatabasePool)
    (db_ctx : DatabaseContext) (id : string) (body : value) (w : DB * St) :
  (∃ e, create pool db_ctx hc body w = (w, Err e)) ∧
  (∃ e, update hc id config pool db_ctx body w = (w, Err e)).
Proof.
  split.
  - unfold handle_media_create. run_step. destruct (extract_user_id _ _ _ _ _ hc) as [user|e]; [|by exists e].
    cbn [and_then]. run_step.
    pose proof (insert_nothing_writable unicode_alnum db_ctx
      (set_if_column (dbx_table db_ctx) "created_at" (utc_now 0)
         (set_if_column (dbx_table db_ctx) "uploader_id" user
            (filter_writable_body body (map col_name (tbl_columns (dbx_table db_ctx))))))) as H.
    destruct (build_insert _ _ _ _ _) as [q|e]; [done|by exists e].
  - unfold handle_media_update. run_step. destruct (auth_info_of hc) as [ai|e]; [|by exists e].
    cbn [and_then]. run_step.
    pose proof (check_uploader_reads hc config pool id (ai_subject ai) w) as Hsame.
    destruct (check_uploader hc config pool id (ai_subject ai) w) as [w1 [u|e]]; cbn in Hsame; subst w1;
      [|by exists e].
    cbn [and_then]. run_step.
    pose proof (update_nothing_writable unicode_alnum db_ctx empty_context None id
      (obj_set "last_modified_by" (VString (ai_subject ai))
         (set_if_column (dbx_table db_ctx) "updated_at" (utc_now 0)
            (filter_writable_body body (map col_name (tbl_columns (dbx_table db_ctx))))))) as H.
    destruct (build_update _ _ _ _ _ _ _) as [q|e]; [done|by exists e].
Qed.

(** ** The identifier of an action *)

Notation request := (media_request (DB := DB) (St := St) (Image := Image) (Validator := Validator) header_str
  jwt_decode base64_decode verify_hash get_userinfo_reply unicode_alnum json_path_ok unicode_word
  json_string debug debug_list iter header_value_ok utc_now).

Definition item_actions : list string := ["/resize"; "/thumbnail"; "/attach"; "/detach"; "/move"; "/rename"].

(** The first action that a path names. *)
Definition named_action (path : string) : option string :=
  find_first (λ action, contains_str action path) item_actions.

(** The actions on a media item do not find it. For a request whose path
    names one of the six actions, as in [/media/42/move], the item is looked
    up by the last segment of the path, which is the name of the action: all
    items behave the same, whatever the path has before the action. *)
Theorem media_actions_ignore_item (hc : HandlerContext) (config : MediaConfig) (root : string)
    (pool : DatabasePool) (db_ctx : DatabaseContext) (method item item' action : string) (body : value)
    (Haction : action ∈ ["resize"; "thumbnail"; "attach"; "detach"; "move"; "rename"])
    (Hnamed : named_action (item +:+ "/" +:+ action) = Some ("/" +:+ action))
    (Hnamed' : named_action (item' +:+ "/" +:+ action) = Some ("/" +:+ action))
    (Htrash : starts_with media_trash_route (item +:+ "/" +:+ action) = false)
    (Htrash' : starts_with media_trash_route (item' +:+ "/" +:+ action) = false)
    (Hshared : starts_with "/shared/" (item +:+ "/" +:+ action) = false)
    (Hshared' : starts_with "/shared/" (item' +:+ "/" +:+ action) = false) :
  request hc config root pool db_ctx method (item +:+ "/" +:+ action) body
  = request hc config root pool db_ctx method (item' +:+ "/" +:+ action) body.
Proof.
  assert (contains_char "/" action = false ∧ action ≠ "") as [Hslash Hne].
  { revert Haction. clear. intros H. repeat (apply elem_of_cons in H as [->|H]; [done|]). set_solver. }
  assert (∀ item, named_action (item +:+ "/" +:+ action) = Some ("/" +:+ action) → ∀ path,
            path = item +:+ "/" +:+ action → extract_id path = Some action) as Hid.
  { intros i _ path ->. by apply extract_id_last. }
  unfold media_request. rewrite Htrash, Htrash', Hshared, Hshared'. unfold item_action.
  rewrite (Hid item Hnamed _ eq_refl), (Hid item' Hnamed' _ eq_refl).
  clear Hid. unfold named_action, item_actions in *. cbn [find_first] in *.
  repeat (apply elem_of_cons in Haction as [->|Haction]; [|]); [..|by apply not_elem_of_nil in Haction];
    repeat match goal with
    | H : (if contains_str ?a ?p then Some ?x else _) = Some _ |- _ =>
        destruct (contains_str a p); [first [discriminate H|clear H]|try discriminate H]
    end; reflexivity.
Qed.

(** ** Where files go *)

Context `{!StorageLaws St}.
Notation store := (store_upload (DB := DB) (St := St) (Validator := Validator) header_str jwt_decode
  base64_decode verify_hash get_userinfo_reply unicode_alnum debug lowercase utc_now date new_uuid).
Notation move := (handle_media_move (DB := DB) (St := St) debug).
Notation share := (handle_media_share_get (DB := DB) (St := St) header_value_ok).

Lemma insert_upload_store pool db_ctx row (w w' : DB * St) r :
  insert_upload unicode_alnum pool db_ctx row w = (w', r) → w'.2 = w.2.
Proof.
  unfold insert_upload. run_step. destruct (build_insert _ _ _ _ _) as [q|e]; [|by intros [= <- _]].
  cbn [and_then]. destruct (contains_str _ _); run_step.
  - unfold fetch_returning. destruct (fetch_optional_returning _ _ _ _) as [[row' db]|e]; by intros [= <- _].
  - destruct (execute _ _ _) as [w1 [n|e]] eqn:He; apply execute_store in He; by intros [= <- _].
Qed.

(** Identifiers are names, and the conversion to lower case makes no
    separator of a path. *)
Context (Huuid : ∀ n, plain_name (new_uuid n)).
Context (Hlower : ∀ s, contains_char "/" s = false → contains_char "/" (lowercase s) = false).

(** The name of an upload: a new identifier and the name that was sent,
    without control characters and in lower case. *)
Definition media_name (original : string) : string :=
  new_uuid 0 +:+ "-" +:+ lowercase (filter_bytes not_control original).

Lemma sanitize_filename_Ok original sanitized :
  sanitize_filename lowercase "" original false = Ok sanitized →
  sanitized = lowercase (filter_bytes not_control original) ∧ contains_char "/" original = false.
Proof.
  unfold sanitize_filename. destruct (contains_char "/" original); [done|]. cbn [orb].
  destruct (_ || _); [done|]. destruct (is_empty _); [done|]. by intros [= <-].
Qed.

Lemma media_name_plain original : contains_char "/" original = false → plain_name (media_name original).
Proof using Huuid Hlower.
  intros H. apply plain_name_app; [done|]. rewrite contains_char_app. cbn [contains_char orb].
  by apply Hlower, contains_filter_bytes.
Qed.

(** C33: what an accepted upload has done. The bytes of the last field of the
    form that has a file name, no more than the limit, are in the store; the
    file is named by a new identifier and that file name without control
    characters and in lower case. It is in the root of the store or, where a
    subdirectory is configured, in the directory that the pattern names with
    the user, the date and an identifier filled in; this is below the root
    unless the filled pattern is an absolute path, as it can be for a user
    whose identifier is one. The path has no parent references, and no other
    file of the store has changed. Identifiers are taken to be names without
    separators. *)
Theorem media_upload_spec (hc : HandlerContext) (config : MediaConfig) (upload_config : MediaUploadConfig)
    (multipart : list (result string form_field)) (root : string) (w w' : DB * St) (r : handler_response)
    (Hupload : store hc config upload_config multipart root w = (w', Ok r)) :
  ∃ ai content name path,
    auth_info_of hc = Ok ai ∧
    last_file multipart name content ∧ (byte_count content ≤ mu_max_size upload_config)%Z ∧
    components path
      = components (upload_directory date (new_uuid 1) root (ai_subject ai) (mu_create_subdirectory upload_config))
        ++ [Normal (media_name name)] ∧
    (is_absolute (upload_subdirectory date (new_uuid 1) (ai_subject ai) (mu_create_subdirectory upload_config)) = false →
     path_starts_with path root = true) ∧
    has_parent_dir path = false ∧
    file_at path w' = Some content ∧
    ∀ q, names_file q = true → apart path q → file_at q w' = file_at q w.
Proof.
  unfold store_upload in Hupload. rename Hupload into H.
  answered w1 ai Hai H. injection Hai as <- Hai.
  answered w1 file Hfile H. injection Hfile as <- Hfile. destruct file as [content name].
  answered w1 u Hsize H. injection Hsize as <- Hsize.
  answered w1 sanitized Hsan H. injection Hsan as <- Hsan.
  answered w1 path Hpath H. injection Hpath as <- Hpath.
  answered w1 u1 Hparent H. apply parent_made in Hparent as [_ Hw1].
  answered w2 u2 Hwrite H. rewrite or_file_errorE in Hwrite. injection Hwrite as Hw2 Hok%map_err_Ok.
  answered w3 meta Hmeta H. injection Hmeta as <- _.
  answered w3 db Hdb H. injection Hdb as <- _. destruct db as [pool db_ctx].
  answered w3 rid Hins H. apply insert_upload_store in Hins. injection H as <- _.
  destruct (st_write path content w1.2) as [rw s'] eqn:Hw. cbn in Hok, Hw2. subst rw w2.
  apply parse_multipart_file_Ok in Hfile as [[? _]|[Hlast Hmax]]; [done|].
  apply sanitize_filename_Ok in Hsan as [-> Hslash].
  apply build_storage_path_place in Hpath as (Hplace&Hdots&Hbelow); [|by apply media_name_plain].
  exists ai, content, name, path. split_and!; try done.
  - unfold file_at. rewrite Hins. cbn. destruct u2. by eapply read_after_write.
  - intros q Hn Hq. rewrite <-Hw1 by done. unfold file_at. rewrite Hins. cbn. by eapply write_frame.
Qed.

(** Moving an item. An accepted move puts the file of the item, with its
    content, at the destination of the request below the root of the store,
    component by component and without parent references; no other file
    changes, and the statement that records the new path binds the path from
    the root to the file. *)
Theorem media_move_spec (id : string) (endpoint : EndpointConfig) (config : MediaConfig)
    (pool : DatabasePool) (root : string) (body : value) (file_path : string) (c : bytes)
    (w w' : DB * St) (r : handler_response)
    (Hroot : root ≠ "")
    (Hitem : item_path (St := St) config pool id w = (w, Ok file_path))
    (Hfile : file_at (path_join root file_path) w = Some c)
    (Hmove : move id endpoint config pool root body w = (w', Ok r)) :
  ∃ destination stored n db,
    get "destination_path" body ≫= as_str = Some destination ∧
    let new_path := path_join root (trim_start "/" destination) in
    path_starts_with new_path root = true ∧ has_parent_dir new_path = false ∧
    components new_path = components root ++ components stored ∧
    (∃ q, build_set_file_path (media_table config) stored (pool_driver pool) = Ok q ∧
       execute_with_params pool (bq_sql q) [VString stored; VString id] w.1 = Ok (n, db) ∧ w'.1 = db) ∧
    (two_files (path_join root file_path) new_path →
     moved (path_join root file_path) new_path c w (w.1, w'.2)).
Proof.
  unfold handle_media_move in Hmove. rename Hmove into H.
  answered w1 mc Hmc H. injection Hmc as <- Hmc.
  answered w1 destination Hdest H. injection Hdest as <- Hdest%ok_or_Ok.
  answered w1 fp Hfp H. rewrite Hitem in Hfp. injection Hfp as <- <-.
  set (new_path := path_join root (trim_start "/" destination)) in *.
  answered w1 u Hval H. injection Hval as <- Hval.
  answered w1 u1 Hparent H.
  assert (w1.1 = w.1 ∧ same_files w w1) as [Hdb Hw1].
  { destruct (mm_auto_create_destination mc); [by apply parent_made in Hparent|by injection Hparent as <-]. }
  answered w2 u2 Hren H. rewrite or_file_errorE in Hren. injection Hren as Hw2 Hok%map_err_Ok.
  answered w3 u3 Hrec H. injection H as <- _.
  unfold record_path in Hrec. answered w4 q Hq Hrec. injection Hq as <- Hq%map_err_Ok.
  answered w4 n Hexec Hrec. injection Hrec as <- _.
  destruct u. apply validate_path_within_Ok in Hval as [Hpd Hbelow].
  destruct (path_strip_prefix new_path root) as [rel|] eqn:Hrel.
  2:{ unfold path_strip_prefix in Hrel. unfold path_starts_with in Hbelow. by rewrite Hbelow in Hrel. }
  assert (trim_start "/" (relative_to root new_path) = rel) as Hstored.
  { unfold relative_to. rewrite Hrel. by apply trim_start_relative, (path_strip_prefix_relative new_path root). }
  rewrite Hstored in *. unfold execute in Hexec. cbn [with_params bq_sql bq_params] in Hexec.
  destruct (execute_with_params _ _ _ _) as [[n' db]|e] eqn:Hx; [|done]. injection Hexec as <- ->.
  exists destination, rel, n, db. split; [done|]. cbv zeta. fold new_path. split_and!; try done.
  - by apply path_strip_prefix_components.
  - exists q. subst w2. rewrite Hdb in Hx. split_and!; [|done..]. rewrite <-Hq. f_equal. rewrite <-Hstored at 1. unfold relative_to. by rewrite Hrel.
  - intros Hne. subst w2. cbn. apply (rename_moved _ _ _ w w1); try done; [by rewrite Hdb|by destruct u2].
Qed.

(** ** The trash *)

Notation trash_item :=
  (handle_media_trash_delete (DB := DB) (St := St) (Validator := Validator) header_str jwt_decode base64_decode
     verify_hash get_userinfo_reply debug).
Notation restore :=
  (handle_media_trash_restore (DB := DB) (St := St) (Validator := Validator) header_str jwt_decode
     base64_decode verify_hash get_userinfo_reply debug).

(** The file of an item in the trash of the user of a request. *)
Definition user_trash (hc : HandlerContext) (tc : MediaTrashConfig) (root file_path : string) : result AppError string :=
  ai ← auth_info_of hc; Ok (trash_file root (mt_prefix tc) (ai_subject ai) file_path).

Lemma user_trash_Ok hc tc root file_path trash :
  user_trash hc tc root file_path = Ok trash →
  ∃ ai, auth_info_of hc = Ok ai ∧ trash = trash_file root (mt_prefix tc) (ai_subject ai) file_path.
Proof. unfold user_trash. intros. inv_ok. eauto. Qed.

Lemma item_trashed hc id config tc root pool file_path trash c (w w' : DB * St) r :
  media_trash config = Some tc → user_trash hc tc root file_path = Ok trash →
  item_path (St := St) config pool id w = (w, Ok file_path) →
  file_at (path_join root file_path) w = Some c → two_files (path_join root file_path) trash →
  trash_item hc id config root pool w = (w', Ok r) →
  ∃ w1, moved (path_join root file_path) trash c w w1 ∧ w'.2 = w1.2.
Proof.
  intros Htc (ai&Hai&->)%user_trash_Ok Hitem Hc Hne H. unfold handle_media_trash_delete in H.
  answered w1 tc' Htc' H. unfold require_media_trash in Htc'. rewrite Htc in Htc'. injection Htc' as <- <-.
  answered w1 ai' Hai' H. injection Hai' as <- Hai'. rewrite Hai in Hai'. injection Hai' as <-.
  answered w1 fp Hfp H. rewrite Hitem in Hfp. injection Hfp as <- <-.
  set (trash := trash_file _ _ _ _) in *.
  answered w1 u Hparent H. apply parent_made in Hparent as [Hdb Hw1].
  answered w2 present Hp H. injection Hp as <- <-.
  rewrite (exists_of_read _ c) in H by (by rewrite <-Hc, <-Hw1 by apply Hne).
  answered w2 u2 Hm H. rewrite or_file_errorE in Hm. injection Hm as Hw2 Hok%map_err_Ok.
  answered w3 q Hq H. injection Hq as <- Hq. answered w4 n He H. apply execute_store in He.
  assert (w' = w4) as -> by (destruct (n =? 0)%Z; [done|by injection H]).
  exists (w.1, w2.2). split; [|done].
  apply (rename_moved _ _ _ w w1); try done; [by rewrite Hdb, <-Hw2|by destruct u2].
Qed.

(** What a restore does to the store: it depends on the trash of the user who
    restores. *)
Lemma item_restored hc id config tc root pool file_path trash (w w' : DB * St) r :
  media_trash config = Some tc → user_trash hc tc root file_path = Ok trash →
  trashed_item (St := St) config pool id w = (w, Ok file_path) →
  two_files trash (path_join root file_path) →
  restore hc id config root pool w = (w', Ok r) →
  if st_exists trash w.2 then
    ∀ c, file_at trash w = Some c → ∃ w1, moved trash (path_join root file_path) c w w1 ∧ w'.2 = w1.2
  else w'.2 = w.2.
Proof.
  intros Htc (ai&Hai&->)%user_trash_Ok Hitem Hne H. unfold handle_media_trash_restore in H.
  answered w1 tc' Htc' H. unfold require_media_trash in Htc'. rewrite Htc in Htc'. injection Htc' as <- <-.
  answered w1 fp Hfp H. rewrite Hitem in Hfp. injection Hfp as <- <-.
  answered w1 ai' Hai' H. injection Hai' as <- Hai'. rewrite Hai in Hai'. injection Hai' as <-.
  set (trash := trash_file _ _ _ _) in *.
  answered w1 present Hp H. injection Hp as <- <-. answered w1 u Hm H.
  answered w2 q Hq H. injection Hq as <- Hq. answered w2 n He H. apply execute_store in He.
  injection H as <- _. destruct (st_exists trash w.2); [|by injection Hm as <-].
  intros c Hc. answered w3 v Hparent Hm. apply parent_made in Hparent as [Hdb Hw3].
  rewrite or_file_errorE in Hm. injection Hm as Hw1 Hok%map_err_Ok.
  exists (w.1, w1.2). split; [|done].
  apply (rename_moved _ _ _ w w3); try done; [by rewrite Hdb, <-Hw1|by destruct u].
Qed.

(** A media item in the trash has its file in the trash of the user who
    deleted it. When a delete moved the file and a restore then succeeds: if
    the trash of the user who restores has the file at that path, as it does
    for the same user, the file is back; if it has none, the restore answers
    all the same and leaves the file in the trash of the other user. *)
Theorem media_trash_follows_user (hc hc' : HandlerContext) (config : MediaConfig) (tc : MediaTrashConfig)
    (id root file_path trash trash' : string) (pool : DatabasePool) (c : bytes)
    (w w1 w2 : DB * St) (r1 r2 : handler_response)
    (Htc : media_trash config = Some tc)
    (Htrash : user_trash hc tc root file_path = Ok trash)
    (Htrash' : user_trash hc' tc root file_path = Ok trash')
    (Hapart : two_files trash (path_join root file_path))
    (Hapart' : two_files trash' (path_join root file_path))
    (Hitem : item_path (St := St) config pool id w = (w, Ok file_path))
    (Hfile : file_at (path_join root file_path) w = Some c)
    (Hdelete : trash_item hc id config root pool w = (w1, Ok r1))
    (Htrashed : trashed_item (St := St) config pool id w1 = (w1, Ok file_path))
    (Hrestore : restore hc' id config root pool w1 = (w2, Ok r2)) :
  file_at trash w1 = Some c ∧
  (trash' = trash →
   file_at (path_join root file_path) w2 = Some c ∧ file_at trash w2 = None ∧
   ∀ q, names_file q = true → apart q (path_join root file_path) → apart q trash →
     file_at q w2 = file_at q w) ∧
  (st_exists trash' w1.2 = false →
   file_at trash w2 = Some c ∧ file_at (path_join root file_path) w2 = None).
Proof.
  destruct (item_trashed _ _ _ _ _ _ _ _ _ _ _ _ Htc Htrash Hitem Hfile (two_files_sym _ _ Hapart) Hdelete)
    as (u1&(_&Htr&Hgone&Hother)&Hu1).
  assert (file_at trash w1 = Some c) as Hc1 by (unfold file_at in *; by rewrite Hu1).
  pose proof (item_restored _ _ _ _ _ _ _ _ _ _ _ Htc Htrash' Htrashed Hapart' Hrestore) as Hr.
  split; [done|]. split.
  - intros ->. rewrite (exists_of_read _ _ _ Hc1) in Hr.
    destruct (Hr c Hc1) as (u2&(_&Hback&Hgone2&Hother2)&Hu2). unfold file_at in *. rewrite Hu2.
    split_and!; try done. intros q Hn Hq Hq'. by rewrite Hother2, Hu1, Hother.
  - intros Hno. rewrite Hno in Hr. unfold file_at in *. rewrite Hr, Hu1. done.
Qed.

(** ** Shared files *)

(** A share token is not confined to the shared files. Whether sharing is
    enabled or not, and for any method, a request whose path is [/shared/] and
    an absolute path is answered by the handler with the file at that path,
    wherever the store keeps its own. *)
Theorem share_token_escapes_store (hc : HandlerContext) (config : MediaConfig) (sharing : MediaSharingConfig)
    (root : string) (pool : DatabasePool) (db_ctx : DatabaseContext) (method token : string) (body : value)
    (c : bytes) (w : DB * St)
    (Hsharing : media_sharing config = Some sharing)
    (Habs : is_absolute token = true)
    (Hfile : file_at token w = Some c) :
  ∃ answer, request hc config root pool db_ctx method ("/shared/" +:+ token) body w
            = (w, Ok (bytes_reply answer)) ∧
    hr_status answer = 200%Z ∧ hr_body answer = c.
Proof.
  unfold media_request.
  assert (starts_with media_trash_route ("/shared/" +:+ token) = false) as -> by reflexivity.
  assert (starts_with "/shared/" ("/shared/" +:+ token) = true ∧
          strip_prefix "/shared/" ("/shared/" +:+ token) = Some token) as [-> ->] by (split; reflexivity).
  change (default "" (Some token)) with token. unfold handle_media_share_get. rewrite Hsharing.
  cbn [ok_or]. run_step.
  assert (path_join (path_join root (msh_prefix sharing)) token = token) as ->.
  { unfold path_join at 1. by rewrite Habs. }
  destruct (metadata_of_file _ _ _ Hfile) as (m&Hm&_). apply content_Some in Hfile.
  do 2 (run_step; unfold try_store; rewrite ?Hm, ?Hfile; cbn [map_err and_then]).
  eexists. split; [reflexivity|]. done.
Qed.
End spec.

(** ** Witnesses *)

#[local] Instance strips : ImageCrate (Z * Z) := strip_images.

Definition photos_table : TableConfig := {|
  tbl_name := "photos"; tbl_database := "main";
  tbl_columns := [mk_col "id" Integer true; mk_col "file_path" Text false; mk_col "original_name" Text false;
                  mk_col "size" Integer false];
  tbl_foreign_keys := [] |}.

Definition photos_upload : MediaUploadConfig := {|
  mu_max_size := 10; mu_allowed_extensions := []; mu_allowed_mime_types := [];
  mu_mime_detection := MediaByExtension; mu_bulk_supported := false; mu_create_subdirectory := Some "{year}/{user_id}";
  mu_versioning := None; mu_preview_generation := None |}.

(** Uploads, moves, a trash, and a section for sharing that is not enabled. *)
Definition photos_config : MediaConfig := {|
  media_storage := "media"; media_table := "photos"; media_database := "main"; media_columns := [];
  media_metadata_columns := []; media_upload := Some photos_upload;
  media_move_config := Some {| mm_enabled := true; mm_admin_override := false;
                               mm_auto_create_destination := true |};
  media_rename := None; media_delete := None; media_user_scope := None; media_content_references := None;
  media_trash := Some {| mt_enabled := true; mt_retention_days := 30; mt_prefix := ".trash";
                         mt_management_endpoints := true; mt_admin_roles := [] |};
  media_sharing := Some {| msh_enabled := false; msh_signing_secret := "s"; msh_default_ttl := 60;
                           msh_max_ttl := 60; msh_prefix := "shared"; msh_allow_any_user := false;
                           msh_required_link_role := None |};
  media_pagination := default_PaginationConfig; media_sorting := default_SortingConfig;
  media_filtering := default_FilteringConfig; media_facets := []; media_image_resize := None |}.

Definition photos_endpoint : EndpointConfig :=
  let e := mk_endpoint "/media" [Get; Post; Patch; Delete] ActMedia "jwt" in
  {| ep_path := ep_path e; ep_methods := ep_methods e; ep_action := ep_action e;
     ep_crud := None; ep_proxy := None; ep_static_files := None; ep_spa_host := None;
     ep_media := Some photos_config; ep_file_store := None; ep_custom_response := None;
     ep_auth := "jwt"; ep_roles := Flat ["admin"]; ep_cors := None; ep_rate_limit := None |}.

Definition photos_app : AppConfig := {|
  cfg_server := cfg_server sample_config; cfg_logging := cfg_logging sample_config;
  cfg_cors := cfg_cors sample_config; cfg_rate_limit := cfg_rate_limit sample_config;
  cfg_databases := ∅; cfg_tables := [photos_table]; cfg_auth := cfg_auth sample_config;
  cfg_endpoints := [photos_endpoint]; cfg_stores := ∅;
  cfg_role_hierarchy := cfg_role_hierarchy sample_config; cfg_global_schemas := None |}.

(** Users whose tokens are their names. *)
Definition users (secret : string) (v : Validation) (token : string) : result string value :=
  match sample_claims with
  | VObject claims => Ok (VObject (obj_set "sub" (VString token) claims))
  | claims => Ok claims
  end.

Definition photos_request (tok : string) : HandlerContext (list (string * string)) () := {|
  hc_config := photos_app; hc_db_pools := {["main" := PoolSqlite 0]};
  hc_schema_registry := ∅; hc_endpoint := photos_endpoint;
  hc_headers := [("authorization", "Bearer " +:+ tok)]; hc_query_params := ∅ |}.
Definition photos_db_ctx : DatabaseContext := {| dbx_driver := Sqlite; dbx_table := photos_table |}.

Lemma media_actions_ignore_item_witness :
  let request path := media_request (DB := catalogue) (St := MemoryStorage) (Image := Z * Z) (Validator := ())
    no_headers users (λ _, None) (λ _ _, None) (λ _ _, NoReply "") no no no quoted id (λ _, "")
    map_to_list (λ _, true) (λ _, "now") (photos_request "ann") photos_config "media" (PoolSqlite 0)
    photos_db_ctx "POST" path (VObject []) in
  request "/media/42/move" = request "/media/43/move".
Proof.
  cbv zeta.
  refine (media_actions_ignore_item no_headers users (λ _, None) (λ _ _, None) (λ _ _, NoReply "")
    no no no quoted id (λ _, "") map_to_list (λ _, true) (λ _, "now") (photos_request "ann") photos_config
    "media" (PoolSqlite 0) photos_db_ctx "POST" "/media/42" "/media/43" "move" (VObject [])
    _ _ _ _ _ _ _); [|reflexivity..].
  do 4 right. left.
Defined.

Definition upload_form : list (result string form_field) :=
  [Ok {| ff_name := Some "note"; ff_file_name := None; ff_chunks := [] |};
   Ok {| ff_name := Some "file"; ff_file_name := Some "cat.png";
         ff_chunks := [Ok (ascii_bytes "me"); Ok (ascii_bytes "ow")] |}].
Definition today : string * string * string := ("2024", "05", "01").
Definition upload_sample (w : catalogue * MemoryStorage) :=
  store_upload (Validator := ()) no_headers users (λ _, None) (λ _ _, None) (λ _ _, NoReply "") no id id
    (λ _, "now") today sample_uuid (photos_request "ann") photos_config photos_upload upload_form "media" w.
Definition photo (file : string) : catalogue * MemoryStorage := one_entry "a.png" file.

Lemma media_upload_spec_witness :
  ∃ ai content name path,
    extract_auth_info no_headers users (λ _, None) (λ _ _, None) (λ _ _, NoReply "") (photos_request "ann") = Ok ai ∧
    last_file upload_form name content ∧ (byte_count content ≤ 10)%Z ∧
    components path
      = components (upload_directory today "id-1" "media" (ai_subject ai) (mu_create_subdirectory photos_upload))
        ++ [Normal (media_name id sample_uuid name)] ∧
    (is_absolute (upload_subdirectory today "id-1" (ai_subject ai) (mu_create_subdirectory photos_upload)) = false →
     path_starts_with path "media" = true) ∧
    has_parent_dir path = false ∧
    file_at path (upload_sample (photo "media/a.png")).1 = Some content ∧
    ∀ q, names_file q = true → apart path q →
      file_at q (upload_sample (photo "media/a.png")).1 = file_at q (photo "media/a.png").
Proof.
  refine (media_upload_spec no_headers users (λ _, None) (λ _ _, None) (λ _ _, NoReply "") no id id
    (λ _, "now") today sample_uuid sample_uuid_plain (λ s Hs, Hs) (photos_request "ann") photos_config photos_upload
    upload_form "media" (photo "media/a.png") (upload_sample (photo "media/a.png")).1
    (default no_reply (ok (upload_sample (photo "media/a.png")).2)) _).
  vm_compute. reflexivity.
Defined.

Definition destination_of (path : string) : value := VObject [("destination_path", VString path)].
Definition move_sample (w : catalogue * MemoryStorage) :=
  handle_media_move id "7" photos_endpoint photos_config (PoolSqlite 0) "media" (destination_of "/b/c.png") w.

Lemma media_move_spec_witness :
  ∃ destination stored n db,
    get "destination_path" (destination_of "/b/c.png") ≫= as_str = Some destination ∧
    let new_path := path_join "media" (trim_start "/" destination) in
    path_starts_with new_path "media" = true ∧ has_parent_dir new_path = false ∧
    components new_path = components "media" ++ components stored ∧
    (∃ q, build_set_file_path "photos" stored Sqlite = Ok q ∧
       execute_with_params (PoolSqlite 0) (bq_sql q) [VString stored; VString "7"] (photo "media/a.png").1
         = Ok (n, db) ∧ (move_sample (photo "media/a.png")).1.1 = db) ∧
    (two_files (path_join "media" "a.png") new_path →
     moved (path_join "media" "a.png") new_path (ascii_bytes "data") (photo "media/a.png")
       ((photo "media/a.png").1, (move_sample (photo "media/a.png")).1.2)).
Proof.
  refine (media_move_spec id "7" photos_endpoint photos_config (PoolSqlite 0) "media"
    (destination_of "/b/c.png") "a.png" (ascii_bytes "data") (photo "media/a.png")
    (move_sample (photo "media/a.png")).1 (default no_reply (ok (move_sample (photo "media/a.png")).2)) _ _ _ _);
    [discriminate|vm_compute; reflexivity..].
Defined.

(** The photo is deleted by one user and restored by another. *)
Definition deleted_by_ann : catalogue * MemoryStorage :=
  (handle_media_trash_delete no_headers users (λ _, None) (λ _ _, None) (λ _ _, NoReply "") id
     (photos_request "ann") "7" photos_config "media" (PoolSqlite 0) (photo "media/a.png")).1.
Definition restored_by (tok : string) : (catalogue * MemoryStorage) * result AppError handler_response :=
  handle_media_trash_restore no_headers users (λ _, None) (λ _ _, None) (λ _ _, NoReply "") id
    (photos_request tok) "7" photos_config "media" (PoolSqlite 0) deleted_by_ann.

Lemma media_trash_follows_user_witness :
  is_ok (restored_by "bob").2 = true ∧
  file_at "media/.trash/ann/a.png" (restored_by "bob").1 = Some (ascii_bytes "data") ∧
  file_at (path_join "media" "a.png") (restored_by "bob").1 = None.
Proof.
  split; [vm_compute; reflexivity|].
  refine (proj2 (proj2 (media_trash_follows_user no_headers users (λ _, None) (λ _ _, None)
    (λ _ _, NoReply "") id (photos_request "ann") (photos_request "bob") photos_config
    {| mt_enabled := true; mt_retention_days := 30; mt_prefix := ".trash";
       mt_management_endpoints := true; mt_admin_roles := [] |}
    "7" "media" "a.png" "media/.trash/ann/a.png" "media/.trash/bob/a.png" (PoolSqlite 0) (ascii_bytes "data")
    (photo "media/a.png") deleted_by_ann (restored_by "bob").1
    (success "Media moved to trash" [("rows_affected", json_int 1)])
    (success "Media item restored from trash" []) eq_refl _ _ _ _ _ _ _ _ _)) _);
    first [vm_compute; reflexivity | split; [discriminate|done]].
Defined.

Lemma share_token_escapes_store_witness :
  let w := photo "/etc/passwd" in
  ∃ answer, media_request (DB := catalogue) (St := MemoryStorage) (Image := Z * Z) (Validator := ())
    no_headers users (λ _, None) (λ _ _, None) (λ _ _, NoReply "") no no no quoted id (λ _, "")
    map_to_list (λ _, true) (λ _, "now") (photos_request "ann") photos_config "media" (PoolSqlite 0)
    photos_db_ctx "GET" "/shared//etc/passwd" (VObject []) w = (w, Ok (bytes_reply answer)) ∧
  hr_status answer = 200%Z ∧ hr_body answer = ascii_bytes "data".
Proof.
  cbv zeta.
  refine (share_token_escapes_store no_headers users (λ _, None) (λ _ _, None) (λ _ _, NoReply "")
    no no no quoted id (λ _, "") map_to_list (λ _, true) (λ _, "now") (photos_request "ann") photos_config
    {| msh_enabled := false; msh_signing_secret := "s"; msh_default_ttl := 60; msh_max_ttl := 60;
       msh_prefix := "shared"; msh_allow_any_user := false; msh_required_link_role := None |}
    "media" (PoolSqlite 0) photos_db_ctx "GET" "/etc/passwd" (VObject []) (ascii_bytes "data")
    (photo "/etc/passwd") eq_refl eq_refl _).
  vm_compute. reflexivity.
Defined.
