(* ===== verification/RateLimit.v ===== *)
(** * Rate limiting

    The in-memory limiter of src/src/middleware/rate_limit.rs: the map of
    counters, the key a request is counted under, and the check of a request
    against a configuration, with the pruning of old entries and the panic of
    an overflowing [Duration]. Instants and durations are nanoseconds. A
    request's instant is the argument of its check, and a run of the limiter
    is the sequence of its checks in the order they take the lock. *)

From S2P Require Import Prelude RustStr Config Errors.
Local Open Scope stdpp_scope.

(** ** Addresses, as [std::net] displays them *)

Inductive IpAddr :=
| IpV4 (a b c d : Z)
| IpV6 (segments : list Z).

Record SocketAddr := { sa_ip : IpAddr; sa_port : Z }.

Definition hex_digit (n : N) : ascii := ascii_of_N (if (n <? 10)%N then 48 + n else 87 + n)%N.

(** [{:x}] of a [u16] *)
Definition show_hex16 (z : Z) : string :=
  let n := Z.to_N z in
  let digit k := String (hex_digit (N.land (N.shiftr n k) 15)) "" in
  if (n <? 16)%N then digit 0%N
  else if (n <? 256)%N then digit 4%N +:+ digit 0%N
  else if (n <? 4096)%N then digit 8%N +:+ digit 4%N +:+ digit 0%N
  else digit 12%N +:+ digit 8%N +:+ digit 4%N +:+ digit 0%N.

Definition show_ipv4 (a b c d : Z) : string :=
  show_Z a +:+ "." +:+ show_Z b +:+ "." +:+ show_Z c +:+ "." +:+ show_Z d.

(** The first of the longest runs of zero segments, as (start, length). *)
Fixpoint longest_zeros (i : nat) (segments : list Z) (current longest : nat * nat) : nat * nat :=
  match segments with
  | [] => longest
  | s :: rest =>
      if (s =? 0)%Z then
        let current := ((if Nat.eqb current.2 0 then i else current.1), S current.2) in
        longest_zeros (S i) rest current (if Nat.ltb longest.2 current.2 then current else longest)
      else longest_zeros (S i) rest (0, 0) longest
  end.

Definition show_ipv6 (segments : list Z) : string :=
  match segments with
  | [0; 0; 0; 0; 0; 65535; ab; cd]%Z =>
      "::ffff:" +:+ show_ipv4 (Z.shiftr ab 8) (Z.land ab 255) (Z.shiftr cd 8) (Z.land cd 255)
  | _ =>
      let '(start, len) := longest_zeros 0 segments (0, 0) (0, 0) in
      if Nat.ltb 1 len then
        String.concat ":" (map show_hex16 (take start segments)) +:+ "::" +:+
        String.concat ":" (map show_hex16 (drop (start + len) segments))
      else String.concat ":" (map show_hex16 segments)
  end.

Definition show_IpAddr (ip : IpAddr) : string :=
  match ip with IpV4 a b c d => show_ipv4 a b c d | IpV6 segments => show_ipv6 segments end.

(** ** The limiter *)

Definition nanos : Z := 1000000000.
Definition duration_from_secs (s : Z) : Z := s * nanos.

(** [duration * 2]: panics when the seconds overflow a [u64]. *)
Definition duration_twice (d : Z) : option Z :=
  if (2 * d / nanos <=? u64_max)%Z then Some (2 * d)%Z else None.

(** [now.duration_since(earlier)] saturates to zero. *)
Definition duration_since (now earlier : Z) : Z := Z.max 0 (now - earlier).

(** Source: middleware/rate_limit.rs [RateLimitEntry] *)
Record RateLimitEntry := { re_count : Z; re_window_start : Z }.

(** The map behind the mutex of the [RateLimiter] struct. *)
Notation RateLimiter := (gmap string RateLimitEntry).

(** Source: middleware/rate_limit.rs [RateLimiter::new] *)
Definition RateLimiter_new : RateLimiter := ∅.

Section limiter.
(** The headers of a request, and [headers.get(name)] followed by
    [to_str().ok()]. *)
Context {HeaderMap : Type} (header_str : HeaderMap → string → option string).

(** Source: middleware/rate_limit.rs [extract_key] *)
Definition extract_key (config : RateLimitConfig) (headers : HeaderMap)
    (remote_addr : option SocketAddr) : string :=
  match rl_key_strategy config with
  | KeyIp => match remote_addr with Some addr => show_IpAddr (sa_ip addr) | None => "unknown" end
  | KeyHeader => default "unknown" (header_str headers (rl_key_header config))
  | KeyToken => default "unknown" (header_str headers "authorization")
  end.

(** The pruning of the entries, on an over-full map only. *)
Definition prune (config : RateLimitConfig) (now : Z) (entries : RateLimiter)
  : option RateLimiter :=
  if (rl_cleanup_threshold config <? Z.of_nat (size entries))%Z then
    match duration_twice (duration_from_secs (rl_window_seconds config)) with
    | None => None
    | Some max_age =>
        Some (filter (λ ke, (duration_since now (re_window_start ke.2) < max_age)%Z) entries)
    end
  else Some entries.

(** The entry of the key once the request is counted: a new one, the old one
    restarted when its window is over, or the old one. *)
Definition count_request (window now : Z) (e : option RateLimitEntry) : RateLimitEntry :=
  let e := default {| re_count := 0; re_window_start := now |} e in
  let e := if (window <=? duration_since now (re_window_start e))%Z
           then {| re_count := 0; re_window_start := now |} else e in
  {| re_count := u64_wrap (re_count e + 1); re_window_start := re_window_start e |}.

(** Source: middleware/rate_limit.rs [RateLimiter::check_rate_limit] *)
Definition check_rate_limit (config : RateLimitConfig) (headers : HeaderMap)
    (remote_addr : option SocketAddr) (now : Z) (entries : RateLimiter)
  : RateLimiter * outcome unit :=
  if negb (rl_enabled config) then (entries, Returns (Ok tt)) else
  let key := extract_key config headers remote_addr in
  let window := duration_from_secs (rl_window_seconds config) in
  match prune config now entries with
  | None => (entries, Panics)
  | Some entries =>
      let entry := count_request window now (entries !! key) in
      (<[key := entry]> entries,
       if (rl_max_requests config <? re_count entry)%Z then
         let elapsed := duration_since now (re_window_start entry) in
         Returns (Err (RateLimited (Some (Z.max 0 (window - elapsed) / nanos)%Z)))
       else Returns (Ok tt))
  end.

(** The configuration of a request: its endpoint's, or the global one.
    Source: middleware/rate_limit.rs:148-171 [rate_limit_middleware] *)
Definition rate_limit_middleware (endpoint : option EndpointConfig) (global : RateLimitConfig)
    (headers : HeaderMap) (remote_addr : option SocketAddr) (now : Z) (entries : RateLimiter)
  : RateLimiter * outcome unit :=
  check_rate_limit (default global (endpoint ≫= ep_rate_limit)) headers remote_addr now entries.

(** ** Runs *)

Record request := { rq_now : Z; rq_headers : HeaderMap; rq_addr : option SocketAddr }.

Definition request_key (config : RateLimitConfig) (r : request) : string :=
  extract_key config (rq_headers r) (rq_addr r).

Definition admits (o : outcome unit) : bool :=
  match o with Returns (Ok _) => true | _ => false end.

(** The requests a run admits. *)
Fixpoint admitted (config : RateLimitConfig) (entries : RateLimiter) (rs : list request)
  : list request :=
  match rs with
  | [] => []
  | r :: rs' =>
      let '(entries', o) :=
        check_rate_limit config (rq_headers r) (rq_addr r) (rq_now r) entries in
      (if admits o then [r] else []) ++ admitted config entries' rs'
  end.

(** How many of the requests are of client [k] in the interval [[a, b)]. *)
Definition of_client_within (config : RateLimitConfig) (k : string) (a b : Z)
    (rs : list request) : nat :=
  length (filter (λ r, request_key config r = k ∧ (a ≤ rq_now r < b)%Z) rs).
End limiter.
