(* ===== verification/RateLimitSpec.v ===== *)
(** * What the rate limiter guarantees

    The number of requests a client gets through in any interval as long as
    the window, the meaning of [Retry-After], and the sharing of one counter
    by every endpoint. *)

From S2P Require Import Prelude RustStr Config Errors RateLimit.
Local Open Scope stdpp_scope.
Local Open Scope Z_scope.

Section spec.
Context {HeaderMap : Type} (header_str : HeaderMap → string → option string).

Local Notation window_of config := (duration_from_secs (rl_window_seconds config)).

(** The instants of the requests never decrease, and start at [t]. *)
Fixpoint in_order (t : Z) (rs : list (@request HeaderMap)) : Prop :=
  match rs with [] => True | r :: rs' => t ≤ rq_now r ∧ in_order (rq_now r) rs' end.

(** ** One check *)

Lemma prune_lookup config now entries entries' k :
  prune config now entries = Some entries' →
  entries' !! k = entries !! k ∨
  entries' !! k = None ∧ ∃ e, entries !! k = Some e ∧
    2 * window_of config ≤ duration_since now (re_window_start e).
Proof.
  unfold prune, duration_twice. intros H.
  destruct (rl_cleanup_threshold config <? _); [|simplify_eq; auto].
  destruct (_ <=? _); simplify_eq.
  destruct (entries !! k) as [e|] eqn:He.
  - destruct (decide (duration_since now (re_window_start e) < 2 * window_of config)) as [Hlt|].
    + left. by apply map_lookup_filter_Some.
    + right. split; [|exists e; split; [done|lia]].
      apply map_lookup_filter_None. right. intros e'. rewrite He. by intros [= <-].
  - left. apply map_lookup_filter_None. by left.
Qed.

Lemma admits_if max count (e : AppError) :
  admits (if max <? count then Returns (Err e) else Returns (Ok tt)) = (count <=? max).
Proof. rewrite Z.leb_antisym. by destruct (max <? count). Qed.

(** What a check does to the entry of a client: of the request's own client
    it is counted, every other one is kept, and an old entry may be gone. *)
Lemma check_lookup config headers addr now entries entries' o k :
  0 ≤ rl_window_seconds config →
  check_rate_limit header_str config headers addr now entries = (entries', o) →
  (entries' = entries ∧ (o = Panics ∨ rl_enabled config = false)) ∨
  ∃ e, (e = entries !! k ∨ e = None ∧ ∃ e', entries !! k = Some e' ∧
          2 * window_of config ≤ duration_since now (re_window_start e')) ∧
    if decide (extract_key header_str config headers addr = k) then
      let e' := count_request (window_of config) now e in
      entries' !! k = Some e' ∧
      admits o = (re_count e' <=? rl_max_requests config)
    else entries' !! k = e.
Proof.
  intros Hw H. unfold check_rate_limit in H.
  destruct (rl_enabled config); cbn [negb] in H; [|simplify_eq; auto].
  destruct (prune config now entries) as [pruned|] eqn:Hp; [|simplify_eq; auto].
  right. exists (pruned !! k). split.
  { exact (prune_lookup _ _ _ _ k Hp). }
  injection H as <- <-. rewrite decide_bool_decide. case_bool_decide as Hk.
  - subst k. rewrite lookup_insert_eq. split; [done|].
    apply admits_if.
  - by rewrite lookup_insert_ne.
Qed.

(** ** How many requests get through *)

(** The requests a client may still get through in [[a, a + w)], given its
    entry and the current instant. *)
Definition budget (max w a now : Z) (e : option RateLimitEntry) : Z :=
  let fresh := if now <? a then Z.max 0 (2 * max - 1) else max in
  match e with
  | None => fresh
  | Some e =>
      let left := Z.max 0 (max - re_count e) in
      if a <=? re_window_start e then left
      else if re_window_start e + w <=? a then fresh
      else left + max
  end.

(** Entries count at least one request, began in the past, and do not
    overflow in the next [n] requests. *)
Definition entry_ok (now n : Z) (e : option RateLimitEntry) : Prop :=
  match e with
  | None => True
  | Some e => 1 ≤ re_count e ∧ re_count e + n ≤ u64_max ∧ re_window_start e ≤ now
  end.

Lemma budget_nonneg max w a now e : 0 ≤ max → 0 ≤ budget max w a now e.
Proof. intros. unfold budget. destruct e; repeat case_match; lia. Qed.

Lemma budget_max max w a now n e :
  0 ≤ max → entry_ok now n e → budget max w a now e ≤ Z.max 0 (2 * max - 1).
Proof. intros. unfold budget. destruct e; simpl in *; repeat case_match; lia. Qed.

(** Time passing, or an old entry being dropped, leaves no more. *)
Lemma budget_pass max w a now now' n e :
  0 ≤ max → 0 ≤ w → entry_ok now n e → now ≤ now' → now' < a + w →
  budget max w a now' e ≤ budget max w a now e ∧
  (∀ e0, e = Some e0 → 2 * w ≤ duration_since now' (re_window_start e0) →
    budget max w a now' None ≤ budget max w a now e).
Proof.
  intros Hm Hw He Ht Hb. split.
  - unfold budget. destruct e as [e|]; simpl in *; repeat case_match; lia.
  - intros e0 -> Hold. unfold budget, duration_since in *. simpl in *.
    repeat case_match; lia.
Qed.

(** A counted request uses up one when it is admitted inside the interval. *)
Lemma budget_count max w a now n e :
  0 ≤ max → 0 ≤ w → 0 ≤ n ≤ u64_max - 1 → entry_ok now (n + 1) e → now < a + w →
  let e' := count_request w now e in
  entry_ok now n (Some e') ∧
  (if bool_decide (a ≤ now) && (re_count e' <=? max) then 1 else 0)
    + budget max w a now (Some e') ≤ budget max w a now e.
Proof.
  intros Hm Hw Hn He Hb e'. subst e'.
  assert (count_request w now e =
    match e with
    | Some e0 => if w <=? now - re_window_start e0
        then {| re_count := 1; re_window_start := now |}
        else {| re_count := re_count e0 + 1; re_window_start := re_window_start e0 |}
    | None => {| re_count := 1; re_window_start := now |}
    end) as ->.
  { unfold count_request, duration_since. destruct e as [e0|]; simpl in *.
    - rewrite Z.max_r by lia. destruct (_ <=? _); simpl; f_equal.
      rewrite u64_wrap_small; [done|]. unfold u64, u64_max in *. lia.
    - by destruct (_ <=? _). }
  destruct e as [e0|]; simpl in He;
    [destruct (Z.leb_spec w (now - re_window_start e0))|];
    unfold budget; simpl; (split; [lia|]);
    case_bool_decide; repeat case_match; simpl in *; lia.
Qed.

Lemma within_cons config k a b r rs :
  Z.of_nat (of_client_within header_str config k a b (r :: rs)) =
  (if bool_decide (request_key header_str config r = k ∧ a ≤ rq_now r < b) then 1 else 0)
  + Z.of_nat (of_client_within header_str config k a b rs).
Proof.
  unfold of_client_within. rewrite filter_cons.
  case_decide; case_bool_decide; simpl; try done; lia.
Qed.

Lemma within_le config k a b a' b' rs :
  (∀ t, a ≤ t < b → a' ≤ t < b') →
  (of_client_within header_str config k a b rs ≤ of_client_within header_str config k a' b' rs)%nat.
Proof.
  intros Hin. induction rs as [|r rs IH]; [done|]. apply Nat2Z.inj_le. rewrite !within_cons.
  specialize (Hin (rq_now r)). repeat case_bool_decide; try lia. intuition.
Qed.

Lemma within_late config k a b t entries rs :
  in_order t rs → b ≤ t →
  of_client_within header_str config k a b (admitted header_str config entries rs) = 0%nat.
Proof.
  revert t entries. induction rs as [|r rs IH]; intros t entries Ho Hb; [done|].
  destruct Ho as [Hr Hrs].
  cbn [admitted]. destruct (check_rate_limit _ _ _ _ _) as [entries' o].
  destruct (admits o); cbn [app].
  - apply Nat2Z.inj. rewrite within_cons, bool_decide_eq_false_2 by lia.
    rewrite (IH (rq_now r)); [lia|done|lia].
  - apply (IH (rq_now r)); [done|lia].
Qed.

(** The budget of a client bounds what the rest of the run lets through. *)
Lemma run_within_budget config k a t entries rs :
  0 ≤ rl_max_requests config → 0 ≤ rl_window_seconds config →
  rl_enabled config = true → in_order t rs →
  entry_ok t (Z.of_nat (length rs)) (entries !! k) → Z.of_nat (length rs) ≤ u64_max →
  Z.of_nat (of_client_within header_str config k a (a + window_of config)
    (admitted header_str config entries rs))
  ≤ budget (rl_max_requests config) (window_of config) a t (entries !! k).
Proof.
  intros Hm Hw Hen. assert (0 ≤ window_of config) as Hwin by (unfold duration_from_secs, nanos; lia).
  revert t entries. induction rs as [|r rs IH]; intros t entries Ho He Hlen.
  { by apply budget_nonneg. }
  destruct Ho as [Hr Hrs]. cbn [length] in He, Hlen. rewrite Nat2Z.inj_succ in He, Hlen.
  destruct (decide (a + window_of config ≤ rq_now r)) as [Hlate|Hearly].
  { rewrite (within_late config k a _ (rq_now r)); [by apply budget_nonneg| |done].
    split; [lia|done]. }
  pose proof (budget_pass (rl_max_requests config) (window_of config) a t (rq_now r)
    _ _ Hm Hwin He Hr ltac:(lia)) as [Hpass Hold].
  cbn [admitted]. destruct (check_rate_limit _ _ _ _ _) as [entries' o] eqn:Hc.
  apply (check_lookup _ _ _ _ _ _ _ k) in Hc; [|done].
  destruct Hc as [(->&[->|?])|(e&Hsame&Hc)]; [|congruence|].
  { cbn [admits app]. etrans; [|exact Hpass]. apply IH; [done| |lia].
    destruct (entries !! k); simpl in *; lia. }
  assert (budget (rl_max_requests config) (window_of config) a (rq_now r) e
    ≤ budget (rl_max_requests config) (window_of config) a t (entries !! k)
    ∧ entry_ok (rq_now r) (Z.of_nat (length rs) + 1) e) as [Hbe Hee].
  { destruct Hsame as [->|(->&e0&He0&Hage)].
    - split; [exact Hpass|]. destruct (entries !! k); simpl in *; lia.
    - split; [|done]. eauto. }
  etrans; [|exact Hbe]. case_decide as Hk.
  - destruct Hc as [He' Hadm].
    pose proof (budget_count (rl_max_requests config) (window_of config) a (rq_now r)
      (Z.of_nat (length rs)) e Hm Hwin ltac:(lia) Hee ltac:(lia)) as [Hok Hcount].
    specialize (IH (rq_now r) entries' Hrs).
    rewrite He' in IH. specialize (IH Hok ltac:(lia)).
    rewrite Hadm. destruct (_ <=? rl_max_requests config); cbn [app].
    + rewrite andb_true_r in Hcount. rewrite within_cons.
      rewrite (bool_decide_ext (_ = k ∧ _) (a ≤ rq_now r)) by (unfold request_key; intuition lia).
      lia.
    + rewrite andb_false_r in Hcount. lia.
  - specialize (IH (rq_now r) entries' Hrs). rewrite Hc in IH.
    specialize (IH ltac:(destruct e; simpl in *; lia) ltac:(lia)).
    destruct (admits o); cbn [app]; [|done].
    rewrite within_cons, bool_decide_eq_false_2; [done|]. by intros [? _].
Qed.

(** ** Exact runs *)

Lemma prune_total config now entries :
  2 * rl_window_seconds config ≤ u64_max → is_Some (prune config now entries).
Proof.
  intros Hw. unfold prune, duration_twice. destruct (_ <? _); [|eauto].
  unfold duration_from_secs.
  replace (2 * (rl_window_seconds config * nanos))
    with (2 * rl_window_seconds config * nanos) by lia.
  rewrite Z.div_mul by done. apply Z.leb_le in Hw. rewrite Hw. eauto.
Qed.

(** A check of an enabled configuration whose window is not astronomic: the
    entry is the old one, or none when the old one is two windows old. *)
Lemma check_counts config headers addr now entries :
  rl_enabled config = true → 0 ≤ rl_window_seconds config →
  2 * rl_window_seconds config ≤ u64_max →
  let key := extract_key header_str config headers addr in
  let '(entries', o) := check_rate_limit header_str config headers addr now entries in
  ∃ e, (e = entries !! key ∨ e = None ∧ ∃ e', entries !! key = Some e' ∧
          2 * window_of config ≤ duration_since now (re_window_start e')) ∧
    entries' !! key = Some (count_request (window_of config) now e) ∧
    o = if rl_max_requests config <? re_count (count_request (window_of config) now e)
        then Returns (Err (RateLimited (Some (Z.max 0 (window_of config - duration_since now
          (re_window_start (count_request (window_of config) now e))) / nanos))))
        else Returns (Ok tt).
Proof.
  intros Hen Hw Hw2. cbv zeta.
  destruct (prune_total config now entries Hw2) as [pruned Hp].
  unfold check_rate_limit. rewrite Hen, Hp. cbn [negb].
  exists (pruned !! extract_key header_str config headers addr). split.
  { exact (prune_lookup _ _ _ _ _ Hp). }
  by rewrite lookup_insert_eq.
Qed.

Lemma count_live w now e :
  re_window_start e ≤ now < re_window_start e + w → u64 (re_count e + 1) →
  count_request w now (Some e) =
  {| re_count := re_count e + 1; re_window_start := re_window_start e |}.
Proof.
  intros Hn Hc. unfold count_request, duration_since. cbn [default from_option id].
  destruct (Z.leb_spec w (Z.max 0 (now - re_window_start e))); [lia|].
  by rewrite u64_wrap_small.
Qed.

(** No entry, or one whose window is over, counts from one. *)
Lemma count_fresh w now (e : option RateLimitEntry) :
  0 ≤ w → (∀ e0, e = Some e0 → re_window_start e0 + w ≤ now) →
  count_request w now e = {| re_count := 1; re_window_start := now |}.
Proof.
  intros Hw He. unfold count_request, duration_since.
  destruct e as [e0|]; cbn [default from_option id].
  - specialize (He e0 eq_refl).
    destruct (Z.leb_spec w (Z.max 0 (now - re_window_start e0))); [done|lia].
  - by destruct (_ <=? _).
Qed.

(** A live entry is never old enough to be dropped. *)
Lemma check_live config headers addr now entries e :
  rl_enabled config = true → 0 ≤ rl_window_seconds config →
  2 * rl_window_seconds config ≤ u64_max →
  entries !! extract_key header_str config headers addr = Some e →
  re_window_start e ≤ now < re_window_start e + window_of config →
  u64 (re_count e + 1) →
  let '(entries', o) := check_rate_limit header_str config headers addr now entries in
  entries' !! extract_key header_str config headers addr =
    Some {| re_count := re_count e + 1; re_window_start := re_window_start e |} ∧
  o = if rl_max_requests config <? re_count e + 1
      then Returns (Err (RateLimited (Some
        ((re_window_start e + window_of config - now) / nanos))))
      else Returns (Ok tt).
Proof.
  intros Hen Hw Hw2 He Hn Hc.
  pose proof (check_counts config headers addr now entries Hen Hw Hw2) as H.
  cbv zeta in H. destruct (check_rate_limit _ _ _ _ _ _) as [entries' o].
  destruct H as (e'&[->|(_&e0&He0&Hold)]&Hl&->).
  - rewrite He, count_live in * by done. split; [done|]. cbn.
    unfold duration_since.
    by replace (Z.max 0 (window_of config - Z.max 0 (now - re_window_start e)))
      with (re_window_start e + window_of config - now) by lia.
  - unfold duration_since in Hold. simplify_eq. lia.
Qed.

(** No live entry: the request starts a window. *)
Lemma check_fresh config headers addr now entries :
  rl_enabled config = true → 0 ≤ rl_window_seconds config →
  2 * rl_window_seconds config ≤ u64_max → 1 ≤ rl_max_requests config →
  (∀ e, entries !! extract_key header_str config headers addr = Some e →
    re_window_start e + window_of config ≤ now) →
  let '(entries', o) := check_rate_limit header_str config headers addr now entries in
  entries' !! extract_key header_str config headers addr =
    Some {| re_count := 1; re_window_start := now |} ∧ o = Returns (Ok tt).
Proof.
  intros Hen Hw Hw2 Hm He.
  pose proof (check_counts config headers addr now entries Hen Hw Hw2) as H.
  cbv zeta in H. destruct (check_rate_limit _ _ _ _ _ _) as [entries' o].
  destruct H as (e'&Hsame&Hl&->).
  rewrite count_fresh in *.
  - split; [done|]. cbn. by destruct (Z.ltb_spec (rl_max_requests config) 1); [lia|].
  - unfold duration_from_secs, nanos. lia.
  - intros e0 ->. destruct Hsame as [Hs|[? _]]; [|done]. by apply He.
  - unfold duration_from_secs, nanos. lia.
  - intros e0 ->. destruct Hsame as [Hs|[? _]]; [|done]. by apply He.
Qed.

(** Requests of one client at one instant of a live window all get through
    as long as the count allows. *)
Lemma admitted_replicate config r e n entries rest :
  rl_enabled config = true → 0 ≤ rl_window_seconds config →
  2 * rl_window_seconds config ≤ u64_max →
  entries !! request_key header_str config r = Some e → 0 ≤ re_count e →
  re_window_start e ≤ rq_now r < re_window_start e + window_of config →
  re_count e + Z.of_nat n ≤ rl_max_requests config → rl_max_requests config ≤ u64_max →
  ∃ entries', admitted header_str config entries (replicate n r ++ rest)
      = replicate n r ++ admitted header_str config entries' rest ∧
    entries' !! request_key header_str config r =
      Some {| re_count := re_count e + Z.of_nat n; re_window_start := re_window_start e |}.
Proof.
  intros Hen Hw Hw2 He Hc Hn. revert entries e He Hc Hn.
  induction n as [|n IH]; intros entries e He Hc Hn Hcount Hmax.
  { exists entries. split; [done|]. rewrite He, Z.add_0_r. by destruct e. }
  cbn [replicate app admitted]. unfold request_key in *.
  pose proof (check_live config (rq_headers r) (rq_addr r) (rq_now r) entries e
    Hen Hw Hw2 He Hn ltac:(unfold u64; lia)) as H.
  destruct (check_rate_limit _ _ _ _ _ _) as [entries1 o]. destruct H as [He1 ->].
  destruct (Z.ltb_spec (rl_max_requests config) (re_count e + 1)); [lia|].
  destruct (IH entries1 _ He1) as (entries'&Hrun&He'); cbn [re_count re_window_start] in *;
    [lia..|].
  exists entries'. rewrite Hrun. split; [done|]. rewrite He'. do 2 f_equal. cbn. lia.
Qed.

(** C39: how many requests the limiter lets through. For every sequence of
    requests of any clients, from the start of the server, no client gets
    more than [2 * max_requests - 1] requests through in any interval as long
    as the window, wherever the interval lies; pruning never raises that. *)
Theorem at_most_two_windows (config : RateLimitConfig) (k : string) (a t : Z)
    (rs : list request) :
  rl_enabled config = true → 0 ≤ rl_max_requests config → 0 ≤ rl_window_seconds config →
  in_order t rs → Z.of_nat (length rs) ≤ u64_max →
  Z.of_nat (of_client_within header_str config k a (a + window_of config)
    (admitted header_str config RateLimiter_new rs))
  ≤ Z.max 0 (2 * rl_max_requests config - 1).
Proof.
  intros Hen Hm Hw Ho Hl. etrans.
  { apply (run_within_budget config k a t RateLimiter_new rs); done. }
  apply (budget_max _ _ _ _ 0); done.
Qed.

(** The requests of one client with its headers and address, at [t]. *)
Definition request_at (headers : HeaderMap) (addr : option SocketAddr) (t : Z) : request :=
  {| rq_now := t; rq_headers := headers; rq_addr := addr |}.

(** The window does not slide. A client that makes one request, one less
    than the maximum just before its window ends and the maximum right after
    gets them all through: [2 * max_requests - 1] requests within one
    nanosecond, so the bound of the limiter is reached, although the
    configuration calls it the maximum within the sliding window. *)
Theorem window_does_not_slide (config : RateLimitConfig) (headers : HeaderMap)
    (addr : option SocketAddr) (t : Z) :
  rl_enabled config = true → 1 ≤ rl_max_requests config ≤ u64_max →
  1 ≤ rl_window_seconds config → 2 * rl_window_seconds config ≤ u64_max →
  let r := request_at headers addr in
  let max := Z.to_nat (rl_max_requests config) in
  let burst := r t :: replicate (max - 1) (r (t + window_of config - 1))
                 ++ replicate max (r (t + window_of config)) in
  admitted header_str config RateLimiter_new burst = burst.
Proof.
  intros Hen Hm Hw Hw2. cbv zeta. cbn [admitted].
  assert (Hwin : 1 ≤ window_of config) by (unfold duration_from_secs, nanos; lia).
  pose proof (check_fresh config headers addr t RateLimiter_new Hen ltac:(lia) Hw2 ltac:(lia)
    ltac:(done)) as H. cbn [request_at rq_headers rq_addr rq_now].
  destruct (check_rate_limit _ _ _ _ _ _) as [es o]. destruct H as [He ->]. cbn [admits app].
  f_equal.
  destruct (admitted_replicate config (request_at headers addr (t + window_of config - 1)) _
    (Z.to_nat (rl_max_requests config) - 1) es
    (replicate (Z.to_nat (rl_max_requests config)) (request_at headers addr (t + window_of config)))
    Hen ltac:(lia) Hw2 He) as (es1&->&He1); cbn [re_count re_window_start request_at rq_now];
    [lia..|]. f_equal.
  destruct (Z.to_nat (rl_max_requests config)) as [|max] eqn:Hmax; [lia|].
  cbn [replicate admitted]. unfold request_key in He1. cbn [request_at rq_headers rq_addr] in He1.
  pose proof (check_fresh config headers addr (t + window_of config) es1 Hen ltac:(lia) Hw2
    ltac:(lia)) as H. cbn [request_at rq_headers rq_addr rq_now].
  rewrite He1 in H. specialize (H ltac:(intros e [= <-]; cbn; lia)).
  destruct (check_rate_limit _ _ _ _ _ _) as [es2 o]. destruct H as [He2 ->]. cbn [admits app].
  f_equal.
  destruct (admitted_replicate config (request_at headers addr (t + window_of config)) _
    max es2 [] Hen ltac:(lia) Hw2 He2) as (es3&Hrun&_); cbn [re_count re_window_start request_at rq_now];
    [lia..|]. rewrite !List.app_nil_r in Hrun. rewrite Hrun. done.
Qed.

(** Checks of other clients leave a client's entry, or drop it when old. *)
Lemma admitted_others config k e entries rs r :
  0 ≤ rl_window_seconds config →
  (∀ e0, entries !! k = Some e0 → e0 = e) →
  Forall (λ r', request_key header_str config r' ≠ k) rs →
  ∃ l entries', admitted header_str config entries (rs ++ [r])
      = l ++ admitted header_str config entries' [r] ∧
    (∀ e0, entries' !! k = Some e0 → e0 = e).
Proof.
  intros Hw. revert entries. induction rs as [|r' rs IH]; intros entries He Hk.
  { by exists [], entries. }
  apply Forall_cons_iff in Hk as [Hk Hks]. cbn [app admitted].
  destruct (check_rate_limit _ _ _ _ _) as [entries1 o] eqn:Hc.
  apply (check_lookup _ _ _ _ _ _ _ k Hw) in Hc.
  destruct (IH entries1) as (l&entries'&->&He'); [|done|].
  { destruct Hc as [[-> _]|(e1&Hsame&Hc)]; [done|].
    rewrite decide_False in Hc by done. rewrite Hc. intros e0 ->.
    destruct Hsame as [Hs|[? _]]; [|done]. by apply He. }
  exists ((if admits o then [r'] else []) ++ l), entries'. by rewrite List.app_assoc.
Qed.

(** C40: [Retry-After] is truthful to the second. When a request is rejected
    with [s] seconds, whatever the requests of other clients and its own
    retries, the client gets nothing through before the [s] seconds are
    over; and a client that stays away for one second more is let through
    at its next request, whatever the other clients did meanwhile. *)
Theorem retry_after_is_truthful (config : RateLimitConfig) (headers : HeaderMap)
    (addr : option SocketAddr) (now s : Z) (entries entries' : RateLimiter)
    (rs : list request) (r : request) :
  let k := extract_key header_str config headers addr in
  rl_enabled config = true → 1 ≤ rl_max_requests config → 0 ≤ rl_window_seconds config →
  2 * rl_window_seconds config ≤ u64_max →
  entry_ok now (Z.of_nat (length rs) + 2) (entries !! k) →
  check_rate_limit header_str config headers addr now entries =
    (entries', Returns (Err (RateLimited (Some s)))) →
  in_order now rs → Z.of_nat (length rs) ≤ u64_max →
  of_client_within header_str config k now (now + duration_from_secs s)
    (admitted header_str config entries' rs) = 0%nat ∧
  (Forall (λ r', request_key header_str config r' ≠ k) rs →
   request_key header_str config r = k → now + duration_from_secs (s + 1) ≤ rq_now r →
   ∃ l, admitted header_str config entries' (rs ++ [r]) = l ++ [r]).
Proof.
  intros k Hen Hm Hw Hw2 He Hc Ho Hlen.
  assert (Hwin : 0 ≤ window_of config) by (unfold duration_from_secs, nanos; lia).
  assert (Hentry : ∃ e, entries' !! k = Some e ∧ rl_max_requests config < re_count e ∧
    re_count e + Z.of_nat (length rs) ≤ u64_max ∧ re_window_start e ≤ now ∧
    s = Z.max 0 (window_of config - (now - re_window_start e)) / nanos).
  { pose proof (check_counts config headers addr now entries Hen Hw Hw2) as H. cbv zeta in H.
    rewrite Hc in H. destruct H as (e&Hsame&Hl&Hv).
    destruct (rl_max_requests config <? _) eqn:Hgt; [|done]. apply Z.ltb_lt in Hgt.
    injection Hv as Hs. exists (count_request (window_of config) now e).
    assert (Hok : entry_ok now (Z.of_nat (length rs) + 1 + 1) e).
    { destruct Hsame as [->|[-> _]]; [|done]. unfold k in He.
      destruct (entries !! _); cbn [entry_ok] in *; lia. }
    assert (Hroom : 0 ≤ Z.of_nat (length rs) + 1 ≤ u64_max - 1 ∨ e = None).
    { destruct e; [left; cbn [entry_ok] in Hok; lia|by right]. }
    destruct Hroom as [Hroom| ->].
    - destruct (budget_count (rl_max_requests config) (window_of config) now now
        (Z.of_nat (length rs) + 1) e) as [(?&?&?) _]; [lia|done|done|done| |].
      { destruct (decide (window_of config = 0)) as [Hz|]; [|lia]. exfalso.
        rewrite count_fresh in Hgt; [cbn in Hgt; lia|lia|].
        intros e0 ->. cbn [entry_ok] in Hok. lia. }
      split_and!; [done|done|lia|done|].
      rewrite <-(Z.max_r 0 (now - re_window_start (count_request (window_of config) now e))) by lia.
      exact Hs.
    - rewrite count_fresh in Hgt; [cbn in Hgt; lia|done|done]. }
  destruct Hentry as (e&He'&Hover&Hroom&Hstart&Hs).
  pose proof (Z.div_mod (Z.max 0 (window_of config - (now - re_window_start e))) nanos
    ltac:(done)) as Hdiv. rewrite <-Hs in Hdiv.
  pose proof (Z.mod_pos_bound (Z.max 0 (window_of config - (now - re_window_start e))) nanos
    ltac:(done)) as Hmod. split.
  - pose proof (run_within_budget config k (re_window_start e) now entries' rs
      ltac:(lia) Hw Hen Ho) as H. rewrite He' in H.
    specialize (H ltac:(cbn [entry_ok]; lia) Hlen). cbn [budget] in H.
    rewrite Z.leb_refl, Z.max_l in H by lia.
    enough (of_client_within header_str config k now (now + duration_from_secs s)
      (admitted header_str config entries' rs) ≤
      of_client_within header_str config k (re_window_start e)
        (re_window_start e + window_of config) (admitted header_str config entries' rs))%nat by lia.
    apply within_le. unfold duration_from_secs in *. lia.
  - intros Hothers Hk Hr.
    destruct (admitted_others config k e entries' rs r Hw) as (l&entries1&->&He1);
      [intros e0; rewrite He'; congruence|done|].
    exists l. f_equal. cbn [admitted].
    pose proof (check_fresh config (rq_headers r) (rq_addr r) (rq_now r) entries1
      Hen Hw Hw2 Hm) as H. unfold request_key in Hk. rewrite Hk in H.
    specialize (H ltac:(intros e0 ->%He1; unfold duration_from_secs in *; lia)).
    destruct (check_rate_limit header_str config (rq_headers r) (rq_addr r) (rq_now r) entries1)
      as [es o]. destruct H as [_ ->]. done.
Qed.

(** An endpoint's own limit does not hold by itself, because the counter
    of a client is shared by every endpoint and restarted by whichever
    endpoint has the shortest window. When a client has used up endpoint A's
    limit, one request to an endpoint B with a shorter window restarts the
    count, and the client's next request to A is let through although A's
    window has not ended. *)
Theorem shorter_window_resets_count (endpoint_a endpoint_b : EndpointConfig)
    (a b global : RateLimitConfig) (headers : HeaderMap) (addr : option SocketAddr)
    (now : Z) (entries : RateLimiter) (e : RateLimitEntry) :
  ep_rate_limit endpoint_a = Some a → ep_rate_limit endpoint_b = Some b →
  rl_enabled a = true → rl_enabled b = true →
  2 ≤ rl_max_requests a → 1 ≤ rl_max_requests b →
  0 ≤ rl_window_seconds b → 0 ≤ rl_window_seconds a →
  2 * rl_window_seconds a ≤ u64_max → 2 * rl_window_seconds b ≤ u64_max →
  extract_key header_str b headers addr = extract_key header_str a headers addr →
  entries !! extract_key header_str a headers addr = Some e →
  rl_max_requests a ≤ re_count e < u64_max →
  re_window_start e + window_of b ≤ now < re_window_start e + window_of a →
  re_window_start e ≤ now →
  let check ep := rate_limit_middleware header_str (Some ep) global headers addr now in
  (check endpoint_a entries).2 = Returns (Err (RateLimited (Some
     ((re_window_start e + window_of a - now) / nanos)))) ∧
  (check endpoint_b entries).2 = Returns (Ok tt) ∧
  (check endpoint_a (check endpoint_b entries).1).2 = Returns (Ok tt).
Proof.
  intros Ha Hb Hena Henb Hma Hmb Hwb Hwa Hw2a Hw2b Hk He Hc Hn Hs. cbv zeta.
  unfold rate_limit_middleware. cbn [default from_option mbind option_bind id].
  rewrite Ha, Hb. cbn [default from_option id]. split_and!.
  - pose proof (check_live a headers addr now entries e Hena Hwa Hw2a He ltac:(lia)
      ltac:(unfold u64; lia)) as H.
    destruct (check_rate_limit _ a _ _ _ _) as [es o]. destruct H as [_ ->]. cbn [snd].
    by destruct (Z.ltb_spec (rl_max_requests a) (re_count e + 1)); [|lia].
  - pose proof (check_fresh b headers addr now entries Henb Hwb Hw2b Hmb) as H.
    rewrite Hk, He in H. specialize (H ltac:(intros ? [= <-]; lia)).
    destruct (check_rate_limit _ b _ _ _ _) as [es o]. by destruct H as [_ ->].
  - pose proof (check_fresh b headers addr now entries Henb Hwb Hw2b Hmb) as H.
    rewrite Hk, He in H. specialize (H ltac:(intros ? [= <-]; lia)).
    destruct (check_rate_limit _ b _ _ _ _) as [es o]. destruct H as [He1 _]. cbn [fst].
    pose proof (check_live a headers addr now es _ Hena Hwa Hw2a He1) as H.
    cbn [re_count re_window_start] in H.
    specialize (H ltac:(unfold duration_from_secs, nanos in *; lia) ltac:(done)).
    destruct (check_rate_limit _ a _ _ _ _) as [es' o']. destruct H as [_ ->]. cbn [snd].
    by destruct (Z.ltb_spec (rl_max_requests a) (1 + 1)); [lia|].
Qed.
End spec.

(** ** Witnesses *)

Definition headers_of : list (string * string) → string → option string := λ hs n,
  snd <$> find_first (λ h, String.eqb (fst h) n) hs.

Definition per_minute (max : Z) : RateLimitConfig := {|
  rl_enabled := true; rl_max_requests := max; rl_window_seconds := 60;
  rl_key_strategy := KeyIp; rl_key_header := ""; rl_cleanup_threshold := 0 |}.
Definition per_second (max : Z) : RateLimitConfig := {|
  rl_enabled := true; rl_max_requests := max; rl_window_seconds := 1;
  rl_key_strategy := KeyIp; rl_key_header := ""; rl_cleanup_threshold := 10000 |}.

Definition client (last : Z) : option SocketAddr :=
  Some {| sa_ip := IpV4 10 0 0 last; sa_port := 4242 |}.
Definition client6 : option SocketAddr :=
  Some {| sa_ip := IpV6 [8193; 3512; 0; 0; 1; 0; 0; 255]; sa_port := 4242 |}.

Example client6_key : extract_key headers_of (per_second 1) [] client6 = "2001:db8::1:0:0:ff".
Proof. reflexivity. Qed.

Definition at_seconds (last s : Z) : @request (list (string * string)) :=
  {| rq_now := s * nanos; rq_headers := []; rq_addr := client last |}.

Definition traffic : list (@request (list (string * string))) :=
  [at_seconds 1 0; at_seconds 2 1; at_seconds 1 50; at_seconds 1 59; at_seconds 1 60;
   at_seconds 1 61; at_seconds 1 62].

Lemma at_most_two_windows_witness :
  Z.of_nat (of_client_within headers_of (per_minute 2) "10.0.0.1" (50 * nanos)
    (50 * nanos + duration_from_secs 60) (admitted headers_of (per_minute 2) RateLimiter_new traffic))
  ≤ 3.
Proof.
  refine (at_most_two_windows headers_of (per_minute 2) "10.0.0.1" (50 * nanos) 0 traffic _ _ _ _ _);
    vm_compute; repeat split; discriminate.
Defined.

Lemma window_does_not_slide_witness :
  length (admitted headers_of (per_minute 3) RateLimiter_new
    (request_at [] (client 1) 0 :: replicate 2 (request_at [] (client 1) (60 * nanos - 1))
       ++ replicate 3 (request_at [] (client 1) (60 * nanos)))) = 6%nat.
Proof.
  pose proof (window_does_not_slide headers_of (per_minute 3) [] (client 1) 0) as H.
  cbv zeta in H. etrans; [apply (f_equal length), H|reflexivity];
    vm_compute; repeat split; discriminate.
Defined.

(** The state after one request of client 1 and the rejected second one. *)
Definition after (n : nat) : RateLimiter :=
  Nat.iter n (λ es, (check_rate_limit headers_of (per_minute 1) [] (client 1) nanos es).1) ∅.

Lemma retry_after_is_truthful_witness :
  of_client_within headers_of (per_minute 1) "10.0.0.1" nanos (nanos + duration_from_secs 60)
    (admitted headers_of (per_minute 1) (after 2) [at_seconds 2 30]) = 0%nat ∧
  ∃ l, admitted headers_of (per_minute 1) (after 2) ([at_seconds 2 30] ++ [at_seconds 1 62])
    = l ++ [at_seconds 1 62].
Proof.
  pose proof (retry_after_is_truthful headers_of (per_minute 1) [] (client 1) nanos 60 (after 1)
    (after 2) [at_seconds 2 30] (at_seconds 1 62)) as H. cbv zeta in H.
  do 4 (specialize (H ltac:(vm_compute; first [reflexivity|discriminate]))).
  specialize (H ltac:(vm_compute; repeat split; discriminate)).
  specialize (H ltac:(vm_compute; reflexivity)).
  specialize (H ltac:(vm_compute; repeat split; discriminate)).
  specialize (H ltac:(vm_compute; discriminate)).
  destruct H as [H1 H2].
  split; [exact H1|]. apply H2.
  - repeat constructor. vm_compute. discriminate.
  - reflexivity.
  - vm_compute. discriminate.
Defined.

Definition limited_endpoint (path : string) (config : RateLimitConfig) : EndpointConfig :=
  let e := mk_endpoint path [Get] ActProxy "none" in
  {| ep_path := ep_path e; ep_methods := ep_methods e; ep_action := ep_action e;
     ep_crud := None; ep_proxy := None; ep_static_files := None; ep_spa_host := None;
     ep_media := None; ep_file_store := None; ep_custom_response := None;
     ep_auth := "none"; ep_roles := Flat []; ep_cors := None; ep_rate_limit := Some config |}.

Lemma shorter_window_resets_count_witness :
  let check ep := rate_limit_middleware headers_of (Some ep) default_RateLimitConfig [] (client 1)
    (2 * nanos) in
  let used := {["10.0.0.1" := {| re_count := 5; re_window_start := 0 |}]} in
  (check (limited_endpoint "/login/*" (per_minute 5)) used).2
    = Returns (Err (RateLimited (Some 58))) ∧
  (check (limited_endpoint "/login/*" (per_minute 5))
    (check (limited_endpoint "/ping/*" (per_second 100)) used).1).2 = Returns (Ok tt).
Proof.
  cbv zeta.
  pose proof (shorter_window_resets_count headers_of (limited_endpoint "/login/*" (per_minute 5))
    (limited_endpoint "/ping/*" (per_second 100)) (per_minute 5) (per_second 100)
    default_RateLimitConfig [] (client 1) (2 * nanos)
    {["10.0.0.1" := {| re_count := 5; re_window_start := 0 |}]}
    {| re_count := 5; re_window_start := 0 |}) as H.
  cbv zeta in H.
  do 15 (specialize (H ltac:(vm_compute; repeat split; discriminate))).
  exact (conj (proj1 H) (proj2 (proj2 H))).
Defined.
