(* ===== verification/Directory.v ===== *)
(** * Directory listings

    The HTML page of a directory, src/src/handlers/static_files/directory.rs,
    with the helpers it uses of handlers/common/utils.rs and
    config/types/endpoints/common.rs. The names of users and groups and the
    local time are parameters. *)

From Stdlib Require Import Init.Byte.
From S2P Require Import Prelude RustStr Config Errors Paths Storage Responses.
Local Open Scope stdpp_scope.

(** Text of the source with its double quotes. *)
Definition dquoted (s : string) : string := replace "'" (String (ascii_of_N 34) "") s.

(** Source: config/types/endpoints/common.rs [html_escape] *)
Definition html_escape (s : string) : string :=
  replace (String (ascii_of_N 34) "") "&quot;" (replace ">" "&gt;" (replace "<" "&lt;" (replace "&" "&amp;" s))).

(** ** Sizes

    A size is a binary fraction: a number of 53 bits over a power of 1024. *)

(** The quotient rounded to the nearest number, and to the even one of two. *)
Definition div_half_even (a b : Z) : Z :=
  let q := (a / b)%Z in
  let r := (a mod b)%Z in
  if (2 * r <? b)%Z then q
  else if (b <? 2 * r)%Z then (q + 1)%Z
  else if Z.even q then q else (q + 1)%Z.

(** [bytes as f64] *)
Definition u64_as_f64 (z : Z) : Z :=
  if (z <? 2 ^ 53)%Z then z
  else let ulp := (2 ^ (Z.log2 z - 52))%Z in (div_half_even z ulp * ulp)%Z.

(** [{:.0}] and [{:.1}] of the fraction. *)
Definition show_integer (m d : Z) : string := show_Z (div_half_even m d).
Definition show_tenths (m d : Z) : string :=
  let t := div_half_even (10 * m) d in
  show_Z (t / 10) +:+ "." +:+ show_Z (t mod 10).

(** Source: handlers/common/utils.rs:206-216 [format_size] *)
Fixpoint size_in_units (units : list string) (m d : Z) : string :=
  match units with
  | [] => show_tenths m d +:+ " PiB"
  | unit :: units =>
      if (m <? 1024 * d)%Z then
        if String.eqb unit "B" then show_integer m d +:+ " " +:+ unit else show_tenths m d +:+ " " +:+ unit
      else size_in_units units m (1024 * d)
  end.

(** Source: handlers/common/utils.rs [format_size] *)
Definition format_size (bytes : Z) : string :=
  size_in_units ["B"; "KiB"; "MiB"; "GiB"; "TiB"] (u64_as_f64 bytes) 1.

(** ** Permissions *)

Definition bit_char (bits bit : Z) (c : string) : string := if (Z.land bits bit =? 0)%Z then "-" else c.

(** Source: handlers/static_files/directory.rs [format_permissions] *)
Definition format_permissions (mode : Z) (is_dir : bool) : string :=
  (if is_dir then "d" else "-") +:+
  join "" (map (λ shift,
    let bits := Z.land (Z.shiftr mode shift) 7 in
    bit_char bits 4 "r" +:+ bit_char bits 2 "w" +:+ bit_char bits 1 "x") [6; 3; 0]%Z).

(** ** The page *)

(** Source: handlers/static_files/directory.rs [DirEntryInfo] *)
Record DirEntryInfo := {
  di_name : string;
  di_is_dir : bool;
  di_size : Z;
  di_modified : option Z;
  di_mode : Z;
  di_uid : Z;
  di_gid : Z;
}.

(** Source: handlers/static_files/directory.rs:38-51 [generate_directory_listing] *)
Definition entry_info (entry : DirEntry) : DirEntryInfo := {|
  di_name := de_name entry; di_is_dir := de_is_dir entry; di_size := de_size entry;
  di_modified := de_modified entry; di_mode := de_mode entry; di_uid := de_uid entry;
  di_gid := de_gid entry |}.

(** Directories first, then by name.
    Source: handlers/static_files/directory.rs:52-52 [generate_directory_listing] *)
Definition info_leb (a b : DirEntryInfo) : bool :=
  if Bool.eqb (di_is_dir a) (di_is_dir b) then String.leb (di_name a) (di_name b) else di_is_dir a.

(** [sort_by], which is stable. *)
Fixpoint insert_info (e : DirEntryInfo) (l : list DirEntryInfo) : list DirEntryInfo :=
  match l with
  | [] => [e]
  | x :: l' => if info_leb e x then e :: l else x :: insert_info e l'
  end.
Definition sort_infos (l : list DirEntryInfo) : list DirEntryInfo := foldr insert_info [] l.

Section listing.
(** The password and group databases, and a time in the local zone. *)
Context (user_name group_name : Z → option string) (show_local : Z → string).

(** Source: handlers/static_files/directory.rs [resolve_username] *)
Definition resolve_username (uid : Z) : string := default (show_Z uid) (user_name uid).
(** Source: handlers/static_files/directory.rs [resolve_group] *)
Definition resolve_group (gid : Z) : string := default (show_Z gid) (group_name gid).

(** Source: handlers/common/utils.rs [format_modified] *)
Definition format_modified (time : Z) : string := show_local time.

Definition newline : string := String (ascii_of_N 10) "".

(** Source: handlers/static_files/directory.rs:60-73 [generate_directory_listing] *)
Definition page_head (path_display : string) : string :=
  "<!DOCTYPE html>" +:+ newline +:+ dquoted "<html><head><meta charset='utf-8'><title>Index of " +:+
  path_display +:+ "</title>" +:+
  "<style>" +:+
  "body{font-family:sans-serif;padding:1em}" +:+
  "a{text-decoration:none}a:hover{text-decoration:underline}" +:+
  ".dir{font-weight:bold}" +:+
  "table{border-collapse:collapse;width:100%}" +:+
  "th,td{text-align:left;padding:0.3em 1em;border-bottom:1px solid #ddd}" +:+
  "th{border-bottom:2px solid #999}" +:+
  "td.size,th.size{text-align:right}" +:+
  "tr:hover{background:#f5f5f5}" +:+
  ".perms{font-family:monospace}" +:+
  "</style></head>" +:+ newline +:+ "<body>" +:+ newline +:+ "<h1>Index of " +:+ path_display +:+ "</h1>" +:+ newline.

(** Source: handlers/static_files/directory.rs:75-77 [generate_directory_listing] *)
Definition table_head : string :=
  "<table>" +:+ newline +:+ "<tr>" +:+
  "<th>Permissions</th><th>Owner</th><th>Group</th>" +:+
  dquoted "<th class='size'>Size</th><th>Modified</th><th>Name</th></tr>" +:+ newline.

(** Source: handlers/static_files/directory.rs:79-83 [generate_directory_listing] *)
Definition parent_row (request_path : string) : string :=
  if String.eqb request_path "/" then ""
  else "<tr>" +:+ "<td></td><td></td><td></td>" +:+
       dquoted "<td></td><td></td><td><a href='../'>..</a></td></tr>" +:+ newline.

(** Source: handlers/static_files/directory.rs:85-89 [generate_directory_listing] *)
Definition link_base (request_path : string) : string :=
  if ends_with_char "/" request_path then request_path else request_path +:+ "/".

(** Source: handlers/static_files/directory.rs:91-118 [generate_directory_listing] *)
Definition item_row (base : string) (item : DirEntryInfo) : string :=
  let escaped_name := html_escape (di_name item) in
  let link :=
    if di_is_dir item then
      dquoted "<a class='dir' href='" +:+ base +:+ escaped_name +:+ dquoted "/'>" +:+ escaped_name +:+ "/</a>"
    else dquoted "<a href='" +:+ base +:+ escaped_name +:+ dquoted "'>" +:+ escaped_name +:+ "</a>" in
  let perms := format_permissions (di_mode item) (di_is_dir item) in
  let owner := resolve_username (di_uid item) in
  let group := resolve_group (di_gid item) in
  let size_str := if di_is_dir item then "-" else format_size (di_size item) in
  let modified_str := match di_modified item with Some t => format_modified t | None => "-" end in
  "<tr>" +:+
  dquoted "<td class='perms'>" +:+ perms +:+ "</td><td>" +:+ owner +:+ "</td><td>" +:+ group +:+ "</td>" +:+
  dquoted "<td class='size'>" +:+ size_str +:+ "</td><td>" +:+ modified_str +:+ "</td><td>" +:+ link +:+
  "</td></tr>" +:+ newline.

Definition page (request_path decoded_path : string) (items : list DirEntryInfo) : string :=
  page_head (html_escape decoded_path) +:+ table_head +:+ parent_row request_path +:+
  join "" (map (item_row (link_base request_path)) items) +:+
  "</table>" +:+ newline +:+ "</body></html>" +:+ newline.

Context {St : Type} `{!Storage St}.
Context (header_value_ok : string → bool) (percent_decode : string → option string).
Context (show_storage : StorageError → string).

(** Source: handlers/static_files/directory.rs [generate_directory_listing] *)
Definition generate_directory_listing (st : St) (dir request_path : string) : result AppError http_response :=
  entries ← map_err (λ e, Internal ("Failed to read directory: " +:+ show_storage e)) (st_list dir st);
  let items := sort_infos (map entry_info entries) in
  decoded_path ← ok_or (BadRequest "Invalid UTF-8 in path") (percent_decode request_path);
  Ok (apply_content_type header_value_ok "text/html; charset=utf-8"
        (text_response 200 (page request_path decoded_path items))).
End listing.

Example sizes :
  map format_size [0; 1023; 1024; 1536; 1048575; 1099511627776; 18446744073709551615]%Z
  = ["0 B"; "1023 B"; "1.0 KiB"; "1.5 KiB"; "1024.0 KiB"; "1.0 TiB"; "16384.0 PiB"].
Proof. vm_compute. reflexivity. Qed.
Example permissions : format_permissions 33188 false = "-rw-r--r--" ∧ format_permissions 16877 true = "drwxr-xr-x".
Proof. split; vm_compute; reflexivity. Qed.
