(* ===== verification/DirectorySpec.v ===== *)
(** * Correctness of directory listings

    Names of files cannot add markup to a listing, its entries are in order,
    and the text of permissions determines their bits. *)

From Stdlib Require Import Init.Byte Sorted.
From S2P Require Import Prelude RustStr Config Errors Paths Storage Responses Directory.
Local Open Scope stdpp_scope.

(** ** Escaping *)

Lemma count_ascii_app p s t : count_ascii p (s +:+ t) = count_ascii p s + count_ascii p t.
Proof.
  induction s as [|a s IH]; [done|]. rewrite app_cons. cbn [count_ascii]. rewrite IH. lia.
Qed.

Lemma replace_char a r s :
  replace (String a "") r s
  = match s with
    | "" => ""
    | String b s => (if Ascii.eqb a b then r else String b "") +:+ replace (String a "") r s
    end.
Proof.
  unfold replace. destruct s as [|b s]; [done|]. cbn. unfold starts_with. cbn.
  destruct (Ascii.eqb a b); [|done]. by destruct s.
Qed.

(** The characters that make markup. *)
Definition markup (c : ascii) (s : string) : nat := count_ascii (Ascii.eqb c) s.

Lemma markup_app c s t : markup c (s +:+ t) = markup c s + markup c t.
Proof. apply count_ascii_app. Qed.

(** Replacing a character removes it, and adds none that the replacement has not. *)
Lemma markup_replace c a r s :
  markup c r = 0 → (c ≠ a → markup c s = 0) → markup c (replace (String a "") r s) = 0.
Proof.
  intros Hr. induction s as [|b s IH]; intros Hs; rewrite replace_char; [done|].
  assert (markup c (replace (String a "") r s) = 0) as Hrest.
  { apply IH. intros Hne%Hs. unfold markup in *. cbn in Hne. lia. }
  rewrite markup_app, Hrest. destruct (Ascii.eqb_spec a b) as [->|Hab]; [lia|].
  destruct (decide (c = a)) as [->|Hne].
  - unfold markup. cbn. by destruct (Ascii.eqb_spec a b).
  - apply Hs in Hne. unfold markup in *. cbn in *. lia.
Qed.

Lemma markup_escape c s : c ∈ ["<"%char; ">"%char; ascii_of_N 34] → markup c (html_escape s) = 0.
Proof.
  unfold html_escape. intros Hc.
  repeat (apply elem_of_cons in Hc as [->|Hc]); [| | |by apply not_elem_of_nil in Hc].
  all: apply markup_replace; [done|]; intros H1; try done.
  all: apply markup_replace; [done|]; intros H2; try done.
  all: apply markup_replace; [done|]; intros H3; done.
Qed.

Section listing.
Context (user_name group_name : Z → option string) (show_local : Z → string).
Notation page := (page user_name group_name show_local).
Notation item_row := (item_row user_name group_name show_local).

Definition unnamed (i : DirEntryInfo) : DirEntryInfo := {|
  di_name := ""; di_is_dir := di_is_dir i; di_size := di_size i; di_modified := di_modified i;
  di_mode := di_mode i; di_uid := di_uid i; di_gid := di_gid i |}.

Lemma markup_row c base i :
  c ∈ ["<"%char; ">"%char; ascii_of_N 34] →
  markup c (item_row base i) = markup c (item_row base (unnamed i)).
Proof.
  intros Hc. unfold item_row. cbv zeta. cbn [unnamed di_name di_is_dir di_size di_modified di_mode di_uid di_gid].
  destruct (di_is_dir i); rewrite !markup_app, !markup_escape by done; done.
Qed.

(** C12: names are text, not markup. However the entries of a directory are
    named, and whatever the path of the request decodes to, the listing has
    as many opening and closing angle brackets and double quotes as the same
    listing with all of these names erased: no name opens or ends a tag or
    an attribute. *)
Theorem listing_names_add_no_markup (c : ascii) (request_path decoded_path : string) (items : list DirEntryInfo)
    (Hc : c ∈ ["<"%char; ">"%char; ascii_of_N 34]) :
  markup c (page request_path decoded_path items)
  = markup c (page request_path "" (map unnamed items)).
Proof.
  unfold page, page_head. rewrite !markup_app, !(markup_escape c) by done.
  assert (markup c (join "" (map (item_row (link_base request_path)) items))
    = markup c (join "" (map (item_row (link_base request_path)) (map unnamed items)))) as ->; [|done].
  induction items as [|i items IH]; [done|]. cbn [map].
  by rewrite !join_nil_sep_cons, !markup_app, (markup_row c _ i Hc), IH.
Qed.

(** ** Order *)

Lemma info_leb_total a b : info_leb a b = true ∨ info_leb b a = true.
Proof.
  unfold info_leb. destruct (di_is_dir a), (di_is_dir b); cbn; [|by left|by right|];
    destruct (String.le_total (di_name a) (di_name b)) as [H|H]; unfold String.le in H;
    rewrite Is_true_true in H; auto.
Qed.

Lemma info_leb_trans a b c : info_leb a b = true → info_leb b c = true → info_leb a c = true.
Proof.
  unfold info_leb. destruct (di_is_dir a), (di_is_dir b), (di_is_dir c); cbn; try done;
    intros H1%Is_true_true H2%Is_true_true; apply Is_true_true;
    exact (transitivity (R := String.le) H1 H2).
Qed.

Lemma insert_info_perm e l : insert_info e l ≡ₚ e :: l.
Proof.
  induction l as [|x l IH]; [done|]. cbn. destruct (info_leb e x); [done|].
  rewrite IH. apply Permutation_swap.
Qed.

Definition in_order : list DirEntryInfo → Prop := StronglySorted (λ a b, info_leb a b = true).

Lemma insert_info_sorted e l : in_order l → in_order (insert_info e l).
Proof.
  intros Hl. induction Hl as [|x l Hl IH Hx]; [repeat constructor|]. cbn.
  destruct (info_leb e x) eqn:Hle.
  - constructor; [by constructor|]. constructor; [done|].
    eapply list.Forall_impl; [exact Hx|]. intros y Hy. by eapply info_leb_trans.
  - assert (info_leb x e = true) as Hxe by (destruct (info_leb_total e x); congruence).
    constructor; [done|]. rewrite insert_info_perm. by constructor.
Qed.

Context {St : Type} `{!Storage St}.
Context (header_value_ok : string → bool) (percent_decode : string → option string).
Context (show_storage : StorageError → string).

(** A listing has every entry of the directory once, the directories before
    the files and each by name; it fails exactly when the store cannot list
    the directory or the path of the request is not UTF-8. *)
Theorem listing_has_every_entry (st : St) (dir request_path : string) :
  match generate_directory_listing user_name group_name show_local header_value_ok percent_decode
          show_storage st dir request_path with
  | Ok r => ∃ entries decoded items,
      st_list dir st = Ok entries ∧ percent_decode request_path = Some decoded ∧
      items ≡ₚ map entry_info entries ∧ in_order items ∧
      hr_status r = 200%Z ∧ hr_body r = String.list_byte_of_string (page request_path decoded items)
  | Err e => is_err (st_list dir st) = true ∨ percent_decode request_path = None
  end.
Proof.
  unfold generate_directory_listing. destruct (st_list dir st) as [entries|e]; cbn; [|by left].
  destruct (percent_decode request_path) as [decoded|]; cbn; [|by right].
  exists entries, decoded, (sort_infos (map entry_info entries)). split_and!; try done.
  - unfold sort_infos. induction (map entry_info entries) as [|i l IH]; [done|]. cbn.
    by rewrite insert_info_perm, IH.
  - unfold sort_infos. induction (map entry_info entries) as [|i l IH]; [constructor|]. cbn.
    by apply insert_info_sorted.
Qed.
End listing.

(** ** Permissions *)

(** The bit a character stands for. *)
Definition char_bit (c : ascii) : Z := if Ascii.eqb c "-" then 0 else 1.
Definition parse_permissions (s : string) : option (Z * bool) :=
  match s with
  | String d rest =>
      Some (fold_left (λ acc c, 2 * acc + char_bit c)%Z (String.list_ascii_of_string rest) 0%Z, Ascii.eqb d "d")
  | "" => None
  end.

Lemma format_permissions_low mode d : format_permissions mode d = format_permissions (Z.land mode 511) d.
Proof.
  unfold format_permissions. f_equal. f_equal. cbn [map].
  assert (∀ k, (0 ≤ k ≤ 6)%Z → Z.land (Z.shiftr mode k) 7 = Z.land (Z.shiftr (Z.land mode 511) k) 7) as Hk.
  { intros k Hk. apply Z.bits_inj'. intros n Hn. rewrite !Z.land_spec, !Z.shiftr_spec, Z.land_spec by lia.
    destruct (decide (n < 3)%Z).
    - change 511%Z with (Z.ones 9). rewrite (Z.ones_spec_low 9) by lia. by rewrite andb_true_r.
    - change 7%Z with (Z.ones 3). rewrite (Z.ones_spec_high 3) by lia. by rewrite !andb_false_r. }
  by rewrite !Hk by lia.
Qed.

(** The text of the permissions can be read back: it determines the nine bits
    of the mode, and whether it is that of a directory. *)
Theorem permissions_round_trip (mode : Z) (is_dir : bool) :
  parse_permissions (format_permissions mode is_dir) = Some (Z.land mode 511, is_dir).
Proof.
  rewrite format_permissions_low.
  assert (0 ≤ Z.land mode 511 < 512)%Z as Hrange.
  { change 511%Z with (Z.ones 9). rewrite Z.land_ones by lia. apply Z.mod_pos_bound. lia. }
  set (m := Z.land mode 511) in *. clearbody m.
  assert (forallb (λ n, forallb (λ d, bool_decide (parse_permissions (format_permissions (Z.of_nat n) d)
                                                   = Some (Z.of_nat n, d))) [true; false]) (seq 0 512) = true) as Hall
    by (vm_compute; reflexivity).
  rewrite forallb_forall in Hall. specialize (Hall (Z.to_nat m)).
  rewrite Z2Nat.id in Hall by lia. rewrite forallb_forall in Hall.
  apply (bool_decide_eq_true (parse_permissions (format_permissions m is_dir) = Some (m, is_dir))), Hall.
  - apply in_seq. lia.
  - destruct is_dir; cbn; auto.
Qed.

(** ** Witnesses *)

Lemma listing_names_add_no_markup_witness :
  let i := {| di_name := "<script>alert(1)</script>"; di_is_dir := false; di_size := 5; di_modified := None;
              di_mode := 33188; di_uid := 0; di_gid := 0 |} in
  markup "<" (page (λ _, None) (λ _, None) show_Z "/files/" "/<b>/" [i])
  = markup "<" (page (λ _, None) (λ _, None) show_Z "/files/" "" [unnamed i]).
Proof.
  cbv zeta. apply (listing_names_add_no_markup (λ _, None) (λ _, None) show_Z "<"%char "/files/" "/<b>/"
    [{| di_name := "<script>alert(1)</script>"; di_is_dir := false; di_size := 5; di_modified := None;
        di_mode := 33188; di_uid := 0; di_gid := 0 |}]).
  left.
Defined.
