(* ===== verification/Serving.v ===== *)
(** * Static files

    Serving, range requests, deletion and upload storage of
    src/src/handlers/static_files/, against the [Storage] interface. The
    arithmetic is the release profile's: it wraps; a slice out of range is a
    panic, which is an outcome of its own. *)

From Stdlib Require Import Init.Byte.
From S2P Require Import Prelude RustStr Json Config Errors Paths Storage Responses Images.
Local Open Scope stdpp_scope.

Definition dquote_text : string := String (ascii_of_N 34) "".

Section serving.
(** [HeaderValue::from_str] accepts this text. *)
Context (header_value_ok : string → bool).
Notation apply_content_type := (apply_content_type header_value_ok).
Notation apply_content_range := (apply_content_range header_value_ok).
Notation apply_content_length := (apply_content_length header_value_ok).
Notation apply_cache_control := (apply_cache_control header_value_ok).

(** [(StatusCode::NO_CONTENT, Json(...))] of a deletion. *)
Definition deleted_response : http_response := {|
  hr_status := 204; hr_headers := {["content-type" := "application/json"]};
  hr_body := String.list_byte_of_string
    (replace "'" dquote_text "{'message':'File deleted successfully','success':true}") |}.

Definition not_satisfiable (start end_ file_size : Z) : AppError :=
  RequestedRangeNotSatisfiable
    ("Range bytes=" +:+ show_Z start +:+ "-" +:+ show_Z end_ +:+
     " is not satisfiable for file size " +:+ show_Z file_size)
    (Some ("bytes */" +:+ show_Z file_size)).

(** [&content[a..b]]: panics unless [a <= b <= len]. *)
Definition slice (content : bytes) (a b : Z) : option bytes :=
  if ((a <=? b) && (b <=? Z.of_nat (length content)))%Z
  then Some (take (Z.to_nat (b - a)) (drop (Z.to_nat a) content)) else None.

(** Source: handlers/static_files/serving.rs [handle_range_small_file] *)
Definition handle_range_small_file (content : bytes) (file_size : Z)
    (range_str content_type : string) (cache_max_age : Z) (path : string)
    (cache_rules : list CacheRuleConfig) : outcome http_response :=
  match strip_prefix "bytes=" range_str with
  | None => Returns (Err (BadRequest "Invalid Range header format"))
  | Some bytes_range =>
      match split_once "-" bytes_range with
      | None => Returns (Err (BadRequest "Invalid Range header format"))
      | Some (s, e) =>
          match parse_u64 s with
          | None => Returns (Err (BadRequest "Invalid Range header: invalid start"))
          | Some start =>
              match (if is_empty e then Some (u64_wrap (file_size - 1)) else parse_u64 e) with
              | None => Returns (Err (BadRequest "Invalid Range header: invalid end"))
              | Some end_ =>
                  if (file_size <=? start)%Z then
                    Returns (Err (not_satisfiable start end_ file_size))
                  else
                    let actual_end := Z.min end_ (u64_wrap (file_size - 1)) in
                    let range_size := u64_wrap (actual_end - start + 1) in
                    match slice content start (u64_wrap (actual_end + 1)) with
                    | None => Panics
                    | Some body =>
                        Returns (Ok
                          (apply_cache_control cache_max_age (Some path) cache_rules
                          (apply_content_range ("bytes " +:+ show_Z start +:+ "-" +:+
                             show_Z actual_end +:+ "/" +:+ show_Z file_size)
                          (apply_content_length (show_Z range_size)
                          (apply_content_type content_type (bytes_response 206 body))))))
                    end
              end
          end
      end
  end.

Section with_storage.
Context {St : Type} `{!Storage St}.
Context {Image : Type} `{!ImageCrate Image}.

Definition not_found (path : string) : AppError := NotFound ("File not found: " +:+ path).

(** Source: handlers/static_files/serving.rs [handle_range_streaming] *)
Definition handle_range_streaming (st : St) (path range_str : string) (file_size : Z)
    (content_type : string) (config : StaticFilesConfig) : result AppError http_response :=
  range_value ← ok_or (BadRequest "Invalid Range header") (strip_prefix "bytes=" range_str);
  '(start_str, end_str) ← ok_or (BadRequest "Invalid Range format") (split_once "-" range_value);
  start ← ok_or (BadRequest "Invalid Range start") (parse_u64 start_str);
  let last := u64_sub_sat file_size 1 in
  let end_opt := if is_empty end_str then Some last else parse_u64 end_str in
  let end_ := Z.min (default last end_opt) last in
  if ((file_size <=? start) || (end_ <? start))%Z then Err (not_satisfiable start end_ file_size)
  else
    let content_length := u64_sub_sat (u64_add_sat end_ 1) start in
    reader ← map_err (λ _, not_found path) (st_seek_read path start st);
    Ok (apply_cache_control (sf_cache_max_age config) (Some path) (sf_cache_rules config)
       (insert_header "accept-ranges" "bytes"
       (apply_content_length (show_Z content_length)
       (apply_content_range ("bytes " +:+ show_Z start +:+ "-" +:+ show_Z end_ +:+ "/" +:+
                             show_Z file_size)
       (apply_content_type content_type
          (stream_response 206 (take (Z.to_nat content_length) reader))))))).

(** Source: handlers/static_files/serving.rs [handle_streaming] *)
Definition handle_streaming (st : St) (path content_type : string) (cache_max_age file_size : Z)
    (cache_rules : list CacheRuleConfig) : result AppError http_response :=
  reader ← map_err (λ _, not_found path) (st_seek_read path 0 st);
  Ok (apply_cache_control cache_max_age (Some path) cache_rules
     (apply_content_type content_type
     (apply_content_length (show_Z file_size) (stream_response 200 reader)))).

(** The HTML listing of a directory (directory.rs). *)
Context (directory_listing : St → string → string → result AppError http_response).

Definition returns_or {A B} (r : result AppError A) (k : A → outcome B) : outcome B :=
  match r with Ok a => k a | Err e => Returns (Err e) end.

(** [k] of what a computation returns, if it does. *)
Definition outcome_or {A B} (o : outcome A) (k : A → outcome B) : outcome B :=
  match o with Returns (Ok a) => k a | Returns (Err e) => Returns (Err e) | Panics => Panics end.

Definition no_resize : ResizeParams :=
  {| rp_width := None; rp_height := None; rp_fit := None; rp_output_format := None |}.

(** [None] when no resize is asked for.
    Source: handlers/static_files/serving.rs [handle_image_resize] *)
Definition handle_image_resize (st : St) (path : string) (query_params : option (gmap string string))
    (config : ImageResizeConfig) : outcome (option http_response) :=
  let params := match query_params with Some qp => parse_resize_params (Image := Image) qp | None => no_resize end in
  match rp_width params, rp_height params, rp_output_format params with
  | None, None, None => Returns (Ok None)
  | _, _, _ =>
      returns_or (map_err (λ _, not_found path) (st_read path st)) (λ image_data,
      returns_or (ok_or (BadRequest "Invalid image format") (guess_format (Image := Image) image_data)) (λ format,
      outcome_or (resize_image (Image := Image) image_data params format (Z.min u32_max (ir_max_dimension config)))
        (λ '(resized_bytes, content_type),
           Returns (Ok (Some (build_resize_response header_value_ok resized_bytes content_type None))))))
  end.

(** The resized image, if resizing is configured and asked for. *)
Definition try_resize (st : St) (path : string) (config : StaticFilesConfig)
    (query_params : option (gmap string string)) : outcome (option http_response) :=
  match sf_image_resize config with
  | Some image_config =>
      if ir_enabled image_config && is_image_extension (default "" (extension path))
      then handle_image_resize st path query_params image_config
      else Returns (Ok None)
  | None => Returns (Ok None)
  end.

(** The whole file, read into memory. *)
Definition serve_whole (st : St) (path content_type : string) (config : StaticFilesConfig)
    : outcome http_response :=
  returns_or (map_err (λ _, not_found path) (st_read path st)) (λ content,
  Returns (Ok (apply_content_length (show_nat (length content))
    (apply_cache_control (sf_cache_max_age config) (Some path) (sf_cache_rules config)
    (apply_content_type content_type (bytes_response 200 content)))))).

(** [range] is the Range header, if present and visible ASCII.
    Source: handlers/static_files/serving.rs [serve_file] *)
Definition serve_file (st : St) (path : string) (config : StaticFilesConfig)
    (query_params : option (gmap string string)) (range : option string) : outcome http_response :=
  returns_or (map_err (λ _, not_found path) (st_metadata path st)) (λ meta,
  let file_size := fm_size meta in
  let content_type := mime_from_path path in
  outcome_or (try_resize st path config query_params) (λ resized,
  match resized with
  | Some r => Returns (Ok r)
  | None =>
      match (if sf_range_requests config then range else None) with
      | Some range_str =>
          let streaming_threshold :=
            match sf_streaming config with
            | Some s => if str_enabled s then str_threshold s else u64_max
            | None => u64_max
            end in
          if (streaming_threshold <? file_size)%Z && bool_decide (is_Some (sf_streaming config)) then
            Returns (handle_range_streaming st path range_str file_size content_type config)
          else
            returns_or (map_err (λ _, not_found path) (st_read path st)) (λ content,
            handle_range_small_file content file_size range_str content_type
              (sf_cache_max_age config) path (sf_cache_rules config))
      | None =>
          match sf_streaming config with
          | Some s =>
              if str_enabled s && (str_threshold s <? file_size)%Z then
                Returns (handle_streaming st path content_type (sf_cache_max_age config) file_size
                           (sf_cache_rules config))
              else serve_whole st path content_type config
          | None => serve_whole st path content_type config
          end
      end
  end)).

(** Source: handlers/static_files/serving.rs [handle_static_get] *)
Definition handle_static_get (st : St) (config : StaticFilesConfig) (relative root request_path : string)
    (query : option (gmap string string)) (range : option string) : outcome http_response :=
  let r := path_join root relative in
  let traversal :=
    match st_canonicalize r st, st_canonicalize root st with
    | Ok canonical, Ok root_canonical => negb (path_starts_with canonical root_canonical)
    | _, _ => false
    end in
  if negb (is_empty relative) && traversal then Returns (Err (Forbidden "Path traversal denied"))
  else
    let resolved := if is_empty relative then root else r in
    match ok (st_metadata resolved st) with
    | Some m =>
        if fm_is_file m then serve_file st resolved config query range
        else
          let index_path := path_join resolved (sf_index config) in
          if match st_metadata index_path st with Ok m' => fm_is_file m' | Err _ => false end
          then serve_file st index_path config None range
          else if sf_directory_listing config then Returns (directory_listing st resolved request_path)
          else Returns (Err (not_found request_path))
    | None => Returns (Err (not_found request_path))
    end.

(** Source: handlers/static_files/delete.rs [handle_file_delete] *)
Definition handle_file_delete (lowercase : string → string) (show_storage : StorageError → string)
    (st : St) (endpoint : EndpointConfig) (config : StaticFilesConfig) (relative root : string)
    : result AppError http_response * St :=
  let disabled := Err (MethodNotAllowed "File management is not enabled" (ep_methods endpoint)) in
  match sf_upload config with
  | None => (disabled, st)
  | Some upload_config =>
      if negb (up_enabled upload_config) then (disabled, st)
      else
        match sanitize_filename lowercase "" relative false with
        | Err e => (Err e, st)
        | Ok sanitized_filename =>
            let delete_path := path_join root sanitized_filename in
            if negb (st_exists delete_path st) then (Err (NotFound "File not found"), st)
            else
              match st_delete delete_path st with
              | (Ok _, st') => (Ok deleted_response, st')
              | (Err e, st') =>
                  (Err (FileOperation ("Failed to delete file: " +:+ show_storage e)), st')
              end
        end
  end.

(** [storage_path] is where the file goes.
    Source: handlers/static_files/upload.rs [store_file] *)
Definition store_file (show_storage : StorageError → string) (st : St) (storage_path : string)
    (file_content : bytes) : result AppError FileMetadata * St :=
  let '(created, st1) :=
    match path_parent storage_path with
    | Some parent => st_create_dir_all parent st
    | None => (Ok (), st)
    end in
  match created with
  | Err e => (Err (FileOperation ("Failed to create directory: " +:+ show_storage e)), st1)
  | Ok _ =>
      let '(written, st2) := st_write storage_path file_content st1 in
      match written with
      | Err e => (Err (FileOperation ("Failed to write file: " +:+ show_storage e)), st2)
      | Ok _ =>
          (map_err (λ e, FileOperation ("Failed to read file metadata: " +:+ show_storage e))
             (st_metadata storage_path st2), st2)
      end
  end.
End with_storage.
End serving.
