(* ===== verification/ServingSpec.v ===== *)
(** * Correctness of file serving

    Range requests deliver the requested bytes and both implementations of
    them agree; streaming is invisible to the client; an upload is readable
    under its path and a deleted file is gone. All of it for any store that
    keeps the interface's laws, such as the in-memory one and S3. *)

From Stdlib Require Import Init.Byte.
From S2P Require Import Prelude RustStr Json Config Errors Paths Storage Responses Images MemoryStorage S3 S3Spec Serving.
Local Open Scope stdpp_scope.

Section laws.
Context {St : Type} `{!Storage St} `{!StorageLaws St}.
Context (hv : string → bool).

Definition range_response (hv : string → bool) (config : StaticFilesConfig) (path content_type : string) (c : bytes)
    (start end_ : Z) (base : http_response) : http_response :=
  apply_cache_control hv (sf_cache_max_age config) (Some path) (sf_cache_rules config)
    (apply_content_range hv ("bytes " +:+ show_Z start +:+ "-" +:+ show_Z end_ +:+ "/" +:+
                             show_nat (length c))
    (apply_content_length hv (show_Z (end_ - start + 1)) (apply_content_type hv content_type base))).

(** The inclusive byte range. *)
Definition byte_range (c : bytes) (start end_ : Z) : bytes :=
  take (Z.to_nat (end_ - start + 1)) (drop (Z.to_nat start) c).

Lemma show_Z_nat n : show_Z (Z.of_nat n) = show_nat n.
Proof. unfold show_Z, show_nat, pretty, pretty_Z. by destruct n. Qed.

Lemma byte_range_length c start end_ :
  (0 ≤ start ≤ end_)%Z → (end_ < Z.of_nat (length c))%Z →
  Z.of_nat (length (byte_range c start end_)) = (end_ - start + 1)%Z.
Proof. intros. unfold byte_range. rewrite length_take, length_drop. lia. Qed.

(** The bounds of a range header that names a part of the file. *)
Definition range_bounds (c : bytes) (range_str : string) (start end_ : Z) : Prop :=
  ∃ s e, range_str = "bytes=" +:+ s +:+ "-" +:+ e ∧ contains_char "-" s = false ∧
    parse_u64 s = Some start ∧
    let last := (Z.of_nat (length c) - 1)%Z in
    ((e = "" ∧ end_ = last) ∨ (∃ n, e ≠ "" ∧ parse_u64 e = Some n ∧ end_ = Z.min n last)) ∧
    (0 ≤ start ≤ end_)%Z ∧ (start < Z.of_nat (length c) ≤ u64_max)%Z.

Lemma parse_u64_range s n : parse_u64 s = Some n → (n ≤ u64_max)%Z.
Proof.
  unfold parse_u64. set (b := match s with String "+" s' => s' | _ => s end).
  destruct (parse_digits b) as [z|]; [|done]. destruct (Z.leb_spec z u64_max); [|done].
  by intros [= <-].
Qed.

(** C15: a satisfiable byte range. For a file of the store and a Range header
    [bytes=start-end] (or with an open end) that begins inside the file and
    is not reversed, the in-memory handler and the streaming handler both
    answer 206 with exactly the bytes from [start] to the end of the range
    inclusive, the range cut at the end of the file; Content-Range and
    Content-Length describe these bytes. *)
Theorem range_requests_agree (st : St) (path range_str content_type : string) (c : bytes)
    (config : StaticFilesConfig) (start end_ : Z)
    (Hread : content path st = Some c)
    (Hrange : range_bounds c range_str start end_) :
  let size := Z.of_nat (length c) in
  let body := byte_range c start end_ in
  Z.of_nat (length body) = (end_ - start + 1)%Z ∧
  handle_range_small_file hv c size range_str content_type (sf_cache_max_age config) path
    (sf_cache_rules config)
  = Returns (Ok (range_response hv config path content_type c start end_ (bytes_response 206 body))) ∧
  ∃ r, handle_range_streaming hv st path range_str size content_type config = Ok r ∧
    hr_status r = 206%Z ∧ hr_body r = body ∧
    ∀ h, h ≠ "accept-ranges" →
      hr_headers r !! h
      = hr_headers (range_response hv config path content_type c start end_ (bytes_response 206 body)) !! h.
Proof.
  destruct Hrange as (s&e&->&Hdash&Hs&He&Hle&Hlt). cbv zeta in *.
  set (n := Z.of_nat (length c)) in *.
  assert (end_ < n)%Z as Hend by (destruct He as [[_ ->]|(m&_&_&->)]; lia).
  split; [apply byte_range_length; lia|].
  assert (u64_wrap (n - 1) = n - 1)%Z as Hwrap by (apply u64_wrap_small; unfold u64; lia).
  assert (split_once "-" (s +:+ "-" +:+ e) = Some (s, e)) as Hsplit by (by apply split_once_Some).
  assert (∃ m, (if is_empty e then Some (n - 1)%Z else parse_u64 e) = Some m ∧ Z.min m (n - 1) = end_)
    as (m&Hm&Hmin).
  { destruct He as [[-> ->]|(m&Hne&Hm&->)]; [by exists (n - 1)%Z; split; [done|lia]|].
    exists m. by destruct e. }
  split.
  - unfold handle_range_small_file. rewrite strip_prefix_app, Hsplit, Hs, Hwrap, Hm.
    destruct (Z.leb_spec n start); [lia|]. rewrite Hmin. unfold range_response, slice.
    rewrite !u64_wrap_small by (unfold u64; lia).
    destruct (Z.leb_spec start (end_ + 1)); [|lia]. fold n.
    destruct (Z.leb_spec (end_ + 1) n); [|lia]. cbn [andb].
    replace (end_ + 1 - start)%Z with (end_ - start + 1)%Z by lia.
    rewrite <-show_Z_nat. done.
  - unfold handle_range_streaming. rewrite strip_prefix_app. cbn [ok_or mbind result_bind].
    rewrite Hsplit. cbn [ok_or mbind result_bind]. rewrite Hs. cbn [ok_or mbind result_bind].
    assert (u64_sub_sat n 1 = n - 1)%Z as -> by (unfold u64_sub_sat; lia).
    rewrite Hm. cbn [default from_option id]. rewrite Hmin.
    destruct (Z.leb_spec n start); [lia|]. destruct (Z.ltb_spec end_ start); [lia|]. cbn [orb].
    rewrite (seek_read_drop path c start st) by (done || lia). cbn [map_err mbind result_bind].
    assert (u64_sub_sat (u64_add_sat end_ 1) start = end_ - start + 1)%Z as ->
      by (unfold u64_sub_sat, u64_add_sat; lia).
    eexists. split; [done|]. split; [done|]. split; [done|]. intros h Hh.
    unfold range_response, apply_cache_control, apply_content_range, apply_content_length,
      apply_content_type, insert_header. cbn [hr_headers bytes_response stream_response].
    rewrite <-show_Z_nat. fold n. rewrite !lookup_insert. repeat case_decide; subst; try done.
    by rewrite lookup_singleton_ne, lookup_empty.
Qed.

(** A reversed range crashes the in-memory handler. When the range begins
    inside the file but ends more than one byte before it begins, the handler
    slices [content[start..end + 1]] with the bounds reversed and panics; the
    streaming handler rejects the same header with 416. *)
Theorem reversed_range_panics (st : St) (path s e content_type : string) (c : bytes)
    (config : StaticFilesConfig) (start n : Z)
    (Hread : content path st = Some c)
    (Hdash : contains_char "-" s = false)
    (Hstart : parse_u64 s = Some start) (Hend : e ≠ "" ∧ parse_u64 e = Some n)
    (Hrev : (0 ≤ n ∧ n + 1 < start)%Z)
    (Hinside : (start < Z.of_nat (length c) ≤ u64_max)%Z) :
  let size := Z.of_nat (length c) in
  let header := "bytes=" +:+ s +:+ "-" +:+ e in
  handle_range_small_file hv c size header content_type (sf_cache_max_age config) path
    (sf_cache_rules config) = Panics ∧
  handle_range_streaming hv st path header size content_type config
  = Err (not_satisfiable start n size).
Proof.
  cbv zeta. set (m := Z.of_nat (length c)) in *. destruct Hend as [Hne Hn].
  assert (u64_wrap (m - 1) = m - 1)%Z as Hwrap by (apply u64_wrap_small; unfold u64; lia).
  assert (split_once "-" (s +:+ "-" +:+ e) = Some (s, e)) as Hsplit by (by apply split_once_Some).
  assert (is_empty e = false) as He by (by destruct e).
  split.
  - unfold handle_range_small_file. rewrite strip_prefix_app, Hsplit, Hstart, He, Hn, Hwrap.
    destruct (Z.leb_spec m start); [lia|]. rewrite Z.min_l by lia. unfold slice.
    rewrite !u64_wrap_small by (unfold u64; lia).
    destruct (Z.leb_spec start (n + 1)); [lia|done].
  - unfold handle_range_streaming. rewrite strip_prefix_app. cbn [ok_or mbind result_bind].
    rewrite Hsplit. cbn [ok_or mbind result_bind]. rewrite Hstart. cbn [ok_or mbind result_bind].
    assert (u64_sub_sat m 1 = m - 1)%Z as -> by (unfold u64_sub_sat; lia).
    rewrite He, Hn. cbn [default from_option id]. rewrite Z.min_l by lia.
    destruct (Z.ltb_spec n start); [|lia]. by rewrite orb_true_r.
Qed.

(** ** Streaming *)

Definition without_streaming (config : StaticFilesConfig) : StaticFilesConfig := {|
  sf_storage := sf_storage config; sf_index := sf_index config;
  sf_directory_listing := sf_directory_listing config;
  sf_cache_max_age := sf_cache_max_age config; sf_etag := sf_etag config;
  sf_range_requests := sf_range_requests config; sf_head_support := sf_head_support config;
  sf_cache_rules := sf_cache_rules config; sf_upload := sf_upload config;
  sf_image_resize := sf_image_resize config; sf_streaming := None |}.

Lemma streaming_is_whole (st : St) path ct config c :
  0 < length c → content path st = Some c →
  Returns (handle_streaming hv st path ct (sf_cache_max_age config) (Z.of_nat (length c))
             (sf_cache_rules config))
  = serve_whole hv st path ct config.
Proof.
  intros Hc Hr. unfold handle_streaming, serve_whole.
  rewrite (seek_read_drop path c 0 st) by (done || lia). apply content_Some in Hr. rewrite Hr.
  cbn [map_err mbind result_bind returns_or]. rewrite show_Z_nat. do 2 f_equal.
Qed.

(** Streaming is invisible. Serving a file without a Range header gives
    the same response - status, headers and body - whatever the streaming
    configuration: the streamed file is the file read into memory. *)
Theorem streaming_is_transparent {Image : Type} `{!ImageCrate Image}
    (st : St) (path : string) (config : StaticFilesConfig) (q : option (gmap string string))
    (c : bytes) (Hread : content path st = Some c) (Hlen : u64 (Z.of_nat (length c)))
    (Hthreshold : ∀ s, sf_streaming config = Some s → u64 (str_threshold s)) :
  serve_file (Image := Image) hv st path config q None
  = serve_file (Image := Image) hv st path (without_streaming config) q None.
Proof.
  unfold serve_file. destruct (metadata_of_file path c st Hread) as (m&->&_&Hm).
  cbn [map_err returns_or]. rewrite (Hm Hlen).
  change (try_resize (Image := Image) hv st path (without_streaming config) q)
    with (try_resize (Image := Image) hv st path config q).
  destruct (try_resize hv st path config q) as [[[r|]|]|]; [done| |done|done].
  cbn [outcome_or without_streaming sf_range_requests sf_streaming].
  destruct (sf_range_requests config); (destruct (sf_streaming config) as [s|]; [|done]);
    specialize (Hthreshold s eq_refl) as [Hpos _];
    (destruct (str_enabled s && _) eqn:Hlarge; [|done]);
    apply andb_true_iff in Hlarge as [_ Hlarge%Z.ltb_lt];
    rewrite (streaming_is_whole st path _ config c); (done || lia).
Qed.

(** ** Storing and deleting *)

(** An upload is readable. When [store_file] succeeds, the file's contents
    are the uploaded bytes, the metadata it returns is that of a file of
    their length, and every file at another path is as before. *)
Theorem store_file_spec (show_storage : StorageError → string) (st st' : St) (path : string)
    (content : bytes) (m : FileMetadata)
    (Hstore : store_file show_storage st path content = (Ok m, st')) :
  Storage.content path st' = Some content ∧ fm_is_file m = true ∧ (u64 (Z.of_nat (length content)) → fm_size m = Z.of_nat (length content)) ∧
  ∀ q, names_file q = true → apart path q → Storage.content q st' = Storage.content q st.
Proof.
  unfold store_file in Hstore.
  destruct (match path_parent path with
            | Some parent => st_create_dir_all parent st
            | None => (Ok (), st) end) as [created st1] eqn:Hc.
  destruct created as [[]|]; [|done].
  destruct (st_write path content st1) as [written st2] eqn:Hw.
  destruct written as [[]|]; [|done]. injection Hstore as Hm <-.
  pose proof (read_after_write _ _ _ _ Hw) as Hr. split; [done|].
  destruct (metadata_of_file _ _ _ Hr) as (m'&Hm'&Hf&Hs).
  rewrite Hm' in Hm. cbn in Hm. injection Hm as <-. split; [done|]. split; [done|].
  intros q Hn Hq. rewrite (write_frame _ q _ _ _ _ Hw) by done.
  destruct (path_parent _); [by eapply create_dir_all_frame|by simplify_eq].
Qed.

(** A delete request removes its file and no other. With uploads enabled
    and a name that sanitizes to an existing file, the answer is 204 and the
    file can no longer be read, or the error of the store that could not
    delete it; every other file is as before. *)
Theorem handle_file_delete_spec (lowercase : string → string) (show_storage : StorageError → string)
    (st : St) (endpoint : EndpointConfig) (config : StaticFilesConfig) (up : UploadConfig)
    (relative root name : string) (c : bytes)
    (Hup : sf_upload config = Some up) (Hon : up_enabled up = true)
    (Hname : sanitize_filename lowercase "" relative false = Ok name)
    (Hfile : content (path_join root name) st = Some c) :
  let '(r, st') := handle_file_delete lowercase show_storage st endpoint config relative root in
  (∀ q, apart (path_join root name) q → content q st' = content q st) ∧
  match r with
  | Ok answer => answer = deleted_response ∧ content (path_join root name) st' = None
  | Err e => ∃ se, e = FileOperation ("Failed to delete file: " +:+ show_storage se)
  end.
Proof.
  unfold handle_file_delete. rewrite Hup, Hon, Hname. cbn [negb].
  rewrite (exists_of_read _ _ _ Hfile). cbn [negb].
  destruct (st_delete _ st) as [r st'] eqn:Hd. destruct (delete_file _ _ _ _ _ Hfile Hd) as [Hgone Hframe].
  destruct r as [[]|e]; eauto.
Qed.
End laws.

(** ** Witnesses on the in-memory store *)

Notation mem := (memory_storage elements map_to_list render_path).
Notation mem_laws := (memory_storage_laws elements map_to_list render_path).

Definition site : MemoryStorage := {|
  mem_data := {[components "/www/a.txt" := [x61; x62; x63; x64; x65]]};
  mem_dirs := {[components "/www"]} |}.

Definition plain_config : StaticFilesConfig := default_StaticFilesConfig.

(** The same file in a bucket. *)
Definition site_bucket : gmap string (gmap string bytes) :=
  {["photos" := {["www/a.txt" := [x61; x62; x63; x64; x65]]}]}.

Lemma range_requests_agree_witness :
  (∃ r, @handle_range_streaming (λ _, true) _ (s3_storage id (λ _, None) photos) site_bucket "/www/a.txt"
          "bytes=1-3" 5 "text/plain" plain_config = Ok r ∧ hr_body r = [x62; x63; x64]) ∧
  handle_range_small_file (λ _, true) [x61; x62; x63; x64; x65] 5 "bytes=1-3" "text/plain" 3600
    "/www/a.txt" []
  = Returns (Ok (range_response (λ _, true) plain_config "/www/a.txt" "text/plain"
      [x61; x62; x63; x64; x65] 1 3 (bytes_response 206 [x62; x63; x64]))).
Proof.
  edestruct (@range_requests_agree _ (s3_storage id (λ _, None) photos) (s3_storage_laws id (λ _, None) photos)
    (λ _, true) site_bucket "/www/a.txt" "bytes=1-3" "text/plain" [x61; x62; x63; x64; x65] plain_config 1 3)
    as (_&Hsmall&r&Hr&_&Hbody&_).
  - vm_compute. reflexivity.
  - exists "1", "3". split; [reflexivity|]. split; [reflexivity|]. split; [reflexivity|]. split.
    + right. exists 3%Z. repeat split. discriminate.
    + vm_compute. repeat split; discriminate.
  - split; [exists r; split; [exact Hr|exact Hbody]|exact Hsmall].
Defined.

Lemma reversed_range_panics_witness :
  handle_range_small_file (λ _, true) [x61; x62; x63; x64; x65] 5 "bytes=4-1" "text/plain" 3600
    "/www/a.txt" [] = Panics.
Proof.
  refine (proj1 (@reversed_range_panics MemoryStorage mem (λ _, true) site "/www/a.txt"
    "4" "1" "text/plain" [x61; x62; x63; x64; x65] plain_config 4 1 _ _ _ _ _ _));
    vm_compute; repeat split; discriminate.
Defined.

Definition streaming_config : StaticFilesConfig := {|
  sf_storage := "www"; sf_index := "index.html"; sf_directory_listing := false;
  sf_cache_max_age := 60; sf_etag := true; sf_range_requests := true; sf_head_support := true;
  sf_cache_rules := []; sf_upload := None; sf_image_resize := None;
  sf_streaming := Some {| str_enabled := true; str_buffer_size := 8192; str_threshold := 2;
                          str_include_content_length := true |} |}.

Lemma streaming_is_transparent_witness :
  @serve_file (λ _, true) MemoryStorage mem (Z * Z) strip_images site "/www/a.txt" streaming_config None None
  = @serve_file (λ _, true) MemoryStorage mem (Z * Z) strip_images site "/www/a.txt"
      (without_streaming streaming_config) None None.
Proof.
  apply (@streaming_is_transparent MemoryStorage mem mem_laws (λ _, true) (Z * Z) strip_images site
    "/www/a.txt" streaming_config None [x61; x62; x63; x64; x65]).
  - vm_compute. reflexivity.
  - split; vm_compute; discriminate.
  - intros s [= <-]. split; vm_compute; discriminate.
Defined.

Lemma store_file_spec_witness :
  @content MemoryStorage mem "/www/new/b.txt"
    (@store_file MemoryStorage mem (λ _, "") site "/www/new/b.txt" [x7a]).2 = Some [x7a].
Proof.
  refine (proj1 (@store_file_spec MemoryStorage mem mem_laws (λ _, "") site
    (@store_file MemoryStorage mem (λ _, "") site "/www/new/b.txt" [x7a]).2 "/www/new/b.txt" [x7a]
    (new_FileMetadata "b.txt" true 1) _)).
  vm_compute. reflexivity.
Defined.

Definition upload_endpoint : EndpointConfig := mk_endpoint "/files" [Delete] ActStaticFiles "none".
Definition uploads_on : UploadConfig := {|
  up_enabled := true; up_max_size := 100; up_allowed_extensions := []; up_create_subdirectory := None;
  up_mime_detection := UploadByExtension |}.

Definition deletable : StaticFilesConfig := {|
  sf_storage := "www"; sf_index := ""; sf_directory_listing := false; sf_cache_max_age := 60;
  sf_etag := true; sf_range_requests := true; sf_head_support := true; sf_cache_rules := [];
  sf_upload := Some uploads_on; sf_image_resize := None; sf_streaming := None |}.
Definition after_delete : result AppError http_response * MemoryStorage :=
  @handle_file_delete MemoryStorage mem to_lower (λ _, "") site upload_endpoint deletable "A.TXT" "/www".

Lemma handle_file_delete_spec_witness :
  (after_delete.1 = Ok deleted_response ∧ @content MemoryStorage mem "/www/a.txt" after_delete.2 = None) ∧
  ∀ q, @apart MemoryStorage mem mem_laws "/www/a.txt" q →
       @content MemoryStorage mem q after_delete.2 = @content MemoryStorage mem q site.
Proof.
  pose proof (@handle_file_delete_spec MemoryStorage mem mem_laws to_lower (λ _, "") site upload_endpoint
    deletable uploads_on "A.TXT" "/www" "a.txt" [x61; x62; x63; x64; x65] eq_refl eq_refl eq_refl eq_refl)
    as H.
  fold after_delete in H. assert (after_delete.1 = Ok deleted_response) as Hok by (vm_compute; reflexivity).
  destruct after_delete as [r st']. cbn in Hok. subst r. destruct H as [Hframe [_ Hgone]].
  split; [split; [reflexivity|exact Hgone]|exact Hframe].
Defined.
