(* ===== verification/StaticRoutes.v ===== *)
(** * Static file endpoints

    The dispatch of a static-file endpoint (src/src/handlers/static_files/
    routing.rs) and its uploads (upload.rs, and the response of
    handlers/common/path.rs), as actions on the stores of the server. *)

From Stdlib Require Import Init.Byte.
From S2P Require Import Prelude RustStr Json Config Errors Pool Roles Routing Credentials Auth Schemas Paths Storage Responses Images Stores Directory Serving Handlers.
Local Open Scope stdpp_scope.

Section routes.
Context {DB St Image : Type} `{!Storage St, !ImageCrate Image}.
Context {HeaderMap Validator : Type} (header_str : HeaderMap → string → option string).
Context (jwt_decode : string → Validation → string → result string value).
Context (base64_decode : string → option (option string)).
Context (verify_hash : string → string → option password_check).
Context (get_userinfo_reply : string → string → http_reply).
Context (header_value_ok : string → bool) (lowercase : string → string).
Context (percent_decode : string → option string) (debug : string → string).
(** The names of users and groups, a time in the local zone and in UTC, the
    current time. *)
Context (user_name group_name : Z → option string) (show_local to_rfc3339 : Z → string).
Context (utc_now : nat → string).
(** The date of a call and the identifiers it makes. *)
Context (date : string * string * string) (new_uuid : nat → string).

Notation E := (eff DB St).
Notation HandlerContext := (HandlerContext HeaderMap Validator).
Notation show_storage := (show_StorageError debug).

(** What the code inside a step that may panic answers. *)
Definition answer (o : outcome http_response) : result AppError handler_response :=
  match o with Returns r => bytes_reply <$> r | Panics => Ok no_reply end.

(** [(parts, Body::empty())] of a response. *)
Definition without_body (r : handler_response) : handler_response :=
  match r with
  | bytes_reply r => bytes_reply {| hr_status := hr_status r; hr_headers := hr_headers r; hr_body := [] |}
  | r => r
  end.

(** The configuration and the store of the endpoint, whose root must exist. *)
Definition static_config (endpoint : EndpointConfig) : result AppError StaticFilesConfig :=
  ok_or (Internal "Static file configuration missing") (ep_static_files endpoint).
Definition require_root (config : StaticFilesConfig) (root : string) : E () :=
  present ← ask_store (st_exists root);
  pass (if present : bool then Ok tt
        else Err (Internal ("Static file storage '" +:+ sf_storage config +:+ "' does not exist"))).

Definition wrong_method {A} (method : string) (endpoint : EndpointConfig) : result AppError A :=
  Err (MethodNotAllowed ("Method " +:+ method +:+ " not allowed for this endpoint") (ep_methods endpoint)).

(** Source: handlers/static_files/routing.rs:60-108 [handle_static_files] *)
Definition static_request (endpoint : EndpointConfig) (config : StaticFilesConfig) (method path : string)
    (headers : HeaderMap) (query : option (gmap string string)) (root : string) : E handler_response :=
  _ ← require_root config root;
  relative ← pass (extract_relative_path percent_decode path (ep_path endpoint));
  let get : E handler_response := λ w,
    (w, answer (handle_static_get (Image := Image) header_value_ok
           (generate_directory_listing user_name group_name show_local header_value_ok percent_decode show_storage)
           w.2 config relative root path query (header_str headers "range"))) in
  if String.eqb method "HEAD" then r ← get; mret (without_body r)
  else if String.eqb method "GET" then get
  else if String.eqb method "DELETE" then λ w,
    let '(r, st) := handle_file_delete lowercase show_storage w.2 endpoint config relative root in
    ((w.1, st), bytes_reply <$> r)
  else if String.eqb method "OPTIONS" then mret (empty_reply 200)
  else pass (wrong_method method endpoint).

(** Source: handlers/static_files/routing.rs [handle_static_files] *)
Definition handle_static_files (endpoint : EndpointConfig) (method path : string) (headers : HeaderMap)
    (query : option (gmap string string)) : action AppError (DB * gmap string St) handler_response :=
  config ← lift (static_config endpoint);
  in_store (sf_storage config) (static_request endpoint config method path headers query).

(** ** Uploads *)

(** The query parameters the handler authenticates with: the fields of a
    [crud] section, each with its own name as value. *)
Definition upload_query (endpoint : EndpointConfig) : gmap string string :=
  match ep_crud endpoint with
  | Some c => list_to_map (map (λ field, (field, field)) (fc_allowed_fields (crud_filtering c)))
  | None => ∅
  end.

Definition file_management_off (endpoint : EndpointConfig) : AppError :=
  MethodNotAllowed "File management is not enabled" (ep_methods endpoint).

(** The user, the content and the name of an accepted upload.
    Source: handlers/static_files/upload.rs [validate_input] *)
Definition validate_input (hc : HandlerContext) (config : StaticFilesConfig)
    (multipart : list (result string form_field))
  : result AppError (string * bytes * string * UploadConfig) :=
  let endpoint := hc_endpoint hc in
  upload_config ← ok_or (file_management_off endpoint) (sf_upload config);
  _ ← (if up_enabled upload_config then Ok tt else Err (file_management_off endpoint));
  auth_info ← extract_auth_info header_str jwt_decode base64_decode verify_hash get_userinfo_reply
    {| hc_config := hc_config hc; hc_db_pools := hc_db_pools hc; hc_schema_registry := hc_schema_registry hc;
       hc_endpoint := endpoint; hc_headers := hc_headers hc; hc_query_params := upload_query endpoint |};
  _ ← (match header_str (hc_headers hc) "content-length" ≫= parse_u64 with
       | Some size =>
           if (up_max_size upload_config <? size)%Z then
             Err (PayloadTooLarge ("File size " +:+ show_Z size +:+ " exceeds maximum allowed size " +:+
                                   show_Z (up_max_size upload_config)))
           else Ok tt
       | None => Ok tt
       end);
  '(file_content, original_filename) ← parse_multipart_file multipart (up_max_size upload_config) true None;
  Ok (ai_subject auth_info, file_content, original_filename, upload_config).

(** Source: handlers/common/path.rs [build_upload_response] *)
Definition build_upload_response (storage_path root : string) (file_content : bytes)
    (sanitized_filename : string) : E handler_response :=
  metadata ← try_store (λ e, FileOperation ("Failed to read file metadata: " +:+ show_storage e))
               (st_metadata storage_path);
  let created := match fm_created metadata with Some t => to_rfc3339 t | None => utc_now 0 end in
  let modified := match fm_modified metadata with Some t => to_rfc3339 t | None => created end in
  let relative_path := "/" +:+ default sanitized_filename (path_strip_prefix storage_path root) in
  mret (json_reply 201 (json_object
    [("success", VBool true); ("path", VString relative_path); ("name", VString sanitized_filename);
     ("size", json_int (byte_count file_content)); ("type", VString (mime_from_path storage_path));
     ("created", VString created); ("modified", VString modified);
     ("message", VString "File uploaded successfully")])).

(** Source: handlers/static_files/upload.rs [handle_file_upload] *)
Definition handle_file_upload (hc : HandlerContext) (config : StaticFilesConfig)
    (multipart : list (result string form_field)) (root : string) : E handler_response :=
  '(user_id, file_content, original_filename, upload_config) ← pass (validate_input hc config multipart);
  sanitized_filename ← pass (generate_upload_filename lowercase (new_uuid 0) original_filename
                               (up_allowed_extensions upload_config));
  storage_path ← pass (build_storage_path date (new_uuid 1) root sanitized_filename user_id
                         (up_create_subdirectory upload_config));
  taken ← ask_store (st_exists storage_path);
  _ ← pass (if taken : bool then
              Err (FileOperation ("A file already exists at the destination path: " +:+ storage_path))
            else Ok tt);
  _ ← (λ w, let '(r, st) := store_file show_storage w.2 storage_path file_content in ((w.1, st), r));
  build_upload_response storage_path root file_content sanitized_filename.

(** Source: handlers/static_files/routing.rs [handle_file_upload_route] *)
Definition handle_file_upload_route (hc : HandlerContext) (method : string)
    (multipart : list (result string form_field))
  : action AppError (DB * gmap string St) handler_response :=
  let endpoint := hc_endpoint hc in
  if bool_decide (method ∈ ["POST"; "PUT"; "PATCH"]) then
    config ← lift (static_config endpoint);
    in_store (sf_storage config) (λ root,
      _ ← require_root config root;
      handle_file_upload hc config multipart root)
  else lift (wrong_method method endpoint).

(** ** Route handlers *)

(** Source: server/router.rs [handle_static_files_route] *)
Definition handle_static_files_route (iter_endpoints : endpoint_map → list (string * EndpointConfig))
    (configs : endpoint_map) (matched_path method path : string) (query : gmap string string)
    (headers : HeaderMap) : action AppError (DB * gmap string St) handler_response :=
  endpoint ← lift (ok_or (NotFound "Endpoint not found")
                     (get_endpoint_config_for_method iter_endpoints configs matched_path method));
  handle_static_files endpoint method path headers (Some query).

(** Source: server/router.rs [handle_upload_route] *)
Definition handle_upload_route (iter_endpoints : endpoint_map → list (string * EndpointConfig))
    (config : AppConfig) (registry : SchemaRegistry Validator) (db_pools : gmap string DatabasePool)
    (configs : endpoint_map) (matched_path method : string) (headers : HeaderMap)
    (multipart : list (result string form_field)) : action AppError (DB * gmap string St) handler_response :=
  endpoint ← lift (ok_or (NotFound "Endpoint not found")
                     (get_endpoint_config_for_method iter_endpoints configs matched_path method));
  handle_file_upload_route
    {| hc_config := config; hc_db_pools := db_pools; hc_schema_registry := registry;
       hc_endpoint := endpoint; hc_headers := headers; hc_query_params := ∅ |} method multipart.
End routes.
