(* ===== verification/StaticRoutesSpec.v ===== *)
(** * Correctness of static file endpoints

    A HEAD request is the GET request without its body, an upload never
    replaces a file, and a disk store with a relative root serves nothing. *)

From Stdlib Require Import Init.Byte.
From S2P Require Import Prelude RustStr Json Config Errors Pool Roles Routing Credentials Auth AuthSpec Schemas Paths Storage Responses Images Stores MemoryStorage Native NativeSpec Crud Directory Serving ServingSpec Handlers StaticRoutes.
Local Open Scope stdpp_scope.

Section spec.
Context {DB St Image : Type} `{!Storage St, !ImageCrate Image}.
Context {HeaderMap Validator : Type} (header_str : HeaderMap → string → option string).
Context (jwt_decode : string → Validation → string → result string value).
Context (base64_decode : string → option (option string)).
Context (verify_hash : string → string → option password_check).
Context (get_userinfo_reply : string → string → http_reply).
Context (header_value_ok : string → bool) (lowercase : string → string).
Context (percent_decode : string → option string) (debug : string → string).
Context (user_name group_name : Z → option string) (show_local to_rfc3339 : Z → string).
Context (utc_now : nat → string) (date : string * string * string) (new_uuid : nat → string).

Notation static := (handle_static_files (DB := DB) (St := St) (Image := Image) header_str header_value_ok lowercase
  percent_decode debug user_name group_name show_local).
Notation upload := (handle_file_upload (DB := DB) (St := St) (Validator := Validator) header_str jwt_decode
  base64_decode verify_hash get_userinfo_reply lowercase debug to_rfc3339 utc_now date new_uuid).

Notation request := (static_request (DB := DB) (St := St) (Image := Image) header_str header_value_ok lowercase
  percent_decode debug user_name group_name show_local).

(** An action on a store that reads, in terms of another on the same store. *)
Lemma in_store_same {A B} (name : string) (m : string → eff DB St A) (m' : string → eff DB St B) (g : A → B) w :
  (∀ root w, m' root w = (w, g <$> (m root w).2)) →
  in_store name m' w = (w, g <$> (in_store name m w).2).
Proof.
  intros Hm. destruct w as [db stores]. unfold in_store, resolve_store, get_store.
  destruct (stores !! name) as [st|] eqn:Hst; [|done]. cbn [ok_or mbind result_bind].
  rewrite Hm. destruct (m _ (db, st)) as [[db' st'] r]. cbn. by rewrite insert_id.
Qed.

Lemma require_rootE config root (w : DB * St) :
  require_root config root w
  = (w, if st_exists root w.2 then Ok tt
        else Err (Internal ("Static file storage '" +:+ sf_storage config +:+ "' does not exist"))).
Proof. unfold require_root. run_step. unfold ask_store. cbn [and_then]. by destruct (st_exists root w.2). Qed.

(** A HEAD request is answered as the GET request for the same path, status
    and headers alike, without the body; neither changes anything. *)
Theorem head_is_get_without_body (endpoint : EndpointConfig) (path : string) (headers : HeaderMap)
    (query : option (gmap string string)) (w : DB * gmap string St) :
  static endpoint "HEAD" path headers query w
  = (w, without_body <$> (static endpoint "GET" path headers query w).2).
Proof.
  unfold handle_static_files, mbind, action_bind, lift, and_then.
  destruct (static_config endpoint) as [config|e]; [|done].
  apply in_store_same. clear w. intros root w. unfold static_request, mbind, action_bind.
  rewrite require_rootE. destruct (st_exists root w.2); [|done]. cbn [and_then]. unfold pass.
  destruct (extract_relative_path _ _ _); [|done]. cbn [and_then].
  change (String.eqb "HEAD" "HEAD") with true. change (String.eqb "GET" "HEAD") with false.
  change (String.eqb "GET" "GET") with true. cbv iota. cbn [and_then].
  by destruct (answer _).
Qed.

(** ** Uploads *)

(** The user of an upload. *)
Definition uploader (hc : HandlerContext HeaderMap Validator) : result AppError AuthInfo :=
  extract_auth_info header_str jwt_decode base64_decode verify_hash get_userinfo_reply
    {| hc_config := hc_config hc; hc_db_pools := hc_db_pools hc; hc_schema_registry := hc_schema_registry hc;
       hc_endpoint := hc_endpoint hc; hc_headers := hc_headers hc;
       hc_query_params := upload_query (hc_endpoint hc) |}.

Lemma validate_input_Ok hc config multipart user_id content name upload_config :
  validate_input (Validator := Validator) header_str jwt_decode base64_decode verify_hash get_userinfo_reply
    hc config multipart = Ok (user_id, content, name, upload_config) →
  sf_upload config = Some upload_config ∧ up_enabled upload_config = true ∧
  (∃ ai, uploader hc = Ok ai ∧ user_id = ai_subject ai) ∧
  last_file multipart name content ∧ (byte_count content ≤ up_max_size upload_config)%Z.
Proof.
  unfold validate_input. intros (up&Hup%ok_or_Ok&(u&Hon&(ai&Hai&(?&_&([c n]&Hp&[= <- <- <- <-])%bind_Ok)%bind_Ok)%bind_Ok)%bind_Ok)%bind_Ok.
  apply parse_multipart_file_Ok in Hp as [[? _]|[Hlast Hsize]]; [done|].
  split_and!; [done|by destruct (up_enabled up)|by exists ai|done..].
Qed.

(** The name of an upload: a new identifier with the extension of the file
    that was sent, in lower case. *)
Definition upload_name (uuid original : string) : string :=
  match lowercase (default "" (extension original)) with "" => uuid | ext => uuid +:+ "." +:+ ext end.

Lemma generate_upload_filename_Ok uuid original allowed filename :
  generate_upload_filename lowercase uuid original allowed = Ok filename →
  filename = upload_name uuid original ∧
  (let ext := lowercase (default "" (extension original)) in ext = "" ∨ allowed = [] ∨ ext ∈ allowed).
Proof.
  unfold generate_upload_filename, upload_name. cbv zeta. generalize (lowercase (default "" (extension original))).
  intros ext. destruct (negb (is_empty ext) && _ && _) eqn:Hext; [done|].
  intros H. split; [by destruct ext; injection H as <-|].
  destruct ext as [|a ext]; [by left|right]. case_bool_decide; [by left|right]. cbn in Hext.
  apply negb_false_iff, existsb_exists in Hext as (e&He&<-%bool_decide_eq_true). by apply list_elem_of_In.
Qed.

(** Identifiers are names, and the conversion to lower case makes no
    separator of a path. *)
Context (Huuid : ∀ n, plain_name (new_uuid n)).
Context (Hlower : ∀ s, contains_char "/" s = false → contains_char "/" (lowercase s) = false).

Lemma upload_name_plain n original : plain_name (upload_name (new_uuid n) original).
Proof using Huuid Hlower.
  unfold upload_name. pose proof (Hlower _ (extension_no_slash original)) as Hext.
  destruct (lowercase _) as [|a ext]; [done|]. by apply plain_name_app.
Qed.

Context `{!StorageLaws St}.

(** C11: an accepted upload to a static-file endpoint, of which uploads are
    enabled. The bytes of the last field of the form that has a file name, no
    more than the limit, are stored; the file is named by a new identifier
    with the extension of that file name in lower case, which is one of the
    allowed ones where there is a list of them and the file has an extension.
    It is in the root of the store or, where a subdirectory is configured, in
    the directory that the pattern names with the user, the date and an
    identifier filled in; this is below the root unless the filled pattern is
    an absolute path, as it can be for a user whose identifier is one. The
    path had no file and has no parent references; no other file of the store
    has changed. Identifiers are taken to be names without separators. *)
Theorem static_upload_spec (hc : HandlerContext HeaderMap Validator) (config : StaticFilesConfig)
    (multipart : list (result string form_field)) (root : string) (w w' : DB * St) (r : handler_response)
    (Hupload : upload hc config multipart root w = (w', Ok r)) :
  ∃ ai file_content name upload_config path,
    sf_upload config = Some upload_config ∧ up_enabled upload_config = true ∧ uploader hc = Ok ai ∧
    last_file multipart name file_content ∧ (byte_count file_content ≤ up_max_size upload_config)%Z ∧
    (let ext := lowercase (default "" (extension name)) in
     ext = "" ∨ up_allowed_extensions upload_config = [] ∨ ext ∈ up_allowed_extensions upload_config) ∧
    components path
      = components (upload_directory date (new_uuid 1) root (ai_subject ai) (up_create_subdirectory upload_config))
        ++ [Normal (upload_name (new_uuid 0) name)] ∧
    (is_absolute (upload_subdirectory date (new_uuid 1) (ai_subject ai) (up_create_subdirectory upload_config)) = false →
     path_starts_with path root = true) ∧
    has_parent_dir path = false ∧ st_exists path w.2 = false ∧
    file_at path w' = Some file_content ∧
    ∀ q, names_file q = true → apart path q → file_at q w' = file_at q w.
Proof.
  unfold handle_file_upload in Hupload. rename Hupload into H.
  answered w1 input Hin H. destruct input as [[[user_id file_content] name] upload_config].
  injection Hin as <- Hin. answered w1 filename Hname H. injection Hname as <- Hname.
  answered w1 path Hpath H. injection Hpath as <- Hpath.
  answered w1 taken Htaken H. injection Htaken as <- Htaken. answered w1 u Hfree H. injection Hfree as <- Hfree.
  answered w1 m Hstore H. assert (w' = w1) as ->.
  { unfold build_upload_response in H. answered w2 meta Hm H. injection Hm as <- _. by injection H. }
  apply validate_input_Ok in Hin as (Hup&Hon&(ai&Hai&->)&Hlast&Hsize).
  apply generate_upload_filename_Ok in Hname as [-> Hext].
  apply build_storage_path_place in Hpath as (Hplace&Hdots&Hbelow); [|by apply upload_name_plain].
  exists ai, file_content, name, upload_config, path. split_and!; try done.
  - rewrite Htaken. by destruct taken.
  - destruct (store_file _ w.2 path file_content) as [r1 st] eqn:Hs. injection Hstore as <- ->.
    by eapply store_file_spec in Hs as (Hc&_).
  - intros q Hn Hq. destruct (store_file _ w.2 path file_content) as [r1 st] eqn:Hs. injection Hstore as <- ->.
    apply store_file_spec in Hs as (_&_&_&Hframe). by apply Hframe.
Qed.
End spec.

(** ** Relative roots *)

(** A disk store whose root is a relative path serves nothing. The handlers
    join the root to the path of a request and the store joins it once more,
    so unless the directory has its own relative path again inside it, every
    request to a static-file endpoint of the store is answered with the error
    that the store does not exist. *)
Theorem relative_root_serves_nothing {DB F Handle Image HeaderMap : Type} `{!FileSystem F Handle, !ImageCrate Image}
    (to_string_lossy : string → string) (root : string)
    (header_str : HeaderMap → string → option string) (header_value_ok : string → bool)
    (lowercase : string → string) (percent_decode : string → option string) (debug : string → string)
    (user_name group_name : Z → option string) (show_local : Z → string)
    (endpoint : EndpointConfig) (config : StaticFilesConfig) (method path : string) (headers : HeaderMap)
    (query : option (gmap string string)) (db : DB) (stores : gmap string F) (disk : F)
    (Hrelative : is_absolute root = false)
    (Hconfig : ep_static_files endpoint = Some config)
    (Hstore : stores !! sf_storage config = Some disk)
    (Hinside : fs_try_exists (path_join root root) disk ≠ Ok true) :
  @handle_static_files DB F Image (native_storage to_string_lossy (new_NativeStorage root)) _ HeaderMap
    header_str header_value_ok lowercase percent_decode debug user_name group_name show_local
    endpoint method path headers query (db, stores)
  = ((db, stores), Err (Internal ("Static file storage '" +:+ sf_storage config +:+ "' does not exist"))).
Proof.
  unfold handle_static_files, static_config, mbind at 1, action_bind at 1, lift, and_then. rewrite Hconfig.
  cbn [ok_or]. unfold in_store, resolve_store, get_store. rewrite Hstore. cbn [ok_or mbind result_bind].
  change (default _ _) with root. unfold static_request, mbind, action_bind.
  rewrite require_rootE. cbn [st_exists native_storage snd].
  assert (native_exists (new_NativeStorage root) root disk = false) as ->.
  { unfold native_exists, native_resolve. rewrite Hrelative. cbn [native_root new_NativeStorage].
    destruct (fs_try_exists _ disk) as [[]|]; [done|done|done]. }
  cbn [and_then]. by rewrite insert_id.
Qed.

(** ** Witnesses *)

Definition public_disk : MemoryStorage := {|
  mem_data := {[components "./public/index.html" := ascii_bytes "hello"]};
  mem_dirs := {[components "./public"]} |}.

Definition public_config (upload : option UploadConfig) : StaticFilesConfig := {|
  sf_storage := "public"; sf_index := "index.html"; sf_directory_listing := false; sf_cache_max_age := 60;
  sf_etag := true; sf_range_requests := true; sf_head_support := true; sf_cache_rules := [];
  sf_upload := upload; sf_image_resize := None; sf_streaming := None |}.

Definition public_endpoint (upload : option UploadConfig) : EndpointConfig :=
  let e := mk_endpoint "/static/*" [Get; Head; Post] ActStaticFiles "none" in
  {| ep_path := ep_path e; ep_methods := ep_methods e; ep_action := ep_action e;
     ep_crud := None; ep_proxy := None; ep_static_files := Some (public_config upload); ep_spa_host := None;
     ep_media := None; ep_file_store := None; ep_custom_response := None;
     ep_auth := "none"; ep_roles := Flat []; ep_cors := None; ep_rate_limit := None |}.

(** The root is the directory [./public] of the quick start. *)
Lemma relative_root_serves_nothing_witness :
  (handle_static_files (Image := Z * Z) (St := MemoryStorage)
    (Storage0 := native_storage id (new_NativeStorage "./public")) (ImageCrate0 := strip_images)
    (λ _ _, None) (λ _, true) id Some id (λ _, None) (λ _, None) show_Z
    (public_endpoint None) "GET" "/static/index.html" tt None (tt, {["public" := public_disk]})).2
  = Err (Internal "Static file storage 'public' does not exist").
Proof.
  rewrite (relative_root_serves_nothing (ImageCrate0 := strip_images) id "./public" (λ _ _, None) (λ _, true) id
    Some id (λ _, None) (λ _, None) show_Z (public_endpoint None) (public_config None) "GET" "/static/index.html" tt None tt
    {["public" := public_disk]} public_disk); [reflexivity|reflexivity|reflexivity|reflexivity|].
  vm_compute. discriminate.
Defined.

Definition small_uploads : UploadConfig := {|
  up_enabled := true; up_max_size := 10; up_allowed_extensions := ["txt"]; up_create_subdirectory := None;
  up_mime_detection := UploadByExtension |}.
Definition static_request_of (upload : option UploadConfig) : HandlerContext (list (string * string)) () := {|
  hc_config := sample_config; hc_db_pools := ∅; hc_schema_registry := ∅;
  hc_endpoint := public_endpoint upload; hc_headers := []; hc_query_params := ∅ |}.
Definition text_form : list (result string form_field) :=
  [Ok {| ff_name := Some "file"; ff_file_name := Some "note.TXT"; ff_chunks := [Ok (ascii_bytes "meow")] |}].
(** An upload to the disk store below [/srv]. *)
Definition upload_to_disk (w : () * MemoryStorage) :=
  @handle_file_upload () MemoryStorage srv_storage (list (string * string)) () no_headers (λ _ _ _, Err "") (λ _, None)
    (λ _ _, None) (λ _ _, NoReply "") to_lower id show_Z (λ _, "now") ("2024", "05", "01") sample_uuid
    (static_request_of (Some small_uploads)) (public_config (Some small_uploads)) text_form "/srv" w.

Lemma static_upload_spec_witness :
  ∃ name content path,
    last_file text_form name content ∧
    components path = components "/srv" ++ [Normal (upload_name to_lower "id-0" name)] ∧
    path_starts_with path "/srv" = true ∧
    @st_exists _ srv_storage path public_disk = false ∧
    @file_at () _ srv_storage path (upload_to_disk (tt, public_disk)).1 = Some content ∧
    ∀ q, @names_file _ _ srv_storage_laws q = true → @apart _ _ srv_storage_laws path q →
      @file_at () _ srv_storage q (upload_to_disk (tt, public_disk)).1 = @file_at () _ srv_storage q (tt, public_disk).
Proof.
  destruct (@static_upload_spec () MemoryStorage srv_storage (list (string * string)) () no_headers (λ _ _ _, Err "")
    (λ _, None) (λ _ _, None) (λ _ _, NoReply "") to_lower id show_Z (λ _, "now") ("2024", "05", "01") sample_uuid
    sample_uuid_plain to_lower_no_slash
    srv_storage_laws (static_request_of (Some small_uploads)) (public_config (Some small_uploads)) text_form "/srv"
    (tt, public_disk) (upload_to_disk (tt, public_disk)).1
    (match (upload_to_disk (tt, public_disk)).2 with Ok r => r | Err _ => no_reply end))
    as (ai&content&name&cfg&path&Hup&_&_&Hlast&_&_&Hplace&Hbelow&_&Hfree&Hfile&Hframe).
  - vm_compute. reflexivity.
  - injection Hup as <-. exists name, content, path. split_and!; [exact Hlast|exact Hplace| |exact Hfree|exact Hfile|exact Hframe].
    apply Hbelow. reflexivity.
Defined.
