(* ===== verification/Spa.v ===== *)
(** * Single-page applications

    The handlers of src/src/handlers/spa_host.rs: a file of the store, or the
    index file where there is none. They only read. *)

From Stdlib Require Import Init.Byte.
From S2P Require Import Prelude RustStr Config Errors Routing Paths Storage Responses Stores.
Local Open Scope stdpp_scope.

Section spa.
Context {St : Type} `{!Storage St}.
Context {HeaderMap : Type} (header_str : HeaderMap → string → option string).
(** [HeaderValue::from_str] accepts this text; percent-decoding with its UTF-8
    check. *)
Context (header_value_ok : string → bool) (percent_decode : string → option string).

Notation apply_content_type := (apply_content_type header_value_ok).
Notation apply_content_length := (apply_content_length header_value_ok).
Notation apply_cache_control := (apply_cache_control header_value_ok).

Definition dquote_string : string := String (ascii_of_N 34) "".
(** The entity tag of a file: its path and its size. *)
Definition etag_value (path : string) (size : Z) : string :=
  dquote_string +:+ path +:+ "-" +:+ show_Z size +:+ dquote_string.
Definition insert_etag (etag : string) : http_response → http_response :=
  insert_header "etag" (header_or header_value_ok etag (dquote_string +:+ "none" +:+ dquote_string)).

(** The request names this entity tag. *)
Definition etag_match (headers : HeaderMap) (etag : string) : bool :=
  match header_str headers "if-none-match" with
  | Some s => String.eqb (trim s) (trim etag)
  | None => false
  end.

(** The headers every answer has. *)
Definition file_headers (config : SpaHostConfig) (path : string) (size : Z) (r : http_response) : http_response :=
  apply_content_length (show_Z size)
    (apply_cache_control (spa_cache_max_age config) (Some path) (spa_cache_rules config)
    (apply_content_type (mime_from_path path) r)).

Definition with_status (status : Z) (r : http_response) : http_response := {|
  hr_status := status; hr_headers := hr_headers r; hr_body := hr_body r |}.

(** The entity tag, and 304 where the request names it. *)
Definition tagged (headers : HeaderMap) (etag : string) (r : http_response) : http_response :=
  let r := insert_etag etag r in
  if etag_match headers etag then insert_etag etag (with_status 304 r) else r.

Definition spa_not_found (path : string) : AppError := NotFound ("File not found: " +:+ path).

(** Source: handlers/spa_host.rs [serve_spa_file] *)
Definition serve_spa_file (st : St) (path : string) (config : SpaHostConfig) (headers : HeaderMap)
  : result AppError http_response :=
  meta ← map_err (λ _, spa_not_found path) (st_metadata path st);
  contents ← map_err (λ _, spa_not_found path) (st_read path st);
  let response := file_headers config path (fm_size meta) (bytes_response 200 contents) in
  Ok (if spa_etag config then tagged headers (etag_value path (fm_size meta)) response else response).

(** Source: handlers/spa_host.rs [serve_spa_fallback] *)
Definition serve_spa_fallback (st : St) (root : string) (config : SpaHostConfig)
  : result AppError http_response :=
  let index_path := path_join root (spa_index config) in
  match st_metadata index_path st with
  | Ok meta =>
      contents ← map_err (λ _, NotFound ("Index file not found: " +:+ index_path)) (st_read index_path st);
      let response := file_headers config index_path (fm_size meta)
                        (bytes_response (status_code (spa_fallback_status config)) contents) in
      Ok (if spa_etag config then insert_etag (etag_value index_path (fm_size meta)) response else response)
  | Err _ => Err (NotFound ("Index file '" +:+ spa_index config +:+ "' not found for SPA fallback"))
  end.

Context (stores : gmap string St).

(** Source: handlers/spa_host.rs [handle_spa_head] *)
Definition handle_spa_head (path : string) (config : SpaHostConfig) (headers : HeaderMap)
  : result AppError http_response :=
  '(st, root) ← resolve_store st_root_path stores (spa_storage config);
  let relative := trim_start "/" path in
  let resolved := if is_empty relative then root else path_join root relative in
  match st_metadata resolved st with
  | Ok meta =>
      let response := file_headers config resolved (fm_size meta) (stream_response 200 []) in
      Ok (if spa_etag config then tagged headers (etag_value resolved (fm_size meta)) response else response)
  | Err _ =>
      let index_path := path_join root (spa_index config) in
      match st_metadata index_path st with
      | Ok meta =>
          Ok (file_headers config index_path (fm_size meta)
                (stream_response (status_code (spa_fallback_status config)) []))
      | Err _ => Err (NotFound ("Index file '" +:+ spa_index config +:+ "' not found for SPA HEAD fallback"))
      end
  end.

(** [Ok] metadata of a file. *)
Definition is_file_meta (r : result StorageError FileMetadata) : bool :=
  match r with Ok m => fm_is_file m | Err _ => false end.

(** Source: handlers/spa_host.rs:56-104 [handle_spa_host] *)
Definition spa_get (path : string) (endpoint : EndpointConfig) (config : SpaHostConfig) (headers : HeaderMap)
  : result AppError http_response :=
  '(st, root) ← resolve_store st_root_path stores (spa_storage config);
  relative ← extract_relative_path percent_decode path (ep_path endpoint);
  resolved ←
    (if is_empty relative then Ok root
     else
       decoded ← ok_or (BadRequest "Invalid UTF-8 in path") (percent_decode relative);
       Ok (path_join root decoded));
  let index_path := path_join resolved (spa_index config) in
  if match st_metadata resolved st with Ok m => negb (fm_is_file m) | Err _ => false end
     && is_file_meta (st_metadata index_path st)
  then serve_spa_file st index_path config headers
  else
    match serve_spa_file st resolved config headers with
    | Err (NotFound _) => serve_spa_fallback st root config
    | r => r
    end.

(** Source: handlers/spa_host.rs [handle_spa_host] *)
Definition handle_spa_host (method path : string) (endpoint : EndpointConfig) (headers : HeaderMap)
  : result AppError http_response :=
  config ← ok_or (NotFound "SPA host config not found") (ep_spa_host endpoint);
  if String.eqb method "HEAD" then
    if spa_head_support config then handle_spa_head path config headers
    else Err (MethodNotAllowed "HEAD requests are not supported for this endpoint"
                (filter (λ m, m ≠ Head) (ep_methods endpoint)))
  else spa_get path endpoint config headers.

(** Source: handlers/spa_host.rs [handle_spa_host_route] *)
Definition handle_spa_host_route (iter_endpoints : endpoint_map → list (string * EndpointConfig))
    (configs : endpoint_map) (matched_path method path : string) (headers : HeaderMap)
  : result AppError http_response :=
  endpoint ← ok_or (NotFound "Endpoint not found")
               (get_endpoint_config_for_method iter_endpoints configs matched_path method);
  handle_spa_host method path endpoint headers.
End spa.

(** The configuration is looked for by the path of the route.
    Source: handlers/spa_host.rs [handle_spa_host_method_not_allowed] *)
Definition handle_spa_host_method_not_allowed (iter_endpoints : endpoint_map → list (string * EndpointConfig))
    (configs : endpoint_map) (matched_path : string) : result AppError http_response :=
  let endpoint := find_first (λ e, String.eqb (ep_path e) matched_path) (map snd (iter_endpoints configs)) in
  let allowed :=
    match endpoint with
    | Some ep => filter (λ m, m ∉ [Post; Put; Patch; Delete]) (ep_methods ep)
    | None => [Get; Head; Options]
    end in
  Err (MethodNotAllowed "Method Not Allowed for SPA host endpoint" allowed).
