(* ===== verification/SpaSpec.v ===== *)
(** * Correctness of single-page applications

    Which file a GET request is answered with, the way it leaves the root,
    what a HEAD request looks at, and the entity tags. *)

From Stdlib Require Import Init.Byte.
From S2P Require Import Prelude RustStr Config Errors Routing Paths Storage Responses Stores MemoryStorage Spa.
Local Open Scope stdpp_scope.

Section spec.
Context {St : Type} `{!Storage St, !StorageLaws St}.
Context {HeaderMap : Type} (header_str : HeaderMap → string → option string).
Context (header_value_ok : string → bool) (percent_decode : string → option string).
Context (stores : gmap string St).

Notation get := (handle_spa_host header_str header_value_ok percent_decode stores "GET").
Notation head_request := (handle_spa_host header_str header_value_ok percent_decode stores "HEAD").
Notation serve := (serve_spa_file header_str header_value_ok).

(** The request does not name the entity tag, where there is one. *)
Definition fresh (config : SpaHostConfig) (headers : HeaderMap) (path : string) (size : Z) : Prop :=
  spa_etag config = true → etag_match header_str headers (etag_value path size) = false.

(** What is served of a file. *)
Lemma serve_spa_file_content st path config headers c :
  content path st = Some c → u64 (Z.of_nat (length c)) → fresh config headers path (Z.of_nat (length c)) →
  ∃ r, serve st path config headers = Ok r ∧ hr_status r = 200%Z ∧ hr_body r = c ∧
    hr_headers r !! "content-length" = Some (header_or header_value_ok (show_Z (Z.of_nat (length c))) "0").
Proof.
  intros Hc Hlen Hfresh. destruct (metadata_of_file _ _ _ Hc) as (m&Hm&_&Hsize). apply content_Some in Hc.
  unfold serve_spa_file. rewrite Hm, Hc. cbn [map_err mbind result_bind]. rewrite (Hsize Hlen).
  eexists. split; [done|]. unfold tagged. specialize (Hfresh : spa_etag config = true → _).
  destruct (spa_etag config); [rewrite Hfresh by done|]; (split; [done|]); (split; [done|]).
  - cbn. rewrite lookup_insert_ne by done. by rewrite lookup_insert_eq.
  - cbn. by rewrite lookup_insert_eq.
Qed.

Context (endpoint : EndpointConfig) (config : SpaHostConfig) (st : St) (root : string).
Context (Hconfig : ep_spa_host endpoint = Some config).
Context (Hstore : resolve_store st_root_path stores (spa_storage config) = Ok (st, root)).

(** A file outside the root is served when its path is encoded. The
    relative path of a request is accepted for its segments and decoded
    after that. Where the decoded path is relative, it is looked for below
    the root, component by component. Where it is absolute, because its first
    slash was percent-encoded, it replaces the root: the answer is the file
    at that path, wherever the store keeps its own. *)
Theorem spa_encoded_slash_escapes_root (path relative decoded : string) (headers : HeaderMap)
    (Hroot : root ≠ "")
    (Hpath : extract_relative_path percent_decode path (ep_path endpoint) = Ok relative)
    (Hne : relative ≠ "") (Hdecode : percent_decode relative = Some decoded) :
  (is_absolute decoded = false →
   path_starts_with (path_join root decoded) root = true ∧
   has_parent_dir (path_join root decoded) = has_parent_dir root) ∧
  (∀ c, is_absolute decoded = true → content decoded st = Some c → u64 (Z.of_nat (length c)) →
   fresh config headers decoded (Z.of_nat (length c)) →
   ∃ r, get path endpoint headers = Ok r ∧ hr_status r = 200%Z ∧ hr_body r = c).
Proof.
  split.
  - intros Habs. apply join_dotless; [done|done|].
    apply extract_relative_path_Ok in Hpath as [_ [->|(d&Hd&Hdots)]]; [done|].
    rewrite Hdecode in Hd. by injection Hd as <-.
  - intros c Habs Hc Hlen Hfresh. unfold handle_spa_host. rewrite Hconfig. cbn [ok_or mbind result_bind].
    change (String.eqb "GET" "HEAD") with false. cbv iota. unfold spa_get.
    rewrite Hstore. cbn [mbind result_bind]. rewrite Hpath. cbn [mbind result_bind].
    assert (is_empty relative = false) as -> by (by destruct relative). rewrite Hdecode.
    cbn [ok_or mbind result_bind].
    assert (path_join root decoded = decoded) as -> by (unfold path_join; by rewrite Habs).
    destruct (metadata_of_file _ _ _ Hc) as (m&->&->&_). cbn [negb andb].
    destruct (serve_spa_file_content _ _ config headers _ Hc Hlen Hfresh) as (r&->&Hr&Hb&_). eauto.
Qed.

(** What a path of the request is looked up as. *)
Definition looked_up (path resolved : string) : Prop :=
  ∃ relative, extract_relative_path percent_decode path (ep_path endpoint) = Ok relative ∧
    if is_empty relative then resolved = root
    else ∃ decoded, percent_decode relative = Some decoded ∧ resolved = path_join root decoded.

Lemma spa_getE path resolved headers :
  looked_up path resolved →
  get path endpoint headers
  = let index_path := path_join resolved (spa_index config) in
    if match st_metadata resolved st with Ok m => negb (fm_is_file m) | Err _ => false end
       && is_file_meta (st_metadata index_path st)
    then serve st index_path config headers
    else match serve st resolved config headers with
         | Err (NotFound _) => serve_spa_fallback header_value_ok st root config
         | r => r
         end.
Proof.
  intros (relative&Hrel&Hres). unfold handle_spa_host. rewrite Hconfig. cbn [ok_or mbind result_bind].
  change (String.eqb "GET" "HEAD") with false. cbv iota. unfold spa_get.
  rewrite Hstore. cbn [mbind result_bind]. rewrite Hrel. cbn [mbind result_bind].
  destruct (is_empty relative); [by rewrite Hres|]. destruct Hres as (d&->&->). done.
Qed.

(** C13: routes of the application are answered with its index file. A GET
    request for a path of which the store knows nothing is answered with the
    content of the index file at the root, under the type of that file, with
    the configured status; so is one for a directory without an index file of
    its own. A path that has a file is answered with its content. *)
Theorem spa_get_spec (path resolved : string) (headers : HeaderMap) (index : bytes)
    (Hresolved : looked_up path resolved)
    (Hindex : content (path_join root (spa_index config)) st = Some index) :
  (∀ c, content resolved st = Some c → u64 (Z.of_nat (length c)) →
   fresh config headers resolved (Z.of_nat (length c)) →
   ∃ r, get path endpoint headers = Ok r ∧ hr_status r = 200%Z ∧ hr_body r = c) ∧
  (content resolved st = None →
   is_file_meta (st_metadata (path_join resolved (spa_index config)) st) = false →
   ∃ r, get path endpoint headers = Ok r ∧ hr_status r = status_code (spa_fallback_status config) ∧
     hr_body r = index ∧
     hr_headers r !! "content-type"
       = Some (header_or header_value_ok (mime_from_path (path_join root (spa_index config)))
                 "application/octet-stream")).
Proof.
  split.
  - intros c Hc Hlen Hfresh. rewrite (spa_getE _ _ _ Hresolved). cbv zeta.
    destruct (metadata_of_file _ _ _ Hc) as (m&->&->&_). cbn [negb andb].
    destruct (serve_spa_file_content _ _ config headers _ Hc Hlen Hfresh) as (r&->&Hr&Hb&_). eauto.
  - intros Hnone Hno. rewrite (spa_getE _ _ _ Hresolved). cbv zeta. rewrite Hno, andb_false_r.
    assert (∃ p, serve st resolved config headers = Err (NotFound p)) as [p ->].
    { unfold serve_spa_file. destruct (st_metadata resolved st) as [m|e]; cbn [map_err mbind result_bind]; [|by eexists].
      unfold content in Hnone. destruct (st_read resolved st); [done|]. by eexists. }
    unfold serve_spa_fallback. destruct (metadata_of_file _ _ _ Hindex) as (m&->&_&_).
    apply content_Some in Hindex. rewrite Hindex. cbn [map_err mbind result_bind].
    eexists. split; [done|]. destruct (spa_etag config); (split; [done|]); (split; [done|]); cbn.
    + rewrite !lookup_insert_ne by done. by rewrite lookup_insert_eq.
    + rewrite !lookup_insert_ne by done. by rewrite lookup_insert_eq.
Qed.

(** A HEAD request does not look at the file of the GET request. It joins
    the whole path of the request, with the prefix of the endpoint, neither
    decoded nor checked for parent references, to the root: whatever is there
    is answered for with status 200 and its size, and otherwise the index
    file. So the existence and the size of any file can be asked for. *)
Theorem spa_head_is_unchecked (path : string) (headers : HeaderMap) (m : FileMetadata)
    (Hhead : spa_head_support config = true) (Hrel : trim_start "/" path ≠ "")
    (Hfile : st_metadata (path_join root (trim_start "/" path)) st = Ok m)
    (Hfresh : fresh config headers (path_join root (trim_start "/" path)) (fm_size m)) :
  ∃ r, head_request path endpoint headers = Ok r ∧ hr_status r = 200%Z ∧
    hr_headers r !! "content-length" = Some (header_or header_value_ok (show_Z (fm_size m)) "0").
Proof.
  unfold handle_spa_host. rewrite Hconfig. cbn [ok_or mbind result_bind].
  change (String.eqb "HEAD" "HEAD") with true. cbv iota. rewrite Hhead. unfold handle_spa_head.
  rewrite Hstore. cbn [mbind result_bind].
  assert (is_empty (trim_start "/" path) = false) as -> by (by destruct (trim_start "/" path)).
  rewrite Hfile. eexists. split; [done|]. unfold tagged, fresh in *.
  destruct (spa_etag config); [rewrite Hfresh by done|]; (split; [done|]); cbn.
  - rewrite lookup_insert_ne by done. by rewrite lookup_insert_eq.
  - by rewrite lookup_insert_eq.
Qed.
End spec.

(** ** Entity tags *)

(** An entity tag does not change with the content. The tag of a file is
    its path and its size; when a file is replaced by another content of the
    same length, a client that names the tag it got before is told that the
    file was not modified. *)
Theorem spa_etag_ignores_content {St : Type} `{!Storage St, !StorageLaws St} {HeaderMap : Type}
    (header_str : HeaderMap → string → option string) (header_value_ok : string → bool)
    (config : SpaHostConfig) (path : string) (before after : St) (c c' : bytes) (headers headers' : HeaderMap)
    (Hetag : spa_etag config = true)
    (Hbefore : content path before = Some c) (Hafter : content path after = Some c')
    (Hlen : u64 (Z.of_nat (length c))) (Hsame : length c' = length c)
    (Hvalid : header_value_ok (etag_value path (Z.of_nat (length c))) = true)
    (Hfirst : header_str headers "if-none-match" = None)
    (Hagain : header_str headers' "if-none-match" = Some (etag_value path (Z.of_nat (length c)))) :
  ∃ r r', serve_spa_file header_str header_value_ok before path config headers = Ok r ∧ hr_status r = 200%Z ∧
    hr_headers r !! "etag" = Some (etag_value path (Z.of_nat (length c))) ∧
    serve_spa_file header_str header_value_ok after path config headers' = Ok r' ∧ hr_status r' = 304%Z.
Proof.
  destruct (metadata_of_file _ _ _ Hbefore) as (m&Hm&_&Hsize).
  destruct (metadata_of_file _ _ _ Hafter) as (m'&Hm'&_&Hsize'). rewrite Hsame in Hsize'.
  apply content_Some in Hbefore, Hafter. unfold serve_spa_file.
  rewrite Hm, Hm', Hbefore, Hafter. cbn [map_err mbind result_bind].
  rewrite (Hsize Hlen), (Hsize' Hlen), Hetag. eexists _, _. split; [done|]. unfold tagged, etag_match.
  rewrite Hfirst, Hagain, String.eqb_refl. split; [done|]. split; [|done].
  cbn. rewrite lookup_insert_eq. unfold header_or. by rewrite Hvalid.
Qed.

(** ** Witnesses *)

Definition hex_value (a : ascii) : N :=
  let n := N_of_ascii a in (if n <? 58 then n - 48 else if n <? 71 then n - 55 else n - 87)%N.
Fixpoint decode_percent (s : string) : string :=
  match s with
  | String "%" (String a (String b s)) => String (ascii_of_N (16 * hex_value a + hex_value b)) (decode_percent s)
  | String a s => String a (decode_percent s)
  | "" => ""
  end.

#[local] Instance app_storage : Storage MemoryStorage := memory_storage elements map_to_list render_path.
#[local] Instance app_storage_laws : StorageLaws MemoryStorage := memory_storage_laws elements map_to_list render_path.

Definition app_config : SpaHostConfig := {|
  spa_storage := "site"; spa_index := "index.html"; spa_cache_max_age := 60; spa_cache_rules := [];
  spa_etag := true; spa_head_support := true; spa_fallback_status := 200 |}.
Definition app_endpoint : EndpointConfig :=
  let e := mk_endpoint "/app/*" [Get; Head] ActSpaHost "none" in
  {| ep_path := ep_path e; ep_methods := ep_methods e; ep_action := ep_action e;
     ep_crud := None; ep_proxy := None; ep_static_files := None; ep_spa_host := Some app_config;
     ep_media := None; ep_file_store := None; ep_custom_response := None;
     ep_auth := "none"; ep_roles := Flat []; ep_cors := None; ep_rate_limit := None |}.
Definition app_store : MemoryStorage := {|
  mem_data := {[components "site/index.html" := String.list_byte_of_string "<html>";
                components "site/../secret" := String.list_byte_of_string "key";
                components "/etc/passwd" := String.list_byte_of_string "root"]};
  mem_dirs := {[components "site"]} |}.
Definition app_stores : gmap string MemoryStorage := {["site" := app_store]}.
Definition no_header (_ : ()) (_ : string) : option string := None.

Lemma app_resolved : resolve_store st_root_path app_stores (spa_storage app_config) = Ok (app_store, "site").
Proof. vm_compute. reflexivity. Qed.

Lemma spa_encoded_slash_escapes_root_witness :
  ∃ r, handle_spa_host no_header (λ _, true) (λ s, Some (decode_percent s)) app_stores "GET" "/app/%2Fetc%2Fpasswd"
         app_endpoint tt = Ok r ∧ hr_status r = 200%Z ∧ hr_body r = String.list_byte_of_string "root".
Proof.
  refine (proj2 (spa_encoded_slash_escapes_root no_header (λ _, true) (λ s, Some (decode_percent s)) app_stores
    app_endpoint app_config app_store "site" eq_refl app_resolved "/app/%2Fetc%2Fpasswd" "%2Fetc%2Fpasswd" "/etc/passwd" tt
    _ _ _ _) (String.list_byte_of_string "root") _ _ _ _).
  - discriminate.
  - vm_compute. reflexivity.
  - discriminate.
  - reflexivity.
  - reflexivity.
  - vm_compute. reflexivity.
  - split; vm_compute; discriminate.
  - intros _. reflexivity.
Defined.

Lemma spa_get_spec_witness :
  ∃ r, handle_spa_host no_header (λ _, true) (λ s, Some (decode_percent s)) app_stores "GET" "/app/users/42"
         app_endpoint tt = Ok r ∧ hr_status r = 200%Z ∧ hr_body r = String.list_byte_of_string "<html>".
Proof.
  destruct (proj2 (spa_get_spec no_header (λ _, true) (λ s, Some (decode_percent s)) app_stores
    app_endpoint app_config app_store "site" eq_refl app_resolved "/app/users/42" "site/users/42" tt
    (String.list_byte_of_string "<html>")
    (ex_intro _ "users/42" (conj eq_refl (ex_intro _ "users/42" (conj eq_refl eq_refl)))) eq_refl)
    eq_refl eq_refl) as (r&H1&H2&H3&_).
  exists r. split; [exact H1|]. split; [exact H2|exact H3].
Defined.

Lemma spa_head_is_unchecked_witness :
  ∃ r, handle_spa_host no_header (λ _, true) (λ s, Some (decode_percent s)) app_stores "HEAD" "/../secret"
         app_endpoint tt = Ok r ∧ hr_status r = 200%Z ∧ hr_headers r !! "content-length" = Some "3".
Proof.
  refine (spa_head_is_unchecked no_header (λ _, true) (λ s, Some (decode_percent s)) app_stores
    app_endpoint app_config app_store "site" eq_refl app_resolved "/../secret" tt
    (new_FileMetadata "secret" true 3) eq_refl _ _ _).
  - discriminate.
  - vm_compute. reflexivity.
  - intros _. reflexivity.
Defined.

(** The file with another content of the same length, and the header of a
    client that has the old one. *)
Definition replaced_store : MemoryStorage := {|
  mem_data := {[components "site/index.html" := String.list_byte_of_string "<body>"]}; mem_dirs := ∅ |}.
Definition tag_header (h : option string) (name : string) : option string :=
  if String.eqb name "if-none-match" then h else None.

Lemma spa_etag_ignores_content_witness :
  ∃ r', serve_spa_file tag_header (λ _, true) replaced_store "site/index.html" app_config
          (Some (etag_value "site/index.html" 6)) = Ok r' ∧ hr_status r' = 304%Z.
Proof.
  destruct (spa_etag_ignores_content tag_header (λ _, true) app_config "site/index.html" app_store replaced_store
    (String.list_byte_of_string "<html>") (String.list_byte_of_string "<body>") None
    (Some (etag_value "site/index.html" 6))) as (r&r'&_&_&_&H1&H2).
  - reflexivity.
  - vm_compute. reflexivity.
  - vm_compute. reflexivity.
  - split; vm_compute; discriminate.
  - reflexivity.
  - reflexivity.
  - reflexivity.
  - reflexivity.
  - exists r'. split; [exact H1|exact H2].
Defined.
