(* ===== verification/Proxy.v ===== *)
(** * The reverse proxy

    The handler of src/src/handlers/proxy.rs: the request that goes to the
    upstream server and the response that comes back. Headers are lists of
    names in lower case with their values, in the order of the header map. *)

From Stdlib Require Import Init.Byte.
From S2P Require Import Prelude RustStr Json Config Errors Routing Storage.
Local Open Scope stdpp_scope.

Notation headers := (list (string * string)).

(** A request as the client library is asked to send it, with its timeout in
    seconds, and an answer; the body of an answer may break off. *)
Record upstream_request := {
  up_method : string;
  up_url : string;
  up_headers : headers;
  up_body : bytes;
  up_timeout : Z;
}.
Record upstream_response := {
  ur_status : Z;
  ur_headers : headers;
  ur_content_length : option Z;
  ur_body : result string bytes;
}.
Record proxied := { px_status : Z; px_response_headers : headers; px_body : bytes }.

(** The shared client, where it could be built. Adding a header to a request
    appends it; the error is the text of the library's error. *)
Class ProxyClient (W : Type) := {
  client_built : bool;
  send_upstream : upstream_request → W → W * result string upstream_response;
}.

(** Source: handlers/proxy.rs [HOP_BY_HOP_HEADERS] *)
Definition HOP_BY_HOP_HEADERS : list string :=
  ["host"; "connection"; "transfer-encoding"; "keep-alive"; "upgrade"; "proxy-authorization";
   "proxy-authenticate"; "te"; "trailers"].

Definition is_hop_by_hop (name : string) : bool := bool_decide (name ∈ HOP_BY_HOP_HEADERS).

(** Source: handlers/proxy.rs:64-79 [handle_proxy] *)
Definition rewrite_path (rewrite : option PathRewriteConfig) (incoming_path : string) : string :=
  match rewrite with
  | Some rewrite =>
      let upstream_path :=
        if is_empty (pr_strip_prefix rewrite) then incoming_path
        else default incoming_path (strip_prefix (pr_strip_prefix rewrite) incoming_path) in
      if is_empty (pr_add_prefix rewrite) then upstream_path else pr_add_prefix rewrite +:+ upstream_path
  | None => incoming_path
  end.

(** Source: handlers/proxy.rs:81-91 [handle_proxy] *)
Definition upstream_url (proxy : ProxyConfig) (path : string) (query : option string) : string :=
  let base := trim_end "/" (px_upstream proxy) +:+ rewrite_path (px_path_rewrite proxy) path in
  match query with Some query => base +:+ "?" +:+ query | None => base end.

Section proxy.
Context {W : Type} `{!ProxyClient W}.
(** [HeaderValue::to_str] accepts this value; the parsing of a header name
    and value of the answer; the order of the configured headers. *)
Context (visible_ascii : string → bool) (header_ok : string → string → bool).
Context (iter : gmap string string → headers).

(** Source: handlers/proxy.rs [get_proxy_client] *)
Definition get_proxy_client : result AppError () :=
  if client_built then Ok tt else Err (Internal "Failed to build proxy HTTP client").

(** Source: handlers/proxy.rs:109-121 [handle_proxy] *)
Definition forwarded_headers (proxy : ProxyConfig) (request_headers : headers) : headers :=
  List.filter (λ '(name, v), negb (is_hop_by_hop name) && visible_ascii v) request_headers ++
  iter (px_headers proxy).

(** Source: handlers/proxy.rs:136-146 [handle_proxy] *)
Definition returned_headers (response : upstream_response) : headers :=
  List.filter (λ '(name, v), negb (is_hop_by_hop name) && header_ok name v) (ur_headers response).

(** Source: handlers/proxy.rs:148-168 [handle_proxy] *)
Definition limited_body (max_response : Z) (response : upstream_response) : result AppError bytes :=
  _ ← (match ur_content_length response with
       | Some cl =>
           if (0 <? max_response)%Z && (max_response <? cl)%Z then
             Err (Internal ("Upstream response too large (" +:+ show_Z cl +:+ " bytes, limit " +:+
                            show_Z max_response +:+ ")"))
           else Ok tt
       | None => Ok tt
       end);
  body ← map_err (λ e, Internal ("Failed to read upstream body: " +:+ e)) (ur_body response);
  if (0 <? max_response)%Z && (max_response <? Z.of_nat (length body))%Z then
    Err (Internal "Upstream response body exceeded size limit")
  else Ok body.

(** Source: handlers/proxy.rs [handle_proxy] *)
Definition handle_proxy (method path : string) (query : option string) (request_headers : headers)
    (body : result string bytes) (endpoint : EndpointConfig) : action AppError W proxied :=
  proxy ← lift (ok_or (Internal "Proxy config missing on proxy endpoint") (ep_proxy endpoint));
  body_bytes ← lift (map_err (λ e, Internal ("Failed to read request body: " +:+ e)) body);
  _ ← lift get_proxy_client;
  let upstream_req := {|
    up_method := method; up_url := upstream_url proxy path query;
    up_headers := forwarded_headers proxy request_headers; up_body := body_bytes;
    up_timeout := pt_total (px_timeouts proxy) |} in
  response ← (λ w, let '(w', r) := send_upstream upstream_req w in
                   (w', map_err (λ e, Internal ("Proxy upstream error: " +:+ e)) r));
  response_body ← lift (limited_body (px_max_response_size proxy) response);
  mret {| px_status := ur_status response; px_response_headers := returned_headers response;
          px_body := response_body |}.

(** Source: server/router.rs [handle_proxy_route] *)
Definition handle_proxy_route (iter_endpoints : endpoint_map → list (string * EndpointConfig))
    (configs : endpoint_map) (matched_path method path : string) (query : option string)
    (request_headers : headers) (body : result string bytes) : action AppError W proxied :=
  endpoint ← lift (ok_or (NotFound "Endpoint not found")
                     (get_endpoint_config_for_method iter_endpoints configs matched_path method));
  handle_proxy method path query request_headers body endpoint.
End proxy.

(** ** Correctness of the reverse proxy

    What reaches the upstream server and what comes back, where the request
    goes, and which header it finds first. *)

Section spec.
Context {W : Type} `{!ProxyClient W}.
Context (visible_ascii : string → bool) (header_ok : string → string → bool).
Context (iter : gmap string string → headers).
Notation proxy_request := (handle_proxy visible_ascii header_ok iter).






(** The value a server that reads the first header of a name finds. *)
Definition first_header (name : string) (hs : headers) : option string := assoc name hs.

(** A client overrides a configured header. A header of the request comes
    before the configured one of the same name, so a server that reads the
    first finds what the client chose, such as its own authorization in the
    place of the configured credentials. *)
Theorem client_header_comes_first (proxy : ProxyConfig) (hs : headers) (name v configured : string)
    (Hclient : first_header name hs = Some v)
    (Hname : is_hop_by_hop name = false) (Hvisible : visible_ascii v = true)
    (Hiter : ∀ m, iter m ≡ₚ map_to_list m) (Hconfigured : px_headers proxy !! name = Some configured) :
  first_header name (forwarded_headers visible_ascii iter proxy hs) = Some v ∧
  (name, configured) ∈ forwarded_headers visible_ascii iter proxy hs.
Proof.
  unfold forwarded_headers, first_header in *. split.
  - induction hs as [|[n v0] hs IH]; [done|]. cbn [assoc] in Hclient. cbn [List.filter].
    destruct (decide (name = n)) as [<-|Hne].
    + injection Hclient as ->. rewrite Hname, Hvisible. cbn. by rewrite decide_True.
    + destruct (negb (is_hop_by_hop n) && visible_ascii v0); [|by apply IH].
      rewrite <-app_comm_cons. cbn [assoc]. rewrite decide_False by done. by apply IH.
  - apply elem_of_app. right. rewrite Hiter. by apply elem_of_map_to_list.
Qed.
End spec.

(** ** Where a request goes *)

(** The server a request goes to. The path is appended to the base URL of
    the upstream server as text. Where the rewritten path begins with a
    slash, as without a rewriting or with an added prefix that does, the URL
    continues the base with that slash. Where a prefix that ends with a slash
    is stripped and none is added, what follows it in the request path
    continues the base directly: the client completes the name of the host. *)
Theorem proxy_url_authority (proxy : ProxyConfig) (path : string) (query : option string)
    (Hpath : starts_with "/" path = true) :
  let base := trim_end "/" (px_upstream proxy) in
  (px_path_rewrite proxy = None ∨
   (∃ rw, px_path_rewrite proxy = Some rw ∧ starts_with "/" (pr_add_prefix rw) = true) →
   starts_with (base +:+ "/") (upstream_url proxy path query) = true) ∧
  (∀ prefix rest, px_path_rewrite proxy = Some {| pr_strip_prefix := prefix +:+ "/"; pr_add_prefix := "" |} →
   path = prefix +:+ "/" +:+ rest →
   starts_with (base +:+ rest) (upstream_url proxy path query) = true).
Proof.
  cbv zeta. unfold upstream_url. set (base := trim_end "/" (px_upstream proxy)).
  assert (∀ p, starts_with (base +:+ p) (match query with
            | Some q => (base +:+ rewrite_path (px_path_rewrite proxy) path) +:+ "?" +:+ q
            | None => base +:+ rewrite_path (px_path_rewrite proxy) path end) = true
          ↔ starts_with (base +:+ p) (base +:+ rewrite_path (px_path_rewrite proxy) path +:+
               match query with Some q => "?" +:+ q | None => "" end) = true) as Hurl.
  { intros p. destruct query; [by rewrite app_assoc|]. by rewrite app_nil_r. }
  split.
  - intros Hrw. apply Hurl, starts_with_true.
    assert (∃ t, rewrite_path (px_path_rewrite proxy) path = "/" +:+ t) as [t ->].
    { destruct Hrw as [->|(rw&->&[t Hadd]%starts_with_true)].
      - by apply starts_with_true in Hpath.
      - unfold rewrite_path. rewrite Hadd. cbn [is_empty String.append]. by eexists. }
    eexists. by rewrite !app_assoc.
  - intros prefix rest Hrw ->. apply Hurl, starts_with_true. rewrite Hrw. unfold rewrite_path.
    cbn [pr_strip_prefix pr_add_prefix is_empty].
    assert (is_empty (prefix +:+ "/") = false) as -> by (by destruct prefix).
    assert (strip_prefix (prefix +:+ "/") (prefix +:+ "/" +:+ rest) = Some rest) as ->
      by (apply strip_prefix_Some; by rewrite app_assoc).
    cbn [default from_option id].
    eexists. by rewrite app_assoc.
Qed.

(** ** Witnesses *)

(** An upstream server that answers with what it was sent. *)
#[local] Instance echo : ProxyClient (list upstream_request) := {|
  client_built := true;
  send_upstream req w :=
    (w ++ [req], Ok {| ur_status := 200; ur_headers := up_headers req; ur_content_length := None;
                       ur_body := Ok (up_body req) |}) |}.

Definition api_proxy : ProxyConfig := {|
  px_upstream := "https://api.example.com"; 
  px_path_rewrite := Some {| pr_strip_prefix := "/api/external/"; pr_add_prefix := "" |};
  px_headers := {["authorization" := "Bearer upstream"]};
  px_timeouts := {| pt_connect := 5; pt_read := 30; pt_total := 60 |}; px_max_response_size := 100 |}.
Definition client_headers : headers := [("host", "site"); ("authorization", "Bearer client"); ("accept", "*/*")].


Lemma client_header_comes_first_witness :
  first_header "authorization" (forwarded_headers (λ _, true) map_to_list api_proxy client_headers)
  = Some "Bearer client".
Proof.
  refine (proj1 (client_header_comes_first (λ _, true) map_to_list api_proxy client_headers
    "authorization" "Bearer client" "Bearer upstream" _ _ _ _ _)).
  - reflexivity.
  - reflexivity.
  - reflexivity.
  - intros m. reflexivity.
  - vm_compute. reflexivity.
Defined.

Lemma proxy_url_authority_witness :
  starts_with "https://api.example.com.evil.net/steal"
    (upstream_url api_proxy "/api/external/.evil.net/steal" None) = true.
Proof.
  refine (proj2 (proxy_url_authority api_proxy "/api/external/.evil.net/steal" None eq_refl)
    "/api/external" ".evil.net/steal" eq_refl eq_refl).
Defined.
