(* ===== verification/Router.v ===== *)
(** * The router

    The routes that src/src/server/router.rs registers, in order, with the
    handler of each and the CORS layers around it (src/src/middleware/
    cors.rs). The [axum] router that dispatches on them is not modelled. *)

From S2P Require Import Prelude RustStr Config Errors Responses Routing.
Local Open Scope stdpp_scope.

(** ** CORS layers

    What a [CorsLayer] is configured with. *)

Inductive allow_origin := NoOrigin | AnyOrigin | OriginList (origins : list string).
Inductive allow_headers := NoHeader | AnyHeader | HeaderList (names : list string).

Record CorsLayer := {
  cl_origin : allow_origin;
  cl_methods : list string;
  cl_headers : allow_headers;
  cl_credentials : bool;
  cl_max_age : option Z;
}.

(** Nothing is allowed by [CorsLayer::new()]. *)
Definition new_CorsLayer : CorsLayer := {|
  cl_origin := NoOrigin; cl_methods := []; cl_headers := NoHeader; cl_credentials := false; cl_max_age := None |}.

(** [l.len() == 1 && l[0] == "*"] *)
Definition only_wildcard (l : list string) : bool := bool_decide (l = ["*"]).

Section cors.
(** The parsers of header values, methods and header names. *)
Context (parse_value parse_method parse_name : string → option string).

(** Source: middleware/cors.rs [build_cors_layer] *)
Definition build_cors_layer (config : CorsConfig) : CorsLayer :=
  let layer := new_CorsLayer in
  let origin :=
    if only_wildcard (cors_allowed_origins config) then AnyOrigin
    else match omap parse_value (cors_allowed_origins config) with
         | [] => cl_origin layer
         | origins => OriginList origins
         end in
  let methods := omap parse_method (cors_allowed_methods config) in
  let headers :=
    if only_wildcard (cors_allowed_headers config) then AnyHeader
    else match omap parse_name (cors_allowed_headers config) with
         | [] => cl_headers layer
         | names => HeaderList names
         end in
  {| cl_origin := origin; cl_methods := methods; cl_headers := headers;
     cl_credentials := cors_allow_credentials config; cl_max_age := Some (cors_max_age config) |}.

(** ** Routes *)

Inductive route_handler :=
| HHealth | HReload | HOauth2Authorize | HOauth2Callback | HRevoke | HRegister | HLogin
| HCustomResponse | HCrud | HProxy | HUpload | HStaticFiles | HSpaHost | HSpaNotAllowed
| HMedia | HMediaUpload | HFileStore.

(** A route with the layers around it, the innermost first. *)
Record route := {
  rt_path : string;
  rt_method : HttpMethod;
  rt_handler : route_handler;
  rt_layers : list CorsLayer;
}.

Definition in_layer (layer : CorsLayer) (r : route) : route := {|
  rt_path := rt_path r; rt_method := rt_method r; rt_handler := rt_handler r;
  rt_layers := rt_layers r ++ [layer] |}.

Definition plain_route (path : string) (method : HttpMethod) (handler : route_handler) : route :=
  {| rt_path := path; rt_method := method; rt_handler := handler; rt_layers := [] |}.

(** A layer goes around every route the router has so far.
    Source: server/router.rs [check_use_cors] *)
Definition check_use_cors (app : list route) (path : string) (method_router : HttpMethod * route_handler)
    (cors : option CorsConfig) : list route :=
  let app := app ++ [plain_route path method_router.1 method_router.2] in
  match cors with
  | Some cors_config => map (in_layer (build_cors_layer cors_config)) app
  | None => app
  end.

Definition is_upload_method (method : HttpMethod) : bool := bool_decide (method ∈ [Post; Put; Patch]).

(** The handler of an endpoint for a method.
    Source: server/router.rs:315-485 [add_endpoint_route] *)
Definition endpoint_handler (endpoint : EndpointConfig) (method : HttpMethod) : route_handler :=
  match ep_action endpoint with
  | ActCustomResponse => HCustomResponse
  | ActCrud => HCrud
  | ActProxy => HProxy
  | ActStaticFiles =>
      let has_upload :=
        match ep_static_files endpoint ≫= sf_upload with Some u => up_enabled u | None => false end in
      if has_upload && is_upload_method method then HUpload else HStaticFiles
  | ActSpaHost =>
      if bool_decide (method ∈ [Get; Head; Options]) then HSpaHost else HSpaNotAllowed
  | ActMedia =>
      let has_upload :=
        match ep_media endpoint ≫= media_upload with Some u => (0 <? mu_max_size u)%Z | None => false end in
      if has_upload && is_upload_method method then HMediaUpload else HMedia
  | ActFileStore => HFileStore
  end.

(** Source: server/router.rs [add_endpoint_route] *)
Definition add_endpoint_route (app : list route) (path : string) (method : HttpMethod)
    (endpoint : EndpointConfig) (cors : option CorsConfig) : list route :=
  check_use_cors app path (method, endpoint_handler endpoint method) cors.

(** The methods of an endpoint on one path, in one router. *)
Definition endpoint_routes (path : string) (methods : list HttpMethod) (endpoint : EndpointConfig)
    (cors : CorsConfig) : list route :=
  fold_left (λ app method, add_endpoint_route app path method endpoint (Some cors)) methods [].

(** Source: server/router.rs [register_static_bare_routes] *)
Definition register_static_bare_routes (router : list route) (path : string) (endpoint : EndpointConfig)
    (cors : CorsConfig) : list route :=
  let combined_router := endpoint_routes path (ep_methods endpoint) endpoint cors in
  let combined_router :=
    if bool_decide (Options ∈ ep_methods endpoint) then combined_router
    else add_endpoint_route combined_router path Options endpoint (Some cors) in
  router ++ map (in_layer (build_cors_layer cors)) combined_router.

(** Source: server/router.rs [register_spa_bare_routes] *)
Definition register_spa_bare_routes (router : list route) (path : string) (endpoint : EndpointConfig)
    (cors : CorsConfig) : list route :=
  let combined_router := endpoint_routes path (ep_methods endpoint) endpoint cors in
  let combined_router :=
    if bool_decide (Options ∈ ep_methods endpoint) then combined_router
    else add_endpoint_route combined_router path Options endpoint (Some cors) in
  router ++ map (in_layer (build_cors_layer cors)) combined_router.

(** The path without its wildcard, with and without a slash. *)
Definition bare_paths (path : string) : list string :=
  let bare := trim_end "/" (trim_end_str "{*rest}" path) in
  if is_empty bare then ["/"] else [bare; bare +:+ "/"].

(** Source: server/router.rs [register_all_routes] *)
Definition register_all_routes (endpoint : EndpointConfig) (config : AppConfig) (router : list route)
  : list route :=
  let path := route_path endpoint in
  let endpoint_cors := default (cfg_cors config) (ep_cors endpoint) in
  let combined_router := endpoint_routes path (ep_methods endpoint) endpoint endpoint_cors in
  let router := router ++ map (in_layer (build_cors_layer endpoint_cors)) combined_router in
  let wildcard := match strip_suffix "{*rest}" path with Some _ => true | None => false end in
  let router :=
    if bool_decide (ep_action endpoint = ActStaticFiles) && wildcard then
      fold_left (λ router bare, register_static_bare_routes router bare endpoint endpoint_cors)
        (bare_paths path) router
    else router in
  if bool_decide (ep_action endpoint = ActSpaHost) && wildcard then
    fold_left (λ router bare, register_spa_bare_routes router bare endpoint endpoint_cors)
      (bare_paths path) router
  else router.

Definition when (b : bool) (routes : list route) : list route := if b then routes else [].

(** The routes of the server itself.
    Source: server/router.rs:82-124 [build_router (system routes)] *)
Definition system_routes (config : AppConfig) : list route :=
  let auth := cfg_auth config in
  [plain_route "/_main-serve/health" Get HHealth; plain_route "/_main-serve/reload" Post HReload] ++
  when (match auth_oauth2 auth with Some o => negb (is_empty (oa_authorization_url o)) | None => false end)
    [plain_route "/_main-serve/oauth2/authorize" Get HOauth2Authorize;
     plain_route "/_main-serve/oauth2/callback" Get HOauth2Callback] ++
  when (match auth_jwt auth ≫= jwt_revocation with Some _ => true | None => false end)
    [plain_route "/_main-serve/auth/revoke" Post HRevoke] ++
  when (match auth_register auth with Some r => reg_enabled r | None => false end)
    [plain_route "/_main-serve/register" Post HRegister; plain_route "/_main-serve/login" Post HLogin].

(** Source: server/router.rs:126-130 [build_router (endpoints)] *)
Definition build_routes (config : AppConfig) : list route :=
  fold_left (λ router endpoint, register_all_routes endpoint config router) (cfg_endpoints config)
    (system_routes config).
End cors.

(** ** Fixed responses *)

(** Source: server/router.rs [handle_custom_response_route] *)
Definition handle_custom_response_route (header_value_ok : string → bool)
    (header_name : string → option string)
    (iter : gmap string string → list (string * string))
    (iter_endpoints : endpoint_map → list (string * EndpointConfig)) (configs : endpoint_map)
    (method matched_path : string) : result AppError http_response :=
  endpoint ← ok_or (NotFound "Endpoint not found")
               (get_endpoint_config_for_method iter_endpoints configs matched_path method);
  handle_custom_response header_value_ok header_name iter endpoint.
