(* ===== verification/RouterSpec.v ===== *)
(** * Correctness of the router

    Every route of an endpoint is registered with its handler, and the
    handler finds the configuration of its endpoint; CORS configurations that
    are accepted and cannot be used. *)

From S2P Require Import Prelude RustStr Config Errors Routing Validation ValidationSpec AuthSpec Router.
Local Open Scope stdpp_scope.

Section spec.
Context (parse_value parse_method parse_name : string → option string).
Notation build_cors_layer := (build_cors_layer parse_value parse_method parse_name).
Notation endpoint_routes := (endpoint_routes parse_value parse_method parse_name).
Notation register_all_routes := (register_all_routes parse_value parse_method parse_name).
Notation build_routes := (build_routes parse_value parse_method parse_name).

(** ** The routes of a configuration *)

(** What the router dispatches on, with the handler. *)
Definition target (r : route) : string * HttpMethod * route_handler := (rt_path r, rt_method r, rt_handler r).
Definition targets (rs : list route) : list (string * HttpMethod * route_handler) := map target rs.

Lemma targets_in_layer layer rs : targets (map (in_layer layer) rs) = targets rs.
Proof. unfold targets. rewrite map_map. done. Qed.

Lemma endpoint_routes_targets path methods endpoint cors :
  targets (endpoint_routes path methods endpoint cors)
  = map (λ m, (path, m, endpoint_handler endpoint m)) methods.
Proof.
  unfold Router.endpoint_routes.
  assert (∀ app, targets (fold_left (λ app m, add_endpoint_route parse_value parse_method parse_name app path m
      endpoint (Some cors)) methods app)
    = targets app ++ map (λ m, (path, m, endpoint_handler endpoint m)) methods) as H; [|by rewrite H].
  induction methods as [|m methods IH]; intros app; cbn; [by rewrite List.app_nil_r|].
  rewrite IH. unfold add_endpoint_route, check_use_cors. rewrite targets_in_layer.
  unfold targets. by rewrite map_app, <-List.app_assoc.
Qed.

(** The targets an endpoint adds: its methods on its path first. *)
Lemma register_all_routes_targets endpoint config :
  ∃ more, ∀ router,
    targets (register_all_routes endpoint config router)
    = targets router ++ map (λ m, (route_path endpoint, m, endpoint_handler endpoint m)) (ep_methods endpoint) ++ more.
Proof.
  unfold Router.register_all_routes. set (path := route_path endpoint).
  set (cors := default (cfg_cors config) (ep_cors endpoint)).
  assert (∀ f : list route → string → list route,
    (∀ bare, ∃ own, ∀ router, targets (f router bare) = targets router ++ own) →
    ∀ (b : bool) bares, ∃ own, ∀ router,
      targets (if b then fold_left f bares router else router) = targets router ++ own) as Hfold.
  { intros f Hf b bares. destruct b; [|exists []; intros; by rewrite List.app_nil_r].
    induction bares as [|bare bares IH]; cbn; [exists []; intros; by rewrite List.app_nil_r|].
    destruct IH as [own2 IH], (Hf bare) as [own1 H1]. exists (own1 ++ own2). intros router.
    by rewrite IH, H1, List.app_assoc. }
  destruct (Hfold (λ router bare, register_static_bare_routes parse_value parse_method parse_name router bare endpoint cors))
    with (b := bool_decide (ep_action endpoint = ActStaticFiles)
               && match strip_suffix "{*rest}" path with Some _ => true | None => false end)
         (bares := bare_paths path) as [own1 H1].
  { intros bare. eexists. intros router. unfold register_static_bare_routes, targets. by rewrite map_app. }
  destruct (Hfold (λ router bare, register_spa_bare_routes parse_value parse_method parse_name router bare endpoint cors))
    with (b := bool_decide (ep_action endpoint = ActSpaHost)
               && match strip_suffix "{*rest}" path with Some _ => true | None => false end)
         (bares := bare_paths path) as [own2 H2].
  { intros bare. eexists. intros router. unfold register_spa_bare_routes, targets. by rewrite map_app. }
  exists (own1 ++ own2). intros router. cbv zeta. rewrite H2, H1.
  unfold targets at 1. rewrite map_app. fold (targets router).
  change (map target (map (in_layer (build_cors_layer cors)) (endpoint_routes path (ep_methods endpoint) endpoint cors)))
    with (targets (map (in_layer (build_cors_layer cors)) (endpoint_routes path (ep_methods endpoint) endpoint cors))).
  by rewrite targets_in_layer, endpoint_routes_targets, <-!List.app_assoc.
Qed.

Definition own_targets (e : EndpointConfig) : list (string * HttpMethod * route_handler) :=
  map (λ m, (route_path e, m, endpoint_handler e m)) (ep_methods e).

Lemma fold_routes_targets config es router :
  ∃ parts, targets (fold_left (λ router e, register_all_routes e config router) es router)
             = targets router ++ concat parts ∧
    Forall2 (λ e part, ∃ more, part = own_targets e ++ more) es parts.
Proof.
  revert router. induction es as [|e es IH]; intros router; cbn [fold_left].
  - exists []. split; [by rewrite List.app_nil_r|constructor].
  - destruct (register_all_routes_targets e config) as [more He].
    destruct (IH (register_all_routes e config router)) as (parts&Ht&Hparts).
    exists ((own_targets e ++ more) :: parts). cbn [concat]. rewrite Ht, He, <-List.app_assoc. split; [done|].
    constructor; [by exists more|done].
Qed.

(** No two routes have both path and method in common: the router panics on
    routes that overlap. *)
Definition routes_distinct (rs : list route) : Prop := NoDup (map (λ r, (rt_path r, rt_method r)) rs).

Lemma targets_keys rs : map fst (targets rs) = map (λ r, (rt_path r, rt_method r)) rs.
Proof. unfold targets. by rewrite map_map. Qed.

(** Of two endpoints, one after the other, none has a route of the other. *)
Lemma later_endpoint_apart config l1 e l2 e' m :
  cfg_endpoints config = l1 ++ e :: l2 → routes_distinct (build_routes config) →
  m ∈ ep_methods e → e' ∈ l2 → m ∈ ep_methods e' → route_path e' ≠ route_path e.
Proof.
  intros Hes Hnd Hm He' Hm' Hpath. unfold routes_distinct in Hnd. rewrite <-targets_keys in Hnd.
  unfold Router.build_routes in Hnd.
  destruct (fold_routes_targets config (cfg_endpoints config) (system_routes config)) as (parts&Ht&Hparts).
  rewrite Ht, Hes in *. apply Forall2_app_inv_l in Hparts as (p1&p2&_&Hp2&->).
  apply Forall2_cons_inv_l in Hp2 as (p&p2'&(more&->)&Hp2&->).
  set (sys := targets (system_routes config)) in *. clearbody sys.
  rewrite concat_app, !map_app in Hnd. cbn in Hnd. rewrite !map_app in Hnd.
  apply list.NoDup_app in Hnd as (_&_&Hnd). apply list.NoDup_app in Hnd as (_&_&Hnd).
  apply list.NoDup_app in Hnd as (_&Hdisj&_).
  apply (Hdisj (route_path e, m)).
  - apply elem_of_app. left. apply list_elem_of_fmap. exists (route_path e, m, endpoint_handler e m).
    split; [done|]. unfold own_targets. apply list_elem_of_fmap. by exists m.
  - clear -He' Hm' Hpath Hp2. induction Hp2 as [|e1 part es parts (more&->) _ IH]; [by apply not_elem_of_nil in He'|].
    cbn. rewrite map_app. apply elem_of_app. apply elem_of_cons in He' as [<-|He']; [left|right; by apply IH].
    rewrite map_app. apply elem_of_app. left. rewrite <-Hpath. apply list_elem_of_fmap.
    exists (route_path e', m, endpoint_handler e' m). split; [done|]. apply list_elem_of_fmap. by exists m.
Qed.

(** ** The keys of the endpoint map *)

Definition no_hash (e : EndpointConfig) : Prop := contains_char "#" (route_path e) = false.

Lemma method_key_inj p q m m' :
  contains_char "#" p = false → contains_char "#" q = false →
  p +:+ "#" +:+ method_as_str m = q +:+ "#" +:+ method_as_str m' → p = q ∧ m = m'.
Proof.
  intros Hp Hq H.
  assert (split_once "#" (p +:+ "#" +:+ method_as_str m) = Some (p, method_as_str m)) as H1 by (by apply split_once_Some).
  assert (split_once "#" (q +:+ "#" +:+ method_as_str m') = Some (q, method_as_str m')) as H2 by (by apply split_once_Some).
  rewrite H, H2 in H1. injection H1 as -> Hm. split; [done|]. by destruct m, m'.
Qed.

Lemma to_upper_method m : to_upper (method_as_str m) = method_as_str m.
Proof. by destruct m. Qed.

Lemma trim_end_contains c d s : contains_char c s = false → contains_char c (trim_end d s) = false.
Proof.
  induction s as [|a s IH]; [done|]. cbn. intros [Ha Hs]%orb_false_iff. specialize (IH Hs).
  destruct (trim_end d s); [|cbn in *; by rewrite Ha].
  destruct (Ascii.eqb a d); [done|]. cbn. by rewrite Ha.
Qed.
Lemma trim_end_str_contains c p s : contains_char c s = false → contains_char c (trim_end_str p s) = false.
Proof.
  unfold trim_end_str. generalize (String.length s). intros n. revert s.
  induction n as [|n IH]; intros s Hs; cbn; [done|]. destruct (strip_suffix p s) as [r|] eqn:Hr; [|done].
  apply strip_suffix_Some in Hr as ->. rewrite contains_char_app in Hs. apply orb_false_iff in Hs as [Hs _].
  by apply IH.
Qed.

(** A key of an endpoint with a method in it is that of one of its methods. *)
Lemma endpoint_entries_key e p m :
  no_hash e → contains_char "#" p = false →
  p +:+ "#" +:+ method_as_str m ∈ endpoint_entries e ↔ route_path e = p ∧ m ∈ ep_methods e.
Proof.
  intros He Hp. unfold endpoint_entries. cbv zeta. rewrite elem_of_app, list_elem_of_fmap. split.
  - intros [(m'&Hk&Hm')|Hbare].
    + apply method_key_inj in Hk as [-> ->]; done.
    + exfalso. assert (contains_char "#" (p +:+ "#" +:+ method_as_str m) = false) as Hno.
      { assert (contains_char "#" (trim_end "/" (trim_end_str "{*rest}" (route_path e))) = false) as Hb
          by (apply trim_end_contains, trim_end_str_contains; done).
        destruct (bool_decide _); [|by apply not_elem_of_nil in Hbare].
        destruct (is_empty _); [apply list_elem_of_singleton in Hbare as ->; done|].
        apply elem_of_cons in Hbare as [->|Hbare]; [done|].
        apply list_elem_of_singleton in Hbare as ->. by rewrite contains_char_app, Hb. }
      rewrite contains_char_app in Hno. cbn in Hno. by rewrite orb_true_r in Hno.
  - intros [<- Hm]. left. by exists m.
Qed.

(** C9: a request for a listed method of an endpoint, on the path of the
    endpoint's own route, finds the configuration of that endpoint. Precisely:
    where no two routes have both path and method in common, which the router
    itself insists on, and no path of an endpoint has a [#] in it, then for
    every endpoint and every method in its list there is a route with the
    handler of its action, and looking up the path of that route with that
    method gives this endpoint, whatever the order of the hash map and
    however the wildcards of other endpoints cover the path. Nothing is said
    of the methods the list does not name: a HEAD request that the router
    serves by a GET route finds no configuration
    ([head_of_get_route_finds_none]). Nor is anything said of the bare
    paths that the router adds next to a wildcard route. *)
Theorem routes_find_their_endpoint (iter : endpoint_map → list (string * EndpointConfig)) (config : AppConfig)
    (e : EndpointConfig) (m : HttpMethod)
    (Hdistinct : routes_distinct (build_routes config))
    (Hhash : Forall no_hash (cfg_endpoints config))
    (He : e ∈ cfg_endpoints config) (Hm : m ∈ ep_methods e) :
  (route_path e, m, endpoint_handler e m) ∈ targets (build_routes config) ∧
  get_endpoint_config_for_method iter (build_endpoint_configs (cfg_endpoints config)) (route_path e)
    (method_as_str m) = Some e.
Proof.
  destruct (list_elem_of_split _ _ He) as (l1&l2&Hes). rewrite list.Forall_forall in Hhash. split.
  - unfold Router.build_routes.
    destruct (fold_routes_targets config (cfg_endpoints config) (system_routes config)) as (parts&->&Hparts).
    rewrite Hes in Hparts. apply Forall2_app_inv_l in Hparts as (p1&p2&_&Hp2&->).
    apply Forall2_cons_inv_l in Hp2 as (p&p2'&(more&->)&_&->).
    rewrite concat_app. cbn [concat]. apply elem_of_app. right. apply elem_of_app. right.
    apply elem_of_app. left. apply elem_of_app. left. unfold own_targets. apply list_elem_of_fmap. by exists m.
  - unfold get_endpoint_config_for_method. rewrite to_upper_method.
    assert (build_endpoint_configs (cfg_endpoints config) !! (route_path e +:+ "#" +:+ method_as_str m) = Some e)
      as ->; [|done].
    apply build_endpoint_configs_lookup. exists l1, l2. split; [done|]. split.
    + apply endpoint_entries_key; [by apply Hhash|by apply Hhash|done].
    + intros e' He' [Hpath Hm']%endpoint_entries_key; [| |by apply Hhash].
      * by eapply later_endpoint_apart.
      * apply Hhash. rewrite Hes. apply elem_of_app. right. by right.
Qed.
End spec.

(** ** CORS *)

(** What [tower_http] documents of a layer: one that allows credentials
    together with every header, and one with a wildcard in a list of origins,
    make the program panic. *)
Class CorsUsable (usable : CorsLayer → bool) : Prop := {
  credentials_need_headers l : cl_credentials l = true → cl_headers l = AnyHeader → usable l = false;
  wildcard_not_in_list l origins : cl_origin l = OriginList origins → "*" ∈ origins → usable l = false;
}.

(** CORS configurations that are accepted and crash the server. The
    validation refuses a wildcard origin with credentials and nothing else.
    A configuration that allows credentials and every header, and one that
    lists a wildcard next to another origin, pass it; the layer that is built
    for them cannot be used, so the server panics while it starts. *)
Theorem accepted_cors_can_panic (parse_value parse_method parse_name : string → option string)
    (usable : CorsLayer → bool) `{!CorsUsable usable} (cors : CorsConfig) (label : string)
    (Hparse : parse_value "*" = Some "*") :
  (cors_allow_credentials cors = true → "*" ∉ cors_allowed_origins cors → cors_allowed_headers cors = ["*"] →
   validate_cors cors label = [] ∧
   usable (build_cors_layer parse_value parse_method parse_name cors) = false) ∧
  (cors_allow_credentials cors = false → "*" ∈ cors_allowed_origins cors →
   1 < length (cors_allowed_origins cors) →
   validate_cors cors label = [] ∧
   usable (build_cors_layer parse_value parse_method parse_name cors) = false).
Proof.
  split.
  - intros Hc Ho Hh. split; [apply validate_cors_nil; intros [Hin _]; by apply Ho|].
    apply credentials_need_headers; [done|]. unfold build_cors_layer. rewrite Hh. done.
  - intros Hc Ho Hlen. split; [apply validate_cors_nil; intros [_ ?]; congruence|].
    unfold build_cors_layer, only_wildcard. rewrite bool_decide_eq_false_2 by (intros H; by rewrite H in Hlen; cbn in Hlen; lia).
    assert ("*" ∈ omap parse_value (cors_allowed_origins cors)) as Hin by (apply list_elem_of_omap; by exists "*").
    destruct (omap parse_value (cors_allowed_origins cors)) as [|o os] eqn:Horigins; [by apply not_elem_of_nil in Hin|].
    by eapply wildcard_not_in_list.
Qed.

(** ** Sample runs *)

(** Whether a layer can be used, as the library documents it. *)
Definition sample_usable (l : CorsLayer) : bool :=
  match cl_headers l with AnyHeader => negb (cl_credentials l) | _ => true end &&
  match cl_origin l with OriginList origins => negb (existsb (String.eqb "*") origins) | _ => true end.

#[local] Instance sample_usable_laws : CorsUsable sample_usable.
Proof.
  split.
  - intros l Hc Hh. unfold sample_usable. by rewrite Hh, Hc.
  - intros l origins Ho Hin. unfold sample_usable. rewrite Ho, andb_comm.
    assert (existsb (String.eqb "*") origins = true) as ->; [|done].
    apply existsb_exists. exists "*". split; [by apply list_elem_of_In|apply String.eqb_refl].
Defined.

(** A configuration with CORS settings [origins], [headers] and
    [credentials]. *)
Definition sample_cors (origins headers : list string) (credentials : bool) : CorsConfig := {|
  cors_allowed_origins := origins; cors_allowed_methods := ["GET"]; cors_allowed_headers := headers;
  cors_allow_credentials := credentials; cors_max_age := 60 |}.

Lemma accepted_cors_can_panic_witness :
  validate_cors (sample_cors ["https://a.example"] ["*"] true) "cors" = [] ∧
  sample_usable (build_cors_layer Some Some Some (sample_cors ["https://a.example"] ["*"] true)) = false ∧
  validate_cors (sample_cors ["*"; "https://a.example"] ["x-id"] false) "cors" = [] ∧
  sample_usable (build_cors_layer Some Some Some (sample_cors ["*"; "https://a.example"] ["x-id"] false)) = false.
Proof.
  apply and_assoc. split.
  - apply (proj1 (accepted_cors_can_panic Some Some Some sample_usable
      (sample_cors ["https://a.example"] ["*"] true) "cors" eq_refl)); [done| |done].
    intros H. apply list_elem_of_singleton in H. discriminate H.
  - apply (proj2 (accepted_cors_can_panic Some Some Some sample_usable
      (sample_cors ["*"; "https://a.example"] ["x-id"] false) "cors" eq_refl)); [done|left|cbn; lia].
Defined.

(** Two endpoints, of which the second has a wildcard that covers the first. *)
Definition two_endpoints : AppConfig := {|
  cfg_server := default_ServerConfig; cfg_logging := cfg_logging sample_config;
  cfg_cors := default_CorsConfig; cfg_rate_limit := default_RateLimitConfig;
  cfg_databases := ∅; cfg_tables := []; cfg_auth := cfg_auth sample_config;
  cfg_endpoints := [mk_endpoint "/api/posts" [Get; Post] ActCrud "jwt";
                    mk_endpoint "/api/*" [Get; Delete] ActCustomResponse "none"];
  cfg_stores := ∅; cfg_role_hierarchy := None; cfg_global_schemas := None |}.

Lemma routes_find_their_endpoint_witness :
  ("/api/posts", Post, HCrud) ∈ targets (build_routes Some Some Some two_endpoints) ∧
  get_endpoint_config_for_method map_to_list (build_endpoint_configs (cfg_endpoints two_endpoints)) "/api/posts"
    "POST" = Some (mk_endpoint "/api/posts" [Get; Post] ActCrud "jwt").
Proof.
  apply (routes_find_their_endpoint Some Some Some map_to_list two_endpoints
    (mk_endpoint "/api/posts" [Get; Post] ActCrud "jwt") Post).
  - apply (bool_decide_unpack _). vm_compute. exact I.
  - repeat constructor.
  - left.
  - right. left.
Defined.

(** The router serves a HEAD request by the route of a GET. The lookup does
    not know that: on the path of an endpoint that lists GET only, it finds
    nothing for HEAD, and the handlers answer 404. *)
Example head_of_get_route_finds_none :
  get_endpoint_config_for_method map_to_list
    (build_endpoint_configs [mk_endpoint "/api/posts" [Get] ActCrud "jwt"]) "/api/posts" "GET"
    = Some (mk_endpoint "/api/posts" [Get] ActCrud "jwt") ∧
  get_endpoint_config_for_method map_to_list
    (build_endpoint_configs [mk_endpoint "/api/posts" [Get] ActCrud "jwt"]) "/api/posts" "HEAD" = None.
Proof. by vm_compute. Qed.
