(* ===== verification/Pipeline.v ===== *)
(** * The middleware pipeline

    What a request passes on its way to a handler: the rate limiter,
    authentication, the logging of bodies (src/src/middleware/logging.rs) and
    the limit on bodies (src/src/middleware/body_limit.rs), in the order in
    which src/src/server/router.rs layers them. A layer takes the service it
    wraps. Compression, tracing and request identifiers are left out. *)

From Stdlib Require Import Init.Byte.
From S2P Require Import Prelude RustStr Json Config Errors Roles Routing Storage Credentials Auth RateLimit.
Local Open Scope stdpp_scope.

(** ** Bodies

    What the HTTP library does with a body: it reads it up to a limit, reads
    all of it ([None] when it breaks off), and makes one of bytes. *)

Class HttpBody (B : Type) := {
  to_bytes : B → Z → result string bytes;
  collect : B → option bytes;
  from_bytes : bytes → B;
}.

Class HttpBodyLaws (B : Type) `{!HttpBody B} := {
  limit_error : string;
  collect_from_bytes (bs : bytes) : collect (from_bytes bs) = Some bs;
  to_bytes_within (b : B) (bs : bytes) (n : Z) :
    collect b = Some bs → (Z.of_nat (length bs) ≤ n)%Z → to_bytes b n = Ok bs;
  to_bytes_beyond (b : B) (bs : bytes) (n : Z) :
    collect b = Some bs → (n < Z.of_nat (length bs))%Z → to_bytes b n = Err limit_error;
  to_bytes_broken (b : B) (n : Z) : collect b = None → ∃ e, to_bytes b n = Err e;
}.

Section pipeline.
Context {HeaderMap : Type} (header_str : HeaderMap → string → option string).
Context {B : Type} `{!HttpBody B}.

Notation http_request := (@http_request HeaderMap).

(** A request on its way: what the middleware reads, its body, the user that
    authentication puts into its extensions, and the address of the peer. *)
Record incoming := {
  in_head : http_request;
  in_body : B;
  in_user : option AuthInfo;
  in_addr : option SocketAddr;
}.

Definition with_body (body : B) (req : incoming) : incoming := {|
  in_head := in_head req; in_body := body; in_user := in_user req; in_addr := in_addr req |}.
Definition with_user (user : AuthInfo) (req : incoming) : incoming := {|
  in_head := in_head req; in_body := in_body req; in_user := Some user; in_addr := in_addr req |}.

Record answer := { an_status : Z; an_headers : list (string * string); an_body : B }.

Definition with_answer_body (body : B) (a : answer) : answer := {|
  an_status := an_status a; an_headers := an_headers a; an_body := body |}.

(** What is logged of a body. *)
Record log_event := {
  le_direction : string;
  le_subject : string;
  le_uri : string;
  le_size : Z;
  le_truncated : bool;
  le_text : string;
}.

(** The state the layers share, around that of the handlers. *)
Record world {W : Type} := { wd_limiter : RateLimiter; wd_log : list log_event; wd_inner : W }.
Arguments world : clear implicits.

(** A service; it answers nothing when it panics. *)
Definition service (W : Type) : Type := incoming → W → W * option answer.

Section layers.
(** [HeaderValue::from_str] accepts this text; the text of the body of an
    error; the texts of a URI and of a status; [String::from_utf8_lossy]. *)
Context (header_value_ok : string → bool) (error_json : ErrorDetail → bytes).
Context (show_uri : http_request → string) (show_status : Z → string) (from_utf8_lossy : bytes → string).

(** [AppError::into_response] with its body. *)
Definition error_answer (e : AppError) : answer :=
  let r := into_response header_value_ok e in
  {| an_status := rsp_status r; an_headers := ("content-type", "application/json") :: rsp_headers r;
     an_body := from_bytes (error_json (rsp_error r)) |}.

(** ** The limit on bodies *)

Definition too_large (size max_size : Z) : AppError :=
  Body ("Request body size " +:+ show_Z size +:+ " exceeds maximum allowed size " +:+ show_Z max_size).

Definition content_length (req : incoming) : option Z :=
  header_str (req_headers (in_head req)) "content-length" ≫= parse_u64.

(** The body that is passed on.
    Source: middleware/body_limit.rs:37-69 [body_limit_middleware] *)
Definition limited_body (max_size : Z) (req : incoming) : result AppError B :=
  match content_length req with
  | Some content_length =>
      if (max_size <? content_length)%Z then Err (too_large content_length max_size)
      else Ok (in_body req)
  | None =>
      bytes ← map_err Body (to_bytes (in_body req) max_size);
      if (max_size <? Z.of_nat (length bytes))%Z then Err (too_large (Z.of_nat (length bytes)) max_size)
      else Ok (from_bytes bytes)
  end.

(** Source: middleware/body_limit.rs [body_limit_middleware] *)
Definition body_limit_middleware {W} (config : AppConfig) (next : service W) : service W :=
  λ req w,
    match limited_body (srv_max_body_size (cfg_server config)) req with
    | Ok body => next (with_body body req) w
    | Err e => (w, Some (error_answer e))
    end.

(** ** The logging of bodies *)

(** Source: middleware/logging.rs [log_body] *)
Definition log_body (direction uri method_or_status : string) (bytes : bytes) (max_size : Z)
  : list log_event :=
  match bytes with
  | [] => []
  | _ =>
      let truncated := (max_size <? Z.of_nat (length bytes))%Z in
      let body_text := from_utf8_lossy (if truncated then take (Z.to_nat max_size) bytes else bytes) in
      [{| le_direction := direction; le_subject := method_or_status; le_uri := uri;
          le_size := Z.of_nat (length bytes); le_truncated := truncated; le_text := body_text |}]
  end.

Definition add_log {W} (events : list log_event) (w : world W) : world W := {|
  wd_limiter := wd_limiter w; wd_log := wd_log w ++ events; wd_inner := wd_inner w |}.

(** A body that breaks off is taken for an empty one.
    Source: middleware/logging.rs:48-67 [body_logging_middleware] *)
Definition log_request {W} (logging : LoggingConfig) (req : incoming) (w : world W) : incoming * world W :=
  if log_request_body logging then
    let bytes := default [] (collect (in_body req)) in
    (with_body (from_bytes bytes) req,
     add_log (log_body "request" (show_uri (in_head req)) (req_method (in_head req)) bytes
                (log_max_body_log_size logging)) w)
  else (req, w).

(** Source: middleware/logging.rs:73-92 [body_logging_middleware] *)
Definition log_response {W} (logging : LoggingConfig) (run : world W * option answer)
  : world W * option answer :=
  match run with
  | (w, Some response) =>
      if log_response_body logging then
        let bytes := default [] (collect (an_body response)) in
        (add_log (log_body "response" "" (show_status (an_status response)) bytes
                    (log_max_body_log_size logging)) w,
         Some (with_answer_body (from_bytes bytes) response))
      else (w, Some response)
  | (w, None) => (w, None)
  end.

(** Source: middleware/logging.rs [body_logging_middleware] *)
Definition body_logging_middleware {W} (config : AppConfig) (next : service (world W)) : service (world W) :=
  λ req w,
    let '(req, w) := log_request (cfg_logging config) req w in
    log_response (cfg_logging config) (next req w).

(** ** Authentication and the rate limit *)

Context (jwt_decode : string → Validation → string → result string value).
Context (base64_decode : string → option (option string)).
Context (verify_hash : string → string → option password_check).
Context (get_userinfo_reply : string → string → http_reply).
Context (iter : endpoint_map → list (string * EndpointConfig)).
Context {St : Type} `{!RevocationStoreBackend St}.

Notation authenticated :=
  (auth_middleware header_str jwt_decode base64_decode verify_hash get_userinfo_reply iter).

(** Source: server/router.rs:147-152 [build_router (auth_middleware)] *)
Definition auth_layer {W} (state : auth_state St) (next : service W) : service W :=
  λ req w,
    match authenticated state (in_head req) with
    | Next None => next req w
    | Next (Some auth_info) => next (with_user auth_info req) w
    | Refused e => (w, Some (error_answer e))
    end.

Definition with_limiter {W} (limiter : RateLimiter) (w : world W) : world W := {|
  wd_limiter := limiter; wd_log := wd_log w; wd_inner := wd_inner w |}.

(** Source: middleware/rate_limit.rs:148-171 [rate_limit_middleware] *)
Definition rate_limit_layer {W} (config : AppConfig) (configs : endpoint_map) (now : Z)
    (next : service (world W)) : service (world W) :=
  λ req w,
    let endpoint := get_endpoint_config iter configs (req_path (in_head req)) in
    let '(limiter, checked) :=
      rate_limit_middleware header_str endpoint (cfg_rate_limit config) (req_headers (in_head req))
        (in_addr req) now (wd_limiter w) in
    let w := with_limiter limiter w in
    match checked with
    | Returns (Ok _) => next req w
    | Returns (Err e) => (w, Some (error_answer e))
    | Panics => (w, None)
    end.

(** A handler keeps to its own state. *)
Definition routed {W} (handler : service W) : service (world W) :=
  λ req w,
    let '(inner, response) := handler req (wd_inner w) in
    ({| wd_limiter := wd_limiter w; wd_log := wd_log w; wd_inner := inner |}, response).

(** The layers around the routes; each goes around those before it. The
    layers are chosen by the configuration at start-up, and read the running
    one at every request.
    Source: server/router.rs:130-159 [build_router (layers)] *)
Definition build_service {W} (config running : AppConfig) (state : auth_state St) (now : Z)
    (handler : service W) : service (world W) :=
  let router := body_limit_middleware running (routed handler) in
  let router :=
    if log_request_body (cfg_logging config) || log_response_body (cfg_logging config)
    then body_logging_middleware running router else router in
  let router := auth_layer state router in
  rate_limit_layer running (as_endpoint_configs state) now router.
End layers.
End pipeline.
Arguments incoming : clear implicits.
Arguments answer : clear implicits.
Arguments service : clear implicits.
Arguments world : clear implicits.
