(* ===== verification/PipelineSpec.v ===== *)
(** * Correctness of the middleware pipeline

    What a handler can count on when it runs; the logging of bodies changes
    nothing for whole ones, and turns broken ones into empty ones; the rate
    limits of endpoints without a wildcard. *)

From Stdlib Require Import Init.Byte.
From S2P Require Import Prelude RustStr Json Config Errors Roles RolesSpec Routing Storage Credentials Auth AuthSpec RateLimit Pipeline.
Local Open Scope stdpp_scope.

Section spec.
Context {HeaderMap : Type} (header_str : HeaderMap → string → option string).
Context {B : Type} `{!HttpBody B, !HttpBodyLaws B}.
Context (header_value_ok : string → bool) (error_json : ErrorDetail → bytes).
Context (show_uri : @http_request HeaderMap → string) (show_status : Z → string)
  (from_utf8_lossy : bytes → string).
Context (jwt_decode : string → Validation → string → result string value).
Context (base64_decode : string → option (option string)).
Context (verify_hash : string → string → option password_check).
Context (get_userinfo_reply : string → string → http_reply).
Context (iter : endpoint_map → list (string * EndpointConfig)).
Context {St : Type} `{!RevocationStoreBackend St}.
Context {W : Type}.

Notation incoming := (@incoming HeaderMap B).
Notation answer := (@answer B).
Notation world := (@world W).
Notation build_service := (build_service header_str header_value_ok error_json show_uri show_status
  from_utf8_lossy jwt_decode base64_decode verify_hash get_userinfo_reply iter).
Notation body_logging := (body_logging_middleware (B := B) show_uri show_status from_utf8_lossy).
Notation body_limit := (body_limit_middleware (B := B) header_str header_value_ok error_json).
Notation auth := (auth_layer (B := B) header_str header_value_ok error_json jwt_decode base64_decode
  verify_hash get_userinfo_reply iter).
Notation rate_limit := (rate_limit_layer (B := B) header_str header_value_ok error_json iter).
Notation error_answer := (error_answer (B := B) header_value_ok error_json).

(** ** Requests and answers up to the representation of their bodies

    Two whole bodies of the same bytes; the relation is partial, a body that
    breaks off is not even related to itself. *)
Definition same_body (b b' : B) : Prop := ∃ bs, collect b = Some bs ∧ collect b' = Some bs.

Global Instance same_body_per : RelationClasses.PER same_body.
Proof.
  split; [intros b b' (bs&?&?); by exists bs|].
  intros b1 b2 b3 (bs&H1&H2) (bs'&H2'&H3). rewrite H2 in H2'. injection H2' as ->. by exists bs'.
Qed.

Definition same_request (r r' : incoming) : Prop :=
  in_head r = in_head r' ∧ in_user r = in_user r' ∧ in_addr r = in_addr r' ∧ same_body (in_body r) (in_body r').
Definition same_answer (a a' : answer) : Prop :=
  an_status a = an_status a' ∧ an_headers a = an_headers a' ∧ same_body (an_body a) (an_body a').

(** Worlds that differ in what was logged. *)
Definition same_world (w w' : world) : Prop :=
  wd_limiter w = wd_limiter w' ∧ wd_inner w = wd_inner w'.
Definition same_run {X} (R : X → X → Prop) (x y : X * option answer) : Prop :=
  R x.1 y.1 ∧ option_Forall2 same_answer x.2 y.2.

Global Instance same_request_per : RelationClasses.PER same_request.
Proof.
  split; [intros r r' (?&?&?&?)|intros r1 r2 r3 (?&?&?&?) (?&?&?&?)]; split_and!; first [by symmetry|by etrans].
Qed.
Global Instance same_answer_per : RelationClasses.PER same_answer.
Proof.
  split; [intros a a' (?&?&?)|intros a1 a2 a3 (?&?&?) (?&?&?)]; split_and!; first [by symmetry|by etrans].
Qed.
Global Instance same_world_equiv : Equivalence same_world.
Proof.
  split; [done|intros w w' []; by split|intros w1 w2 w3 [] []; split; by etrans].
Qed.
Global Instance same_run_per {X} (R : relation X) : RelationClasses.PER R → RelationClasses.PER (same_run R).
Proof.
  intros HR. split; [intros x y [? Ho]|intros x y z [? Ho] [? Ho']]; (split; [first [by symmetry|by etrans]|]).
  - destruct Ho; constructor. by symmetry.
  - destruct Ho; inversion Ho'; subst; constructor. by etrans.
Qed.

(** Two services that do the same, whatever was logged. *)
Definition same_service : relation (service HeaderMap B world) :=
  (same_request ==> same_world ==> same_run same_world)%signature.

Global Instance same_service_per : RelationClasses.PER same_service.
Proof. repeat apply Morphisms.respectful_per; apply _. Qed.

(** A handler that sees of a body its bytes only, and answers with whole
    bodies. *)
Definition sees_bytes (h : service HeaderMap B W) : Prop :=
  Proper (same_request ==> eq ==> same_run eq) h.

Lemma from_bytes_same b bs : collect b = Some bs → same_body (from_bytes bs) b.
Proof. intros Hb. exists bs. by rewrite collect_from_bytes. Qed.

Lemma error_answer_same e : same_answer (error_answer e) (error_answer e).
Proof. split_and!; [done..|]. eexists. cbn. by rewrite collect_from_bytes. Qed.

Lemma refuse_same w w' e : same_world w w' →
  same_run same_world (w, Some (error_answer e)) (w', Some (error_answer e)).
Proof. intros Hw. split; [done|]. constructor. apply error_answer_same. Qed.

Lemma routed_same h : sees_bytes h → same_service (routed h) (routed h).
Proof.
  intros Hh r r' Hr w w' [Hl Hi]. unfold routed. rewrite <-Hi.
  destruct (Hh r r' Hr (wd_inner w) _ eq_refl) as [Hw Ha].
  destruct (h r (wd_inner w)), (h r' (wd_inner w)). cbn in *. split; [|done]. split; [done|]. cbn. exact Hw.
Qed.

Lemma content_length_same r r' : same_request r r' →
  content_length header_str r = content_length header_str r'.
Proof. intros [Hh _]. unfold content_length. by rewrite Hh. Qed.

(** The limit does the same for bodies of the same bytes. *)
Lemma limited_body_same n r r' : same_request r r' →
  match limited_body header_str n r, limited_body header_str n r' with
  | Ok b, Ok b' => same_body b b'
  | Err e, Err e' => e = e'
  | _, _ => False
  end.
Proof.
  intros Hr. unfold limited_body. rewrite <-(content_length_same r r' Hr).
  destruct Hr as (_&_&_&bs&Hb&Hb').
  destruct (content_length header_str r) as [len|].
  - destruct (n <? len)%Z; [done|]. by exists bs.
  - destruct (Z.le_gt_cases (Z.of_nat (length bs)) n).
    + rewrite (to_bytes_within _ bs), (to_bytes_within _ bs) by done. cbn.
      destruct (_ <? _)%Z; [done|]. exists bs. by rewrite collect_from_bytes.
    + by rewrite (to_bytes_beyond _ bs), (to_bytes_beyond _ bs) by (done || lia).
Qed.

Lemma body_limit_same running next next' :
  same_service next next' → same_service (body_limit running next) (body_limit running next').
Proof.
  intros Hnext r r' Hr w w' Hw. unfold body_limit_middleware.
  pose proof (limited_body_same (srv_max_body_size (cfg_server running)) r r' Hr) as Hb.
  destruct (limited_body _ _ r) as [b|e], (limited_body _ _ r') as [b'|e']; try done.
  - apply Hnext; [|done]. destruct Hr as (?&?&?&_). by split_and!.
  - subst e'. by apply refuse_same.
Qed.

(** Logging does nothing to whole bodies. *)
Lemma log_request_same logging r w :
  same_request r r → same_request (log_request show_uri from_utf8_lossy logging r w).1 r ∧
    same_world (log_request show_uri from_utf8_lossy logging r w).2 w.
Proof.
  intros Hr. unfold log_request. destruct (log_request_body logging); [|done].
  destruct Hr as (_&_&_&bs&Hb&_). split; [|done]. split_and!; [done..|]. cbn. rewrite Hb. by apply from_bytes_same.
Qed.

Lemma log_response_same logging x y :
  same_run same_world x y → same_run same_world (log_response show_status from_utf8_lossy logging x) y.
Proof.
  destruct x as [w o], y as [w' o']. intros [Hw Ho]. unfold log_response. cbn in *.
  destruct Ho as [a a' Ha|]; [|by split; [|constructor]].
  destruct (log_response_body logging); [|by split; [|constructor]].
  destruct Ha as (?&?&bs&Hb&Hb'). rewrite Hb. split; [done|]. constructor. split_and!; [done..|].
  exists bs. cbn. by rewrite collect_from_bytes.
Qed.

Lemma body_logging_same running next :
  same_service next next → same_service (body_logging running next) next.
Proof.
  intros Hnext r r' Hr w w' Hw. unfold body_logging_middleware.
  assert (same_request r r) as Hrr by (etrans; [|symmetry]; done).
  destruct (log_request_same (cfg_logging running) r w Hrr) as [Hr1 Hw1].
  destruct (log_request _ _ _ r w) as [r1 w1]. apply log_response_same, Hnext; by etrans.
Qed.

Lemma auth_same state next next' :
  same_service next next' → same_service (auth state next) (auth state next').
Proof.
  intros Hnext r r' Hr w w' Hw. unfold auth_layer. destruct Hr as (Hh&Hu&Ha&Hb). rewrite <-Hh.
  destruct (auth_middleware _ _ _ _ _ _ _ _) as [[info|]|e]; [apply Hnext; [by split_and!|done]..|by apply refuse_same].
Qed.

Lemma rate_limit_same config configs now next next' :
  same_service next next' → same_service (rate_limit config configs now next) (rate_limit config configs now next').
Proof.
  intros Hnext r r' Hr w w' [Hl Hi]. unfold rate_limit_layer. pose proof Hr as (Hh&Hu&Ha&Hb).
  rewrite <-Hh, <-Ha, <-Hl. destruct (rate_limit_middleware _ _ _ _ _ _ _) as [limiter [[[]|e]|]].
  - by apply Hnext.
  - by apply refuse_same.
  - split; [done|constructor].
Qed.

(** ** What a handler can count on *)

(** A request [r] in which [req] may reach a handler: its head, a body within
    the limit, and where the endpoint asks for authentication a user who is
    authenticated and has one of the roles. *)
Record admissible (running : AppConfig) (state : auth_state St) (req r : incoming) : Prop := {
  adm_head : in_head r = in_head req;
  adm_body bs : collect (in_body r) = Some bs →
    (Z.of_nat (length bs) ≤ srv_max_body_size (cfg_server running))%Z;
  adm_user e : skipped (req_path (in_head req)) = false →
    get_endpoint_config_for_method iter (as_endpoint_configs state) (req_path (in_head req))
      (req_method (in_head req)) = Some e →
    ep_auth e ≠ "none" →
    ∃ user, in_user r = Some user ∧
      authenticate header_str jwt_decode base64_decode verify_hash get_userinfo_reply (ep_auth e)
        (as_auth state) (req_headers (in_head req)) (raw_query_params (req_query (in_head req)))
        (as_revocation_store state) = Ok user ∧
      check_roles user (roles_for e (req_method (in_head req))) (as_role_inheritance state) = Ok tt;
}.

(** The length of the body is not more than what was announced. *)
Definition framed (r : incoming) : Prop :=
  ∀ n bs, content_length header_str r = Some n → collect (in_body r) = Some bs →
    (Z.of_nat (length bs) ≤ n)%Z ∨ bs = [].

Lemma limited_body_bound n r b bs :
  (0 ≤ n)%Z → framed r → limited_body header_str n r = Ok b → collect b = Some bs →
  (Z.of_nat (length bs) ≤ n)%Z.
Proof.
  intros Hn Hf Hb Hbs. unfold limited_body in Hb. destruct (content_length header_str r) as [len|] eqn:Hlen.
  - destruct (n <? len)%Z eqn:Hlt; [done|]. injection Hb as <-. apply Z.ltb_ge in Hlt.
    destruct (Hf len bs) as [H| ->]; [done..|lia|done].
  - apply bind_Ok in Hb as (bytes&_&Hb). destruct (n <? _)%Z eqn:Hlt; [done|]. injection Hb as <-.
    rewrite collect_from_bytes in Hbs. injection Hbs as <-. by apply Z.ltb_ge.
Qed.

Lemma log_request_framed logging r (w : world) : framed r → framed (log_request show_uri from_utf8_lossy logging r w).1.
Proof.
  unfold log_request. destruct (log_request_body logging); [|done].
  intros Hf n bs Hn Hbs. cbn in Hbs. rewrite collect_from_bytes in Hbs. injection Hbs as <-.
  destruct (collect (in_body r)) as [bs|] eqn:Hb; [|by right]. by apply Hf.
Qed.

Lemma log_request_keeps logging r (w : world) :
  in_head (log_request show_uri from_utf8_lossy logging r w).1 = in_head r ∧
  in_user (log_request show_uri from_utf8_lossy logging r w).1 = in_user r ∧
  wd_inner (log_request show_uri from_utf8_lossy logging r w).2 = wd_inner w.
Proof. unfold log_request. by destruct (log_request_body logging). Qed.

(** A request within the limits that [req] may become: any body within the
    limit makes it admissible. *)
Definition admissible_but_body running state req (r : incoming) : Prop :=
  ∀ b, (∀ bs, collect b = Some bs → (Z.of_nat (length bs) ≤ srv_max_body_size (cfg_server running))%Z) →
    admissible running state req (with_body b r).

(** What a service does with a request, whatever the handler: it answers
    itself, and leaves the state of the handlers as it was; or it runs the
    handler once, on an admissible request, and finishes its answer. *)
Definition shaped running state (req r : incoming) (w : world) (s : service HeaderMap B W → service HeaderMap B world)
  : Prop :=
  (∃ w1 a, wd_inner w1 = wd_inner w ∧ ∀ h, s h r w = (w1, a)) ∨
  (∃ r1 k, admissible running state req r1 ∧ (∀ run, wd_inner (k run).1 = run.1) ∧
     ∀ h, s h r w = k (h r1 (wd_inner w))).

Lemma limit_shaped running state req r w :
  (0 ≤ srv_max_body_size (cfg_server running))%Z → framed r → admissible_but_body running state req r →
  shaped running state req r w (λ h, body_limit running (routed h)).
Proof.
  intros Hmax Hf Hadm. unfold shaped, body_limit_middleware.
  destruct (limited_body _ _ r) as [b|e] eqn:Hb; [right|left; by eexists _, _].
  exists (with_body b r), (λ run, ({| wd_limiter := wd_limiter w; wd_log := wd_log w; wd_inner := run.1 |}, run.2)).
  split_and!; [|done|].
  - apply Hadm. intros bs Hbs. by eapply limited_body_bound.
  - intros h. unfold routed. by destruct (h _ _).
Qed.

Lemma log_response_inner logging (run : world * option answer) :
  wd_inner (log_response show_status from_utf8_lossy logging run).1 = wd_inner run.1.
Proof. destruct run as [w [a|]]; [|done]. cbn. by destruct (log_response_body logging). Qed.

Lemma logging_shaped running state req r w (c : bool) :
  (0 ≤ srv_max_body_size (cfg_server running))%Z → framed r → admissible_but_body running state req r →
  shaped running state req r w (λ h, if c then body_logging running (body_limit running (routed h))
                                     else body_limit running (routed h)).
Proof.
  intros Hmax Hf Hadm. destruct c; [|by apply limit_shaped]. unfold body_logging_middleware.
  pose proof (log_request_framed (cfg_logging running) r w Hf) as Hf1.
  pose proof (log_request_keeps (cfg_logging running) r w) as (Hh1&Hu1&Hw1).
  destruct (log_request _ _ _ r w) as [r1 w1] eqn:Hlog. cbn in *.
  destruct (limit_shaped running state req r1 w1) as [(w2&a&Hw2&Hs)|(r2&k&Hr2&Hk&Hs)]; [done..| | |].
  - intros b Hb. destruct (Hadm b Hb) as [Ha1 Ha2 Ha3]. split; cbn in *; rewrite ?Hh1, ?Hu1; done.
  - left. eexists _, _. split; [|intros h; rewrite Hlog; cbn; rewrite Hs; apply surjective_pairing].
    by rewrite log_response_inner, <-Hw1.
  - right. eexists r2, (λ run, log_response _ _ _ (k run)). split_and!; [done| |].
    + intros run. rewrite log_response_inner. apply Hk.
    + intros h. rewrite Hlog. cbn. by rewrite Hs, Hw1.
Qed.

(** The whole service, where the HTTP server delivers no more of a body than
    its [Content-Length] says. *)
Lemma service_shaped config running state now req w :
  (0 ≤ srv_max_body_size (cfg_server running))%Z →
  (∀ n bs, content_length header_str req = Some n → collect (in_body req) = Some bs →
     (Z.of_nat (length bs) ≤ n)%Z) →
  shaped running state req req w (build_service config running state now).
Proof.
  intros Hmax Hframed. unfold shaped, Pipeline.build_service, rate_limit_layer.
  destruct (rate_limit_middleware _ _ _ _ _ _ _) as [limiter [[[]|e]|]]; [|left; eexists _, _; split; cycle 1; [by intros|done]..].
  unfold auth_layer. destruct (auth_middleware _ _ _ _ _ _ _ _) as [passed|e] eqn:Hauth; [|left; eexists _, _; split; cycle 1; [by intros|done]].
  assert (admissible_but_body running state req
    (match passed with Some u => with_user u req | None => req end)) as Hadm.
  { intros b Hb. split; [by destruct passed|by destruct passed|]. intros e Hskip He Hne.
    eapply middleware_next in Hauth as (user&->&Ha&Hr); [|done..]. by exists user. }
  set (r0 := match passed with Some u => with_user u req | None => req end) in *.
  assert (framed r0) as Hf by (unfold r0; destruct passed; intros n bs Hn Hbs; left; by eapply Hframed).
  destruct (logging_shaped running state req r0 (with_limiter limiter w)
    (log_request_body (cfg_logging config) || log_response_body (cfg_logging config)) Hmax Hf Hadm)
    as [(w1&a&Hw&Hs)|(r&k&Hr&Hk&Hs)].
  - left. exists w1, a. split; [done|]. intros h. rewrite <-(Hs h). unfold r0. by destruct passed.
  - right. exists r, k. split_and!; [done..|]. intros h. cbn in Hs. rewrite <-(Hs h). unfold r0. by destruct passed.
Qed.

(** C7: the handlers run behind all guards. Two handlers that agree on
    requests whose body is within the limit and whose user, where the
    endpoint asks for one, is authenticated and has one of its roles, cannot
    be told apart by any request: whatever a handler would do with a larger
    body or without a user, it is not asked. The HTTP server is relied on not
    to deliver more of a body than its [Content-Length] says. *)
Theorem handlers_run_guarded (config running : AppConfig) (state : auth_state St) (now : Z)
    (h h' : service HeaderMap B W) (req : incoming) (w : world)
    (Hmax : (0 ≤ srv_max_body_size (cfg_server running))%Z)
    (Hframed : ∀ n bs, content_length header_str req = Some n → collect (in_body req) = Some bs →
      (Z.of_nat (length bs) ≤ n)%Z)
    (Hagree : ∀ r w, admissible running state req r → h r w = h' r w) :
  build_service config running state now h req w = build_service config running state now h' req w.
Proof.
  destruct (service_shaped config running state now req w Hmax Hframed) as [(w1&a&_&Hs)|(r&k&Hr&_&Hs)];
    rewrite !Hs; [done|]. by rewrite (Hagree r).
Qed.

(** C8: logging bodies is transparent. The service that is built for a
    configuration with logging and the one built without answer every
    request whose body is whole with the same status, headers and bytes, and
    leave handlers and rate limits in the same state, provided that the
    handlers look at the bytes of a body only and answer with whole bodies;
    they may panic. *)
Theorem logging_is_transparent (config config' running : AppConfig) (state : auth_state St) (now : Z)
    (h : service HeaderMap B W) (Hh : sees_bytes h) :
  same_service (build_service config running state now h) (build_service config' running state now h).
Proof.
  assert (∀ c c' : bool, same_service
    (if c then body_logging running (body_limit running (routed h)) else body_limit running (routed h))
    (if c' then body_logging running (body_limit running (routed h)) else body_limit running (routed h))) as Hlog.
  { assert (Hb := body_limit_same running _ _ (routed_same h Hh)).
    pose proof (body_logging_same running _ Hb) as Hl.
    intros [] []; [etrans; [|symmetry]|..|symmetry|]; done. }
  apply rate_limit_same, auth_same, Hlog.
Qed.

(** A body that breaks off is logged, and passed on as an empty one. *)
Lemma broken_body_logged running (h : service HeaderMap B W) (req : incoming) (w : world) :
  (0 ≤ srv_max_body_size (cfg_server running))%Z → log_request_body (cfg_logging running) = true →
  log_response_body (cfg_logging running) = false →
  collect (in_body req) = None → content_length header_str req = None →
  ∃ b log, collect b = Some [] ∧ body_logging running (body_limit running (routed h)) req w
  = ({| wd_limiter := wd_limiter w; wd_log := log; wd_inner := (h (with_body b req) (wd_inner w)).1 |},
     (h (with_body b req) (wd_inner w)).2).
Proof.
  intros Hmax Hr Hs Hb Hl. unfold body_logging_middleware, log_request. rewrite Hr, Hb. cbn [default log_body].
  unfold body_limit_middleware, limited_body, content_length in *. cbn [in_head with_body in_body].
  rewrite Hl, (to_bytes_within _ []) by (apply collect_from_bytes || (cbn; lia)). cbn.
  rewrite (proj2 (Z.ltb_ge _ _)) by lia. exists (from_bytes []), (wd_log w ++ []).
  split; [apply collect_from_bytes|]. unfold routed, with_body. cbn.
  destruct (h _ _) as [inner [a|]]; cbn; [by rewrite Hs|done].
Qed.

(** A body that breaks off becomes an empty one when request bodies are
    logged. Without logging a request whose body breaks off, and that does
    not announce a length, is answered with 413 and reaches no handler. With
    it, the handler runs, and with an empty body in place of what was lost. *)
Theorem logging_hides_broken_body (config running : AppConfig) (state : auth_state St) (now : Z)
    (h : service HeaderMap B W) (req : incoming) (w : world) (limiter : RateLimiter) (passed : option AuthInfo)
    (Hadmitted : rate_limit_middleware header_str
      (get_endpoint_config iter (as_endpoint_configs state) (req_path (in_head req)))
      (cfg_rate_limit running) (req_headers (in_head req)) (in_addr req) now (wd_limiter w)
      = (limiter, Returns (Ok tt)))
    (Hauth : auth_middleware header_str jwt_decode base64_decode verify_hash get_userinfo_reply iter state
      (in_head req) = Next passed)
    (Hlength : content_length header_str req = None) (Hbroken : collect (in_body req) = None)
    (Hmax : (0 ≤ srv_max_body_size (cfg_server running))%Z) :
  (log_request_body (cfg_logging config) = false → log_response_body (cfg_logging config) = false →
   ∃ e, build_service config running state now h req w
          = (with_limiter limiter w, Some (error_answer (Body e)))) ∧
  (log_request_body (cfg_logging config) = true → log_request_body (cfg_logging running) = true →
   log_response_body (cfg_logging running) = false →
   ∃ b log, collect b = Some [] ∧
     let r := with_body b (match passed with Some u => with_user u req | None => req end) in
     build_service config running state now h req w
     = ({| wd_limiter := limiter; wd_log := log; wd_inner := (h r (wd_inner w)).1 |}, (h r (wd_inner w)).2)).
Proof.
  unfold Pipeline.build_service, rate_limit_layer. rewrite Hadmitted. unfold auth_layer. rewrite Hauth. split.
  - intros -> ->. cbn [orb]. destruct (to_bytes_broken (in_body req) (srv_max_body_size (cfg_server running)) Hbroken)
      as [e He].
    exists e. destruct passed; unfold body_limit_middleware, limited_body, content_length in *; cbn in *;
      by rewrite Hlength, He.
  - intros Hc Hr Hs. rewrite Hc. cbn [orb].
    destruct (broken_body_logged running h (match passed with Some u => with_user u req | None => req end)
      (with_limiter limiter w)) as (b&log&Hb&Hrun); try (by destruct passed).
    exists b, log. split; [done|]. by destruct passed.
Qed.

(** ** The rate limits of endpoints *)

(** An endpoint with neither a wildcard nor a parameter in its path, that
    does not serve static files. *)
Definition plain (e : EndpointConfig) : Prop :=
  ep_action e ≠ ActStaticFiles ∧ contains_str "*" (ep_path e) = false ∧ contains_char "{" (ep_path e) = false.

Lemma plain_entry e key : plain e → key ∈ endpoint_entries e →
  contains_char "#" key = true ∧ contains_char "{" key = false.
Proof.
  intros (Ha&Hs&Hb) Hkey. unfold endpoint_entries, route_path in Hkey.
  rewrite bool_decide_eq_false_2 in Hkey by done. cbn [andb] in Hkey. rewrite replace_absent in Hkey by done.
  rewrite List.app_nil_r in Hkey. apply list_elem_of_fmap in Hkey as (m&->&_).
  rewrite !contains_char_app, Hb. cbn. rewrite orb_true_r. by destruct m.
Qed.

Lemma plain_endpoints_not_found endpoints path :
  iter (build_endpoint_configs endpoints) ≡ₚ map_to_list (build_endpoint_configs endpoints) →
  Forall plain endpoints → contains_char "#" path = false →
  get_endpoint_config iter (build_endpoint_configs endpoints) path = None.
Proof.
  intros Hiter Hplain Hpath. rewrite list.Forall_forall in Hplain.
  assert (∀ key e, build_endpoint_configs endpoints !! key = Some e →
    contains_char "#" key = true ∧ contains_char "{" key = false) as Hkeys.
  { intros key e (l1&l2&->&Hin&_)%build_endpoint_configs_lookup. eapply plain_entry, Hin.
    apply Hplain, elem_of_app. right. left. }
  assert (∀ key, contains_char "#" key = false → build_endpoint_configs endpoints !! key = None) as Hno.
  { intros key Hk. destruct (_ !! key) eqn:He; [|done]. apply Hkeys in He as [He _]. by rewrite Hk in He. }
  unfold get_endpoint_config. rewrite Hno by done. cbn [or_else]. rewrite find_prefix_match_None.
  - cbn [or_else]. destruct (find_wildcard_match _ _ _ _) as [e|] eqn:He; [|done].
    apply find_wildcard_match_elem in He as (key&Hk&Hc&_); [|done]. apply Hkeys in Hk as [_ Hb].
    unfold covers in Hc. apply split_once_None in Hb. by rewrite Hb in Hc.
  - intros prefix rest ->. apply Hno. rewrite contains_char_app in Hpath. by apply orb_false_iff in Hpath as [? _].
Qed.

(** Rate limits of plain endpoints are ignored. The limiter looks up
    the configuration by the path alone, while the map has an endpoint
    without a wildcard under its path with a method only. So the layer
    treats every request as if no endpoint had been configured, with the
    global limit: a strict limit on a login endpoint has no effect, and a
    generous one neither. *)
Theorem plain_limits_have_no_effect (endpoints : list EndpointConfig) (running : AppConfig) (now : Z)
    (next : service HeaderMap B world) (req : incoming) (w : world)
    (Hiter : ∀ configs, iter configs ≡ₚ map_to_list configs)
    (Hplain : Forall plain endpoints) (Hpath : contains_char "#" (req_path (in_head req)) = false) :
  rate_limit running (build_endpoint_configs endpoints) now next req w = rate_limit running ∅ now next req w.
Proof.
  unfold rate_limit_layer. rewrite plain_endpoints_not_found by done.
  assert (get_endpoint_config iter ∅ (req_path (in_head req)) = None) as ->; [|done].
  change (∅ : endpoint_map) with (build_endpoint_configs []).
  by apply plain_endpoints_not_found; [|constructor|].
Qed.
End spec.

(** ** Sample runs *)

(** A body is its bytes, or breaks off. *)
#[global] Instance sample_bodies : HttpBody (option bytes) := {
  to_bytes b n :=
    match b with
    | Some bs => if (Z.of_nat (length bs) <=? n)%Z then Ok bs else Err "length limit exceeded"
    | None => Err "connection closed"
    end;
  collect b := b;
  from_bytes := Some;
}.

#[global] Instance sample_bodies_laws : HttpBodyLaws (option bytes).
Proof.
  refine {| limit_error := "length limit exceeded" |}; [done| | |].
  - intros b bs n Hb H. cbn in *. rewrite Hb. by rewrite (proj2 (Z.leb_le _ _)).
  - intros b bs n Hb H. cbn in *. rewrite Hb. by rewrite (proj2 (Z.leb_gt _ _)).
  - intros b n Hb. cbn in *. rewrite Hb. by eexists.
Defined.

Notation sample_headers := (list (string * string)).
Notation sample_request := (@incoming sample_headers (option bytes)).

(** A handler that keeps the bodies it receives. *)
Definition keep_body : service sample_headers (option bytes) (list bytes) :=
  λ r w, (w ++ [default [] (in_body r)], Some {| an_status := 200; an_headers := []; an_body := Some [] |}).

(** The same for small requests of a user; others it answers with 500. *)
Definition wary : service sample_headers (option bytes) (list bytes) :=
  λ r w,
    match in_user r, in_body r with
    | Some _, Some bs => if (Z.of_nat (length bs) <=? 10)%Z then keep_body r w
                         else (w, Some {| an_status := 500; an_headers := []; an_body := Some [] |})
    | Some _, None => keep_body r w
    | None, _ => (w, Some {| an_status := 500; an_headers := []; an_body := Some [] |})
    end.

(** A limit of ten bytes; request bodies are logged or not. *)
Definition small_config (log : bool) : AppConfig := {|
  cfg_server := {| srv_host := srv_host default_ServerConfig; srv_port := srv_port default_ServerConfig;
    srv_workers := 0; srv_tls := None; srv_shutdown_timeout := srv_shutdown_timeout default_ServerConfig;
    srv_max_body_size := 10; srv_keep_alive := 75 |};
  cfg_logging := {| log_level := LDebug; log_format := FmtPretty; log_request_body := log;
                    log_response_body := false; log_max_body_log_size := 4 |};
  cfg_cors := default_CorsConfig; cfg_rate_limit := default_RateLimitConfig;
  cfg_databases := ∅; cfg_tables := []; cfg_auth := cfg_auth sample_config;
  cfg_endpoints := []; cfg_stores := ∅; cfg_role_hierarchy := Some staff; cfg_global_schemas := None |}.

Definition sample_incoming (head : @http_request sample_headers) (body : option bytes) : sample_request := {|
  in_head := head; in_body := body; in_user := None; in_addr := None |}.
Definition empty_world : @world (list bytes) := {| wd_limiter := ∅; wd_log := []; wd_inner := [] |}.

(** The service in front of [h] for the endpoints [endpoints]. *)
Definition sample_service (config running : AppConfig) (endpoints : list EndpointConfig)
    (h : service sample_headers (option bytes) (list bytes)) :=
  build_service no_headers (λ _, true) (λ d, String.list_byte_of_string (ed_message d)) req_path show_Z
    (λ bs, String.string_of_list_byte bs) one_decode (λ _, None) (λ _ _, None) (λ _ _, NoReply "") map_to_list
    config running (site_state endpoints) 0 h.

Lemma logging_is_transparent_witness :
  same_run same_world
    (sample_service (small_config true) (small_config true) [] keep_body
       (sample_incoming (get_post []) (Some [x61; x62])) empty_world)
    (sample_service (small_config false) (small_config true) [] keep_body
       (sample_incoming (get_post []) (Some [x61; x62])) empty_world).
Proof.
  refine (logging_is_transparent no_headers (λ _, true) (λ d, String.list_byte_of_string (ed_message d)) req_path
    show_Z (λ bs, String.string_of_list_byte bs) one_decode (λ _, None) (λ _ _, None) (λ _ _, NoReply "") map_to_list
    (small_config true) (small_config false) (small_config true) (site_state []) 0 keep_body _
    _ _ _ empty_world empty_world _).
  - intros r r' (Hh&Hu&Ha&bs&Hb&Hb') w _ <-. cbn in Hb, Hb'. unfold keep_body. rewrite Hb, Hb'.
    split; [done|]. constructor. split_and!; [done..|]. by exists [].
  - split_and!; [done..|]. by exists [x61; x62].
  - done.
Defined.

(** A request of eleven bytes is refused, whoever sends it. *)
Lemma handlers_run_guarded_witness :
  sample_service (small_config true) (small_config true) [posts_endpoint] keep_body
    (sample_incoming (get_post []) (Some (repeat x61 11))) empty_world
  = sample_service (small_config true) (small_config true) [posts_endpoint] wary
    (sample_incoming (get_post []) (Some (repeat x61 11))) empty_world.
Proof.
  refine (handlers_run_guarded no_headers (λ _, true) (λ d, String.list_byte_of_string (ed_message d)) req_path
    show_Z (λ bs, String.string_of_list_byte bs) one_decode (λ _, None) (λ _ _, None) (λ _ _, NoReply "") map_to_list
    (small_config true) (small_config true) (site_state [posts_endpoint]) 0 keep_body wary _ empty_world _ _ _).
  - vm_compute. discriminate.
  - intros n bs Hn. vm_compute in Hn. discriminate Hn.
  - intros r w [_ Hb Hu]. unfold wary.
    destruct (Hu posts_endpoint) as (user&->&_); [vm_compute; reflexivity..|discriminate|].
    destruct (in_body r) as [bs|] eqn:Hbs; [|reflexivity].
    pose proof (Hb bs eq_refl) as Hlen. cbn in Hlen. by rewrite (proj2 (Z.leb_le _ _) Hlen).
Defined.

(** With logging the handler keeps a body that was never received. *)
Lemma logging_hides_broken_body_witness :
  (∃ e, sample_service (small_config false) (small_config true) [] keep_body
     (sample_incoming (get_post []) None) empty_world
   = (with_limiter ∅ empty_world, Some (error_answer (λ _, true)
        (λ d, String.list_byte_of_string (ed_message d)) (Body e)))) ∧
  ∃ b log, collect b = Some [] ∧
    let r := sample_incoming (get_post []) b in
    sample_service (small_config true) (small_config true) [] keep_body (sample_incoming (get_post []) None)
      empty_world
    = ({| wd_limiter := ∅; wd_log := log; wd_inner := (keep_body r []).1 |}, (keep_body r []).2).
Proof.
  pose (run config := logging_hides_broken_body no_headers (λ _, true)
    (λ d, String.list_byte_of_string (ed_message d)) req_path
    show_Z (λ bs, String.string_of_list_byte bs) one_decode (λ _, None) (λ _ _, None) (λ _ _, NoReply "") map_to_list
    config (small_config true) (site_state []) 0 keep_body (sample_incoming (get_post []) None)
    empty_world ∅ None).
  split.
  - refine (proj1 (run (small_config false) _ _ _ _ _) _ _); vm_compute; first [reflexivity|discriminate].
  - refine (proj2 (run (small_config true) _ _ _ _ _) _ _ _); vm_compute; first [reflexivity|discriminate].
Defined.

(** A limit of one request on the login. *)
Definition login_endpoint : EndpointConfig :=
  let e := mk_endpoint "/login" [Post] ActProxy "none" in
  {| ep_path := ep_path e; ep_methods := ep_methods e; ep_action := ep_action e;
     ep_crud := None; ep_proxy := None; ep_static_files := None; ep_spa_host := None;
     ep_media := None; ep_file_store := None; ep_custom_response := None;
     ep_auth := "none"; ep_roles := Flat []; ep_cors := None;
     ep_rate_limit := Some {| rl_enabled := true; rl_max_requests := 1; rl_window_seconds := 60;
       rl_key_strategy := KeyIp; rl_key_header := ""; rl_cleanup_threshold := 100 |} |}.

Lemma plain_limits_have_no_effect_witness :
  let req := sample_incoming {| req_method := "POST"; req_path := "/login"; req_query := None; req_headers := [] |}
    (Some []) in
  let limiter := rate_limit_layer no_headers (λ _, true) (λ d, String.list_byte_of_string (ed_message d))
    map_to_list (small_config false) in
  limiter (build_endpoint_configs [login_endpoint]) 0%Z (routed keep_body) req empty_world
  = limiter ∅ 0%Z (routed keep_body) req empty_world.
Proof.
  refine (plain_limits_have_no_effect no_headers (λ _, true) (λ d, String.list_byte_of_string (ed_message d))
    map_to_list [login_endpoint] (small_config false) 0 (routed keep_body) _ empty_world _ _ _).
  - done.
  - constructor; [|constructor]. split_and!; [discriminate|reflexivity..].
  - reflexivity.
Defined.
