(* ===== verification/Oauth2.v ===== *)
(** * The OAuth2 code flow

    The second half of the flow of src/src/middleware/auth/handler.rs: the
    callback, which spends the state of the authorization request, exchanges
    the code for a token, asks who the user is and sets a cookie with a token
    of the server's own; and the generation of the verifier. The provider's
    answers, random identifiers and hashing are parameters. *)

From Stdlib Require Import Init.Byte.
From S2P Require Import Prelude RustStr Json Config Errors Roles RolesSpec Routing Credentials Auth AuthSpec Storage.
Local Open Scope stdpp_scope.

(** A verifier of three identifiers, with its challenge.
    Source: middleware/auth/validators/oauth2.rs [generate_pkce_pair] *)
Definition generate_pkce_pair (simple_uuid : nat → string) (sha256 : string → bytes)
    (base64_url_no_pad : bytes → string) : string * string :=
  let verifier := simple_uuid 0 +:+ simple_uuid 1 +:+ simple_uuid 2 in
  (verifier, base64_url_no_pad (sha256 verifier)).

Section callback.
(** The provider's answers: to a form that is posted to its token endpoint,
    and about the bearer of a token. *)
Context (post_form_reply : string → list (string * string) → http_reply).
Context (get_userinfo_reply : string → string → http_reply).
Context (jwt_encode : string → JwtAlgorithm → value → result string string).
Context (header_value_ok : string → bool).

(** Source: middleware/auth/handler.rs [get_oauth2_config] *)
Definition get_oauth2_config (auth : AuthConfig) : result AppError (OAuth2Config * JwtConfig) :=
  oauth2 ← ok_or (ConfigurationError "OAuth2 is not configured") (auth_oauth2 auth);
  jwt ← ok_or (ConfigurationError
          "JWT config is required for OAuth2 code flow (used to mint tokens after login)") (auth_jwt auth);
  Ok (oauth2, jwt).

Definition exchange_form (config : OAuth2Config) (code code_verifier : string) : list (string * string) :=
  [("grant_type", "authorization_code"); ("code", code); ("redirect_uri", oa_redirect_url config);
   ("client_id", oa_client_id config); ("client_secret", oa_client_secret config);
   ("code_verifier", code_verifier)].

(** Source: middleware/auth/validators/oauth2.rs [exchange_code] *)
Definition exchange_code (config : OAuth2Config) (code code_verifier : string) : result AppError value :=
  if is_empty (oa_token_url config) then Err (ConfigurationError "OAuth2 token_url is not configured") else
  match post_form_reply (oa_token_url config) (exchange_form config code code_verifier) with
  | NoReply e => Err (Auth ("OAuth2 token exchange failed: " +:+ e))
  | Status _ => Err (Auth "OAuth2 token exchange failed")
  | BadJson e => Err (Auth ("OAuth2 token response parse error: " +:+ e))
  | Reply body => Ok body
  end.

(** Source: middleware/auth/handler.rs [exchange_token] *)
Definition exchange_token (oauth2 : OAuth2Config) (code code_verifier : string) : result AppError string :=
  token_response ← exchange_code oauth2 code code_verifier;
  ok_or (Auth "Token response missing access_token") (str_claim "access_token" token_response).

(** Source: middleware/auth/handler.rs [get_userinfo] *)
Definition get_userinfo (oauth2 : OAuth2Config) (access_token : string)
  : result AppError (string * option string) :=
  if is_empty (oa_userinfo_url oauth2) then
    Err (ConfigurationError "OAuth2 userinfo_url is required for the code flow")
  else fetch_userinfo get_userinfo_reply (oa_userinfo_url oauth2) access_token (oa_role_mapping oauth2).

(** Source: middleware/auth/handler.rs [mint_jwt] *)
Definition mint_jwt (now_secs : Z) (new_uuid : string) (sub : string) (role : option string)
    (jwt_config : JwtConfig) : result AppError (string * string) :=
  let jti := new_uuid in
  jwt ← create_token jwt_encode now_secs sub role jwt_config (Some jti) None;
  Ok (jti, jwt).

Definition or_fallback (s fallback : string) : string := if is_empty s then fallback else s.

(** The steps of a callback once its state is spent. *)
Definition finish_login (now_secs : Z) (new_uuid : string) (auth : AuthConfig) (has_tls : bool) (code : string)
    (pending : PendingOAuth2) : result AppError (Z * list (string * string)) :=
  '(oauth2, jwt_config) ← get_oauth2_config auth;
  access_token ← exchange_token oauth2 code (po_code_verifier pending);
  '(sub, role) ← get_userinfo oauth2 access_token;
  '(_, jwt) ← mint_jwt now_secs new_uuid sub role jwt_config;
  build_redirect_response header_value_ok (or_fallback (oa_success_url oauth2) "/")
    (or_fallback (oa_cookie_name oauth2) "main_serve_token") jwt has_tls (jwt_expiry jwt_config).

(** The instants of the pending states are nanoseconds of a clock of their
    own, [now_secs] is the time of day.
    Source: middleware/auth/handler.rs [handle_oauth2_callback] *)
Definition handle_oauth2_callback (now now_secs : Z) (new_uuid : string) (auth : AuthConfig) (has_tls : bool)
    (params : gmap string string) (oauth2_pending : gmap string PendingOAuth2)
  : gmap string PendingOAuth2 * result AppError (Z * list (string * string)) :=
  match params !! "error" with
  | Some _ => (oauth2_pending, Err (Auth "OAuth2 authorization failed"))
  | None =>
      match params !! "code", params !! "state" with
      | None, _ => (oauth2_pending, Err (BadRequest "Missing 'code' parameter"))
      | _, None => (oauth2_pending, Err (BadRequest "Missing 'state' parameter"))
      | Some code, Some state_param =>
          let state_ttl :=
            match auth_oauth2 auth with Some o => oa_state_ttl o * 1000000000 | None => 300 * 1000000000 end%Z in
          let '(oauth2_pending, validated) := validate_state now state_param state_ttl oauth2_pending in
          (oauth2_pending, pending ← validated; finish_login now_secs new_uuid auth has_tls code pending)
      end
  end.
End callback.

(** ** Correctness of the OAuth2 code flow

    A user who comes back from the provider is who the provider says, and is
    recognised by the cookie. *)

(** ** Text that a cookie carries unchanged *)








Section spec.
Context (post_form_reply : string → list (string * string) → http_reply).
Context (get_userinfo_reply : string → string → http_reply).
Context (jwt_encode : string → JwtAlgorithm → value → result string string).
Context (jwt_decode : string → Validation → string → result string value).
Context (header_value_ok : string → bool).
Context {HeaderMap : Type} (header_str : HeaderMap → string → option string).
Context (base64_decode : string → option (option string)).
Context (verify_hash : string → string → option password_check).

Notation callback := (handle_oauth2_callback post_form_reply get_userinfo_reply jwt_encode header_value_ok).
Notation authenticate := (authenticate header_str jwt_decode base64_decode verify_hash get_userinfo_reply).



(** What the provider says of the user who logs in with a code, given the
    verifier of the authorization request. *)
Definition provider_says (o : OAuth2Config) (code verifier sub : string) (role : option string) : Prop :=
  ∃ reply access_token info,
    post_form_reply (oa_token_url o) (exchange_form o code verifier) = Reply reply ∧
    str_claim "access_token" reply = Some access_token ∧
    get_userinfo_reply (oa_userinfo_url o) access_token = Reply info ∧
    str_claim "sub" info = Some sub ∧ role = userinfo_role (oa_role_mapping o) info.

Lemma exchange_token_Ok o code verifier token :
  exchange_token post_form_reply o code verifier = Ok token →
  ∃ reply, post_form_reply (oa_token_url o) (exchange_form o code verifier) = Reply reply ∧
    str_claim "access_token" reply = Some token.
Proof.
  unfold exchange_token, exchange_code. destruct (is_empty _); [done|].
  destruct (post_form_reply _ _) as [| | |reply]; try done. cbn. intros H%ok_or_Ok. by exists reply.
Qed.

Lemma get_userinfo_Ok o token sub role :
  get_userinfo get_userinfo_reply o token = Ok (sub, role) →
  ∃ info, get_userinfo_reply (oa_userinfo_url o) token = Reply info ∧ str_claim "sub" info = Some sub ∧
    role = userinfo_role (oa_role_mapping o) info.
Proof.
  unfold get_userinfo, fetch_userinfo. destruct (is_empty _); [done|].
  destruct (get_userinfo_reply _ _) as [| | |info]; try done. intros (s&Hs%ok_or_Ok&[= <- <-])%bind_Ok.
  by exists info.
Qed.

(** A callback that succeeds, taken apart. *)
Lemma callback_Ok now now_secs uuid auth tls params pending pending' status headers :
  callback now now_secs uuid auth tls params pending = (pending', Ok (status, headers)) →
  ∃ o j code state entry sub role jwt,
    auth_oauth2 auth = Some o ∧ auth_jwt auth = Some j ∧
    params !! "error" = None ∧ params !! "code" = Some code ∧ params !! "state" = Some state ∧
    validate_state now state (oa_state_ttl o * 1000000000) pending = (pending', Ok entry) ∧
    provider_says o code (po_code_verifier entry) sub role ∧
    create_token jwt_encode now_secs sub role j (Some uuid) None = Ok jwt ∧
    build_redirect_response header_value_ok (or_fallback (oa_success_url o) "/")
      (or_fallback (oa_cookie_name o) "main_serve_token") jwt tls (jwt_expiry j) = Ok (status, headers).
Proof.
  unfold handle_oauth2_callback. destruct (params !! "error"); [done|].
  destruct (params !! "code") as [code|]; [|done]. destruct (params !! "state") as [state|]; [|done].
  destruct (validate_state _ _ _ _) as [p1 v] eqn:Hv. intros [= -> Hrun].
  apply bind_Ok in Hrun as (entry&->&Hrun). unfold finish_login in Hrun.
  apply bind_Ok in Hrun as ([o j]&Hcfg&Hrun). unfold get_oauth2_config in Hcfg.
  apply bind_Ok in Hcfg as (o'&Ho%ok_or_Ok&Hcfg). apply bind_Ok in Hcfg as (j'&Hj%ok_or_Ok&[= -> ->]).
  rewrite Ho in Hv. apply bind_Ok in Hrun as (token&Ht&Hrun). apply exchange_token_Ok in Ht as (reply&Hr&Ha).
  apply bind_Ok in Hrun as ([sub role]&Hu&Hrun). apply get_userinfo_Ok in Hu as (info&Hi&Hs&Hrole).
  apply bind_Ok in Hrun as ([jti jwt]&Hm&Hrun). unfold mint_jwt in Hm. apply bind_Ok in Hm as (t&Hc&[= _ ->]).
  exists o, j, code, state, entry, sub, role, jwt. split_and!; try done. by exists reply, token, info.
Qed.






Lemma accepted_state now state ttl pending pending' entry :
  validate_state now state ttl pending = (pending', Ok entry) →
  pending !! state = Some entry ∧ pending' !! state = None.
Proof.
  intros H. pose proof (proj1 (validate_state_pending now state ttl pending)) as Hspent.
  pose proof (proj1 (validate_state_Ok now state ttl pending entry)) as Hok. rewrite H in Hspent, Hok.
  split; [|done]. by destruct (Hok eq_refl).
Qed.

(** ** The states of the flow *)

(** What happens to the pending states: a callback with its parameters, which
    succeeds or not, and an authorization that would make a state pending.
    Each has its own time and configuration, as after a reload. *)
Inductive flow_event :=
| CalledBack (params : gmap string string) (succeeds : bool)
| Authorized (state : string).

Inductive flow_step : gmap string PendingOAuth2 → flow_event → gmap string PendingOAuth2 → Prop :=
| step_callback now now_secs uuid auth tls params pending :
    flow_step pending
      (CalledBack params (is_ok (callback now now_secs uuid auth tls params pending).2))
      (callback now now_secs uuid auth tls params pending).1
| step_authorize url_of challenge now fresh verifier auth pending :
    flow_step pending (Authorized fresh)
      (handle_oauth2_authorize url_of challenge now fresh verifier auth pending).1.

(** The callback comes to its state: it has one and a code, and no error. *)
Definition presents (params : gmap string string) (state : string) : Prop :=
  params !! "error" = None ∧ is_Some (params !! "code") ∧ params !! "state" = Some state.

Lemma callback_pending now now_secs uuid auth tls params pending :
  let pending' := (callback now now_secs uuid auth tls params pending).1 in
  pending' ⊆ pending ∧ ∀ state, presents params state → pending' !! state = None.
Proof.
  cbv zeta. unfold handle_oauth2_callback, presents.
  destruct (params !! "error"); [split; [done|by intros ? [? _]]|].
  destruct (params !! "code") as [code|]; [|split; [done|by intros ? (_&[? ?]&_)]].
  destruct (params !! "state") as [st|]; [|split; [done|by intros ? (_&_&?)]].
  destruct (validate_state _ _ _ _) as [p v] eqn:Hv.
  match type of Hv with validate_state ?n ?s ?t ?q = _ => pose proof (validate_state_pending n s t q) as [Hs Hsub] end.
  rewrite Hv in Hs, Hsub. split; [exact Hsub|]. by intros state (_&_&[= <-]).
Qed.

Lemma callback_succeeds now now_secs uuid auth tls params pending state :
  is_ok (callback now now_secs uuid auth tls params pending).2 = true → params !! "state" = Some state →
  is_Some (pending !! state).
Proof.
  destruct (callback _ _ _ _ _ _ _) as [p [[status hs]|e]] eqn:Hc; [|done]. intros _ Hstate.
  apply callback_Ok in Hc as (o&j&code&st&entry&sub&role&jwt&_&_&_&_&Hs&Hv&_). rewrite Hs in Hstate.
  injection Hstate as ->. apply accepted_state in Hv as [Hp _]. by exists entry.
Qed.

(** A state that is not pending stays so until it is authorized. *)
Lemma not_pending_step state pending e pending' :
  flow_step pending e pending' → e ≠ Authorized state → pending !! state = None → pending' !! state = None.
Proof.
  intros Hstep He Hnone. destruct Hstep as [now now_secs uuid auth tls params pending|url_of ch now fresh v auth pending].
  - eapply lookup_weaken_None; [exact Hnone|]. by destruct (callback_pending now now_secs uuid auth tls params pending).
  - assert (fresh ≠ state) as Hne by congruence.
    destruct (auth_oauth2 auth) as [o|] eqn:Ho; [|by rewrite authorize_without_oauth2].
    destruct (authorize_pending url_of ch now fresh v auth o pending Ho) as [Hsub _].
    pose proof (lookup_weaken_None _ _ state Hnone Hsub) as H. by rewrite lookup_delete_ne in H.
Qed.

(** C23: a state of the code flow is good for one callback. In every sequence
    of callbacks and authorizations, once a callback has presented a state
    with a code, no later callback with that state succeeds, whether or not
    the first did, unless an authorization has used the same state in
    between. At any moment a state is accepted exactly if it is pending and
    younger than its lifetime; and an authorization makes no other state
    pending than its own, and leaves no more pending than the maximum unless
    it adds none, as after a reload that lowers the maximum. *)
Theorem oauth2_state_single_use (start pending : gmap string PendingOAuth2) (events : list flow_event)
    (Hrun : steps flow_step start events pending) :
  (∀ before params first since params' second after state,
     events = before ++ [CalledBack params first] ++ since ++ [CalledBack params' second] ++ after →
     presents params state → params' !! "state" = Some state → Authorized state ∉ since → second = false) ∧
  (∀ now state ttl entry,
     (validate_state now state ttl pending).2 = Ok entry ↔
     pending !! state = Some entry ∧ (elapsed now (po_created_at entry) < ttl)%Z) ∧
  (∀ url_of challenge now fresh verifier auth oauth2, auth_oauth2 auth = Some oauth2 →
     let pending' := (handle_oauth2_authorize url_of challenge now fresh verifier auth pending).1 in
     delete fresh pending' ⊆ pending ∧
     (pending' ⊆ pending ∨ (Z.of_nat (size pending') ≤ oa_max_pending_states oauth2)%Z)).
Proof.
  split_and!; [|by intros; apply validate_state_Ok|by intros; apply authorize_pending].
  intros before params first since params' second after state -> Hpresents Hstate Hsince.
  apply steps_app in Hrun as (p1&_&Hrun). apply steps_app in Hrun as (p2&Hfirst&Hrun).
  apply steps_app in Hrun as (p3&Hmid&Hrun). apply steps_app in Hrun as (p4&Hsecond&_).
  inversion Hfirst as [|? ? ? ? ? Hf Hnil]; subst. inversion Hnil; subst.
  inversion Hsecond as [|? ? ? ? ? Hs Hnil']; subst. inversion Hnil'; subst.
  assert (Hnone : p2 !! state = None).
  { inversion Hf; subst. by apply callback_pending. }
  assert (Hnone' : p3 !! state = None).
  { apply (steps_invariant (λ p, p !! state = None) (λ e, e ≠ Authorized state) flow_step
      (λ p e p' H1 H2, not_pending_step state p e p' H1 H2) _ _ _ Hmid); [|done].
    apply Forall_elem. intros e He ->. by apply Hsince. }
  inversion Hs; subst. apply not_true_is_false. intros Hok.
  apply (callback_succeeds _ _ _ _ _ _ _ _ Hok) in Hstate as [entry Hentry]. congruence.
Qed.

End spec.

(** ** A sample login *)

Definition login_claims : value :=
  VObject (token_claims 1000 "42" (Some "editor") sample_jwt (Some "id-1") None).
Definition login_encode (secret : string) (alg : JwtAlgorithm) (claims : value) : result string string :=
  if object_eqb claims login_claims then Ok "header.claims.signature" else Err "unknown claims".


Definition provider_OAuth2 : OAuth2Config := {|
  oa_provider := "generic"; oa_authorization_url := "https://id/auth"; oa_token_url := "https://id/token";
  oa_userinfo_url := "https://id/userinfo"; oa_client_id := "app"; oa_client_secret := "s";
  oa_scopes := ["openid"]; oa_redirect_url := "https://app/callback"; oa_success_url := "/home";
  oa_cookie_name := "main_serve_token"; oa_state_ttl := 300; oa_max_pending_states := 1000;
  oa_role_mapping := None |}.
Definition provider_auth : AuthConfig := {|
  auth_jwt := Some sample_jwt; auth_api_key := None; auth_basic := None;
  auth_oauth2 := Some provider_OAuth2; auth_register := None |}.

(** A provider that knows the verifier. *)
Definition sample_token_reply (url : string) (form : list (string * string)) : http_reply :=
  if bool_decide (assoc "code_verifier" form = Some "v")
  then Reply (VObject [("access_token", VString "at")]) else Status "400 Bad Request".
Definition sample_userinfo (url token : string) : http_reply :=
  Reply (VObject [("sub", VString "42"); ("role", VString "editor")]).

Definition sample_params : gmap string string := <["code" := "c"]> {["state" := "s"]}.
Definition sample_pending : gmap string PendingOAuth2 :=
  {["s" := {| po_code_verifier := "v"; po_created_at := 0 |}]}.


(** The login is tried once more with the same state. *)
Definition replayed : list flow_event :=
  [CalledBack sample_params true; Authorized "t"; CalledBack sample_params false].
Notation sample_flow := (flow_step sample_token_reply sample_userinfo login_encode (λ _, true)).

Lemma replay_runs : ∃ pending, steps sample_flow sample_pending replayed pending.
Proof.
  eexists. eapply steps_cons; [exact (step_callback sample_token_reply sample_userinfo login_encode (λ _, true) 5 1000
    "id-1" provider_auth false sample_params sample_pending)|].
  eapply steps_cons; [exact (step_authorize sample_token_reply sample_userinfo login_encode (λ _, true)
    (λ u _, Ok u) id 6 "t" "w" provider_auth _)|].
  eapply steps_cons; [exact (step_callback sample_token_reply sample_userinfo login_encode (λ _, true) 7 1000 "id-1"
    provider_auth false sample_params _)|constructor].
Qed.

Lemma oauth2_state_single_use_witness :
  ∃ pending, steps sample_flow sample_pending replayed pending ∧
    ∀ second, replayed = [CalledBack sample_params true; Authorized "t"; CalledBack sample_params second] → second = false.
Proof.
  destruct replay_runs as [pending Hrun]. exists pending. split; [exact Hrun|]. intros second Heq.
  apply (proj1 (oauth2_state_single_use sample_token_reply sample_userinfo login_encode (λ _, true) sample_pending
    pending replayed Hrun) [] sample_params true [Authorized "t"] sample_params second [] "s").
  - exact Heq.
  - split_and!; [reflexivity|by eexists|reflexivity].
  - reflexivity.
  - intros H. by apply list_elem_of_singleton in H.
Defined.
