(* ===== verification/Startup.v ===== *)
(** * The program

    What src/src/main.rs does around the state of the server: the command
    line's choice of a configuration file, the validation and the dry run, the
    loading of certificates (src/src/server/tls.rs), the connections that are
    served, the task that forgets revoked tokens, the end of the server, and
    the program as a whole. The parser of the command line, sockets and
    signals are parameters: what they deliver is given. Instants are
    nanoseconds. *)

From S2P Require Import Prelude RustStr Json Config Errors Pool Migration Roles Routing Credentials Stores Revocation Schemas Loader Server.
Local Open Scope stdpp_scope.

(** ** The configuration file *)

(** [home] is the value of the environment variable.
    Source: main.rs [resolve_config_path] *)
Definition resolve_config_path (home : option string) (exists_file : string → bool) (cli_path : option string)
  : string :=
  let local home := home +:+ "/.config/main-serve/config.yaml" in
  match cli_path with
  | Some explicit => explicit
  | None =>
      let system := "/etc/main-serve/config.yaml" in
      let rest :=
        if exists_file system then system
        else match home with Some home => local home | None => local "$HOME" end in
      match home with
      | Some home => if exists_file (local home) then local home else rest
      | None => rest
      end
  end.

(** ** What is logged *)

Inductive line := Line (level : LogLevel) (text : string).

Definition severity (level : LogLevel) : nat :=
  match level with LTrace => 0 | LDebug => 1 | LInfo => 2 | LWarn => 3 | LError => 4 end.

(** The lines that the filter of the configured level lets through, where
    [RUST_LOG] is not set.
    Source: main.rs:81-101 [main (logging)] *)
Definition shown (level : LogLevel) (lines : list line) : list string :=
  omap (λ '(Line l text), if (severity level <=? severity l) then Some text else None) lines.

(** ** Certificates *)

Section tls.
(** Opening a file, the certificates and the key in one, and the TLS library:
    its protocol versions, and a configuration for a chain and a key. *)
Context {File Cert Key TlsAcceptor : Type}.
Context (open_file : string → result string File).
Context (certs : File → result string (list Cert)) (private_key : File → result string (option Key)).
Context (safe_versions : result string ()) (with_single_cert : list Cert → Key → result string TlsAcceptor).

Definition config_error {A} (prefix : string) (m : result string A) : result AppError A :=
  map_err (λ e, ConfigurationError (prefix +:+ e)) m.

(** Source: server/tls.rs [build_rustls_config] *)
Definition build_rustls_config (tls_config : TlsConfig) : result AppError TlsAcceptor :=
  cert_file ← config_error ("Failed to open TLS cert file '" +:+ tls_cert tls_config +:+ "': ")
                (open_file (tls_cert tls_config));
  chain ← config_error "Failed to parse TLS certificates: " (certs cert_file);
  match chain with
  | [] => Err (ConfigurationError "TLS cert file contains no valid certificates")
  | _ =>
      key_file ← config_error ("Failed to open TLS key file '" +:+ tls_key tls_config +:+ "': ")
                   (open_file (tls_key tls_config));
      key ← config_error "Failed to parse TLS private key: " (private_key key_file);
      key ← ok_or (ConfigurationError "TLS key file contains no valid private key") key;
      _ ← config_error "Failed to set TLS protocol versions: " safe_versions;
      config_error "Failed to build TLS config: " (with_single_cert chain key)
  end.

(** Source: server/tls.rs [build_tls_acceptor] *)
Definition build_tls_acceptor (tls_config : TlsConfig) : result AppError TlsAcceptor :=
  server_config ← build_rustls_config tls_config; Ok server_config.
End tls.

(** ** Connections *)

(** What is set on the builder of a connection. *)
Record http_builder := { hb_keep_alive : bool; hb_header_read_timeout : option Z }.

(** Source: main.rs [build_http_builder] *)
Definition build_http_builder (keep_alive : Z) : http_builder :=
  if (keep_alive =? 0)%Z then {| hb_keep_alive := false; hb_header_read_timeout := None |}
  else {| hb_keep_alive := true; hb_header_read_timeout := Some (keep_alive * 1000000000)%Z |}.

(** The set of the tasks of [serve]: a connection and whether its task has
    ended. A task that has ended stays in the set until it is joined. *)
Record serving := { sv_tasks : list (nat * bool) }.

Inductive serve_event :=
| Accepted (connection : nat)
| AcceptFailed (e : string)
| Ended (connection : nat).

(** Source: main.rs:456-489 [serve (loop)] *)
Definition serve_step (s : serving) (e : serve_event) : serving :=
  match e with
  | Accepted c => {| sv_tasks := sv_tasks s ++ [(c, false)] |}
  | AcceptFailed _ => s
  | Ended c => {| sv_tasks := map (λ t, if Nat.eqb t.1 c then (t.1, true) else t) (sv_tasks s) |}
  end.

Definition serve_loop (events : list serve_event) : serving :=
  foldl serve_step {| sv_tasks := [] |} events.

(** The time the loop allows the tasks after a signal. *)
Definition conn_timeout : Z := 5 * 1000000000.

(** The task of those left that ends first, and the others. *)
Fixpoint next_joined (tasks : list Z) : option (Z * list Z) :=
  match tasks with
  | [] => None
  | t :: tasks =>
      match next_joined tasks with
      | None => Some (t, [])
      | Some (t', rest) => if (t <=? t')%Z then Some (t, tasks) else Some (t', t :: rest)
      end
  end.

(** How the server ends: when, and with how many connections closed by
    force. *)
Record shutdown := { sd_at : Z; sd_forced : nat }.

(** The wait for the tasks, given when each of them ends, counted from the
    signal; [now] is the time that has passed. Every round but the last joins
    a task, so their number is fuel enough.
    Source: main.rs:491-528 [serve (shutdown)] *)
Fixpoint drain (fuel : nat) (now : Z) (tasks : list Z) : shutdown :=
  match next_joined tasks with
  | None => {| sd_at := now; sd_forced := 0 |}
  | Some (t, rest) =>
      if (conn_timeout <=? now)%Z then {| sd_at := now; sd_forced := length tasks |}
      else if (t <=? conn_timeout)%Z then
        match fuel with
        | S fuel => drain fuel (Z.max now t) rest
        | O => {| sd_at := now; sd_forced := length tasks |}
        end
      else {| sd_at := conn_timeout; sd_forced := length tasks |}
  end.

(** The configured time is written to the log when the signal arrives.
    Source: main.rs:491-494 [serve (tasks)] *)
Definition shut_down (shutdown_timeout : Z) (tasks : list Z) : shutdown := drain (length tasks) 0 tasks.

(** What is left of the wait for each task after the signal: nothing for one
    that has ended, and [remaining] says when the others will.
    Source: main.rs [serve] *)
Definition serve (shutdown_timeout : Z) (events : list serve_event) (remaining : nat → Z) : shutdown :=
  shut_down shutdown_timeout
    (map (λ t, if t.2 : bool then 0%Z else remaining t.1) (sv_tasks (serve_loop events))).

Section connections.
(** A stream, the TLS library's handshake, the extensions of a request and the
    connection of the HTTP library, which answers the requests of a stream
    with a service until it ends or fails. *)
Context {Stream Request Response Addr Acceptor : Type}.
Context (accept : Acceptor → Stream → result string Stream).
Context (insert_extension : Addr → Request → Request).
Context (serve_connection : http_builder → Stream → (Request → Response) → list Response * result string ()).
Context (show_addr : Addr → string).

(** Source: main.rs [handle_connection] *)
Definition handle_connection (io_stream : Stream) (remote_addr : Addr) (builder : http_builder)
    (app : Request → Response) : list Response * list line :=
  let service req := app (insert_extension remote_addr req) in
  let '(responses, r) := serve_connection builder io_stream service in
  (responses,
   match r with
   | Ok _ => []
   | Err e => [Line LDebug ("Connection error from " +:+ show_addr remote_addr +:+ ": " +:+ e)]
   end).

(** The task of a connection that was accepted.
    Source: main.rs:471-482 [serve (task)] *)
Definition connection_task (tls_acceptor : option Acceptor) (tcp_stream : Stream) (remote_addr : Addr)
    (builder : http_builder) (app : Request → Response) : list Response * list line :=
  match tls_acceptor with
  | Some acceptor =>
      match accept acceptor tcp_stream with
      | Ok stream => handle_connection stream remote_addr builder app
      | Err e => ([], [Line LDebug ("TLS handshake failed from " +:+ show_addr remote_addr +:+ ": " +:+ e)])
      end
  | None => handle_connection tcp_stream remote_addr builder app
  end.
End connections.

(** ** Forgetting revoked tokens *)

Section cleanup.
Context {DB : Type} `{!Pool DB}.

(** Whether the task is started.
    Source: main.rs:289-293 [async_main (cleanup task)] *)
Definition cleanup_interval (revocation_config : option JwtRevocationConfig)
    (revocation_store : option RevocationStoreImpl) : option (Z * RevocationStoreImpl) :=
  rev_config ← revocation_config;
  interval_secs ← jrc_cleanup_interval_secs rev_config;
  store ← revocation_store;
  Some (interval_secs, store).

(** One clean-up for every tick until the server ends; [None] is the panic of
    the timer for a period of zero. A failure is logged.
    Source: main.rs:297-310 [async_main (cleanup loop)] *)
Fixpoint cleanup_ticks (store : RevocationStoreImpl) (ticks : nat) (db : DB) : DB * list line :=
  match ticks with
  | O => (db, [])
  | S ticks =>
      let '(db, r) := cleanup_expired_store store db in
      let lines := match r with
                   | Ok _ => []
                   | Err e => [Line LWarn ("Revocation store cleanup failed: " +:+ show_AppError e)]
                   end in
      let '(db, rest) := cleanup_ticks store ticks db in (db, lines ++ rest)
  end.

Definition cleanup_task (interval_secs : Z) (store : RevocationStoreImpl) (ticks : nat) (db : DB)
  : option (DB * list line) :=
  if (interval_secs =? 0)%Z then None else Some (cleanup_ticks store ticks db).
End cleanup.

(** ** The program *)

(** Source: main.rs [Cli] *)
Record Cli := {
  cli_config : option string;
  cli_admin_token : string;
  cli_validate : bool;
  cli_dry_run : bool;
}.

(** The token is not printed.
    Source: main.rs:50-60 [Cli (Debug)] *)
Definition debug_Cli (debug_str : string → string) (cli : Cli) : string :=
  debug_struct "Cli"
    [("config", debug_option debug_str (cli_config cli)); ("admin_token", redacted debug_str);
     ("validate", debug_bool (cli_validate cli)); ("dry_run", debug_bool (cli_dry_run cli))].

(** [{:?}] of a method and of an action. *)
Definition debug_method (m : HttpMethod) : string :=
  match m with
  | Get => "Get" | Post => "Post" | Put => "Put" | Patch => "Patch" | Delete => "Delete" | Head => "Head"
  | Options => "Options"
  end.
Definition debug_action (a : EndpointAction) : string :=
  match a with
  | ActCrud => "Crud" | ActProxy => "Proxy" | ActStaticFiles => "StaticFiles" | ActSpaHost => "SpaHost"
  | ActCustomResponse => "CustomResponse" | ActMedia => "Media" | ActFileStore => "FileStore"
  end.

(** Source: main.rs:159-175 [async_main (dry run)] *)
Definition dry_run (config : AppConfig) : list line :=
  [Line LInfo "Resolved configuration:";
   Line LInfo ("  Server: " +:+ srv_host (cfg_server config) +:+ ":" +:+ show_Z (srv_port (cfg_server config)));
   Line LInfo ("  Databases: " +:+ show_Z (Z.of_nat (size (cfg_databases config))));
   Line LInfo ("  Tables: " +:+ show_Z (Z.of_nat (length (cfg_tables config))));
   Line LInfo ("  Stores: " +:+ show_Z (Z.of_nat (size (cfg_stores config))));
   Line LInfo "  Endpoints:"] ++
  map (λ ep, Line LInfo ("    " +:+ ep_path ep +:+ " [" +:+ join ", " (map debug_method (ep_methods ep)) +:+
                         "] -> " +:+ debug_action (ep_action ep))) (cfg_endpoints config).

(** How the program goes on once it has its configuration: it ends with a
    code and the lines it logged, or starts the server. *)
Inductive next_step := Exits (code : Z) (lines : list line) | Starts (warnings : list line).

Section main.
Context {Validator : Type}.
Context (new_registry : AppConfig → string → result AppError (SchemaRegistry Validator)).

(** Source: main.rs:145-186 [async_main] *)
Definition async_main (cli : Cli) (config : AppConfig) (config_path : string) : next_step :=
  if cli_validate cli then
    match new_registry config config_path with
    | Err e => Exits 1 [Line LError ("Configuration validation failed: " +:+ show_AppError e)]
    | Ok _ => Exits 0 [Line LInfo "Configuration is valid."]
    end
  else if cli_dry_run cli then Exits 0 (dry_run config)
  else
    Starts
      (if is_empty (cli_admin_token cli) then
         [Line LWarn ("No admin token configured. The reload endpoint will reject all requests. " +:+
                      "Set MAIN_SERVE_ADMIN_TOKEN or use --admin-token.")]
       else []).
End main.

(** A server that has ended: the acceptor its connections went through, the
    state in force at the end, and how the wait for the last connections
    went. *)
Record session {TlsAcceptor Validator : Type} := {
  se_acceptor : option TlsAcceptor;
  se_state : AppState Validator;
  se_shutdown : shutdown;
}.
Arguments session : clear implicits.

(** How the program ends: by [process::exit], by a panic of the main thread,
    or by returning after the server has ended. *)
Inductive finish {TlsAcceptor Validator : Type} :=
| Exit (code : Z)
| Panicked
| Finished (s : session TlsAcceptor Validator).
Arguments finish : clear implicits.

(** The status of the process: 0 where [main] returns, and 101 after a panic. *)
Definition exit_status {TlsAcceptor Validator : Type} (fin : finish TlsAcceptor Validator) : Z :=
  match fin with Exit code => code | Panicked => 101 | Finished _ => 0 end.

Section program.
Context {DB Store Validator TlsAcceptor SocketAddr Listener : Type} `{!Pool DB, !PoolDriver DB}.
Context (iter : ∀ A : Type, gmap string A → list (string * A)).
Context (iter_tables : gmap nat (list nat) → list (nat * list nat)).
(** The file system, the parsers and the environment. *)
Context (home : option string) (exists_file : string → bool).
Context (canonicalize : string → result string string).
Context (read_to_string : string → result string string).
Context (glob : string → result string (list (result string string))).
Context (parse_yaml : string → result string yaml).
Context (value_eqb : yaml → yaml → bool).
Context (env_var : string → option string).
Context (from_value : yaml → result string AppConfig).
Context (compile : value → result string Validator).
Context (from_str : string → result string value).
Context (to_value : yaml → result string value).
(** The storage backends. *)
Context (memory_new : Store) (native_new : string → Store).
Context (s3_new azure_new gcs_new : option (StoreConfig → result StorageError Store)).
Context (debug : string → string).
(** The runtime for a number of threads, the router for a configuration (it
    can panic), addresses, sockets and the TLS acceptor. *)
Context (build_runtime : Z → result string ()) (router_panics : AppConfig → bool).
Context (parse_addr : string → result string SocketAddr) (bind : SocketAddr → result string Listener).
Context (tls_acceptor : TlsConfig → result AppError TlsAcceptor).

Local Notation new_registry :=
  (new_SchemaRegistry compile canonicalize read_to_string from_str to_value iter).
Local Notation serve_requests := (serve_requests iter iter_tables parse_yaml value_eqb from_value compile
  from_str to_value memory_new native_new s3_new azure_new gcs_new debug).
Local Notation start := (start_server iter iter_tables canonicalize read_to_string compile from_str to_value
  memory_new native_new s3_new azure_new gcs_new debug).

(** The server, once its state is there: the router, the socket, the
    certificates, the connections until a signal and those that are left, and
    at last the pools that are in force then. [None] is a reload that runs
    out of fuel.
    Source: main.rs:315-380 [async_main (server)] *)
Definition run_server (fuel : nat) (events : list serve_event) (remaining : nat → Z)
    (requests : list (server_request DB)) (h : AppHandle Store) (s : AppState Validator) (db : DB)
  : option (DB * finish TlsAcceptor Validator) :=
  let config := as_config s in
  if router_panics config then Some (db, Panicked) else
  match parse_addr (srv_host (cfg_server config) +:+ ":" +:+ show_Z (srv_port (cfg_server config))) with
  | Err _ => Some (db, Exit 1)
  | Ok addr =>
      match bind addr with
      | Err _ => Some (db, Exit 1)
      | Ok listener =>
          let finish acceptor :=
            let shutdown := serve (srv_shutdown_timeout (cfg_server config)) events remaining in
            '(s, db) ← serve_requests fuel h requests (s, db);
            Some (close_pools iter (as_db_pools s) db,
                  Finished {| se_acceptor := acceptor; se_state := s; se_shutdown := shutdown |}) in
          match srv_tls (cfg_server config) with
          | Some tls =>
              match tls_acceptor tls with
              | Err _ => Some (db, Exit 1)
              | Ok acceptor => finish (Some acceptor)
              end
          | None => finish None
          end
      end
  end.

(** The requests are those that are sent to the server while it runs. [None]
    is a load or a reload that runs out of fuel.
    Source: main.rs [main] *)
Definition main (fuel : nat) (cli : Cli) (events : list serve_event) (remaining : nat → Z)
    (requests : list (server_request DB)) (db : DB) : option (DB * finish TlsAcceptor Validator) :=
  let config_path := resolve_config_path home exists_file (cli_config cli) in
  match load_config canonicalize read_to_string glob parse_yaml value_eqb env_var from_value iter fuel
          config_path with
  | None => None
  | Some (Err _) => Some (db, Exit 1)
  | Some (Ok config) =>
      match build_runtime (srv_workers (cfg_server config)) with
      | Err _ => Some (db, Exit 1)
      | Ok _ =>
          match async_main new_registry cli config config_path with
          | Exits code _ => Some (db, Exit code)
          | Starts _ =>
              match start config config_path (cli_admin_token cli) db with
              | (db, Err _) => Some (db, Exit 1)
              | (db, Ok (h, s)) => run_server fuel events remaining requests h s db
              end
          end
      end
  end.
End program.
