(* ===== verification/StartupSpec.v ===== *)
(** * The start and the end of the program

    The end of the server is bounded, whatever was configured; connections
    that have ended are kept; a dry run may print nothing; what a run of the
    program does, from the command line to the closing of the pools. *)

From Stdlib Require Import Sorting.Permutation.
From S2P Require Import Prelude RustStr Json Config Errors Pool Routing Stores Revocation Schemas Validation Loader LoaderSpec CrudSpec ValidationSpec Server ServerSpec AuthSpec Startup.
Local Open Scope stdpp_scope.

(** ** The end *)

(** The number of tasks that satisfy a test. *)
Definition count (p : Z → bool) (tasks : list Z) : nat := length (List.filter p tasks).

Lemma count_Permutation p l l' : l ≡ₚ l' → count p l = count p l'.
Proof.
  unfold count. induction 1 as [|x l l' _ IH|x y l|l1 l2 l3 _ IH1 _ IH2]; cbn; [done| | |congruence].
  - destruct (p x); cbn; by rewrite IH.
  - by destruct (p x), (p y).
Qed.

Lemma count_le p q l : (∀ x, p x = true → q x = true) → count p l ≤ count q l.
Proof.
  intros Hpq. unfold count. induction l as [|x l IH]; [done|]. cbn.
  destruct (p x) eqn:Hp; [rewrite (Hpq x Hp); cbn; lia|]. destruct (q x); cbn; lia.
Qed.

(** The task that ends first is taken out. *)
Lemma next_joined_Some tasks t rest :
  next_joined tasks = Some (t, rest) → tasks ≡ₚ t :: rest ∧ ∀ t', t' ∈ tasks → (t ≤ t')%Z.
Proof.
  revert t rest. induction tasks as [|a tasks IH]; intros t rest; cbn; [done|].
  destruct (next_joined tasks) as [[t1 rest1]|] eqn:Hn.
  - destruct (IH _ _ eq_refl) as [Hp Hmin]. destruct (Z.leb_spec a t1) as [Hle|Hlt]; intros [= <- <-].
    + split; [done|]. intros t' [->|H%Hmin]%elem_of_cons; lia.
    + split; [rewrite Hp at 1; apply Permutation_swap|]. intros t' [->|H%Hmin]%elem_of_cons; lia.
  - intros [= <- <-]. destruct tasks as [|b tasks]; [|cbn in Hn; destruct (next_joined tasks) as [[]|]; [destruct (_ <=? _)%Z|]; done].
    split; [done|]. intros t' ->%list_elem_of_singleton. done.
Qed.

Lemma next_joined_None tasks : next_joined tasks = None → tasks = [].
Proof.
  destruct tasks as [|a tasks]; [done|]. cbn. destruct (next_joined tasks) as [[]|]; [destruct (_ <=? _)%Z|]; done.
Qed.

Lemma drain_spec fuel now tasks :
  length tasks ≤ fuel → (0 ≤ now ≤ conn_timeout)%Z →
  let r := drain fuel now tasks in
  (now ≤ sd_at r ≤ conn_timeout)%Z ∧
  count (λ t, (conn_timeout <? t)%Z) tasks ≤ sd_forced r ≤ length tasks ∧
  ((now < conn_timeout)%Z → sd_forced r ≤ count (λ t, (conn_timeout <=? t)%Z) tasks) ∧
  (sd_forced r = 0 → ∀ t, t ∈ tasks → (t ≤ sd_at r)%Z).
Proof.
  revert now tasks. induction fuel as [|fuel IH]; intros now tasks Hlen Hnow.
  { destruct tasks; [|cbn in Hlen; lia]. cbn. split_and!; try lia. intros _ t H. by apply elem_of_nil in H. }
  cbn [drain]. destruct (next_joined tasks) as [[t rest]|] eqn:Hn.
  2:{ apply next_joined_None in Hn as ->. cbn. split_and!; try lia. intros _ t H. by apply elem_of_nil in H. }
  apply next_joined_Some in Hn as [Hp Hmin].
  assert (count (λ t, (conn_timeout <? t)%Z) tasks ≤ length tasks) as Hcl by apply List.filter_length_le.
  destruct (Z.leb_spec conn_timeout now) as [Hend|Hend].
  { cbn. split_and!; try lia. intros H0 x Hx. destruct tasks; [by apply elem_of_nil in Hx|done]. }
  pose proof (Permutation_length Hp) as Hl. cbn in Hl.
  destruct (Z.leb_spec t conn_timeout) as [Ht|Ht].
  - assert (0 ≤ Z.max now t ≤ conn_timeout)%Z as Hnow' by lia.
    destruct (IH (Z.max now t) rest ltac:(lia) Hnow') as (H1&H2&H3&H4). cbv zeta.
    rewrite !(count_Permutation _ _ _ Hp). unfold count in *. cbn [List.filter].
    rewrite (proj2 (Z.ltb_ge conn_timeout t)) by lia. split_and!; try lia.
    + intros _. destruct (Z.leb_spec conn_timeout t) as [He|He]; cbn [length]; [|by apply H3; lia].
      enough (length (List.filter (λ t, (conn_timeout <=? t)%Z) rest) = length rest) by lia.
      rewrite List.forallb_filter_id; [done|]. apply forallb_forall. intros x Hx. apply Z.leb_le.
      enough (t ≤ x)%Z by lia. apply Hmin. rewrite Hp. right. by apply list_elem_of_In.
    + intros H0 x Hx. rewrite Hp in Hx. apply elem_of_cons in Hx as [->|Hx]; [lia|by apply H4].
  - cbn. assert (length (List.filter (λ t, (conn_timeout <=? t)%Z) tasks) = length tasks) as Hall.
    { rewrite List.forallb_filter_id; [done|]. apply forallb_forall. intros x Hx%list_elem_of_In.
      apply Z.leb_le. specialize (Hmin x Hx). lia. }
    unfold count in *. rewrite Hall. split_and!; try lia.
Qed.

(** C38: the shutdown ends within five seconds of the signal, whatever
    [shutdown_timeout] says, which the documentation gives as the time that
    requests are granted: a connection that would end later is closed by
    force, one that ends before is waited for, and when none was closed all
    of them have ended. *)
Theorem shutdown_takes_five_seconds (shutdown_timeout : Z) (tasks : list Z) :
  let r := shut_down shutdown_timeout tasks in
  (0 ≤ sd_at r ≤ conn_timeout)%Z ∧
  count (λ t, (conn_timeout <? t)%Z) tasks ≤ sd_forced r ≤ count (λ t, (conn_timeout <=? t)%Z) tasks ∧
  (sd_forced r = 0 → ∀ t, t ∈ tasks → (t ≤ sd_at r)%Z).
Proof.
  destruct (drain_spec (length tasks) 0 tasks) as (H1&H2&H3&H4); [done|vm_compute; split; discriminate|].
  cbv zeta. unfold shut_down. split_and!; try lia; [|done]. by apply H3.
Qed.

(** ** Connections that have ended *)

Definition is_accepted (e : serve_event) : bool := match e with Accepted _ => true | _ => false end.

(** Connections are never forgotten while the server runs. The set of
    tasks grows by one with every connection that is accepted, and the end of
    a connection leaves its task in the set, so after any events there are as
    many tasks as connections were ever accepted. *)
Theorem ended_connections_are_kept (events : list serve_event) :
  length (sv_tasks (serve_loop events)) = length (List.filter is_accepted events).
Proof.
  unfold serve_loop. change (length (List.filter is_accepted events)) with (length (sv_tasks {| sv_tasks := [] |}) + length (List.filter is_accepted events)).
  generalize {| sv_tasks := [] |}. induction events as [|e events IH]; intros s; cbn; [lia|]. rewrite IH.
  destruct e; cbn; [rewrite length_app; cbn; lia|done|by rewrite length_map].
Qed.

(** ** The dry run *)

(** A dry run prints nothing when the configuration logs warnings or
    errors only: the endpoints it is to show are lines of the log, which the
    filter of the configured level drops. *)
Theorem dry_run_may_print_nothing {Validator : Type}
    (new_registry : AppConfig → string → result AppError (SchemaRegistry Validator))
    (cli : Cli) (config : AppConfig) (path : string)
    (Hdry : cli_dry_run cli = true) (Hvalidate : cli_validate cli = false)
    (Hlevel : log_level (cfg_logging config) = LWarn ∨ log_level (cfg_logging config) = LError) :
  ∃ lines, async_main new_registry cli config path = Exits 0 lines ∧ length lines = 6 + length (cfg_endpoints config) ∧
    shown (log_level (cfg_logging config)) lines = [].
Proof.
  unfold async_main. rewrite Hvalidate, Hdry. exists (dry_run config). split; [done|]. split.
  - unfold dry_run. by rewrite length_app, length_map.
  - unfold shown, dry_run. destruct Hlevel as [-> | ->]; cbn; by induction (cfg_endpoints config).
Qed.

Definition quiet_config : AppConfig := {|
  cfg_server := cfg_server sample_config;
  cfg_logging := {| log_level := LWarn; log_format := FmtJson; log_request_body := false;
                    log_response_body := false; log_max_body_log_size := 10 |};
  cfg_cors := default_CorsConfig; cfg_rate_limit := default_RateLimitConfig;
  cfg_databases := ∅; cfg_tables := []; cfg_auth := cfg_auth sample_config;
  cfg_endpoints := [posts_endpoint]; cfg_stores := ∅; cfg_role_hierarchy := None; cfg_global_schemas := None |}.
Definition dry_cli : Cli := {|
  cli_config := None; cli_admin_token := ""; cli_validate := false; cli_dry_run := true |}.

Lemma dry_run_may_print_nothing_witness :
  ∃ lines, async_main (λ _ _, Ok (∅ : SchemaRegistry ())) dry_cli quiet_config "config.yaml" = Exits 0 lines ∧
    length lines = 7 ∧ shown LWarn lines = [].
Proof.
  refine (dry_run_may_print_nothing (λ _ _, Ok (∅ : SchemaRegistry ())) dry_cli quiet_config "config.yaml" _ _ _);
    [reflexivity..|left; reflexivity].
Defined.

(** ** The program *)

(** The end of [serve] is within the time of its last wait. *)
Lemma serve_bounds shutdown_timeout events remaining :
  (0 ≤ sd_at (serve shutdown_timeout events remaining) ≤ conn_timeout)%Z.
Proof. unfold serve. by destruct (drain_spec (length (map (λ t : nat * bool, if t.2 then 0%Z else remaining t.1)
  (sv_tasks (serve_loop events)))) 0 _ (Nat.le_refl _)) as (?&_); [vm_compute; split; discriminate|]. Qed.

Section program.
Context {DB Store Validator TlsAcceptor SocketAddr Listener : Type} `{!Pool DB, !PoolDriver DB}.
Context (iter : ∀ A : Type, gmap string A → list (string * A)).
Context (iter_perm : ∀ (A : Type) (m : gmap string A), iter A m ≡ₚ map_to_list m).
Context (iter_tables : gmap nat (list nat) → list (nat * list nat)).
Context (home : option string) (exists_file : string → bool).
Context (canonicalize : string → result string string).
Context (read_to_string : string → result string string).
Context (glob : string → result string (list (result string string))).
Context (parse_yaml : string → result string yaml).
Context (value_eqb : yaml → yaml → bool).
Context (env_var : string → option string).
Context (from_value : yaml → result string AppConfig).
Context (compile : value → result string Validator).
Context (from_str : string → result string value).
Context (to_value : yaml → result string value).
Context (memory_new : Store) (native_new : string → Store).
Context (s3_new azure_new gcs_new : option (StoreConfig → result StorageError Store)).
Context (debug : string → string).
Context (build_runtime : Z → result string ()) (router_panics : AppConfig → bool).
Context (parse_addr : string → result string SocketAddr) (bind : SocketAddr → result string Listener).
Context (tls_acceptor : TlsConfig → result AppError TlsAcceptor).

Local Notation load := (load_config canonicalize read_to_string glob parse_yaml value_eqb env_var from_value iter).
Local Notation start := (start_server iter iter_tables canonicalize read_to_string compile from_str to_value
  memory_new native_new s3_new azure_new gcs_new debug).
Local Notation program := (main iter iter_tables home exists_file canonicalize read_to_string glob parse_yaml
  value_eqb env_var from_value compile from_str to_value memory_new native_new s3_new azure_new gcs_new debug
  build_runtime router_panics parse_addr bind tls_acceptor).
Local Notation registry_of := (new_SchemaRegistry compile canonicalize read_to_string from_str to_value iter).
Local Notation serve_requests := (serve_requests iter iter_tables parse_yaml value_eqb from_value compile
  from_str to_value memory_new native_new s3_new azure_new gcs_new debug).
Local Notation server := (run_server iter iter_tables parse_yaml value_eqb from_value compile from_str to_value
  memory_new native_new s3_new azure_new gcs_new debug router_panics parse_addr bind tls_acceptor).
Local Notation path_of cli := (resolve_config_path home exists_file (cli_config cli)).

(** The program only looks at the configuration. *)
Definition only_looks (cli : Cli) : bool := cli_validate cli || cli_dry_run cli.

Lemma async_main_spec (new_registry : AppConfig → string → result AppError (SchemaRegistry Validator))
    cli config path :
  match async_main new_registry cli config path with
  | Exits code _ => only_looks cli = true ∧
      code = if cli_validate cli && is_err (new_registry config path) then 1%Z else 0%Z
  | Starts _ => only_looks cli = false
  end.
Proof.
  unfold async_main, only_looks. destruct (cli_validate cli); cbn.
  - by destruct (new_registry config path).
  - by destruct (cli_dry_run cli).
Qed.

(** A run that only looks: it changes nothing, and its code says whether it
    found anything wrong. *)
Lemma looks_spec fuel cli events remaining requests db l :
  only_looks cli = true → load fuel (path_of cli) = Some l →
  let fine config := build_runtime (srv_workers (cfg_server config)) = Ok tt ∧
    (cli_validate cli = true → is_err (registry_of config (path_of cli)) = false) in
  (program fuel cli events remaining requests db = Some (db, Exit 0) ∧ ∃ config, l = Ok config ∧ fine config) ∨
  (program fuel cli events remaining requests db = Some (db, Exit 1) ∧ ∀ config, l = Ok config → ¬ fine config).
Proof.
  intros Hlooks Hl fine. unfold main. rewrite Hl. destruct l as [config|e]; [|right; by split].
  destruct (build_runtime _) as [[]|e] eqn:Hb; [|right; split; [done|]; intros ? [= <-] [? _]; congruence].
  pose proof (async_main_spec registry_of cli config (path_of cli)) as Ha.
  destruct (async_main _ _ _ _) as [code lines|lines]; [|congruence]. destruct Ha as [_ ->].
  destruct (cli_validate cli) eqn:Hv; [destruct (is_err _) eqn:Hr|]; cbn.
  - right. split; [done|]. intros ? [= <-] [_ H]. rewrite Hr in H. by specialize (H eq_refl).
  - left. split; [done|]. by exists config.
  - left. split; [done|]. exists config. by repeat split.
Qed.

(** A server that went on until the signal. *)
Definition served fuel (requests : list (server_request DB)) (h : AppHandle Store) (s : AppState Validator)
    (db db' : DB) (se : session TlsAcceptor Validator) : Prop :=
  (0 ≤ sd_at (se_shutdown se) ≤ conn_timeout)%Z ∧
  match srv_tls (cfg_server (as_config s)) with
  | Some tls => ∃ acceptor, tls_acceptor tls = Ok acceptor ∧ se_acceptor se = Some acceptor
  | None => se_acceptor se = None
  end ∧
  ∃ db1, serve_requests fuel h requests (s, db) = Some (se_state se, db1) ∧
    db' = close_pools iter (as_db_pools (se_state se)) db1.

Lemma run_server_spec files fuel events remaining requests h s db :
  Forall (sees files) requests → size files < fuel →
  ∃ db' fin, server fuel events remaining requests h s db = Some (db', fin) ∧
  match fin with
  | Exit code => code = 1%Z ∧ db' = db
  | Panicked => router_panics (as_config s) = true ∧ db' = db
  | Finished se => served fuel requests h s db db' se
  end.
Proof.
  intros Hfiles Hfuel. unfold run_server, served.
  destruct (router_panics _) eqn:Hp; [by eexists _, _|].
  destruct (parse_addr _) as [addr|]; [|by eexists _, _].
  destruct (bind addr) as [listener|]; [|by eexists _, _].
  destruct (serve_requests_ends iter iter_perm iter_tables parse_yaml value_eqb from_value compile from_str to_value
    memory_new native_new s3_new azure_new gcs_new debug files fuel h requests (s, db) Hfiles Hfuel)
    as [[s1 db1] Hserve].
  destruct (srv_tls _) as [tls|]; [destruct (tls_acceptor tls) as [acceptor|] eqn:Ht; [|by eexists _, _]|];
    rewrite Hserve; eexists _, _; (split; [done|]); cbn; (split; [apply serve_bounds|]);
    (split; [by eauto|]); by exists db1.
Qed.

(** C37: what a run of the program does. It ends, given the requests it is
    sent, however the configuration is spread over finitely many files. A run
    that validates or that is dry changes no database; it exits with 0 when
    it found nothing wrong, which is that the configuration loads, that the
    runtime can be built and, when validating, that the schemas can be
    compiled, and with 1 otherwise. Any other run exits with 0 only by a
    graceful end. Such a run has loaded a configuration that passed the
    validation and started its state from it; it accepts connections through
    TLS, by the acceptor for the configured certificates, exactly when some
    are configured; the wait for its connections is over within five seconds
    of the signal; and after the last request it closes the pools that are
    then in force, those of the last reload if there was one. How long the
    closing takes is not part of this. *)
Theorem program_run (files : gset string) (fuel : nat) (cli : Cli) (events : list serve_event)
    (remaining : nat → Z) (requests : list (server_request DB)) (db : DB) :
  (∀ p c, canonicalize p = Ok c → c ∈ files) → Forall (sees files) requests → size files < fuel →
  ∃ db' fin, program fuel cli events remaining requests db = Some (db', fin) ∧
  (only_looks cli = true → db' = db ∧ (fin = Exit 0 ∨ fin = Exit 1) ∧
     (fin = Exit 0 ↔ ∃ config, load fuel (path_of cli) = Some (Ok config) ∧
        build_runtime (srv_workers (cfg_server config)) = Ok tt ∧
        (cli_validate cli = true → is_err (registry_of config (path_of cli)) = false))) ∧
  (only_looks cli = false → exit_status fin = 0%Z → ∃ se, fin = Finished se) ∧
  (∀ se, fin = Finished se →
     only_looks cli = false ∧ (0 ≤ sd_at (se_shutdown se) ≤ conn_timeout)%Z ∧
     ∃ config h s db0 db1,
       load fuel (path_of cli) = Some (Ok config) ∧ validate_config iter config = Some (Ok tt) ∧
       start config (path_of cli) (cli_admin_token cli) db = (db0, Ok (h, s)) ∧
       match srv_tls (cfg_server config) with
       | Some tls => ∃ acceptor, tls_acceptor tls = Ok acceptor ∧ se_acceptor se = Some acceptor
       | None => se_acceptor se = None
       end ∧
       serve_requests fuel h requests (s, db0) = Some (se_state se, db1) ∧
       db' = close_pools iter (as_db_pools (se_state se)) db1 ∧
       ∀ closed name p, closing_laws closed → as_db_pools (se_state se) !! name = Some p → closed p db').
Proof.
  intros Hfiles Hsees Hfuel.
  destruct (load_config_runs canonicalize read_to_string glob parse_yaml value_eqb env_var files Hfiles from_value
    iter iter_perm fuel (path_of cli) Hfuel) as [l Hl].
  destruct (only_looks cli) eqn:Hlooks.
  { destruct (looks_spec fuel cli events remaining requests db l Hlooks Hl) as [[Hr Hfine]|[Hr Hfine]];
      eexists _, _; (split; [exact Hr|]); (split; [|split; [done|by intros se]]);
      intros _; (split; [done|]); (split; [auto|]); rewrite Hl; naive_solver. }
  unfold main. rewrite Hl. destruct l as [config|e]; [|by eexists _, _].
  destruct (build_runtime _); [|by eexists _, _].
  pose proof (async_main_spec registry_of cli config (path_of cli)) as Ha.
  destruct (async_main _ _ _ _) as [code lines|lines]; [destruct Ha; congruence|].
  destruct (start _ _ _ db) as [db0 [[h s]|e]] eqn:Hs; [|by eexists _, _].
  destruct (run_server_spec files fuel events remaining requests h s db0 Hsees Hfuel) as (db'&fin&->&Hfin).
  eexists _, _. split; [done|]. split; [done|]. split.
  { intros _ Hst. destruct fin as [code| |se]; [by destruct Hfin as [-> _]|done|eauto]. }
  intros se ->. destruct Hfin as (Hsd&Htls&db1&Hserve&Hclose). split; [done|]. split; [done|].
  pose proof Hs as (_&_&_&Hc&_)%start_server_Ok; [|done].
  rewrite Hc in Htls. exists config, h, s, db0, db1. split_and!; [done| |done|done|done|done|].
  - by eapply load_validated.
  - intros closed name p Hlaws Hp. rewrite Hclose. by eapply close_pools_closes.
Qed.

(** A host that is no address is found last. The validation accepts any
    host, a name or an IPv6 address without brackets, which the address
    parser refuses; by then the pools are open and the migrations have run. *)
Theorem address_is_checked_last (fuel : nat) (cli : Cli) (events : list serve_event) (remaining : nat → Z)
    (requests : list (server_request DB)) (db db0 : DB) (config : AppConfig) (h : AppHandle Store) (s : AppState Validator) (e : string) :
  only_looks cli = false → load fuel (path_of cli) = Some (Ok config) →
  build_runtime (srv_workers (cfg_server config)) = Ok tt →
  start config (path_of cli) (cli_admin_token cli) db = (db0, Ok (h, s)) →
  router_panics config = false →
  parse_addr (srv_host (cfg_server config) +:+ ":" +:+ show_Z (srv_port (cfg_server config))) = Err e →
  program fuel cli events remaining requests db = Some (db0, Exit 1).
Proof.
  intros Hlooks Hl Hb Hs Hp He. unfold main. rewrite Hl, Hb.
  pose proof (async_main_spec registry_of cli config (path_of cli)) as Ha.
  destruct (async_main _ _ _ _); [destruct Ha; congruence|]. rewrite Hs.
  apply start_server_Ok in Hs as (_&_&_&Hc&_); [|done]. unfold run_server. by rewrite Hc, Hp, He.
Qed.
End program.

(** A run that is sent a reload and serves a connection that ends a second
    after the signal. *)
Definition serve_cli : Cli := {|
  cli_config := Some "/etc/config.yaml"; cli_admin_token := "admin"; cli_validate := false; cli_dry_run := false |}.
Definition sample_run : option (pooled * finish unit unit) :=
  main (DB := pooled) (Validator := unit) (TlsAcceptor := unit) sorted_iter map_to_list None (λ _, true) one_file
    read_text no_glob parse_null (λ _ _, false) no_env from_null compiled json_text json_of "memory" id None None
    None id (λ _, Ok tt) (λ _, false) (λ a : string, Ok a) (λ a : string, Ok a) (λ _, Ok tt) 2
    serve_cli [Accepted 0; Accepted 1; Ended 1] (λ _, 1000000000%Z)
    [Work id id; ReloadRequest sample_disk (Some "Bearer admin")]
    {| pd_opened := 0; pd_closed := []; pd_revoked := ["id-1"] |}.
Definition sample_end : pooled := {|
  pd_opened := 4; pd_closed := [PoolSqlite 3; PoolSqlite 2; PoolSqlite 1; PoolSqlite 0]; pd_revoked := ["id-1"] |}.
Definition sample_finish : finish unit unit := Finished {|
  se_acceptor := None; se_state := reloaded_state; se_shutdown := {| sd_at := 1000000000; sd_forced := 0 |} |}.

Lemma program_run_witness :
  sample_run = Some (sample_end, sample_finish) ∧
  ∀ name p, as_db_pools reloaded_state !! name = Some p → pool_closed p sample_end.
Proof.
  assert (sample_run = Some (sample_end, sample_finish)) as Hr by (vm_compute; reflexivity).
  split; [exact Hr|]. unfold sample_run in Hr.
  destruct (program_run (DB := pooled) (Validator := unit) (TlsAcceptor := unit) sorted_iter sorted_iter_perm
    map_to_list None (λ _, true) one_file read_text no_glob parse_null (λ _ _, false) no_env from_null compiled
    json_text json_of "memory" id None None None id (λ _, Ok tt) (λ _, false) (λ a : string, Ok a)
    (λ a : string, Ok a) (λ _, Ok tt) {["/etc/config.yaml"]} 2 serve_cli [Accepted 0; Accepted 1; Ended 1]
    (λ _, 1000000000%Z) [Work id id; ReloadRequest sample_disk (Some "Bearer admin")]
    {| pd_opened := 0; pd_closed := []; pd_revoked := ["id-1"] |}) as (db'&fin&Hrun&_&_&Hf).
  - intros p c [= <-]. set_solver.
  - repeat constructor. intros p c [= <-]. set_solver.
  - rewrite size_singleton. lia.
  - rewrite Hr in Hrun. injection Hrun as <- <-.
    destruct (Hf _ eq_refl) as (_&_&config&h&s&db0&db1&_&_&_&_&_&_&Hclosed).
    intros name p. apply (Hclosed pool_closed), pooled_closing.
Defined.
