(* ===== verification/Site.v ===== *)
(** * A request from the network to the database

    The services that the layers of [Pipeline] are put around, for the CRUD
    routes of [Crud]: what the extractors of the route handler take from a
    request, and the answer it becomes. Then the layers, authentication, the
    route and the query builders put together: a row is changed on behalf of
    its owner. *)

From Stdlib Require Import Init.Byte.
From S2P Require Import Prelude RustStr Json Config Errors SqlHelpers Interp Select SelectSpec Mutations Pool Roles Routing Schemas Storage Credentials RateLimit Auth AuthSpec Crud CrudSpec Pipeline PipelineSpec.
Local Open Scope stdpp_scope.

Section crud_routes.
Context {DB : Type} `{!Pool DB}.
Context {Validator : Type} (iter_errors : Validator → value → list (string * string)).
Context (iter_schemas : gmap string (JsonSchema Validator) → list (string * JsonSchema Validator)).
Context (unicode_alnum json_path_ok unicode_word : string → bool).
Context (json_string : string → string).
Context (iter : gmap string string → list (string * string)).
Context (iter_endpoints : endpoint_map → list (string * EndpointConfig)).
Context {HeaderMap : Type} (header_str : HeaderMap → string → option string).
Context (header_entries : HeaderMap → list (string * option string)).
Context {B : Type} `{!HttpBody B}.
Context (from_slice : string → option value).
Context (header_value_ok : string → bool) (error_json : ErrorDetail → bytes) (json_text : value → bytes).

(** The pattern of the route that a path and a method are dispatched to, with
    the parameters the extractor finds; and the parameters of a query, or the text it
    is rejected with. *)
Context (dispatch : string → string → option (string * option (gmap string string))).
Context (parse_query : option string → result string (gmap string string)).

(** The bytes of a body as the text the JSON parser reads. *)
Definition body_text (body : B) (limit : Z) : result string string :=
  bytes ← to_bytes body limit; Ok (String.string_of_list_byte bytes).

Definition json_answer (r : json_response) : @answer B := {|
  an_status := jr_status r; an_headers := [("content-type", "application/json")];
  an_body := from_bytes (json_text (jr_body r)) |}.

Definition text_answer (status : Z) (text : string) : @answer B := {|
  an_status := status; an_headers := [("content-type", "text/plain; charset=utf-8")];
  an_body := from_bytes (String.list_byte_of_string text) |}.

(** Source: server/router.rs:508-519 [handle_crud_route (extractors)] *)
Definition crud_service (configs : endpoint_map) (state : crud_state Validator) : service HeaderMap B DB :=
  λ req db,
    let head := in_head req in
    match dispatch (req_path head) (req_method head) with
    | None => (db, Some (text_answer 404 ""))
    | Some (pattern, params) =>
        match parse_query (req_query head) with
        | Err e => (db, Some (text_answer 400 e))
        | Ok query =>
            let '(db, r) :=
              handle_crud_route iter_errors iter_schemas unicode_alnum json_path_ok unicode_word json_string iter
                iter_endpoints header_str header_entries body_text from_slice configs state
                {| rq_matched_path := pattern; rq_auth_info := in_user req; rq_method := req_method head;
                   rq_headers := req_headers head; rq_path_params := params; rq_query := query;
                   rq_body := in_body req |} db in
            (db, Some (match r with
                       | Ok response => json_answer response
                       | Err e => error_answer header_value_ok error_json e
                       end))
        end
    end.
End crud_routes.

(** ** The rows of a site *)

Section site.
Context {DB : Type} `{!Pool DB}.
Context {Validator : Type} (iter_errors : Validator → value → list (string * string)).
Context (iter_schemas : gmap string (JsonSchema Validator) → list (string * JsonSchema Validator)).
Context (unicode_alnum json_path_ok unicode_word : string → bool).
Context (json_string : string → string).
Context (iter_map : gmap string string → list (string * string)).
Context (iter : endpoint_map → list (string * EndpointConfig)).
Context {HeaderMap : Type} (header_str : HeaderMap → string → option string).
Context (header_entries : HeaderMap → list (string * option string)).
Context {B : Type} `{!HttpBody B, !HttpBodyLaws B}.
Context (from_slice : string → option value).
Context (header_value_ok : string → bool) (error_json : ErrorDetail → bytes) (json_text : value → bytes).
Context (dispatch : string → string → option (string * option (gmap string string))).
Context (parse_query : option string → result string (gmap string string)).
Context (show_uri : @http_request HeaderMap → string) (show_status : Z → string)
  (from_utf8_lossy : bytes → string).
Context (jwt_decode : string → Validation → string → result string value).
Context (base64_decode : string → option (option string)).
Context (verify_hash : string → string → option password_check).
Context (get_userinfo_reply : string → string → http_reply).
Context {St : Type} `{!RevocationStoreBackend St}.

(** The service of a site: the layers around its CRUD routes. *)
Definition crud_site (config running : AppConfig) (auth : auth_state St) (now : Z) (state : crud_state Validator)
  : service HeaderMap B (@world DB) :=
  build_service header_str header_value_ok error_json show_uri show_status from_utf8_lossy jwt_decode base64_decode
    verify_hash get_userinfo_reply iter config running auth now
    (crud_service iter_errors iter_schemas unicode_alnum json_path_ok unicode_word json_string iter_map iter
       header_str header_entries from_slice header_value_ok error_json json_text dispatch parse_query
       (as_endpoint_configs auth) state).

(** C6: from the network to the database, a row is changed on behalf of its
    owner. Take a site with a CRUD endpoint that asks for a JWT and whose
    clauses for updates and deletes compare a column with the user, on a
    database with positional placeholders; and any PUT, PATCH or DELETE for
    which the middleware and the route find this endpoint. If the request
    changes the database at all, it carried a token that the JWT library
    accepts under the configured secret, that is not revoked and names a
    subject; and the change is that of one statement which ends in the
    comparison, its last parameter being that subject. Whatever is in the
    path, the query, the body and the other headers, and whether bodies are
    logged, it cannot act for another user. *)
Theorem rows_change_for_their_owner (config running : AppConfig) (auth : auth_state St) (now : Z)
    (state : crud_state Validator) (req : @incoming HeaderMap B) (w w' : @world DB) (a : option (@answer B))
    (endpoint : EndpointConfig) (crud : CrudConfig) (pool : DatabasePool) (col pattern : string)
    (params : option (gmap string string))
    (Hmax : (0 ≤ srv_max_body_size (cfg_server running))%Z)
    (Hframed : ∀ n bs, content_length header_str req = Some n → collect (in_body req) = Some bs →
      (Z.of_nat (length bs) ≤ n)%Z)
    (Hmethod : req_method (in_head req) ∈ ["PUT"; "PATCH"; "DELETE"])
    (Hskip : skipped (req_path (in_head req)) = false)
    (Hmiddleware : get_endpoint_config_for_method iter (as_endpoint_configs auth) (req_path (in_head req))
      (req_method (in_head req)) = Some endpoint)
    (Hdispatch : dispatch (req_path (in_head req)) (req_method (in_head req)) = Some (pattern, params))
    (Hroute : get_endpoint_config_for_method iter (as_endpoint_configs auth) pattern (req_method (in_head req))
      = Some endpoint)
    (Hauth : ep_auth endpoint = "jwt") (Hcrud : ep_crud endpoint = Some crud)
    (Hpool : cs_db_pools state !! crud_database crud = Some pool) (Hdriver : pool_driver pool ≠ Postgres)
    (Hcol : contains_char "$" col = false)
    (Hupdate : crud_update_where_clause crud = Some (owned_by col))
    (Hdelete : crud_delete_where_clause crud = Some (owned_by col))
    (Hrun : crud_site config running auth now state req w = (w', a)) :
  wd_inner w' = wd_inner w ∨
  ∃ jwt token claims subject q base ps,
    auth_jwt (as_auth auth) = Some jwt ∧
    request_token header_str (as_auth auth) (req_headers (in_head req)) = Ok token ∧
    jwt_decode (jwt_secret jwt) (token_validation jwt true) token = Ok claims ∧
    str_claim "sub" claims = Some subject ∧ is_empty (trim subject) = false ∧
    (∀ store jti, as_revocation_store auth = Some store → str_claim "jti" claims = Some jti →
       is_revoked jti store = false) ∧
    ran pool q (wd_inner w) (wd_inner w') ∧
    bq_sql q = base +:+ " AND " +:+ col +:+ " = ?" ∧ bq_params q = ps ++ [VString subject].
Proof.
  unfold crud_site in Hrun.
  match type of Hrun with Pipeline.build_service _ _ _ _ _ _ _ _ _ _ _ _ _ _ _ ?h _ _ = _ => set (handler := h) in * end.
  edestruct (service_shaped header_str header_value_ok error_json show_uri show_status from_utf8_lossy jwt_decode
    base64_decode verify_hash get_userinfo_reply iter config running auth now req w Hmax Hframed)
    as [(w1&a1&Hw1&Hs)|(r&k&[Hhead _ Huser]&Hk&Hs)]; rewrite Hs in Hrun.
  { left. by injection Hrun as <- _. }
  assert (wd_inner w' = (handler r (wd_inner w)).1) as -> by (by rewrite <-Hk, Hrun).
  destruct (Huser endpoint Hskip Hmiddleware) as (user&Hu&Ha&_); [by rewrite Hauth|].
  rewrite Hauth in Ha. apply authenticate_jwt_Ok in Ha as (jwt&token&claims&Hj&Ht&Hd&Hsub&Hb&Hrev&_).
  unfold handler, crud_service. rewrite Hhead, Hdispatch. destruct (parse_query _) as [query|e]; [|by left].
  destruct (handle_crud_route _ _ _ _ _ _ _ _ _ _ _ _ _ _ _ _) as [db' res] eqn:Hcr. cbn [fst].
  apply (owner_scoped_mutation _ _ _ _ _ _ _ _ _ _ _ _ _ _ _ user endpoint crud pool col) in Hcr
    as [?|(q&base&ps&Hran&Hsql&Hps)]; [by left| |done..].
  right. by exists jwt, token, claims, (ai_subject user), q, base, ps.
Qed.
End site.

(** ** A sample site *)

Definition site_head : @http_request (list (string * string)) := {|
  req_method := "PUT"; req_path := "/api/posts/5"; req_query := None;
  req_headers := [("authorization", "Bearer tok"); ("content-type", "application/json")] |}.

Definition put_request : @incoming (list (string * string)) (option bytes) :=
  sample_incoming site_head (Some [x7b; x7d]).

Definition empty_site : @world (list (string * list value)) := {| wd_limiter := ∅; wd_log := []; wd_inner := [] |}.

Definition run_site :=
  crud_site (λ _ _, []) map_to_list no no no quoted map_to_list map_to_list no_headers
    (map (λ h, (h.1, Some h.2))) (λ _, title_body) (λ _, true) (λ d, String.list_byte_of_string (ed_message d))
    (λ _, []) (λ _ _, Some ("/api/posts/{id}", by_id)) (λ _, Ok ∅) req_path show_Z
    (λ bs, String.string_of_list_byte bs) one_decode (λ _, None) (λ _ _, None) (λ _ _, NoReply "")
    (small_config true) (small_config true) (site_state [crud_endpoint]) 0 crud_sample_state put_request empty_site.

(** A PUT of the user 42 runs one statement, bound to 42. *)
Lemma rows_change_for_their_owner_witness :
  ∃ w' a, run_site = (w', a) ∧ length (wd_inner w') = 1 ∧
  (wd_inner w' = [] ∨
   ∃ jwt token claims subject q base ps,
     auth_jwt (as_auth (site_state [crud_endpoint])) = Some jwt ∧
     request_token no_headers (as_auth (site_state [crud_endpoint])) (req_headers site_head) = Ok token ∧
     one_decode (jwt_secret jwt) (token_validation jwt true) token = Ok claims ∧
     str_claim "sub" claims = Some subject ∧ is_empty (trim subject) = false ∧
     (∀ store jti, as_revocation_store (site_state [crud_endpoint]) = Some store →
        str_claim "jti" claims = Some jti → is_revoked jti store = false) ∧
     ran (PoolSqlite 0) q [] (wd_inner w') ∧
     bq_sql q = base +:+ " AND " +:+ "author" +:+ " = ?" ∧ bq_params q = ps ++ [VString subject]).
Proof.
  do 2 eexists. split; [vm_compute; reflexivity|]. split; [vm_compute; reflexivity|].
  refine (rows_change_for_their_owner (λ _ _, []) map_to_list no no no quoted map_to_list map_to_list no_headers
    (map (λ h, (h.1, Some h.2))) (λ _, title_body) (λ _, true) (λ d, String.list_byte_of_string (ed_message d))
    (λ _, []) (λ _ _, Some ("/api/posts/{id}", by_id)) (λ _, Ok ∅) req_path show_Z
    (λ bs, String.string_of_list_byte bs) one_decode (λ _, None) (λ _ _, None) (λ _ _, NoReply "")
    (small_config true) (small_config true) (site_state [crud_endpoint]) 0 crud_sample_state put_request empty_site
    _ _ crud_endpoint posts_crud (PoolSqlite 0) "author" "/api/posts/{id}" by_id
    _ _ _ _ _ _ _ _ _ _ _ _ _ _ _); try (vm_compute; reflexivity).
  - vm_compute. discriminate.
  - intros n bs Hn. vm_compute in Hn. discriminate Hn.
  - left.
  - discriminate.
Defined.
