(* ===== verification/QueryTests.v ===== *)
(** * The unit tests of the query builders and their helpers

    The tests of the source, run on the model: the fixtures and the
    assertions of db/query/builders/tests.rs and of the files of
    db/query/helpers/, each test a proposition that holds by evaluation. A
    pool of the tests connects to nothing, so the context is that of the
    driver. *)

From Stdlib Require Import SpecFloat.
From S2P Require Import Prelude RustStr Json Config Errors SqlHelpers Interp Select SelectSpec Mutations.
Local Open Scope stdpp_scope.

(** ** The fixtures *)

(** Source: middleware/auth/extractor.rs [UserInfo] *)
Record UserInfo := { ui_id : string; ui_role : option string }.

(** Source: middleware/auth/extractor.rs [RequestContext::new_with_user] *)
Definition new_with_user (user : UserInfo) : RequestContext := {|
  rc_user_id := Some (ui_id user); rc_user_email := None; rc_user_role := ui_role user;
  rc_headers := ∅; rc_method := ""; rc_path := ""; rc_raw_query_params := ∅ |}.

(** A column as the fixtures write it. *)
Definition column (name : string) (t : ColumnType) (pk nullable : bool) : ColumnConfig := {|
  col_name := name; col_type := t; col_primary_key := pk; col_nullable := nullable;
  col_default := None; col_unique := false; col_indexed := false;
  col_validation_schema := None; col_validation := None; col_validation_schema_ref := None |}.

(** Source: db/query/builders/tests.rs [test_table] *)
Definition test_table : TableConfig := {|
  tbl_name := "posts"; tbl_database := "main";
  tbl_columns := [column "id" Integer true false; column "title" Text false false;
                  column "author" Varchar false false];
  tbl_foreign_keys := [] |}.

(** Source: db/query/builders/tests.rs [test_crud] *)
Definition test_crud : CrudConfig := {|
  crud_table := "posts"; crud_database := "main";
  crud_fields := ["id"; "title"; "author"]; crud_writable_fields := ["title"; "author"];
  crud_pagination := crud_pagination default_CrudConfig;
  crud_filtering := crud_filtering default_CrudConfig;
  crud_sorting := crud_sorting default_CrudConfig;
  crud_where_clause := crud_where_clause default_CrudConfig;
  crud_delete_where_clause := crud_delete_where_clause default_CrudConfig;
  crud_update_where_clause := crud_update_where_clause default_CrudConfig;
  crud_joins := crud_joins default_CrudConfig;
  crud_computed_fields := crud_computed_fields default_CrudConfig;
  crud_insert_owner := crud_insert_owner default_CrudConfig |}.

(** The pool only tells the driver. *)
Definition test_db_ctx (table : TableConfig) (driver : DatabaseDriver) : DatabaseContext :=
  {| dbx_driver := driver; dbx_table := table |}.

(** Source: db/query/builders/tests.rs [test_table_with_jsonb] *)
Definition test_table_with_jsonb : TableConfig := {|
  tbl_name := "posts"; tbl_database := "main";
  tbl_columns := [column "id" Integer true false; column "title" Text false false;
                  column "metadata" Jsonb false true; column "tags" Jsonb false true];
  tbl_foreign_keys := [] |}.

(** Source: db/query/builders/tests.rs [test_crud_with_jsonb_filtering] *)
Definition test_crud_with_jsonb_filtering : CrudConfig := {|
  crud_table := "posts"; crud_database := "main";
  crud_fields := ["id"; "title"; "metadata"]; crud_writable_fields := ["title"; "metadata"];
  crud_pagination := crud_pagination default_CrudConfig;
  crud_filtering := {| fc_enabled := true; fc_allowed_fields := ["*"] |};
  crud_sorting := crud_sorting default_CrudConfig;
  crud_where_clause := crud_where_clause default_CrudConfig;
  crud_delete_where_clause := crud_delete_where_clause default_CrudConfig;
  crud_update_where_clause := crud_update_where_clause default_CrudConfig;
  crud_joins := crud_joins default_CrudConfig;
  crud_computed_fields := crud_computed_fields default_CrudConfig;
  crud_insert_owner := crud_insert_owner default_CrudConfig |}.

Definition default_QueryParams : QueryParams := {|
  qp_page := None; qp_page_size := None; qp_sort := None; qp_order := None; qp_filters := ∅ |}.

Definition filtered_by (fs : list (string * string)) : QueryParams := {|
  qp_page := None; qp_page_size := None; qp_sort := None; qp_order := None;
  qp_filters := list_to_map fs |}.

Definition sorted_by (field : string) (order : SortOrder) : QueryParams := {|
  qp_page := None; qp_page_size := None; qp_sort := Some field; qp_order := Some order;
  qp_filters := ∅ |}.

(** [build_select_list] in the empty context of a request; no character of
    the tests is outside ASCII. *)
Definition select_list (db : DatabaseContext) (ctx : SelectContext) (params : QueryParams) :=
  build_select_list no no no quoted map_to_list db ctx params empty_context.

(** [result.unwrap()] followed by assertions. *)
Definition unwrapped (r : result AppError BuiltQuery) (asserts : BuiltQuery → Prop) : Prop :=
  match r with Ok q => asserts q | Err _ => False end.

(** ** The tests *)

(** Source: db/query/builders/tests.rs [test_build_select_list_basic] *)
Definition test_build_select_list_basic : Prop :=
  unwrapped (select_list (test_db_ctx test_table Sqlite)
    (select_context_of test_crud) default_QueryParams) (λ q,
    contains_str "SELECT" (bq_sql q) ∧
    contains_str "posts" (bq_sql q) ∧
    bq_params q = [json_int 20; json_int 0]).

(** Source: db/query/builders/tests.rs [test_build_select_list_with_filter] *)
Definition test_build_select_list_with_filter : Prop :=
  unwrapped (select_list (test_db_ctx test_table Sqlite)
    (select_context_of test_crud) (filtered_by [("author", "alice")])) (λ q,
    contains_str "SELECT" (bq_sql q) ∧
    contains_str "posts" (bq_sql q) ∧
    contains_str "author" (bq_sql q) ∧
    length (bq_params q) = 3).

(** Source: db/query/builders/tests.rs [test_build_select_list_postgres_placeholders] *)
Definition test_build_select_list_postgres_placeholders : Prop :=
  unwrapped (select_list (test_db_ctx test_table Postgres)
    (select_context_of test_crud) (filtered_by [("author", "bob")])) (λ q,
    contains_str "SELECT" (bq_sql q) ∧
    contains_str "posts" (bq_sql q) ∧
    contains_char "$" (bq_sql q) ∧
    bq_params q ≠ []).

(** Source: db/query/builders/tests.rs [test_build_select_one] *)
Definition test_build_select_one : Prop :=
  unwrapped (build_select_one (test_db_ctx test_table Sqlite)
    (select_context_of test_crud) "42" empty_context) (λ q,
    bq_sql q = "SELECT id, title, author FROM posts WHERE id = ? LIMIT 1" ∧
    bq_params q = [json_int 42]).

(** Source: db/query/builders/tests.rs [test_build_insert] *)
Definition test_build_insert : Prop :=
  unwrapped (build_insert no (test_db_ctx test_table Sqlite) (mutation_context_of test_crud)
    (VObject [("title", VString "Hello"); ("author", VString "Alice")]) empty_context) (λ q,
    contains_str "INSERT INTO posts" (bq_sql q) ∧
    contains_str "title" (bq_sql q) ∧
    contains_str "author" (bq_sql q) ∧
    contains_str "VALUES" (bq_sql q) ∧
    length (bq_params q) = 2).

(** Source: db/query/builders/tests.rs [test_build_insert_ignores_non_writable] *)
Definition test_build_insert_ignores_non_writable : Prop :=
  unwrapped (build_insert no (test_db_ctx test_table Sqlite) (mutation_context_of test_crud)
    (VObject [("title", VString "Hello"); ("author", VString "Alice"); ("id", json_int 999)])
    empty_context) (λ q,
    contains_str "INSERT INTO posts" (bq_sql q) ∧
    length (bq_params q) = 2).

(** Source: db/query/builders/tests.rs [test_build_update] *)
Definition test_build_update : Prop :=
  unwrapped (build_update no (test_db_ctx test_table Sqlite) (mutation_context_of test_crud) "42"
    (VObject [("title", VString "Updated")]) empty_context None) (λ q,
    bq_sql q = "UPDATE posts SET title = ? WHERE id = ?" ∧
    bq_params q = [VString "Updated"; json_int 42]).

(** Source: db/query/builders/tests.rs [test_build_delete] *)
Definition test_build_delete : Prop :=
  unwrapped (build_delete "42" (test_db_ctx test_table Sqlite) empty_context None) (λ q,
    bq_sql q = "DELETE FROM posts WHERE id = ?" ∧
    bq_params q = [json_int 42]).

(** Source: db/query/builders/tests.rs [test_build_delete_with_where_clause] *)
Definition test_build_delete_with_where_clause : Prop :=
  unwrapped (build_delete "42" (test_db_ctx test_table Sqlite)
    (new_with_user {| ui_id := "user-42"; ui_role := None |}) (Some "author = ${request.user.id}")) (λ q,
    bq_sql q = "DELETE FROM posts WHERE id = ? AND author = ?" ∧
    bq_params q = [json_int 42; VString "user-42"]).

(** Source: db/query/builders/tests.rs [test_build_delete_with_interpolated_where_clause] *)
Definition test_build_delete_with_interpolated_where_clause : Prop :=
  unwrapped (build_delete "42" (test_db_ctx test_table Sqlite)
    (new_with_user {| ui_id := "user-123"; ui_role := None |}) (Some "author = ${request.user.id}")) (λ q,
    bq_sql q = "DELETE FROM posts WHERE id = ? AND author = ?" ∧
    bq_params q = [json_int 42; VString "user-123"]).

(** Source: db/query/builders/tests.rs [test_build_update_with_where_clause] *)
Definition test_build_update_with_where_clause : Prop :=
  unwrapped (build_update no (test_db_ctx test_table Sqlite) (mutation_context_of test_crud) "42"
    (VObject [("title", VString "Updated")])
    (new_with_user {| ui_id := "user-42"; ui_role := None |}) (Some "author = ${request.user.id}")) (λ q,
    bq_sql q = "UPDATE posts SET title = ? WHERE id = ? AND author = ?" ∧
    bq_params q = [VString "Updated"; json_int 42; VString "user-42"]).

(** Source: db/query/builders/tests.rs [test_invalid_identifier_rejected] *)
Definition test_invalid_identifier_rejected : Prop :=
  is_valid_identifier no "DROP TABLE;--" = false ∧
  is_valid_identifier no "field; DELETE" = false ∧
  is_valid_identifier no "user_name" ∧
  is_valid_identifier no "table.column".

(** Source: db/query/builders/tests.rs [test_build_insert_postgres_returning] *)
Definition test_build_insert_postgres_returning : Prop :=
  unwrapped (build_insert no (test_db_ctx test_table Postgres) (mutation_context_of test_crud)
    (VObject [("title", VString "Hello"); ("author", VString "Alice")]) empty_context) (λ q,
    contains_str "INSERT INTO posts" (bq_sql q) ∧
    contains_str "RETURNING" (bq_sql q) ∧
    length (bq_params q) = 2).

(** Source: db/query/builders/tests.rs [test_filter_dot_notation_nested] *)
Definition test_filter_dot_notation_nested : Prop :=
  unwrapped (select_list (test_db_ctx test_table_with_jsonb Sqlite)
    (select_context_of test_crud_with_jsonb_filtering)
    (filtered_by [("metadata.user.profile.email", "test@example.com")])) (λ q,
    contains_str "SELECT" (bq_sql q) ∧
    contains_str "posts" (bq_sql q) ∧
    contains_str "json_extract(metadata, '$.user.profile.email')" (bq_sql q) ∧
    contains_char "=" (bq_sql q) ∧
    bq_params q ≠ []).

(** Source: db/query/builders/tests.rs [test_filter_lhs_bracket_eq] *)
Definition test_filter_lhs_bracket_eq : Prop :=
  unwrapped (select_list (test_db_ctx test_table_with_jsonb Sqlite)
    (select_context_of test_crud_with_jsonb_filtering) (filtered_by [("metadata.role[eq]", "admin")])) (λ q,
    contains_str "SELECT" (bq_sql q) ∧
    contains_str "posts" (bq_sql q) ∧
    contains_str "json_extract(metadata, '$.role')" (bq_sql q) ∧
    contains_char "=" (bq_sql q) ∧
    bq_params q ≠ []).

(** Source: db/query/builders/tests.rs [test_filter_lhs_bracket_gt] *)
Definition test_filter_lhs_bracket_gt : Prop :=
  unwrapped (select_list (test_db_ctx test_table_with_jsonb Sqlite)
    (select_context_of test_crud_with_jsonb_filtering) (filtered_by [("metadata.user.age[gt]", "18")])) (λ q,
    contains_str "SELECT" (bq_sql q) ∧
    contains_str "posts" (bq_sql q) ∧
    contains_str "json_extract(metadata, '$.user.age')" (bq_sql q) ∧
    contains_char ">" (bq_sql q) ∧
    bq_params q ≠ []).

(** Source: db/query/builders/tests.rs [test_filter_lhs_bracket_lt] *)
Definition test_filter_lhs_bracket_lt : Prop :=
  unwrapped (select_list (test_db_ctx test_table_with_jsonb Sqlite)
    (select_context_of test_crud_with_jsonb_filtering) (filtered_by [("metadata.user.age[lte]", "65")])) (λ q,
    contains_str "SELECT" (bq_sql q) ∧
    contains_str "posts" (bq_sql q) ∧
    contains_str "json_extract(metadata, '$.user.age')" (bq_sql q) ∧
    contains_str "<=" (bq_sql q) ∧
    bq_params q ≠ []).

(** Source: db/query/builders/tests.rs [test_filter_multiple_jsonb_fields] *)
Definition test_filter_multiple_jsonb_fields : Prop :=
  unwrapped (select_list (test_db_ctx test_table_with_jsonb Sqlite)
    (select_context_of test_crud_with_jsonb_filtering)
    (filtered_by [("metadata.role", "admin"); ("metadata.status[eq]", "active")])) (λ q,
    contains_str "SELECT" (bq_sql q) ∧
    contains_str "posts" (bq_sql q) ∧
    contains_str "json_extract(metadata, '$.role')" (bq_sql q) ∧
    contains_str "json_extract(metadata, '$.status')" (bq_sql q) ∧
    length (bq_params q) = 4).

(** Source: db/query/builders/tests.rs [test_sort_jsonb_dot_notation] *)
Definition test_sort_jsonb_dot_notation : Prop :=
  unwrapped (select_list (test_db_ctx test_table_with_jsonb Postgres)
    (select_context_of test_crud_with_jsonb_filtering) (sorted_by "metadata.role" Asc)) (λ q,
    contains_str "SELECT" (bq_sql q) ∧
    contains_str "posts" (bq_sql q) ∧
    contains_str "ORDER BY" (bq_sql q) ∧
    contains_str "#>>" (bq_sql q) ∧
    contains_str "{role}" (bq_sql q)).

(** Source: db/query/builders/tests.rs [test_sort_jsonb_lhs_brackets] *)
Definition test_sort_jsonb_lhs_brackets : Prop :=
  unwrapped (select_list (test_db_ctx test_table_with_jsonb Postgres)
    (select_context_of test_crud_with_jsonb_filtering) (sorted_by "metadata.role" Desc)) (λ q,
    contains_str "DESC" (bq_sql q) ∧
    contains_str "#>>" (bq_sql q)).

(** Source: db/query/builders/tests.rs [test_sort_jsonb_nested_deep] *)
Definition test_sort_jsonb_nested_deep : Prop :=
  unwrapped (select_list (test_db_ctx test_table_with_jsonb Postgres)
    (select_context_of test_crud_with_jsonb_filtering) (sorted_by "metadata.user.profile.age" Asc)) (λ q,
    contains_str "ORDER BY" (bq_sql q) ∧
    contains_str "{user,profile,age}" (bq_sql q)).

(** Source: db/query/builders/tests.rs [test_sort_jsonb_mysql] *)
Definition test_sort_jsonb_mysql : Prop :=
  unwrapped (select_list (test_db_ctx test_table_with_jsonb Mysql)
    (select_context_of test_crud_with_jsonb_filtering) (sorted_by "metadata.role" Asc)) (λ q,
    contains_str "ORDER BY" (bq_sql q) ∧
    contains_str "JSON_EXTRACT(metadata, '$.role')" (bq_sql q) ∧
    contains_str "ASC" (bq_sql q)).

(** Source: db/query/builders/tests.rs [test_sort_jsonb_sqlite] *)
Definition test_sort_jsonb_sqlite : Prop :=
  unwrapped (select_list (test_db_ctx test_table_with_jsonb Sqlite)
    (select_context_of test_crud_with_jsonb_filtering) (sorted_by "metadata.role" Asc)) (λ q,
    contains_str "ORDER BY" (bq_sql q) ∧
    contains_str "json_extract(metadata, '$.role')" (bq_sql q) ∧
    contains_str "ASC" (bq_sql q)).

(** Source: db/query/builders/tests.rs [test_sort_regular_field] *)
Definition test_sort_regular_field : Prop :=
  unwrapped (select_list (test_db_ctx test_table Sqlite)
    (select_context_of test_crud) (sorted_by "title" Asc)) (λ q,
    contains_str "ORDER BY" (bq_sql q) ∧
    contains_str "title" (bq_sql q) ∧
    contains_str "ASC" (bq_sql q) ∧
    contains_str "#>>" (bq_sql q) = false ∧
    contains_str "json_extract" (bq_sql q) = false).

(** Source: db/query/builders/tests.rs [test_sort_jsonb_lhs_bracket_notation] *)
Definition test_sort_jsonb_lhs_bracket_notation : Prop :=
  unwrapped (select_list (test_db_ctx test_table_with_jsonb Postgres)
    (select_context_of test_crud_with_jsonb_filtering) (sorted_by "metadata[role]" Asc)) (λ q,
    contains_str "ORDER BY" (bq_sql q) ∧
    contains_str "#>>" (bq_sql q) ∧
    contains_str "{role}" (bq_sql q) ∧
    contains_str "posts" (bq_sql q)).

(** Source: db/query/builders/tests.rs [test_sort_jsonb_nested_bracket_notation] *)
Definition test_sort_jsonb_nested_bracket_notation : Prop :=
  unwrapped (select_list (test_db_ctx test_table_with_jsonb Postgres)
    (select_context_of test_crud_with_jsonb_filtering) (sorted_by "metadata[user][profile][email]" Desc)) (λ q,
    contains_str "ORDER BY" (bq_sql q) ∧
    contains_str "#>>" (bq_sql q) ∧
    contains_str "{user,profile,email}" (bq_sql q) ∧
    contains_str "DESC" (bq_sql q) ∧
    contains_str "posts" (bq_sql q)).

(** Source: db/query/builders/tests.rs [test_sort_jsonb_mixed_notation] *)
Definition test_sort_jsonb_mixed_notation : Prop :=
  unwrapped (select_list (test_db_ctx test_table_with_jsonb Postgres)
    (select_context_of test_crud_with_jsonb_filtering) (sorted_by "metadata[user].profile.email" Asc)) (λ q,
    contains_str "ORDER BY" (bq_sql q) ∧
    contains_str "#>>" (bq_sql q) ∧
    contains_str "{user,profile,email}" (bq_sql q) ∧
    contains_str "posts" (bq_sql q)).

(** Source: db/query/builders/tests.rs [test_filter_nonexistent_column_rejected] *)
Definition test_filter_nonexistent_column_rejected : Prop :=
  ∃ m, select_list (test_db_ctx test_table_with_jsonb Postgres)
    (select_context_of test_crud_with_jsonb_filtering)
    (filtered_by [("nonexistent.field", "value")]) = Err (BadRequest m).

(** Source: db/query/builders/tests.rs [test_sort_nonexistent_column_rejected] *)
Definition test_sort_nonexistent_column_rejected : Prop :=
  is_err (select_list (test_db_ctx test_table_with_jsonb Postgres)
    (select_context_of test_crud_with_jsonb_filtering) (sorted_by "nonexistent.field" Asc)).

(** Source: db/query/builders/tests.rs [test_filter_jsonb_contains_postgres] *)
Definition test_filter_jsonb_contains_postgres : Prop :=
  unwrapped (select_list (test_db_ctx test_table_with_jsonb Postgres)
    (select_context_of test_crud_with_jsonb_filtering)
    (filtered_by [("metadata.role[contains]", "admin")])) (λ q,
    contains_str "SELECT" (bq_sql q) ∧
    contains_str "posts" (bq_sql q) ∧
    contains_str "(metadata->'role') @>" (bq_sql q) ∧
    contains_str "posts @>" (bq_sql q) = false).

(** Source: db/query/builders/tests.rs [test_filter_jsonb_contains_sqlite] *)
Definition test_filter_jsonb_contains_sqlite : Prop :=
  unwrapped (select_list (test_db_ctx test_table_with_jsonb Sqlite)
    (select_context_of test_crud_with_jsonb_filtering)
    (filtered_by [("metadata.tags[contains]", "rust")])) (λ q,
    contains_str "SELECT" (bq_sql q) ∧
    contains_str "posts" (bq_sql q) ∧
    contains_str "json_extract(metadata" (bq_sql q) ∧
    contains_str "$.tags" (bq_sql q) ∧
    contains_char "=" (bq_sql q)).

(** Source: db/query/builders/tests.rs [test_filter_jsonb_contains_mysql] *)
Definition test_filter_jsonb_contains_mysql : Prop :=
  unwrapped (select_list (test_db_ctx test_table_with_jsonb Mysql)
    (select_context_of test_crud_with_jsonb_filtering)
    (filtered_by [("metadata.tags[contains]", "python")])) (λ q,
    contains_str "SELECT" (bq_sql q) ∧
    contains_str "posts" (bq_sql q) ∧
    contains_str "JSON_CONTAINS" (bq_sql q) ∧
    contains_str "JSON_EXTRACT(metadata, '$.tags')" (bq_sql q)).

(** Source: db/query/builders/tests.rs [test_filter_non_jsonb_contains] *)
Definition test_filter_non_jsonb_contains : Prop :=
  unwrapped (select_list (test_db_ctx test_table Sqlite)
    (select_context_of test_crud) (filtered_by [("author[contains]", "al")])) (λ q,
    contains_str "SELECT" (bq_sql q) ∧
    contains_str "posts" (bq_sql q) ∧
    contains_str "posts.author LIKE" (bq_sql q) ∧
    contains_str "posts.$1 = $1" (bq_sql q) = false ∧
    contains_str "posts.? = ?" (bq_sql q) = false).

(** Source: db/query/builders/tests.rs [test_filter_non_jsonb_contains_postgres] *)
Definition test_filter_non_jsonb_contains_postgres : Prop :=
  unwrapped (select_list (test_db_ctx test_table Postgres)
    (select_context_of test_crud) (filtered_by [("title[contains]", "Hello")])) (λ q,
    contains_str "posts.title LIKE" (bq_sql q)).

(** Source: db/query/builders/tests.rs [test_filter_jsonb_exists_postgres] *)
Definition test_filter_jsonb_exists_postgres : Prop :=
  unwrapped (select_list (test_db_ctx test_table_with_jsonb Postgres)
    (select_context_of test_crud_with_jsonb_filtering) (filtered_by [("metadata.role[exists]", "")])) (λ q,
    contains_str "SELECT" (bq_sql q) ∧
    contains_str "posts" (bq_sql q) ∧
    contains_str "IS NOT NULL" (bq_sql q) ∧
    contains_str "#>>" (bq_sql q)).

(** Source: db/query/builders/tests.rs [test_filter_jsonb_exists_sqlite] *)
Definition test_filter_jsonb_exists_sqlite : Prop :=
  unwrapped (select_list (test_db_ctx test_table_with_jsonb Sqlite)
    (select_context_of test_crud_with_jsonb_filtering) (filtered_by [("metadata.status[exists]", "")])) (λ q,
    contains_str "SELECT" (bq_sql q) ∧
    contains_str "IS NOT NULL" (bq_sql q)).

(** Source: db/query/builders/tests.rs [test_filter_non_jsonb_exists_sqlite] *)
Definition test_filter_non_jsonb_exists_sqlite : Prop :=
  unwrapped (select_list (test_db_ctx test_table Sqlite)
    (select_context_of test_crud) (filtered_by [("author[exists]", "")])) (λ q,
    contains_str "SELECT" (bq_sql q) ∧
    contains_str "posts" (bq_sql q) ∧
    contains_str "posts.author IS NOT NULL" (bq_sql q) ∧
    contains_str "posts IS NOT NULL" (bq_sql q) = false).

(** Source: db/query/builders/tests.rs [test_filter_non_jsonb_exists_postgres] *)
Definition test_filter_non_jsonb_exists_postgres : Prop :=
  unwrapped (select_list (test_db_ctx test_table Postgres)
    (select_context_of test_crud) (filtered_by [("title[exists]", "")])) (λ q,
    contains_str "posts.title IS NOT NULL" (bq_sql q)).

(** Source: db/query/builders/tests.rs [test_filter_non_jsonb_exists_mysql] *)
Definition test_filter_non_jsonb_exists_mysql : Prop :=
  unwrapped (select_list (test_db_ctx test_table Mysql)
    (select_context_of test_crud) (filtered_by [("author[exists]", "")])) (λ q,
    contains_str "posts.author IS NOT NULL" (bq_sql q)).

(** Source: db/query/builders/tests.rs [test_filter_nonexistent_jsonb_column_rejected] *)
Definition test_filter_nonexistent_jsonb_column_rejected : Prop :=
  ∃ m, select_list (test_db_ctx test_table_with_jsonb Postgres)
    (select_context_of test_crud_with_jsonb_filtering)
    (filtered_by [("other_column.nested", "value")]) = Err (BadRequest m).

(** ** They pass *)

(** Evaluates a test and checks its assertions. *)
Ltac run_test :=
  vm_compute; repeat match goal with |- _ ∧ _ => split end;
  first [exact I | reflexivity | discriminate | by eexists | by repeat constructor].

(** The tests of the statements. *)
Theorem statement_tests_pass :
  test_build_select_list_basic ∧ test_build_select_list_with_filter ∧
  test_build_select_list_postgres_placeholders ∧ test_build_select_one ∧ test_build_insert ∧
  test_build_insert_ignores_non_writable ∧ test_build_update ∧ test_build_delete ∧
  test_build_delete_with_where_clause ∧ test_build_delete_with_interpolated_where_clause ∧
  test_build_update_with_where_clause ∧ test_invalid_identifier_rejected ∧
  test_build_insert_postgres_returning.
Proof. run_test. Qed.

(** The tests of the filters. *)
Theorem filter_tests_pass :
  test_filter_dot_notation_nested ∧ test_filter_lhs_bracket_eq ∧ test_filter_lhs_bracket_gt ∧
  test_filter_lhs_bracket_lt ∧ test_filter_multiple_jsonb_fields ∧
  test_filter_nonexistent_column_rejected ∧ test_filter_jsonb_contains_postgres ∧
  test_filter_jsonb_contains_sqlite ∧ test_filter_jsonb_contains_mysql ∧
  test_filter_non_jsonb_contains ∧ test_filter_non_jsonb_contains_postgres ∧
  test_filter_jsonb_exists_postgres ∧ test_filter_jsonb_exists_sqlite ∧
  test_filter_non_jsonb_exists_sqlite ∧ test_filter_non_jsonb_exists_postgres ∧
  test_filter_non_jsonb_exists_mysql ∧ test_filter_nonexistent_jsonb_column_rejected.
Proof. run_test. Qed.

(** The tests of the sorts. *)
Theorem sort_tests_pass :
  test_sort_jsonb_dot_notation ∧ test_sort_jsonb_lhs_brackets ∧ test_sort_jsonb_nested_deep ∧
  test_sort_jsonb_mysql ∧ test_sort_jsonb_sqlite ∧ test_sort_regular_field ∧
  test_sort_jsonb_lhs_bracket_notation ∧ test_sort_jsonb_nested_bracket_notation ∧
  test_sort_jsonb_mixed_notation ∧ test_sort_nonexistent_column_rejected.
Proof. run_test. Qed.

(** ** What the tests of the helpers use *)

(** The JSONPath expressions of the tests are those that start with [$.]. *)
Definition valid_expression (s : string) : bool := is_valid_expression no (starts_with "$.") no s.

(** The type of a column that is there. *)
Definition type_of (name : string) (table : TableConfig) : ColumnType :=
  match find_first (λ c, bool_decide (col_name c = name)) (tbl_columns table) with
  | Some c => col_type c
  | None => Text
  end.

(** [err.to_string().contains(text)]. *)
Definition fails_with {A} (text : string) (r : result AppError A) : Prop :=
  match r with Ok _ => False | Err e => contains_str text (show_AppError e) end.

(** ** validation.rs *)

(** Source: db/query/helpers/validation.rs [tests::test_is_valid_identifier] *)
Definition test_is_valid_identifier : Prop :=
  is_valid_identifier no "DROP TABLE;--" = false ∧
  is_valid_identifier no "field; DELETE" = false ∧
  is_valid_identifier no "user_name" = true ∧
  is_valid_identifier no "table.column" = true ∧
  is_valid_identifier no "table-column" = true ∧
  is_valid_identifier no "" = false.

(** Source: db/query/helpers/validation.rs [tests::test_is_valid_identifier_special_chars] *)
Definition test_is_valid_identifier_special_chars : Prop :=
  is_valid_identifier no "field name" = false ∧
  is_valid_identifier no "field'or'1=1" = false ∧
  is_valid_identifier no "field--comment" = true.

(** Source: db/query/helpers/validation.rs [tests::test_is_valid_expression_safe_simple] *)
Definition test_is_valid_expression_safe_simple : Prop :=
  valid_expression "title" = true ∧
  valid_expression "metadata.role" = true ∧
  valid_expression "metadata[role]" = true.

(** Source: db/query/helpers/validation.rs [tests::test_is_valid_expression_safe_jsonpath] *)
Definition test_is_valid_expression_safe_jsonpath : Prop :=
  valid_expression "$.role" = true ∧
  valid_expression "$.metadata.role" = true.

(** Source: db/query/helpers/validation.rs [tests::test_is_valid_expression_safe_operators] *)
Definition test_is_valid_expression_safe_operators : Prop :=
  valid_expression "metadata->>'role'" = true ∧
  valid_expression "metadata#>'{role}'" = false.

(** Source: db/query/helpers/validation.rs [tests::test_is_valid_expression_semicolon_blocked] *)
Definition test_is_valid_expression_semicolon_blocked : Prop :=
  valid_expression "title; DROP TABLE" = false ∧
  valid_expression "metadata[role];evil" = false.

(** Source: db/query/helpers/validation.rs [tests::test_is_valid_expression_comments_blocked] *)
Definition test_is_valid_expression_comments_blocked : Prop :=
  valid_expression "--comment" = false ∧
  valid_expression "/* comment */" = false ∧
  valid_expression "*/inject" = false.

(** Source: db/query/helpers/validation.rs [tests::test_is_valid_expression_sql_with_semicolon] *)
Definition test_is_valid_expression_sql_with_semicolon : Prop :=
  valid_expression "title; SELECT * FROM users" = false.

(** Source: db/query/helpers/validation.rs [tests::test_is_valid_expression_unbalanced_brackets] *)
Definition test_is_valid_expression_unbalanced_brackets : Prop :=
  valid_expression "metadata[" = false ∧
  valid_expression "metadata]" = true ∧
  valid_expression "metadata[role" = false.

(** Source: db/query/helpers/validation.rs [tests::test_is_valid_expression_bracket_invalid_chars] *)
Definition test_is_valid_expression_bracket_invalid_chars : Prop :=
  valid_expression "metadata[role;drop]" = false ∧
  valid_expression "metadata[role'or'1=1]" = false.

(** Source: db/query/helpers/validation.rs [tests::test_is_valid_expression_unbalanced_parens] *)
Definition test_is_valid_expression_unbalanced_parens : Prop :=
  valid_expression "metadata((role" = false ∧
  valid_expression "metadata)))" = false ∧
  valid_expression "metadata[role)" = false.

(** Source: db/query/helpers/validation.rs [tests::test_is_valid_expression_odd_quotes] *)
Definition test_is_valid_expression_odd_quotes : Prop :=
  valid_expression "metadata'role" = false ∧
  valid_expression "'metadata'" = true.

(** Source: db/query/helpers/validation.rs [tests::test_is_valid_expression_empty] *)
Definition test_is_valid_expression_empty : Prop :=
  valid_expression "" = false.

(** Source: db/query/helpers/validation.rs [tests::test_is_valid_expression_drop_table] *)
Definition test_is_valid_expression_drop_table : Prop :=
  valid_expression "DROP TABLE posts" = false ∧
  valid_expression "DELETE FROM posts" = false ∧
  valid_expression "TRUNCATE TABLE posts" = false ∧
  valid_expression "ALTER TABLE posts DROP COLUMN id" = false ∧
  valid_expression "DELETE; FROM posts" = false.

(** Source: db/query/helpers/validation.rs [tests::test_is_valid_expression_injection_with_comments] *)
Definition test_is_valid_expression_injection_with_comments : Prop :=
  valid_expression "'; DROP TABLE posts--" = false ∧
  valid_expression "admin'--" = false ∧
  valid_expression "' OR '1'='1" = false.

(** Source: db/query/helpers/validation.rs [tests::test_is_valid_expression_rejects_spaces] *)
Definition test_is_valid_expression_rejects_spaces : Prop :=
  valid_expression "metadata . role" = false.

(** Source: db/query/helpers/validation.rs [tests::test_is_valid_expression_sql_functions] *)
Definition test_is_valid_expression_sql_functions : Prop :=
  valid_expression "pg_sleep(10)" = false ∧
  valid_expression "xp_cmdshell('dir')" = false ∧
  valid_expression "SLEEP(5)" = false.

(** Source: db/query/helpers/validation.rs [tests::test_validation_pipeline_safe_identifiers] *)
Definition test_validation_pipeline_safe_identifiers : Prop :=
  forallb (λ s, is_valid_identifier no s) ["user_name"; "table.column"; "table-column"; "field_1"]
    = true.

(** Source: db/query/helpers/validation.rs [tests::test_validation_pipeline_unsafe_identifiers] *)
Definition test_validation_pipeline_unsafe_identifiers : Prop :=
  forallb (λ s, negb (is_valid_identifier no s)) ["DROP TABLE;--"; "field; DELETE"; "field name";
    "field'or'1=1"; ""] = true.

(** Source: db/query/helpers/validation.rs [tests::test_validation_pipeline_safe_expressions] *)
Definition test_validation_pipeline_safe_expressions : Prop :=
  forallb (λ s, valid_expression s) ["title"; "metadata.role"; "metadata[role]"; "$.role";
    "metadata->>'role'"] = true.

(** Source: db/query/helpers/validation.rs [tests::test_validation_pipeline_injection_attempts] *)
Definition test_validation_pipeline_injection_attempts : Prop :=
  forallb (λ s, negb (valid_expression s)) ["title; DROP TABLE"; "--comment"; "/* comment */";
    "DROP TABLE posts"; "DELETE FROM posts"; "pg_sleep(10)"; "xp_cmdshell('dir')"; "' OR
    '1'='1"; "metadata[role;drop]"; "metadata[role'or'1=1]"; "metadata((role"; "metadata)))";
    "metadata'role"; "metadata . role"] = true.

(** The tests of validation.rs pass. *)
Theorem validation_tests_pass :
  test_is_valid_identifier ∧ test_is_valid_identifier_special_chars ∧
  test_is_valid_expression_safe_simple ∧ test_is_valid_expression_safe_jsonpath ∧
  test_is_valid_expression_safe_operators ∧ test_is_valid_expression_semicolon_blocked ∧
  test_is_valid_expression_comments_blocked ∧ test_is_valid_expression_sql_with_semicolon ∧
  test_is_valid_expression_unbalanced_brackets ∧ test_is_valid_expression_bracket_invalid_chars ∧
  test_is_valid_expression_unbalanced_parens ∧ test_is_valid_expression_odd_quotes ∧
  test_is_valid_expression_empty ∧ test_is_valid_expression_drop_table ∧
  test_is_valid_expression_injection_with_comments ∧ test_is_valid_expression_rejects_spaces ∧
  test_is_valid_expression_sql_functions ∧ test_validation_pipeline_safe_identifiers ∧
  test_validation_pipeline_unsafe_identifiers ∧ test_validation_pipeline_safe_expressions ∧
  test_validation_pipeline_injection_attempts.
Proof. run_test. Qed.

(** ** common.rs *)

(** Source: db/query/helpers/interpolation.rs [tests::sample_table] *)
Definition sample_table : TableConfig := {|
  tbl_name := "posts"; tbl_database := "main";
  tbl_columns := [column "id" Integer true false; column "title" Text false false;
                  column "author" Varchar false false];
  tbl_foreign_keys := [] |}.

(** Source: db/query/helpers/interpolation.rs [tests::sample_jsonb_table] *)
Definition sample_jsonb_table : TableConfig := {|
  tbl_name := "articles"; tbl_database := "main";
  tbl_columns := [column "id" Integer true false; column "title" Text false false;
                  column "metadata" Jsonb false true];
  tbl_foreign_keys := [] |}.

(** Source: db/query/helpers/common.rs [tests::test_parse_sort_field_simple] *)
Definition test_parse_sort_field_simple : Prop :=
  parse_sort_field "title" = ("title", []).

(** Source: db/query/helpers/common.rs [tests::test_parse_sort_field_dot_notation] *)
Definition test_parse_sort_field_dot_notation : Prop :=
  parse_sort_field "metadata.role" = ("metadata", ["role"]).

(** Source: db/query/helpers/common.rs [tests::test_parse_sort_field_bracket_notation] *)
Definition test_parse_sort_field_bracket_notation : Prop :=
  parse_sort_field "metadata[role]" = ("metadata", ["role"]).

(** Source: db/query/helpers/common.rs [tests::test_parse_sort_field_nested_mixed] *)
Definition test_parse_sort_field_nested_mixed : Prop :=
  parse_sort_field "metadata.user[profile].email" = ("metadata", ["user"; "profile"; "email"]).

(** Source: db/query/helpers/common.rs [tests::test_parse_sort_field_deep_nested] *)
Definition test_parse_sort_field_deep_nested : Prop :=
  parse_sort_field "a.b.c.d" = ("a", ["b"; "c"; "d"]).

(** Source: db/query/helpers/common.rs [tests::test_is_bracket_notation_true] *)
Definition test_is_bracket_notation_true : Prop :=
  is_bracket_notation "metadata[role]" = true ∧
  is_bracket_notation "a[b][c]" = true.

(** Source: db/query/helpers/common.rs [tests::test_is_bracket_notation_false] *)
Definition test_is_bracket_notation_false : Prop :=
  is_bracket_notation "metadata.role" = false ∧
  is_bracket_notation "title" = false.

(** Source: db/query/helpers/common.rs [tests::test_is_dotted_path_true] *)
Definition test_is_dotted_path_true : Prop :=
  is_dotted_path "metadata.role" = true ∧
  is_dotted_path "a.b.c" = true.

(** Source: db/query/helpers/common.rs [tests::test_is_dotted_path_false] *)
Definition test_is_dotted_path_false : Prop :=
  is_dotted_path "title" = false ∧
  is_dotted_path "id" = false.

(** Source: db/query/helpers/common.rs [tests::test_quote_identifier_sqlite] *)
Definition test_quote_identifier_sqlite : Prop :=
  quote_identifier "users" Sqlite = quoted "users" ∧
  quote_identifier "table_name" Sqlite = quoted "table_name".

(** Source: db/query/helpers/common.rs [tests::test_quote_identifier_postgres] *)
Definition test_quote_identifier_postgres : Prop :=
  quote_identifier "users" Postgres = quoted "users" ∧
  quote_identifier "table.name" Postgres = quoted "table.name".

(** Source: db/query/helpers/common.rs [tests::test_quote_identifier_mysql] *)
Definition test_quote_identifier_mysql : Prop :=
  quote_identifier "users" Mysql = "`users`" ∧
  quote_identifier "table_name" Mysql = "`table_name`".

(** The tests of common.rs pass. *)
Theorem common_tests_pass :
  test_parse_sort_field_simple ∧ test_parse_sort_field_dot_notation ∧
  test_parse_sort_field_bracket_notation ∧ test_parse_sort_field_nested_mixed ∧
  test_parse_sort_field_deep_nested ∧ test_is_bracket_notation_true ∧ test_is_bracket_notation_false
  ∧ test_is_dotted_path_true ∧ test_is_dotted_path_false ∧ test_quote_identifier_sqlite ∧
  test_quote_identifier_postgres ∧ test_quote_identifier_mysql.
Proof. run_test. Qed.

(** ** sorting.rs *)

(** Source: db/query/helpers/sorting.rs [tests::test_is_valid_sort_field_regular_column] *)
Definition test_is_valid_sort_field_regular_column : Prop :=
  is_valid_sort_field "title" (tbl_columns sample_table) = true ∧
  is_valid_sort_field "author" (tbl_columns sample_table) = true.

(** Source: db/query/helpers/sorting.rs [tests::test_is_valid_sort_field_jsonb_path] *)
Definition test_is_valid_sort_field_jsonb_path : Prop :=
  is_valid_sort_field "metadata.role" (tbl_columns sample_jsonb_table) = true.

(** Source: db/query/helpers/sorting.rs [tests::test_is_valid_sort_field_invalid_column] *)
Definition test_is_valid_sort_field_invalid_column : Prop :=
  is_valid_sort_field "nonexistent" (tbl_columns sample_table) = false.

(** Source: db/query/helpers/sorting.rs [tests::test_is_valid_sort_field_jsonb_path_invalid_base] *)
Definition test_is_valid_sort_field_jsonb_path_invalid_base : Prop :=
  is_valid_sort_field "nonexistent.role" (tbl_columns sample_jsonb_table) = false.

(** Source: db/query/helpers/sorting.rs [tests::test_extract_query_params_reserved_keys] *)
Definition test_extract_query_params_reserved_keys : Prop :=
  let params := extract_query_params (list_to_map
    [("page", "2"); ("page_size", "10"); ("sort", "created_at"); ("order", "desc"); ("title", "hello")]) in
  qp_page params = Some 2%Z ∧ qp_page_size params = Some 10%Z ∧
  qp_sort params = Some "created_at" ∧ qp_order params = Some Desc ∧
  size (qp_filters params) = 1 ∧ qp_filters params !! "title" = Some "hello".

(** Source: db/query/helpers/sorting.rs [tests::test_extract_query_params_per_page_alias] *)
Definition test_extract_query_params_per_page_alias : Prop :=
  qp_page_size (extract_query_params (list_to_map [("per_page", "25"); ("page_size", "10")])) = Some 10%Z.

(** Source: db/query/helpers/sorting.rs [tests::test_extract_query_params_case_insensitive_order] *)
Definition test_extract_query_params_case_insensitive_order : Prop :=
  qp_order (extract_query_params {["order" := "ASC"]}) = Some Asc.

(** Source: db/query/helpers/sorting.rs [tests::test_extract_query_params_no_reserved_keys] *)
Definition test_extract_query_params_no_reserved_keys : Prop :=
  let params := extract_query_params (list_to_map [("title", "hello"); ("author", "world")]) in
  qp_page params = None ∧ qp_page_size params = None ∧ qp_sort params = None ∧ qp_order params = None ∧
  size (qp_filters params) = 2.

(** The tests of sorting.rs pass. *)
Theorem sorting_tests_pass :
  test_is_valid_sort_field_regular_column ∧ test_is_valid_sort_field_jsonb_path ∧
  test_is_valid_sort_field_invalid_column ∧ test_is_valid_sort_field_jsonb_path_invalid_base ∧
  test_extract_query_params_reserved_keys ∧ test_extract_query_params_per_page_alias ∧
  test_extract_query_params_case_insensitive_order ∧ test_extract_query_params_no_reserved_keys.
Proof. run_test. Qed.

(** ** filters.rs *)

(** Source: db/query/helpers/filters.rs [tests::test_parse_filter_key_simple_eq] *)
Definition test_parse_filter_key_simple_eq : Prop :=
  parse_filter_key "title" =
    Ok {| fe_path := ["title"]; fe_operator := OpEq |}.

(** Source: db/query/helpers/filters.rs [tests::test_parse_filter_key_with_operator] *)
Definition test_parse_filter_key_with_operator : Prop :=
  parse_filter_key "age[gt]" =
    Ok {| fe_path := ["age"]; fe_operator := OpGt |}.

(** Source: db/query/helpers/filters.rs [tests::test_parse_filter_key_jsonb_nested] *)
Definition test_parse_filter_key_jsonb_nested : Prop :=
  parse_filter_key "metadata.role[eq]" =
    Ok {| fe_path := ["metadata"; "role"]; fe_operator := OpEq |}.

(** Source: db/query/helpers/filters.rs [tests::test_parse_filter_key_all_operators] *)
Definition test_parse_filter_key_all_operators : Prop :=
  forallb (λ '(key, expected_op), bool_decide (fe_operator <$> ok (parse_filter_key key) = Some expected_op))
    [("f[ne]", OpNe); ("f[gte]", OpGte); ("f[lt]", OpLt); ("f[lte]", OpLte); ("f[in]", OpIn);
     ("f[not_in]", OpNotIn); ("f[contains]", OpContains); ("f[exists]", OpExists);
     ("f[startswith]", OpStartsWith); ("f[endswith]", OpEndsWith); ("f[like]", OpLike);
     ("f[ilike]", OpILike)] = true.

(** Source: db/query/helpers/filters.rs [tests::test_parse_filter_key_unclosed_bracket] *)
Definition test_parse_filter_key_unclosed_bracket : Prop :=
  fails_with "Invalid filter key" (parse_filter_key "field[gt").

(** Source: db/query/helpers/filters.rs [tests::test_parse_filter_key_closing_bracket_only] *)
Definition test_parse_filter_key_closing_bracket_only : Prop :=
  fails_with "Invalid filter key" (parse_filter_key "field]").

(** Source: db/query/helpers/filters.rs [tests::test_parse_filter_key_invalid_operator] *)
Definition test_parse_filter_key_invalid_operator : Prop :=
  fails_with "Unsupported operator" (parse_filter_key "field[foo]").

(** Source: db/query/helpers/filters.rs [tests::test_extract_base_column_simple] *)
Definition test_extract_base_column_simple : Prop :=
  extract_base_column "title" = "title".

(** Source: db/query/helpers/filters.rs [tests::test_extract_base_column_dot_notation] *)
Definition test_extract_base_column_dot_notation : Prop :=
  extract_base_column "metadata.role" = "metadata".

(** Source: db/query/helpers/filters.rs [tests::test_extract_base_column_bracket_notation] *)
Definition test_extract_base_column_bracket_notation : Prop :=
  extract_base_column "metadata[role]" = "metadata".

(** Source: db/query/helpers/filters.rs [tests::test_extract_base_column_jsonpath] *)
Definition test_extract_base_column_jsonpath : Prop :=
  extract_base_column "$.metadata.role" = "metadata".

(** Source: db/query/helpers/filters.rs [tests::test_extract_base_column_arrow_notation] *)
Definition test_extract_base_column_arrow_notation : Prop :=
  extract_base_column "metadata->>'role'" = "metadata".

(** Source: db/query/helpers/filters.rs [tests::test_extract_base_column_hash_notation] *)
Definition test_extract_base_column_hash_notation : Prop :=
  extract_base_column "metadata#>>'{role}'" = "metadata".

(** Source: db/query/helpers/filters.rs [tests::test_extract_jsonb_path_single] *)
Definition test_extract_jsonb_path_single : Prop :=
  extract_jsonb_path "metadata.role" = "$.role".

(** Source: db/query/helpers/filters.rs [tests::test_extract_jsonb_path_nested] *)
Definition test_extract_jsonb_path_nested : Prop :=
  extract_jsonb_path "metadata.user.profile" = "$.user.profile".

(** Source: db/query/helpers/filters.rs [tests::test_extract_jsonb_path_bracket] *)
Definition test_extract_jsonb_path_bracket : Prop :=
  extract_jsonb_path "metadata[role]" = "$.role".

(** Source: db/query/helpers/filters.rs [tests::test_extract_jsonb_path_no_path] *)
Definition test_extract_jsonb_path_no_path : Prop :=
  extract_jsonb_path "metadata" = "$".

(** Source: db/query/helpers/filters.rs [tests::test_is_jsonb_column_true] *)
Definition test_is_jsonb_column_true : Prop :=
  is_jsonb_column "metadata" (tbl_columns sample_jsonb_table) = true.

(** Source: db/query/helpers/filters.rs [tests::test_is_jsonb_column_false] *)
Definition test_is_jsonb_column_false : Prop :=
  is_jsonb_column "title" (tbl_columns sample_jsonb_table) = false ∧
  is_jsonb_column "nonexistent" (tbl_columns sample_jsonb_table) = false.

(** Source: db/query/helpers/filters.rs [tests::test_column_exists_found] *)
Definition test_column_exists_found : Prop :=
  column_exists "title" (tbl_columns sample_table) = true ∧
  column_exists "id" (tbl_columns sample_table) = true.

(** Source: db/query/helpers/filters.rs [tests::test_column_exists_not_found] *)
Definition test_column_exists_not_found : Prop :=
  column_exists "nonexistent" (tbl_columns sample_table) = false.

(** Source: db/query/helpers/filters.rs [tests::test_is_valid_filter_column_regular] *)
Definition test_is_valid_filter_column_regular : Prop :=
  is_valid_filter_column "title" (tbl_columns sample_table) = true.

(** Source: db/query/helpers/filters.rs [tests::test_is_valid_filter_column_jsonb] *)
Definition test_is_valid_filter_column_jsonb : Prop :=
  is_valid_filter_column "metadata" (tbl_columns sample_jsonb_table) = true.

(** Source: db/query/helpers/filters.rs [tests::test_is_valid_filter_column_invalid] *)
Definition test_is_valid_filter_column_invalid : Prop :=
  is_valid_filter_column "nonexistent" (tbl_columns sample_table) = false.

(** Source: db/query/helpers/filters.rs [tests::test_build_filter_param_with_type] *)
Definition test_build_filter_param_with_type : Prop :=
  build_filter_param "true" (type_of "metadata" sample_jsonb_table) Sqlite = VBool true.

(** Source: db/query/helpers/filters.rs [tests::test_filter_pipeline_simple_eq] *)
Definition test_filter_pipeline_simple_eq : Prop :=
  parse_filter_key "title[eq]" =
    Ok {| fe_path := ["title"]; fe_operator := OpEq |}.

(** Source: db/query/helpers/filters.rs [tests::test_filter_pipeline_jsonb_nested] *)
Definition test_filter_pipeline_jsonb_nested : Prop :=
  parse_filter_key "metadata.role[eq]" =
    Ok {| fe_path := ["metadata"; "role"]; fe_operator := OpEq |} ∧
  extract_jsonb_path "metadata.role" = "$.role".

(** Source: db/query/helpers/filters.rs [tests::test_filter_pipeline_bracket_notation] *)
Definition test_filter_pipeline_bracket_notation : Prop :=
  parse_filter_key "metadata[role][eq]" =
    Ok {| fe_path := ["metadata[role]"]; fe_operator := OpEq |}.

(** The tests of filters.rs pass. *)
Theorem filters_tests_pass :
  test_parse_filter_key_simple_eq ∧ test_parse_filter_key_with_operator ∧
  test_parse_filter_key_jsonb_nested ∧ test_parse_filter_key_all_operators ∧
  test_parse_filter_key_unclosed_bracket ∧ test_parse_filter_key_closing_bracket_only ∧
  test_parse_filter_key_invalid_operator ∧ test_extract_base_column_simple ∧
  test_extract_base_column_dot_notation ∧ test_extract_base_column_bracket_notation ∧
  test_extract_base_column_jsonpath ∧ test_extract_base_column_arrow_notation ∧
  test_extract_base_column_hash_notation ∧ test_extract_jsonb_path_single ∧
  test_extract_jsonb_path_nested ∧ test_extract_jsonb_path_bracket ∧ test_extract_jsonb_path_no_path
  ∧ test_is_jsonb_column_true ∧ test_is_jsonb_column_false ∧ test_column_exists_found ∧
  test_column_exists_not_found ∧ test_is_valid_filter_column_regular ∧
  test_is_valid_filter_column_jsonb ∧ test_is_valid_filter_column_invalid ∧
  test_build_filter_param_with_type ∧ test_filter_pipeline_simple_eq ∧
  test_filter_pipeline_jsonb_nested ∧ test_filter_pipeline_bracket_notation.
Proof. run_test. Qed.

(** ** interpolation.rs *)

(** Source: db/query/helpers/interpolation.rs [tests::float_table] *)
Definition float_table : TableConfig := {|
  tbl_name := "products"; tbl_database := "main";
  tbl_columns := [column "id" Integer true false; column "price" Double false false;
                  column "active" Boolean false false; column "sku" Varchar false false];
  tbl_foreign_keys := [] |}.

(** Source: db/query/helpers/interpolation.rs [tests::sample_context] *)
Definition sample_context : RequestContext := {|
  rc_user_id := Some "user-42"; rc_user_email := None; rc_user_role := Some "admin";
  rc_headers := ∅; rc_method := "GET"; rc_path := "/api/posts"; rc_raw_query_params := ∅ |}.

(** The double nearest to 19.99. *)
Definition f64_19_99 : spec_float := S754_finite false 5626684784446013 (-48).

(** Source: db/query/helpers/interpolation.rs [tests::test_resolve_fields_wildcard] *)
Definition test_resolve_fields_wildcard : Prop :=
  resolve_fields ["*"] sample_table = ["id"; "title"; "author"].

(** Source: db/query/helpers/interpolation.rs [tests::test_resolve_fields_explicit_list] *)
Definition test_resolve_fields_explicit_list : Prop :=
  resolve_fields ["title"] sample_table = ["title"].

(** Source: db/query/helpers/interpolation.rs [tests::test_resolve_writable_fields_empty] *)
Definition test_resolve_writable_fields_empty : Prop :=
  size (resolve_writable_fields [] sample_table) = 0.

(** Source: db/query/helpers/interpolation.rs [tests::test_resolve_writable_fields_wildcard] *)
Definition test_resolve_writable_fields_wildcard : Prop :=
  size (resolve_writable_fields ["*"] sample_table) = 3.

(** Source: db/query/helpers/interpolation.rs [tests::test_find_pk_column_found] *)
Definition test_find_pk_column_found : Prop :=
  find_pk_column sample_table = Ok "id".

(** Source: db/query/helpers/interpolation.rs [tests::test_find_pk_column_not_found] *)
Definition test_find_pk_column_not_found : Prop :=
  is_err (find_pk_column {|
    tbl_name := tbl_name sample_table; tbl_database := tbl_database sample_table;
    tbl_columns := map (λ c, column (col_name c) (col_type c) false (col_nullable c))
                     (tbl_columns sample_table);
    tbl_foreign_keys := tbl_foreign_keys sample_table |}).

(** Source: db/query/helpers/interpolation.rs [tests::test_coerce_pk_value_integer] *)
Definition test_coerce_pk_value_integer : Prop :=
  coerce_pk_value sample_table "42" = json_int 42 ∧
  coerce_pk_value sample_table "0" = json_int 0.

(** Source: db/query/helpers/interpolation.rs [tests::test_coerce_pk_value_fallback_on_non_integer] *)
Definition test_coerce_pk_value_fallback_on_non_integer : Prop :=
  coerce_pk_value sample_table "not_a_number" = json_int i64_min.

(** Source: db/query/helpers/interpolation.rs [tests::test_coerce_pk_value_negative] *)
Definition test_coerce_pk_value_negative : Prop :=
  coerce_pk_value sample_table "-7" = json_int (-7).

(** Source: db/query/helpers/interpolation.rs [tests::test_coerce_by_type_integer_valid] *)
Definition test_coerce_by_type_integer_valid : Prop :=
  coerce_filter_value_by_type "19.99" (type_of "price" float_table) Sqlite = VNumber (NFloat f64_19_99).

(** Source: db/query/helpers/interpolation.rs [tests::test_coerce_by_type_boolean] *)
Definition test_coerce_by_type_boolean : Prop :=
  coerce_filter_value_by_type "true" (type_of "active" float_table) Sqlite = VBool true.

(** Source: db/query/helpers/interpolation.rs [tests::test_coerce_by_type_non_bool_stays_string] *)
Definition test_coerce_by_type_non_bool_stays_string : Prop :=
  coerce_filter_value_by_type "yes" (type_of "active" float_table) Sqlite = VString "yes".

(** Source: db/query/helpers/interpolation.rs [tests::test_coerce_by_type_jsonb_postgres_forces_string] *)
Definition test_coerce_by_type_jsonb_postgres_forces_string : Prop :=
  coerce_filter_value_by_type "hello" (type_of "metadata" sample_jsonb_table) Postgres = VString "hello".

(** Source: db/query/helpers/interpolation.rs [tests::test_coerce_by_type_jsonb_sqlite_preserves_types] *)
Definition test_coerce_by_type_jsonb_sqlite_preserves_types : Prop :=
  coerce_filter_value_by_type "true" (type_of "metadata" sample_jsonb_table) Sqlite = VBool true.

(** Source: db/query/helpers/interpolation.rs [tests::test_coerce_by_type_jsonb_postgres_null] *)
Definition test_coerce_by_type_jsonb_postgres_null : Prop :=
  coerce_filter_value_by_type "null" (type_of "metadata" sample_jsonb_table) Postgres = VNull.

(** Source: db/query/helpers/interpolation.rs [tests::test_interpolate_value_no_vars] *)
Definition test_interpolate_value_no_vars : Prop :=
  interpolate_value "plain text" sample_context =
    Ok (VString "plain text").

(** Source: db/query/helpers/interpolation.rs [tests::test_interpolate_value_user_id] *)
Definition test_interpolate_value_user_id : Prop :=
  interpolate_value "${request.user.id}" sample_context =
    Ok (VString "user-42").

(** Source: db/query/helpers/interpolation.rs [tests::test_interpolate_value_user_role] *)
Definition test_interpolate_value_user_role : Prop :=
  interpolate_value "${request.user.role}" sample_context =
    Ok (VString "admin").

(** Source: db/query/helpers/interpolation.rs [tests::test_interpolate_value_with_default_present] *)
Definition test_interpolate_value_with_default_present : Prop :=
  interpolate_value "${request.user.id:-anonymous}" sample_context =
    Ok (VString "user-42").

(** Source: db/query/helpers/interpolation.rs [tests::test_interpolate_value_with_default_absent] *)
Definition test_interpolate_value_with_default_absent : Prop :=
  interpolate_value "${request.headers.x-custom:-fallback}" sample_context =
    Ok (VString "fallback").

(** Source: db/query/helpers/interpolation.rs [tests::test_interpolate_value_unresolved_kept] *)
Definition test_interpolate_value_unresolved_kept : Prop :=
  interpolate_value "${unknown.key}" sample_context =
    Ok (VString "${unknown.key}").

(** Source: db/query/helpers/interpolation.rs [tests::test_interpolate_value_multiple_vars] *)
Definition test_interpolate_value_multiple_vars : Prop :=
  interpolate_value "${request.user.id}:${request.method}" sample_context =
    Ok (VString "user-42:GET").

(** Source: db/query/helpers/interpolation.rs [tests::test_resolve_single_key_headers] *)
Definition test_resolve_single_key_headers : Prop :=
  resolve_single_key "request.headers.x-request-id"
    {| rc_user_id := Some "user-42"; rc_user_email := None; rc_user_role := Some "admin";
       rc_headers := {["x-request-id" := "abc-123"]}; rc_method := "GET"; rc_path := "/api/posts";
       rc_raw_query_params := ∅ |} = Some "abc-123".

(** Source: db/query/helpers/interpolation.rs [tests::test_resolve_single_key_query_params] *)
Definition test_resolve_single_key_query_params : Prop :=
  resolve_single_key "request.query.page"
    {| rc_user_id := Some "user-42"; rc_user_email := None; rc_user_role := Some "admin";
       rc_headers := ∅; rc_method := "GET"; rc_path := "/api/posts";
       rc_raw_query_params := {["page" := "5"]} |} = Some "5".

(** Source: db/query/helpers/interpolation.rs [tests::test_resolve_single_key_unknown] *)
Definition test_resolve_single_key_unknown : Prop :=
  resolve_single_key "unknown.key" sample_context = None.

(** Source: db/query/helpers/interpolation.rs [tests::test_placeholder_sqlite] *)
Definition test_placeholder_sqlite : Prop :=
  placeholder Sqlite 1 = "?" ∧
  placeholder Sqlite 5 = "?".

(** Source: db/query/helpers/interpolation.rs [tests::test_placeholder_postgres] *)
Definition test_placeholder_postgres : Prop :=
  placeholder Postgres 1 = "$1" ∧
  placeholder Postgres 5 = "$5".

(** Source: db/query/helpers/interpolation.rs [tests::test_placeholder_mysql] *)
Definition test_placeholder_mysql : Prop :=
  placeholder Mysql 1 = "?".

(** Source: db/query/helpers/interpolation.rs [tests::test_coerce_pipeline_integer_column] *)
Definition test_coerce_pipeline_integer_column : Prop :=
  build_filter_param "19.99" (type_of "price" float_table) Sqlite = VNumber (NFloat f64_19_99).

(** Source: db/query/helpers/interpolation.rs [tests::test_coerce_pipeline_boolean_column] *)
Definition test_coerce_pipeline_boolean_column : Prop :=
  build_filter_param "true" (type_of "active" float_table) Sqlite = VBool true.

(** Source: db/query/helpers/interpolation.rs [tests::test_coerce_pipeline_null_handling] *)
Definition test_coerce_pipeline_null_handling : Prop :=
  build_filter_param "null" (type_of "title" sample_table) Sqlite = VNull.

(** Source: db/query/helpers/interpolation.rs [tests::test_interpolate_pipeline_with_context] *)
Definition test_interpolate_pipeline_with_context : Prop :=
  interpolate_value "${request.user.id}" sample_context =
    Ok (VString "user-42") ∧
  interpolate_value "${request.headers.x-api-key:-default-key}" sample_context =
    Ok (VString "default-key") ∧
  interpolate_value "${request.user.id}:${request.path}" sample_context =
    Ok (VString "user-42:/api/posts").

(** Source: db/query/helpers/interpolation.rs [tests::test_resolve_fields_vs_writable_fields] *)
Definition test_resolve_fields_vs_writable_fields : Prop :=
  length (resolve_fields ["*"] sample_table) = 3 ∧
  bool_decide ("id" ∈ resolve_fields ["*"] sample_table) ∧
  size (resolve_writable_fields ["*"] sample_table) = 3 ∧
  bool_decide ("id" ∈ resolve_writable_fields ["*"] sample_table) ∧
  size (resolve_writable_fields [] sample_table) = 0.

(** The tests of interpolation.rs pass. *)
Theorem interpolation_tests_pass :
  test_resolve_fields_wildcard ∧ test_resolve_fields_explicit_list ∧
  test_resolve_writable_fields_empty ∧ test_resolve_writable_fields_wildcard ∧
  test_find_pk_column_found ∧ test_find_pk_column_not_found ∧ test_coerce_pk_value_integer ∧
  test_coerce_pk_value_fallback_on_non_integer ∧ test_coerce_pk_value_negative ∧
  test_coerce_by_type_integer_valid ∧ test_coerce_by_type_boolean ∧
  test_coerce_by_type_non_bool_stays_string ∧ test_coerce_by_type_jsonb_postgres_forces_string ∧
  test_coerce_by_type_jsonb_sqlite_preserves_types ∧ test_coerce_by_type_jsonb_postgres_null ∧
  test_interpolate_value_no_vars ∧ test_interpolate_value_user_id ∧ test_interpolate_value_user_role
  ∧ test_interpolate_value_with_default_present ∧ test_interpolate_value_with_default_absent ∧
  test_interpolate_value_unresolved_kept ∧ test_interpolate_value_multiple_vars ∧
  test_resolve_single_key_headers ∧ test_resolve_single_key_query_params ∧
  test_resolve_single_key_unknown ∧ test_placeholder_sqlite ∧ test_placeholder_postgres ∧
  test_placeholder_mysql ∧ test_coerce_pipeline_integer_column ∧ test_coerce_pipeline_boolean_column
  ∧ test_coerce_pipeline_null_handling ∧ test_interpolate_pipeline_with_context ∧
  test_resolve_fields_vs_writable_fields.
Proof. run_test. Qed.
