(* ===== verification/ServerTests.v ===== *)
(** * The unit tests of the server

    The tests of config/, db/migration.rs, db/query/helpers/json_validation.rs,
    middleware/, server/state.rs and server/tls.rs, run on the model, as far as
    they do not test a library: those of the keywords of JSON Schema but [type]
    and [required] and of password hashing are left out, and the text of a YAML
    document is replaced by the value it denotes. Headers are looked up without regard to case and a value that is not text
    cannot be read. The JWT library of the tests knows the tokens it issued and
    checks what it documents: the secret, the expiry, the issuer and the
    audience. *)

From Stdlib Require Import Init.Byte.
From S2P Require Import Prelude RustStr Json Config Errors SqlHelpers Storage Deserialize Schemas Migration Validation Loader DeserializeSpec Roles Credentials Auth AuthSpec SelectSpec RateLimit Pipeline PipelineSpec Router Startup QueryTests.
Local Open Scope stdpp_scope.

(** * The validation of a configuration *)

(** Maps are iterated in the order of their keys; the tests do not depend
    on it. *)
Definition iter (A : Type) (m : gmap string A) : list (string * A) := map_to_list m.

(** [result.is_ok()]. *)
Definition accepted (config : AppConfig) : Prop := validate_config iter config = Some (Ok ()).

(** [result.is_err()], with a message that contains all the texts. *)
Definition rejected (texts : list string) (config : AppConfig) : Prop :=
  match validate_config iter config with
  | Some (Err e) => forallb (λ t, contains_str t (show_AppError e)) texts = true
  | _ => False
  end.

Definition any_contains (text : string) (errors : list string) : Prop :=
  existsb (contains_str text) errors = true.

(** ** The fixtures *)

(** Source: config/validation/mod.rs [tests::make_native_store] *)
Definition make_native_store (root : option string) : StoreConfig := {|
  st_backend := Native; st_root := root; st_s3 := None; st_azure := None; st_gcs := None |}.

(** Source: config/validation/mod.rs [tests::make_s3_store] *)
Definition make_s3_store (region bucket access_key secret_key : option string) : StoreConfig := {|
  st_backend := S3; st_root := None;
  st_s3 := Some {| s3_region := default "" region; s3_bucket := default "" bucket;
                   s3_access_key := default "" access_key; s3_secret_key := default "" secret_key;
                   s3_endpoint := None; s3_force_path_style := false |};
  st_azure := None; st_gcs := None |}.

(** Source: config/validation/mod.rs [tests::make_azure_store] *)
Definition make_azure_store (account_name account_key container : option string) : StoreConfig := {|
  st_backend := Azure; st_root := None; st_s3 := None;
  st_azure := Some {| az_account_name := default "" account_name;
                      az_account_key := default "" account_key;
                      az_container := default "" container |};
  st_gcs := None |}.

(** Source: config/validation/mod.rs [tests::make_gcs_store] *)
Definition make_gcs_store (project_id credentials bucket : option string) : StoreConfig := {|
  st_backend := Gcs; st_root := None; st_s3 := None; st_azure := None;
  st_gcs := Some {| gcs_project_id := default "" project_id;
                    gcs_credentials := default "" credentials; gcs_bucket := default "" bucket |} |}.

(** Source: config/validation/mod.rs [tests::make_endpoint] *)
Definition make_endpoint (path : string) (method : HttpMethod) (action : EndpointAction)
    (crud : option CrudConfig) (proxy : option ProxyConfig) (static_files : option StaticFilesConfig)
    (spa_host : option SpaHostConfig) (media : option MediaConfig) (file_store : option FileStoreConfig)
    (custom_response : option CustomResponseConfig) : EndpointConfig := {|
  ep_path := path; ep_methods := [method]; ep_action := action; ep_crud := crud; ep_proxy := proxy;
  ep_static_files := static_files; ep_spa_host := spa_host; ep_media := media;
  ep_file_store := file_store; ep_custom_response := custom_response; ep_auth := "none";
  ep_roles := Flat []; ep_cors := None; ep_rate_limit := None |}.

(** [AppConfig::default()] with the parts the tests set. *)
Definition config_with (stores : list (string * StoreConfig)) (endpoints : list EndpointConfig)
    (auth : AuthConfig) (databases : list (string * DatabaseConfig)) (tables : list TableConfig)
    (cors : CorsConfig) : AppConfig := {|
  cfg_server := cfg_server default_AppConfig; cfg_logging := cfg_logging default_AppConfig;
  cfg_cors := cors; cfg_rate_limit := cfg_rate_limit default_AppConfig;
  cfg_databases := list_to_map databases; cfg_tables := tables; cfg_auth := auth;
  cfg_endpoints := endpoints; cfg_stores := list_to_map stores;
  cfg_role_hierarchy := None; cfg_global_schemas := None |}.

Definition with_endpoint (stores : list (string * StoreConfig)) (ep : EndpointConfig) : AppConfig :=
  config_with stores [ep] default_AuthConfig [] [] default_CorsConfig.
Definition with_jwt (jwt : JwtConfig) : AppConfig :=
  config_with [] [] {| auth_jwt := Some jwt; auth_api_key := None; auth_basic := None;
                       auth_oauth2 := None; auth_register := None |} [] [] default_CorsConfig.
Definition with_oauth2 (oauth2 : OAuth2Config) : AppConfig :=
  config_with [] [] {| auth_jwt := None; auth_api_key := None; auth_basic := None;
                       auth_oauth2 := Some oauth2; auth_register := None |} [] [] default_CorsConfig.
Definition with_register (register : RegisterConfig) : AppConfig :=
  config_with [] [] {| auth_jwt := None; auth_api_key := None; auth_basic := None;
                       auth_oauth2 := None; auth_register := Some register |} [] [] default_CorsConfig.
Definition with_cors (cors : CorsConfig) : AppConfig := config_with [] [] default_AuthConfig [] [] cors.

(** A CORS policy with the origins and the flag, the rest by default. *)
Definition cors_of (origins : list string) (credentials : bool) : CorsConfig := {|
  cors_allowed_origins := origins; cors_allowed_methods := cors_allowed_methods default_CorsConfig;
  cors_allowed_headers := cors_allowed_headers default_CorsConfig;
  cors_allow_credentials := credentials; cors_max_age := cors_max_age default_CorsConfig |}.

Definition test_jwt (revocation : JwtRevocationConfig) : JwtConfig := {|
  jwt_secret := "test-secret"; jwt_algorithm := HS256; jwt_issuer := "test"; jwt_audience := "";
  jwt_expiry := 3600; jwt_role_claim := "role"; jwt_revocation := Some revocation |}.

Definition test_oauth2 (mapping : RoleMappingConfig) : OAuth2Config := {|
  oa_provider := "test"; oa_authorization_url := "https://idp.example.com/authorize";
  oa_token_url := "https://idp.example.com/token"; oa_userinfo_url := "https://idp.example.com/userinfo";
  oa_client_id := "test-client"; oa_client_secret := "test-secret"; oa_scopes := ["openid"];
  oa_redirect_url := "http://localhost:8080/callback"; oa_success_url := "/"; oa_cookie_name := "token";
  oa_state_ttl := 300; oa_max_pending_states := 1000; oa_role_mapping := Some mapping |}.

(** The database [main] and one table: a key and the column under test. *)
Definition with_column (name : string) (type : ColumnType) (schema : option string) (inline : option yaml)
  : AppConfig :=
  config_with [] [] default_AuthConfig
    [("main", {| dbc_driver := Sqlite; dbc_url := "sqlite://:memory:"; dbc_min_connections := 1;
                 dbc_max_connections := 10; dbc_auto_migrate := false; dbc_allow_destructive := false;
                 dbc_acquire_timeout := 5 |})]
    [{| tbl_name := "test_table"; tbl_database := "main";
        tbl_columns :=
          [column "id" Serial true false;
           {| col_name := name; col_type := type; col_primary_key := false; col_nullable := true;
              col_default := None; col_unique := false; col_indexed := false;
              col_validation_schema := schema; col_validation := inline;
              col_validation_schema_ref := None |}];
        tbl_foreign_keys := [] |}]
    default_CorsConfig.

(** ** The tests *)

(** Source: config/validation/mod.rs [tests::test_validate_stores_native_no_root] *)
Definition test_validate_stores_native_no_root : Prop :=
  let errors := validate_stores iter (list_to_map [("my_native", make_native_store None)]) in
  length errors = 1 ∧ contains_str "root directory must not be empty" (default "" (errors !! 0)).

(** Source: config/validation/mod.rs [tests::test_validate_stores_native_with_root] *)
Definition test_validate_stores_native_with_root : Prop :=
  let errors := validate_stores iter (list_to_map [("my_native", make_native_store (Some "/tmp/assets"))]) in
  errors = [].

(** Source: config/validation/mod.rs [tests::test_validate_stores_native_empty_root] *)
Definition test_validate_stores_native_empty_root : Prop :=
  let errors := validate_stores iter (list_to_map [("my_native", make_native_store (Some ""))]) in
  length errors = 1 ∧ contains_str "root directory must not be empty" (default "" (errors !! 0)).

(** Source: config/validation/mod.rs [tests::test_validate_stores_s3_missing_all_fields] *)
Definition test_validate_stores_s3_missing_all_fields : Prop :=
  let errors := validate_stores iter (list_to_map [("my_s3", make_s3_store None None None None)]) in
  length errors = 4 ∧ any_contains "s3.region" errors ∧ any_contains "s3.bucket" errors ∧
  any_contains "s3.access_key" errors ∧ any_contains "s3.secret_key" errors.

(** Source: config/validation/mod.rs [tests::test_validate_stores_s3_partial_fields] *)
Definition test_validate_stores_s3_partial_fields : Prop :=
  let errors := validate_stores iter (list_to_map
    [("my_s3", make_s3_store (Some "us-east-1") None None None)]) in
  length errors = 3.

(** Source: config/validation/mod.rs [tests::test_validate_stores_s3_complete] *)
Definition test_validate_stores_s3_complete : Prop :=
  let errors := validate_stores iter (list_to_map
    [("my_s3", make_s3_store (Some "us-east-1") (Some "my-bucket") (Some "key") (Some "secret"))]) in
  errors = [].

(** Source: config/validation/mod.rs [tests::test_validate_stores_s3_with_optional_fields] *)
Definition test_validate_stores_s3_with_optional_fields : Prop :=
  let errors := validate_stores iter (list_to_map [("my_s3", {| st_backend := S3; st_root := None;
      st_s3 := Some {| s3_region := "us-east-1"; s3_bucket := "my-bucket";
        s3_access_key := "key"; s3_secret_key := "secret";
        s3_endpoint := Some "http://localhost:9000"; s3_force_path_style := true |};
      st_azure := None; st_gcs := None |})]) in
  errors = [].

(** Source: config/validation/mod.rs [tests::test_validate_stores_azure_missing_all_fields] *)
Definition test_validate_stores_azure_missing_all_fields : Prop :=
  let errors := validate_stores iter (list_to_map [("my_azure", make_azure_store None None None)]) in
  length errors = 3 ∧ any_contains "azure.account_name" errors ∧ any_contains "azure.account_key"
  errors ∧ any_contains "azure.container" errors.

(** Source: config/validation/mod.rs [tests::test_validate_stores_azure_complete] *)
Definition test_validate_stores_azure_complete : Prop :=
  let errors := validate_stores iter (list_to_map
    [("my_azure", make_azure_store (Some "myaccount") (Some "mykey") (Some "mycontainer"))]) in
  errors = [].

(** Source: config/validation/mod.rs [tests::test_validate_stores_gcs_missing_all_fields] *)
Definition test_validate_stores_gcs_missing_all_fields : Prop :=
  let errors := validate_stores iter (list_to_map [("my_gcs", make_gcs_store None None None)]) in
  length errors = 3 ∧ any_contains "gcs.project_id" errors ∧ any_contains "gcs.credentials" errors ∧
  any_contains "gcs.bucket" errors.

(** Source: config/validation/mod.rs [tests::test_validate_stores_gcs_complete] *)
Definition test_validate_stores_gcs_complete : Prop :=
  let errors := validate_stores iter (list_to_map
    [("my_gcs", make_gcs_store (Some "my-project") (Some "credentials.json") (Some "my-bucket"))]) in
  errors = [].

(** Source: config/validation/mod.rs [tests::test_validate_stores_conflicting_backend_configs] *)
Definition test_validate_stores_conflicting_backend_configs : Prop :=
  let errors := validate_stores iter (list_to_map [("conflict", {| st_backend := Native; st_root := Some "/tmp";
      st_s3 := Some {| s3_region := "us-east-1"; s3_bucket := "bucket";
        s3_access_key := "key"; s3_secret_key := "secret";
        s3_endpoint := None; s3_force_path_style := false |}; st_azure := None; st_gcs := None |})]) in
  length errors = 1 ∧ contains_str "conflicting backend config sections" (default "" (errors !! 0)).

(** Source: config/validation/mod.rs [tests::test_validate_stores_memory_with_root_errors] *)
Definition test_validate_stores_memory_with_root_errors : Prop :=
  let errors := validate_stores iter (list_to_map [("mem", {| st_backend := Memory; st_root := Some "/tmp";
      st_s3 := None; st_azure := None; st_gcs := None |})]) in
  length errors = 1 ∧ contains_str "root must not be set for memory backend" (default "" (errors !!
  0)).

(** Source: config/validation/mod.rs [tests::test_validate_stores_memory_without_root_ok] *)
Definition test_validate_stores_memory_without_root_ok : Prop :=
  let errors := validate_stores iter (list_to_map [("mem", {| st_backend := Memory; st_root := None;
      st_s3 := None; st_azure := None; st_gcs := None |})]) in
  errors = [].

(** Source: config/validation/mod.rs [tests::test_validate_stores_multiple_stores] *)
Definition test_validate_stores_multiple_stores : Prop :=
  let errors := validate_stores iter (list_to_map
    [("native1", make_native_store (Some "/tmp/assets1"));
     ("native2", make_native_store (Some "/tmp/assets2"));
     ("s3", make_s3_store (Some "us-west-2") (Some "cdn-bucket") (Some "ak") (Some "sk"))]) in
  errors = [].

(** Source: config/validation/mod.rs [tests::test_validate_stores_mixed_errors] *)
Definition test_validate_stores_mixed_errors : Prop :=
  let errors := validate_stores iter (list_to_map
    [("native_bad", make_native_store None);
     ("s3_bad", make_s3_store None None None None);
     ("native_good", make_native_store (Some "/tmp/good"))]) in
  length errors = 5.

(** Source: config/validation/mod.rs [tests::test_validate_config_staticfiles_missing_store_ref] *)
Definition test_validate_config_staticfiles_missing_store_ref : Prop :=
  rejected ["nonexistent_store"] (with_endpoint []
    (make_endpoint "/static" Get ActStaticFiles None None (Some {|
      sf_storage := "nonexistent_store"; sf_index := sf_index default_StaticFilesConfig;
      sf_directory_listing := sf_directory_listing default_StaticFilesConfig;
      sf_cache_max_age := sf_cache_max_age default_StaticFilesConfig; sf_etag := sf_etag default_StaticFilesConfig;
      sf_range_requests := sf_range_requests default_StaticFilesConfig;
      sf_head_support := sf_head_support default_StaticFilesConfig;
      sf_cache_rules := sf_cache_rules default_StaticFilesConfig; sf_upload := None;
      sf_image_resize := None; sf_streaming := None |}) None None None None)).

(** Source: config/validation/mod.rs [tests::test_validate_config_staticfiles_valid_store_ref] *)
Definition test_validate_config_staticfiles_valid_store_ref : Prop :=
  accepted (with_endpoint [("assets", make_native_store (Some "/tmp/assets"))]
    (make_endpoint "/static" Get ActStaticFiles None None (Some {|
      sf_storage := "assets"; sf_index := sf_index default_StaticFilesConfig;
      sf_directory_listing := sf_directory_listing default_StaticFilesConfig;
      sf_cache_max_age := sf_cache_max_age default_StaticFilesConfig; sf_etag := sf_etag default_StaticFilesConfig;
      sf_range_requests := sf_range_requests default_StaticFilesConfig;
      sf_head_support := sf_head_support default_StaticFilesConfig;
      sf_cache_rules := sf_cache_rules default_StaticFilesConfig; sf_upload := None;
      sf_image_resize := None; sf_streaming := None |}) None None None None)).

(** Source: config/validation/mod.rs [tests::test_validate_config_spa_host_missing_store_ref] *)
Definition test_validate_config_spa_host_missing_store_ref : Prop :=
  rejected ["missing"] (with_endpoint []
    (make_endpoint "/app" Get ActSpaHost None None None (Some {|
      spa_storage := "missing"; spa_index := spa_index default_SpaHostConfig;
      spa_cache_max_age := spa_cache_max_age default_SpaHostConfig; spa_cache_rules := [];
      spa_etag := spa_etag default_SpaHostConfig; spa_head_support := spa_head_support default_SpaHostConfig;
      spa_fallback_status := spa_fallback_status default_SpaHostConfig |}) None None None)).

(** Source: config/validation/mod.rs [tests::test_validate_config_media_missing_refs] *)
Definition test_validate_config_media_missing_refs : Prop :=
  rejected ["nonexistent"] (with_endpoint []
    (make_endpoint "/media" Get ActMedia None None None None (Some {|
      media_storage := "nonexistent"; media_table := "nonexistent_table"; media_database := "nonexistent_db";
      media_columns := []; media_metadata_columns := []; media_upload := None; media_move_config := None;
      media_rename := None; media_delete := None; media_user_scope := None;
      media_content_references := None; media_trash := None; media_sharing := None;
      media_pagination := media_pagination default_MediaConfig; media_sorting := media_sorting default_MediaConfig;
      media_filtering := media_filtering default_MediaConfig; media_facets := [];
      media_image_resize := None |}) None None)).

(** Source: config/validation/mod.rs [tests::test_validate_config_filestore_missing_refs] *)
Definition test_validate_config_filestore_missing_refs : Prop :=
  rejected ["nonexistent"] (with_endpoint []
    (make_endpoint "/files" Get ActFileStore None None None None None (Some {|
      fs_storage := "nonexistent"; fs_table := "nonexistent_table"; fs_database := "nonexistent_db";
      fs_metadata_columns := []; fs_field_permissions := None; fs_ownership := None; fs_trash := None;
      fs_content_references := None; fs_pagination := fs_pagination default_FileStoreConfig;
      fs_sorting := fs_sorting default_FileStoreConfig; fs_filtering := fs_filtering default_FileStoreConfig |}) None)).

(** Source: config/validation/mod.rs [tests::test_validate_jwt_revocation_in_memory] *)
Definition test_validate_jwt_revocation_in_memory : Prop :=
  accepted (with_jwt (test_jwt {| jrc_store := StoreInMemory; jrc_db_table := None;
      jrc_cleanup_interval_secs := Some 3600%Z |})).

(** Source: config/validation/mod.rs [tests::test_validate_jwt_revocation_database_no_table] *)
Definition test_validate_jwt_revocation_database_no_table : Prop :=
  rejected ["db_table must not be empty"]
    (with_jwt (test_jwt {| jrc_store := StoreDatabase; jrc_db_table := None;
      jrc_cleanup_interval_secs := Some 3600%Z |})).

(** Source: config/validation/mod.rs [tests::test_validate_jwt_revocation_database_zero_interval] *)
Definition test_validate_jwt_revocation_database_zero_interval : Prop :=
  rejected ["cleanup_interval_secs must be > 0"]
    (with_jwt (test_jwt {| jrc_store := StoreDatabase; jrc_db_table := Some "token_blacklist";
      jrc_cleanup_interval_secs := Some 0%Z |})).

(** Source: config/validation/mod.rs [tests::test_validate_role_mapping_empty_map] *)
Definition test_validate_role_mapping_empty_map : Prop :=
  rejected ["role_map must not be empty"]
    (with_oauth2 (test_oauth2 {| rm_default_role := "user"; rm_role_claim := "groups";
      rm_role_map := []; rm_match_mode := Exact |})).

(** Source: config/validation/mod.rs [tests::test_validate_role_mapping_empty_default_role] *)
Definition test_validate_role_mapping_empty_default_role : Prop :=
  rejected ["default_role must not be empty"]
    (with_oauth2 (test_oauth2 {| rm_default_role := ""; rm_role_claim := "groups";
      rm_role_map := [("admin-group", "admin")]; rm_match_mode := Exact |})).

(** Source: config/validation/mod.rs [tests::test_validate_register_disabled] *)
Definition test_validate_register_disabled : Prop :=
  accepted (with_register {| reg_enabled := false; reg_table := ""; reg_database := "";
      reg_default_role := ""; reg_password_hash := Argon2id |}).

(** Source: config/validation/mod.rs [tests::test_validate_register_enabled_no_table] *)
Definition test_validate_register_enabled_no_table : Prop :=
  rejected ["auth.register.table must not be empty"]
    (with_register {| reg_enabled := true; reg_table := ""; reg_database := "main";
      reg_default_role := "user"; reg_password_hash := Argon2id |}).

(** Source: config/validation/mod.rs [tests::test_validate_register_enabled_no_database] *)
Definition test_validate_register_enabled_no_database : Prop :=
  rejected ["auth.register.database must not be empty"]
    (with_register {| reg_enabled := true; reg_table := "users"; reg_database := "";
      reg_default_role := "user"; reg_password_hash := Argon2id |}).

(** Source: config/validation/mod.rs [tests::test_validate_register_enabled_no_default_role] *)
Definition test_validate_register_enabled_no_default_role : Prop :=
  rejected ["auth.register.default_role must not be empty"]
    (with_register {| reg_enabled := true; reg_table := "users"; reg_database := "main";
      reg_default_role := ""; reg_password_hash := Argon2id |}).

(** Source: config/validation/mod.rs [tests::test_validate_register_enabled_valid] *)
Definition test_validate_register_enabled_valid : Prop :=
  accepted (with_register {| reg_enabled := true; reg_table := "users"; reg_database := "main";
      reg_default_role := "user"; reg_password_hash := Argon2id |}).

(** Source: config/validation/mod.rs [tests::test_validate_register_enabled_all_errors] *)
Definition test_validate_register_enabled_all_errors : Prop :=
  rejected ["auth.register.table"; "auth.register.database"; "auth.register.default_role"]
    (with_register {| reg_enabled := true; reg_table := ""; reg_database := "";
      reg_default_role := ""; reg_password_hash := Argon2id |}).

(** Source: config/validation/mod.rs [tests::test_validate_tables_non_jsonb_with_validation_rejected] *)
Definition test_validate_tables_non_jsonb_with_validation_rejected : Prop :=
  rejected ["not jsonb or json"; "metadata"]
    (with_column "metadata" Text (Some "./schema.json") None).

(** Source: config/validation/mod.rs [tests::test_validate_tables_non_jsonb_with_inline_validation_rejected] *)
Definition test_validate_tables_non_jsonb_with_inline_validation_rejected : Prop :=
  rejected []
    (with_column "data" Integer None (Some (YMapping []))).

(** Source: config/validation/mod.rs [tests::test_validate_tables_multiple_validation_fields_rejected] *)
Definition test_validate_tables_multiple_validation_fields_rejected : Prop :=
  rejected ["multiple schema validation fields"]
    (with_column "data" Jsonb (Some "./schema.json") (Some (YMapping []))) ∨
  rejected ["at most one"] (with_column "data" Jsonb (Some "./schema.json") (Some (YMapping []))).

(** Source: config/validation/mod.rs [tests::test_validate_tables_jsonb_with_single_validation_valid] *)
Definition test_validate_tables_jsonb_with_single_validation_valid : Prop :=
  accepted (with_column "data" Jsonb None (Some (YMapping []))).

(** Source: config/validation/mod.rs [tests::test_validate_cors_wildcard_with_credentials_rejected] *)
Definition test_validate_cors_wildcard_with_credentials_rejected : Prop :=
  rejected ["allowed_origins contains"; "*"; "allow_credentials is true"]
    (with_cors (cors_of ["*"] true)).

(** Source: config/validation/mod.rs [tests::test_validate_cors_wildcard_without_credentials_ok] *)
Definition test_validate_cors_wildcard_without_credentials_ok : Prop :=
  accepted (with_cors (cors_of ["*"] false)).

(** Source: config/validation/mod.rs [tests::test_validate_cors_credentials_without_wildcard_ok] *)
Definition test_validate_cors_credentials_without_wildcard_ok : Prop :=
  accepted (with_cors (cors_of ["https://example.com"] true)).

(** Source: config/validation/mod.rs [tests::test_validate_cors_per_endpoint_wildcard_with_credentials_rejected] *)
Definition test_validate_cors_per_endpoint_wildcard_with_credentials_rejected : Prop :=
  rejected ["endpoints[0]"; "/api"] (with_endpoint []
    {| ep_path := "/api"; ep_methods := [Get]; ep_action := ActCustomResponse; ep_crud := None;
       ep_proxy := None; ep_static_files := None; ep_spa_host := None; ep_media := None;
       ep_file_store := None;
       ep_custom_response := Some {| cu_status := 200; cu_content_type := "application/json";
                                     cu_body := "{}"; cu_headers := ∅ |};
       ep_auth := "none"; ep_roles := Flat []; ep_cors := Some (cors_of ["*"] true);
       ep_rate_limit := None |}).

(** Source: config/validation/mod.rs [tests::test_validate_cors_empty_origins_ok] *)
Definition test_validate_cors_empty_origins_ok : Prop :=
  accepted (default_AppConfig).

(** ** They pass *)

(** The tests of the stores. *)
Theorem stores_tests_pass :
  test_validate_stores_native_no_root ∧ test_validate_stores_native_with_root ∧
  test_validate_stores_native_empty_root ∧ test_validate_stores_s3_missing_all_fields ∧
  test_validate_stores_s3_partial_fields ∧ test_validate_stores_s3_complete ∧
  test_validate_stores_s3_with_optional_fields ∧ test_validate_stores_azure_missing_all_fields ∧
  test_validate_stores_azure_complete ∧ test_validate_stores_gcs_missing_all_fields ∧
  test_validate_stores_gcs_complete ∧ test_validate_stores_conflicting_backend_configs ∧
  test_validate_stores_memory_with_root_errors ∧ test_validate_stores_memory_without_root_ok ∧
  test_validate_stores_multiple_stores ∧ test_validate_stores_mixed_errors.
Proof. run_test. Qed.

(** The tests of the configuration. *)
Theorem configuration_tests_pass :
  test_validate_config_staticfiles_missing_store_ref ∧
  test_validate_config_staticfiles_valid_store_ref ∧ test_validate_config_spa_host_missing_store_ref
  ∧ test_validate_config_media_missing_refs ∧ test_validate_config_filestore_missing_refs ∧
  test_validate_jwt_revocation_in_memory ∧ test_validate_jwt_revocation_database_no_table ∧
  test_validate_jwt_revocation_database_zero_interval ∧ test_validate_role_mapping_empty_map ∧
  test_validate_role_mapping_empty_default_role ∧ test_validate_register_disabled ∧
  test_validate_register_enabled_no_table ∧ test_validate_register_enabled_no_database ∧
  test_validate_register_enabled_no_default_role ∧ test_validate_register_enabled_valid ∧
  test_validate_register_enabled_all_errors ∧
  test_validate_tables_non_jsonb_with_validation_rejected ∧
  test_validate_tables_non_jsonb_with_inline_validation_rejected ∧
  test_validate_tables_multiple_validation_fields_rejected ∧
  test_validate_tables_jsonb_with_single_validation_valid ∧
  test_validate_cors_wildcard_with_credentials_rejected ∧
  test_validate_cors_wildcard_without_credentials_ok ∧
  test_validate_cors_credentials_without_wildcard_ok ∧
  test_validate_cors_per_endpoint_wildcard_with_credentials_rejected ∧
  test_validate_cors_empty_origins_ok.
Proof. run_test. Qed.

(** * Authentication *)

(** [headers.get(name)] followed by [to_str().ok()]. *)
Definition lookup_header (headers : list (string * option string)) (name : string) : option string :=
  '(_, v) ← find_first (λ h, String.eqb (to_lower h.1) (to_lower name)) headers; v.

(** ** Roles *)

(** A user with a role, and no mail address or token. *)
Definition with_role (role : option string) : AuthInfo :=
  {| ai_subject := "user1"; ai_email := None; ai_role := role; ai_token := None |}.

(** Source: middleware/auth/validate.rs [tests::empty_inheritance] *)
Definition empty_inheritance : gmap string (gset string) := ∅.

(** Source: middleware/auth/validate.rs [tests::test_check_roles_empty_allows_all] *)
Definition test_check_roles_empty_allows_all : Prop :=
  is_ok (check_roles (with_role (Some "user")) [] empty_inheritance).

(** Source: middleware/auth/validate.rs [tests::test_check_roles_allows_matching_role] *)
Definition test_check_roles_allows_matching_role : Prop :=
  is_ok (check_roles (with_role (Some "admin")) ["admin"; "user"] empty_inheritance).

(** Source: middleware/auth/validate.rs [tests::test_check_roles_denies_non_matching_role] *)
Definition test_check_roles_denies_non_matching_role : Prop :=
  is_err (check_roles (with_role (Some "guest")) ["admin"; "user"] empty_inheritance).

(** Source: middleware/auth/validate.rs [tests::test_check_roles_denies_no_role] *)
Definition test_check_roles_denies_no_role : Prop :=
  is_err (check_roles (with_role None) ["admin"] empty_inheritance).

(** Source: middleware/auth/validate.rs [tests::test_check_roles_allows_inherited_role] *)
Definition test_check_roles_allows_inherited_role : Prop :=
  let inheritance := {["admin" := {["editor"; "author"; "user"]}; "editor" := {["author"; "user"]}]} in
  is_ok (check_roles (with_role (Some "admin")) ["editor"] inheritance).

(** Source: middleware/auth/validate.rs [tests::test_check_roles_allows_transitively_inherited_role] *)
Definition test_check_roles_allows_transitively_inherited_role : Prop :=
  let inheritance := {["admin" := {["editor"; "author"]}; "editor" := {["author"]}]} in
  is_ok (check_roles (with_role (Some "admin")) ["author"] inheritance).

(** Source: middleware/auth/validate.rs [tests::test_check_roles_denies_inherited_role_not_in_required] *)
Definition test_check_roles_denies_inherited_role_not_in_required : Prop :=
  is_err (check_roles (with_role (Some "admin")) ["reader"] {["admin" := {["editor"]}]}).

(** Source: middleware/auth/validate.rs [tests::test_check_roles_role_not_in_hierarchy_allowed_direct] *)
Definition test_check_roles_role_not_in_hierarchy_allowed_direct : Prop :=
  is_ok (check_roles (with_role (Some "editor")) ["editor"] ∅).

(** The tests of the check of roles. *)
Theorem role_tests_pass :
  test_check_roles_empty_allows_all ∧ test_check_roles_allows_matching_role ∧
  test_check_roles_denies_non_matching_role ∧ test_check_roles_denies_no_role ∧
  test_check_roles_allows_inherited_role ∧ test_check_roles_allows_transitively_inherited_role ∧
  test_check_roles_denies_inherited_role_not_in_required ∧
  test_check_roles_role_not_in_hierarchy_allowed_direct.
Proof. run_test. Qed.

(** ** API keys *)

(** Source: middleware/auth/validators/api_key.rs [tests::test_config] *)
Definition api_key_config : ApiKeyConfig := {|
  ak_location := LocHeader; ak_name := "X-API-Key";
  ak_keys := [{| ake_key := "valid-key-1"; ake_role := Some "admin" |};
              {| ake_key := "valid-key-2"; ake_role := None |}] |}.

(** Source: middleware/auth/validators/api_key.rs [tests::test_valid_header_key_with_role] *)
Definition test_valid_header_key_with_role : Prop :=
  validate_api_key lookup_header [("x-api-key", Some "valid-key-1")] ∅ api_key_config = Ok (Some "admin").

(** Source: middleware/auth/validators/api_key.rs [tests::test_valid_header_key_without_role] *)
Definition test_valid_header_key_without_role : Prop :=
  validate_api_key lookup_header [("x-api-key", Some "valid-key-2")] ∅ api_key_config = Ok None.

(** Source: middleware/auth/validators/api_key.rs [tests::test_invalid_key] *)
Definition test_invalid_key : Prop :=
  fails_with "Invalid API key"
    (validate_api_key lookup_header [("x-api-key", Some "wrong-key")] ∅ api_key_config).

(** Source: middleware/auth/validators/api_key.rs [tests::test_missing_key] *)
Definition test_missing_key : Prop :=
  fails_with "API key missing" (validate_api_key lookup_header [] ∅ api_key_config).

(** Source: middleware/auth/validators/api_key.rs [tests::test_query_param_key] *)
Definition test_query_param_key : Prop :=
  validate_api_key lookup_header [] {["api_key" := "valid-key-1"]}
    {| ak_location := LocQuery; ak_name := "api_key"; ak_keys := ak_keys api_key_config |} = Ok (Some "admin").

(** The tests of API keys. *)
Theorem api_key_tests_pass :
  test_valid_header_key_with_role ∧ test_valid_header_key_without_role ∧ test_invalid_key ∧
  test_missing_key ∧ test_query_param_key.
Proof. run_test. Qed.

(** ** Basic authentication *)

(** A hash names its password; the texts of the tests are what their base64
    forms decode to. *)
Definition hash_password (password : string) : string := "$argon2id$" +:+ password.
Definition verify_hash (hash password : string) : option password_check :=
  Some (if String.eqb hash (hash_password password) then PasswordOk else PasswordInvalid).
Definition base64_texts : list (string * string) :=
  [("YWRtaW46c2VjcmV0", "admin:secret"); ("dXNlcjpwYXNzd29yZA==", "user:password");
   ("YWRtaW46d3Jvbmc=", "admin:wrong"); ("bm9ib2R5OnBhc3M=", "nobody:pass")].
Definition base64_decode (s : string) : option (option string) := Some <$> assoc s base64_texts.

(** Source: middleware/auth/validators/basic.rs [tests::test_config] *)
Definition basic_config : BasicAuthConfig := {|
  ba_realm := "test";
  ba_users := [{| bu_username := "admin"; bu_password_hash := hash_password "secret"; bu_role := Some "admin" |};
               {| bu_username := "user"; bu_password_hash := hash_password "password"; bu_role := None |}] |}.

(** Source: middleware/auth/validators/basic.rs [tests::test_valid_basic_auth] *)
Definition test_valid_basic_auth : Prop :=
  validate_basic_auth base64_decode verify_hash "Basic YWRtaW46c2VjcmV0" basic_config = Ok (Some "admin").

(** Source: middleware/auth/validators/basic.rs [tests::test_valid_basic_auth_no_role] *)
Definition test_valid_basic_auth_no_role : Prop :=
  validate_basic_auth base64_decode verify_hash "Basic dXNlcjpwYXNzd29yZA==" basic_config = Ok None.

(** Source: middleware/auth/validators/basic.rs [tests::test_wrong_password] *)
Definition test_wrong_password : Prop :=
  is_err (validate_basic_auth base64_decode verify_hash "Basic YWRtaW46d3Jvbmc=" basic_config).

(** Source: middleware/auth/validators/basic.rs [tests::test_unknown_user] *)
Definition test_unknown_user : Prop :=
  is_err (validate_basic_auth base64_decode verify_hash "Basic bm9ib2R5OnBhc3M=" basic_config).

(** Source: middleware/auth/validators/basic.rs [tests::test_missing_basic_prefix] *)
Definition test_missing_basic_prefix : Prop :=
  is_err (validate_basic_auth base64_decode verify_hash "Bearer token123" basic_config).

(** The tests of basic authentication. *)
Theorem basic_tests_pass :
  test_valid_basic_auth ∧ test_valid_basic_auth_no_role ∧ test_wrong_password ∧ test_unknown_user ∧
  test_missing_basic_prefix.
Proof. run_test. Qed.

(** ** OAuth2: cookies and pending states *)

Definition cookie (text : string) : list (string * option string) := [("cookie", Some text)].

(** Source: middleware/auth/validators/oauth2.rs [tests::test_extract_cookie_found] *)
Definition test_extract_cookie_found : Prop :=
  extract_cookie lookup_header (cookie "main_serve_token=abc123; Path=/") "main_serve_token" = Some "abc123".

(** Source: middleware/auth/validators/oauth2.rs [tests::test_extract_cookie_quoted] *)
Definition test_extract_cookie_quoted : Prop :=
  extract_cookie lookup_header (cookie ("main_serve_token=" +:+ SelectSpec.quoted "quoted_value" +:+ "; Path=/"))
    "main_serve_token" = Some "quoted_value".

(** Source: middleware/auth/validators/oauth2.rs [tests::test_extract_cookie_not_found] *)
Definition test_extract_cookie_not_found : Prop := extract_cookie lookup_header [] "nonexistent" = None.

(** Source: middleware/auth/validators/oauth2.rs [tests::test_extract_cookie_no_cookie_header] *)
Definition test_extract_cookie_no_cookie_header : Prop :=
  extract_cookie lookup_header [("other", Some "value")] "main_serve_token" = None.

(** Source: middleware/auth/validators/oauth2.rs [tests::test_extract_cookie_invalid_utf8] *)
Definition test_extract_cookie_invalid_utf8 : Prop :=
  extract_cookie lookup_header [("cookie", None)] "main_serve_token" = None.

(** Source: middleware/auth/validators/oauth2.rs [tests::test_extract_cookie_multiple_cookies] *)
Definition test_extract_cookie_multiple_cookies : Prop :=
  extract_cookie lookup_header (cookie "other=a; main_serve_token=mytoken; path=b") "main_serve_token"
  = Some "mytoken".

(** Source: middleware/auth/validators/oauth2.rs [tests::test_extract_cookie_empty_name] *)
Definition test_extract_cookie_empty_name : Prop :=
  extract_cookie lookup_header (cookie "=value") "" = Some "value".

(** An instant of the tests, in nanoseconds, and a number of minutes. *)
Definition test_now : Z := 1000000 * nanos.
Definition minutes (n : Z) : Z := n * 60 * nanos.

(** Source: middleware/auth/validators/oauth2.rs [tests::test_cleanup_expired_removes_old] *)
Definition test_cleanup_expired_removes_old : Prop :=
  let pending := cleanup_expired test_now (minutes 5) (list_to_map
    [("old", {| po_code_verifier := "old"; po_created_at := test_now - minutes 10 |});
     ("recent", {| po_code_verifier := "recent"; po_created_at := test_now |})]) in
  po_code_verifier <$> pending !! "old" = None ∧ po_code_verifier <$> pending !! "recent" = Some "recent".

(** Source: middleware/auth/validators/oauth2.rs [tests::test_cleanup_expired_empty_map] *)
Definition test_cleanup_expired_empty_map : Prop := size (cleanup_expired test_now (minutes 5) ∅) = 0.

(** Source: middleware/auth/validators/oauth2.rs [tests::test_cleanup_expired_all_recent] *)
Definition test_cleanup_expired_all_recent : Prop :=
  size (cleanup_expired test_now (minutes 5) (list_to_map
    [("a", {| po_code_verifier := "v1"; po_created_at := test_now |});
     ("b", {| po_code_verifier := "v2"; po_created_at := test_now |})])) = 2.

(** The tests of cookies and pending states. *)
Theorem oauth2_tests_pass :
  test_extract_cookie_found ∧ test_extract_cookie_quoted ∧ test_extract_cookie_not_found ∧
  test_extract_cookie_no_cookie_header ∧ test_extract_cookie_invalid_utf8 ∧
  test_extract_cookie_multiple_cookies ∧ test_extract_cookie_empty_name ∧
  test_cleanup_expired_removes_old ∧ test_cleanup_expired_empty_map ∧ test_cleanup_expired_all_recent.
Proof. run_test. Qed.

(** ** OAuth2: roles *)

(** Source: middleware/auth/validators/oauth2.rs [tests::test_extract_role_values_from_array] *)
Definition test_extract_role_values_from_array : Prop :=
  extract_role_values (VArray [VString "admin-group"; VString "editor-group"; VString "viewer-group"])
  = ["admin-group"; "editor-group"; "viewer-group"].

(** Source: middleware/auth/validators/oauth2.rs [tests::test_extract_role_values_from_single_string] *)
Definition test_extract_role_values_from_single_string : Prop :=
  extract_role_values (VString "admin-group") = ["admin-group"].

(** Source: middleware/auth/validators/oauth2.rs [tests::test_extract_role_values_from_null] *)
Definition test_extract_role_values_from_null : Prop := extract_role_values VNull = [].

(** Source: middleware/auth/validators/oauth2.rs [tests::test_extract_role_values_from_number] *)
Definition test_extract_role_values_from_number : Prop := extract_role_values (json_int 42) = [].

(** Source: middleware/auth/validators/oauth2.rs [tests::test_extract_role_values_from_empty_array] *)
Definition test_extract_role_values_from_empty_array : Prop := extract_role_values (VArray []) = [].

(** Source: middleware/auth/validators/oauth2.rs [tests::test_extract_role_values_from_mixed_array] *)
Definition test_extract_role_values_from_mixed_array : Prop :=
  extract_role_values (VArray [VString "admin"; json_int 42; VString "editor"; VNull]) = ["admin"; "editor"].

(** A mapping of the tests. They repeat the search of [fetch_userinfo]; here
    it is that search, whose result includes the default role. *)
Definition mapped_role (mode : RoleMatchMode) (role_map : list (string * string)) (userinfo : value)
  : option string :=
  userinfo_role (Some {| rm_default_role := "user"; rm_role_claim := "groups"; rm_role_map := role_map;
                         rm_match_mode := mode |}) userinfo.

(** Source: middleware/auth/validators/oauth2.rs [tests::test_exact_match_role_mapping] *)
Definition test_exact_match_role_mapping : Prop :=
  mapped_role Exact [("admin-group", "admin"); ("editor-group", "editor"); ("viewer-group", "user")]
    (VObject [("sub", VString "user123"); ("groups", VString "admin-group")]) = Some "admin".

(** Source: middleware/auth/validators/oauth2.rs [tests::test_contains_match_role_mapping] *)
Definition test_contains_match_role_mapping : Prop :=
  mapped_role Contains [("admin", "admin"); ("editor", "editor")]
    (VObject [("groups", VArray [VString "super-admin-privileges"])]) = Some "admin".

(** Source: middleware/auth/validators/oauth2.rs [tests::test_role_mapping_falls_back_to_default] *)
Definition test_role_mapping_falls_back_to_default : Prop :=
  mapped_role Exact [("admin-group", "admin")]
    (VObject [("groups", VArray [VString "unknown-group"])]) = Some "user".

(** Source: middleware/auth/validators/oauth2.rs [tests::test_role_mapping_empty_idp_roles_uses_default] *)
Definition test_role_mapping_empty_idp_roles_uses_default : Prop :=
  mapped_role Exact [("admin-group", "admin")] (VObject [("sub", VString "user123")]) = Some "user".

(** Source: middleware/auth/validators/oauth2.rs [tests::test_role_mapping_array_roles_exact_match] *)
Definition test_role_mapping_array_roles_exact_match : Prop :=
  mapped_role Exact [("admin-group", "admin"); ("editor-group", "editor")]
    (VObject [("sub", VString "user123");
              ("groups", VArray [VString "editor-group"; VString "viewer-group"])]) = Some "editor".

(** The tests of the roles a provider reports. *)
Theorem role_mapping_tests_pass :
  test_extract_role_values_from_array ∧ test_extract_role_values_from_single_string ∧
  test_extract_role_values_from_null ∧ test_extract_role_values_from_number ∧
  test_extract_role_values_from_empty_array ∧ test_extract_role_values_from_mixed_array ∧
  test_exact_match_role_mapping ∧ test_contains_match_role_mapping ∧
  test_role_mapping_falls_back_to_default ∧ test_role_mapping_empty_idp_roles_uses_default ∧
  test_role_mapping_array_roles_exact_match.
Proof. run_test. Qed.

(** ** Revoked tokens *)

Definition empty_store : InMemoryRevocationStore := {| revoked := ∅ |}.
Definition in_one_hour : Z := test_now + minutes 60.

(** Source: server/state.rs [tests::test_revocation_store_is_not_revoked_initially] *)
Definition test_revocation_store_is_not_revoked_initially : Prop := is_revoked "jti-1" empty_store = false.

(** Source: server/state.rs [tests::test_revocation_store_revoke_and_check] *)
Definition test_revocation_store_revoke_and_check : Prop :=
  let store := revoke "jti-1" in_one_hour empty_store in
  is_revoked "jti-1" store ∧ is_revoked "jti-2" store = false.

(** Source: server/state.rs [tests::test_revocation_store_cleanup_removes_expired] *)
Definition test_revocation_store_cleanup_removes_expired : Prop :=
  let store := revoke "valid-jti" in_one_hour (revoke "expired-jti" (test_now - minutes 1) empty_store) in
  is_revoked "expired-jti" store ∧ is_revoked "valid-jti" store ∧
  is_revoked "expired-jti" (cleanup test_now store) = false ∧ is_revoked "valid-jti" (cleanup test_now store).

(** Source: server/state.rs [tests::test_revocation_store_cleanup_empty] *)
Definition test_revocation_store_cleanup_empty : Prop :=
  is_revoked "anything" (cleanup test_now empty_store) = false.

(** Source: server/state.rs [tests::test_revocation_store_multiple_entries] *)
Definition test_revocation_store_multiple_entries : Prop :=
  let jtis := map (λ i, "jti-" +:+ show_nat i) (seq 0 100) in
  let store := foldl (λ store jti, revoke jti in_one_hour store) empty_store jtis in
  forallb (λ jti, is_revoked jti store) jtis = true ∧ is_revoked "nonexistent" store = false.

(** Source: server/state.rs [tests::test_revocation_store_cleanup_all_expired] *)
Definition test_revocation_store_cleanup_all_expired : Prop :=
  let expired := (test_now - nanos)%Z in
  let store := cleanup test_now (revoke "jti-2" expired (revoke "jti-1" expired empty_store)) in
  is_revoked "jti-1" store = false ∧ is_revoked "jti-2" store = false.

(** The tests of the in-memory revocation store. *)
Theorem revocation_tests_pass :
  test_revocation_store_is_not_revoked_initially ∧ test_revocation_store_revoke_and_check ∧
  test_revocation_store_cleanup_removes_expired ∧ test_revocation_store_cleanup_empty ∧
  test_revocation_store_multiple_entries ∧ test_revocation_store_cleanup_all_expired.
Proof. run_test. Qed.

(** ** Rate limiting *)

(** Source: middleware/rate_limit.rs [tests::test_config] *)
Definition rate_config (max_requests : Z) : RateLimitConfig := {|
  rl_enabled := true; rl_max_requests := max_requests; rl_window_seconds := 60; rl_key_strategy := KeyIp;
  rl_key_header := ""; rl_cleanup_threshold := 10000 |}.

(** Whether each of the requests, all at one instant, is let through. *)
Definition allowed (config : RateLimitConfig)
    (requests : list (list (string * option string) * option SocketAddr)) : list bool :=
  (foldl (λ '(limiter, answers) '(headers, addr),
     let '(limiter, answer) := check_rate_limit lookup_header config headers addr test_now limiter in
     (limiter, answers ++ [match answer with Returns (Ok _) => true | _ => false end]))
   (RateLimiter_new, []) requests).2.

Definition localhost : option SocketAddr := Some {| sa_ip := IpV4 127 0 0 1; sa_port := 1234 |}.

(** Source: middleware/rate_limit.rs [tests::test_rate_limit_allows_under_limit] *)
Definition test_rate_limit_allows_under_limit : Prop :=
  allowed (rate_config 5) (repeat ([], localhost) 6) = [true; true; true; true; true; false].

(** Source: middleware/rate_limit.rs [tests::test_rate_limit_blocks_over_limit] *)
Definition test_rate_limit_blocks_over_limit : Prop :=
  allowed (rate_config 3) (repeat ([], localhost) 4) = [true; true; true; false].

(** Source: middleware/rate_limit.rs [tests::test_rate_limit_different_keys] *)
Definition test_rate_limit_different_keys : Prop :=
  let addr1 := Some {| sa_ip := IpV4 10 0 0 1; sa_port := 1234 |} in
  let addr2 := Some {| sa_ip := IpV4 10 0 0 2; sa_port := 1234 |} in
  allowed (rate_config 1) [([], addr1); ([], addr1); ([], addr2)] = [true; false; true].

(** Source: middleware/rate_limit.rs [tests::test_rate_limit_disabled] *)
Definition test_rate_limit_disabled : Prop :=
  allowed {| rl_enabled := false; rl_max_requests := 0; rl_window_seconds := 60; rl_key_strategy := KeyIp;
             rl_key_header := ""; rl_cleanup_threshold := 10000 |} [([], localhost)] = [true].

(** Source: middleware/rate_limit.rs [tests::test_rate_limit_header_key] *)
Definition test_rate_limit_header_key : Prop :=
  let headers := [("x-client-id", Some "client-a")] in
  allowed {| rl_enabled := true; rl_max_requests := 1; rl_window_seconds := 60; rl_key_strategy := KeyHeader;
             rl_key_header := "X-Client-Id"; rl_cleanup_threshold := 10000 |}
    [(headers, None); (headers, None)] = [true; false].

(** The tests of the rate limiter. *)
Theorem rate_limit_tests_pass :
  test_rate_limit_allows_under_limit ∧ test_rate_limit_blocks_over_limit ∧ test_rate_limit_different_keys ∧
  test_rate_limit_disabled ∧ test_rate_limit_header_key.
Proof. run_test. Qed.

(** ** JSON web tokens *)

(** Source: middleware/auth/validators/jwt.rs [tests::test_config] *)
Definition jwt_test_config : JwtConfig := {|
  jwt_secret := "test-secret-key-that-is-long-enough"; jwt_algorithm := HS256; jwt_issuer := "test-issuer";
  jwt_audience := "test-audience"; jwt_expiry := 3600; jwt_role_claim := "role"; jwt_revocation := None |}.

(** The configuration with another secret, issuer, audience or role claim. *)
Definition jwt_variant (secret issuer audience role_claim : string) : JwtConfig := {|
  jwt_secret := secret; jwt_algorithm := HS256; jwt_issuer := issuer; jwt_audience := audience;
  jwt_expiry := 3600; jwt_role_claim := role_claim; jwt_revocation := None |}.

(** Seconds since the epoch. *)
Definition jwt_now : Z := 1700000000.

(** A token with the secret it was signed with and its claims. *)
Definition issued_token : Type := string * (string * value).

Definition is_in (allowed : list string) (claim : option string) : bool :=
  match allowed with
  | [] => true
  | _ => match claim with Some c => existsb (String.eqb c) allowed | None => false end
  end.

(** [jsonwebtoken::decode] over the tokens that were issued. *)
Definition library (issued : list issued_token) (secret : string) (v : Validation) (token : string)
  : result string value :=
  match assoc token issued with
  | None => Err "InvalidToken"
  | Some (signed_with, claims) =>
      if negb (String.eqb signed_with secret) then Err "InvalidSignature" else
      if v_validate_exp v && negb (jwt_now <? default 0%Z (get "exp" claims ≫= as_i64))%Z
      then Err "ExpiredSignature" else
      if negb (is_in (v_issuer v) (str_claim "iss" claims)) then Err "InvalidIssuer" else
      if negb (is_in (v_audience v) (str_claim "aud" claims)) then Err "InvalidAudience" else
      Ok claims
  end.

(** The claims [create_token] hands to the library, under the name of the
    token that comes back. *)
Definition created (token sub : string) (role : option string) (config : JwtConfig) (jti : option string)
  : issued_token :=
  (token, (jwt_secret config, VObject (token_claims jwt_now sub role config jti None))).

(** Claims a test signs itself. *)
Definition signed (token : string) (claims : list (string * value)) : issued_token :=
  (token, (jwt_secret jwt_test_config, VObject claims)).

Definition validated (issued : list issued_token) (token : string) (config : JwtConfig)
    (store : option InMemoryRevocationStore) : result AppError Claims :=
  validate_token (library issued) token config store.

(** The field of the claims of an accepted token. *)
Definition claim {X} (field : Claims → X) (r : result AppError Claims) : option X := field <$> ok r.

(** The claims common to the tests that sign their own. *)
Definition common_claims (iat exp : Z) : list (string * value) :=
  [("iat", json_int iat); ("exp", json_int exp); ("iss", VString "test-issuer");
   ("aud", VString "test-audience")].

(** Source: middleware/auth/validators/jwt.rs [tests::test_create_and_validate_token] *)
Definition test_create_and_validate_token : Prop :=
  let r := validated [created "t" "user1" (Some "admin") jwt_test_config None] "t" jwt_test_config None in
  claim cl_sub r = Some "user1" ∧ claim cl_role r = Some (Some "admin").

(** Source: middleware/auth/validators/jwt.rs [tests::test_validate_invalid_token] *)
Definition test_validate_invalid_token : Prop :=
  fails_with "Invalid JWT" (validated [] "invalid.token.here" jwt_test_config None).

(** Source: middleware/auth/validators/jwt.rs [tests::test_validate_wrong_secret] *)
Definition test_validate_wrong_secret : Prop :=
  fails_with "Invalid JWT" (validated [created "t" "user1" None jwt_test_config None] "t"
    (jwt_variant "wrong-secret-key-that-is-different" "test-issuer" "test-audience" "role") None).

(** Source: middleware/auth/validators/jwt.rs [tests::test_extract_bearer_token] *)
Definition test_extract_bearer_token : Prop :=
  extract_bearer_token "Bearer abc123" = Some "abc123" ∧ extract_bearer_token "Basic abc123" = None ∧
  extract_bearer_token "abc123" = None.

(** Source: middleware/auth/validators/jwt.rs [tests::test_token_without_role] *)
Definition test_token_without_role : Prop :=
  let r := validated [created "t" "user1" None jwt_test_config None] "t" jwt_test_config None in
  claim cl_sub r = Some "user1" ∧ claim cl_role r = Some None.

(** Source: middleware/auth/validators/jwt.rs [tests::test_validate_token_missing_sub] *)
Definition test_validate_token_missing_sub : Prop :=
  fails_with "sub' claim is missing"
    (validated [signed "t" (common_claims jwt_now (jwt_now + 3600) ++ [("role", VString "user")])] "t"
       jwt_test_config None).

(** Source: middleware/auth/validators/jwt.rs [tests::test_validate_token_empty_sub] *)
Definition test_validate_token_empty_sub : Prop :=
  fails_with "sub' claim is empty"
    (validated [signed "t" (("sub", VString "") :: common_claims jwt_now (jwt_now + 3600) ++
                            [("role", VString "user")])] "t" jwt_test_config None).

(** Source: middleware/auth/validators/jwt.rs [tests::test_validate_expired_token] *)
Definition test_validate_expired_token : Prop :=
  fails_with "Invalid JWT"
    (validated [signed "t" (("sub", VString "user1") :: common_claims (jwt_now - 7200) (jwt_now - 3600))] "t"
       jwt_test_config None).

(** Source: middleware/auth/validators/jwt.rs [tests::test_validate_wrong_issuer] *)
Definition test_validate_wrong_issuer : Prop :=
  fails_with "Invalid JWT" (validated [created "t" "user1" None jwt_test_config None] "t"
    (jwt_variant (jwt_secret jwt_test_config) "different-issuer" "test-audience" "role") None).

(** Source: middleware/auth/validators/jwt.rs [tests::test_validate_wrong_audience] *)
Definition test_validate_wrong_audience : Prop :=
  fails_with "Invalid JWT" (validated [created "t" "user1" None jwt_test_config None] "t"
    (jwt_variant (jwt_secret jwt_test_config) "test-issuer" "different-audience" "role") None).

(** Source: middleware/auth/validators/jwt.rs [tests::test_create_token_with_jti] *)
Definition test_create_token_with_jti : Prop :=
  let r := validated [created "t" "user1" (Some "admin") jwt_test_config (Some "test-jti-12345")] "t"
             jwt_test_config None in
  claim cl_sub r = Some "user1" ∧ claim cl_jti r = Some (Some "test-jti-12345").

(** Source: middleware/auth/validators/jwt.rs [tests::test_create_token_without_jti] *)
Definition test_create_token_without_jti : Prop :=
  let r := validated [created "t" "user1" (Some "admin") jwt_test_config None] "t" jwt_test_config None in
  claim cl_sub r = Some "user1" ∧ claim cl_jti r = Some None.

(** Source: middleware/auth/validators/jwt.rs [tests::test_token_with_jti_accepted_when_not_revoked] *)
Definition test_token_with_jti_accepted_when_not_revoked : Prop :=
  let r := validated [created "t" "user1" (Some "admin") jwt_test_config (Some "jti-to-test-not-revoked")] "t"
             jwt_test_config (Some empty_store) in
  claim cl_jti r = Some (Some "jti-to-test-not-revoked").

(** Source: middleware/auth/validators/jwt.rs [tests::test_token_with_jti_rejected_when_revoked] *)
Definition test_token_with_jti_rejected_when_revoked : Prop :=
  fails_with "revoked"
    (validated [created "t" "user1" (Some "admin") jwt_test_config (Some "jti-to-test-revoked")] "t"
       jwt_test_config (Some (revoke "jti-to-test-revoked" in_one_hour empty_store))).

(** Source: middleware/auth/validators/jwt.rs [tests::test_token_without_jti_accepted_even_with_revocation_enabled] *)
Definition test_token_without_jti_accepted_even_with_revocation_enabled : Prop :=
  let r := validated [created "t" "user1" (Some "user") jwt_test_config None] "t" jwt_test_config
             (Some empty_store) in
  claim cl_sub r = Some "user1" ∧ claim cl_jti r = Some None.

(** Source: middleware/auth/validators/jwt.rs [tests::test_revocation_does_not_affect_tokens_without_jti] *)
Definition test_revocation_does_not_affect_tokens_without_jti : Prop :=
  claim cl_sub (validated [created "t" "user1" (Some "user") jwt_test_config None] "t" jwt_test_config
                  (Some (revoke "nonexistent-jti" in_one_hour empty_store))) = Some "user1".

(** Source: middleware/auth/validators/jwt.rs [tests::test_multiple_jtis_independent_revocation] *)
Definition test_multiple_jtis_independent_revocation : Prop :=
  let issued := [created "t1" "user1" None jwt_test_config (Some "jti-first");
                 created "t2" "user2" None jwt_test_config (Some "jti-second")] in
  let store := revoke "jti-first" in_one_hour empty_store in
  fails_with "revoked" (validated issued "t1" jwt_test_config (Some store)) ∧
  claim cl_jti (validated issued "t2" jwt_test_config (Some store)) = Some (Some "jti-second").

(** Source: middleware/auth/validators/jwt.rs [tests::test_custom_role_claim_with_jti] *)
Definition test_custom_role_claim_with_jti : Prop :=
  let config := jwt_variant (jwt_secret jwt_test_config) "test-issuer" "test-audience" "custom_role" in
  let r := validated [created "t" "user1" (Some "editor") config (Some "jti-custom-role")] "t" config
             (Some empty_store) in
  claim cl_sub r = Some "user1" ∧ claim cl_role r = Some (Some "editor") ∧
  claim cl_jti r = Some (Some "jti-custom-role").

(** The tests of tokens, but for the one that builds a token without a
    signature by hand. *)
Theorem jwt_tests_pass :
  test_create_and_validate_token ∧ test_validate_invalid_token ∧ test_validate_wrong_secret ∧
  test_extract_bearer_token ∧ test_token_without_role ∧ test_validate_token_missing_sub ∧
  test_validate_token_empty_sub ∧ test_validate_expired_token ∧ test_validate_wrong_issuer ∧
  test_validate_wrong_audience ∧ test_create_token_with_jti ∧ test_create_token_without_jti ∧
  test_token_with_jti_accepted_when_not_revoked ∧ test_token_with_jti_rejected_when_revoked ∧
  test_token_without_jti_accepted_even_with_revocation_enabled ∧
  test_revocation_does_not_affect_tokens_without_jti ∧ test_multiple_jtis_independent_revocation ∧
  test_custom_role_claim_with_jti.
Proof. run_test. Qed.

(** * The rest *)

(** A text with double quotes for its single ones. *)
Definition dq (s : string) : string := replace "'" (String (ascii_of_N 34) "") s.

(** A column with a default and a unique constraint. *)
Definition full_column (name : string) (t : ColumnType) (pk nullable unique : bool) (default : option string)
  : ColumnConfig := {|
  col_name := name; col_type := t; col_primary_key := pk; col_nullable := nullable; col_default := default;
  col_unique := unique; col_indexed := false; col_validation_schema := None; col_validation := None;
  col_validation_schema_ref := None |}.

Definition table_with (name : string) (columns : list ColumnConfig) : TableConfig := {|
  tbl_name := name; tbl_database := "main"; tbl_columns := columns; tbl_foreign_keys := [] |}.

(** ** Migrations *)

(** Source: db/migration.rs [tests::test_generate_create_table_sqlite] *)
Definition test_generate_create_table_sqlite : Prop :=
  let sql := generate_create_table (table_with "posts"
    [column "id" Integer true false; column "title" Text false false;
     full_column "count" Integer false true false (Some "0")]) Sqlite in
  contains_str (dq "CREATE TABLE IF NOT EXISTS 'posts'") sql ∧
  contains_str (dq "'id' INTEGER PRIMARY KEY AUTOINCREMENT NOT NULL") sql ∧
  contains_str (dq "'title' TEXT NOT NULL") sql ∧
  contains_str (dq "'count' INTEGER DEFAULT 0") sql ∧
  contains_str "PRIMARY KEY" sql.

(** Source: db/migration.rs [tests::test_generate_create_table_postgres] *)
Definition test_generate_create_table_postgres : Prop :=
  let sql := generate_create_table (table_with "users"
    [column "id" Serial true false; full_column "email" Varchar false false true None]) Postgres in
  contains_str (dq "'id' SERIAL NOT NULL") sql ∧
  contains_str (dq "'email' VARCHAR(255) NOT NULL UNIQUE") sql.

(** Source: db/migration.rs [tests::test_column_type_mapping] *)
Definition test_column_type_mapping : Prop :=
  column_type_to_sql Timestamptz Postgres = "TIMESTAMPTZ" ∧
  column_type_to_sql Timestamptz Sqlite = "TEXT" ∧
  column_type_to_sql Boolean Sqlite = "INTEGER" ∧
  column_type_to_sql Jsonb Postgres = "JSONB".

(** Source: db/migration.rs [tests::test_generate_add_column_nullable] *)
Definition test_generate_add_column_nullable : Prop :=
  generate_add_column "users" (column "bio" Text false true) Sqlite
  = dq "ALTER TABLE 'users' ADD COLUMN 'bio' TEXT".

(** Source: db/migration.rs [tests::test_generate_add_column_not_null_with_default] *)
Definition test_generate_add_column_not_null_with_default : Prop :=
  generate_add_column "users" (full_column "status" Varchar false false false (Some "'active'")) Postgres
  = dq "ALTER TABLE 'users' ADD COLUMN 'status' VARCHAR(255) NOT NULL DEFAULT " +:+ "'active'".

(** Source: db/migration.rs [tests::test_generate_add_column_unique_postgres] *)
Definition test_generate_add_column_unique_postgres : Prop :=
  contains_str "UNIQUE"
    (generate_add_column "items" (full_column "code" Varchar false false true (Some "''")) Postgres).

(** Source: db/migration.rs [tests::test_generate_add_column_unique_skipped_on_sqlite] *)
Definition test_generate_add_column_unique_skipped_on_sqlite : Prop :=
  contains_str "UNIQUE" (generate_add_column "items" (full_column "code" Text false true true None) Sqlite)
  = false.

(** Source: db/migration.rs [tests::test_generate_drop_column] *)
Definition test_generate_drop_column : Prop :=
  generate_drop_column "users" "bio" Sqlite = dq "ALTER TABLE 'users' DROP COLUMN 'bio'".

(** Source: db/migration.rs [tests::test_generate_drop_column_postgres] *)
Definition test_generate_drop_column_postgres : Prop :=
  generate_drop_column "users" "bio" Postgres = dq "ALTER TABLE 'users' DROP COLUMN 'bio'".

(** Source: db/migration.rs [tests::test_generate_create_table_mysql_uses_backticks] *)
Definition test_generate_create_table_mysql_uses_backticks : Prop :=
  let sql := generate_create_table (table_with "users" [column "id" Serial true false]) Mysql in
  contains_str "CREATE TABLE IF NOT EXISTS `users`" sql ∧
  contains_str "`id` INTEGER AUTO_INCREMENT NOT NULL" sql.

(** Source: db/migration.rs [tests::test_generate_create_index_mysql_omits_if_not_exists] *)
Definition test_generate_create_index_mysql_omits_if_not_exists : Prop :=
  generate_create_index "users" "email" Mysql = "CREATE INDEX `idx_users_email` ON `users` (`email`)".

(** The tests of the migrations. *)
Theorem migration_tests_pass :
  test_generate_create_table_sqlite ∧ test_generate_create_table_postgres ∧ test_column_type_mapping ∧
  test_generate_add_column_nullable ∧ test_generate_add_column_not_null_with_default ∧
  test_generate_add_column_unique_postgres ∧ test_generate_add_column_unique_skipped_on_sqlite ∧
  test_generate_drop_column ∧ test_generate_drop_column_postgres ∧
  test_generate_create_table_mysql_uses_backticks ∧ test_generate_create_index_mysql_omits_if_not_exists.
Proof. run_test. Qed.

(** ** Environment variables *)

(** The variables that are set. *)
Definition environment (vars : list (string * string)) (name : string) : option string := assoc name vars.

(** Source: config/loader.rs [tests::test_interpolate_with_set_var] *)
Definition test_interpolate_with_set_var : Prop :=
  interpolate_env_vars (environment [("TEST_INTERP_VAR", "hello")]) "value: ${TEST_INTERP_VAR}"
  = Ok "value: hello".

(** Source: config/loader.rs [tests::test_interpolate_with_default] *)
Definition test_interpolate_with_default : Prop :=
  interpolate_env_vars (environment []) "value: ${TEST_MISSING_VAR:-fallback}" = Ok "value: fallback".

(** Source: config/loader.rs [tests::test_interpolate_missing_no_default] *)
Definition test_interpolate_missing_no_default : Prop :=
  fails_with "TEST_REQUIRED_VAR_MISSING"
    (interpolate_env_vars (environment []) "value: ${TEST_REQUIRED_VAR_MISSING}").

(** Source: config/loader.rs [tests::test_interpolate_multiple] *)
Definition test_interpolate_multiple : Prop :=
  interpolate_env_vars (environment [("TEST_A", "aaa"); ("TEST_B", "bbb")]) "a: ${TEST_A}, b: ${TEST_B}"
  = Ok "a: aaa, b: bbb".

(** Source: config/loader.rs [tests::test_interpolate_no_vars] *)
Definition test_interpolate_no_vars : Prop :=
  interpolate_env_vars (environment []) "just: plain text" = Ok "just: plain text".

(** The tests of the interpolation of a configuration. *)
Theorem loader_tests_pass :
  test_interpolate_with_set_var ∧ test_interpolate_with_default ∧ test_interpolate_missing_no_default ∧
  test_interpolate_multiple ∧ test_interpolate_no_vars.
Proof. run_test. Qed.

(** ** The types of a configuration *)

(** Source: config/types/database.rs [tests::test_column_type_display] *)
Definition test_column_type_display : Prop :=
  show_ColumnType Jsonb = "jsonb" ∧ show_ColumnType Json = "json" ∧ show_ColumnType Text = "text" ∧
  show_ColumnType Varchar = "varchar".

(** Source: config/types/endpoints/mod.rs [tests::test_clone_for_method_flat_all_methods] *)
Definition test_clone_for_method_flat_all_methods : Prop :=
  map (clone_for_method (Flat ["admin"; "user"])) [Get; Post; Put; Patch; Delete; Head; Options]
  = repeat ["admin"; "user"] 7.

(** Source: config/types/endpoints/mod.rs [tests::test_clone_for_method_specific_returns_method_roles] *)
Definition test_clone_for_method_specific_returns_method_roles : Prop :=
  let config := MethodSpecific {|
    ms_get := Some ["admin"]; ms_post := Some ["editor"; "admin"]; ms_put := None; ms_patch := None;
    ms_delete := Some ["admin"]; ms_head := None; ms_options := Some [] |} in
  clone_for_method config Get = ["admin"] ∧ clone_for_method config Post = ["editor"; "admin"] ∧
  clone_for_method config Put = [] ∧ clone_for_method config Patch = [] ∧
  clone_for_method config Delete = ["admin"] ∧ clone_for_method config Head = [] ∧
  clone_for_method config Options = [].

(** Source: config/types/endpoints/mod.rs [tests::test_clone_for_method_flat_empty_allows_all] *)
Definition test_clone_for_method_flat_empty_allows_all : Prop :=
  clone_for_method (Flat []) Get = [] ∧ clone_for_method (Flat []) Post = [].

(** Source: config/types/endpoints/mod.rs [tests::test_default_roles_config_is_empty_flat] *)
Definition test_default_roles_config_is_empty_flat : Prop := default_RolesConfig = Flat [].

(** Source: config/types/endpoints/mod.rs [tests::test_default_method_specific_has_all_none] *)
Definition test_default_method_specific_has_all_none : Prop :=
  let ms := default_MethodSpecificRoles in
  ms_get ms = None ∧ ms_post ms = None ∧ ms_put ms = None ∧ ms_patch ms = None ∧ ms_delete ms = None ∧
  ms_head ms = None ∧ ms_options ms = None.

(** The tests of the types. *)
Theorem types_tests_pass :
  test_column_type_display ∧ test_clone_for_method_flat_all_methods ∧
  test_clone_for_method_specific_returns_method_roles ∧ test_clone_for_method_flat_empty_allows_all ∧
  test_default_roles_config_is_empty_flat ∧ test_default_method_specific_has_all_none.
Proof. run_test. Qed.

(** ** Layers *)

(** [AppConfig::default()] with a limit.
    Source: middleware/body_limit.rs:80-95 [make_state] *)
Definition make_state (max_body_size : Z) : AppConfig := {|
  cfg_server := {| srv_host := srv_host default_ServerConfig; srv_port := srv_port default_ServerConfig;
    srv_workers := srv_workers default_ServerConfig; srv_max_body_size := max_body_size;
    srv_keep_alive := srv_keep_alive default_ServerConfig;
    srv_shutdown_timeout := srv_shutdown_timeout default_ServerConfig; srv_tls := None |};
  cfg_logging := default_LoggingConfig; cfg_cors := default_CorsConfig;
  cfg_rate_limit := default_RateLimitConfig; cfg_databases := ∅; cfg_tables := [];
  cfg_auth := default_AuthConfig; cfg_endpoints := []; cfg_stores := ∅; cfg_role_hierarchy := None;
  cfg_global_schemas := None |}.

(** The status of the answer to a body of zeros behind the layer.
    Source: middleware/body_limit.rs:97-128 [test_middleware] *)
Definition test_middleware (max_body_size : Z) (body : nat) (content_length : option Z) : option Z :=
  let handler : service sample_headers (option bytes) () :=
    λ _ w, (w, Some {| an_status := 200; an_headers := []; an_body := from_bytes [x6f; x6b] |}) in
  let headers := match content_length with Some n => [("content-length", show_Z n)] | None => [] end in
  let req := sample_incoming {| req_method := "GET"; req_path := "/test"; req_query := None;
                                req_headers := headers |} (Some (repeat x00 body)) in
  an_status <$> (body_limit_middleware no_headers (λ _, true) (λ _, []) (make_state max_body_size) handler
                   req ()).2.

(** [status.is_success()]. *)
Definition is_success (status : option Z) : bool :=
  match status with Some s => (200 <=? s)%Z && (s <? 300)%Z | None => false end.

(** Source: middleware/body_limit.rs [tests::test_body_limit_within_content_length] *)
Definition test_body_limit_within_content_length : Prop := is_success (test_middleware 1024 100 (Some 100%Z)).

(** Source: middleware/body_limit.rs [tests::test_body_limit_exceeds_content_length] *)
Definition test_body_limit_exceeds_content_length : Prop :=
  is_success (test_middleware 100 200 (Some 200%Z)) = false.

(** Source: middleware/body_limit.rs [tests::test_body_limit_no_content_length_within] *)
Definition test_body_limit_no_content_length_within : Prop := is_success (test_middleware 1024 50 None).

(** Source: middleware/body_limit.rs [tests::test_body_limit_no_content_length_exceeds] *)
Definition test_body_limit_no_content_length_exceeds : Prop :=
  is_success (test_middleware 50 200 None) = false.

(** Source: middleware/body_limit.rs [tests::test_body_limit_exact_boundary] *)
Definition test_body_limit_exact_boundary : Prop := is_success (test_middleware 100 100 (Some 100%Z)).

(** The tests of the limit on bodies. *)
Theorem body_limit_tests_pass :
  test_body_limit_within_content_length ∧ test_body_limit_exceeds_content_length ∧
  test_body_limit_no_content_length_within ∧ test_body_limit_no_content_length_exceeds ∧
  test_body_limit_exact_boundary.
Proof. run_test. Qed.

(** Source: middleware/cors.rs [tests::make_cors_config] *)
Definition make_cors_config : CorsConfig := {|
  cors_allowed_origins := ["https://example.com"]; cors_allowed_methods := ["GET"; "POST"];
  cors_allowed_headers := ["Content-Type"]; cors_allow_credentials := false; cors_max_age := 3600 |}.

(** Source: middleware/cors.rs [tests::make_wildcard_cors_config] *)
Definition make_wildcard_cors_config : CorsConfig := {|
  cors_allowed_origins := ["*"]; cors_allowed_methods := ["GET"; "POST"; "PUT"];
  cors_allowed_headers := ["*"]; cors_allow_credentials := false; cors_max_age := 7200 |}.

(** Source: middleware/cors.rs [tests::make_creds_cors_config] *)
Definition make_creds_cors_config : CorsConfig := {|
  cors_allowed_origins := ["https://example.com"]; cors_allowed_methods := ["GET"];
  cors_allowed_headers := ["Authorization"]; cors_allow_credentials := true; cors_max_age := 600 |}.

Definition any_origin (origins : list string) : bool := existsb (String.eqb "*") origins.

(** The layer of a configuration, every name being well formed. *)
Definition layer_of (config : CorsConfig) : CorsLayer := build_cors_layer Some Some Some config.

(** The source only builds the layers; their fields are compared here.
    Source: middleware/cors.rs [tests::test_build_cors_layer_specific_origins] *)
Definition test_build_cors_layer_specific_origins : Prop :=
  any_origin (cors_allowed_origins make_cors_config) = false ∧
  cl_origin (layer_of make_cors_config) = OriginList ["https://example.com"].

(** Source: middleware/cors.rs [tests::test_build_cors_layer_wildcard_origin] *)
Definition test_build_cors_layer_wildcard_origin : Prop :=
  cors_allow_credentials make_wildcard_cors_config = false ∧
  cl_origin (layer_of make_wildcard_cors_config) = AnyOrigin.

(** Source: middleware/cors.rs [tests::test_build_cors_layer_credentials] *)
Definition test_build_cors_layer_credentials : Prop :=
  cors_allow_credentials make_creds_cors_config ∧
  any_origin (cors_allowed_origins make_creds_cors_config) = false ∧
  cl_credentials (layer_of make_creds_cors_config) = true.

(** The tests of the CORS layers. *)
Theorem cors_tests_pass :
  test_build_cors_layer_specific_origins ∧ test_build_cors_layer_wildcard_origin ∧
  test_build_cors_layer_credentials.
Proof. run_test. Qed.

(** ** Schemas *)

Fixpoint yaml_value (y : yaml) : value :=
  match y with
  | YNull => VNull
  | YBool b => VBool b
  | YNumber s | YString s => VString s
  | YSequence l => VArray (map yaml_value l)
  | YMapping l => VObject (map (λ '(k, v), (match k with YString s => s | _ => "" end, yaml_value v)) l)
  | YTagged _ v => yaml_value v
  end.

Definition type_names : list string :=
  ["null"; "boolean"; "object"; "array"; "number"; "string"; "integer"].

(** What the tests need of the JSON Schema library: a schema whose type has
    no such name is refused, ... *)
Definition compile (schema : value) : result string value :=
  match str_claim "type" schema with
  | Some t => if existsb (String.eqb t) type_names then Ok schema else Err "unknown type"
  | None => Ok schema
  end.

(** ... and the keywords [type] and [required] of a schema of objects. *)
Definition violations (schema v : value) : list (string * string) :=
  match str_claim "type" schema, v with
  | Some "object", VObject fields =>
      match get "required" schema with
      | Some (VArray names) =>
          flat_map (λ name, match assoc name fields with
                            | Some _ => []
                            | None => [("", "required property " +:+ name +:+ " is missing")]
                            end) (omap as_str names)
      | _ => []
      end
  | Some "object", _ => [("", "the value is not of type object")]
  | _, _ => []
  end.

(** A directory with the files it holds. *)
Definition registry_of (files : list (string * value)) (config : AppConfig)
  : result AppError (SchemaRegistry value) :=
  new_SchemaRegistry compile (λ p, if bool_decide (is_Some (assoc p files)) then Ok p else Err "No such file")
    (λ p, Ok p) (λ p, ok_or "No such file" (assoc p files)) (λ y, Ok (yaml_value y)) iter config "/tmp/test.yaml".

(** Source: config/schema_registry.rs [tests::make_config_with_table_and_schema] *)
Definition make_config_with_table_and_schema (schemas : list (string * yaml))
    (columns : list (string * ColumnType * option string * option yaml * option string)) : AppConfig := {|
  cfg_server := default_ServerConfig; cfg_logging := default_LoggingConfig; cfg_cors := default_CorsConfig;
  cfg_rate_limit := default_RateLimitConfig;
  cfg_databases := {["main" := {| dbc_driver := Sqlite; dbc_url := "sqlite://:memory:";
    dbc_min_connections := 1; dbc_max_connections := 10; dbc_auto_migrate := false;
    dbc_allow_destructive := false; dbc_acquire_timeout := 5 |}]};
  cfg_tables := [table_with "test_table"
    (map (λ '(name, t, schema, validation, ref), {|
       col_name := name; col_type := t; col_primary_key := false; col_nullable := true; col_default := None;
       col_unique := false; col_indexed := false; col_validation_schema := schema;
       col_validation := validation; col_validation_schema_ref := ref |}) columns)];
  cfg_auth := default_AuthConfig; cfg_endpoints := []; cfg_stores := ∅; cfg_role_hierarchy := None;
  cfg_global_schemas := match schemas with [] => None | _ => Some (list_to_map schemas) end |}.

(** A schema of objects with required fields, all of them texts. *)
Definition object_schema (required : list string) : yaml :=
  YMapping [(YString "type", YString "object");
            (YString "required", YSequence (map YString required));
            (YString "properties", YMapping (map (λ n,
               (YString n, YMapping [(YString "type", YString "string")])) required))].
Definition plain_object : yaml := YMapping [(YString "type", YString "object")].

(** Source: config/schema_registry.rs [tests::test_create_registry_no_global_schemas] *)
Definition test_create_registry_no_global_schemas : Prop :=
  is_ok (registry_of [] (make_config_with_table_and_schema [] [])).

(** Source: config/schema_registry.rs [tests::test_create_registry_with_valid_global_schema] *)
Definition test_create_registry_with_valid_global_schema : Prop :=
  is_ok (registry_of [] (make_config_with_table_and_schema [("test_schema", object_schema ["name"])] [])).

(** Source: config/schema_registry.rs [tests::test_create_registry_with_invalid_global_schema] *)
Definition test_create_registry_with_invalid_global_schema : Prop :=
  fails_with "Invalid global schema" (registry_of [] (make_config_with_table_and_schema
    [("bad_schema", YMapping [(YString "type", YString "invalid_non_existent_type_xyz")])] [])).

(** Source: config/schema_registry.rs:339-365 [test_create_registry_with_external_file] *)
Definition test_create_registry_with_external_file : Prop :=
  is_ok (registry_of [("/tmp/schema.json", yaml_value (object_schema []))]
    (make_config_with_table_and_schema [] [("data", Jsonb, Some "schema.json", None, None)])).

(** Source: config/schema_registry.rs [tests::test_create_registry_with_external_file_missing] *)
Definition test_create_registry_with_external_file_missing : Prop :=
  fails_with "Failed to resolve" (registry_of []
    (make_config_with_table_and_schema [] [("data", Jsonb, Some "no_such_file.json", None, None)])).

(** Source: config/schema_registry.rs [tests::test_get_table_schema_names] *)
Definition test_get_table_schema_names : Prop :=
  match registry_of [] (make_config_with_table_and_schema []
    [("data", Jsonb, None, Some plain_object, None);
     ("metadata", Jsonb, None, Some (object_schema ["key"]), None);
     ("name", Text, None, None, None)]) with
  | Ok registry =>
      match get_table_schema registry "test_table" with
      | Some schemas =>
          size schemas = 2 ∧ bool_decide (is_Some (schemas !! "data")) ∧
          bool_decide (is_Some (schemas !! "metadata"))
      | None => False
      end
  | Err _ => False
  end.

(** The texts of the violations of an inline schema. *)
Definition violations_of (schema : yaml) (data : value) : string :=
  join ", " (validate_json_with_schema violations data
    {| js_compiled := yaml_value schema; js_source := Inline |}).

(** Source: config/schema_registry.rs [tests::test_validate_json_with_schema_valid] *)
Definition test_validate_json_with_schema_valid : Prop :=
  violations_of (object_schema ["name"]) (VObject [("name", VString "Alice"); ("age", json_int 30)]) = "".

(** Source: config/schema_registry.rs [tests::test_validate_json_with_schema_invalid_type] *)
Definition test_validate_json_with_schema_invalid_type : Prop :=
  contains_str "type" (violations_of (object_schema ["name"]) (VString "not an object")).

(** Source: config/schema_registry.rs [tests::test_validate_json_with_schema_missing_required] *)
Definition test_validate_json_with_schema_missing_required : Prop :=
  contains_str "email" (violations_of (object_schema ["name"; "email"]) (VObject [("name", VString "Alice")])).

(** The tests of the registry of schemas. *)
Theorem schema_registry_tests_pass :
  test_create_registry_no_global_schemas ∧ test_create_registry_with_valid_global_schema ∧
  test_create_registry_with_invalid_global_schema ∧ test_create_registry_with_external_file ∧
  test_create_registry_with_external_file_missing ∧ test_get_table_schema_names ∧
  test_validate_json_with_schema_valid ∧ test_validate_json_with_schema_invalid_type ∧
  test_validate_json_with_schema_missing_required.
Proof. run_test. Qed.

(** ** Bodies of rows *)

(** [validate_jsonb_body] with the registry of a configuration. *)
Definition validated_body (config : AppConfig) (body : value) : result AppError unit :=
  registry ← registry_of [] config;
  validate_jsonb_body violations map_to_list body "test_table" registry.

(** Source: db/query/helpers/json_validation.rs [tests::make_registry_with_inline_schema] *)
Definition with_inline_schema (schema : yaml) : AppConfig :=
  make_config_with_table_and_schema [("test_schema", schema)] [].

(** Source: db/query/helpers/json_validation.rs [tests::make_registry_with_column_schema] *)
Definition with_column_schema (column_name : string) (schema : yaml) : AppConfig :=
  make_config_with_table_and_schema [] [(column_name, Jsonb, None, Some schema, None)].

(** Source: db/query/helpers/json_validation.rs [tests::test_validate_jsonb_column_valid_data] *)
Definition test_validate_jsonb_column_valid_data : Prop :=
  is_ok (validated_body (with_column_schema "data" (object_schema ["name"; "role"]))
    (VObject [("data", VObject [("name", VString "Alice"); ("role", VString "admin")])])).

(** Source: db/query/helpers/json_validation.rs [tests::test_validate_jsonb_column_missing_required_field] *)
Definition test_validate_jsonb_column_missing_required_field : Prop :=
  fails_with "email" (validated_body (with_column_schema "metadata" (object_schema ["name"; "email"]))
    (VObject [("metadata", VObject [("name", VString "Bob")]); ("other_field", VString "ignored")])).

(** Source: db/query/helpers/json_validation.rs [tests::test_validate_jsonb_column_wrong_type] *)
Definition test_validate_jsonb_column_wrong_type : Prop :=
  fails_with "type" (validated_body (with_column_schema "content" (object_schema ["title"]))
    (VObject [("content", VString "not an object")])).

(** Source: db/query/helpers/json_validation.rs [tests::test_validate_jsonb_column_no_schema_skips_validation] *)
Definition test_validate_jsonb_column_no_schema_skips_validation : Prop :=
  is_ok (validated_body (with_inline_schema plain_object) (VObject [("anything", VString "goes")])).

(** Source: db/query/helpers/json_validation.rs [tests::test_validate_jsonb_body_skips_non_jsonb_keys] *)
Definition test_validate_jsonb_body_skips_non_jsonb_keys : Prop :=
  is_ok (validated_body (with_column_schema "settings" (object_schema ["name"]))
    (VObject [("name", VString "top-level field not a jsonb column")])).

(** Source: db/query/helpers/json_validation.rs [tests::test_validate_jsonb_body_multiple_columns_multiple_errors] *)
Definition test_validate_jsonb_body_multiple_columns_multiple_errors : Prop :=
  match validated_body (make_config_with_table_and_schema []
      [("col_a", Jsonb, None, Some (object_schema ["x"]), None);
       ("col_b", Jsonb, None, Some (object_schema ["y"]), None)])
    (VObject [("col_a", VObject []); ("col_b", VObject [])]) with
  | Err (JsonValidationError message details) =>
      existsb (contains_str "col_a") (message :: details) = true ∧
      existsb (contains_str "col_b") (message :: details) = true ∧ length details = 1
  | _ => False
  end.

(** The tests of the validation of rows that need no further keyword. *)
Theorem json_validation_tests_pass :
  test_validate_jsonb_column_valid_data ∧ test_validate_jsonb_column_missing_required_field ∧
  test_validate_jsonb_column_wrong_type ∧ test_validate_jsonb_column_no_schema_skips_validation ∧
  test_validate_jsonb_body_skips_non_jsonb_keys ∧ test_validate_jsonb_body_multiple_columns_multiple_errors.
Proof. run_test. Qed.

(** * Reading a configuration

    The texts of the tests are given as the values they are parsed to. *)

Definition texts (l : list string) : yaml := YSequence (map YString l).
Definition keyed (l : list (string * yaml)) : yaml := YMapping (map (λ kv, (YString kv.1, kv.2)) l).

(** The struct [Wrapper] of the tests, without and with a default. *)
Definition read_wrapper : reader RolesConfig := derive_struct (required "roles").
Definition read_default_wrapper : reader RolesConfig := derive_struct (defaulted "roles" default_RolesConfig).

(** Source: config/types/endpoints/mod.rs [tests::test_deserialize_flat_roles] *)
Definition test_deserialize_flat_roles : Prop :=
  read_wrapper yaml_format (keyed [("roles", texts ["admin"; "editor"])]) = Ok (Flat ["admin"; "editor"]).

(** Source: config/types/endpoints/mod.rs [tests::test_deserialize_method_specific_roles] *)
Definition test_deserialize_method_specific_roles : Prop :=
  read_wrapper yaml_format (keyed [("roles", keyed
    [("get", texts ["admin"; "editor"]); ("post", texts ["admin"]); ("put", texts ["admin"]);
     ("patch", texts ["admin"]); ("delete", texts ["admin"]); ("head", texts ["admin"; "editor"]);
     ("options", texts [])])])
  = Ok (MethodSpecific {| ms_get := Some ["admin"; "editor"]; ms_post := Some ["admin"]; ms_put := Some ["admin"];
          ms_patch := Some ["admin"]; ms_delete := Some ["admin"]; ms_head := Some ["admin"; "editor"];
          ms_options := Some [] |}).

(** Source: config/types/endpoints/mod.rs [tests::test_deserialize_partial_method_specific_roles] *)
Definition test_deserialize_partial_method_specific_roles : Prop :=
  read_wrapper yaml_format (keyed [("roles", keyed
    [("get", texts ["admin"]); ("delete", texts ["admin"; "editor"])])])
  = Ok (MethodSpecific {| ms_get := Some ["admin"]; ms_post := None; ms_put := None; ms_patch := None;
          ms_delete := Some ["admin"; "editor"]; ms_head := None; ms_options := None |}).

(** Source: config/types/endpoints/mod.rs [tests::test_deserialize_empty_roles] *)
Definition test_deserialize_empty_roles : Prop :=
  read_wrapper yaml_format (keyed [("roles", texts [])]) = Ok (Flat []).

(** An empty text is null.
    Source: config/types/endpoints/mod.rs [tests::test_deserialize_default_roles] *)
Definition test_deserialize_default_roles : Prop := read_default_wrapper yaml_format YNull = Ok (Flat []).

(** The endpoint of the other tests, which is read as a whole here. *)
Definition endpoint_value (methods : list string) (roles : yaml) : yaml :=
  keyed [("path", YString "/api/test"); ("methods", texts methods); ("action", YString "crud");
         ("auth", YString "jwt"); ("roles", roles)].
Definition read_endpoint (methods : list string) (roles : yaml) : result string EndpointConfig :=
  read_EndpointConfig yaml_format (endpoint_value methods roles).

(** Source: config/types/endpoints/mod.rs [tests::test_endpoint_config_flat_roles_roundtrip] *)
Definition test_endpoint_config_flat_roles_roundtrip : Prop :=
  match read_endpoint ["get"; "post"] (texts ["admin"; "editor"]) with
  | Ok ep => ep_roles ep = Flat ["admin"; "editor"] ∧ ep_auth ep = "jwt" ∧ length (ep_methods ep) = 2
  | Err _ => False
  end.

(** Source: config/types/endpoints/mod.rs [tests::test_endpoint_config_method_specific_roles_roundtrip] *)
Definition test_endpoint_config_method_specific_roles_roundtrip : Prop :=
  match read_endpoint ["get"; "post"; "delete"]
          (keyed [("get", texts ["admin"; "editor"]); ("post", texts ["admin"]); ("delete", texts ["admin"])]) with
  | Ok ep =>
      match ep_roles ep with
      | MethodSpecific ms =>
          ms_get ms = Some ["admin"; "editor"] ∧ ms_post ms = Some ["admin"] ∧ ms_delete ms = Some ["admin"] ∧
          ms_patch ms = None
      | Flat _ => False
      end
  | Err _ => False
  end.

(** What a column is after it was written and read again. *)
Definition column_again (c : ColumnConfig) : result string ColumnConfig :=
  read_ColumnConfig yaml_format (write_ColumnConfig c).

Definition json_column (name : string) (t : ColumnType) (schema : option string) (inline : option yaml)
    (schema_ref : option string) : ColumnConfig := {|
  col_name := name; col_type := t; col_primary_key := false; col_nullable := true; col_default := None;
  col_unique := false; col_indexed := false; col_validation_schema := schema; col_validation := inline;
  col_validation_schema_ref := schema_ref |}.

(** Source: config/types/database.rs [tests::test_column_config_serialization_with_validation_schema] *)
Definition test_column_config_serialization_with_validation_schema : Prop :=
  match column_again (json_column "metadata" Jsonb (Some "./schemas/meta.json") None None) with
  | Ok c => col_name c = "metadata" ∧ col_validation_schema c = Some "./schemas/meta.json" ∧
            col_validation c = None ∧ col_validation_schema_ref c = None
  | Err _ => False
  end.

(** Source: config/types/database.rs [tests::test_column_config_serialization_with_inline_validation] *)
Definition test_column_config_serialization_with_inline_validation : Prop :=
  match column_again (json_column "data" Jsonb None (Some (keyed [("type", YString "object")])) None) with
  | Ok c => col_name c = "data" ∧ is_Some (col_validation c) ∧ col_validation_schema c = None ∧
            col_validation_schema_ref c = None
  | Err _ => False
  end.

(** Source: config/types/database.rs [tests::test_column_config_serialization_with_global_ref] *)
Definition test_column_config_serialization_with_global_ref : Prop :=
  match column_again (json_column "content" Json None None (Some "global_schemas.blog_post")) with
  | Ok c => col_name c = "content" ∧ col_type c = Json ∧
            col_validation_schema_ref c = Some "global_schemas.blog_post" ∧ col_validation_schema c = None ∧
            col_validation c = None
  | Err _ => False
  end.

(** Source: config/types/database.rs [tests::test_column_config_deserializes_no_validation] *)
Definition test_column_config_deserializes_no_validation : Prop :=
  match read_ColumnConfig yaml_format
          (keyed [("name", YString "email"); ("type", YString "varchar"); ("nullable", YBool false)]) with
  | Ok c => col_name c = "email" ∧ col_type c = Varchar ∧ col_nullable c = false ∧
            col_validation_schema c = None ∧ col_validation c = None ∧ col_validation_schema_ref c = None
  | Err _ => False
  end.

Theorem deserialization_tests_pass :
  test_deserialize_flat_roles ∧ test_deserialize_method_specific_roles ∧
  test_deserialize_partial_method_specific_roles ∧ test_deserialize_empty_roles ∧
  test_deserialize_default_roles ∧ test_endpoint_config_flat_roles_roundtrip ∧
  test_endpoint_config_method_specific_roles_roundtrip ∧
  test_column_config_serialization_with_validation_schema ∧
  test_column_config_serialization_with_inline_validation ∧
  test_column_config_serialization_with_global_ref ∧ test_column_config_deserializes_no_validation.
Proof. repeat split; vm_compute; try reflexivity; by eexists. Qed.

(** * Certificates

    A file is its text; an empty one holds neither certificate nor key. *)

Definition tls_acceptor_of (files : string → result string string) (tls_config : TlsConfig) : result AppError string :=
  build_tls_acceptor files (λ text, Ok (if is_empty text then [] else [text]))
    (λ text, Ok (if is_empty text then None else Some text)) (Ok ()) (λ _ key, Ok key) tls_config.

Definition with_message (part : string) (r : result AppError string) : Prop :=
  match r with Err e => contains_str part (show_AppError e) = true | Ok _ => False end.

(** Source: server/tls.rs:88-102 [test_missing_cert_file] *)
Definition test_missing_cert_file : Prop :=
  with_message "cert file" (tls_acceptor_of (λ _, Err "No such file or directory (os error 2)")
    {| tls_cert := "/nonexistent/cert.pem"; tls_key := "/nonexistent/key.pem" |}).

(** Source: server/tls.rs:104-124 [test_empty_cert_file] *)
Definition test_empty_cert_file : Prop :=
  with_message "no valid certificates" (tls_acceptor_of (λ _, Ok "")
    {| tls_cert := "/tmp/cert.pem"; tls_key := "/tmp/key.pem" |}).

Theorem tls_tests_pass : test_missing_cert_file ∧ test_empty_cert_file.
Proof. split; vm_compute; reflexivity. Qed.
